(* ===== verification/_CoqProject ===== *)
-Q . S2P
Prelude.v
CString.v
Pmm.v
Mmu.v
MmuInv.v
Cow.v
Clone.v
CloneSpec.v
Kheap.v
KheapInv.v
KheapAlloc.v
KheapGrow.v
KheapSpec.v
KheapDemo.v
Bytes.v
Elf.v
ElfInv.v
ElfSpec.v
ElfEnd.v
Kernel.v
Pipe.v
Path.v
Vfs.v
FdInv.v
Near.v
OpenInv.v
Sleep.v
Sched.v
Task.v
TaskInv.v
Signal.v
SignalInv.v
Reap.v
Block.v
Display.v
DisplayInv.v
Console.v
Ktrace.v
Boot.v
Acpi.v
Initrd.v
Ide.v
Pci.v
Cpu.v
Spinlock.v
Smp.v
Keyboard.v
KeyboardInv.v
Exec.v
ExecInv.v
Uabi.v
SigFrame.v
Syscall.v
SyscallInv.v
Usb.v
UsbInv.v
Fat.v
FatVfs.v
UsbMsc.v
UsbMscInv.v
FatInv.v
BlockInv.v
FatChain.v
FatWrite.v
FatDir.v
FatFiles.v
FatSpec.v
FatDemo.v
Ulib.v
Shell.v
ShellInv.v
ShellCmd.v
ShellRun.v
ShellHist.v
Programs.v
ProgramsInv.v
Lappy.v
LappyInv.v
