(* ===== verification/Prelude.v ===== *)
(** * Verification of the Curls operating system

    Curls is a small operating system for x86-64, written in C: a kernel with paging,
    a heap, preemptive tasks on several CPUs, pipes, signals, a virtual file system
    with FAT32 on IDE and USB drives and an initial RAM disk, drivers for screen,
    keyboard and serial line, and user programs with a shell and a text editor.  This
    library is a shallow embedding of that code: its functions are Gallina functions
    on explicit states, and the theorems are about those functions.  Paths below are
    relative to src/; [kernel/] stands in front of [core/], [cpu/], [arch/],
    [modules/], [fs/], [proc/] and [ktrace/].

    ** How C is modelled

    - An integer is a [Z]; each store into a w-bit object is wrapped by [u8], [u16],
      [u32], [u64], [s8], [s32] or [s64] of this file.
    - A computation is [kM S A], a function from a state to an [outcome]: [Ret] a
      value and a state, [Hang] (the processor halts or spins for ever, the process
      exits), [Panic], [Fault] (an access outside an object, to a freed one or to an
      unmapped byte) or [NoFuel].  A theorem that an operation works says that the
      outcome is [Ret], so it also says that there is no fault and that the loops end.
    - [NoFuel] marks a loop whose bound is not in the code.  Where a function takes
      [fuel], its theorem gives a sufficient amount (the number of tasks, of clusters,
      of bytes, of keys) or, for the loaders, shows that one exists for every input.
    - An array is the list of its elements, a string an array with a NUL in it;
      [zlookup] and [zset] fail outside.  An uninitialised array is [junk], arbitrary.
    - Objects that C shares by pointer live in stores indexed by address ([Kernel]),
      so that aliasing, reference counts and use after free are visible.
    - Hardware, and code that is not in the repository, is a parameter with its
      documented behaviour as a class: [Disk] and [SectorHw] (sectors), [AtaDrive]
      (ports of an IDE drive), [UsbBus] and [Storage] (host controllers, a USB stick),
      the answers of the kernel to a user process.  Each class has a concrete instance
      that the witnesses use.
    - A critical section is one step.  That this is right for one lock is the subject
      of [Spinlock]; [Pipe] and [Smp] model the interleavings themselves.

    ** Files, sources and results

    Generic: [Prelude] (monad, integers, lists, tactics), [Bytes] (little-endian
    fields), [Console] (what a computation prints).  [CString]: libc/string.c and
    libc/mem.c.

    Memory.  [Pmm]: the frame allocator of cpu/paging.c.  [Mmu], [MmuInv]: page
    tables, arch/x86_64/mmu/mmu.c; mapping changes one translation ([map_page_ok]).
    [Cow], [Clone], [CloneSpec]: copying an address space and the write fault; after a
    fork neither process sees the writes of the other ([fork_isolated]).  [Kheap],
    [KheapInv], [KheapAlloc], [KheapGrow], [KheapSpec], [KheapDemo]: libc/kheap.c; for
    its clients the heap is a set of separate arrays ([heap_client_refines]).

    Several CPUs.  [Spinlock]: include/spinlock.h, mutual exclusion and progress in
    every interleaving.  [Smp]: the TLB shootdown of arch/x86_64/smp/smp.c; stale
    translations are gone when it returns ([shootdown_coherent]), it completes when
    the others take interrupts, and two at once block each other until the timeout
    ([crossing_shootdowns_block]).

    Tasks.  [Kernel]: the shared objects.  [Sched]: task switch of core/task.c and
    modules/sched_rr; it completes, and every ready task runs ([task_switch_ok],
    [round_robin_fairness]).  [Task], [TaskInv]: task creation and fork ([fork_ok]).
    [Sleep]: the sleep queue and the timer ([sleep_lasts]).  [Signal], [SignalInv],
    [Reap]: kill, exit, wait, reaping ([reap_ok], [wait_ok]).  [Elf], [ElfInv],
    [ElfSpec], [ElfEnd]: fs/elf; what a program finds in memory, and that loading ends
    on every file.  [Exec], [ExecInv]: proc/exec.c, the stack of a new program.
    [Uabi], [SigFrame]: core/uabi_helpers.c and signal frames ([signal_roundtrip]).
    [Syscall], [SyscallInv]: core/syscall_dispatch.c and core/abi_validate.h; bad
    arguments are refused without effect ([bad_call_refused]).

    Files.  [Pipe]: core/pipe.c, a bounded byte queue without lost wake-ups.  [Path],
    [Vfs]: core/vfs_core.c; path names; descriptors.  [FdInv], [Near], [OpenInv]: every
    reference count is right, nothing is used after it is freed ([close_safe],
    [open_safe]).  [Block], [BlockInv]: core/block_dev.c, core/kabi_bridge.c and
    modules/partition/mbr.c.  [Fat], [FatVfs], [FatInv], [FatChain], [FatWrite],
    [FatDir], [FatFiles], [FatSpec], [FatDemo]: fs/fat32; files are arrays of bytes
    ([fat_read_ok], [fat_write_ok], [fat_unlink_ok]) on any [Disk], and a partition of
    a drive is one.  [Initrd]: modules/fs_initrd with its packer.

    Devices.  [Display], [DisplayInv]: modules/drivers/screen.c, fb.c and uart.c; the
    pixels show an abstract terminal.  [Keyboard], [KeyboardInv]: keyboard.c; typed
    lines.  [Ide]: ide.c, an array of sectors.  [Usb], [UsbInv], [UsbMsc], [UsbMscInv]:
    modules/usb/usb_core.c and usb_mass_storage.c; descriptors are read back, a stick
    is an array of sectors ([usb_drive_ok]).  [Boot]: core/boot_multiboot2_64.c.
    [Acpi]: arch/x86_64/acpi/acpi.c.  [Ktrace]: ktrace/ktrace.c, a crash seen after the
    reboot.

    User programs.  [Ulib]: user/lib/ulib.c.  [Shell], [ShellInv], [ShellCmd],
    [ShellRun], [ShellHist]: user/sh/sh.c; line editor, expansion, history, and from a
    typed line to the program with its arguments ([command_runs_program]).
    [Programs], [ProgramsInv]: the programs of user/ ([cp_copies]).  [Lappy],
    [LappyInv]: user/lappy/lappy.c, a session of the editor refines a document
    ([lappy_session]).

    Lemmas whose names end in [_loops], [_faults], [_wraps], [_overflow] and the like
    show inputs on which the code does not do what it means to.

    ** Bounds

    The frame bitmap has as many frames as the code tracks; paths are cut at 512
    bytes, lines at 256; the console has 25 rows of 80 characters; the shell keeps the
    limits of its arrays.  These are the code's numbers.  Theorems about tables of
    tasks, frames, clusters, CPUs and events hold for any number of them.

    ** Not modelled

    - The USB host controllers (modules/usb/ehci.c, uhci.c), the local and I/O APIC,
      PCI, segment and interrupt descriptor tables, and the assembly: their meaning is
      the behaviour of hardware of which the repository has no description.  They
      appear as the parameters named above.
    - Starting the other CPUs (smp_start_aps, ap_entry, the trampoline).
    - Reordering of memory accesses: [Spinlock] and [Smp] are sequentially consistent,
      as the locked instructions and the fence in the code make them.
    - core/kernel.c and core/core_init.c, which call the parts in order; the rescue
      shell and the system monitor of the kernel, which print; the self tests; the
      32-bit variants of code that the 64-bit build does not use.
    - Output that only appears in debug mode. *)

From stdpp Require Import base numbers list gmap strings.
From Stdlib Require Import ZArith Lia.

#[local] Open Scope Z_scope.

(** ** Machine integers

    A C integer is a [Z]; an operation that stores into a w-bit object writes
    the wrap-around out with one of the functions below. *)

Definition u8 (x : Z) : Z := x mod 256.
Definition u16 (x : Z) : Z := x mod 65536.
Definition u32 (x : Z) : Z := x mod 4294967296.
Definition u64 (x : Z) : Z := x mod 18446744073709551616.

(** Conversion to a signed 32-bit [int] and a signed 64-bit [int64_t]
    (two's complement, as gcc does on x86). *)
Definition s32 (x : Z) : Z := (x + 2147483648) mod 4294967296 - 2147483648.
Definition s64 (x : Z) : Z :=
  (x + 9223372036854775808) mod 18446744073709551616 - 9223372036854775808.
Definition s8 (x : Z) : Z := (x + 128) mod 256 - 128.

(** [flags & mask] used as a C condition. *)
Definition has (x mask : Z) : bool := negb (Z.land x mask =? 0).

#[global] Arguments Z.eqb : simpl never.
#[global] Arguments Z.ltb : simpl never.
#[global] Arguments Z.leb : simpl never.
#[global] Arguments Z.add : simpl never.
#[global] Arguments Z.sub : simpl never.
#[global] Arguments Z.mul : simpl never.
#[global] Arguments Z.of_nat : simpl never.
#[global] Arguments Z.to_nat : simpl never.
#[global] Arguments Z.land : simpl never.
#[global] Arguments Z.lor : simpl never.
#[global] Arguments u8 : simpl never.
#[global] Arguments u16 : simpl never.
#[global] Arguments u32 : simpl never.
#[global] Arguments u64 : simpl never.
#[global] Arguments s8 : simpl never.
#[global] Arguments s32 : simpl never.
#[global] Arguments s64 : simpl never.

Create HintDb cint discriminated.
Create Rewrite HintDb cint.

Lemma u8_range x : 0 ≤ u8 x < 256.
Proof. apply Z.mod_pos_bound; lia. Qed.
Lemma u32_range x : 0 ≤ u32 x < 4294967296.
Proof. apply Z.mod_pos_bound; lia. Qed.
Lemma u64_range x : 0 ≤ u64 x < 18446744073709551616.
Proof. apply Z.mod_pos_bound; lia. Qed.
Lemma u8_small x : 0 ≤ x < 256 → u8 x = x.
Proof. apply Z.mod_small. Qed.
Lemma u16_small x : 0 ≤ x < 65536 → u16 x = x.
Proof. apply Z.mod_small. Qed.
Lemma u32_small x : 0 ≤ x < 4294967296 → u32 x = x.
Proof. apply Z.mod_small. Qed.
Lemma u64_small x : 0 ≤ x < 18446744073709551616 → u64 x = x.
Proof. apply Z.mod_small. Qed.
Lemma s32_small x : -2147483648 ≤ x < 2147483648 → s32 x = x.
Proof. intros. unfold s32. rewrite Z.mod_small; lia. Qed.
Lemma s64_small x : -9223372036854775808 ≤ x < 9223372036854775808 → s64 x = x.
Proof. intros. unfold s64. rewrite Z.mod_small; lia. Qed.
#[export] Hint Resolve u8_range u32_range u64_range : cint.
#[export] Hint Rewrite u8_small u16_small u32_small u64_small s32_small s64_small
  using lia : cint.

(** ** Outcomes of kernel code

    A kernel function run in state [s] can return, stop the machine in
    [panic()], spin for ever in a [sti; hlt] loop (the state stays visible to
    the rest of the system), or commit an invalid access (a wild pointer, a
    freed object, an index outside an array).  [NoFuel] only arises when a
    model runs a loop with too little fuel. *)

Inductive outcome (S A : Type) : Type :=
| Ret (a : A) (s : S)
| Hang (s : S)
| Panic (s : S)
| Fault
| NoFuel.
Arguments Ret {S A} a s.
Arguments Hang {S A} s.
Arguments Panic {S A} s.
Arguments Fault {S A}.
Arguments NoFuel {S A}.

Definition kM (S A : Type) : Type := S → outcome S A.

Definition kret {S A} (a : A) : kM S A := λ s, Ret a s.
Definition kbind {S A B} (m : kM S A) (k : A → kM S B) : kM S B := λ s,
  match m s with
  | Ret a s' => k a s'
  | Hang s' => Hang s'
  | Panic s' => Panic s'
  | Fault => Fault
  | NoFuel => NoFuel
  end.
Definition kget {S} : kM S S := λ s, Ret s s.
Definition kput {S} (s : S) : kM S unit := λ _, Ret tt s.
Definition kmodify {S} (f : S → S) : kM S unit := λ s, Ret tt (f s).
Definition kpanic {S A} : kM S A := λ s, Panic s.
Definition khang {S A} : kM S A := λ s, Hang s.
Definition kfault {S A} : kM S A := λ _, Fault.

(** A dereference: a value that must be there. *)
Definition kget_opt {S A} (o : S → option A) : kM S A := λ s,
  match o s with Some a => Ret a s | None => Fault end.

Declare Scope kernel_scope.
Delimit Scope kernel_scope with K.
Notation "'let*' x ':=' c1 'in' c2" := (kbind c1 (λ x, c2))
  (at level 10, x pattern, c1 at level 100, c2 at level 200) : kernel_scope.
Notation "c1 ';;;' c2" := (kbind c1 (λ _, c2))
  (at level 100, right associativity) : kernel_scope.

(** [for (i = first; n times; i++) body(i)] *)
Fixpoint kfor {S} (n : nat) (i : Z) (body : Z → kM S unit) : kM S unit :=
  match n with
  | O => kret tt
  | S n => (body i ;;; kfor n (i + 1)%Z body)%K
  end.

(** A computation that returns from every state satisfying [P], in a state and
    with a value satisfying [Q]. *)
Definition returns {S A} (P : S → Prop) (m : kM S A) (Q : A → S → Prop) : Prop :=
  ∀ s, P s → ∃ a s', m s = Ret a s' ∧ Q a s'.

Lemma kbind_ret {S A B} (m : kM S A) (k : A → kM S B) s a s' :
  m s = Ret a s' → kbind m k s = k a s'.
Proof. unfold kbind. by intros ->. Qed.

Lemma kbind_assoc {S A B C} (m : kM S A) (k : A → kM S B) (h : B → kM S C) s :
  kbind (kbind m k) h s = kbind m (λ a, kbind (k a) h) s.
Proof. unfold kbind. by destruct (m s). Qed.

Lemma kbind_hang {S A B} (m : kM S A) (k : A → kM S B) s s' :
  m s = Hang s' → kbind m k s = Hang s'.
Proof. unfold kbind. by intros ->. Qed.

Lemma kbind_inv {S A B} (m : kM S A) (k : A → kM S B) s b s2 :
  kbind m k s = Ret b s2 → ∃ a s1, m s = Ret a s1 ∧ k a s1 = Ret b s2.
Proof. unfold kbind. destruct (m s); naive_solver. Qed.

Lemma returns_bind {S A B} P (m : kM S A) Q (k : A → kM S B) R :
  returns P m Q → (∀ a, returns (Q a) (k a) R) → returns P (kbind m k) R.
Proof.
  intros Hm Hk s Hs. destruct (Hm s Hs) as (a & s1 & E & HQ).
  destruct (Hk a s1 HQ) as (b & s2 & E2 & HR).
  exists b, s2. split; [|done]. by rewrite (kbind_ret _ _ _ _ _ E).
Qed.

(** A counted loop keeps an invariant indexed by the loop variable. *)
Lemma kfor_inv {S} (I : Z → S → Prop) (body : Z → kM S unit) n : ∀ i s, I i s →
  (∀ j s, (i ≤ j < i + Z.of_nat n)%Z → I j s → ∃ s', body j s = Ret tt s' ∧ I (j + 1)%Z s') →
  ∃ s', kfor n i body s = Ret tt s' ∧ I (i + Z.of_nat n)%Z s'.
Proof.
  induction n as [|n IH]; intros i s Hi Hb.
  { exists s. split; [done|]. by rewrite Z.add_0_r. }
  destruct (Hb i s) as (s1 & E & H1); [lia|done|].
  destruct (IH (i + 1)%Z s1 H1) as (s2 & E2 & H2); [intros; apply Hb; [lia|done]|].
  exists s2. split; [|by replace (i + Z.of_nat (Datatypes.S n))%Z with (i + 1 + Z.of_nat n)%Z by lia].
  cbn [kfor]. by rewrite (kbind_ret _ _ _ _ _ E).
Qed.

(** Case analysis on every [if] and [match] on a bind in a hypothesis. *)
Ltac kinv H :=
  repeat match type of H with
  | kbind _ _ _ = Ret _ _ =>
      let a := fresh "a" in let s := fresh "s" in let E := fresh "E" in
      apply kbind_inv in H; destruct H as (a & s & E & H)
  end.

(** ** Arrays

    [arr !.. i] is the C access [arr[i]] with a [Z] index, absent when the index
    is outside the array; [zset] is the corresponding store. *)

Definition zlookup {A} (l : list A) (i : Z) : option A :=
  if i <? 0 then None else l !! Z.to_nat i.
Definition zset {A} (l : list A) (i : Z) (x : A) : option (list A) :=
  if (0 <=? i) && (i <? Z.of_nat (length l)) then Some (<[Z.to_nat i := x]> l) else None.

Lemma zlookup_nat {A} (l : list A) (n : nat) : zlookup l (Z.of_nat n) = l !! n.
Proof.
  unfold zlookup. replace (Z.of_nat n <? 0) with false by (symmetry; apply Z.ltb_ge; lia).
  by rewrite Nat2Z.id.
Qed.

Lemma zset_nat {A} (l : list A) (n : nat) x :
  (n < length l)%nat → zset l (Z.of_nat n) x = Some (<[n := x]> l).
Proof.
  intros H. unfold zset.
  replace (0 <=? Z.of_nat n) with true by (symmetry; apply Z.leb_le; lia).
  replace (Z.of_nat n <? Z.of_nat (length l)) with true by (symmetry; apply Z.ltb_lt; lia).
  simpl. by rewrite Nat2Z.id.
Qed.

Lemma zset_oob {A} (l : list A) (i : Z) x :
  Z.of_nat (length l) ≤ i → zset l i x = None.
Proof.
  intros H. unfold zset.
  replace (i <? Z.of_nat (length l)) with false by (symmetry; apply Z.ltb_ge; lia).
  by rewrite andb_false_r.
Qed.

Lemma zlookup_lt {A} (l : list A) x : 0 ≤ x < Z.of_nat (length l) → ∃ y, zlookup l x = Some y ∧ l !! Z.to_nat x = Some y.
Proof.
  intros Hx. destruct (lookup_lt_is_Some_2 l (Z.to_nat x)) as [y Hy]; [lia|]. exists y. split; [|done].
  rewrite <-(Z2Nat.id x) by lia. by rewrite zlookup_nat.
Qed.
Lemma zlookup_insert {A} (l : list A) x y v : 0 ≤ x < Z.of_nat (length l) → 0 ≤ y →
  zlookup (<[Z.to_nat x := v]> l) y = if y =? x then Some v else zlookup l y.
Proof.
  intros Hx Hy. unfold zlookup. replace (y <? 0) with false by (symmetry; by apply Z.ltb_ge). destruct (Z.eqb_spec y x) as [->|Hne].
  - apply list_lookup_insert_eq. lia.
  - apply list_lookup_insert_ne. lia.
Qed.
Lemma zset_lt {A} (l : list A) x v : 0 ≤ x < Z.of_nat (length l) → zset l x v = Some (<[Z.to_nat x := v]> l).
Proof. intros. rewrite <-(Z2Nat.id x) at 1 by lia. apply zset_nat. lia. Qed.

(** Removes every element from a position on, as writing a NUL byte does. *)
Lemma insert_middle {A} (l1 l2 : list A) y x :
  <[length l1 := x]> (l1 ++ y :: l2) = l1 ++ x :: l2.
Proof. by rewrite insert_app_r_alt, Nat.sub_diag by lia. Qed.

Lemma lookup_middle {A} (l1 l2 : list A) y : (l1 ++ y :: l2) !! length l1 = Some y.
Proof. by rewrite lookup_app_r, Nat.sub_diag by lia. Qed.

(** Boolean tests to propositions, both ways. *)
Ltac zify_bool :=
  repeat match goal with
  | H : (_ && _)%bool = true |- _ => apply andb_true_iff in H; destruct H
  | H : (_ || _)%bool = false |- _ => apply orb_false_iff in H; destruct H
  | H : negb _ = true |- _ => apply negb_true_iff in H
  | H : negb _ = false |- _ => apply negb_false_iff in H
  | H : (_ =? _)%Z = true |- _ => apply Z.eqb_eq in H
  | H : (_ =? _)%Z = false |- _ => apply Z.eqb_neq in H
  | H : (_ <? _)%Z = true |- _ => apply Z.ltb_lt in H
  | H : (_ <? _)%Z = false |- _ => apply Z.ltb_ge in H
  | H : (_ <=? _)%Z = true |- _ => apply Z.leb_le in H
  | H : (_ <=? _)%Z = false |- _ => apply Z.leb_gt in H
  end.

(** Decide a boolean comparison in the goal by linear arithmetic. *)
Ltac zbool :=
  repeat match goal with
  | |- context [(?a =? ?b)%Z] =>
      first [ replace (a =? b)%Z with true by (symmetry; apply Z.eqb_eq; lia)
            | replace (a =? b)%Z with false by (symmetry; apply Z.eqb_neq; lia) ]
  | |- context [(?a <? ?b)%Z] =>
      first [ replace (a <? b)%Z with true by (symmetry; apply Z.ltb_lt; lia)
            | replace (a <? b)%Z with false by (symmetry; apply Z.ltb_ge; lia) ]
  | |- context [(?a <=? ?b)%Z] =>
      first [ replace (a <=? b)%Z with true by (symmetry; apply Z.leb_le; lia)
            | replace (a <=? b)%Z with false by (symmetry; apply Z.leb_gt; lia) ]
  end; simpl.

(** A string literal as the bytes of a C string. *)
Fixpoint str (s : string) : list Z :=
  match s with
  | EmptyString => []
  | String c s => Z.of_N (Ascii.N_of_ascii c) :: str s
  end.
