(* ===== verification/CString.v ===== *)
(** * The kernel's C library: strings and memory blocks

    Models [libc/string.c] and the block operations of [libc/mem.c].  A [char]
    array is a list of bytes ([Z], 0 to 255) as long as the array; a function
    that would read or write outside its array gives [None].  [holds b s] says
    that the array [b] contains the NUL-terminated string [s]. *)

From stdpp Require Import base numbers list.
From Stdlib Require Import ZArith Lia.
From S2P Require Import Prelude.

#[local] Open Scope Z_scope.

Definition holds (b s : list Z) : Prop :=
  (0 ∉ s) ∧ ∃ rest, b = s ++ 0 :: rest.

(** ** [libc/string.c] *)

(** [while (s\[i\] != 0) ++i] *)
Fixpoint strlen_loop (s : list Z) (i : Z) : option Z :=
  match s with
  | [] => None
  | c :: s' => if c =? 0 then Some i else strlen_loop s' (i + 1)
  end.

(** [strlen]: a NULL pointer ([None]) has length 0. *)
Definition strlen (p : option (list Z)) : option Z :=
  match p with
  | None => Some 0
  | Some s => strlen_loop s 0
  end.

(** [for (i = 0, j = strlen(s)-1; i < j; i++, j--)] swapping [s\[i\]] and [s\[j\]] *)
Fixpoint reverse_loop (fuel : nat) (s : list Z) (i j : Z) : option (list Z) :=
  match fuel with
  | O => None
  | S fuel =>
      if i <? j then
        c ← zlookup s i; d ← zlookup s j;
        s ← zset s i d; s ← zset s j c;
        reverse_loop fuel s (i + 1) (j - 1)
      else Some s
  end.

Definition reverse (s : list Z) : option (list Z) :=
  n ← strlen (Some s); reverse_loop (S (length s)) s 0 (n - 1).

(** [do { str\[i++\] = n % 10 + '0'; } while ((n /= 10) > 0)]; returns the buffer
    and the final [i]. *)
Fixpoint digits_loop (fuel : nat) (n i : Z) (str : list Z) : option (list Z * Z) :=
  match fuel with
  | O => None
  | S fuel =>
      str ← zset str i (u8 (Z.rem n 10 + 48));
      let n := Z.quot n 10 in
      if 0 <? n then digits_loop fuel n (i + 1) str else Some (str, i + 1)
  end.

(** [int_to_ascii]; the negation of [INT_MIN] wraps. *)
Definition int_to_ascii (n : Z) (str : list Z) : option (list Z) :=
  let sign := n in
  let n := if n <? 0 then s32 (- n) else n in
  '(str, i) ← digits_loop 11 n 0 str;
  '(str, i) ← (if sign <? 0 then str ← zset str i 45; Some (str, i + 1) else Some (str, i));
  str ← zset str i 0;
  reverse str.

(** The loop [for (j = 60; j >= 0; j -= 4)] of [hex_to_ascii]; [k] is [j / 4 + 1]. *)
Fixpoint hex_loop (k : nat) (n : Z) (zeros : bool) (i : Z) (str : list Z)
  : option (list Z * Z) :=
  match k with
  | O => Some (str, i)
  | S k =>
      let j := 4 * Z.of_nat k in
      let tmp := Z.land (Z.shiftr n j) 15 in
      if (tmp =? 0) && negb zeros && (0 <? j) then hex_loop k n zeros i str
      else
        str ← zset str i (if 10 <=? tmp then tmp - 10 + 97 else tmp + 48);
        hex_loop k n true (i + 1) str
  end.

Definition hex_to_ascii (n : Z) (str : list Z) : option (list Z) :=
  str ← zset str 0 48;
  str ← zset str 1 120;
  '(str, i) ← hex_loop 16 n false 2 str;
  zset str i 0.

Definition append (s : list Z) (n : Z) : option (list Z) :=
  len ← strlen (Some s);
  s ← zset s len n;
  zset s (len + 1) 0.

Definition backspace (s : list Z) : option (list Z) :=
  len ← strlen (Some s);
  if 0 <? len then zset s (len - 1) 0 else Some s.

(** [strcmp] subtracts plain (signed) [char]s. *)
Fixpoint strcmp (s1 s2 : list Z) : option Z :=
  match s1, s2 with
  | a :: s1', b :: s2' =>
      if a =? b then (if a =? 0 then Some 0 else strcmp s1' s2')
      else Some (s8 a - s8 b)
  | _, _ => None
  end.

(** [while ( *src ) *dest++ = *src++;  *dest = 0]; [i] is the distance walked. *)
Fixpoint strcpy_loop (dest : list Z) (i : Z) (src : list Z) : option (list Z) :=
  match src with
  | [] => None
  | c :: src' =>
      if c =? 0 then zset dest i 0
      else dest ← zset dest i c; strcpy_loop dest (i + 1) src'
  end.

Definition strcpy (dest src : list Z) : option (list Z) := strcpy_loop dest 0 src.

Definition strcat (dest src : list Z) : option (list Z) :=
  n ← strlen (Some dest); strcpy_loop dest n src.

(** ** [libc/mem.c]: block operations on distinct arrays *)

(** [source] and [dest] start at the given pointers; [n] bytes are copied
    upwards. *)
Fixpoint memory_copy_loop (n : nat) (i : Z) (source dest : list Z) : option (list Z) :=
  match n with
  | O => Some dest
  | S n =>
      c ← zlookup source i; dest ← zset dest i c;
      memory_copy_loop n (i + 1) source dest
  end.
Definition memory_copy (source dest : list Z) (nbytes : nat) : option (list Z) :=
  memory_copy_loop nbytes 0 source dest.

Fixpoint memory_compare (s1 s2 : list Z) (n : nat) : option Z :=
  match n with
  | O => Some 0
  | S n =>
      match s1, s2 with
      | a :: s1', b :: s2' => if a =? b then memory_compare s1' s2' n else Some (a - b)
      | _, _ => None
      end
  end.

Fixpoint memory_set (dest : list Z) (val : Z) (len : nat) : option (list Z) :=
  match len with
  | O => Some dest
  | S len =>
      match dest with
      | [] => None
      | _ :: dest' => cons (u8 val) <$> memory_set dest' val len
      end
  end.

(** ** Writing one byte after the other *)

Lemma zset_push {A} (pre rest : list A) y v i :
  i = Z.of_nat (length pre) → zset (pre ++ y :: rest) i v = Some ((pre ++ [v]) ++ rest).
Proof.
  intros ->. rewrite zset_nat, insert_middle, <-app_assoc; [done|].
  rewrite length_app; simpl; lia.
Qed.

Lemma zset_full {A} (pre : list A) v i :
  i = Z.of_nat (length pre) → zset (pre ++ []) i v = None.
Proof. intros ->. rewrite app_nil_r. apply zset_oob; lia. Qed.

Lemma holds_app s rest : 0 ∉ s → holds (s ++ 0 :: rest) s.
Proof. intros H. split; eauto. Qed.

Lemma strlen_loop_app s rest i :
  0 ∉ s → strlen_loop (s ++ 0 :: rest) i = Some (i + Z.of_nat (length s)).
Proof.
  revert i. induction s as [|c s IH]; intros i Hs; simpl.
  - f_equal; lia.
  - apply not_elem_of_cons in Hs as [Hc Hs].
    replace (c =? 0) with false by (symmetry; apply Z.eqb_neq; congruence).
    rewrite IH by done. f_equal; lia.
Qed.

Lemma strlen_holds b s : holds b s → strlen (Some b) = Some (Z.of_nat (length s)).
Proof. intros [Hs [rest ->]]. unfold strlen. by rewrite strlen_loop_app. Qed.

(** ** [strcmp] decides equality of strings *)

Lemma s8_inj a b : 0 ≤ a < 256 → 0 ≤ b < 256 → s8 a = s8 b → a = b.
Proof.
  unfold s8. intros Ha Hb Heq. Z.to_euclidean_division_equations. lia.
Qed.

Definition bytes (s : list Z) : Prop := Forall (λ c, 0 ≤ c < 256) s.

Lemma strcmp_app s1 s2 r1 r2 :
  bytes s1 → bytes s2 → 0 ∉ s1 → 0 ∉ s2 →
  ∃ d, strcmp (s1 ++ 0 :: r1) (s2 ++ 0 :: r2) = Some d ∧ (d = 0 ↔ s1 = s2).
Proof.
  revert s2. induction s1 as [|a s1 IH]; intros [|b s2] B1 B2 N1 N2; simpl;
    repeat match goal with
    | H : bytes (_ :: _) |- _ => apply Forall_cons in H as [? ?]
    | H : 0 ∉ _ :: _ |- _ => apply not_elem_of_cons in H as [? ?] end.
  - eexists; split; [done|]; split; done.
  - zbool. eexists; split; [done|]. split; [|done]. intros E.
    exfalso. assert (0 = b); [|lia]. apply s8_inj; lia.
  - zbool. eexists; split; [done|]. split; [|done]. intros E.
    exfalso. assert (a = 0); [|lia]. apply s8_inj; lia.
  - destruct (Z.eqb_spec a b) as [->|Hne].
    + zbool. destruct (IH s2) as (d & E & Hd); [done..|].
      exists d. split; [done|]. rewrite Hd. split; congruence.
    + eexists; split; [done|]. split; [|congruence]. intros E.
      exfalso. apply Hne, s8_inj; lia.
Qed.

(** ** [strcpy] and [strcat] *)

Lemma strcpy_loop_fits src r2 pre rest :
  0 ∉ src → (length src < length rest)%nat →
  strcpy_loop (pre ++ rest) (Z.of_nat (length pre)) (src ++ 0 :: r2) =
  Some (pre ++ src ++ 0 :: drop (S (length src)) rest).
Proof.
  revert pre rest. induction src as [|c src IH]; intros pre [|y rest] Hs Hl;
    simpl in *; try lia.
  - rewrite zset_push by done. by rewrite <-app_assoc.
  - apply not_elem_of_cons in Hs as [Hc Hs]. zbool.
    rewrite zset_push by done. simpl.
    replace (Z.of_nat (length pre) + 1) with (Z.of_nat (length (pre ++ [c])))
      by (rewrite length_app; simpl; lia).
    rewrite IH by (done || lia). by rewrite <-app_assoc.
Qed.

Lemma strcpy_loop_overflow src r2 pre rest :
  0 ∉ src → (length rest ≤ length src)%nat →
  strcpy_loop (pre ++ rest) (Z.of_nat (length pre)) (src ++ 0 :: r2) = None.
Proof.
  revert pre rest. induction src as [|c src IH]; intros pre [|y rest] Hs Hl;
    simpl in *; try lia.
  - by rewrite zset_full.
  - apply not_elem_of_cons in Hs as [Hc Hs]. zbool. by rewrite zset_full.
  - apply not_elem_of_cons in Hs as [Hc Hs]. zbool.
    rewrite zset_push by done. simpl.
    replace (Z.of_nat (length pre) + 1) with (Z.of_nat (length (pre ++ [c])))
      by (rewrite length_app; simpl; lia).
    apply IH; [done|lia].
Qed.

(** ** [reverse] *)

Lemma zlookup_mid {A} (pre rest : list A) y i :
  i = Z.of_nat (length pre) → zlookup (pre ++ y :: rest) i = Some y.
Proof. intros ->. by rewrite zlookup_nat, lookup_middle. Qed.

Lemma zset_mid {A} (pre rest : list A) y v i :
  i = Z.of_nat (length pre) → zset (pre ++ y :: rest) i v = Some (pre ++ v :: rest).
Proof. intros. rewrite zset_push by done. by rewrite <-app_assoc. Qed.

Lemma reverse_loop_spec n : ∀ fuel p m q,
  length m = n → (n < fuel)%nat →
  reverse_loop fuel (p ++ m ++ q) (Z.of_nat (length p))
    (Z.of_nat (length p) + Z.of_nat (length m) - 1) = Some (p ++ rev m ++ q).
Proof.
  induction n as [n IH] using lt_wf_ind. intros [|fuel] p m q Hn Hf; [lia|]. simpl.
  destruct m as [|a m]; [simpl; by zbool|].
  destruct m as [|b m _] using rev_ind; [simpl; by zbool|].
  simpl in Hn. rewrite length_app in Hn. simpl in Hn.
  replace (Z.of_nat (length p) <? _) with true
    by (symmetry; apply Z.ltb_lt; simpl; rewrite length_app; simpl; lia).
  set (j := Z.of_nat (length p) + Z.of_nat (length (a :: m ++ [b])) - 1).
  assert (Hj : j = Z.of_nat (length (p ++ a :: m)))
    by (unfold j; rewrite length_app; simpl; rewrite length_app; simpl; lia).
  replace (p ++ (a :: m ++ [b]) ++ q) with (p ++ a :: (m ++ b :: q))
    by (simpl; by rewrite <-app_assoc).
  rewrite (zlookup_mid p _ a (Z.of_nat (length p))) by done. simpl.
  replace (p ++ a :: m ++ b :: q) with ((p ++ a :: m) ++ b :: q) by (by rewrite <-app_assoc).
  rewrite (zlookup_mid (p ++ a :: m) _ b j) by done. simpl.
  replace ((p ++ a :: m) ++ b :: q) with (p ++ a :: (m ++ b :: q)) by (by rewrite <-app_assoc).
  rewrite (zset_mid p _ a _ (Z.of_nat (length p))) by done. simpl.
  replace (p ++ b :: m ++ b :: q) with ((p ++ b :: m) ++ b :: q) by (by rewrite <-app_assoc).
  rewrite zset_mid by (rewrite Hj, !length_app; simpl; lia). simpl.
  replace ((p ++ b :: m) ++ a :: q) with ((p ++ [b]) ++ m ++ (a :: q))
    by (by rewrite <-!app_assoc).
  replace (Z.of_nat (length p) + 1) with (Z.of_nat (length (p ++ [b])))
    by (rewrite length_app; simpl; lia).
  replace (j - 1) with (Z.of_nat (length (p ++ [b])) + Z.of_nat (length m) - 1)
    by (rewrite Hj, !length_app; simpl; lia).
  rewrite (IH (length m)) by lia.
  f_equal. rewrite rev_app_distr. simpl. by rewrite <-!app_assoc.
Qed.

Lemma reverse_spec s rest : 0 ∉ s → reverse (s ++ 0 :: rest) = Some (rev s ++ 0 :: rest).
Proof.
  intros Hs. unfold reverse. rewrite (strlen_holds _ s) by (by apply holds_app). simpl.
  pose proof (reverse_loop_spec (length s) (S (length (s ++ 0 :: rest))) [] s (0 :: rest)
    eq_refl) as H. simpl in H.
  apply H. rewrite length_app. simpl. lia.
Qed.

(** ** Reading a number back *)

(** The value of a decimal numeral, most significant digit first, and of an
    optional minus sign before it. *)
Definition dec_value (s : list Z) : Z := fold_left (λ v c, 10 * v + (c - 48)) s 0.
Definition atoi (s : list Z) : Z :=
  match s with
  | 45 :: s' => - dec_value s'
  | _ => dec_value s
  end.
Definition is_digit (c : Z) : bool := (48 <=? c) && (c <=? 57).

Fixpoint le_value (base : Z) (ds : list Z) : Z :=
  match ds with [] => 0 | d :: ds => d + base * le_value base ds end.

Lemma dec_value_rev ds : dec_value (rev ds) = le_value 10 (map (λ c, c - 48) ds).
Proof.
  unfold dec_value. induction ds as [|d ds IH]; [done|]. simpl.
  rewrite fold_left_app. simpl. rewrite IH. simpl. lia.
Qed.

Lemma digits_loop_spec fuel n pre rest (k : nat) :
  0 ≤ n < 10 ^ Z.of_nat k → (1 ≤ k ≤ fuel)%nat → (k ≤ length rest)%nat →
  ∃ ds, digits_loop fuel n (Z.of_nat (length pre)) (pre ++ rest) =
          Some (pre ++ ds ++ drop (length ds) rest, Z.of_nat (length pre + length ds)) ∧
        (1 ≤ length ds ≤ k)%nat ∧ Forall (λ c, is_digit c) ds ∧
        le_value 10 (map (λ c, c - 48) ds) = n.
Proof.
  revert fuel n pre rest. induction k as [|k IH]; intros [|fuel] n pre [|y rest] Hn Hk Hl;
    simpl in *; try lia.
  rewrite zset_push by done. simpl.
  rewrite Z.rem_mod_nonneg, Z.quot_div_nonneg by lia.
  pose proof (Z.mod_pos_bound n 10 ltac:(lia)). pose proof (Z.div_mod n 10 ltac:(lia)).
  rewrite (u8_small (n mod 10 + 48)) by lia.
  assert (Hd : is_digit (n mod 10 + 48)) by (unfold is_digit; by zbool).
  destruct (Z.ltb_spec 0 (n / 10)) as [Hq|Hq].
  - assert (k ≠ 0)%nat by (intros ->; change (10 ^ Z.of_nat 1) with 10 in Hn; lia).
    destruct (IH fuel (n / 10) (pre ++ [n mod 10 + 48]) rest) as (ds & E & L & F & V);
      [|lia..|].
    { rewrite Nat2Z.inj_succ, Z.pow_succ_r in Hn by lia.
      split; [lia|]. apply Z.div_lt_upper_bound; lia. }
    replace (Z.of_nat (length pre) + 1) with (Z.of_nat (length (pre ++ [n mod 10 + 48])))
      by (rewrite length_app; simpl; lia).
    rewrite E. exists ((n mod 10 + 48) :: ds). split; [|split; [|split]].
    + f_equal. rewrite <-app_assoc. simpl. f_equal. rewrite length_app. simpl. lia.
    + simpl; lia.
    + by constructor.
    + simpl. rewrite V. lia.
  - exists [n mod 10 + 48]. split; [|split; [|split]].
    + f_equal. rewrite <-app_assoc. simpl. f_equal. lia.
    + simpl; lia.
    + by repeat constructor.
    + simpl. assert (0 ≤ n / 10) by (apply Z.div_pos; lia). lia.
Qed.

Lemma digits_no_nul ds : Forall (λ c, is_digit c) ds → 0 ∉ ds.
Proof. intros F H. rewrite Forall_forall in F. by apply F in H. Qed.

Lemma digits_atoi ds :
  ds ≠ [] → Forall (λ c, is_digit c) ds → atoi (rev ds) = dec_value (rev ds).
Proof.
  intros Hne F. unfold atoi. apply Forall_rev in F.
  destruct (rev ds) as [|c r]; [done|]. apply Forall_cons in F as [Hc _].
  destruct (decide (c = 45)) as [->|]; [done|]. by repeat case_match.
Qed.

Lemma digits_text ds : Forall (λ c, is_digit c) ds → Forall (λ c, 45 ≤ c ≤ 57) ds.
Proof. intros F. eapply Forall_impl; [exact F|]. intros c H%Is_true_eq_true. unfold is_digit in H. zify_bool. lia. Qed.

Lemma int_to_ascii_fits n str (k : nat) :
  -2147483648 < n < 2147483648 → Z.abs n < 10 ^ Z.of_nat k → (1 ≤ k ≤ 10)%nat → (k + 2 ≤ length str)%nat →
  ∃ str' s, int_to_ascii n str = Some str' ∧ length str' = length str ∧
            holds str' s ∧ Forall (λ c, 45 ≤ c ≤ 57) s ∧ atoi s = n.
Proof.
  intros Hn Hk K Hl. unfold int_to_ascii.
  set (m := if n <? 0 then s32 (- n) else n).
  assert (Hm : m = Z.abs n).
  { unfold m. destruct (Z.ltb_spec n 0); [rewrite s32_small by lia|]; lia. }
  rewrite Hm. clear m Hm.
  destruct (digits_loop_spec 11 (Z.abs n) [] str k) as (ds & E & L & F & V); [lia..|].
  change (Z.of_nat (length (@nil Z))) with 0 in E. cbn [app length Nat.add] in E.
  rewrite E. simpl.
  rewrite <-dec_value_rev in V. pose proof (digits_no_nul _ F) as Hnul.
  assert (Hne : ds ≠ []) by (intros ->; simpl in L; lia).
  destruct (drop (length ds) str) as [|y1 [|y2 rest]] eqn:D;
    try (apply (f_equal length) in D; rewrite length_drop in D; simpl in D; lia).
  assert (Hlen : length str = (length ds + S (S (length rest)))%nat).
  { apply (f_equal length) in D. rewrite length_drop in D. simpl in D. lia. }
  destruct (Z.ltb_spec n 0) as [Hneg|Hpos].
  - rewrite zset_push by done. simpl.
    rewrite zset_mid by (rewrite length_app; simpl; lia). simpl.
    rewrite reverse_spec by (by rewrite not_elem_of_app, list_elem_of_singleton).
    eexists _, (rev (ds ++ [45])). split; [done|]. split; [|split; [|split]].
    + rewrite length_app, length_rev, length_app, Hlen. simpl. lia.
    + apply holds_app. rewrite rev_app_distr. simpl. rewrite elem_of_cons.
      intros [|H]; [done|]. by apply list_elem_of_In, in_rev, list_elem_of_In in H.
    + apply Forall_rev, Forall_app. split; [by apply digits_text|]. constructor; [lia|constructor].
    + rewrite rev_app_distr. simpl. lia.
  - simpl. rewrite zset_mid by done. simpl.
    rewrite reverse_spec by done.
    eexists _, (rev ds). split; [done|]. split; [|split; [|split]].
    + rewrite length_app, length_rev, Hlen. simpl. lia.
    + apply holds_app. intros H. by apply list_elem_of_In, in_rev, list_elem_of_In in H.
    + apply Forall_rev. by apply digits_text.
    + rewrite digits_atoi by done. lia.
Qed.
Lemma int_to_ascii_run n str :
  -2147483648 < n < 2147483648 → (12 ≤ length str)%nat →
  ∃ str' s, int_to_ascii n str = Some str' ∧ length str' = length str ∧
            holds str' s ∧ Forall (λ c, 45 ≤ c ≤ 57) s ∧ atoi s = n.
Proof. intros Hn Hl. apply (int_to_ascii_fits n str 10); [lia|change (10 ^ Z.of_nat 10) with 10000000000; lia|lia|lia]. Qed.

(** [int_to_ascii] prints: for every [int] but [INT_MIN] and any buffer of
    at least 12 bytes, no byte outside the buffer is touched and the buffer then
    holds a NUL-terminated numeral that reads back as the number. *)
Theorem int_to_ascii_roundtrip n str :
  -2147483648 < n < 2147483648 → (12 ≤ length str)%nat →
  ∃ str' s, int_to_ascii n str = Some str' ∧ length str' = length str ∧
            holds str' s ∧ atoi s = n.
Proof. intros Hn Hl. destruct (int_to_ascii_run n str Hn Hl) as (str' & s & E & L & H & _ & V). by exists str', s. Qed.

Lemma int_to_ascii_roundtrip_witness :
  ∃ str' s, int_to_ascii (-405) (replicate 16 7) = Some str' ∧
            length str' = length (replicate 16 7) ∧ holds str' s ∧ atoi s = -405.
Proof. apply (int_to_ascii_roundtrip (-405) (replicate 16 7)); simpl; lia. Defined.

(** The one value it does not print: [INT_MIN] gives "-(". *)
Lemma int_to_ascii_int_min :
  int_to_ascii (-2147483648) (replicate 4 7) = Some [45; 40; 0; 7].
Proof. reflexivity. Qed.

(** ** [hex_to_ascii] *)

Definition hex_digit (d : Z) : Z := if 10 <=? d then d - 10 + 97 else d + 48.
Definition hex_digit_value (c : Z) : Z := if 97 <=? c then c - 97 + 10 else c - 48.
Definition hex_value (s : list Z) : Z := fold_left (λ v c, 16 * v + hex_digit_value c) s 0.

(** The digits the loop emits. *)
Fixpoint hex_digits (k : nat) (n : Z) (zeros : bool) : list Z :=
  match k with
  | O => []
  | S k =>
      let tmp := Z.land (Z.shiftr n (4 * Z.of_nat k)) 15 in
      if (tmp =? 0) && negb zeros && (0 <? 4 * Z.of_nat k) then hex_digits k n zeros
      else hex_digit tmp :: hex_digits k n true
  end.

Lemma hex_nibble n k : 0 ≤ n → Z.land (Z.shiftr n (4 * Z.of_nat k)) 15 = (n / 16 ^ Z.of_nat k) mod 16.
Proof.
  intros Hn. rewrite Z.shiftr_div_pow2 by lia. rewrite (Z.pow_mul_r 2 4) by lia.
  change (2 ^ 4) with 16. change 15 with (Z.ones 4). by rewrite Z.land_ones by lia.
Qed.

Lemma hex_digit_back d : 0 ≤ d < 16 → hex_digit_value (hex_digit d) = d.
Proof.
  intros. unfold hex_digit_value, hex_digit. destruct (Z.leb_spec 10 d).
  - replace (97 <=? d - 10 + 97) with true by (symmetry; apply Z.leb_le; lia). lia.
  - replace (97 <=? d + 48) with false by (symmetry; apply Z.leb_gt; lia). lia.
Qed.

Definition is_hex (c : Z) : Prop := 48 ≤ c ∧ 0 ≤ hex_digit_value c < 16.

Lemma hex_digit_range d : 0 ≤ d < 16 → is_hex (hex_digit d).
Proof.
  intros Hd. split; [|by rewrite hex_digit_back].
  unfold hex_digit. destruct (Z.leb_spec 10 d); lia.
Qed.

(** The loop stores exactly these digits, or runs off the end of the buffer. *)
Lemma hex_loop_spec k n zeros pre rest :
  hex_loop k n zeros (Z.of_nat (length pre)) (pre ++ rest) =
  let ds := hex_digits k n zeros in
  if decide (length ds ≤ length rest)%nat
  then Some (pre ++ ds ++ drop (length ds) rest, Z.of_nat (length pre + length ds))
  else None.
Proof.
  revert zeros pre rest. induction k as [|k IH]; intros zeros pre rest; cbn zeta.
  { rewrite decide_True by (simpl; lia). simpl. by rewrite drop_0, Nat.add_0_r. }
  cbn [hex_loop hex_digits].
  destruct (_ && _ && _); [apply IH|]. fold (hex_digit (Z.land (Z.shiftr n (4 * Z.of_nat k)) 15)).
  set (d := hex_digit _). destruct rest as [|y rest].
  { rewrite zset_full by done. by rewrite decide_False by (simpl; lia). }
  rewrite zset_push by done. cbn [mbind option_bind].
  replace (Z.of_nat (length pre) + 1) with (Z.of_nat (length (pre ++ [d])))
    by (rewrite length_app; simpl; lia).
  rewrite IH. cbn zeta. destruct (decide (_ ≤ length rest)%nat).
  - rewrite decide_True by (simpl; lia). rewrite <-app_assoc. simpl. do 2 f_equal.
    rewrite length_app. simpl. lia.
  - by rewrite decide_False by (simpl; lia).
Qed.

Lemma fold_hex_value s : ∀ v,
  fold_left (λ v c, 16 * v + hex_digit_value c) s v = v * 16 ^ Z.of_nat (length s) + hex_value s.
Proof.
  unfold hex_value. induction s as [|c s IH]; intros v; simpl; [rewrite Z.pow_0_r; lia|].
  rewrite IH, (IH (16 * 0 + _)), Nat2Z.inj_succ, Z.pow_succ_r by lia. lia.
Qed.

Lemma hex_digits_full k n : 0 ≤ n →
  length (hex_digits k n true) = k ∧
  hex_value (hex_digits k n true) = n mod 16 ^ Z.of_nat k ∧
  Forall is_hex (hex_digits k n true).
Proof.
  intros Hn. induction k as [|k (L & V & F)]; simpl.
  { split; [done|]. rewrite Z.pow_0_r, Z.mod_1_r. by split. }
  rewrite andb_false_r. simpl. rewrite hex_nibble by done.
  set (d := (n / 16 ^ Z.of_nat k) mod 16).
  assert (Hd : 0 ≤ d < 16) by (apply Z.mod_pos_bound; lia).
  split; [simpl; lia|]. split; [|constructor; [by apply hex_digit_range|done]].
  unfold hex_value. simpl. rewrite fold_hex_value, L, V, hex_digit_back by done.
  rewrite Nat2Z.inj_succ, Z.pow_succ_r by lia.
  rewrite (Z.mul_comm 16 (16 ^ _)), Z.rem_mul_r by lia. fold d. lia.
Qed.

Lemma hex_digits_spec k n : 0 ≤ n → (1 ≤ k)%nat →
  let ds := hex_digits k n false in
  (1 ≤ length ds ≤ k)%nat ∧ hex_value ds = n mod 16 ^ Z.of_nat k ∧
  Forall is_hex ds ∧
  (16 ^ (Z.of_nat (length ds) - 1) ≤ n mod 16 ^ Z.of_nat k ∨ length ds = 1%nat).
Proof.
  intros Hn. induction k as [|k IH]; intros Hk; [lia|]. simpl.
  destruct (hex_digits_full k n Hn) as (L & V & F). rewrite hex_nibble by done.
  set (d := (n / 16 ^ Z.of_nat k) mod 16).
  assert (Hd : 0 ≤ d < 16) by (apply Z.mod_pos_bound; lia).
  assert (Hsplit : n mod 16 ^ Z.of_nat (S k) = n mod 16 ^ Z.of_nat k + 16 ^ Z.of_nat k * d).
  { rewrite Nat2Z.inj_succ, Z.pow_succ_r by lia.
    rewrite (Z.mul_comm 16 (16 ^ _)), Z.rem_mul_r by lia. done. }
  pose proof (Z.mod_pos_bound n (16 ^ Z.of_nat k) ltac:(lia)) as Hm.
  rewrite andb_true_r.
  destruct ((d =? 0) && (0 <? 4 * Z.of_nat k)) eqn:E.
  - zify_bool. destruct IH as (L' & V' & F' & M'); [lia|].
    rewrite Hsplit. replace d with 0 by lia. rewrite Z.mul_0_r, Z.add_0_r.
    split; [lia|]. by split.
  - simpl. rewrite L. split; [lia|]. split; [|split].
    + unfold hex_value. simpl. rewrite fold_hex_value, L, V, hex_digit_back by done.
      rewrite Hsplit. lia.
    + constructor; [by apply hex_digit_range|done].
    + rewrite Hsplit. apply andb_false_iff in E as [E|E]; zify_bool; [left|right; lia].
      replace (Z.of_nat (S k) - 1) with (Z.of_nat k) by lia. nia.
Qed.

Lemma hex_to_ascii_eq n str y1 y2 rest :
  str = y1 :: y2 :: rest →
  hex_to_ascii n str =
  let ds := hex_digits 16 n false in
  if decide (length ds < length rest)%nat
  then Some ((48 :: 120 :: ds) ++ 0 :: drop (S (length ds)) rest)
  else None.
Proof.
  intros ->. unfold hex_to_ascii.
  pose proof (hex_loop_spec 16 n false [48; 120] rest) as H. cbn [app] in H.
  change (Z.of_nat (length [48; 120])) with 2 in H.
  pose proof (zset_mid [] (y2 :: rest) y1 48 0 eq_refl) as H0. cbn [app] in H0.
  rewrite H0. cbn [mbind option_bind].
  pose proof (zset_mid [48] rest y2 120 1 eq_refl) as H1. cbn [app] in H1.
  rewrite H1. cbn [mbind option_bind]. rewrite H. clear H H0 H1.
  generalize (hex_digits 16 n false) as ds. intros ds. cbn zeta.
  destruct (decide (length ds ≤ length rest)%nat); cbn [mbind option_bind].
  2: { by rewrite decide_False by lia. }
  destruct (decide (length ds < length rest)%nat).
  - destruct (drop (length ds) rest) as [|y rest'] eqn:D.
    { apply (f_equal length) in D. rewrite length_drop in D. simpl in D. lia. }
    change (48 :: 120 :: ds ++ y :: rest') with ((48 :: 120 :: ds) ++ y :: rest').
    rewrite zset_mid by (simpl; lia). do 3 f_equal.
    rewrite <-Nat.add_1_r, <-drop_drop, D. done.
  - assert (length ds = length rest) by lia. apply zset_oob.
    simpl. rewrite length_app, length_drop. lia.
Qed.

(** [hex_to_ascii] prints: for every 64-bit value and any buffer of at
    least 19 bytes, no byte outside the buffer is touched and the buffer then
    holds "0x" followed by at most 16 hexadecimal digits, without leading zeros,
    whose value is the number. *)
Theorem hex_to_ascii_roundtrip n str :
  0 ≤ n < 2 ^ 64 → (19 ≤ length str)%nat →
  ∃ str' ds, hex_to_ascii n str = Some str' ∧ length str' = length str ∧
             holds str' (48 :: 120 :: ds) ∧ hex_value ds = n ∧
             (1 ≤ length ds ≤ 16)%nat ∧
             (16 ^ (Z.of_nat (length ds) - 1) ≤ n ∨ length ds = 1%nat).
Proof.
  intros Hn Hl. destruct str as [|y1 [|y2 rest]]; simpl in Hl; try lia.
  destruct (hex_digits_spec 16 n) as (L & V & F & M); [lia..|].
  rewrite Z.mod_small in V, M by (change (16 ^ Z.of_nat 16) with (2 ^ 64); lia).
  rewrite (hex_to_ascii_eq n _ y1 y2 rest eq_refl). cbn zeta.
  revert L V F M. generalize (hex_digits 16 n false) as ds. intros ds L V F M.
  rewrite decide_True by lia.
  eexists _, ds. split; [done|]. split; [|split; [|by split]].
  - rewrite length_app. cbn [length]. rewrite length_drop. lia.
  - apply holds_app. rewrite !not_elem_of_cons. split_and!; [done..|].
    intros H. rewrite Forall_forall in F. apply F in H as [H _]. lia.
Qed.

Lemma hex_to_ascii_roundtrip_witness :
  ∃ str' ds, hex_to_ascii 3735928559 (replicate 20 7) = Some str' ∧
             length str' = length (replicate 20 7) ∧
             holds str' (48 :: 120 :: ds) ∧ hex_value ds = 3735928559 ∧
             (1 ≤ length ds ≤ 16)%nat ∧
             (16 ^ (Z.of_nat (length ds) - 1) ≤ 3735928559 ∨ length ds = 1%nat).
Proof. apply (hex_to_ascii_roundtrip 3735928559 (replicate 20 7)); simpl; lia. Defined.

(** A 16-byte buffer, which several callers pass, is too small for any value of
    2^52 or more, and so for every higher-half kernel address. *)
Theorem hex_to_ascii_overflow n str :
  2 ^ 52 ≤ n < 2 ^ 64 → length str = 16%nat → hex_to_ascii n str = None.
Proof.
  intros Hn Hl. destruct str as [|y1 [|y2 rest]]; simpl in Hl; try lia.
  destruct (hex_digits_spec 16 n) as (L & V & F & M); [lia..|].
  rewrite Z.mod_small in V, M by (change (16 ^ Z.of_nat 16) with (2 ^ 64); lia).
  rewrite (hex_to_ascii_eq n _ y1 y2 rest eq_refl). cbn zeta.
  revert L V F M. generalize (hex_digits 16 n false) as ds. intros ds L V F M.
  rewrite decide_False; [done|]. intros Hs.
  assert (length ds ≤ 13)%nat as Hd by lia.
  assert (n < 16 ^ 13); [|change (16 ^ 13) with (2 ^ 52) in *; lia].
  clear M. rewrite <-V. clear V.
  assert (hex_value ds < 16 ^ Z.of_nat (length ds)) as Hv.
  { unfold hex_value. clear -F. induction ds as [|c ds IH] using rev_ind; [done|].
    rewrite fold_left_app, length_app. simpl.
    apply Forall_app in F as [F Fc]. apply Forall_cons in Fc as [[_ Fc] _].
    specialize (IH F). rewrite Nat.add_1_r, Nat2Z.inj_succ, Z.pow_succ_r by lia. lia. }
  eapply Z.lt_le_trans; [exact Hv|]. apply Z.pow_le_mono_r; lia.
Qed.
