(* ===== verification/Pmm.v ===== *)
(** * Physical memory

    Models the frame allocator of [kernel/cpu/paging.c] and [kmalloc_int] of
    [libc/mem.c]: a bitmap of used frames, a reference count per frame, and the
    bump pointer of the boot.  Each function is one step under its spinlock.  The
    functions implement a set of used frames and a count for each frame. *)

From stdpp Require Import base numbers list gmap.
From Stdlib Require Import ZArith Lia.
From S2P Require Import Prelude.

#[local] Open Scope Z_scope.

(** [(uint32_t)-1] *)
Definition NO_FRAME : Z := 4294967295.
Definition FULL_WORD : Z := 4294967295.

(** The bitmap and the counts are null pointers before [pmm_init_from_mmap]. *)
Record pmm := mk_pmm {
  frame_bitmap : option (list Z);
  frame_ref_count : option (list Z);
  total_frames : Z;
  free_mem_addr : Z;
  pmm_is_ready : bool }.
Definition with_bitmap (v : list Z) (p : pmm) : pmm :=
  mk_pmm (Some v) (frame_ref_count p) (total_frames p) (free_mem_addr p) (pmm_is_ready p).
Definition with_refs (v : list Z) (p : pmm) : pmm :=
  mk_pmm (frame_bitmap p) (Some v) (total_frames p) (free_mem_addr p) (pmm_is_ready p).
Definition with_total (v : Z) (p : pmm) : pmm :=
  mk_pmm (frame_bitmap p) (frame_ref_count p) v (free_mem_addr p) (pmm_is_ready p).
Definition with_free_mem (v : Z) (p : pmm) : pmm :=
  mk_pmm (frame_bitmap p) (frame_ref_count p) (total_frames p) v (pmm_is_ready p).
Definition with_ready (v : bool) (p : pmm) : pmm :=
  mk_pmm (frame_bitmap p) (frame_ref_count p) (total_frames p) (free_mem_addr p) v.

(** An entry of the boot loader's memory map. *)
Record mmap_entry := mk_mmap { mm_addr : Z; mm_len : Z; mm_type : Z }.

#[local] Open Scope kernel_scope.

(** [frame_bitmap\[frame / 32\] |= 1 << (frame % 32)], and with [&= ~]. *)
Definition mask (frame : Z) : Z := Z.shiftl 1 (frame mod 32).
Definition upd_word (f : Z → Z) (frame : Z) (b : list Z) : kM pmm unit :=
  let* w := kget_opt (λ _, zlookup b (frame / 32)) in
  let* b' := kget_opt (λ _, zset b (frame / 32) (f w)) in
  kmodify (with_bitmap b').
Definition set_bit (frame : Z) : list Z → kM pmm unit := upd_word (λ w, Z.lor w (mask frame)) frame.
Definition clear_bit (frame : Z) : list Z → kM pmm unit := upd_word (λ w, Z.land w (u32 (Z.lnot (mask frame)))) frame.

(** [if (!frame_bitmap || frame >= total_frames) return r] *)
Definition with_frame {A} (r : A) (frame : Z) (k : list Z → kM pmm A) : kM pmm A :=
  let* p := kget in
  match frame_bitmap p with
  | None => kret r
  | Some b => if total_frames p <=? frame then kret r else k b
  end.
Definition pmm_set_frame (frame : Z) : kM pmm unit := with_frame tt frame (set_bit frame).
Definition pmm_clear_frame (frame : Z) : kM pmm unit := with_frame tt frame (clear_bit frame).
Definition pmm_test_frame (frame : Z) : kM pmm Z :=
  with_frame (-1) frame (λ b,
    let* w := kget_opt (λ _, zlookup b (frame / 32)) in
    kret (if Z.land w (mask frame) =? 0 then 0 else 1)).

(** The loop over the bits of word [i], from bit [j] on: the word, with the frames
    below [limit] marked, and the first frame that is free. *)
Fixpoint scan_bits (n : nat) (total limit i j w : Z) : Z * option Z :=
  match n with
  | O => (w, None)
  | S n =>
      if Z.land w (Z.shiftl 1 j) =? 0 then
        let frame := u32 (i * 32 + j) in
        if total <=? frame then (w, None)
        else if frame <? limit then scan_bits n total limit i (j + 1) (Z.lor w (Z.shiftl 1 j))
        else (w, Some frame)
      else scan_bits n total limit i (j + 1) w
  end.
Fixpoint scan_words (n : nat) (total limit i : Z) (ws : list Z) : list Z * option Z :=
  match n, ws with
  | S n, w :: ws =>
      let r := if w =? FULL_WORD then (w, None) else scan_bits 32 total limit i 0 w in
      match r.2 with
      | Some f => (r.1 :: ws, Some f)
      | None => let r' := scan_words n total limit (i + 1) ws in (r.1 :: r'.1, r'.2)
      end
  | _, _ => (ws, None)
  end.
Definition pmm_first_free : kM pmm Z :=
  let* p := kget in
  match frame_bitmap p with
  | None => kret NO_FRAME
  | Some b =>
      let limit := u64 (free_mem_addr p + 4095) / 4096 in
      if Z.of_nat (length b) <? total_frames p / 32 then kfault
      else
        let r := scan_words (Z.to_nat (total_frames p / 32)) (total_frames p) limit 0 b in
        kmodify (with_bitmap r.1) ;;;
        kret (default NO_FRAME r.2)
  end.

(** ** Reference counts *)

Definition frame_add_ref (frame : Z) : kM pmm unit :=
  let* p := kget in
  match frame_ref_count p with
  | None => kret tt
  | Some rs =>
      if total_frames p <=? frame then kret tt
      else
        let* c := kget_opt (λ _, zlookup rs frame) in
        (if c =? 0 then let* b := kget_opt frame_bitmap in set_bit frame b else kret tt) ;;;
        let* rs' := kget_opt (λ _, zset rs frame (u8 (c + 1))) in
        kmodify (with_refs rs')
  end.
Definition frame_remove_ref (frame : Z) : kM pmm unit :=
  let* p := kget in
  match frame_ref_count p with
  | None => kret tt
  | Some rs =>
      if total_frames p <=? frame then kret tt
      else
        let* c := kget_opt (λ _, zlookup rs frame) in
        if c =? 0 then kret tt
        else
          let* rs' := kget_opt (λ _, zset rs frame (c - 1)) in
          kmodify (with_refs rs') ;;;
          (if c - 1 =? 0 then let* b := kget_opt frame_bitmap in clear_bit frame b else kret tt)
  end.
Definition frame_get_ref (frame : Z) : kM pmm Z :=
  let* p := kget in
  match frame_ref_count p with
  | None => kret 0
  | Some rs => if total_frames p <=? frame then kret 0 else kget_opt (λ _, zlookup rs frame)
  end.

(** ** Statistics and start *)

Fixpoint count_used (n : nat) (i : Z) (acc : Z) : kM pmm Z :=
  match n with
  | O => kret acc
  | S n => let* t := pmm_test_frame i in count_used n (i + 1) (if t =? 1 then acc + 1 else acc)
  end.
(** [used_frames], [total_frames], [free_frames]; [None]: the argument is left. *)
Definition get_pmm_stats : kM pmm (option (Z * Z * Z)) :=
  let* p := kget in
  match frame_bitmap p with
  | None => kret None
  | Some _ =>
      let* used := count_used (Z.to_nat (total_frames p)) 0 0 in
      kret (Some (used, total_frames p, total_frames p - used))
  end.

(** [for (p = first; p < end; p += 0x1000) pmm_set_frame(p / 0x1000)] *)
Fixpoint reserve (n : nat) (p stop : Z) : kM pmm unit :=
  match n with
  | O => λ _, NoFuel
  | S n => if p <? stop then pmm_set_frame (u32 (p / 4096)) ;;; reserve n (u64 (p + 4096)) stop else kret tt
  end.
Definition pages (first stop : Z) : nat := S (Z.to_nat ((stop - first + 4095) / 4096)).
Definition align_page (a : Z) : Z := Z.ldiff a 4095.
Definition pmm_reserve_early_memory : kM pmm unit :=
  let* p := kget in
  let stop := align_page (u64 (free_mem_addr p + 4095)) in
  reserve (pages 0 stop) 0 stop.

(** The bump allocator of the boot, and single frames once the bitmap is there. *)
Definition kmalloc_int (size : Z) (align : bool) : kM pmm Z :=
  let* p := kget in
  if pmm_is_ready p then
    if 4096 <? size then kpanic
    else
      let* frame := pmm_first_free in
      if frame =? NO_FRAME then kpanic
      else pmm_set_frame frame ;;; kret (frame * 4096)
  else
    let a := free_mem_addr p in
    let a := if align && negb (Z.land a 4095 =? 0) then u64 (align_page a + 4096) else a in
    kmodify (with_free_mem (u64 (a + size))) ;;;
    kret a.

Definition max_phys (es : list mmap_entry) : Z :=
  match es with
  | [] => 134217728
  | _ => foldl (λ m e, let stop := u64 (mm_addr e + mm_len e) in if m <? stop then stop else m) 0 es
  end.
Fixpoint reserve_entries (es : list mmap_entry) : kM pmm unit :=
  match es with
  | [] => kret tt
  | e :: es =>
      (if mm_type e =? 1 then kret tt
       else reserve (pages (align_page (mm_addr e)) (u64 (mm_addr e + mm_len e))) (align_page (mm_addr e)) (u64 (mm_addr e + mm_len e))) ;;;
      reserve_entries es
  end.
Definition pmm_init_from_mmap (es : list mmap_entry) : kM pmm unit :=
  let total := max_phys es / 4096 in
  kmodify (with_total total) ;;;
  kmalloc_int ((total / 32 + 1) * 4) true ;;;
  kmalloc_int total true ;;;
  kmodify (with_bitmap (replicate (Z.to_nat (total / 32 + 1)) 0)) ;;;
  kmodify (with_refs (replicate (Z.to_nat total) 0)) ;;;
  reserve_entries es.

(** ** The set of used frames *)

Definition bit (b : list Z) (f : Z) : bool :=
  match zlookup b (f / 32) with Some w => Z.testbit w (f mod 32) | None => false end.
Definition word_ok (w : Z) : Prop := 0 ≤ w < 4294967296.

Lemma land_bit w j : 0 ≤ j → (Z.land w (Z.shiftl 1 j) =? 0) = negb (Z.testbit w j).
Proof.
  intros Hj. destruct (Z.testbit w j) eqn:E; cbn.
  - apply Z.eqb_neq. intros H. assert (Z.testbit (Z.land w (Z.shiftl 1 j)) j = false) as H0 by (rewrite H; apply Z.bits_0).
    rewrite Z.land_spec, E, Z.shiftl_spec, Z.sub_diag in H0 by lia. done.
  - apply Z.eqb_eq. apply Z.bits_inj'. intros k Hk. rewrite Z.land_spec, Z.bits_0, Z.shiftl_spec by lia.
    destruct (decide (k = j)) as [->|Hne]; [by rewrite E|]. rewrite andb_comm. destruct (decide (k < j)); [by rewrite Z.testbit_neg_r by lia|].
    replace (Z.testbit 1 (k - j)) with false; [done|]. symmetry. change 1 with (2 ^ 0). apply Z.pow2_bits_false. lia.
Qed.
Lemma lor_bit w j k : 0 ≤ j → 0 ≤ k → Z.testbit (Z.lor w (Z.shiftl 1 j)) k = Z.testbit w k || (k =? j).
Proof.
  intros Hj Hk. rewrite Z.lor_spec, Z.shiftl_spec by lia. f_equal. change 1 with (2 ^ 0). destruct (Z.eqb_spec k j) as [->|Hne].
  - rewrite Z.sub_diag. done.
  - apply Z.pow2_bits_false. lia.
Qed.
Lemma word_bits w : word_ok w ↔ 0 ≤ w ∧ ∀ k, 32 ≤ k → Z.testbit w k = false.
Proof.
  unfold word_ok. split.
  - intros H. split; [lia|]. intros k Hk. destruct (decide (w = 0)) as [->|]; [apply Z.bits_0|].
    apply Z.bits_above_log2; [lia|]. assert (Z.log2 w < 32); [|lia]. apply Z.log2_lt_pow2; [lia|]. change (2 ^ 32) with 4294967296. lia.
  - intros [H0 H]. split; [done|]. destruct (decide (w < 4294967296)); [done|]. exfalso.
    assert (32 ≤ Z.log2 w) as Hl by (apply Z.log2_le_pow2; [lia|]; change (2 ^ 32) with 4294967296; lia).
    pose proof (Z.bit_log2 w ltac:(lia)) as Hb. by rewrite (H _ Hl) in Hb.
Qed.
Lemma lor_word w j : word_ok w → 0 ≤ j < 32 → word_ok (Z.lor w (Z.shiftl 1 j)).
Proof.
  rewrite !word_bits. intros [H0 H] Hj. split; [apply Z.lor_nonneg; split; [done|]; apply Z.shiftl_nonneg; lia|].
  intros k Hk. rewrite lor_bit, H by lia. apply Z.eqb_neq. lia.
Qed.
Lemma land_word w m : word_ok w → word_ok m → word_ok (Z.land w m).
Proof.
  rewrite !word_bits. intros [H0 H] [H1 _]. split; [apply Z.land_nonneg; by left|]. intros k Hk. rewrite Z.land_spec, H by done. done.
Qed.

(** One word. *)
Lemma scan_bits_run total limit i : 0 ≤ i → i * 32 + 32 ≤ total → total < 4294967296 → ∀ n j w, Z.of_nat n + j = 32 → 0 ≤ j → word_ok w →
  let r := scan_bits n total limit i j w in word_ok r.1 ∧
  (∀ k, 0 ≤ k → Z.testbit w k = true → Z.testbit r.1 k = true) ∧
  (∀ k, 0 ≤ k → Z.testbit r.1 k = true → Z.testbit w k = true ∨ (k < 32 ∧ i * 32 + k < limit)) ∧
  match r.2 with
  | Some f => ∃ k, j ≤ k < 32 ∧ f = i * 32 + k ∧ limit ≤ f ∧ Z.testbit w k = false ∧
      ∀ k', j ≤ k' < k → limit ≤ i * 32 + k' → Z.testbit w k' = true
  | None => ∀ k', j ≤ k' < 32 → limit ≤ i * 32 + k' → Z.testbit w k' = true
  end.
Proof.
  intros Hi Ht Ht2. induction n as [|n IH]; intros j w Hn Hj Hw; cbn [scan_bits].
  { split; [done|]. split; [done|]. split; [by left|]. cbn. intros. lia. }
  rewrite land_bit by done. rewrite (u32_small (i * 32 + j)) by lia.
  replace (total <=? i * 32 + j) with false by (symmetry; apply Z.leb_gt; lia). cbv zeta.
  destruct (Z.testbit w j) eqn:Ej; cbn [negb].
  - destruct (IH (j + 1) w) as (W & M & D & R); [lia|lia|done|]. split; [done|]. split; [done|]. split; [done|].
    destruct (scan_bits n total limit i (j + 1) w) as [w' [f|]]; cbn [snd] in *.
    + destruct R as (k & Hk & -> & Hl & Hb & Hall). exists k. split_and!; try done; try lia. intros k' Hk'.
      destruct (decide (k' = j)) as [->|]; [done|]. apply Hall. lia.
    + intros k' Hk'. destruct (decide (k' = j)) as [->|]; [done|]. apply R. lia.
  - destruct (Z.ltb_spec (i * 32 + j) limit) as [Hlt|Hge].
    + destruct (IH (j + 1) (Z.lor w (Z.shiftl 1 j))) as (W & M & D & R); [lia|lia|apply lor_word; [done|lia]|].
      split; [done|]. split; [|split].
      * intros k Hk Hb. apply M; [done|]. rewrite lor_bit, Hb by lia. done.
      * intros k Hk Hb. apply D in Hb; [|done]. rewrite lor_bit in Hb by lia. destruct Hb as [Hb|Hb]; [|by right].
        apply orb_true_iff in Hb as [Hb|Hb%Z.eqb_eq]; [by left|right; lia].
      * destruct (scan_bits n total limit i (j + 1) _) as [w' [f|]]; cbn [snd] in *.
        -- destruct R as (k & Hk & -> & Hl & Hb & Hall). exists k. rewrite lor_bit in Hb by lia. apply orb_false_iff in Hb as [Hb _].
           split_and!; try done; try lia. intros k' Hk' Hl'. assert (k' ≠ j) by lia. specialize (Hall k' ltac:(lia) Hl').
           rewrite lor_bit in Hall by lia. apply orb_true_iff in Hall as [|?%Z.eqb_eq]; [done|lia].
        -- intros k' Hk' Hl'. assert (k' ≠ j) by lia. specialize (R k' ltac:(lia) Hl'). rewrite lor_bit in R by lia.
           apply orb_true_iff in R as [|?%Z.eqb_eq]; [done|lia].
    + cbn [fst snd]. split; [done|]. split; [done|]. split; [by left|]. exists j. split_and!; try done; try lia; intros; lia.
Qed.

Lemma bit_head w ws k : 0 ≤ k < 32 → bit (w :: ws) k = Z.testbit w k.
Proof. intros. unfold bit. rewrite Z.div_small, Z.mod_small by lia. done. Qed.
Lemma bit_tail w ws k : 32 ≤ k → bit (w :: ws) k = bit ws (k - 32).
Proof.
  intros Hk. assert (k / 32 = (k - 32) / 32 + 1 ∧ k mod 32 = (k - 32) mod 32) as [E1 E2].
  { replace k with (k - 32 + 1 * 32) at 1 3 by lia. rewrite Z.div_add, Z.mod_add by lia. done. }
  unfold bit. rewrite E1, E2.
  pose proof (Z.div_pos (k - 32) 32 ltac:(lia) ltac:(lia)). unfold zlookup.
  replace ((k - 32) / 32 + 1 <? 0) with false by (symmetry; apply Z.ltb_ge; lia).
  replace ((k - 32) / 32 <? 0) with false by (symmetry; apply Z.ltb_ge; lia).
  replace (Z.to_nat ((k - 32) / 32 + 1)) with (S (Z.to_nat ((k - 32) / 32))) by lia. done.
Qed.
Lemma full_bit k : 0 ≤ k < 32 → Z.testbit FULL_WORD k = true.
Proof. intros. change FULL_WORD with (Z.ones 32). rewrite Z.testbit_ones_nonneg by lia. apply Z.ltb_lt. lia. Qed.

(** The whole bitmap. *)
Lemma scan_words_run total limit : total < 4294967296 → ∀ n i ws, 0 ≤ i → 32 * (i + Z.of_nat n) ≤ total → (n ≤ length ws)%nat → Forall word_ok ws →
  let r := scan_words n total limit i ws in
  length r.1 = length ws ∧ Forall word_ok r.1 ∧
  (∀ k, 0 ≤ k → bit ws k = true → bit r.1 k = true) ∧
  (∀ k, 0 ≤ k → bit r.1 k = true → bit ws k = true ∨ 32 * i + k < limit) ∧
  match r.2 with
  | Some f => ∃ k, 0 ≤ k < 32 * Z.of_nat n ∧ f = 32 * i + k ∧ limit ≤ f ∧ bit ws k = false ∧
      ∀ k', 0 ≤ k' < k → limit ≤ 32 * i + k' → bit ws k' = true
  | None => ∀ k', 0 ≤ k' < 32 * Z.of_nat n → limit ≤ 32 * i + k' → bit ws k' = true
  end.
Proof.
  intros Ht. induction n as [|n IH]; intros i ws Hi Hn Hl Hw.
  { cbn [scan_words]. split; [done|]. split; [done|]. split; [done|]. split; [by left|]. cbn. intros. lia. }
  destruct ws as [|w ws]; [cbn in Hl; lia|]. cbn [scan_words]. inversion Hw as [|? ? Hw1 Hw2]; subst. cbn in Hl.
  set (r := if w =? FULL_WORD then (w, None) else scan_bits 32 total limit i 0 w).
  assert (word_ok r.1 ∧ (∀ k, 0 ≤ k → Z.testbit w k = true → Z.testbit r.1 k = true) ∧
    (∀ k, 0 ≤ k → Z.testbit r.1 k = true → Z.testbit w k = true ∨ (k < 32 ∧ i * 32 + k < limit)) ∧
    match r.2 with
    | Some f => ∃ k, 0 ≤ k < 32 ∧ f = i * 32 + k ∧ limit ≤ f ∧ Z.testbit w k = false ∧
        ∀ k', 0 ≤ k' < k → limit ≤ i * 32 + k' → Z.testbit w k' = true
    | None => ∀ k', 0 ≤ k' < 32 → limit ≤ i * 32 + k' → Z.testbit w k' = true
    end) as (W & M & D & R).
  { subst r. destruct (Z.eqb_spec w FULL_WORD) as [->|_]; [|by apply scan_bits_run; (done || lia)].
    split; [done|]. split; [done|]. split; [by left|]. cbn [snd]. intros. by apply full_bit. }
  destruct r as [w1 [f|]]; cbn [fst snd] in *.
  - split; [done|]. split; [by constructor|]. split; [|split].
    + intros k Hk. destruct (decide (k < 32)); [rewrite !bit_head by lia; by apply M|by rewrite !bit_tail by lia].
    + intros k Hk. destruct (decide (k < 32)); [rewrite !bit_head by lia|rewrite !bit_tail by lia; by left].
      intros Hb. apply D in Hb as [?|?]; [by left|right; lia|done].
    + destruct R as (k & Hk & -> & Hlim & Hb & Hall). exists k. rewrite bit_head by lia. split; [lia|]. split; [lia|]. split; [lia|]. split; [done|].
      intros k' Hk' Hl'. rewrite bit_head by lia. apply Hall; lia.
  - specialize (IH (i + 1) ws ltac:(lia) ltac:(lia) ltac:(lia) Hw2). cbv zeta in IH.
    destruct (scan_words n total limit (i + 1) ws) as [ws1 r1]; cbn [fst snd] in *. destruct IH as (L1 & W1 & M1 & D1 & R1).
    split; [cbn; lia|]. split; [by constructor|]. split; [|split].
    + intros k Hk. destruct (decide (k < 32)); [rewrite !bit_head by lia; by apply M|rewrite !bit_tail by lia; apply M1; lia].
    + intros k Hk. destruct (decide (k < 32)); [rewrite !bit_head by lia|rewrite !bit_tail by lia]; intros Hb.
      * apply D in Hb as [?|?]; [by left|right; lia|done].
      * apply D1 in Hb as [?|?]; [by left|right; lia|lia].
    + destruct r1 as [f|].
      * destruct R1 as (k & Hk & -> & Hlim & Hb & Hall). exists (k + 32). rewrite bit_tail by lia. replace (k + 32 - 32) with k by lia.
        split; [lia|]. split; [lia|]. split; [lia|]. split; [done|]. intros k' Hk' Hl'.
        destruct (decide (k' < 32)); [rewrite bit_head by lia; apply R; lia|rewrite bit_tail by lia; apply Hall; lia].
      * intros k' Hk' Hl'. destruct (decide (k' < 32)); [rewrite bit_head by lia; apply R; lia|rewrite bit_tail by lia; apply R1; lia].
Qed.

(** ** The invariant *)

Record pmm_ok (p : pmm) (b rs : list Z) : Prop := {
  po_bitmap : frame_bitmap p = Some b;
  po_refs : frame_ref_count p = Some rs;
  po_total : 0 ≤ total_frames p < 4294967296;
  po_words : Z.of_nat (length b) = total_frames p / 32 + 1;
  po_word : Forall word_ok b;
  po_counts : Z.of_nat (length rs) = total_frames p;
  po_count : Forall (λ c, 0 ≤ c < 256) rs;
  po_used : ∀ f c, 0 ≤ f → zlookup rs f = Some c → 0 < c → bit b f = true;
  po_limit : 0 ≤ free_mem_addr p < 18446744073709547520 }.

Definition limit_frame (p : pmm) : Z := (free_mem_addr p + 4095) / 4096.

Lemma frame_word p b rs f : pmm_ok p b rs → 0 ≤ f < total_frames p → 0 ≤ f / 32 < Z.of_nat (length b).
Proof.
  intros H Hf. destruct H. rewrite po_words0. split; [apply Z.div_pos; lia|]. assert (f / 32 ≤ total_frames p / 32); [|lia]. apply Z.div_le_mono; lia.
Qed.

(** Changing the word of a frame. *)
Lemma upd_word_run g p b rs f : pmm_ok p b rs → 0 ≤ f < total_frames p → ∃ w b', zlookup b (f / 32) = Some w ∧ word_ok w ∧
  b' = <[Z.to_nat (f / 32) := g w]> b ∧ upd_word g f b p = Ret tt (with_bitmap b' p).
Proof.
  intros H Hf. pose proof (frame_word p b rs f H Hf) as Hw. destruct (zlookup_lt b (f / 32) Hw) as (w & E & El).
  exists w, (<[Z.to_nat (f / 32) := g w]> b). split; [done|]. split; [exact (Forall_lookup_1 _ _ _ _ (po_word _ _ _ H) El)|]. split; [done|].
  unfold upd_word, kget_opt, kbind. rewrite E, (zset_lt _ _ _ Hw). done.
Qed.
Lemma bit_insert b f g w : 0 ≤ f → 0 ≤ f / 32 < Z.of_nat (length b) → 0 ≤ g →
  bit (<[Z.to_nat (f / 32) := w]> b) g = if g / 32 =? f / 32 then Z.testbit w (g mod 32) else bit b g.
Proof.
  intros Hf Hw Hg. unfold bit. rewrite zlookup_insert by (try done; apply Z.div_pos; lia). by destruct (g / 32 =? f / 32).
Qed.
Lemma same_frame f g : 0 ≤ f → 0 ≤ g → (g / 32 =? f / 32) && (g mod 32 =? f mod 32) = (g =? f).
Proof.
  intros. pose proof (Z.div_mod f 32 ltac:(lia)). pose proof (Z.div_mod g 32 ltac:(lia)).
  destruct (Z.eqb_spec (g / 32) (f / 32)), (Z.eqb_spec (g mod 32) (f mod 32)), (Z.eqb_spec g f); try done; try lia; subst; done.
Qed.

Lemma pmm_ok_bitmap p b rs b' : pmm_ok p b rs → length b' = length b → Forall word_ok b' →
  (∀ f c, 0 ≤ f → zlookup rs f = Some c → 0 < c → bit b' f = true) → pmm_ok (with_bitmap b' p) b' rs.
Proof. intros [] Hl Hw Hu. split; try done. cbn. by rewrite Hl. Qed.

Lemma set_bit_run p b rs f : pmm_ok p b rs → 0 ≤ f < total_frames p →
  ∃ b', set_bit f b p = Ret tt (with_bitmap b' p) ∧ pmm_ok (with_bitmap b' p) b' rs ∧
    ∀ g, 0 ≤ g → bit b' g = bit b g || (g =? f).
Proof.
  intros H Hf. pose proof (frame_word p b rs f H Hf) as Hw. pose proof (Z.mod_pos_bound f 32 ltac:(lia)) as Hm.
  destruct (upd_word_run (λ w, Z.lor w (mask f)) p b rs f H Hf) as (w & b' & E & Hwo & -> & Er). eexists. split; [exact Er|].
  assert (∀ g, 0 ≤ g → bit (<[Z.to_nat (f / 32):=Z.lor w (mask f)]> b) g = bit b g || (g =? f)) as Hb.
  { intros g Hg. rewrite bit_insert by (done || lia). rewrite <-(same_frame f g) by lia. destruct (Z.eqb_spec (g / 32) (f / 32)) as [Eg|]; [|by rewrite orb_false_r].
    unfold mask. rewrite lor_bit by (lia || apply Z.mod_pos_bound; lia). unfold bit. by rewrite Eg, E. }
  split; [|done]. apply (pmm_ok_bitmap p b rs); [done|by rewrite length_insert| |].
  - apply Forall_insert; [apply H|]. apply lor_word; [done|lia].
  - intros g c Hg Hc Hp. rewrite Hb by done. by rewrite (po_used _ _ _ H g c Hg Hc Hp).
Qed.

Lemma lnot_mask w f k : 0 ≤ k < 32 → Z.testbit (Z.land w (u32 (Z.lnot (mask f)))) k = Z.testbit w k && negb (k =? f mod 32).
Proof.
  intros Hk. pose proof (Z.mod_pos_bound f 32 ltac:(lia)). rewrite Z.land_spec. f_equal. unfold u32. change 4294967296 with (2 ^ 32).
  rewrite <-Z.land_ones, Z.land_spec, Z.lnot_spec, Z.testbit_ones_nonneg by lia. replace (k <? 32) with true by (symmetry; apply Z.ltb_lt; lia).
  rewrite andb_true_r. f_equal. unfold mask. rewrite <-(Z.lor_0_l (Z.shiftl _ _)), lor_bit, Z.bits_0 by lia. done.
Qed.

Lemma clear_bit_run p b rs f : pmm_ok p b rs → 0 ≤ f < total_frames p → zlookup rs f = Some 0 →
  ∃ b', clear_bit f b p = Ret tt (with_bitmap b' p) ∧ pmm_ok (with_bitmap b' p) b' rs ∧
    ∀ g, 0 ≤ g → bit b' g = bit b g && negb (g =? f).
Proof.
  intros H Hf Hr. pose proof (frame_word p b rs f H Hf) as Hw. pose proof (Z.mod_pos_bound f 32 ltac:(lia)) as Hm.
  destruct (upd_word_run (λ w, Z.land w (u32 (Z.lnot (mask f)))) p b rs f H Hf) as (w & b' & E & Hwo & -> & Er). eexists. split; [exact Er|].
  assert (∀ g, 0 ≤ g → bit (<[Z.to_nat (f / 32):=Z.land w (u32 (Z.lnot (mask f)))]> b) g = bit b g && negb (g =? f)) as Hb.
  { intros g Hg. rewrite bit_insert by (done || lia). rewrite <-(same_frame f g) by lia. destruct (Z.eqb_spec (g / 32) (f / 32)) as [Eg|]; [|by rewrite andb_true_r].
    rewrite lnot_mask by (apply Z.mod_pos_bound; lia). unfold bit. by rewrite Eg, E. }
  split; [|done]. apply (pmm_ok_bitmap p b rs); [done|by rewrite length_insert| |].
  - apply Forall_insert; [apply H|]. apply land_word; [done|]. pose proof (u32_range (Z.lnot (mask f))). unfold word_ok. lia.
  - intros g c Hg Hc Hp. rewrite Hb by done. rewrite (po_used _ _ _ H g c Hg Hc Hp). cbn.
    destruct (Z.eqb_spec g f) as [->|]; [|done]. rewrite Hr in Hc. injection Hc as <-. lia.
Qed.

Lemma with_frame_run {A} (r : A) f k p b rs : pmm_ok p b rs → with_frame r f k p = if total_frames p <=? f then Ret r p else k b p.
Proof. intros [E _ _ _ _ _ _ _ _]. unfold with_frame, kbind, kget. rewrite E. by destruct (total_frames p <=? f). Qed.

Lemma set_frame_run p b rs f : pmm_ok p b rs → 0 ≤ f < total_frames p →
  ∃ b', pmm_set_frame f p = Ret tt (with_bitmap b' p) ∧ pmm_ok (with_bitmap b' p) b' rs ∧
    ∀ g, 0 ≤ g → bit b' g = bit b g || (g =? f).
Proof.
  intros H Hf. unfold pmm_set_frame. rewrite (with_frame_run _ _ _ p b rs H). replace (total_frames p <=? f) with false by (symmetry; apply Z.leb_gt; lia).
  by apply set_bit_run.
Qed.

Lemma test_frame_run p b rs f : pmm_ok p b rs → 0 ≤ f < total_frames p → pmm_test_frame f p = Ret (if bit b f then 1 else 0) p.
Proof.
  intros H Hf. unfold pmm_test_frame. rewrite (with_frame_run _ _ _ p b rs H). replace (total_frames p <=? f) with false by (symmetry; apply Z.leb_gt; lia).
  destruct (zlookup_lt b (f / 32) (frame_word p b rs f H Hf)) as (w & E & _). unfold kbind, kget_opt, bit. rewrite E. unfold kret, mask.
  rewrite land_bit by (apply Z.mod_pos_bound; lia). by destruct (Z.testbit w (f mod 32)).
Qed.

Lemma first_free_run p b rs : pmm_ok p b rs → ∃ r b', pmm_first_free p = Ret r (with_bitmap b' p) ∧ pmm_ok (with_bitmap b' p) b' rs ∧
  (∀ g, 0 ≤ g → bit b g = true → bit b' g = true) ∧ (∀ g, 0 ≤ g → bit b' g = true → bit b g = true ∨ g < limit_frame p) ∧
  (r = NO_FRAME ∧ (∀ f, 0 ≤ f → limit_frame p ≤ f < 32 * (total_frames p / 32) → bit b f = true) ∨
   0 ≤ r ∧ limit_frame p ≤ r < total_frames p ∧ bit b r = false ∧ bit b' r = false ∧ ∀ f, 0 ≤ f → limit_frame p ≤ f < r → bit b f = true).
Proof.
  intros H. pose proof (po_total _ _ _ H) as Ht. pose proof (Z.div_pos (total_frames p) 32 ltac:(lia) ltac:(lia)) as Hd.
  pose proof (Z.mul_div_le (total_frames p) 32 ltac:(lia)) as Hm. pose proof (po_words _ _ _ H) as Hwl.
  unfold pmm_first_free, kbind at 1, kget. rewrite (po_bitmap _ _ _ H).
  rewrite (u64_small (free_mem_addr p + 4095)) by (destruct H; lia). fold (limit_frame p).
  replace (Z.of_nat (length b) <? total_frames p / 32) with false by (symmetry; apply Z.ltb_ge; lia).
  destruct (scan_words_run (total_frames p) (limit_frame p) ltac:(lia) (Z.to_nat (total_frames p / 32)) 0 b) as (L & W & M & D & R);
    [lia|lia|lia|apply H|].
  destruct (scan_words _ _ _ 0 b) as [b' r]; cbn [fst snd] in *. exists (default NO_FRAME r), b'. split; [done|].
  split; [|split; [done|split; [intros g Hg Hb; by apply D|]]].
  - apply (pmm_ok_bitmap p b rs); try done. intros f c Hf Hc Hp. apply M; [done|]. exact (po_used _ _ _ H f c Hf Hc Hp).
  - destruct r as [f|]; cbn [from_option id].
    + destruct R as (k & Hk & -> & Hl & Hb & Hall). right. change (32 * 0 + k) with k in *. split; [lia|]. split; [lia|]. split; [done|]. split.
      * destruct (bit b' k) eqn:Eb; [|done]. apply D in Eb as [?|?]; [congruence|lia|lia].
      * intros f Hf Hf'. apply Hall; lia.
    + left. split; [done|]. intros f Hf Hf'. apply R; lia.
Qed.

(** No frame that the allocator may give out is free. *)
Definition no_frame (p : pmm) : Prop :=
  ∃ b, frame_bitmap p = Some b ∧ ∀ f, 0 ≤ f → limit_frame p ≤ f < 32 * (total_frames p / 32) → bit b f = true.

Lemma with_bitmap_same p b rs : pmm_ok p b rs → with_bitmap b p = p.
Proof. intros [E _ _ _ _ _ _ _ _]. destruct p. cbn in *. by subst. Qed.

Lemma pmm_ok_refs p b rs f c : pmm_ok p b rs → 0 ≤ f < total_frames p → 0 ≤ c < 256 → (0 < c → bit b f = true) →
  pmm_ok (with_refs (<[Z.to_nat f := c]> rs) p) b (<[Z.to_nat f := c]> rs).
Proof.
  intros H Hf Hc Hb. pose proof (po_counts _ _ _ H) as Hl. destruct H. split; try done.
  - by rewrite length_insert.
  - by apply Forall_insert.
  - intros g d Hg Hd Hp. rewrite zlookup_insert in Hd by lia. destruct (Z.eqb_spec g f) as [->|]; [|by eapply po_used0].
    injection Hd as <-. by apply Hb.
Qed.

Lemma frame_count p b rs f : pmm_ok p b rs → 0 ≤ f < total_frames p → ∃ c, zlookup rs f = Some c ∧ 0 ≤ c < 256.
Proof.
  intros H Hf. destruct (zlookup_lt rs f) as (c & E & El); [rewrite (po_counts _ _ _ H); lia|]. exists c. split; [done|].
  exact (Forall_lookup_1 _ _ _ _ (po_count _ _ _ H) El).
Qed.

Lemma frame_ref_run p b rs f c : pmm_ok p b rs → 0 ≤ f < total_frames p → zlookup rs f = Some c → c < 255 →
  let rs' := <[Z.to_nat f := c + 1]> rs in
  ∃ b', frame_add_ref f p = Ret tt (with_refs rs' (with_bitmap b' p)) ∧ pmm_ok (with_refs rs' (with_bitmap b' p)) b' rs' ∧
    ∀ g, 0 ≤ g → bit b' g = bit b g || (g =? f).
Proof.
  intros H Hf Hc Hlt rs'. destruct (frame_count p b rs f H Hf) as (c' & Hc' & Hr). rewrite Hc in Hc'. injection Hc' as <-.
  assert (∃ b', (if c =? 0 then (let* b := kget_opt frame_bitmap in set_bit f b) else kret tt)%K p = Ret tt (with_bitmap b' p) ∧
    pmm_ok (with_bitmap b' p) b' rs ∧ ∀ g, 0 ≤ g → bit b' g = bit b g || (g =? f)) as (b' & E & H' & Hb).
  { destruct (Z.eqb_spec c 0) as [->|Hne].
    - unfold kbind, kget_opt. rewrite (po_bitmap _ _ _ H). by apply set_bit_run.
    - exists b. rewrite (with_bitmap_same p b rs H). split; [done|]. split; [done|]. intros g Hg. destruct (Z.eqb_spec g f) as [->|]; [|by rewrite orb_false_r].
      rewrite (po_used _ _ _ H f c) by (done || lia). done. }
  exists b'. split; [|split; [|done]].
  - unfold frame_add_ref. unfold kbind at 1, kget. rewrite (po_refs _ _ _ H). replace (total_frames p <=? f) with false by (symmetry; apply Z.leb_gt; lia).
    unfold kbind at 1, kget_opt at 1. rewrite Hc. rewrite (kbind_ret _ _ _ _ _ E). unfold kbind, kget_opt.
    rewrite zset_lt by (rewrite (po_counts _ _ _ H); lia). rewrite u8_small by lia. done.
  - apply pmm_ok_refs; [done|done|lia|]. intros _. rewrite Hb by lia. by rewrite Z.eqb_refl, orb_true_r.
Qed.

Lemma remove_ref_run p b rs f c : pmm_ok p b rs → 0 ≤ f < total_frames p → zlookup rs f = Some c → 0 < c →
  let rs' := <[Z.to_nat f := c - 1]> rs in
  ∃ b', frame_remove_ref f p = Ret tt (with_refs rs' (with_bitmap b' p)) ∧ pmm_ok (with_refs rs' (with_bitmap b' p)) b' rs' ∧
    ∀ g, 0 ≤ g → bit b' g = bit b g && negb ((c =? 1) && (g =? f)).
Proof.
  intros H Hf Hc Hlt rs'. destruct (frame_count p b rs f H Hf) as (c' & Hc' & Hr). rewrite Hc in Hc'. injection Hc' as <-.
  pose proof (po_counts _ _ _ H) as Hl.
  assert (pmm_ok (with_refs rs' p) b rs') as H1 by (apply pmm_ok_refs; [done|done|lia|]; intros _; by apply (po_used _ _ _ H f c); (done || lia)).
  assert (∃ b', (if c - 1 =? 0 then (let* b := kget_opt frame_bitmap in clear_bit f b) else kret tt)%K (with_refs rs' p) = Ret tt (with_bitmap b' (with_refs rs' p)) ∧
    pmm_ok (with_bitmap b' (with_refs rs' p)) b' rs' ∧ ∀ g, 0 ≤ g → bit b' g = bit b g && negb ((c =? 1) && (g =? f))) as (b' & E & H' & Hb).
  { destruct (Z.eqb_spec (c - 1) 0) as [He|Hne].
    - replace (c =? 1) with true by (symmetry; apply Z.eqb_eq; lia). unfold kbind, kget_opt. rewrite (po_bitmap _ _ _ H1). apply clear_bit_run; [done|done|].
      subst rs'. rewrite zlookup_insert, Z.eqb_refl, He by lia. done.
    - replace (c =? 1) with false by (symmetry; apply Z.eqb_neq; lia). exists b. rewrite (with_bitmap_same _ b rs' H1). split; [done|]. split; [done|].
      intros g Hg. by rewrite andb_true_r. }
  exists b'. split; [|split; done].
  unfold frame_remove_ref. unfold kbind at 1, kget. rewrite (po_refs _ _ _ H). replace (total_frames p <=? f) with false by (symmetry; apply Z.leb_gt; lia).
  unfold kbind at 1, kget_opt at 1. rewrite Hc. replace (c =? 0) with false by (symmetry; apply Z.eqb_neq; lia).
  unfold kbind at 1, kget_opt at 1. rewrite zset_lt by lia. unfold kbind at 1, kmodify. fold rs'. rewrite E. done.
Qed.

Lemma remove_ref_none p b rs f : pmm_ok p b rs → 0 ≤ f < total_frames p → zlookup rs f = Some 0 → frame_remove_ref f p = Ret tt p.
Proof.
  intros H Hf Hc. unfold frame_remove_ref, kbind, kget. rewrite (po_refs _ _ _ H).
  replace (total_frames p <=? f) with false by (symmetry; apply Z.leb_gt; lia). unfold kget_opt. by rewrite Hc.
Qed.
Lemma get_ref_run p b rs f c : pmm_ok p b rs → 0 ≤ f < total_frames p → zlookup rs f = Some c → frame_get_ref f p = Ret c p.
Proof.
  intros H Hf Hc. unfold frame_get_ref, kbind, kget. rewrite (po_refs _ _ _ H).
  replace (total_frames p <=? f) with false by (symmetry; apply Z.leb_gt; lia). unfold kget_opt. by rewrite Hc.
Qed.

(** ** Properties *)

(** [pmm_first_free] gives the first frame at or above the kernel's memory that
    no one uses, and [NO_FRAME] only when all of them, up to the last whole word of
    the bitmap, are used; it changes the bitmap only below the kernel's limit. *)
Theorem first_free_ok p b rs : pmm_ok p b rs → ∃ r b', pmm_first_free p = Ret r (with_bitmap b' p) ∧ pmm_ok (with_bitmap b' p) b' rs ∧
  (∀ g, 0 ≤ g → bit b g = true → bit b' g = true) ∧ (∀ g, 0 ≤ g → bit b' g = true → bit b g = true ∨ g < limit_frame p) ∧
  (r = NO_FRAME ∧ (∀ f, 0 ≤ f → limit_frame p ≤ f < 32 * (total_frames p / 32) → bit b f = true) ∨
   0 ≤ r ∧ limit_frame p ≤ r < total_frames p ∧ bit b r = false ∧ bit b' r = false ∧ ∀ f, 0 ≤ f → limit_frame p ≤ f < r → bit b f = true).
Proof. exact (first_free_run p b rs). Qed.

(** 64 frames, the first three used, the kernel below frame 2. *)
Definition demo_pmm : pmm := mk_pmm (Some [7; 0; 0]) (Some (replicate 64 0)) 64 8192 true.
Lemma demo_pmm_ok : pmm_ok demo_pmm [7; 0; 0] (replicate 64 0).
Proof.
  split; try done; cbn -[zlookup replicate].
  - repeat constructor; done.
  - by apply Forall_replicate.
  - intros f c Hf Hc Hp. unfold zlookup in Hc. destruct (f <? 0); [done|]. apply lookup_replicate in Hc as [-> _]. lia.
Qed.
Lemma first_free_ok_witness : pmm_first_free demo_pmm = Ret 3 demo_pmm ∧ ∃ r b', pmm_first_free demo_pmm = Ret r (with_bitmap b' demo_pmm).
Proof.
  split; [by vm_compute|]. destruct (first_free_ok demo_pmm _ _ demo_pmm_ok) as (r & b' & E & _). by exists r, b'.
Defined.
