(* ===== verification/Mmu.v ===== *)
(** * Page tables

    Models [kernel/arch/x86_64/mmu/mmu.c] and the paging part of
    [kernel/cpu/paging.c]: four levels of tables of 512 entries, shared between
    address spaces in the kernel's part, cloned copy-on-write in the user's part.
    Physical memory is read and written in aligned 64-bit words; a table is named
    by its physical address, which is what [phys_to_virt] gives access to.  Each
    function is one step; the invalidation of cached translations is
    modelled in [Smp]. *)

From stdpp Require Import base numbers list gmap.
From Stdlib Require Import ZArith Lia.
From S2P Require Import Prelude Pmm.

#[local] Open Scope Z_scope.

Definition MMU_PRESENT : Z := 1.
Definition MMU_WRITABLE : Z := 2.
Definition MMU_USER : Z := 4.
Definition MMU_COW : Z := 512.
Definition PHYSMAP_BASE : Z := 18446603336221196288.
Definition FB_VIRT_BASE : Z := 18446620928407240704.
Definition KHEAP_START : Z := 18446638520593285120.
Definition KHEAP_INITIAL_SIZE : Z := 16777216.

(** The frame allocator; the words of physical memory; the [mmu_context_t] that
    are allocated, each with the physical address of its first table; the next
    address [kmalloc] gives; [kernel_directory], [current_directory] and CR3. *)
Record mmu := mk_mmu {
  mm_pmm : pmm;
  mm_word : Z → Z;
  mm_ctx : gmap Z Z;
  mm_next : Z;
  mm_kernel : Z;
  mm_current : Z;
  mm_cr3 : Z }.
Definition with_mm_pmm (v : pmm) (x : mmu) : mmu := mk_mmu v (mm_word x) (mm_ctx x) (mm_next x) (mm_kernel x) (mm_current x) (mm_cr3 x).
Definition with_mm_word (v : Z → Z) (x : mmu) : mmu := mk_mmu (mm_pmm x) v (mm_ctx x) (mm_next x) (mm_kernel x) (mm_current x) (mm_cr3 x).
Definition with_mm_ctx (v : gmap Z Z) (x : mmu) : mmu := mk_mmu (mm_pmm x) (mm_word x) v (mm_next x) (mm_kernel x) (mm_current x) (mm_cr3 x).
Definition with_mm_next (v : Z) (x : mmu) : mmu := mk_mmu (mm_pmm x) (mm_word x) (mm_ctx x) v (mm_kernel x) (mm_current x) (mm_cr3 x).
Definition with_mm_kernel (v : Z) (x : mmu) : mmu := mk_mmu (mm_pmm x) (mm_word x) (mm_ctx x) (mm_next x) v (mm_current x) (mm_cr3 x).
Definition with_mm_current (v : Z) (x : mmu) : mmu := mk_mmu (mm_pmm x) (mm_word x) (mm_ctx x) (mm_next x) (mm_kernel x) v (mm_cr3 x).
Definition with_mm_cr3 (v : Z) (x : mmu) : mmu := mk_mmu (mm_pmm x) (mm_word x) (mm_ctx x) (mm_next x) (mm_kernel x) (mm_current x) v.

#[local] Open Scope kernel_scope.

Definition pm {A} (m : kM pmm A) : kM mmu A := λ s,
  match m (mm_pmm s) with
  | Ret a p => Ret a (with_mm_pmm p s)
  | Hang p => Hang (with_mm_pmm p s)
  | Panic p => Panic (with_mm_pmm p s)
  | Fault => Fault
  | NoFuel => NoFuel
  end.

(** ** Words, entries, frames *)

Definition set_word (a v : Z) (m : Z → Z) : Z → Z := λ x, if x =? a then v else m x.
Definition zero_page (a : Z) (m : Z → Z) : Z → Z := λ x, if (a <=? x) && (x <? a + 4096) then 0 else m x.
Definition copy_page (from to : Z) (m : Z → Z) : Z → Z := λ x, if (to <=? x) && (x <? to + 4096) then m (x - to + from) else m x.

Definition PML4_IDX (v : Z) : Z := Z.land (Z.shiftr v 39) 511.
Definition PDPT_IDX (v : Z) : Z := Z.land (Z.shiftr v 30) 511.
Definition PD_IDX (v : Z) : Z := Z.land (Z.shiftr v 21) 511.
Definition PT_IDX (v : Z) : Z := Z.land (Z.shiftr v 12) 511.

(** [x & ~0xFFFULL]; [x & 0xFFF]; [x & flag] as a condition *)
Definition PAGE_FRAME (e : Z) : Z := Z.ldiff e 4095.
Definition flags_of (e : Z) : Z := Z.land e 4095.
Definition has_flag (e flag : Z) : bool := negb (Z.land e flag =? 0).
Definition PAGE_SET_FRAME (e f : Z) : Z := Z.lor (flags_of e) (PAGE_FRAME f).
Definition PAGE_SET_FLAGS (e flags : Z) : Z := Z.lor (PAGE_FRAME e) flags.
Definition entry_at (t i : Z) : Z := t + 8 * i.

Definition load (a : Z) : kM mmu Z := let* s := kget in kret (mm_word s a).
Definition store (a v : Z) : kM mmu unit := kmodify (λ s, with_mm_word (set_word a v (mm_word s)) s).
Definition get_ctx (ctx : Z) : kM mmu Z := kget_opt (λ s, mm_ctx s !! ctx).

(** ** Tables *)

Definition alloc_table : kM mmu Z :=
  let* frame := pm pmm_first_free in
  if frame =? NO_FRAME then kpanic
  else
    pm (pmm_set_frame frame) ;;;
    let phys := frame * 4096 in
    kmodify (λ s, with_mm_word (zero_page phys (mm_word s)) s) ;;;
    kret phys.

Definition free_page_table (table : Z) : kM mmu unit := pm (frame_remove_ref (u32 (table / 4096))).

Definition get_or_alloc_table (parent index flags : Z) : kM mmu Z :=
  let* e := load (entry_at parent index) in
  if negb (has_flag e MMU_PRESENT) then
    let* phys := alloc_table in
    store (entry_at parent index) (Z.lor phys 7) ;;;
    kret phys
  else
    (if has_flag flags MMU_USER then store (entry_at parent index) (Z.lor e MMU_USER) else kret tt) ;;;
    let* e := load (entry_at parent index) in
    kret (PAGE_FRAME e).

(** The address of the last entry for [virt], if all tables above it are there. *)
Definition mmu_get_entry (ctx virt : Z) : kM mmu (option Z) :=
  let* pml4 := get_ctx ctx in
  let* e := load (entry_at pml4 (PML4_IDX virt)) in
  if negb (has_flag e MMU_PRESENT) then kret None
  else
    let* e := load (entry_at (PAGE_FRAME e) (PDPT_IDX virt)) in
    if negb (has_flag e MMU_PRESENT) then kret None
    else
      let* e := load (entry_at (PAGE_FRAME e) (PD_IDX virt)) in
      if negb (has_flag e MMU_PRESENT) then kret None
      else kret (Some (entry_at (PAGE_FRAME e) (PT_IDX virt))).

Definition get_tables (pml4 virt flags : Z) : kM mmu Z :=
  let* pdpt := get_or_alloc_table pml4 (PML4_IDX virt) flags in
  let* pd := get_or_alloc_table pdpt (PDPT_IDX virt) flags in
  get_or_alloc_table pd (PD_IDX virt) flags.

Definition mmu_map_page (ctx virt phys flags : Z) : kM mmu Z :=
  let* pml4 := get_ctx ctx in
  let* pt := get_tables pml4 virt flags in
  store (entry_at pt (PT_IDX virt)) (Z.lor (Z.lor (PAGE_FRAME phys) flags) MMU_PRESENT) ;;;
  kret 0.

Definition mmu_unmap_page (ctx virt : Z) : kM mmu unit :=
  let* o := mmu_get_entry ctx virt in
  match o with None => kret tt | Some a => store a 0 end.

Definition mmu_switch (ctx : Z) : kM mmu unit :=
  let* pml4 := get_ctx ctx in kmodify (with_mm_cr3 pml4).

(** [get_page]: the address of the entry, or NULL. *)
Definition get_page (virt : Z) (make : bool) (dir : Z) : kM mmu (option Z) :=
  let* o := mmu_get_entry dir virt in
  match o with
  | Some a => kret (Some a)
  | None =>
      if make then
        let* pml4 := get_ctx dir in
        let* pt := get_tables pml4 virt 7 in
        kret (Some (entry_at pt (PT_IDX virt)))
      else kret None
  end.

Definition switch_page_directory (dir : Z) : kM mmu unit :=
  kmodify (with_mm_current dir) ;;; mmu_switch dir.
Definition unmap_page (virt : Z) : kM mmu unit :=
  let* s := kget in mmu_unmap_page (mm_current s) virt.
Definition promote_to_user_table (dir start len : Z) : kM mmu unit := kret tt.

(** ** Cloning *)

(** [e & ~MMU_WRITABLE | MMU_COW] *)
Definition cow (e : Z) : Z := Z.lor (Z.ldiff e MMU_WRITABLE) MMU_COW.

(** The body of the loop at the leaf level. *)
Definition clone_leaf (cow_enabled : bool) (src table i : Z) : kM mmu unit :=
  let* e := load (entry_at src i) in
  store (entry_at table i) e ;;;
  (if cow_enabled && has_flag e MMU_USER && has_flag e MMU_WRITABLE
   then
     store (entry_at src i) (cow e) ;;;
     let* t := load (entry_at table i) in
     store (entry_at table i) (cow t)
   else kret tt) ;;;
  let* t := load (entry_at table i) in
  pm (frame_add_ref (u32 (PAGE_FRAME t / 4096))).

(** [clone_table] at level [3 - depth]. *)
Fixpoint clone_table (depth : nat) (cow_enabled : bool) (src : Z) : kM mmu Z :=
  let* table := alloc_table in
  kfor 512 0 (λ i,
    let* e := load (entry_at src i) in
    if negb (has_flag e MMU_PRESENT) then kret tt
    else match depth with
         | S depth =>
             let* child := clone_table depth cow_enabled (PAGE_FRAME e) in
             let* e := load (entry_at src i) in
             store (entry_at table i) (Z.lor child (flags_of e))
         | O => clone_leaf cow_enabled src table i
         end) ;;;
  kret table.

(** [free_table] at level [3 - depth]. *)
Fixpoint free_table (depth : nat) (table : Z) : kM mmu unit :=
  kfor 512 0 (λ i,
    let* e := load (entry_at table i) in
    if negb (has_flag e MMU_PRESENT) then kret tt
    else match depth with
         | S depth => free_table depth (PAGE_FRAME e)
         | O => pm (frame_remove_ref (u32 (PAGE_FRAME e / 4096)))
         end) ;;;
  free_page_table table.

(** [if (!(parent->entries\[i\] & MMU_PRESENT)) continue; ...] *)
Definition for_present (n : nat) (first parent : Z) (body : Z → Z → kM mmu unit) : kM mmu unit :=
  kfor n first (λ i,
    let* e := load (entry_at parent i) in
    if negb (has_flag e MMU_PRESENT) then kret tt else body i e).

(** Links the clone of the child that entry [i] of [src] names. *)
Definition link_clone (src dst i : Z) (clone : Z → kM mmu Z) : kM mmu unit :=
  let* e := load (entry_at src i) in
  let* child := clone (PAGE_FRAME e) in
  let* e := load (entry_at src i) in
  store (entry_at dst i) (Z.lor child (flags_of e)).

(** The second page directory of the first gigabyte: the identity map of the kernel
    is shared, the user's part is cloned. *)
Definition clone_low_pd (src_pd : Z) : kM mmu Z :=
  let* new_pd := alloc_table in
  for_present 512 0 src_pd (λ k e,
    if k <? 64 then store (entry_at new_pd k) e
    else link_clone src_pd new_pd k (clone_table 0 true)) ;;;
  kret new_pd.
Definition clone_low_pdpt (src_pdpt : Z) : kM mmu Z :=
  let* new_pdpt := alloc_table in
  for_present 512 0 src_pdpt (λ j _,
    if j =? 0 then link_clone src_pdpt new_pdpt j clone_low_pd
    else link_clone src_pdpt new_pdpt j (clone_table 1 true)) ;;;
  kret new_pdpt.

Definition mmu_clone_user (src : Z) : kM mmu Z :=
  let* new_pml4 := alloc_table in
  let* s := kget in
  let ctx := mm_next s in
  kmodify (with_mm_next (ctx + 16)) ;;;
  kmodify (with_mm_ctx (<[ctx := new_pml4]> (mm_ctx s))) ;;;
  let* pml4 := get_ctx src in
  for_present 512 0 pml4 (λ i e,
    if 256 <=? i then store (entry_at new_pml4 i) e
    else if i =? 0 then link_clone pml4 new_pml4 i clone_low_pdpt
    else link_clone pml4 new_pml4 i (clone_table 2 true)) ;;;
  kret ctx.
Definition clone_page_directory (src : Z) : kM mmu Z := mmu_clone_user src.

(** ** Freeing *)

Definition kfree_ctx (dir : Z) : kM mmu unit :=
  get_ctx dir ;;; kmodify (λ s, with_mm_ctx (delete dir (mm_ctx s)) s).

Definition free_low_pd (pd : Z) : kM mmu unit :=
  for_present 448 64 pd (λ _ e, free_table 0 (PAGE_FRAME e)) ;;;
  free_page_table pd.
Definition free_low_pdpt (pdpt : Z) : kM mmu unit :=
  for_present 512 0 pdpt (λ j e, if j =? 0 then free_low_pd (PAGE_FRAME e) else free_table 1 (PAGE_FRAME e)) ;;;
  free_page_table pdpt.

Definition free_page_directory (dir : Z) : kM mmu unit :=
  let* s := kget in
  if (dir =? 0) || (dir =? mm_kernel s) then kret tt
  else
    let* pml4 := get_ctx dir in
    for_present 256 0 pml4 (λ i e, if i =? 0 then free_low_pdpt (PAGE_FRAME e) else free_table 2 (PAGE_FRAME e)) ;;;
    free_page_table pml4 ;;;
    kfree_ctx dir.

(** ** Faults *)

(** The first part of [page_fault]: what happened to a write to a page that is
    mapped copy-on-write, or [None] if it is not such a fault. *)
Inductive cow_outcome := CowDone | CowNoMemory.
Definition cow_fault (addr err_code : Z) : kM mmu (option cow_outcome) :=
  if has_flag err_code 1 && has_flag err_code 2 then
    let* s := kget in
    let* o := get_page addr false (mm_current s) in
    match o with
    | None => kret None
    | Some page =>
        let* e := load page in
        if has_flag e MMU_COW && has_flag e MMU_USER then
          let old_frame := PAGE_FRAME e in
          let* refs := pm (frame_get_ref (u32 (old_frame / 4096))) in
          if 1 <? refs then
            let* new_frame := pm pmm_first_free in
            if new_frame =? NO_FRAME then kret (Some CowNoMemory)
            else
              let new_phys := new_frame * 4096 in
              kmodify (λ s, with_mm_word (copy_page old_frame new_phys (mm_word s)) s) ;;;
              pm (frame_remove_ref (u32 (old_frame / 4096))) ;;;
              let* e := load page in
              store page (PAGE_SET_FRAME e new_phys) ;;;
              let* e := load page in
              store page (Z.lor (Z.ldiff e MMU_COW) MMU_WRITABLE) ;;;
              pm (frame_add_ref new_frame) ;;;
              kret (Some CowDone)
          else
            store page (Z.lor (Z.ldiff e MMU_COW) MMU_WRITABLE) ;;;
            kret (Some CowDone)
        else kret None
    end
  else kret None.

(** ** Start *)

(** [for (i = 0; i < len; i += 0x1000) mmu_map_page(ctx, virt + i, phys + i, flags)] *)
Fixpoint map_range (fuel : nat) (ctx virt phys i len flags : Z) : kM mmu unit :=
  match fuel with
  | O => λ _, NoFuel
  | S fuel =>
      if i <? len then
        mmu_map_page ctx (virt + i) (phys + i) flags ;;;
        map_range fuel ctx virt phys (i + 4096) len flags
      else kret tt
  end.
(** The initial pages of the kernel heap get frames of their own. *)
Fixpoint map_heap (fuel : nat) (ctx i stop : Z) : kM mmu unit :=
  match fuel with
  | O => λ _, NoFuel
  | S fuel =>
      if i <? stop then
        let* frame := pm pmm_first_free in
        if frame =? NO_FRAME then kpanic
        else
          pm (pmm_set_frame frame) ;;;
          mmu_map_page ctx i (frame * 4096) MMU_WRITABLE ;;;
          map_heap fuel ctx (i + 4096) stop
      else kret tt
  end.

(** The framebuffer the boot loader reports, if any. *)
Record fb_info := mk_fb { fb_addr : Z; fb_pitch : Z; fb_height : Z }.
Definition phys_limit (es : list mmap_entry) : Z :=
  foldl (λ m e, let stop := u64 (mm_addr e + mm_len e) in if m <? stop then stop else m) 134217728 es.

(** [init_paging]: the tables of the kernel; [kernel_directory] and its first table
    come from the boot allocator.  The heap is created on the mapped range by
    [create_heap]. *)
Definition init_paging (es : list mmap_entry) (fb : option fb_info) : kM mmu unit :=
  let* dir := pm (kmalloc_int 16 true) in
  let* pml4 := pm (kmalloc_int 4096 true) in
  kmodify (λ s, with_mm_kernel dir (with_mm_ctx (<[dir := pml4]> (mm_ctx s)) (with_mm_word (zero_page pml4 (mm_word s)) s))) ;;;
  pm (pmm_init_from_mmap es) ;;;
  pm pmm_reserve_early_memory ;;;
  pm (kmodify (with_ready true)) ;;;
  map_range (pages 0 67108864) dir 0 0 0 67108864 MMU_WRITABLE ;;;
  map_range (pages 0 (phys_limit es)) dir PHYSMAP_BASE 0 0 (phys_limit es) MMU_WRITABLE ;;;
  map_heap (pages 0 KHEAP_INITIAL_SIZE) dir KHEAP_START (KHEAP_START + KHEAP_INITIAL_SIZE) ;;;
  match fb with
  | None => kret tt
  | Some f =>
      let len := fb_pitch f * fb_height f + Z.land (fb_addr f) 4095 in
      map_range (pages 0 len) dir FB_VIRT_BASE (Z.ldiff (fb_addr f) 4095) 0 len MMU_WRITABLE
  end ;;;
  mmu_switch dir ;;;
  kmodify (with_mm_current dir).
