(* ===== verification/MmuInv.v ===== *)
(** * Page tables: translation

    The tables of an address space form a tree of pages; what the processor finds
    for an address is an entry of a table of the last level.  Mapping a page
    changes the entry of that page and of no other. *)

From stdpp Require Import base numbers list gmap.
From Stdlib Require Import ZArith Lia.
From S2P Require Import Prelude Pmm Mmu.

#[local] Open Scope Z_scope.

(** ** Trees of tables *)

Definition idx (i : Z) : Prop := 0 ≤ i < 512.
Definition present (e : Z) : bool := has_flag e MMU_PRESENT.

(** The table that the entries along a path lead to. *)
Fixpoint node (m : Z → Z) (t : Z) (p : list Z) : option Z :=
  match p with
  | [] => Some t
  | i :: p => let e := m (entry_at t i) in if present e then node m (PAGE_FRAME e) p else None
  end.
(** Entry [i] of that table; zero where there is no table. *)
Definition leaf (m : Z → Z) (t : Z) (p : list Z) (i : Z) : Z :=
  match node m t p with Some x => m (entry_at x i) | None => 0 end.

(** What the processor finds for an address. *)
Definition vpath (v : Z) : list Z := [PML4_IDX v; PDPT_IDX v; PD_IDX v].
Definition translate (m : Z → Z) (t v : Z) : Z := leaf m t (vpath v) (PT_IDX v).

Definition path_ok (d : nat) (p : list Z) : Prop := Forall idx p ∧ (length p ≤ d)%nat.
(** A page that is in use. *)
Definition page_ok (b : list Z) (total x : Z) : Prop := x mod 4096 = 0 ∧ 0 ≤ x < total * 4096 ∧ bit b (x / 4096) = true.

(** Up to depth [d] the tables below [t] are pages in use, one for each path. *)
Record tree (m : Z → Z) (b : list Z) (total t : Z) (d : nat) : Prop := {
  tr_inj : ∀ p q x, path_ok d p → path_ok d q → node m t p = Some x → node m t q = Some x → p = q;
  tr_page : ∀ p x, path_ok d p → node m t p = Some x → page_ok b total x }.

Lemma node_app m t p q : node m t (p ++ q) = match node m t p with Some x => node m x q | None => None end.
Proof. revert t. induction p as [|i p IH]; intros t; cbn; [done|]. destruct (present _); [apply IH|done]. Qed.
Lemma node_snoc m t p i x : node m t p = Some x → node m t (p ++ [i]) = if present (m (entry_at x i)) then Some (PAGE_FRAME (m (entry_at x i))) else None.
Proof. intros E. by rewrite node_app, E. Qed.

Lemma path_ok_app d p q : path_ok d (p ++ q) ↔ path_ok d p ∧ Forall idx q ∧ (length p + length q ≤ d)%nat.
Proof. unfold path_ok. rewrite Forall_app, length_app. split; [intros [[? ?] ?]|intros [[? ?] [? ?]]]; split_and!; try done; lia. Qed.

(** Words of two different pages are different words. *)
Definition in_page (x a : Z) : Prop := x ≤ a < x + 4096.
Lemma entry_in_page x i : idx i → in_page x (entry_at x i).
Proof. unfold idx, in_page, entry_at. lia. Qed.
Lemma pages_apart x y a : x mod 4096 = 0 → y mod 4096 = 0 → in_page x a → in_page y a → x = y.
Proof.
  unfold in_page. intros Hx Hy Ha Hb. pose proof (Z.div_mod x 4096 ltac:(lia)). pose proof (Z.div_mod y 4096 ltac:(lia)).
  assert (x / 4096 = y / 4096); [|lia]. lia.
Qed.
Lemma words_apart x y i j : x mod 4096 = 0 → y mod 4096 = 0 → idx i → idx j → entry_at x i = entry_at y j → x = y ∧ i = j.
Proof.
  intros Hx Hy Hi Hj E. assert (x = y) as ->.
  { apply (pages_apart x y (entry_at x i) Hx Hy); [by apply entry_in_page|rewrite E; by apply entry_in_page]. }
  unfold entry_at in E. lia.
Qed.

(** Memory that agrees on the tables of depth below [d] gives the same tables. *)
Lemma node_ext m m' d t : (∀ p x i, path_ok d p → (length p < d)%nat → node m t p = Some x → idx i → m' (entry_at x i) = m (entry_at x i)) →
  ∀ p, path_ok d p → node m' t p = node m t p.
Proof.
  revert t. induction d as [|d IH]; intros t H p [Hp Hl].
  { destruct p; [done|cbn in Hl; lia]. }
  destruct p as [|i p]; [done|]. inversion Hp; subst. cbn [node]. cbn in Hl.
  rewrite (H [] t i); [|split; [done|cbn; lia]|cbn; lia|done|done].
  destruct (present (m (entry_at t i))) eqn:E; [|done]. apply IH; [|split; [done|lia]].
  intros q x j [Hq Hlq] Hlt Hn Hj. apply (H (i :: q) x j); [split; [by constructor|cbn; lia]|cbn; lia| |done]. cbn. by rewrite E.
Qed.

(** The flags above the last level do not matter. *)
Definition same_shape (e e' : Z) : Prop := present e = present e' ∧ PAGE_FRAME e = PAGE_FRAME e'.
Lemma node_shape m m' t p : (∀ a, same_shape (m' a) (m a)) → node m' t p = node m t p.
Proof. intros H. revert t. induction p as [|i p IH]; intros t; [done|]. cbn. destruct (H (entry_at t i)) as [-> ->]. destruct (present _); [apply IH|done]. Qed.

Lemma set_word_same a v m : set_word a v m a = v.
Proof. unfold set_word. by rewrite Z.eqb_refl. Qed.
Lemma set_word_ne a v m x : x ≠ a → set_word a v m x = m x.
Proof. intros. unfold set_word. by replace (x =? a) with false by (symmetry; by apply Z.eqb_neq). Qed.
Lemma zero_page_in y m a : in_page y a → zero_page y m a = 0.
Proof. unfold in_page, zero_page. intros. replace ((y <=? a) && (a <? y + 4096)) with true; [done|]. symmetry. apply andb_true_iff. rewrite Z.leb_le, Z.ltb_lt. lia. Qed.
Lemma zero_page_out y m a : ¬ in_page y a → zero_page y m a = m a.
Proof. unfold in_page, zero_page. intros. destruct (Z.leb_spec y a), (Z.ltb_spec a (y + 4096)); cbn; try done. lia. Qed.

(** ** Flags *)

Lemma page_frame_lor x f : x mod 4096 = 0 → 0 ≤ x → 0 ≤ f < 4096 → PAGE_FRAME (Z.lor x f) = x.
Proof.
  intros Hx H0 Hf. unfold PAGE_FRAME. change 4095 with (Z.ones 12). rewrite Z.ldiff_ones_r by lia.
  rewrite Z.shiftr_lor. rewrite (Z.shiftr_div_pow2 f) by lia. rewrite (Z.div_small f) by (change (2 ^ 12) with 4096; lia). rewrite Z.lor_0_r.
  rewrite Z.shiftr_div_pow2, Z.shiftl_mul_pow2 by lia. change (2 ^ 12) with 4096. pose proof (Z.div_mod x 4096 ltac:(lia)). lia.
Qed.
Lemma page_frame_aligned e : PAGE_FRAME e mod 4096 = 0.
Proof.
  unfold PAGE_FRAME. change 4095 with (Z.ones 12). rewrite Z.ldiff_ones_r by lia. rewrite Z.shiftl_mul_pow2 by lia. change (2 ^ 12) with 4096.
  apply Z.mod_mul. lia.
Qed.
Lemma page_frame_or_small e f : 0 ≤ f < 4096 → PAGE_FRAME (Z.lor e f) = PAGE_FRAME e.
Proof.
  intros Hf. unfold PAGE_FRAME. change 4095 with (Z.ones 12). rewrite !Z.ldiff_ones_r by lia. f_equal. rewrite Z.shiftr_lor.
  rewrite (Z.shiftr_div_pow2 f) by lia. rewrite (Z.div_small f) by (change (2 ^ 12) with 4096; lia). apply Z.lor_0_r.
Qed.
Lemma has_flag_lor e f k : has_flag (Z.lor e f) k = has_flag e k || has_flag f k.
Proof.
  unfold has_flag. rewrite Z.land_lor_distr_l. destruct (Z.eqb_spec (Z.land e k) 0) as [->|H1], (Z.eqb_spec (Z.land f k) 0) as [->|H2]; cbn.
  - done.
  - rewrite Z.lor_0_l. by apply negb_true_iff, Z.eqb_neq.
  - rewrite Z.lor_0_r. by apply negb_true_iff, Z.eqb_neq.
  - apply negb_true_iff, Z.eqb_neq. intros [? ?]%Z.lor_eq_0_iff. done.
Qed.

(** ** New tables *)

Definition set_bits (b : list Z) (s : mmu) : mmu := with_mm_pmm (with_bitmap b (mm_pmm s)) s.
Definition total (s : mmu) : Z := total_frames (mm_pmm s).

(** At most [n] frames at or above [lim] are used in [b'] and not in [b]; at most [n]
    frames that the allocator may give out are free. *)
Definition uses (lim : Z) (b b' : list Z) (n : nat) : Prop :=
  ∃ l, (length l ≤ n)%nat ∧ ∀ g, 0 ≤ g → bit b' g = true → bit b g = true ∨ g < lim ∨ g ∈ l.
Definition few (p : pmm) (b : list Z) (n : nat) : Prop :=
  ∃ l, (length l ≤ n)%nat ∧ ∀ f, 0 ≤ f → limit_frame p ≤ f < 32 * (total_frames p / 32) → bit b f = true ∨ f ∈ l.
Lemma uses_refl lim b n : uses lim b b n.
Proof. exists []. split; [cbn; lia|]. intros. by left. Qed.
Lemma uses_trans lim b b1 b2 n1 n2 : uses lim b b1 n1 → uses lim b1 b2 n2 → uses lim b b2 (n1 + n2).
Proof.
  intros (l1 & H1 & U1) (l2 & H2 & U2). exists (l1 ++ l2). rewrite length_app. split; [lia|]. intros g Hg Hb.
  rewrite elem_of_app. destruct (U2 g Hg Hb) as [Hb1|[?|?]]; [|tauto|tauto]. destruct (U1 g Hg Hb1) as [?|[?|?]]; tauto.
Qed.
Lemma few_uses p b b1 n1 n2 : uses (limit_frame p) b b1 n1 → few p b1 n2 → few p b (n1 + n2).
Proof.
  intros (l1 & H1 & U1) (l2 & H2 & F2). exists (l1 ++ l2). rewrite length_app. split; [lia|]. intros f Hf Hl.
  rewrite elem_of_app. destruct (F2 f Hf Hl) as [Hb|?]; [|tauto]. destruct (U1 f Hf Hb) as [?|[?|?]]; [tauto|lia|tauto].
Qed.
Lemma few_le p b n n' : (n ≤ n')%nat → few p b n → few p b n'.
Proof. intros Hn (l & Hl & F). exists l. split; [lia|done]. Qed.
Lemma uses_le lim b b' n n' : (n ≤ n')%nat → uses lim b b' n → uses lim b b' n'.
Proof. intros Hn (l & Hl & F). exists l. split; [lia|done]. Qed.

(** [alloc_table]: a page that was free, zeroed, or a panic when there is none. *)
Lemma pm_run {A} (c : kM pmm A) s a p : c (mm_pmm s) = Ret a p → pm c s = Ret a (with_mm_pmm p s).
Proof. intros E. unfold pm. by rewrite E. Qed.
Lemma alloc_table_run s b rs : pmm_ok (mm_pmm s) b rs →
  (∃ s', alloc_table s = Panic s' ∧ no_frame (mm_pmm s') ∧ few (mm_pmm s) b 0) ∨
  ∃ y b', alloc_table s = Ret y (with_mm_word (zero_page y (mm_word s)) (set_bits b' s)) ∧ pmm_ok (mm_pmm (set_bits b' s)) b' rs ∧
    page_ok b' (total s) y ∧ bit b (y / 4096) = false ∧ (∀ g, 0 ≤ g → bit b g = true → bit b' g = true) ∧ uses (limit_frame (mm_pmm s)) b b' 1.
Proof.
  intros H. destruct (first_free_run _ b rs H) as (r & b1 & E & H1 & M & D & R). unfold alloc_table. rewrite (kbind_ret _ _ _ _ _ (pm_run _ _ _ _ E)).
  destruct R as [[-> Hall]|(Hr0 & Hr & Hb & Hb1 & _)].
  { left. eexists. split; [done|]. split; [exists b1; split; [done|]; intros f Hf Hl; by apply M, Hall|]. exists []. split; [done|]. intros f Hf Hl. left. by apply Hall. }
  right.
  replace (r =? NO_FRAME) with false by (symmetry; apply Z.eqb_neq; unfold NO_FRAME; destruct H; lia).
  destruct (set_frame_run (with_bitmap b1 (mm_pmm s)) b1 rs r H1 ltac:(cbn; lia)) as (b2 & E2 & H2 & B2).
  exists (r * 4096), b2. rewrite (kbind_ret _ _ _ _ _ (pm_run _ (with_mm_pmm (with_bitmap b1 (mm_pmm s)) s) _ _ E2)). split; [done|]. split; [exact H2|].
  rewrite Z.div_mul by lia. split; [|split; [done|]].
  - unfold page_ok. rewrite Z.mod_mul, Z.div_mul by lia. split; [done|]. split; [unfold total; lia|]. rewrite B2, Z.eqb_refl by done. apply orb_true_r.
  - split; [intros g Hg Hgb; rewrite B2 by done; by rewrite (M g Hg Hgb)|]. exists [r]. split; [done|]. intros g Hg. rewrite B2 by done.
    intros [Hb'%D|Hb'%Z.eqb_eq]%orb_true_iff; [tauto|done|]. right. right. subst. apply list_elem_of_here.
Qed.

Lemma page_ok_mono b b' t x : page_ok b t x → (∀ g, 0 ≤ g → bit b g = true → bit b' g = true) → page_ok b' t x.
Proof. intros (H1 & H2 & H3) M. split; [done|]. split; [done|]. apply M; [|done]. apply Z.div_pos; lia. Qed.
Lemma tree_fresh m b t r d p x y : tree m b t r d → path_ok d p → node m r p = Some x → bit b (y / 4096) = false → x ≠ y.
Proof. intros T Hp Hx Hy ->. destruct (tr_page _ _ _ _ _ T p y Hp Hx) as (_ & _ & Hb). congruence. Qed.

(** A fresh zeroed page [y], hung into entry [i] of the table at path [p]. *)
Definition hang (m : Z → Z) (x i y f : Z) : Z → Z := set_word (entry_at x i) (Z.lor y f) (zero_page y m).

Section hang.
Context (m : Z → Z) (b b' : list Z) (t r x i y f : Z) (d : nat) (p : list Z).
Context (T : tree m b t r d) (Hp : path_ok d (p ++ [i])) (Hx : node m r p = Some x) (Hnone : present (m (entry_at x i)) = false).
Context (Hy : page_ok b' t y) (Hfree : bit b (y / 4096) = false) (Hmono : ∀ g, 0 ≤ g → bit b g = true → bit b' g = true).
Context (Hf : 0 ≤ f < 4096) (Hpres : has_flag f MMU_PRESENT = true).

Lemma hang_words q z j : path_ok d q → node m r q = Some z → idx j → (z, j) ≠ (x, i) → hang m x i y f (entry_at z j) = m (entry_at z j).
Proof.
  intros Hq Hz Hj Hne. pose proof (tree_fresh _ _ _ _ _ q z y T Hq Hz Hfree) as Hzy. destruct (tr_page _ _ _ _ _ T q z Hq Hz) as (Ha & _ & _).
  apply path_ok_app in Hp as (Hp' & Hi & _). inversion Hi; subst. destruct (tr_page _ _ _ _ _ T p x Hp' Hx) as (Hxa & _ & _). destruct Hy as (Hya & _ & _).
  unfold hang. rewrite set_word_ne, zero_page_out; [done| |].
  - intros Hin. apply Hzy. exact (pages_apart z y _ Ha Hya (entry_in_page z j Hj) Hin).
  - intros E. apply words_apart in E as [-> ->]; done.
Qed.
Lemma hang_entry : hang m x i y f (entry_at x i) = Z.lor y f ∧ present (Z.lor y f) = true ∧ PAGE_FRAME (Z.lor y f) = y.
Proof.
  unfold hang. rewrite set_word_same. split; [done|]. split; [unfold present; by rewrite has_flag_lor, Hpres, orb_true_r|].
  destruct Hy as (? & ? & _). apply page_frame_lor; lia.
Qed.
Lemma hang_new_words j : idx j → hang m x i y f (entry_at y j) = 0.
Proof.
  intros Hj. apply path_ok_app in Hp as (Hp' & Hi & _). inversion Hi; subst. destruct (tr_page _ _ _ _ _ T p x Hp' Hx) as (Hxa & _ & _).
  destruct Hy as (Hya & _ & _). unfold hang. rewrite set_word_ne.
  - apply zero_page_in. by apply entry_in_page.
  - intros E. apply words_apart in E as [-> _]; try done. by apply (tree_fresh _ _ _ _ _ p x x T Hp' Hx).
Qed.

(** The tables afterwards: those before, and the new one. *)
Lemma hang_node q : path_ok d q → node (hang m x i y f) r q = if decide (q = p ++ [i]) then Some y else node m r q.
Proof.
  assert (idx i) as Hi by (apply path_ok_app in Hp as (_ & Hi & _); by inversion Hi).
  assert (path_ok d p) as Hp' by (by apply path_ok_app in Hp as (? & _)).
  induction q as [|j q IH] using rev_ind; intros Hq; [by destruct p|].
  apply path_ok_app in Hq as (Hq & Hj & Hlen). inversion Hj; subst. specialize (IH Hq). rewrite node_app, IH.
  destruct (decide (q = p ++ [i])) as [->|Hqp].
  - destruct (decide _) as [E|_]; [apply (f_equal length) in E; rewrite !length_app in E; cbn in E; lia|].
    cbn [node]. rewrite hang_new_words by done. cbn. rewrite node_app, (node_snoc _ _ _ _ _ Hx), Hnone. done.
  - rewrite node_app. destruct (node m r q) as [z|] eqn:Ez.
    + cbn [node]. destruct (decide ((z, j) = (x, i))) as [[= -> ->]|Hne].
      * assert (q = p) as -> by (by eapply (tr_inj _ _ _ _ _ T)). rewrite decide_True by done. destruct hang_entry as (-> & -> & ->). done.
      * rewrite decide_False; [by rewrite (hang_words q z j)|]. intros E. apply app_inj_tail in E as [-> ->]. rewrite Hx in Ez. by injection Ez as ->.
    + rewrite decide_False; [done|]. intros E. apply app_inj_tail in E as [-> ->]. congruence.
Qed.

Lemma hang_tree : tree (hang m x i y f) b' t r d.
Proof.
  split.
  - intros q q' z Hq Hq'. rewrite !hang_node by done. destruct (decide (q = _)) as [->|], (decide (q' = _)) as [->|]; intros E1 E2; try done.
    + injection E1 as <-. by destruct (tree_fresh _ _ _ _ _ q' y y T Hq' E2 Hfree).
    + injection E2 as <-. by destruct (tree_fresh _ _ _ _ _ q y y T Hq E1 Hfree).
    + by eapply (tr_inj _ _ _ _ _ T).
  - intros q z Hq. rewrite hang_node by done. destruct (decide _) as [->|]; [by intros [= <-]|]. intros E.
    eapply page_ok_mono; [|exact Hmono]. exact (tr_page _ _ _ _ _ T q z Hq E).
Qed.
Lemma hang_leaf q j : path_ok d q → length q = d → idx j → leaf (hang m x i y f) r q j = leaf m r q j.
Proof.
  intros Hq Hl Hj. unfold leaf. rewrite hang_node by done. destruct (decide (q = p ++ [i])) as [->|Hne].
  - rewrite hang_new_words by done. rewrite (node_snoc _ _ _ _ _ Hx), Hnone. done.
  - destruct (node m r q) as [z|] eqn:Ez; [|done]. apply (hang_words q z j); try done. intros [= -> ->].
    assert (q = p) as -> by (apply path_ok_app in Hp as (? & _); by eapply (tr_inj _ _ _ _ _ T)). apply path_ok_app in Hp as (_ & _ & Hlen). cbn in Hlen. lia.
Qed.
End hang.

(** ** Mapping a page *)

Definition wr (m : Z → Z) (b : list Z) (s : mmu) : mmu := with_mm_word m (set_bits b s).
(** Words of pages that were in use, other than those of [xs], are as before. *)
Definition frame_kept (m m' : Z → Z) (b : list Z) (xs : list Z) : Prop :=
  ∀ z a, z mod 4096 = 0 → bit b (z / 4096) = true → z ∉ xs → in_page z a → m' a = m a.

(** The tables are those of before, and pages that were free. *)
Definition tables_from (m m' : Z → Z) (b : list Z) (r : Z) : Prop :=
  ∀ p x, path_ok 3 p → node m' r p = Some x → node m r p = Some x ∨ bit b (x / 4096) = false.
Lemma tables_from_trans m m1 m2 b b1 r : tables_from m m1 b r → tables_from m1 m2 b1 r → (∀ g, 0 ≤ g → bit b g = true → bit b1 g = true) →
  (∀ z, bit b z = true → 0 ≤ z) → tables_from m m2 b r.
Proof.
  intros F1 F2 M Hpos p x Hp Hx. destruct (F2 p x Hp Hx) as [H|H]; [by apply F1|right]. destruct (bit b (x / 4096)) eqn:E; [|done].
  rewrite <-H. symmetry. apply M; [by apply Hpos|done].
Qed.

Lemma set_bits_same s b rs : pmm_ok (mm_pmm s) b rs → set_bits b s = s.
Proof. intros H. unfold set_bits. rewrite (with_bitmap_same _ b rs H). by destruct s. Qed.

Lemma wr_pmm s b rs m : pmm_ok (mm_pmm s) b rs → pmm_ok (mm_pmm (wr m b s)) b rs.
Proof. intros H. cbn. by rewrite (with_bitmap_same _ b rs H). Qed.

(** The user flag of an entry above the last level. *)
Lemma flag_run m b t r d p i x : tree m b t r d → path_ok d (p ++ [i]) → node m r p = Some x →
  let m' := set_word (entry_at x i) (Z.lor (m (entry_at x i)) MMU_USER) m in
  tree m' b t r d ∧ (∀ q, node m' r q = node m r q) ∧ (∀ q j, path_ok d q → length q = d → idx j → leaf m' r q j = leaf m r q j) ∧
  PAGE_FRAME (m' (entry_at x i)) = PAGE_FRAME (m (entry_at x i)) ∧ frame_kept m m' b [x].
Proof.
  intros T Hp Hx m'. apply path_ok_app in Hp as (Hp & Hi & Hlen). inversion Hi; subst. cbn in Hlen.
  assert (∀ a, same_shape (m' a) (m a)) as Hs.
  { intros a. subst m'. unfold set_word. destruct (Z.eqb_spec a (entry_at x i)) as [->|]; [|done]. split.
    - unfold present. rewrite has_flag_lor. change (has_flag MMU_USER MMU_PRESENT) with false. by rewrite orb_false_r.
    - by apply page_frame_or_small. }
  assert (∀ q, node m' r q = node m r q) as Hn by (intros; by apply node_shape). destruct (tr_page _ _ _ _ _ T p x Hp Hx) as (Hxa & _).
  split; [|split; [done|split; [|split; [apply Hs|]]]].
  - split; intros *; rewrite !Hn; apply T.
  - intros q j Hq Hl Hj. unfold leaf. rewrite Hn. destruct (node m r q) as [z|] eqn:Ez; [|done]. apply set_word_ne. intros E.
    destruct (tr_page _ _ _ _ _ T q z Hq Ez) as (Hza & _). apply words_apart in E as [-> _]; try done.
    assert (q = p) as -> by (by eapply (tr_inj _ _ _ _ _ T)). lia.
  - intros z a Hz Hb Hne Ha. apply set_word_ne. intros ->. apply Hne, list_elem_of_singleton. eapply (pages_apart z x); try done. by apply entry_in_page.
Qed.

Lemma load_run s a : load a s = Ret (mm_word s a) s.
Proof. done. Qed.
Lemma goa_run s b rs r p i x flags : pmm_ok (mm_pmm s) b rs → tree (mm_word s) b (total s) r 3 → path_ok 3 (p ++ [i]) → node (mm_word s) r p = Some x →
  (∃ s', get_or_alloc_table x i flags s = Panic s' ∧ no_frame (mm_pmm s') ∧ few (mm_pmm s) b 0) ∨
  ∃ y m' b', get_or_alloc_table x i flags s = Ret y (wr m' b' s) ∧ pmm_ok (mm_pmm (wr m' b' s)) b' rs ∧ tree m' b' (total s) r 3 ∧
    (∀ q z, path_ok 3 q → node (mm_word s) r q = Some z → node m' r q = Some z) ∧ node m' r (p ++ [i]) = Some y ∧ (∀ q j, path_ok 3 q → length q = 3%nat → idx j → leaf m' r q j = leaf (mm_word s) r q j) ∧
    (∀ g, 0 ≤ g → bit b g = true → bit b' g = true) ∧ frame_kept (mm_word s) m' b [x] ∧ tables_from (mm_word s) m' b r ∧ uses (limit_frame (mm_pmm s)) b b' 1.
Proof.
  intros H T Hp Hx. set (m := mm_word s) in *. unfold get_or_alloc_table. rewrite (kbind_ret _ _ _ _ _ (load_run s (entry_at x i))). fold m.
  destruct (present (m (entry_at x i))) eqn:Epr; unfold present in Epr; rewrite Epr; cbn [negb]; fold (present (m (entry_at x i))) in Epr.
  - right. destruct (flag_run m b (total s) r 3 p i x T Hp Hx) as (T1 & N1 & L1 & P1 & K1).
    set (m1 := set_word (entry_at x i) (Z.lor (m (entry_at x i)) MMU_USER) m) in *.
    assert (node m r (p ++ [i]) = Some (PAGE_FRAME (m (entry_at x i)))) as Hn by (by rewrite (node_snoc _ _ _ _ _ Hx), Epr).
    exists (PAGE_FRAME (m (entry_at x i))). destruct (has_flag flags MMU_USER).
    + exists m1, b. split; [|split; [by apply wr_pmm|split_and!; try done; [intros; by rewrite N1|by rewrite N1|intros q z Hq; rewrite N1 by done; by left|apply uses_refl]]].
      unfold kbind, store, kmodify, kget, kret. cbn [mm_word with_mm_word]. fold m m1. rewrite load_run. cbn [mm_word with_mm_word]. rewrite P1. unfold wr. by rewrite (set_bits_same s b rs H).
    + exists m, b. split; [|split; [by apply wr_pmm|split_and!; try done; [intros q z Hq; by left|apply uses_refl]]]. unfold kbind, kget, kret. fold m. unfold wr. rewrite (set_bits_same s b rs H). by destruct s.
  - destruct (alloc_table_run s b rs H) as [(s' & E & O)|(y & b' & E & H' & Hy & Hfree & Hmono & Huse)]; [left; exists s'; split; [unfold kbind; by rewrite E|done]|right].
    exists y, (hang m x i y 7), b'. rewrite (kbind_ret _ _ _ _ _ E). split; [done|]. split; [exact H'|].
    pose proof (hang_tree m b b' (total s) r x i y 7 3 p T Hp Hx Epr Hy Hfree Hmono ltac:(lia) eq_refl) as T1.
    assert (path_ok 3 p) as Hp' by (by apply path_ok_app in Hp as (? & _)).
    split; [done|]. split; [|split; [|split; [|split; [done|split; [|split; [|done]]]]]].
    + intros q z Hq Hz. rewrite (hang_node m b b' (total s) r x i y 7 3 p T Hp Hx Epr Hy Hfree ltac:(lia) eq_refl q Hq). rewrite decide_False; [done|].
      intros ->. by rewrite (node_snoc _ _ _ _ _ Hx), Epr in Hz.
    + rewrite (hang_node m b b' (total s) r x i y 7 3 p T Hp Hx Epr Hy Hfree ltac:(lia) eq_refl _ Hp). by rewrite decide_True.
    + intros q j Hq Hl Hj. by apply (hang_leaf m b b' (total s) r x i y 7 3 p T Hp Hx Epr Hy Hfree ltac:(lia) eq_refl).
    + intros z a Hz Hb Hne Ha. unfold hang. rewrite set_word_ne, zero_page_out; [done| |].
      * intros Hin. destruct Hy as (Hya & _). pose proof (pages_apart z y a Hz Hya Ha Hin) as ->. congruence.
      * intros ->. apply Hne, list_elem_of_singleton. apply path_ok_app in Hp as (_ & Hi & _). inversion Hi; subst.
        destruct (tr_page _ _ _ _ _ T p x Hp' Hx) as (Hxa & _). eapply (pages_apart z x); try done. by apply entry_in_page.
    + intros q z Hq. rewrite (hang_node m b b' (total s) r x i y 7 3 p T Hp Hx Epr Hy Hfree ltac:(lia) eq_refl q Hq).
      destruct (decide _); [|by left]. intros [= <-]. by right.
Qed.

Lemma idx_land x : idx (Z.land x 511).
Proof. unfold idx. change 511 with (Z.ones 9). rewrite Z.land_ones by lia. apply Z.mod_pos_bound. done. Qed.
Lemma vpath_ok v : path_ok 3 (vpath v) ∧ idx (PT_IDX v).
Proof. split; [|apply idx_land]. split; [|done]. repeat constructor; apply idx_land. Qed.

(** The page number of an address: the 36 bits that the four tables look at. *)
Definition page_number (v : Z) : Z := Z.land (Z.shiftr v 12) (Z.ones 36).
Lemma land_bit_eq x y k : Z.land x 511 = Z.land y 511 → 0 ≤ k < 9 → Z.testbit x k = Z.testbit y k.
Proof.
  intros E Hk. assert (Z.testbit (Z.land x 511) k = Z.testbit (Z.land y 511) k) as H by (by rewrite E).
  change 511 with (Z.ones 9) in H. rewrite !Z.land_spec, !Z.testbit_ones_nonneg in H by lia. replace (k <? 9) with true in H by (symmetry; apply Z.ltb_lt; lia).
  by rewrite !andb_true_r in H.
Qed.
Lemma same_page v v' : vpath v = vpath v' → PT_IDX v = PT_IDX v' → page_number v = page_number v'.
Proof.
  unfold vpath, PML4_IDX, PDPT_IDX, PD_IDX, PT_IDX. intros [= E1 E2 E3] E4. apply Z.bits_inj'. intros k Hk. unfold page_number.
  rewrite !Z.land_spec, !Z.testbit_ones_nonneg by lia. destruct (Z.ltb_spec k 36); [|by rewrite !andb_false_r]. rewrite !andb_true_r, !Z.shiftr_spec by lia.
  assert (∀ a i, Z.land (Z.shiftr v a) 511 = Z.land (Z.shiftr v' a) 511 → 0 ≤ a → k + 12 = i + a → 0 ≤ i < 9 → Z.testbit v (k + 12) = Z.testbit v' (k + 12)) as Hb.
  { intros a i E Ha Hi Hr. pose proof (land_bit_eq _ _ i E Hr) as H'. rewrite !Z.shiftr_spec in H' by lia. by rewrite Hi. }
  destruct (decide (k < 9)); [by apply (Hb 12 k); (done || lia)|]. destruct (decide (k < 18)); [by apply (Hb 21 (k - 9)); (done || lia)|].
  destruct (decide (k < 27)); [by apply (Hb 30 (k - 18)); (done || lia)|]. apply (Hb 39 (k - 27)); (done || lia).
Qed.

Lemma frame_kept_trans m m1 m2 b b1 xs ys : frame_kept m m1 b xs → frame_kept m1 m2 b1 ys → (∀ g, 0 ≤ g → bit b g = true → bit b1 g = true) →
  (∀ z, bit b z = true → 0 ≤ z) → frame_kept m m2 b (xs ++ ys).
Proof.
  intros K1 K2 M Hpos z a Hz Hb Hne Ha. rewrite elem_of_app in Hne. rewrite (K2 z a), (K1 z a); try done; try tauto. apply M; [by apply Hpos|done].
Qed.
Lemma bit_nonneg b z : bit b z = true → 0 ≤ z.
Proof.
  unfold bit, zlookup. destruct (Z.ltb_spec (z / 32) 0) as [|H]; [done|]. intros _. destruct (decide (0 ≤ z)); [done|].
  assert (z / 32 < 0); [|lia]. apply Z.div_lt_upper_bound; lia.
Qed.

(** The three tables above the last level for [v]. *)
Lemma get_tables_run s b rs r v flags : pmm_ok (mm_pmm s) b rs → tree (mm_word s) b (total s) r 3 →
  (∃ s', get_tables r v flags s = Panic s' ∧ no_frame (mm_pmm s') ∧ few (mm_pmm s) b 2) ∨
  ∃ y m' b' xs, get_tables r v flags s = Ret y (wr m' b' s) ∧ pmm_ok (mm_pmm (wr m' b' s)) b' rs ∧ tree m' b' (total s) r 3 ∧
    node m' r (vpath v) = Some y ∧ (∀ q j, path_ok 3 q → length q = 3%nat → idx j → leaf m' r q j = leaf (mm_word s) r q j) ∧
    (∀ g, 0 ≤ g → bit b g = true → bit b' g = true) ∧ frame_kept (mm_word s) m' b xs ∧
    (∀ x, x ∈ xs → ∃ p, path_ok 3 p ∧ (length p < 3)%nat ∧ node m' r p = Some x) ∧ tables_from (mm_word s) m' b r ∧ uses (limit_frame (mm_pmm s)) b b' 3.
Proof.
  intros H T. destruct (vpath_ok v) as [Hv _].
  assert (path_ok 3 [PML4_IDX v] ∧ path_ok 3 [PML4_IDX v; PDPT_IDX v]) as [P1 P2].
  { split; (split; [repeat constructor; apply idx_land|cbn; lia]). }
  unfold get_tables, vpath in *. set (i0 := PML4_IDX v) in *. set (i1 := PDPT_IDX v) in *. set (i2 := PD_IDX v) in *.
  destruct (goa_run s b rs r [] i0 r flags H T P1 eq_refl) as [(s' & E & O & W)|(y1 & m1 & b1 & E1 & H1 & T1 & R1 & N1 & L1 & B1 & K1 & F1 & U1)];
    [left; exists s'; split; [unfold kbind; by rewrite E|]; split; [done|by eapply few_le; [|exact W]; lia]|].
  destruct (goa_run (wr m1 b1 s) b1 rs r [i0] i1 y1 flags H1 T1 P2 N1) as [(s' & E & O & W)|(y2 & m2 & b2 & E2 & H2 & T2 & R2 & N2 & L2 & B2 & K2 & F2 & U2)];
    [left; exists s'; split; [rewrite (kbind_ret _ _ _ _ _ E1); unfold kbind; by rewrite E|]; split; [done|by eapply few_le; [|exact (few_uses _ _ _ _ _ U1 W)]; lia]|].
  destruct (goa_run (wr m2 b2 (wr m1 b1 s)) b2 rs r [i0; i1] i2 y2 flags H2 T2 Hv N2) as [(s' & E & O & W)|(y3 & m3 & b3 & E3 & H3 & T3 & R3 & N3 & L3 & B3 & K3 & F3 & U3)];
    [left; exists s'; split; [rewrite (kbind_ret _ _ _ _ _ E1), (kbind_ret _ _ _ _ _ E2); by rewrite E|]; split; [done|exact (few_uses _ _ _ _ _ (uses_trans _ _ _ _ _ _ U1 U2) W)]|].
  right. exists y3, m3, b3, ([r] ++ [y1] ++ [y2]). rewrite (kbind_ret _ _ _ _ _ E1), (kbind_ret _ _ _ _ _ E2). split; [done|]. split; [exact H3|]. split; [exact T3|].
  split; [exact N3|]. split; [intros q j Hq Hl Hj; by rewrite L3, L2, L1|]. split; [eauto|]. split; [|split; [|split; [|exact (uses_trans _ _ _ _ _ _ U1 (uses_trans _ _ _ _ _ _ U2 U3))]]].
  - eapply frame_kept_trans; [exact K1| |exact B1|apply bit_nonneg]. eapply frame_kept_trans; [exact K2|exact K3|exact B2|apply bit_nonneg].
  - intros x. cbn [app]. rewrite !elem_of_cons, elem_of_nil. intros [->|[->|[->|[]]]].
    + exists []. split; [split; [done|cbn; lia]|]. split; [cbn; lia|done].
    + exists [i0]. split; [done|]. split; [cbn; lia|]. by apply R3, R2.
    + exists [i0; i1]. split; [done|]. split; [cbn; lia|]. by apply R3.
  - eapply tables_from_trans; [exact F1| |exact B1|apply bit_nonneg]. eapply tables_from_trans; [exact F2|exact F3|exact B2|apply bit_nonneg].
Qed.

(** A store into a table of the last level. *)
Lemma leaf_store m b t r d p x i v : tree m b t r d → path_ok d p → length p = d → node m r p = Some x → idx i →
  let m' := set_word (entry_at x i) v m in
  tree m' b t r d ∧ (∀ q, path_ok d q → node m' r q = node m r q) ∧
  (∀ q j, path_ok d q → length q = d → idx j → leaf m' r q j = if decide (q = p ∧ j = i) then v else leaf m r q j) ∧ frame_kept m m' b [x].
Proof.
  intros T Hp Hl Hx Hi m'. destruct (tr_page _ _ _ _ _ T p x Hp Hx) as (Hxa & _).
  assert (∀ q, path_ok d q → node m' r q = node m r q) as Hn.
  { apply node_ext. intros q z j Hq Hlt Hz Hj. apply set_word_ne. intros E. destruct (tr_page _ _ _ _ _ T q z Hq Hz) as (Hza & _).
    apply words_apart in E as [-> _]; try done. assert (q = p) as -> by (by eapply (tr_inj _ _ _ _ _ T)). lia. }
  split; [|split; [done|split]].
  - split; intros *; [intros Hq Hq'|intros Hq]; rewrite !Hn by done; by apply T.
  - intros q j Hq Hlq Hj. unfold leaf. rewrite Hn by done. destruct (decide (q = p ∧ j = i)) as [[-> ->]|Hne]; [rewrite Hx; apply set_word_same|].
    destruct (node m r q) as [z|] eqn:Ez; [|done]. apply set_word_ne. intros E. destruct (tr_page _ _ _ _ _ T q z Hq Ez) as (Hza & _).
    apply words_apart in E as [-> ->]; try done. apply Hne. split; [|done]. by eapply (tr_inj _ _ _ _ _ T).
  - intros z a Hz Hb Hnz Ha. apply set_word_ne. intros ->. apply Hnz, list_elem_of_singleton. eapply (pages_apart z x); try done. by apply entry_in_page.
Qed.

Lemma get_ctx_run s ctx r : mm_ctx s !! ctx = Some r → get_ctx ctx s = Ret r s.
Proof. intros E. unfold get_ctx, kget_opt. by rewrite E. Qed.
Lemma map_page_run s b rs ctx r v phys flags : pmm_ok (mm_pmm s) b rs → mm_ctx s !! ctx = Some r → tree (mm_word s) b (total s) r 3 →
  (∃ s', mmu_map_page ctx v phys flags s = Panic s' ∧ no_frame (mm_pmm s')) ∨
  ∃ m' b' xs, mmu_map_page ctx v phys flags s = Ret 0 (wr m' b' s) ∧ pmm_ok (mm_pmm (wr m' b' s)) b' rs ∧ tree m' b' (total s) r 3 ∧
    translate m' r v = Z.lor (Z.lor (PAGE_FRAME phys) flags) MMU_PRESENT ∧
    (∀ v', page_number v' ≠ page_number v → translate m' r v' = translate (mm_word s) r v') ∧
    (∀ g, 0 ≤ g → bit b g = true → bit b' g = true) ∧ frame_kept (mm_word s) m' b xs ∧
    (∀ x, x ∈ xs → ∃ p, path_ok 3 p ∧ node m' r p = Some x) ∧ tables_from (mm_word s) m' b r.
Proof.
  intros H Hc T. destruct (vpath_ok v) as [Hv Hi]. unfold mmu_map_page. rewrite (kbind_ret _ _ _ _ _ (get_ctx_run s ctx r Hc)).
  destruct (get_tables_run s b rs r v flags H T) as [(s' & E & O)|(y & m1 & b1 & xs & E & H1 & T1 & N1 & L1 & B1 & K1 & X1 & F1 & _)]; [left; exists s'; split; [unfold kbind; by rewrite E|by destruct O]|right].
  set (w := Z.lor (Z.lor (PAGE_FRAME phys) flags) MMU_PRESENT).
  destruct (leaf_store m1 b1 (total s) r 3 (vpath v) y (PT_IDX v) w T1 Hv eq_refl N1 Hi) as (T2 & N2 & L2 & K2).
  set (m2 := set_word (entry_at y (PT_IDX v)) w m1) in *. exists m2, b1, (xs ++ [y]). rewrite (kbind_ret _ _ _ _ _ E). split; [done|].
  split; [exact H1|]. split; [exact T2|]. split; [|split; [|split; [done|split; [|split]]]].
  - unfold translate. rewrite L2 by done. by rewrite decide_True.
  - intros v' Hne. destruct (vpath_ok v') as [Hv' Hi']. unfold translate. rewrite L2, decide_False, L1; try done. intros [? ?]. apply Hne. by apply same_page.
  - eapply frame_kept_trans; [exact K1|exact K2|exact B1|apply bit_nonneg].
  - intros x [Hx|Hx%list_elem_of_singleton]%elem_of_app.
    + destruct (X1 x Hx) as (p & Hp & _ & Hn). exists p. by rewrite N2.
    + subst x. exists (vpath v). by rewrite N2.
  - intros p x Hp. rewrite N2 by done. by apply F1.
Qed.

(** C36. [mmu_map_page] makes the processor find the given frame and flags for the
    page of [virt] and changes the translation of no other page; it allocates the
    tables that are missing from free memory, and touches no page in use but the
    tables of this address space.  It panics only when no frame is left. *)
Theorem map_page_ok s b rs ctx r virt phys flags : pmm_ok (mm_pmm s) b rs → mm_ctx s !! ctx = Some r → tree (mm_word s) b (total s) r 3 →
  (∃ s', mmu_map_page ctx virt phys flags s = Panic s' ∧ no_frame (mm_pmm s')) ∨
  ∃ m' b' xs, mmu_map_page ctx virt phys flags s = Ret 0 (wr m' b' s) ∧ pmm_ok (mm_pmm (wr m' b' s)) b' rs ∧ tree m' b' (total s) r 3 ∧
    translate m' r virt = Z.lor (Z.lor (PAGE_FRAME phys) flags) MMU_PRESENT ∧
    (∀ v', page_number v' ≠ page_number virt → translate m' r v' = translate (mm_word s) r v') ∧
    (∀ g, 0 ≤ g → bit b g = true → bit b' g = true) ∧ frame_kept (mm_word s) m' b xs ∧
    (∀ x, x ∈ xs → ∃ p, path_ok 3 p ∧ node m' r p = Some x) ∧ tables_from (mm_word s) m' b r.
Proof. exact (map_page_run s b rs ctx r virt phys flags). Qed.

(** An empty address space in frame 2 of 64. *)
Definition demo_mmu : mmu := mk_mmu demo_pmm (λ _, 0) {[ 4096 := 8192 ]} 5000 1000 4096 8192.
Lemma empty_tree b t r d : page_ok b t r → tree (λ _, 0) b t r d.
Proof. intros Hr. split; [intros [|? ?] [|? ?] x _ _|intros [|? ?] x _]; cbn; intros; by simplify_eq. Qed.
Lemma demo_mmu_tree : tree (mm_word demo_mmu) [7; 0; 0] (total demo_mmu) 8192 3.
Proof. by apply empty_tree. Qed.

Lemma map_page_ok_witness : ∃ m' b', mmu_map_page 4096 4198400 45056 6 demo_mmu = Ret 0 (wr m' b' demo_mmu) ∧ translate m' 8192 4198400 = 45063.
Proof.
  destruct (map_page_ok demo_mmu [7; 0; 0] (replicate 64 0) 4096 8192 4198400 45056 6 demo_pmm_ok eq_refl demo_mmu_tree)
    as [(s' & E & O)|(m' & b' & xs & E & _ & _ & Ht & _)]; [vm_compute in E; discriminate E|]. exists m', b'. by split.
Defined.
