(* ===== verification/Cow.v ===== *)
(** * Copy on write

    What a write fault does to a page that is mapped copy-on-write, and what
    cloning an address space does to its pages. *)

From stdpp Require Import base numbers list gmap.
From Stdlib Require Import ZArith Lia.
From S2P Require Import Prelude Pmm Mmu MmuInv.

#[local] Open Scope Z_scope.

Lemma get_entry_run s ctx r v : mm_ctx s !! ctx = Some r →
  mmu_get_entry ctx v s = Ret (match node (mm_word s) r (vpath v) with Some x => Some (entry_at x (PT_IDX v)) | None => None end) s.
Proof.
  intros E. unfold mmu_get_entry. rewrite (kbind_ret _ _ _ _ _ (get_ctx_run s ctx r E)), (kbind_ret _ _ _ _ _ (load_run s _)).
  unfold vpath. cbn [node]. unfold present. destruct (has_flag (mm_word s (entry_at r _)) MMU_PRESENT); cbn [negb]; [|done].
  rewrite (kbind_ret _ _ _ _ _ (load_run s _)). destruct (has_flag (mm_word s _) MMU_PRESENT); cbn [negb]; [|done].
  rewrite (kbind_ret _ _ _ _ _ (load_run s _)). by destruct (has_flag (mm_word s _) MMU_PRESENT).
Qed.

(** ** Entries *)

Lemma has_flag_bit e k : 0 ≤ k → has_flag e (2 ^ k) = Z.testbit e k.
Proof. intros Hk. unfold has_flag. rewrite <-Z.shiftl_1_l, land_bit by done. apply negb_involutive. Qed.
Lemma page_frame_bits e k : 0 ≤ k → Z.testbit (PAGE_FRAME e) k = (12 <=? k) && Z.testbit e k.
Proof.
  intros Hk. unfold PAGE_FRAME. change 4095 with (Z.ones 12). rewrite Z.ldiff_spec, Z.testbit_ones_nonneg by lia.
  destruct (Z.ltb_spec k 12), (Z.leb_spec 12 k); try lia; cbn; by rewrite ?andb_false_r, ?andb_true_r.
Qed.
Lemma flags_bits e k : 0 ≤ k → Z.testbit (flags_of e) k = (k <? 12) && Z.testbit e k.
Proof. intros Hk. unfold flags_of. change 4095 with (Z.ones 12). rewrite Z.land_spec, Z.testbit_ones_nonneg by lia. apply andb_comm. Qed.
Lemma page_frame_id x : x mod 4096 = 0 → 0 ≤ x → PAGE_FRAME x = x.
Proof. intros. rewrite <-(Z.lor_0_r x) at 1. apply page_frame_lor; lia. Qed.

(** The entry after the fault: another frame, or the same, and no longer
    copy-on-write. *)
Definition own (e : Z) : Z := Z.lor (Z.ldiff e MMU_COW) MMU_WRITABLE.
Lemma pow2_bit j k : 0 ≤ j → 0 ≤ k → Z.testbit (2 ^ j) k = (k =? j).
Proof. intros. rewrite Z.pow2_bits_eqb by done. apply Z.eqb_sym. Qed.
Lemma own_bits e k : 0 ≤ k → Z.testbit (own e) k = if k =? 9 then false else if k =? 1 then true else Z.testbit e k.
Proof.
  intros Hk. unfold own, MMU_COW, MMU_WRITABLE. change 512 with (2 ^ 9). change 2 with (2 ^ 1) at 2. rewrite Z.lor_spec, Z.ldiff_spec, !pow2_bit by lia.
  destruct (Z.eqb_spec k 9) as [->|]; [cbn; by rewrite andb_false_r|]. destruct (Z.eqb_spec k 1) as [->|]; [by rewrite orb_true_r|]. by rewrite andb_true_r, orb_false_r.
Qed.
Lemma own_frame e : PAGE_FRAME (own e) = PAGE_FRAME e.
Proof.
  apply Z.bits_inj'. intros k Hk. rewrite !page_frame_bits, own_bits by done. destruct (Z.leb_spec 12 k); [|done].
  replace (k =? 9) with false by (symmetry; apply Z.eqb_neq; lia). by replace (k =? 1) with false by (symmetry; apply Z.eqb_neq; lia).
Qed.
Lemma set_frame_frame e x : x mod 4096 = 0 → 0 ≤ x → PAGE_FRAME (PAGE_SET_FRAME e x) = x.
Proof.
  intros Hx H0. unfold PAGE_SET_FRAME. rewrite (page_frame_id x) by done. rewrite Z.lor_comm. apply page_frame_lor; [done|done|].
  unfold flags_of. change 4095 with (Z.ones 12). rewrite Z.land_ones by lia. apply Z.mod_pos_bound. done.
Qed.

Lemma copy_page_in f n m a : in_page n a → copy_page f n m a = m (a - n + f).
Proof. unfold in_page, copy_page. intros. replace ((n <=? a) && (a <? n + 4096)) with true; [done|]. symmetry. apply andb_true_iff. rewrite Z.leb_le, Z.ltb_lt. lia. Qed.
Lemma copy_page_out f n m a : ¬ in_page n a → copy_page f n m a = m a.
Proof. unfold in_page, copy_page. intros. destruct (Z.leb_spec n a), (Z.ltb_spec a (n + 4096)); cbn; try done. lia. Qed.

(** ** The fault *)

(** A write to a page that [e] maps copy-on-write in the current address space. *)
Record cow_at (s : mmu) (b rs : list Z) (r v e c : Z) : Prop := {
  ca_pmm : pmm_ok (mm_pmm s) b rs;
  ca_ctx : mm_ctx s !! mm_current s = Some r;
  ca_tree : tree (mm_word s) b (total s) r 3;
  ca_table : is_Some (node (mm_word s) r (vpath v));
  ca_entry : translate (mm_word s) r v = e;
  ca_flags : has_flag e MMU_COW = true ∧ has_flag e MMU_USER = true;
  ca_frame : 0 ≤ PAGE_FRAME e < total s * 4096;
  ca_count : zlookup rs (PAGE_FRAME e / 4096) = Some c }.

(** The fault reaches the entry. *)
Lemma cow_reach s b rs r v e c err : cow_at s b rs r v e c → has_flag err 1 = true → has_flag err 2 = true →
  ∃ x, node (mm_word s) r (vpath v) = Some x ∧ mm_word s (entry_at x (PT_IDX v)) = e ∧
  cow_fault v err s = (if 1 <? c then
    (let* new_frame := pm pmm_first_free in
     if new_frame =? NO_FRAME then kret (Some CowNoMemory)
     else
       kmodify (λ s, with_mm_word (copy_page (PAGE_FRAME e) (new_frame * 4096) (mm_word s)) s) ;;;
       pm (frame_remove_ref (PAGE_FRAME e / 4096)) ;;;
       let* e := load (entry_at x (PT_IDX v)) in
       store (entry_at x (PT_IDX v)) (PAGE_SET_FRAME e (new_frame * 4096)) ;;;
       let* e := load (entry_at x (PT_IDX v)) in
       store (entry_at x (PT_IDX v)) (own e) ;;;
       pm (frame_add_ref new_frame) ;;;
       kret (Some CowDone))
    else store (entry_at x (PT_IDX v)) (own e) ;;; kret (Some CowDone))%K s.
Proof.
  intros [H Hc T [x Hx] He [Hf1 Hf2] Hfr Hcnt] E1 E2. exists x. split; [done|].
  assert (mm_word s (entry_at x (PT_IDX v)) = e) as He' by (unfold translate, leaf in He; by rewrite Hx in He). split; [done|].
  pose proof (po_total _ _ _ H) as Ht. pose proof (page_frame_aligned e) as Ha. pose proof (Z.div_mod (PAGE_FRAME e) 4096 ltac:(lia)) as Hdm. unfold total in *.
  unfold cow_fault. rewrite E1, E2. cbn [andb]. rewrite (kbind_ret kget _ s s s eq_refl). unfold get_page.
  rewrite (kbind_ret _ _ s (Some (entry_at x (PT_IDX v))) s) by (unfold kbind; rewrite (get_entry_run s _ r v Hc), Hx; done).
  rewrite (kbind_ret _ _ _ _ _ (load_run s _)), He', Hf1, Hf2. cbn [andb]. rewrite (u32_small (PAGE_FRAME e / 4096)) by lia.
  assert (0 ≤ PAGE_FRAME e / 4096 < total_frames (mm_pmm s)) as Hin by lia.
  rewrite (kbind_ret _ _ _ _ _ (pm_run _ _ _ _ (get_ref_run _ b rs _ c H Hin Hcnt))).
  replace (with_mm_pmm (mm_pmm s) s) with s by (by destruct s). done.
Qed.

(** What the owner of [v] sees afterwards, and what everyone else does. *)
Record cow_copied (s s' : mmu) (b rs b' rs' : list Z) (r v e c n : Z) : Prop := {
  cc_pmm : pmm_ok (mm_pmm s') b' rs';
  cc_tree : tree (mm_word s') b' (total s) r 3;
  cc_entry : translate (mm_word s') r v = own (PAGE_SET_FRAME e n);
  cc_other : ∀ v', page_number v' ≠ page_number v → translate (mm_word s') r v' = translate (mm_word s) r v';
  cc_page : page_ok b' (total s) n;
  cc_free : bit b (n / 4096) = false;
  cc_words : ∀ k, idx k → mm_word s' (entry_at n k) = mm_word s (entry_at (PAGE_FRAME e) k);
  cc_kept : ∃ x, node (mm_word s) r (vpath v) = Some x ∧ frame_kept (mm_word s) (mm_word s') b [x];
  cc_refs : rs' = <[Z.to_nat (n / 4096) := 1]> (<[Z.to_nat (PAGE_FRAME e / 4096) := c - 1]> rs) }.

Lemma tree_ext m m' b b' t r d : tree m b t r d → (∀ p, path_ok d p → node m' r p = node m r p) → (∀ g, 0 ≤ g → bit b g = true → bit b' g = true) →
  tree m' b' t r d.
Proof.
  intros T Hn M. split.
  - intros p q x Hp Hq. rewrite !Hn by done. by apply T.
  - intros p x Hp. rewrite Hn by done. intros Hx. eapply page_ok_mono; [|exact M]. by eapply (tr_page _ _ _ _ _ T).
Qed.

(** The copy into a page that was free does not touch the tables. *)
Lemma copy_tables m b t r d f n : tree m b t r d → n mod 4096 = 0 → bit b (n / 4096) = false →
  (∀ p, path_ok d p → node (copy_page f n m) r p = node m r p) ∧
  (∀ p x i, path_ok d p → node m r p = Some x → idx i → copy_page f n m (entry_at x i) = m (entry_at x i)).
Proof.
  intros T Hn Hb.
  assert (∀ p x i, path_ok d p → node m r p = Some x → idx i → copy_page f n m (entry_at x i) = m (entry_at x i)) as Hw.
  { intros p x i Hp Hx Hi. apply copy_page_out. intros Hin. destruct (tr_page _ _ _ _ _ T p x Hp Hx) as (Hxa & _ & Hxb).
    pose proof (pages_apart x n _ Hxa Hn (entry_in_page x i Hi) Hin) as ->. congruence. }
  split; [|done]. apply node_ext. intros p x i Hp _ Hx Hi. by apply (Hw p).
Qed.

Lemma cow_run s b rs r v e c err : cow_at s b rs r v e c → has_flag err 1 = true → has_flag err 2 = true →
  (c ≤ 1 ∧ ∃ x, node (mm_word s) r (vpath v) = Some x ∧
     cow_fault v err s = Ret (Some CowDone) (with_mm_word (set_word (entry_at x (PT_IDX v)) (own e) (mm_word s)) s)) ∨
  (1 < c ∧ ∃ b', cow_fault v err s = Ret (Some CowNoMemory) (set_bits b' s) ∧
     ∀ f, 0 ≤ f → limit_frame (mm_pmm s) ≤ f < 32 * (total s / 32) → bit b f = true) ∨
  (1 < c ∧ ∃ n s' b' rs', cow_fault v err s = Ret (Some CowDone) s' ∧ cow_copied s s' b rs b' rs' r v e c n).
Proof.
  intros C E1 E2. destruct (cow_reach s b rs r v e c err C E1 E2) as (x & Hx & He & ->). destruct C as [H Hc T _ Het Hfl Hfr Hcnt].
  destruct (vpath_ok v) as [Hv Hi]. destruct (Z.ltb_spec 1 c) as [Hc1|Hc1]; [right|left; split; [done|]; by exists x].
  destruct (first_free_run _ b rs H) as (n & b1 & E & H1 & M & D & R). rewrite (kbind_ret _ _ _ _ _ (pm_run _ _ _ _ E)).
  destruct R as [[-> Hnone]|(Hn0 & Hn & Hb & Hb1 & _)]; [left; split; [done|]; by exists b1|right; split; [done|]].
  replace (n =? NO_FRAME) with false by (symmetry; apply Z.eqb_neq; unfold NO_FRAME; destruct H; lia).
  set (f := PAGE_FRAME e) in *. pose proof (page_frame_aligned e) as Ha. fold f in Ha. pose proof (Z.div_mod f 4096 ltac:(lia)) as Hdm.
  assert (0 ≤ f / 4096 < total_frames (mm_pmm s)) as Hf by (unfold total in Hfr; lia).
  set (a := entry_at x (PT_IDX v)) in *. set (m := mm_word s) in *. set (m1 := copy_page f (n * 4096) m).
  destruct (copy_tables m b (total s) r 3 f (n * 4096) T) as [N1 W1]; [by apply Z.mod_mul|by rewrite Z.div_mul|]. fold m1 in N1, W1.
  destruct (remove_ref_run (with_bitmap b1 (mm_pmm s)) b1 rs (f / 4096) c H1 Hf Hcnt ltac:(lia)) as (b2 & Er & H2 & B2).
  set (rs2 := <[Z.to_nat (f / 4096) := c - 1]> rs) in *. set (p2 := with_refs rs2 (with_bitmap b2 (with_bitmap b1 (mm_pmm s)))) in *.
  assert (zlookup rs2 n = Some 0) as Hn2.
  { pose proof (po_counts _ _ _ H). unfold rs2. rewrite zlookup_insert by lia. destruct (frame_count _ b rs n H ltac:(lia)) as (d & Hd & Hd2).
    destruct (Z.eqb_spec n (f / 4096)) as [->|]; rewrite ?Hd.
    - rewrite (po_used _ _ _ H (f / 4096) c) in Hb by (done || lia). done.
    - f_equal. destruct (decide (0 < d)) as [Hd0|]; [|lia]. rewrite (po_used _ _ _ H n d Hn0 Hd Hd0) in Hb. done. }
  destruct (frame_ref_run p2 b2 rs2 n 0 H2 ltac:(cbn; lia) Hn2 ltac:(lia)) as (b3 & Ea & H3 & B3).
  set (m2 := set_word a (PAGE_SET_FRAME e (n * 4096)) m1). set (m3 := set_word a (own (PAGE_SET_FRAME e (n * 4096))) m2).
  assert (m1 a = e) as Hm1 by (unfold a; by rewrite (W1 (vpath v))).
  exists (n * 4096), (with_mm_word m3 (with_mm_pmm (with_refs (<[Z.to_nat n := 1]> rs2) (with_bitmap b3 p2)) s)), b3, (<[Z.to_nat n := 1]> rs2). split.
  { set (s1 := with_mm_pmm (with_bitmap b1 (mm_pmm s)) s). rewrite (kbind_ret (kmodify (λ s, with_mm_word (copy_page f (n * 4096) (mm_word s)) s)) _ s1 tt (with_mm_word m1 s1) eq_refl).
    rewrite (kbind_ret _ _ _ _ _ (pm_run _ (with_mm_word m1 s1) _ _ Er)). set (s2 := with_mm_pmm p2 (with_mm_word m1 s1)).
    rewrite (kbind_ret _ _ _ _ _ (load_run s2 a)). change (mm_word s2 a) with (m1 a). rewrite Hm1.
    rewrite (kbind_ret (store a (PAGE_SET_FRAME e (n * 4096))) _ s2 tt (with_mm_word m2 s2) eq_refl), (kbind_ret _ _ _ _ _ (load_run (with_mm_word m2 s2) a)).
    change (mm_word (with_mm_word m2 s2) a) with (m2 a). rewrite (set_word_same a _ m1 : m2 a = _).
    rewrite (kbind_ret (store a (own (PAGE_SET_FRAME e (n * 4096)))) _ (with_mm_word m2 s2) tt (with_mm_word m3 s2) eq_refl), (kbind_ret _ _ _ _ _ (pm_run _ (with_mm_word m3 s2) _ _ Ea)). done. }
  assert (∀ y, y ≠ a → m3 y = m1 y) as Hm3 by (intros y Hy; unfold m3, m2; by rewrite !set_word_ne).
  assert (∀ g, 0 ≤ g → bit b g = true → bit b3 g = true) as Mb.
  { intros g Hg Hbg. rewrite B3, B2, (M g Hg Hbg) by done. replace (c =? 1) with false by (symmetry; apply Z.eqb_neq; lia). done. }
  assert (tree m1 b3 (total s) r 3) as T1 by (by apply (tree_ext m m1 b b3)).
  destruct (leaf_store m1 b3 (total s) r 3 (vpath v) x (PT_IDX v) (PAGE_SET_FRAME e (n * 4096)) T1 Hv eq_refl) as (T2 & N2 & L2 & _); [by rewrite N1|done|].
  fold a m2 in T2, N2, L2.
  destruct (leaf_store m2 b3 (total s) r 3 (vpath v) x (PT_IDX v) (own (PAGE_SET_FRAME e (n * 4096))) T2 Hv eq_refl) as (T3 & N3 & L3 & _); [by rewrite N2, N1|done|].
  fold a m3 in T3, N3, L3. destruct (tr_page _ _ _ _ _ T (vpath v) x Hv Hx) as (Hxa & _ & Hxb).
  split; cbn [mm_word mm_pmm with_mm_word with_mm_pmm]; try done.
  - unfold translate. rewrite L3 by done. by rewrite decide_True.
  - intros v' Hne. destruct (vpath_ok v') as [Hv' Hi']. unfold translate. rewrite L3, decide_False, L2, decide_False; try done;
      try (intros [? ?]; apply Hne; by apply same_page). unfold leaf. fold m. rewrite N1 by done. destruct (node m r (vpath v')) as [z|] eqn:Ez; [|done]. by apply (W1 (vpath v')).
  - unfold page_ok. rewrite Z.mod_mul, Z.div_mul by lia. split; [done|]. split; [unfold total; lia|]. rewrite B3, Z.eqb_refl by done. apply orb_true_r.
  - by rewrite Z.div_mul.
  - intros k Hk. fold f. rewrite Hm3.
    + unfold m1. rewrite copy_page_in by (by apply entry_in_page). f_equal. unfold entry_at. lia.
    + intros E'. apply words_apart in E' as [E' _]; [|by apply Z.mod_mul|done|done|done]. rewrite <-E', Z.div_mul in Hxb by lia. congruence.
  - exists x. split; [done|]. intros z y Hz Hzb Hne Hy. rewrite Hm3.
    + apply copy_page_out. intros Hin. pose proof (pages_apart z (n * 4096) y Hz (Z.mod_mul n 4096 ltac:(lia)) Hy Hin) as ->. rewrite Z.div_mul in Hzb by lia. congruence.
    + intros ->. apply Hne, list_elem_of_singleton. eapply (pages_apart z x); try done. by apply entry_in_page.
  - by rewrite Z.div_mul.
Qed.
