(* ===== verification/Clone.v ===== *)
(** * Cloning an address space

    [mmu_clone_user] copies a tree of tables.  Some entries are shared: the upper
    half and the identity map of the kernel.  All others are cloned down to the
    last level, where both sides get the frame read-only and copy-on-write and the
    frame gets one reference more. *)

From stdpp Require Import base numbers list gmap.
From Stdlib Require Import ZArith Lia.
From S2P Require Import Prelude Pmm Mmu MmuInv Cow.

#[local] Open Scope Z_scope.
#[local] Open Scope kernel_scope.

(** ** The general form

    [sh q]: the entry that the path [q] ends in is shared. *)
Fixpoint clone_gen (d : nat) (sh : list Z → bool) (src : Z) : kM mmu Z :=
  let* table := alloc_table in
  for_present 512 0 src (λ i e,
    if sh [i] then store (entry_at table i) e
    else match d with
         | S d => link_clone src table i (clone_gen d (λ q, sh (i :: q)))
         | O => clone_leaf true src table i
         end) ;;;
  kret table.

(** What is shared in an address space. *)
Definition kernel_part (p : list Z) : bool :=
  match p with
  | [i] => 256 <=? i
  | [i; j; k] => (i =? 0) && (j =? 0) && (k <? 64)
  | _ => false
  end.

Lemma kbind_ext {S A B} (c c' : kM S A) (k k' : A → kM S B) s : (∀ s, c s = c' s) → (∀ a s, k a s = k' a s) → kbind c k s = kbind c' k' s.
Proof. intros H1 H2. unfold kbind. rewrite H1. by destruct (c' s). Qed.
Lemma kfor_ext {S} n : ∀ i (f g : Z → kM S unit) s, (∀ j s, i ≤ j < i + Z.of_nat n → f j s = g j s) → kfor n i f s = kfor n i g s.
Proof.
  induction n as [|n IH]; intros i f g s H; [done|]. cbn [kfor]. unfold kbind. rewrite H by lia. destruct (g i s); try done. apply IH. intros. apply H. lia.
Qed.
Lemma for_present_ext n i t f g s : (∀ j e s, i ≤ j < i + Z.of_nat n → f j e s = g j e s) → for_present n i t f s = for_present n i t g s.
Proof. intros H. apply kfor_ext. intros j s' Hj. apply kbind_ext; [done|]. intros e s2. destruct (has_flag e MMU_PRESENT); [by apply H|done]. Qed.
Lemma link_clone_ext src t i f g s : (∀ c s, f c s = g c s) → link_clone src t i f s = link_clone src t i g s.
Proof. intros H. apply kbind_ext; [done|]. intros e s1. by apply kbind_ext. Qed.

Lemma clone_gen_ext d : ∀ sh sh' src s, (∀ q, Forall idx q → sh q = sh' q) → clone_gen d sh src s = clone_gen d sh' src s.
Proof.
  induction d as [|d IH]; intros sh sh' src s H; cbn [clone_gen]; (apply kbind_ext; [done|]); intros t s1; (apply kbind_ext; [|done]); intros s2; apply for_present_ext;
    intros j e s3 Hj; rewrite (H [j]) by (repeat constructor; lia).
  - done.
  - destruct (sh' [j]); [done|]. apply link_clone_ext. intros c s4. apply IH. intros q Hq. apply H. constructor; [split; lia|done].
Qed.

Lemma clone_table_gen d : ∀ src s, clone_table d true src s = clone_gen d (λ _, false) src s.
Proof.
  induction d as [|d IH]; intros src s; cbn [clone_table clone_gen]; (apply kbind_ext; [done|]); intros t s1; (apply kbind_ext; [|done]); intros s2; apply kfor_ext; intros i s3 Hi.
  - done.
  - unfold link_clone. unfold kbind at 1 4. rewrite load_run. destruct (has_flag _ MMU_PRESENT); cbn [negb]; [|done].
    rewrite (kbind_ret _ _ _ _ _ (load_run s3 _)). apply kbind_ext; [intros; apply IH|done].
Qed.

Lemma clone_gen_S d sh src : clone_gen (S d) sh src =
  (let* table := alloc_table in
   for_present 512 0 src (λ i e,
     if sh [i] then store (entry_at table i) e else link_clone src table i (clone_gen d (λ q, sh (i :: q)))) ;;;
   kret table).
Proof. done. Qed.

(** [mmu_clone_user] is the general form at the first table. *)
Lemma clone_low_gen src s : clone_low_pdpt src s = clone_gen 2 (λ q, kernel_part (0 :: q)) src s.
Proof.
  unfold clone_low_pdpt. rewrite clone_gen_S. apply kbind_ext; [done|]. intros t s1. apply kbind_ext; [|done]. intros s2. apply for_present_ext. intros j e s3 Hj.
  cbn [kernel_part]. destruct (Z.eqb_spec j 0) as [->|Hne]; apply link_clone_ext; intros c s4.
  - unfold clone_low_pd. rewrite clone_gen_S. apply kbind_ext; [done|]. intros t1 s5. apply kbind_ext; [|done]. intros s6. apply for_present_ext. intros k e1 s7 Hk. cbn [kernel_part Z.eqb andb].
    destruct (k <? 64); [done|]. apply link_clone_ext. intros c1 s8. rewrite clone_table_gen. apply clone_gen_ext. by intros [|? [|? ?]].
  - rewrite clone_table_gen. apply (clone_gen_ext 1). by intros [|k [|? ?]].
Qed.

Lemma clone_user_gen src s : mmu_clone_user src s =
  (let* new_pml4 := alloc_table in
   let* s := kget in
   kmodify (with_mm_next (mm_next s + 16)) ;;;
   kmodify (with_mm_ctx (<[mm_next s := new_pml4]> (mm_ctx s))) ;;;
   let* pml4 := get_ctx src in
   for_present 512 0 pml4 (λ i e,
     if kernel_part [i] then store (entry_at new_pml4 i) e
     else link_clone pml4 new_pml4 i (clone_gen 2 (λ q, kernel_part (i :: q)))) ;;;
   kret (mm_next s)) s.
Proof.
  unfold mmu_clone_user. apply kbind_ext; [done|]. intros t s1. apply kbind_ext; [done|]. intros s0 s2. do 3 (apply kbind_ext; [done|]; intros ? ?).
  apply kbind_ext; [|done]. intros sa. apply for_present_ext. intros i e sb Hi. cbn [kernel_part]. destruct (256 <=? i); [done|].
  destruct (Z.eqb_spec i 0) as [->|Hne]; apply link_clone_ext; intros c sc; [apply clone_low_gen|].
  rewrite clone_table_gen. apply (clone_gen_ext 2). by intros [|j [|k [|? ?]]].
Qed.

(** ** Trees and their parts *)

Lemma path_cons d i q : idx i → path_ok d q → path_ok (S d) (i :: q).
Proof. intros Hi [Hq Hl]. split; [by constructor|cbn; lia]. Qed.
Lemma path_uncons d i q : path_ok (S d) (i :: q) → idx i ∧ path_ok d q.
Proof. intros [Hq Hl]. inversion Hq; subst. cbn in Hl. split; [done|]. split; [done|lia]. Qed.
Lemma path_nil d : path_ok d [].
Proof. split; [done|cbn; lia]. Qed.
Lemma node_cons m t i q : present (m (entry_at t i)) = true → node m t (i :: q) = node m (PAGE_FRAME (m (entry_at t i))) q.
Proof. intros E. cbn. by rewrite E. Qed.

Lemma tree_sub m b tot t d i : tree m b tot t (S d) → idx i → present (m (entry_at t i)) = true → tree m b tot (PAGE_FRAME (m (entry_at t i))) d.
Proof.
  intros T Hi E. split.
  - intros p q x Hp Hq. rewrite <-!(node_cons m t i) by done. intros H1 H2.
    assert (i :: p = i :: q) as [= ->] by (eapply (tr_inj _ _ _ _ _ T); [by apply path_cons|by apply path_cons|exact H1|exact H2]). done.
  - intros p x Hp. rewrite <-(node_cons m t i) by done. apply (tr_page _ _ _ _ _ T). by apply path_cons.
Qed.
(** The tables below an entry are not the table itself. *)
Lemma tree_below m b tot t d i q : tree m b tot t (S d) → idx i → present (m (entry_at t i)) = true → path_ok d q →
  node m (PAGE_FRAME (m (entry_at t i))) q ≠ Some t.
Proof.
  intros T Hi E Hq Hx. rewrite <-(node_cons m t i) in Hx by done.
  by assert ([] = i :: q) by (eapply (tr_inj _ _ _ _ _ T); [apply path_nil|by apply path_cons|done|exact Hx]).
Qed.

(** A subtree hung into an empty entry. *)
Section graft.
Context (m : Z → Z) (b : list Z) (tot t c i e : Z) (d : nat).
Context (T : tree m b tot t (S d)) (Hi : idx i) (C : tree m b tot c d).
Context (Hdisj : ∀ p q x, path_ok (S d) p → path_ok d q → node m t p = Some x → node m c q = Some x → False).
Context (He : present e = true) (Hc : PAGE_FRAME e = c) (Hfree : present (m (entry_at t i)) = false).
#[local] Abbreviation m' := (set_word (entry_at t i) e m).

Lemma graft_words x j : x mod 4096 = 0 → x ≠ t → idx j → m' (entry_at x j) = m (entry_at x j).
Proof.
  intros Hx Hne Hj. apply set_word_ne. intros E. destruct (tr_page _ _ _ _ _ T [] t (path_nil _) eq_refl) as (Ha & _).
  by apply words_apart in E as [-> _].
Qed.
Lemma graft_other j : idx j → j ≠ i → m' (entry_at t j) = m (entry_at t j).
Proof. intros Hj Hne. apply set_word_ne. unfold entry_at. lia. Qed.
Lemma graft_node p : path_ok (S d) p → node m' t p = match p with j :: q => if j =? i then node m c q else node m t p | [] => Some t end.
Proof.
  intros Hp. destruct p as [|j q]; [done|]. apply path_uncons in Hp as [Hj Hq]. cbn [node]. destruct (Z.eqb_spec j i) as [->|Hne].
  - rewrite set_word_same, He, Hc. apply (node_ext m m' d c); [|done]. intros p x k Hp _ Hx Hk.
    destruct (tr_page _ _ _ _ _ C p x Hp Hx) as (Ha & _). apply graft_words; [done| |done]. intros ->. exact (Hdisj [] p t (path_nil _) Hp eq_refl Hx).
  - rewrite graft_other by done. destruct (present (m (entry_at t j))) eqn:Ej; [|done]. apply (node_ext m m' d); [|done]. intros p x k Hp _ Hx Hk.
    destruct (tr_page _ _ _ _ _ (tree_sub _ _ _ _ _ j T Hj Ej) p x Hp Hx) as (Ha & _). apply graft_words; [done| |done]. intros ->.
    exact (tree_below _ _ _ _ _ j p T Hj Ej Hp Hx).
Qed.
Lemma graft_tree : tree m' b tot t (S d).
Proof.
  assert (∀ q, path_ok d q → node m t (i :: q) = None) as Hnone by (intros; cbn; by rewrite Hfree).
  split.
  - intros p q x Hp Hq. rewrite !graft_node by done. destruct p as [|j p], q as [|k q]; try done.
    + apply path_uncons in Hq as Hq'. destruct Hq' as [Hk Hq']. destruct (Z.eqb_spec k i) as [->|]; intros [= <-] H2.
      * destruct (Hdisj [] q t (path_nil _) Hq' eq_refl H2).
      * by eapply (tr_inj _ _ _ _ _ T); [apply path_nil|done|done|exact H2].
    + apply path_uncons in Hp as Hp'. destruct Hp' as [Hj Hp']. destruct (Z.eqb_spec j i) as [->|]; intros H1 [= <-].
      * destruct (Hdisj [] p t (path_nil _) Hp' eq_refl H1).
      * by eapply (tr_inj _ _ _ _ _ T); [done|apply path_nil|exact H1|done].
    + apply path_uncons in Hp as Hp'. destruct Hp' as [Hj Hp']. apply path_uncons in Hq as Hq'. destruct Hq' as [Hk Hq'].
      destruct (Z.eqb_spec j i) as [->|], (Z.eqb_spec k i) as [->|]; intros H1 H2.
      * f_equal. by eapply (tr_inj _ _ _ _ _ C).
      * destruct (Hdisj _ _ _ Hq Hp' H2 H1).
      * destruct (Hdisj _ _ _ Hp Hq' H1 H2).
      * by eapply (tr_inj _ _ _ _ _ T).
  - intros p x Hp. rewrite graft_node by done. destruct p as [|j p]; [intros [= <-]; by apply (tr_page _ _ _ _ _ T [])|].
    apply path_uncons in Hp as Hp'. destruct Hp' as [Hj Hp']. destruct (j =? i); [by apply (tr_page _ _ _ _ _ C)|by apply (tr_page _ _ _ _ _ T)].
Qed.
End graft.

(** ** What cloning does *)

(** An entry of the last level in the clone, and in the source. *)
Definition cowp (e : Z) : Z := if has_flag e MMU_USER && has_flag e MMU_WRITABLE then cow e else e.

(** [m'] is [m] with the tree below [src] cloned to the tree below [t]. *)
Fixpoint cloned (d : nat) (sh : list Z → bool) (m m' : Z → Z) (src t : Z) : Prop :=
  ∀ i, idx i → let e := m (entry_at src i) in
  match d with
  | O => m' (entry_at src i) = (if present e && negb (sh [i]) then cowp e else e) ∧
         m' (entry_at t i) = (if present e then if sh [i] then e else cowp e else 0)
  | S d => m' (entry_at src i) = e ∧
      (if present e then
         if sh [i] then m' (entry_at t i) = e
         else ∃ y, y mod 4096 = 0 ∧ 0 ≤ y ∧ m' (entry_at t i) = Z.lor y (flags_of e) ∧ cloned d (λ q, sh (i :: q)) m m' (PAGE_FRAME e) y
       else m' (entry_at t i) = 0)
  end.
(** The same for one entry. *)
Definition ent (d : nat) (sh : list Z → bool) (m m' : Z → Z) (src t i : Z) : Prop :=
  let e := m (entry_at src i) in
  match d with
  | O => m' (entry_at src i) = (if present e && negb (sh [i]) then cowp e else e) ∧
         m' (entry_at t i) = (if present e then if sh [i] then e else cowp e else 0)
  | S d => m' (entry_at src i) = e ∧
      (if present e then
         if sh [i] then m' (entry_at t i) = e
         else ∃ y, y mod 4096 = 0 ∧ 0 ≤ y ∧ m' (entry_at t i) = Z.lor y (flags_of e) ∧ cloned d (λ q, sh (i :: q)) m m' (PAGE_FRAME e) y
       else m' (entry_at t i) = 0)
  end.
Lemma cloned_ent d sh m m' src t : cloned d sh m m' src t ↔ ∀ i, idx i → ent d sh m m' src t i.
Proof. by destruct d. Qed.

(** The tables of the last level whose entries change. *)
Fixpoint srcleaf (d : nat) (sh : list Z → bool) (m : Z → Z) (src x : Z) : Prop :=
  match d with
  | O => x = src
  | S d => ∃ i, idx i ∧ present (m (entry_at src i)) = true ∧ sh [i] = false ∧ srcleaf d (λ q, sh (i :: q)) m (PAGE_FRAME (m (entry_at src i))) x
  end.
(** The frames that get a reference, once for each entry. *)
Fixpoint leaves (d : nat) (sh : list Z → bool) (m : Z → Z) (src : Z) : list Z :=
  concat (map (λ i, let e := m (entry_at src i) in
    if present e && negb (sh [i]) then
      match d with O => [u32 (PAGE_FRAME e / 4096)] | S d => leaves d (λ q, sh (i :: q)) m (PAGE_FRAME e) end
    else []) (seqZ 0 512)).
Definition leaves_at (d : nat) (sh : list Z → bool) (m : Z → Z) (src i : Z) : list Z :=
  let e := m (entry_at src i) in
  if present e && negb (sh [i]) then
    match d with O => [u32 (PAGE_FRAME e / 4096)] | S d => leaves d (λ q, sh (i :: q)) m (PAGE_FRAME e) end
  else [].
Lemma leaves_eq d sh m src : leaves d sh m src = concat (map (leaves_at d sh m src) (seqZ 0 512)).
Proof. by destruct d. Qed.

Lemma srcleaf_node d : ∀ sh m src x, srcleaf d sh m src x → ∃ q, path_ok d q ∧ length q = d ∧ node m src q = Some x.
Proof.
  induction d as [|d IH]; intros sh m src x; cbn [srcleaf]; [intros ->; exists []; split_and!; try done; apply path_nil|].
  intros (i & Hi & Hp & _ & Hx). destruct (IH _ _ _ _ Hx) as (q & Hq & Hl & Hn). exists (i :: q). split; [by apply path_cons|]. split; [cbn; lia|]. by rewrite node_cons.
Qed.

(** Reference counts after one more reference for each frame of a list. *)
Definition count (f : Z) (l : list Z) : Z := Z.of_nat (length (filter (f =.) l)).
Definition refs_add (rs l rs' : list Z) : Prop := ∀ f c, zlookup rs f = Some c → zlookup rs' f = Some (c + count f l).
Definition room (rs l : list Z) : Prop := ∀ f c, zlookup rs f = Some c → c + count f l < 256.
Lemma count_app f l1 l2 : count f (l1 ++ l2) = count f l1 + count f l2.
Proof. unfold count. rewrite filter_app, length_app. lia. Qed.
Lemma count_nonneg f l : 0 ≤ count f l.
Proof. unfold count. lia. Qed.
Lemma refs_add_nil rs : refs_add rs [] rs.
Proof. intros f c H. unfold count. cbn. by rewrite Z.add_0_r. Qed.
Lemma refs_add_trans rs l1 rs1 l2 rs2 : refs_add rs l1 rs1 → refs_add rs1 l2 rs2 → refs_add rs (l1 ++ l2) rs2.
Proof. intros H1 H2 f c Hc. rewrite (H2 f (c + count f l1)) by (by apply H1). f_equal. rewrite count_app. lia. Qed.
Lemma room_left rs l1 l2 rs1 : room rs (l1 ++ l2) → refs_add rs l1 rs1 → length rs1 = length rs → room rs1 l2.
Proof.
  intros R A Hl f c Hc. assert (0 ≤ f < Z.of_nat (length rs)) as Hf.
  { unfold zlookup in Hc. destruct (Z.ltb_spec f 0); [done|]. apply lookup_lt_Some in Hc. lia. }
  destruct (zlookup_lt rs f Hf) as (c0 & E & _). pose proof (A f c0 E) as E1. rewrite Hc in E1. injection E1 as ->. specialize (R f c0 E). rewrite count_app in R. lia.
Qed.

(** Both depend on the tables of the source and of the clone only. *)
Lemma cloned_ext d : ∀ sh m m1 m2 src t, cloned d sh m m1 src t →
  (∀ q x j, path_ok d q → node m src q = Some x → idx j → m2 (entry_at x j) = m1 (entry_at x j)) →
  (∀ q x j, path_ok d q → node m1 t q = Some x → idx j → m2 (entry_at x j) = m1 (entry_at x j)) → cloned d sh m m2 src t.
Proof.
  induction d as [|d IH]; intros sh m m1 m2 src t; rewrite !cloned_ent; intros Hc Hs Ht i Hi; specialize (Hc i Hi); unfold ent in *;
    rewrite (Hs [] src i (path_nil _) eq_refl Hi), (Ht [] t i (path_nil _) eq_refl Hi); [done|].
  destruct Hc as [H1 H2]. split; [done|]. destruct (present (m (entry_at src i))) eqn:Ep; [|done]. destruct (sh [i]); [done|].
  destruct H2 as (y & Hy & Hy0 & Ee & Hcl). exists y. split; [done|]. split; [done|]. split; [done|]. eapply IH; [exact Hcl| |].
  - intros q x j Hq Hx Hj. apply (Hs (i :: q)); [by apply path_cons|by rewrite node_cons|done].
  - intros q x j Hq Hx Hj. apply (Ht (i :: q)); [by apply path_cons| |done]. rewrite node_cons, Ee.
    + rewrite page_frame_lor; [done|done|done|]. unfold flags_of. change 4095 with (Z.ones 12). rewrite Z.land_ones by lia. by apply Z.mod_pos_bound.
    + rewrite Ee. unfold present. rewrite has_flag_lor. unfold has_flag at 2, flags_of, MMU_PRESENT. rewrite <-Z.land_assoc. change (Z.land 4095 1) with 1.
      unfold present, has_flag, MMU_PRESENT in Ep. rewrite Ep. apply orb_true_r.
Qed.
Lemma source_ext d : ∀ sh m m1 src, (∀ q x j, path_ok d q → node m src q = Some x → idx j → m1 (entry_at x j) = m (entry_at x j)) →
  leaves d sh m1 src = leaves d sh m src ∧ (∀ x, srcleaf d sh m1 src x ↔ srcleaf d sh m src x) ∧ (∀ m' t, cloned d sh m1 m' src t ↔ cloned d sh m m' src t).
Proof.
  induction d as [|d IH]; intros sh m m1 src H.
  - assert (∀ i, idx i → m1 (entry_at src i) = m (entry_at src i)) as H0 by (intros i Hi; by apply (H [] src i (path_nil _))).
    split; [|split; [done|]].
    + cbn [leaves]. f_equal. apply map_ext_in. intros i Hi%list_elem_of_In%elem_of_seqZ. by rewrite H0 by (split; lia).
    + intros m' t. rewrite !cloned_ent. unfold ent. split; intros Hc i Hi; specialize (Hc i Hi); rewrite (H0 i Hi) in *; done.
  - assert (∀ i, idx i → m1 (entry_at src i) = m (entry_at src i)) as H0 by (intros i Hi; by apply (H [] src i (path_nil _))).
    assert (∀ i, idx i → present (m (entry_at src i)) = true → ∀ q x j, path_ok d q → node m (PAGE_FRAME (m (entry_at src i))) q = Some x → idx j →
      m1 (entry_at x j) = m (entry_at x j)) as Hsub.
    { intros i Hi Ep q x j Hq Hx Hj. apply (H (i :: q)); [by apply path_cons|by rewrite node_cons|done]. }
    split; [|split].
    + cbn [leaves]. f_equal. apply map_ext_in. intros i Hi%list_elem_of_In%elem_of_seqZ. rewrite H0 by (split; lia).
      destruct (present (m (entry_at src i))) eqn:Ep; [|done]. destruct (sh [i]); [done|]. cbn. apply IH. apply Hsub; [split; lia|done].
    + intros x. cbn [srcleaf]. split; intros (i & Hi & Ep & Hsh & Hx); exists i; rewrite (H0 i Hi) in *;
        destruct (IH (λ q, sh (i :: q)) m m1 _ (Hsub i Hi Ep)) as (_ & Hs & _); split_and!; try done; by apply Hs.
    + intros m' t. rewrite !cloned_ent. unfold ent. split; intros Hc i Hi; specialize (Hc i Hi); rewrite (H0 i Hi) in *; destruct Hc as [Hc1 Hc2]; (split; [done|]);
        destruct (present (m (entry_at src i))) eqn:Ep; try done; destruct (sh [i]); try done; destruct Hc2 as (y & ? & ? & ? & Hcl); exists y; split_and!; try done;
        destruct (IH (λ q, sh (i :: q)) m m1 _ (Hsub i Hi Ep)) as (_ & _ & Hs); by apply Hs.
Qed.

(** ** The loop *)

(** A path that goes through a shared entry. *)
Fixpoint sharedb (sh : list Z → bool) (q : list Z) : bool :=
  match q with [] => false | i :: q => sh [i] || sharedb (λ p, sh (i :: p)) q end.

Definition upd (m : Z → Z) (p : pmm) (s : mmu) : mmu := with_mm_word m (with_mm_pmm p s).
Definition mono (b b' : list Z) : Prop := ∀ g, 0 ≤ g → bit b g = true → bit b' g = true.
Lemma mono_refl b : mono b b.
Proof. by intros g. Qed.
Lemma mono_trans b1 b2 b3 : mono b1 b2 → mono b2 b3 → mono b1 b3.
Proof. intros H1 H2 g Hg Hb. apply H2; [done|]. by apply H1. Qed.

(** The result for a whole tree. *)
Record cres (d : nat) (sh : list Z → bool) (m : Z → Z) (b rs : list Z) (tot src t : Z) (m' : Z → Z) (p' : pmm) (b' rs' : list Z) : Prop := {
  cr_pmm : pmm_ok p' b' rs';
  cr_total : total_frames p' = tot;
  cr_mono : mono b b';
  cr_tree : tree m' b' tot t d;
  cr_tables : ∀ q x, path_ok d q → node m' t q = Some x → bit b (x / 4096) = false ∨ (sharedb sh q = true ∧ node m src q = Some x);
  cr_cloned : cloned d sh m m' src t;
  cr_kept : ∀ z a, z mod 4096 = 0 → bit b (z / 4096) = true → ¬ srcleaf d sh m src z → in_page z a → m' a = m a;
  cr_refs : refs_add rs (leaves d sh m src) rs' }.

Lemma add_ref_any p b rs f : pmm_ok p b rs → room rs [f] → 0 ≤ f → ∃ p' b' rs', frame_add_ref f p = Ret tt p' ∧ pmm_ok p' b' rs' ∧
  total_frames p' = total_frames p ∧ mono b b' ∧ refs_add rs [f] rs'.
Proof.
  intros H R Hf. destruct (decide (f < total_frames p)) as [Hlt|Hge].
  - destruct (frame_count p b rs f H ltac:(lia)) as (c & Hc & Hr). specialize (R f c Hc) as Rc. unfold count in Rc. rewrite filter_cons_True in Rc by done. cbn in Rc.
    destruct (frame_ref_run p b rs f c H ltac:(lia) Hc ltac:(lia)) as (b' & E & H' & B). eexists _, b', _. split; [exact E|]. split; [exact H'|]. split; [done|]. split.
    + intros g Hg Hb. rewrite B, Hb by done. done.
    + intros g d Hd. pose proof (po_counts _ _ _ H). assert (0 ≤ g) as Hg by (unfold zlookup in Hd; destruct (Z.ltb_spec g 0); [done|lia]).
      rewrite zlookup_insert by lia. unfold count. destruct (Z.eqb_spec g f) as [->|Hne].
      * rewrite filter_cons_True by done. rewrite Hc in Hd. injection Hd as <-. done.
      * rewrite filter_cons_False by done. cbn. by rewrite Z.add_0_r.
  - exists p, b, rs. split; [|split; [done|split; [done|split; [apply mono_refl|]]]].
    + unfold frame_add_ref, kbind, kget. rewrite (po_refs _ _ _ H). by replace (total_frames p <=? f) with true by (symmetry; apply Z.leb_le; lia).
    + intros g d Hd. assert (g ≠ f).
      { intros ->. pose proof (po_counts _ _ _ H). unfold zlookup in Hd. destruct (f <? 0); [done|]. apply lookup_lt_Some in Hd. lia. }
      unfold count. rewrite filter_cons_False by done. cbn. by rewrite Z.add_0_r.
Qed.

Section loop.
Context (d : nat) (sh : list Z → bool) (m : Z → Z) (b rs : list Z) (tot src t : Z).
Context (T : tree m b tot src d) (Hfresh : bit b (t / 4096) = false) (Hta : t mod 4096 = 0).
#[local] Abbreviation e_ i := (m (entry_at src i)).

(** The source tables that the entries below [k] have changed. *)
Definition changed (k z : Z) : Prop :=
  match d with
  | O => z = src
  | S d => ∃ i, idx i ∧ i < k ∧ present (e_ i) = true ∧ sh [i] = false ∧ srcleaf d (λ q, sh (i :: q)) m (PAGE_FRAME (e_ i)) z
  end.
Definition leaves_upto (k : Z) : list Z := concat (map (leaves_at d sh m src) (seqZ 0 k)).

Record linv (k : Z) (m' : Z → Z) (p' : pmm) (b' rs' : list Z) : Prop := {
  li_pmm : pmm_ok p' b' rs';
  li_total : total_frames p' = tot;
  li_mono : mono b b';
  li_tree : tree m' b' tot t d;
  li_tables : ∀ q x, path_ok d q → node m' t q = Some x → bit b (x / 4096) = false ∨ (sharedb sh q = true ∧ node m src q = Some x);
  li_zero : ∀ i, idx i → k ≤ i → m' (entry_at t i) = 0;
  li_todo : ∀ i, idx i → k ≤ i → m' (entry_at src i) = e_ i;
  li_done : ∀ i, idx i → i < k → ent d sh m m' src t i;
  li_kept : ∀ z a, z mod 4096 = 0 → bit b (z / 4096) = true → ¬ changed k z → in_page z a → m' a = m a;
  li_refs : refs_add rs (leaves_upto k) rs' }.

Lemma leaves_upto_S k : 0 ≤ k → leaves_upto (k + 1) = leaves_upto k ++ leaves_at d sh m src k.
Proof.
  intros Hk. unfold leaves_upto. rewrite (seqZ_app 0 k 1) by lia. change (seqZ (0 + k) 1) with [k]. rewrite map_app, concat_app. f_equal. cbn [map concat]. apply app_nil_r.
Qed.
Lemma src_page : page_ok b tot src.
Proof. by apply (tr_page _ _ _ _ _ T [] src (path_nil _)). Qed.
Lemma t_not_src : t ≠ src.
Proof. destruct src_page as (_ & _ & Hb). intros ->. congruence. Qed.
Lemma in_use_ne z : bit b (z / 4096) = true → z ≠ t.
Proof. intros Hb ->. congruence. Qed.
Lemma changed_used k z : changed k z → page_ok b tot z.
Proof.
  pose proof src_page as Hsp. unfold changed. destruct d as [|d']; [by intros ->|]. intros (i & Hi & _ & Ep & _ & Hz). apply srcleaf_node in Hz as (q & Hq & _ & Hn).
  apply (tr_page _ _ _ _ _ T (i :: q)); [by apply path_cons|by rewrite node_cons].
Qed.

(** What a step for entry [k] may change: pages that were free, the entry [k] of the
    new table, and tables of the source below entry [k]. *)
Definition below (k z : Z) : Prop :=
  match d with
  | O => False
  | S d => present (e_ k) = true ∧ sh [k] = false ∧ srcleaf d (λ q, sh (k :: q)) m (PAGE_FRAME (e_ k)) z
  end.
Definition step_kept (k : Z) (m' m1 : Z → Z) (b' : list Z) : Prop :=
  (∀ z a, z mod 4096 = 0 → bit b' (z / 4096) = true → z ≠ t → (d = O → z ≠ src) → ¬ below k z → in_page z a → m1 a = m' a) ∧
  (∀ i, idx i → i ≠ k → m1 (entry_at t i) = m' (entry_at t i) ∧ m1 (entry_at src i) = m' (entry_at src i)).

Lemma below_path k z : idx k → below k z → ∃ q, path_ok d (k :: q) ∧ node m src (k :: q) = Some z.
Proof.
  unfold below. destruct d as [|d']; [done|]. intros Hk (Ep & _ & Hz). apply srcleaf_node in Hz as (q & Hq & _ & Hn). exists q.
  split; [by apply path_cons|by rewrite node_cons].
Qed.
(** Tables of the clone built so far are not touched. *)
Lemma clone_untouched k m' m1 p' b' rs' i q x j : linv k m' p' b' rs' → step_kept k m' m1 b' → idx k → path_ok d (i :: q) → i ≠ k →
  node m' t (i :: q) = Some x → idx j → m1 (entry_at x j) = m' (entry_at x j).
Proof.
  intros I [S1 _] Hk Hq Hne Hx Hj. destruct (tr_page _ _ _ _ _ (li_tree _ _ _ _ _ I) _ _ Hq Hx) as (Ha & _ & Hb). apply (S1 x); try done.
  - intros ->. by assert ([] = i :: q) by (eapply (tr_inj _ _ _ _ _ (li_tree _ _ _ _ _ I)); [apply path_nil|exact Hq|done|exact Hx]).
  - intros _ ->. destruct (li_tables _ _ _ _ _ I _ _ Hq Hx) as [Hf|[_ Hn]]; [destruct src_page as (_ & _ & ?); congruence|].
    by assert ([] = i :: q) by (eapply (tr_inj _ _ _ _ _ T); [apply path_nil|exact Hq|done|exact Hn]).
  - intros Hbl. destruct (below_path k x Hk Hbl) as (q' & Hq' & Hn'). destruct (li_tables _ _ _ _ _ I _ _ Hq Hx) as [Hf|[_ Hn]].
    + destruct (tr_page _ _ _ _ _ T _ _ Hq' Hn') as (_ & _ & ?). congruence.
    + assert (i :: q = k :: q') as [= -> ->] by (eapply (tr_inj _ _ _ _ _ T); [exact Hq|exact Hq'|exact Hn|exact Hn']). done.
  - by apply entry_in_page.
Qed.
(** Nor are tables of the source below other entries. *)
Lemma source_untouched k m' m1 p' b' rs' i q x j : linv k m' p' b' rs' → step_kept k m' m1 b' → idx k → path_ok d (i :: q) → i ≠ k →
  node m src (i :: q) = Some x → idx j → m1 (entry_at x j) = m' (entry_at x j).
Proof.
  intros I [S1 _] Hk Hq Hne Hx Hj. destruct (tr_page _ _ _ _ _ T _ _ Hq Hx) as (Ha & Hr & Hb). apply (S1 x); try done.
  - apply (li_mono _ _ _ _ _ I); [apply Z.div_pos; lia|done].
  - by apply in_use_ne.
  - intros _ ->. by assert ([] = i :: q) by (eapply (tr_inj _ _ _ _ _ T); [apply path_nil|exact Hq|done|exact Hx]).
  - intros Hbl. destruct (below_path k x Hk Hbl) as (q' & Hq' & Hn').
    assert (i :: q = k :: q') as [= -> ->] by (eapply (tr_inj _ _ _ _ _ T); [exact Hq|exact Hq'|exact Hx|exact Hn']). done.
  - by apply entry_in_page.
Qed.

Lemma flags_small e : 0 ≤ flags_of e < 4096.
Proof. unfold flags_of. change 4095 with (Z.ones 12). rewrite Z.land_ones by lia. by apply Z.mod_pos_bound. Qed.
Lemma flags_present y e : present e = true → present (Z.lor y (flags_of e)) = true.
Proof.
  intros Ep. unfold present. rewrite has_flag_lor. unfold has_flag at 2, flags_of, MMU_PRESENT. rewrite <-Z.land_assoc. change (Z.land 4095 1) with 1.
  unfold present, has_flag, MMU_PRESENT in Ep. rewrite Ep. apply orb_true_r.
Qed.

Lemma ent_stable k m' m1 p' b' rs' i : linv k m' p' b' rs' → step_kept k m' m1 b' → idx k → idx i → i ≠ k →
  ent d sh m m' src t i → ent d sh m m1 src t i.
Proof.
  intros I S Hk Hi Hne. pose proof (clone_untouched k m' m1 p' b' rs' i) as Ct. pose proof (source_untouched k m' m1 p' b' rs' i) as Su.
  destruct (proj2 S i Hi Hne) as [E1 E2]. unfold ent. rewrite E1, E2. clear E1 E2.
  revert I S Ct Su. clear T. destruct d as [|d']; intros I S Ct Su [H1 H2]; [done|]. split; [done|]. destruct (present (e_ i)) eqn:Ep; [|done].
  destruct (sh [i]); [done|]. destruct H2 as (y & Hy & Hy0 & Ee & Hcl). exists y. split_and!; try done. eapply cloned_ext; [exact Hcl| |].
  - intros q x j Hq Hx Hj. apply (Su q x j I S Hk); try done; [by apply path_cons|by rewrite node_cons].
  - intros q x j Hq Hx Hj. apply (Ct q x j I S Hk); try done; [by apply path_cons|]. rewrite node_cons, Ee by (rewrite Ee; by apply flags_present).
    rewrite page_frame_lor; [done|done|done|apply flags_small].
Qed.

Lemma changed_S k z : changed (k + 1) z ↔ changed k z ∨ (below k z ∧ idx k) ∨ (d = O ∧ z = src).
Proof.
  unfold changed, below. destruct d as [|d']; [tauto|]. split.
  - intros (i & Hi & Hlt & Ep & Hs & Hz). destruct (decide (i = k)) as [->|]; [right; left; done|left]. exists i. split_and!; try done. lia.
  - intros [(i & Hi & Hlt & Ep & Hs & Hz)|[[(Ep & Hs & Hz) Hk]|[? _]]]; [exists i|exists k|done]; split_and!; try done; lia.
Qed.

(** One step more. *)
Lemma linv_next k m' p' b' rs' m1 p1 b1 rs1 : linv k m' p' b' rs' → idx k → step_kept k m' m1 b' → pmm_ok p1 b1 rs1 → total_frames p1 = tot → mono b' b1 →
  tree m1 b1 tot t d → (∀ q x, path_ok d q → node m1 t q = Some x → bit b (x / 4096) = false ∨ (sharedb sh q = true ∧ node m src q = Some x)) →
  ent d sh m m1 src t k → refs_add rs' (leaves_at d sh m src k) rs1 → linv (k + 1) m1 p1 b1 rs1.
Proof.
  intros I Hk S H1 Ht1 Mo T1 Tb Ek Rk. split; try done.
  - eapply mono_trans; [apply I|done].
  - intros i Hi Hle. rewrite (proj1 (proj2 S i Hi ltac:(lia))). apply (li_zero _ _ _ _ _ I); [done|lia].
  - intros i Hi Hle. rewrite (proj2 (proj2 S i Hi ltac:(lia))). apply (li_todo _ _ _ _ _ I); [done|lia].
  - intros i Hi Hlt. destruct (decide (i = k)) as [->|Hne]; [done|]. apply (ent_stable k m' m1 p' b' rs'); try done. apply (li_done _ _ _ _ _ I); [done|lia].
  - intros z a Hz Hb Hnc Ha. rewrite changed_S in Hnc. rewrite <-(li_kept _ _ _ _ _ I z a Hz Hb ltac:(tauto) Ha).
    apply (proj1 S z a Hz); try done.
    + apply (li_mono _ _ _ _ _ I); [by eapply bit_nonneg|done].
    + by apply in_use_ne.
    + intros Hd ->. tauto.
    + tauto.
  - rewrite leaves_upto_S by (unfold idx in Hk; lia). eapply refs_add_trans; [apply I|done].
Qed.

Lemma refs_at_nil k rs' : present (e_ k) && negb (sh [k]) = false → refs_add rs' (leaves_at d sh m src k) rs'.
Proof. intros E. unfold leaves_at. rewrite E. apply refs_add_nil. Qed.
Lemma self_kept k m' b' : step_kept k m' m' b'.
Proof. done. Qed.

(** An absent entry. *)
Lemma step_absent k m' p' b' rs' : linv k m' p' b' rs' → idx k → present (e_ k) = false → linv (k + 1) m' p' b' rs'.
Proof.
  intros I Hk Ep. apply (linv_next k m' p' b' rs'); [done|done|apply self_kept|apply I|apply I|apply mono_refl|apply I|apply I| |apply refs_at_nil; by rewrite Ep].
  pose proof (li_todo _ _ _ _ _ I k Hk ltac:(lia)) as E1. pose proof (li_zero _ _ _ _ _ I k Hk ltac:(lia)) as E2. unfold ent. rewrite E1, E2, Ep. by destruct d.
Qed.

(** The new table and its entry [k]. *)
Lemma t_page k m' p' b' rs' : linv k m' p' b' rs' → page_ok b' tot t.
Proof. intros I. by apply (tr_page _ _ _ _ _ (li_tree _ _ _ _ _ I) [] t (path_nil _)). Qed.
Lemma store_kept k m' b' v : idx k → step_kept k m' (set_word (entry_at t k) v m') b'.
Proof.
  intros Hk. destruct src_page as (Hsa & _ & Hsb). split.
  - intros z a Hz _ Hne _ _ Ha. apply set_word_ne. intros ->. apply Hne. eapply (pages_apart z t); try done. by apply entry_in_page.
  - intros i Hi Hne. split; apply set_word_ne; [unfold entry_at; lia|]. intros E. apply words_apart in E as [E _]; try done. by apply (in_use_ne src).
Qed.
End loop.

(** Source tables below an entry that has not been reached are as before. *)
Lemma source_todo d sh m b rs tot src t k m' p' b' rs' : tree m b tot src (S d) → linv (S d) sh m b rs tot src t k m' p' b' rs' → idx k → present (m (entry_at src k)) = true →
  ∀ q x j, path_ok d q → node m (PAGE_FRAME (m (entry_at src k))) q = Some x → idx j → m' (entry_at x j) = m (entry_at x j).
Proof.
  intros T I Hk Ep q x j Hq Hx Hj. rewrite <-(node_cons m src k) in Hx by done. pose proof (path_cons d k q Hk Hq) as Hkq.
  destruct (tr_page _ _ _ _ _ T _ _ Hkq Hx) as (Ha & Hr & Hb). apply (li_kept _ _ _ _ _ _ _ _ _ _ _ _ _ I x); try done; [|by apply entry_in_page].
  cbn. intros (i & Hi & Hlt & Ei & _ & Hz). apply srcleaf_node in Hz as (q' & Hq' & _ & Hn'). rewrite <-(node_cons m src i) in Hn' by done.
  assert (k :: q = i :: q') as [= -> _] by (eapply (tr_inj _ _ _ _ _ T); [done|by apply path_cons|exact Hx|exact Hn']). lia.
Qed.

(** The tables of the clone are not those below an entry that has not been reached. *)
Lemma clone_apart d sh m b rs tot src t k m' p' b' rs' : tree m b tot src (S d) → linv (S d) sh m b rs tot src t k m' p' b' rs' → idx k →
  ∀ p q x, path_ok (S d) p → path_ok d q → node m' t p = Some x → node m src (k :: q) = Some x → False.
Proof.
  intros T I Hk p q x Hp Hq Hxp Hx. pose proof (path_cons d k q Hk Hq) as Hkq. destruct (li_tables _ _ _ _ _ _ _ _ _ _ _ _ _ I p x Hp Hxp) as [Hb|[_ Hxs]].
  - destruct (tr_page _ _ _ _ _ T _ _ Hkq Hx) as (_ & _ & ?). congruence.
  - assert (p = k :: q) as -> by (eapply (tr_inj _ _ _ _ _ T); [done|done|exact Hxs|exact Hx]). cbn in Hxp.
    by rewrite (li_zero _ _ _ _ _ _ _ _ _ _ _ _ _ I k Hk ltac:(lia)) in Hxp.
Qed.

(** Hanging a subtree, shared or cloned, into entry [k]. *)
Lemma graft_linv d sh m b tot src t k m' b' c e : tree m' b' tot t (S d) → bit b (t / 4096) = false → m' (entry_at t k) = 0 →
  (∀ q x, path_ok (S d) q → node m' t q = Some x → bit b (x / 4096) = false ∨ (sharedb sh q = true ∧ node m src q = Some x)) → idx k →
  tree m' b' tot c d → (∀ p q x, path_ok (S d) p → path_ok d q → node m' t p = Some x → node m' c q = Some x → False) →
  (∀ q x, path_ok d q → node m' c q = Some x → bit b (x / 4096) = false ∨ (sharedb sh (k :: q) = true ∧ node m src (k :: q) = Some x)) →
  present e = true → PAGE_FRAME e = c →
  let m1 := set_word (entry_at t k) e m' in
  tree m1 b' tot t (S d) ∧ (∀ q x, path_ok (S d) q → node m1 t q = Some x → bit b (x / 4096) = false ∨ (sharedb sh q = true ∧ node m src q = Some x)).
Proof.
  intros T1 Hf Hz Htb Hk C Hdisj Hsrc He Hc m1. assert (present (m' (entry_at t k)) = false) as Hfree by (by rewrite Hz).
  split; [by apply (graft_tree m' b' tot t c k e d T1 Hk C)|].
  intros q x Hq. subst m1. rewrite (graft_node m' b' tot t c k e d T1 Hk C) by done.
  destruct q as [|j q]; [intros [= <-]; by left|]. apply path_uncons in Hq as Hq'. destruct Hq' as [Hj Hq'].
  destruct (Z.eqb_spec j k) as [->|Hne]; intros Hx; [|by apply Htb]. destruct (Hsrc q x Hq' Hx) as [?|?]; [by left|by right].
Qed.

Lemma tree_zero m b tot t : page_ok b tot t → tree m b tot t 0.
Proof.
  intros Hp. split.
  - intros p q x [_ H1] [_ H2]. destruct p, q; cbn in *; try done; lia.
  - intros p x [_ H1]. destruct p; cbn in *; [by intros [= <-]|lia].
Qed.

(** A shared entry. *)
Lemma step_shared d sh m b rs tot src t k m' p' b' rs' s : tree m b tot src d → bit b (t / 4096) = false → t mod 4096 = 0 →
  linv d sh m b rs tot src t k m' p' b' rs' → idx k → present (m (entry_at src k)) = true → sh [k] = true →
  ∃ m1, store (entry_at t k) (m (entry_at src k)) (upd m' p' s) = Ret tt (upd m1 p' s) ∧ linv d sh m b rs tot src t (k + 1) m1 p' b' rs'.
Proof.
  intros T Hf Hta I Hk Ep Hs. set (e := m (entry_at src k)) in *. exists (set_word (entry_at t k) e m'). split; [done|].
  pose proof (store_kept d sh m b tot src t T Hf Hta k m' b' e Hk) as Sk.
  assert (set_word (entry_at t k) e m' (entry_at src k) = e) as Es.
  { rewrite set_word_ne; [by apply (li_todo _ _ _ _ _ _ _ _ _ _ _ _ _ I k Hk); lia|]. destruct (src_page d m b tot src T) as (Ha & _ & Hb).
    intros E. apply words_apart in E as [-> _]; try done. congruence. }
  assert (tree (set_word (entry_at t k) e m') b' tot t d ∧ ∀ q x, path_ok d q → node (set_word (entry_at t k) e m') t q = Some x → bit b (x / 4096) = false ∨ (sharedb sh q = true ∧ node m src q = Some x)) as [T1 Tb].
  { destruct d as [|d].
    - split; [apply tree_zero; exact (t_page _ _ _ _ _ _ _ _ _ _ _ _ _ I)|]. intros [|? ?] x [_ Hl]; [intros [= <-]; by left|cbn in Hl; lia].
    - pose proof (source_todo _ _ _ _ _ _ _ _ _ _ _ _ _ T I Hk Ep) as Hst.
      assert (∀ q, path_ok d q → node m' (PAGE_FRAME e) q = node m (PAGE_FRAME e) q) as Hn.
      { apply node_ext. intros q x j Hq _ Hx Hj. by apply (Hst q). }
      apply (graft_linv d sh m b tot src t k m' b' (PAGE_FRAME e) e); try done; try apply I; try done; try lia.
      + eapply tree_ext; [exact (tree_sub _ _ _ _ _ k T Hk Ep)|done|apply I].
      + intros p q x Hp Hq Hxp Hx. rewrite Hn in Hx by done. rewrite <-(node_cons m src k) in Hx by done. by eapply (clone_apart d sh m b rs tot src t k m').
      + intros q x Hq Hx. rewrite Hn in Hx by done. right. rewrite node_cons by done. split; [|done]. cbn [sharedb]. by rewrite Hs. }
  apply (linv_next d sh m b rs tot src t T Hf k m' p' b' rs'); [done|done|done|apply I|apply I|apply mono_refl|done|done| |].
  - unfold ent. rewrite Es, set_word_same. fold e. rewrite Ep, Hs. cbn. by destruct d.
  - apply refs_at_nil. fold e. by rewrite Ep, Hs.
Qed.

Lemma cowp_frame e : PAGE_FRAME (cowp e) = PAGE_FRAME e.
Proof.
  unfold cowp. destruct (has_flag e MMU_USER && has_flag e MMU_WRITABLE); [|done]. apply Z.bits_inj'. intros k Hk. rewrite !page_frame_bits by done.
  destruct (Z.leb_spec 12 k); [|done]. cbn. unfold cow, MMU_WRITABLE, MMU_COW. change 2 with (2 ^ 1). change 512 with (2 ^ 9).
  rewrite Z.lor_spec, Z.ldiff_spec, !pow2_bit by lia. replace (k =? 1) with false by (symmetry; apply Z.eqb_neq; lia).
  replace (k =? 9) with false by (symmetry; apply Z.eqb_neq; lia). by rewrite andb_true_r, orb_false_r.
Qed.

(** An entry of the last level. *)
Lemma clone_leaf_run m' p' s src t k e : t ≠ src → t mod 4096 = 0 → src mod 4096 = 0 → idx k → m' (entry_at src k) = e →
  ∃ m1, m1 (entry_at src k) = cowp e ∧ m1 (entry_at t k) = cowp e ∧ (∀ a, a ≠ entry_at src k → a ≠ entry_at t k → m1 a = m' a) ∧
    clone_leaf true src t k (upd m' p' s) = pm (frame_add_ref (u32 (PAGE_FRAME e / 4096))) (upd m1 p' s).
Proof.
  intros Hne Ht Hs Hk He. assert (entry_at src k ≠ entry_at t k) as Ha by (intros E; apply words_apart in E as [-> _]; done).
  unfold clone_leaf. rewrite (kbind_ret _ _ _ _ _ (load_run (upd m' p' s) _)). change (mm_word (upd m' p' s)) with m'. rewrite He. set (m1 := set_word (entry_at t k) e m').
  rewrite (kbind_ret (store (entry_at t k) e) _ (upd m' p' s) tt (upd m1 p' s) eq_refl). unfold cowp. cbn [andb].
  rewrite <-(cowp_frame e). unfold cowp. destruct (has_flag e MMU_USER && has_flag e MMU_WRITABLE).
  - set (m2 := set_word (entry_at src k) (cow e) m1). set (m3 := set_word (entry_at t k) (cow e) m2). exists m3.
    assert (m2 (entry_at t k) = e) as E2 by (unfold m2, m1; by rewrite set_word_ne, set_word_same by done).
    assert (m3 (entry_at t k) = cow e) as E3 by apply set_word_same.
    split; [unfold m3, m2; by rewrite set_word_ne, set_word_same by done|]. split; [done|]. split; [intros; unfold m3, m2, m1; by rewrite !set_word_ne|].
    rewrite (kbind_ret _ _ (upd m1 p' s) tt (upd m3 p' s)).
    + rewrite (kbind_ret _ _ _ _ _ (load_run (upd m3 p' s) _)). change (mm_word (upd m3 p' s)) with m3. by rewrite E3.
    + rewrite (kbind_ret (store (entry_at src k) (cow e)) _ (upd m1 p' s) tt (upd m2 p' s) eq_refl), (kbind_ret _ _ _ _ _ (load_run (upd m2 p' s) _)).
      change (mm_word (upd m2 p' s)) with m2. by rewrite E2.
  - exists m1. split; [unfold m1; by rewrite set_word_ne|]. split; [apply set_word_same|]. split; [intros; unfold m1; by rewrite set_word_ne|].
    rewrite (kbind_ret (kret tt) _ (upd m1 p' s) tt (upd m1 p' s) eq_refl), (kbind_ret _ _ _ _ _ (load_run (upd m1 p' s) _)). change (mm_word (upd m1 p' s)) with m1.
    unfold m1 at 1. by rewrite set_word_same.
Qed.

Lemma step_leaf sh m b rs tot src t k m' p' b' rs' s : tree m b tot src 0 → bit b (t / 4096) = false → t mod 4096 = 0 →
  linv 0 sh m b rs tot src t k m' p' b' rs' → idx k → present (m (entry_at src k)) = true → sh [k] = false → room rs' (leaves_at 0 sh m src k) →
  ∃ m1 p1 b1 rs1, clone_leaf true src t k (upd m' p' s) = Ret tt (upd m1 p1 s) ∧ linv 0 sh m b rs tot src t (k + 1) m1 p1 b1 rs1.
Proof.
  intros T Hf Hta I Hk Ep Hs Hroom. destruct (src_page 0 m b tot src T) as (Ha & _ & Hb). pose proof (in_use_ne b t Hf src Hb) as Hne.
  destruct (clone_leaf_run m' p' s src t k (m (entry_at src k)) (not_eq_sym Hne) Hta Ha Hk) as (m1 & E1 & E2 & E3 & E); [apply (li_todo _ _ _ _ _ _ _ _ _ _ _ _ _ I); [done|lia]|].
  unfold leaves_at in Hroom. rewrite Ep, Hs in Hroom. cbn [andb negb] in Hroom. set (f := u32 (PAGE_FRAME (m (entry_at src k)) / 4096)) in *.
  destruct (add_ref_any p' b' rs' f (li_pmm _ _ _ _ _ _ _ _ _ _ _ _ _ I) Hroom) as (p1 & b1 & rs1 & Ea & H1 & Ht1 & Mo & Ra); [apply u32_range|].
  exists m1, p1, b1, rs1. split; [rewrite E; exact (pm_run _ (upd m1 p' s) _ _ Ea)|].
  apply (linv_next 0 sh m b rs tot src t T Hf k m' p' b' rs'); try done.
  - split.
    + intros z a Hz _ Hzt Hzs _ Hza. apply E3.
      * intros ->. apply (Hzs eq_refl). eapply (pages_apart z src); try done. by apply entry_in_page.
      * intros ->. apply Hzt. eapply (pages_apart z t); try done. by apply entry_in_page.
    + intros i Hi Hik. split; apply E3; unfold entry_at in *; try lia; intros Eq;
        [apply (words_apart t src i k) in Eq as [? _]|apply (words_apart src t i k) in Eq as [? _]]; try done; congruence.
  - rewrite Ht1. apply I.
  - apply tree_zero. eapply page_ok_mono; [exact (t_page _ _ _ _ _ _ _ _ _ _ _ _ _ I)|exact Mo].
  - intros [|? ?] x [_ Hl]; [intros [= <-]; by left|cbn in Hl; lia].
  - unfold ent. by rewrite E1, E2, Ep, Hs.
  - unfold leaves_at. by rewrite Ep, Hs.
Qed.

(** ** A table above the last level *)

Definition clone_spec (d : nat) : Prop := ∀ sh m b rs tot p src s, tree m b tot src d → pmm_ok p b rs → total_frames p = tot → room rs (leaves d sh m src) →
  (∃ s', clone_gen d sh src (upd m p s) = Panic s' ∧ no_frame (mm_pmm s')) ∨
  ∃ t m' p' b' rs', clone_gen d sh src (upd m p s) = Ret t (upd m' p' s) ∧ bit b (t / 4096) = false ∧ page_ok b' tot t ∧
    cres d sh m b rs tot src t m' p' b' rs'.

Section node_step.
Context (d : nat) (sh : list Z → bool) (m : Z → Z) (b rs : list Z) (tot src t k : Z) (m' : Z → Z) (p' : pmm) (b' rs' : list Z).
Context (T : tree m b tot src (S d)) (Hf : bit b (t / 4096) = false) (Hta : t mod 4096 = 0).
Context (I : linv (S d) sh m b rs tot src t k m' p' b' rs') (Hk : idx k) (Ep : present (m (entry_at src k)) = true) (Hs : sh [k] = false).
#[local] Abbreviation e := (m (entry_at src k)).
#[local] Abbreviation c := (PAGE_FRAME (m (entry_at src k))).
#[local] Abbreviation sh' := (λ q, sh (k :: q)).

Lemma child_ext : leaves d sh' m' c = leaves d sh' m c ∧ (∀ x, srcleaf d sh' m' c x ↔ srcleaf d sh' m c x) ∧ (∀ m1 y, cloned d sh' m' m1 c y ↔ cloned d sh' m m1 c y).
Proof. apply source_ext. exact (source_todo _ _ _ _ _ _ _ _ _ _ _ _ _ T I Hk Ep). Qed.
Lemma child_node q : path_ok d q → node m' c q = node m src (k :: q).
Proof.
  intros Hq. rewrite node_cons by done. revert q Hq. apply node_ext. intros q x j Hq _ Hx Hj.
  by apply (source_todo _ _ _ _ _ _ _ _ _ _ _ _ _ T I Hk Ep q).
Qed.
Lemma child_tree : tree m' b' tot c d.
Proof. eapply tree_ext; [exact (tree_sub _ _ _ _ _ k T Hk Ep)| |apply I]. intros q Hq. rewrite child_node by done. by rewrite node_cons. Qed.
Lemma child_leaf x : srcleaf d sh' m' c x → ∃ q, path_ok d q ∧ node m src (k :: q) = Some x ∧ page_ok b tot x.
Proof.
  intros (q & Hq & _ & Hx)%srcleaf_node. rewrite child_node in Hx by done. exists q. split_and!; try done.
  apply (tr_page _ _ _ _ _ T (k :: q)); [by apply path_cons|done].
Qed.

Context (y : Z) (m2 : Z → Z) (p2 : pmm) (b2 rs2 : list Z) (Hy : bit b' (y / 4096) = false) (Hyp : page_ok b2 tot y).
Context (R : cres d sh' m' b' rs' tot c y m2 p2 b2 rs2).

Lemma below_kept z a : z mod 4096 = 0 → bit b' (z / 4096) = true → ¬ srcleaf d sh' m' c z → in_page z a → m2 a = m' a.
Proof. intros. by apply (cr_kept _ _ _ _ _ _ _ _ _ _ _ _ R z). Qed.
Lemma src_word i : idx i → m2 (entry_at src i) = m' (entry_at src i).
Proof.
  intros Hi. destruct (src_page (S d) m b tot src T) as (Ha & Hr & Hb). apply (below_kept src); [done| | |by apply entry_in_page].
  - apply (li_mono _ _ _ _ _ _ _ _ _ _ _ _ _ I); [apply Z.div_pos; lia|done].
  - intros (q & Hq & Hx & _)%child_leaf. by assert ([] = k :: q) by (eapply (tr_inj _ _ _ _ _ T); [apply path_nil|by apply path_cons|done|exact Hx]).
Qed.
Lemma clone_words p x i : path_ok (S d) p → node m' t p = Some x → idx i → m2 (entry_at x i) = m' (entry_at x i).
Proof.
  intros Hp Hx Hi. destruct (tr_page _ _ _ _ _ (li_tree _ _ _ _ _ _ _ _ _ _ _ _ _ I) p x Hp Hx) as (Ha & _ & Hb).
  apply (below_kept x); try done; [|by apply entry_in_page]. intros (q & Hq & Hxs & _)%child_leaf. by eapply (clone_apart d sh m b rs tot src t k m').
Qed.
Lemma clone_nodes p : path_ok (S d) p → node m2 t p = node m' t p.
Proof. apply node_ext. intros q x i Hq _ Hx Hi. by apply (clone_words q). Qed.
Lemma child_in q x : path_ok d q → node m2 y q = Some x → bit b' (x / 4096) = false ∨ (sharedb sh (k :: q) = true ∧ node m src (k :: q) = Some x).
Proof.
  intros Hq Hx. destruct (cr_tables _ _ _ _ _ _ _ _ _ _ _ _ R q x Hq Hx) as [?|[Hsq Hn]]; [by left|right]. rewrite <-child_node by done. split; [|done]. cbn [sharedb]. rewrite Hsq. apply orb_true_r.
Qed.
Lemma free_before x : bit b' (x / 4096) = false → bit b (x / 4096) = false.
Proof.
  intros H. destruct (bit b (x / 4096)) eqn:E; [|done]. rewrite <-H. symmetry. apply (li_mono _ _ _ _ _ _ _ _ _ _ _ _ _ I); [by eapply bit_nonneg|done].
Qed.
Lemma child_not_t q x : path_ok d q → node m2 y q = Some x → x ≠ t.
Proof.
  intros Hq Hx ->. destruct (t_page _ _ _ _ _ _ _ _ _ _ _ _ _ I) as (_ & _ & Hb). destruct (child_in q t Hq Hx) as [?|[_ Hn]]; [congruence|].
  destruct (tr_page _ _ _ _ _ T (k :: q) t (path_cons d k q Hk Hq) Hn) as (_ & _ & ?). congruence.
Qed.
#[local] Abbreviation v := (Z.lor y (flags_of e)).
#[local] Abbreviation m3 := (set_word (entry_at t k) v m2).
Lemma link_word x j : x mod 4096 = 0 → x ≠ t → idx j → m3 (entry_at x j) = m2 (entry_at x j).
Proof. intros Hx Hne Hj. apply set_word_ne. intros E. by apply words_apart in E as [-> _]. Qed.
Lemma v_frame : PAGE_FRAME v = y.
Proof. destruct Hyp as (? & ? & _). apply page_frame_lor; [done|lia|apply flags_small]. Qed.

Lemma node_kept : step_kept (S d) sh m src t k m' m3 b'.
Proof.
  split.
  - intros z a Hz Hb Hne _ Hbl Ha. rewrite set_word_ne.
    + apply (below_kept z); try done. intros Hl. apply Hbl. cbn. split_and!; try done. by apply child_ext.
    + intros ->. apply Hne. eapply (pages_apart z t); try done. by apply entry_in_page.
  - destruct (src_page (S d) m b tot src T) as (Ha & _ & Hb). intros i Hi Hne. split.
    + rewrite set_word_ne by (unfold entry_at; lia). apply (clone_words []); [apply path_nil|done|done].
    + rewrite link_word; [by apply src_word|done|by apply (in_use_ne b t Hf)|done].
Qed.
Lemma node_ent : ent (S d) sh m m3 src t k.
Proof.
  destruct (src_page (S d) m b tot src T) as (Ha & _ & Hb). unfold ent. rewrite set_word_same, link_word by (done || by apply (in_use_ne b t Hf)). rewrite src_word by done.
  rewrite (li_todo _ _ _ _ _ _ _ _ _ _ _ _ _ I k Hk ltac:(lia)). split; [done|]. rewrite Ep, Hs. destruct Hyp as (Hya & Hyr & _). exists y. split_and!; [done|lia|done|].
  apply (cloned_ext _ _ _ m2); [apply child_ext, R| |].
  - intros q x j Hq Hx Hj. rewrite <-(node_cons m src k) in Hx by done. destruct (tr_page _ _ _ _ _ T (k :: q) x (path_cons d k q Hk Hq) Hx) as (Hxa & _ & Hxb).
    apply link_word; [done|by apply (in_use_ne b t Hf)|done].
  - intros q x j Hq Hx Hj. destruct (tr_page _ _ _ _ _ (cr_tree _ _ _ _ _ _ _ _ _ _ _ _ R) q x Hq Hx) as (Hxa & _). apply link_word; [done|by apply (child_not_t q)|done].
Qed.
Lemma node_next : linv (S d) sh m b rs tot src t (k + 1) m3 p2 b2 rs2.
Proof.
  pose proof clone_nodes as Hcn. pose proof (li_tree _ _ _ _ _ _ _ _ _ _ _ _ _ I) as Tt.
  destruct (graft_linv d sh m b tot src t k m2 b2 y v) as [T1 Tb]; try done.
  - eapply tree_ext; [exact Tt|done|apply R].
  - rewrite (clone_words [] t k (path_nil _) eq_refl Hk). by apply (li_zero _ _ _ _ _ _ _ _ _ _ _ _ _ I k Hk); lia.
  - intros q x Hq. rewrite Hcn by done. by apply I.
  - apply R.
  - intros p q x Hp Hq Hxp Hx. rewrite Hcn in Hxp by done. destruct (child_in q x Hq Hx) as [Hb|[? Hn]].
    + destruct (tr_page _ _ _ _ _ Tt p x Hp Hxp) as (_ & _ & ?). congruence.
    + by eapply (clone_apart d sh m b rs tot src t k m').
  - intros q x Hq Hx. destruct (child_in q x Hq Hx) as [Hb|[? Hn]]; [left; by apply free_before|by right].
  - by apply flags_present.
  - apply v_frame.
  - apply (linv_next (S d) sh m b rs tot src t T Hf k m' p' b' rs'); try done; try apply R; [apply node_kept|apply node_ent|].
    unfold leaves_at. rewrite Ep, Hs. cbn [andb negb]. rewrite <-(proj1 child_ext). apply R.
Qed.
End node_step.

Lemma step_node d sh m b rs tot src t k m' p' b' rs' s : clone_spec d → tree m b tot src (S d) → bit b (t / 4096) = false → t mod 4096 = 0 →
  linv (S d) sh m b rs tot src t k m' p' b' rs' → idx k → present (m (entry_at src k)) = true → sh [k] = false → room rs' (leaves_at (S d) sh m src k) →
  (∃ s', link_clone src t k (clone_gen d (λ q, sh (k :: q))) (upd m' p' s) = Panic s' ∧ no_frame (mm_pmm s')) ∨
  ∃ m1 p1 b1 rs1, link_clone src t k (clone_gen d (λ q, sh (k :: q))) (upd m' p' s) = Ret tt (upd m1 p1 s) ∧ linv (S d) sh m b rs tot src t (k + 1) m1 p1 b1 rs1.
Proof.
  intros IH T Hf Hta I Hk Ep Hs Hroom. unfold link_clone. rewrite (kbind_ret _ _ _ _ _ (load_run (upd m' p' s) _)).
  change (mm_word (upd m' p' s)) with m'. rewrite (li_todo _ _ _ _ _ _ _ _ _ _ _ _ _ I k Hk ltac:(lia)). unfold leaves_at in Hroom. rewrite Ep, Hs in Hroom. cbn [andb negb] in Hroom.
  destruct (IH (λ q, sh (k :: q)) m' b' rs' tot p' (PAGE_FRAME (m (entry_at src k))) s) as [(s' & E & O)|(y & m2 & p2 & b2 & rs2 & E & Hy & Hyp & R)].
  - by eapply child_tree.
  - apply I.
  - apply I.
  - by rewrite (proj1 (child_ext _ _ _ _ _ _ _ _ _ _ _ _ _ T I Hk Ep)).
  - left. exists s'. split; [|done]. unfold kbind. by rewrite E.
  - right. rewrite (kbind_ret _ _ _ _ _ E), (kbind_ret _ _ _ _ _ (load_run (upd m2 p2 s) _)). change (mm_word (upd m2 p2 s)) with m2.
    rewrite (src_word d sh m b rs tot src t k m' p' b' rs' T I Hk Ep y m2 p2 b2 rs2 R k Hk), (li_todo _ _ _ _ _ _ _ _ _ _ _ _ _ I k Hk ltac:(lia)).
    exists (set_word (entry_at t k) (Z.lor y (flags_of (m (entry_at src k)))) m2), p2, b2, rs2. split; [done|]. by eapply node_next.
Qed.

(** ** The whole tree *)

Lemma linv_first d sh m b rs tot src t p b' : tree m b tot src d → bit b (t / 4096) = false → page_ok b' tot t → pmm_ok p b' rs → total_frames p = tot → mono b b' →
  linv d sh m b rs tot src t 0 (zero_page t m) p b' rs.
Proof.
  intros T Hf (Hta & Htr & Htb) H Ht Mo. destruct (src_page d m b tot src T) as (Ha & _ & Hb).
  assert (∀ z a, z mod 4096 = 0 → bit b (z / 4096) = true → in_page z a → zero_page t m a = m a) as Hk.
  { intros z a Hz Hzb Hza. apply zero_page_out. intros Hin. pose proof (pages_apart z t a Hz Hta Hza Hin) as ->. congruence. }
  assert (∀ i, idx i → zero_page t m (entry_at t i) = 0) as Hz by (intros; by apply zero_page_in, entry_in_page).
  assert (∀ q x, path_ok d q → node (zero_page t m) t q = Some x → q = [] ∧ x = t) as Hn.
  { intros [|i q] x Hq; [by intros [= <-]|]. cbn. rewrite Hz; [done|]. destruct Hq as [Hq _]. by inversion Hq. }
  split; try done.
  - split.
    + intros q q' x Hq Hq' [-> _]%Hn [-> _]%Hn; done.
    + intros q x Hq [_ ->]%Hn; done.
  - intros q x Hq [_ ->]%Hn; [by left|done].
  - intros i Hi _. by apply Hz.
  - intros i Hi _. apply (Hk src); [done|done|by apply entry_in_page].
  - unfold idx. lia.
  - intros z a ? ? _ ?. by apply (Hk z).
  - apply refs_add_nil.
Qed.

Lemma linv_last d sh m b rs tot src t m' p' b' rs' : linv d sh m b rs tot src t 512 m' p' b' rs' → cres d sh m b rs tot src t m' p' b' rs'.
Proof.
  intros I. split; try apply I.
  - apply cloned_ent. intros i Hi. apply (li_done _ _ _ _ _ _ _ _ _ _ _ _ _ I i Hi). apply Hi.
  - intros z a Hz Hb Hn. apply (li_kept _ _ _ _ _ _ _ _ _ _ _ _ _ I z a Hz Hb). intros Hc. apply Hn. destruct d as [|d']; [done|]. cbn in *.
    destruct Hc as (i & Hi & _ & ?). by exists i.
  - rewrite leaves_eq. apply I.
Qed.

Lemma linv_length d sh m b rs tot src t k m' p' b' rs' p : pmm_ok p b rs → total_frames p = tot → linv d sh m b rs tot src t k m' p' b' rs' → length rs' = length rs.
Proof.
  intros H Ht I. pose proof (po_counts _ _ _ H). pose proof (po_counts _ _ _ (li_pmm _ _ _ _ _ _ _ _ _ _ _ _ _ I)). pose proof (li_total _ _ _ _ _ _ _ _ _ _ _ _ _ I). lia.
Qed.

(** Room for the rest of the loop. *)
Lemma room_at d sh m b rs tot src t k m' p' b' rs' p : pmm_ok p b rs → total_frames p = tot → room rs (leaves d sh m src) → linv d sh m b rs tot src t k m' p' b' rs' → idx k →
  room rs' (leaves_at d sh m src k).
Proof.
  intros H Ht R I Hk. pose proof (linv_length _ _ _ _ _ _ _ _ _ _ _ _ _ p H Ht I) as Hl. apply (room_left rs (leaves_upto d sh m src k)); [|apply I|done].
  rewrite <-leaves_upto_S by apply Hk. intros f c Hc. specialize (R f c Hc). rewrite leaves_eq in R.
  replace 512 with ((k + 1) + (511 - k)) in R by lia. rewrite seqZ_app in R by (unfold idx in Hk; lia).
  rewrite map_app, concat_app, count_app in R. pose proof (count_nonneg f (concat (map (leaves_at d sh m src) (seqZ (0 + (k + 1)) (511 - k))))). unfold leaves_upto. lia.
Qed.

Definition clone_body (d : nat) (sh : list Z → bool) (src t : Z) (i e : Z) : kM mmu unit :=
  if sh [i] then store (entry_at t i) e
  else match d with
       | S d => link_clone src t i (clone_gen d (λ q, sh (i :: q)))
       | O => clone_leaf true src t i
       end.

Lemma clone_loop d sh m b rs tot src t p s : match d with O => True | S d => clone_spec d end → tree m b tot src d → bit b (t / 4096) = false → t mod 4096 = 0 →
  pmm_ok p b rs → total_frames p = tot → room rs (leaves d sh m src) →
  ∀ n k m' p' b' rs', linv d sh m b rs tot src t k m' p' b' rs' → 0 ≤ k → k + Z.of_nat n = 512 →
  (∃ s', for_present n k src (clone_body d sh src t) (upd m' p' s) = Panic s' ∧ no_frame (mm_pmm s')) ∨
  ∃ m1 p1 b1 rs1, for_present n k src (clone_body d sh src t) (upd m' p' s) = Ret tt (upd m1 p1 s) ∧ linv d sh m b rs tot src t 512 m1 p1 b1 rs1.
Proof.
  intros IH T Hf Hta H Ht R. induction n as [|n IHn]; intros k m' p' b' rs' I Hk0 Hn.
  { right. exists m', p', b', rs'. split; [done|]. by replace 512 with k by lia. }
  assert (idx k) as Hk by (unfold idx; lia). pose proof (room_at _ _ _ _ _ _ _ _ _ _ _ _ _ p H Ht R I Hk) as Hroom.
  assert ((∃ s', (let* e := load (entry_at src k) in if negb (has_flag e MMU_PRESENT) then kret tt else clone_body d sh src t k e) (upd m' p' s) = Panic s' ∧ no_frame (mm_pmm s')) ∨
    ∃ m1 p1 b1 rs1, (let* e := load (entry_at src k) in if negb (has_flag e MMU_PRESENT) then kret tt else clone_body d sh src t k e) (upd m' p' s) = Ret tt (upd m1 p1 s) ∧
      linv d sh m b rs tot src t (k + 1) m1 p1 b1 rs1) as Hstep.
  { rewrite (kbind_ret _ _ _ _ _ (load_run (upd m' p' s) _)). change (mm_word (upd m' p' s)) with m'. rewrite (li_todo _ _ _ _ _ _ _ _ _ _ _ _ _ I k Hk ltac:(lia)).
    change (has_flag (m (entry_at src k)) MMU_PRESENT) with (present (m (entry_at src k))). destruct (present (m (entry_at src k))) eqn:Ep; cbn [negb].
    - unfold clone_body. destruct (sh [k]) eqn:Es.
      + right. destruct (step_shared d sh m b rs tot src t k m' p' b' rs' s) as (m1 & E1 & I1); try done. by exists m1, p', b', rs'.
      + destruct d as [|d']; [right; by apply step_leaf with b' rs'|by apply step_node with b' rs'].
    - right. exists m', p', b', rs'. split; [done|]. by apply (step_absent d sh m b rs tot src t T Hf). }
  unfold for_present in *. cbn [kfor]. destruct Hstep as [(s' & E & O)|(m1 & p1 & b1 & rs1 & E & I1)]; [left; exists s'; split; [unfold kbind in *; by rewrite E|done]|].
  rewrite (kbind_ret _ _ _ _ _ E). apply (IHn (k + 1) m1 p1 b1 rs1); [done|lia|lia].
Qed.

Lemma clone_run d : clone_spec d.
Proof.
  induction d as [|d IH]; intros sh m b rs tot p src s T H Ht R.
  all: destruct (alloc_table_run (upd m p s) b rs H) as [(s' & E & O & _)|(t & b1 & E & H1 & Hp & Hf & Mo & _)]; [left; exists s'; split; [cbn [clone_gen]; unfold kbind; by rewrite E|done]|].
  all: change (with_mm_word (zero_page t (mm_word (upd m p s))) (set_bits b1 (upd m p s))) with (upd (zero_page t m) (with_bitmap b1 p) s) in E.
  all: change (total (upd m p s)) with (total_frames p) in Hp; rewrite Ht in Hp.
  all: pose proof (linv_first _ sh m b rs tot src t (with_bitmap b1 p) b1 T Hf Hp H1 Ht Mo) as I0.
  - destruct (clone_loop 0 sh m b rs tot src t p s Logic.I T Hf (proj1 Hp) H Ht R 512 0 _ _ _ _ I0) as [(s' & El & O)|(m1 & p1 & b2 & rs1 & El & I1)]; try lia.
    + left. exists s'. split; [|done]. cbn [clone_gen]. rewrite (kbind_ret _ _ _ _ _ E). unfold kbind at 1. unfold clone_body in El. by rewrite El.
    + right. exists t, m1, p1, b2, rs1. cbn [clone_gen]. rewrite (kbind_ret _ _ _ _ _ E), (kbind_ret _ _ _ _ _ El). split; [done|]. split; [done|].
      split; [exact (t_page _ _ _ _ _ _ _ _ _ _ _ _ _ I1)|by apply linv_last].
  - destruct (clone_loop (S d) sh m b rs tot src t p s IH T Hf (proj1 Hp) H Ht R 512 0 _ _ _ _ I0) as [(s' & El & O)|(m1 & p1 & b2 & rs1 & El & I1)]; try lia.
    + left. exists s'. split; [|done]. rewrite clone_gen_S, (kbind_ret _ _ _ _ _ E). unfold kbind at 1. unfold clone_body in El. by rewrite El.
    + right. exists t, m1, p1, b2, rs1. rewrite clone_gen_S, (kbind_ret _ _ _ _ _ E), (kbind_ret _ _ _ _ _ El). split; [done|]. split; [done|].
      split; [exact (t_page _ _ _ _ _ _ _ _ _ _ _ _ _ I1)|by apply linv_last].
Qed.
