(* ===== verification/CloneSpec.v ===== *)
(** * Address spaces after a fork

    The results of Cow and Clone as statements about the pages that the processor
    finds: what the parent and the child see after [mmu_clone_user], and after the
    first write of either. *)

From stdpp Require Import base numbers list gmap.
From Stdlib Require Import ZArith Lia.
From S2P Require Import Prelude Pmm Mmu MmuInv Cow Clone.

#[local] Open Scope Z_scope.
#[local] Open Scope kernel_scope.

(** The addresses whose tables are shared by all address spaces: the upper half, and
    the identity map of the first 128 MiB. *)
Definition kernel_page (v : Z) : bool := (256 <=? PML4_IDX v) || ((PML4_IDX v =? 0) && (PDPT_IDX v =? 0) && (PD_IDX v <? 64)).
Lemma kernel_page_path v : sharedb kernel_part (vpath v) = kernel_page v.
Proof. unfold kernel_page. cbn. by rewrite orb_false_r. Qed.
Lemma kernel_page_leaf v : sharedb kernel_part (vpath v ++ [PT_IDX v]) = kernel_page v.
Proof. unfold kernel_page. cbn. by rewrite orb_false_r. Qed.

(** ** Paths of a cloned tree *)

Lemma leaf_cons m t j q i : leaf m t (j :: q) i = if present (m (entry_at t j)) then leaf m (PAGE_FRAME (m (entry_at t j))) q i else 0.
Proof. unfold leaf. cbn. by destruct (present _). Qed.

Lemma cloned_leaf d : ∀ sh m m' src t q i, cloned d sh m m' src t → path_ok d q → length q = d → idx i → sharedb sh (q ++ [i]) = false →
  let e := leaf m src q i in leaf m' src q i = (if present e then cowp e else e) ∧ leaf m' t q i = (if present e then cowp e else 0).
Proof.
  induction d as [|d IH]; intros sh m m' src t [|j q] i Hc Hq Hl Hi Hsh; try done; rewrite cloned_ent in Hc.
  - specialize (Hc i Hi). unfold ent in Hc. cbn in Hsh. rewrite orb_false_r in Hsh. rewrite Hsh in Hc. cbn. by destruct (present _).
  - apply path_uncons in Hq as [Hj Hq]. destruct (Hc j Hj) as [E1 E2]. cbn in Hsh. apply orb_false_iff in Hsh as [Hs1 Hs2]. rewrite !leaf_cons, E1.
    destruct (present (m (entry_at src j))) eqn:Ep; [|by rewrite E2]. rewrite Hs1 in E2. destruct E2 as (y & Hy & Hy0 & -> & Hcl).
    rewrite flags_present, page_frame_lor by (try done; apply flags_small). apply (IH _ _ _ _ _ q i Hcl Hq); [by injection Hl|done|done].
Qed.
Lemma cloned_shared d : ∀ sh m m' src t q i, cloned d sh m m' src t → path_ok d q → sharedb sh q = true → leaf m' t q i = leaf m' src q i.
Proof.
  induction d as [|d IH]; intros sh m m' src t [|j q] i Hc Hq Hsh; try done; rewrite cloned_ent in Hc; [destruct Hq as [_ Hl]; cbn in Hl; lia|].
  apply path_uncons in Hq as [Hj Hq]. destruct (Hc j Hj) as [E1 E2]. cbn in Hsh. rewrite !leaf_cons, E1. destruct (present (m (entry_at src j))) eqn:Ep; [|by rewrite E2].
  destruct (sh [j]); [by rewrite E2, Ep|]. destruct E2 as (y & Hy & Hy0 & -> & Hcl). rewrite flags_present, page_frame_lor by (try done; apply flags_small). by apply (IH _ _ _ _ _ q i Hcl Hq).
Qed.
Lemma srcleaf_path d : ∀ sh m src x, srcleaf d sh m src x → ∃ q, path_ok d q ∧ length q = d ∧ node m src q = Some x ∧ sharedb sh q = false.
Proof.
  induction d as [|d IH]; intros sh m src x; cbn [srcleaf]; [intros ->; exists []; split_and!; try done; apply path_nil|].
  intros (i & Hi & Hp & Hs & Hx). destruct (IH _ _ _ _ Hx) as (q & Hq & Hl & Hn & Hsq). exists (i :: q). split; [by apply path_cons|]. split; [cbn; lia|].
  rewrite node_cons by done. split; [done|]. cbn. by rewrite Hs, Hsq.
Qed.

(** The source after cloning. *)
Section source.
Context d sh m b rs tot src t m' p' b' rs' (T : tree m b tot src d) (R : cres d sh m b rs tot src t m' p' b' rs').
Lemma source_word q x i : path_ok d q → node m src q = Some x → idx i → (length q < d)%nat ∨ sharedb sh q = true → m' (entry_at x i) = m (entry_at x i).
Proof.
  intros Hq Hx Hi Hor. destruct (tr_page _ _ _ _ _ T q x Hq Hx) as (Ha & _ & Hb). apply (cr_kept _ _ _ _ _ _ _ _ _ _ _ _ R x); [done|done| |by apply entry_in_page].
  intros (q' & Hq' & Hl & Hx' & Hs)%srcleaf_path. assert (q' = q) as -> by (eapply (tr_inj _ _ _ _ _ T); [done|done|exact Hx'|exact Hx]).
  destruct Hor as [?|?]; [lia|congruence].
Qed.
Lemma source_node q : path_ok d q → node m' src q = node m src q.
Proof. apply node_ext. intros p x i Hp Hl Hx Hi. apply (source_word p x i); try done. by left. Qed.
Lemma source_shared q i : path_ok d q → idx i → sharedb sh q = true → leaf m' src q i = leaf m src q i.
Proof. intros Hq Hi Hs. unfold leaf. rewrite source_node by done. destruct (node m src q) as [x|] eqn:Ex; [|done]. apply (source_word q x i); try done. by right. Qed.
Lemma source_tree : tree m' b' tot src d.
Proof. eapply tree_ext; [exact T|apply source_node|apply R]. Qed.
End source.

Lemma leaves_elem d : ∀ sh m src q i, path_ok d q → length q = d → idx i → sharedb sh (q ++ [i]) = false → present (leaf m src q i) = true →
  u32 (PAGE_FRAME (leaf m src q i) / 4096) ∈ leaves d sh m src.
Proof.
  induction d as [|d IH]; intros sh m src [|j q] i Hq Hl Hi Hs Hp; try done; rewrite leaves_eq, list_elem_of_In, in_concat.
  - cbn in Hs. rewrite orb_false_r in Hs. unfold leaf in *. cbn in Hp |- *. exists (leaves_at 0 sh m src i). split; [apply in_map; apply list_elem_of_In, elem_of_seqZ; unfold idx in Hi; lia|].
    unfold leaves_at. rewrite Hp, Hs. by left.
  - apply path_uncons in Hq as [Hj Hq]. cbn in Hs. apply orb_false_iff in Hs as [Hs1 Hs2]. rewrite leaf_cons in *. destruct (present (m (entry_at src j))) eqn:Ep; [|done].
    exists (leaves_at (S d) sh m src j). split; [apply in_map; apply list_elem_of_In, elem_of_seqZ; unfold idx in Hj; lia|].
    unfold leaves_at. rewrite Ep, Hs1. apply list_elem_of_In. apply IH; try done. by injection Hl.
Qed.
Lemma count_pos f l : f ∈ l → 1 ≤ count f l.
Proof.
  intros (l1 & l2 & ->)%list_elem_of_split. unfold count. rewrite filter_app, filter_cons_True, length_app by done. cbn. lia.
Qed.

(** ** The clone *)

Record clone_result (s s' : mmu) (b rs b' rs' : list Z) (r t : Z) : Prop := {
  cl_pmm : pmm_ok (mm_pmm s') b' rs';
  cl_total : total s' = total s;
  cl_mono : mono b b';
  cl_parent : tree (mm_word s') b' (total s) r 3;
  cl_child : tree (mm_word s') b' (total s) t 3;
  cl_user : ∀ v, kernel_page v = false → let e := translate (mm_word s) r v in
    translate (mm_word s') r v = (if present e then cowp e else e) ∧ translate (mm_word s') t v = (if present e then cowp e else 0);
  cl_kernel : ∀ v, kernel_page v = true →
    translate (mm_word s') r v = translate (mm_word s) r v ∧ translate (mm_word s') t v = translate (mm_word s) r v;
  cl_nodes : ∀ q, path_ok 3 q → node (mm_word s') r q = node (mm_word s) r q;
  cl_tables : ∀ q x, path_ok 3 q → node (mm_word s') t q = Some x →
    bit b (x / 4096) = false ∨ (sharedb kernel_part q = true ∧ node (mm_word s) r q = Some x);
  cl_data : ∀ z a, z mod 4096 = 0 → bit b (z / 4096) = true → (∀ q, path_ok 3 q → node (mm_word s) r q ≠ Some z) → in_page z a →
    mm_word s' a = mm_word s a;
  cl_refs : refs_add rs (leaves 3 kernel_part (mm_word s) r) rs' }.

Lemma cres_result s b rs r t m' p' b' rs' s0 : tree (mm_word s) b (total s) r 3 → cres 3 kernel_part (mm_word s) b rs (total s) r t m' p' b' rs' →
  clone_result s (upd m' p' s0) b rs b' rs' r t.
Proof.
  intros T R. split; cbn [upd mm_word mm_pmm with_mm_word with_mm_pmm]; try apply R.
  - by eapply source_tree.
  - intros v Hk. destruct (vpath_ok v) as [Hv Hi]. apply (cloned_leaf 3 kernel_part _ _ _ _ (vpath v)); [apply R|done|done|done|]. by rewrite kernel_page_leaf.
  - intros v Hk. destruct (vpath_ok v) as [Hv Hi]. rewrite <-kernel_page_path in Hk. unfold translate.
    assert (leaf m' r (vpath v) (PT_IDX v) = leaf (mm_word s) r (vpath v) (PT_IDX v)) as E by (by eapply source_shared).
    split; [done|]. rewrite <-E. by apply (cloned_shared 3 kernel_part (mm_word s)); [apply R| |].
  - by eapply source_node.
  - intros z a Hz Hb Hn. apply (cr_kept _ _ _ _ _ _ _ _ _ _ _ _ R z a Hz Hb). intros (q & Hq & _ & Hx)%srcleaf_node. by apply (Hn q).
Qed.

Lemma clone_user_run s b rs src r : pmm_ok (mm_pmm s) b rs → mm_ctx s !! src = Some r → src ≠ mm_next s → tree (mm_word s) b (total s) r 3 →
  room rs (leaves 3 kernel_part (mm_word s) r) →
  (∃ s', mmu_clone_user src s = Panic s' ∧ no_frame (mm_pmm s')) ∨
  ∃ t s' b' rs', mmu_clone_user src s = Ret (mm_next s) s' ∧ mm_ctx s' = <[mm_next s := t]> (mm_ctx s) ∧ mm_current s' = mm_current s ∧ clone_result s s' b rs b' rs' r t.
Proof.
  intros H Hc Hne T R. rewrite clone_user_gen. destruct (alloc_table_run s b rs H) as [(s' & E & O & _)|(t & b1 & E & H1 & Hp & Hf & Mo & _)].
  { left. exists s'. split; [|done]. unfold kbind at 1. by rewrite E. }
  set (s0 := with_mm_ctx (<[mm_next s := t]> (mm_ctx s)) (with_mm_next (mm_next s + 16) s)).
  pose proof (linv_first 3 kernel_part _ b rs _ r t (with_bitmap b1 (mm_pmm s)) b1 T Hf Hp H1 eq_refl Mo) as I0.
  set (s1 := with_mm_word (zero_page t (mm_word s)) (set_bits b1 s)) in E.
  rewrite (kbind_ret _ _ _ _ _ E), (kbind_ret kget _ s1 s1 s1 eq_refl), (kbind_ret (kmodify (with_mm_next _)) _ s1 tt (with_mm_next (mm_next s + 16) s1) eq_refl).
  rewrite (kbind_ret (kmodify (with_mm_ctx _)) _ (with_mm_next (mm_next s + 16) s1) tt (upd (zero_page t (mm_word s)) (with_bitmap b1 (mm_pmm s)) s0) eq_refl).
  rewrite (kbind_ret _ _ _ _ _ (get_ctx_run (upd _ _ s0) src r ltac:(cbn; by rewrite lookup_insert_ne by done))).
  destruct (clone_loop 3 kernel_part _ b rs _ r t (mm_pmm s) s0 (clone_run 2) T Hf (proj1 Hp) H eq_refl R 512 0 _ _ _ _ I0) as [(s' & El & O)|(m1 & p1 & b2 & rs1 & El & I1)]; try lia.
  - left. exists s'. split; [|done]. unfold kbind at 1. unfold clone_body in El. by rewrite El.
  - right. rewrite (kbind_ret _ _ _ _ _ El). exists t, (upd m1 p1 s0), b2, rs1. split; [done|]. split; [done|]. split; [done|]. apply cres_result; [done|]. by apply linv_last.
Qed.

(** ** The first write after a clone *)

Lemma cowp_cow e : has_flag e MMU_USER = true → has_flag e MMU_WRITABLE = true → cowp e = cow e.
Proof. intros H1 H2. unfold cowp. by rewrite H1, H2. Qed.
Lemma cow_bits e k : 0 ≤ k → Z.testbit (cow e) k = if k =? 9 then true else if k =? 1 then false else Z.testbit e k.
Proof.
  intros Hk. unfold cow, MMU_COW, MMU_WRITABLE. change 512 with (2 ^ 9). change 2 with (2 ^ 1) at 1. rewrite Z.lor_spec, Z.ldiff_spec, !pow2_bit by lia.
  destruct (Z.eqb_spec k 9) as [->|]; [apply orb_true_r|]. destruct (Z.eqb_spec k 1) as [->|]; [by rewrite andb_false_r|]. by rewrite andb_true_r, orb_false_r.
Qed.
Lemma cow_flags e : has_flag (cow e) MMU_COW = true ∧ has_flag (cow e) MMU_USER = has_flag e MMU_USER ∧ has_flag (cow e) MMU_WRITABLE = false ∧ present (cow e) = present e.
Proof.
  assert (∀ k x, 0 ≤ k → has_flag x (2 ^ k) = Z.testbit x k) as F by (intros; by apply has_flag_bit).
  pose proof (λ x, F 9 x ltac:(lia)) as F9. pose proof (λ x, F 2 x ltac:(lia)) as F2. pose proof (λ x, F 1 x ltac:(lia)) as F1. pose proof (λ x, F 0 x ltac:(lia)) as F0.
  change (2 ^ 9) with MMU_COW in F9. change (2 ^ 2) with MMU_USER in F2. change (2 ^ 1) with MMU_WRITABLE in F1. change (2 ^ 0) with MMU_PRESENT in F0.
  unfold present. rewrite F9, !F2, F1, !F0, !cow_bits by lia. done.
Qed.
Lemma cow_frame e : PAGE_FRAME (cow e) = PAGE_FRAME e.
Proof.
  apply Z.bits_inj'. intros k Hk. rewrite !page_frame_bits, cow_bits by done. destruct (Z.leb_spec 12 k); [|done].
  replace (k =? 9) with false by (symmetry; apply Z.eqb_neq; lia). by replace (k =? 1) with false by (symmetry; apply Z.eqb_neq; lia).
Qed.
Lemma own_writable e : has_flag (own e) MMU_WRITABLE = true.
Proof. unfold MMU_WRITABLE. change 2 with (2 ^ 1). rewrite has_flag_bit, own_bits by lia. done. Qed.
Lemma translate_present m t v : present (translate m t v) = true → is_Some (node m t (vpath v)).
Proof. unfold translate, leaf. destruct (node m t (vpath v)); [by eexists|done]. Qed.

(** A page of the parent that a fork shares: a private data page of its own. *)
Record shared_page (s : mmu) (b rs : list Z) (r v e c : Z) : Prop := {
  sp_user : kernel_page v = false;
  sp_entry : translate (mm_word s) r v = e;
  sp_flags : present e = true ∧ has_flag e MMU_USER = true ∧ has_flag e MMU_WRITABLE = true;
  sp_frame : 0 ≤ PAGE_FRAME e < total s * 4096;
  sp_data : ∀ q, path_ok 3 q → node (mm_word s) r q ≠ Some (PAGE_FRAME e);
  sp_count : zlookup rs (PAGE_FRAME e / 4096) = Some c;
  sp_used : 1 ≤ c }.

Lemma shared_in_use s b rs r v e c : pmm_ok (mm_pmm s) b rs → shared_page s b rs r v e c → bit b (PAGE_FRAME e / 4096) = true.
Proof.
  intros H P. apply (po_used _ _ _ H _ c); [|apply P|]; [apply Z.div_pos; [apply P|lia]|]. pose proof (sp_used _ _ _ _ _ _ _ P). lia.
Qed.
Lemma shared_count s b rs r t v e c s' b' rs' : pmm_ok (mm_pmm s) b rs → shared_page s b rs r v e c → clone_result s s' b rs b' rs' r t →
  ∃ c', 1 < c' ∧ zlookup rs' (PAGE_FRAME e / 4096) = Some c'.
Proof.
  intros H P C. exists (c + count (PAGE_FRAME e / 4096) (leaves 3 kernel_part (mm_word s) r)). split; [|by apply (cl_refs _ _ _ _ _ _ _ _ C), (sp_count _ _ _ _ _ _ _ P)].
  pose proof (sp_used _ _ _ _ _ _ _ P). enough (1 ≤ count (PAGE_FRAME e / 4096) (leaves 3 kernel_part (mm_word s) r)) by lia. apply count_pos.
  destruct (vpath_ok v) as [Hv Hi]. destruct P as [Pu <- [Pp _] Pf _ _ _].
  rewrite <-(u32_small (PAGE_FRAME (translate (mm_word s) r v) / 4096)).
  - apply (leaves_elem 3 kernel_part (mm_word s) r (vpath v) (PT_IDX v)); try done. by rewrite kernel_page_leaf.
  - pose proof (po_total _ _ _ H). unfold total in Pf. split; [apply Z.div_pos; lia|]. apply Z.div_lt_upper_bound; lia.
Qed.

(** In either address space a write to such a page faults, and the fault finds the
    entry copy-on-write. *)
Lemma shared_fault s s' b rs b' rs' r t v e c x ctx : pmm_ok (mm_pmm s) b rs → shared_page s b rs r v e c → clone_result s s' b rs b' rs' r t → x = r ∨ x = t →
  mm_ctx s' !! ctx = Some x → ∃ c', 1 < c' ∧ cow_at (with_mm_cr3 x (with_mm_current ctx s')) b' rs' x v (cow e) c'.
Proof.
  intros H P C Hx Hctx. destruct (shared_count _ _ _ _ _ _ _ _ _ _ _ H P C) as (c' & Hc' & Hl). exists c'. split; [done|]. destruct P as [Pu Pe [Pp [Pus Pw]] Pf Pd Pc Pn].
  destruct (cow_flags e) as (F1 & F2 & _ & F4). assert (translate (mm_word s') x v = cow e) as He.
  { destruct (cl_user _ _ _ _ _ _ _ _ C v Pu) as [E1 E2]. rewrite Pe, Pp, (cowp_cow e Pus Pw) in E1, E2. destruct Hx as [-> | ->]; done. }
  split; cbn [mm_ctx mm_current mm_word mm_pmm with_mm_cr3 with_mm_current]; try done.
  - apply C.
  - change (total _) with (total s'). rewrite (cl_total _ _ _ _ _ _ _ _ C). destruct Hx as [-> | ->]; apply C.
  - apply translate_present. by rewrite He, F4.
  - by rewrite F2.
  - change (total _) with (total s'). by rewrite (cl_total _ _ _ _ _ _ _ _ C), cow_frame.
  - by rewrite cow_frame.
Qed.

(** The tables of the other address space, and the shared page. *)
Lemma other_kept m m' b tot r d xs : tree m b tot r d → frame_kept m m' b xs → (∀ q x, path_ok d q → node m r q = Some x → x ∉ xs) →
  ∀ q i, path_ok d q → idx i → leaf m' r q i = leaf m r q i.
Proof.
  intros T K Hn q i Hq Hi. assert (∀ p x j, path_ok d p → node m r p = Some x → idx j → m' (entry_at x j) = m (entry_at x j)) as Hw.
  { intros p x j Hp Hx Hj. destruct (tr_page _ _ _ _ _ T p x Hp Hx) as (Ha & _ & Hb). apply (K x); [done|done|by apply (Hn p)|by apply entry_in_page]. }
  unfold leaf. rewrite (node_ext m m' d r) by (try done; intros; by apply (Hw p)). destruct (node m r q) as [x|] eqn:Ex; [|done]. by apply (Hw q).
Qed.

(** The last table of the writer is not a table of the other. *)
Lemma table_apart s s' b rs b' rs' r t v x o z q : tree (mm_word s) b (total s) r 3 → clone_result s s' b rs b' rs' r t → kernel_page v = false →
  (x = r ∧ o = t) ∨ (x = t ∧ o = r) → node (mm_word s') x (vpath v) = Some z → path_ok 3 q → node (mm_word s') o q ≠ Some z.
Proof.
  intros T C Hk Hxo Hz Hq Ho. destruct (vpath_ok v) as [Hv _]. rewrite <-kernel_page_path in Hk. destruct Hxo as [[-> ->]|[-> ->]].
  - rewrite (cl_nodes _ _ _ _ _ _ _ _ C) in Hz by done. destruct (cl_tables _ _ _ _ _ _ _ _ C q z Hq Ho) as [Hb|[Hs Hn]].
    + destruct (tr_page _ _ _ _ _ T _ z Hv Hz) as (_ & _ & ?). congruence.
    + assert (q = vpath v) as -> by (eapply (tr_inj _ _ _ _ _ T); [done|done|exact Hn|exact Hz]). congruence.
  - rewrite (cl_nodes _ _ _ _ _ _ _ _ C) in Ho by done. destruct (cl_tables _ _ _ _ _ _ _ _ C _ z Hv Hz) as [Hb|[Hs Hn]]; [|congruence].
    destruct (tr_page _ _ _ _ _ T q z Hq Ho) as (_ & _ & ?). congruence.
Qed.

(** What a process sees after its first write, and what the other one does: [x] is the
    root of the first, [o] that of the other. *)
Record split_page (s s' s3 : mmu) (b' : list Z) (x o v e : Z) : Prop := {
  sl_frame : bit b' (PAGE_FRAME (translate (mm_word s3) x v) / 4096) = false;
  sl_flags : has_flag (translate (mm_word s3) x v) MMU_WRITABLE = true;
  sl_copy : ∀ k, idx k → mm_word s3 (entry_at (PAGE_FRAME (translate (mm_word s3) x v)) k) = mm_word s (entry_at (PAGE_FRAME e) k);
  sl_rest : ∀ v', page_number v' ≠ page_number v → translate (mm_word s3) x v' = translate (mm_word s') x v';
  sl_other : ∀ v', translate (mm_word s3) o v' = translate (mm_word s') o v';
  sl_page : ∀ a, in_page (PAGE_FRAME e) a → mm_word s3 a = mm_word s a }.

Lemma split_run s s' b rs b' rs' r t v e c x o ctx : pmm_ok (mm_pmm s) b rs → tree (mm_word s) b (total s) r 3 → shared_page s b rs r v e c →
  clone_result s s' b rs b' rs' r t → (x = r ∧ o = t) ∨ (x = t ∧ o = r) → mm_ctx s' !! ctx = Some x →
  ∃ s3, (switch_page_directory ctx ;;; cow_fault v 7) s' = Ret (Some CowNoMemory) s3 ∧ (∀ f, 0 ≤ f → limit_frame (mm_pmm s') ≤ f < 32 * (total s' / 32) → bit b' f = true) ∨
        (switch_page_directory ctx ;;; cow_fault v 7) s' = Ret (Some CowDone) s3 ∧ split_page s s' s3 b' x o v e.
Proof.
  intros H T P C Hxo Hctx. assert (x = r ∨ x = t) as Hx by tauto. destruct (shared_fault _ _ _ _ _ _ _ _ _ _ _ _ _ H P C Hx Hctx) as (c' & Hc' & A).
  pose proof (shared_in_use _ _ _ _ _ _ _ H P) as Hu. pose proof (page_frame_aligned e) as Hal. set (s2 := with_mm_cr3 x (with_mm_current ctx s')) in *.
  assert (switch_page_directory ctx s' = Ret tt s2) as Esw.
  { unfold switch_page_directory, mmu_switch. rewrite (kbind_ret (kmodify _) _ s' tt (with_mm_current ctx s') eq_refl).
    by rewrite (kbind_ret _ _ _ _ _ (get_ctx_run (with_mm_current ctx s') ctx x Hctx)). }
  rewrite (kbind_ret _ _ _ _ _ Esw). destruct (cow_run s2 b' rs' x v (cow e) c' 7 A eq_refl eq_refl) as [[Hc1 _]|[[_ (b3 & E & Hno)]|[_ (n & s3 & b3 & rs3 & E & D)]]]; [lia| |].
  { exists (set_bits b3 s2). left. by split. }
  exists s3. right. split; [done|]. destruct D as [D1 D2 D3 D4 D5 D6 D7 (z & Dz & Dk) D9]. destruct D5 as (Hn & Hnr & _).
  change (mm_word s2) with (mm_word s') in *. change (total s2) with (total s') in *.
  assert (PAGE_FRAME (translate (mm_word s3) x v) = n) as Ef by (rewrite D3, own_frame; apply set_frame_frame; lia).
  assert (∀ a, in_page (PAGE_FRAME e) a → mm_word s' a = mm_word s a) as Hd.
  { intros a. apply (cl_data _ _ _ _ _ _ _ _ C (PAGE_FRAME e)); [done|done|apply P]. }
  assert (bit b' (PAGE_FRAME e / 4096) = true) as Hu' by (apply (cl_mono _ _ _ _ _ _ _ _ C); [by eapply bit_nonneg|done]).
  split; rewrite ?Ef; try done.
  - rewrite D3. apply own_writable.
  - intros k Hk. rewrite D7, cow_frame by done. apply Hd. by apply entry_in_page.
  - intros v'. destruct (vpath_ok v') as [Hv' Hi']. unfold translate. apply (other_kept _ _ b' (total s) o 3 [z]); [|done| |done|done].
    + destruct Hxo as [[_ ->]|[_ ->]]; apply C.
    + intros q y Hq Hy ->%list_elem_of_singleton. exact (table_apart _ _ _ _ _ _ _ _ v x o z q T C (sp_user _ _ _ _ _ _ _ P) Hxo Dz Hq Hy).
  - intros a Ha. rewrite <-(Hd a Ha). apply (Dk (PAGE_FRAME e)); try done. intros E1%list_elem_of_singleton.
    destruct (vpath_ok v) as [Hv _]. destruct Hx as [-> | ->].
    + rewrite (cl_nodes _ _ _ _ _ _ _ _ C), <-E1 in Dz by done. exact (sp_data _ _ _ _ _ _ _ P _ Hv Dz).
    + rewrite <-E1 in Dz. destruct (cl_tables _ _ _ _ _ _ _ _ C _ _ Hv Dz) as [?|[_ Hn']]; [congruence|]. exact (sp_data _ _ _ _ _ _ _ P _ Hv Hn').
Qed.

(** [mmu_clone_user] gives the new context a tree of its own. In the part of the
    user every present entry of the parent is found in both trees, on the same frame,
    and a writable one is read-only and copy-on-write in both; an absent one is absent
    in both. The part of the kernel is the same in both. Data pages are as before and
    the frame of each shared page has one reference more. The one other outcome is a
    panic, when no frame is left. *)
Theorem clone_user_ok s b rs src r : pmm_ok (mm_pmm s) b rs → mm_ctx s !! src = Some r → src ≠ mm_next s → tree (mm_word s) b (total s) r 3 →
  room rs (leaves 3 kernel_part (mm_word s) r) →
  (∃ s', mmu_clone_user src s = Panic s' ∧ no_frame (mm_pmm s')) ∨
  ∃ t s' b' rs', mmu_clone_user src s = Ret (mm_next s) s' ∧ mm_ctx s' = <[mm_next s := t]> (mm_ctx s) ∧ mm_current s' = mm_current s ∧ clone_result s s' b rs b' rs' r t.
Proof. apply clone_user_run. Qed.


(** ** A process with one page *)

Definition fork_pmm : pmm := mk_pmm (Some [2055; 0; 0]) (Some (<[11%nat := 1]> (replicate 64 0))) 64 8192 true.
Lemma fork_pmm_ok : pmm_ok fork_pmm [2055; 0; 0] (<[11%nat := 1]> (replicate 64 0)).
Proof.
  split; try done; cbn -[zlookup replicate insert].
  - repeat constructor; done.
  - apply Forall_insert; [by apply Forall_replicate|done].
  - intros f c Hf Hc Hp. unfold zlookup in Hc. destruct (f <? 0); [done|]. apply list_lookup_insert_Some in Hc as [(Hf11 & _ & _)|(_ & Hc)].
    + by replace f with 11 by lia.
    + apply lookup_replicate in Hc as [-> _]. lia.
Qed.
Definition fork_start : mmu := with_mm_pmm fork_pmm demo_mmu.
Lemma fork_start_tree : tree (mm_word fork_start) [2055; 0; 0] (total fork_start) 8192 3.
Proof. by apply empty_tree. Qed.
Definition fork_mmu : mmu := match mmu_map_page 4096 134512640 45056 6 fork_start with Ret _ s => s | _ => fork_start end.
Lemma fork_mmu_ok : ∃ b, pmm_ok (mm_pmm fork_mmu) b (<[11%nat := 1]> (replicate 64 0)) ∧ tree (mm_word fork_mmu) b (total fork_mmu) 8192 3 ∧
  translate (mm_word fork_mmu) 8192 134512640 = 45063.
Proof.
  destruct (map_page_run fork_start _ _ 4096 8192 134512640 45056 6 fork_pmm_ok eq_refl fork_start_tree) as [(s' & E & O)|(m' & b' & xs & E & H & T & Ht & _)].
  - vm_compute in E. discriminate E.
  - exists b'. unfold fork_mmu. rewrite E. split; [done|]. split; [done|exact Ht].
Qed.
Lemma fork_ctx : mm_ctx fork_mmu !! 4096 = Some 8192.
Proof. vm_compute. reflexivity. Qed.
Lemma fork_next : mm_next fork_mmu = 5000.
Proof. vm_compute. reflexivity. Qed.
Lemma fork_src : 4096 ≠ mm_next fork_mmu.
Proof. rewrite fork_next. discriminate. Qed.
Lemma fork_room : leaves 3 kernel_part (mm_word fork_mmu) 8192 = [11] ∧ room (<[11%nat := 1]> (replicate 64 0)) [11].
Proof.
  split; [by vm_compute|]. intros f c Hc. assert (0 ≤ c ≤ 1).
  { unfold zlookup in Hc. destruct (f <? 0); [done|]. apply list_lookup_insert_Some in Hc as [(_ & <- & _)|(_ & Hc)]; [lia|]. apply lookup_replicate in Hc as [-> _]. lia. }
  unfold count. pose proof (length_filter (f =.) [11]). cbn [length] in *. lia.
Qed.
Fixpoint tables (d : nat) (m : Z → Z) (t : Z) : list Z :=
  t :: match d with
       | O => []
       | S d => concat (map (λ i, if present (m (entry_at t i)) then tables d m (PAGE_FRAME (m (entry_at t i))) else []) (seqZ 0 512))
       end.
Lemma tables_node d : ∀ m t q x, path_ok d q → node m t q = Some x → x ∈ tables d m t.
Proof.
  induction d as [|d IH]; intros m t [|i q] x Hq; cbn [tables]; try (intros [= <-]; apply list_elem_of_here).
  - destruct Hq as [_ Hl]. cbn in Hl. lia.
  - apply path_uncons in Hq as [Hi Hq]. cbn [node]. destruct (present (m (entry_at t i))) eqn:Ep; [|done]. intros Hx. apply list_elem_of_further, list_elem_of_In, in_concat.
    exists (tables d m (PAGE_FRAME (m (entry_at t i)))). split; [|by apply list_elem_of_In, (IH m _ q)].
    apply in_map_iff. exists i. rewrite Ep. split; [done|]. apply list_elem_of_In, elem_of_seqZ. unfold idx in Hi. lia.
Qed.
Lemma fork_page b : translate (mm_word fork_mmu) 8192 134512640 = 45063 → shared_page fork_mmu b (<[11%nat := 1]> (replicate 64 0)) 8192 134512640 45063 1.
Proof.
  intros Ht. constructor; [reflexivity|exact Ht|split; [reflexivity|split; reflexivity]|vm_compute; split; [discriminate|reflexivity]| |reflexivity|lia]. intros q Hq Hx. apply (tables_node 3) in Hx; [|exact Hq].
  assert (bool_decide (PAGE_FRAME 45063 ∈ tables 3 (mm_word fork_mmu) 8192) = false) as Hn by (vm_compute; reflexivity).
  apply bool_decide_eq_false in Hn. exact (Hn Hx).
Qed.

Definition forks (s : mmu) : bool := match mmu_clone_user 4096 s with Ret _ _ => true | _ => false end.
Lemma clone_user_ok_witness : ∃ t s' b rs b' rs', mmu_clone_user 4096 fork_mmu = Ret 5000 s' ∧ clone_result fork_mmu s' b rs b' rs' 8192 t.
Proof.
  destruct fork_mmu_ok as (b & H & T & _). destruct fork_room as [Hl Hr].
  destruct (clone_user_ok fork_mmu b _ 4096 8192 H fork_ctx fork_src T) as [(s' & E & O)|(t & s' & b' & rs' & E & _ & _ & C)]; rewrite ?fork_next in *.
  - rewrite Hl. exact Hr.
  - assert (forks fork_mmu = true) as F by (vm_compute; reflexivity). unfold forks in F. rewrite E in F. discriminate F.
  - exists t, s', b, (<[11%nat := 1]> (replicate 64 0)), b', rs'. split; [exact E|exact C].
Defined.

Definition fork_done : mmu := match mmu_clone_user 4096 fork_mmu with Ret _ s => s | _ => fork_mmu end.
Definition wrote (s : mmu) : bool := match (switch_page_directory 5000 ;;; cow_fault 134512640 7) s with Ret (Some CowDone) _ => true | _ => false end.
