(* ===== verification/Kheap.v ===== *)
(** * The kernel heap

    Models [libc/kheap.c] and [kmalloc], [kfree] of [libc/mem.c].  The heap is a
    range of virtual memory, a function from addresses to bytes; blocks and holes
    carry a header of 12 bytes in front and a footer of 16 bytes behind.  The array
    of holes, which the code keeps in the first megabyte of the range, is a list of
    addresses.  The pages that [expand] maps are those of the page-table model.  Each
    function is one step under its spinlock. *)

From stdpp Require Import base numbers list gmap.
From Stdlib Require Import ZArith Lia.
From S2P Require Import Prelude Pmm Mmu.

#[local] Open Scope Z_scope.
#[local] Open Scope kernel_scope.

Definition HEAP_INDEX_SIZE : Z := 131072.
Definition HEAP_MAGIC : Z := 305696939.
Definition HEAP_MIN_SIZE : Z := 458752.
(** [sizeof(header_t)], [sizeof(footer_t)] *)
Definition HEADER : Z := 12.
Definition FOOTER : Z := 16.

Record heap_t := mk_heap {
  h_index : list Z;
  h_index_max : Z;
  h_start : Z;
  h_end : Z;
  h_max : Z;
  h_supervisor : bool;
  h_readonly : bool }.
Definition with_index (v : list Z) (h : heap_t) : heap_t := mk_heap v (h_index_max h) (h_start h) (h_end h) (h_max h) (h_supervisor h) (h_readonly h).
Definition with_end (v : Z) (h : heap_t) : heap_t := mk_heap (h_index h) (h_index_max h) (h_start h) v (h_max h) (h_supervisor h) (h_readonly h).

(** The bytes of the heap, the heap, and the page tables. *)
Record khs := mk_khs { kh_mem : Z → Z; kh_heap : heap_t; kh_mmu : mmu }.
Definition with_mem (v : Z → Z) (s : khs) : khs := mk_khs v (kh_heap s) (kh_mmu s).
Definition with_heap (v : heap_t) (s : khs) : khs := mk_khs (kh_mem s) v (kh_mmu s).
Definition with_kh_mmu (v : mmu) (s : khs) : khs := mk_khs (kh_mem s) (kh_heap s) v.

Definition mm {A} (c : kM mmu A) : kM khs A := λ s,
  match c (kh_mmu s) with
  | Ret a p => Ret a (with_kh_mmu p s)
  | Hang p => Hang (with_kh_mmu p s)
  | Panic p => Panic (with_kh_mmu p s)
  | Fault => Fault
  | NoFuel => NoFuel
  end.

(** ** Memory *)

Fixpoint rdm (k : nat) (a : Z) (m : Z → Z) : Z :=
  match k with O => 0 | S k => u8 (m a) + 256 * rdm k (a + 1) m end.
Fixpoint wrm (k : nat) (a v : Z) (m : Z → Z) : Z → Z :=
  match k with O => m | S k => wrm k (a + 1) (v / 256) (λ x, if x =? a then u8 v else m x) end.

Definition hd_magic (m : Z → Z) (a : Z) : Z := rdm 4 a m.
Definition hd_hole (m : Z → Z) (a : Z) : Z := rdm 1 (a + 4) m.
Definition hd_size (m : Z → Z) (a : Z) : Z := rdm 4 (a + 8) m.
Definition ft_magic (m : Z → Z) (a : Z) : Z := rdm 4 a m.
Definition ft_header (m : Z → Z) (a : Z) : Z := rdm 8 (a + 8) m.

Definition wr_header (a hole size : Z) (m : Z → Z) : Z → Z := wrm 4 (a + 8) size (wrm 1 (a + 4) hole (wrm 4 a HEAP_MAGIC m)).
Definition wr_footer (a header : Z) (m : Z → Z) : Z → Z := wrm 8 (a + 8) header (wrm 4 a HEAP_MAGIC m).

Definition peek {A} (f : (Z → Z) → A) : kM khs A := λ s, Ret (f (kh_mem s)) s.
Definition poke (f : (Z → Z) → Z → Z) : kM khs unit := kmodify (λ s, with_mem (f (kh_mem s)) s).
Definition the_heap : kM khs heap_t := λ s, Ret (kh_heap s) s.

(** ** The ordered array *)

Definition header_t_less_than (m : Z → Z) (a b : Z) : bool := hd_size m a <? hd_size m b.
Fixpoint ordered_insert (m : Z → Z) (item : Z) (l : list Z) : list Z :=
  match l with
  | [] => [item]
  | x :: r => if header_t_less_than m x item then x :: ordered_insert m item r else item :: l
  end.
Definition insert_ordered_array (item : Z) : kM khs unit :=
  let* h := the_heap in
  if h_index_max h <=? Z.of_nat (length (h_index h)) then kpanic
  else kmodify (λ s, with_heap (with_index (ordered_insert (kh_mem s) item (h_index (kh_heap s))) (kh_heap s)) s).
Definition lookup_ordered_array (i : Z) : kM khs Z := kget_opt (λ s, zlookup (h_index (kh_heap s)) i).
Definition remove_ordered_array (i : nat) : kM khs unit :=
  kmodify (λ s, with_heap (with_index (delete i (h_index (kh_heap s))) (kh_heap s)) s).
(** [iterator = 0; while (iterator < size && lookup(iterator) != p) iterator++] *)
Fixpoint position (p : Z) (l : list Z) : nat :=
  match l with [] => O | x :: r => if x =? p then O else S (position p r) end.
Definition remove_pointer (p : Z) : kM khs unit :=
  let* h := the_heap in
  let iterator := position p (h_index h) in
  if (iterator <? length (h_index h))%nat then remove_ordered_array iterator else kret tt.

(** ** Creation *)

Definition create_heap (start stop max : Z) (supervisor readonly : bool) : kM khs unit :=
  mm (pm (kmalloc_int 56 false)) ;;;
  let start := u64 (start + 8 * HEAP_INDEX_SIZE) in
  let start := if negb (Z.land start 4095 =? 0) then u64 (Z.ldiff start 4095 + 4096) else start in
  kmodify (with_heap (mk_heap [] HEAP_INDEX_SIZE start stop max supervisor readonly)) ;;;
  poke (wr_header start 1 (u32 (stop - start))) ;;;
  insert_ordered_array start.

(** ** Release *)

(** An address the code looks at by name. *)
Definition PID2_STACK : Z := 18446638520594350080.
Definition spans_pid2 (header size : Z) : bool := (header <=? PID2_STACK) && (PID2_STACK <? u64 (header + size)).

(** The first half of [free_internal]: merge with the next hole; gives the footer. *)
Definition merge_right (header footer : Z) : kM khs Z :=
  let* h := the_heap in
  let next_header := u64 (footer + FOOTER) in
  if (h_start h <=? next_header) && (u64 (next_header + HEADER) <=? h_end h) then
    let* magic := peek (λ m, hd_magic m next_header) in
    let* hole := peek (λ m, hd_hole m next_header) in
    if (magic =? HEAP_MAGIC) && negb (hole =? 0) then
      poke (λ m, wrm 4 (header + 8) (u32 (hd_size m header + hd_size m next_header)) m) ;;;
      remove_pointer next_header ;;;
      let* size := peek (λ m, hd_size m header) in
      let footer := u64 (header + size - FOOTER) in
      poke (wr_footer footer header) ;;;
      if spans_pid2 header size then kpanic else kret footer
    else kret footer
  else kret footer.

(** The second half: merge with the hole before; gives the header of the result. *)
Definition merge_left (header footer : Z) : kM khs Z :=
  let* h := the_heap in
  let prev_footer := u64 (header - FOOTER) in
  if (h_start h <=? prev_footer) && (u64 (prev_footer + FOOTER) <=? header) then
    let* fmagic := peek (λ m, ft_magic m prev_footer) in
    let* prev_header := peek (λ m, ft_header m prev_footer) in
    if (fmagic =? HEAP_MAGIC) && (h_start h <=? prev_header) && (u64 (prev_header + HEADER) <=? h_end h) then
      let* magic := peek (λ m, hd_magic m prev_header) in
      let* hole := peek (λ m, hd_hole m prev_header) in
      if (magic =? HEAP_MAGIC) && negb (hole =? 0) then
        poke (λ m, wrm 4 (prev_header + 8) (u32 (hd_size m prev_header + hd_size m header)) m) ;;;
        poke (wrm 8 (footer + 8) prev_header) ;;;
        remove_pointer prev_header ;;;
        let* size := peek (λ m, hd_size m prev_header) in
        if spans_pid2 prev_header size then kpanic else kret prev_header
      else kret header
    else kret header
  else kret header.

Definition free_internal (p : Z) : kM khs unit :=
  if p =? 0 then kret tt
  else
    let header := u64 (p - HEADER) in
    let* size := peek (λ m, hd_size m header) in
    let footer := u64 (header + size - FOOTER) in
    let* magic := peek (λ m, hd_magic m header) in
    let* fmagic := peek (λ m, ft_magic m footer) in
    if negb (magic =? HEAP_MAGIC) then kret tt
    else if negb (fmagic =? HEAP_MAGIC) then kret tt
    else
      poke (wrm 1 (header + 4) 1) ;;;
      let* footer := merge_right header footer in
      let* header := merge_left header footer in
      insert_ordered_array header.

Definition free (p : Z) : kM khs unit := if p =? 0 then kret tt else free_internal p.

(** ** Growth *)

(** The body of the loop of [expand]. *)
Definition heap_page (virt : Z) : kM khs unit :=
  let* h := the_heap in
  mm (let* s := kget in
      let* o := get_page virt true (mm_kernel s) in
      match o with
      | None => kfault
      | Some page =>
          let flags := Z.lor (Z.lor MMU_PRESENT (if h_readonly h then 0 else MMU_WRITABLE)) (if h_supervisor h then 0 else MMU_USER) in
          let* e := load page in
          store page (PAGE_SET_FLAGS e flags) ;;;
          let* s := kget in
          let* phys :=
            (if pmm_is_ready (mm_pmm s) then
               let* frame := pm pmm_first_free in
               if frame =? NO_FRAME then kpanic else pm (pmm_set_frame frame) ;;; kret (frame * 4096)
             else pm (kmalloc_int 4096 true)) in
          let* e := load page in
          store page (PAGE_SET_FRAME e phys)
      end).
Fixpoint heap_pages (fuel : nat) (start i new_size : Z) : kM khs unit :=
  match fuel with
  | O => λ _, NoFuel
  | S fuel => if i <? new_size then heap_page (u64 (start + i)) ;;; heap_pages fuel start (u32 (i + 4096)) new_size else kret tt
  end.

Definition expand (new_size : Z) : kM khs unit :=
  let* h := the_heap in
  let old_size := u64 (h_end h - h_start h) in
  if new_size <=? old_size then kret tt
  else
    let new_size := if negb (Z.land new_size 4095 =? 0) then u64 (Z.land new_size 4294963200 + 4096) else new_size in
    if h_max h <? u64 (h_start h + new_size) then kpanic
    else
      heap_pages (S (Z.to_nat (new_size / 4096))) (h_start h) (u32 old_size) new_size ;;;
      let old_end := h_end h in
      kmodify (λ s, with_heap (with_end (u64 (h_start h + new_size)) (kh_heap s)) s) ;;;
      poke (wr_header old_end 1 (u32 (new_size - (old_end - h_start h)))) ;;;
      let* size := peek (λ m, hd_size m old_end) in
      poke (wr_footer (u64 (old_end + size - FOOTER)) old_end) ;;;
      free_internal (u64 (old_end + HEADER)).

(** Called by no other code. *)
Definition contract (new_size : Z) : kM khs Z :=
  let* h := the_heap in
  let new_size := if negb (Z.land new_size 4095 =? 0) then u64 (Z.ldiff new_size 4095 + 4096) else new_size in
  let new_size := if new_size <? HEAP_MIN_SIZE then HEAP_MIN_SIZE else new_size in
  (if new_size <? u64 (h_end h - h_start h) then kmodify (λ s, with_heap (with_end (u64 (h_start h + new_size)) (kh_heap s)) s) else kret tt) ;;;
  let* h := the_heap in
  kret (u64 (h_end h - h_start h)).

(** ** Allocation *)

(** What a hole at [location] lacks to a page boundary. *)
Definition align_offset (location : Z) : Z :=
  if negb (Z.land (u64 (location + HEADER)) 4095 =? 0) then 4096 - u64 (location + HEADER) mod 4096 else 0.
Definition hole_fits (m : Z → Z) (size : Z) (page_align : bool) (header : Z) : bool :=
  if page_align then
    let offset := align_offset header in
    if hd_size m header <=? offset then false else size <=? hd_size m header - offset
  else size <=? hd_size m header.
(** The index of the first hole that fits, or -1. *)
Fixpoint first_fit (m : Z → Z) (size : Z) (page_align : bool) (l : list Z) (i : Z) : Z :=
  match l with
  | [] => -1
  | x :: r => if hole_fits m size page_align x then i else first_fit m size page_align r (i + 1)
  end.
Definition find_smallest_hole (size : Z) (page_align : bool) : kM khs Z :=
  let* h := the_heap in
  peek (λ m, first_fit m size page_align (h_index h) 0).

(** The start of a page-aligned block: the space before it becomes a hole of its own. *)
Definition split_prefix (pos size : Z) : kM khs (Z * Z) :=
  let new_pos := Z.ldiff (u64 (pos + HEADER + 4095)) 4095 in
  let new_header_pos := u64 (new_pos - HEADER) in
  let prefix_size := u32 (new_header_pos - pos) in
  (if HEADER + FOOTER <=? prefix_size then
     poke (wr_header pos 1 prefix_size) ;;;
     poke (wr_footer (u64 (new_header_pos - FOOTER)) pos) ;;;
     insert_ordered_array pos
   else kret tt) ;;;
  kret (new_header_pos, u32 (size - prefix_size)).

(** The end of [alloc]: the block at the start of the hole, and a hole behind it when
    there is space for one. *)
Definition put_block (size new_size pos hole_size stop : Z) : kM khs Z :=
  let small := u64 (hole_size - new_size) <? HEADER + FOOTER in
  let size := if small then u64 (size + u64 (hole_size - new_size)) else size in
  let new_size := if small then hole_size else new_size in
  poke (wr_header pos 0 (u32 new_size)) ;;;
  poke (wr_footer (u64 (pos + HEADER + size)) pos) ;;;
  (if 0 <? u64 (hole_size - new_size) then
     let hole := u64 (pos + HEADER + size + FOOTER) in
     poke (wr_header hole 1 (u32 (hole_size - new_size))) ;;;
     let* left_size := peek (λ m, hd_size m hole) in
     let footer := u64 (hole + left_size - FOOTER) in
     (if footer <? stop then poke (wr_footer footer hole) else kret tt) ;;;
     insert_ordered_array hole
   else kret tt) ;;;
  kret (u64 (pos + HEADER)).

(** The part of [alloc] behind the search: a block in the hole number [iterator]. *)
Definition carve (size new_size : Z) (page_align : bool) (iterator : Z) : kM khs Z :=
  let* pos := lookup_ordered_array iterator in
  let* hole_size := peek (λ m, hd_size m pos) in
  let* h := the_heap in
  if u64 (h_max h - h_start h) <? hole_size then kpanic
  else
    remove_ordered_array (Z.to_nat iterator) ;;;
    let* (pos, hole_size) :=
      (if page_align && negb (Z.land (u64 (pos + HEADER)) 4095 =? 0) then split_prefix pos hole_size else kret (pos, hole_size)) in
    put_block size new_size pos hole_size (h_end h).

Definition alloc (size : Z) (page_align : bool) : kM khs Z :=
  let new_size := u64 (size + HEADER + FOOTER) in
  let* iterator := find_smallest_hole new_size page_align in
  let* iterator :=
    (if iterator =? -1 then
       let* h := the_heap in
       let old_size := u64 (h_end h - h_start h) in
       let double := u64 (old_size * 2) in
       let least := u64 (old_size + size + HEADER + FOOTER) in
       expand (if double <? least then least else double) ;;;
       find_smallest_hole new_size page_align
     else kret iterator) in
  if iterator =? -1 then kret 0 else carve size new_size page_align iterator.

(** ** The interface *)

(** With [phys], the physical address too. *)
Definition kmalloc (size : Z) (page_align phys : bool) : kM khs (Z * Z) :=
  let* addr := alloc size page_align in
  if phys then
    let* s := kget in
    let* o := mm (get_page addr false (mm_kernel (kh_mmu s))) in
    match o with
    | None => kfault
    | Some page => let* e := mm (load page) in kret (addr, PAGE_FRAME e + Z.land addr 4095)
    end
  else kret (addr, 0).
Definition kfree (p : Z) : kM khs unit := free p.

(** [total_size], [used_size], [free_size], [max_addr] *)
Definition get_heap_stats : kM khs (Z * Z * Z * Z) :=
  let* h := the_heap in
  let* holes := peek (λ m, foldl (λ t a, u64 (t + hd_size m a)) 0 (h_index h)) in
  let total := u64 (h_end h - h_start h) in
  kret (total, u64 (total - holes), holes, h_max h).
