(* ===== verification/KheapInv.v ===== *)
(** * The kernel heap: layout

    The range of a heap is tiled by segments: blocks in use, holes, and the space
    that a page-aligned allocation wastes when it is too small for a hole.  The
    array of holes lists the holes in order of size.  Each operation rewrites a part
    of the range and leaves the segments on both sides alone. *)

From stdpp Require Import base numbers list gmap.
From Stdlib Require Import ZArith Lia Sorting.Sorted.
From S2P Require Import Prelude Pmm Mmu Kheap.

#[local] Open Scope Z_scope.
#[local] Open Scope kernel_scope.

(** ** Memory *)

Lemma rdm_ext k : ∀ a m m', (∀ x, a ≤ x < a + Z.of_nat k → m' x = m x) → rdm k a m' = rdm k a m.
Proof. induction k as [|k IH]; intros a m m' H; [done|]. cbn. rewrite (H a) by lia. rewrite (IH (a + 1) m m'); [done|]. intros. apply H. lia. Qed.
Lemma wrm_out k : ∀ a v m x, x < a ∨ a + Z.of_nat k ≤ x → wrm k a v m x = m x.
Proof.
  induction k as [|k IH]; intros a v m x H; [done|]. cbn. rewrite IH by lia. cbn. destruct (Z.eqb_spec x a); [lia|done].
Qed.
Lemma rdm_range k : ∀ a m, 0 ≤ rdm k a m < 256 ^ Z.of_nat k.
Proof.
  induction k as [|k IH]; intros a m; cbn [rdm]; [done|]. specialize (IH (a + 1) m). pose proof (u8_range (m a)). rewrite Nat2Z.inj_succ, Z.pow_succ_r by lia. lia.
Qed.
Lemma rdm_wrm k : ∀ a v m, rdm k a (wrm k a v m) = v mod 256 ^ Z.of_nat k.
Proof.
  induction k as [|k IH]; intros a v m; cbn [rdm wrm]; [by rewrite Z.mod_1_r|]. rewrite wrm_out by lia. rewrite IH, Z.eqb_refl.
  rewrite (u8_small (u8 v)) by apply u8_range. unfold u8. rewrite Nat2Z.inj_succ, Z.pow_succ_r by lia. rewrite Z.rem_mul_r by lia. done.
Qed.

Lemma wr_header_out a h n m x : x < a ∨ a + 12 ≤ x → wr_header a h n m x = m x.
Proof. intros H. unfold wr_header. by rewrite !wrm_out by (cbn; lia). Qed.
Lemma wr_footer_out a h m x : x < a ∨ a + 16 ≤ x → wr_footer a h m x = m x.
Proof. intros H. unfold wr_footer. by rewrite !wrm_out by (cbn; lia). Qed.

Definition hdr (m : Z → Z) (a hole n : Z) : Prop := hd_magic m a = HEAP_MAGIC ∧ hd_hole m a = hole ∧ hd_size m a = n.
Definition ftr (m : Z → Z) (a f : Z) : Prop := ft_magic m f = HEAP_MAGIC ∧ ft_header m f = a.
Lemma hdr_ext m m' a h n : (∀ x, a ≤ x < a + 12 → m' x = m x) → hdr m a h n → hdr m' a h n.
Proof. intros H. unfold hdr, hd_magic, hd_hole, hd_size. by rewrite !(rdm_ext _ _ m m') by (intros; apply H; cbn in *; lia). Qed.
Lemma ftr_ext m m' a f : (∀ x, f ≤ x < f + 16 → m' x = m x) → ftr m a f → ftr m' a f.
Proof. intros H. unfold ftr, ft_magic, ft_header. by rewrite !(rdm_ext _ _ m m') by (intros; apply H; cbn in *; lia). Qed.
Lemma size_ext m m' a : (∀ x, a ≤ x < a + 12 → m' x = m x) → hd_size m' a = hd_size m a.
Proof. intros H. unfold hd_size. apply rdm_ext. intros. apply H. cbn in *. lia. Qed.
Lemma hdr_written a h n m : 0 ≤ h < 256 → 0 ≤ n < 4294967296 → hdr (wr_header a h n m) a h n.
Proof.
  intros Hh Hn. unfold hdr, hd_magic, hd_hole, hd_size, wr_header.
  assert (∀ k b j c v m, b + Z.of_nat k ≤ c ∨ c + Z.of_nat j ≤ b → rdm k b (wrm j c v m) = rdm k b m) as Ne.
  { intros. apply rdm_ext. intros. apply wrm_out. lia. }
  rewrite (Ne 4%nat a 4%nat), (Ne 4%nat a 1%nat), (Ne 1%nat (a + 4) 4%nat) by (cbn; lia). rewrite !rdm_wrm. cbn. split; [done|]. split; [by apply Z.mod_small|by apply Z.mod_small].
Qed.
Lemma ftr_written a f m : 0 ≤ a < 18446744073709551616 → ftr (wr_footer f a m) a f.
Proof.
  intros Ha. unfold ftr, ft_magic, ft_header, wr_footer. rewrite (rdm_ext 4 f (wrm 4 f HEAP_MAGIC m)) by (intros; apply wrm_out; cbn in *; lia).
  rewrite !rdm_wrm. split; [done|]. by apply Z.mod_small.
Qed.

Lemma poke_bind {A} f (k : unit → kM khs A) m h u : kbind (poke f) k (mk_khs m h u) = k tt (mk_khs (f m) h u).
Proof. done. Qed.
Lemma peek_bind {A B} (f : (Z → Z) → B) (k : B → kM khs A) m h u : kbind (peek f) k (mk_khs m h u) = k (f m) (mk_khs m h u).
Proof. done. Qed.
Lemma heap_bind {A} (k : heap_t → kM khs A) m h u : kbind the_heap k (mk_khs m h u) = k h (mk_khs m h u).
Proof. done. Qed.

(** ** Segments *)

Inductive kind := Hole | Used | Waste.
Record seg := mk_seg { sg_at : Z; sg_size : Z; sg_kind : kind }.

Definition seg_ok (m : Z → Z) (s : seg) : Prop :=
  let a := sg_at s in let n := sg_size s in
  match sg_kind s with
  | Used => 28 ≤ n ∧ hdr m a 0 n ∧ ftr m a (a + n - 16)
  | Hole => 28 ≤ n ∧ hdr m a 1 n ∧ (ftr m a (a + n - 16) ∨ ft_magic m (a + n - 16) ≠ HEAP_MAGIC)
  | Waste => 0 < n < 28
  end.
(** The segments tile the range from [a] to [b]. *)
Fixpoint lay (m : Z → Z) (a : Z) (l : list seg) (b : Z) : Prop :=
  match l with [] => a = b | s :: r => sg_at s = a ∧ seg_ok m s ∧ lay m (a + sg_size s) r b end.

Lemma seg_pos m s : seg_ok m s → 0 < sg_size s.
Proof. unfold seg_ok. destruct (sg_kind s); lia. Qed.
Lemma seg_ext m m' s : (∀ x, sg_at s ≤ x < sg_at s + sg_size s → m' x = m x) → seg_ok m s → seg_ok m' s.
Proof.
  intros H. unfold seg_ok. destruct (sg_kind s); [| |done].
  - intros (Hn & H1 & H2). split; [done|]. split; [apply (hdr_ext m); [intros; apply H; lia|done]|].
    destruct H2 as [H2|H2]; [left; apply (ftr_ext m); [intros; apply H; lia|done]|right]. unfold ft_magic in *. rewrite (rdm_ext _ _ m m'); [done|]. intros. apply H. lia.
  - intros (Hn & H1 & H2). split; [done|]. split; [apply (hdr_ext m); [intros; apply H; lia|done]|apply (ftr_ext m); [intros; apply H; lia|done]].
Qed.
Lemma lay_le m : ∀ l a b, lay m a l b → a ≤ b.
Proof. induction l as [|s l IH]; intros a b; cbn; [lia|]. intros (_ & Hs & Hl). apply IH in Hl. apply seg_pos in Hs. lia. Qed.
Lemma lay_ext m m' : ∀ l a b, (∀ x, a ≤ x < b → m' x = m x) → lay m a l b → lay m' a l b.
Proof.
  induction l as [|s l IH]; intros a b H; cbn; [done|]. intros (E & Hs & Hl). pose proof (lay_le _ _ _ _ Hl). pose proof (seg_pos _ _ Hs).
  split; [done|]. split; [apply (seg_ext m); [intros; apply H; lia|done]|]. apply IH; [|done]. intros. apply H. lia.
Qed.
Lemma lay_app m : ∀ l1 l2 a b, lay m a (l1 ++ l2) b ↔ ∃ c, lay m a l1 c ∧ lay m c l2 b.
Proof.
  induction l1 as [|s l1 IH]; intros l2 a b; cbn.
  - split; [intros H; by exists a|intros (c & -> & H); done].
  - rewrite IH. split; [intros (E & Hs & c & H1 & H2); exists c; done|intros (c & (E & Hs & H1) & H2); split; [done|]; split; [done|]; by exists c].
Qed.
Lemma lay_in m l a b s : lay m a l b → s ∈ l → seg_ok m s ∧ a ≤ sg_at s ∧ sg_at s + sg_size s ≤ b.
Proof.
  intros H (l1 & l2 & ->)%list_elem_of_split. apply lay_app in H as (c & H1 & E & Hs & H2). apply lay_le in H1. apply lay_le in H2. split; [done|]. lia.
Qed.

(** The addresses of the holes. *)
Definition hole_at (s : seg) : option Z := match sg_kind s with Hole => Some (sg_at s) | _ => None end.
Definition holes (l : list seg) : list Z := omap hole_at l.
Lemma holes_app l1 l2 : holes (l1 ++ l2) = holes l1 ++ holes l2.
Proof. apply omap_app. Qed.
Lemma holes_in l p : p ∈ holes l ↔ ∃ n, mk_seg p n Hole ∈ l.
Proof.
  unfold holes. rewrite list_elem_of_omap. split.
  - intros ([a n k] & Hs & E). unfold hole_at in E. cbn in E. destruct k; try done. injection E as ->. by exists n.
  - intros (n & Hs). exists (mk_seg p n Hole). done.
Qed.
Lemma hole_size m l a b p : lay m a l b → p ∈ holes l → ∃ n, mk_seg p n Hole ∈ l ∧ hd_size m p = n ∧ 28 ≤ n ∧ a ≤ p ∧ p + n ≤ b.
Proof. intros H (n & Hs)%holes_in. exists n. destruct (lay_in _ _ _ _ _ H Hs) as ((? & (_ & _ & ?) & _) & ? & ?). cbn in *. done. Qed.

(** ** The array of holes *)

Definition by_size (m : Z → Z) (a b : Z) : Prop := hd_size m a ≤ hd_size m b.
Lemma ordered_insert_perm m x l : ordered_insert m x l ≡ₚ x :: l.
Proof. induction l as [|y l IH]; cbn; [done|]. destruct (header_t_less_than m y x); [|done]. rewrite IH. apply Permutation_swap. Qed.
Lemma ordered_insert_sorted m x l : StronglySorted (by_size m) l → StronglySorted (by_size m) (ordered_insert m x l).
Proof.
  induction 1 as [|y l Hl IH Hy]; cbn; [repeat constructor|]. unfold header_t_less_than. destruct (Z.ltb_spec (hd_size m y) (hd_size m x)) as [Hlt|Hge].
  - constructor; [done|]. rewrite ordered_insert_perm. constructor; [unfold by_size; lia|done].
  - constructor; [by constructor|]. constructor; [done|]. eapply Forall_impl; [exact Hy|]. unfold by_size. intros; lia.
Qed.
Lemma by_size_ext m m' l : (∀ a, a ∈ l → hd_size m' a = hd_size m a) → StronglySorted (by_size m) l → StronglySorted (by_size m') l.
Proof.
  intros H S. induction S as [|y l Sl IH Hy]; [constructor|]. constructor; [apply IH; intros; apply H; by apply list_elem_of_further|].
  rewrite Forall_forall in Hy |- *. intros a Ha. specialize (Hy a Ha). unfold by_size in *. rewrite !H by (apply list_elem_of_here || by apply list_elem_of_further). done.
Qed.
Lemma sorted_delete m l : ∀ i, StronglySorted (by_size m) l → StronglySorted (by_size m) (delete i l).
Proof.
  induction l as [|y l IH]; intros [|i] S; try done; inversion S; subst; cbn; [done|]. constructor; [by apply IH|].
  by apply Forall_delete.
Qed.
Lemma position_in p l : p ∈ l → (position p l < length l)%nat ∧ l !! position p l = Some p.
Proof.
  induction l as [|x l IH]; [by intros ?%not_elem_of_nil|]. intros Hp. cbn. destruct (Z.eqb_spec x p) as [->|Hne]; [split; [lia|done]|].
  apply elem_of_cons in Hp as [->|Hp]; [done|]. destruct (IH Hp). split; [lia|done].
Qed.

(** A heap with a gap from [a] to [b]: the segments on both sides, and an array that
    lists their holes. *)
Record gap (m : Z → Z) (h : heap_t) (l1 : list seg) (a b : Z) (l2 : list seg) : Prop := {
  gp_before : lay m (h_start h) l1 a;
  gp_behind : lay m b l2 (h_end h);
  gp_order : a ≤ b;
  gp_index : h_index h ≡ₚ holes l1 ++ holes l2;
  gp_sorted : StronglySorted (by_size m) (h_index h) }.
(** The whole heap. *)
Record bounds (h : heap_t) : Prop := {
  bd_start : 0 < h_start h;
  bd_max : h_end h ≤ h_max h ≤ 18446744065119617024;
  bd_size : h_end h - h_start h ≤ 4294963200;
  bd_pages : h_start h mod 4096 = 0 ∧ h_end h mod 4096 = 0;
  bd_index : Z.of_nat (length (h_index h)) ≤ h_index_max h }.
Record heap_inv (m : Z → Z) (h : heap_t) (l : list seg) : Prop := {
  hi_lay : lay m (h_start h) l (h_end h);
  hi_index : h_index h ≡ₚ holes l;
  hi_sorted : StronglySorted (by_size m) (h_index h);
  hi_last : ∀ s, last l = Some s → sg_kind s ≠ Waste;
  hi_bounds : bounds h }.

Lemma start_page h : bounds h → 4096 ≤ h_start h.
Proof. intros [B1 _ _ [B4 _] _]. pose proof (Z.div_mod (h_start h) 4096 ltac:(lia)). lia. Qed.
Lemma gap_ext m m' h l1 a b l2 : gap m h l1 a b l2 → (∀ x, x < a ∨ b ≤ x → m' x = m x) → gap m' h l1 a b l2.
Proof.
  intros [H1 H2 H3 H4 H5] E. split; try done.
  - apply (lay_ext m); [|done]. intros. apply E. lia.
  - apply (lay_ext m); [|done]. intros. apply E. lia.
  - apply (by_size_ext m); [|done]. intros p Hp. rewrite H4 in Hp. apply elem_of_app in Hp as [Hp|Hp].
    + destruct (hole_size _ _ _ _ _ H1 Hp) as (n & _ & _ & ? & ? & ?). apply size_ext. intros. apply E. lia.
    + destruct (hole_size _ _ _ _ _ H2 Hp) as (n & _ & _ & ? & ? & ?). apply size_ext. intros. apply E. lia.
Qed.
Lemma gap_range m h l1 a b l2 : gap m h l1 a b l2 → h_start h ≤ a ∧ b ≤ h_end h.
Proof. intros [H1 H2 _ _ _]. apply lay_le in H1. apply lay_le in H2. done. Qed.
(** A gap next to a hole that leaves the array. *)
Lemma index_out m l p : p ∈ l → StronglySorted (by_size m) l → ∃ r, delete (position p l) l = r ∧ l ≡ₚ p :: r ∧ StronglySorted (by_size m) r.
Proof. intros Hp S. destruct (position_in p l Hp) as [_ E]. eexists. split; [done|]. split; [by apply delete_Permutation|by apply sorted_delete]. Qed.
Lemma remove_pointer_run s p : p ∈ h_index (kh_heap s) →
  remove_pointer p s = Ret tt (with_heap (with_index (delete (position p (h_index (kh_heap s))) (h_index (kh_heap s))) (kh_heap s)) s).
Proof.
  intros Hp. destruct (position_in p _ Hp) as [Hlt _]. unfold remove_pointer, the_heap, kbind.
  by replace (position p (h_index (kh_heap s)) <? length (h_index (kh_heap s)))%nat with true by (symmetry; by apply Nat.ltb_lt).
Qed.

(** ** Release *)

(** A free block fills the gap. *)
Definition filled (m : Z → Z) (a b : Z) : Prop := 28 ≤ b - a ∧ hdr m a 1 (b - a) ∧ ftr m a (b - 16).
Definition no_waste (s : option seg) : Prop := ∀ x, s = Some x → sg_kind x ≠ Waste.
(** Only the array differs. *)
Definition same_heap (h h' : heap_t) : Prop := ∃ idx, h' = with_index idx h.
Lemma same_heap_trans h1 h2 h3 : same_heap h1 h2 → same_heap h2 h3 → same_heap h1 h3.
Proof. intros [i ->] [j ->]. by exists j. Qed.
Lemma same_heap_refl h : same_heap h h.
Proof. exists (h_index h). by destruct h. Qed.

Lemma gap_hole_behind m h l1 a b k r : gap m h l1 a b (mk_seg b k Hole :: r) →
  let h' := with_index (delete (position b (h_index h)) (h_index h)) h in b ∈ h_index h ∧ gap m h' l1 a (b + k) r.
Proof.
  intros [H1 H2 H3 H4 H5] h'. destruct H2 as (_ & Hs & H2). pose proof (seg_pos _ _ Hs) as Hk. cbn in *. change (holes (_ :: r)) with (b :: holes r) in H4.
  assert (b ∈ h_index h) as Hb by (rewrite H4; apply elem_of_app; right; apply list_elem_of_here).
  split; [done|]. destruct (index_out m _ b Hb H5) as (rest & E & P & S). split; cbn; rewrite ?E; try done; [lia|].
  rewrite P in H4. rewrite <-Permutation_middle in H4. by apply Permutation_cons_inv in H4.
Qed.
Lemma gap_hole_before m h l1 a b k l2 : gap m h (l1 ++ [mk_seg (a - k) k Hole]) a b l2 →
  let h' := with_index (delete (position (a - k) (h_index h)) (h_index h)) h in a - k ∈ h_index h ∧ gap m h' l1 (a - k) b l2 ∧ seg_ok m (mk_seg (a - k) k Hole).
Proof.
  intros [H1 H2 H3 H4 H5] h'. apply lay_app in H1 as (c & H1 & E & Hs & Ec). cbn in E, Ec. subst c. pose proof (seg_pos _ _ Hs) as Hk. cbn in Hk.
  rewrite holes_app in H4. change (holes [_]) with [a - k] in H4.
  assert (a - k ∈ h_index h) as Hb by (rewrite H4, !elem_of_app; left; right; by apply list_elem_of_singleton).
  split; [done|]. split; [|done]. destruct (index_out m _ (a - k) Hb H5) as (rest & E & P & S). split; cbn; rewrite ?E; try done; [lia|].
  rewrite P, <-app_assoc in H4. cbn in H4. rewrite <-Permutation_middle in H4. by apply Permutation_cons_inv in H4.
Qed.

Lemma merge_right_run m h u l1 a b l2 : gap m h l1 a b l2 → bounds h → filled m a b → no_waste (head l2) →
  (∃ s' b', merge_right a (b - 16) (mk_khs m h u) = Panic s' ∧ b ≤ b' ≤ h_end h ∧ spans_pid2 a (b' - a) = true) ∨
  ∃ m' h' b' l2', merge_right a (b - 16) (mk_khs m h u) = Ret (b' - 16) (mk_khs m' h' u) ∧ same_heap h h' ∧ gap m' h' l1 a b' l2' ∧ filled m' a b' ∧
    b ≤ b' ∧ (∀ x, x < a ∨ b' ≤ x → m' x = m x) ∧ (l2' = l2 ∨ ∃ k, l2 = mk_seg b k Hole :: l2').
Proof.
  intros G B F W. destruct (gap_range _ _ _ _ _ _ G) as [Ga Gb]. destruct F as (Fn & Fh & Ff). destruct B as [B1 B2 B3 B4 B5].
  assert (∃ m' h' b' l2', (Ret (b - 16) (mk_khs m h u) = Ret (b' - 16) (mk_khs m' h' u)) ∧ same_heap h h' ∧ gap m' h' l1 a b' l2' ∧ filled m' a b' ∧
    b ≤ b' ∧ (∀ x, x < a ∨ b' ≤ x → m' x = m x) ∧ (l2' = l2 ∨ ∃ k, l2 = mk_seg b k Hole :: l2')) as Hskip.
  { exists m, h, b, l2. split_and!; try done; [apply same_heap_refl|by left]. }
  unfold merge_right. rewrite heap_bind. unfold FOOTER, HEADER.
  replace (u64 (b - 16 + 16)) with b by (rewrite u64_small; lia). rewrite (u64_small (b + 12)) by lia.
  replace (h_start h <=? b) with true by (symmetry; apply Z.leb_le; lia). cbn [andb].
  destruct (Z.leb_spec (b + 12) (h_end h)) as [Hin|Hout]; [|by right].
  destruct l2 as [|[b0 k []] r]; [pose proof (gp_behind _ _ _ _ _ _ G) as E; cbn in E; lia| | |by destruct (W _ eq_refl)].
  - pose proof (gp_behind _ _ _ _ _ _ G) as (E & (Hk & (M1 & M2 & M3) & _) & Hr). cbn [sg_at sg_size] in E, Hk, M1, M2, M3, Hr. subst b0. apply lay_le in Hr.
    rewrite !peek_bind. rewrite M1, M2. change (HEAP_MAGIC =? HEAP_MAGIC) with true. change (negb (1 =? 0)) with true. cbn [andb].
    destruct (gap_hole_behind _ _ _ _ _ _ _ G) as [Hb G']. set (h' := with_index _ h) in G'. destruct Fh as (F1 & F2 & F3).
    rewrite poke_bind. set (m1 := wrm 4 (a + 8) (u32 (hd_size m a + hd_size m b)) m).
    rewrite (kbind_ret _ _ _ _ _ (remove_pointer_run (mk_khs m1 h u) b Hb)). cbn [kh_heap]. fold h'. change (with_heap h' (mk_khs m1 h u)) with (mk_khs m1 h' u).
    rewrite peek_bind.
    assert (hd_size m1 a = b + k - a) as Es. { unfold m1, hd_size at 1. rewrite rdm_wrm, F3, M3, u32_small by lia. rewrite Z.mod_small by (cbn; lia). lia. }
    rewrite Es. replace (u64 (a + (b + k - a) - 16)) with (b + k - 16) by (rewrite u64_small; lia).
    rewrite poke_bind. set (m2 := wr_footer (b + k - 16) a m1).
    destruct (spans_pid2 a (b + k - a)) eqn:Esp; [left; exists (mk_khs m2 h' u), (b + k); split; [done|]; split; [lia|done]|right]. exists m2, h', (b + k), r. split; [done|]. split; [by eexists|].
    assert (∀ x, x < a + 8 ∨ a + 12 ≤ x < b + k - 16 ∨ b + k ≤ x → m2 x = m x) as Hm.
    { intros x Hx. unfold m2, m1. rewrite wr_footer_out, wrm_out by (cbn; lia). done. }
    split; [apply (gap_ext m); [done|]; intros; apply Hm; lia|]. split.
    + split; [lia|]. split; [|apply ftr_written; lia]. split; [unfold hd_magic in *; rewrite <-F1; apply rdm_ext; intros; apply Hm; lia|].
      split; [unfold hd_hole in *; rewrite <-F2; apply rdm_ext; intros; apply Hm; cbn in *; lia|].
      rewrite <-Es. unfold hd_size. apply rdm_ext. intros. unfold m2. apply wr_footer_out. cbn in *. lia.
    + split; [lia|]. split; [intros; apply Hm; lia|]. right. by exists k.
  - pose proof (gp_behind _ _ _ _ _ _ G) as (E & (Hk & (M1 & M2 & M3) & _) & Hr). cbn [sg_at sg_size] in E, M1, M2. subst b0.
    rewrite !peek_bind. rewrite M1, M2. by right.
Qed.

Lemma merge_left_run m h u l1 a b l2 : gap m h l1 a b l2 → bounds h → filled m a b → no_waste (last l1) →
  (∃ s' a', merge_left a (b - 16) (mk_khs m h u) = Panic s' ∧ h_start h ≤ a' ≤ a ∧ spans_pid2 a' (b - a') = true) ∨
  ∃ m' h' a' l1', merge_left a (b - 16) (mk_khs m h u) = Ret a' (mk_khs m' h' u) ∧ same_heap h h' ∧ gap m' h' l1' a' b l2 ∧ filled m' a' b ∧
    a' ≤ a ∧ (∀ x, x < a' ∨ b ≤ x → m' x = m x) ∧ (l1' = l1 ∨ ∃ k, l1 = l1' ++ [mk_seg a' k Hole]).
Proof.
  intros G B F W. destruct (gap_range _ _ _ _ _ _ G) as [Ga Gb]. destruct F as (Fn & Fh & Ff). destruct B as [B1 B2 B3 [B4 _] B5].
  assert (4096 ≤ h_start h) by (pose proof (Z.div_mod (h_start h) 4096 ltac:(lia)); lia).
  assert (∃ m' h' a' l1', (Ret a (mk_khs m h u) = Ret a' (mk_khs m' h' u)) ∧ same_heap h h' ∧ gap m' h' l1' a' b l2 ∧ filled m' a' b ∧
    a' ≤ a ∧ (∀ x, x < a' ∨ b ≤ x → m' x = m x) ∧ (l1' = l1 ∨ ∃ k, l1 = l1' ++ [mk_seg a' k Hole])) as Hskip.
  { exists m, h, a, l1. split_and!; try done; [apply same_heap_refl|by left]. }
  unfold merge_left. rewrite heap_bind. unfold FOOTER, HEADER. rewrite (u64_small (a - 16)) by lia. rewrite (u64_small (a - 16 + 16)) by lia.
  replace (a - 16 + 16 <=? a) with true by (symmetry; apply Z.leb_le; lia). rewrite andb_true_r.
  destruct (Z.leb_spec (h_start h) (a - 16)) as [Hin|Hout]; [|by right]. rewrite !peek_bind.
  destruct l1 as [|[p k kd] l0] using rev_ind; [pose proof (gp_before _ _ _ _ _ _ G) as E; cbn in E; lia|clear IHl0].
  pose proof (gp_before _ _ _ _ _ _ G) as L. apply lay_app in L as (c & L0 & E & Hs & Ec). cbn [sg_at sg_size] in E, Ec. subst c. pose proof (lay_le _ _ _ _ L0).
  assert (p = a - k) as -> by (cbn in Ec; lia). destruct kd; [| |by destruct (W _ (last_snoc _ _))].
  - destruct Hs as (Hk & (M1 & M2 & M3) & Hf). cbn [sg_at sg_size] in *. replace (a - k + k - 16) with (a - 16) in Hf by lia. destruct Hf as [[Hf1 Hf2]|Hf].
    2: { replace (ft_magic m (a - 16) =? HEAP_MAGIC) with false by (symmetry; by apply Z.eqb_neq). by right. }
    rewrite Hf1, Hf2. change (HEAP_MAGIC =? HEAP_MAGIC) with true. replace (h_start h <=? a - k) with true by (symmetry; apply Z.leb_le; lia).
    rewrite (u64_small (a - k + 12)) by lia. replace (a - k + 12 <=? h_end h) with true by (symmetry; apply Z.leb_le; lia). cbn [andb]. rewrite !peek_bind, M1, M2.
    change (HEAP_MAGIC =? HEAP_MAGIC) with true. change (negb (1 =? 0)) with true. cbn [andb].
    destruct (gap_hole_before _ _ _ _ _ _ _ G) as (Hb & G' & _). set (h' := with_index _ h) in G'. destruct Fh as (F1 & F2 & F3).
    rewrite poke_bind. set (m1 := wrm 4 (a - k + 8) _ m). rewrite poke_bind. set (m2 := wrm 8 (b - 16 + 8) (a - k) m1).
    rewrite (kbind_ret _ _ _ _ _ (remove_pointer_run (mk_khs m2 h u) (a - k) Hb)). cbn [kh_heap]. fold h'. change (with_heap h' (mk_khs m2 h u)) with (mk_khs m2 h' u).
    rewrite peek_bind. assert (∀ x, x < a - k + 8 ∨ a - k + 12 ≤ x < b - 8 ∨ b ≤ x → m2 x = m x) as Hm.
    { intros x Hx. unfold m2, m1. rewrite !wrm_out by (cbn; lia). done. }
    assert (hd_size m2 (a - k) = b - (a - k)) as Es.
    { unfold hd_size. rewrite (rdm_ext 4 (a - k + 8) m1) by (intros; unfold m2; apply wrm_out; cbn in *; lia). unfold m1. rewrite rdm_wrm, F3, M3, u32_small by lia. rewrite Z.mod_small by (cbn; lia). lia. }
    rewrite Es. destruct (spans_pid2 (a - k) (b - (a - k))) eqn:Esp; [left; exists (mk_khs m2 h' u), (a - k); split; [done|]; split; [lia|done]|right]. exists m2, h', (a - k), l0. split; [done|]. split; [by eexists|].
    split; [apply (gap_ext m); [done|]; intros; apply Hm; lia|]. split; [|split; [lia|split; [intros; apply Hm; lia|right; by exists k]]].
    split; [lia|]. split.
    + split; [unfold hd_magic in *; rewrite <-M1; apply rdm_ext; intros; apply Hm; lia|]. split; [unfold hd_hole in *; rewrite <-M2; apply rdm_ext; intros; apply Hm; cbn in *; lia|done].
    + destruct Ff as [Ff1 Ff2]. split; [unfold ft_magic in *; rewrite <-Ff1; apply rdm_ext; intros; apply Hm; lia|]. unfold ft_header, m2. rewrite rdm_wrm. apply Z.mod_small. cbn. lia.
  - destruct Hs as (Hk & (M1 & M2 & M3) & Hf1 & Hf2). cbn [sg_at sg_size] in *. replace (a - k + k - 16) with (a - 16) in Hf1, Hf2 by lia.
    rewrite Hf1, Hf2. change (HEAP_MAGIC =? HEAP_MAGIC) with true. cbn [andb]. destruct ((h_start h <=? a - k) && _); [|by right]. rewrite !peek_bind, M1, M2. by right.
Qed.

(** The array takes the hole in. *)
Lemma insert_run m h u l1 a b l2 : gap m h l1 a b l2 → bounds h → filled m a b → no_waste (last l2) →
  (insert_ordered_array a (mk_khs m h u) = Panic (mk_khs m h u) ∧ h_index_max h ≤ Z.of_nat (length (h_index h))) ∨
  ∃ h', insert_ordered_array a (mk_khs m h u) = Ret tt (mk_khs m h' u) ∧ same_heap h h' ∧ heap_inv m h' (l1 ++ mk_seg a (b - a) Hole :: l2) ∧
    length (h_index h') = S (length (h_index h)).
Proof.
  intros G B F W. unfold insert_ordered_array. rewrite heap_bind. destruct (Z.leb_spec (h_index_max h) (Z.of_nat (length (h_index h)))) as [Hfull|Hroom]; [by left|right].
  exists (with_index (ordered_insert m a (h_index h)) h). split; [done|]. split; [by eexists|]. split; [|cbn; by rewrite (Permutation_length (ordered_insert_perm m a (h_index h)))].
  destruct F as (Fn & Fh & Ff). destruct G as [G1 G2 G3 G4 G5]. split; cbn.
  - apply lay_app. exists a. split; [done|]. cbn. split; [done|]. replace (a + (b - a)) with b by lia. split; [|done]. unfold seg_ok. cbn [sg_kind sg_at sg_size].
    replace (a + (b - a) - 16) with (b - 16) by lia. split; [done|]. split; [done|by left].
  - rewrite ordered_insert_perm, holes_app, G4. change (holes (_ :: l2)) with (a :: holes l2). by rewrite Permutation_middle.
  - by apply ordered_insert_sorted.
  - intros s. rewrite last_app. cbn. destruct l2 as [|x l2]; [by intros [= <-]|]. rewrite last_cons. intros Hs. apply (W s). destruct (last (x :: l2)) eqn:El; [done|]. by apply last_None in El.
  - destruct B as [B1 B2 B3 B4 B5]. split; cbn; try done. rewrite (Permutation_length (ordered_insert_perm m a (h_index h))). cbn. lia.
Qed.

(** What is not free. *)
Definition taken (s : seg) : bool := match sg_kind s with Hole => false | _ => true end.
Definition rest (l : list seg) : list seg := filter taken l.
Lemma rest_app l1 l2 : rest (l1 ++ l2) = rest l1 ++ rest l2.
Proof. apply filter_app. Qed.
Lemma rest_hole a n l : rest (mk_seg a n Hole :: l) = rest l.
Proof. done. Qed.
Lemma rest_in s l : s ∈ rest l ↔ taken s ∧ s ∈ l.
Proof. unfold rest. by rewrite list_elem_of_filter. Qed.
(** The bytes of segments are as before. *)
Definition kept (m m' : Z → Z) (l : list seg) : Prop := ∀ s x, s ∈ l → sg_at s ≤ x < sg_at s + sg_size s → m' x = m x.

Lemma gap_kept m m0 h l1 a b l2 m' : gap m h l1 a b l2 → (∀ x, x < a ∨ b ≤ x → m' x = m0 x) → kept m0 m' (rest (l1 ++ l2)).
Proof.
  intros [H1 H2 _ _ _] E s x (_ & Hs)%rest_in Hx. apply elem_of_app in Hs as [Hs|Hs].
  - destruct (lay_in _ _ _ _ _ H1 Hs) as (_ & ? & ?). apply E. lia.
  - destruct (lay_in _ _ _ _ _ H2 Hs) as (_ & ? & ?). apply E. lia.
Qed.

(** Fewer holes than before. *)
Lemma gap_fewer m m' h h' l1 a b l2 l1' a' b' l2' : gap m h l1 a b l2 → gap m' h' l1' a' b' l2' → same_heap h h' → bounds h →
  (length (holes l1' ++ holes l2') ≤ length (holes l1 ++ holes l2))%nat →
  bounds h' ∧ (length (h_index h') ≤ length (h_index h))%nat ∧ (h_index_max h' ≤ Z.of_nat (length (h_index h')) → h_index_max h ≤ Z.of_nat (length (h_index h))).
Proof.
  intros [_ _ _ G4 _] [_ _ _ G4' _] [i ->] [B1 B2 B3 B4 B5] Hl. apply Permutation_length in G4, G4'. cbn in *. split; [split; cbn; try done; lia|split; lia].
Qed.

(** When releasing the range from [a] to [b] stops the machine. *)
Definition free_panics (h : heap_t) (a b : Z) : Prop :=
  (∃ a' b', h_start h ≤ a' ≤ a ∧ b ≤ b' ≤ h_end h ∧ spans_pid2 a' (b' - a') = true) ∨ h_index_max h ≤ Z.of_nat (length (h_index h)).

Lemma free_run m h u l1 a b l2 : gap m h l1 a b l2 → bounds h → 28 ≤ b - a → hd_magic m a = HEAP_MAGIC → hd_size m a = b - a → ftr m a (b - 16) →
  no_waste (last l1) → no_waste (head l2) → no_waste (last l2) →
  (∃ s', free_internal (a + 12) (mk_khs m h u) = Panic s' ∧ free_panics h a b) ∨
  ∃ m' h' l', free_internal (a + 12) (mk_khs m h u) = Ret tt (mk_khs m' h' u) ∧ same_heap h h' ∧ heap_inv m' h' l' ∧
    rest l' = rest (l1 ++ l2) ∧ kept m m' (rest (l1 ++ l2)) ∧ (length (h_index h') ≤ S (length (h_index h)))%nat ∧
    ∃ a' n, mk_seg a' n Hole ∈ l' ∧ a' ≤ a ∧ b ≤ a' + n.
Proof.
  intros G B Hn M1 M2 Hf W1 W2 W3. destruct (gap_range _ _ _ _ _ _ G) as [Ga Gb]. pose proof (bd_start _ B) as Bs. pose proof (bd_max _ B) as Bm. unfold free_internal.
  replace (a + 12 =? 0) with false by (symmetry; apply Z.eqb_neq; lia). unfold HEADER, FOOTER. replace (u64 (a + 12 - 12)) with a by (rewrite u64_small; lia).
  rewrite peek_bind, M2. replace (u64 (a + (b - a) - 16)) with (b - 16) by (rewrite u64_small; lia). rewrite !peek_bind, M1, (proj1 Hf).
  change (negb (HEAP_MAGIC =? HEAP_MAGIC)) with false. cbn iota. rewrite poke_bind. set (m0 := wrm 1 (a + 4) 1 m).
  assert (∀ x, x ≠ a + 4 → m0 x = m x) as H0 by (intros; apply wrm_out; cbn; lia).
  assert (filled m0 a b) as F0.
  { split; [done|]. split; [|apply (ftr_ext m); [intros; apply H0; lia|done]]. split; [unfold hd_magic in *; rewrite <-M1; apply rdm_ext; intros; apply H0; lia|].
    split; [unfold hd_hole, m0; by rewrite rdm_wrm|unfold hd_size in *; rewrite <-M2; apply rdm_ext; intros; apply H0; lia]. }
  assert (gap m0 h l1 a b l2) as G0 by (apply (gap_ext m); [done|intros; apply H0; lia]).
  destruct (merge_right_run m0 h u l1 a b l2 G0 B F0 W2) as [(s' & b' & E & Hb' & Hsp)|(m1 & h1 & b1 & l2' & E & S1 & G1 & F1 & L1 & O1 & D1)];
    [left; exists s'; split; [unfold kbind; by rewrite E|left; exists a, b'; split_and!; try done; lia]|].
  rewrite (kbind_ret _ _ _ _ _ E). destruct (gap_fewer m0 m1 h h1 l1 a b l2 l1 a b1 l2') as (B1 & Hl1 & N1); try done.
  { destruct D1 as [->|[k ->]]; [done|]. change (holes (mk_seg b k Hole :: l2')) with (b :: holes l2'). rewrite !length_app. cbn [length]. lia. }
  destruct (merge_left_run m1 h1 u l1 a b1 l2' G1 B1 F1 W1) as [(s' & a' & E1 & Ha' & Hsp)|(m2 & h2 & a2 & l1' & E1 & S2 & G2 & F2 & L2 & O2 & D2)].
  { left. exists s'. split; [unfold kbind; by rewrite E1|left]. exists a', b1. destruct (gap_range _ _ _ _ _ _ G1). destruct S1 as [i ->]. cbn in *. split_and!; try done; lia. }
  rewrite (kbind_ret _ _ _ _ _ E1). destruct (gap_fewer m1 m2 h1 h2 l1 a b1 l2' l1' a2 b1 l2') as (B2 & Hl2 & N2); try done.
  { destruct D2 as [->|[k ->]]; [done|]. rewrite holes_app, !length_app. lia. }
  assert (no_waste (last l2')) as W3'. { destruct D1 as [->|[k ->]]; [done|]. intros x Hx. apply (W3 x). rewrite last_cons. by rewrite Hx. }
  destruct (insert_run m2 h2 u l1' a2 b1 l2' G2 B2 F2 W3') as [[E2 Hfull]|(h3 & E2 & S3 & I3 & Hl3)]; [left; exists (mk_khs m2 h2 u); split; [done|right; tauto]|right].
  exists m2, h3, (l1' ++ mk_seg a2 (b1 - a2) Hole :: l2'). split; [done|]. split; [eapply same_heap_trans; [|eapply same_heap_trans]; done|]. split; [done|].
  assert (rest (l1' ++ l2') = rest (l1 ++ l2)) as Hr.
  { rewrite !rest_app. destruct D1 as [->|[k ->]], D2 as [->|[k' ->]]; rewrite ?rest_app, ?rest_hole, ?app_nil_r; done. }
  split; [rewrite <-Hr, !rest_app; done|]. rewrite <-Hr. split; [|split; [lia|exists a2, (b1 - a2); split; [apply elem_of_app; right; apply list_elem_of_here|lia]]]. apply (gap_kept m2 m h2 l1' a2 b1 l2' m2 G2). intros x Hx.
  rewrite O2 by lia. rewrite O1 by lia. apply H0. lia.
Qed.
