(* ===== verification/KheapAlloc.v ===== *)
(** * The kernel heap: allocation

    A block is carved out of the first hole of the array that fits, which is the
    smallest; the space before an aligned block and the space behind a block become
    holes again. *)

From stdpp Require Import base numbers list gmap.
From Stdlib Require Import ZArith Lia Sorting.Sorted.
From S2P Require Import Prelude Pmm Mmu Kheap KheapInv.

#[local] Open Scope Z_scope.
#[local] Open Scope kernel_scope.

(** ** The search *)

Lemma first_fit_spec m size al l : ∀ i, 0 ≤ i →
  (first_fit m size al l i = -1 ∧ Forall (λ a, hole_fits m size al a = false) l) ∨
  ∃ n a, first_fit m size al l i = i + Z.of_nat n ∧ l !! n = Some a ∧ hole_fits m size al a = true ∧ Forall (λ a, hole_fits m size al a = false) (take n l).
Proof.
  induction l as [|x l IH]; intros i Hi; cbn; [left; by split|]. destruct (hole_fits m size al x) eqn:E.
  - right. exists 0%nat, x. split; [lia|]. by split.
  - destruct (IH (i + 1) ltac:(lia)) as [[-> H]|(n & a & -> & Hl & Hf & Hn)]; [left; split; [done|by constructor]|right].
    exists (S n), a. split; [lia|]. split; [done|]. split; [done|]. by constructor.
Qed.
Lemma sorted_lookup m l : StronglySorted (by_size m) l → ∀ i j a b, (i ≤ j)%nat → l !! i = Some a → l !! j = Some b → hd_size m a ≤ hd_size m b.
Proof.
  induction 1 as [|x l S IH Hx]; intros i j a b Hij Ha Hb; [done|]. destruct i as [|i], j as [|j]; cbn in *; try lia; simplify_eq; try lia.
  - rewrite Forall_lookup in Hx. apply (Hx j b Hb).
  - apply (IH i j); try done. lia.
Qed.
(** The hole that is found is the smallest that fits. *)
Lemma best_fit m size l n a : StronglySorted (by_size m) l → l !! n = Some a → Forall (λ a, hole_fits m size false a = false) (take n l) →
  ∀ b, b ∈ l → size ≤ hd_size m b → hd_size m a ≤ hd_size m b.
Proof.
  intros S Ha Hn b (j & Hb)%list_elem_of_lookup Hs. destruct (decide (j < n)%nat) as [Hj|Hj]; [|apply (sorted_lookup m l S n j); try done; lia].
  rewrite Forall_lookup in Hn. specialize (Hn j b). rewrite lookup_take_lt in Hn by done. specialize (Hn Hb). unfold hole_fits in Hn. apply Z.leb_gt in Hn. lia.
Qed.

(** A hole leaves the array. *)
Lemma gap_of_hole m h l i a : heap_inv m h l → h_index h !! i = Some a → ∃ l1 n l2, l = l1 ++ mk_seg a n Hole :: l2 ∧ seg_ok m (mk_seg a n Hole) ∧
  gap m (with_index (delete i (h_index h)) h) l1 a (a + n) l2.
Proof.
  intros [H1 H2 H3 _ _] Hi. assert (a ∈ holes l) as Ha by (rewrite <-H2; by eapply list_elem_of_lookup_2).
  apply holes_in in Ha as (n & Hs). apply list_elem_of_split in Hs as (l1 & l2 & ->). exists l1, n, l2. split; [done|].
  apply lay_app in H1 as (c & L1 & E & Hs & L2). cbn in E. subst c. split; [done|]. pose proof (seg_pos _ _ Hs) as Hp. cbn in Hp. split; cbn; try done; [lia| |by apply sorted_delete].
  rewrite (delete_Permutation _ i a Hi), holes_app in H2. change (holes (mk_seg a n Hole :: l2)) with (a :: holes l2) in H2. rewrite <-Permutation_middle in H2.
  by apply Permutation_cons_inv in H2.
Qed.
(** A block leaves the segments. *)
Lemma gap_of_used m h l1 a n l2 : heap_inv m h (l1 ++ mk_seg a n Used :: l2) → gap m h l1 a (a + n) l2 ∧ seg_ok m (mk_seg a n Used).
Proof.
  intros [H1 H2 H3 _ _]. apply lay_app in H1 as (c & L1 & E & Hs & L2). cbn in E. subst c. pose proof (seg_pos _ _ Hs) as Hp. cbn in Hp. split; [|done].
  split; cbn; try done; [lia|]. by rewrite H2, holes_app.
Qed.
(** Segments without a hole fill a gap. *)
Lemma gap_fill m h l1 a b l2 mid : gap m h l1 a b l2 → bounds h → lay m a mid b → holes mid = [] → no_waste (last (mid ++ l2)) → mid ≠ [] → heap_inv m h (l1 ++ mid ++ l2).
Proof.
  intros [G1 G2 G3 G4 G5] B L Hh W Hm. destruct (mid ++ l2) as [|x r] eqn:Ex; [by apply app_eq_nil in Ex as [-> _]|]. split; try done.
  - apply lay_app. exists a. split; [done|]. rewrite <-Ex. apply lay_app. by exists b.
  - rewrite G4, holes_app, <-Ex, holes_app, Hh. done.
  - intros s. rewrite last_app. rewrite last_cons in *. intros Hs. apply (W s). destruct (last r); done.
Qed.

(** ** Alignment *)

Lemma land_4095 x : Z.land x 4095 = x mod 4096.
Proof. change 4095 with (Z.ones 12). by rewrite Z.land_ones by lia. Qed.
Lemma ldiff_4095 x : Z.ldiff x 4095 = x - x mod 4096.
Proof.
  change 4095 with (Z.ones 12). rewrite Z.ldiff_ones_r by lia. rewrite Z.shiftl_mul_pow2, Z.shiftr_div_pow2 by lia. change (2 ^ 12) with 4096.
  pose proof (Z.div_mod x 4096 ltac:(lia)). lia.
Qed.
(** The space before an aligned block. *)
Definition off (a : Z) : Z := if (a + 12) mod 4096 =? 0 then 0 else 4096 - (a + 12) mod 4096.
Lemma off_range a : 0 ≤ off a < 4096.
Proof. unfold off. pose proof (Z.mod_pos_bound (a + 12) 4096 ltac:(lia)). destruct (Z.eqb_spec ((a + 12) mod 4096) 0); lia. Qed.
Lemma off_aligned a : (a + off a + 12) mod 4096 = 0.
Proof.
  unfold off. pose proof (Z.div_mod (a + 12) 4096 ltac:(lia)) as D. destruct (Z.eqb_spec ((a + 12) mod 4096) 0) as [E|E]; [by rewrite Z.add_0_r|].
  replace (a + (4096 - (a + 12) mod 4096) + 12) with (((a + 12) / 4096 + 1) * 4096) by lia. apply Z.mod_mul. lia.
Qed.
Lemma round_up a : (a + 12) mod 4096 ≠ 0 → Z.ldiff (a + 12 + 4095) 4095 = a + off a + 12.
Proof.
  intros E. rewrite ldiff_4095. unfold off. replace ((a + 12) mod 4096 =? 0) with false by (symmetry; by apply Z.eqb_neq).
  pose proof (Z.div_mod (a + 12) 4096 ltac:(lia)) as D. pose proof (Z.mod_pos_bound (a + 12) 4096 ltac:(lia)).
  replace ((a + 12 + 4095) mod 4096) with ((a + 12) mod 4096 - 1); [lia|]. apply (Z.mod_unique _ _ ((a + 12) / 4096 + 1)); lia.
Qed.
Lemma align_offset_off a : 0 ≤ a → a + 12 < 18446744073709551616 → align_offset a = off a.
Proof.
  intros H0 H1. unfold align_offset, off, HEADER. rewrite u64_small, land_4095 by lia. by destruct ((a + 12) mod 4096 =? 0).
Qed.

(** ** The parts of a hole *)

Lemma split_prefix_run m h u l1 a b l2 : gap m h l1 a b l2 → bounds h → (a + 12) mod 4096 ≠ 0 → off a < b - a → Z.of_nat (length (h_index h)) < h_index_max h →
  ∃ m' h' pre, split_prefix a (b - a) (mk_khs m h u) = Ret (a + off a, b - (a + off a)) (mk_khs m' h' u) ∧ same_heap h h' ∧ gap m' h' (l1 ++ [pre]) (a + off a) b l2 ∧
    (∀ x, x < a ∨ a + off a ≤ x → m' x = m x) ∧ (length (h_index h') ≤ S (length (h_index h)))%nat ∧
    (pre = mk_seg a (off a) Hole ∨ pre = mk_seg a (off a) Waste ∧ off a < 28).
Proof.
  intros G B E Ho Hroom. destruct (gap_range _ _ _ _ _ _ G) as [Ga Gb]. pose proof (start_page _ B) as Bs. pose proof (bd_max _ B) as Bm. pose proof (bd_size _ B) as Bz. pose proof (off_range a) as Hr.
  assert (0 < off a) as Hp by (unfold off in *; destruct (Z.eqb_spec ((a + 12) mod 4096) 0); [done|pose proof (Z.mod_pos_bound (a + 12) 4096 ltac:(lia)); lia]).
  unfold split_prefix, HEADER, FOOTER. rewrite (u64_small (a + 12 + 4095)) by lia. rewrite round_up by done. replace (u64 (a + off a + 12 - 12)) with (a + off a) by (rewrite u64_small; lia).
  replace (u32 (a + off a - a)) with (off a) by (rewrite u32_small; lia). replace (u32 (b - a - off a)) with (b - (a + off a)) by (rewrite u32_small; lia).
  rewrite (u64_small (a + off a - 16)) by lia. change (12 + 16) with 28. destruct G as [G1 G2 G3 G4 G5]. destruct (Z.leb_spec 28 (off a)) as [H28|H28].
  - set (m1 := wr_footer (a + off a - 16) a (wr_header a 1 (off a) m)). set (h1 := with_index (ordered_insert m1 a (h_index h)) h). exists m1, h1, (mk_seg a (off a) Hole).
    assert (∀ x, x < a ∨ a + off a ≤ x → m1 x = m x) as Hm by (intros; unfold m1; by rewrite wr_footer_out, wr_header_out by lia).
    assert (gap m1 h l1 a b l2) as [G1' G2' _ _ G5'] by (apply (gap_ext m); [by split|]; intros; apply Hm; lia).
    split.
    { unfold kbind at 1. rewrite !poke_bind. fold m1. unfold insert_ordered_array. rewrite heap_bind.
      replace (h_index_max h <=? Z.of_nat (length (h_index h))) with false by (symmetry; by apply Z.leb_gt). done. }
    split; [by eexists|]. split; [|split; [done|split; [|by left]]].
    + split; [|exact G2'|lia| |].
      * apply lay_app. exists a. split; [exact G1'|]. cbn [lay sg_at sg_size]. split; [done|]. split; [|done]. split; [done|]. cbn [sg_at sg_size sg_kind]. split.
        { apply (hdr_ext (wr_header a 1 (off a) m)); [intros; apply wr_footer_out; lia|]. apply hdr_written; lia. }
        left. apply ftr_written. lia.
      * unfold h1. cbn [h_index with_index]. rewrite ordered_insert_perm, G4, holes_app. change (holes [_]) with [a]. rewrite <-app_assoc. cbn [app]. by rewrite Permutation_middle.
      * by apply ordered_insert_sorted.
    + unfold h1. cbn [h_index with_index]. rewrite (Permutation_length (ordered_insert_perm m1 a (h_index h))). done.
  - exists m, h, (mk_seg a (off a) Waste). split; [done|]. split; [apply same_heap_refl|]. split; [|split; [done|split; [lia|by right]]]. split; try done; [|lia|].
    + apply lay_app. exists a. split; [done|]. cbn. split; [done|]. split; [unfold seg_ok; cbn; lia|lia].
    + by rewrite holes_app, app_nil_r.
Qed.

Lemma put_block_run m h u l1 a b l2 size : gap m h l1 a b l2 → bounds h → 0 ≤ size → size + 28 ≤ b - a → no_waste (last l2) →
  Z.of_nat (length (h_index h)) < h_index_max h →
  ∃ m' h' k tail, put_block size (size + 28) a (b - a) (h_end h) (mk_khs m h u) = Ret (a + 12) (mk_khs m' h' u) ∧ same_heap h h' ∧ size + 28 ≤ k ≤ b - a ∧
    heap_inv m' h' (l1 ++ mk_seg a k Used :: tail ++ l2) ∧ rest tail = [] ∧ (∀ x, x < a ∨ b ≤ x → m' x = m x).
Proof.
  intros G B Hs0 Hs W Hroom. destruct (gap_range _ _ _ _ _ _ G) as [Ga Gb]. pose proof (start_page _ B) as Bs. pose proof (bd_max _ B) as Bm. pose proof (bd_size _ B) as Bz.
  unfold put_block, HEADER, FOOTER. change (12 + 16) with 28. rewrite (u64_small (b - a - (size + 28))) by lia. rewrite (u64_small (size + (b - a - (size + 28)))) by lia.
  set (small := b - a - (size + 28) <? 28). set (k := if small then b - a else size + 28).
  replace (if small then size + (b - a - (size + 28)) else size) with (k - 28) by (unfold k; destruct small; lia).
  assert (size + 28 ≤ k ≤ b - a ∧ (k = b - a ∨ 28 ≤ b - a - k)) as [Hk Hk'] by (unfold k, small; destruct (Z.ltb_spec (b - a - (size + 28)) 28); lia).
  clearbody k. clear small. rewrite (u32_small k), (u64_small (b - a - k)), (u64_small (a + 12)), (u64_small (a + 12 + (k - 28))) by lia.
  rewrite !poke_bind. set (m1 := wr_footer (a + 12 + (k - 28)) a (wr_header a 0 k m)).
  assert (∀ x, x < a ∨ a + k ≤ x → m1 x = m x) as Hm1 by (intros; unfold m1; by rewrite wr_footer_out, wr_header_out by lia).
  assert (gap m1 h l1 a b l2) as G1 by (apply (gap_ext m); [done|]; intros; apply Hm1; lia).
  assert (seg_ok m1 (mk_seg a k Used)) as Hu.
  { unfold seg_ok. cbn [sg_at sg_size sg_kind]. split; [lia|]. split; [|replace (a + k - 16) with (a + 12 + (k - 28)) by lia; apply ftr_written; lia].
    apply (hdr_ext (wr_header a 0 k m)); [intros; unfold m1; apply wr_footer_out; lia|]. apply hdr_written; lia. }
  destruct (Z.ltb_spec 0 (b - a - k)) as [Hlt|Hge].
  - rewrite (u64_small (a + 12 + (k - 28) + 16)) by lia. replace (a + 12 + (k - 28) + 16) with (a + k) by lia. rewrite (u32_small (b - a - k)) by lia.
    unfold kbind at 1. rewrite poke_bind, peek_bind. set (m2 := wr_header (a + k) 1 (b - a - k) m1).
    assert (hdr m2 (a + k) 1 (b - a - k)) as H2 by (apply hdr_written; lia). rewrite (proj2 (proj2 H2)). replace (u64 (a + k + (b - a - k) - 16)) with (b - 16) by (rewrite u64_small; lia).
    replace (b - 16 <? h_end h) with true by (symmetry; apply Z.ltb_lt; lia). rewrite poke_bind. set (m3 := wr_footer (b - 16) (a + k) m2).
    assert (∀ x, x < a + k ∨ b ≤ x → m3 x = m1 x) as Hm3 by (intros; unfold m3, m2; by rewrite wr_footer_out, wr_header_out by lia).
    assert (gap m3 h (l1 ++ [mk_seg a k Used]) (a + k) b l2) as G3.
    { apply (gap_ext m1); [|done]. destruct G1 as [G1 G2 G3 G4 G5]. split; try done; [|lia|by rewrite holes_app, app_nil_r].
      apply lay_app. exists a. split; [done|]. cbn [lay sg_at sg_size]. split; [done|]. by split. }
    assert (filled m3 (a + k) b) as F3.
    { split; [lia|]. split; [|apply ftr_written; lia]. replace (b - (a + k)) with (b - a - k) by lia. apply (hdr_ext m2); [intros; unfold m3; apply wr_footer_out; lia|done]. }
    destruct (insert_run m3 h u _ _ _ _ G3 B F3 W) as [[_ Hfull]|(h' & E & S' & I & _)]; [lia|]. rewrite E.
    exists m3, h', k, [mk_seg (a + k) (b - (a + k)) Hole]. split; [done|]. split; [done|]. split; [lia|]. split; [by rewrite <-app_assoc in I|]. split; [done|].
    intros x Hx. rewrite Hm3 by lia. apply Hm1. lia.
  - assert (k = b - a) as -> by lia. exists m1, h, (b - a), []. split; [done|]. split; [apply same_heap_refl|]. split; [lia|]. split; [|split; [done|intros; apply Hm1; lia]].
    apply (gap_fill m1 h l1 a b l2 [mk_seg a (b - a) Used]); try done.
    + cbn [lay sg_at sg_size]. split; [done|]. split; [done|lia].
    + intros s. cbn [app]. rewrite last_cons. destruct (last l2) eqn:El; [intros [= <-]; by apply (W s0)|intros [= <-]; done].
Qed.

(** What allocation does to the segments: the block [p - 12], of [k] bytes, takes a
    part of a hole. *)
Record allocated (m m' : Z → Z) (l l' : list seg) (size : Z) (al : bool) (p : Z) : Prop := {
  al_split : ∃ l1 a n l2 pre k tail, l = l1 ++ mk_seg a n Hole :: l2 ∧ l' = l1 ++ pre ++ mk_seg (p - 12) k Used :: tail ++ l2 ∧ rest tail = [] ∧ size + 28 ≤ k ∧
    a + 12 ≤ p ∧ p - 12 + k ≤ a + n ∧ (rest pre = [] ∨ al = true ∧ ∃ w, pre = [mk_seg a w Waste]);
  al_kept : kept m m' (rest l);
  al_aligned : al = true → p mod 4096 = 0 }.

Lemma carve_run m h u l n a size al : heap_inv m h l → h_index h !! n = Some a → hole_fits m (size + 28) al a = true → 0 ≤ size →
  Z.of_nat (length (h_index h)) < h_index_max h →
  ∃ m' h' l' p, carve size (size + 28) al (Z.of_nat n) (mk_khs m h u) = Ret p (mk_khs m' h' u) ∧ same_heap h h' ∧ heap_inv m' h' l' ∧ allocated m m' l l' size al p.
Proof.
  intros I Hn Hf Hs Hroom. destruct (gap_of_hole m h l n a I Hn) as (l1 & sz & l2 & -> & Hok & G). pose proof (hi_bounds _ _ _ I) as B.
  pose proof (start_page _ B) as Bs. pose proof (bd_max _ B) as Bm. pose proof (bd_size _ B) as Bz. destruct (gap_range _ _ _ _ _ _ G) as [Ga Gb]. cbn [h_start h_end with_index] in Ga, Gb.
  destruct Hok as (Hsz & (M1 & M2 & M3) & _). cbn [sg_at sg_size] in *. set (h0 := with_index (delete n (h_index h)) h) in *.
  assert (length (h_index h) = S (length (h_index h0))) as Hlen by (pose proof (Permutation_length (delete_Permutation _ n a Hn)); done).
  assert (bounds h0) as B0 by (destruct B as [? ? ? ? ?]; split; try done; cbn in *; lia).
  assert (no_waste (last l2)) as W.
  { intros s El. apply (hi_last _ _ _ I s). rewrite last_app, last_cons, El. done. }
  unfold carve, HEADER. rewrite (kbind_ret (lookup_ordered_array _) _ (mk_khs m h u) a (mk_khs m h u)) by (unfold lookup_ordered_array, kget_opt; cbn [kh_heap]; by rewrite zlookup_nat, Hn).
  rewrite peek_bind, M3, heap_bind. rewrite (u64_small (h_max h - h_start h)) by lia. replace (h_max h - h_start h <? sz) with false by (symmetry; apply Z.ltb_ge; lia).
  rewrite Nat2Z.id, (kbind_ret (remove_ordered_array n) _ (mk_khs m h u) tt (mk_khs m h0 u) eq_refl). rewrite (u64_small (a + 12)), land_4095 by lia.
  assert (∀ m1 h1 pre c, same_heap h h1 → gap m1 h1 (l1 ++ pre) c (a + sz) l2 → (length (h_index h1) ≤ length (h_index h))%nat → a ≤ c → size + 28 ≤ a + sz - c →
    (∀ x, x < a ∨ a + sz ≤ x → m1 x = m x) → (al = true → (c + 12) mod 4096 = 0) → (rest pre = [] ∨ al = true ∧ ∃ w, pre = [mk_seg a w Waste]) →
    ∃ m' h' l' p, put_block size (size + 28) c (a + sz - c) (h_end h) (mk_khs m1 h1 u) = Ret p (mk_khs m' h' u) ∧ same_heap h h' ∧ heap_inv m' h' l' ∧
      allocated m m' (l1 ++ mk_seg a sz Hole :: l2) l' size al p) as Hput.
  { intros m1 h1 pre c S1 G1 Hl1 Hc1 Hc2 Hm1 Hal Hpre. assert (bounds h1) as B1 by (destruct S1 as [i ->]; destruct B as [? ? ? ? ?]; split; try done; cbn in *; lia).
    assert (h_index_max h1 = h_index_max h ∧ h_end h1 = h_end h) as [Em Ee] by (destruct S1 as [i ->]; done).
    destruct (put_block_run m1 h1 u (l1 ++ pre) c (a + sz) l2 size G1 B1 Hs ltac:(lia) W ltac:(lia)) as (m' & h' & k & tail & E & S' & Hk & I' & Ht & Hm').
    rewrite Ee in E. exists m', h', (l1 ++ pre ++ mk_seg c k Used :: tail ++ l2), (c + 12). split; [done|]. split; [by eapply same_heap_trans|]. split; [by rewrite app_assoc|].
    split.
    - exists l1, a, sz, l2, pre, k, tail. replace (c + 12 - 12) with c by lia. split_and!; try done; lia.
    - rewrite rest_app, rest_hole, <-rest_app. apply (gap_kept m m h0 l1 a (a + sz) l2 m' G). intros x Hx. rewrite Hm' by lia. apply Hm1. lia.
    - exact Hal. }
  destruct al; cbn [andb]; cycle 1.
  { rewrite (kbind_ret (kret _) _ _ (a, sz) (mk_khs m h0 u) eq_refl). unfold hole_fits in Hf. rewrite M3 in Hf. apply Z.leb_le in Hf. pose proof (Hput m h0 [] a) as P. replace (a + sz - a) with sz in P by lia.
    apply P; try done; [by eexists|by rewrite app_nil_r|lia|by left]. }
  unfold hole_fits in Hf. rewrite M3, align_offset_off in Hf by lia. destruct (Z.leb_spec sz (off a)); [done|]. apply Z.leb_le in Hf.
  destruct (Z.eqb_spec ((a + 12) mod 4096) 0) as [E0|E0]; cbn [negb].
  - rewrite (kbind_ret (kret _) _ _ (a, sz) (mk_khs m h0 u) eq_refl). pose proof (Hput m h0 [] a) as P. replace (a + sz - a) with sz in P by lia. pose proof (off_range a).
    apply P; try done; [by eexists|by rewrite app_nil_r|lia|lia|by left].
  - destruct (split_prefix_run m h0 u l1 a (a + sz) l2 G B0 E0 ltac:(lia) ltac:(cbn in *; lia)) as (m1 & h1 & pre & E & S1 & G1 & Hm1 & Hl1 & Hpre).
    replace (a + sz - a) with sz in E by lia. rewrite (kbind_ret _ _ _ _ _ E). pose proof (off_range a).
    apply (Hput m1 h1 [pre]); try done; [lia|lia|lia|intros; apply Hm1; lia|intros _; apply off_aligned|].
    + destruct Hpre as [->|[-> _]]; [by left|right; split; [done|]; by eexists].
Qed.
