(* ===== verification/KheapGrow.v ===== *)
(** * The kernel heap: growth

    [expand] maps pages behind the heap, each on a frame that was free, and adds the
    new space to the holes. *)

From stdpp Require Import base numbers list gmap.
From Stdlib Require Import ZArith Lia Sorting.Sorted.
From S2P Require Import Prelude Pmm Mmu MmuInv Cow Kheap KheapInv KheapAlloc.

#[local] Open Scope Z_scope.
#[local] Open Scope kernel_scope.

(** The page tables of the kernel. *)
Record kmmu (u : mmu) (b rs : list Z) (r : Z) : Prop := {
  ku_pmm : pmm_ok (mm_pmm u) b rs;
  ku_ctx : mm_ctx u !! mm_kernel u = Some r;
  ku_tree : tree (mm_word u) b (total u) r 3;
  ku_ready : pmm_is_ready (mm_pmm u) = true }.

(** [get_page] with [make]. *)
Lemma get_page_run u b rs r v : kmmu u b rs r →
  (∃ s', get_page v true (mm_kernel u) u = Panic s' ∧ no_frame (mm_pmm s')) ∨
  ∃ x m' b', get_page v true (mm_kernel u) u = Ret (Some (entry_at x (PT_IDX v))) (wr m' b' u) ∧ kmmu (wr m' b' u) b' rs r ∧ node m' r (vpath v) = Some x ∧
    (∀ q j, path_ok 3 q → length q = 3%nat → idx j → leaf m' r q j = leaf (mm_word u) r q j) ∧ (∀ g, 0 ≤ g → bit b g = true → bit b' g = true).
Proof.
  intros [H Hc T Hr]. unfold get_page. rewrite (kbind_ret _ _ _ _ _ (get_entry_run u _ r v Hc)). destruct (node (mm_word u) r (vpath v)) as [x|] eqn:Ex.
  - right. exists x, (mm_word u), b. assert (wr (mm_word u) b u = u) as -> by (unfold wr; rewrite (set_bits_same u b rs H); by destruct u). split; [done|]. split; [by split|]. done.
  - rewrite (kbind_ret _ _ _ _ _ (get_ctx_run u _ r Hc)). destruct (get_tables_run u b rs r v 7 H T) as [(s' & E & O & _)|(y & m' & b' & xs & E & H' & T' & N & L & M & _)].
    + left. exists s'. split; [|done]. unfold kbind. by rewrite E.
    + right. exists y, m', b'. rewrite (kbind_ret _ _ _ _ _ E). split; [done|]. split; [by split|]. done.
Qed.

Definition heap_flags (h : heap_t) : Z := Z.lor (Z.lor MMU_PRESENT (if h_readonly h then 0 else MMU_WRITABLE)) (if h_supervisor h then 0 else MMU_USER).
Lemma heap_flags_small h : 0 ≤ heap_flags h < 4096.
Proof. unfold heap_flags. by destruct (h_readonly h), (h_supervisor h). Qed.
Lemma set_flags_frame e f x : 0 ≤ f < 4096 → x mod 4096 = 0 → 0 ≤ x → PAGE_SET_FRAME (PAGE_SET_FLAGS e f) x = Z.lor f x.
Proof.
  intros Hf Hx H0. unfold PAGE_SET_FRAME, PAGE_SET_FLAGS. rewrite (page_frame_id x) by done. f_equal. apply Z.bits_inj'. intros k Hk.
  rewrite flags_bits, Z.lor_spec, page_frame_bits by done. destruct (Z.leb_spec 12 k), (Z.ltb_spec k 12); try lia; cbn; [|done].
  symmetry. rewrite <-(Z.mod_small f (2 ^ 12)) by (change (2 ^ 12) with 4096; lia). apply Z.mod_pow2_bits_high. lia.
Qed.

Lemma heap_page_run m h u b rs r v : kmmu u b rs r →
  (∃ s', heap_page v (mk_khs m h u) = Panic s' ∧ no_frame (mm_pmm (kh_mmu s'))) ∨
  ∃ u' b' f, heap_page v (mk_khs m h u) = Ret tt (mk_khs m h u') ∧ kmmu u' b' rs r ∧ mm_ctx u' = mm_ctx u ∧ mm_kernel u' = mm_kernel u ∧
    translate (mm_word u') r v = Z.lor (heap_flags h) (f * 4096) ∧ (∀ v', page_number v' ≠ page_number v → translate (mm_word u') r v' = translate (mm_word u) r v') ∧
    bit b f = false ∧ bit b' f = true ∧ (∀ g, 0 ≤ g → bit b g = true → bit b' g = true).
Proof.
  intros K. unfold heap_page. rewrite heap_bind. fold (heap_flags h). unfold mm. cbn [kh_mmu]. rewrite (kbind_ret kget _ u u u eq_refl). pose proof (heap_flags_small h) as Hfl.
  destruct (get_page_run u b rs r v K) as [(s' & E & O)|(x & m1 & b1 & E & K1 & N1 & L1 & M1)]; [left; unfold kbind at 1; rewrite E; by eexists; split|].
  rewrite (kbind_ret _ _ _ _ _ E). set (u1 := wr m1 b1 u) in *. set (a := entry_at x (PT_IDX v)). rewrite (kbind_ret _ _ _ _ _ (load_run u1 a)). change (mm_word u1 a) with (m1 a).
  set (m2 := set_word a (PAGE_SET_FLAGS (m1 a) (heap_flags h)) m1). rewrite (kbind_ret (store a _) _ u1 tt (with_mm_word m2 u1) eq_refl).
  rewrite (kbind_ret kget _ _ _ (with_mm_word m2 u1) eq_refl). destruct K1 as [H1 C1 T1 R1]. change (pmm_is_ready (mm_pmm (with_mm_word m2 u1))) with (pmm_is_ready (mm_pmm u1)). rewrite R1.
  destruct (first_free_run _ b1 rs H1) as (f & b2 & Ef & H2 & M2 & _ & R). set (u2 := with_mm_pmm (with_bitmap b2 (mm_pmm u1)) (with_mm_word m2 u1)).
  destruct R as [[-> Hall]|(Hf0 & Hf & Hb & _ & _)].
  { left. unfold kbind at 1. rewrite (kbind_ret _ _ _ _ _ (pm_run _ (with_mm_word m2 u1) _ _ Ef)). eexists. split; [done|]. exists b2. split; [done|]. intros g Hg Hgl. by apply M2, Hall. }
  destruct (set_frame_run (with_bitmap b2 (mm_pmm u1)) b2 rs f H2 ltac:(cbn in *; lia)) as (b3 & Es & H3 & B3). right.
  set (u3 := with_mm_pmm (with_bitmap b3 (with_bitmap b2 (mm_pmm u1))) u2). pose proof (po_total _ _ _ H1) as Ht.
  rewrite (kbind_ret _ _ (with_mm_word m2 u1) (f * 4096) u3).
  2: { rewrite (kbind_ret _ _ _ _ _ (pm_run _ (with_mm_word m2 u1) _ _ Ef)). replace (f =? NO_FRAME) with false by (symmetry; apply Z.eqb_neq; unfold NO_FRAME; lia).
       by rewrite (kbind_ret _ _ _ _ _ (pm_run _ u2 _ _ Es)). }
  rewrite (kbind_ret _ _ _ _ _ (load_run u3 a)). change (mm_word u3 a) with (m2 a). rewrite (set_word_same a _ m1 : m2 a = _).
  rewrite set_flags_frame by (try apply Z.mod_mul; lia). set (m3 := set_word a (Z.lor (heap_flags h) (f * 4096)) m2).
  destruct (vpath_ok v) as [Hv Hi].
  destruct (leaf_store m1 b1 (total u) r 3 (vpath v) x (PT_IDX v) (PAGE_SET_FLAGS (m1 a) (heap_flags h)) T1 Hv eq_refl N1 Hi) as (T2 & N2 & L2 & _). fold a m2 in T2, N2, L2.
  destruct (leaf_store m2 b1 (total u) r 3 (vpath v) x (PT_IDX v) (Z.lor (heap_flags h) (f * 4096)) T2 Hv eq_refl) as (T3 & N3 & L3 & _); [by rewrite N2|done|]. fold a m3 in T3, N3, L3.
  assert (∀ g, 0 ≤ g → bit b1 g = true → bit b3 g = true) as M3 by (intros g Hg Hbg; rewrite B3, (M2 g Hg Hbg) by done; done).
  exists (with_mm_word m3 u3), b3, f. split; [done|]. split.
  { split; cbn [mm_pmm mm_ctx mm_kernel mm_word with_mm_word with_mm_pmm u3 u2 u1 wr set_bits]; try done. change (total (with_mm_word m3 u3)) with (total u). by apply (tree_ext m3 m3 b1 b3). }
  split; [done|]. split; [done|]. cbn [mm_word with_mm_word]. split; [unfold translate; rewrite L3 by done; by rewrite decide_True|]. split.
  - intros v' Hne. destruct (vpath_ok v') as [Hv' Hi']. unfold translate. rewrite L3, decide_False, L2, decide_False; try done; try (intros [? ?]; apply Hne; by apply same_page). by apply L1.
  - split; [destruct (bit b f) eqn:Eb; [|done]; rewrite <-Hb; symmetry; by apply M1|]. split; [rewrite B3, Z.eqb_refl by done; apply orb_true_r|]. intros g Hg Hbg. apply M3; [done|]. by apply M1.
Qed.

Lemma page_number_mod v : page_number v = (v / 4096) mod 68719476736.
Proof. unfold page_number. rewrite Z.land_ones, Z.shiftr_div_pow2 by lia. done. Qed.
Lemma page_number_ne v j k : v mod 4096 = 0 → 0 ≤ j < 1048576 → 0 ≤ k < 1048576 → j ≠ k → page_number (v + 4096 * j) ≠ page_number (v + 4096 * k).
Proof.
  intros Hv Hj Hk Hne. rewrite !page_number_mod. rewrite !(Z.mul_comm 4096), !Z.div_add by lia. set (q := v / 4096). intros E.
  assert ((j - k) mod 68719476736 = 0) as E0. { replace (j - k) with ((q + j) - (q + k)) by lia. rewrite Zminus_mod, E, Z.sub_diag. done. }
  destruct (decide (k < j)); [rewrite Z.mod_small in E0 by lia; lia|].
  assert ((k - j) mod 68719476736 = 0) as E1. { replace (k - j) with ((q + k) - (q + j)) by lia. rewrite Zminus_mod, E, Z.sub_diag. done. }
  rewrite Z.mod_small in E1 by lia. lia.
Qed.

(** Pages from [v] on, on the frames [fs]. *)
Record mapped (u u' : mmu) (b b' : list Z) (r v flags : Z) (fs : list Z) : Prop := {
  mp_frame : ∀ j f, fs !! j = Some f → translate (mm_word u') r (v + 4096 * Z.of_nat j) = Z.lor flags (f * 4096);
  mp_other : ∀ v', (∀ j, (j < length fs)%nat → page_number v' ≠ page_number (v + 4096 * Z.of_nat j)) → translate (mm_word u') r v' = translate (mm_word u) r v';
  mp_free : Forall (λ f, bit b f = false) fs;
  mp_used : Forall (λ f, bit b' f = true) fs;
  mp_distinct : NoDup fs;
  mp_mono : ∀ g, 0 ≤ g → bit b g = true → bit b' g = true;
  mp_same : mm_ctx u' = mm_ctx u ∧ mm_kernel u' = mm_kernel u }.

Lemma mapped_cons u u1 u2 b b1 b2 r v flags f fs : v mod 4096 = 0 → Z.of_nat (length fs) < 1048575 → bit b f = false → bit b1 f = true →
  (∀ g, 0 ≤ g → bit b g = true → bit b1 g = true) → mm_ctx u1 = mm_ctx u → mm_kernel u1 = mm_kernel u →
  translate (mm_word u1) r v = Z.lor flags (f * 4096) → (∀ v', page_number v' ≠ page_number v → translate (mm_word u1) r v' = translate (mm_word u) r v') →
  mapped u1 u2 b1 b2 r (v + 4096) flags fs → mapped u u2 b b2 r v flags (f :: fs).
Proof.
  intros Hv Hl Hf Hf1 M1 C1 K1 Ht Ho [P1 P2 P3 P4 P5 P6 [P7 P8]].
  assert (∀ j, v + 4096 + 4096 * Z.of_nat j = v + 4096 * Z.of_nat (S j)) as Hj by lia.
  assert (∀ j, (j < length fs)%nat → page_number v ≠ page_number (v + 4096 * Z.of_nat (S j))) as Hd.
  { intros j Hlt. rewrite <-(Z.add_0_r v) at 1. rewrite <-(Z.mul_0_r 4096). apply page_number_ne; lia. }
  split.
  - intros [|j] g; cbn.
    + intros [= <-]. rewrite Z.mul_0_r, Z.add_0_r. rewrite P2; [done|]. intros j Hlt. rewrite Hj. by apply Hd.
    + intros Hg. rewrite <-Hj. by apply P1.
  - intros v' Hv'. rewrite P2 by (intros j Hlt; rewrite Hj; apply Hv'; cbn; lia). apply Ho. specialize (Hv' 0%nat). rewrite Z.mul_0_r, Z.add_0_r in Hv'. apply Hv'. cbn. lia.
  - constructor; [done|]. eapply Forall_impl; [exact P3|]. intros g Hg. cbn. destruct (bit b g) eqn:Eb; [|done]. rewrite <-Hg. symmetry. apply M1; [by eapply bit_nonneg|done].
  - constructor; [|done]. apply P6; [by eapply bit_nonneg|done].
  - constructor; [|done]. intros Hin. rewrite Forall_forall in P3. rewrite (P3 f Hin) in Hf1. done.
  - intros g Hg Hb. apply P6; [done|]. by apply M1.
  - split; congruence.
Qed.

Lemma heap_pages_run m h start N : start mod 4096 = 0 → 0 ≤ start → start + N ≤ 18446744073709543424 → 0 ≤ N ≤ 4294963200 → N mod 4096 = 0 → ∀ fuel i u b rs r, kmmu u b rs r →
  i mod 4096 = 0 → 0 ≤ i ≤ N → (N - i) / 4096 < Z.of_nat fuel →
  (∃ s', heap_pages fuel start i N (mk_khs m h u) = Panic s' ∧ no_frame (mm_pmm (kh_mmu s'))) ∨
  ∃ u' b' fs, heap_pages fuel start i N (mk_khs m h u) = Ret tt (mk_khs m h u') ∧ kmmu u' b' rs r ∧ mapped u u' b b' r (start + i) (heap_flags h) fs ∧
    Z.of_nat (length fs) = (N - i) / 4096.
Proof.
  intros Hs Hs0 Hsm HN HN0 fuel. induction fuel as [|fuel IH]; intros i u b rs r K Hi0 Hi Hfuel; [pose proof (Z.div_pos (N - i) 4096 ltac:(lia) ltac:(lia)); lia|].
  cbn [heap_pages]. destruct (Z.ltb_spec i N) as [Hlt|Hge].
  - pose proof (Z.div_mod N 4096 ltac:(lia)). pose proof (Z.div_mod i 4096 ltac:(lia)).
    assert ((N - i) / 4096 = (N - (i + 4096)) / 4096 + 1) as Hdiv by (replace (N - i) with (N - (i + 4096) + 1 * 4096) by lia; by rewrite Z.div_add by lia).
    rewrite (u64_small (start + i)) by lia. destruct (heap_page_run m h u b rs r (start + i) K) as [(s' & E & O)|(u1 & b1 & f & E & K1 & C1 & Ke1 & Ht & Ho & Hb & Hb1 & M1)].
    { left. exists s'. split; [|done]. unfold kbind. by rewrite E. }
    rewrite (kbind_ret _ _ _ _ _ E), (u32_small (i + 4096)) by lia.
    destruct (IH (i + 4096) u1 b1 rs r K1) as [(s' & E1 & O)|(u2 & b2 & fs & E1 & K2 & Mp & Hl)]; [rewrite <-(Z.mod_add i 1 4096) in Hi0 by lia; done|lia|lia|by (left; exists s')|right].
    exists u2, b2, (f :: fs). split; [done|]. split; [done|]. split; [|cbn [length]; lia].
    assert (Z.of_nat (length fs) < 1048575) by (rewrite Hl; apply Z.div_lt_upper_bound; lia).
    eapply mapped_cons; try done; [rewrite <-Zplus_mod_idemp_l, Hs; done|]. by replace (start + i + 4096) with (start + (i + 4096)) by lia.
  - right. exists u, b, []. split; [done|]. split; [done|]. split; [|by replace (N - i) with 0 by lia]. split; try done; [by constructor].
Qed.

(** ** expand *)

Lemma land_pages x : 0 ≤ x < 4294967296 → Z.land x 4294963200 = x - x mod 4096.
Proof.
  intros Hx. rewrite <-ldiff_4095. apply Z.bits_inj'. intros k Hk. rewrite Z.land_spec, Z.ldiff_spec.
  change 4294963200 with (Z.ldiff (Z.ones 32) (Z.ones 12)). change 4095 with (Z.ones 12). rewrite Z.ldiff_spec, !Z.testbit_ones_nonneg by lia.
  destruct (Z.ltb_spec k 32), (Z.ltb_spec k 12); cbn; rewrite ?andb_true_r, ?andb_false_r; try done; try lia.
  symmetry. rewrite <-(Z.mod_small x (2 ^ 32)) by (change (2 ^ 32) with 4294967296; lia). apply Z.mod_pow2_bits_high. lia.
Qed.
Definition round_page (x : Z) : Z := if x mod 4096 =? 0 then x else x - x mod 4096 + 4096.
Lemma round_page_spec x : 0 ≤ x ≤ 4294963200 → x ≤ round_page x ≤ 4294963200 ∧ round_page x mod 4096 = 0.
Proof.
  intros Hx. unfold round_page. pose proof (Z.div_mod x 4096 ltac:(lia)). pose proof (Z.mod_pos_bound x 4096 ltac:(lia)). destruct (Z.eqb_spec (x mod 4096) 0); [lia|].
  split; [lia|]. replace (x - x mod 4096 + 4096) with ((x / 4096 + 1) * 4096) by lia. apply Z.mod_mul. lia.
Qed.

(** What growth does. *)
Record grown (m m' : Z → Z) (h h' : heap_t) (l l' : list seg) : Prop := {
  gr_start : h_start h' = h_start h;
  gr_max : h_max h' = h_max h ∧ h_index_max h' = h_index_max h;
  gr_end : h_end h < h_end h';
  gr_rest : rest l' = rest l;
  gr_kept : kept m m' (rest l);
  gr_index : (length (h_index h') ≤ S (length (h_index h)))%nat;
  gr_hole : ∃ a n, mk_seg a n Hole ∈ l' ∧ h_end h' - h_end h ≤ n }.

(** What can stop the machine: the limit of the heap, the end of memory, or the
    release of the new space. *)
Definition grow_stops (h : heap_t) (ns : Z) (s' : khs) : Prop :=
  h_max h < h_start h + round_page ns ∨ no_frame (mm_pmm (kh_mmu s')) ∨
  free_panics (with_end (h_start h + round_page ns) h) (h_end h) (h_start h + round_page ns).

Lemma expand_run m h u l b rs r ns : heap_inv m h l → kmmu u b rs r → h_end h - h_start h < ns ≤ 4294963200 →
  (∃ s', expand ns (mk_khs m h u) = Panic s' ∧ grow_stops h ns s') ∨
  ∃ m' h' l' u' b' fs, expand ns (mk_khs m h u) = Ret tt (mk_khs m' h' u') ∧ heap_inv m' h' l' ∧ grown m m' h h' l l' ∧ ns ≤ h_end h' - h_start h' ∧
    kmmu u' b' rs r ∧ mapped u u' b b' r (h_end h) (heap_flags h) fs ∧ h_end h' = h_end h + 4096 * Z.of_nat (length fs).
Proof.
  intros I K Hns. pose proof (hi_bounds _ _ _ I) as B. pose proof (start_page _ B) as Bs. destruct B as [_ Bm Bz [Bp Bq] Bi]. pose proof (lay_le _ _ _ _ (hi_lay _ _ _ I)) as Hle.
  set (old := h_end h - h_start h) in *. destruct (round_page_spec ns ltac:(lia)) as [HN HN0]. set (N := round_page ns) in *.
  unfold expand. rewrite heap_bind. fold old. rewrite (u64_small old) by lia. replace (ns <=? old) with false by (symmetry; apply Z.leb_gt; lia).
  replace (if negb (Z.land ns 4095 =? 0) then u64 (Z.land ns 4294963200 + 4096) else ns) with N.
  2: { unfold N, round_page. rewrite land_4095. destruct (Z.eqb_spec (ns mod 4096) 0); cbn [negb]; [done|]. rewrite land_pages by lia. pose proof (Z.mod_pos_bound ns 4096 ltac:(lia)). rewrite u64_small; lia. }
  rewrite (u64_small (h_start h + N)) by lia. destruct (Z.ltb_spec (h_max h) (h_start h + N)) as [Hmax|Hmax]; [left; eexists; split; [done|by left]|].
  assert (old mod 4096 = 0) as Ho by (unfold old; rewrite Zminus_mod, Bp, Bq; done). rewrite (u32_small old) by lia.
  destruct (heap_pages_run m h (h_start h) N Bp ltac:(lia) ltac:(lia) ltac:(lia) HN0 (S (Z.to_nat (N / 4096))) old u b rs r K Ho ltac:(lia)) as [(s' & E & O)|(u' & b' & fs & E & K' & Mp & Hl)].
  { pose proof (Z.div_le_mono (N - old) N 4096 ltac:(lia) ltac:(lia)). pose proof (Z.div_pos N 4096 ltac:(lia) ltac:(lia)). lia. }
  { left. exists s'. split; [unfold kbind; by rewrite E|by right; left]. }
  rewrite (kbind_ret _ _ _ _ _ E). set (e := h_end h). set (h1 := with_end (h_start h + N) h).
  rewrite (kbind_ret (kmodify _) _ (mk_khs m h u') tt (mk_khs m h1 u') eq_refl). assert (4096 ≤ N - old) as Hpg.
  { pose proof (Z.div_mod N 4096 ltac:(lia)). pose proof (Z.div_mod old 4096 ltac:(lia)). lia. }
  rewrite (u32_small (N - old)) by lia. rewrite poke_bind, peek_bind. set (m1 := wr_header e 1 (N - old) m).
  assert (hdr m1 e 1 (N - old)) as H1 by (apply hdr_written; lia). rewrite (proj2 (proj2 H1)). set (stop := h_start h + N).
  assert (e = h_start h + old) as Ee by (unfold e, old; lia). replace (u64 (e + (N - old) - FOOTER)) with (stop - 16) by (unfold FOOTER, stop; rewrite u64_small; lia).
  rewrite poke_bind. set (m2 := wr_footer (stop - 16) e m1). replace (u64 (e + HEADER)) with (e + 12) by (unfold HEADER; rewrite u64_small; lia).
  assert (∀ x, x < e ∨ stop ≤ x → m2 x = m x) as Hm2 by (intros x Hx; unfold m2, m1; rewrite wr_footer_out, wr_header_out by (unfold stop in *; lia); done).
  assert (hdr m2 e 1 (N - old)) as H2 by (apply (hdr_ext m1); [intros; unfold m2; apply wr_footer_out; unfold stop; lia|done]).
  assert (gap m2 h1 l e stop []) as G.
  { split; cbn [h_start h_end h_index with_end h1]; [|done|unfold stop; lia| |].
    - apply (lay_ext m); [intros; apply Hm2; lia|apply I].
    - rewrite app_nil_r. apply I.
    - apply (by_size_ext m); [|apply I]. intros p Hp. rewrite (hi_index _ _ _ I) in Hp. destruct (hole_size _ _ _ _ _ (hi_lay _ _ _ I) Hp) as (n & _ & _ & ? & ? & ?).
      apply size_ext. intros. apply Hm2. fold e in H3. lia. }
  assert (bounds h1) as B1.
  { split; cbn [h_start h_end h_max h_index h_index_max with_end h1]; try lia. split; [done|]. rewrite Zplus_mod, Bp, HN0. done. }
  destruct (free_run m2 h1 u' l e stop [] G B1) as [(s' & Ef & Hfp)|(m3 & h3 & l3 & Ef & [ix ->] & I3 & Hr & Hk & Hli & (a & n & Hin & Ha & Hn))]; try done.
  - unfold stop. lia.
  - apply H2.
  - rewrite (proj2 (proj2 H2)). unfold stop. lia.
  - apply ftr_written. lia.
  - exact (hi_last _ _ _ I).
  - left. exists s'. split; [done|by right; right].
  - right. rewrite Ef. rewrite app_nil_r in Hr, Hk. exists m3, (with_index ix h1), l3, u', b', fs. split; [done|]. split; [done|]. split.
    { split; cbn [h_start h_end h_max h_index_max with_end with_index h1]; try done; [lia| |exists a, n; split; [done|unfold stop in *; fold e; lia]].
      intros s x Hs Hx. rewrite (Hk s x Hs Hx). apply Hm2. apply rest_in in Hs as [_ Hs]. destruct (lay_in _ _ _ _ _ (hi_lay _ _ _ I) Hs) as (_ & _ & ?). fold e in H. lia. }
    cbn [h_end h_start with_end with_index h1]. split; [lia|]. split; [done|]. split; [replace (h_start h + old) with (h_end h) in Mp by (unfold old; lia); exact Mp|].
    pose proof (Z.div_mod (N - old) 4096 ltac:(lia)) as D. assert ((N - old) mod 4096 = 0) as Dm by (by rewrite Zminus_mod, HN0, Ho). unfold old in *. lia.
Qed.
