(* ===== verification/KheapSpec.v ===== *)
(** * The kernel heap: what it promises

    Blocks in use are disjoint parts of the heap, and only their owner changes their
    bytes: allocation and release keep everything that is in use, and a client that
    works with the blocks it holds sees an array of its own in each. *)

From stdpp Require Import base numbers list gmap.
From Stdlib Require Import ZArith Lia Sorting.Sorted.
From S2P Require Import Prelude Pmm Mmu MmuInv Cow Kheap KheapInv KheapAlloc KheapGrow.

#[local] Open Scope Z_scope.
#[local] Open Scope kernel_scope.

Lemma lay_disjoint m a b l1 s l2 t : lay m a (l1 ++ s :: l2) b → t ∈ l1 ++ l2 → sg_at t + sg_size t ≤ sg_at s ∨ sg_at s + sg_size s ≤ sg_at t.
Proof.
  intros L Ht. apply lay_app in L as (c & L1 & E & Hs & L2). apply elem_of_app in Ht as [Ht|Ht].
  - destruct (lay_in _ _ _ _ _ L1 Ht) as (_ & _ & ?). left. lia.
  - destruct (lay_in _ _ _ _ _ L2 Ht) as (_ & ? & _). right. lia.
Qed.

(** What allocation promises: a block of at least [size] bytes between the segments
    that are in use, which stay as they are. *)
Record block_result (m m' : Z → Z) (l l' : list seg) (size : Z) (al : bool) (p : Z) : Prop := {
  br_rest : ∃ r1 r2 pre k, rest l = r1 ++ r2 ∧ rest l' = r1 ++ pre ++ mk_seg (p - 12) k Used :: r2 ∧ size + 28 ≤ k ∧
    (pre = [] ∨ al = true ∧ ∃ a w, pre = [mk_seg a w Waste]);
  br_kept : kept m m' (rest l);
  br_apart : ∀ s, s ∈ rest l → sg_at s + sg_size s ≤ p ∨ p + size ≤ sg_at s;
  br_aligned : al = true → p mod 4096 = 0 }.

Lemma allocated_result m m' h h' l l' size al p : heap_inv m h l → heap_inv m' h' l' → allocated m m' l l' size al p → block_result m m' l l' size al p.
Proof.
  intros I I' [(l1 & a & n & l2 & pre & k & tail & -> & -> & Ht & Hk & Hp & Hpk & Hpre) K A]. split; try done.
  - exists (rest l1), (rest l2), (rest pre), k. rewrite !rest_app, rest_hole. split; [done|].
    change (rest (mk_seg (p - 12) k Used :: tail ++ l2)) with (mk_seg (p - 12) k Used :: rest (tail ++ l2)). rewrite rest_app, Ht. split; [done|]. split; [done|].
    destruct Hpre as [->|(Ha & w & ->)]; [by left|right]. split; [done|]. by exists a, w.
  - intros s (Hs1 & Hs)%rest_in. apply elem_of_app in Hs as [Hs|Hs%elem_of_cons].
    + destruct (lay_disjoint _ _ _ _ _ _ s (hi_lay _ _ _ I)) as [?|?]; [apply elem_of_app; by left| |]; cbn [sg_at sg_size] in *; lia.
    + destruct Hs as [->|Hs]; [done|]. destruct (lay_disjoint _ _ _ _ _ _ s (hi_lay _ _ _ I)) as [?|?]; [apply elem_of_app; by right| |]; cbn [sg_at sg_size] in *; lia.
Qed.
Lemma block_after m m1 m' l l1 l' size al p : rest l1 = rest l → kept m m1 (rest l) → block_result m1 m' l1 l' size al p → block_result m m' l l' size al p.
Proof.
  intros E K [R1 R2 R3 R4]. rewrite E in *. split; try done. intros s x Hs Hx. rewrite (R2 s x Hs Hx). exact (K s x Hs Hx).
Qed.

(** The size of the heap stays below four gigabytes, where the code is right, also
    if it has to grow for the request. *)
Definition may_grow (h : heap_t) (size : Z) : Prop :=
  2 * (h_end h - h_start h) ≤ 4294963200 ∧ h_end h - h_start h + size + 28 ≤ 4294963200.

(** The size that [alloc] asks [expand] for. *)
Definition grow_size (h : heap_t) (size : Z) : Z :=
  let old := h_end h - h_start h in if old * 2 <? old + size + 12 + 16 then old + size + 12 + 16 else old * 2.

Lemma search_run m h u size al : find_smallest_hole size al (mk_khs m h u) = Ret (first_fit m size al (h_index h) 0) (mk_khs m h u).
Proof. done. Qed.

(** There is a hole: no need to grow. *)
Lemma alloc_fits_run m h u l size al : heap_inv m h l → 0 ≤ size → size + 28 < 18446744073709551616 → Z.of_nat (length (h_index h)) < h_index_max h →
  (∃ a, a ∈ h_index h ∧ hole_fits m (size + 28) al a = true) →
  ∃ m' h' l' p, alloc size al (mk_khs m h u) = Ret p (mk_khs m' h' u) ∧ same_heap h h' ∧ heap_inv m' h' l' ∧ block_result m m' l l' size al p.
Proof.
  intros I Hs Hs' Hroom (a & Ha & Hfit). unfold alloc, HEADER, FOOTER. replace (u64 (size + 12 + 16)) with (size + 28) by (rewrite u64_small; lia).
  rewrite (kbind_ret _ _ _ _ _ (search_run m h u _ al)). destruct (first_fit_spec m (size + 28) al (h_index h) 0 ltac:(lia)) as [[_ Hn]|(n & c & E & Hc & Hf & _)].
  { rewrite Forall_forall in Hn. rewrite (Hn a Ha) in Hfit. done. }
  rewrite E, Z.add_0_l. replace (Z.of_nat n =? -1) with false by (symmetry; apply Z.eqb_neq; lia). rewrite (kbind_ret (kret _) _ _ (Z.of_nat n) (mk_khs m h u) eq_refl).
  replace (Z.of_nat n =? -1) with false by (symmetry; apply Z.eqb_neq; lia).
  destruct (carve_run m h u l n c size al I Hc Hf Hs Hroom) as (m' & h' & l' & p & Ec & S & I' & A). exists m', h', l', p. split; [done|]. split; [done|]. split; [done|]. by eapply allocated_result.
Qed.

Lemma alloc_run m h u l b rs r size al : heap_inv m h l → kmmu u b rs r → 0 ≤ size → may_grow h size → Z.of_nat (length (h_index h)) + 1 < h_index_max h →
  Forall (λ a, hole_fits m (size + 28) al a = false) (h_index h) →
  (∃ s', alloc size al (mk_khs m h u) = Panic s' ∧ grow_stops h (grow_size h size) s') ∨
  ∃ m' h' l' u' b' fs, kmmu u' b' rs r ∧ mapped u u' b b' r (h_end h) (heap_flags h) fs ∧ heap_inv m' h' l' ∧
    (∃ p, alloc size al (mk_khs m h u) = Ret p (mk_khs m' h' u') ∧ block_result m m' l l' size al p ∨
     al = true ∧ alloc size al (mk_khs m h u) = Ret 0 (mk_khs m' h' u') ∧ rest l' = rest l ∧ kept m m' (rest l)).
Proof.
  intros I K Hs [Hg1 Hg2] Hroom Hnone. pose proof (hi_bounds _ _ _ I) as B. pose proof (start_page _ B) as Bs. pose proof (bd_max _ B) as Bm. pose proof (lay_le _ _ _ _ (hi_lay _ _ _ I)) as Hle.
  unfold alloc, HEADER, FOOTER. replace (u64 (size + 12 + 16)) with (size + 28) by (rewrite u64_small; lia).
  rewrite (kbind_ret _ _ _ _ _ (search_run m h u _ al)). destruct (first_fit_spec m (size + 28) al (h_index h) 0 ltac:(lia)) as [[E _]|(n & c & _ & Hc & Hf & _)].
  2: { rewrite Forall_lookup in Hnone. rewrite (Hnone n c Hc) in Hf. done. }
  rewrite E. change (-1 =? -1) with true. cbn iota. set (old := h_end h - h_start h) in *.
  set (ns := grow_size h size).
  assert (old + size + 28 ≤ ns ≤ 4294963200) as Hns by (unfold ns, grow_size; fold old; destruct (Z.ltb_spec (old * 2) (old + size + 12 + 16)); lia).
  match goal with |- context [kbind ?c _ (mk_khs m h u)] => set (inner := c) end.
  assert (inner (mk_khs m h u) = (expand ns ;;; find_smallest_hole (size + 28) al) (mk_khs m h u)) as Ei.
  { unfold inner. rewrite heap_bind. fold old. by rewrite (u64_small old), (u64_small (old * 2)), (u64_small (old + size + 12 + 16)) by lia. }
  destruct (expand_run m h u l b rs r ns I K ltac:(lia)) as [(s' & Ex & O)|(m1 & h1 & l1 & u1 & b1 & fs & Ex & I1 & G & Hn1 & K1 & Mp & _)].
  { left. exists s'. split; [|done]. unfold kbind at 1. rewrite Ei. unfold kbind. by rewrite Ex. }
  right. rewrite (kbind_ret _ _ _ _ _ Ex), search_run in Ei. rewrite (kbind_ret _ _ _ _ _ Ei). destruct G as [Gs [Gm Gi] Ge Gr Gk Hlen (a & n & Hin & Hn)].
  destruct (first_fit_spec m1 (size + 28) al (h_index h1) 0 ltac:(lia)) as [[E1 Hno]|(i & c & E1 & Hc & Hf & _)]; rewrite E1.
  - destruct al.
    + exists m1, h1, l1, u1, b1, fs. split; [done|]. split; [done|]. split; [done|]. exists 0. by right.
    + rewrite Forall_forall in Hno. destruct (lay_in _ _ _ _ _ (hi_lay _ _ _ I1) Hin) as ((_ & (_ & _ & Hsz) & _) & _). cbn [sg_at sg_size] in Hsz.
      specialize (Hno a). rewrite (hi_index _ _ _ I1), holes_in in Hno. specialize (Hno (ex_intro _ n Hin)). unfold hole_fits in Hno. rewrite Hsz in Hno. apply Z.leb_gt in Hno. lia.
  - replace (0 + Z.of_nat i =? -1) with false by (symmetry; apply Z.eqb_neq; lia).
    destruct (carve_run m1 h1 u1 l1 i c size al I1 Hc Hf Hs ltac:(lia)) as (m' & h' & l' & p & Ec & [ix ->] & I' & A). rewrite Z.add_0_l, Ec.
    exists m', (with_index ix h1), l', u1, b1, fs. split; [done|]. split; [done|]. split; [done|]. exists p. left. split; [done|]. eapply block_after; [exact Gr|exact Gk|]. by eapply allocated_result.
Qed.

Lemma free_used_run m h u l1 a n l2 : heap_inv m h (l1 ++ mk_seg a n Used :: l2) → no_waste (last l1) → no_waste (head l2) →
  (∃ s', free (a + 12) (mk_khs m h u) = Panic s' ∧ free_panics h a (a + n)) ∨
  ∃ m' h' l', free (a + 12) (mk_khs m h u) = Ret tt (mk_khs m' h' u) ∧ same_heap h h' ∧ heap_inv m' h' l' ∧
    rest l' = rest l1 ++ rest l2 ∧ kept m m' (rest l1 ++ rest l2).
Proof.
  intros I W1 W2. destruct (gap_of_used _ _ _ _ _ _ I) as [G (Hn & (M1 & _ & M2) & Hf)]. cbn [sg_at sg_size] in *. pose proof (hi_bounds _ _ _ I) as B. pose proof (start_page _ B).
  destruct (gap_range _ _ _ _ _ _ G) as [Ga _].
  assert (no_waste (last l2)) as W3 by (intros s El; apply (hi_last _ _ _ I s); rewrite last_app, last_cons, El; done).
  unfold free. replace (a + 12 =? 0) with false by (symmetry; apply Z.eqb_neq; lia).
  destruct (free_run m h u l1 a (a + n) l2 G B) as [(s' & E & P)|(m' & h' & l' & E & S & I' & Hr & Hk & _)]; try done; try lia.
  - left. by exists s'.
  - right. rewrite rest_app in Hr, Hk. exists m', h', l'. done.
Qed.

(** ** A client *)

(** The operations on the blocks that a client holds, the latest first: a new block,
    the release of one, a byte written into one. *)
Inductive cop := New (size : Z) | Del (i : nat) | Put (i : nat) (j v : Z).
Definition client (o : cop) (lv : list (Z * Z)) : kM khs (list (Z * Z)) :=
  match o with
  | New size => let* p := alloc size false in kret ((p, size) :: lv)
  | Del i => match lv !! i with Some (p, _) => free p ;;; kret (delete i lv) | None => kret lv end
  | Put i j v =>
      match lv !! i with
      | Some (p, n) => if (0 <=? j) && (j <? n) then poke (wrm 1 (p + j) v) ;;; kret lv else kret lv
      | None => kret lv
      end
  end.

(** The same on arrays that have nothing to do with each other. *)
Definition put (j v : Z) (c : list Z) : list Z := if (0 <=? j) && (j <? Z.of_nat (length c)) then <[Z.to_nat j := u8 v]> c else c.
Inductive arrays : cop → list (list Z) → list (list Z) → Prop :=
| arrays_new size c A : Z.of_nat (length c) = size → arrays (New size) A (c :: A)
| arrays_del i A : arrays (Del i) A (delete i A)
| arrays_put i j v A : arrays (Put i j v) A (alter (put j v) i A).

Definition block_of (pn : Z * Z) (s : seg) : Prop := sg_at s = pn.1 - 12 ∧ 0 ≤ pn.2 ∧ pn.2 + 28 ≤ sg_size s ∧ sg_kind s = Used.
Definition array_of (m : Z → Z) (pn : Z * Z) (c : list Z) : Prop :=
  Z.of_nat (length c) = pn.2 ∧ ∀ j x, c !! j = Some x → u8 (m (pn.1 + Z.of_nat j)) = x.
Record client_inv (s : khs) (lv : list (Z * Z)) (A : list (list Z)) (l segs : list seg) (b rs : list Z) (r : Z) : Prop := {
  ci_heap : heap_inv (kh_mem s) (kh_heap s) l;
  ci_mmu : kmmu (kh_mmu s) b rs r;
  ci_whole : Forall (λ x, sg_kind x ≠ Waste) l;
  ci_segs : segs ≡ₚ rest l;
  ci_blocks : Forall2 block_of lv segs;
  ci_arrays : Forall2 (array_of (kh_mem s)) lv A }.

Lemma whole_of_rest l : Forall (λ x, sg_kind x ≠ Waste) l ↔ Forall (λ x, sg_kind x ≠ Waste) (rest l).
Proof.
  rewrite !Forall_forall. split; intros H x Hx; [apply H; by apply rest_in in Hx as [_ ?]|].
  destruct (sg_kind x) eqn:E; [done|done|]. intros _. apply (H x); [|done]. apply rest_in. split; [|done]. unfold taken. by rewrite E.
Qed.
Lemma arrays_kept m m' lv A segs l : Forall2 (array_of m) lv A → Forall2 block_of lv segs → kept m m' l → (∀ s, s ∈ segs → s ∈ l) → Forall2 (array_of m') lv A.
Proof.
  intros HA HB K Hin. apply Forall2_same_length_lookup_2; [by eapply Forall2_length|]. intros i [p n] c Hi Hc.
  destruct (Forall2_lookup_l _ _ _ _ _ HB Hi) as (s & Hs & E1 & E2 & E3 & _). cbn [fst snd] in *.
  destruct (Forall2_lookup_lr _ _ _ _ _ _ HA Hi Hc) as [HL HV]. split; [done|]. intros j x Hj. rewrite <-(HV j x Hj). f_equal. apply lookup_lt_Some in Hj. cbn [fst snd] in *.
  apply (K s); [apply Hin; by eapply list_elem_of_lookup_2|lia].
Qed.

(** Three steps. *)
Lemma client_new s lv A l segs b rs r size : client_inv s lv A l segs b rs r → 0 ≤ size → may_grow (kh_heap s) size →
  Z.of_nat (length (h_index (kh_heap s))) + 1 < h_index_max (kh_heap s) →
  (∃ s', client (New size) lv s = Panic s' ∧ Forall (λ a, hd_size (kh_mem s) a < size + 28) (h_index (kh_heap s)) ∧ grow_stops (kh_heap s) (grow_size (kh_heap s) size) s') ∨
  ∃ lv' s' A' l' segs' b', client (New size) lv s = Ret lv' s' ∧ arrays (New size) A A' ∧ client_inv s' lv' A' l' segs' b' rs r.
Proof.
  intros [I K W P Hb Ha] Hs Hg Hroom. destruct s as [m h u]. cbn [kh_mem kh_heap kh_mmu] in *. unfold client.
  assert (∀ m' h' u' l' b' p, alloc size false (mk_khs m h u) = Ret p (mk_khs m' h' u') → heap_inv m' h' l' → kmmu u' b' rs r → block_result m m' l l' size false p →
    ∃ lv' s' A' l' segs' b', (let* p := alloc size false in kret ((p, size) :: lv)) (mk_khs m h u) = Ret lv' s' ∧ arrays (New size) A A' ∧ client_inv s' lv' A' l' segs' b' rs r) as Hok.
  { intros m' h' u' l' b' p E I' K' [(r1 & r2 & pre & k & E1 & E2 & Hk & [->|[? _]]) R2 R3 _]; [|done]. rewrite (kbind_ret _ _ _ _ _ E). cbn [app] in E2.
    exists ((p, size) :: lv), (mk_khs m' h' u'), (map (λ j, u8 (m' (p + j))) (seqZ 0 size) :: A), l', (mk_seg (p - 12) k Used :: segs), b'.
    split; [done|]. split; [constructor; rewrite length_map, length_seqZ; lia|]. split; cbn [kh_mem kh_heap kh_mmu]; try done.
    - rewrite whole_of_rest, E2. rewrite whole_of_rest, E1 in W. rewrite Forall_app in *. destruct W as [W1 W2]. split; [done|]. by constructor.
    - by rewrite P, E1, E2, Permutation_middle.
    - constructor; [|done]. split; cbn; [done|]. split; [done|]. by split.
    - constructor.
      + split; cbn; [rewrite length_map, length_seqZ; lia|]. intros j x Hj. rewrite list_lookup_fmap in Hj. destruct (seqZ 0 size !! j) as [q|] eqn:Eq; [|done]. cbn in Hj.
        apply lookup_seqZ in Eq as [-> _]. injection Hj as <-. by rewrite Z.add_0_l.
      + apply (arrays_kept m m' lv A segs (rest l)); try done. intros s Hin. by rewrite <-P. }
  destruct (decide (Forall (λ a, hole_fits m (size + 28) false a = false) (h_index h))) as [Hno|Hfit].
  - destruct (alloc_run m h u l b rs r size false I K Hs Hg Hroom Hno) as [(s' & E & O)|(m' & h' & l' & u' & b' & fs & K' & _ & I' & p & [[E R]|[? _]])]; [| |done].
    + left. exists s'. split; [unfold kbind; by rewrite E|]. split; [|done]. eapply Forall_impl; [exact Hno|]. intros a Hf. cbn in Hf. by apply Z.leb_gt in Hf.
    + right. by eapply Hok.
  - right. apply not_Forall_Exists in Hfit; [|apply _]. apply Exists_exists in Hfit as (a & Hain & Hf). cbn in Hf. apply not_false_is_true in Hf.
    destruct Hg as [Hg1 Hg2]. pose proof (lay_le _ _ _ _ (hi_lay _ _ _ I)).
    destruct (alloc_fits_run m h u l size false I Hs ltac:(lia) ltac:(lia)) as (m' & h' & l' & p & E & _ & I' & R); [by exists a|]. by eapply Hok.
Qed.

Lemma Forall2_put_back {X Y} (P : X → Y → Prop) (f : Y → Y) : ∀ i l k x y, l !! i = Some x → k !! i = Some y → P x (f y) → Forall2 P (delete i l) (delete i k) → Forall2 P l (alter f i k).
Proof.
  induction i as [|i IH]; intros [|a l] [|c k] x y Hx Hy Hp H; cbn in *; simplify_eq; [by constructor|]. inversion H; subst. constructor; [done|]. by eapply IH.
Qed.

Lemma delete_out {X} : ∀ (l : list X) i, l !! i = None → delete i l = l.
Proof. induction l as [|x l IH]; intros [|i] H; cbn in *; try done. by rewrite IH. Qed.

Lemma alter_out {X} (f : X → X) : ∀ (l : list X) (i : nat), l !! i = None → alter f i l = l.
Proof. induction l as [|x l IH]; intros [|i] H; cbn in *; try done. f_equal. by apply IH. Qed.

(** The segments of the held blocks. *)
Lemma client_seg s lv A l segs b rs r i p n : client_inv s lv A l segs b rs r → lv !! i = Some (p, n) →
  ∃ k l1 l2, segs !! i = Some (mk_seg (p - 12) k Used) ∧ n + 28 ≤ k ∧ 0 ≤ n ∧ l = l1 ++ mk_seg (p - 12) k Used :: l2 ∧ delete i segs ≡ₚ rest l1 ++ rest l2 ∧
    no_waste (last l1) ∧ no_waste (head l2).
Proof.
  intros [I K W P Hb Ha] Hi. destruct (Forall2_lookup_l _ _ _ _ _ Hb Hi) as ([a k kd] & Hs & E1 & E2 & E3 & E4). cbn in E1, E2, E3, E4. subst a kd.
  assert (mk_seg (p - 12) k Used ∈ rest l) as Hin by (rewrite <-P; by eapply list_elem_of_lookup_2). apply rest_in in Hin as [_ Hin]. apply list_elem_of_split in Hin as (l1 & l2 & ->).
  exists k, l1, l2. split; [done|]. split; [done|]. split; [done|]. split; [done|]. split.
  - rewrite (delete_Permutation segs i _ Hs), rest_app in P. change (rest (mk_seg (p - 12) k Used :: l2)) with (mk_seg (p - 12) k Used :: rest l2) in P.
    rewrite <-Permutation_middle in P. by apply Permutation_cons_inv in P.
  - rewrite Forall_app, Forall_cons in W. destruct W as (W1 & _ & W2). rewrite !Forall_forall in W1, W2. split; intros x Hx.
    + apply W1. by apply last_Some_elem_of.
    + apply W2. destruct l2; cbn in Hx; [done|]. injection Hx as ->. apply list_elem_of_here.
Qed.

Lemma client_del s lv A l segs b rs r i : client_inv s lv A l segs b rs r →
  (∃ s' p n k, client (Del i) lv s = Panic s' ∧ lv !! i = Some (p, n) ∧ mk_seg (p - 12) k Used ∈ l ∧ free_panics (kh_heap s) (p - 12) (p - 12 + k)) ∨
  ∃ lv' s' A' l' segs' b', client (Del i) lv s = Ret lv' s' ∧ arrays (Del i) A A' ∧ client_inv s' lv' A' l' segs' b' rs r.
Proof.
  intros C. unfold client. destruct (lv !! i) as [[p n]|] eqn:Hi; cycle 1.
  { right. exists lv, s, (delete i A), l, segs, b. split; [done|]. split; [constructor|]. rewrite delete_out; [done|]. apply lookup_ge_None. rewrite <-(Forall2_length _ _ _ (ci_arrays _ _ _ _ _ _ _ _ C)). by apply lookup_ge_None. }
  destruct (client_seg _ _ _ _ _ _ _ _ _ _ _ C Hi) as (k & l1 & l2 & Hs & Hk & Hn & -> & Hd & W1 & W2). destruct C as [I K W P Hb Ha]. destruct s as [m h u]. cbn [kh_mem kh_heap kh_mmu] in *.
  destruct (free_used_run m h u l1 (p - 12) k l2 I W1 W2) as [(s' & E & Hp)|(m' & h' & l' & E & _ & I' & Hr & Hkp)]; replace (p - 12 + 12) with p in E by lia.
  - left. exists s', p, n, k. split; [unfold kbind; by rewrite E|]. split; [done|]. split; [|done]. apply elem_of_app. right. apply list_elem_of_here.
  - right. rewrite (kbind_ret _ _ _ _ _ E). exists (delete i lv), (mk_khs m' h' u), (delete i A), l', (delete i segs), b. split; [done|]. split; [constructor|].
    split; cbn [kh_mem kh_heap kh_mmu]; try done.
    + rewrite whole_of_rest, Hr. rewrite whole_of_rest, rest_app in W. change (rest (mk_seg (p - 12) k Used :: l2)) with (mk_seg (p - 12) k Used :: rest l2) in W.
      rewrite Forall_app, Forall_cons in W. rewrite Forall_app. tauto.
    + by rewrite Hr.
    + by apply Forall2_delete.
    + apply (arrays_kept m m' _ _ (delete i segs) (rest l1 ++ rest l2)); [by apply Forall2_delete|by apply Forall2_delete|done|]. intros x. by rewrite Hd.
Qed.

(** A write inside a block keeps the heap. *)
Lemma heap_write m m' h l1 a k l2 : heap_inv m h (l1 ++ mk_seg a k Used :: l2) → (∀ x, x < a + 12 ∨ a + k - 16 ≤ x → m' x = m x) →
  heap_inv m' h (l1 ++ mk_seg a k Used :: l2) ∧ kept m m' (rest l1 ++ rest l2).
Proof.
  intros I E. destruct (gap_of_used _ _ _ _ _ _ I) as [G Hs]. assert (gap m' h l1 a (a + k) l2) as G' by (apply (gap_ext m); [done|]; intros; apply E; destruct Hs as (? & _); cbn in *; lia).
  split; [|rewrite <-rest_app; apply (gap_kept m m h l1 a (a + k) l2 m' G); intros; apply E; destruct Hs as (? & _); cbn in *; lia].
  apply (gap_fill m' h l1 a (a + k) l2 [mk_seg a k Used]); [done|apply I| |done| |done].
  - cbn [lay sg_at sg_size]. split; [done|]. split; [|done]. destruct Hs as (Hk & Hh & Hf). unfold seg_ok. cbn [sg_at sg_size sg_kind] in *. split; [done|].
    split; [apply (hdr_ext m); [intros; apply E; lia|done]|apply (ftr_ext m); [intros; apply E; lia|done]].
  - intros s. cbn [app]. rewrite last_cons. intros Hl. apply (hi_last _ _ _ I s). rewrite last_app, last_cons. destruct (last l2); done.
Qed.

Lemma client_put s lv A l segs b rs r i j v : client_inv s lv A l segs b rs r →
  ∃ lv' s' A' l' segs' b', client (Put i j v) lv s = Ret lv' s' ∧ arrays (Put i j v) A A' ∧ client_inv s' lv' A' l' segs' b' rs r.
Proof.
  intros C. pose proof C as [I K W P Hb Ha]. unfold client. exists lv. destruct (lv !! i) as [[p n]|] eqn:Hi; cycle 1.
  { exists s, (alter (put j v) i A), l, segs, b. split; [done|]. split; [constructor|]. rewrite alter_out; [done|]. apply lookup_ge_None. rewrite <-(Forall2_length _ _ _ Ha). by apply lookup_ge_None. }
  destruct (Forall2_lookup_l _ _ _ _ _ Ha Hi) as (c & Hc & Hlen & Hv). cbn [fst snd] in *.
  destruct ((0 <=? j) && (j <? n)) eqn:Hj; cycle 1.
  { exists s, (alter (put j v) i A), l, segs, b. split; [done|]. split; [constructor|]. split; try done. apply (Forall2_put_back _ _ i lv A (p, n) c); try done; [|by apply Forall2_delete].
    unfold put. rewrite Hlen, Hj. done. }
  apply andb_true_iff in Hj as Hj'. rewrite Z.leb_le, Z.ltb_lt in Hj'.
  destruct (client_seg _ _ _ _ _ _ _ _ _ _ _ C Hi) as (k & l1 & l2 & Hs & Hk & Hn & -> & Hd & _). destruct s as [m h u]. cbn [kh_mem kh_heap kh_mmu] in *. set (m' := wrm 1 (p + j) v m).
  assert (∀ x, x ≠ p + j → m' x = m x) as Hm by (intros; apply wrm_out; cbn; lia).
  destruct (heap_write m m' h l1 (p - 12) k l2 I) as [I' Hkp]; [intros; apply Hm; lia|].
  exists (mk_khs m' h u), (alter (put j v) i A), (l1 ++ mk_seg (p - 12) k Used :: l2), segs, b. split; [done|]. split; [constructor|]. split; cbn [kh_mem kh_heap kh_mmu]; try done.
  apply (Forall2_put_back _ _ i lv A (p, n) c); try done; [|apply (arrays_kept m m' _ _ (delete i segs) (rest l1 ++ rest l2)); [by apply Forall2_delete|by apply Forall2_delete|done|intros x; by rewrite Hd]].
  unfold put. rewrite Hlen, Hj. split; cbn [fst snd]; [by rewrite length_insert|]. intros q x Hq. destruct (decide (q = Z.to_nat j)) as [->|Hne].
  - rewrite list_lookup_insert_eq in Hq by lia. injection Hq as <-. replace (p + Z.of_nat (Z.to_nat j)) with (p + j) by lia. unfold m'. cbn. rewrite Z.eqb_refl. apply u8_small, u8_range.
  - rewrite list_lookup_insert_ne in Hq by done. rewrite <-(Hv q x Hq), Hm; [done|]. lia.
Qed.

(** ** The properties *)

Definition op_room (o : cop) (s : khs) : Prop :=
  match o with
  | New size => 0 ≤ size ∧ may_grow (kh_heap s) size ∧ Z.of_nat (length (h_index (kh_heap s))) + 1 < h_index_max (kh_heap s)
  | _ => True
  end.
(** A new block may need more pages than there are; a release may run into the checks
    of [free_internal]. *)
Definition op_stops (o : cop) (s s' : khs) (lv : list (Z * Z)) (l : list seg) : Prop :=
  match o with
  | New size => Forall (λ a, hd_size (kh_mem s) a < size + 28) (h_index (kh_heap s)) ∧ grow_stops (kh_heap s) (grow_size (kh_heap s) size) s'
  | Del i => ∃ p n k, lv !! i = Some (p, n) ∧ mk_seg (p - 12) k Used ∈ l ∧ free_panics (kh_heap s) (p - 12) (p - 12 + k)
  | Put _ _ _ => False
  end.


(** When a hole is large enough, [alloc] returns a block of at least the requested
    size, on a page boundary if asked for, which lies apart from everything in use; all
    bytes in use keep their values and the heap stays sound. *)
Theorem heap_alloc_ok m h u l size al : heap_inv m h l → 0 ≤ size → size + 28 < 18446744073709551616 → Z.of_nat (length (h_index h)) < h_index_max h →
  (∃ a, a ∈ h_index h ∧ hole_fits m (size + 28) al a = true) →
  ∃ m' h' l' p, alloc size al (mk_khs m h u) = Ret p (mk_khs m' h' u) ∧ same_heap h h' ∧ heap_inv m' h' l' ∧ block_result m m' l l' size al p.
Proof. apply alloc_fits_run. Qed.

(** When no hole is large enough, [alloc] grows the heap: the new pages are mapped
    on distinct frames that were free, no other page changes, everything in use keeps
    its bytes, and the block comes out of the grown heap. The machine stops only when the
    heap reaches its limit, no frame is left or the new space cannot be released; the result is NULL only for an aligned block. *)
Theorem heap_grow_ok m h u l b rs r size al : heap_inv m h l → kmmu u b rs r → 0 ≤ size → may_grow h size → Z.of_nat (length (h_index h)) + 1 < h_index_max h →
  Forall (λ a, hole_fits m (size + 28) al a = false) (h_index h) →
  (∃ s', alloc size al (mk_khs m h u) = Panic s' ∧ grow_stops h (grow_size h size) s') ∨
  ∃ m' h' l' u' b' fs, kmmu u' b' rs r ∧ mapped u u' b b' r (h_end h) (heap_flags h) fs ∧ heap_inv m' h' l' ∧
    (∃ p, alloc size al (mk_khs m h u) = Ret p (mk_khs m' h' u') ∧ block_result m m' l l' size al p ∨
     al = true ∧ alloc size al (mk_khs m h u) = Ret 0 (mk_khs m' h' u') ∧ rest l' = rest l ∧ kept m m' (rest l)).
Proof. apply alloc_run. Qed.

(** [free] of a block in use gives its space back: what else is in use stays in
    place with its bytes, and the heap stays sound. The space beside the block must not
    be a remainder that an aligned allocation has left. *)
Theorem heap_free_ok m h u l1 a n l2 : heap_inv m h (l1 ++ mk_seg a n Used :: l2) → no_waste (last l1) → no_waste (head l2) →
  (∃ s', free (a + 12) (mk_khs m h u) = Panic s' ∧ free_panics h a (a + n)) ∨
  ∃ m' h' l', free (a + 12) (mk_khs m h u) = Ret tt (mk_khs m' h' u) ∧ same_heap h h' ∧ heap_inv m' h' l' ∧
    rest l' = rest l1 ++ rest l2 ∧ kept m m' (rest l1 ++ rest l2).
Proof. apply free_used_run. Qed.
