(* ===== verification/KheapDemo.v ===== *)
(** * The kernel heap: an instance

    The heap as the kernel creates it, the properties on it, and a run in which a
    page-aligned block is handed out twice. *)

From stdpp Require Import base numbers list gmap.
From Stdlib Require Import ZArith Lia Sorting.Sorted.
From S2P Require Import Prelude Pmm Mmu MmuInv Cow Kheap KheapInv KheapAlloc KheapGrow KheapSpec.

#[local] Open Scope Z_scope.
#[local] Open Scope kernel_scope.

Definition heap_mmu : mmu := with_mm_kernel 4096 demo_mmu.
Definition no_heap : heap_t := mk_heap [] 0 0 0 0 false false.
Definition boot_heap : kM khs unit := create_heap KHEAP_START (KHEAP_START + KHEAP_INITIAL_SIZE) 18446656112779329536 false false.
Definition heap_zero : khs := match boot_heap (mk_khs (λ _, 0) no_heap heap_mmu) with Ret _ s => s | _ => mk_khs (λ _, 0) no_heap heap_mmu end.

(** [create_heap] gives a sound heap of one hole, unless the memory happens to contain
    the magic number where the footer would be. *)
Lemma create_heap_run m h u b rs r start stop : kmmu u b rs r → 0 ≤ start → start mod 4096 = 0 → stop mod 4096 = 0 →
  start + 1048604 ≤ stop ≤ start + 4294963200 → stop ≤ 18446744065119617024 → ft_magic m (stop - 16) ≠ HEAP_MAGIC →
  ∀ max sup ro, stop ≤ max ≤ 18446744065119617024 →
  (∃ s', create_heap start stop max sup ro (mk_khs m h u) = Panic s') ∨
  ∃ m' h' u', create_heap start stop max sup ro (mk_khs m h u) = Ret tt (mk_khs m' h' u') ∧ heap_inv m' h' [mk_seg (start + 1048576) (stop - (start + 1048576)) Hole] ∧
    (∃ b', kmmu u' b' rs r) ∧ h_index h' = [start + 1048576] ∧ h_index_max h' = HEAP_INDEX_SIZE ∧ h_start h' = start + 1048576 ∧ h_end h' = stop.
Proof.
  intros [H Hc HT Hr] Hs0 Hs He Hse Hst Hf max sup ro Hm. unfold create_heap. destruct (first_free_run _ b rs H) as (f & b1 & E & H1 & M1 & _ & R).
  assert ((∃ s', mm (pm (kmalloc_int 56 false)) (mk_khs m h u) = Panic s') ∨ ∃ a u', mm (pm (kmalloc_int 56 false)) (mk_khs m h u) = Ret a (mk_khs m h u') ∧ ∃ b', kmmu u' b' rs r) as Hk.
  { unfold mm, pm. cbn [kh_mmu]. unfold kmalloc_int. rewrite (kbind_ret kget _ _ _ (mm_pmm u) eq_refl), Hr. change (4096 <? 56) with false. cbn iota. rewrite (kbind_ret _ _ _ _ _ E).
    destruct R as [[-> _]|(Hf0 & Hf1 & _)]; [left; by eexists|right]. pose proof (po_total _ _ _ H).
    replace (f =? NO_FRAME) with false by (symmetry; apply Z.eqb_neq; unfold NO_FRAME; lia).
    destruct (set_frame_run _ _ _ f H1 ltac:(cbn; lia)) as (b2 & E2 & H2 & B2). rewrite (kbind_ret _ _ _ _ _ E2). do 2 eexists. split; [reflexivity|]. exists b2. split; cbn; try done.
    apply (tree_ext (mm_word u) _ b); [done|done|]. intros g Hg Hb. by rewrite B2, (M1 g Hg Hb) by done. }
  destruct Hk as [[s' Ek]|(a & u' & Ek & HK)]; [left; exists s'; unfold kbind at 1; by rewrite Ek|right]. rewrite (kbind_ret _ _ _ _ _ Ek). change (8 * HEAP_INDEX_SIZE) with 1048576.
  rewrite (u64_small (start + 1048576)) by lia. set (st := start + 1048576). assert (st mod 4096 = 0) as Hst0 by (unfold st; rewrite Zplus_mod, Hs; done).
  rewrite KheapAlloc.land_4095, Hst0. change (negb (0 =? 0)) with false. cbn iota. set (h1 := mk_heap [] HEAP_INDEX_SIZE st stop max sup ro).
  rewrite (kbind_ret (kmodify _) _ (mk_khs m h u') tt (mk_khs m h1 u') eq_refl), poke_bind. rewrite (u32_small (stop - st)) by (unfold st; lia). set (m1 := wr_header st 1 (stop - st) m).
  exists m1, (with_index [st] h1), u'. split; [done|]. split; [|done]. split; cbn [h_start h_end h_index with_index h1].
  - cbn [lay sg_at sg_size]. split; [done|]. split; [|lia]. unfold seg_ok. cbn [sg_at sg_size sg_kind]. split; [unfold st; lia|]. split; [apply hdr_written; unfold st; lia|].
    right. replace (st + (stop - st) - 16) with (stop - 16) by lia. unfold ft_magic in *. rewrite (rdm_ext _ _ m m1); [done|]. intros. unfold m1. apply wr_header_out. unfold st. lia.
  - done.
  - repeat constructor.
  - by intros s [= <-].
  - split; cbn [h_start h_end h_max h_index h_index_max with_index h1]; unfold st in *; try lia. done.
Qed.

Lemma heap_mmu_ok : kmmu heap_mmu [7; 0; 0] (replicate 64 0) 8192.
Proof. split; [exact demo_pmm_ok|reflexivity|exact demo_mmu_tree|reflexivity]. Qed.

(** The heap of the kernel after [init_paging]. *)
Lemma boot_heap_ok : ∃ l b, heap_inv (kh_mem heap_zero) (kh_heap heap_zero) l ∧ l = [mk_seg 18446638520594333696 15728640 Hole] ∧ kmmu (kh_mmu heap_zero) b (replicate 64 0) 8192 ∧
  h_index (kh_heap heap_zero) = [18446638520594333696] ∧ h_index_max (kh_heap heap_zero) = HEAP_INDEX_SIZE ∧ may_grow (kh_heap heap_zero) 100.
Proof.
  destruct (create_heap_run (λ _, 0) no_heap heap_mmu [7; 0; 0] (replicate 64 0) 8192 KHEAP_START (KHEAP_START + KHEAP_INITIAL_SIZE) heap_mmu_ok)
    with (max := 18446656112779329536) (sup := false) (ro := false) as [[s' E]|(m & h & u & E & I & [b K] & Hi & Hm & Hs & He)]; try (vm_compute; split; discriminate); try discriminate; try reflexivity.
  exists [mk_seg 18446638520594333696 15728640 Hole], b. unfold heap_zero. fold boot_heap in E. rewrite E. cbn [kh_mem kh_heap kh_mmu]. split; [exact I|]. split; [done|]. split; [done|].
  split; [done|]. split; [done|]. unfold may_grow. rewrite Hs, He. by vm_compute.
Qed.

Lemma boot_fits al : hole_fits (kh_mem heap_zero) 128 al 18446638520594333696 = true.
Proof. destruct al; vm_compute; reflexivity. Qed.
Lemma boot_state : heap_zero = mk_khs (kh_mem heap_zero) (kh_heap heap_zero) (kh_mmu heap_zero).
Proof. by destruct heap_zero. Qed.

Lemma heap_alloc_ok_witness : ∃ m' h' l' p, alloc 100 true heap_zero = Ret p (mk_khs m' h' (kh_mmu heap_zero)) ∧ heap_inv m' h' l' ∧ p mod 4096 = 0.
Proof.
  destruct boot_heap_ok as (l & b & I & _ & _ & Hi & Hm & _).
  destruct (heap_alloc_ok (kh_mem heap_zero) (kh_heap heap_zero) (kh_mmu heap_zero) l 100 true I ltac:(lia) ltac:(lia)) as (m' & h' & l' & p & E & _ & I' & R).
  - rewrite Hi, Hm. reflexivity.
  - exists 18446638520594333696. rewrite Hi. split; [apply list_elem_of_here|exact (boot_fits true)].
  - exists m', h', l', p. split; [rewrite boot_state; exact E|]. split; [exact I'|]. by apply (br_aligned _ _ _ _ _ _ _ R).
Defined.

Lemma boot_client b l : heap_inv (kh_mem heap_zero) (kh_heap heap_zero) l → l = [mk_seg 18446638520594333696 15728640 Hole] → kmmu (kh_mmu heap_zero) b (replicate 64 0) 8192 →
  client_inv heap_zero [] [] l [] b (replicate 64 0) 8192.
Proof. intros I -> K. split; [exact I|exact K|by repeat constructor|done|constructor|constructor]. Qed.

Lemma heap_free_ok_witness : ∃ m h a n l1 l2, heap_inv m h (l1 ++ mk_seg a n Used :: l2) ∧
  ((∃ s', free (a + 12) (mk_khs m h (kh_mmu heap_zero)) = Panic s' ∧ free_panics h a (a + n)) ∨
   ∃ m' h' l', free (a + 12) (mk_khs m h (kh_mmu heap_zero)) = Ret tt (mk_khs m' h' (kh_mmu heap_zero)) ∧ heap_inv m' h' l').
Proof.
  destruct boot_heap_ok as (l & b & I & El & _ & Hi & Hm & _).
  destruct (alloc_fits_run (kh_mem heap_zero) (kh_heap heap_zero) (kh_mmu heap_zero) l 100 false I ltac:(lia) ltac:(lia)) as (m & h & l' & p & _ & _ & I' & [R _ _ _]).
  { rewrite Hi, Hm. reflexivity. }
  { exists 18446638520594333696. rewrite Hi. split; [apply list_elem_of_here|exact (boot_fits false)]. }
  destruct R as (r1 & r2 & pre & k & E1 & E2 & _ & [->|[? _]]); [|discriminate]. subst l. destruct r1; [|discriminate E1]. destruct r2; [|discriminate E1]. cbn [app] in E2.
  assert (mk_seg (p - 12) k Used ∈ l') as Hin by (apply (rest_in _ l'); rewrite E2; apply list_elem_of_here). apply list_elem_of_split in Hin as (l1 & l2 & ->).
  assert (Forall (λ x, sg_kind x ≠ Waste) (l1 ++ mk_seg (p - 12) k Used :: l2)) as W by (apply whole_of_rest; rewrite E2; by repeat constructor).
  rewrite Forall_app, Forall_cons, !Forall_forall in W. destruct W as (W1 & _ & W2).
  exists m, h, (p - 12), k, l1, l2. split; [exact I'|]. destruct (heap_free_ok m h (kh_mmu heap_zero) l1 (p - 12) k l2 I') as [P|(m' & h' & l' & E & _ & I2 & _)].
  - intros x Hx. apply W1. by apply last_Some_elem_of.
  - intros x Hx. apply W2. destruct l2; cbn in Hx; [done|]. injection Hx as ->. apply list_elem_of_here.
  - left. exact P.
  - right. exists m', h', l'. split; [exact E|exact I2].
Defined.

(** A heap of one page. *)
Definition one_page : khs := match create_heap KHEAP_START (KHEAP_START + 1052672) 18446656112779329536 false false (mk_khs (λ _, 0) no_heap heap_mmu) with
  | Ret _ s => s | _ => mk_khs (λ _, 0) no_heap heap_mmu end.
Definition one_page_grows : bool := match alloc 5000 false one_page with Ret p _ => negb (p =? 0) | _ => false end.
Lemma one_page_state : one_page = mk_khs (kh_mem one_page) (kh_heap one_page) (kh_mmu one_page).
Proof. by destruct one_page. Qed.
Lemma heap_grow_ok_witness : ∃ m h l u b p, alloc 5000 false one_page = Ret p (mk_khs m h u) ∧ heap_inv m h l ∧ kmmu u b (replicate 64 0) 8192.
Proof.
  destruct (create_heap_run (λ _, 0) no_heap heap_mmu [7; 0; 0] (replicate 64 0) 8192 KHEAP_START (KHEAP_START + 1052672) heap_mmu_ok)
    with (max := 18446656112779329536) (sup := false) (ro := false) as [[s' E]|(m & h & u & E & I & [b K] & Hi & Hm & Hs & He)];
    try (vm_compute; split; discriminate); try discriminate; try reflexivity.
  assert (one_page = mk_khs m h u) as Eo by (unfold one_page; rewrite E; reflexivity). assert (one_page_grows = true) as G by (vm_compute; reflexivity). unfold one_page_grows in G.
  destruct (heap_grow_ok m h u _ b (replicate 64 0) 8192 5000 false I K ltac:(lia)) as [(s' & Ea & _)|(m' & h' & l' & u' & b' & fs & K' & _ & I' & p & [[Ea _]|[? _]])].
  - unfold may_grow. rewrite Hs, He. clear. vm_compute. split; discriminate.
  - rewrite Hi, Hm. reflexivity.
  - rewrite Hi. constructor; [|constructor]. destruct (lay_in _ _ _ _ _ (hi_lay _ _ _ I) (list_elem_of_here _ _)) as ((_ & (_ & _ & Hz) & _) & _). unfold hole_fits.
    cbn [sg_at sg_size] in Hz. rewrite Hz. reflexivity.
  - rewrite Eo, Ea in G. discriminate G.
  - exists m', h', l', u', b', p. rewrite Eo. split; [exact Ea|]. split; [exact I'|exact K'].
  - discriminate.
Defined.

(** ** A block that is handed out twice

    A block of 4036 bytes; a page-aligned block, which wastes the 20 bytes between
    the two; a block that takes the rest of the heap; the release of the first, which takes the header that the hole has left
    there for that of a hole; a block of 8000 bytes, which contains the second. *)
Definition handed_out_twice : kM khs (Z * Z) :=
  alloc 32740 false ;;;
  let* first := alloc 4036 false in
  let* second := alloc 100 true in
  alloc 15691632 false ;;;
  free first ;;;
  let* third := alloc 8000 false in
  kret (second, third).
Definition inside (o : outcome khs (Z * Z)) : bool := match o with Ret (second, third) _ => (third <=? second) && (second + 100 <=? third + 8000) | _ => false end.
Lemma aligned_blocks_overlap : inside (handed_out_twice heap_zero) = true.
Proof. vm_compute. reflexivity. Qed.
