(* ===== verification/Bytes.v ===== *)
(** * Bytes and little-endian fields

    Sectors, file images and user structures are lists of bytes; a packed C
    structure is read and written field by field at its offset. *)

From stdpp Require Import base numbers list.
From Stdlib Require Import ZArith Lia.
From S2P Require Import Prelude CString.

#[local] Open Scope Z_scope.

(** The low [n] bytes of a number, least significant first, and back. *)
Fixpoint le_bytes (n : nat) (v : Z) : list Z :=
  match n with O => [] | S n => v mod 256 :: le_bytes n (v / 256) end.
Fixpoint le_val (l : list Z) : Z :=
  match l with [] => 0 | b :: l => b + 256 * le_val l end.

(** [n] bytes from offset [i] on, and the same place overwritten. *)
Definition slice (n : nat) (b : list Z) (i : Z) : list Z := take n (drop (Z.to_nat i) b).
Definition splice (b : list Z) (i : Z) (l : list Z) : list Z :=
  take (Z.to_nat i) b ++ l ++ drop (Z.to_nat i + length l) b.

(** Fields of one, two, four and eight bytes. *)
Definition rd (n : nat) (b : list Z) (i : Z) : Z := le_val (slice n b i).
Definition wr (n : nat) (b : list Z) (i v : Z) : list Z := splice b i (le_bytes n v).

Lemma le_bytes_length n : ∀ v, length (le_bytes n v) = n.
Proof. induction n as [|n IH]; intros v; cbn; [done|]. by rewrite IH. Qed.

Lemma le_bytes_bytes n : ∀ v, bytes (le_bytes n v).
Proof.
  unfold bytes. induction n as [|n IH]; intros v; cbn; constructor; [|apply IH]. apply Z.mod_pos_bound. lia.
Qed.

Lemma le_val_bytes n : ∀ v, le_val (le_bytes n v) = v mod 2 ^ (8 * Z.of_nat n).
Proof.
  induction n as [|n IH]; intros v; cbn [le_bytes le_val].
  - by rewrite Z.mod_1_r.
  - rewrite IH, Nat2Z.inj_succ. replace (8 * Z.succ (Z.of_nat n)) with (8 + 8 * Z.of_nat n) by lia.
    rewrite Z.pow_add_r by lia. change (2 ^ 8) with 256. rewrite Z.rem_mul_r by (try lia; apply Z.pow_pos_nonneg; lia). done.
Qed.

Lemma le_val_bound l : bytes l → 0 ≤ le_val l < 2 ^ (8 * Z.of_nat (length l)).
Proof.
  induction 1 as [|b l Hb _ IH]; cbn [le_val length]; [done|].
  replace (8 * Z.of_nat (S (length l))) with (8 + 8 * Z.of_nat (length l)) by lia.
  rewrite Z.pow_add_r by lia. change (2 ^ 8) with 256. lia.
Qed.

Lemma le_bytes_val l : bytes l → le_bytes (length l) (le_val l) = l.
Proof.
  induction 1 as [|b l Hb _ IH]; cbn [le_val length le_bytes]; [done|].
  rewrite Z.mul_comm, Z.mod_add, Z.div_add, Z.mod_small, Z.div_small by lia. by rewrite Z.add_0_l, IH.
Qed.

Lemma slice_length n b i : 0 ≤ i → i + Z.of_nat n ≤ Z.of_nat (length b) → length (slice n b i) = n.
Proof. intros. unfold slice. rewrite length_take, length_drop. lia. Qed.

Lemma slice_bytes n b i : bytes b → bytes (slice n b i).
Proof. intros H. unfold slice, bytes. by apply Forall_take, Forall_drop. Qed.

Lemma splice_length b i l : 0 ≤ i → i + Z.of_nat (length l) ≤ Z.of_nat (length b) → length (splice b i l) = length b.
Proof. intros. unfold splice. rewrite !length_app, length_take, length_drop. lia. Qed.

Lemma splice_bytes b i l : bytes b → bytes l → bytes (splice b i l).
Proof. intros Hb Hl. unfold splice, bytes. rewrite !Forall_app. split_and!; [by apply Forall_take|done|by apply Forall_drop]. Qed.

(** Reading back the place that was written, and any place apart from it. *)
Lemma slice_splice b i l : 0 ≤ i → i + Z.of_nat (length l) ≤ Z.of_nat (length b) → slice (length l) (splice b i l) i = l.
Proof.
  intros Hi Hl. unfold slice, splice. rewrite drop_app_length' by (rewrite length_take; lia). by rewrite take_app_length.
Qed.

Lemma lookup_splice b i l k : 0 ≤ i → i + Z.of_nat (length l) ≤ Z.of_nat (length b) →
  splice b i l !! k = if decide (Z.to_nat i ≤ k < Z.to_nat i + length l)%nat then l !! (k - Z.to_nat i)%nat else b !! k.
Proof.
  intros Hi Hl. unfold splice. destruct (decide _) as [H|H].
  - rewrite lookup_app_r by (rewrite length_take; lia). rewrite length_take, lookup_app_l by lia. f_equal. lia.
  - destruct (decide (k < Z.to_nat i)%nat) as [Hk|Hk].
    + rewrite lookup_app_l by (rewrite length_take; lia). by rewrite lookup_take_lt.
    + rewrite lookup_app_r by (rewrite length_take; lia). rewrite length_take, lookup_app_r by lia.
      rewrite lookup_drop. f_equal. lia.
Qed.

Lemma slice_splice_ne b i l n j : 0 ≤ i → i + Z.of_nat (length l) ≤ Z.of_nat (length b) → 0 ≤ j →
  j + Z.of_nat n ≤ i ∨ i + Z.of_nat (length l) ≤ j → slice n (splice b i l) j = slice n b j.
Proof.
  intros Hi Hl Hj Hd. apply list_eq. intros k. unfold slice.
  destruct (decide (k < n)%nat) as [Hk|Hk]; [|rewrite !lookup_take_ge by lia; done].
  rewrite !lookup_take_lt, !lookup_drop, lookup_splice by lia. rewrite decide_False by lia. done.
Qed.

Lemma rd_wr n b i v : 0 ≤ i → i + Z.of_nat n ≤ Z.of_nat (length b) → rd n (wr n b i v) i = v mod 2 ^ (8 * Z.of_nat n).
Proof.
  intros. unfold rd, wr. rewrite <-(le_bytes_length n v) at 1. rewrite slice_splice by (rewrite ?le_bytes_length; lia).
  apply le_val_bytes.
Qed.

Lemma rd_wr_ne n m b i j v : 0 ≤ i → i + Z.of_nat n ≤ Z.of_nat (length b) → 0 ≤ j →
  j + Z.of_nat m ≤ i ∨ i + Z.of_nat n ≤ j → rd m (wr n b i v) j = rd m b j.
Proof. intros. unfold rd, wr. rewrite slice_splice_ne; rewrite ?le_bytes_length; done. Qed.

Lemma wr_length n b i v : 0 ≤ i → i + Z.of_nat n ≤ Z.of_nat (length b) → length (wr n b i v) = length b.
Proof. intros. apply splice_length; rewrite ?le_bytes_length; done. Qed.

Lemma wr_bytes n b i v : bytes b → bytes (wr n b i v).
Proof. intros. apply splice_bytes; [done|apply le_bytes_bytes]. Qed.

Lemma rd_bound n b i : bytes b → 0 ≤ rd n b i < 2 ^ (8 * Z.of_nat n).
Proof.
  intros H. unfold rd. pose proof (le_val_bound _ (slice_bytes n b i H)) as [H1 H2]. split; [done|].
  eapply Z.lt_le_trans; [exact H2|]. apply Z.pow_le_mono_r; [lia|]. unfold slice. rewrite length_take. lia.
Qed.

(** ** Overwriting a part of a sequence in pieces *)

Lemma splice_nil b i : splice b i [] = b.
Proof. unfold splice. cbn. rewrite Nat.add_0_r. apply take_drop. Qed.
Lemma splice_full b l : length l = length b → splice b 0 l = l.
Proof. intros E. unfold splice. cbn. rewrite drop_ge by lia. apply app_nil_r. Qed.
Lemma splice_app a c (i : nat) d : (i ≤ length a)%nat → (length d ≤ length a + length c - i)%nat →
  splice (a ++ c) (Z.of_nat i) d =
  splice a (Z.of_nat i) (take (length a - i) d) ++ splice c 0 (drop (length a - i) d).
Proof.
  intros Hi Hd. unfold splice. rewrite !Nat2Z.id. change (Z.to_nat 0) with 0%nat.
  rewrite take_0, app_nil_l, Nat.add_0_l, take_app_le by done.
  rewrite <-!app_assoc. f_equal. destruct (decide (length d ≤ length a - i)%nat) as [H|H].
  - rewrite (take_ge d) by done. rewrite (drop_ge d) by done. cbn. rewrite drop_app_le by lia. done.
  - rewrite length_take, (drop_ge a), app_nil_l by lia. rewrite drop_app_ge, length_drop by lia.
    rewrite (app_assoc (take _ d)), take_drop. do 2 f_equal. lia.
Qed.
