(* ===== verification/Elf.v ===== *)
(** * ELF images

    Models [kernel/fs/elf/elf_check.c] and [kernel/fs/elf/elf_load.c]: the check
    of the header, and the two loaders, which map frames for the segments of an
    image into an address space and copy the segments through the kernel's window
    on physical memory.  The image is the list of bytes of the buffer it was read
    into; an access behind its end is a [Fault], as is an access to physical
    memory behind the last frame. *)

From stdpp Require Import base numbers list gmap.
From Stdlib Require Import ZArith Lia.
From S2P Require Import Prelude CString Bytes Pmm Mmu.

#[local] Open Scope Z_scope.

Definition EI_CLASS : Z := 4.
Definition ELFCLASS32 : Z := 1.
Definition ELFCLASS64 : Z := 2.
Definition EM_386 : Z := 3.
Definition EM_X86_64 : Z := 62.
Definition PT_LOAD : Z := 1.

#[local] Open Scope kernel_scope.

(** A field of [n] bytes at offset [off] of the image. *)
Definition field {S} (n : nat) (image : list Z) (off : Z) : kM S Z :=
  if (0 <=? off) && (off + Z.of_nat n <=? Z.of_nat (length image)) then kret (rd n image off) else kfault.

(** ** Headers *)

(** The members that are used of [elf32_ehdr_t] / [elf64_ehdr_t] and of
    [elf32_phdr_t] / [elf64_phdr_t]. *)
Record elf_ehdr := mk_ehdr { e_entry : Z; e_phoff : Z; e_phnum : Z }.
Record elf_phdr := mk_phdr { p_offset : Z; p_vaddr : Z; p_filesz : Z; p_memsz : Z }.

Definition elf32_ehdr {S} (image : list Z) : kM S elf_ehdr :=
  let* entry := field 4 image 24 in
  let* phoff := field 4 image 28 in
  let* phnum := field 2 image 44 in
  kret (mk_ehdr entry phoff phnum).
Definition elf64_ehdr {S} (image : list Z) : kM S elf_ehdr :=
  let* entry := field 8 image 24 in
  let* phoff := field 8 image 32 in
  let* phnum := field 2 image 56 in
  kret (mk_ehdr entry phoff phnum).
(** [ph\[i\]], if it is a [PT_LOAD] *)
Definition elf32_phdr {S} (image : list Z) (phoff i : Z) : kM S (option elf_phdr) :=
  let base := phoff + 32 * i in
  let* type := field 4 image base in
  if negb (type =? PT_LOAD) then kret None
  else
    let* vaddr := field 4 image (base + 8) in
    let* memsz := field 4 image (base + 20) in
    let* filesz := field 4 image (base + 16) in
    let* offset := field 4 image (base + 4) in
    kret (Some (mk_phdr offset vaddr filesz memsz)).
Definition elf64_phdr {S} (image : list Z) (phoff i : Z) : kM S (option elf_phdr) :=
  let base := phoff + 56 * i in
  let* type := field 4 image base in
  if negb (type =? PT_LOAD) then kret None
  else
    let* vaddr := field 8 image (base + 16) in
    let* memsz := field 8 image (base + 40) in
    let* filesz := field 8 image (base + 32) in
    let* offset := field 8 image (base + 8) in
    kret (Some (mk_phdr offset vaddr filesz memsz)).

(** The word size of a well-formed image, or -1. *)
Definition elf_validate {S} (image : option (list Z)) : kM S Z :=
  match image with
  | None => kret (-1)
  | Some image =>
      let* m0 := field 1 image 0 in
      if negb (m0 =? 127) then kret (-1)
      else let* m1 := field 1 image 1 in
      if negb (m1 =? 69) then kret (-1)
      else let* m2 := field 1 image 2 in
      if negb (m2 =? 76) then kret (-1)
      else let* m3 := field 1 image 3 in
      if negb (m3 =? 70) then kret (-1)
      else
        let* class := field 1 image EI_CLASS in
        if class =? ELFCLASS32 then
          let* machine := field 2 image 18 in
          if negb (machine =? EM_386) then kret (-1)
          else
            let* phnum := field 2 image 44 in
            kret (if phnum =? 0 then -1 else 32)
        else if class =? ELFCLASS64 then
          let* machine := field 2 image 18 in
          if negb (machine =? EM_X86_64) then kret (-1)
          else
            let* phnum := field 2 image 56 in
            kret (if phnum =? 0 then -1 else 64)
        else kret (-1)
  end.
Definition elf32_validate {S} (image : option (list Z)) : kM S Z :=
  let* c := elf_validate image in kret (if c =? 32 then 0 else -1).

(** ** Bytes of physical memory *)

(** A byte of a 64-bit word. *)
Definition get_byte (m : Z → Z) (a : Z) : Z := Z.land (Z.shiftr (m (a - a mod 8)) (8 * (a mod 8))) 255.
Definition set_byte (a v : Z) (m : Z → Z) : Z → Z :=
  let i := 8 * (a mod 8) in
  set_word (a - a mod 8) (Z.lor (Z.ldiff (m (a - a mod 8)) (Z.shiftl 255 i)) (Z.shiftl (u8 v) i)) m.
Fixpoint set_bytes (a : Z) (l : list Z) (m : Z → Z) : Z → Z :=
  match l with [] => m | v :: l => set_bytes (a + 1) l (set_byte a v m) end.

(** Bytes written through the window at [PHYSMAP_BASE], which shows every frame. *)
Definition phys_write (a : Z) (l : list Z) : kM mmu unit :=
  let* s := kget in
  if (0 <=? a) && (a + Z.of_nat (length l) <=? total_frames (mm_pmm s) * 4096)
  then kmodify (with_mm_word (set_bytes a l (mm_word s))) else kfault.

(** [PAGE_FRAME( *page)] of the page of a virtual address, or NULL. *)
Definition page_base (pd v : Z) : kM mmu (option Z) :=
  let* o := get_page v false pd in
  match o with None => kret None | Some p => let* e := load p in kret (Some (PAGE_FRAME e)) end.

(** The loop that copies [bytes_left] bytes of the image to [dest_va], page by
    page; [None] is [return -1]. *)
Fixpoint copy_segment (fuel : nat) (image : list Z) (pd src dest_va bytes_left : Z) : kM mmu (option Z) :=
  match fuel with
  | O => λ _, NoFuel
  | S fuel =>
      if 0 <? bytes_left then
        let va_offset := dest_va mod 4096 in
        let to_copy := Z.min (4096 - va_offset) bytes_left in
        let* o := page_base pd dest_va in
        match o with
        | None => kret None
        | Some f =>
            if (0 <=? src) && (src + to_copy <=? Z.of_nat (length image)) then
              phys_write (f + va_offset) (slice (Z.to_nat to_copy) image src) ;;;
              copy_segment fuel image pd (src + to_copy) (u64 (dest_va + to_copy)) (bytes_left - to_copy)
            else kfault
        end
      else kret (Some dest_va)
  end.

(** The loop that zeroes what the file does not fill. *)
Fixpoint zero_segment (fuel : nat) (pd dest_va bss_left : Z) : kM mmu (option Z) :=
  match fuel with
  | O => λ _, NoFuel
  | S fuel =>
      if 0 <? bss_left then
        let va_offset := dest_va mod 4096 in
        let to_zero := Z.min (4096 - va_offset) bss_left in
        let* o := page_base pd dest_va in
        match o with
        | None => kret None
        | Some f =>
            phys_write (f + va_offset) (replicate (Z.to_nat to_zero) 0) ;;;
            zero_segment fuel pd (u64 (dest_va + to_zero)) (bss_left - to_zero)
        end
      else kret (Some dest_va)
  end.

(** Pages that a loop over [n] bytes can touch, and one more. *)
Definition chunks (n : Z) : nat := Z.to_nat (n / 4096 + 3).

(** The two loops, of both loaders. *)
Definition fill_segment (image : list Z) (pd : Z) (ph : elf_phdr) : kM mmu bool :=
  let* o := copy_segment (chunks (p_filesz ph)) image pd (p_offset ph) (p_vaddr ph) (p_filesz ph) in
  match o with
  | None => kret false
  | Some dest_va =>
      if p_filesz ph <? p_memsz ph then
        let* o := zero_segment (chunks (p_memsz ph - p_filesz ph)) pd dest_va (p_memsz ph - p_filesz ph) in
        kret (match o with Some _ => true | None => false end)
      else kret true
  end.

(** ** 32-bit images *)

(** The body of the mapping loop.  [frame] is never [(uintptr_t)-1]: the value of
    [pmm_first_free] has 32 bits. *)
Definition map32_page (pd v : Z) : kM mmu unit :=
  let* o := get_page v true pd in
  match o with
  | None => kfault
  | Some page =>
      let* e := load page in
      if negb (has_flag e MMU_PRESENT) then
        let* frame := pm pmm_first_free in
        store page (PAGE_SET_FRAME e (frame * 4096)) ;;;
        let* e := load page in
        store page (PAGE_SET_FLAGS e 7) ;;;
        pm (frame_add_ref frame)
      else store page (PAGE_SET_FLAGS e 7)
  end.
Fixpoint map32_pages (fuel : nat) (pd v stop : Z) : kM mmu unit :=
  match fuel with
  | O => λ _, NoFuel
  | S fuel => if v <? stop then map32_page pd v ;;; map32_pages fuel pd (v + 4096) stop else kret tt
  end.
Fixpoint elf32_segments (n : nat) (i : Z) (image : list Z) (phoff pd : Z) : kM mmu Z :=
  match n with
  | O => kret 0
  | S n =>
      let* o := elf32_phdr image phoff i in
      match o with
      | None => elf32_segments n (i + 1) image phoff pd
      | Some ph =>
          let first := Z.ldiff (p_vaddr ph) 4095 in
          map32_pages (pages first (p_vaddr ph + p_memsz ph)) pd first (p_vaddr ph + p_memsz ph) ;;;
          let* ok := fill_segment image pd ph in
          if ok then elf32_segments n (i + 1) image phoff pd else kret (-1)
      end
  end.
Definition elf32_load_segments (image : list Z) (pd : Z) : kM mmu Z :=
  if pd =? 0 then kret (-1)
  else
    let* eh := elf32_ehdr image in
    elf32_segments (Z.to_nat (e_phnum eh)) 0 image (e_phoff eh) pd.

(** ** 64-bit images *)

(** The body of the mapping loop; [false] is [return -1]. *)
Definition map64_page (pd v : Z) : kM mmu bool :=
  let* frame_idx := pm pmm_first_free in
  if frame_idx =? NO_FRAME then kret false
  else
    pm (pmm_set_frame frame_idx) ;;;
    let phys := frame_idx * 4096 in
    kmodify (λ s, with_mm_word (zero_page phys (mm_word s)) s) ;;;
    let* r := mmu_map_page pd v phys 7 in
    if negb (r =? 0) then kret false
    else pm (frame_add_ref frame_idx) ;;; kret true.
(** Every turn takes a frame: with more turns than there are frames, the loop ends
    for every range, one that wraps around too. *)
Fixpoint map64_pages (fuel : nat) (pd v stop : Z) : kM mmu bool :=
  match fuel with
  | O => λ _, NoFuel
  | S fuel =>
      if v <? stop then
        let* ok := map64_page pd v in
        if ok then map64_pages fuel pd (u64 (v + 4096)) stop else kret false
      else kret true
  end.
Definition map_fuel (s : mmu) : nat := S (Z.to_nat (total_frames (mm_pmm s))).
(** The body of the loop over the program headers for a [PT_LOAD]. *)
Definition load64_segment (image : list Z) (pd : Z) (ph : elf_phdr) : kM mmu bool :=
  let* s := kget in
  let* ok := map64_pages (map_fuel s) pd (Z.ldiff (p_vaddr ph) 4095) (u64 (p_vaddr ph + p_memsz ph)) in
  if ok then fill_segment image pd ph else kret false.
Fixpoint elf64_segments (n : nat) (i : Z) (image : list Z) (phoff pd : Z) : kM mmu Z :=
  match n with
  | O => kret 0
  | S n =>
      let* o := elf64_phdr image phoff i in
      match o with
      | None => elf64_segments n (i + 1) image phoff pd
      | Some ph =>
          let* ok := load64_segment image pd ph in
          if ok then elf64_segments n (i + 1) image phoff pd else kret (-1)
      end
  end.
Definition elf64_load_segments (image : list Z) (pd : Z) : kM mmu Z :=
  if pd =? 0 then kret (-1)
  else
    let* eh := elf64_ehdr image in
    elf64_segments (Z.to_nat (e_phnum eh)) 0 image (e_phoff eh) pd.

(** ** Both *)

Record elf_load_result := mk_res { r_entry : Z; r_stack_top : Z }.
(** The result is [None] where [*out] is left as it was. *)
Definition elf_load_image_from_buffer (image : list Z) (pd : Z) : kM mmu (Z * option elf_load_result) :=
  if pd =? 0 then kret (-1, None)
  else
    let* class := field 1 image EI_CLASS in
    if class =? ELFCLASS32 then
      let* eh := elf32_ehdr image in
      let* r := elf32_load_segments image pd in
      kret (r, Some (mk_res (e_entry eh) 3221221376))
    else if class =? ELFCLASS64 then
      let* eh := elf64_ehdr image in
      let* r := elf64_load_segments image pd in
      kret (r, Some (mk_res (e_entry eh) 140737488351232))
    else kret (-1, None).
