(* ===== verification/ElfInv.v ===== *)
(** * Loading: bytes of an address space

    Bytes within the words of physical memory, pages of an address space that own
    their frame, and what writing through the kernel's window on physical memory
    does to the bytes that the owner of the address space sees. *)

From stdpp Require Import base numbers list gmap.
From Stdlib Require Import ZArith Lia.
From S2P Require Import Prelude CString Bytes Pmm Mmu MmuInv Cow KheapGrow Elf.

#[local] Open Scope Z_scope.
#[local] Open Scope kernel_scope.

(** ** Bytes in words *)

Definition word_of (a : Z) : Z := a - a mod 8.

Lemma byte_index a : 0 ≤ 8 * (a mod 8) ≤ 56.
Proof. pose proof (Z.mod_pos_bound a 8 ltac:(lia)). lia. Qed.

Lemma byte_bits w i k : 0 ≤ i → 0 ≤ k → Z.testbit (Z.land (Z.shiftr w i) 255) k = Z.testbit w (k + i) && (k <? 8).
Proof. intros. change 255 with (Z.ones 8). rewrite Z.land_spec, Z.shiftr_spec, Z.testbit_ones_nonneg by lia. done. Qed.
Lemma put_bits w v i k : 0 ≤ i → 0 ≤ k → 0 ≤ v < 256 →
  Z.testbit (Z.lor (Z.ldiff w (Z.shiftl 255 i)) (Z.shiftl v i)) k = if (i <=? k) && (k <? i + 8) then Z.testbit v (k - i) else Z.testbit w k.
Proof.
  intros Hi Hk Hv. rewrite Z.lor_spec, Z.ldiff_spec, !Z.shiftl_spec by lia. destruct (Z.leb_spec i k); cbn [andb].
  - change 255 with (Z.ones 8). rewrite Z.testbit_ones_nonneg by lia. destruct (Z.ltb_spec k (i + 8)).
    + replace (k - i <? 8) with true by (symmetry; apply Z.ltb_lt; lia). by rewrite andb_false_r.
    + replace (k - i <? 8) with false by (symmetry; apply Z.ltb_ge; lia). rewrite andb_true_r.
      replace (Z.testbit v (k - i)) with false; [apply orb_false_r|]. symmetry.
      rewrite <-(Z.mod_small v (2 ^ 8)) by (change (2 ^ 8) with 256; lia). apply Z.mod_pow2_bits_high. lia.
  - rewrite !(Z.testbit_neg_r _ (k - i)) by lia. by rewrite andb_true_r, orb_false_r.
Qed.

Lemma get_set_byte a v m x : get_byte (set_byte a v m) x = if x =? a then u8 v else get_byte m x.
Proof.
  pose proof (byte_index a). pose proof (byte_index x). pose proof (u8_range v).
  apply Z.bits_inj'. intros k Hk. unfold get_byte, set_byte. rewrite byte_bits by lia. unfold set_word.
  destruct (Z.eqb_spec (x - x mod 8) (a - a mod 8)) as [E|E].
  - rewrite E, put_bits by lia. destruct (Z.eqb_spec x a) as [->|Hne].
    + destruct (Z.ltb_spec k 8); cbn [andb].
      * replace ((8 * (a mod 8) <=? k + 8 * (a mod 8)) && (k + 8 * (a mod 8) <? 8 * (a mod 8) + 8)) with true
          by (symmetry; apply andb_true_iff; rewrite Z.leb_le, Z.ltb_lt; lia). rewrite andb_true_r. f_equal. lia.
      * rewrite andb_false_r. symmetry. rewrite <-(Z.mod_small (u8 v) (2 ^ 8)) by (change (2 ^ 8) with 256; lia). apply Z.mod_pow2_bits_high. lia.
    + assert (x mod 8 ≠ a mod 8) by lia. rewrite byte_bits by lia. destruct (Z.ltb_spec k 8); [|by rewrite !andb_false_r].
      replace ((8 * (a mod 8) <=? k + 8 * (x mod 8)) && (k + 8 * (x mod 8) <? 8 * (a mod 8) + 8)) with false; [done|].
      symmetry. apply andb_false_iff. rewrite Z.leb_gt, Z.ltb_ge. lia.
  - replace (x =? a) with false by (symmetry; apply Z.eqb_neq; congruence). by rewrite byte_bits by lia.
Qed.

Lemma set_byte_word a v m x : x ≠ word_of a → set_byte a v m x = m x.
Proof. intros. unfold set_byte. by apply set_word_ne. Qed.

Lemma get_set_bytes l : ∀ a m x, get_byte (set_bytes a l m) x = match zlookup l (x - a) with Some v => u8 v | None => get_byte m x end.
Proof.
  induction l as [|v l IH]; intros a m x; cbn [set_bytes].
  - unfold zlookup. destruct (x - a <? 0); [done|]. by rewrite lookup_nil.
  - rewrite IH, get_set_byte. unfold zlookup. destruct (Z.ltb_spec (x - (a + 1)) 0), (Z.ltb_spec (x - a) 0); try lia.
    + by replace (x =? a) with false by (symmetry; apply Z.eqb_neq; lia).
    + replace x with a by lia. by rewrite Z.eqb_refl, Z.sub_diag.
    + replace (Z.to_nat (x - a)) with (S (Z.to_nat (x - (a + 1)))) by lia. cbn.
      replace (x =? a) with false by (symmetry; apply Z.eqb_neq; lia). done.
Qed.

(** Only words of the page are written. *)
Lemma word_in_page z a : z mod 4096 = 0 → in_page z a → in_page z (word_of a).
Proof.
  unfold in_page, word_of. intros Hz Ha. pose proof (Z.mod_pos_bound a 8 ltac:(lia)). pose proof (Z.div_mod z 4096 ltac:(lia)).
  pose proof (Z.div_mod a 8 ltac:(lia)). lia.
Qed.
Lemma set_bytes_out l : ∀ a m z x, z mod 4096 = 0 → z ≤ a → a + Z.of_nat (length l) ≤ z + 4096 → ¬ in_page z x → set_bytes a l m x = m x.
Proof.
  induction l as [|v l IH]; intros a m z x Hz Ha Hl Hx; cbn [set_bytes length] in *; [done|].
  rewrite (IH (a + 1) _ z) by (done || lia). apply set_byte_word. intros ->. apply Hx, word_in_page; [done|]. unfold in_page. lia.
Qed.

(** ** Pages of an address space *)

(** The address space [pd], whose first table is [r]. *)
Record aspace (u : mmu) (b rs : list Z) (pd r : Z) : Prop := {
  as_pmm : pmm_ok (mm_pmm u) b rs;
  as_ctx : mm_ctx u !! pd = Some r;
  as_tree : tree (mm_word u) b (total u) r 3 }.

Definition is_table (m : Z → Z) (r z : Z) : Prop := ∃ p, path_ok 3 p ∧ node m r p = Some z.

(** [v] is mapped for the user, readable and writable, on frame [f], which is in use
    and holds no table. *)
Record upage (m : Z → Z) (b : list Z) (tot r v f : Z) : Prop := {
  up_entry : translate m r v = Z.lor (f * 4096) 7;
  up_used : page_ok b tot (f * 4096);
  up_data : ¬ is_table m r (f * 4096) }.

(** From [m] to [m'] frames were taken and tables added: pages in use that hold no
    table have their words. *)
Record grows (m m' : Z → Z) (b b' : list Z) (r : Z) : Prop := {
  gw_mono : ∀ g, 0 ≤ g → bit b g = true → bit b' g = true;
  gw_data : ∀ z a, z mod 4096 = 0 → bit b (z / 4096) = true → ¬ is_table m r z → in_page z a → m' a = m a;
  gw_tables : tables_from m m' b r }.

Lemma grows_refl m b r : grows m m b b r.
Proof. split; try done. intros p x Hp Hx. by left. Qed.
Lemma no_new_table m m' b r z : tables_from m m' b r → bit b (z / 4096) = true → ¬ is_table m r z → ¬ is_table m' r z.
Proof. intros F Hb Hn (p & Hp & Hx). destruct (F p z Hp Hx) as [H|H]; [|congruence]. apply Hn. by exists p. Qed.
Lemma grows_trans m m1 m2 b b1 b2 r : grows m m1 b b1 r → grows m1 m2 b1 b2 r → grows m m2 b b2 r.
Proof.
  intros [M1 D1 F1] [M2 D2 F2]. split.
  - auto.
  - intros z a Hz Hb Hn Ha. rewrite (D2 z a Hz), (D1 z a Hz); try done; [apply M1; [by eapply bit_nonneg|done]|by eapply no_new_table].
  - eapply tables_from_trans; [exact F1|exact F2|exact M1|apply bit_nonneg].
Qed.
Lemma grows_kept m m' b b' r xs : (∀ g, 0 ≤ g → bit b g = true → bit b' g = true) → frame_kept m m' b xs →
  (∀ x, x ∈ xs → ∃ p, path_ok 3 p ∧ node m' r p = Some x) → tables_from m m' b r → grows m m' b b' r.
Proof.
  intros M K X F. split; try done. intros z a Hz Hb Hn Ha. apply (K z a Hz Hb); [|done]. intros Hin.
  exact (no_new_table _ _ _ _ _ F Hb Hn (X z Hin)).
Qed.

Lemma upage_frame m b tot r v f : upage m b tot r v f → PAGE_FRAME (translate m r v) = f * 4096 ∧ present (translate m r v) = true ∧ 0 ≤ f < tot.
Proof.
  intros [E (Ha & Hf & _) _]. rewrite E. split; [apply page_frame_lor; lia|]. split; [|lia].
  unfold present. rewrite has_flag_lor. apply orb_true_r.
Qed.
Lemma upage_grows m m' b b' tot r v f : grows m m' b b' r → translate m' r v = translate m r v → upage m b tot r v f →
  upage m' b' tot r v f ∧ ∀ a, in_page (f * 4096) a → m' a = m a.
Proof.
  intros G Ht [E U D]. split; [split|].
  - by rewrite Ht.
  - eapply page_ok_mono; [exact U|apply G].
  - apply (no_new_table m m' b); [apply G|apply U|done].
  - intros a Ha. apply (gw_data _ _ _ _ _ G (f * 4096)); [apply U|apply U|done|done].
Qed.

(** The tables look at the page number only. *)
Lemma idx_of_page v k : 0 ≤ k → Z.shiftr v (12 + k) = Z.shiftr (v / 4096) k.
Proof. intros. rewrite <-Z.shiftr_shiftr by lia. by rewrite (Z.shiftr_div_pow2 v 12) by lia. Qed.
Lemma translate_page m r v v' : v / 4096 = v' / 4096 → translate m r v = translate m r v'.
Proof.
  intros E. unfold translate, vpath, PML4_IDX, PDPT_IDX, PD_IDX, PT_IDX.
  change 39 with (12 + 27). change 30 with (12 + 18). change 21 with (12 + 9). rewrite !idx_of_page by lia.
  change (Z.shiftr v 12) with (Z.shiftr v (12 + 0)). change (Z.shiftr v' 12) with (Z.shiftr v' (12 + 0)). rewrite !idx_of_page by lia. by rewrite E.
Qed.
Lemma upage_page m b tot r v v' f : v / 4096 = v' / 4096 → upage m b tot r v f → upage m b tot r v' f.
Proof. intros E [H1 H2 H3]. split; [|done|done]. rewrite <-H1. by apply translate_page. Qed.
Lemma page_number_small v : 0 ≤ v < 140737488355328 → page_number v = v / 4096.
Proof. intros. rewrite page_number_mod. apply Z.mod_small. split; [apply Z.div_pos; lia|apply Z.div_lt_upper_bound; lia]. Qed.

Lemma free_count p b rs f : pmm_ok p b rs → 0 ≤ f < total_frames p → bit b f = false → zlookup rs f = Some 0.
Proof.
  intros H Hf Hb. destruct (frame_count p b rs f H Hf) as (c & Hc & Hr). rewrite Hc. f_equal. destruct (decide (0 < c)); [|lia].
  rewrite (po_used _ _ _ H f c) in Hb; [done|lia|done|done].
Qed.

(** Zeroing or filling a page that holds no table. *)
Lemma data_page_nodes m m' b t r z : tree m b t r 3 → z mod 4096 = 0 → (∀ a, ¬ in_page z a → m' a = m a) → ¬ is_table m r z →
  ∀ p, path_ok 3 p → node m' r p = node m r p.
Proof.
  intros T Hz Hout Hn. apply node_ext. intros p x i Hp _ Hx Hi. apply Hout. intros Hin.
  destruct (tr_page _ _ _ _ _ T p x Hp Hx) as (Hxa & _). apply Hn. exists p. by rewrite (pages_apart z x _ Hz Hxa Hin (entry_in_page x i Hi)).
Qed.
Lemma data_page_table m m' b t r z x : tree m b t r 3 → z mod 4096 = 0 → (∀ a, ¬ in_page z a → m' a = m a) → ¬ is_table m r z →
  is_table m' r x → is_table m r x.
Proof. intros T Hz Hout Hn (p & Hp & Hx). exists p. split; [done|]. by rewrite <-(data_page_nodes m m' b t r z T Hz Hout Hn). Qed.
Lemma data_page_translate m m' b t r z v : tree m b t r 3 → z mod 4096 = 0 → (∀ a, ¬ in_page z a → m' a = m a) → ¬ is_table m r z →
  translate m' r v = translate m r v.
Proof.
  intros T Hz Hout Hn. destruct (vpath_ok v) as [Hv Hi]. unfold translate, leaf. rewrite (data_page_nodes m m' b t r z T Hz Hout Hn) by done.
  destruct (node m r (vpath v)) as [x|] eqn:Ex; [|done]. apply Hout. intros Hin.
  destruct (tr_page _ _ _ _ _ T _ x Hv Ex) as (Hxa & _). apply Hn. exists (vpath v). by rewrite (pages_apart z x _ Hz Hxa Hin (entry_in_page x _ Hi)).
Qed.
Lemma free_no_table m b t r f : tree m b t r 3 → bit b f = false → ¬ is_table m r (f * 4096).
Proof. intros T Hb (p & Hp & Hx). destruct (tr_page _ _ _ _ _ T p _ Hp Hx) as (_ & _ & H). rewrite Z.div_mul in H by lia. congruence. Qed.

(** ** Mapping *)

Record same_ctx (u u' : mmu) : Prop := {
  sc_ctx : mm_ctx u' = mm_ctx u;
  sc_dirs : mm_kernel u' = mm_kernel u ∧ mm_current u' = mm_current u ∧ mm_cr3 u' = mm_cr3 u ∧ mm_next u' = mm_next u;
  sc_total : total u' = total u;
  sc_limit : limit_frame (mm_pmm u') = limit_frame (mm_pmm u) }.
Lemma same_ctx_refl u : same_ctx u u.
Proof. by split. Qed.
Lemma same_ctx_trans u u1 u2 : same_ctx u u1 → same_ctx u1 u2 → same_ctx u u2.
Proof. intros [A1 (B1 & C1 & D1 & E1) F1 G1] [A2 (B2 & C2 & D2 & E2) F2 G2]. split; [congruence| |congruence|congruence]. repeat split; congruence. Qed.

(** The two ways to run out of memory. *)
Definition out_of_memory {A} (fail : A) (o : outcome mmu A) : Prop :=
  ∃ s', (o = Panic s' ∨ o = Ret fail s') ∧ no_frame (mm_pmm s').

Lemma grows_fresh m b b' t r f : tree m b t r 3 → bit b f = false → (∀ g, 0 ≤ g → bit b g = true → bit b' g = true) →
  grows m (zero_page (f * 4096) m) b b' r.
Proof.
  intros T Hb M. pose proof (free_no_table m b t r f T Hb) as Hn. assert ((f * 4096) mod 4096 = 0) as Hf by (apply Z.mod_mul; lia).
  split; [done| |].
  - intros z a Hz Hzb _ Ha. apply zero_page_out. intros Hin. pose proof (pages_apart z (f * 4096) a Hz Hf Ha Hin) as ->. rewrite Z.div_mul in Hzb by lia. congruence.
  - intros p x Hp. rewrite (data_page_nodes m _ b t r (f * 4096)); try done; [by left|]. intros a Ha. by apply zero_page_out.
Qed.

Lemma map64_page_run u b rs pd r v : aspace u b rs pd r →
  out_of_memory false (map64_page pd v u) ∨
  ∃ u' b' f, map64_page pd v u = Ret true u' ∧ aspace u' b' (<[Z.to_nat f := 1]> rs) pd r ∧ same_ctx u u' ∧ grows (mm_word u) (mm_word u') b b' r ∧
    upage (mm_word u') b' (total u) r v f ∧ bit b f = false ∧ (∀ a, in_page (f * 4096) a → mm_word u' a = 0) ∧
    (∀ v', page_number v' ≠ page_number v → translate (mm_word u') r v' = translate (mm_word u) r v').
Proof.
  intros [H Hc T]. pose proof (po_total _ _ _ H) as Ht. unfold map64_page. destruct (first_free_run _ b rs H) as (f & b1 & E & H1 & M1 & _ & R).
  rewrite (kbind_ret _ _ _ _ _ (pm_run _ u _ _ E)). destruct R as [[-> Hall]|(Hf0 & Hf & Hb & Hb1 & _)].
  { left. exists (with_mm_pmm (with_bitmap b1 (mm_pmm u)) u). split; [by right|]. exists b1. split; [done|]. intros g Hg Hl. by apply M1, Hall. }
  replace (f =? NO_FRAME) with false by (symmetry; apply Z.eqb_neq; unfold NO_FRAME; lia).
  destruct (set_frame_run (with_bitmap b1 (mm_pmm u)) b1 rs f H1 ltac:(cbn; lia)) as (b2 & E2 & H2 & B2).
  rewrite (kbind_ret _ _ _ _ _ (pm_run _ (with_mm_pmm (with_bitmap b1 (mm_pmm u)) u) _ _ E2)).
  assert (∀ g, 0 ≤ g → bit b g = true → bit b2 g = true) as M2 by (intros g Hg Hgb; by rewrite B2, M1).
  pose proof (free_no_table _ _ _ _ _ T Hb) as Hnt. assert ((f * 4096) mod 4096 = 0) as Hfm by (apply Z.mod_mul; lia).
  set (m1 := zero_page (f * 4096) (mm_word u)). set (u1 := wr m1 b2 u).
  rewrite (kbind_ret _ _ _ tt u1) by done.
  pose proof (grows_fresh _ b b2 _ _ f T Hb M2) as G1. fold m1 in G1.
  assert (tree m1 b2 (total u1) r 3) as T1.
  { apply (tree_ext (mm_word u) m1 b b2); [done| |done]. apply (data_page_nodes _ _ b (total u) r (f * 4096)); try done. intros a Ha. by apply zero_page_out. }
  destruct (map_page_run u1 b2 rs pd r v (f * 4096) 7 H2 Hc T1) as [(s' & Em & O)|(m2 & b3 & xs & Em & H3 & T3 & Tr & To & M3 & K3 & X3 & F3)].
  { left. exists s'. split; [|done]. left. unfold kbind. by rewrite Em. }
  right. rewrite (kbind_ret _ _ _ _ _ Em). change (negb (0 =? 0)) with false. cbn iota. set (u2 := wr m2 b3 u1) in *.
  assert (bit b2 f = true) as Hf2 by (rewrite B2, Z.eqb_refl by done; apply orb_true_r).
  pose proof (grows_kept m1 m2 b2 b3 r xs M3 K3 X3 F3) as G2.
  assert (0 ≤ f < total_frames (mm_pmm u2)) as Hf' by (change (total_frames (mm_pmm u2)) with (total_frames (mm_pmm u)); lia).
  destruct (frame_ref_run (mm_pmm u2) b3 rs f 0 H3 Hf') as (b4 & E4 & H4 & B4); [by apply (free_count (mm_pmm u) b)|lia|]. change (0 + 1) with 1 in *.
  rewrite (kbind_ret _ _ _ _ _ (pm_run _ u2 _ _ E4)). exists (with_mm_pmm (with_refs (<[Z.to_nat f := 1]> rs) (with_bitmap b4 (mm_pmm u2))) u2), b4, f.
  assert (∀ g, 0 ≤ g → bit b3 g = true → bit b4 g = true) as M4 by (intros g Hg Hgb; by rewrite B4, Hgb).
  assert (¬ is_table m1 r (f * 4096)) as Hn1 by (intros Hx; apply Hnt; revert Hx; apply (data_page_table _ _ b (total u) _ (f * 4096)); try done; intros a Ha; by apply zero_page_out).
  split; [done|]. split; [|split; [by split|split; [|split; [|split; [done|split]]]]].
  - split; [exact H4|done|]. by apply (tree_ext m2 m2 b3 b4).
  - eapply grows_trans; [exact G1|]. destruct G2 as [A1 A2 A3]. split; [auto|exact A2|exact A3].
  - split; cbn [mm_word with_mm_pmm u2 wr with_mm_word].
    + rewrite Tr, page_frame_id by (done || lia). rewrite <-Z.lor_assoc. done.
    + split; [done|]. rewrite Z.div_mul by lia. split; [unfold total; lia|]. apply M4; [done|]. by apply M3.
    + apply (no_new_table m1 m2 b2); [done|by rewrite Z.div_mul by lia|done].
  - intros a Ha. cbn [mm_word with_mm_pmm u2 wr with_mm_word]. rewrite (gw_data _ _ _ _ _ G2 (f * 4096) a); try done; [by apply zero_page_in|by rewrite Z.div_mul by lia].
  - intros v' Hne. cbn [mm_word with_mm_pmm u2 wr with_mm_word]. rewrite To by done. apply (data_page_translate _ _ b (total u) r (f * 4096)); try done. intros a Ha. by apply zero_page_out.
Qed.

(** The number of free frames bounds the turns of the mapping loop. *)
Definition avail (tot : Z) (b : list Z) : nat := length (filter (λ f, bit b f = false) (seqZ 0 tot)).
Lemma filter_shrinks {A} (P Q : A → Prop) `{∀ x, Decision (P x), ∀ x, Decision (Q x)} l : (∀ x, x ∈ l → Q x → P x) → (length (filter Q l) ≤ length (filter P l))%nat.
Proof.
  induction l as [|x l IH]; intros HPQ; [done|]. specialize (IH ltac:(intros y Hy; apply HPQ, elem_of_cons; by right)). rewrite !filter_cons.
  destruct (decide (Q x)) as [Hq|], (decide (P x)) as [|Hp]; cbn; try lia. destruct Hp. apply HPQ; [apply list_elem_of_here|done].
Qed.
Lemma filter_drops {A} (P Q : A → Prop) `{∀ x, Decision (P x), ∀ x, Decision (Q x)} l y : (∀ x, x ∈ l → Q x → P x) → y ∈ l → P y → ¬ Q y →
  (length (filter Q l) < length (filter P l))%nat.
Proof.
  intros HPQ Hy Hp Hq. apply list_elem_of_split in Hy as (l1 & l2 & ->). rewrite !filter_app, !filter_cons, !length_app.
  rewrite decide_False, decide_True by done. cbn [length]. pose proof (filter_shrinks P Q l1 ltac:(intros x Hx; apply HPQ, elem_of_app; by left)).
  pose proof (filter_shrinks P Q l2 ltac:(intros x Hx; apply HPQ, elem_of_app; right; apply elem_of_cons; by right)). lia.
Qed.
Lemma avail_less tot b b' f : (∀ g, 0 ≤ g → bit b g = true → bit b' g = true) → 0 ≤ f < tot → bit b f = false → bit b' f = true →
  (avail tot b' < avail tot b)%nat.
Proof.
  intros M Hf Hb Hb'. apply (filter_drops _ _ _ f); [|by apply elem_of_seqZ; lia|done|congruence].
  intros x Hx%elem_of_seqZ Hx'. destruct (bit b x) eqn:E; [|done]. rewrite (M x ltac:(lia) E) in Hx'. done.
Qed.
Lemma avail_bound tot b : 0 ≤ tot → (avail tot b ≤ Z.to_nat tot)%nat.
Proof. intros. unfold avail. pose proof (length_filter (λ f, bit b f = false) (seqZ 0 tot)). rewrite length_seqZ in *. lia. Qed.

(** The pages [lo] to [hi - 1] are mapped on the frames [fr], which were free. *)
Record region (u u' : mmu) (b b' : list Z) (r lo hi : Z) (fr : Z → Z) : Prop := {
  rg_page : ∀ q, lo ≤ q < hi → upage (mm_word u') b' (total u) r (q * 4096) (fr q);
  rg_free : ∀ q, lo ≤ q < hi → bit b (fr q) = false;
  rg_inj : ∀ q q', lo ≤ q < hi → lo ≤ q' < hi → fr q = fr q' → q = q';
  rg_other : ∀ v, ¬ lo ≤ page_number v < hi → translate (mm_word u') r v = translate (mm_word u) r v;
  rg_grows : grows (mm_word u) (mm_word u') b b' r }.
Definition zeroed (m : Z → Z) (lo hi : Z) (fr : Z → Z) : Prop := ∀ q a, lo ≤ q < hi → in_page (fr q * 4096) a → m a = 0.

Lemma region_cons u u1 u2 b b1 b2 r lo hi f fr : 0 ≤ lo < hi → hi ≤ 34359738368 → same_ctx u u1 → grows (mm_word u) (mm_word u1) b b1 r →
  upage (mm_word u1) b1 (total u) r (lo * 4096) f → bit b f = false →
  (∀ v', page_number v' ≠ lo → translate (mm_word u1) r v' = translate (mm_word u) r v') →
  region u1 u2 b1 b2 r (lo + 1) hi fr →
  region u u2 b b2 r lo hi (λ q, if q =? lo then f else fr q) ∧ ∀ a, in_page (f * 4096) a → mm_word u2 a = mm_word u1 a.
Proof.
  intros Hlo Hhi Hs G1 U1 Hf Ho [P2 F2 I2 O2 G2].
  assert (page_number (lo * 4096) = lo) as Hpn by (rewrite page_number_mod, Z.div_mul by lia; apply Z.mod_small; lia).
  destruct (upage_grows _ _ b1 b2 (total u) r (lo * 4096) f G2) as [U2 W2]; [apply O2; rewrite Hpn by lia; lia|done|].
  rewrite (sc_total _ _ Hs) in P2.
  assert (∀ q, lo + 1 ≤ q < hi → fr q ≠ f) as Hne.
  { intros q Hq E. pose proof (F2 q Hq) as Hfq. rewrite E in Hfq. destruct (up_used _ _ _ _ _ _ U1) as (_ & _ & Hu). rewrite Z.div_mul in Hu by lia. congruence. }
  split; [split|exact W2].
  - intros q Hq. destruct (Z.eqb_spec q lo) as [->|]; [done|]. apply P2. lia.
  - intros q Hq. destruct (Z.eqb_spec q lo) as [->|]; [done|]. destruct (bit b (fr q)) eqn:Eb; [|done].
    rewrite <-(F2 q ltac:(lia)). symmetry. apply G1; [by eapply bit_nonneg|done].
  - intros q q' Hq Hq'. destruct (Z.eqb_spec q lo), (Z.eqb_spec q' lo); subst; try lia; intros E.
    + by destruct (Hne q' ltac:(lia)).
    + by destruct (Hne q ltac:(lia)).
    + apply I2; [lia|lia|done].
  - intros v Hv. rewrite O2 by lia. apply Ho. intros E. apply Hv. lia.
  - by eapply grows_trans.
Qed.
Lemma region_nil u b r lo hi fr : hi ≤ lo → region u u b b r lo hi fr.
Proof. intros H. split; try (intros; lia). apply grows_refl. Qed.

Lemma map64_pages_run : ∀ fuel u b rs pd r lo stop, aspace u b rs pd r → 0 ≤ lo → lo * 4096 ≤ stop + 4095 → 0 ≤ stop ≤ 140737488355328 → (avail (total u) b < fuel)%nat →
  out_of_memory false (map64_pages fuel pd (lo * 4096) stop u) ∨
  ∃ u' b' rs' fr, map64_pages fuel pd (lo * 4096) stop u = Ret true u' ∧ aspace u' b' rs' pd r ∧ same_ctx u u' ∧
    region u u' b b' r lo ((stop + 4095) / 4096) fr ∧ zeroed (mm_word u') lo ((stop + 4095) / 4096) fr.
Proof.
  induction fuel as [|fuel IH]; intros u b rs pd r lo stop A Hlo Hls Hst Hfuel; [lia|]. cbn [map64_pages].
  pose proof (Z.div_mod (stop + 4095) 4096 ltac:(lia)). pose proof (Z.mod_pos_bound (stop + 4095) 4096 ltac:(lia)). set (hi := (stop + 4095) / 4096) in *.
  destruct (Z.ltb_spec (lo * 4096) stop) as [Hlt|Hge].
  - destruct (map64_page_run u b rs pd r (lo * 4096) A) as [(s' & E & O)|(u1 & b1 & f & E & A1 & S1 & G1 & U1 & Hf & Hz & Ho)].
    { left. exists s'. split; [|done]. unfold kbind. destruct E as [->| ->]; [by left|by right]. }
    rewrite (kbind_ret _ _ _ _ _ E). rewrite (u64_small (lo * 4096 + 4096)) by lia. replace (lo * 4096 + 4096) with ((lo + 1) * 4096) by lia.
    destruct (up_used _ _ _ _ _ _ U1) as (_ & Hfr & Hu). rewrite Z.div_mul in Hu by lia.
    pose proof (avail_less (total u) b b1 f (gw_mono _ _ _ _ _ G1) ltac:(lia) Hf Hu) as Hav.
    destruct (IH u1 b1 _ pd r (lo + 1) stop A1) as [O|(u2 & b2 & rs2 & fr & E2 & A2 & S2 & R2 & Z2)]; [lia|lia|lia|rewrite (sc_total _ _ S1); lia|by left|right].
    fold hi in R2, Z2. assert (page_number (lo * 4096) = lo) as Hpn by (rewrite page_number_mod, Z.div_mul by lia; apply Z.mod_small; lia). rewrite Hpn in Ho.
    destruct (region_cons u u1 u2 b b1 b2 r lo hi f fr) as [R W]; try done; [lia|lia|].
    exists u2, b2, rs2, (λ q, if q =? lo then f else fr q). split; [done|]. split; [done|]. split; [by eapply same_ctx_trans|]. split; [done|].
    intros q a Hq. destruct (Z.eqb_spec q lo) as [->|]; intros Ha; [rewrite W by done; by apply Hz|]. apply (Z2 q); [lia|done].
  - right. exists u, b, rs, (λ q, q). split; [done|]. split; [done|]. split; [apply same_ctx_refl|]. split; [apply region_nil; lia|intros q a Hq; lia].
Qed.

(** ** Writing *)

(** The pages [lo] to [hi - 1] are the user's, each on its own frame; the byte that is
    seen at [x]. *)
Record owned (m : Z → Z) (b : list Z) (tot r lo hi : Z) (fr : Z → Z) : Prop := {
  ow_page : ∀ q, lo ≤ q < hi → upage m b tot r (q * 4096) (fr q);
  ow_inj : ∀ q q', lo ≤ q < hi → lo ≤ q' < hi → fr q = fr q' → q = q' }.
Definition see (m : Z → Z) (fr : Z → Z) (x : Z) : Z := get_byte m (fr (x / 4096) * 4096 + x mod 4096).

(** The bytes [l] are now at [d], and nothing else has changed. *)
Record wrote (m m' : Z → Z) (r lo hi : Z) (fr : Z → Z) (d : Z) (l : list Z) : Prop := {
  wt_node : ∀ p, path_ok 3 p → node m' r p = node m r p;
  wt_translate : ∀ v, translate m' r v = translate m r v;
  wt_bytes : ∀ x, lo * 4096 ≤ x < hi * 4096 → see m' fr x = match zlookup l (x - d) with Some v => u8 v | None => see m fr x end;
  wt_kept : ∀ z a, z mod 4096 = 0 → (∀ q, lo ≤ q < hi → z ≠ fr q * 4096) → in_page z a → m' a = m a }.

Lemma wrote_nil m r lo hi fr d : wrote m m r lo hi fr d [].
Proof. split; try done. intros x Hx. unfold zlookup. by destruct (x - d <? 0); rewrite ?lookup_nil. Qed.
Lemma zlookup_app {A} (l k : list A) i : 0 ≤ i → zlookup (l ++ k) i = match zlookup l i with Some x => Some x | None => zlookup k (i - Z.of_nat (length l)) end.
Proof.
  intros Hi. unfold zlookup. replace (i <? 0) with false by (symmetry; apply Z.ltb_ge; lia). destruct (l !! Z.to_nat i) as [x|] eqn:E.
  - by rewrite (lookup_app_l_Some _ _ _ _ E).
  - pose proof (lookup_ge_None_1 _ _ E). replace (i - Z.of_nat (length l) <? 0) with false by (symmetry; apply Z.ltb_ge; lia).
    rewrite lookup_app_r by done. f_equal. lia.
Qed.
Lemma zlookup_out {A} (l : list A) i : i < 0 ∨ Z.of_nat (length l) ≤ i → zlookup l i = None.
Proof. intros Hi. unfold zlookup. destruct (Z.ltb_spec i 0); [done|]. apply lookup_ge_None. lia. Qed.
Lemma wrote_app m m1 m2 r lo hi fr d l k : wrote m m1 r lo hi fr d l → wrote m1 m2 r lo hi fr (d + Z.of_nat (length l)) k → wrote m m2 r lo hi fr d (l ++ k).
Proof.
  intros [N1 T1 B1 K1] [N2 T2 B2 K2]. split.
  - intros p Hp. by rewrite N2, N1.
  - intros v. by rewrite T2, T1.
  - intros x Hx. rewrite B2, B1 by done. destruct (decide (d ≤ x)) as [Hd|Hd].
    + rewrite zlookup_app by lia. replace (x - (d + Z.of_nat (length l))) with (x - d - Z.of_nat (length l)) by lia.
      destruct (zlookup k _) as [v|] eqn:E; [|by destruct (zlookup l (x - d))].
      rewrite zlookup_out; [done|]. right. unfold zlookup in E. destruct (Z.ltb_spec (x - d - Z.of_nat (length l)) 0); [done|lia].
    + by rewrite !zlookup_out by lia.
  - intros z a Hz Hq Ha. by rewrite (K2 z a Hz Hq Ha), (K1 z a Hz Hq Ha).
Qed.
Lemma owned_wrote m m' b tot r lo hi fr d l lo' hi' fr' : wrote m m' r lo hi fr d l → owned m b tot r lo' hi' fr' → owned m' b tot r lo' hi' fr'.
Proof.
  intros W [P I]. split; [|done]. intros q Hq. destruct (P q Hq) as [E U D]. split; [by rewrite (wt_translate _ _ _ _ _ _ _ _ W)|done|].
  intros (p & Hp & Hx). apply D. exists p. by rewrite <-(wt_node _ _ _ _ _ _ _ _ W).
Qed.
Lemma aspace_wrote u m' b rs pd r lo hi fr d l : wrote (mm_word u) m' r lo hi fr d l → aspace u b rs pd r → aspace (with_mm_word m' u) b rs pd r.
Proof. intros W [H C T]. split; [done|done|]. apply (tree_ext (mm_word u) m' b b); [done|apply W|done]. Qed.

(** One chunk, within a page. *)
Lemma write_chunk m b tot r lo hi fr d l : tree m b tot r 3 → owned m b tot r lo hi fr → lo ≤ d / 4096 < hi → d mod 4096 + Z.of_nat (length l) ≤ 4096 →
  wrote m (set_bytes (fr (d / 4096) * 4096 + d mod 4096) l m) r lo hi fr d l.
Proof.
  intros T [P I] Hq Hl. set (q := d / 4096) in *. set (z := fr q * 4096). destruct (P q Hq) as [E (Hz & Hzr & Hzb) D]. fold z in Hz, Hzr, Hzb, D.
  pose proof (Z.mod_pos_bound d 4096 ltac:(lia)). pose proof (Z.div_mod d 4096 ltac:(lia)). fold q in H0.
  assert (∀ a, ¬ in_page z a → set_bytes (z + d mod 4096) l m a = m a) as Hout by (intros a Ha; apply (set_bytes_out l _ _ z); (done || lia)).
  split.
  - by apply (data_page_nodes m _ b tot r z).
  - intros v. by apply (data_page_translate m _ b tot r z).
  - intros x Hx. unfold see. rewrite get_set_bytes. pose proof (Z.mod_pos_bound x 4096 ltac:(lia)). pose proof (Z.div_mod x 4096 ltac:(lia)).
    destruct (decide (x / 4096 = q)) as [Eq|Hne].
    + rewrite Eq. fold z. by replace (z + x mod 4096 - (z + d mod 4096)) with (x - d) by lia.
    + assert (fr (x / 4096) ≠ fr q) as Hf by (intros Ef; apply Hne; apply I; [lia|done|done]).
      rewrite !zlookup_out; [done| |]; unfold z; destruct (decide (x / 4096 < q)), (decide (fr (x / 4096) < fr q)); lia.
  - intros x a Hx Hne Ha. apply Hout. intros Hin. apply (Hne q Hq). by apply (pages_apart x z a).
Qed.

Lemma phys_write_run u a l : 0 ≤ a → a + Z.of_nat (length l) ≤ total u * 4096 → phys_write a l u = Ret tt (with_mm_word (set_bytes a l (mm_word u)) u).
Proof.
  intros H0 H1. unfold phys_write. rewrite (kbind_ret kget _ u u u eq_refl). fold (total u).
  replace ((0 <=? a) && (a + Z.of_nat (length l) <=? total u * 4096)) with true by (symmetry; apply andb_true_iff; rewrite !Z.leb_le; lia). done.
Qed.
Lemma page_base_run u b rs pd r v f : aspace u b rs pd r → upage (mm_word u) b (total u) r v f → page_base pd v u = Ret (Some (f * 4096)) u.
Proof.
  intros [_ Hc _] U. destruct (upage_frame _ _ _ _ _ _ U) as (Hfr & Hpr & _). unfold page_base, get_page.
  destruct (node (mm_word u) r (vpath v)) as [x|] eqn:Ex; [|unfold translate, leaf in Hpr; rewrite Ex in Hpr; discriminate Hpr].
  rewrite (kbind_ret _ _ u (Some (entry_at x (PT_IDX v))) u) by (unfold kbind; by rewrite (get_entry_run u pd r v Hc), Ex).
  rewrite (kbind_ret _ _ _ _ _ (load_run u _)). unfold translate, leaf in Hfr. rewrite Ex in Hfr. by rewrite Hfr.
Qed.

(** A list of bytes, page by page: what the two loops of [fill_segment] do. *)
Fixpoint vcopy (fuel : nat) (pd d : Z) (l : list Z) : kM mmu (option Z) :=
  match fuel with
  | O => λ _, NoFuel
  | S fuel =>
      if 0 <? Z.of_nat (length l) then
        let n := Z.min (4096 - d mod 4096) (Z.of_nat (length l)) in
        let* o := page_base pd d in
        match o with
        | None => kret None
        | Some f =>
            phys_write (f + d mod 4096) (take (Z.to_nat n) l) ;;;
            vcopy fuel pd (u64 (d + n)) (drop (Z.to_nat n) l)
        end
      else kret (Some d)
  end.

Lemma vcopy_run : ∀ fuel u b rs pd r lo hi fr d l, aspace u b rs pd r → owned (mm_word u) b (total u) r lo hi fr →
  lo * 4096 ≤ d → d + Z.of_nat (length l) ≤ hi * 4096 → 0 ≤ lo → hi * 4096 ≤ 140737488355328 → (d mod 4096 + Z.of_nat (length l) + 4095) / 4096 < Z.of_nat fuel →
  ∃ m', vcopy fuel pd d l u = Ret (Some (d + Z.of_nat (length l))) (with_mm_word m' u) ∧ wrote (mm_word u) m' r lo hi fr d l.
Proof.
  induction fuel as [|fuel IH]; intros u b rs pd r lo hi fr d l A O Hlo Hhi Hl0 Hh0 Hfuel; pose proof (Z.mod_pos_bound d 4096 ltac:(lia)) as Hm.
  { pose proof (Z.div_pos (d mod 4096 + Z.of_nat (length l) + 4095) 4096 ltac:(lia) ltac:(lia)). lia. }
  cbn [vcopy]. pose proof (Z.div_mod d 4096 ltac:(lia)) as Hd. destruct (Z.ltb_spec 0 (Z.of_nat (length l))) as [Hl|Hl].
  - set (n := Z.min (4096 - d mod 4096) (Z.of_nat (length l))). assert (lo ≤ d / 4096 < hi) as Hq by lia.
    pose proof (upage_page _ _ _ _ _ d _ ltac:(by rewrite Z.div_mul by lia) (ow_page _ _ _ _ _ _ _ O _ Hq)) as U.
    destruct (upage_frame _ _ _ _ _ _ U) as (_ & _ & Hfr). rewrite (kbind_ret _ _ _ _ _ (page_base_run u b rs pd r d _ A U)).
    set (t := take (Z.to_nat n) l). assert (Z.of_nat (length t) = n) as Ht by (unfold t; rewrite length_take; lia).
    rewrite (kbind_ret _ _ _ _ _ (phys_write_run u (fr (d / 4096) * 4096 + d mod 4096) t ltac:(lia) ltac:(lia))).
    pose proof (write_chunk _ _ _ _ _ _ _ d t (as_tree _ _ _ _ _ A) O Hq ltac:(lia)) as W. set (m1 := set_bytes _ t (mm_word u)) in *.
    rewrite (u64_small (d + n)) by lia.
    destruct (decide (n = Z.of_nat (length l))) as [En|Hn].
    { assert (1 ≤ (d mod 4096 + Z.of_nat (length l) + 4095) / 4096) by (apply Z.div_le_lower_bound; lia). destruct fuel; [lia|].
      exists m1. rewrite drop_ge by lia. cbn [vcopy length]. rewrite <-En. split; [done|]. by rewrite <-(take_ge l (Z.to_nat n)) by lia. }
    destruct (IH (with_mm_word m1 u) b rs pd r lo hi fr (d + n) (drop (Z.to_nat n) l)) as (m' & E & W2).
    + by eapply aspace_wrote.
    + by eapply owned_wrote.
    + lia.
    + rewrite length_drop. lia.
    + done.
    + done.
    + rewrite length_drop. replace ((d + n) mod 4096) with 0; [|symmetry; replace (d + n) with ((d / 4096 + 1) * 4096) by lia; apply Z.mod_mul; lia].
      replace (d mod 4096 + Z.of_nat (length l) + 4095) with (0 + Z.of_nat (length l - Z.to_nat n) + 4095 + 1 * 4096) in Hfuel by lia. rewrite Z.div_add in Hfuel by lia. lia.
    + exists m'. rewrite E. rewrite length_drop. replace (d + n + Z.of_nat (length l - Z.to_nat n)) with (d + Z.of_nat (length l)) by lia. split; [done|]. rewrite <-(take_drop (Z.to_nat n) l). eapply wrote_app; [exact W|]. fold t. by rewrite Ht.
  - exists (mm_word u). destruct l; [|cbn in Hl; lia]. split; [|apply wrote_nil]. replace (d + Z.of_nat (length [])) with d by (cbn; lia). by destruct u.
Qed.
