(* ===== verification/ElfSpec.v ===== *)
(** * Loading: what a program finds in its address space

    The 64-bit loader: every loadable segment of a well-formed image is in the
    address space afterwards, on frames of its own, and nothing else has changed.
    For images that are not well-formed: the loader ends. *)

From stdpp Require Import base numbers list gmap.
From Stdlib Require Import ZArith Lia.
From S2P Require Import Prelude CString Bytes Pmm Mmu MmuInv Cow KheapAlloc KheapGrow Elf ElfInv.

#[local] Open Scope Z_scope.
#[local] Open Scope kernel_scope.

(** ** Images *)

(** The program headers that the loader finds, if they lie within the image. *)
Definition phdr_at (image : list Z) (phoff i : Z) : option (option elf_phdr) :=
  match elf64_phdr image phoff i tt with Ret o _ => Some o | _ => None end.
Fixpoint phdrs (n : nat) (i : Z) (image : list Z) (phoff : Z) : option (list elf_phdr) :=
  match n with
  | O => Some []
  | S n =>
      match phdr_at image phoff i, phdrs n (i + 1) image phoff with
      | Some o, Some l => Some (match o with Some ph => ph :: l | None => l end)
      | _, _ => None
      end
  end.

(** A segment that lies in the image and in the lower half of the address space. *)
Record seg_ok (image : list Z) (ph : elf_phdr) : Prop := {
  so_file : 0 ≤ p_offset ph ∧ 0 ≤ p_filesz ph ∧ p_offset ph + p_filesz ph ≤ Z.of_nat (length image);
  so_size : p_filesz ph ≤ p_memsz ph;
  so_addr : 0 ≤ p_vaddr ph ∧ p_vaddr ph + p_memsz ph ≤ 140737488351232 }.
Definition first_page (ph : elf_phdr) : Z := p_vaddr ph / 4096.
Definition end_page (ph : elf_phdr) : Z := (p_vaddr ph + p_memsz ph + 4095) / 4096.
Definition on_page (ph : elf_phdr) (q : Z) : Prop := first_page ph ≤ q < end_page ph.
(** No page has bytes of both. *)
Definition apart (p q : elf_phdr) : Prop := end_page p ≤ first_page q ∨ end_page q ≤ first_page p.

(** The byte that a program expects at offset [k] of a segment. *)
Definition seg_byte (image : list Z) (ph : elf_phdr) (k : Z) : Z :=
  if k <? p_filesz ph then default 0 (zlookup image (p_offset ph + k)) else 0.
Definition loaded (m : Z → Z) (b : list Z) (tot r : Z) (image : list Z) (ph : elf_phdr) : Prop :=
  ∀ k, 0 ≤ k < p_memsz ph → ∃ f, upage m b tot r (p_vaddr ph + k) f ∧
    get_byte m (f * 4096 + (p_vaddr ph + k) mod 4096) = seg_byte image ph k.

Lemma phdr_run {S} image phoff i o (s : S) : phdr_at image phoff i = Some o → elf64_phdr image phoff i s = Ret o s.
Proof.
  unfold phdr_at, elf64_phdr, field, kbind, kret, kfault. cbn zeta. destruct (_ && _); [|done]. destruct (negb _); [by intros [= <-]|].
  destruct (_ && _); [|done]. destruct (_ && _); [|done]. destruct (_ && _); [|done]. destruct (_ && _); [|done]. by intros [= <-].
Qed.

Lemma ehdr_run {S} image eh (s : S) : elf64_ehdr image tt = Ret eh tt → elf64_ehdr image s = Ret eh s.
Proof.
  unfold elf64_ehdr, field, kbind, kret, kfault. destruct (_ && _); [|done]. destruct (_ && _); [|done]. destruct (_ && _); [|done]. by intros [= <-].
Qed.

(** ** The two loops *)

Lemma kbind_same {S A B} (c : kM S A) (k k' : A → kM S B) s : (∀ a s', k a s' = k' a s') → kbind c k s = kbind c k' s.
Proof. intros E. unfold kbind. by destruct (c s). Qed.

Lemma slice_split n k image src : (k ≤ n)%nat → 0 ≤ src → slice n image src = slice k image src ++ slice (n - k) image (src + Z.of_nat k).
Proof.
  intros Hk Hs. unfold slice. replace (Z.to_nat (src + Z.of_nat k)) with (Z.to_nat src + k)%nat by lia. rewrite <-drop_drop.
  rewrite <-(take_drop k (drop (Z.to_nat src) image)) at 1. rewrite take_app, take_take, length_take. rewrite Nat.min_r by lia.
  destruct (decide (k ≤ length (drop (Z.to_nat src) image))%nat); [by rewrite Nat.min_l by lia|].
  rewrite (drop_ge _ k) by lia. by rewrite !take_nil.
Qed.

Lemma copy_vcopy image pd : ∀ fuel src d left u, 0 ≤ src → 0 ≤ left → src + left ≤ Z.of_nat (length image) →
  copy_segment fuel image pd src d left u = vcopy fuel pd d (slice (Z.to_nat left) image src) u.
Proof.
  induction fuel as [|fuel IH]; intros src d left u Hs Hl Hi; cbn [copy_segment vcopy]; [done|].
  assert (Z.of_nat (length (slice (Z.to_nat left) image src)) = left) as Hlen by (rewrite slice_length; lia). rewrite Hlen.
  destruct (Z.ltb_spec 0 left); [|done]. pose proof (Z.mod_pos_bound d 4096 ltac:(lia)). set (n := Z.min (4096 - d mod 4096) left).
  apply kbind_same. intros [f|] s; [|done].
  replace ((0 <=? src) && (src + n <=? Z.of_nat (length image))) with true by (symmetry; apply andb_true_iff; rewrite !Z.leb_le; lia).
  rewrite (slice_split (Z.to_nat left) (Z.to_nat n)) by lia.
  rewrite take_app_length', drop_app_length' by (rewrite slice_length; lia).
  apply kbind_same. intros [] s'. rewrite IH by lia. replace (Z.to_nat left - Z.to_nat n)%nat with (Z.to_nat (left - n)) by lia. by rewrite Z2Nat.id by lia.
Qed.
Lemma zero_vcopy pd : ∀ fuel d left u, 0 ≤ left → zero_segment fuel pd d left u = vcopy fuel pd d (replicate (Z.to_nat left) 0) u.
Proof.
  induction fuel as [|fuel IH]; intros d left u Hl; cbn [zero_segment vcopy]; [done|]. rewrite length_replicate, Z2Nat.id by lia.
  destruct (Z.ltb_spec 0 left); [|done]. pose proof (Z.mod_pos_bound d 4096 ltac:(lia)). set (n := Z.min (4096 - d mod 4096) left).
  apply kbind_same. intros [f|] s; [|done]. rewrite take_replicate, drop_replicate, Nat.min_l by lia.
  apply kbind_same. intros [] s'. rewrite IH by lia. by replace (Z.to_nat left - Z.to_nat n)%nat with (Z.to_nat (left - n)) by lia.
Qed.
Lemma chunks_enough d n : 0 ≤ n → (d mod 4096 + n + 4095) / 4096 < Z.of_nat (chunks n).
Proof.
  intros Hn. unfold chunks. pose proof (Z.mod_pos_bound d 4096 ltac:(lia)). pose proof (Z.div_pos n 4096 Hn ltac:(lia)). rewrite Z2Nat.id by lia.
  apply Z.div_lt_upper_bound; [lia|]. pose proof (Z.div_mod n 4096 ltac:(lia)). pose proof (Z.mod_pos_bound n 4096 ltac:(lia)). lia.
Qed.

(** All bytes of a segment. *)
Definition seg_contents (image : list Z) (ph : elf_phdr) : list Z :=
  slice (Z.to_nat (p_filesz ph)) image (p_offset ph) ++ replicate (Z.to_nat (p_memsz ph - p_filesz ph)) 0.
Lemma seg_contents_length image ph : seg_ok image ph → Z.of_nat (length (seg_contents image ph)) = p_memsz ph.
Proof. intros [F S A]. unfold seg_contents. rewrite length_app, slice_length, length_replicate by lia. lia. Qed.
Lemma seg_contents_byte image ph k : seg_ok image ph → 0 ≤ k < p_memsz ph → zlookup (seg_contents image ph) k = Some (seg_byte image ph k).
Proof.
  intros [F S A] Hk. unfold seg_contents, seg_byte. rewrite zlookup_app, slice_length by lia. destruct (Z.ltb_spec k (p_filesz ph)) as [Hlt|Hge].
  - destruct (zlookup_lt image (p_offset ph + k)) as (y & -> & Hy); [lia|]. replace (zlookup (slice _ _ _) k) with (Some y); [done|].
    symmetry. unfold zlookup, slice. replace (k <? 0) with false by (symmetry; apply Z.ltb_ge; lia). rewrite lookup_take_lt, lookup_drop by lia.
    rewrite <-Hy. f_equal. lia.
  - rewrite zlookup_out by (right; rewrite slice_length; lia). rewrite Z2Nat.id by lia. unfold zlookup.
    replace (k - p_filesz ph <? 0) with false by (symmetry; apply Z.ltb_ge; lia). rewrite lookup_replicate. split; [done|lia].
Qed.

Lemma fill_run u b rs pd r lo hi fr image ph : aspace u b rs pd r → owned (mm_word u) b (total u) r lo hi fr → seg_ok image ph →
  0 ≤ lo ≤ first_page ph → end_page ph ≤ hi → hi * 4096 ≤ 140737488355328 →
  ∃ m', fill_segment image pd ph u = Ret true (with_mm_word m' u) ∧ wrote (mm_word u) m' r lo hi fr (p_vaddr ph) (seg_contents image ph).
Proof.
  intros A O Sok Hlo Hhi Hmax. pose proof Sok as [(F1 & F2 & F3) S [A1 A2]]. unfold first_page, end_page in *. set (d := p_vaddr ph) in *.
  pose proof (Z.div_mod d 4096 ltac:(lia)). pose proof (Z.mod_pos_bound d 4096 ltac:(lia)).
  pose proof (Z.div_mod (d + p_memsz ph + 4095) 4096 ltac:(lia)). pose proof (Z.mod_pos_bound (d + p_memsz ph + 4095) 4096 ltac:(lia)).
  unfold fill_segment. fold d. set (l1 := slice (Z.to_nat (p_filesz ph)) image (p_offset ph)).
  assert (Z.of_nat (length l1) = p_filesz ph) as Hl1 by (unfold l1; rewrite slice_length; lia).
  destruct (vcopy_run (chunks (p_filesz ph)) u b rs pd r lo hi fr d l1 A O) as (m1 & E1 & W1); [lia|lia|lia|lia|rewrite Hl1; by apply chunks_enough|].
  rewrite (kbind_ret _ _ u (Some (d + p_filesz ph)) (with_mm_word m1 u)) by (rewrite copy_vcopy by lia; fold l1; by rewrite E1, Hl1).
  destruct (Z.ltb_spec (p_filesz ph) (p_memsz ph)) as [Hlt|Hge].
  - set (l2 := replicate (Z.to_nat (p_memsz ph - p_filesz ph)) 0). assert (Z.of_nat (length l2) = p_memsz ph - p_filesz ph) as Hl2 by (unfold l2; rewrite length_replicate; lia).
    destruct (vcopy_run (chunks (p_memsz ph - p_filesz ph)) (with_mm_word m1 u) b rs pd r lo hi fr (d + p_filesz ph) l2) as (m2 & E2 & W2);
      [by eapply aspace_wrote|by eapply owned_wrote|lia|lia|lia|lia|rewrite Hl2; apply chunks_enough; lia|].
    exists m2. rewrite (kbind_ret _ _ (with_mm_word m1 u) (Some (d + p_filesz ph + Z.of_nat (length l2))) (with_mm_word m2 (with_mm_word m1 u))) by (rewrite zero_vcopy by lia; exact E2). split; [done|].
    unfold seg_contents. fold l1 l2. eapply wrote_app; [exact W1|]. by rewrite Hl1.
  - exists m1. split; [done|]. unfold seg_contents. fold l1. replace (p_memsz ph - p_filesz ph) with 0 by lia. by rewrite app_nil_r.
Qed.

(** ** One segment *)

Lemma grows_wrote m m1 m2 b b1 r lo hi fr d l : grows m m1 b b1 r → (∀ q, lo ≤ q < hi → bit b (fr q) = false) → wrote m1 m2 r lo hi fr d l → grows m m2 b b1 r.
Proof.
  intros [M D F] Hfr W. split; [done| |].
  - intros z a Hz Hb Hn Ha. rewrite (wt_kept _ _ _ _ _ _ _ _ W z a Hz); [by apply D with z| |done].
    intros q Hq ->. rewrite Z.div_mul, Hfr in Hb by (done || lia). done.
  - intros p x Hp. rewrite (wt_node _ _ _ _ _ _ _ _ W) by done. by apply F.
Qed.

Lemma get_byte_page m m' z a : z mod 4096 = 0 → (∀ x, in_page z x → m' x = m x) → in_page z a → get_byte m' a = get_byte m a.
Proof. intros Hz E Ha. unfold get_byte. rewrite E; [done|]. by apply (word_in_page z a). Qed.

Lemma on_page_of ph k : 0 ≤ p_vaddr ph → 0 ≤ k < p_memsz ph → on_page ph ((p_vaddr ph + k) / 4096).
Proof.
  intros. unfold on_page, first_page, end_page. split; [apply Z.div_le_mono; lia|].
  pose proof (Z.div_mod (p_vaddr ph + k) 4096 ltac:(lia)). pose proof (Z.mod_pos_bound (p_vaddr ph + k) 4096 ltac:(lia)).
  assert ((p_vaddr ph + k) / 4096 + 1 ≤ (p_vaddr ph + p_memsz ph + 4095) / 4096); [|lia]. apply Z.div_le_lower_bound; lia.
Qed.
Lemma loaded_grows m m' b b' tot r image ph : seg_ok image ph → grows m m' b b' r → (∀ v, on_page ph (page_number v) → translate m' r v = translate m r v) →
  loaded m b tot r image ph → loaded m' b' tot r image ph.
Proof.
  intros [_ _ [A1 A2]] G Ht L k Hk. destruct (L k Hk) as (f & U & Hb). exists f. set (v := p_vaddr ph + k) in *.
  destruct (upage_grows m m' b b' tot r v f G) as [U' W]; [apply Ht; rewrite page_number_small by lia; apply on_page_of; lia|done|].
  split; [done|]. rewrite <-Hb. apply (get_byte_page _ _ (f * 4096)); [apply Z.mod_mul; lia|done|]. unfold in_page. pose proof (Z.mod_pos_bound v 4096 ltac:(lia)). lia.
Qed.

Lemma load64_run u b rs pd r image ph : aspace u b rs pd r → bytes image → seg_ok image ph →
  out_of_memory false (load64_segment image pd ph u) ∨
  ∃ u' b' rs', load64_segment image pd ph u = Ret true u' ∧ aspace u' b' rs' pd r ∧ same_ctx u u' ∧ grows (mm_word u) (mm_word u') b b' r ∧
    loaded (mm_word u') b' (total u) r image ph ∧ (∀ v, ¬ on_page ph (page_number v) → translate (mm_word u') r v = translate (mm_word u) r v).
Proof.
  intros A Hby Sok. pose proof Sok as [(F1 & F2 & F3) S [A1 A2]]. set (d := p_vaddr ph) in *. pose proof (po_total _ _ _ (as_pmm _ _ _ _ _ A)) as Ht.
  pose proof (Z.div_mod d 4096 ltac:(lia)) as Hd. pose proof (Z.mod_pos_bound d 4096 ltac:(lia)) as Hm. pose proof (Z.div_pos d 4096 A1 ltac:(lia)) as Hp.
  unfold load64_segment. rewrite (kbind_ret kget _ u u u eq_refl). fold d. rewrite (u64_small (d + p_memsz ph)) by lia.
  replace (Z.ldiff d 4095) with (first_page ph * 4096) by (rewrite ldiff_4095; unfold first_page; fold d; lia).
  destruct (map64_pages_run (map_fuel u) u b rs pd r (first_page ph) (d + p_memsz ph) A) as [(s' & E & O)|(u1 & b1 & rs1 & fr & E & A1' & S1 & R & Zr)];
    try (unfold first_page; fold d; lia).
  { unfold map_fuel. pose proof (avail_bound (total u) b ltac:(unfold total; lia)). unfold total in *. lia. }
  { left. exists s'. split; [|done]. unfold kbind. destruct E as [->| ->]; [by left|by right]. }
  rewrite (kbind_ret _ _ _ _ _ E). fold (end_page ph) in R, Zr. destruct R as [Rp Rf Ri Ro Rg]. rewrite <-(sc_total _ _ S1) in Rp.
  assert (end_page ph * 4096 ≤ 140737488355328) as Hend by (unfold end_page; fold d; pose proof (Z.div_mod (d + p_memsz ph + 4095) 4096 ltac:(lia)); pose proof (Z.mod_pos_bound (d + p_memsz ph + 4095) 4096 ltac:(lia)); lia).
  destruct (fill_run u1 b1 rs1 pd r (first_page ph) (end_page ph) fr image ph A1' (Build_owned _ _ _ _ _ _ _ Rp Ri) Sok) as (m' & Ef & W); [unfold first_page; fold d; lia|lia|done|].
  right. exists (with_mm_word m' u1), b1, rs1. split; [done|]. split; [by eapply aspace_wrote|]. split; [by destruct S1; split|]. split; [by eapply grows_wrote|].
  cbn [mm_word with_mm_word]. split.
  - intros k Hk. pose proof (on_page_of ph k A1 Hk) as Hon. exists (fr ((d + k) / 4096)). fold d in Hon |- *. split.
    + apply (upage_page _ _ _ _ ((d + k) / 4096 * 4096)); [by rewrite Z.div_mul by lia|]. rewrite <-(sc_total _ _ S1).
      by apply (ow_page _ _ _ _ _ _ _ (owned_wrote _ _ _ _ _ _ _ _ _ _ _ _ _ W (Build_owned _ _ _ _ _ _ _ Rp Ri))).
    + change (see m' fr (d + k) = seg_byte image ph k). destruct Hon as [Hon1 Hon2]. pose proof (Z.div_mod (d + k) 4096 ltac:(lia)). pose proof (Z.mod_pos_bound (d + k) 4096 ltac:(lia)).
      rewrite (wt_bytes _ _ _ _ _ _ _ _ W) by lia. fold d. replace (d + k - d) with k by lia. rewrite seg_contents_byte by done. apply u8_small. unfold seg_byte.
      destruct (k <? p_filesz ph); [|lia]. destruct (zlookup image (p_offset ph + k)) as [y|] eqn:Ey; cbn; [|lia].
      unfold zlookup in Ey. destruct (_ <? 0); [done|]. unfold bytes in Hby. rewrite Forall_lookup in Hby. exact (Hby _ _ Ey).
  - intros v Hv. rewrite (wt_translate _ _ _ _ _ _ _ _ W). apply Ro. exact Hv.
Qed.

(** ** All segments *)

Lemma segments_run image phoff pd r : bytes image → ∀ n i segs u b rs, aspace u b rs pd r → phdrs n i image phoff = Some segs →
  Forall (seg_ok image) segs → ForallOrdPairs apart segs →
  out_of_memory (-1) (elf64_segments n i image phoff pd u) ∨
  ∃ u' b' rs', elf64_segments n i image phoff pd u = Ret 0 u' ∧ aspace u' b' rs' pd r ∧ same_ctx u u' ∧ grows (mm_word u) (mm_word u') b b' r ∧
    Forall (loaded (mm_word u') b' (total u) r image) segs ∧
    (∀ v, Forall (λ ph, ¬ on_page ph (page_number v)) segs → translate (mm_word u') r v = translate (mm_word u) r v).
Proof.
  intros Hby. induction n as [|n IH]; intros i segs u b rs A; cbn [phdrs elf64_segments].
  { intros [= <-] _ _. right. exists u, b, rs. split; [done|]. split; [done|]. split; [apply same_ctx_refl|]. split; [apply grows_refl|]. by split. }
  destruct (phdr_at image phoff i) as [o|] eqn:Eo; [|done]. destruct (phdrs n (i + 1) image phoff) as [l|] eqn:El; [|done]. intros [= <-] Hok Hap.
  rewrite (kbind_ret _ _ _ _ _ (phdr_run image phoff i o u Eo)). destruct o as [ph|]; [|by eapply IH].
  inversion Hok as [|? ? Hph Hl]; subst. inversion Hap as [|? ? Hph2 Hl2]; subst.
  destruct (load64_run u b rs pd r image ph A Hby Hph) as [(s' & E & O)|(u1 & b1 & rs1 & E & A1 & S1 & G1 & L1 & T1)].
  { left. exists s'. split; [|done]. unfold kbind. destruct E as [->| ->]; [by left|by right]. }
  rewrite (kbind_ret _ _ _ _ _ E). destruct (IH (i + 1) l u1 b1 rs1 A1 El Hl Hl2) as [O|(u2 & b2 & rs2 & E2 & A2 & S2 & G2 & L2 & T2)]; [by left|right].
  exists u2, b2, rs2. rewrite (sc_total _ _ S1) in L2. split; [done|]. split; [done|]. split; [by eapply same_ctx_trans|]. split; [by eapply grows_trans|]. split.
  - constructor; [|done]. eapply loaded_grows; [done|exact G2| |done]. intros v Hv. apply T2. eapply Forall_impl; [exact Hph2|].
    intros q Hq Hon. unfold apart, on_page in *. lia.
  - intros v Hv. inversion Hv; subst. rewrite T2, T1 by done. done.
Qed.


(** An image with one segment: eight bytes of code and 32 bytes of zeroes, on two
    pages. *)
Definition demo_phdr : elf_phdr := mk_phdr 120 4202480 8 40.
Definition demo_image : list Z :=
  [127; 69; 76; 70; 2; 1; 1; 0] ++ replicate 8 0 ++ le_bytes 2 2 ++ le_bytes 2 62 ++ le_bytes 4 1 ++ le_bytes 8 4202480 ++ le_bytes 8 64 ++ le_bytes 8 0 ++
  le_bytes 4 0 ++ le_bytes 2 64 ++ le_bytes 2 56 ++ le_bytes 2 1 ++ le_bytes 2 0 ++ le_bytes 2 0 ++ le_bytes 2 0 ++
  le_bytes 4 1 ++ le_bytes 4 7 ++ le_bytes 8 120 ++ le_bytes 8 4202480 ++ le_bytes 8 4202480 ++ le_bytes 8 8 ++ le_bytes 8 40 ++ le_bytes 8 4096 ++
  [184; 50; 0; 0; 0; 205; 128; 144].
Definition demo_load (u : mmu) : bool := match elf64_load_segments demo_image 4096 u with Ret r _ => r =? 0 | _ => false end.
Lemma demo_aspace : aspace demo_mmu [7; 0; 0] (replicate 64 0) 4096 8192.
Proof. split; [exact demo_pmm_ok|reflexivity|exact demo_mmu_tree]. Qed.
Lemma demo_loads : demo_load demo_mmu = true.
Proof. vm_compute. reflexivity. Qed.

