(* ===== verification/ElfEnd.v ===== *)
(** * Loading ends

    The loaders read sizes and addresses from the file and do not check them.
    Whatever the image holds, their loops end: the pages of a segment are bounded
    by the frames there are, or by the 32 bits of an address; the copying loops by
    the size of the segment. *)

From stdpp Require Import base numbers list gmap.
From Stdlib Require Import ZArith Lia.
From S2P Require Import Prelude CString Bytes Pmm Mmu MmuInv Elf ElfInv ElfSpec.

#[local] Open Scope Z_scope.
#[local] Open Scope kernel_scope.

(** From a sound frame allocator the computation ends, and if it returns, the
    allocator is sound and has no frame more to give than before. *)
Definition ends {A} (c : kM mmu A) : Prop := ∀ s b rs, pmm_ok (mm_pmm s) b rs →
  match c s with
  | Ret _ s' => ∃ b' rs', pmm_ok (mm_pmm s') b' rs' ∧ total s' = total s ∧ (avail (total s) b' ≤ avail (total s) b)%nat
  | NoFuel => False
  | _ => True
  end.

Lemma ends_bind {A B} (c : kM mmu A) (k : A → kM mmu B) : ends c → (∀ a, ends (k a)) → ends (kbind c k).
Proof.
  intros Hc Hk s b rs H. unfold kbind. specialize (Hc s b rs H). destruct (c s) as [a s1| | | |]; try done. destruct Hc as (b1 & rs1 & H1 & T1 & L1).
  specialize (Hk a s1 b1 rs1 H1). destruct (k a s1) as [a2 s2| | | |]; try done. destruct Hk as (b2 & rs2 & H2 & T2 & L2).
  exists b2, rs2. rewrite T1 in *. split; [done|]. split; [done|lia].
Qed.
Lemma ends_ret {A} (a : A) : ends (kret a).
Proof. intros s b rs H. by exists b, rs. Qed.
Lemma ends_fault {A} : ends (A := A) kfault.
Proof. done. Qed.
Lemma ends_panic {A} : ends (A := A) kpanic.
Proof. done. Qed.
Lemma ends_get : ends kget.
Proof. intros s b rs H. by exists b, rs. Qed.
Lemma ends_words f : ends (kmodify (λ s, with_mm_word (f s) s)).
Proof. intros s b rs H. by exists b, rs. Qed.
Lemma ends_words' m : ends (kmodify (with_mm_word m)).
Proof. intros s b rs H. by exists b, rs. Qed.
Lemma ends_load a : ends (load a).
Proof. intros s b rs H. by exists b, rs. Qed.
Lemma ends_store a v : ends (store a v).
Proof. intros s b rs H. by exists b, rs. Qed.
Lemma ends_ctx ctx : ends (get_ctx ctx).
Proof. intros s b rs H. unfold get_ctx, kget_opt. destruct (mm_ctx s !! ctx); [by exists b, rs|done]. Qed.
Lemma ends_field n image off : ends (field n image off).
Proof. intros s b rs H. unfold field. destruct (_ && _); [by exists b, rs|done]. Qed.

Lemma avail_mono tot b b' : (∀ g, 0 ≤ g → bit b g = true → bit b' g = true) → (avail tot b' ≤ avail tot b)%nat.
Proof.
  intros M. apply filter_shrinks. intros x Hx%elem_of_seqZ Hx'. destruct (bit b x) eqn:E; [|done]. rewrite (M x ltac:(lia) E) in Hx'. done.
Qed.
Lemma ends_free : ends (pm pmm_first_free).
Proof.
  intros s b rs H. destruct (first_free_run _ b rs H) as (f & b1 & E & H1 & M & _). rewrite (pm_run _ s _ _ E). exists b1, rs. split; [done|]. split; [done|]. by apply avail_mono.
Qed.
Lemma ends_set f : 0 ≤ f → ends (pm (pmm_set_frame f)).
Proof.
  intros Hf s b rs H. destruct (decide (f < total_frames (mm_pmm s))) as [Hlt|Hge].
  - destruct (set_frame_run _ b rs f H ltac:(lia)) as (b1 & E & H1 & B). rewrite (pm_run _ s _ _ E). exists b1, rs. split; [done|]. split; [done|].
    apply avail_mono. intros g Hg Hb. by rewrite B, Hb.
  - rewrite (pm_run _ s tt (mm_pmm s)); [by exists b, rs|]. unfold pmm_set_frame. rewrite (with_frame_run _ _ _ _ b rs H).
    by replace (total_frames (mm_pmm s) <=? f) with true by (symmetry; apply Z.leb_le; lia).
Qed.
Lemma ends_ref f : 0 ≤ f → ends (pm (frame_add_ref f)).
Proof.
  intros Hf s b rs H. destruct (decide (f < total_frames (mm_pmm s))) as [Hlt|Hge].
  - destruct (frame_count _ b rs f H ltac:(lia)) as (c & Hc & Hr). destruct (decide (c < 255)) as [Hs|Hs].
    + destruct (frame_ref_run _ b rs f c H ltac:(lia) Hc Hs) as (b1 & E & H1 & B). rewrite (pm_run _ s _ _ E). exists b1, (<[Z.to_nat f := c + 1]> rs).
      split; [done|]. split; [done|]. apply avail_mono. intros g Hg Hb. by rewrite B, Hb.
    + assert (c = 255) as -> by lia. pose proof (po_counts _ _ _ H) as Hl. rewrite (pm_run _ s tt (with_refs (<[Z.to_nat f := 0]> rs) (mm_pmm s))).
      * exists b, (<[Z.to_nat f := 0]> rs). split; [apply pmm_ok_refs; try done; lia|done].
      * unfold frame_add_ref, kbind, kget, kget_opt. rewrite (po_refs _ _ _ H). replace (total_frames (mm_pmm s) <=? f) with false by (symmetry; apply Z.leb_gt; lia).
        rewrite Hc. cbn [Z.eqb]. change (255 =? 0) with false. unfold kret. change (u8 (255 + 1)) with 0. by rewrite zset_lt by lia.
  - rewrite (pm_run _ s tt (mm_pmm s)); [by exists b, rs|]. unfold frame_add_ref, kbind, kget. rewrite (po_refs _ _ _ H).
    by replace (total_frames (mm_pmm s) <=? f) with true by (symmetry; apply Z.leb_le; lia).
Qed.

Create HintDb ends discriminated.
#[export] Hint Resolve ends_ret ends_fault ends_panic ends_get ends_words ends_words' ends_load ends_store ends_ctx ends_field ends_free : ends.
(** One step into a computation: its binds, tests and matches. *)
Ltac ends :=
  repeat first [ solve [eauto with ends] | apply ends_bind; [|intros] | progress cbn zeta
               | match goal with |- ends (if ?c then _ else _) => destruct c | |- ends (match ?o with Some _ => _ | None => _ end) => destruct o end ].

(** The frame that [pmm_first_free] gives is not negative, and if it is a frame, marking
    it leaves less to give. *)
Lemma ends_free_bind {A} (k : Z → kM mmu A) : (∀ f, 0 ≤ f → ends (k f)) → ends (let* f := pm pmm_first_free in k f).
Proof.
  intros Hk s b rs H. destruct (first_free_run _ b rs H) as (f & b1 & E & H1 & M & _ & R). rewrite (kbind_ret _ _ _ _ _ (pm_run _ s _ _ E)).
  assert (0 ≤ f) as Hf by (destruct R as [[-> _]|[? _]]; [done|lia]). set (s1 := with_mm_pmm (with_bitmap b1 (mm_pmm s)) s).
  specialize (Hk f Hf s1 b1 rs H1). destruct (k f s1) as [a2 s2| | | |]; try done. destruct Hk as (b2 & rs2 & H2 & T2 & L2). exists b2, rs2.
  split; [done|]. split; [done|]. pose proof (avail_mono (total s) b b1 M). change (total s1) with (total s) in L2. lia.
Qed.
Lemma ends_alloc : ends alloc_table.
Proof. apply ends_free_bind. intros f Hf. destruct (f =? NO_FRAME); [apply ends_panic|]. apply ends_bind; [by apply ends_set|intros _]. ends. Qed.
#[export] Hint Resolve ends_alloc : ends.
Lemma ends_goa parent i flags : ends (get_or_alloc_table parent i flags).
Proof. unfold get_or_alloc_table. ends. Qed.
#[export] Hint Resolve ends_goa : ends.
Lemma ends_tables pml4 v flags : ends (get_tables pml4 v flags).
Proof. unfold get_tables. ends. Qed.
#[export] Hint Resolve ends_tables : ends.
Lemma ends_map ctx v phys flags : ends (mmu_map_page ctx v phys flags).
Proof. unfold mmu_map_page. ends. Qed.
Lemma ends_entry ctx v : ends (mmu_get_entry ctx v).
Proof. unfold mmu_get_entry. ends. Qed.
#[export] Hint Resolve ends_map ends_entry : ends.
Lemma ends_page v make dir : ends (get_page v make dir).
Proof. unfold get_page. ends. Qed.
#[export] Hint Resolve ends_page : ends.
Lemma ends_base pd v : ends (page_base pd v).
Proof. unfold page_base. ends. Qed.
Lemma ends_write a l : ends (phys_write a l).
Proof. unfold phys_write. ends. Qed.
#[export] Hint Resolve ends_base ends_write : ends.

(** ** The loops *)

(** The turns that are left for [left] bytes at [d], the last test included. *)
Definition turns (d left : Z) : Z := if left <=? 0 then 1 else (d mod 4096 + left + 4095) / 4096 + 1.
Lemma u64_page x : u64 x mod 4096 = x mod 4096.
Proof. unfold u64. apply Z.mod_mod_divide. exists 4503599627370496. done. Qed.
Lemma turns_less d left : 0 < left → turns (u64 (d + Z.min (4096 - d mod 4096) left)) (left - Z.min (4096 - d mod 4096) left) < turns d left.
Proof.
  intros Hl. pose proof (Z.mod_pos_bound d 4096 ltac:(lia)). pose proof (Z.div_mod d 4096 ltac:(lia)). unfold turns.
  replace (left <=? 0) with false by (symmetry; apply Z.leb_gt; lia).
  assert (1 ≤ (d mod 4096 + left + 4095) / 4096) by (apply Z.div_le_lower_bound; lia).
  set (n := Z.min _ left). destruct (Z.leb_spec (left - n) 0); [lia|]. rewrite u64_page.
  replace ((d + n) mod 4096) with 0; [|symmetry; replace (d + n) with ((d / 4096 + 1) * 4096) by lia; apply Z.mod_mul; lia].
  replace (d mod 4096 + left + 4095) with (0 + (left - n) + 4095 + 1 * 4096) by lia. rewrite Z.div_add by lia. lia.
Qed.
Lemma turns_pos d left : 1 ≤ turns d left.
Proof.
  unfold turns. destruct (Z.leb_spec left 0); [lia|]. pose proof (Z.mod_pos_bound d 4096 ltac:(lia)).
  pose proof (Z.div_pos (d mod 4096 + left + 4095) 4096 ltac:(lia) ltac:(lia)). lia.
Qed.
Lemma turns_chunks d n : 0 ≤ n → turns d n ≤ Z.of_nat (chunks n).
Proof.
  intros Hn. pose proof (chunks_enough d n Hn). unfold turns. destruct (Z.leb_spec n 0); [|lia]. pose proof (Z.mod_pos_bound d 4096 ltac:(lia)).
  pose proof (Z.div_pos (d mod 4096 + n + 4095) 4096 ltac:(lia) ltac:(lia)). lia.
Qed.

Lemma ends_copy image pd : ∀ fuel src d left, turns d left ≤ Z.of_nat fuel → ends (copy_segment fuel image pd src d left).
Proof.
  induction fuel as [|fuel IH]; intros src d left Hf; [pose proof (turns_pos d left); lia|]. cbn [copy_segment].
  destruct (Z.ltb_spec 0 left) as [Hl|]; [|ends]. pose proof (turns_less d left Hl). cbn zeta. apply ends_bind; [ends|intros [f|]; [|ends]].
  destruct (_ && _); [|ends]. apply ends_bind; [ends|intros _]. apply IH. lia.
Qed.
Lemma ends_zero pd : ∀ fuel d left, turns d left ≤ Z.of_nat fuel → ends (zero_segment fuel pd d left).
Proof.
  induction fuel as [|fuel IH]; intros d left Hf; [pose proof (turns_pos d left); lia|]. cbn [zero_segment].
  destruct (Z.ltb_spec 0 left) as [Hl|]; [|ends]. pose proof (turns_less d left Hl). cbn zeta. apply ends_bind; [ends|intros [f|]; [|ends]].
  apply ends_bind; [ends|intros _]. apply IH. lia.
Qed.
Lemma ends_fill image pd ph : 0 ≤ p_filesz ph → ends (fill_segment image pd ph).
Proof.
  intros Hp. unfold fill_segment. apply ends_bind; [by apply ends_copy, turns_chunks|intros [d|]; [|ends]].
  destruct (Z.ltb_spec (p_filesz ph) (p_memsz ph)); [|ends]. apply ends_bind; [apply ends_zero, turns_chunks; lia|ends].
Qed.

(** The 32-bit loader: the range does not wrap around. *)
Lemma ends_map32 pd v : ends (map32_page pd v).
Proof.
  unfold map32_page. apply ends_bind; [ends|intros [p|]; [|ends]]. apply ends_bind; [ends|intros e]. destruct (negb _); [|ends].
  apply ends_free_bind. intros f Hf. apply ends_bind; [ends|intros _]. apply ends_bind; [ends|intros e']. apply ends_bind; [ends|intros _]. by apply ends_ref.
Qed.
Lemma ends_pages32 pd stop : ∀ fuel v, (Z.to_nat ((stop - v + 4095) / 4096) < fuel)%nat → ends (map32_pages fuel pd v stop).
Proof.
  induction fuel as [|fuel IH]; intros v Hf; [lia|]. cbn [map32_pages]. destruct (Z.ltb_spec v stop); [|ends]. apply ends_bind; [apply ends_map32|intros _]. apply IH.
  replace (stop - v + 4095) with (stop - (v + 4096) + 4095 + 1 * 4096) in Hf by lia. rewrite Z.div_add in Hf by lia.
  pose proof (Z.div_pos (stop - v - 1) 4096 ltac:(lia) ltac:(lia)). replace (stop - (v + 4096) + 4095) with (stop - v - 1) in * by lia. lia.
Qed.

(** The 64-bit loader: every page takes a frame. *)
Lemma ends_map64 pd v : ends (map64_page pd v) ∧ ∀ s b rs s', pmm_ok (mm_pmm s) b rs → map64_page pd v s = Ret true s' →
  ∃ b' rs', pmm_ok (mm_pmm s') b' rs' ∧ total s' = total s ∧ (avail (total s) b' < avail (total s) b)%nat.
Proof.
  assert (∀ f, 0 ≤ f → ends (kmodify (λ s, with_mm_word (zero_page (f * 4096) (mm_word s)) s) ;;;
    (let* r := mmu_map_page pd v (f * 4096) 7 in if negb (r =? 0) then kret false else pm (frame_add_ref f) ;;; kret true))) as Hrest.
  { intros f Hf. apply ends_bind; [ends|intros _]. apply ends_bind; [ends|intros r]. destruct (negb _); [ends|]. apply ends_bind; [by apply ends_ref|ends]. }
  split.
  - apply ends_free_bind. intros f Hf. destruct (f =? NO_FRAME); [ends|]. apply ends_bind; [by apply ends_set|intros _]. by apply Hrest.
  - intros s b rs s' H. unfold map64_page. destruct (first_free_run _ b rs H) as (f & b1 & E & H1 & M & _ & R). rewrite (kbind_ret _ _ _ _ _ (pm_run _ s _ _ E)).
    destruct R as [[-> _]|(Hf0 & Hf & Hb & Hb1 & _)]; [done|]. pose proof (po_total _ _ _ H).
    replace (f =? NO_FRAME) with false by (symmetry; apply Z.eqb_neq; unfold NO_FRAME; lia).
    destruct (set_frame_run (with_bitmap b1 (mm_pmm s)) b1 rs f H1 ltac:(cbn; lia)) as (b2 & E2 & H2 & B2). set (s1 := with_mm_pmm (with_bitmap b1 (mm_pmm s)) s).
    rewrite (kbind_ret _ _ _ _ _ (pm_run _ s1 _ _ E2)). set (s2 := with_mm_pmm _ s1). specialize (Hrest f Hf0 s2 b2 rs H2). intros Er. cbn zeta in Er. rewrite Er in Hrest.
    destruct Hrest as (b3 & rs3 & H3 & T3 & L3). exists b3, rs3. split; [done|]. split; [done|]. change (total s2) with (total s) in L3.
    assert (avail (total s) b2 < avail (total s) b)%nat; [|lia]. apply (avail_less _ _ _ f); [intros g Hg Hgb; by rewrite B2, M|unfold total; lia|done|].
    rewrite B2, Z.eqb_refl by done. apply orb_true_r.
Qed.
Lemma ends_pages64 pd stop : ∀ fuel v s b rs, pmm_ok (mm_pmm s) b rs → (avail (total s) b < fuel)%nat →
  match map64_pages fuel pd v stop s with
  | Ret _ s' => ∃ b' rs', pmm_ok (mm_pmm s') b' rs' ∧ total s' = total s ∧ (avail (total s) b' ≤ avail (total s) b)%nat
  | NoFuel => False
  | _ => True
  end.
Proof.
  induction fuel as [|fuel IH]; intros v s b rs H Hf; [lia|]. cbn [map64_pages]. destruct (v <? stop); [|by exists b, rs].
  destruct (ends_map64 pd v) as [Hend Hless]. specialize (Hend s b rs H). specialize (Hless s b rs). unfold kbind.
  destruct (map64_page pd v s) as [ok s1| | | |]; try done. destruct ok; [|done]. destruct (Hless s1 H eq_refl) as (b1 & rs1 & H1 & T1 & L1).
  specialize (IH (u64 (v + 4096)) s1 b1 rs1 H1). rewrite T1 in IH. specialize (IH ltac:(lia)). destruct (map64_pages fuel pd _ stop s1) as [a s2| | | |]; try done.
  destruct IH as (b2 & rs2 & H2 & T2 & L2). exists b2, rs2. split; [done|]. split; [done|lia].
Qed.
Lemma ends_load64 image pd ph : 0 ≤ p_filesz ph → ends (load64_segment image pd ph).
Proof.
  intros Hp s b rs H. unfold load64_segment. rewrite (kbind_ret kget _ s s s eq_refl). pose proof (po_total _ _ _ H) as Ht.
  pose proof (ends_pages64 pd (u64 (p_vaddr ph + p_memsz ph)) (map_fuel s) (Z.ldiff (p_vaddr ph) 4095) s b rs H) as E.
  specialize (E ltac:(unfold map_fuel; pose proof (avail_bound (total s) b ltac:(unfold total; lia)); unfold total in *; lia)). unfold kbind.
  destruct (map64_pages _ _ _ _ s) as [ok s1| | | |]; try done. destruct ok; [|done]. destruct E as (b1 & rs1 & H1 & T1 & L1).
  pose proof (ends_fill image pd ph Hp s1 b1 rs1 H1) as E2. destruct (fill_segment image pd ph s1) as [a s2| | | |]; try done.
  destruct E2 as (b2 & rs2 & H2 & T2 & L2). exists b2, rs2. rewrite T1 in *. split; [done|]. split; [done|lia].
Qed.

(** ** The loaders *)

Lemma ends_field_bind {A} n image off (k : Z → kM mmu A) : bytes image → (∀ x, 0 ≤ x → ends (k x)) → ends (let* x := field n image off in k x).
Proof.
  intros Hb Hk s b rs H. unfold field, kbind. destruct (_ && _); [|done]. refine (Hk (rd n image off) _ s b rs H). unfold rd. by apply le_val_bound, slice_bytes.
Qed.
Lemma ends_assoc {A B C} (c : kM mmu A) (f : A → kM mmu B) (g : B → kM mmu C) : ends (let* a := c in let* b := f a in g b) → ends (let* b := (let* a := c in f a) in g b).
Proof. intros H s b rs Hp. specialize (H s b rs Hp). unfold kbind in *. by destruct (c s). Qed.
Lemma ends_ret_bind {A B} (a : A) (k : A → kM mmu B) : ends (k a) → ends (let* x := kret a in k x).
Proof. done. Qed.

Definition size_ok (o : option elf_phdr) : Prop := match o with Some ph => 0 ≤ p_filesz ph | None => True end.
(** A sequence of fields, then the header they make. *)
Ltac ends_fields Hb Hk :=
  repeat (apply ends_assoc; apply ends_field_bind; [exact Hb|intros ? ?]); apply ends_ret_bind; apply Hk; try exact Logic.I; cbn; assumption.
Lemma ends_phdr64 {A} image phoff i (k : option elf_phdr → kM mmu A) : bytes image → (∀ o, size_ok o → ends (k o)) → ends (let* o := elf64_phdr image phoff i in k o).
Proof.
  intros Hb Hk. unfold elf64_phdr. cbn zeta. apply ends_assoc, ends_field_bind; [done|intros t Ht]. destruct (negb _); ends_fields Hb Hk.
Qed.
Lemma ends_phdr32 {A} image phoff i (k : option elf_phdr → kM mmu A) : bytes image → (∀ o, size_ok o → ends (k o)) → ends (let* o := elf32_phdr image phoff i in k o).
Proof.
  intros Hb Hk. unfold elf32_phdr. cbn zeta. apply ends_assoc, ends_field_bind; [done|intros t Ht]. destruct (negb _); ends_fields Hb Hk.
Qed.

Lemma ends_segments64 image phoff pd : bytes image → ∀ n i, ends (elf64_segments n i image phoff pd).
Proof.
  intros Hb. induction n as [|n IH]; intros i; cbn [elf64_segments]; [ends|]. apply ends_phdr64; [done|intros [ph|] Hs; [|apply IH]].
  apply ends_bind; [by apply ends_load64|intros []; [apply IH|ends]].
Qed.
Lemma ends_segments32 image phoff pd : bytes image → ∀ n i, ends (elf32_segments n i image phoff pd).
Proof.
  intros Hb. induction n as [|n IH]; intros i; cbn [elf32_segments]; [ends|]. apply ends_phdr32; [done|intros [ph|] Hs; [|apply IH]].
  apply ends_bind; [apply ends_pages32; unfold pages; lia|intros _]. apply ends_bind; [by apply ends_fill|intros []; [apply IH|ends]].
Qed.
Lemma ends_ehdr64 image : ends (elf64_ehdr image).
Proof. unfold elf64_ehdr. ends. Qed.
Lemma ends_ehdr32 image : ends (elf32_ehdr image).
Proof. unfold elf32_ehdr. ends. Qed.
#[export] Hint Resolve ends_ehdr64 ends_ehdr32 : ends.
Lemma ends_load_image image pd : bytes image → ends (elf_load_image_from_buffer image pd).
Proof.
  intros Hb. unfold elf_load_image_from_buffer, elf32_load_segments, elf64_load_segments. destruct (pd =? 0); [ends|]. apply ends_bind; [ends|intros c].
  destruct (c =? ELFCLASS32); [|destruct (c =? ELFCLASS64); [|ends]].
  all: apply ends_bind; [ends|intros eh]; apply ends_bind; [apply ends_bind; [ends|intros eh2; by first [apply ends_segments32|apply ends_segments64]]|ends].
Qed.


(** A segment that claims to end just below the end of the address space: the range of
    its pages wraps around. *)
Definition wrapping_image : list Z := Bytes.wr 8 (Bytes.wr 8 demo_image 80 18446744073709543424) 104 8191.
