(* ===== verification/Kernel.v ===== *)
(** * The shared kernel state

    The objects the core passes around by pointer, and the globals of
    [kernel/core]: tasks ([task.h]), open files and nodes ([vfs_core.h]), pipes
    ([pipe.h]) and heap buffers, each in a store indexed by address.  Address 0 is
    NULL.  [kmalloc] hands out addresses that were never used before, so that an
    access to a freed object finds nothing in the store and is a [Fault].  File
    systems are behind the function pointers of a node: an address of a driver
    function is interpreted by the class [FsDriver]. *)

From stdpp Require Import base numbers list gmap strings.
From Stdlib Require Import ZArith Lia.
From S2P Require Import Prelude.

#[local] Open Scope Z_scope.

(** ** Constants of [vfs_core.h], [task.h], [pipe.h] and [signal.h] *)

Definition FS_FILE : Z := 1.
Definition FS_DIRECTORY : Z := 2.
Definition FS_CHARDEVICE : Z := 3.
Definition FS_MOUNTPOINT : Z := 8.
Definition FS_TRANSIENT : Z := 16.
Definition FS_IMPL_HEAP : Z := 32.
Definition FS_PIPE : Z := 4096.
Definition FS_PERSISTENT : Z := 8192.
Definition MAX_FD : Z := 32.
Definition FIRST_USER_FD : Z := 3.
Definition O_RDONLY : Z := 0.
Definition O_WRONLY : Z := 1.
Definition O_RDWR : Z := 2.
Definition O_CREAT : Z := 64.
Definition O_TRUNC : Z := 512.
Definition PIPE_SIZE : Z := 4096.
Definition TASK_READY : Z := 0.
Definition TASK_RUNNING : Z := 1.
Definition TASK_WAITING : Z := 2.
Definition TASK_ZOMBIE : Z := 3.
Definition TASK_MAGIC : Z := 3405691582.
Definition MAX_TASKS : Z := 128.
Definition MAX_MOUNTS : Z := 8.
Definition SIGINT : Z := 2.
Definition SIGKILL : Z := 9.
Definition SIGTERM : Z := 15.
Definition SIGCHLD : Z := 17.
Definition SIG_BIT (sig : Z) : Z := Z.shiftl 1 sig.

(** Addresses of the node callbacks that live in the core; every other non-zero
    address belongs to a file-system driver. *)
Definition std_read_fn : Z := 1.
Definition std_write_fn : Z := 2.
Definition mock_read_fn : Z := 3.
Definition mock_write_fn : Z := 4.
Definition pipe_read_fn : Z := 5.
Definition pipe_write_fn : Z := 6.

(** ** Objects *)

(** [pipe_t]; [p_waiting] is [waiting_task]. *)
Record pipe_t : Type := mk_pipe {
  p_buffer : list Z;
  p_head : Z;
  p_tail : Z;
  p_len : Z;
  p_size : Z;
  p_readers : Z;
  p_writers : Z;
  p_waiting : Z }.

Definition with_p_buffer (v : list Z) (x : pipe_t) : pipe_t :=
  {| p_buffer := v; p_head := p_head x; p_tail := p_tail x; p_len := p_len x; p_size
     := p_size x; p_readers := p_readers x; p_writers := p_writers x; p_waiting :=
     p_waiting x |}.
Definition with_p_head (v : Z) (x : pipe_t) : pipe_t :=
  {| p_buffer := p_buffer x; p_head := v; p_tail := p_tail x; p_len := p_len x; p_size
     := p_size x; p_readers := p_readers x; p_writers := p_writers x; p_waiting :=
     p_waiting x |}.
Definition with_p_tail (v : Z) (x : pipe_t) : pipe_t :=
  {| p_buffer := p_buffer x; p_head := p_head x; p_tail := v; p_len := p_len x; p_size
     := p_size x; p_readers := p_readers x; p_writers := p_writers x; p_waiting :=
     p_waiting x |}.
Definition with_p_len (v : Z) (x : pipe_t) : pipe_t :=
  {| p_buffer := p_buffer x; p_head := p_head x; p_tail := p_tail x; p_len := v;
     p_size := p_size x; p_readers := p_readers x; p_writers := p_writers x; p_waiting
     := p_waiting x |}.
Definition with_p_size (v : Z) (x : pipe_t) : pipe_t :=
  {| p_buffer := p_buffer x; p_head := p_head x; p_tail := p_tail x; p_len := p_len x;
     p_size := v; p_readers := p_readers x; p_writers := p_writers x; p_waiting :=
     p_waiting x |}.
Definition with_p_readers (v : Z) (x : pipe_t) : pipe_t :=
  {| p_buffer := p_buffer x; p_head := p_head x; p_tail := p_tail x; p_len := p_len x;
     p_size := p_size x; p_readers := v; p_writers := p_writers x; p_waiting :=
     p_waiting x |}.
Definition with_p_writers (v : Z) (x : pipe_t) : pipe_t :=
  {| p_buffer := p_buffer x; p_head := p_head x; p_tail := p_tail x; p_len := p_len x;
     p_size := p_size x; p_readers := p_readers x; p_writers := v; p_waiting :=
     p_waiting x |}.
Definition with_p_waiting (v : Z) (x : pipe_t) : pipe_t :=
  {| p_buffer := p_buffer x; p_head := p_head x; p_tail := p_tail x; p_len := p_len x;
     p_size := p_size x; p_readers := p_readers x; p_writers := p_writers x; p_waiting
     := v |}.

(** What the pointer field [impl] of a node holds: nothing, a heap buffer, a
    pipe, or a number that is not an address at all (the FAT32 driver keeps the
    parent's cluster there). *)
Inductive impl_t : Type :=
| ImplNull
| ImplBuf (b : Z)
| ImplPipe (p : Z)
| ImplNum (n : Z).
#[export] Instance impl_eq_dec : EqDecision impl_t.
Proof. solve_decision. Defined.

(** [fs_node_t]; a callback is the address of its function, 0 for none. *)
Record fs_node_t : Type := mk_node {
  n_name : list Z;
  n_mask : Z;
  n_flags : Z;
  n_inode : Z;
  n_length : Z;
  n_impl : impl_t;
  n_read : Z;
  n_write : Z;
  n_open : Z;
  n_close : Z;
  n_readdir : Z;
  n_finddir : Z;
  n_create : Z;
  n_mkdir : Z;
  n_unlink : Z }.

Definition with_n_name (v : list Z) (x : fs_node_t) : fs_node_t :=
  {| n_name := v; n_mask := n_mask x; n_flags := n_flags x; n_inode := n_inode x;
     n_length := n_length x; n_impl := n_impl x; n_read := n_read x; n_write :=
     n_write x; n_open := n_open x; n_close := n_close x; n_readdir := n_readdir x;
     n_finddir := n_finddir x; n_create := n_create x; n_mkdir := n_mkdir x; n_unlink
     := n_unlink x |}.
Definition with_n_mask (v : Z) (x : fs_node_t) : fs_node_t :=
  {| n_name := n_name x; n_mask := v; n_flags := n_flags x; n_inode := n_inode x;
     n_length := n_length x; n_impl := n_impl x; n_read := n_read x; n_write :=
     n_write x; n_open := n_open x; n_close := n_close x; n_readdir := n_readdir x;
     n_finddir := n_finddir x; n_create := n_create x; n_mkdir := n_mkdir x; n_unlink
     := n_unlink x |}.
Definition with_n_flags (v : Z) (x : fs_node_t) : fs_node_t :=
  {| n_name := n_name x; n_mask := n_mask x; n_flags := v; n_inode := n_inode x;
     n_length := n_length x; n_impl := n_impl x; n_read := n_read x; n_write :=
     n_write x; n_open := n_open x; n_close := n_close x; n_readdir := n_readdir x;
     n_finddir := n_finddir x; n_create := n_create x; n_mkdir := n_mkdir x; n_unlink
     := n_unlink x |}.
Definition with_n_inode (v : Z) (x : fs_node_t) : fs_node_t :=
  {| n_name := n_name x; n_mask := n_mask x; n_flags := n_flags x; n_inode := v;
     n_length := n_length x; n_impl := n_impl x; n_read := n_read x; n_write :=
     n_write x; n_open := n_open x; n_close := n_close x; n_readdir := n_readdir x;
     n_finddir := n_finddir x; n_create := n_create x; n_mkdir := n_mkdir x; n_unlink
     := n_unlink x |}.
Definition with_n_length (v : Z) (x : fs_node_t) : fs_node_t :=
  {| n_name := n_name x; n_mask := n_mask x; n_flags := n_flags x; n_inode := n_inode
     x; n_length := v; n_impl := n_impl x; n_read := n_read x; n_write := n_write x;
     n_open := n_open x; n_close := n_close x; n_readdir := n_readdir x; n_finddir :=
     n_finddir x; n_create := n_create x; n_mkdir := n_mkdir x; n_unlink := n_unlink x |}.
Definition with_n_impl (v : impl_t) (x : fs_node_t) : fs_node_t :=
  {| n_name := n_name x; n_mask := n_mask x; n_flags := n_flags x; n_inode := n_inode
     x; n_length := n_length x; n_impl := v; n_read := n_read x; n_write := n_write x;
     n_open := n_open x; n_close := n_close x; n_readdir := n_readdir x; n_finddir :=
     n_finddir x; n_create := n_create x; n_mkdir := n_mkdir x; n_unlink := n_unlink x |}.

(** [file_t] *)
Record file_t : Type := mk_file {
  f_node : Z;
  f_offset : Z;
  f_flags : Z;
  f_refcount : Z }.

Definition with_f_offset (v : Z) (x : file_t) : file_t :=
  {| f_node := f_node x; f_offset := v; f_flags := f_flags x; f_refcount := f_refcount
     x |}.
Definition with_f_refcount (v : Z) (x : file_t) : file_t :=
  {| f_node := f_node x; f_offset := f_offset x; f_flags := f_flags x; f_refcount := v |}.

(** [task_t] *)
Record task_t : Type := mk_task {
  t_magic : Z;
  t_id : Z;
  t_user_esp : Z;
  t_user_eip : Z;
  t_kernel_stack : Z;
  t_kernel_stack_base : Z;
  t_page_directory : Z;
  t_parent : Z;
  t_state : Z;
  t_capabilities : Z;
  t_fd_table : list Z;
  t_cwd : list Z;
  t_next : Z;
  t_pending_signals : Z;
  t_sigterm_handler : Z;
  t_saved_eip : Z;
  t_saved_esp : Z;
  t_in_signal : Z;
  t_sleep_until : Z;
  t_sleep_next : Z;
  t_exit_code : Z;
  t_ticks : Z }.

Definition with_t_id (v : Z) (x : task_t) : task_t :=
  {| t_magic := t_magic x; t_id := v; t_user_esp := t_user_esp x; t_user_eip :=
     t_user_eip x; t_kernel_stack := t_kernel_stack x; t_kernel_stack_base :=
     t_kernel_stack_base x; t_page_directory := t_page_directory x; t_parent :=
     t_parent x; t_state := t_state x; t_capabilities := t_capabilities x; t_fd_table
     := t_fd_table x; t_cwd := t_cwd x; t_next := t_next x; t_pending_signals :=
     t_pending_signals x; t_sigterm_handler := t_sigterm_handler x; t_saved_eip :=
     t_saved_eip x; t_saved_esp := t_saved_esp x; t_in_signal := t_in_signal x;
     t_sleep_until := t_sleep_until x; t_sleep_next := t_sleep_next x; t_exit_code :=
     t_exit_code x; t_ticks := t_ticks x |}.
Definition with_t_user_esp (v : Z) (x : task_t) : task_t :=
  {| t_magic := t_magic x; t_id := t_id x; t_user_esp := v; t_user_eip := t_user_eip
     x; t_kernel_stack := t_kernel_stack x; t_kernel_stack_base := t_kernel_stack_base
     x; t_page_directory := t_page_directory x; t_parent := t_parent x; t_state :=
     t_state x; t_capabilities := t_capabilities x; t_fd_table := t_fd_table x; t_cwd
     := t_cwd x; t_next := t_next x; t_pending_signals := t_pending_signals x;
     t_sigterm_handler := t_sigterm_handler x; t_saved_eip := t_saved_eip x;
     t_saved_esp := t_saved_esp x; t_in_signal := t_in_signal x; t_sleep_until :=
     t_sleep_until x; t_sleep_next := t_sleep_next x; t_exit_code := t_exit_code x;
     t_ticks := t_ticks x |}.
Definition with_t_user_eip (v : Z) (x : task_t) : task_t :=
  {| t_magic := t_magic x; t_id := t_id x; t_user_esp := t_user_esp x; t_user_eip :=
     v; t_kernel_stack := t_kernel_stack x; t_kernel_stack_base := t_kernel_stack_base
     x; t_page_directory := t_page_directory x; t_parent := t_parent x; t_state :=
     t_state x; t_capabilities := t_capabilities x; t_fd_table := t_fd_table x; t_cwd
     := t_cwd x; t_next := t_next x; t_pending_signals := t_pending_signals x;
     t_sigterm_handler := t_sigterm_handler x; t_saved_eip := t_saved_eip x;
     t_saved_esp := t_saved_esp x; t_in_signal := t_in_signal x; t_sleep_until :=
     t_sleep_until x; t_sleep_next := t_sleep_next x; t_exit_code := t_exit_code x;
     t_ticks := t_ticks x |}.
Definition with_t_kernel_stack (v : Z) (x : task_t) : task_t :=
  {| t_magic := t_magic x; t_id := t_id x; t_user_esp := t_user_esp x; t_user_eip :=
     t_user_eip x; t_kernel_stack := v; t_kernel_stack_base := t_kernel_stack_base x;
     t_page_directory := t_page_directory x; t_parent := t_parent x; t_state :=
     t_state x; t_capabilities := t_capabilities x; t_fd_table := t_fd_table x; t_cwd
     := t_cwd x; t_next := t_next x; t_pending_signals := t_pending_signals x;
     t_sigterm_handler := t_sigterm_handler x; t_saved_eip := t_saved_eip x;
     t_saved_esp := t_saved_esp x; t_in_signal := t_in_signal x; t_sleep_until :=
     t_sleep_until x; t_sleep_next := t_sleep_next x; t_exit_code := t_exit_code x;
     t_ticks := t_ticks x |}.
Definition with_t_kernel_stack_base (v : Z) (x : task_t) : task_t :=
  {| t_magic := t_magic x; t_id := t_id x; t_user_esp := t_user_esp x; t_user_eip :=
     t_user_eip x; t_kernel_stack := t_kernel_stack x; t_kernel_stack_base := v;
     t_page_directory := t_page_directory x; t_parent := t_parent x; t_state :=
     t_state x; t_capabilities := t_capabilities x; t_fd_table := t_fd_table x; t_cwd
     := t_cwd x; t_next := t_next x; t_pending_signals := t_pending_signals x;
     t_sigterm_handler := t_sigterm_handler x; t_saved_eip := t_saved_eip x;
     t_saved_esp := t_saved_esp x; t_in_signal := t_in_signal x; t_sleep_until :=
     t_sleep_until x; t_sleep_next := t_sleep_next x; t_exit_code := t_exit_code x;
     t_ticks := t_ticks x |}.
Definition with_t_page_directory (v : Z) (x : task_t) : task_t :=
  {| t_magic := t_magic x; t_id := t_id x; t_user_esp := t_user_esp x; t_user_eip :=
     t_user_eip x; t_kernel_stack := t_kernel_stack x; t_kernel_stack_base :=
     t_kernel_stack_base x; t_page_directory := v; t_parent := t_parent x; t_state :=
     t_state x; t_capabilities := t_capabilities x; t_fd_table := t_fd_table x; t_cwd
     := t_cwd x; t_next := t_next x; t_pending_signals := t_pending_signals x;
     t_sigterm_handler := t_sigterm_handler x; t_saved_eip := t_saved_eip x;
     t_saved_esp := t_saved_esp x; t_in_signal := t_in_signal x; t_sleep_until :=
     t_sleep_until x; t_sleep_next := t_sleep_next x; t_exit_code := t_exit_code x;
     t_ticks := t_ticks x |}.
Definition with_t_parent (v : Z) (x : task_t) : task_t :=
  {| t_magic := t_magic x; t_id := t_id x; t_user_esp := t_user_esp x; t_user_eip :=
     t_user_eip x; t_kernel_stack := t_kernel_stack x; t_kernel_stack_base :=
     t_kernel_stack_base x; t_page_directory := t_page_directory x; t_parent := v;
     t_state := t_state x; t_capabilities := t_capabilities x; t_fd_table :=
     t_fd_table x; t_cwd := t_cwd x; t_next := t_next x; t_pending_signals :=
     t_pending_signals x; t_sigterm_handler := t_sigterm_handler x; t_saved_eip :=
     t_saved_eip x; t_saved_esp := t_saved_esp x; t_in_signal := t_in_signal x;
     t_sleep_until := t_sleep_until x; t_sleep_next := t_sleep_next x; t_exit_code :=
     t_exit_code x; t_ticks := t_ticks x |}.
Definition with_t_state (v : Z) (x : task_t) : task_t :=
  {| t_magic := t_magic x; t_id := t_id x; t_user_esp := t_user_esp x; t_user_eip :=
     t_user_eip x; t_kernel_stack := t_kernel_stack x; t_kernel_stack_base :=
     t_kernel_stack_base x; t_page_directory := t_page_directory x; t_parent :=
     t_parent x; t_state := v; t_capabilities := t_capabilities x; t_fd_table :=
     t_fd_table x; t_cwd := t_cwd x; t_next := t_next x; t_pending_signals :=
     t_pending_signals x; t_sigterm_handler := t_sigterm_handler x; t_saved_eip :=
     t_saved_eip x; t_saved_esp := t_saved_esp x; t_in_signal := t_in_signal x;
     t_sleep_until := t_sleep_until x; t_sleep_next := t_sleep_next x; t_exit_code :=
     t_exit_code x; t_ticks := t_ticks x |}.
Definition with_t_capabilities (v : Z) (x : task_t) : task_t :=
  {| t_magic := t_magic x; t_id := t_id x; t_user_esp := t_user_esp x; t_user_eip :=
     t_user_eip x; t_kernel_stack := t_kernel_stack x; t_kernel_stack_base :=
     t_kernel_stack_base x; t_page_directory := t_page_directory x; t_parent :=
     t_parent x; t_state := t_state x; t_capabilities := v; t_fd_table := t_fd_table
     x; t_cwd := t_cwd x; t_next := t_next x; t_pending_signals := t_pending_signals
     x; t_sigterm_handler := t_sigterm_handler x; t_saved_eip := t_saved_eip x;
     t_saved_esp := t_saved_esp x; t_in_signal := t_in_signal x; t_sleep_until :=
     t_sleep_until x; t_sleep_next := t_sleep_next x; t_exit_code := t_exit_code x;
     t_ticks := t_ticks x |}.
Definition with_t_fd_table (v : list Z) (x : task_t) : task_t :=
  {| t_magic := t_magic x; t_id := t_id x; t_user_esp := t_user_esp x; t_user_eip :=
     t_user_eip x; t_kernel_stack := t_kernel_stack x; t_kernel_stack_base :=
     t_kernel_stack_base x; t_page_directory := t_page_directory x; t_parent :=
     t_parent x; t_state := t_state x; t_capabilities := t_capabilities x; t_fd_table
     := v; t_cwd := t_cwd x; t_next := t_next x; t_pending_signals :=
     t_pending_signals x; t_sigterm_handler := t_sigterm_handler x; t_saved_eip :=
     t_saved_eip x; t_saved_esp := t_saved_esp x; t_in_signal := t_in_signal x;
     t_sleep_until := t_sleep_until x; t_sleep_next := t_sleep_next x; t_exit_code :=
     t_exit_code x; t_ticks := t_ticks x |}.
Definition with_t_cwd (v : list Z) (x : task_t) : task_t :=
  {| t_magic := t_magic x; t_id := t_id x; t_user_esp := t_user_esp x; t_user_eip :=
     t_user_eip x; t_kernel_stack := t_kernel_stack x; t_kernel_stack_base :=
     t_kernel_stack_base x; t_page_directory := t_page_directory x; t_parent :=
     t_parent x; t_state := t_state x; t_capabilities := t_capabilities x; t_fd_table
     := t_fd_table x; t_cwd := v; t_next := t_next x; t_pending_signals :=
     t_pending_signals x; t_sigterm_handler := t_sigterm_handler x; t_saved_eip :=
     t_saved_eip x; t_saved_esp := t_saved_esp x; t_in_signal := t_in_signal x;
     t_sleep_until := t_sleep_until x; t_sleep_next := t_sleep_next x; t_exit_code :=
     t_exit_code x; t_ticks := t_ticks x |}.
Definition with_t_next (v : Z) (x : task_t) : task_t :=
  {| t_magic := t_magic x; t_id := t_id x; t_user_esp := t_user_esp x; t_user_eip :=
     t_user_eip x; t_kernel_stack := t_kernel_stack x; t_kernel_stack_base :=
     t_kernel_stack_base x; t_page_directory := t_page_directory x; t_parent :=
     t_parent x; t_state := t_state x; t_capabilities := t_capabilities x; t_fd_table
     := t_fd_table x; t_cwd := t_cwd x; t_next := v; t_pending_signals :=
     t_pending_signals x; t_sigterm_handler := t_sigterm_handler x; t_saved_eip :=
     t_saved_eip x; t_saved_esp := t_saved_esp x; t_in_signal := t_in_signal x;
     t_sleep_until := t_sleep_until x; t_sleep_next := t_sleep_next x; t_exit_code :=
     t_exit_code x; t_ticks := t_ticks x |}.
Definition with_t_pending_signals (v : Z) (x : task_t) : task_t :=
  {| t_magic := t_magic x; t_id := t_id x; t_user_esp := t_user_esp x; t_user_eip :=
     t_user_eip x; t_kernel_stack := t_kernel_stack x; t_kernel_stack_base :=
     t_kernel_stack_base x; t_page_directory := t_page_directory x; t_parent :=
     t_parent x; t_state := t_state x; t_capabilities := t_capabilities x; t_fd_table
     := t_fd_table x; t_cwd := t_cwd x; t_next := t_next x; t_pending_signals := v;
     t_sigterm_handler := t_sigterm_handler x; t_saved_eip := t_saved_eip x;
     t_saved_esp := t_saved_esp x; t_in_signal := t_in_signal x; t_sleep_until :=
     t_sleep_until x; t_sleep_next := t_sleep_next x; t_exit_code := t_exit_code x;
     t_ticks := t_ticks x |}.
Definition with_t_sigterm_handler (v : Z) (x : task_t) : task_t :=
  {| t_magic := t_magic x; t_id := t_id x; t_user_esp := t_user_esp x; t_user_eip :=
     t_user_eip x; t_kernel_stack := t_kernel_stack x; t_kernel_stack_base :=
     t_kernel_stack_base x; t_page_directory := t_page_directory x; t_parent :=
     t_parent x; t_state := t_state x; t_capabilities := t_capabilities x; t_fd_table
     := t_fd_table x; t_cwd := t_cwd x; t_next := t_next x; t_pending_signals :=
     t_pending_signals x; t_sigterm_handler := v; t_saved_eip := t_saved_eip x;
     t_saved_esp := t_saved_esp x; t_in_signal := t_in_signal x; t_sleep_until :=
     t_sleep_until x; t_sleep_next := t_sleep_next x; t_exit_code := t_exit_code x;
     t_ticks := t_ticks x |}.
Definition with_t_saved_eip (v : Z) (x : task_t) : task_t :=
  {| t_magic := t_magic x; t_id := t_id x; t_user_esp := t_user_esp x; t_user_eip :=
     t_user_eip x; t_kernel_stack := t_kernel_stack x; t_kernel_stack_base :=
     t_kernel_stack_base x; t_page_directory := t_page_directory x; t_parent :=
     t_parent x; t_state := t_state x; t_capabilities := t_capabilities x; t_fd_table
     := t_fd_table x; t_cwd := t_cwd x; t_next := t_next x; t_pending_signals :=
     t_pending_signals x; t_sigterm_handler := t_sigterm_handler x; t_saved_eip := v;
     t_saved_esp := t_saved_esp x; t_in_signal := t_in_signal x; t_sleep_until :=
     t_sleep_until x; t_sleep_next := t_sleep_next x; t_exit_code := t_exit_code x;
     t_ticks := t_ticks x |}.
Definition with_t_saved_esp (v : Z) (x : task_t) : task_t :=
  {| t_magic := t_magic x; t_id := t_id x; t_user_esp := t_user_esp x; t_user_eip :=
     t_user_eip x; t_kernel_stack := t_kernel_stack x; t_kernel_stack_base :=
     t_kernel_stack_base x; t_page_directory := t_page_directory x; t_parent :=
     t_parent x; t_state := t_state x; t_capabilities := t_capabilities x; t_fd_table
     := t_fd_table x; t_cwd := t_cwd x; t_next := t_next x; t_pending_signals :=
     t_pending_signals x; t_sigterm_handler := t_sigterm_handler x; t_saved_eip :=
     t_saved_eip x; t_saved_esp := v; t_in_signal := t_in_signal x; t_sleep_until :=
     t_sleep_until x; t_sleep_next := t_sleep_next x; t_exit_code := t_exit_code x;
     t_ticks := t_ticks x |}.
Definition with_t_in_signal (v : Z) (x : task_t) : task_t :=
  {| t_magic := t_magic x; t_id := t_id x; t_user_esp := t_user_esp x; t_user_eip :=
     t_user_eip x; t_kernel_stack := t_kernel_stack x; t_kernel_stack_base :=
     t_kernel_stack_base x; t_page_directory := t_page_directory x; t_parent :=
     t_parent x; t_state := t_state x; t_capabilities := t_capabilities x; t_fd_table
     := t_fd_table x; t_cwd := t_cwd x; t_next := t_next x; t_pending_signals :=
     t_pending_signals x; t_sigterm_handler := t_sigterm_handler x; t_saved_eip :=
     t_saved_eip x; t_saved_esp := t_saved_esp x; t_in_signal := v; t_sleep_until :=
     t_sleep_until x; t_sleep_next := t_sleep_next x; t_exit_code := t_exit_code x;
     t_ticks := t_ticks x |}.
Definition with_t_sleep_until (v : Z) (x : task_t) : task_t :=
  {| t_magic := t_magic x; t_id := t_id x; t_user_esp := t_user_esp x; t_user_eip :=
     t_user_eip x; t_kernel_stack := t_kernel_stack x; t_kernel_stack_base :=
     t_kernel_stack_base x; t_page_directory := t_page_directory x; t_parent :=
     t_parent x; t_state := t_state x; t_capabilities := t_capabilities x; t_fd_table
     := t_fd_table x; t_cwd := t_cwd x; t_next := t_next x; t_pending_signals :=
     t_pending_signals x; t_sigterm_handler := t_sigterm_handler x; t_saved_eip :=
     t_saved_eip x; t_saved_esp := t_saved_esp x; t_in_signal := t_in_signal x;
     t_sleep_until := v; t_sleep_next := t_sleep_next x; t_exit_code := t_exit_code x;
     t_ticks := t_ticks x |}.
Definition with_t_sleep_next (v : Z) (x : task_t) : task_t :=
  {| t_magic := t_magic x; t_id := t_id x; t_user_esp := t_user_esp x; t_user_eip :=
     t_user_eip x; t_kernel_stack := t_kernel_stack x; t_kernel_stack_base :=
     t_kernel_stack_base x; t_page_directory := t_page_directory x; t_parent :=
     t_parent x; t_state := t_state x; t_capabilities := t_capabilities x; t_fd_table
     := t_fd_table x; t_cwd := t_cwd x; t_next := t_next x; t_pending_signals :=
     t_pending_signals x; t_sigterm_handler := t_sigterm_handler x; t_saved_eip :=
     t_saved_eip x; t_saved_esp := t_saved_esp x; t_in_signal := t_in_signal x;
     t_sleep_until := t_sleep_until x; t_sleep_next := v; t_exit_code := t_exit_code
     x; t_ticks := t_ticks x |}.
Definition with_t_exit_code (v : Z) (x : task_t) : task_t :=
  {| t_magic := t_magic x; t_id := t_id x; t_user_esp := t_user_esp x; t_user_eip :=
     t_user_eip x; t_kernel_stack := t_kernel_stack x; t_kernel_stack_base :=
     t_kernel_stack_base x; t_page_directory := t_page_directory x; t_parent :=
     t_parent x; t_state := t_state x; t_capabilities := t_capabilities x; t_fd_table
     := t_fd_table x; t_cwd := t_cwd x; t_next := t_next x; t_pending_signals :=
     t_pending_signals x; t_sigterm_handler := t_sigterm_handler x; t_saved_eip :=
     t_saved_eip x; t_saved_esp := t_saved_esp x; t_in_signal := t_in_signal x;
     t_sleep_until := t_sleep_until x; t_sleep_next := t_sleep_next x; t_exit_code :=
     v; t_ticks := t_ticks x |}.
Definition with_t_ticks (v : Z) (x : task_t) : task_t :=
  {| t_magic := t_magic x; t_id := t_id x; t_user_esp := t_user_esp x; t_user_eip :=
     t_user_eip x; t_kernel_stack := t_kernel_stack x; t_kernel_stack_base :=
     t_kernel_stack_base x; t_page_directory := t_page_directory x; t_parent :=
     t_parent x; t_state := t_state x; t_capabilities := t_capabilities x; t_fd_table
     := t_fd_table x; t_cwd := t_cwd x; t_next := t_next x; t_pending_signals :=
     t_pending_signals x; t_sigterm_handler := t_sigterm_handler x; t_saved_eip :=
     t_saved_eip x; t_saved_esp := t_saved_esp x; t_in_signal := t_in_signal x;
     t_sleep_until := t_sleep_until x; t_sleep_next := t_sleep_next x; t_exit_code :=
     t_exit_code x; t_ticks := v |}.

(** [vfs_mount_t] *)
Record mount_t : Type := mk_mount {
  m_path : list Z;
  m_root : Z;
  m_active : bool }.

Definition with_m_root (v : Z) (x : mount_t) : mount_t :=
  {| m_path := m_path x; m_root := v; m_active := m_active x |}.
Definition with_m_active (v : bool) (x : mount_t) : mount_t :=
  {| m_path := m_path x; m_root := m_root x; m_active := v |}.

(** ** Globals *)

(** The globals of the core: the stores of live objects, the next unused address,
  [current_task], [ready_queue], [sleep_queue], [next_pid], [tick], [irq_depth],
  [fs_root], [std_node], [mount_table], [num_mounts], [debug_pipe_count], what
  was printed, the lines the keyboard will deliver; the words of the kernel
  stacks, [rq_lock], the live page directories with the user bytes they map, the processor's own stack and [_task_switch_rsp], the stack
  of the TSS, [current_directory], [kernel_directory], the idle task of
  processor 0; and the drivers' own state. *)
Record kst (D : Type): Type := mk_kst {
  k_tasks : gmap Z task_t;
  k_files : gmap Z file_t;
  k_nodes : gmap Z fs_node_t;
  k_pipes : gmap Z pipe_t;
  k_bufs : gmap Z (list Z);
  k_stacks : gset Z;
  k_pdirs : gmap Z (gmap Z Z);
  k_fresh : Z;
  k_current : Z;
  k_ready_queue : Z;
  k_sleep_queue : Z;
  k_next_pid : Z;
  k_tick : Z;
  k_irq_depth : Z;
  k_fs_root : Z;
  k_std_node : Z;
  k_mounts : list mount_t;
  k_num_mounts : Z;
  k_pipe_count : Z;
  k_console : list Z;
  k_lines : list (list Z);
  k_mem : gmap Z Z;
  k_rq_lock : bool;
  k_kstack_base : Z;
  k_kstack_top : Z;
  k_switch_rsp : Z;
  k_tss : Z;
  k_directory : Z;
  k_kernel_directory : Z;
  k_idle : Z;
  k_drv : D }.
Arguments mk_kst {D}.
Arguments k_tasks {D}.
Arguments k_files {D}.
Arguments k_nodes {D}.
Arguments k_pipes {D}.
Arguments k_bufs {D}.
Arguments k_stacks {D}.
Arguments k_pdirs {D}.
Arguments k_fresh {D}.
Arguments k_current {D}.
Arguments k_ready_queue {D}.
Arguments k_sleep_queue {D}.
Arguments k_next_pid {D}.
Arguments k_tick {D}.
Arguments k_irq_depth {D}.
Arguments k_fs_root {D}.
Arguments k_std_node {D}.
Arguments k_mounts {D}.
Arguments k_num_mounts {D}.
Arguments k_pipe_count {D}.
Arguments k_console {D}.
Arguments k_lines {D}.
Arguments k_mem {D}.
Arguments k_rq_lock {D}.
Arguments k_kstack_base {D}.
Arguments k_kstack_top {D}.
Arguments k_switch_rsp {D}.
Arguments k_tss {D}.
Arguments k_directory {D}.
Arguments k_kernel_directory {D}.
Arguments k_idle {D}.
Arguments k_drv {D}.

Definition with_k_tasks {D : Type} (v : gmap Z task_t) (x : kst D) : kst D :=
  {| k_tasks := v; k_files := k_files x; k_nodes := k_nodes x; k_pipes := k_pipes x;
     k_bufs := k_bufs x; k_stacks := k_stacks x; k_pdirs := k_pdirs x; k_fresh :=
     k_fresh x; k_current := k_current x; k_ready_queue := k_ready_queue x;
     k_sleep_queue := k_sleep_queue x; k_next_pid := k_next_pid x; k_tick := k_tick x;
     k_irq_depth := k_irq_depth x; k_fs_root := k_fs_root x; k_std_node := k_std_node
     x; k_mounts := k_mounts x; k_num_mounts := k_num_mounts x; k_pipe_count :=
     k_pipe_count x; k_console := k_console x; k_lines := k_lines x; k_mem := k_mem x;
     k_rq_lock := k_rq_lock x; k_kstack_base := k_kstack_base x; k_kstack_top :=
     k_kstack_top x; k_switch_rsp := k_switch_rsp x; k_tss := k_tss x; k_directory :=
     k_directory x; k_kernel_directory := k_kernel_directory x; k_idle := k_idle x;
     k_drv := k_drv x |}.
Definition with_k_files {D : Type} (v : gmap Z file_t) (x : kst D) : kst D :=
  {| k_tasks := k_tasks x; k_files := v; k_nodes := k_nodes x; k_pipes := k_pipes x;
     k_bufs := k_bufs x; k_stacks := k_stacks x; k_pdirs := k_pdirs x; k_fresh :=
     k_fresh x; k_current := k_current x; k_ready_queue := k_ready_queue x;
     k_sleep_queue := k_sleep_queue x; k_next_pid := k_next_pid x; k_tick := k_tick x;
     k_irq_depth := k_irq_depth x; k_fs_root := k_fs_root x; k_std_node := k_std_node
     x; k_mounts := k_mounts x; k_num_mounts := k_num_mounts x; k_pipe_count :=
     k_pipe_count x; k_console := k_console x; k_lines := k_lines x; k_mem := k_mem x;
     k_rq_lock := k_rq_lock x; k_kstack_base := k_kstack_base x; k_kstack_top :=
     k_kstack_top x; k_switch_rsp := k_switch_rsp x; k_tss := k_tss x; k_directory :=
     k_directory x; k_kernel_directory := k_kernel_directory x; k_idle := k_idle x;
     k_drv := k_drv x |}.
Definition with_k_nodes {D : Type} (v : gmap Z fs_node_t) (x : kst D) : kst D :=
  {| k_tasks := k_tasks x; k_files := k_files x; k_nodes := v; k_pipes := k_pipes x;
     k_bufs := k_bufs x; k_stacks := k_stacks x; k_pdirs := k_pdirs x; k_fresh :=
     k_fresh x; k_current := k_current x; k_ready_queue := k_ready_queue x;
     k_sleep_queue := k_sleep_queue x; k_next_pid := k_next_pid x; k_tick := k_tick x;
     k_irq_depth := k_irq_depth x; k_fs_root := k_fs_root x; k_std_node := k_std_node
     x; k_mounts := k_mounts x; k_num_mounts := k_num_mounts x; k_pipe_count :=
     k_pipe_count x; k_console := k_console x; k_lines := k_lines x; k_mem := k_mem x;
     k_rq_lock := k_rq_lock x; k_kstack_base := k_kstack_base x; k_kstack_top :=
     k_kstack_top x; k_switch_rsp := k_switch_rsp x; k_tss := k_tss x; k_directory :=
     k_directory x; k_kernel_directory := k_kernel_directory x; k_idle := k_idle x;
     k_drv := k_drv x |}.
Definition with_k_pipes {D : Type} (v : gmap Z pipe_t) (x : kst D) : kst D :=
  {| k_tasks := k_tasks x; k_files := k_files x; k_nodes := k_nodes x; k_pipes := v;
     k_bufs := k_bufs x; k_stacks := k_stacks x; k_pdirs := k_pdirs x; k_fresh :=
     k_fresh x; k_current := k_current x; k_ready_queue := k_ready_queue x;
     k_sleep_queue := k_sleep_queue x; k_next_pid := k_next_pid x; k_tick := k_tick x;
     k_irq_depth := k_irq_depth x; k_fs_root := k_fs_root x; k_std_node := k_std_node
     x; k_mounts := k_mounts x; k_num_mounts := k_num_mounts x; k_pipe_count :=
     k_pipe_count x; k_console := k_console x; k_lines := k_lines x; k_mem := k_mem x;
     k_rq_lock := k_rq_lock x; k_kstack_base := k_kstack_base x; k_kstack_top :=
     k_kstack_top x; k_switch_rsp := k_switch_rsp x; k_tss := k_tss x; k_directory :=
     k_directory x; k_kernel_directory := k_kernel_directory x; k_idle := k_idle x;
     k_drv := k_drv x |}.
Definition with_k_bufs {D : Type} (v : gmap Z (list Z)) (x : kst D) : kst D :=
  {| k_tasks := k_tasks x; k_files := k_files x; k_nodes := k_nodes x; k_pipes :=
     k_pipes x; k_bufs := v; k_stacks := k_stacks x; k_pdirs := k_pdirs x; k_fresh :=
     k_fresh x; k_current := k_current x; k_ready_queue := k_ready_queue x;
     k_sleep_queue := k_sleep_queue x; k_next_pid := k_next_pid x; k_tick := k_tick x;
     k_irq_depth := k_irq_depth x; k_fs_root := k_fs_root x; k_std_node := k_std_node
     x; k_mounts := k_mounts x; k_num_mounts := k_num_mounts x; k_pipe_count :=
     k_pipe_count x; k_console := k_console x; k_lines := k_lines x; k_mem := k_mem x;
     k_rq_lock := k_rq_lock x; k_kstack_base := k_kstack_base x; k_kstack_top :=
     k_kstack_top x; k_switch_rsp := k_switch_rsp x; k_tss := k_tss x; k_directory :=
     k_directory x; k_kernel_directory := k_kernel_directory x; k_idle := k_idle x;
     k_drv := k_drv x |}.
Definition with_k_stacks {D : Type} (v : gset Z) (x : kst D) : kst D :=
  {| k_tasks := k_tasks x; k_files := k_files x; k_nodes := k_nodes x; k_pipes :=
     k_pipes x; k_bufs := k_bufs x; k_stacks := v; k_pdirs := k_pdirs x; k_fresh :=
     k_fresh x; k_current := k_current x; k_ready_queue := k_ready_queue x;
     k_sleep_queue := k_sleep_queue x; k_next_pid := k_next_pid x; k_tick := k_tick x;
     k_irq_depth := k_irq_depth x; k_fs_root := k_fs_root x; k_std_node := k_std_node
     x; k_mounts := k_mounts x; k_num_mounts := k_num_mounts x; k_pipe_count :=
     k_pipe_count x; k_console := k_console x; k_lines := k_lines x; k_mem := k_mem x;
     k_rq_lock := k_rq_lock x; k_kstack_base := k_kstack_base x; k_kstack_top :=
     k_kstack_top x; k_switch_rsp := k_switch_rsp x; k_tss := k_tss x; k_directory :=
     k_directory x; k_kernel_directory := k_kernel_directory x; k_idle := k_idle x;
     k_drv := k_drv x |}.
Definition with_k_pdirs {D : Type} (v : gmap Z (gmap Z Z)) (x : kst D) : kst D :=
  {| k_tasks := k_tasks x; k_files := k_files x; k_nodes := k_nodes x; k_pipes :=
     k_pipes x; k_bufs := k_bufs x; k_stacks := k_stacks x; k_pdirs := v; k_fresh :=
     k_fresh x; k_current := k_current x; k_ready_queue := k_ready_queue x;
     k_sleep_queue := k_sleep_queue x; k_next_pid := k_next_pid x; k_tick := k_tick x;
     k_irq_depth := k_irq_depth x; k_fs_root := k_fs_root x; k_std_node := k_std_node
     x; k_mounts := k_mounts x; k_num_mounts := k_num_mounts x; k_pipe_count :=
     k_pipe_count x; k_console := k_console x; k_lines := k_lines x; k_mem := k_mem x;
     k_rq_lock := k_rq_lock x; k_kstack_base := k_kstack_base x; k_kstack_top :=
     k_kstack_top x; k_switch_rsp := k_switch_rsp x; k_tss := k_tss x; k_directory :=
     k_directory x; k_kernel_directory := k_kernel_directory x; k_idle := k_idle x;
     k_drv := k_drv x |}.
Definition with_k_fresh {D : Type} (v : Z) (x : kst D) : kst D :=
  {| k_tasks := k_tasks x; k_files := k_files x; k_nodes := k_nodes x; k_pipes :=
     k_pipes x; k_bufs := k_bufs x; k_stacks := k_stacks x; k_pdirs := k_pdirs x;
     k_fresh := v; k_current := k_current x; k_ready_queue := k_ready_queue x;
     k_sleep_queue := k_sleep_queue x; k_next_pid := k_next_pid x; k_tick := k_tick x;
     k_irq_depth := k_irq_depth x; k_fs_root := k_fs_root x; k_std_node := k_std_node
     x; k_mounts := k_mounts x; k_num_mounts := k_num_mounts x; k_pipe_count :=
     k_pipe_count x; k_console := k_console x; k_lines := k_lines x; k_mem := k_mem x;
     k_rq_lock := k_rq_lock x; k_kstack_base := k_kstack_base x; k_kstack_top :=
     k_kstack_top x; k_switch_rsp := k_switch_rsp x; k_tss := k_tss x; k_directory :=
     k_directory x; k_kernel_directory := k_kernel_directory x; k_idle := k_idle x;
     k_drv := k_drv x |}.
Definition with_k_current {D : Type} (v : Z) (x : kst D) : kst D :=
  {| k_tasks := k_tasks x; k_files := k_files x; k_nodes := k_nodes x; k_pipes :=
     k_pipes x; k_bufs := k_bufs x; k_stacks := k_stacks x; k_pdirs := k_pdirs x;
     k_fresh := k_fresh x; k_current := v; k_ready_queue := k_ready_queue x;
     k_sleep_queue := k_sleep_queue x; k_next_pid := k_next_pid x; k_tick := k_tick x;
     k_irq_depth := k_irq_depth x; k_fs_root := k_fs_root x; k_std_node := k_std_node
     x; k_mounts := k_mounts x; k_num_mounts := k_num_mounts x; k_pipe_count :=
     k_pipe_count x; k_console := k_console x; k_lines := k_lines x; k_mem := k_mem x;
     k_rq_lock := k_rq_lock x; k_kstack_base := k_kstack_base x; k_kstack_top :=
     k_kstack_top x; k_switch_rsp := k_switch_rsp x; k_tss := k_tss x; k_directory :=
     k_directory x; k_kernel_directory := k_kernel_directory x; k_idle := k_idle x;
     k_drv := k_drv x |}.
Definition with_k_ready_queue {D : Type} (v : Z) (x : kst D) : kst D :=
  {| k_tasks := k_tasks x; k_files := k_files x; k_nodes := k_nodes x; k_pipes :=
     k_pipes x; k_bufs := k_bufs x; k_stacks := k_stacks x; k_pdirs := k_pdirs x;
     k_fresh := k_fresh x; k_current := k_current x; k_ready_queue := v; k_sleep_queue
     := k_sleep_queue x; k_next_pid := k_next_pid x; k_tick := k_tick x; k_irq_depth
     := k_irq_depth x; k_fs_root := k_fs_root x; k_std_node := k_std_node x; k_mounts
     := k_mounts x; k_num_mounts := k_num_mounts x; k_pipe_count := k_pipe_count x;
     k_console := k_console x; k_lines := k_lines x; k_mem := k_mem x; k_rq_lock :=
     k_rq_lock x; k_kstack_base := k_kstack_base x; k_kstack_top := k_kstack_top x;
     k_switch_rsp := k_switch_rsp x; k_tss := k_tss x; k_directory := k_directory x;
     k_kernel_directory := k_kernel_directory x; k_idle := k_idle x; k_drv := k_drv x |}.
Definition with_k_sleep_queue {D : Type} (v : Z) (x : kst D) : kst D :=
  {| k_tasks := k_tasks x; k_files := k_files x; k_nodes := k_nodes x; k_pipes :=
     k_pipes x; k_bufs := k_bufs x; k_stacks := k_stacks x; k_pdirs := k_pdirs x;
     k_fresh := k_fresh x; k_current := k_current x; k_ready_queue := k_ready_queue x;
     k_sleep_queue := v; k_next_pid := k_next_pid x; k_tick := k_tick x; k_irq_depth
     := k_irq_depth x; k_fs_root := k_fs_root x; k_std_node := k_std_node x; k_mounts
     := k_mounts x; k_num_mounts := k_num_mounts x; k_pipe_count := k_pipe_count x;
     k_console := k_console x; k_lines := k_lines x; k_mem := k_mem x; k_rq_lock :=
     k_rq_lock x; k_kstack_base := k_kstack_base x; k_kstack_top := k_kstack_top x;
     k_switch_rsp := k_switch_rsp x; k_tss := k_tss x; k_directory := k_directory x;
     k_kernel_directory := k_kernel_directory x; k_idle := k_idle x; k_drv := k_drv x |}.
Definition with_k_next_pid {D : Type} (v : Z) (x : kst D) : kst D :=
  {| k_tasks := k_tasks x; k_files := k_files x; k_nodes := k_nodes x; k_pipes :=
     k_pipes x; k_bufs := k_bufs x; k_stacks := k_stacks x; k_pdirs := k_pdirs x;
     k_fresh := k_fresh x; k_current := k_current x; k_ready_queue := k_ready_queue x;
     k_sleep_queue := k_sleep_queue x; k_next_pid := v; k_tick := k_tick x;
     k_irq_depth := k_irq_depth x; k_fs_root := k_fs_root x; k_std_node := k_std_node
     x; k_mounts := k_mounts x; k_num_mounts := k_num_mounts x; k_pipe_count :=
     k_pipe_count x; k_console := k_console x; k_lines := k_lines x; k_mem := k_mem x;
     k_rq_lock := k_rq_lock x; k_kstack_base := k_kstack_base x; k_kstack_top :=
     k_kstack_top x; k_switch_rsp := k_switch_rsp x; k_tss := k_tss x; k_directory :=
     k_directory x; k_kernel_directory := k_kernel_directory x; k_idle := k_idle x;
     k_drv := k_drv x |}.
Definition with_k_tick {D : Type} (v : Z) (x : kst D) : kst D :=
  {| k_tasks := k_tasks x; k_files := k_files x; k_nodes := k_nodes x; k_pipes :=
     k_pipes x; k_bufs := k_bufs x; k_stacks := k_stacks x; k_pdirs := k_pdirs x;
     k_fresh := k_fresh x; k_current := k_current x; k_ready_queue := k_ready_queue x;
     k_sleep_queue := k_sleep_queue x; k_next_pid := k_next_pid x; k_tick := v;
     k_irq_depth := k_irq_depth x; k_fs_root := k_fs_root x; k_std_node := k_std_node
     x; k_mounts := k_mounts x; k_num_mounts := k_num_mounts x; k_pipe_count :=
     k_pipe_count x; k_console := k_console x; k_lines := k_lines x; k_mem := k_mem x;
     k_rq_lock := k_rq_lock x; k_kstack_base := k_kstack_base x; k_kstack_top :=
     k_kstack_top x; k_switch_rsp := k_switch_rsp x; k_tss := k_tss x; k_directory :=
     k_directory x; k_kernel_directory := k_kernel_directory x; k_idle := k_idle x;
     k_drv := k_drv x |}.
Definition with_k_irq_depth {D : Type} (v : Z) (x : kst D) : kst D :=
  {| k_tasks := k_tasks x; k_files := k_files x; k_nodes := k_nodes x; k_pipes :=
     k_pipes x; k_bufs := k_bufs x; k_stacks := k_stacks x; k_pdirs := k_pdirs x;
     k_fresh := k_fresh x; k_current := k_current x; k_ready_queue := k_ready_queue x;
     k_sleep_queue := k_sleep_queue x; k_next_pid := k_next_pid x; k_tick := k_tick x;
     k_irq_depth := v; k_fs_root := k_fs_root x; k_std_node := k_std_node x; k_mounts
     := k_mounts x; k_num_mounts := k_num_mounts x; k_pipe_count := k_pipe_count x;
     k_console := k_console x; k_lines := k_lines x; k_mem := k_mem x; k_rq_lock :=
     k_rq_lock x; k_kstack_base := k_kstack_base x; k_kstack_top := k_kstack_top x;
     k_switch_rsp := k_switch_rsp x; k_tss := k_tss x; k_directory := k_directory x;
     k_kernel_directory := k_kernel_directory x; k_idle := k_idle x; k_drv := k_drv x |}.
Definition with_k_fs_root {D : Type} (v : Z) (x : kst D) : kst D :=
  {| k_tasks := k_tasks x; k_files := k_files x; k_nodes := k_nodes x; k_pipes :=
     k_pipes x; k_bufs := k_bufs x; k_stacks := k_stacks x; k_pdirs := k_pdirs x;
     k_fresh := k_fresh x; k_current := k_current x; k_ready_queue := k_ready_queue x;
     k_sleep_queue := k_sleep_queue x; k_next_pid := k_next_pid x; k_tick := k_tick x;
     k_irq_depth := k_irq_depth x; k_fs_root := v; k_std_node := k_std_node x;
     k_mounts := k_mounts x; k_num_mounts := k_num_mounts x; k_pipe_count :=
     k_pipe_count x; k_console := k_console x; k_lines := k_lines x; k_mem := k_mem x;
     k_rq_lock := k_rq_lock x; k_kstack_base := k_kstack_base x; k_kstack_top :=
     k_kstack_top x; k_switch_rsp := k_switch_rsp x; k_tss := k_tss x; k_directory :=
     k_directory x; k_kernel_directory := k_kernel_directory x; k_idle := k_idle x;
     k_drv := k_drv x |}.
Definition with_k_std_node {D : Type} (v : Z) (x : kst D) : kst D :=
  {| k_tasks := k_tasks x; k_files := k_files x; k_nodes := k_nodes x; k_pipes :=
     k_pipes x; k_bufs := k_bufs x; k_stacks := k_stacks x; k_pdirs := k_pdirs x;
     k_fresh := k_fresh x; k_current := k_current x; k_ready_queue := k_ready_queue x;
     k_sleep_queue := k_sleep_queue x; k_next_pid := k_next_pid x; k_tick := k_tick x;
     k_irq_depth := k_irq_depth x; k_fs_root := k_fs_root x; k_std_node := v; k_mounts
     := k_mounts x; k_num_mounts := k_num_mounts x; k_pipe_count := k_pipe_count x;
     k_console := k_console x; k_lines := k_lines x; k_mem := k_mem x; k_rq_lock :=
     k_rq_lock x; k_kstack_base := k_kstack_base x; k_kstack_top := k_kstack_top x;
     k_switch_rsp := k_switch_rsp x; k_tss := k_tss x; k_directory := k_directory x;
     k_kernel_directory := k_kernel_directory x; k_idle := k_idle x; k_drv := k_drv x |}.
Definition with_k_mounts {D : Type} (v : list mount_t) (x : kst D) : kst D :=
  {| k_tasks := k_tasks x; k_files := k_files x; k_nodes := k_nodes x; k_pipes :=
     k_pipes x; k_bufs := k_bufs x; k_stacks := k_stacks x; k_pdirs := k_pdirs x;
     k_fresh := k_fresh x; k_current := k_current x; k_ready_queue := k_ready_queue x;
     k_sleep_queue := k_sleep_queue x; k_next_pid := k_next_pid x; k_tick := k_tick x;
     k_irq_depth := k_irq_depth x; k_fs_root := k_fs_root x; k_std_node := k_std_node
     x; k_mounts := v; k_num_mounts := k_num_mounts x; k_pipe_count := k_pipe_count x;
     k_console := k_console x; k_lines := k_lines x; k_mem := k_mem x; k_rq_lock :=
     k_rq_lock x; k_kstack_base := k_kstack_base x; k_kstack_top := k_kstack_top x;
     k_switch_rsp := k_switch_rsp x; k_tss := k_tss x; k_directory := k_directory x;
     k_kernel_directory := k_kernel_directory x; k_idle := k_idle x; k_drv := k_drv x |}.
Definition with_k_num_mounts {D : Type} (v : Z) (x : kst D) : kst D :=
  {| k_tasks := k_tasks x; k_files := k_files x; k_nodes := k_nodes x; k_pipes :=
     k_pipes x; k_bufs := k_bufs x; k_stacks := k_stacks x; k_pdirs := k_pdirs x;
     k_fresh := k_fresh x; k_current := k_current x; k_ready_queue := k_ready_queue x;
     k_sleep_queue := k_sleep_queue x; k_next_pid := k_next_pid x; k_tick := k_tick x;
     k_irq_depth := k_irq_depth x; k_fs_root := k_fs_root x; k_std_node := k_std_node
     x; k_mounts := k_mounts x; k_num_mounts := v; k_pipe_count := k_pipe_count x;
     k_console := k_console x; k_lines := k_lines x; k_mem := k_mem x; k_rq_lock :=
     k_rq_lock x; k_kstack_base := k_kstack_base x; k_kstack_top := k_kstack_top x;
     k_switch_rsp := k_switch_rsp x; k_tss := k_tss x; k_directory := k_directory x;
     k_kernel_directory := k_kernel_directory x; k_idle := k_idle x; k_drv := k_drv x |}.
Definition with_k_pipe_count {D : Type} (v : Z) (x : kst D) : kst D :=
  {| k_tasks := k_tasks x; k_files := k_files x; k_nodes := k_nodes x; k_pipes :=
     k_pipes x; k_bufs := k_bufs x; k_stacks := k_stacks x; k_pdirs := k_pdirs x;
     k_fresh := k_fresh x; k_current := k_current x; k_ready_queue := k_ready_queue x;
     k_sleep_queue := k_sleep_queue x; k_next_pid := k_next_pid x; k_tick := k_tick x;
     k_irq_depth := k_irq_depth x; k_fs_root := k_fs_root x; k_std_node := k_std_node
     x; k_mounts := k_mounts x; k_num_mounts := k_num_mounts x; k_pipe_count := v;
     k_console := k_console x; k_lines := k_lines x; k_mem := k_mem x; k_rq_lock :=
     k_rq_lock x; k_kstack_base := k_kstack_base x; k_kstack_top := k_kstack_top x;
     k_switch_rsp := k_switch_rsp x; k_tss := k_tss x; k_directory := k_directory x;
     k_kernel_directory := k_kernel_directory x; k_idle := k_idle x; k_drv := k_drv x |}.
Definition with_k_console {D : Type} (v : list Z) (x : kst D) : kst D :=
  {| k_tasks := k_tasks x; k_files := k_files x; k_nodes := k_nodes x; k_pipes :=
     k_pipes x; k_bufs := k_bufs x; k_stacks := k_stacks x; k_pdirs := k_pdirs x;
     k_fresh := k_fresh x; k_current := k_current x; k_ready_queue := k_ready_queue x;
     k_sleep_queue := k_sleep_queue x; k_next_pid := k_next_pid x; k_tick := k_tick x;
     k_irq_depth := k_irq_depth x; k_fs_root := k_fs_root x; k_std_node := k_std_node
     x; k_mounts := k_mounts x; k_num_mounts := k_num_mounts x; k_pipe_count :=
     k_pipe_count x; k_console := v; k_lines := k_lines x; k_mem := k_mem x; k_rq_lock
     := k_rq_lock x; k_kstack_base := k_kstack_base x; k_kstack_top := k_kstack_top x;
     k_switch_rsp := k_switch_rsp x; k_tss := k_tss x; k_directory := k_directory x;
     k_kernel_directory := k_kernel_directory x; k_idle := k_idle x; k_drv := k_drv x |}.
Definition with_k_lines {D : Type} (v : list (list Z)) (x : kst D) : kst D :=
  {| k_tasks := k_tasks x; k_files := k_files x; k_nodes := k_nodes x; k_pipes :=
     k_pipes x; k_bufs := k_bufs x; k_stacks := k_stacks x; k_pdirs := k_pdirs x;
     k_fresh := k_fresh x; k_current := k_current x; k_ready_queue := k_ready_queue x;
     k_sleep_queue := k_sleep_queue x; k_next_pid := k_next_pid x; k_tick := k_tick x;
     k_irq_depth := k_irq_depth x; k_fs_root := k_fs_root x; k_std_node := k_std_node
     x; k_mounts := k_mounts x; k_num_mounts := k_num_mounts x; k_pipe_count :=
     k_pipe_count x; k_console := k_console x; k_lines := v; k_mem := k_mem x;
     k_rq_lock := k_rq_lock x; k_kstack_base := k_kstack_base x; k_kstack_top :=
     k_kstack_top x; k_switch_rsp := k_switch_rsp x; k_tss := k_tss x; k_directory :=
     k_directory x; k_kernel_directory := k_kernel_directory x; k_idle := k_idle x;
     k_drv := k_drv x |}.
Definition with_k_mem {D : Type} (v : gmap Z Z) (x : kst D) : kst D :=
  {| k_tasks := k_tasks x; k_files := k_files x; k_nodes := k_nodes x; k_pipes :=
     k_pipes x; k_bufs := k_bufs x; k_stacks := k_stacks x; k_pdirs := k_pdirs x;
     k_fresh := k_fresh x; k_current := k_current x; k_ready_queue := k_ready_queue x;
     k_sleep_queue := k_sleep_queue x; k_next_pid := k_next_pid x; k_tick := k_tick x;
     k_irq_depth := k_irq_depth x; k_fs_root := k_fs_root x; k_std_node := k_std_node
     x; k_mounts := k_mounts x; k_num_mounts := k_num_mounts x; k_pipe_count :=
     k_pipe_count x; k_console := k_console x; k_lines := k_lines x; k_mem := v;
     k_rq_lock := k_rq_lock x; k_kstack_base := k_kstack_base x; k_kstack_top :=
     k_kstack_top x; k_switch_rsp := k_switch_rsp x; k_tss := k_tss x; k_directory :=
     k_directory x; k_kernel_directory := k_kernel_directory x; k_idle := k_idle x;
     k_drv := k_drv x |}.
Definition with_k_rq_lock {D : Type} (v : bool) (x : kst D) : kst D :=
  {| k_tasks := k_tasks x; k_files := k_files x; k_nodes := k_nodes x; k_pipes :=
     k_pipes x; k_bufs := k_bufs x; k_stacks := k_stacks x; k_pdirs := k_pdirs x;
     k_fresh := k_fresh x; k_current := k_current x; k_ready_queue := k_ready_queue x;
     k_sleep_queue := k_sleep_queue x; k_next_pid := k_next_pid x; k_tick := k_tick x;
     k_irq_depth := k_irq_depth x; k_fs_root := k_fs_root x; k_std_node := k_std_node
     x; k_mounts := k_mounts x; k_num_mounts := k_num_mounts x; k_pipe_count :=
     k_pipe_count x; k_console := k_console x; k_lines := k_lines x; k_mem := k_mem x;
     k_rq_lock := v; k_kstack_base := k_kstack_base x; k_kstack_top := k_kstack_top x;
     k_switch_rsp := k_switch_rsp x; k_tss := k_tss x; k_directory := k_directory x;
     k_kernel_directory := k_kernel_directory x; k_idle := k_idle x; k_drv := k_drv x |}.
Definition with_k_kstack_base {D : Type} (v : Z) (x : kst D) : kst D :=
  {| k_tasks := k_tasks x; k_files := k_files x; k_nodes := k_nodes x; k_pipes :=
     k_pipes x; k_bufs := k_bufs x; k_stacks := k_stacks x; k_pdirs := k_pdirs x;
     k_fresh := k_fresh x; k_current := k_current x; k_ready_queue := k_ready_queue x;
     k_sleep_queue := k_sleep_queue x; k_next_pid := k_next_pid x; k_tick := k_tick x;
     k_irq_depth := k_irq_depth x; k_fs_root := k_fs_root x; k_std_node := k_std_node
     x; k_mounts := k_mounts x; k_num_mounts := k_num_mounts x; k_pipe_count :=
     k_pipe_count x; k_console := k_console x; k_lines := k_lines x; k_mem := k_mem x;
     k_rq_lock := k_rq_lock x; k_kstack_base := v; k_kstack_top := k_kstack_top x;
     k_switch_rsp := k_switch_rsp x; k_tss := k_tss x; k_directory := k_directory x;
     k_kernel_directory := k_kernel_directory x; k_idle := k_idle x; k_drv := k_drv x |}.
Definition with_k_kstack_top {D : Type} (v : Z) (x : kst D) : kst D :=
  {| k_tasks := k_tasks x; k_files := k_files x; k_nodes := k_nodes x; k_pipes :=
     k_pipes x; k_bufs := k_bufs x; k_stacks := k_stacks x; k_pdirs := k_pdirs x;
     k_fresh := k_fresh x; k_current := k_current x; k_ready_queue := k_ready_queue x;
     k_sleep_queue := k_sleep_queue x; k_next_pid := k_next_pid x; k_tick := k_tick x;
     k_irq_depth := k_irq_depth x; k_fs_root := k_fs_root x; k_std_node := k_std_node
     x; k_mounts := k_mounts x; k_num_mounts := k_num_mounts x; k_pipe_count :=
     k_pipe_count x; k_console := k_console x; k_lines := k_lines x; k_mem := k_mem x;
     k_rq_lock := k_rq_lock x; k_kstack_base := k_kstack_base x; k_kstack_top := v;
     k_switch_rsp := k_switch_rsp x; k_tss := k_tss x; k_directory := k_directory x;
     k_kernel_directory := k_kernel_directory x; k_idle := k_idle x; k_drv := k_drv x |}.
Definition with_k_switch_rsp {D : Type} (v : Z) (x : kst D) : kst D :=
  {| k_tasks := k_tasks x; k_files := k_files x; k_nodes := k_nodes x; k_pipes :=
     k_pipes x; k_bufs := k_bufs x; k_stacks := k_stacks x; k_pdirs := k_pdirs x;
     k_fresh := k_fresh x; k_current := k_current x; k_ready_queue := k_ready_queue x;
     k_sleep_queue := k_sleep_queue x; k_next_pid := k_next_pid x; k_tick := k_tick x;
     k_irq_depth := k_irq_depth x; k_fs_root := k_fs_root x; k_std_node := k_std_node
     x; k_mounts := k_mounts x; k_num_mounts := k_num_mounts x; k_pipe_count :=
     k_pipe_count x; k_console := k_console x; k_lines := k_lines x; k_mem := k_mem x;
     k_rq_lock := k_rq_lock x; k_kstack_base := k_kstack_base x; k_kstack_top :=
     k_kstack_top x; k_switch_rsp := v; k_tss := k_tss x; k_directory := k_directory
     x; k_kernel_directory := k_kernel_directory x; k_idle := k_idle x; k_drv := k_drv
     x |}.
Definition with_k_tss {D : Type} (v : Z) (x : kst D) : kst D :=
  {| k_tasks := k_tasks x; k_files := k_files x; k_nodes := k_nodes x; k_pipes :=
     k_pipes x; k_bufs := k_bufs x; k_stacks := k_stacks x; k_pdirs := k_pdirs x;
     k_fresh := k_fresh x; k_current := k_current x; k_ready_queue := k_ready_queue x;
     k_sleep_queue := k_sleep_queue x; k_next_pid := k_next_pid x; k_tick := k_tick x;
     k_irq_depth := k_irq_depth x; k_fs_root := k_fs_root x; k_std_node := k_std_node
     x; k_mounts := k_mounts x; k_num_mounts := k_num_mounts x; k_pipe_count :=
     k_pipe_count x; k_console := k_console x; k_lines := k_lines x; k_mem := k_mem x;
     k_rq_lock := k_rq_lock x; k_kstack_base := k_kstack_base x; k_kstack_top :=
     k_kstack_top x; k_switch_rsp := k_switch_rsp x; k_tss := v; k_directory :=
     k_directory x; k_kernel_directory := k_kernel_directory x; k_idle := k_idle x;
     k_drv := k_drv x |}.
Definition with_k_directory {D : Type} (v : Z) (x : kst D) : kst D :=
  {| k_tasks := k_tasks x; k_files := k_files x; k_nodes := k_nodes x; k_pipes :=
     k_pipes x; k_bufs := k_bufs x; k_stacks := k_stacks x; k_pdirs := k_pdirs x;
     k_fresh := k_fresh x; k_current := k_current x; k_ready_queue := k_ready_queue x;
     k_sleep_queue := k_sleep_queue x; k_next_pid := k_next_pid x; k_tick := k_tick x;
     k_irq_depth := k_irq_depth x; k_fs_root := k_fs_root x; k_std_node := k_std_node
     x; k_mounts := k_mounts x; k_num_mounts := k_num_mounts x; k_pipe_count :=
     k_pipe_count x; k_console := k_console x; k_lines := k_lines x; k_mem := k_mem x;
     k_rq_lock := k_rq_lock x; k_kstack_base := k_kstack_base x; k_kstack_top :=
     k_kstack_top x; k_switch_rsp := k_switch_rsp x; k_tss := k_tss x; k_directory :=
     v; k_kernel_directory := k_kernel_directory x; k_idle := k_idle x; k_drv := k_drv
     x |}.
Definition with_k_kernel_directory {D : Type} (v : Z) (x : kst D) : kst D :=
  {| k_tasks := k_tasks x; k_files := k_files x; k_nodes := k_nodes x; k_pipes :=
     k_pipes x; k_bufs := k_bufs x; k_stacks := k_stacks x; k_pdirs := k_pdirs x;
     k_fresh := k_fresh x; k_current := k_current x; k_ready_queue := k_ready_queue x;
     k_sleep_queue := k_sleep_queue x; k_next_pid := k_next_pid x; k_tick := k_tick x;
     k_irq_depth := k_irq_depth x; k_fs_root := k_fs_root x; k_std_node := k_std_node
     x; k_mounts := k_mounts x; k_num_mounts := k_num_mounts x; k_pipe_count :=
     k_pipe_count x; k_console := k_console x; k_lines := k_lines x; k_mem := k_mem x;
     k_rq_lock := k_rq_lock x; k_kstack_base := k_kstack_base x; k_kstack_top :=
     k_kstack_top x; k_switch_rsp := k_switch_rsp x; k_tss := k_tss x; k_directory :=
     k_directory x; k_kernel_directory := v; k_idle := k_idle x; k_drv := k_drv x |}.
Definition with_k_idle {D : Type} (v : Z) (x : kst D) : kst D :=
  {| k_tasks := k_tasks x; k_files := k_files x; k_nodes := k_nodes x; k_pipes :=
     k_pipes x; k_bufs := k_bufs x; k_stacks := k_stacks x; k_pdirs := k_pdirs x;
     k_fresh := k_fresh x; k_current := k_current x; k_ready_queue := k_ready_queue x;
     k_sleep_queue := k_sleep_queue x; k_next_pid := k_next_pid x; k_tick := k_tick x;
     k_irq_depth := k_irq_depth x; k_fs_root := k_fs_root x; k_std_node := k_std_node
     x; k_mounts := k_mounts x; k_num_mounts := k_num_mounts x; k_pipe_count :=
     k_pipe_count x; k_console := k_console x; k_lines := k_lines x; k_mem := k_mem x;
     k_rq_lock := k_rq_lock x; k_kstack_base := k_kstack_base x; k_kstack_top :=
     k_kstack_top x; k_switch_rsp := k_switch_rsp x; k_tss := k_tss x; k_directory :=
     k_directory x; k_kernel_directory := k_kernel_directory x; k_idle := v; k_drv :=
     k_drv x |}.
Definition with_k_drv {D : Type} (v : D) (x : kst D) : kst D :=
  {| k_tasks := k_tasks x; k_files := k_files x; k_nodes := k_nodes x; k_pipes :=
     k_pipes x; k_bufs := k_bufs x; k_stacks := k_stacks x; k_pdirs := k_pdirs x;
     k_fresh := k_fresh x; k_current := k_current x; k_ready_queue := k_ready_queue x;
     k_sleep_queue := k_sleep_queue x; k_next_pid := k_next_pid x; k_tick := k_tick x;
     k_irq_depth := k_irq_depth x; k_fs_root := k_fs_root x; k_std_node := k_std_node
     x; k_mounts := k_mounts x; k_num_mounts := k_num_mounts x; k_pipe_count :=
     k_pipe_count x; k_console := k_console x; k_lines := k_lines x; k_mem := k_mem x;
     k_rq_lock := k_rq_lock x; k_kstack_base := k_kstack_base x; k_kstack_top :=
     k_kstack_top x; k_switch_rsp := k_switch_rsp x; k_tss := k_tss x; k_directory :=
     k_directory x; k_kernel_directory := k_kernel_directory x; k_idle := k_idle x;
     k_drv := v |}.

(** Equality of states given by updates of the same state: compare field by
    field. *)
Ltac kst_eq :=
  cbv [with_k_tasks with_k_files with_k_nodes with_k_pipes with_k_bufs with_k_stacks
       with_k_pdirs with_k_fresh with_k_current with_k_ready_queue
       with_k_sleep_queue with_k_next_pid with_k_tick with_k_irq_depth
       with_k_fs_root with_k_std_node with_k_mounts with_k_num_mounts
       with_k_pipe_count with_k_console with_k_lines with_k_mem with_k_rq_lock
       with_k_kstack_base with_k_kstack_top with_k_switch_rsp with_k_tss
       with_k_directory with_k_kernel_directory with_k_idle with_k_drv k_tasks
       k_files k_nodes k_pipes k_bufs k_stacks k_pdirs k_fresh k_current
       k_ready_queue k_sleep_queue k_next_pid k_tick k_irq_depth k_fs_root
       k_std_node k_mounts k_num_mounts k_pipe_count k_console k_lines k_mem
       k_rq_lock k_kstack_base k_kstack_top k_switch_rsp k_tss k_directory
       k_kernel_directory k_idle k_drv]; reflexivity.

(** ** Drivers

    What the core needs of a file system behind the callback addresses of a
    node.  [finddir] either finds nothing, or returns a node that it has just
    allocated (its contents), or the address of a node that lives for ever. *)

Inductive found : Type :=
| FoundNothing
| FoundFresh (n : fs_node_t)
| FoundStatic (a : Z).

(** [struct dirent] *)
Record dirent := mk_dirent {
  de_name : list Z; de_ino : Z; de_size : Z; de_type : Z; de_attr : Z }.

Class FsDriver (D : Type) := {
  drv_read : Z → fs_node_t → Z → Z → kM D (list Z);
  drv_write : Z → fs_node_t → Z → list Z → kM D (fs_node_t * Z);
  drv_open : Z → fs_node_t → D → D;
  drv_close : Z → fs_node_t → D → D;
  drv_readdir : Z → fs_node_t → Z → kM D (option dirent);
  drv_finddir : Z → fs_node_t → list Z → kM D found;
  drv_create : Z → fs_node_t → list Z → kM D unit;
  drv_mkdir : Z → fs_node_t → list Z → kM D unit;
  drv_unlink : Z → fs_node_t → list Z → kM D Z;
}.

(** ** Access through a pointer *)

Section access.
Context {D : Type}.
#[local] Open Scope kernel_scope.

Definition get_task (p : Z) : kM (kst D) task_t := kget_opt (λ s, k_tasks s !! p).
Definition put_task (p : Z) (t : task_t) : kM (kst D) unit :=
  kmodify (λ s, with_k_tasks (<[p := t]> (k_tasks s)) s).
Definition upd_task (p : Z) (f : task_t → task_t) : kM (kst D) unit :=
  let* t := get_task p in put_task p (f t).

Definition get_file (p : Z) : kM (kst D) file_t := kget_opt (λ s, k_files s !! p).
Definition put_file (p : Z) (f : file_t) : kM (kst D) unit :=
  kmodify (λ s, with_k_files (<[p := f]> (k_files s)) s).

Definition get_node (p : Z) : kM (kst D) fs_node_t := kget_opt (λ s, k_nodes s !! p).
Definition put_node (p : Z) (n : fs_node_t) : kM (kst D) unit :=
  kmodify (λ s, with_k_nodes (<[p := n]> (k_nodes s)) s).

Definition get_pipe (p : Z) : kM (kst D) pipe_t := kget_opt (λ s, k_pipes s !! p).
Definition put_pipe (p : Z) (v : pipe_t) : kM (kst D) unit :=
  kmodify (λ s, with_k_pipes (<[p := v]> (k_pipes s)) s).

(** [kmalloc]: an address that was never in use. *)
Definition kmalloc : kM (kst D) Z := λ s,
  Ret (k_fresh s) (with_k_fresh (k_fresh s + 1) s).
Definition new_node (n : fs_node_t) : kM (kst D) Z :=
  let* a := kmalloc in put_node a n ;;; kret a.
Definition new_file (f : file_t) : kM (kst D) Z :=
  let* a := kmalloc in put_file a f ;;; kret a.

(** [kfree] of an object that must be live. *)
Definition kfree_file (p : Z) : kM (kst D) unit :=
  let* _ := get_file p in kmodify (λ s, with_k_files (delete p (k_files s)) s).
Definition kfree_node (p : Z) : kM (kst D) unit :=
  let* _ := get_node p in kmodify (λ s, with_k_nodes (delete p (k_nodes s)) s).
Definition kfree_pipe (p : Z) : kM (kst D) unit :=
  let* _ := get_pipe p in kmodify (λ s, with_k_pipes (delete p (k_pipes s)) s).
Definition kfree_buf (p : Z) : kM (kst D) unit :=
  let* _ := kget_opt (λ s : kst D, k_bufs s !! p) in
  kmodify (λ s, with_k_bufs (delete p (k_bufs s)) s).
Definition kfree_task (p : Z) : kM (kst D) unit :=
  let* _ := get_task p in kmodify (λ s, with_k_tasks (delete p (k_tasks s)) s).

Definition current_task : kM (kst D) Z := λ s, Ret (k_current s) s.
(** [current_task->fd_table\[fd\]], of an index already checked. *)
Definition cur_fd (fd : Z) : kM (kst D) Z :=
  let* c := current_task in
  let* t := get_task c in
  kget_opt (λ _, zlookup (t_fd_table t) fd).
Definition set_task_fd (c fd f : Z) : kM (kst D) unit :=
  let* t := get_task c in
  let* l := kget_opt (λ _, zset (t_fd_table t) fd f) in
  put_task c (with_t_fd_table l t).
Definition set_cur_fd (fd f : Z) : kM (kst D) unit :=
  let* c := current_task in set_task_fd c fd f.

(** [file_create] *)
Definition file_create (node flags : Z) : kM (kst D) Z :=
  new_file (mk_file node 0 flags 1).
End access.

(** ** Running an access to a live object *)

Section runs.
Context {D : Type}.
Implicit Types s : kst D.

Lemma get_file_bind {A} a s fl (k : file_t → kM (kst D) A) :
  k_files s !! a = Some fl → kbind (get_file a) k s = k fl s.
Proof. intros E. unfold kbind, get_file, kget_opt. by rewrite E. Qed.
Lemma get_node_bind {A} a s nd (k : fs_node_t → kM (kst D) A) :
  k_nodes s !! a = Some nd → kbind (get_node a) k s = k nd s.
Proof. intros E. unfold kbind, get_node, kget_opt. by rewrite E. Qed.
Lemma get_task_bind {A} a s t (k : task_t → kM (kst D) A) :
  k_tasks s !! a = Some t → kbind (get_task a) k s = k t s.
Proof. intros E. unfold kbind, get_task, kget_opt. by rewrite E. Qed.

Lemma upd_task_run a s t f : k_tasks s !! a = Some t →
  upd_task a f s = Ret tt (with_k_tasks (<[a := f t]> (k_tasks s)) s).
Proof. intros E. unfold upd_task. by rewrite (get_task_bind _ _ _ _ E). Qed.
Lemma upd_task_bind {A} a s t f (k : unit → kM (kst D) A) : k_tasks s !! a = Some t →
  kbind (upd_task a f) k s = k tt (with_k_tasks (<[a := f t]> (k_tasks s)) s).
Proof. intros E. by rewrite (kbind_ret _ _ _ _ _ (upd_task_run _ _ _ _ E)). Qed.
Lemma kget_bind {A} s (k : kst D → kM (kst D) A) : kbind kget k s = k s s.
Proof. done. Qed.
Lemma kmodify_bind {A} f s (k : unit → kM (kst D) A) : kbind (kmodify f) k s = k tt (f s).
Proof. done. Qed.
Lemma current_bind {A} s (k : Z → kM (kst D) A) : kbind current_task k s = k (k_current s) s.
Proof. done. Qed.
End runs.

(** ** A small concrete machine

    A zeroed task, and a state with one running task (address 16) and nothing
    open, for evaluating the definitions. *)

Definition zero_task : task_t :=
  mk_task TASK_MAGIC 0 0 0 0 0 0 0 TASK_READY 0 (replicate 32 0) [] 0 0 0 0 0 0 0 0 0 0.

Definition demo_task (id : Z) : task_t :=
  with_t_next 16 (with_t_cwd (str "/") (with_t_state TASK_RUNNING (with_t_id id zero_task))).

Definition demo_state : kst unit :=
  mk_kst {[16 := demo_task 1]} ∅ ∅ ∅ ∅ ∅ ∅ 100 16 16 0 2 0 0 0 0 [] 0 0 [] []
    ∅ false 0 0 0 0 0 0 0 tt.
