(* ===== verification/Pipe.v ===== *)
(** * Pipes

    Models [kernel/core/pipe.c]: the ring buffer, the reader and writer counts,
    and the blocking protocol between a reader and the writers.  The spinlock of a
    pipe makes each critical section one step; [pipe_read] leaves its critical
    section when it blocks, so a read is an [enter] step and, after each wake-up, a
    [resume] step.  The ring buffer refines a queue of bytes ([contents]). *)

From stdpp Require Import base numbers list gmap strings.
From Stdlib Require Import ZArith Lia.
From S2P Require Import Prelude Kernel.

#[local] Open Scope Z_scope.

(** ** The ring buffer *)

(** [while (read_bytes < size && p->len > 0)]; the fuel is [p->len], which each
    turn decrements. *)
Fixpoint pipe_read_loop (fuel : nat) (size : Z) (acc : list Z) (p : pipe_t)
  : option (list Z * pipe_t) :=
  match fuel with
  | O => Some (acc, p)
  | S fuel =>
      if (Z.of_nat (length acc) <? size) && (0 <? p_len p) then
        c ← zlookup (p_buffer p) (p_tail p);
        let p := with_p_tail (u32 (p_tail p + 1) mod p_size p) p in
        let p := with_p_len (u32 (p_len p - 1)) p in
        pipe_read_loop fuel size (acc ++ [c]) p
      else Some (acc, p)
  end.

(** [while (written_bytes < size && p->len < p->size)]; [data] is what is left of
    the caller's buffer. *)
Fixpoint pipe_write_loop (data : list Z) (written : Z) (p : pipe_t) : option (Z * pipe_t) :=
  match data with
  | [] => Some (written, p)
  | c :: data =>
      if p_len p <? p_size p then
        b ← zset (p_buffer p) (p_head p) c;
        let p := with_p_buffer b p in
        let p := with_p_head (u32 (p_head p + 1) mod p_size p) p in
        let p := with_p_len (u32 (p_len p + 1)) p in
        pipe_write_loop data (u32 (written + 1)) p
      else Some (written, p)
  end.

(** The bytes in the ring, oldest first. *)
Definition contents (p : pipe_t) : list Z :=
  (λ i, p_buffer p !!! Z.to_nat ((p_tail p + i) mod p_size p)) <$> seqZ 0 (p_len p).

Record pipe_wf (p : pipe_t) : Prop := {
  pw_size : 0 < p_size p < 2147483648;
  pw_buffer : Z.of_nat (length (p_buffer p)) = p_size p;
  pw_len : 0 ≤ p_len p ≤ p_size p;
  pw_tail : 0 ≤ p_tail p < p_size p;
  pw_head : p_head p = (p_tail p + p_len p) mod p_size p;
}.

(** [pipe_create]'s object, after [pipe] has set the two counts to [r] and [w]. *)
Definition pipe_init (size r w : Z) : pipe_t :=
  mk_pipe (replicate (Z.to_nat size) 0) 0 0 0 size r w 0.

Lemma pipe_init_wf size r w : 0 < size < 2147483648 → pipe_wf (pipe_init size r w).
Proof.
  intros H. constructor; simpl; try lia.
  - rewrite length_replicate. lia.
  - by rewrite Z.mod_0_l by lia.
Qed.

Lemma contents_length p : 0 ≤ p_len p → Z.of_nat (length (contents p)) = p_len p.
Proof. intros. unfold contents. rewrite length_fmap, length_seqZ. lia. Qed.

Lemma mod_shift_ne t i j n :
  0 ≤ t → 0 ≤ i → i < j → j - i < n → (t + i) mod n ≠ (t + j) mod n.
Proof.
  intros Ht Hi Hij Hn Heq.
  assert (((t + j) - (t + i)) mod n = 0) as H.
  { rewrite Zminus_mod, Heq, Z.sub_diag. apply Z.mod_0_l. lia. }
  replace (t + j - (t + i)) with (j - i) in H by lia.
  rewrite Z.mod_small in H; lia.
Qed.

(** One turn of the write loop enqueues, one turn of the read loop dequeues. *)
Definition push (c : Z) (p : pipe_t) : pipe_t :=
  let p := with_p_buffer (<[Z.to_nat (p_head p) := c]> (p_buffer p)) p in
  let p := with_p_head (u32 (p_head p + 1) mod p_size p) p in
  with_p_len (u32 (p_len p + 1)) p.
Definition pop (p : pipe_t) : pipe_t :=
  let p := with_p_tail (u32 (p_tail p + 1) mod p_size p) p in
  with_p_len (u32 (p_len p - 1)) p.

Lemma push_wf c p : pipe_wf p → p_len p < p_size p → pipe_wf (push c p).
Proof.
  intros [Hs Hb Hl Ht Hh] Hlt.
  assert (0 ≤ p_head p < p_size p) by (rewrite Hh; apply Z.mod_pos_bound; lia).
  constructor; simpl; rewrite ?length_insert; autorewrite with cint; try lia.
  rewrite Hh, Z.add_mod_idemp_l by lia. f_equal; lia.
Qed.

Lemma push_contents c p :
  pipe_wf p → p_len p < p_size p → contents (push c p) = contents p ++ [c].
Proof.
  intros [Hs Hb Hl Ht Hh] Hlt.
  assert (0 ≤ p_head p < p_size p) by (rewrite Hh; apply Z.mod_pos_bound; lia).
  unfold contents. simpl. rewrite (u32_small (p_len p + 1)) by lia.
  rewrite seqZ_app by lia. rewrite fmap_app. f_equal.
  - apply list_fmap_ext. intros k i Hi. apply lookup_seqZ in Hi as [-> Hi].
    rewrite list_lookup_total_insert_ne; [done|].
    rewrite Hh. intros E. apply Z2Nat.inj in E; try (apply Z.mod_pos_bound; lia).
    symmetry in E. revert E. apply mod_shift_ne; lia.
  - simpl. f_equal. change (Z.of_nat 0) with 0. rewrite !Z.add_0_l, <-Hh. apply list_lookup_total_insert_eq. lia.
Qed.

Lemma pop_wf p : pipe_wf p → 0 < p_len p → pipe_wf (pop p).
Proof.
  intros [Hs Hb Hl Ht Hh] Hlt. constructor; simpl; autorewrite with cint; try lia.
  - apply Z.mod_pos_bound; lia.
  - rewrite Hh, Z.add_mod_idemp_l by lia. f_equal; lia.
Qed.

Lemma pop_contents p :
  pipe_wf p → 0 < p_len p →
  ∃ c, zlookup (p_buffer p) (p_tail p) = Some c ∧ contents p = c :: contents (pop p).
Proof.
  intros [Hs Hb Hl Ht Hh] Hlt.
  destruct (lookup_lt_is_Some_2 (p_buffer p) (Z.to_nat (p_tail p))) as [c Hc]; [lia|].
  exists c. split.
  { unfold zlookup. by replace (p_tail p <? 0) with false by (symmetry; apply Z.ltb_ge; lia). }
  unfold contents. simpl. autorewrite with cint.
  rewrite seqZ_cons by lia. simpl. f_equal.
  { rewrite Z.add_0_r, Z.mod_small by lia. by apply list_lookup_total_correct. }
  replace (Z.pred (p_len p)) with (p_len p - 1) by lia.
  change (Z.succ 0) with (0 + 1). rewrite <-(fmap_add_seqZ 1 0), <-list_fmap_compose.
  apply list_fmap_ext. intros k i Hi. simpl. do 2 f_equal.
  rewrite Z.add_mod_idemp_l by lia. f_equal; lia.
Qed.

Lemma pipe_write_step c data w p :
  pipe_wf p → p_len p < p_size p →
  pipe_write_loop (c :: data) w p = pipe_write_loop data (u32 (w + 1)) (push c p).
Proof.
  intros Hwf Hlt. cbn [pipe_write_loop]. unfold zset. pose proof (pw_buffer _ Hwf).
  assert (0 ≤ p_head p < p_size p)
    by (rewrite (pw_head _ Hwf); apply Z.mod_pos_bound; pose proof (pw_size _ Hwf); lia).
  by zbool.
Qed.

(** The write loop appends as much of the data as fits ... *)
Lemma pipe_write_loop_spec data : ∀ w p, pipe_wf p →
  0 ≤ w → w + Z.of_nat (length data) < 4294967296 →
  let n := Z.to_nat (Z.min (Z.of_nat (length data)) (p_size p - p_len p)) in
  ∃ p', pipe_write_loop data w p = Some (w + Z.of_nat n, p') ∧ pipe_wf p' ∧
        contents p' = contents p ++ take n data ∧
        p_size p' = p_size p ∧ p_len p' = p_len p + Z.of_nat n ∧
        p_readers p' = p_readers p ∧ p_writers p' = p_writers p ∧ p_waiting p' = p_waiting p.
Proof.
  induction data as [|c data IH]; intros w p Hwf Hw Hb; cbn zeta.
  { pose proof (pw_len _ Hwf). exists p. simpl. change (Z.of_nat 0) with 0.
    rewrite Z.min_l by lia. change (Z.to_nat 0) with 0%nat. change (Z.of_nat 0) with 0.
    rewrite take_nil, app_nil_r, Z.add_0_r. split_and!; auto; lia. }
  cbn [length] in *. pose proof (pw_len _ Hwf). pose proof (pw_size _ Hwf).
  destruct (decide (p_len p < p_size p)) as [Hlt|Hge].
  - rewrite pipe_write_step by done.
    destruct (IH (u32 (w + 1)) (push c p)) as (p' & E & W & C & S1 & L & R);
      [by apply push_wf|apply u32_range|rewrite u32_small; lia|].
    rewrite (u32_small (w + 1)) in E by lia.
    rewrite push_contents in C by done.
    assert (p_len (push c p) = p_len p + 1) as HL by (simpl; apply u32_small; lia).
    assert (p_size (push c p) = p_size p) as HS by done. rewrite HL, HS in *.
    rewrite (u32_small (w + 1)) by lia.
    exists p'. set (n := Z.to_nat (Z.min (Z.of_nat (length data)) (p_size p - (p_len p + 1)))) in *.
    replace (Z.to_nat (Z.min (Z.of_nat (S (length data))) (p_size p - p_len p)))
      with (S n) by lia.
    split; [rewrite E; do 2 f_equal; lia|]. split; [done|].
    split; [rewrite C; simpl; by rewrite <-app_assoc|]. split_and!; [done|lia|by apply R..].
  - exists p. cbn [pipe_write_loop]. zbool.
    replace (Z.min _ _) with 0 by lia. change (Z.to_nat 0) with 0%nat.
    change (Z.of_nat 0) with 0. rewrite app_nil_r, Z.add_0_r. split_and!; auto; lia.
Qed.

(** ... and the read loop takes bytes from the front. *)
Lemma pipe_read_loop_spec fuel : ∀ size acc p, pipe_wf p → (Z.to_nat (p_len p) ≤ fuel)%nat →
  let n := Z.to_nat (Z.min (Z.max 0 (size - Z.of_nat (length acc))) (p_len p)) in
  ∃ p', pipe_read_loop fuel size acc p = Some (acc ++ take n (contents p), p') ∧ pipe_wf p' ∧
        contents p' = drop n (contents p) ∧
        p_size p' = p_size p ∧ p_len p' = p_len p - Z.of_nat n ∧
        p_readers p' = p_readers p ∧ p_writers p' = p_writers p ∧ p_waiting p' = p_waiting p.
Proof.
  induction fuel as [|fuel IH]; intros size acc p Hwf Hf; cbn zeta;
    pose proof (pw_len _ Hwf) as Hl; pose proof (pw_size _ Hwf).
  { replace (p_len p) with 0 by lia. rewrite Z.min_r by lia. change (Z.to_nat 0) with 0%nat.
    exists p. simpl. change (Z.of_nat 0) with 0.
    rewrite app_nil_r, drop_0. split_and!; auto; lia. }
  cbn [pipe_read_loop].
  destruct (Z.ltb_spec (Z.of_nat (length acc)) size), (Z.ltb_spec 0 (p_len p)); simpl;
    try (exists p; replace (Z.min _ _) with 0 by lia; change (Z.to_nat 0) with 0%nat;
         rewrite app_nil_r, drop_0; change (Z.of_nat 0) with 0; split_and!; auto; lia).
  destruct (pop_contents p) as (c & E & C); [done..|]. rewrite E. cbn [mbind option_bind].
  change (with_p_len _ _) with (pop p). assert (p_len (pop p) = p_len p - 1) as HL by (simpl; apply u32_small; lia).
  destruct (IH size (acc ++ [c]) (pop p)) as (p' & E' & W & C' & S1 & L & R);
    [by apply pop_wf|rewrite HL; lia|].
  rewrite HL, length_app in *. cbn [length] in *.
  set (n := Z.to_nat (Z.min (Z.max 0 (size - Z.of_nat (length acc + 1))) (p_len p - 1))) in *.
  replace (Z.to_nat (Z.min (Z.max 0 (size - Z.of_nat (length acc))) (p_len p)))
    with (S n) by lia.
  exists p'. rewrite E', C. simpl. rewrite <-app_assoc.
  split_and!; [done..|lia|by apply R|by apply R|by apply R].
Qed.

(** ** The operations of [pipe.c] *)

Section ops.
Context {D : Type}.
#[local] Open Scope kernel_scope.

Definition get_debug_pipe_count : kM (kst D) Z := λ s, Ret (k_pipe_count s) s.
Definition add_pipe_count (d : Z) : kM (kst D) unit :=
  kmodify (λ s, with_k_pipe_count (s32 (k_pipe_count s + d)) s).

Definition pipe_create (size : Z) : kM (kst D) Z :=
  let* p := kmalloc in
  let* _ := kmalloc in
  put_pipe p (pipe_init size 0 0) ;;;
  add_pipe_count 1 ;;;
  kret p.

Definition pipe_node (p : Z) : fs_node_t :=
  mk_node (str "pipe") 0 (Z.lor FS_PIPE FS_TRANSIENT) 0 0 (ImplPipe p)
    pipe_read_fn pipe_write_fn 0 0 0 0 0 0 0.

Definition pipe_create_node (p : Z) : kM (kst D) Z := new_node (pipe_node p).

(** The part of [pipe_read] after the wait loop. *)
Definition pipe_read_finish (pp size : Z) : kM (kst D) (list Z) :=
  let* p := get_pipe pp in
  if (p_len p =? 0) && (p_writers p =? 0) then kret []
  else
    let* (bytes, p) := kget_opt (λ _, pipe_read_loop (Z.to_nat (p_len p)) size [] p) in
    put_pipe pp p ;;; kret bytes.

(** The test of the wait loop: block on an empty pipe that has writers. *)
Definition pipe_read_enter (pp size : Z) : kM (kst D) (list Z) :=
  let* p := get_pipe pp in
  if (p_len p =? 0) && (0 <? p_writers p) then
    let* c := current_task in
    put_pipe pp (with_p_waiting c p) ;;;
    upd_task c (with_t_state TASK_WAITING) ;;;
    khang
  else pipe_read_finish pp size.

(** After [sti; hlt; cli] the reader takes the lock again and goes round. *)
Definition pipe_read_resume (pp size : Z) : kM (kst D) (list Z) :=
  let* p := get_pipe pp in
  put_pipe pp (with_p_waiting 0 p) ;;;
  pipe_read_enter pp size.

Definition pipe_read (nd : fs_node_t) (size : Z) : kM (kst D) (list Z) :=
  match n_impl nd with
  | ImplNull => kret []
  | ImplPipe pp => pipe_read_enter pp size
  | _ => kfault
  end.

(** [if (t->state == TASK_WAITING) t->state = TASK_READY] *)
Definition wake (t : Z) : kM (kst D) unit :=
  let* tk := get_task t in
  if t_state tk =? TASK_WAITING then put_task t (with_t_state TASK_READY tk) else kret tt.

Definition pipe_write_locked (pp : Z) (data : list Z) : kM (kst D) Z :=
  let* p := get_pipe pp in
  if p_readers p =? 0 then kret (u32 (-1))
  else if p_size p =? 0 then kpanic
  else
    let* (n, p) := kget_opt (λ _, pipe_write_loop data 0 p) in
    put_pipe pp p ;;;
    (if p_waiting p =? 0 then kret tt else wake (p_waiting p)) ;;;
    kret n.

Definition pipe_write (nd : fs_node_t) (data : list Z) : kM (kst D) Z :=
  match n_impl nd with
  | ImplNull => kret 0
  | ImplPipe pp => pipe_write_locked pp data
  | _ => kfault
  end.

Definition pipe_add_reader (pp : Z) : kM (kst D) unit :=
  let* p := get_pipe pp in put_pipe pp (with_p_readers (u32 (p_readers p + 1)) p).
Definition pipe_add_writer (pp : Z) : kM (kst D) unit :=
  let* p := get_pipe pp in put_pipe pp (with_p_writers (u32 (p_writers p + 1)) p).

Definition pipe_remove_reader (pp : Z) : kM (kst D) unit :=
  let* p := get_pipe pp in
  let p := if 0 <? p_readers p then with_p_readers (p_readers p - 1) p else p in
  put_pipe pp p ;;;
  if (p_readers p =? 0) && (p_writers p =? 0) then add_pipe_count (-1) else kret tt.

Definition pipe_remove_writer (pp : Z) : kM (kst D) unit :=
  let* p := get_pipe pp in
  let p := if 0 <? p_writers p then with_p_writers (p_writers p - 1) p else p in
  put_pipe pp p ;;;
  (if (p_writers p =? 0) && negb (p_waiting p =? 0) then wake (p_waiting p) else kret tt) ;;;
  if (p_readers p =? 0) && (p_writers p =? 0) then add_pipe_count (-1) else kret tt.

(** [for (i = FIRST_USER_FD; i < MAX_FD; i++)]: the two lowest free slots; [-1]
    stands for none yet. *)
Fixpoint pipe_find (n : nat) (i : Z) (tbl : list Z) (rfd : Z) : option (Z * Z) :=
  match n with
  | O => Some (rfd, -1)
  | S n =>
      f ← zlookup tbl i;
      if f =? 0 then
        if rfd =? -1 then pipe_find n (i + 1) tbl i else Some (rfd, i)
      else pipe_find n (i + 1) tbl rfd
  end.

(** [pipe]: the two descriptors, or [None] for the result -1. *)
Definition pipe : kM (kst D) (option (Z * Z)) :=
  let* pp := pipe_create PIPE_SIZE in
  let* p := get_pipe pp in
  put_pipe pp (with_p_writers 1 (with_p_readers 1 p)) ;;;
  let* node := pipe_create_node pp in
  let* rf := file_create node O_RDONLY in
  let* wf := file_create node O_WRONLY in
  let* c := current_task in
  let* t := get_task c in
  let* (rfd, wfd) := kget_opt (λ _, pipe_find 29 FIRST_USER_FD (t_fd_table t) (-1)) in
  if (rfd =? -1) || (wfd =? -1) then kret None
  else
    set_cur_fd rfd rf ;;;
    set_cur_fd wfd wf ;;;
    kret (Some (rfd, wfd)).
End ops.

(** ** What a pipe promises *)

(** The abstract pipe: a bounded queue of bytes with its two counts and its
    registered waiter. *)
Record queue : Type := mk_queue {
  q_bytes : list Z; q_cap : Z; q_readers : Z; q_writers : Z; q_waiter : Z
}.

Definition abs (p : pipe_t) : queue :=
  mk_queue (contents p) (p_size p) (p_readers p) (p_writers p) (p_waiting p).

(** Appends the longest prefix that fits. *)
Definition q_write (data : list Z) (q : queue) : Z * queue :=
  if q_readers q =? 0 then (4294967295, q)
  else
    let n := Z.min (Z.of_nat (length data)) (q_cap q - Z.of_nat (length (q_bytes q))) in
    (n, mk_queue (q_bytes q ++ take (Z.to_nat n) data)
          (q_cap q) (q_readers q) (q_writers q) (q_waiter q)).

(** Takes the oldest bytes; [None] when the reader must wait. *)
Definition q_read (size : Z) (q : queue) : option (list Z * queue) :=
  match q_bytes q with
  | [] => if q_writers q =? 0 then Some ([], q) else None
  | l => Some (take (Z.to_nat size) l,
               mk_queue (drop (Z.to_nat size) l)
                 (q_cap q) (q_readers q) (q_writers q) (q_waiter q))
  end.

(** The tasks after [wake t], when [t] is not NULL. *)
Definition woken (t : Z) (m : gmap Z task_t) : gmap Z task_t :=
  if t =? 0 then m
  else match m !! t with
       | Some tk =>
           if t_state tk =? TASK_WAITING then <[t := with_t_state TASK_READY tk]> m else m
       | None => m
       end.

Lemma woken_dom t m c : is_Some (m !! c) → is_Some (woken t m !! c).
Proof.
  unfold woken. intros [x Hx]. destruct (t =? 0); [eauto|].
  destruct (m !! t) eqn:E; [|eauto]. destruct (_ =? _); [|eauto].
  destruct (decide (t = c)) as [->|]; [rewrite lookup_insert_eq|rewrite lookup_insert_ne by done];
    eauto.
Qed.

Lemma woken_not_waiting t m tk :
  t ≠ 0 → woken t m !! t = Some tk → t_state tk ≠ TASK_WAITING.
Proof.
  intros Ht. unfold woken. zbool. destruct (m !! t) as [x|] eqn:E; intros H; [|congruence].
  destruct (t_state x =? TASK_WAITING) eqn:E'.
  - rewrite lookup_insert_eq in H. by simplify_eq.
  - rewrite E in H. simplify_eq. by zify_bool.
Qed.

Section spec.
Context {D : Type}.
#[local] Open Scope kernel_scope.
Implicit Types s : kst D.

(** A live, well-formed pipe whose registered waiter, if any, is a live task. *)
Definition pipe_ok (pp : Z) s (p : pipe_t) : Prop :=
  k_pipes s !! pp = Some p ∧ pipe_wf p ∧
  (p_waiting p = 0 ∨ is_Some (k_tasks s !! p_waiting p)).

Lemma get_pipe_bind {A} pp s p (k : pipe_t → kM (kst D) A) :
  k_pipes s !! pp = Some p → kbind (get_pipe pp) k s = k p s.
Proof. intros H. unfold kbind, get_pipe, kget_opt. by rewrite H. Qed.

Lemma wake_run t s :
  (t = 0 ∨ is_Some (k_tasks s !! t)) →
  (if t =? 0 then kret tt else wake t) s = Ret tt (with_k_tasks (woken t (k_tasks s)) s).
Proof.
  intros Ht. unfold woken. destruct (Z.eqb_spec t 0); [by destruct s|].
  destruct Ht as [|[tk Htk]]; [done|]. unfold wake, get_task, kbind, kget_opt. rewrite Htk.
  destruct (t_state tk =? TASK_WAITING); [done|]. by destruct s.
Qed.

(** The states after a write and after a read, in terms of the new pipe. *)
Definition after_write (pp : Z) (p' : pipe_t) s : kst D :=
  with_k_tasks (woken (p_waiting p') (k_tasks s)) (with_k_pipes (<[pp := p']> (k_pipes s)) s).
Definition after_read (pp : Z) (p' : pipe_t) s : kst D :=
  with_k_pipes (<[pp := p']> (k_pipes s)) s.
Definition after_block (pp : Z) (p : pipe_t) (t : task_t) s : kst D :=
  with_k_tasks (<[k_current s := with_t_state TASK_WAITING t]> (k_tasks s))
    (with_k_pipes (<[pp := with_p_waiting (k_current s) p]> (k_pipes s)) s).

Lemma pipe_write_run pp s p data :
  pipe_ok pp s p → Z.of_nat (length data) < 4294967296 → p_readers p ≠ 0 →
  ∃ p', pipe_wf p' ∧ p_waiting p' = p_waiting p ∧ abs p' = (q_write data (abs p)).2 ∧
    pipe_write_locked pp data s = Ret (q_write data (abs p)).1 (after_write pp p' s).
Proof.
  intros (Hp & Hwf & Hw) Hd Hr. unfold pipe_write_locked. rewrite (get_pipe_bind _ _ _ _ Hp).
  pose proof (pw_size _ Hwf). pose proof (pw_len _ Hwf). unfold q_write. cbn [abs q_readers].
  zbool. rewrite contents_length by lia.
  destruct (pipe_write_loop_spec data 0 p Hwf) as (p' & E & W' & C & Sz & L & R & Wr & Wt);
    [lia..|].
  exists p'. split; [done|]. split; [done|]. split.
  { unfold abs. by rewrite C, Sz, R, Wr, Wt. }
  unfold kbind, kget_opt, put_pipe, kmodify. rewrite E.
  rewrite wake_run by (simpl; by rewrite Wt). unfold kret. f_equal. lia.
Qed.

Lemma abs_nil p : pipe_wf p → q_bytes (abs p) = [] ↔ p_len p = 0.
Proof.
  intros Hwf. pose proof (contents_length p). pose proof (pw_len _ Hwf). simpl.
  rewrite <-length_zero_iff_nil. lia.
Qed.

Lemma pipe_read_run pp s p size t :
  pipe_ok pp s p → k_tasks s !! k_current s = Some t → 0 ≤ size → 0 ≤ p_writers p →
  match q_read size (abs p) with
  | Some (bytes, q') =>
      ∃ p', pipe_wf p' ∧ p_waiting p' = p_waiting p ∧ abs p' = q' ∧
        pipe_read_enter pp size s = Ret bytes (after_read pp p' s)
  | None => pipe_read_enter pp size s = Hang (after_block pp p t s)
  end.
Proof.
  intros (Hp & Hwf & Hw) Ht Hs Hwr. pose proof (pw_len _ Hwf) as Hl.
  pose proof (abs_nil p Hwf) as Hnil. unfold q_read.
  unfold pipe_read_enter, pipe_read_finish. rewrite !(get_pipe_bind pp s p) by done.
  destruct (q_bytes (abs p)) as [|c l] eqn:Eq.
  - destruct Hnil as [Hnil _]. specialize (Hnil eq_refl). cbn [abs q_writers].
    rewrite Hnil. destruct (Z.eqb_spec (p_writers p) 0) as [E|E]; zbool.
    + exists p. split_and!; try done. unfold after_read. rewrite (get_pipe_bind pp s p) by done.
      rewrite Hnil. zbool. rewrite insert_id by done. by destruct s.
    + unfold kbind, kget_opt, current_task, put_pipe, upd_task, get_task, kmodify. simpl.
      unfold kbind, kget_opt. simpl. by rewrite Ht.
  - assert (p_len p ≠ 0) by (intros E; by apply Hnil in E). rewrite <-Eq. zbool.
    destruct (pipe_read_loop_spec (Z.to_nat (p_len p)) size [] p Hwf)
      as (p' & E & W' & C & Sz & L & R & Wr & Wt); [lia|].
    cbn [app length] in *. change (Z.of_nat 0) with 0 in *.
    rewrite Z.sub_0_r, Z.max_r in * by lia. exists p'.
    pose proof (contents_length p ltac:(lia)) as Hlen.
    assert (∀ {A} (l : list A), Z.of_nat (length l) = p_len p →
      take (Z.to_nat (Z.min size (p_len p))) l = take (Z.to_nat size) l ∧
      drop (Z.to_nat (Z.min size (p_len p))) l = drop (Z.to_nat size) l) as Hmin.
    { intros A l0 Hl0. destruct (decide (size ≤ p_len p)).
      - by rewrite Z.min_l by lia.
      - rewrite Z.min_r, !take_ge, !drop_ge by lia. done. }
    destruct (Hmin _ _ Hlen) as [M1 M2].
    rewrite (get_pipe_bind pp s p) by done. zbool.
    split_and!; [done..| |].
    + unfold abs. by rewrite C, Sz, R, Wr, Wt, M2.
    + unfold kbind, kget_opt. rewrite E. by rewrite M1.
Qed.

(** C14. [pipe_write] implements the abstract queue: it appends the longest
    prefix of the data that fits and returns its length; without a reader it
    returns (uint32_t)-1 and leaves the pipe as it was.  The pipe stays well
    formed and no other pipe changes. *)
Theorem pipe_write_refines pp s p data :
  pipe_ok pp s p → Z.of_nat (length data) < 4294967296 →
  ∃ s' p', pipe_write_locked pp data s = Ret (q_write data (abs p)).1 s' ∧
    pipe_ok pp s' p' ∧ abs p' = (q_write data (abs p)).2 ∧
    ∀ q, q ≠ pp → k_pipes s' !! q = k_pipes s !! q.
Proof.
  intros Hok Hd. destruct (decide (p_readers p = 0)) as [Hr|Hr].
  - exists s, p. unfold q_write, pipe_write_locked. cbn [abs q_readers].
    rewrite (get_pipe_bind _ _ _ _ (proj1 Hok)), Hr. by split_and!.
  - destruct (pipe_write_run pp s p data Hok Hd Hr) as (p' & W & Wt & A & E).
    exists (after_write pp p' s), p'. split; [done|]. destruct Hok as (_ & _ & Hw).
    split; [|split; [done|intros q Hq; apply lookup_insert_ne; congruence]].
    split; [apply lookup_insert_eq|]. split; [done|]. simpl. rewrite Wt.
    destruct Hw; auto using woken_dom.
Qed.

(** C15. [pipe_read] implements the abstract queue: it returns the oldest bytes,
    as many as were asked for or as there are, and keeps the rest in order; an
    empty pipe without writers reads as end of file, and with writers the reader
    registers itself as the waiter and goes to sleep. *)
Theorem pipe_read_refines pp s p size t :
  pipe_ok pp s p → k_tasks s !! k_current s = Some t → 0 ≤ size → 0 ≤ p_writers p →
  match q_read size (abs p) with
  | Some (bytes, q') =>
      ∃ s' p', pipe_read_enter pp size s = Ret bytes s' ∧ pipe_ok pp s' p' ∧ abs p' = q' ∧
        k_tasks s' = k_tasks s
  | None =>
      ∃ s', pipe_read_enter pp size s = Hang s' ∧
        k_pipes s' !! pp = Some (with_p_waiting (k_current s) p) ∧
        k_tasks s' !! k_current s = Some (with_t_state TASK_WAITING t)
  end.
Proof.
  intros Hok Ht Hs Hw. pose proof (pipe_read_run pp s p size t Hok Ht Hs Hw) as H.
  destruct (q_read size (abs p)) as [[bytes q']|].
  - destruct H as (p' & W & Wt & A & E). exists (after_read pp p' s), p'. split; [done|].
    destruct Hok as (_ & _ & Hwt).
    split_and!; [split; [apply lookup_insert_eq|]|done..]. by rewrite Wt.
  - eexists. split; [done|]. simpl. by rewrite !lookup_insert_eq.
Qed.

(** *** Streams

    Writers and a reader sharing one pipe, as one sequence of operations; the run
    accumulates the bytes the writes accepted and those the reads returned. *)
Inductive pipe_op := PWrite (data : list Z) | PRead (size : Z).

Definition op_ok (o : pipe_op) : Prop :=
  match o with
  | PWrite data => Z.of_nat (length data) < 4294967296
  | PRead size => 0 ≤ size
  end.

Fixpoint run_ops (pp : Z) (ops : list pipe_op) (acc : list Z * list Z)
  : kM (kst D) (list Z * list Z) :=
  match ops with
  | [] => kret acc
  | PWrite data :: ops =>
      let* n := pipe_write_locked pp data in
      run_ops pp ops (acc.1 ++ take (Z.to_nat n) data, acc.2)
  | PRead size :: ops =>
      let* bytes := pipe_read_enter pp size in
      run_ops pp ops (acc.1, acc.2 ++ bytes)
  end.

(** A pipe is a lossless, order-preserving stream: from any state of a pipe
    with a reader and a writer, every sequence of writes and reads runs without
    fault or panic; what was accepted is what was delivered followed by what is
    still queued, and the only way to stop early is a read sleeping on a pipe all
    of whose bytes have been delivered. *)
Theorem pipe_stream pp ops : ∀ acc s p,
  pipe_ok pp s p → 0 < p_readers p → 0 < p_writers p → is_Some (k_tasks s !! k_current s) →
  Forall op_ok ops → acc.1 = acc.2 ++ contents p →
  match run_ops pp ops acc s with
  | Ret (accepted, delivered) s' =>
      ∃ p', k_pipes s' !! pp = Some p' ∧ accepted = delivered ++ contents p'
  | Hang s' =>
      ∃ p', k_pipes s' !! pp = Some p' ∧ contents p' = [] ∧ p_waiting p' = k_current s'
  | _ => False
  end.
Proof.
  induction ops as [|o ops IH]; intros [a d] s p Hok Hr Hw [t Ht] Ho Hacc; simpl in *.
  { destruct Hok. eauto. }
  apply Forall_cons in Ho as [Ho Hos]. destruct o as [data|size]; simpl in Ho.
  - destruct (pipe_write_run pp s p data Hok Ho) as (p' & W & Wt & A & E); [lia|].
    rewrite (kbind_ret _ _ _ _ _ E). unfold q_write in A |- *. cbn [abs q_readers] in A |- *.
    replace (p_readers p =? 0) with false in * by (symmetry; apply Z.eqb_neq; lia).
    injection A as C S R Wr _. cbn [fst]. destruct Hok as (_ & _ & Hwt).
    eapply (IH _ _ p'); [|lia|lia|simpl; apply woken_dom; eauto|done|].
    + split; [apply lookup_insert_eq|]. split; [done|].
      rewrite Wt. destruct Hwt; [by left|right]. by apply woken_dom.
    + cbn [fst snd]. by rewrite C, Hacc, app_assoc.
  - pose proof (pipe_read_run pp s p size t Hok Ht Ho ltac:(lia)) as H.
    destruct (q_read size (abs p)) as [[bytes q']|] eqn:Eq.
    + destruct H as (p' & W & Wt & A & E). rewrite (kbind_ret _ _ _ _ _ E).
      assert (contents p = bytes ++ q_bytes q' ∧ q_readers q' = p_readers p ∧
              q_writers q' = p_writers p) as (C & R & Wr).
      { unfold q_read in Eq. cbn [abs q_bytes q_writers] in Eq. destruct (contents p) eqn:Ec.
        - destruct (_ =? 0); [|done]. injection Eq as <- <-. simpl. by rewrite Ec.
        - injection Eq as <- <-. cbn [q_bytes]. by rewrite take_drop. }
      subst q'. destruct Hok as (_ & _ & Hwt). cbn [abs q_readers q_writers q_bytes] in *.
      eapply (IH _ _ p'); [|lia|lia|simpl; eauto|done|].
      * split; [apply lookup_insert_eq|]. split; [done|]. by rewrite Wt.
      * cbn [fst snd]. by rewrite Hacc, C, app_assoc.
    + rewrite (kbind_hang _ _ _ _ H). simpl. eexists. rewrite lookup_insert_eq.
      split; [done|]. split; [|done]. unfold q_read in Eq. cbn [abs q_bytes] in Eq.
      change (contents (with_p_waiting (k_current s) p)) with (contents p).
      by destruct (contents p).
Qed.

(** *** The sleep and wake-up protocol

    A pipe [pp] with one reading task [r]: the second component is the size of
    the read [r] is blocked in.  Writers, closes of write ends and the rest of the
    system interleave with it in any order; the scheduler resumes [r] only when it
    is not WAITING. *)
Inductive pstep (pp r : Z) : kst D * option Z → kst D * option Z → Prop :=
| ps_write s pend c data n s' :
    Z.of_nat (length data) < 4294967296 →
    pipe_write_locked pp data (with_k_current c s) = Ret n s' →
    pstep pp r (s, pend) (s', pend)
| ps_close_writer s pend c s' :
    pipe_remove_writer pp (with_k_current c s) = Ret tt s' →
    pstep pp r (s, pend) (s', pend)
| ps_read s size bytes s' :
    0 ≤ size → pipe_read_enter pp size (with_k_current r s) = Ret bytes s' →
    pstep pp r (s, None) (s', None)
| ps_block s size s' :
    0 ≤ size → pipe_read_enter pp size (with_k_current r s) = Hang s' →
    pstep pp r (s, None) (s', Some size)
| ps_resume s size bytes s' t :
    k_tasks s !! r = Some t → t_state t ≠ TASK_WAITING →
    pipe_read_resume pp size (with_k_current r s) = Ret bytes s' →
    pstep pp r (s, Some size) (s', None)
| ps_resume_block s size s' t :
    k_tasks s !! r = Some t → t_state t ≠ TASK_WAITING →
    pipe_read_resume pp size (with_k_current r s) = Hang s' →
    pstep pp r (s, Some size) (s', Some size)
| ps_other s pend m t t' :
    k_tasks s !! r = Some t → m !! r = Some t' →
    (t_state t' = TASK_WAITING → t_state t = TASK_WAITING) →
    pstep pp r (s, pend) (with_k_tasks m s, pend).

Definition pinv (pp r : Z) (st : kst D * option Z) : Prop :=
  ∃ p t, k_pipes st.1 !! pp = Some p ∧ pipe_wf p ∧ 0 ≤ p_writers p ∧
    k_tasks st.1 !! r = Some t ∧ (p_waiting p = 0 ∨ p_waiting p = r) ∧
    match st.2 with
    | None => True
    | Some size => 0 ≤ size ∧
        (t_state t = TASK_WAITING →
         p_len p = 0 ∧ 0 < p_writers p ∧ p_waiting p = r)
    end.

Lemma pinv_ok pp r s pend c :
  pinv pp r (s, pend) → ∃ p, pipe_ok pp (with_k_current c s) p ∧ 0 ≤ p_writers p.
Proof.
  intros (p & t & Hp & W & Hw & Ht & Hwt & _). exists p. split; [|done]. split; [done|].
  split; [done|]. destruct Hwt as [|Hwt]; [by left|]. right. simpl in *. rewrite Hwt. eauto.
Qed.

Lemma woken_state r w m t t' :
  r ≠ 0 → w = 0 ∨ w = r → m !! r = Some t → woken w m !! r = Some t' →
  t_state t' = TASK_WAITING → w = 0 ∧ t' = t.
Proof.
  intros Hr [->| ->] Ht Ht' Hs; [|by destruct (woken_not_waiting r m t')].
  unfold woken in Ht'. simpl in Ht'. by simplify_eq.
Qed.

Lemma pinv_write pp r s pend c data n s' :
  r ≠ 0 → pinv pp r (s, pend) → Z.of_nat (length data) < 4294967296 →
  pipe_write_locked pp data (with_k_current c s) = Ret n s' → pinv pp r (s', pend).
Proof.
  intros Hr Hinv Hd E. destruct (pinv_ok pp r s pend c Hinv) as (p & Hok & _).
  destruct Hinv as (p0 & t & Hp & W & Hw & Ht & Hwt & Hb). simpl in *.
  assert (p0 = p) as -> by (destruct Hok as (H & _); simpl in H; congruence).
  destruct (decide (p_readers p = 0)) as [Hr0|Hr0].
  { unfold pipe_write_locked in E. rewrite (get_pipe_bind _ _ _ _ (proj1 Hok)), Hr0 in E.
    unfold kret in E. simpl in E. simplify_eq. by exists p, t. }
  destruct (pipe_write_run _ _ _ _ Hok Hd Hr0) as (p' & W' & Wt & A & E').
  assert (s' = after_write pp p' (with_k_current c s)) as -> by congruence.
  destruct (woken_dom (p_waiting p') (k_tasks s) r) as [t' Ht']; [eauto|].
  assert (p_writers p' = p_writers p) as Hwr.
  { change (q_writers (abs p') = p_writers p). rewrite A. unfold q_write. by destruct (_ =? 0). }
  exists p', t'. simpl. rewrite lookup_insert_eq, Hwr. split_and!; try done; [by rewrite Wt|].
  destruct pend as [size|]; [|done]. destruct Hb as [Hsz Hb]. split; [done|]. intros Hs.
  rewrite Wt in Ht'. destruct (woken_state r _ _ t t' Hr Hwt Ht Ht' Hs) as [Hz ->].
  destruct (Hb Hs) as (_ & _ & ?). congruence.
Qed.

Lemma pinv_close pp r s pend c s' :
  r ≠ 0 → pinv pp r (s, pend) →
  pipe_remove_writer pp (with_k_current c s) = Ret tt s' → pinv pp r (s', pend).
Proof.
  intros Hr (p & t & Hp & W & Hw & Ht & Hwt & Hb) E. simpl in *.
  unfold pipe_remove_writer in E. rewrite (get_pipe_bind _ (with_k_current c s) p _ Hp) in E.
  set (p1 := if 0 <? p_writers p then with_p_writers (p_writers p - 1) p else p) in E.
  assert (p_len p1 = p_len p ∧ p_waiting p1 = p_waiting p ∧ pipe_wf p1 ∧
          p_writers p1 = Z.max 0 (p_writers p - 1)) as (L1 & Wt1 & W1 & Wr1).
  { unfold p1. destruct (Z.ltb_spec 0 (p_writers p)); simpl; split_and!; try done; [|lia..].
    destruct W. by split. }
  kinv E. unfold put_pipe, kmodify in E0. simplify_eq.
  assert (∃ n, s' = with_k_pipe_count n s1) as [n ->].
  { destruct (_ && _) in E; unfold add_pipe_count, kmodify, kret in E; simplify_eq; eauto.
    exists (k_pipe_count s'). by destruct s'. }
  clear E. set (w := if p_writers p1 =? 0 then p_waiting p else 0).
  assert (s1 = with_k_tasks (woken w (k_tasks s))
    (with_k_pipes (<[pp := p1]> (k_pipes s)) (with_k_current c s))) as ->.
  { unfold w. rewrite Wt1 in E1. destruct (p_writers p1 =? 0); simpl in E1.
    - pose proof (wake_run (p_waiting p)
        (with_k_pipes (<[pp := p1]> (k_pipes s)) (with_k_current c s))) as Hwk. simpl in Hwk.
      rewrite <-Wt1 in *. destruct (p_waiting p1 =? 0); simpl in *; rewrite Hwk in E1;
        try congruence; destruct Hwt as [->| ->]; eauto.
    - unfold kret in E1. simplify_eq. by destruct s. }
  destruct (woken_dom w (k_tasks s) r) as [t' Ht']; [eauto|].
  exists p1, t'. simpl. rewrite lookup_insert_eq.
  split_and!; try done; [lia|by rewrite Wt1|].
  destruct pend as [size|]; [|done]. destruct Hb as [Hsz Hb]. split; [done|]. intros Hs.
  assert (w = 0 ∨ w = r) as Hw' by (unfold w; destruct (_ =? 0); tauto).
  destruct (woken_state r _ _ t t' Hr Hw' Ht Ht' Hs) as [Hz ->].
  destruct (Hb Hs) as (? & ? & Hwr). rewrite L1, Wt1. split_and!; try done.
  unfold w in Hz. destruct (Z.eqb_spec (p_writers p1) 0); [congruence|lia].
Qed.

(** Both outcomes of a read step: the reader is out, or registered and asleep on
    an empty pipe that has a writer. *)
Lemma pinv_read pp r s pend size :
  0 ≤ size → pinv pp r (s, pend) →
  (∀ bytes s', pipe_read_enter pp size (with_k_current r s) = Ret bytes s' → pinv pp r (s', None)) ∧
  (∀ s', pipe_read_enter pp size (with_k_current r s) = Hang s' → pinv pp r (s', Some size)).
Proof.
  intros Hs Hinv. destruct (pinv_ok pp r s pend r Hinv) as (p & Hok & Hw0).
  destruct Hinv as (p0 & t & Hp & W & Hw & Ht & Hwt & Hb). simpl in *.
  assert (p0 = p) as -> by (destruct Hok as (H & _); simpl in H; congruence).
  pose proof (pipe_read_run pp _ p size t Hok Ht Hs Hw) as H.
  destruct (q_read size (abs p)) as [[bytes q']|] eqn:Eq.
  - destruct H as (p' & W' & Wt & A & E). split; intros; [|congruence].
    assert (s' = after_read pp p' (with_k_current r s)) as -> by congruence.
    exists p', t. simpl. rewrite lookup_insert_eq, Wt. split_and!; try done.
    change (0 ≤ q_writers (abs p')). rewrite A. unfold q_read in Eq.
    destruct (q_bytes (abs p)); [destruct (_ =? 0); [|done]|]; injection Eq as <- <-; done.
  - rewrite H. split; intros; [congruence|]. simplify_eq. unfold q_read in Eq.
    destruct (q_bytes (abs p)) eqn:En; [|done]. apply (abs_nil p W) in En.
    destruct (q_writers (abs p) =? 0) eqn:Ew; [done|]. simpl in Ew. zify_bool.
    exists (with_p_waiting r p), (with_t_state TASK_WAITING t). simpl.
    rewrite !lookup_insert_eq. split_and!; try done; [by destruct W|by right|].
    intros _. split_and!; try done; lia.
Qed.

Lemma pinv_clear pp r s size p :
  k_pipes s !! pp = Some p → (∃ t, k_tasks s !! r = Some t ∧ t_state t ≠ TASK_WAITING) →
  pinv pp r (s, Some size) →
  pinv pp r (with_k_pipes (<[pp := with_p_waiting 0 p]> (k_pipes s)) s, Some size).
Proof.
  intros Hp (t & Ht & Hn) (p0 & t0 & Hp0 & W & Hw & Ht0 & Hwt & Hb). simpl in *. simplify_eq.
  exists (with_p_waiting 0 p), t. simpl. rewrite lookup_insert_eq.
  split_and!; try done; [by destruct W|by left|apply Hb].
Qed.

Lemma pstep_pinv pp r st st' : r ≠ 0 → pinv pp r st → pstep pp r st st' → pinv pp r st'.
Proof.
  intros Hr Hinv Hs. destruct Hs.
  - eauto using pinv_write.
  - eauto using pinv_close.
  - by eapply (pinv_read pp r s None size).
  - by eapply (pinv_read pp r s None size).
  - pose proof Hinv as (p & ? & Hp & _ & _ & _ & _ & ? & _). simpl in *.
    unfold pipe_read_resume in H1. rewrite (get_pipe_bind _ (with_k_current r s) p _ Hp) in H1.
    apply (pinv_clear pp r s size p) in Hinv; [|done|eauto].
    destruct (pinv_read pp r _ _ size ltac:(done) Hinv) as [Hi _]. eapply Hi, H1.
  - pose proof Hinv as (p & ? & Hp & _ & _ & _ & _ & ? & _). simpl in *.
    unfold pipe_read_resume in H1. rewrite (get_pipe_bind _ (with_k_current r s) p _ Hp) in H1.
    apply (pinv_clear pp r s size p) in Hinv; [|done|eauto].
    destruct (pinv_read pp r _ _ size ltac:(done) Hinv) as [_ Hi]. eapply Hi, H1.
  - destruct Hinv as (p & t0 & Hp & W & Hw & Ht & Hwt & Hb). simpl in *. simplify_eq.
    exists p, t'. simpl. split_and!; try done. destruct pend as [|]; [|done].
    destruct Hb as [? Hb]. split; auto.
Qed.

(** C34. No wake-up is lost: however writers, closes and the rest of the system
    interleave with a reading task, a reader blocked in [pipe_read] is WAITING
    only while the pipe is empty and still has a writer; and as soon as there is
    a byte or the last writer is gone, resuming it completes the read. *)
Theorem pipe_no_lost_wakeup pp r s0 s size :
  r ≠ 0 → pinv pp r (s0, None) → rtc (pstep pp r) (s0, None) (s, Some size) →
  ∃ p t, k_pipes s !! pp = Some p ∧ k_tasks s !! r = Some t ∧
    (t_state t = TASK_WAITING → contents p = [] ∧ 0 < p_writers p) ∧
    (contents p ≠ [] ∨ p_writers p = 0 → ∃ s',
       pipe_read_resume pp size (with_k_current r s) = Ret (take (Z.to_nat size) (contents p)) s').
Proof.
  intros Hr Hinv Hsteps. assert (pinv pp r (s, Some size)) as Hi.
  { revert Hinv. generalize (s, Some size), (s0, @None Z), Hsteps. clear -Hr.
    induction 1; eauto using pstep_pinv. }
  pose proof Hi as (p & t & Hp & W & Hw & Ht & Hwt & Hsz & Hb). simpl in *.
  exists p, t. split; [done|]. split; [done|]. split.
  - intros Hs. destruct (Hb Hs) as (L & ? & _). split; [|done]. by apply (abs_nil p W).
  - intros Hready. unfold pipe_read_resume. rewrite (get_pipe_bind _ (with_k_current r s) p _ Hp).
    set (s1 := with_k_pipes (<[pp := with_p_waiting 0 p]> (k_pipes s)) (with_k_current r s)).
    change (∃ s', pipe_read_enter pp size s1 = Ret (take (Z.to_nat size) (contents p)) s').
    pose proof (pipe_read_run pp s1 (with_p_waiting 0 p) size t) as H.
    assert (pipe_ok pp s1 (with_p_waiting 0 p)) as Hok.
    { split; [apply lookup_insert_eq|]. split; [by destruct W|by left]. }
    specialize (H Hok Ht Hsz Hw). unfold q_read in H.
    change (q_bytes (abs (with_p_waiting 0 p))) with (contents p) in H.
    change (q_writers (abs (with_p_waiting 0 p))) with (p_writers p) in H.
    destruct (contents p) as [|x l] eqn:Ec.
    + destruct Hready as [|Hready]; [done|]. rewrite Hready in H. simpl in H.
      destruct H as (p' & _ & _ & _ & E). rewrite take_nil. eauto.
    + destruct H as (p' & _ & _ & _ & E). eauto.
Qed.
End spec.

(** ** Concrete pipes *)

(** Two tasks, 16 (running) and 17, and a pipe of 8 bytes at address 50. *)
Definition demo_pipe : kst unit :=
  with_k_pipes {[50 := pipe_init 8 1 1]} (with_k_tasks {[16 := demo_task 1; 17 := demo_task 2]} demo_state).

Lemma demo_pipe_ok : pipe_ok 50 demo_pipe (pipe_init 8 1 1).
Proof. split; [done|]. split; [|by left]. by apply pipe_init_wf. Qed.

Lemma demo_pinv : pinv 50 16 (demo_pipe, None).
Proof.
  exists (pipe_init 8 1 1), (demo_task 1).
  split_and!; try done; by left.
Qed.

Lemma pipe_write_refines_witness :
  ∃ s' p', pipe_write_locked 50 (str "0123456789") demo_pipe = Ret 8 s' ∧
    pipe_ok 50 s' p' ∧ contents p' = str "01234567".
Proof.
  destruct (pipe_write_refines 50 demo_pipe _ (str "0123456789") demo_pipe_ok eq_refl)
    as (s' & p' & E & Hok & A & _).
  exists s', p'. split; [exact E|]. split; [exact Hok|]. by apply (f_equal q_bytes) in A.
Defined.

Lemma pipe_read_refines_witness :
  ∃ s', pipe_read_enter 50 4 demo_pipe = Hang s' ∧
    k_tasks s' !! 16 = Some (with_t_state TASK_WAITING (demo_task 1)).
Proof.
  destruct (pipe_read_refines 50 demo_pipe _ 4 (demo_task 1) demo_pipe_ok eq_refl)
    as (s' & E & _ & T); [done..|]. by exists s'.
Defined.

Lemma pipe_stream_witness :
  match run_ops 50 [PWrite (str "hello"); PRead 2; PWrite (str "worlds"); PRead 20] ([], []) demo_pipe with
  | Ret (accepted, delivered) s' =>
      ∃ p', k_pipes s' !! 50 = Some p' ∧ accepted = delivered ++ contents p'
  | Hang s' =>
      ∃ p', k_pipes s' !! 50 = Some p' ∧ contents p' = [] ∧ p_waiting p' = k_current s'
  | _ => False
  end.
Proof.
  apply (pipe_stream 50 _ ([], []) demo_pipe _ demo_pipe_ok); try done.
  by repeat constructor.
Defined.

(** The reader 16 blocks, then task 17 writes. *)
Definition demo_blocked : kst unit :=
  match pipe_read_enter 50 4 demo_pipe with Hang s => s | _ => demo_pipe end.
Definition demo_trace : kst unit :=
  match pipe_write_locked 50 (str "ab") (with_k_current 17 demo_blocked) with
  | Ret _ s => s | _ => demo_pipe end.

Lemma demo_trace_steps : rtc (pstep 50 16) (demo_pipe, None) (demo_trace, Some 4).
Proof.
  eapply rtc_l; [apply (ps_block 50 16 demo_pipe 4 demo_blocked); [done|by vm_compute]|].
  eapply rtc_once. eapply (ps_write 50 16 _ (Some 4) 17 (str "ab") 2); [done|by vm_compute].
Qed.

Lemma pipe_no_lost_wakeup_witness : ∃ p t,
  k_pipes demo_trace !! 50 = Some p ∧ k_tasks demo_trace !! 16 = Some t ∧
  (t_state t = TASK_WAITING → contents p = [] ∧ 0 < p_writers p).
Proof.
  destruct (pipe_no_lost_wakeup 50 16 demo_pipe demo_trace 4 ltac:(done) demo_pinv demo_trace_steps)
    as (p & t & Hp & Ht & H & _).
  by exists p, t.
Defined.

(** With two readers the single [waiting_task] slot loses a wake-up: both block,
    two bytes arrive, the registered one takes its byte, and the other stays
    WAITING although the pipe has a byte and nothing will wake it. *)
Definition two_readers : option (pipe_t * task_t) :=
  match pipe_read_enter 50 1 demo_pipe with
  | Hang s =>
      match pipe_read_enter 50 1 (with_k_current 17 s) with
      | Hang s =>
          match (let* _ := pipe_write_locked 50 (str "ab") in
                 pipe_read_resume 50 1)%K s with
          | Ret _ s => p ← k_pipes s !! 50; t ← k_tasks s !! 16; Some (p, t)
          | _ => None end
      | _ => None end
  | _ => None
  end.

Lemma two_readers_lost_wakeup : ∃ p t, two_readers = Some (p, t) ∧
  contents p = str "b" ∧ p_waiting p = 0 ∧ t_state t = TASK_WAITING.
Proof. eexists _, _. vm_compute. done. Qed.
