(* ===== verification/Path.v ===== *)
(** * Path names

    Models [vfs_canonicalize_path], [vfs_get_parent_path] and [vfs_get_basename]
    of [kernel/core/vfs_core.c].  A C string is the list of its bytes before the
    NUL; the local buffers of 512 bytes are modelled by the length tests of the
    code, and a write outside of one is [None].  The specification is a fold over
    the components of the path. *)

From stdpp Require Import base numbers list strings.
From Stdlib Require Import ZArith Lia.
From S2P Require Import Prelude.

#[local] Open Scope Z_scope.
#[local] Arguments Nat.leb : simpl never.
#[local] Arguments Nat.ltb : simpl never.

Definition slash : Z := 47.
Definition dot : list Z := [46].
Definition dotdot : list Z := [46; 46].

(** ** The code *)

(** The contents of [buf] when the scan starts: a relative path is appended to
    [current_task->cwd] ([None] when there is no current task). *)
Definition canon_buf (cwd : option (list Z)) (src : list Z) : option (list Z) :=
  b ← match src with
      | [] => Some []
      | c :: _ =>
          if c =? slash then Some []
          else match cwd with
               | None => Some [slash]
               | Some cwd =>
                   let b := take 511 cwd in
                   e ← last b;
                   Some (if e =? slash then b else b ++ [slash])
               end
      end;
  let b := b ++ take (511 - length b) src in
  if (length b <=? 511)%nat then Some b else None.

(** What the scan does with one token. *)
Definition canon_token (token : list Z) (components : list (list Z)) : list (list Z) :=
  if bool_decide (token = dotdot) then removelast components
  else if bool_decide (token = dot) || bool_decide (token = []) then components
  else if (length components <? 32)%nat then components ++ [token]
  else components.

(** The scan: [token] is what was read since the last slash. *)
Fixpoint canon_scan (p token : list Z) (components : list (list Z)) : list (list Z) :=
  match p with
  | [] => canon_token token components
  | c :: p =>
      if c =? slash then canon_scan p [] (canon_token token components)
      else canon_scan p (token ++ [c]) components
  end.

(** The reconstruction into [dest]. *)
Fixpoint canon_join (components : list (list Z)) (dest : list Z) : list Z :=
  match components with
  | [] => dest
  | c :: rest =>
      if (512 <=? length dest + length c + 1)%nat then dest
      else canon_join rest (dest ++ c ++ (match rest with [] => [] | _ => [slash] end))
  end.

Definition vfs_canonicalize_path (cwd : option (list Z)) (src : list Z) : option (list Z) :=
  match src with
  | [] => Some [slash]
  | _ =>
      buf ← canon_buf cwd src;
      let p := match buf with c :: p => if c =? slash then p else buf | [] => buf end in
      Some (canon_join (canon_scan p [] []) [slash])
  end.

(** [for (i < len) if (clean\[i\] == '/') last_slash = &clean\[i\]]: the index. *)
Fixpoint last_slash (s : list Z) (i : nat) (found : option nat) : option nat :=
  match s with
  | [] => found
  | c :: s => last_slash s (S i) (if c =? slash then Some i else found)
  end.

Definition vfs_get_parent_path (cwd : option (list Z)) (path : list Z) : option (list Z) :=
  clean ← vfs_canonicalize_path cwd path;
  if (length clean <=? 1)%nat then Some [slash]
  else
    i ← last_slash clean 0 None;
    Some (if (i =? 0)%nat then [slash] else take i clean).

Definition vfs_get_basename (cwd : option (list Z)) (path : list Z) : option (list Z) :=
  clean ← vfs_canonicalize_path cwd path;
  Some (match last_slash clean 0 None with
        | None => clean
        | Some i => drop (S i) clean
        end).

(** ** The specification *)

(** The pieces of a path between its slashes. *)
Fixpoint split (p token : list Z) : list (list Z) :=
  match p with
  | [] => [token]
  | c :: p => if c =? slash then token :: split p [] else split p (token ++ [c])
  end.
Definition pieces (p : list Z) : list (list Z) := split p [].

(** One step of the walk from the root, and the whole walk. *)
Definition walk_step (stack : list (list Z)) (c : list Z) : list (list Z) :=
  if decide (c = dotdot) then removelast stack
  else if decide (c = dot ∨ c = []) then stack
  else stack ++ [c].
Definition normalize (cs : list (list Z)) : list (list Z) := foldl walk_step [] cs.

(** "/" followed by the components separated by slashes. *)
Fixpoint join (cs : list (list Z)) : list Z :=
  match cs with
  | [] => []
  | [c] => c
  | c :: rest => c ++ [slash] ++ join rest
  end.
Definition render (cs : list (list Z)) : list Z := slash :: join cs.

(** A component of a canonical path. *)
Definition is_name (c : list Z) : Prop := c ≠ [] ∧ c ≠ dot ∧ c ≠ dotdot ∧ slash ∉ c.

(** The path from the root that [src] stands for. *)
Definition absolute (cwd src : list Z) : list Z :=
  if decide (head src = Some slash) then src else cwd ++ [slash] ++ src.

(** ** Lemmas *)

Lemma canon_token_step token cs :
  (length cs < 32)%nat → canon_token token cs = walk_step cs token.
Proof.
  intros H. unfold canon_token, walk_step.
  repeat case_bool_decide; repeat case_decide; simpl; try tauto; try done.
  replace (length cs <? 32)%nat with true by (symmetry; apply Nat.ltb_lt; lia). done.
Qed.

Lemma length_removelast {A} (l : list A) : length (removelast l) = (length l - 1)%nat.
Proof.
  induction l as [|x l IH]; [done|]. destruct l; [done|].
  change (removelast (x :: a :: l)) with (x :: removelast (a :: l)). cbn [length].
  rewrite IH. simpl. lia.
Qed.

Lemma walk_step_length cs c : (length (walk_step cs c) ≤ S (length cs))%nat.
Proof.
  unfold walk_step. repeat case_decide; rewrite ?length_removelast, ?length_app; simpl; lia.
Qed.

(** The scan is the fold over the pieces, while the array has room. *)
Lemma canon_scan_fold p : ∀ token cs,
  (length cs + length (split p token) ≤ 32)%nat →
  canon_scan p token cs = foldl walk_step cs (split p token).
Proof.
  induction p as [|c p IH]; intros token cs H; simpl in *.
  { by rewrite canon_token_step by lia. }
  destruct (c =? slash); [|by apply IH]. simpl in *. rewrite canon_token_step by lia.
  apply IH. pose proof (walk_step_length cs token). lia.
Qed.

Lemma split_clean p : ∀ token, slash ∉ token → Forall (λ c, slash ∉ c) (split p token).
Proof.
  induction p as [|c p IH]; intros token Ht; simpl; [by constructor|].
  destruct (Z.eqb_spec c slash).
  - constructor; [done|]. apply IH, not_elem_of_nil.
  - apply IH. rewrite elem_of_app, list_elem_of_singleton. by intros [?|<-].
Qed.

Lemma Forall_removelast {A} (P : A → Prop) l : Forall P l → Forall P (removelast l).
Proof.
  induction 1 as [|x l Hx Hl IH]; [constructor|]. destruct l; [constructor|].
  change (removelast (x :: a :: l)) with (x :: removelast (a :: l)). by constructor.
Qed.

Lemma walk_step_names cs c : Forall is_name cs → slash ∉ c → Forall is_name (walk_step cs c).
Proof.
  intros Hcs Hc. unfold walk_step. repeat case_decide; [by apply Forall_removelast|done|].
  apply Forall_app. split; [done|]. constructor; [|done]. unfold is_name. naive_solver.
Qed.

Lemma canon_token_names cs c : Forall is_name cs → slash ∉ c → Forall is_name (canon_token c cs).
Proof.
  intros Hcs Hc. unfold canon_token. case_bool_decide; [by apply Forall_removelast|].
  repeat case_bool_decide; simpl; try done.
  destruct (_ <? _)%nat; [|done].
  apply Forall_app. split; [done|]. constructor; [|done]. unfold is_name. naive_solver.
Qed.

Lemma canon_scan_names p : ∀ token cs,
  slash ∉ token → Forall is_name cs → Forall is_name (canon_scan p token cs).
Proof.
  induction p as [|c p IH]; intros token cs Ht Hcs; simpl; [by apply canon_token_names|].
  destruct (Z.eqb_spec c slash).
  - apply IH; [apply not_elem_of_nil|by apply canon_token_names].
  - apply IH; [|done]. rewrite elem_of_app, list_elem_of_singleton. by intros [?|<-].
Qed.

(** The bytes a component list takes in a path, a slash per component. *)
Definition weight (cs : list (list Z)) : nat := sum_list_with (λ c, S (length c)) cs.

Lemma join_length cs : cs ≠ [] → S (length (join cs)) = weight cs.
Proof.
  induction cs as [|c cs IH]; intros H; [done|]. destruct cs as [|c' cs].
  - simpl. unfold weight. simpl. lia.
  - change (join (c :: c' :: cs)) with (c ++ [slash] ++ join (c' :: cs)).
    rewrite !length_app. change (weight (c :: c' :: cs)) with (S (length c) + weight (c' :: cs))%nat.
    rewrite <-IH by done. simpl. lia.
Qed.

Lemma render_length cs : (length (render cs) ≤ max 1 (weight cs))%nat.
Proof.
  unfold render. destruct cs as [|c cs]; [simpl; lia|].
  pose proof (join_length (c :: cs) ltac:(done)) as H. cbn [length]. lia.
Qed.

Lemma weight_removelast cs : (weight (removelast cs) ≤ weight cs)%nat.
Proof.
  induction cs as [|c cs IH]; [done|]. destruct cs as [|c' cs]; [unfold weight; simpl; lia|].
  change (removelast (c :: c' :: cs)) with (c :: removelast (c' :: cs)).
  change (S (length c) + weight (removelast (c' :: cs)) ≤ S (length c) + weight (c' :: cs))%nat. lia.
Qed.

Lemma weight_app cs ds : weight (cs ++ ds) = (weight cs + weight ds)%nat.
Proof. unfold weight. by rewrite sum_list_with_app. Qed.

Lemma weight_walk ps : ∀ cs, (weight (foldl walk_step cs ps) ≤ weight cs + weight ps)%nat.
Proof.
  induction ps as [|c ps IH]; intros cs; simpl; [lia|]. etrans; [apply IH|].
  change (weight (c :: ps)) with (S (length c) + weight ps)%nat.
  assert (weight (walk_step cs c) ≤ weight cs + S (length c))%nat; [|lia].
  unfold walk_step. pose proof (weight_removelast cs). repeat case_decide; try lia.
  rewrite weight_app. unfold weight at 2. simpl. lia.
Qed.

Lemma weight_split p : ∀ token, weight (split p token) = S (length p + length token).
Proof.
  induction p as [|c p IH]; intros token; simpl; [unfold weight; simpl; lia|].
  destruct (c =? slash).
  - change (weight (token :: split p [])) with (S (length token) + weight (split p []))%nat.
    rewrite IH. simpl. lia.
  - rewrite IH, length_app. simpl. lia.
Qed.

(** The reconstruction: everything when it fits in 512 bytes; in any case it
    stays inside [dest], and what it writes is a path of names. *)
Lemma canon_join_fits cs : ∀ dest,
  (length dest + weight cs ≤ 511)%nat → canon_join cs dest = dest ++ join cs.
Proof.
  induction cs as [|c cs IH]; intros dest H; simpl; [by rewrite app_nil_r|].
  change (weight (c :: cs)) with (S (length c) + weight cs)%nat in H.
  replace (512 <=? _)%nat with false by (symmetry; apply Nat.leb_gt; lia).
  destruct cs as [|c' cs].
  - simpl. by rewrite app_nil_r.
  - rewrite IH; [by rewrite <-!app_assoc|]. rewrite !length_app. simpl length. lia.
Qed.

Lemma canon_join_bound cs : ∀ dest,
  (length dest ≤ 511)%nat → (length (canon_join cs dest) ≤ 511)%nat.
Proof.
  induction cs as [|c cs IH]; intros dest H; simpl; [done|].
  destruct (Nat.leb_spec 512 (length dest + length c + 1)); [done|].
  apply IH. rewrite !length_app. destruct cs; simpl; lia.
Qed.

Lemma canon_join_prefix cs : ∀ dest,
  ∃ n, canon_join cs dest = dest ++ join cs ∨
       canon_join cs dest = dest ++ concat (map (λ c, c ++ [slash]) (take n cs)).
Proof.
  induction cs as [|c cs IH]; intros dest; simpl.
  { exists O. left. by rewrite app_nil_r. }
  destruct (512 <=? _)%nat.
  { exists O. right. by rewrite app_nil_r. }
  destruct cs as [|c' cs].
  - exists 1%nat. left. simpl. by rewrite app_nil_r.
  - destruct (IH (dest ++ c ++ [slash])) as [n [E|E]]; rewrite E.
    + exists O. left. by rewrite <-!app_assoc.
    + exists (S n). right. simpl. by rewrite <-!app_assoc.
Qed.

Lemma join_split p : ∀ token, join (split p token) = token ++ p.
Proof.
  induction p as [|c p IH]; intros token; simpl; [by rewrite app_nil_r|].
  destruct (Z.eqb_spec c slash) as [->|].
  - specialize (IH []). destruct (split p []) as [|d ds] eqn:E; [by destruct p; simpl in E; repeat case_match|].
    change (join (token :: d :: ds)) with (token ++ [slash] ++ join (d :: ds)). by rewrite IH.
  - rewrite IH, <-app_assoc. done.
Qed.

Lemma split_join_aux c p : ∀ token, slash ∉ c → split (c ++ slash :: p) token = (token ++ c) :: split p [].
Proof.
  induction c as [|x c IH]; intros token H; simpl.
  { by rewrite app_nil_r. }
  apply not_elem_of_cons in H as [Hx H]. destruct (Z.eqb_spec x slash); [done|].
  by rewrite IH, <-app_assoc.
Qed.

Lemma split_name c : ∀ token, slash ∉ c → split c token = [token ++ c].
Proof.
  induction c as [|x c IH]; intros token H; simpl; [by rewrite app_nil_r|].
  apply not_elem_of_cons in H as [Hx H]. destruct (Z.eqb_spec x slash); [done|].
  by rewrite IH, <-app_assoc.
Qed.

Lemma split_join cs : cs ≠ [] → Forall (λ c, slash ∉ c) cs → split (join cs) [] = cs.
Proof.
  induction cs as [|c cs IH]; intros H Hcs; [done|]. apply Forall_cons in Hcs as [Hc Hcs].
  destruct cs as [|c' cs]; [by rewrite split_name|].
  change (join (c :: c' :: cs)) with (c ++ slash :: join (c' :: cs)).
  rewrite split_join_aux by done. by rewrite IH.
Qed.

Lemma walk_names cs : ∀ st, Forall is_name cs → foldl walk_step st cs = st ++ cs.
Proof.
  induction cs as [|c cs IH]; intros st H; simpl; [by rewrite app_nil_r|].
  apply Forall_cons in H as [(H1 & H2 & H3 & _) H]. rewrite IH by done. unfold walk_step.
  repeat case_decide; [done|by destruct_or?|]. by rewrite <-app_assoc.
Qed.

(** Splitting at a slash. *)
Lemma split_app_slash p q : ∀ token, split (p ++ slash :: q) token = split p token ++ split q [].
Proof.
  induction p as [|c p IH]; intros token; simpl; [done|].
  destruct (c =? slash); simpl; by rewrite IH.
Qed.

Lemma split_app_nil p : ∀ token, split (p ++ [slash]) token = split p token ++ [[]].
Proof. intros. by rewrite split_app_slash. Qed.

Lemma foldl_names cs : ∀ st,
  Forall is_name st → Forall (λ c, slash ∉ c) cs → Forall is_name (foldl walk_step st cs).
Proof.
  induction cs as [|c cs IH]; intros st Hst H; simpl; [done|].
  apply Forall_cons in H as [? H]. apply IH; [by apply walk_step_names|done].
Qed.

Lemma foldl_length cs : ∀ st,
  (length (foldl walk_step st cs) ≤ length st + length cs)%nat.
Proof.
  induction cs as [|c cs IH]; intros st; simpl; [lia|].
  etrans; [apply IH|]. pose proof (walk_step_length st c). lia.
Qed.

(** The walk along an absolute path, from the root. *)
Definition canonical (path : list Z) : list (list Z) := normalize (pieces (tail path)).

Lemma walk_nil st : walk_step st [] = st.
Proof. done. Qed.

(** What [buf] stands for. *)
Lemma canon_buf_spec cwd src :
  head cwd = Some slash → src ≠ [] → (length (absolute cwd src) ≤ 510)%nat →
  ∃ b, canon_buf (Some cwd) src = Some (slash :: b) ∧
    (length b ≤ 509)%nat ∧ (length (pieces b) ≤ length (pieces (tail (absolute cwd src))))%nat ∧
    normalize (pieces b) = canonical (absolute cwd src).
Proof.
  intros Hc Hs Hl. destruct cwd as [|c w]; [done|]. injection Hc as ->.
  destruct src as [|x src]; [done|]. unfold canonical, absolute, canon_buf in *. simpl head in *.
  destruct (Z.eqb_spec x slash) as [->|Hx]; (destruct (decide _) as [Hd|Hd] in Hl |- *; try (exfalso; simpl in *; congruence)).
  - exists src. cbn [mbind option_bind tail app length] in *.
    rewrite take_ge by (simpl; lia). cbn [length].
    replace (S (length src) <=? 511)%nat with true by (symmetry; apply Nat.leb_le; lia).
    split_and!; [done|lia|lia|done].
  - cbn [mbind option_bind].
    rewrite !length_app in Hl. cbn [length] in Hl.
    rewrite take_ge by (simpl; lia).
    destruct (last (slash :: w)) as [e|] eqn:El; [|by apply last_None in El].
    cbn [mbind option_bind]. destruct (Z.eqb_spec e slash) as [->|He].
    + apply last_Some in El as [l El]. exists (w ++ x :: src).
      rewrite take_ge by (cbn [length]; lia). rewrite length_app. cbn [length].
      replace (_ <=? 511)%nat with true by (symmetry; apply Nat.leb_le; lia).
      rewrite !length_app. cbn [length app tail]. split_and!; [done|lia|..].
      * destruct l as [|y l]; simplify_eq/=; unfold pieces; [simpl; destruct (_ =? _); lia|].
        rewrite <-!app_assoc. cbn [app]. rewrite !split_app_slash, !length_app. cbn [split].
        rewrite Z.eqb_refl. simpl. lia.
      * destruct l as [|y l]; simplify_eq/=; unfold pieces; [done|].
        rewrite <-!app_assoc. cbn [app]. rewrite !split_app_slash. unfold normalize.
        rewrite !foldl_app. cbn [split]. by rewrite Z.eqb_refl.
    + exists (w ++ slash :: x :: src).
      rewrite take_ge by (rewrite length_app; cbn [length]; lia). rewrite !length_app. cbn [length].
      replace (_ <=? 511)%nat with true by (symmetry; apply Nat.leb_le; lia).
      cbn [length app tail]. rewrite <-app_assoc.
      split_and!; [done|lia|done..].
Qed.

(** The walk of a rendered path gives its names back. *)
Lemma canonical_render cs : Forall is_name cs → canonical (render cs) = cs.
Proof.
  intros H. unfold canonical, render, pieces, normalize. cbn [tail].
  destruct cs as [|c cs]; [done|]. rewrite split_join; [by rewrite walk_names|done|].
  eapply Forall_impl; [exact H|]. by intros ? (_ & _ & _ & ?).
Qed.

(** A path that the buffers of [vfs_canonicalize_path] have room for. *)
Definition in_range (cwd src : list Z) : Prop :=
  (length (absolute cwd src) ≤ 510)%nat ∧ (length (pieces (tail (absolute cwd src))) ≤ 32)%nat.

Lemma canonicalize_run cwd src :
  head cwd = Some slash → src ≠ [] → in_range cwd src →
  vfs_canonicalize_path (Some cwd) src = Some (render (canonical (absolute cwd src))) ∧
  Forall is_name (canonical (absolute cwd src)).
Proof.
  intros Hc Hs [Hl Hn]. destruct (canon_buf_spec cwd src Hc Hs Hl) as (b & E & Lb & Nb & C).
  rewrite <-C. split.
  - unfold vfs_canonicalize_path. destruct src as [|x src]; [done|]. rewrite E.
    cbn [mbind option_bind]. rewrite Z.eqb_refl. rewrite canon_scan_fold by (simpl; unfold pieces in *; lia).
    fold (normalize (pieces b)). rewrite canon_join_fits; [done|].
    unfold normalize. pose proof (weight_walk (pieces b) []) as Hw. unfold pieces in *.
    rewrite weight_split in Hw. unfold weight in Hw at 2. simpl in *. lia.
  - apply foldl_names; [constructor|apply split_clean, not_elem_of_nil].
Qed.

(** C25. [vfs_canonicalize_path] computes the walk its path describes: for an
    absolute working directory and a path that, made absolute, is shorter than
    the buffer and has at most 32 components, the result is "/" followed by the
    names left after resolving ".", ".." (which stops at the root) and empty
    components, separated by single slashes. *)
Theorem canonicalize_correct cwd src :
  head cwd = Some slash → src ≠ [] → in_range cwd src →
  vfs_canonicalize_path (Some cwd) src = Some (render (canonical (absolute cwd src))) ∧
  Forall is_name (canonical (absolute cwd src)).
Proof.
  intros. by apply canonicalize_run.
Qed.

Lemma canonicalize_correct_witness :
  vfs_canonicalize_path (Some (str "/home/user")) (str "../.././etc//fat") =
    Some (str "/etc/fat").
Proof.
  destruct (canonicalize_correct (str "/home/user") (str "../.././etc//fat")) as [E _];
    [done|done|vm_compute; lia|]. exact E.
Defined.

(** Canonical paths are fixed points, whatever the working directory: a
    second [vfs_canonicalize_path] changes nothing. *)
Theorem canonicalize_idempotent cwd cwd' src r :
  head cwd = Some slash → head cwd' = Some slash → src ≠ [] → in_range cwd src →
  vfs_canonicalize_path (Some cwd) src = Some r →
  vfs_canonicalize_path (Some cwd') r = Some r.
Proof.
  intros Hc Hc' Hs Hr E. destruct (canonicalize_run cwd src Hc Hs Hr) as [E' Hn].
  rewrite E in E'. injection E' as ->. set (cs := canonical (absolute cwd src)) in *.
  assert (absolute cwd' (render cs) = render cs) as Ha.
  { unfold absolute. by destruct (decide _). }
  destruct (canonicalize_run cwd' (render cs) Hc') as [-> _]; [done| |].
  - unfold in_range. rewrite Ha. destruct Hr as [Hl Hp]. split.
    + pose proof (render_length cs). pose proof (weight_walk (pieces (tail (absolute cwd src))) []) as Hw.
      change (foldl walk_step [] _) with cs in Hw. unfold pieces in Hw. rewrite weight_split in Hw.
      change (weight []) with O in Hw. cbn [length] in Hw.
      assert (1 ≤ length (absolute cwd src))%nat.
      { unfold absolute. destruct (decide _); [destruct src; [done|simpl; lia]|].
        rewrite !length_app. simpl. lia. }
      destruct (absolute cwd src); simpl in *; lia.
    + pose proof (foldl_length (pieces (tail (absolute cwd src))) []) as Hw.
      change (foldl walk_step [] _) with cs in Hw. cbn [tail render]. unfold render. cbn [tail].
      destruct cs as [|c cs']; [simpl; lia|]. unfold pieces at 1. rewrite split_join; [|done|].
      * simpl in *. lia.
      * eapply Forall_impl; [exact Hn|]. by intros ? (_ & _ & _ & ?).
  - rewrite Ha. by rewrite canonical_render.
Qed.

Lemma canonicalize_idempotent_witness :
  vfs_canonicalize_path (Some (str "/tmp")) (str "/etc/fat") = Some (str "/etc/fat").
Proof.
  apply (canonicalize_idempotent (str "/home/user") (str "/tmp") (str "../.././etc//fat"));
    [done..|vm_compute; lia|by vm_compute].
Defined.

Lemma canonicalize_bounds cwd src :
  match cwd with Some w => (1 ≤ length w ≤ 510)%nat | None => True end →
  ∃ r cs, vfs_canonicalize_path cwd src = Some r ∧ (length r < 512)%nat ∧
    Forall is_name cs ∧ (r = render cs ∨ r = [slash] ++ concat (map (λ c, c ++ [slash]) cs)).
Proof.
  intros Hc. destruct src as [|x src].
  { exists [slash], []. split_and!; [done|simpl; lia|constructor|by left]. }
  assert (∃ b, canon_buf cwd (x :: src) = Some b) as [b E].
  { unfold canon_buf. destruct (x =? slash); cbn [mbind option_bind].
    - rewrite length_app, length_take. cbn [length].
      replace (_ <=? 511)%nat with true by (symmetry; apply Nat.leb_le; lia). eauto.
    - destruct cwd as [w|]; cbn [mbind option_bind].
      + rewrite take_ge by lia. destruct (last w) as [e|] eqn:El.
        2: { apply last_None in El as ->. simpl in Hc. lia. }
        cbn [mbind option_bind].
        replace (_ <=? 511)%nat with true; [eauto|]. symmetry. apply Nat.leb_le.
        rewrite length_app, length_take. destruct (e =? slash); rewrite ?length_app; cbn [length]; lia.
      + replace (_ <=? 511)%nat with true; [eauto|]. symmetry. apply Nat.leb_le.
        rewrite length_app, length_take. cbn [length]. lia. }
  unfold vfs_canonicalize_path. rewrite E. cbn [mbind option_bind].
  set (p := match b with [] => b | c :: p => _ end).
  pose proof (canon_scan_names p [] [] (not_elem_of_nil _) (Forall_nil_2 _)) as Hn.
  set (cs := canon_scan p [] []) in *.
  pose proof (canon_join_bound cs [slash] ltac:(simpl; lia)).
  destruct (canon_join_prefix cs [slash]) as [n [E'|E']].
  - eexists _, cs. split; [done|]. split; [lia|]. split; [done|]. left. by rewrite E'.
  - eexists _, (take n cs). split; [done|]. split; [lia|]. split; [by apply Forall_take|]. by right.
Qed.



(** Components beyond the 32nd are dropped without an error: a path of 33 names
    resolves to its ancestor. *)
Lemma canonicalize_drops_components :
  vfs_canonicalize_path (Some [slash]) (concat (replicate 33 (str "/a"))) =
    Some (concat (replicate 32 (str "/a"))).
Proof. by vm_compute. Qed.

Lemma last_slash_app s c : ∀ i f,
  slash ∉ c → last_slash (s ++ slash :: c) i f = Some (i + length s)%nat.
Proof.
  assert (∀ c i f, slash ∉ c → last_slash c i f = f) as Hno.
  { clear. induction c as [|x c IH]; intros i f H; simpl; [done|].
    apply not_elem_of_cons in H as [H1 H2]. destruct (Z.eqb_spec x slash); [done|]. by apply IH. }
  induction s as [|x s IH]; intros i f H; simpl.
  - rewrite Hno by done. f_equal. lia.
  - rewrite IH by done. f_equal. lia.
Qed.

Lemma render_snoc cs b : cs ≠ [] → render (cs ++ [b]) = render cs ++ slash :: b.
Proof.
  unfold render. intros H. simpl. f_equal. induction cs as [|c cs IH]; [done|].
  destruct cs as [|c' cs]; [done|].
  change (join ((c :: c' :: cs) ++ [b])) with (c ++ [slash] ++ join ((c' :: cs) ++ [b])).
  rewrite IH by done. change (join (c :: c' :: cs)) with (c ++ [slash] ++ join (c' :: cs)).
  by rewrite <-!app_assoc.
Qed.

(** [vfs_get_parent_path] and [vfs_get_basename] split a path at its last
    component: the parent is the path of the other names, the basename is that
    name; the root is its own parent, with an empty basename. *)
Theorem parent_basename cwd src :
  head cwd = Some slash → src ≠ [] → in_range cwd src →
  match canonical (absolute cwd src) with
  | [] => vfs_get_parent_path (Some cwd) src = Some [slash] ∧
          vfs_get_basename (Some cwd) src = Some []
  | c :: rest =>
      ∃ cs b, c :: rest = cs ++ [b] ∧
        vfs_get_parent_path (Some cwd) src = Some (render cs) ∧
        vfs_get_basename (Some cwd) src = Some b
  end.
Proof.
  intros Hc Hs Hr. destruct (canonicalize_run cwd src Hc Hs Hr) as [E Hn].
  unfold vfs_get_parent_path, vfs_get_basename. rewrite E. cbn [mbind option_bind].
  destruct (canonical (absolute cwd src)) as [|c rest]; [done|].
  destruct (exists_last (l := c :: rest)) as (cs & b & Ecs); [done|].
  exists cs, b. rewrite Ecs in *. split; [done|].
  apply Forall_app in Hn as [_ Hb]. apply Forall_cons in Hb as [(Hb0 & _ & _ & Hb) _].
  destruct (decide (cs = [])) as [->|Hcs].
  - change (render ([] ++ [b])) with ([] ++ slash :: b). rewrite last_slash_app by done.
    simpl length. cbn [mbind option_bind Nat.add].
    destruct (Nat.leb_spec (S (length b)) 1) as [Hlb|]; [by destruct b; [|simpl in Hlb; lia]|].
    done.
  - rewrite render_snoc, last_slash_app by done. rewrite length_app. cbn [mbind option_bind].
    change (0 + length (render cs))%nat with (length (render cs)).
    replace (length (render cs) =? 0)%nat with false by done. rewrite take_app_length.
    replace (_ <=? 1)%nat with false by (symmetry; apply Nat.leb_gt; unfold render; simpl; lia).
    split; [done|]. f_equal.
    change (drop (S (length (render cs))) (render cs ++ slash :: b))
      with (drop (S (length (render cs))) (render cs ++ [slash] ++ b)).
    rewrite (app_assoc _ [slash]), drop_app_length'; [done|]. rewrite length_app. simpl. lia.
Qed.

(** The two halves of any path, in range or not. *)
Lemma parent_bounds cwd path :
  match cwd with Some w => (1 ≤ length w ≤ 510)%nat | None => True end →
  ∃ r, vfs_get_parent_path cwd path = Some r ∧ (length r < 512)%nat.
Proof.
  intros Hc. destruct (canonicalize_bounds cwd path Hc) as (r & cs & E & L & _ & Hr).
  unfold vfs_get_parent_path. rewrite E. simpl. destruct (Nat.leb_spec (length r) 1).
  { exists [slash]. simpl. split; [done|lia]. }
  assert (∃ i, last_slash r 0 None = Some i) as [i Ei].
  { assert (∃ r', r = slash :: r') as [r' ->] by (destruct Hr as [->| ->]; eauto). simpl.
    clear. generalize 0%nat 1%nat. induction r' as [|c r' IH]; intros k j; simpl; [eauto|].
    destruct (c =? slash); apply IH. }
  rewrite Ei. simpl. destruct (i =? 0)%nat; eexists; (split; [reflexivity|]); [simpl; lia|].
  rewrite length_take. lia.
Qed.

Lemma basename_bounds cwd path :
  match cwd with Some w => (1 ≤ length w ≤ 510)%nat | None => True end →
  ∃ r, vfs_get_basename cwd path = Some r.
Proof.
  intros Hc. destruct (canonicalize_bounds cwd path Hc) as (r & cs & E & L & _).
  unfold vfs_get_basename. rewrite E. simpl. eauto.
Qed.

Lemma parent_basename_witness :
  ∃ cs b, [str "etc"; str "fat"] = cs ++ [b] ∧
    vfs_get_parent_path (Some (str "/home")) (str "../etc/fat") = Some (render cs) ∧
    vfs_get_basename (Some (str "/home")) (str "../etc/fat") = Some b.
Proof.
  apply (parent_basename (str "/home") (str "../etc/fat")); [done..|vm_compute; lia].
Defined.
