(* ===== verification/Vfs.v ===== *)
(** * The virtual file system

    Models [kernel/core/vfs_core.c]: the callbacks of the core's own nodes, the
    mount table, path resolution, and the file-descriptor operations.  A node's
    other callbacks are functions of a file-system driver, reached through the
    class [FsDriver]. *)

From stdpp Require Import base numbers list gmap strings.
From Stdlib Require Import ZArith Lia.
From S2P Require Import Prelude Kernel Pipe Path.

#[local] Open Scope Z_scope.

Definition KABI_SEEK_SET : Z := 0.
Definition KABI_SEEK_CUR : Z := 1.
Definition KABI_SEEK_END : Z := 2.

Section ops.
Context {D : Type} {Drv : FsDriver D}.
#[local] Open Scope kernel_scope.

(** A call into a driver, which has its own state. *)
Definition drv {A} (m : kM D A) : kM (kst D) A := λ s,
  match m (k_drv s) with
  | Ret a d => Ret a (with_k_drv d s)
  | Hang d => Hang (with_k_drv d s)
  | Panic d => Panic (with_k_drv d s)
  | Fault => Fault
  | NoFuel => NoFuel
  end.
Definition drv_ (f : D → D) : kM (kst D) unit := λ s, Ret tt (with_k_drv (f (k_drv s)) s).

(** ** Callbacks of the core's own nodes

    A read returns the number it reports and the bytes it stored. *)

(** [std_read]: the next line from the keyboard; without one, [get_line] spins. *)
Definition std_read (size : Z) : kM (kst D) (Z * list Z) := λ s,
  match k_lines s with
  | [] => Hang s
  | l :: ls =>
      let len := Z.min (Z.of_nat (length l)) size in
      Ret (len, take (Z.to_nat len) l) (with_k_lines ls s)
  end.

(** [std_write]: [kprint] of a NUL-terminated copy. *)
Fixpoint cstr (l : list Z) : list Z :=
  match l with [] => [] | c :: l => if c =? 0 then [] else c :: cstr l end.
Definition std_write (data : list Z) : kM (kst D) Z :=
  kmodify (λ s, with_k_console (k_console s ++ cstr data) s) ;;;
  kret (Z.of_nat (length data)).

(** The clamp of [mock_read] and [mock_write], with its 64-bit addition. *)
Definition mock_clamp (offset size : Z) : Z :=
  if 1024 <? u64 (offset + size) then 1024 - offset else size.

(** [memory_copy] of [n] bytes out of, and into, a buffer of the heap. *)
Definition copy_out (b : list Z) (offset n : Z) : option (list Z) :=
  if (0 <=? offset) && (0 <=? n) && (offset + n <=? Z.of_nat (length b))
  then Some (take (Z.to_nat n) (drop (Z.to_nat offset) b)) else None.
Definition copy_in (b : list Z) (offset : Z) (data : list Z) : option (list Z) :=
  if (0 <=? offset) && (offset + Z.of_nat (length data) <=? Z.of_nat (length b))
  then Some (take (Z.to_nat offset) b ++ data ++ drop (Z.to_nat offset + length data) b) else None.

Definition mock_read (nd : fs_node_t) (offset size : Z) : kM (kst D) (Z * list Z) :=
  match n_impl nd with
  | ImplNull => kret (0, [])
  | ImplBuf a =>
      if 1024 <=? offset then kret (0, [])
      else
        let n := mock_clamp offset size in
        let* b := kget_opt (λ s, k_bufs s !! a) in
        let* l := kget_opt (λ _, copy_out b offset n) in
        kret (n, l)
  | _ => kfault
  end.

Definition mock_write (np : Z) (nd : fs_node_t) (offset : Z) (data : list Z) : kM (kst D) Z :=
  let* a := match n_impl nd with
            | ImplNull =>
                let* a := kmalloc in
                kmodify (λ s, with_k_bufs (<[a := replicate 1024 0]> (k_bufs s)) s) ;;;
                put_node np (with_n_impl (ImplBuf a) nd) ;;;
                kret a
            | ImplBuf a => kret a
            | _ => kfault
            end in
  if 1024 <=? offset then kret 0
  else
    let n := mock_clamp offset (Z.of_nat (length data)) in
    let* b := kget_opt (λ s, k_bufs s !! a) in
    let* b := kget_opt (λ _, copy_in b offset (take (Z.to_nat n) data)) in
    kmodify (λ s, with_k_bufs (<[a := b]> (k_bufs s)) s) ;;;
    kret n.

(** ** Dispatch through a node's callbacks *)

Definition read_fs (np offset size : Z) : kM (kst D) (Z * list Z) :=
  if np =? 0 then kret (0, [])
  else
    let* nd := get_node np in
    let fn := n_read nd in
    if fn =? 0 then kret (0, [])
    else if fn =? std_read_fn then std_read size
    else if fn =? mock_read_fn then mock_read nd offset size
    else if fn =? pipe_read_fn then
      let* l := pipe_read nd size in kret (Z.of_nat (length l), l)
    else let* l := drv (drv_read fn nd offset size) in kret (Z.of_nat (length l), l).

Definition write_fs (np offset : Z) (data : list Z) : kM (kst D) Z :=
  if np =? 0 then kret 0
  else
    let* nd := get_node np in
    let fn := n_write nd in
    if fn =? 0 then kret 0
    else if fn =? std_write_fn then std_write data
    else if fn =? mock_write_fn then mock_write np nd offset data
    else if fn =? pipe_write_fn then pipe_write nd data
    else
      let* (nd, n) := drv (drv_write fn nd offset data) in
      put_node np nd ;;; kret n.

Definition open_fs (np : Z) : kM (kst D) unit :=
  if np =? 0 then kret tt
  else let* nd := get_node np in
       if n_open nd =? 0 then kret tt else drv_ (drv_open (n_open nd) nd).

Definition close_fs (np : Z) : kM (kst D) unit :=
  if np =? 0 then kret tt
  else let* nd := get_node np in
       if n_close nd =? 0 then kret tt else drv_ (drv_close (n_close nd) nd).

Definition is_dir (nd : fs_node_t) : bool := Z.land (n_flags nd) 7 =? FS_DIRECTORY.

Definition readdir_fs (np index : Z) : kM (kst D) (option dirent) :=
  if np =? 0 then kret None
  else let* nd := get_node np in
       if is_dir nd && negb (n_readdir nd =? 0)
       then drv (drv_readdir (n_readdir nd) nd index) else kret None.

Definition finddir_fs (np : Z) (name : list Z) : kM (kst D) Z :=
  if np =? 0 then kret 0
  else let* nd := get_node np in
       if is_dir nd && negb (n_finddir nd =? 0) then
         let* r := drv (drv_finddir (n_finddir nd) nd name) in
         match r with
         | FoundNothing => kret 0
         | FoundFresh n => new_node n
         | FoundStatic a => kret a
         end
       else kret 0.

Definition create_fs (np : Z) (name : list Z) : kM (kst D) unit :=
  if np =? 0 then kret tt
  else let* nd := get_node np in
       if is_dir nd && negb (n_create nd =? 0)
       then drv (drv_create (n_create nd) nd name) else kret tt.

(** ** Start-up and the mount table *)

Definition init_fs : kM (kst D) unit :=
  let* a := new_node (mk_node (str "stdio") 0 (Z.lor FS_CHARDEVICE FS_PERSISTENT) 0 0 ImplNull
                        std_read_fn std_write_fn 0 0 0 0 0 0 0) in
  kmodify (with_k_std_node a).

Definition vfs_init_standard_fds (t : Z) : kM (kst D) unit :=
  let* s := kget in
  let sn := k_std_node s in
  if sn =? 0 then kret tt
  else
    let* f := file_create sn O_RDONLY in set_task_fd t 0 f ;;;
    let* f := file_create sn O_WRONLY in set_task_fd t 1 f ;;;
    let* f := file_create sn O_WRONLY in set_task_fd t 2 f.

(** [kabi_fs_ops_t], as callback addresses. *)
Record fs_ops := mk_fs_ops {
  o_read : Z; o_write : Z; o_open : Z; o_close : Z; o_readdir : Z;
  o_finddir : Z; o_create : Z; o_mkdir : Z; o_unlink : Z }.

Fixpoint find_mount (ms : list mount_t) (path : list Z) (i : nat) : option nat :=
  match ms with
  | [] => None
  | m :: ms => if m_active m && bool_decide (m_path m = path) then Some i
               else find_mount ms path (S i)
  end.

(** [kabi_vfs_register]; the table is the list of the first [num_mounts] entries.
    A mount point of 128 bytes or more overruns the name of the node. *)
Definition kabi_vfs_register (ops : fs_ops) (mountpoint : list Z) : kM (kst D) unit :=
  if (128 <=? length mountpoint)%nat then kfault
  else
    let* node := new_node (mk_node mountpoint 0
      (Z.lor (Z.lor FS_DIRECTORY FS_PERSISTENT) FS_MOUNTPOINT) 0 0 ImplNull
      (o_read ops) (o_write ops) (o_open ops) (o_close ops) (o_readdir ops)
      (o_finddir ops) (o_create ops) (o_mkdir ops) (o_unlink ops)) in
    let* s := kget in
    if bool_decide (mountpoint = [slash]) || (k_fs_root s =? 0) then
      kmodify (with_k_fs_root node)
    else
      match find_mount (k_mounts s) mountpoint 0 with
      | Some i => kmodify (with_k_mounts (alter (with_m_root node) i (k_mounts s)))
      | None =>
          if k_num_mounts s <? MAX_MOUNTS then
            kmodify (λ s, with_k_num_mounts (k_num_mounts s + 1)
                            (with_k_mounts (k_mounts s ++ [mk_mount mountpoint node true]) s))
          else kret tt
      end.

(** The working directory that relative paths start from. *)
Definition get_cwd : kM (kst D) (option (list Z)) :=
  let* c := current_task in
  if c =? 0 then kret None else let* t := get_task c in kret (Some (t_cwd t)).

(** [vfs_canonicalize_path(buf, path)] into a buffer of [n] bytes. *)
Definition canonicalize_into (n : nat) (path : list Z) : kM (kst D) (list Z) :=
  let* cwd := get_cwd in
  let* r := kget_opt (λ _, vfs_canonicalize_path cwd path) in
  if (length r <? n)%nat then kret r else kfault.

Definition sys_umount (path : option (list Z)) : kM (kst D) Z :=
  match path with
  | None => kret (-1)
  | Some path =>
      let* clean := canonicalize_into 128 path in
      let* s := kget in
      match find_mount (k_mounts s) clean 0 with
      | Some i => kmodify (with_k_mounts (alter (with_m_active false) i (k_mounts s))) ;;; kret 0
      | None => kret (-1)
      end
  end.

(** ** Path resolution *)

(** One step into [name]: the node left behind is freed when it is transient and
    not the root of the walk. *)
Definition step_into (root cur : Z) (name : list Z) : kM (kst D) Z :=
  let* next := finddir_fs cur name in
  (if cur =? root then kret tt
   else let* nd := get_node cur in
        if has (n_flags nd) FS_TRANSIENT then kfree_node cur else kret tt) ;;;
  kret next.

(** The loop over the characters of the path; [token] is the current component. *)
Fixpoint walk (root cur : Z) (p token : list Z) : kM (kst D) Z :=
  match p with
  | [] => match token with [] => kret cur | _ => step_into root cur token end
  | c :: p =>
      if c =? slash then
        match token with
        | [] => walk root cur p []
        | _ =>
            let* next := step_into root cur token in
            if next =? 0 then kret 0 else walk root next p []
        end
      else walk root cur p (token ++ [c])
  end.

(** The first active mount whose path is [clean] or a proper prefix of it that
    ends at a slash: its root, and what is left of the path. *)
Fixpoint match_mount (ms : list mount_t) (clean : list Z) : option (Z * list Z) :=
  match ms with
  | [] => None
  | m :: ms =>
      if m_active m then
        let mlen := length (m_path m) in
        if bool_decide (clean = m_path m) then Some (m_root m, [])
        else if (0 <? mlen)%nat && bool_decide (clean !! mlen = Some slash) &&
                bool_decide (take mlen clean = m_path m)
        then Some (m_root m, drop (S mlen) clean)
        else match_mount ms clean
      else match_mount ms clean
  end.

Definition vfs_resolve_path (path : list Z) : kM (kst D) Z :=
  let* s := kget in
  if k_fs_root s =? 0 then kret 0
  else
    let* clean := canonicalize_into 512 path in
    if bool_decide (clean = [slash]) then kret (k_fs_root s)
    else
      match match_mount (k_mounts s) clean with
      | Some (root, rest) => walk root root rest []
      | None =>
          let p := match clean with c :: p => if c =? slash then p else clean | [] => clean end in
          walk (k_fs_root s) (k_fs_root s) p []
      end.

(** The two halves of a path, into buffers of 512 and 128 bytes. *)
Definition split_path (path : list Z) : kM (kst D) (list Z * list Z) :=
  let* cwd := get_cwd in
  let* parent := kget_opt (λ _, vfs_get_parent_path cwd path) in
  let* base := kget_opt (λ _, vfs_get_basename cwd path) in
  if (length parent <? 512)%nat && (length base <? 128)%nat then kret (parent, base) else kfault.

Definition free_transient (np : Z) : kM (kst D) unit :=
  if np =? 0 then kret tt
  else let* nd := get_node np in
       if has (n_flags nd) FS_TRANSIENT then kfree_node np else kret tt.

(** ** File descriptors *)

Definition mock_node (base : list Z) : fs_node_t :=
  mk_node base 0 (Z.lor (Z.lor FS_FILE FS_TRANSIENT) FS_IMPL_HEAP) 0 0 ImplNull
    mock_read_fn mock_write_fn 0 0 0 0 0 0 0.

(** The creation part of [open]. *)
Definition open_create (name : list Z) : kM (kst D) Z :=
  let* (parent_path, base) := split_path name in
  let* parent := vfs_resolve_path parent_path in
  let* node :=
    (if parent =? 0 then kret 0
     else let* pn := get_node parent in
          if n_create pn =? 0 then kret 0
          else create_fs parent base ;;; vfs_resolve_path name) in
  free_transient parent ;;;
  if node =? 0 then new_node (mock_node base) else kret node.

(** The truncation part: the implementation pointer is taken for a buffer of
    1024 bytes. *)
Definition open_truncate (np : Z) : kM (kst D) unit :=
  let* nd := get_node np in
  match n_impl nd with
  | ImplNull => kret tt
  | ImplBuf a =>
      let* _ := kget_opt (λ s : kst D, k_bufs s !! a) in
      kmodify (λ s, with_k_bufs (<[a := replicate 1024 0]> (k_bufs s)) s)
  | _ => kfault
  end ;;;
  put_node np (with_n_length 0 nd).

(** The lowest free descriptor of at least [i]: [n] slots are left. *)
Fixpoint find_fd (n : nat) (i : Z) (tbl : list Z) : option Z :=
  match n with
  | O => None
  | S n => match zlookup tbl i with
           | Some 0 => Some i
           | _ => find_fd n (i + 1) tbl
           end
  end.
Definition free_fd : kM (kst D) (option Z) :=
  let* c := current_task in
  let* t := get_task c in
  kret (find_fd 29 FIRST_USER_FD (t_fd_table t)).

Definition open (name : list Z) (flags : Z) : kM (kst D) Z :=
  let* node := vfs_resolve_path name in
  let* node := (if (node =? 0) && has flags O_CREAT then open_create name else kret node) in
  if node =? 0 then kret (-1)
  else
    (if has flags O_TRUNC && (has flags O_WRONLY || has flags O_RDWR)
     then open_truncate node else kret tt) ;;;
    let* slot := free_fd in
    match slot with
    | None => kret (-1)
    | Some i => let* f := file_create node (u32 flags) in set_cur_fd i f ;;; kret i
    end.

(** [fd < 0 || fd >= MAX_FD || !current_task->fd_table\[fd\]] *)
Definition fd_file (fd : Z) : kM (kst D) (option Z) :=
  if (fd <? 0) || (MAX_FD <=? fd) then kret None
  else let* f := cur_fd fd in kret (if f =? 0 then None else Some f).

(** [pipe_remove_writer] or [pipe_remove_reader] for a file on a pipe, and their
    counterparts. *)
Definition pipe_drop (nd : fs_node_t) (flags : Z) : kM (kst D) unit :=
  match n_impl nd with
  | ImplNull => kret tt
  | ImplPipe p => if has flags O_WRONLY then pipe_remove_writer p else pipe_remove_reader p
  | _ => kfault
  end.
Definition pipe_take (nd : fs_node_t) (flags : Z) : kM (kst D) unit :=
  match n_impl nd with
  | ImplNull => kret tt
  | ImplPipe p => if has flags O_WRONLY then pipe_add_writer p else pipe_add_reader p
  | _ => kfault
  end.

(** What [close] and [vfs_close_all_fds] do when the last reference to a file is
    gone. *)
Definition teardown (f : Z) (fl : file_t) (nd : fs_node_t) : kM (kst D) unit :=
  (if has (n_flags nd) FS_PERSISTENT then kret tt
   else if has (n_flags nd) FS_PIPE then
     match n_impl nd with
     | ImplPipe pp =>
         let* p := get_pipe pp in
         if (p_readers p =? 0) && (p_writers p =? 0)
         then kfree_pipe pp ;;; kfree_node (f_node fl) else kret tt
     | _ => kfault
     end
   else
     close_fs (f_node fl) ;;;
     if has (n_flags nd) FS_TRANSIENT then
       (if has (n_flags nd) FS_IMPL_HEAP then
          match n_impl nd with
          | ImplNull => kret tt
          | ImplBuf a => kfree_buf a
          | _ => kfault
          end
        else kret tt) ;;;
       kfree_node (f_node fl)
     else kret tt) ;;;
  kfree_file f.

(** The common body of [close] and [vfs_close_all_fds]: one reference less. *)
Definition release (f : Z) : kM (kst D) unit :=
  let* fl := get_file f in
  let fl := with_f_refcount (u32 (f_refcount fl - 1)) fl in
  put_file f fl ;;;
  let* nd := get_node (f_node fl) in
  (if has (n_flags nd) FS_PIPE then pipe_drop nd (f_flags fl) else kret tt) ;;;
  if f_refcount fl =? 0 then teardown f fl nd else kret tt.

Definition close (fd : Z) : kM (kst D) Z :=
  let* o := fd_file fd in
  match o with
  | None => kret (-1)
  | Some f => set_cur_fd fd 0 ;;; release f ;;; kret 0
  end.

Fixpoint close_fds (n : nat) (i : Z) (t : Z) : kM (kst D) unit :=
  match n with
  | O => kret tt
  | S n =>
      let* tk := get_task t in
      let* f := kget_opt (λ _, zlookup (t_fd_table tk) i) in
      (if f =? 0 then kret tt else set_task_fd t i 0 ;;; release f) ;;;
      close_fds n (i + 1) t
  end.
Definition vfs_close_all_fds (t : Z) : kM (kst D) unit := close_fds 32 0 t.

Definition read (fd size : Z) : kM (kst D) (Z * list Z) :=
  let* o := fd_file fd in
  match o with
  | None => kret (-1, [])
  | Some f =>
      let* fl := get_file f in
      if f_flags fl =? O_WRONLY then kret (-1, [])
      else
        let* (res, l) := read_fs (f_node fl) (f_offset fl) (u64 size) in
        let* fl := get_file f in
        put_file f (with_f_offset (u64 (f_offset fl + res)) fl) ;;;
        kret (s32 res, l)
  end.

Definition write (fd : Z) (data : list Z) : kM (kst D) Z :=
  let* o := fd_file fd in
  match o with
  | None => kret (-1)
  | Some f =>
      let* fl := get_file f in
      if f_flags fl =? O_RDONLY then kret (-1)
      else
        let size := Z.of_nat (length data) in
        let* res := write_fs (f_node fl) (f_offset fl) data in
        let* fl := get_file f in
        let res := if (res =? 0) && (0 <? size) && has (f_flags fl) O_CREAT then size else res in
        put_file f (with_f_offset (u64 (f_offset fl + res)) fl) ;;;
        kret (s32 res)
  end.

Definition seek (fd offset whence : Z) : kM (kst D) Z :=
  let* o := fd_file fd in
  match o with
  | None => kret (-1)
  | Some f =>
      let* fl := get_file f in
      let* new_offset :=
        (if whence =? KABI_SEEK_SET then kret (Some (u64 offset))
         else if whence =? KABI_SEEK_CUR then kret (Some (u64 (f_offset fl + offset)))
         else if whence =? KABI_SEEK_END then
           let* nd := get_node (f_node fl) in kret (Some (u64 (n_length nd + offset)))
         else kret None) in
      match new_offset with
      | None => kret (-1)
      | Some n =>
          if s64 n <? 0 then kret (-1)
          else put_file f (with_f_offset n fl) ;;; kret (s32 n)
      end
  end.

(** One reference more to [f]. *)
Definition retain (f : Z) : kM (kst D) unit :=
  let* fl := get_file f in
  put_file f (with_f_refcount (u32 (f_refcount fl + 1)) fl) ;;;
  let* nd := get_node (f_node fl) in
  if has (n_flags nd) FS_PIPE then pipe_take nd (f_flags fl) else kret tt.
Definition add_ref (f fd : Z) : kM (kst D) unit := set_cur_fd fd f ;;; retain f.

Definition dup (oldfd : Z) : kM (kst D) Z :=
  let* o := fd_file oldfd in
  match o with
  | None => kret (-1)
  | Some f =>
      let* slot := free_fd in
      match slot with
      | None => kret (-1)
      | Some newfd => add_ref f newfd ;;; kret newfd
      end
  end.

Definition dup2 (oldfd newfd : Z) : kM (kst D) Z :=
  if (newfd <? 0) || (MAX_FD <=? newfd) then kret (-1)
  else
    let* o := fd_file oldfd in
    match o with
    | None => kret (-1)
    | Some f =>
        if oldfd =? newfd then kret newfd
        else
          let* g := cur_fd newfd in
          (if g =? 0 then kret tt else close newfd ;;; kret tt) ;;;
          add_ref f newfd ;;;
          kret newfd
    end.

(** ** Directories *)

Definition sys_mkdir (path : option (list Z)) : kM (kst D) Z :=
  match path with
  | None => kret (-1)
  | Some path =>
      let* (parent_path, base) := split_path path in
      let* parent := vfs_resolve_path parent_path in
      if parent =? 0 then kret (-1)
      else
        let* pn := get_node parent in
        if n_mkdir pn =? 0 then free_transient parent ;;; kret (-1)
        else drv (drv_mkdir (n_mkdir pn) pn base) ;;; free_transient parent ;;; kret 0
  end.

Definition sys_unlink (path : option (list Z)) : kM (kst D) Z :=
  match path with
  | None => kret (-1)
  | Some path =>
      let* (parent_path, base) := split_path path in
      let* parent := vfs_resolve_path parent_path in
      if parent =? 0 then kret (-1)
      else
        let* pn := get_node parent in
        if n_unlink pn =? 0 then free_transient parent ;;; kret (-1)
        else
          let* r := drv (drv_unlink (n_unlink pn) pn base) in
          free_transient parent ;;; kret r
  end.

(** ** Accessors *)

Definition kabi_vfs_get_root : kM (kst D) Z := let* s := kget in kret (k_fs_root s).
Definition vfs_get_mount_count : kM (kst D) Z := let* s := kget in kret (k_num_mounts s).
Definition vfs_get_mount_path (idx : Z) : kM (kst D) (option (list Z)) :=
  let* s := kget in
  if (idx <? 0) || (k_num_mounts s <=? idx) then kret None
  else match zlookup (k_mounts s) idx with
       | Some m => kret (if m_active m then Some (m_path m) else None)
       | None => kfault
       end.
End ops.

(** ** A driver for concrete states

    It finds one file, "f", in every directory. *)
#[export] Instance demo_driver : FsDriver unit := {|
  drv_read := λ _ _ _ _, kret [];
  drv_write := λ _ nd _ data, kret (nd, Z.of_nat (length data));
  drv_open := λ _ _ d, d;
  drv_close := λ _ _ d, d;
  drv_readdir := λ _ _ _, kret None;
  drv_finddir := λ _ _ name,
    kret (if bool_decide (name = str "f")
        then FoundFresh (mk_node name 0 (Z.lor FS_FILE FS_TRANSIENT) 7 0 ImplNull 99 99 0 0 0 0 0 0 0)
        else FoundNothing);
  drv_create := λ _ _ _, kret tt;
  drv_mkdir := λ _ _ _, kret tt;
  drv_unlink := λ _ _ _, kret 0;
|}.
