(* ===== verification/FdInv.v ===== *)
(** * Reference counts of open files and pipes

    The descriptor tables of all tasks share [file_t] objects, the two files of a
    pipe share a node and a [pipe_t], and [close] frees each of them when its
    last reference goes.  The invariant [refs_inv] says that every count is the
    number of references: [f->refcount] the number of table slots that hold [f],
    [p->readers] and [p->writers] the numbers of slots whose file is a read end
    and a write end of [p].  Its consequence is memory safety: the descriptor
    operations never touch a freed file, node, pipe or buffer, and never free one
    that is still in use. *)

From stdpp Require Import base numbers list gmap strings.
From Stdlib Require Import ZArith Lia.
From S2P Require Import Prelude Kernel Pipe Path Vfs.

#[local] Open Scope Z_scope.

(** ** Counting *)

Definition cnt (P : Z → bool) (L : list Z) : Z := Z.of_nat (length (filter (λ a, P a = true) L)).

Lemma cnt_nil P : cnt P [] = 0.
Proof. done. Qed.
Lemma cnt_cons P a L : cnt P (a :: L) = (if P a then 1 else 0) + cnt P L.
Proof.
  unfold cnt. destruct (P a) eqn:E.
  - rewrite filter_cons_True by done. simpl. lia.
  - rewrite filter_cons_False by congruence. lia.
Qed.
Lemma cnt_nonneg P L : 0 ≤ cnt P L.
Proof. unfold cnt. lia. Qed.
Lemma cnt_app P L1 L2 : cnt P (L1 ++ L2) = cnt P L1 + cnt P L2.
Proof. unfold cnt. rewrite filter_app, length_app. lia. Qed.
Lemma cnt_ext P Q L : (∀ a, a ∈ L → P a = Q a) → cnt P L = cnt Q L.
Proof.
  induction L as [|a L IH]; intros H; [done|]. rewrite !cnt_cons, IH.
  - by rewrite H by apply list_elem_of_here.
  - intros b Hb. by apply H, list_elem_of_further.
Qed.
Lemma cnt_pos P L : 0 < cnt P L ↔ ∃ a, a ∈ L ∧ P a = true.
Proof.
  induction L as [|a L IH].
  { rewrite cnt_nil. split; [lia|]. intros (? & H & _). by apply elem_of_nil in H. }
  rewrite cnt_cons. pose proof (cnt_nonneg P L). split.
  - destruct (P a) eqn:E; [exists a; split; [apply list_elem_of_here|done]|].
    intros H1. destruct IH as [[b [Hb Pb]] _]; [lia|]. exists b. by split; [apply list_elem_of_further|].
  - intros (b & Hb & Pb). apply elem_of_cons in Hb as [->|Hb]; [rewrite Pb; lia|].
    assert (0 < cnt P L) by (apply IH; eauto). destruct (P a); lia.
Qed.
Lemma cnt_zero P L a : cnt P L = 0 → a ∈ L → P a = false.
Proof.
  intros H Ha. destruct (P a) eqn:E; [|done].
  assert (0 < cnt P L) by (apply cnt_pos; eauto). lia.
Qed.
Lemma cnt_le P L : cnt P L ≤ Z.of_nat (length L).
Proof. unfold cnt. pose proof (length_filter (λ a, P a = true) L). lia. Qed.

Lemma cnt_perm P L L' : L ≡ₚ L' → cnt P L = cnt P L'.
Proof. intros HL. unfold cnt. by rewrite HL. Qed.
#[export] Instance cnt_proper : Proper (pointwise_relation _ eq ==> (≡ₚ) ==> eq) cnt.
Proof.
  intros P Q HPQ L L' HL. rewrite (cnt_ext P Q) by (intros; apply HPQ). by apply cnt_perm.
Qed.

(** The files that the descriptor tables of all tasks refer to, one entry per
    slot. *)
Definition task_refs (t : task_t) : list Z := filter (λ a, a ≠ 0) (t_fd_table t).
Definition all_refs (m : gmap Z task_t) : list Z := map_to_list m ≫= λ p, task_refs p.2.

Lemma all_refs_insert m c t : m !! c = None → all_refs (<[c := t]> m) ≡ₚ task_refs t ++ all_refs m.
Proof. intros H. unfold all_refs. by rewrite map_to_list_insert by done. Qed.

Lemma all_refs_split m c t : m !! c = Some t → all_refs m ≡ₚ task_refs t ++ all_refs (delete c m).
Proof.
  intros H. rewrite <-(insert_delete_id m c t) at 1 by done.
  apply all_refs_insert, lookup_delete_eq.
Qed.

Lemma all_refs_update m c t t' : m !! c = Some t → 
  all_refs (<[c := t']> m) ≡ₚ task_refs t' ++ all_refs (delete c m).
Proof.
  intros H. rewrite <-insert_delete_eq. apply all_refs_insert, lookup_delete_eq.
Qed.

(** Only the descriptor tables matter. *)
Lemma all_refs_same m c t t' : m !! c = Some t → t_fd_table t' = t_fd_table t →
  all_refs (<[c := t']> m) ≡ₚ all_refs m.
Proof.
  intros H E. rewrite (all_refs_update m c t t' H), (all_refs_split m c t H).
  unfold task_refs. by rewrite E.
Qed.

Lemma table_set (l : list Z) i a b : l !! i = Some a →
  (if decide (a = 0) then [] else [a]) ++ filter (λ x, x ≠ 0) (<[i := b]> l) ≡ₚ
  (if decide (b = 0) then [] else [b]) ++ filter (λ x, x ≠ 0) l.
Proof.
  intros H. apply list_elem_of_split_length in H as (l1 & l2 & -> & ->).
  rewrite insert_middle, !filter_app, !filter_cons.
  destruct (decide (a = 0)), (decide (b = 0)); 
    repeat (case_decide; try (exfalso; tauto)); simpl; rewrite ?Permutation_middle; try done.
  rewrite <-!Permutation_middle. apply perm_swap.
Qed.

(** Replacing one slot. *)
Lemma all_refs_set m c t i a b : m !! c = Some t → t_fd_table t !! i = Some a →
  (if decide (a = 0) then [] else [a]) ++
    all_refs (<[c := with_t_fd_table (<[i := b]> (t_fd_table t)) t]> m) ≡ₚ
  (if decide (b = 0) then [] else [b]) ++ all_refs m.
Proof.
  intros Hc Hi. rewrite (all_refs_update m c t _ Hc), (all_refs_split m c t Hc), !app_assoc.
  f_equiv. unfold task_refs. apply (table_set _ _ _ b Hi).
Qed.

Lemma all_refs_length m : (∀ c t, m !! c = Some t → length (t_fd_table t) = 32%nat) →
  (length (all_refs m) ≤ 32 * size m)%nat.
Proof.
  induction m as [|c t m Hc IH] using map_ind; intros H.
  { unfold all_refs. rewrite map_to_list_empty. simpl. lia. }
  rewrite (all_refs_insert _ _ _ Hc), length_app, map_size_insert_None by done.
  pose proof (H c t (lookup_insert_eq _ _ _)) as Ht.
  pose proof (length_filter (λ a, a ≠ 0) (t_fd_table t)) as Hl. unfold task_refs.
  assert (length (all_refs m) ≤ 32 * size m)%nat; [|lia]. apply IH. intros c' t' H'.
  eapply (H c'). rewrite lookup_insert_ne; [done|]. intros ->. congruence.
Qed.

(** ** The invariant *)

(** Is file [a] an end of pipe [pp]: its write end, or its read end? *)
Definition is_end (files : gmap Z file_t) (nodes : gmap Z fs_node_t)
    (pp : Z) (w : bool) (a : Z) : bool :=
  match files !! a with
  | Some fl =>
      match nodes !! f_node fl with
      | Some nd =>
          has (n_flags nd) FS_PIPE && bool_decide (n_impl nd = ImplPipe pp) &&
          Bool.eqb (has (f_flags fl) O_WRONLY) w
      | None => false
      end
  | None => false
  end.

Section inv.
Context {D : Type}.
Implicit Types s : kst D.

(** What holds of the node of an open file [a], by the kind of node. *)
Definition node_ok (L : list Z) s (a : Z) (fl : file_t) (nd : fs_node_t) : Prop :=
  if has (n_flags nd) FS_PIPE then
    has (n_flags nd) FS_PERSISTENT = false ∧
    ∃ pp p, n_impl nd = ImplPipe pp ∧ k_pipes s !! pp = Some p ∧
      p_readers p = cnt (is_end (k_files s) (k_nodes s) pp false) L ∧
      p_writers p = cnt (is_end (k_files s) (k_nodes s) pp true) L
  else if has (n_flags nd) FS_PERSISTENT then True
  else if has (n_flags nd) FS_TRANSIENT then
    (∀ b fb, b ∈ L → k_files s !! b = Some fb → f_node fb = f_node fl → b = a) ∧
    (has (n_flags nd) FS_IMPL_HEAP = true →
     n_impl nd = ImplNull ∨
     ∃ x, n_impl nd = ImplBuf x ∧ is_Some (k_bufs s !! x) ∧
       ∀ y ny, k_nodes s !! y = Some ny → n_impl ny = ImplBuf x → y = f_node fl)
  else True.

Definition file_ok (L : list Z) s (a : Z) : Prop :=
  ∃ fl nd, k_files s !! a = Some fl ∧ k_nodes s !! f_node fl = Some nd ∧ f_node fl ≠ 0 ∧
    f_refcount fl = cnt (Z.eqb a) L ∧ node_ok L s a fl nd.

(** Every live object is at an address that [kmalloc] has handed out. *)
Definition allocated s : Prop :=
  (∀ a, k_fresh s ≤ a → k_files s !! a = None ∧ k_nodes s !! a = None ∧
                        k_pipes s !! a = None ∧ k_bufs s !! a = None) ∧ 0 < k_fresh s.

Record refs_inv (L : list Z) s : Prop := {
  ri_file : ∀ a, a ∈ L → file_ok L s a;
  ri_wait : ∀ pp p, k_pipes s !! pp = Some p → p_waiting p = 0 ∨ is_Some (k_tasks s !! p_waiting p);
  ri_buf : ∀ a nd x, k_nodes s !! a = Some nd → n_impl nd = ImplBuf x → x < k_fresh s;
  ri_pipe : ∀ a nd x, k_nodes s !! a = Some nd → n_impl nd = ImplPipe x → x < k_fresh s;
  ri_fresh : allocated s;
  ri_len : Z.of_nat (length L) < 4294967295;
}.

(** The shape of the descriptor tables; the current task is live. *)
Record tables_ok s : Prop := {
  to_table : ∀ c t, k_tasks s !! c = Some t → length (t_fd_table t) = 32%nat;
  to_current : is_Some (k_tasks s !! k_current s);
  to_count : Z.of_nat (size (k_tasks s)) ≤ 1000000;
}.

(** The invariant: the references are the slots of the tables of all tasks. *)
Record fd_inv s : Prop := {
  fi_refs : refs_inv (all_refs (k_tasks s)) s;
  fi_tables : tables_ok s;
}.
Lemma fi_table s : fd_inv s → ∀ c t, k_tasks s !! c = Some t → length (t_fd_table t) = 32%nat.
Proof. intros [_ [? _ _]]. done. Qed.
Lemma fi_current s : fd_inv s → is_Some (k_tasks s !! k_current s).
Proof. intros [_ [_ ? _]]. done. Qed.
Lemma fi_count s : fd_inv s → Z.of_nat (size (k_tasks s)) ≤ 1000000.
Proof. intros [_ [_ _ ?]]. done. Qed.

#[export] Instance refs_inv_proper : Proper ((≡ₚ) ==> eq ==> iff) refs_inv.
Proof.
  assert (∀ L L' s, L ≡ₚ L' → refs_inv L s → refs_inv L' s) as Himp.
  { intros L L' s HL [Hf Hw Hb Hp Ha Hl]. split; try done; [|by rewrite <-HL].
    intros a Ha'. rewrite <-HL in Ha'. destruct (Hf a Ha') as (fl & nd & H1 & H2 & H0 & H3 & H4).
    exists fl, nd. rewrite <-(cnt_perm _ _ _ HL). split_and!; try done. unfold node_ok in *.
    destruct (has (n_flags nd) FS_PIPE).
    { destruct H4 as (? & pp & p & ? & ? & ? & ?). split; [done|]. exists pp, p.
      by rewrite <-!(cnt_perm _ _ _ HL). }
    destruct (has (n_flags nd) FS_PERSISTENT); [done|].
    destruct (has (n_flags nd) FS_TRANSIENT); [|done]. destruct H4 as [He Hh].
    split; [|done]. intros b fb Hb'. rewrite <-HL in Hb'. by apply He. }
  intros L L' HL s ? <-. split; apply Himp; done.
Qed.

(** States that agree on everything the invariant reads, but for more addresses
    and tasks handed out. *)
Lemma refs_inv_later L s s' :
  k_files s' = k_files s → k_nodes s' = k_nodes s → k_pipes s' = k_pipes s →
  k_bufs s' = k_bufs s → k_fresh s ≤ k_fresh s' →
  (∀ c, is_Some (k_tasks s !! c) → is_Some (k_tasks s' !! c)) →
  refs_inv L s → refs_inv L s'.
Proof.
  intros E1 E2 E3 E4 E5 Ht [Hf Hw Hb Hp Ha Hl]. split; try done.
  - intros a Ha'. destruct (Hf a Ha') as (fl & nd & H). exists fl, nd.
    unfold node_ok. by rewrite E1, E2, E3, E4.
  - intros pp p. rewrite E3. intros H. destruct (Hw pp p H); auto.
  - intros a nd x. rewrite E2. intros H1 H2. pose proof (Hb a nd x H1 H2). lia.
  - intros a nd x. rewrite E2. intros H1 H2. pose proof (Hp a nd x H1 H2). lia.
  - destruct Ha as [Ha H0]. split; [|lia]. rewrite E1, E2, E3, E4. intros a H. apply Ha. lia.
Qed.

Lemma refs_inv_same L s s' :
  k_files s' = k_files s → k_nodes s' = k_nodes s → k_pipes s' = k_pipes s →
  k_bufs s' = k_bufs s → k_fresh s' = k_fresh s →
  (∀ c, is_Some (k_tasks s !! c) → is_Some (k_tasks s' !! c)) →
  refs_inv L s → refs_inv L s'.
Proof. intros E1 E2 E3 E4 E5. apply refs_inv_later; try done. lia. Qed.
End inv.

(** ** Tasks that differ only in their scheduling state *)

Definition same_tables (m m' : gmap Z task_t) : Prop := t_fd_table <$> m' = t_fd_table <$> m.

Lemma same_tables_refs m m' : same_tables m m' → all_refs m' ≡ₚ all_refs m.
Proof.
  intros H. assert (∀ m, all_refs m ≡ₚ
    (map_to_list (t_fd_table <$> m) ≫= λ p, filter (λ a, a ≠ 0) p.2)) as E.
  { intros m0. unfold all_refs. rewrite map_to_list_fmap. induction (map_to_list m0) as [|[c t] l IH];
      [done|]. simpl. by rewrite IH. }
  rewrite (E m), (E m'). by rewrite H.
Qed.

Lemma same_tables_lookup m m' c t' : same_tables m m' → m' !! c = Some t' →
  ∃ t, m !! c = Some t ∧ t_fd_table t' = t_fd_table t.
Proof.
  intros H Hc. apply (f_equal (lookup c)) in H. rewrite !lookup_fmap, Hc in H. simpl in H.
  destruct (m !! c) as [t|]; simplify_eq/=. eauto.
Qed.

Lemma same_tables_dom m m' c : same_tables m m' → is_Some (m !! c) → is_Some (m' !! c).
Proof.
  intros H [t Ht]. apply (f_equal (lookup c)) in H. rewrite !lookup_fmap, Ht in H. simpl in H.
  destruct (m' !! c); [eauto|done].
Qed.

Lemma same_tables_woken t m : same_tables m (woken t m).
Proof.
  unfold same_tables, woken. destruct (t =? 0); [done|]. destruct (m !! t) as [tk|] eqn:E; [|done].
  destruct (_ =? _); [|done]. rewrite fmap_insert. simpl. apply insert_id.
  by rewrite lookup_fmap, E.
Qed.

#[export] Instance same_tables_preorder : PreOrder same_tables.
Proof. split; [done|]. unfold same_tables. intros ???; congruence. Qed.

Section release.
Context {D : Type} {Drv : FsDriver D}.
#[local] Open Scope kernel_scope.
Implicit Types s : kst D.

(** What the descriptor operations leave alone. *)
Record frame s s' : Prop := {
  fr_tables : same_tables (k_tasks s) (k_tasks s');
  fr_current : k_current s' = k_current s;
}.

#[export] Instance frame_preorder : PreOrder frame.
Proof.
  split; [by split|]. intros s1 s2 s3 [H1 H2] [H3 H4]. split; [by etrans|congruence].
Qed.

(** One end of a pipe less. *)
Lemma pipe_drop_run nd flags s pp p :
  n_impl nd = ImplPipe pp → k_pipes s !! pp = Some p →
  (p_waiting p = 0 ∨ is_Some (k_tasks s !! p_waiting p)) →
  (if has flags O_WRONLY then 0 < p_writers p else 0 < p_readers p) →
  ∃ p' n m, pipe_drop nd flags s =
      Ret tt (with_k_pipe_count n (with_k_tasks m (with_k_pipes (<[pp := p']> (k_pipes s)) s))) ∧
    same_tables (k_tasks s) m ∧ p_waiting p' = p_waiting p ∧
    p_readers p' = p_readers p - (if has flags O_WRONLY then 0 else 1) ∧
    p_writers p' = p_writers p - (if has flags O_WRONLY then 1 else 0).
Proof.
  intros Hi Hp Hw Hpos. unfold pipe_drop. rewrite Hi. destruct (has flags O_WRONLY).
  - unfold pipe_remove_writer. rewrite (get_pipe_bind _ _ _ _ Hp).
    replace (0 <? p_writers p) with true by (symmetry; by apply Z.ltb_lt).
    set (p' := with_p_writers (p_writers p - 1) p). exists p'.
    set (s1 := with_k_pipes (<[pp := p']> (k_pipes s)) s).
    assert (∃ m, (if (p_writers p' =? 0) && negb (p_waiting p' =? 0)
                  then wake (p_waiting p') else kret tt) s1 = Ret tt (with_k_tasks m s1) ∧
                 same_tables (k_tasks s) m) as (m & E & Hm).
    { destruct (p_writers p' =? 0); simpl; [|by exists (k_tasks s); destruct s].
      pose proof (wake_run (p_waiting p) s1 Hw) as Hr.
      exists (woken (p_waiting p) (k_tasks s)). split; [|apply same_tables_woken].
      etrans; [|exact Hr]. cbn [p' p_waiting]. by destruct (p_waiting p =? 0). }
    rewrite (kbind_ret (put_pipe pp p') _ s tt s1 eq_refl).
    rewrite (kbind_ret _ _ _ _ _ E). clear E.
    destruct ((p_readers p' =? 0) && (p_writers p' =? 0)).
    + eexists _, m. split; [reflexivity|]. simpl. split_and!; try done; lia.
    + exists (k_pipe_count s), m. split; [by destruct s|]. simpl. split_and!; try done; lia.
  - unfold pipe_remove_reader. rewrite (get_pipe_bind _ _ _ _ Hp).
    replace (0 <? p_readers p) with true by (symmetry; by apply Z.ltb_lt).
    set (p' := with_p_readers (p_readers p - 1) p). exists p'.
    rewrite (kbind_ret (put_pipe pp p') _ s tt _ eq_refl).
    destruct ((p_readers p' =? 0) && (p_writers p' =? 0)).
    + eexists _, (k_tasks s). split; [unfold add_pipe_count, kmodify; by destruct s|]. simpl. split_and!; try done; lia.
    + exists (k_pipe_count s), (k_tasks s). split; [by destruct s|]. simpl. split_and!; try done; lia.
Qed.

Definition node_of s (a : Z) (fl : file_t) (nd : fs_node_t) : Prop :=
  k_files s !! a = Some fl ∧ k_nodes s !! f_node fl = Some nd.

(** The ends of a pipe do not change when the files and nodes in use do not,
    but for a reference count. *)
Lemma is_end_same s s' a pp w fl :
  k_files s !! a = Some fl →
  (∃ n, k_files s' !! a = Some (with_f_refcount n fl)) →
  k_nodes s' !! f_node fl = k_nodes s !! f_node fl →
  is_end (k_files s') (k_nodes s') pp w a = is_end (k_files s) (k_nodes s) pp w a.
Proof. intros E [n E'] En. unfold is_end. rewrite E, E'. simpl. by rewrite En. Qed.

(** One reference to [f] less, and what is not in use any more may go. *)
Lemma refs_inv_shrink f L s s' :
  refs_inv (f :: L) s →
  (∀ a fl, a ∈ L → k_files s !! a = Some fl →
     k_files s' !! a = Some (with_f_refcount (cnt (Z.eqb a) L) fl)) →
  (∀ a fl nd, a ∈ L → node_of s a fl nd → k_nodes s' !! f_node fl = Some nd) →
  (∀ y ny, k_nodes s' !! y = Some ny → k_nodes s !! y = Some ny) →
  (∀ a fl nd pp p, a ∈ L → node_of s a fl nd → has (n_flags nd) FS_PIPE = true →
     n_impl nd = ImplPipe pp → k_pipes s !! pp = Some p →
     ∃ p', k_pipes s' !! pp = Some p' ∧
       p_readers p' = cnt (is_end (k_files s) (k_nodes s) pp false) L ∧
       p_writers p' = cnt (is_end (k_files s) (k_nodes s) pp true) L) →
  (∀ a fl nd x, a ∈ L → node_of s a fl nd → n_impl nd = ImplBuf x →
     has (n_flags nd) FS_TRANSIENT = true → has (n_flags nd) FS_IMPL_HEAP = true →
     is_Some (k_bufs s !! x) → is_Some (k_bufs s' !! x)) →
  (∀ pp p, k_pipes s' !! pp = Some p → p_waiting p = 0 ∨ is_Some (k_tasks s' !! p_waiting p)) →
  k_fresh s' = k_fresh s → allocated s' →
  refs_inv L s'.
Proof.
  intros [Hf Hw Hb Hp Ha Hl] F N N' P B W E A. split; try done.
  - intros a HaL. destruct (Hf a) as (fl & nd & H1 & H2 & H0 & H3 & H4); [by apply list_elem_of_further|].
    assert (node_of s a fl nd) as Hno by done.
    exists (with_f_refcount (cnt (Z.eqb a) L) fl), nd. split; [by apply F|]. simpl.
    split; [by eapply N|]. split; [done|]. split; [done|]. unfold node_ok in *.
    assert (∀ pp w, cnt (is_end (k_files s') (k_nodes s') pp w) L =
                    cnt (is_end (k_files s) (k_nodes s) pp w) L) as Hend.
    { intros pp w. apply cnt_ext. intros b HbL.
      destruct (Hf b) as (fb & nb & Hb1 & Hb2 & _); [by apply list_elem_of_further|].
      eapply is_end_same; [done|eauto|]. rewrite Hb2. by eapply (N b). }
    destruct (has (n_flags nd) FS_PIPE) eqn:EP.
    { destruct H4 as (? & pp & p & Hi & Hpp & _ & _). split; [done|].
      destruct (P a fl nd pp p HaL Hno EP Hi Hpp) as (p' & ? & ? & ?).
      exists pp, p'. by rewrite !Hend. }
    destruct (has (n_flags nd) FS_PERSISTENT); [done|].
    destruct (has (n_flags nd) FS_TRANSIENT) eqn:ET; [|done]. destruct H4 as [He Hh]. simpl. split.
    + intros b fb HbL Hfb Hn.
      destruct (Hf b) as (fb0 & nb & Hb1 & Hb2 & _); [by apply list_elem_of_further|].
      rewrite (F b fb0 HbL Hb1) in Hfb. simplify_eq. simpl in Hn.
      eapply He; [by apply list_elem_of_further|done|done].
    + intros Hheap. destruct (Hh Hheap) as [|(x & Hi & Hx & Hex)]; [by left|]. right.
      exists x. split; [done|]. split; [by eapply (B a)|]. intros y ny Hy. by eapply Hex, N'.
  - intros a nd x Hn. rewrite E. eauto.
  - intros a nd x Hn. rewrite E. eauto.
  - simpl in Hl. lia.
Qed.

Lemma is_end_self s a fl nd pp :
  node_of s a fl nd → has (n_flags nd) FS_PIPE = true → n_impl nd = ImplPipe pp →
  ∀ pp' w, is_end (k_files s) (k_nodes s) pp' w a =
    bool_decide (pp = pp') && Bool.eqb (has (f_flags fl) O_WRONLY) w.
Proof.
  intros [E1 E2] E3 E4 pp' w. unfold is_end. rewrite E1, E2, E3, E4. simpl. f_equal.
  apply bool_decide_ext. naive_solver.
Qed.

(** The counts after one end [f] of pipe [pp] is dropped. *)
Lemma drop_counts f L s fl nd pp p p' :
  refs_inv (f :: L) s → node_of s f fl nd → has (n_flags nd) FS_PIPE = true →
  n_impl nd = ImplPipe pp → k_pipes s !! pp = Some p →
  p_readers p' = p_readers p - (if has (f_flags fl) O_WRONLY then 0 else 1) →
  p_writers p' = p_writers p - (if has (f_flags fl) O_WRONLY then 1 else 0) →
  (p_readers p' = cnt (is_end (k_files s) (k_nodes s) pp false) L ∧
   p_writers p' = cnt (is_end (k_files s) (k_nodes s) pp true) L) ∧
  ∀ pp' q a fa na, pp' ≠ pp → a ∈ L → node_of s a fa na → has (n_flags na) FS_PIPE = true →
    n_impl na = ImplPipe pp' → k_pipes s !! pp' = Some q →
    p_readers q = cnt (is_end (k_files s) (k_nodes s) pp' false) L ∧
    p_writers q = cnt (is_end (k_files s) (k_nodes s) pp' true) L.
Proof.
  intros Hinv Hno EP Hi Hp Hr Hw. pose proof (is_end_self s f fl nd pp Hno EP Hi) as Hend. split.
  - destruct (ri_file _ _ Hinv f) as (fl0 & nd0 & H1 & H2 & _ & _ & Hok); [apply list_elem_of_here|].
    destruct Hno as [E1 E2]. simplify_eq. unfold node_ok in Hok. rewrite EP in Hok.
    destruct Hok as (_ & pp0 & p0 & Hi0 & Hp0 & Hr0 & Hw0).
    assert (pp0 = pp) as -> by congruence. assert (p0 = p) as -> by congruence.
    rewrite Hr, Hw, Hr0, Hw0, !cnt_cons, !Hend, !bool_decide_true by done.
    destruct (has (f_flags fl) O_WRONLY); simpl; lia.
  - intros pp' q a fa na Hne HaL [Ha1 Ha2] EPa Hia Hq.
    destruct (ri_file _ _ Hinv a) as (fl0 & nd0 & H1 & H2 & _ & _ & Hok);
      [by apply list_elem_of_further|]. simplify_eq. unfold node_ok in Hok. rewrite EPa in Hok.
    destruct Hok as (_ & pp0 & p0 & Hi0 & Hp0 & Hr0 & Hw0).
    assert (pp0 = pp') as -> by congruence. assert (p0 = q) as -> by congruence.
    rewrite Hr0, Hw0, !cnt_cons, !Hend, !bool_decide_false by congruence. simpl. lia.
Qed.

(** No reference is an end of a pipe whose counts are zero. *)
Lemma no_end L s a fa na pp :
  cnt (is_end (k_files s) (k_nodes s) pp false) L = 0 →
  cnt (is_end (k_files s) (k_nodes s) pp true) L = 0 →
  a ∈ L → node_of s a fa na → has (n_flags na) FS_PIPE = true → n_impl na ≠ ImplPipe pp.
Proof.
  intros H1 H2 Ha Hno EP Hi. pose proof (is_end_self s a fa na pp Hno EP Hi pp) as Hend.
  pose proof (cnt_zero _ _ _ H1 Ha) as Z1. pose proof (cnt_zero _ _ _ H2 Ha) as Z2.
  rewrite Hend, bool_decide_true in Z1, Z2 by done.
  destruct (has (f_flags fa) O_WRONLY); done.
Qed.

Lemma kfree_file_run a s : is_Some (k_files s !! a) →
  kfree_file a s = Ret tt (with_k_files (delete a (k_files s)) s).
Proof. intros [fl E]. unfold kfree_file. by rewrite (get_file_bind _ _ _ _ E). Qed.
Lemma kfree_node_run a s : is_Some (k_nodes s !! a) →
  kfree_node a s = Ret tt (with_k_nodes (delete a (k_nodes s)) s).
Proof. intros [nd E]. unfold kfree_node. by rewrite (get_node_bind _ _ _ _ E). Qed.
Lemma kfree_pipe_run a s : is_Some (k_pipes s !! a) →
  kfree_pipe a s = Ret tt (with_k_pipes (delete a (k_pipes s)) s).
Proof. intros [p E]. unfold kfree_pipe. by rewrite (get_pipe_bind _ _ _ _ E). Qed.
Lemma kfree_buf_run a s : is_Some (k_bufs s !! a) →
  kfree_buf a s = Ret tt (with_k_bufs (delete a (k_bufs s)) s).
Proof. intros [b E]. unfold kfree_buf, kbind, kget_opt. by rewrite E. Qed.

Definition released (f : Z) (L : list Z) s : Prop :=
  ∃ s', release f s = Ret tt s' ∧ refs_inv L s' ∧ frame s s' ∧ (k_files s' !! f = None ↔ f ∉ L).

(** The bookkeeping on the count, shared by both kinds of node. *)
Lemma release_start f L s fl nd :
  refs_inv (f :: L) s → node_of s f fl nd →
  release f s =
    ((if has (n_flags nd) FS_PIPE then pipe_drop nd (f_flags fl) else kret tt) ;;;
     if cnt (Z.eqb f) L =? 0 then teardown f (with_f_refcount (cnt (Z.eqb f) L) fl) nd else kret tt)
      (with_k_files (<[f := with_f_refcount (cnt (Z.eqb f) L) fl]> (k_files s)) s).
Proof.
  intros Hinv [E1 E2].
  destruct (ri_file _ _ Hinv f) as (fl0 & nd0 & H1 & H2 & _ & Hc & _); [apply list_elem_of_here|].
  simplify_eq. rewrite cnt_cons, Z.eqb_refl in Hc. pose proof (cnt_nonneg (Z.eqb f) L).
  pose proof (cnt_le (Z.eqb f) L). pose proof (ri_len _ _ Hinv) as Hl. simpl in Hl.
  unfold release. rewrite (get_file_bind _ _ _ _ E1).
  replace (u32 (f_refcount fl - 1)) with (cnt (Z.eqb f) L) by (rewrite u32_small; lia).
  unfold put_file at 1, kmodify. unfold kbind at 1.
  by rewrite (get_node_bind _ (with_k_files _ s) _ _ E2).
Qed.

Lemma files_after f L s fl a fa : refs_inv (f :: L) s → k_files s !! f = Some fl →
  a ∈ L → k_files s !! a = Some fa →
  <[f := with_f_refcount (cnt (Z.eqb f) L) fl]> (k_files s) !! a =
    Some (with_f_refcount (cnt (Z.eqb a) L) fa).
Proof.
  intros Hinv Hf Ha Hfa. destruct (decide (a = f)) as [->|Hne].
  { rewrite lookup_insert_eq. by simplify_eq. }
  rewrite lookup_insert_ne by done. rewrite Hfa. f_equal.
  destruct (ri_file _ _ Hinv a) as (fl0 & nd0 & H1 & H2 & _ & Hc & _); [by apply list_elem_of_further|].
  rewrite H1 in Hfa. simplify_eq. rewrite cnt_cons in Hc.
  replace (a =? f) with false in Hc by (symmetry; by apply Z.eqb_neq).
  destruct fa. simpl in *. unfold with_f_refcount. simpl. f_equal. lia.
Qed.

Lemma not_in_L f L : cnt (Z.eqb f) L = 0 → f ∉ L.
Proof. intros Hc Hin. pose proof (cnt_zero _ _ _ Hc Hin). by rewrite Z.eqb_refl in *. Qed.
Lemma in_L f L : cnt (Z.eqb f) L ≠ 0 → f ∈ L.
Proof.
  intros Hc. pose proof (cnt_nonneg (Z.eqb f) L).
  destruct (proj1 (cnt_pos (Z.eqb f) L)) as (a & Ha & E); [lia|]. by apply Z.eqb_eq in E as ->.
Qed.

(** Dropping one end [f] of a pipe, with the states described by their parts. *)
Section drop_end.
Context (f : Z) (L : list Z) (s s3 : kst D) (fl : file_t) (nd : fs_node_t) (pp : Z) (p p' : pipe_t).
Hypothesis Hinv : refs_inv (f :: L) s.
Hypothesis Hno : node_of s f fl nd.
Hypothesis EP : has (n_flags nd) FS_PIPE = true.
Hypothesis Hi : n_impl nd = ImplPipe pp.
Hypothesis Hp : k_pipes s !! pp = Some p.
Hypothesis Hr : p_readers p' = p_readers p - (if has (f_flags fl) O_WRONLY then 0 else 1).
Hypothesis Hw : p_writers p' = p_writers p - (if has (f_flags fl) O_WRONLY then 1 else 0).
Hypothesis Wt : p_waiting p' = p_waiting p.
Hypothesis Hdom : ∀ a, is_Some (k_tasks s !! a) → is_Some (k_tasks s3 !! a).
Hypothesis Eb : k_bufs s3 = k_bufs s.
Hypothesis Ef : k_fresh s3 = k_fresh s.
Hypothesis Hfiles : ∀ a fa, a ∈ L → k_files s !! a = Some fa →
  k_files s3 !! a = Some (with_f_refcount (cnt (Z.eqb a) L) fa).
Hypothesis Hfr : ∀ a, k_fresh s ≤ a → k_files s3 !! a = None.

Lemma pipes_after_fresh a : k_fresh s ≤ a → <[pp := p']> (k_pipes s) !! a = None.
Proof using All.
  intros Ha. destruct (ri_fresh _ _ Hinv) as [Hall _]. destruct (Hall a Ha) as (_ & _ & Hpp & _).
  rewrite lookup_insert_ne; [done|]. intros ->. congruence.
Qed.

Lemma pipes_after_wait q pq : <[pp := p']> (k_pipes s) !! q = Some pq →
  p_waiting pq = 0 ∨ is_Some (k_tasks s3 !! p_waiting pq).
Proof using All.
  destruct (decide (q = pp)) as [->|Hne].
  - rewrite lookup_insert_eq. intros ?. simplify_eq. rewrite Wt.
    destruct (ri_wait _ _ Hinv pp p Hp); auto.
  - rewrite lookup_insert_ne by done. intros Hq. destruct (ri_wait _ _ Hinv q pq Hq); auto.
Qed.

Lemma refs_inv_drop_end :
  k_nodes s3 = k_nodes s → k_pipes s3 = <[pp := p']> (k_pipes s) → refs_inv L s3.
Proof using All.
  intros En Epp. destruct (ri_fresh _ _ Hinv) as [Hall Hpos].
  destruct (drop_counts f L s fl nd pp p p' Hinv Hno EP Hi Hp Hr Hw) as [[Cr Cw] Cother].
  apply (refs_inv_shrink f L s s3 Hinv Hfiles); try done.
  - intros a fa na _ [_ Hn]. by rewrite En.
  - intros y ny. by rewrite En.
  - intros a fa na pp' q HaL Hna EPa Hia Hq. rewrite Epp. destruct (decide (pp' = pp)) as [->|Hne].
    + exists p'. by rewrite lookup_insert_eq.
    + exists q. rewrite lookup_insert_ne by done. split; [done|]. by apply (Cother pp' q a fa na).
  - intros a fa na x _ _ _ _ _. by rewrite Eb.
  - rewrite Epp. apply pipes_after_wait.
  - split; [|lia]. rewrite Ef, En, Epp, Eb. intros a Ha.
    split_and!; [by apply Hfr|by apply Hall|by apply pipes_after_fresh|by apply Hall].
Qed.

Lemma refs_inv_free_pipe :
  p_readers p' = 0 → p_writers p' = 0 →
  k_nodes s3 = delete (f_node fl) (k_nodes s) →
  k_pipes s3 = delete pp (<[pp := p']> (k_pipes s)) → refs_inv L s3.
Proof using All.
  intros Zr Zw En Epp. destruct (ri_fresh _ _ Hinv) as [Hall Hpos]. destruct Hno as [E1 E2].
  destruct (drop_counts f L s fl nd pp p p' Hinv Hno EP Hi Hp Hr Hw) as [[Cr Cw] Cother].
  rewrite Zr in Cr. rewrite Zw in Cw.
  assert (∀ a fa na, a ∈ L → node_of s a fa na → f_node fa ≠ f_node fl) as Hnn.
  { intros a fa na Ha [Ha1 Ha2] Heq. rewrite Heq in Ha2. simplify_eq.
    eapply (no_end L s a fa nd pp); try done. split; [done|by rewrite Heq]. }
  apply (refs_inv_shrink f L s s3 Hinv Hfiles); try done.
  - intros a fa na Ha Hna. rewrite En, lookup_delete_ne by (intros ?; by eapply Hnn). apply Hna.
  - intros y ny. rewrite En, lookup_delete_Some. by intros [_ ?].
  - intros a fa na pp' q Ha Hna EPa Hia Hq. assert (pp' ≠ pp) as Hne.
    { intros ->. by eapply (no_end L s a fa na pp). }
    rewrite Epp, lookup_delete_ne, lookup_insert_ne by done. exists q. split; [done|].
    by apply (Cother pp' q a fa na).
  - intros a fa na x _ _ _ _ _. by rewrite Eb.
  - intros q pq. rewrite Epp, lookup_delete_Some. intros [_ Hq]. by eapply pipes_after_wait.
  - split; [|lia]. rewrite Ef, En, Epp, Eb. intros a Ha.
    split_and!; [by apply Hfr| | |by apply Hall]; apply lookup_delete_None; right;
      [by apply Hall|by apply pipes_after_fresh].
Qed.
End drop_end.

Lemma files_deleted f L s fl : refs_inv (f :: L) s → k_files s !! f = Some fl → f ∉ L →
  let m := delete f (<[f := with_f_refcount (cnt (Z.eqb f) L) fl]> (k_files s)) in
  (∀ a fa, a ∈ L → k_files s !! a = Some fa → m !! a = Some (with_f_refcount (cnt (Z.eqb a) L) fa)) ∧
  (∀ a, k_fresh s ≤ a → m !! a = None).
Proof.
  intros Hinv Hf HfL m. split.
  - intros a fa Ha Hfa. unfold m. rewrite lookup_delete_ne by (intros ->; done). by apply files_after.
  - intros a Ha. unfold m. destruct (decide (a = f)) as [->|]; [apply lookup_delete_eq|].
    rewrite lookup_delete_ne, lookup_insert_ne by done. by apply (ri_fresh _ _ Hinv).
Qed.

Lemma files_updated f L s fl : refs_inv (f :: L) s → k_files s !! f = Some fl →
  ∀ a, k_fresh s ≤ a →
    <[f := with_f_refcount (cnt (Z.eqb f) L) fl]> (k_files s) !! a = None.
Proof.
  intros Hinv Hf a Ha. destruct (ri_fresh _ _ Hinv) as [Hall _].
  rewrite lookup_insert_ne; [by apply Hall|]. intros ->. destruct (Hall a Ha) as (? & _). congruence.
Qed.

Lemma release_pipe f L s fl nd :
  refs_inv (f :: L) s → node_of s f fl nd → has (n_flags nd) FS_PIPE = true → released f L s.
Proof.
  intros Hinv Hno EP. unfold released. rewrite (release_start f L s fl nd Hinv Hno), EP.
  destruct (ri_file _ _ Hinv f) as (fl0 & nd0 & H1 & H2 & _ & _ & Hok); [apply list_elem_of_here|].
  destruct Hno as [E1 E2]. simplify_eq. assert (node_of s f fl nd) as Hno by done.
  unfold node_ok in Hok. rewrite EP in Hok. destruct Hok as (Hpe & pp & p & Hi & Hp & Hr & Hw).
  set (s1 := with_k_files (<[f := with_f_refcount (cnt (Z.eqb f) L) fl]> (k_files s)) s).
  destruct (pipe_drop_run nd (f_flags fl) s1 pp p Hi Hp) as (p' & n & m & Er & Hm & Wt & Hr' & Hw').
  { destruct (ri_wait _ _ Hinv pp p Hp); auto. }
  { pose proof (is_end_self s f fl nd pp Hno EP Hi pp) as Hend.
    rewrite Hr, Hw, !cnt_cons, !Hend, !bool_decide_true by done.
    pose proof (cnt_nonneg (is_end (k_files s) (k_nodes s) pp false) L).
    pose proof (cnt_nonneg (is_end (k_files s) (k_nodes s) pp true) L).
    destruct (has (f_flags fl) O_WRONLY); simpl; lia. }
  rewrite (kbind_ret _ _ _ _ _ Er). set (s2 := with_k_pipe_count _ _).
  assert (∀ a, is_Some (k_tasks s !! a) → is_Some (m !! a)) as Hdom
    by (intros a; by apply same_tables_dom).
  destruct (Z.eqb_spec (cnt (Z.eqb f) L) 0) as [Hz|Hz].
  2: { exists s2. split; [done|]. split; [|split; [by split|]].
       - eapply (refs_inv_drop_end f L s s2 fl nd pp p p'); try done.
         + intros. by apply files_after.
         + by apply files_updated.
       - simpl. rewrite lookup_insert_eq. split; [done|]. by pose proof (in_L f L Hz). }
  pose proof (not_in_L f L Hz) as HfL.
  destruct (files_deleted f L s fl Hinv E1 HfL) as [Hdel Hnone].
  unfold teardown. rewrite Hpe, EP, Hi. unfold kbind at 1.
  rewrite (get_pipe_bind pp s2 p') by apply lookup_insert_eq.
  destruct (_ && _) eqn:Eboth.
  - rewrite (kbind_ret _ _ _ _ _ (kfree_pipe_run pp s2 ltac:(eexists; apply lookup_insert_eq))).
    rewrite kfree_node_run by (eexists; exact E2).
    rewrite kfree_file_run by (eexists; apply lookup_insert_eq).
    eexists. split; [reflexivity|]. zify_bool. split; [|split; [by split|]].
    + by eapply (refs_inv_free_pipe f L s _ fl nd pp p p').
    + simpl. by rewrite lookup_delete_eq.
  - unfold kret. rewrite kfree_file_run by (eexists; apply lookup_insert_eq).
    eexists. split; [reflexivity|]. split; [|split; [by split|]].
    + by eapply (refs_inv_drop_end f L s _ fl nd pp p p').
    + simpl. by rewrite lookup_delete_eq.
Qed.

(** Dropping a reference to a file that is not on a pipe. *)
Section drop_plain.
Context (f : Z) (L : list Z) (s s3 : kst D) (fl : file_t) (nd : fs_node_t).
Hypothesis Hinv : refs_inv (f :: L) s.
Hypothesis Hno : node_of s f fl nd.
Hypothesis EP : has (n_flags nd) FS_PIPE = false.
Hypothesis Ep : k_pipes s3 = k_pipes s.
Hypothesis Et : k_tasks s3 = k_tasks s.
Hypothesis Ef : k_fresh s3 = k_fresh s.
Hypothesis Hfiles : ∀ a fa, a ∈ L → k_files s !! a = Some fa →
  k_files s3 !! a = Some (with_f_refcount (cnt (Z.eqb a) L) fa).
Hypothesis Hfr : ∀ a, k_fresh s ≤ a → k_files s3 !! a = None.

Lemma refs_inv_drop_plain :
  (∀ a fa na, a ∈ L → node_of s a fa na → k_nodes s3 !! f_node fa = Some na) →
  (∀ y ny, k_nodes s3 !! y = Some ny → k_nodes s !! y = Some ny) →
  (∀ a fa na x, a ∈ L → node_of s a fa na → n_impl na = ImplBuf x →
     has (n_flags na) FS_TRANSIENT = true → has (n_flags na) FS_IMPL_HEAP = true →
     is_Some (k_bufs s !! x) → is_Some (k_bufs s3 !! x)) →
  (∀ x, k_bufs s !! x = None → k_bufs s3 !! x = None) →
  refs_inv L s3.
Proof using All.
  intros Hn Hn' Hb Hb'. destruct (ri_fresh _ _ Hinv) as [Hall Hpos].
  apply (refs_inv_shrink f L s s3 Hinv Hfiles); try done.
  - intros a fa na pp p Ha [Ha1 Ha2] EPa Hia Hp. exists p. split; [by rewrite Ep|].
    destruct (ri_file _ _ Hinv a) as (fl0 & nd0 & H1 & H2 & _ & _ & Hok);
      [by apply list_elem_of_further|]. simplify_eq. unfold node_ok in Hok. rewrite EPa in Hok.
    destruct Hok as (_ & pp0 & p0 & Hi0 & Hp0 & Hr0 & Hw0).
    assert (pp0 = pp) as -> by congruence. assert (p0 = p) as -> by congruence.
    assert (∀ w, is_end (k_files s) (k_nodes s) pp w f = false) as Hf.
    { intros w. destruct Hno as [E1 E2]. unfold is_end. by rewrite E1, E2, EP. }
    rewrite Hr0, Hw0, !cnt_cons, !Hf. lia.
  - rewrite Ep, Et. apply (ri_wait _ _ Hinv).
  - split; [|lia]. rewrite Ef, Ep. intros a Ha. split_and!; [by apply Hfr| |by apply Hall|by apply Hb', Hall].
    destruct (k_nodes s3 !! a) as [na|] eqn:E; [|done]. apply Hn' in E.
    destruct (Hall a Ha) as (_ & ? & _). congruence.
Qed.
End drop_plain.

Lemma release_plain f L s fl nd :
  refs_inv (f :: L) s → node_of s f fl nd → has (n_flags nd) FS_PIPE = false → released f L s.
Proof.
  intros Hinv Hno EP. unfold released. rewrite (release_start f L s fl nd Hinv Hno), EP.
  destruct (ri_file _ _ Hinv f) as (fl0 & nd0 & H1 & H2 & Hn0 & _ & Hok); [apply list_elem_of_here|].
  destruct Hno as [E1 E2]. simplify_eq. assert (node_of s f fl nd) as Hno by done.
  unfold node_ok in Hok. rewrite EP in Hok. unfold kbind at 1, kret at 1.
  set (s1 := with_k_files (<[f := with_f_refcount (cnt (Z.eqb f) L) fl]> (k_files s)) s).
  destruct (Z.eqb_spec (cnt (Z.eqb f) L) 0) as [Hz|Hz].
  2: { exists s1. split; [done|]. split; [|split; [by split|]].
       - apply (refs_inv_drop_plain f L s s1 fl nd); try done.
         + intros. by apply files_after.
         + by apply files_updated.
         + by intros a fa na _ [_ ?].
       - simpl. rewrite lookup_insert_eq. split; [done|]. by pose proof (in_L f L Hz). }
  pose proof (not_in_L f L Hz) as HfL.
  destruct (files_deleted f L s fl Hinv E1 HfL) as [Hdel Hnone]. unfold teardown. rewrite EP.
  assert (∀ d, ∃ s', kfree_file f (with_k_drv d s1) = Ret tt s' ∧ refs_inv L s' ∧ frame s s' ∧
    (k_files s' !! f = None ↔ f ∉ L)) as Hsimple.
  { intros d. rewrite kfree_file_run by (eexists; apply lookup_insert_eq).
    eexists. split; [reflexivity|]. split; [|split; [by split|by simpl; rewrite lookup_delete_eq]].
    apply (refs_inv_drop_plain f L s _ fl nd); try done. by intros a fa na _ [_ ?]. }
  assert (with_k_drv (k_drv s) s1 = s1) as Hid by by destruct s.
  destruct (has (n_flags nd) FS_PERSISTENT).
  { unfold kbind, kret. rewrite <-Hid. apply Hsimple. }
  assert (∃ d, close_fs (f_node fl) s1 = Ret tt (with_k_drv d s1)) as [d Ed].
  { unfold close_fs. replace (f_node fl =? 0) with false by (symmetry; by apply Z.eqb_neq).
    rewrite (get_node_bind _ s1 _ _ E2). destruct (n_close nd =? 0); [|by eexists].
    exists (k_drv s). by rewrite Hid. }
  change (f_node (with_f_refcount _ fl)) with (f_node fl).
  unfold kbind at 1. rewrite (kbind_ret _ _ _ _ _ Ed).
  destruct (has (n_flags nd) FS_TRANSIENT) eqn:ET; [|apply Hsimple]. destruct Hok as [He Hheap].
  assert (∀ a fa na, a ∈ L → node_of s a fa na → f_node fa ≠ f_node fl) as Hnn.
  { intros a fa na Ha [Ha1 _] Heq. apply HfL. rewrite <-(He a fa); auto. by apply list_elem_of_further. }
  assert (∃ B, (if has (n_flags nd) FS_IMPL_HEAP then
      match n_impl nd with ImplNull => kret tt | ImplBuf a => kfree_buf a | _ => kfault end
      else kret tt) (with_k_drv d s1) = Ret tt (with_k_bufs B (with_k_drv d s1)) ∧
    (∀ a fa na x, a ∈ L → node_of s a fa na → n_impl na = ImplBuf x → is_Some (k_bufs s !! x) →
       is_Some (B !! x)) ∧ (∀ x, k_bufs s !! x = None → B !! x = None)) as (B & EB & HB & HB').
  { destruct (has (n_flags nd) FS_IMPL_HEAP); [|by exists (k_bufs s)].
    destruct (Hheap eq_refl) as [->|(x & -> & Hx & Hex)]; [by exists (k_bufs s)|].
    exists (delete x (k_bufs s)). rewrite kfree_buf_run by done. split; [done|]. split.
    - intros a fa na y Ha Hna Hy Hs. destruct (decide (y = x)) as [->|]; [|by rewrite lookup_delete_ne].
      exfalso. eapply (Hnn a fa na Ha Hna). eapply Hex; [apply Hna|done].
    - intros y Hy. apply lookup_delete_None. by right. }
  rewrite (kbind_ret _ _ _ _ _ EB). rewrite kfree_node_run by (eexists; exact E2).
  rewrite kfree_file_run by (eexists; apply lookup_insert_eq).
  eexists. split; [reflexivity|]. split; [|split; [by split|by simpl; rewrite lookup_delete_eq]].
  apply (refs_inv_drop_plain f L s _ fl nd); try done; simpl.
  - intros a fa na Ha Hna. rewrite lookup_delete_ne by (intros ?; by eapply Hnn). apply Hna.
  - intros y ny. rewrite lookup_delete_Some. by intros [_ ?].
  - intros a fa na x Ha Hna Hx _ _. by eapply HB.
Qed.

Lemma release_spec f L s : refs_inv (f :: L) s → released f L s.
Proof.
  intros Hinv. destruct (ri_file _ _ Hinv f) as (fl & nd & H1 & H2 & _); [apply list_elem_of_here|].
  destruct (has (n_flags nd) FS_PIPE) eqn:E;
    [by eapply (release_pipe f L s fl nd)|by eapply (release_plain f L s fl nd)].
Qed.
End release.

(** ** One reference more *)

Section retain.
Context {D : Type} {Drv : FsDriver D}.
#[local] Open Scope kernel_scope.
Implicit Types s : kst D.

Lemma pipe_take_run nd flags s pp p :
  n_impl nd = ImplPipe pp → k_pipes s !! pp = Some p →
  0 ≤ p_readers p < 4294967295 → 0 ≤ p_writers p < 4294967295 →
  ∃ p', pipe_take nd flags s = Ret tt (with_k_pipes (<[pp := p']> (k_pipes s)) s) ∧
    p_waiting p' = p_waiting p ∧
    p_readers p' = p_readers p + (if has flags O_WRONLY then 0 else 1) ∧
    p_writers p' = p_writers p + (if has flags O_WRONLY then 1 else 0).
Proof.
  intros Hi Hp Hr Hw. unfold pipe_take. rewrite Hi.
  destruct (has flags O_WRONLY); unfold pipe_add_writer, pipe_add_reader;
    rewrite (get_pipe_bind _ _ _ _ Hp); eexists; (split; [reflexivity|]); simpl;
    rewrite u32_small by lia; split_and!; done || lia.
Qed.

(** The invariant when reference [f] is counted once more. *)
Lemma refs_inv_grow f L s s' fl nd :
  refs_inv L s → f ∈ L → node_of s f fl nd → Z.of_nat (length L) < 4294967294 →
  k_files s' = <[f := with_f_refcount (f_refcount fl + 1) fl]> (k_files s) →
  k_nodes s' = k_nodes s → k_bufs s' = k_bufs s → k_fresh s' = k_fresh s → k_tasks s' = k_tasks s →
  (∀ pp p, k_pipes s !! pp = Some p → ∃ p', k_pipes s' !! pp = Some p' ∧
     p_waiting p' = p_waiting p ∧
     p_readers p' = p_readers p + (if is_end (k_files s) (k_nodes s) pp false f then 1 else 0) ∧
     p_writers p' = p_writers p + (if is_end (k_files s) (k_nodes s) pp true f then 1 else 0)) →
  (∀ pp, k_pipes s !! pp = None → k_pipes s' !! pp = None) →
  refs_inv (f :: L) s'.
Proof.
  intros [Hf Hw Hb Hp [Ha Hpos] Hl] HfL [E1 E2] Hlen EF EN EB EFr ET HP HP'.
  assert (∀ a fa, k_files s !! a = Some fa → ∃ n, k_files s' !! a = Some (with_f_refcount n fa) ∧
    n = f_refcount fa + (if a =? f then 1 else 0)) as Hfile.
  { intros a fa Hfa. rewrite EF. destruct (decide (a = f)) as [->|Hne].
    - rewrite lookup_insert_eq, Z.eqb_refl. simplify_eq. eauto.
    - rewrite lookup_insert_ne, Hfa by done. exists (f_refcount fa).
      replace (a =? f) with false by (symmetry; by apply Z.eqb_neq). split; [by destruct fa|lia]. }
  assert (∀ a pp w, a ∈ f :: L → is_end (k_files s') (k_nodes s') pp w a =
                    is_end (k_files s) (k_nodes s) pp w a) as Hend.
  { intros a pp w Hin. assert (a ∈ L) as HaL by (apply elem_of_cons in Hin as [->|]; done).
    destruct (Hf a HaL) as (fa & na & H1 & H2 & _). destruct (Hfile a fa H1) as (n & ? & _).
    eapply is_end_same; eauto. by rewrite EN. }
  split.
  - intros a Hin. assert (a ∈ L) as HaL by (apply elem_of_cons in Hin as [->|]; done).
    destruct (Hf a HaL) as (fa & na & H1 & H2 & H0 & H3 & H4).
    destruct (Hfile a fa H1) as (n & Hfa & ->). eexists _, na. split; [exact Hfa|]. simpl.
    rewrite EN. split_and!; try done.
    + rewrite cnt_cons. lia.
    + unfold node_ok in *. simpl. destruct (has (n_flags na) FS_PIPE).
      { destruct H4 as (? & pp & p & Hi & Hpp & Hr & Hwr). split; [done|].
        destruct (HP pp p Hpp) as (p' & ? & _ & Hr' & Hw'). exists pp, p'. split_and!; try done.
        - rewrite (cnt_ext _ (is_end (k_files s) (k_nodes s) pp false)) by auto. rewrite cnt_cons. lia.
        - rewrite (cnt_ext _ (is_end (k_files s) (k_nodes s) pp true)) by auto. rewrite cnt_cons. lia. }
      destruct (has (n_flags na) FS_PERSISTENT); [done|].
      destruct (has (n_flags na) FS_TRANSIENT); [|done]. rewrite EB, EN. destruct H4 as [He Hh].
      split; [|done]. intros b fb Hbin Hfb Hn.
      assert (b ∈ L) as HbL by (apply elem_of_cons in Hbin as [->|]; done).
      destruct (Hf b HbL) as (fb0 & nb & Hb1 & _). destruct (Hfile b fb0 Hb1) as (nn & Hb2 & _).
      rewrite Hb2 in Hfb. simplify_eq. by eapply He.
  - intros pp p' Hp'. destruct (k_pipes s !! pp) as [p|] eqn:Epp.
    + destruct (HP pp p Epp) as (p0 & ? & Hwt & _). simplify_eq. rewrite Hwt, ET. eauto.
    + specialize (HP' pp Epp). congruence.
  - intros a na x. rewrite EN, EFr. eauto.
  - intros a na x. rewrite EN, EFr. eauto.
  - split; [|lia]. rewrite EFr, EN, EB. intros a Hge. destruct (Ha a Hge) as (Hf1 & Hn1 & Hp1 & Hb1).
    split_and!; auto. rewrite EF, lookup_insert_ne; [done|]. intros ->. congruence.
  - simpl. lia.
Qed.

Lemma retain_spec f L s : refs_inv L s → f ∈ L → Z.of_nat (length L) < 4294967294 →
  ∃ s', retain f s = Ret tt s' ∧ refs_inv (f :: L) s' ∧ k_tasks s' = k_tasks s ∧
    k_current s' = k_current s.
Proof.
  intros Hinv HfL Hlen. pose proof Hinv as [Hf Hw _ _ _ _].
  destruct (Hf f HfL) as (fl & nd & H1 & H2 & H0 & H3 & H4). assert (node_of s f fl nd) as Hno by done.
  pose proof (cnt_nonneg (Z.eqb f) L). pose proof (cnt_le (Z.eqb f) L).
  unfold retain. rewrite (get_file_bind _ _ _ _ H1).
  replace (u32 (f_refcount fl + 1)) with (f_refcount fl + 1) by (rewrite u32_small; lia).
  unfold put_file at 1, kmodify. unfold kbind at 1.
  set (s1 := with_k_files _ s). rewrite (get_node_bind _ s1 _ _ H2).
  destruct (has (n_flags nd) FS_PIPE) eqn:EP.
  - unfold node_ok in H4. rewrite EP in H4. destruct H4 as (_ & pp & p & Hi & Hp & Hr & Hwr).
    pose proof (cnt_le (is_end (k_files s) (k_nodes s) pp false) L).
    pose proof (cnt_nonneg (is_end (k_files s) (k_nodes s) pp false) L).
    pose proof (cnt_le (is_end (k_files s) (k_nodes s) pp true) L).
    pose proof (cnt_nonneg (is_end (k_files s) (k_nodes s) pp true) L).
    destruct (pipe_take_run nd (f_flags fl) s1 pp p Hi Hp) as (p' & E & Wt & Hr' & Hw'); [lia..|].
    rewrite E. eexists. split; [done|]. split; [|done].
    pose proof (is_end_self s f fl nd pp Hno EP Hi) as Hend.
    eapply (refs_inv_grow f L s _ fl nd); try done.
    + intros q pq Hq. simpl. rewrite !Hend. destruct (decide (q = pp)) as [->|Hne].
      * exists p'. rewrite lookup_insert_eq, bool_decide_true by done. assert (pq = p) as -> by congruence.
        split_and!; try done; destruct (has (f_flags fl) O_WRONLY); simpl in *; lia.
      * exists pq. rewrite lookup_insert_ne, bool_decide_false by congruence. simpl.
        split_and!; try done; lia.
    + intros q Hq. simpl. rewrite lookup_insert_ne; [done|]. intros ->. congruence.
  - eexists. split; [done|]. split; [|done]. eapply (refs_inv_grow f L s _ fl nd); try done.
    intros q pq Hq. exists pq. unfold is_end. rewrite H1, H2, EP. simpl. split_and!; try done; lia.
Qed.
End retain.

(** ** The descriptor operations *)

Section fd_ops.
Context {D : Type} {Drv : FsDriver D}.
#[local] Open Scope kernel_scope.
Implicit Types s : kst D.

Lemma same_tables_size m m' : same_tables m m' → size m' = size m.
Proof.
  unfold same_tables. intros E. apply (f_equal size) in E. by rewrite !map_size_fmap in E.
Qed.

Lemma tables_ok_frame s s' : tables_ok s → frame s s' → tables_ok s'.
Proof.
  intros [Ht Hc Hn] [Hst Hcur]. split.
  - intros c t' E. destruct (same_tables_lookup _ _ _ _ Hst E) as (t & E' & ->). eauto.
  - rewrite Hcur. by eapply same_tables_dom.
  - by rewrite (same_tables_size _ _ Hst).
Qed.

(** The table of a task, and of the current one. *)
Definition task_table (c : Z) s : list Z :=
  match k_tasks s !! c with Some t => t_fd_table t | None => [] end.
Definition cur_table s : list Z := task_table (k_current s) s.

(** A state with slot [i] of task [c] replaced. *)
Definition set_slot (c : Z) (i : nat) (b : Z) s : kst D :=
  match k_tasks s !! c with
  | Some t => with_k_tasks (<[c := with_t_fd_table (<[i := b]> (t_fd_table t)) t]> (k_tasks s)) s
  | None => s
  end.

Lemma task_table_length s c : tables_ok s → is_Some (k_tasks s !! c) →
  length (task_table c s) = 32%nat.
Proof.
  intros Hinv [t E]. unfold task_table. rewrite E. by eapply (to_table _ Hinv).
Qed.
Lemma cur_table_length s : fd_inv s → length (cur_table s) = 32%nat.
Proof. intros Hinv. by apply task_table_length; [apply fi_tables|apply fi_current]. Qed.

(** The file behind a descriptor of the current task. *)
Definition open_fd s (fd : Z) : option Z :=
  if (fd <? 0) || (MAX_FD <=? fd) then None
  else match cur_table s !! Z.to_nat fd with
       | Some f => if f =? 0 then None else Some f
       | None => None
       end.

Lemma open_fd_Some s fd f : open_fd s fd = Some f →
  ∃ i, fd = Z.of_nat i ∧ (i < 32)%nat ∧ cur_table s !! i = Some f ∧ f ≠ 0.
Proof.
  unfold open_fd, MAX_FD. destruct (_ || _) eqn:E; [done|]. zify_bool.
  destruct (cur_table s !! Z.to_nat fd) as [g|] eqn:Eg; [|done].
  destruct (Z.eqb_spec g 0); [done|]. intros ?. simplify_eq. exists (Z.to_nat fd).
  split_and!; [lia|lia|done|done].
Qed.

Lemma cur_fd_run s i : fd_inv s → (i < 32)%nat →
  cur_fd (Z.of_nat i) s = Ret (cur_table s !!! i) s.
Proof.
  intros Hinv Hi. pose proof (cur_table_length s Hinv) as Hl. unfold cur_table, task_table in *.
  destruct (fi_current _ Hinv) as [t Et]. rewrite Et in *.
  unfold cur_fd, current_task, kbind, get_task, kget_opt. rewrite Et, zlookup_nat.
  destruct (lookup_lt_is_Some_2 (t_fd_table t) i) as [f Ef]; [lia|].
  by rewrite Ef, (list_lookup_total_correct _ _ _ Ef).
Qed.

Lemma fd_file_run s fd : fd_inv s → fd_file fd s = Ret (open_fd s fd) s.
Proof.
  intros Hinv. unfold fd_file, open_fd. destruct (_ || _) eqn:E; [done|]. zify_bool.
  unfold MAX_FD in *. pose proof (cur_table_length s Hinv) as Hl.
  rewrite <-(Z2Nat.id fd) at 1 by lia.
  rewrite (kbind_ret _ _ _ _ _ (cur_fd_run s (Z.to_nat fd) Hinv ltac:(lia))).
  destruct (lookup_lt_is_Some_2 (cur_table s) (Z.to_nat fd)) as [f Ef]; [lia|].
  by rewrite Ef, (list_lookup_total_correct _ _ _ Ef).
Qed.

Lemma set_task_fd_run s c i b : tables_ok s → is_Some (k_tasks s !! c) → (i < 32)%nat →
  set_task_fd c (Z.of_nat i) b s = Ret tt (set_slot c i b s).
Proof.
  intros Hinv Hc Hi. pose proof (task_table_length s c Hinv Hc) as Hl.
  unfold task_table, set_slot in *. destruct Hc as [t Et]. rewrite Et in *.
  unfold set_task_fd, kbind, get_task, kget_opt. rewrite Et. by rewrite zset_nat by lia.
Qed.
Lemma set_cur_fd_run s i b : tables_ok s → (i < 32)%nat →
  set_cur_fd (Z.of_nat i) b s = Ret tt (set_slot (k_current s) i b s).
Proof. intros Hinv Hi. unfold set_cur_fd. by apply set_task_fd_run; [|apply to_current|]. Qed.

(** Slot [i] goes from [a] to [b]. *)
Lemma set_slot_refs s c i a b : task_table c s !! i = Some a →
  (if decide (a = 0) then [] else [a]) ++ all_refs (k_tasks (set_slot c i b s)) ≡ₚ
  (if decide (b = 0) then [] else [b]) ++ all_refs (k_tasks s).
Proof.
  unfold task_table, set_slot. destruct (k_tasks s !! c) as [t|] eqn:Et; [|done].
  intros Hi. by apply all_refs_set.
Qed.

Record slot_set (c : Z) (i : nat) (b : Z) s s1 : Prop := {
  ss_tables : tables_ok s1;
  ss_live : ∀ c, is_Some (k_tasks s !! c) → is_Some (k_tasks s1 !! c);
  ss_refs : ∀ L, refs_inv L s → refs_inv L s1;
  ss_current : k_current s1 = k_current s;
  ss_this : task_table c s1 = <[i := b]> (task_table c s);
  ss_other : ∀ c', c' ≠ c → task_table c' s1 = task_table c' s;
}.

Lemma set_slot_rest s c i b : tables_ok s → is_Some (k_tasks s !! c) →
  slot_set c i b s (set_slot c i b s).
Proof.
  intros Hinv [t Et].
  assert (∀ c', is_Some (k_tasks s !! c') → is_Some (k_tasks (set_slot c i b s) !! c')) as Hlive.
  { intros c' Hc. unfold set_slot. rewrite Et. simpl.
    destruct (decide (c' = c)) as [->|]; [rewrite lookup_insert_eq; eauto|].
    by rewrite lookup_insert_ne. }
  assert (k_current (set_slot c i b s) = k_current s) as Hcur by (unfold set_slot; by rewrite Et).
  split; try done; [split| | |].
  - unfold set_slot. rewrite Et. simpl. intros c' t'. destruct (decide (c' = c)) as [->|].
    + rewrite lookup_insert_eq. intros ?. simplify_eq. simpl. rewrite length_insert.
      by eapply (to_table _ Hinv).
    + rewrite lookup_insert_ne by done. apply (to_table _ Hinv).
  - rewrite Hcur. apply Hlive, Hinv.
  - unfold set_slot. rewrite Et. simpl. rewrite map_size_insert_Some by eauto. apply (to_count _ Hinv).
  - intros L. apply refs_inv_same; try done; unfold set_slot; by rewrite Et.
  - unfold set_slot, task_table. rewrite Et. simpl. by rewrite lookup_insert_eq.
  - intros c' Hne. unfold set_slot, task_table. rewrite Et. simpl. by rewrite lookup_insert_ne.
Qed.

(** Back to the invariant after a release. *)
Lemma fd_inv_released s1 s' :
  tables_ok s1 → frame s1 s' → refs_inv (all_refs (k_tasks s1)) s' →
  fd_inv s' ∧ (∀ c, task_table c s' = task_table c s1) ∧
  all_refs (k_tasks s') ≡ₚ all_refs (k_tasks s1).
Proof.
  intros Hok Hfr Hr'. pose proof Hfr as [Hst Hcur]. split_and!; [split| |by apply same_tables_refs].
  - by rewrite (same_tables_refs _ _ Hst).
  - by eapply tables_ok_frame.
  - intros c. unfold task_table. apply (f_equal (lookup c)) in Hst. rewrite !lookup_fmap in Hst.
    destruct (k_tasks s' !! c), (k_tasks s1 !! c); simplify_eq/=; done.
Qed.

(** Clearing slot [i] of task [c], which holds [f], and releasing [f]. *)
Lemma clear_slot_run s c i f : fd_inv s → is_Some (k_tasks s !! c) → (i < 32)%nat →
  task_table c s !! i = Some f → f ≠ 0 →
  ∃ s', (set_task_fd c (Z.of_nat i) 0 ;;; release f) s = Ret tt s' ∧ fd_inv s' ∧
    is_Some (k_tasks s' !! c) ∧
    task_table c s' = <[i := 0]> (task_table c s) ∧
    (∀ c', c' ≠ c → task_table c' s' = task_table c' s) ∧ k_current s' = k_current s ∧
    f :: all_refs (k_tasks s') ≡ₚ all_refs (k_tasks s) ∧
    (k_files s' !! f = None ↔ f ∉ all_refs (k_tasks s')).
Proof.
  intros Hinv Hc Hi Ef Hf. rewrite (kbind_ret _ _ _ _ _ (set_task_fd_run s c i 0 (fi_tables _ Hinv) Hc Hi)).
  pose proof (set_slot_refs s c i f 0 Ef) as Hperm.
  rewrite decide_False, decide_True in Hperm by done. simpl in Hperm.
  destruct (set_slot_rest s c i 0 (fi_tables _ Hinv) Hc) as [R1 R2 R4 R5 R6 R7]. set (s1 := set_slot c i 0 s) in *.
  pose proof (R4 _ (fi_refs _ Hinv)) as Hr. rewrite <-Hperm in Hr.
  destruct (release_spec f _ s1 Hr) as (s' & Er & Hr' & Hfr & Hfree). exists s'. split; [done|].
  destruct (fd_inv_released s1 s' R1 Hfr Hr') as (I & C & P).
  rewrite !C, R6, P. split_and!; try done.
  - by eapply same_tables_dom; [apply Hfr|apply R2].
  - intros c' Hne. by rewrite C, R7.
  - by rewrite (fr_current _ _ Hfr).
Qed.

Lemma close_run s fd f : fd_inv s → open_fd s fd = Some f →
  ∃ s', close fd s = Ret 0 s' ∧ fd_inv s' ∧ cur_table s' = <[Z.to_nat fd := 0]> (cur_table s) ∧
    k_current s' = k_current s ∧
    (k_files s' !! f = None ↔ f ∉ all_refs (k_tasks s')).
Proof.
  intros Hinv Ho. unfold close. rewrite (kbind_ret _ _ _ _ _ (fd_file_run s fd Hinv)), Ho.
  destruct (open_fd_Some _ _ _ Ho) as (i & -> & Hi & Ef & Hf). rewrite Nat2Z.id.
  destruct (clear_slot_run s (k_current s) i f Hinv (fi_current _ Hinv) Hi Ef Hf)
    as (s' & E & I & _ & C & _ & Hcur & _ & Hfree).
  exists s'. split_and!; try done; [|unfold cur_table; by rewrite Hcur].
  unfold set_cur_fd, current_task. unfold kbind in E |- *.
  destruct (set_task_fd (k_current s) (Z.of_nat i) 0 s) as [[] s1| | | |]; try done.
  by destruct (release f s1) as [[] ?| | | |]; simplify_eq.
Qed.

(** C13. [close] is memory safe and exact: whatever the descriptor tables share,
    it returns -1 and changes nothing for a descriptor that is not open; for an
    open one it empties the slot, keeps every reference count equal to the number
    of references, and frees the file exactly when no slot of any task refers to
    it any more. *)
Theorem close_safe s fd : fd_inv s →
  match open_fd s fd with
  | None => close fd s = Ret (-1) s
  | Some f => ∃ s', close fd s = Ret 0 s' ∧ fd_inv s' ∧
      cur_table s' = <[Z.to_nat fd := 0]> (cur_table s) ∧
      (k_files s' !! f = None ↔ f ∉ all_refs (k_tasks s'))
  end.
Proof.
  intros Hinv. destruct (open_fd s fd) as [f|] eqn:Ho.
  - destruct (close_run s fd f Hinv Ho) as (s' & ? & ? & ? & _ & ?). eauto 10.
  - unfold close. by rewrite (kbind_ret _ _ _ _ _ (fd_file_run s fd Hinv)), Ho.
Qed.

Lemma fd_inv_room s : fd_inv s → Z.of_nat (length (all_refs (k_tasks s))) ≤ 32000000.
Proof.
  intros Hinv. pose proof (all_refs_length (k_tasks s) (fi_table _ Hinv)).
  pose proof (fi_count _ Hinv). lia.
Qed.

(** A reference to an open file, put into an empty slot. *)
Lemma add_ref_run s i f : fd_inv s → (i < 32)%nat → cur_table s !! i = Some 0 →
  f ∈ all_refs (k_tasks s) → f ≠ 0 →
  ∃ s', add_ref f (Z.of_nat i) s = Ret tt s' ∧ fd_inv s' ∧ cur_table s' = <[i := f]> (cur_table s).
Proof.
  intros Hinv Hi Hs Hf Hn. unfold add_ref.
  rewrite (kbind_ret _ _ _ _ _ (set_cur_fd_run s i f (fi_tables _ Hinv) Hi)).
  destruct (set_slot_rest s (k_current s) i f (fi_tables _ Hinv) (fi_current _ Hinv))
    as [R1 R2 R4 R5 R6 _].
  pose proof (set_slot_refs s (k_current s) i 0 f Hs) as Hperm.
  rewrite decide_True, decide_False in Hperm by done. simpl in Hperm.
  pose proof (fd_inv_room s Hinv).
  destruct (retain_spec f (all_refs (k_tasks s)) (set_slot (k_current s) i f s))
    as (s' & E & Hr & Ht & Hc);
    [apply R4, fi_refs, Hinv|done|lia|].
  exists s'. split; [done|]. split.
  - split; [by rewrite Ht, Hperm|]. destruct R1. by split; rewrite ?Ht, ?Hc.
  - unfold cur_table, task_table in *. by rewrite <-R6, Ht, Hc, R5.
Qed.

Lemma slot_ref s i f : fd_inv s → cur_table s !! i = Some f → f ≠ 0 → f ∈ all_refs (k_tasks s).
Proof.
  intros Hinv. unfold cur_table, task_table. destruct (fi_current _ Hinv) as [t Et]. rewrite Et. intros Hi Hf.
  rewrite (all_refs_split _ _ _ Et). apply elem_of_app. left. unfold task_refs.
  apply list_elem_of_filter. split; [done|]. by eapply list_elem_of_lookup_2.
Qed.

Lemma find_fd_Some n : ∀ i tbl fd, find_fd n (Z.of_nat i) tbl = Some fd →
  ∃ j, fd = Z.of_nat j ∧ (i ≤ j < i + n)%nat ∧ tbl !! j = Some 0 ∧
    ∀ k, (i ≤ k < j)%nat → tbl !! k ≠ Some 0.
Proof.
  induction n as [|n IH]; intros i tbl fd Hfd; [done|]. cbn [find_fd] in Hfd.
  rewrite zlookup_nat in Hfd. destruct (decide (tbl !! i = Some 0)) as [E|E].
  - rewrite E in Hfd. simplify_eq. exists i. split_and!; [done|lia..|done|lia].
  - replace (Z.of_nat i + 1) with (Z.of_nat (S i)) in Hfd by lia.
    assert (find_fd n (Z.of_nat (S i)) tbl = Some fd) as H'.
    { destruct (tbl !! i) as [[| |]|]; done. }
    destruct (IH _ _ _ H') as (j & -> & Hj & E0 & Hmin). exists j.
    split_and!; [done|lia..|done|]. intros k Hk.
    destruct (decide (k = i)) as [->|]; [done|]. apply Hmin. lia.
Qed.

Lemma free_fd_run s : fd_inv s → free_fd s = Ret (find_fd 29 FIRST_USER_FD (cur_table s)) s.
Proof.
  intros Hinv. unfold free_fd, current_task, kbind, cur_table, task_table.
  destruct (fi_current _ Hinv) as [t Et]. unfold get_task, kget_opt. by rewrite Et.
Qed.

(** [dup] returns the lowest free descriptor from 3 on, makes it refer to
    the same open file, and keeps all the counts right; it returns -1 and changes
    nothing when the descriptor is not open or the table is full. *)
Theorem dup_safe s oldfd : fd_inv s →
  match open_fd s oldfd, find_fd 29 FIRST_USER_FD (cur_table s) with
  | Some f, Some newfd => ∃ s', dup oldfd s = Ret newfd s' ∧ fd_inv s' ∧
      3 ≤ newfd < 32 ∧ cur_table s !! Z.to_nat newfd = Some 0 ∧
      (∀ k, (3 ≤ k < Z.to_nat newfd)%nat → cur_table s !! k ≠ Some 0) ∧
      cur_table s' = <[Z.to_nat newfd := f]> (cur_table s)
  | _, _ => dup oldfd s = Ret (-1) s
  end.
Proof.
  intros Hinv. unfold dup. rewrite (kbind_ret _ _ _ _ _ (fd_file_run s oldfd Hinv)).
  destruct (open_fd s oldfd) as [f|] eqn:Ho; [|done].
  rewrite (kbind_ret _ _ _ _ _ (free_fd_run s Hinv)).
  destruct (find_fd 29 FIRST_USER_FD (cur_table s)) as [newfd|] eqn:Ef; [|done].
  apply (find_fd_Some 29 3) in Ef as (j & -> & Hj & E0 & Hmin).
  destruct (open_fd_Some _ _ _ Ho) as (i & -> & Hi & Efi & Hf).
  destruct (add_ref_run s j f Hinv) as (s' & E & I & C); [lia|done|by eapply slot_ref|done|].
  rewrite (kbind_ret _ _ _ _ _ E). exists s'. rewrite Nat2Z.id. split_and!; try done; lia.
Qed.

(** [dup2] makes [newfd] refer to the open file of [oldfd], closing what
    [newfd] referred to, and keeps all the counts right; a descriptor that is
    not open or out of range gives -1 and changes nothing, and equal descriptors
    are returned as they are. *)
Theorem dup2_safe s oldfd newfd : fd_inv s →
  match open_fd s oldfd with
  | Some f =>
      if (newfd <? 0) || (MAX_FD <=? newfd) then dup2 oldfd newfd s = Ret (-1) s
      else if oldfd =? newfd then dup2 oldfd newfd s = Ret newfd s
      else ∃ s', dup2 oldfd newfd s = Ret newfd s' ∧ fd_inv s' ∧
        cur_table s' = <[Z.to_nat newfd := f]> (cur_table s)
  | None => dup2 oldfd newfd s = Ret (-1) s
  end.
Proof.
  intros Hinv. unfold dup2. destruct (_ || _) eqn:E; [by destruct (open_fd s oldfd)|]. zify_bool.
  rewrite (kbind_ret _ _ _ _ _ (fd_file_run s oldfd Hinv)).
  destruct (open_fd s oldfd) as [f|] eqn:Ho; [|done].
  destruct (Z.eqb_spec oldfd newfd); [done|]. unfold MAX_FD in *.
  destruct (open_fd_Some _ _ _ Ho) as (i & -> & Hi & Efi & Hf).
  rewrite <-(Z2Nat.id newfd) in * by lia. set (j := Z.to_nat newfd) in *. rewrite Nat2Z.id.
  pose proof (cur_table_length s Hinv) as Hl.
  rewrite (kbind_ret _ _ _ _ _ (cur_fd_run s j Hinv ltac:(lia))).
  destruct (lookup_lt_is_Some_2 (cur_table s) j) as [g Eg]; [lia|].
  rewrite (list_lookup_total_correct _ _ _ Eg). destruct (Z.eqb_spec g 0) as [->|Hg].
  - unfold kbind at 1, kret at 1.
    destruct (add_ref_run s j f Hinv) as (s' & E & I & C); [lia|done|by eapply slot_ref|done|].
    rewrite (kbind_ret _ _ _ _ _ E). by exists s'.
  - assert (open_fd s (Z.of_nat j) = Some g) as Hog.
    { unfold open_fd, MAX_FD. rewrite Nat2Z.id, Eg. zbool. done. }
    destruct (close_run s (Z.of_nat j) g Hinv Hog) as (s1 & E1 & I1 & C1 & _).
    unfold kbind at 1. rewrite (kbind_ret _ _ _ _ _ E1). unfold kret at 1. rewrite Nat2Z.id in C1.
    assert (cur_table s1 !! i = Some f) as Hsi by (rewrite C1, list_lookup_insert_ne; [done|lia]).
    destruct (add_ref_run s1 j f I1) as (s' & E & I & C); [lia| |by eapply slot_ref|done|].
    { rewrite C1. apply list_lookup_insert_eq. lia. }
    rewrite (kbind_ret _ _ _ _ _ E). exists s'. split_and!; try done.
    by rewrite C, C1, list_insert_insert_eq.
Qed.

Lemma close_fds_run n : ∀ i c s, fd_inv s → is_Some (k_tasks s !! c) → (i + n = 32)%nat →
  ∃ s', close_fds n (Z.of_nat i) c s = Ret tt s' ∧ fd_inv s' ∧ k_current s' = k_current s ∧
    task_table c s' = take i (task_table c s) ++ replicate n 0 ∧
    ∀ c', c' ≠ c → task_table c' s' = task_table c' s.
Proof.
  induction n as [|n IH]; intros i c s Hinv Hc Hi.
  { exists s. pose proof (task_table_length s c (fi_tables _ Hinv) Hc) as Hl.
    split_and!; try done. rewrite take_ge by lia. by rewrite app_nil_r. }
  cbn [close_fds]. pose proof (task_table_length s c (fi_tables _ Hinv) Hc) as Hl. pose proof Hc as [t Et].
  rewrite (get_task_bind _ _ _ _ Et).
  destruct (lookup_lt_is_Some_2 (task_table c s) i) as [f Ef]; [lia|].
  assert (t_fd_table t !! i = Some f) as Eft by (unfold task_table in Ef; by rewrite Et in Ef).
  unfold kbind at 1, kget_opt. rewrite zlookup_nat, Eft.
  assert (∃ s1, (if f =? 0 then kret tt else set_task_fd c (Z.of_nat i) 0 ;;; release f) s = Ret tt s1 ∧
    fd_inv s1 ∧ is_Some (k_tasks s1 !! c) ∧ k_current s1 = k_current s ∧
    task_table c s1 = <[i := 0]> (task_table c s) ∧
    (∀ c', c' ≠ c → task_table c' s1 = task_table c' s)) as (s1 & E1 & I1 & H1 & K1 & C1 & O1).
  { destruct (Z.eqb_spec f 0) as [->|Hf].
    - exists s. split_and!; try done. by rewrite list_insert_id.
    - destruct (clear_slot_run s c i f Hinv Hc ltac:(lia) Ef Hf)
        as (s1 & E & I & L1 & C & O & K & _). exists s1. split_and!; done. }
  rewrite (kbind_ret _ _ _ _ _ E1). replace (Z.of_nat i + 1) with (Z.of_nat (S i)) by lia.
  destruct (IH (S i) c s1 I1 H1) as (s' & E' & I' & K' & C' & O'); [lia|].
  exists s'. split; [done|]. split; [done|]. split; [congruence|]. split.
  - rewrite C', C1. rewrite (take_S_r _ i 0); [|apply list_lookup_insert_eq; lia].
    rewrite take_insert_ge, <-app_assoc by lia. done.
  - intros c' Hne. by rewrite O', O1.
Qed.

(** [vfs_close_all_fds] empties the table of the task and no other, and keeps
    every reference count right, whatever files the task shares with others. *)
Theorem close_all_safe s c : fd_inv s → is_Some (k_tasks s !! c) →
  ∃ s', vfs_close_all_fds c s = Ret tt s' ∧ fd_inv s' ∧ task_table c s' = replicate 32 0 ∧
    ∀ c', c' ≠ c → task_table c' s' = task_table c' s.
Proof.
  intros Hinv Hc. destruct (close_fds_run 32 0 c s Hinv Hc eq_refl) as (s' & E & I & _ & C & O).
  by exists s'.
Qed.
End fd_ops.

(** ** New objects *)

Section create.
Context {D : Type} {Drv : FsDriver D}.
#[local] Open Scope kernel_scope.
Implicit Types s : kst D.

(** [s'] has what [s] has, and possibly new objects at new addresses. *)
Record extends s s' : Prop := {
  ex_files : ∀ a, a < k_fresh s → k_files s' !! a = k_files s !! a;
  ex_nodes : ∀ a, a < k_fresh s → k_nodes s' !! a = k_nodes s !! a;
  ex_pipes : ∀ a, a < k_fresh s → k_pipes s' !! a = k_pipes s !! a;
  ex_bufs : ∀ a, a < k_fresh s → k_bufs s' !! a = k_bufs s !! a;
  ex_fresh : k_fresh s ≤ k_fresh s';
  ex_tasks : k_tasks s' = k_tasks s;
  ex_current : k_current s' = k_current s;
  ex_alloc : allocated s';
  ex_new_node : ∀ a nd, k_fresh s ≤ a → k_nodes s' !! a = Some nd →
    (∀ x, n_impl nd ≠ ImplBuf x) ∧ ∀ x, n_impl nd = ImplPipe x → k_fresh s ≤ x < k_fresh s';
  ex_new_pipe : ∀ a p, k_fresh s ≤ a → k_pipes s' !! a = Some p → p_waiting p = 0;
}.

Lemma file_lt s a x : allocated s → k_files s !! a = Some x → a < k_fresh s.
Proof.
  intros [Hall _] E. destruct (decide (a < k_fresh s)); [done|].
  destruct (Hall a ltac:(lia)). congruence.
Qed.
Lemma node_lt s a x : allocated s → k_nodes s !! a = Some x → a < k_fresh s.
Proof.
  intros [Hall _] E. destruct (decide (a < k_fresh s)); [done|].
  destruct (Hall a ltac:(lia)) as (_ & ? & _). congruence.
Qed.
Lemma pipe_lt s a x : allocated s → k_pipes s !! a = Some x → a < k_fresh s.
Proof.
  intros [Hall _] E. destruct (decide (a < k_fresh s)); [done|].
  destruct (Hall a ltac:(lia)) as (_ & _ & ? & _). congruence.
Qed.
Lemma buf_lt s a x : allocated s → k_bufs s !! a = Some x → a < k_fresh s.
Proof.
  intros [Hall _] E. destruct (decide (a < k_fresh s)); [done|].
  destruct (Hall a ltac:(lia)) as (_ & _ & _ & ?). congruence.
Qed.

Lemma extends_end L s s' a fl nd : refs_inv L s → extends s s' → node_of s a fl nd →
  k_files s' !! a = Some fl ∧ k_nodes s' !! f_node fl = Some nd ∧
  ∀ pp w, is_end (k_files s') (k_nodes s') pp w a = is_end (k_files s) (k_nodes s) pp w a.
Proof.
  intros Hinv Hex [E1 E2]. pose proof (ri_fresh _ _ Hinv) as Hal.
  pose proof (file_lt _ _ _ Hal E1). pose proof (node_lt _ _ _ Hal E2).
  rewrite (ex_files _ _ Hex), (ex_nodes _ _ Hex) by done. split_and!; try done.
  intros pp w. unfold is_end. rewrite (ex_files _ _ Hex), E1, (ex_nodes _ _ Hex) by done. done.
Qed.

Lemma refs_inv_extends L s s' : refs_inv L s → extends s s' → refs_inv L s'.
Proof.
  intros Hinv Hex. pose proof (ri_fresh _ _ Hinv) as Hal.
  pose proof Hinv as [Hf Hw Hb Hp _ Hl]. split; try done.
  - intros a Ha. destruct (Hf a Ha) as (fl & nd & H1 & H2 & H0 & H3 & H4).
    destruct (extends_end L s s' a fl nd Hinv Hex) as (E1 & E2 & _); [done|].
    exists fl, nd. split_and!; try done. unfold node_ok in *. destruct (has (n_flags nd) FS_PIPE).
    { destruct H4 as (? & pp & p & Hi & Hpp & Hr & Hwr). split; [done|]. exists pp, p.
      rewrite (ex_pipes _ _ Hex) by (by eapply pipe_lt).
      split_and!; try done; [rewrite Hr|rewrite Hwr]; apply cnt_ext; intros b HbL;
        destruct (Hf b HbL) as (fb & nb & ? & ? & _); symmetry;
        by apply (extends_end L s s' b fb nb). }
    destruct (has (n_flags nd) FS_PERSISTENT); [done|].
    destruct (has (n_flags nd) FS_TRANSIENT); [|done]. destruct H4 as [He Hh]. split.
    + intros b fb HbL. destruct (Hf b HbL) as (fb0 & nb & Hb1 & Hb2 & _).
      destruct (extends_end L s s' b fb0 nb Hinv Hex) as (-> & _); [done|].
      intros ? ?. simplify_eq. by eapply He.
    + intros Hheap. destruct (Hh Hheap) as [|(x & Hi & Hx & Hexc)]; [by left|]. right.
      exists x. destruct Hx as [bx Hx]. pose proof (buf_lt _ _ _ Hal Hx).
      rewrite (ex_bufs _ _ Hex) by done. split_and!; [done|by exists bx|].
      intros y ny Hy Hiy. destruct (decide (y < k_fresh s)).
      * rewrite (ex_nodes _ _ Hex) in Hy by done. eauto.
      * destruct (ex_new_node _ _ Hex y ny ltac:(lia) Hy) as [Hnb _]. by destruct (Hnb x).
  - intros pp p Hpp. rewrite (ex_tasks _ _ Hex). destruct (decide (pp < k_fresh s)).
    + rewrite (ex_pipes _ _ Hex) in Hpp by done. eauto.
    + left. eapply (ex_new_pipe _ _ Hex); [|done]. lia.
  - intros a nd x Ha Hi. pose proof (ex_fresh _ _ Hex). destruct (decide (a < k_fresh s)).
    + rewrite (ex_nodes _ _ Hex) in Ha by done. pose proof (Hb a nd x Ha Hi). lia.
    + destruct (ex_new_node _ _ Hex a nd ltac:(lia) Ha) as [Hnb _]. by destruct (Hnb x).
  - intros a nd x Ha Hi. pose proof (ex_fresh _ _ Hex). destruct (decide (a < k_fresh s)).
    + rewrite (ex_nodes _ _ Hex) in Ha by done. pose proof (Hp a nd x Ha Hi). lia.
    + by eapply (ex_new_node _ _ Hex a nd ltac:(lia) Ha).
  - apply (ex_alloc _ _ Hex).
Qed.

(** A new file, on a node that is not a pipe. *)
Lemma refs_inv_add_file L s a fl nd :
  refs_inv L s → a ∉ L → node_of s a fl nd → f_node fl ≠ 0 → f_refcount fl = 1 →
  has (n_flags nd) FS_PIPE = false → Z.of_nat (length L) < 4294967294 →
  (has (n_flags nd) FS_PERSISTENT = false → has (n_flags nd) FS_TRANSIENT = true →
   (∀ b fb, b ∈ L → k_files s !! b = Some fb → f_node fb ≠ f_node fl) ∧
   (has (n_flags nd) FS_IMPL_HEAP = true → n_impl nd = ImplNull)) →
  refs_inv (a :: L) s.
Proof.
  intros [Hf Hw Hb Hp Hal Hl] HaL [E1 E2] Hn0 Hr1 EP Hlen Hexc. split; try done; [|simpl; lia].
  assert (∀ pp w, is_end (k_files s) (k_nodes s) pp w a = false) as Hend.
  { intros. unfold is_end. by rewrite E1, E2, EP. }
  intros b Hb'. apply elem_of_cons in Hb' as [->|HbL].
  - exists fl, nd. split_and!; try done.
    + rewrite cnt_cons, Z.eqb_refl, Hr1.
      destruct (decide (cnt (Z.eqb a) L = 0)) as [->|Hc]; [done|]. by destruct HaL; apply in_L.
    + unfold node_ok. rewrite EP. destruct (has (n_flags nd) FS_PERSISTENT) eqn:EPe; [done|].
      destruct (has (n_flags nd) FS_TRANSIENT) eqn:ET; [|done].
      destruct (Hexc eq_refl eq_refl) as [H1 H2]. split; [|by left; apply H2].
      intros b fb Hb' Hfb Hnb. apply elem_of_cons in Hb' as [->|HbL]; [done|]. by destruct (H1 b fb HbL Hfb).
  - destruct (Hf b HbL) as (fb & nb & H1 & H2 & H0 & H3 & H4). exists fb, nb.
    assert (b ≠ a) as Hne by (intros ->; done). split_and!; try done.
    + rewrite cnt_cons. replace (b =? a) with false by (symmetry; by apply Z.eqb_neq). lia.
    + unfold node_ok in *. destruct (has (n_flags nb) FS_PIPE).
      { destruct H4 as (? & pp & p & ? & ? & Hr & Hwr). split; [done|]. exists pp, p.
        rewrite !cnt_cons, !Hend. split_and!; try done; lia. }
      destruct (has (n_flags nb) FS_PERSISTENT) eqn:EPe; [done|].
      destruct (has (n_flags nb) FS_TRANSIENT) eqn:ET; [|done]. destruct H4 as [He Hh].
      split; [|done]. intros c fc Hc Hfc Hnc. apply elem_of_cons in Hc as [->|HcL]; [|by eapply He].
      exfalso. rewrite E1 in Hfc. simplify_eq. rewrite <-Hnc, E2 in H2. simplify_eq.
      destruct (Hexc EPe ET) as [H5 _]. by eapply (H5 b fb HbL H1).
Qed.

(** The two files of a new pipe. *)
Lemma refs_inv_add_pipe L s a b fa fb n nd pp p :
  refs_inv L s → a ∉ L → b ∉ L → a ≠ b →
  k_files s !! a = Some fa → k_files s !! b = Some fb → f_node fa = n → f_node fb = n → n ≠ 0 →
  has (f_flags fa) O_WRONLY = false → has (f_flags fb) O_WRONLY = true →
  f_refcount fa = 1 → f_refcount fb = 1 →
  k_nodes s !! n = Some nd → has (n_flags nd) FS_PIPE = true → has (n_flags nd) FS_PERSISTENT = false →
  n_impl nd = ImplPipe pp → k_pipes s !! pp = Some p → p_readers p = 1 → p_writers p = 1 →
  (∀ c w, c ∈ L → is_end (k_files s) (k_nodes s) pp w c = false) →
  Z.of_nat (length L) < 4294967293 →
  refs_inv (a :: b :: L) s.
Proof.
  intros [Hf Hw Hb Hp Hal Hl] HaL HbL Hab Ea Eb Na Nb Hn0 Wa Wb Ra Rb En EP EPe Ei Ep Rr Rw Hno Hlen.
  assert (node_of s a fa nd) as Hna by (split; congruence).
  assert (node_of s b fb nd) as Hnb by (split; congruence).
  pose proof (is_end_self s a fa nd pp Hna EP Ei) as Enda.
  pose proof (is_end_self s b fb nd pp Hnb EP Ei) as Endb.
  assert (∀ w, cnt (is_end (k_files s) (k_nodes s) pp w) L = 0) as Hz.
  { intros w. pose proof (cnt_nonneg (is_end (k_files s) (k_nodes s) pp w) L).
    destruct (decide (0 < cnt (is_end (k_files s) (k_nodes s) pp w) L)) as [Hpos|]; [|lia].
    apply cnt_pos in Hpos as (c & Hc & E). by rewrite Hno in E. }
  assert (cnt (Z.eqb a) L = 0) as Ca by (destruct (decide (cnt (Z.eqb a) L = 0)) as [|Hc]; [done|by destruct HaL; apply in_L]).
  assert (cnt (Z.eqb b) L = 0) as Cb by (destruct (decide (cnt (Z.eqb b) L = 0)) as [|Hc]; [done|by destruct HbL; apply in_L]).
  assert (node_ok (a :: b :: L) s a fa nd ∧ node_ok (a :: b :: L) s b fb nd) as [Oa Ob].
  { split; unfold node_ok; rewrite EP; (split; [done|]); exists pp, p;
      rewrite !cnt_cons, !Enda, !Endb, !Hz, Wa, Wb, !bool_decide_true by done; simpl;
      split_and!; try done; lia. }
  split; try done; [|simpl; lia]. intros c Hc. apply elem_of_cons in Hc as [->|Hc].
  { exists fa, nd. destruct Hna. split_and!; try congruence.
    rewrite !cnt_cons, Z.eqb_refl, Ca, Ra. replace (a =? b) with false by (symmetry; by apply Z.eqb_neq). lia. }
  apply elem_of_cons in Hc as [->|HcL].
  { exists fb, nd. destruct Hnb. split_and!; try congruence.
    rewrite !cnt_cons, Z.eqb_refl, Cb, Rb. replace (b =? a) with false by (symmetry; apply Z.eqb_neq; congruence). lia. }
  destruct (Hf c HcL) as (fc & nc & H1 & H2 & H0 & H3 & H4). exists fc, nc.
  assert (c ≠ a) by (intros ->; done). assert (c ≠ b) by (intros ->; done). split_and!; try done.
  - rewrite !cnt_cons. replace (c =? a) with false by (symmetry; by apply Z.eqb_neq).
    replace (c =? b) with false by (symmetry; by apply Z.eqb_neq). lia.
  - unfold node_ok in *. destruct (has (n_flags nc) FS_PIPE) eqn:EPc.
    { destruct H4 as (? & q & pq & Hiq & Hq & Hr & Hwr). split; [done|]. exists q, pq.
      assert (q ≠ pp) as Hne.
      { intros ->. pose proof (is_end_self s c fc nc pp (conj H1 H2) EPc Hiq pp) as Endc.
        specialize (Hno c (has (f_flags fc) O_WRONLY) HcL). rewrite Endc, bool_decide_true in Hno by done.
        by rewrite Bool.eqb_reflx in Hno. }
      rewrite !cnt_cons, !Enda, !Endb, !bool_decide_false by congruence. simpl.
      split_and!; try done; lia. }
    destruct (has (n_flags nc) FS_PERSISTENT); [done|].
    destruct (has (n_flags nc) FS_TRANSIENT); [|done]. destruct H4 as [He Hh]. split; [|done].
    assert (f_node fc ≠ n) as Hnn by (intros Hx; rewrite Hx in H2; congruence).
    intros d fd Hd Hfd Hnd. apply elem_of_cons in Hd as [->|Hd]; [exfalso; congruence|].
    apply elem_of_cons in Hd as [->|Hd]; [exfalso; congruence|]. by eapply He.
Qed.

Lemma pipe_find_spec n : ∀ i tbl r, length tbl = 32%nat → (i + n = 32)%nat →
  ∃ a b, pipe_find n (Z.of_nat i) tbl r = Some (a, b) ∧
    (r ≠ -1 → a = r ∧ (b ≠ -1 → ∃ j, b = Z.of_nat j ∧ (i ≤ j < 32)%nat ∧ tbl !! j = Some 0)) ∧
    (r = -1 → b ≠ -1 → ∃ k j, a = Z.of_nat k ∧ b = Z.of_nat j ∧ (i ≤ k < j)%nat ∧ (j < 32)%nat ∧
       tbl !! k = Some 0 ∧ tbl !! j = Some 0).
Proof.
  induction n as [|n IH]; intros i tbl r Hl Hi; simpl.
  { exists r, (-1). by split. }
  rewrite zlookup_nat. destruct (lookup_lt_is_Some_2 tbl i) as [f Ef]; [lia|]. rewrite Ef. simpl.
  replace (Z.of_nat i + 1) with (Z.of_nat (S i)) by lia.
  destruct (Z.eqb_spec f 0) as [->|Hf].
  - destruct (Z.eqb_spec r (-1)) as [->|Hr].
    + destruct (IH (S i) tbl (Z.of_nat i) Hl ltac:(lia)) as (a & b & E & H1 & _).
      exists a, b. split; [done|]. split; [done|]. intros _ Hb.
      destruct (H1 ltac:(lia)) as [-> H2]. destruct (H2 Hb) as (j & -> & Hj & Ej).
      exists i, j. split_and!; try done; lia.
    + exists r, (Z.of_nat i). split; [done|]. split; [|done]. intros _. split; [done|]. intros _.
      exists i. split_and!; try done; lia.
  - destruct (IH (S i) tbl r Hl ltac:(lia)) as (a & b & E & H1 & H2). exists a, b. split; [done|]. split.
    + intros Hr. destruct (H1 Hr) as [-> H3]. split; [done|]. intros Hb.
      destruct (H3 Hb) as (j & -> & Hj & Ej). exists j. split_and!; try done; lia.
    + intros Hr Hb. destruct (H2 Hr Hb) as (k & j & -> & -> & ? & ? & ? & ?).
      exists k, j. split_and!; try done; lia.
Qed.

(** The objects [pipe] makes before it looks for descriptors: the pipe at the
    first new address, its buffer, the node and the two files after it. *)
Definition pipe_created s : kst D :=
  let f := k_fresh s in
  with_k_fresh (f + 5)
    (with_k_files (<[f + 4 := mk_file (f + 2) 0 O_WRONLY 1]>
                    (<[f + 3 := mk_file (f + 2) 0 O_RDONLY 1]> (k_files s)))
      (with_k_nodes (<[f + 2 := pipe_node f]> (k_nodes s))
        (with_k_pipe_count (s32 (k_pipe_count s + 1))
          (with_k_pipes (<[f := pipe_init PIPE_SIZE 1 1]> (k_pipes s)) s)))).

Lemma pipe_unfold s :
  pipe s = (let* c := current_task in
            let* t := get_task c in
            let* (rfd, wfd) := kget_opt (λ _, pipe_find 29 FIRST_USER_FD (t_fd_table t) (-1)) in
            if (rfd =? -1) || (wfd =? -1) then kret None
            else set_cur_fd rfd (k_fresh s + 3) ;;; set_cur_fd wfd (k_fresh s + 4) ;;;
                 kret (Some (rfd, wfd))) (pipe_created s).
Proof.
  unfold pipe, pipe_create, pipe_create_node, new_node, file_create, new_file, kmalloc,
    get_pipe, put_pipe, put_node, put_file, add_pipe_count, kmodify, kget_opt, kret.
  unfold kbind at 1 2 3 4 5 6. simpl. rewrite lookup_insert_eq. unfold kbind at 1 2 3 4 5 6 7 8. simpl.
  unfold pipe_created. rewrite insert_insert_eq.
  replace (k_fresh s + 1 + 1 + 1 + 1 + 1) with (k_fresh s + 5) by lia.
  replace (k_fresh s + 1 + 1 + 1 + 1) with (k_fresh s + 4) by lia.
  replace (k_fresh s + 1 + 1 + 1) with (k_fresh s + 3) by lia.
  replace (k_fresh s + 1 + 1) with (k_fresh s + 2) by lia. reflexivity.
Qed.


Lemma pipe_init_fields n r w :
  p_readers (pipe_init n r w) = r ∧ p_writers (pipe_init n r w) = w ∧
  p_waiting (pipe_init n r w) = 0 ∧ contents (pipe_init n r w) = [].
Proof. done. Qed.
#[local] Opaque pipe_init.

Lemma pipe_created_extends s : allocated s → extends s (pipe_created s).
Proof.
  intros [Hall Hpos]. split; simpl; try lia; try done.
  - intros a Ha. by rewrite !lookup_insert_ne by lia.
  - intros a Ha. by rewrite lookup_insert_ne by lia.
  - intros a Ha. by rewrite lookup_insert_ne by lia.
  - split; simpl; [|lia]. intros a Ha. rewrite !lookup_insert_ne by lia. apply Hall. lia.
  - intros a nd Ha. destruct (decide (a = k_fresh s + 2)) as [->|].
    + rewrite lookup_insert_eq. intros ?. simplify_eq. simpl. split; [done|]. intros ? [= <-]. lia.
    + rewrite lookup_insert_ne by done. destruct (Hall a Ha) as (_ & -> & _). done.
  - intros a p Ha. destruct (decide (a = k_fresh s)) as [->|].
    + rewrite lookup_insert_eq. intros [= <-]. apply pipe_init_fields.
    + rewrite lookup_insert_ne by done. destruct (Hall a Ha) as (_ & _ & -> & _). done.
Qed.

Lemma refs_lt L s a : refs_inv L s → a ∈ L → a < k_fresh s.
Proof.
  intros Hinv Ha. destruct (ri_file _ _ Hinv a Ha) as (fl & _ & E & _).
  by eapply file_lt; [apply (ri_fresh _ _ Hinv)|].
Qed.

Lemma pipe_created_refs L s : refs_inv L s → Z.of_nat (length L) < 4294967293 →
  refs_inv (k_fresh s + 3 :: k_fresh s + 4 :: L) (pipe_created s).
Proof.
  intros Hinv Hlen. pose proof (ri_fresh _ _ Hinv) as Hal.
  pose proof (pipe_created_extends s Hal) as Hex.
  assert (∀ n, 0 ≤ n → k_fresh s + n ∉ L) as Hnew.
  { intros n Hn Hin. pose proof (refs_lt L s _ Hinv Hin). lia. }
  assert (0 < k_fresh s) by apply Hal.
  eapply (refs_inv_add_pipe L (pipe_created s) _ _ (mk_file (k_fresh s + 2) 0 O_RDONLY 1)
    (mk_file (k_fresh s + 2) 0 O_WRONLY 1) (k_fresh s + 2) (pipe_node (k_fresh s)) (k_fresh s)
    (pipe_init PIPE_SIZE 1 1));
    [by eapply refs_inv_extends|apply Hnew; lia|apply Hnew; lia|lia| | |reflexivity|reflexivity|lia
    |reflexivity|reflexivity|reflexivity|reflexivity| |reflexivity|reflexivity|reflexivity| 
    |apply pipe_init_fields|apply pipe_init_fields| |lia].
  - simpl. rewrite lookup_insert_ne by lia. apply lookup_insert_eq.
  - apply lookup_insert_eq.
  - apply lookup_insert_eq.
  - apply lookup_insert_eq.
  - intros c w Hc. destruct (ri_file _ _ Hinv c Hc) as (fc & nc & H1 & H2 & _).
    destruct (extends_end L s (pipe_created s) c fc nc Hinv Hex) as (_ & _ & ->); [done|].
    unfold is_end. rewrite H1, H2. destruct (has (n_flags nc) FS_PIPE); [|done]. simpl.
    rewrite bool_decide_false; [done|]. intros Hi. pose proof (ri_pipe _ _ Hinv _ _ _ H2 Hi). lia.
Qed.

(** A descriptor put into an empty slot of the current task. *)
Lemma install_run s i f : tables_ok s → (i < 32)%nat → cur_table s !! i = Some 0 → f ≠ 0 →
  ∃ m, let s' := with_k_tasks m s in
    set_cur_fd (Z.of_nat i) f s = Ret tt s' ∧ tables_ok s' ∧
    all_refs m ≡ₚ f :: all_refs (k_tasks s) ∧ (∀ L, refs_inv L s → refs_inv L s') ∧
    cur_table s' = <[i := f]> (cur_table s).
Proof.
  intros Hok Hi Hs Hf. destruct (to_current _ Hok) as [t Et].
  pose proof (set_slot_rest s (k_current s) i f Hok (ex_intro _ _ Et)) as [R1 _ R4 R5 R6 _].
  pose proof (set_slot_refs s (k_current s) i 0 f Hs) as P.
  pose proof (set_cur_fd_run s i f Hok Hi) as E.
  unfold set_slot in *. rewrite Et in *. eexists. split; [exact E|].
  rewrite decide_True, decide_False in P by done. by split_and!.
Qed.

(** [pipe] either finds two free descriptors (the lowest two from 3 on) and
    makes them the read end and the write end of a new empty pipe with one reader
    and one writer, or returns -1 and leaves the table as it was; the counts stay
    right in both cases. *)
Theorem pipe_safe s : fd_inv s →
  ∃ r s', pipe s = Ret r s' ∧ fd_inv s' ∧
    match r with
    | None => cur_table s' = cur_table s
    | Some (rfd, wfd) => ∃ rf wf pp p,
        3 ≤ rfd < wfd ∧ wfd < 32 ∧
        cur_table s !! Z.to_nat rfd = Some 0 ∧ cur_table s !! Z.to_nat wfd = Some 0 ∧
        cur_table s' = <[Z.to_nat wfd := wf]> (<[Z.to_nat rfd := rf]> (cur_table s)) ∧
        is_end (k_files s') (k_nodes s') pp false rf = true ∧
        is_end (k_files s') (k_nodes s') pp true wf = true ∧
        k_pipes s' !! pp = Some p ∧ pipe_wf p ∧ contents p = [] ∧ p_readers p = 1 ∧ p_writers p = 1
    end.
Proof.
  intros Hinv. rewrite pipe_unfold. pose proof (ri_fresh _ _ (fi_refs _ Hinv)) as Hal.
  set (s1 := pipe_created s). pose proof (fd_inv_room s Hinv). assert (0 < k_fresh s) by apply Hal.
  assert (fd_inv s1) as Hinv1.
  { destruct Hinv as [I1 [I2 I3 I4]]. split; [|by split]. eapply refs_inv_extends; [done|].
    by apply pipe_created_extends. }
  pose proof (pipe_created_refs _ s (fi_refs _ Hinv) ltac:(lia)) as Hr.
  destruct (fi_current _ Hinv) as [t Et]. unfold current_task at 1. unfold kbind at 1.
  rewrite (get_task_bind _ s1 t _ Et).
  assert (t_fd_table t = cur_table s) as -> by (unfold cur_table, task_table; by rewrite Et).
  destruct (pipe_find_spec 29 3 (cur_table s) (-1) (cur_table_length _ Hinv) eq_refl)
    as (a & b & Ef & _ & Hab).
  unfold kbind at 1, kget_opt. change FIRST_USER_FD with (Z.of_nat 3). rewrite Ef.
  destruct (Z.eqb_spec a (-1)) as [->|Ha]; [by exists None, s1|].
  destruct (Z.eqb_spec b (-1)) as [->|Hb]; [by exists None, s1|].
  destruct (Hab eq_refl Hb) as (k & j & -> & -> & Hkj & Hj & Ek & Ej). cbn [orb].
  destruct (install_run s1 k (k_fresh s + 3)) as (m & E1 & T1 & P1 & R1 & C1);
    [apply Hinv1|lia|done|lia|].
  rewrite (kbind_ret _ _ _ _ _ E1). set (s2 := with_k_tasks m s1) in *.
  destruct (install_run s2 j (k_fresh s + 4)) as (m' & E2 & T2 & P2 & R2 & C2);
    [done|lia|rewrite C1, list_lookup_insert_ne by lia; done|lia|].
  rewrite (kbind_ret _ _ _ _ _ E2). set (s3 := with_k_tasks m' s2) in *.
  exists (Some (Z.of_nat k, Z.of_nat j)), s3. split; [done|]. split.
  - split; [|done]. change (k_tasks s3) with m'. rewrite P2. change (k_tasks s2) with m.
    rewrite P1, perm_swap. by apply R2, R1.
  - exists (k_fresh s + 3), (k_fresh s + 4), (k_fresh s), (pipe_init PIPE_SIZE 1 1).
    rewrite !Nat2Z.id. split_and!; try done; try lia; try apply pipe_init_fields.
    + by rewrite C2, C1.
    + unfold is_end. simpl. rewrite lookup_insert_ne, lookup_insert_eq by lia. simpl.
      rewrite lookup_insert_eq. simpl. by rewrite bool_decide_true.
    + unfold is_end. simpl. rewrite lookup_insert_eq. simpl.
      rewrite lookup_insert_eq. simpl. by rewrite bool_decide_true.
    + apply lookup_insert_eq.
Qed.
End create.

(** ** A concrete state

    Task 16 has the two ends of the pipe at 50 open as descriptors 3 and 4. *)
Definition demo_fds : kst unit :=
  with_k_files {[60 := mk_file 52 0 O_RDONLY 1; 61 := mk_file 52 0 O_WRONLY 1]}
    (with_k_nodes {[52 := pipe_node 50]}
      (with_k_pipes {[50 := pipe_init 8 1 1]}
        (with_k_tasks {[16 := with_t_fd_table ([0; 0; 0; 60; 61] ++ replicate 27 0) (demo_task 1)]}
          demo_state))).

Lemma demo_fds_inv : fd_inv demo_fds.
Proof.
  assert (all_refs (k_tasks demo_fds) = [60; 61]) as E by by vm_compute.
  split; [rewrite E|]; split.
  - intros a Ha. apply elem_of_cons in Ha as [->|Ha]; [|apply list_elem_of_singleton in Ha as ->];
      [exists (mk_file 52 0 O_RDONLY 1)|exists (mk_file 52 0 O_WRONLY 1)]; exists (pipe_node 50);
      (split_and!; [done..|split; [done|]]); exists 50, (pipe_init 8 1 1); by vm_compute.
  - intros pp p Hp. cbn in Hp. apply lookup_singleton_Some in Hp as [_ <-]. by left.
  - intros a nd x Hn. cbn in Hn. apply lookup_singleton_Some in Hn as [_ <-]. done.
  - intros a nd x Hn. cbn in Hn. apply lookup_singleton_Some in Hn as [_ <-]. intros [= <-]. by vm_compute.
  - split; [|done]. intros a Ha. simpl in Ha. simpl. rewrite lookup_insert_ne, !lookup_singleton_ne by lia. done.
  - done.
  - intros c t Hc. cbn in Hc. apply lookup_singleton_Some in Hc as [_ <-]. done.
  - by eexists.
  - done.
Qed.

Lemma close_safe_witness : ∃ s', close 3 demo_fds = Ret 0 s' ∧ fd_inv s' ∧
  cur_table s' = <[3%nat := 0]> (cur_table demo_fds) ∧
  (k_files s' !! 60 = None ↔ 60 ∉ all_refs (k_tasks s')).
Proof. exact (close_safe demo_fds 3 demo_fds_inv). Defined.

Lemma dup_safe_witness : ∃ s', dup 4 demo_fds = Ret 5 s' ∧ fd_inv s' ∧
  cur_table s' = <[5%nat := 61]> (cur_table demo_fds).
Proof.
  destruct (dup_safe demo_fds 4 demo_fds_inv) as (s' & ? & ? & _ & _ & _ & ?). by exists s'.
Defined.

Lemma dup2_safe_witness : ∃ s', dup2 3 4 demo_fds = Ret 4 s' ∧ fd_inv s' ∧
  cur_table s' = <[4%nat := 60]> (cur_table demo_fds).
Proof. exact (dup2_safe demo_fds 3 4 demo_fds_inv). Defined.

Lemma close_all_safe_witness : ∃ s', vfs_close_all_fds 16 demo_fds = Ret tt s' ∧ fd_inv s' ∧
  task_table 16 s' = replicate 32 0.
Proof.
  destruct (close_all_safe demo_fds 16 demo_fds_inv ltac:(by eexists)) as (s' & ? & ? & ? & _).
  by exists s'.
Defined.

Lemma pipe_safe_witness : ∃ r s', pipe demo_fds = Ret r s' ∧ fd_inv s'.
Proof.
  destruct (pipe_safe demo_fds demo_fds_inv) as (r & s' & ? & ? & _). by exists r, s'.
Defined.
