(* ===== verification/Near.v ===== *)
(** * What the file operations leave alone

    [near s s']: between the two states tasks changed at most their state and
    their descriptor table, and of the globals only the stores of files, nodes,
    pipes and buffers, the pipe counter and the state of the drivers.  The hint
    database [keeps] shows it for a computation from the shape of its code. *)

From stdpp Require Import base numbers list gmap strings.
From Stdlib Require Import ZArith Lia.
From S2P Require Import Prelude Kernel Pipe Vfs.

#[local] Open Scope Z_scope.

(** The part of a task that is kept; its state may go from WAITING to READY. *)
Definition core (t : task_t) : task_t := with_t_state 0 (with_t_fd_table [] t).
Definition near_task (t t' : task_t) : Prop :=
  core t' = core t ∧
  (t_state t' = t_state t ∨ t_state t = TASK_WAITING ∧ t_state t' = TASK_READY).
#[export] Instance near_task_preorder : PreOrder near_task.
Proof.
  split; [by split; [|left]|]. intros t1 t2 t3 [H1 S1] [H2 S2]. split; [congruence|].
  destruct S1 as [E1|[E1 F1]], S2 as [E2|[E2 F2]]; [left; congruence|right; split; congruence..].
Qed.

Section near.
Context {D : Type} {Drv : FsDriver D}.
#[local] Open Scope kernel_scope.
Implicit Types s : kst D.

Record near s s' : Prop := {
  nr_tasks : ∀ x, option_Forall2 near_task (k_tasks s !! x) (k_tasks s' !! x);
  nr_waiting : ∀ pp p', k_pipes s' !! pp = Some p' →
    ∃ p, k_pipes s !! pp = Some p ∧ p_waiting p' = p_waiting p;
  nr_current : k_current s' = k_current s;
  nr_ready : k_ready_queue s' = k_ready_queue s;
  nr_sleep : k_sleep_queue s' = k_sleep_queue s;
  nr_fresh : k_fresh s' = k_fresh s;
  nr_pid : k_next_pid s' = k_next_pid s;
  nr_tick : k_tick s' = k_tick s;
  nr_irq : k_irq_depth s' = k_irq_depth s;
  nr_mem : k_mem s' = k_mem s;
  nr_stacks : k_stacks s' = k_stacks s;
  nr_pdirs : k_pdirs s' = k_pdirs s;
  nr_lock : k_rq_lock s' = k_rq_lock s;
  nr_kbase : k_kstack_base s' = k_kstack_base s;
  nr_ktop : k_kstack_top s' = k_kstack_top s;
  nr_kdir : k_kernel_directory s' = k_kernel_directory s }.

#[export] Instance near_preorder : PreOrder near.
Proof.
  split; [intros s; split; [intros x; reflexivity|eauto|done..]|].
  intros s1 s2 s3 H K. destruct H as [T1 W1], K as [T2 W2]. split; [intros x; etrans; eauto| |congruence..].
  intros pp p3 E3. destruct (W2 pp p3 E3) as (p2 & E2 & H2). destruct (W1 pp p2 E2) as (p1 & E1 & H1).
  exists p1. split; [done|congruence].
Qed.

Lemma near_lookup s s' x t : near s s' → k_tasks s !! x = Some t →
  ∃ t', k_tasks s' !! x = Some t' ∧ near_task t t'.
Proof.
  intros H E. pose proof (nr_tasks _ _ H x) as Hx. rewrite E in Hx. inversion Hx; subst. eauto.
Qed.
Lemma near_lookup_inv s s' x t' : near s s' → k_tasks s' !! x = Some t' →
  ∃ t, k_tasks s !! x = Some t ∧ near_task t t'.
Proof.
  intros H E. pose proof (nr_tasks _ _ H x) as Hx. rewrite E in Hx. inversion Hx; subst. eauto.
Qed.

Definition keeps {A} (m : kM (kst D) A) : Prop := ∀ s a s', m s = Ret a s' → near s s'.

Lemma keeps_bind {A B} (m : kM (kst D) A) (k : A → kM (kst D) B) :
  keeps m → (∀ a, keeps (k a)) → keeps (kbind m k).
Proof. intros Hm Hk s b s2 H. kinv H. etrans; [by eapply Hm|by eapply Hk]. Qed.
Lemma keeps_ret {A} (a : A) : keeps (kret a).
Proof. intros s b s' [= _ <-]. done. Qed.
Lemma keeps_fault {A} : keeps (A := A) kfault.
Proof. done. Qed.
Lemma keeps_panic {A} : keeps (A := A) kpanic.
Proof. done. Qed.
Lemma keeps_hang {A} : keeps (A := A) khang.
Proof. done. Qed.
Lemma keeps_get_opt {A} (o : kst D → option A) : keeps (kget_opt o).
Proof. intros s b s' H. unfold kget_opt in H. destruct (o s); [|done]. injection H as _ <-. done. Qed.
Lemma keeps_get : keeps kget.
Proof. intros s b s' [= _ <-]. done. Qed.
Lemma keeps_current : keeps current_task.
Proof. intros s b s' [= _ <-]. done. Qed.
Lemma keeps_modify f : (∀ s, near s (f s)) → keeps (kmodify f).
Proof. intros H s b s' [= _ <-]. apply H. Qed.
Lemma keeps_if {A} (b : bool) (m1 m2 : kM (kst D) A) : keeps m1 → keeps m2 → keeps (if b then m1 else m2).
Proof. by destruct b. Qed.
Lemma keeps_option {A B} (o : option A) (m1 : A → kM (kst D) B) m2 :
  (∀ a, keeps (m1 a)) → keeps m2 → keeps (match o with Some a => m1 a | None => m2 end).
Proof. by destruct o. Qed.
Lemma keeps_impl {A} (i : impl_t) (m1 : kM (kst D) A) m2 m3 m4 :
  keeps m1 → (∀ a, keeps (m2 a)) → (∀ a, keeps (m3 a)) → (∀ a, keeps (m4 a)) →
  keeps (match i with ImplNull => m1 | ImplBuf a => m2 a | ImplPipe a => m3 a | ImplNum a => m4 a end).
Proof. by destruct i. Qed.

Lemma near_update s x t t' : k_tasks s !! x = Some t → near_task t t' →
  near s (with_k_tasks (<[x := t']> (k_tasks s)) s).
Proof.
  intros E Ec. split; [|eauto|done..]. intros y. simpl. destruct (decide (y = x)) as [->|].
  - rewrite lookup_insert_eq, E. by constructor.
  - rewrite lookup_insert_ne by done. reflexivity.
Qed.
Lemma keeps_upd_task x f : (∀ t, near_task t (f t)) → keeps (upd_task x f).
Proof.
  intros Hf s a s' H. unfold upd_task in H. kinv H. unfold get_task, kget_opt in E.
  destruct (k_tasks s !! x) eqn:Et; [|done]. injection E as <- <-. unfold put_task, kmodify in H. simplify_eq. by eapply near_update.
Qed.
Lemma keeps_set_task_fd c i f : keeps (set_task_fd c i f).
Proof.
  intros s a s' H. unfold set_task_fd in H. kinv H. unfold get_task, kget_opt in E.
  destruct (k_tasks s !! c) eqn:Et; [|done]. injection E as <- <-. unfold kget_opt in E0.
  destruct (zset _ _ _); [|done]. injection E0 as <- <-. unfold put_task, kmodify in H. simplify_eq.
  eapply near_update; [done|]. split; [done|by left].
Qed.
Lemma keeps_drv (f : D → D) : keeps (drv_ f).
Proof. intros s a s' [= _ <-]. split; [intros x; reflexivity|eauto|done..]. Qed.
Lemma keeps_wake t : keeps (wake t).
Proof.
  intros s a s' H. unfold wake in H. kinv H. unfold get_task, kget_opt in E.
  destruct (k_tasks s !! t) as [t0|] eqn:Et; [|done]. injection E as <- <-.
  unfold put_task, kmodify, kret in H. destruct (Z.eqb_spec (t_state t0) TASK_WAITING); simplify_eq; [|done].
  eapply near_update; [done|]. split; [done|by right].
Qed.

(** A pipe keeps its waiting task. *)
Lemma keeps_put_pipe {A} pp (g : pipe_t → pipe_t) (k : pipe_t → kM (kst D) A) :
  (∀ p, p_waiting (g p) = p_waiting p) → (∀ p, keeps (k p)) →
  keeps (kbind (get_pipe pp) (λ p, kbind (put_pipe pp (g p)) (λ _, k p))).
Proof.
  intros Hg Hk s a s' H. kinv H. etrans; [|by eapply Hk]. unfold get_pipe, kget_opt in E.
  destruct (k_pipes s !! pp) as [p|] eqn:Ep; [|done]. injection E as <- <-. injection E0 as _ <-.
  split; [intros x; reflexivity| |done..]. intros q p'. cbn. destruct (decide (q = pp)) as [->|].
  - rewrite lookup_insert_eq. intros [= <-]. eauto.
  - rewrite lookup_insert_ne by done. eauto.
Qed.
Lemma keeps_free_pipe pp : keeps (kfree_pipe pp).
Proof.
  intros s a s' H. unfold kfree_pipe in H. kinv H. unfold get_pipe, kget_opt in E.
  destruct (k_pipes s !! pp); [|done]. injection E as <- <-. unfold kmodify in H. simplify_eq.
  split; [intros x; reflexivity| |done..]. intros q p'. cbn. rewrite lookup_delete_Some. intros [_ ?]. eauto.
Qed.
End near.

Create HintDb keeps.
#[export] Hint Resolve keeps_ret keeps_fault keeps_panic keeps_hang keeps_get_opt keeps_get
  keeps_current keeps_set_task_fd keeps_wake keeps_drv keeps_free_pipe : keeps.
#[export] Hint Extern 4 (keeps (kmodify _)) => (apply keeps_modify; intros; split; [intros ?; reflexivity|eauto|done..]) : keeps.
#[export] Hint Extern 5 (keeps (upd_task _ _)) => (apply keeps_upd_task; intros; done) : keeps.

(** Splits a computation along its binds and branches. *)
Ltac solve_keeps :=
  repeat first
    [ match goal with |- ∀ _, _ => intro end
    | progress cbv beta zeta
    | solve [auto with keeps]
    | apply keeps_bind | apply keeps_if | apply keeps_option | apply keeps_impl ].

Section fs.
Context {D : Type} {Drv : FsDriver D}.

Lemma keeps_remove_reader pp : keeps (D := D) (pipe_remove_reader pp).
Proof.
  unfold pipe_remove_reader, add_pipe_count.
  apply (keeps_put_pipe pp (λ p, if 0 <? p_readers p then with_p_readers (p_readers p - 1) p else p)).
  - intros p. by destruct (_ <? _).
  - solve_keeps.
Qed.
Lemma keeps_remove_writer pp : keeps (D := D) (pipe_remove_writer pp).
Proof.
  unfold pipe_remove_writer, add_pipe_count.
  apply (keeps_put_pipe pp (λ p, if 0 <? p_writers p then with_p_writers (p_writers p - 1) p else p)
    (λ q, let p := if 0 <? p_writers q then with_p_writers (p_writers q - 1) q else q in _)).
  - intros p. by destruct (_ <? _).
  - solve_keeps.
Qed.

Lemma keeps_release f : keeps (D := D) (release f).
Proof.
  pose proof keeps_remove_reader. pose proof keeps_remove_writer.
  unfold release, pipe_drop, teardown, close_fs, kfree_node, kfree_buf, kfree_file, get_file, put_file,
    get_node, get_pipe.
  solve_keeps.
Qed.

Lemma keeps_close_fds n : ∀ i t, keeps (D := D) (close_fds n i t).
Proof.
  induction n as [|n IH]; intros i t; simpl; [auto with keeps|]. unfold get_task.
  pose proof keeps_release. solve_keeps.
Qed.
Lemma keeps_close_all t : keeps (D := D) (vfs_close_all_fds t).
Proof. apply keeps_close_fds. Qed.
End fs.
