(* ===== verification/OpenInv.v ===== *)
(** * Opening files

    Path resolution and [open] on top of any file-system driver that keeps the
    contract [FsDriverLaws]: resolution allocates at most new nodes and frees only
    nodes it has allocated itself, and [open] keeps the reference-count invariant
    of [FdInv]. *)

From stdpp Require Import base numbers list gmap strings.
From Stdlib Require Import ZArith Lia.
From S2P Require Import Prelude Kernel Pipe Path Vfs FdInv.

#[local] Open Scope Z_scope.

(** ** The contract of a driver

    [ok] is the invariant of the driver's state, [statics] are the nodes it keeps
    for ever.  In a sound state [finddir] and [create] return; a node made by
    [finddir] is marked transient, is not a pipe and does not own a heap buffer. *)
Definition found_lawful (statics : gset Z) (r : found) : Prop :=
  match r with
  | FoundNothing => True
  | FoundFresh n =>
      has (n_flags n) FS_TRANSIENT = true ∧
      has (n_flags n) FS_PIPE = false ∧ has (n_flags n) FS_IMPL_HEAP = false ∧
      (∀ x, n_impl n ≠ ImplBuf x) ∧ (∀ x, n_impl n ≠ ImplPipe x)
  | FoundStatic a => a ∈ statics
  end.
Class FsDriverLaws (D : Type) `{FsDriver D} (ok : D → Prop) (statics : gset Z) : Prop := {
  law_finddir : ∀ fn nd name d, ok d →
    ∃ r d', drv_finddir fn nd name d = Ret r d' ∧ ok d' ∧ found_lawful statics r;
  law_create : ∀ fn nd name d, ok d → ∃ d', drv_create fn nd name d = Ret tt d' ∧ ok d';
}.

Section open.
Context {D : Type} {Drv : FsDriver D} {ok : D → Prop} {statics : gset Z} {Laws : FsDriverLaws D ok statics}.
#[local] Open Scope kernel_scope.
Implicit Types s : kst D.

(** A node that outlives every descriptor. *)
Definition lasting s (a : Z) : Prop :=
  a ≠ 0 ∧ a < k_fresh s ∧
  ∃ nd, k_nodes s !! a = Some nd ∧ has (n_flags nd) FS_PIPE = false ∧
        has (n_flags nd) FS_TRANSIENT = false.

(** The root, the roots of the mounts and the drivers' own nodes are lasting. *)
Record vfs_inv s : Prop := {
  vi_root : k_fs_root s = 0 ∨ lasting s (k_fs_root s);
  vi_mounts : Forall (λ m, lasting s (m_root m)) (k_mounts s);
  vi_statics : ∀ a, a ∈ statics → lasting s a;
  vi_alloc : allocated s;
  vi_cwd : ∃ t, k_tasks s !! k_current s = Some t ∧ (1 ≤ length (t_cwd t) ≤ 510)%nat;
  vi_drv : ok (k_drv s);
}.

(** What resolution may have done when it started in [s]: new nodes, no other
    change that the rest of the system can see. *)
Record grown s s' : Prop := {
  gr_ext : extends s s';
  gr_files : k_files s' = k_files s;
  gr_pipes : k_pipes s' = k_pipes s;
  gr_bufs : k_bufs s' = k_bufs s;
  gr_root : k_fs_root s' = k_fs_root s;
  gr_mounts : k_mounts s' = k_mounts s;
  gr_drv : ok (k_drv s) → ok (k_drv s');
}.

(** The result of resolution: nothing or a lasting node, with no node more than
    before; or a new transient node, the only one more than before. *)
Definition transient_node (n : fs_node_t) : Prop :=
  has (n_flags n) FS_TRANSIENT = true ∧ has (n_flags n) FS_PIPE = false ∧
  has (n_flags n) FS_IMPL_HEAP = false.
Definition found_ok s s' (a : Z) : Prop :=
  (a = 0 ∨ lasting s a) ∧ k_nodes s' = k_nodes s ∨
  k_fresh s ≤ a < k_fresh s' ∧ ∃ n, transient_node n ∧ k_nodes s' = <[a := n]> (k_nodes s).

Lemma lasting_grown s s' a : extends s s' → lasting s a → lasting s' a.
Proof.
  intros Hex (H0 & Hlt & nd & E & P & T). split; [done|]. pose proof (ex_fresh _ _ Hex).
  split; [lia|]. exists nd. by rewrite (ex_nodes _ _ Hex).
Qed.

Lemma vfs_inv_grown s s' : grown s s' → vfs_inv s → vfs_inv s'.
Proof.
  intros [Hex Hf Hp Hb Hr Hm Hd] [Vr Vm Vs Va Vc Vd]. split.
  - rewrite Hr. destruct Vr; [by left|right]. by eapply lasting_grown.
  - rewrite Hm. eapply Forall_impl; [exact Vm|]. intros m. by apply lasting_grown.
  - intros a Ha. eapply lasting_grown; eauto.
  - apply (ex_alloc _ _ Hex).
  - by rewrite (ex_tasks _ _ Hex), (ex_current _ _ Hex).
  - auto.
Qed.

(** The node found is live. *)
Lemma found_live s s' a : found_ok s s' a → a ≠ 0 → ∃ nd, k_nodes s' !! a = Some nd ∧
  has (n_flags nd) FS_PIPE = false ∧ (has (n_flags nd) FS_TRANSIENT = false → lasting s a) ∧
  (has (n_flags nd) FS_TRANSIENT = true → k_fresh s ≤ a < k_fresh s' ∧
     has (n_flags nd) FS_IMPL_HEAP = false ∧ k_nodes s' = <[a := nd]> (k_nodes s)).
Proof.
  intros [[[|Hl] En]|(Hlt & n & (T & P & I) & En)] Ha; [done| |].
  - pose proof Hl as (_ & _ & nd & E & P & T). exists nd. rewrite En. split_and!; try done. congruence.
  - exists n. rewrite En, lookup_insert_eq. split_and!; try done. congruence.
Qed.

Lemma grown_refl s : allocated s → grown s s.
Proof.
  intros Ha. split; try done. split; try done.
  - intros a nd Hge E. pose proof (node_lt _ _ _ Ha E). lia.
  - intros a p Hge E. pose proof (pipe_lt _ _ _ Ha E). lia.
Qed.

(** Three kinds of change keep [grown]: the drivers' state, a new node, and
    freeing a node that is new. *)
Lemma grown_drv s s' d : ok d → grown s s' → grown s (with_k_drv d s').
Proof.
  intros Hd [[E1 E2 E3 E4 E5 E6 E7 E8 E9 E10] ? ? ? ? ? ?]. by split.
Qed.

Lemma grown_new s s' n : grown s s' →
  (∀ x, n_impl n ≠ ImplBuf x) → (∀ x, n_impl n ≠ ImplPipe x) →
  grown s (with_k_nodes (<[k_fresh s' := n]> (k_nodes s')) (with_k_fresh (k_fresh s' + 1) s')).
Proof.
  intros [[E1 E2 E3 E4 E5 E6 E7 [E8 E8'] E9 E10] G1 G2 G3 G4 G5 G6] Hb Hp. split; try done. split; simpl; try done.
  - intros a Ha. rewrite lookup_insert_ne by lia. auto.
  - lia.
  - split; simpl; [|lia]. intros a Ha. rewrite lookup_insert_ne by lia. apply E8. lia.
  - intros a nd Ha. destruct (decide (a = k_fresh s')) as [->|].
    + rewrite lookup_insert_eq. intros [= <-]. split; [done|]. intros x Hx. by destruct (Hp x).
    + rewrite lookup_insert_ne by done. intros E. destruct (E9 a nd Ha E) as [? Hx].
      split; [done|]. intros x Hi. destruct (Hx x Hi). lia.
Qed.

Lemma grown_free s s' a : grown s s' → k_fresh s ≤ a →
  grown s (with_k_nodes (delete a (k_nodes s')) s').
Proof.
  intros [[E1 E2 E3 E4 E5 E6 E7 [E8 E8'] E9 E10] G1 G2 G3 G4 G5 G6] Ha. split; try done. split; simpl; try done.
  - intros b Hb. rewrite lookup_delete_ne by lia. auto.
  - split; [|done]. simpl. intros b Hb. destruct (E8 b Hb) as (? & Hn & ? & ?).
    split_and!; try done. apply lookup_delete_None. by right.
  - intros b nd Hb. rewrite lookup_delete_Some. intros [_ E]. eauto.
Qed.

(** What [finddir_fs] adds to the nodes. *)
Lemma finddir_ok s s1 cur nd name : vfs_inv s → grown s s1 → k_nodes s1 !! cur = Some nd → cur ≠ 0 →
  ∃ next s2, finddir_fs cur name s1 = Ret next s2 ∧ grown s s2 ∧
    ((next = 0 ∨ lasting s next) ∧ k_nodes s2 = k_nodes s1 ∨
     next = k_fresh s1 ∧ k_fresh s2 = k_fresh s1 + 1 ∧
     ∃ n, transient_node n ∧ k_nodes s2 = <[next := n]> (k_nodes s1)).
Proof.
  intros Hv Hg E Hc0. unfold finddir_fs.
  replace (cur =? 0) with false by (symmetry; by apply Z.eqb_neq). rewrite (get_node_bind _ _ _ _ E).
  destruct (is_dir nd && negb (n_finddir nd =? 0)).
  2: { exists 0, s1. split_and!; try done. by left; split; [left|]. }
  destruct (law_finddir (n_finddir nd) nd name (k_drv s1) (gr_drv _ _ Hg (vi_drv _ Hv))) as (r & d & Ed & Hd & Hr).
  unfold kbind, drv. rewrite Ed.
  set (s1' := with_k_drv d s1). assert (grown s s1') as Hg1 by by apply grown_drv.
  destruct r as [|n|a].
  - exists 0, s1'. split_and!; try done. by left; split; [left|].
  - destruct Hr as (P0 & P1 & P2 & P3 & P4).
    exists (k_fresh s1). eexists. split; [reflexivity|]. split; [by apply (grown_new s s1' n)|].
    right. split_and!; try done. by exists n.
  - exists a, s1'. split_and!; try done. left. split; [|done]. right.
    by apply (vi_statics _ Hv).
Qed.

Lemma step_into_ok s s1 root cur name :
  vfs_inv s → grown s s1 → found_ok s s1 cur → cur ≠ 0 → lasting s root →
  ∃ next s2, step_into root cur name s1 = Ret next s2 ∧ grown s s2 ∧ found_ok s s2 next.
Proof.
  intros Hv Hg Hcur Hc0 Hroot. unfold step_into.
  destruct (found_live s s1 cur Hcur Hc0) as (nd & Ec & EP & Hlast & Htr).
  pose proof (ex_fresh _ _ (gr_ext _ _ Hg)) as Hfr.
  destruct (finddir_ok s s1 cur nd name Hv Hg Ec Hc0) as (next & s2 & E & Hg2 & Hn).
  rewrite (kbind_ret _ _ _ _ _ E).
  assert (cur = root → has (n_flags nd) FS_TRANSIENT = false) as Hrt.
  { intros ->. destruct Hroot as (_ & Hlt & nr & Er & _ & T).
    rewrite <-(ex_nodes _ _ (gr_ext _ _ Hg)) in Er by done. congruence. }
  assert (k_nodes s2 !! cur = Some nd) as Ec2.
  { destruct Hn as [[_ ->]|(-> & _ & n & _ & ->)]; [done|]. rewrite lookup_insert_ne; [done|].
    intros Heq. pose proof (node_lt s1 cur nd (ex_alloc _ _ (gr_ext _ _ Hg)) Ec). lia. }
  destruct (has (n_flags nd) FS_TRANSIENT) eqn:ET.
  - destruct (Htr eq_refl) as (Hfresh & HI & Hnodes).
    destruct (Z.eqb_spec cur root) as [Heq|_]; [by apply Hrt in Heq|].
    unfold kbind at 1. rewrite (get_node_bind cur s2 nd _ Ec2), ET.
    rewrite kfree_node_run by eauto. exists next. eexists. split; [reflexivity|].
    split; [apply grown_free; [done|lia]|].
    assert (k_nodes s !! cur = None) as Hnone by (apply (vi_alloc _ Hv); lia).
    destruct Hn as [[Hn En]|(-> & Hf & n & Tn & En)].
    + left. split; [done|]. simpl. by rewrite En, Hnodes, delete_insert_id.
    + right. split; [simpl; lia|]. exists n. split; [done|]. simpl.
      rewrite En, Hnodes, delete_insert_ne, delete_insert_id by (done || lia). done.
  - specialize (Hlast eq_refl). assert (k_nodes s1 = k_nodes s) as Hsame.
    { destruct Hcur as [[_ ?]|(Hlt & n & (T & _) & En)]; [done|]. exfalso.
      rewrite En, lookup_insert_eq in Ec. congruence. }
    exists next, s2. split.
    + destruct (cur =? root); [done|]. unfold kbind at 1. by rewrite (get_node_bind cur s2 nd _ Ec2), ET.
    + split; [done|]. rewrite Hsame in Hn. destruct Hn as [Hn|(-> & Hf & n & Tn & En)]; [by left|].
      right. split; [lia|]. by exists n.
Qed.

Lemma walk_ok s root : vfs_inv s → lasting s root → ∀ p s1 cur token,
  grown s s1 → found_ok s s1 cur → cur ≠ 0 →
  ∃ r s2, walk root cur p token s1 = Ret r s2 ∧ grown s s2 ∧ found_ok s s2 r.
Proof.
  intros Hv Hroot p. induction p as [|c p IH]; intros s1 cur token Hg Hcur Hc0; simpl.
  { destruct token; [by exists cur, s1|]. by apply step_into_ok. }
  destruct (c =? slash); [|by apply IH]. destruct token as [|x token]; [by apply IH|].
  destruct (step_into_ok s s1 root cur (x :: token) Hv Hg Hcur Hc0 Hroot) as (next & s2 & E & Hg2 & Hn).
  rewrite (kbind_ret _ _ _ _ _ E). destruct (Z.eqb_spec next 0) as [->|Hn0]; [by exists 0, s2|].
  by apply IH.
Qed.

Lemma match_mount_In ms clean root rest :
  match_mount ms clean = Some (root, rest) → ∃ m, m ∈ ms ∧ m_root m = root.
Proof.
  induction ms as [|m ms IH]; simpl; [done|]. intros E.
  assert ((m_root m = root) ∨ match_mount ms clean = Some (root, rest)) as [|E'].
  { repeat case_match; simplify_eq; auto. }
  - exists m. split; [apply list_elem_of_here|done].
  - destruct (IH E') as (m' & ? & ?). exists m'. split; [by apply list_elem_of_further|done].
Qed.

Lemma get_cwd_ok s : vfs_inv s → ∃ cwd, get_cwd s = Ret cwd s ∧
  match cwd with Some w => (1 ≤ length w ≤ 510)%nat | None => True end.
Proof.
  intros Hv. destruct (vi_cwd _ Hv) as (t & Et & Hl). unfold get_cwd, current_task. unfold kbind at 1.
  destruct (_ =? 0); [by exists None|]. rewrite (get_task_bind _ _ _ _ Et). by exists (Some (t_cwd t)).
Qed.

Lemma resolve_ok s path : vfs_inv s →
  ∃ r s', vfs_resolve_path path s = Ret r s' ∧ grown s s' ∧ found_ok s s' r.
Proof.
  intros Hv. pose proof (grown_refl s (vi_alloc _ Hv)) as Hg. unfold vfs_resolve_path.
  unfold kget at 1. unfold kbind at 1. destruct (Z.eqb_spec (k_fs_root s) 0) as [|Hr0].
  { exists 0, s. split_and!; try done. left. split; [by left|done]. }
  destruct (vi_root _ Hv) as [|Hroot]; [done|].
  unfold canonicalize_into. destruct (get_cwd_ok s Hv) as (cwd & Ec & Hcwd).
  unfold kbind at 1. rewrite (kbind_ret _ _ _ _ _ Ec).
  destruct (canonicalize_bounds cwd path Hcwd) as (clean & cs & E & Hl & _).
  unfold kbind at 1, kget_opt. rewrite E. replace (length clean <? 512)%nat with true
    by (symmetry; by apply Nat.ltb_lt). unfold kret at 1.
  assert (∀ a, lasting s a → found_ok s s a) as Hfound by (intros a Ha; left; split; [by right|done]).
  destruct (bool_decide _); [exists (k_fs_root s), s; split_and!; auto|].
  destruct (match_mount (k_mounts s) clean) as [[root rest]|] eqn:Em.
  - destruct (match_mount_In _ _ _ _ Em) as (m & Hm & <-).
    assert (lasting s (m_root m)) as Hl'.
    { pose proof (vi_mounts _ Hv) as Hf. rewrite Forall_forall in Hf. by apply Hf. }
    apply walk_ok; auto; by destruct Hl'.
  - apply walk_ok; auto; by destruct Hroot.
Qed.

(** Path resolution is safe and leaks nothing: for every path, on every
    tree of mounts and drivers, [vfs_resolve_path] returns; it frees exactly the
    transient nodes it went through, so the nodes afterwards are those before
    plus, at most, the transient node it returns. *)
Theorem resolve_no_leak s path : vfs_inv s →
  ∃ r s', vfs_resolve_path path s = Ret r s' ∧ vfs_inv s' ∧
    k_files s' = k_files s ∧ k_tasks s' = k_tasks s ∧
    ((r = 0 ∨ is_Some (k_nodes s !! r)) ∧ k_nodes s' = k_nodes s ∨
     k_nodes s !! r = None ∧ ∃ n, has (n_flags n) FS_TRANSIENT = true ∧
       k_nodes s' = <[r := n]> (k_nodes s)).
Proof.
  intros Hv. destruct (resolve_ok s path Hv) as (r & s' & E & Hg & Hf). exists r, s'.
  split_and!; [done|by eapply vfs_inv_grown|apply Hg|apply (gr_ext _ _ Hg)|].
  destruct Hf as [[Hr En]|(Hlt & n & (T & _) & En)]; [left|right]; (split; [|eauto]).
  - destruct Hr as [|(_ & _ & nd & ? & _)]; eauto.
  - apply (vi_alloc _ Hv). lia.
Qed.

Lemma grown_trans s s1 s2 : grown s s1 → grown s1 s2 → grown s s2.
Proof.
  intros [[E1 E2 E3 E4 E5 E6 E7 E8 E9 E10] ?????] [[F1 F2 F3 F4 F5 F6 F7 F8 F9 F10] ?????].
  split; try congruence. split; try congruence; try done.
  - intros a Ha. rewrite F2 by lia. auto.
  - lia.
  - intros a nd Ha Hnd. destruct (decide (a < k_fresh s1)).
    + rewrite F2 in Hnd by done. destruct (E9 a nd Ha Hnd) as [? Hx]. split; [done|].
      intros x Hi. destruct (Hx x Hi). lia.
    + destruct (F9 a nd ltac:(lia) Hnd) as [? Hx]. split; [done|]. intros x Hi. destruct (Hx x Hi). lia.
  - intros a p Ha Hp. destruct (decide (a < k_fresh s1)).
    + rewrite F3 in Hp by done. eauto.
    + eapply F10; [|done]. lia.
  - auto.
Qed.

(** A node that a new file may refer to, for an [open] that began in [s]. *)
Definition openable s s' (a : Z) : Prop :=
  a ≠ 0 ∧ ∃ nd, k_nodes s' !! a = Some nd ∧ has (n_flags nd) FS_PIPE = false ∧
    (has (n_flags nd) FS_TRANSIENT = true →
     k_fresh s ≤ a ∧ (has (n_flags nd) FS_IMPL_HEAP = true → n_impl nd = ImplNull)).

Lemma found_openable s s' a : found_ok s s' a → a ≠ 0 → openable s s' a.
Proof.
  intros Hf Ha. destruct (found_live s s' a Hf Ha) as (nd & E & P & _ & T). split; [done|].
  exists nd. split_and!; [done..|]. intros Ht. destruct (T Ht) as (? & ? & _). split; [lia|congruence].
Qed.

Lemma openable_mono s s1 s' a : k_fresh s ≤ k_fresh s1 → openable s1 s' a → openable s s' a.
Proof.
  intros Hle (H0 & nd & E & P & T). split; [done|]. exists nd. split_and!; [done..|].
  intros Ht. destruct (T Ht). split; [lia|done].
Qed.

(** The name of the file to create fits in [char basename\[128\]]. *)
Definition base_fits s (path : list Z) : Prop :=
  ∀ t b, k_tasks s !! k_current s = Some t →
    (vfs_get_basename (Some (t_cwd t)) path = Some b ∨ vfs_get_basename None path = Some b) →
    (length b < 128)%nat.

Lemma split_path_ok s path : vfs_inv s → base_fits s path →
  ∃ parent base, split_path path s = Ret (parent, base) s.
Proof.
  intros Hv Hb. destruct (vi_cwd _ Hv) as (t & Et & Hl). unfold split_path, get_cwd, current_task.
  assert (∃ cwd, (let* c := λ s0, Ret (k_current s0) s0 in
      if c =? 0 then kret None else let* t := get_task c in kret (Some (t_cwd t))) s = Ret cwd s ∧
    (cwd = Some (t_cwd t) ∨ cwd = None)) as (cwd & Ec & Hc).
  { unfold kbind at 1. destruct (_ =? 0); [exists None; auto|].
    rewrite (get_task_bind _ _ _ _ Et). exists (Some (t_cwd t)). auto. }
  rewrite (kbind_ret _ _ _ _ _ Ec).
  assert (match cwd with Some w => (1 ≤ length w ≤ 510)%nat | None => True end) as Hcwd
    by (destruct Hc as [->| ->]; done).
  destruct (parent_bounds cwd path Hcwd) as (pa & Ep & Hp).
  destruct (basename_bounds cwd path Hcwd) as (ba & Eb).
  unfold kbind, kget_opt. rewrite Ep, Eb.
  assert (length ba < 128)%nat by (eapply Hb; [done|]; destruct Hc as [->| ->]; auto).
  replace (length pa <? 512)%nat with true by (symmetry; by apply Nat.ltb_lt).
  replace (length ba <? 128)%nat with true by (symmetry; by apply Nat.ltb_lt). eauto.
Qed.

Lemma free_transient_ok s s' a : grown s s' →
  (a ≠ 0 → ∃ nd, k_nodes s' !! a = Some nd ∧ (has (n_flags nd) FS_TRANSIENT = true → k_fresh s ≤ a)) →
  ∃ s2, free_transient a s' = Ret tt s2 ∧ grown s s2 ∧
    ∀ b nb, k_nodes s' !! b = Some nb → has (n_flags nb) FS_TRANSIENT = false ∨ b ≠ a →
      k_nodes s2 !! b = Some nb.
Proof.
  intros Hg Ha. unfold free_transient. destruct (Z.eqb_spec a 0) as [->|Ha0]; [by exists s'|].
  destruct (Ha Ha0) as (nd & E & T). rewrite (get_node_bind _ _ _ _ E).
  destruct (has (n_flags nd) FS_TRANSIENT) eqn:ET; [|by exists s'].
  rewrite kfree_node_run by eauto. eexists. split; [reflexivity|].
  split; [apply grown_free; auto|]. intros b nb Eb Hb. simpl. rewrite lookup_delete_ne; [done|].
  intros ->. destruct Hb; congruence.
Qed.

Lemma openable_same s s' s2 a : openable s s' a → 
  (∀ nb, k_nodes s' !! a = Some nb → k_nodes s2 !! a = Some nb) → openable s s2 a.
Proof. intros (H0 & nd & E & P & T) Hn. split; [done|]. exists nd. auto. Qed.

Lemma open_create_ok s name : vfs_inv s → base_fits s name →
  ∃ r s', open_create name s = Ret r s' ∧ grown s s' ∧ openable s s' r.
Proof.
  intros Hv Hb. unfold open_create. destruct (split_path_ok s name Hv Hb) as (pp & base & E0).
  rewrite (kbind_ret _ _ _ _ _ E0). destruct (resolve_ok s pp Hv) as (par & s1 & E1 & Hg1 & Hf1).
  rewrite (kbind_ret _ _ _ _ _ E1).
  assert (∃ node s2, (if par =? 0 then kret 0 else let* pn := get_node par in
      if n_create pn =? 0 then kret 0 else create_fs par base ;;; vfs_resolve_path name) s1 =
      Ret node s2 ∧ grown s1 s2 ∧ (node = 0 ∨ openable s1 s2 node)) as (node & s2 & E2 & Hg2 & Hn).
  { pose proof (vfs_inv_grown _ _ Hg1 Hv) as Hv1. pose proof (grown_refl s1 (vi_alloc _ Hv1)) as Hg0.
    destruct (Z.eqb_spec par 0) as [->|Hp0]; [exists 0, s1; auto|].
    destruct (found_live s s1 par Hf1 Hp0) as (nd & En & _). rewrite (get_node_bind _ _ _ _ En).
    destruct (n_create nd =? 0); [exists 0, s1; auto|].
    assert (∃ d, create_fs par base s1 = Ret tt (with_k_drv d s1) ∧ ok d) as (d & Ed & Hd).
    { unfold create_fs. replace (par =? 0) with false by (symmetry; by apply Z.eqb_neq).
      rewrite (get_node_bind _ _ _ _ En). destruct (is_dir nd && negb (n_create nd =? 0)).
      - destruct (law_create (n_create nd) nd base (k_drv s1) (vi_drv _ Hv1)) as (d & Ed & Hd).
        exists d. unfold drv. by rewrite Ed.
      - exists (k_drv s1). split; [by destruct s1|apply Hv1]. }
    rewrite (kbind_ret _ _ _ _ _ Ed). pose proof (grown_drv s1 s1 d Hd Hg0) as Hgd.
    destruct (resolve_ok _ name (vfs_inv_grown _ _ Hgd Hv1)) as (r & s2 & E & Hg2 & Hf2).
    exists r, s2. split; [done|]. split; [by eapply grown_trans|].
    destruct (decide (r = 0)); [by left|right].
    apply (openable_mono s1 (with_k_drv d s1)); [simpl; lia|]. by apply found_openable. }
  rewrite (kbind_ret _ _ _ _ _ E2).
  destruct (free_transient_ok s s2 par (grown_trans _ _ _ Hg1 Hg2)) as (s3 & E3 & Hg3 & Hkeep).
  { intros Hp0. destruct (found_live s s1 par Hf1 Hp0) as (nd & En & _ & _ & T). exists nd.
    pose proof (node_lt _ _ _ (ex_alloc _ _ (gr_ext _ _ Hg1)) En).
    rewrite (ex_nodes _ _ (gr_ext _ _ Hg2)) by done. split; [done|]. intros Ht. by apply T. }
  rewrite (kbind_ret _ _ _ _ _ E3). destruct (Z.eqb_spec node 0) as [->|Hn0].
  - eexists _, _. split; [reflexivity|]. split; [by apply (grown_new s s3 (mock_node base))|].
    pose proof (ex_fresh _ _ (gr_ext _ _ Hg3)). destruct (vi_alloc _ Hv) as [_ Hpos].
    split; [lia|]. exists (mock_node base). simpl. rewrite lookup_insert_eq. done.
  - destruct Hn as [|Hn]; [done|]. exists node, s3. split; [done|]. split; [done|].
    pose proof (ex_fresh _ _ (gr_ext _ _ Hg1)).
    apply (openable_same s s2); [by eapply openable_mono|]. intros nb Enb. apply Hkeep; [done|].
    destruct (has (n_flags nb) FS_TRANSIENT) eqn:ET; [right|by left]. intros ->.
    destruct Hn as (_ & nd & E & _ & T). simplify_eq. destruct (T ET) as [Hge _].
    destruct (found_live s s1 par Hf1 Hn0) as (np & Enp & _).
    pose proof (node_lt _ _ _ (ex_alloc _ _ (gr_ext _ _ Hg1)) Enp). lia.
Qed.

Lemma fd_inv_extends s s' : fd_inv s → extends s s' → fd_inv s'.
Proof.
  intros [Hr [T1 T2 T3]] Hex. split; rewrite ?(ex_tasks _ _ Hex).
  - by eapply refs_inv_extends.
  - by split; rewrite ?(ex_tasks _ _ Hex), ?(ex_current _ _ Hex).
Qed.

Lemma extends_new_file s s' fl : extends s s' →
  extends s (with_k_files (<[k_fresh s' := fl]> (k_files s')) (with_k_fresh (k_fresh s' + 1) s')).
Proof.
  intros [E1 E2 E3 E4 E5 E6 E7 [E8 E8'] E9 E10]. split; simpl; try done.
  - intros a Ha. rewrite lookup_insert_ne by lia. auto.
  - lia.
  - split; simpl; [|lia]. intros a Ha. rewrite lookup_insert_ne by lia. apply E8. lia.
  - intros a nd Ha E. destruct (E9 a nd Ha E) as [? Hx]. split; [done|].
    intros x Hi. destruct (Hx x Hi). lia.
Qed.

(** The last part of [open]: a descriptor for the node. *)
Lemma install_file_ok s s' node flags :
  fd_inv s → extends s s' → openable s s' node →
  ∃ r s2, (let* slot := free_fd in
           match slot with
           | None => kret (-1)
           | Some i => let* f := file_create node flags in set_cur_fd i f ;;; kret i
           end) s' = Ret r s2 ∧ fd_inv s2 ∧
    (r = -1 ∧ s2 = s' ∧ find_fd 29 FIRST_USER_FD (cur_table s) = None ∨
     find_fd 29 FIRST_USER_FD (cur_table s) = Some r ∧ ∃ f,
       cur_table s2 = <[Z.to_nat r := f]> (cur_table s) ∧
       k_files s2 !! f = Some (mk_file node 0 flags 1) ∧ k_nodes s2 = k_nodes s').
Proof.
  intros Hinv Hex (Hn0 & nd & En & EP & ET). pose proof (fd_inv_extends _ _ Hinv Hex) as Hinv'.
  rewrite (kbind_ret _ _ _ _ _ (free_fd_run s' Hinv')).
  assert (cur_table s' = cur_table s) as Hcur.
  { unfold cur_table, task_table. by rewrite (ex_tasks _ _ Hex), (ex_current _ _ Hex). }
  rewrite Hcur. destruct (find_fd 29 FIRST_USER_FD (cur_table s)) as [i|] eqn:Ef.
  2: { exists (-1), s'. split_and!; try done. by left. }
  apply (find_fd_Some 29 3) in Ef as (j & -> & Hj & E0 & _).
  set (fl := mk_file node 0 flags 1).
  set (s1 := with_k_files (<[k_fresh s' := fl]> (k_files s')) (with_k_fresh (k_fresh s' + 1) s')).
  rewrite (kbind_ret (file_create node flags) _ s' (k_fresh s') s1 eq_refl).
  pose proof (extends_new_file s s' fl Hex) as Hex1. fold s1 in Hex1.
  pose proof (fd_inv_extends _ _ Hinv Hex1) as Hinv1.
  destruct (ri_fresh _ _ (fi_refs _ Hinv)) as [_ Hpos]. pose proof (ex_fresh _ _ Hex) as Hfr.
  destruct (install_run s1 j (k_fresh s')) as (m & E1 & T1 & P1 & R1 & C1);
    [apply Hinv1|lia| |lia|].
  { unfold cur_table, task_table in *. simpl. by rewrite (ex_tasks _ _ Hex), (ex_current _ _ Hex). }
  rewrite (kbind_ret _ _ _ _ _ E1). eexists _, _. split; [reflexivity|]. split.
  - split; [|done]. change (k_tasks (with_k_tasks m s1)) with m. rewrite P1. apply R1.
    change (k_tasks s1) with (k_tasks s'). rewrite (ex_tasks _ _ Hex).
    pose proof (fd_inv_room s Hinv).
    eapply (refs_inv_add_file _ s1 _ fl nd); try done.
    + rewrite <-(ex_tasks _ _ Hex1). apply Hinv1.
    + intros Hin. pose proof (refs_lt _ _ _ (fi_refs _ Hinv) Hin). lia.
    + split; [apply lookup_insert_eq|done].
    + lia.
    + intros _ HT. destruct (ET HT) as [Hge HI]. split; [|done]. intros b fb Hb Hfb.
      destruct (ri_file _ _ (fi_refs _ Hinv) b Hb) as (fb0 & nb & B1 & B2 & _).
      pose proof (file_lt _ _ _ (ri_fresh _ _ (fi_refs _ Hinv)) B1) as Hlt.
      rewrite (ex_files _ _ Hex1) in Hfb by done. simplify_eq.
      pose proof (node_lt _ _ _ (ri_fresh _ _ (fi_refs _ Hinv)) B2). simpl. lia.
  - right. split; [done|]. exists (k_fresh s'). split_and!; try done.
    + rewrite Nat2Z.id, C1. f_equal. unfold cur_table, task_table. simpl.
      by rewrite (ex_tasks _ _ Hex), (ex_current _ _ Hex).
    + apply lookup_insert_eq.
Qed.

End open.

(** ** A concrete tree *)

#[export] Instance demo_laws : FsDriverLaws unit (λ _, True) ∅.
Proof.
  split.
  - intros fn nd name d _. eexists _, d. split; [reflexivity|]. split; [done|]. by case_bool_decide.
  - intros fn nd name d _. by exists d.
Qed.

(** The demo descriptors, with a root directory at 70. *)
Definition demo_root : fs_node_t :=
  mk_node [slash] 0 (Z.lor FS_DIRECTORY FS_PERSISTENT) 0 0 ImplNull 0 0 0 0 0 99 99 0 0.
Definition demo_tree : kst unit :=
  with_k_fs_root 70 (with_k_nodes {[52 := pipe_node 50; 70 := demo_root]} demo_fds).

Lemma demo_tree_fd_inv : fd_inv demo_tree.
Proof.
  assert (all_refs (k_tasks demo_tree) = [60; 61]) as E by by vm_compute.
  split; [rewrite E|destruct demo_fds_inv as [_ [? ? ?]]; by split]. split.
  - intros a Ha. apply elem_of_cons in Ha as [->|Ha]; [|apply list_elem_of_singleton in Ha as ->];
      [exists (mk_file 52 0 O_RDONLY 1)|exists (mk_file 52 0 O_WRONLY 1)]; exists (pipe_node 50);
      (split_and!; [done..|split; [done|]]); exists 50, (pipe_init 8 1 1); by vm_compute.
  - intros pp p Hp. cbn in Hp. apply lookup_singleton_Some in Hp as [_ <-]. by left.
  - intros a nd x Hn Hi. cbn in Hn. apply lookup_insert_Some in Hn as [[_ <-]|[_ Hn]]; [done|].
    by apply lookup_singleton_Some in Hn as [_ <-].
  - intros a nd x Hn Hi. cbn in Hn. apply lookup_insert_Some in Hn as [[_ <-]|[_ Hn]]; [injection Hi as <-; by vm_compute|].
    by apply lookup_singleton_Some in Hn as [_ <-].
  - split; [|done]. intros a Ha. simpl in Ha. simpl.
    rewrite !lookup_insert_ne, !lookup_singleton_ne by lia. done.
  - done.
Qed.

Lemma demo_tree_vfs_inv : vfs_inv (ok := λ _, True) (statics := ∅) demo_tree.
Proof.
  split; [|done|done|apply demo_tree_fd_inv| |done].
  - right. split_and!; [done..|]. by exists demo_root.
  - eexists. split; [done|]. vm_compute. lia.
Qed.

Lemma resolve_no_leak_witness : ∃ r s', vfs_resolve_path (str "../f") demo_tree = Ret r s' ∧
  vfs_inv (ok := λ _, True) (statics := ∅) s'.
Proof.
  destruct (resolve_no_leak (ok := λ _, True) (statics := ∅) demo_tree (str "../f") demo_tree_vfs_inv)
    as (r & s' & ? & ? & _). by exists r, s'.
Defined.

