(* ===== verification/Sleep.v ===== *)
(** * The sleep queue

    Models [sleepq_insert] and [sleepq_remove] of [kernel/core/task.c], the
    draining of the queue in [timer_callback] of [kernel/cpu/timer.c], and the
    UABI_SLEEP branch of [syscall_handler].  The queue is the singly linked list
    through [sleep_next], sorted by [sleep_until]; each loop runs on a fuel of one
    more than the number of tasks. *)

From stdpp Require Import base numbers list gmap strings sorting.
From Stdlib Require Import ZArith Lia.
From S2P Require Import Prelude Kernel.

#[local] Open Scope Z_scope.

Section ops.
Context {D : Type}.
#[local] Open Scope kernel_scope.

(** [while (prev->sleep_next && prev->sleep_next->sleep_until <= wake_tick)] *)
Fixpoint sleepq_find (fuel : nat) (prev wake : Z) : kM (kst D) Z :=
  match fuel with
  | O => λ _, NoFuel
  | S fuel =>
      let* p := get_task prev in
      if t_sleep_next p =? 0 then kret prev
      else
        let* n := get_task (t_sleep_next p) in
        if t_sleep_until n <=? wake then sleepq_find fuel (t_sleep_next p) wake else kret prev
  end.

Definition sleepq_insert (t wake : Z) : kM (kst D) unit :=
  upd_task t (λ tk, with_t_sleep_next 0 (with_t_sleep_until wake tk)) ;;;
  let* s := kget in
  let h := k_sleep_queue s in
  let* front := (if h =? 0 then kret true
                 else let* ht := get_task h in kret (wake <=? t_sleep_until ht)) in
  if front then
    upd_task t (with_t_sleep_next h) ;;; kmodify (with_k_sleep_queue t)
  else
    let* prev := sleepq_find (S (size (k_tasks s))) h wake in
    let* p := get_task prev in
    upd_task t (with_t_sleep_next (t_sleep_next p)) ;;;
    upd_task prev (with_t_sleep_next t).

(** [while (prev && prev->sleep_next != t) prev = prev->sleep_next] *)
Fixpoint sleepq_before (fuel : nat) (prev t : Z) : kM (kst D) Z :=
  match fuel with
  | O => λ _, NoFuel
  | S fuel =>
      if prev =? 0 then kret 0
      else
        let* p := get_task prev in
        if t_sleep_next p =? t then kret prev else sleepq_before fuel (t_sleep_next p) t
  end.

Definition sleepq_remove (t : Z) : kM (kst D) unit :=
  let* tk := get_task t in
  if t_sleep_until tk =? 0 then kret tt
  else
    put_task t (with_t_sleep_until 0 tk) ;;;
    let* s := kget in
    if k_sleep_queue s =? t then
      kmodify (with_k_sleep_queue (t_sleep_next tk)) ;;;
      upd_task t (with_t_sleep_next 0)
    else
      let* prev := sleepq_before (S (S (size (k_tasks s)))) (k_sleep_queue s) t in
      (if prev =? 0 then kret tt
       else let* tk := get_task t in upd_task prev (with_t_sleep_next (t_sleep_next tk))) ;;;
      upd_task t (with_t_sleep_next 0).

(** The body of the draining loop for its head [t]. *)
Definition wake_sleeper (tk : task_t) : task_t :=
  let tk := with_t_sleep_until 0 (with_t_sleep_next 0 tk) in
  if t_state tk =? TASK_WAITING then with_t_state TASK_READY tk else tk.

Fixpoint drain (fuel : nat) (cur : Z) : kM (kst D) unit :=
  match fuel with
  | O => λ _, NoFuel
  | S fuel =>
      let* s := kget in
      let h := k_sleep_queue s in
      if h =? 0 then kret tt
      else
        let* tk := get_task h in
        if t_sleep_until tk <=? cur then
          kmodify (with_k_sleep_queue (t_sleep_next tk)) ;;;
          put_task h (wake_sleeper tk) ;;;
          drain fuel cur
        else kret tt
  end.

(** [if (current_task) current_task->ticks++] *)
Definition count_tick : kM (kst D) unit :=
  let* c := current_task in
  if c =? 0 then kret tt else upd_task c (λ t, with_t_ticks (u32 (t_ticks t + 1)) t).

(** [timer_callback], without the interrupt controller. *)
Definition timer_callback : kM (kst D) unit :=
  let* s := kget in
  let cur := u32 (k_tick s + 1) in
  kmodify (with_k_tick cur) ;;;
  count_tick ;;;
  drain (S (size (k_tasks s))) cur.

Definition get_ticks : kM (kst D) Z := let* s := kget in kret (k_tick s).

(** The UABI_SLEEP branch, up to the call of the scheduler: 10 ms a tick, rounded
    up, in 32-bit arithmetic. *)
Definition sys_sleep (ms : Z) : kM (kst D) unit :=
  if ms =? 0 then kret tt
  else
    let ticks := u32 (ms + 9) / 10 in
    let* now := get_ticks in
    let* c := current_task in
    sleepq_insert c (u32 (now + ticks)) ;;;
    upd_task c (with_t_state TASK_WAITING).
End ops.

(** ** The queue as a list *)

(** The chain from [a] through [sleep_next] is [l]. *)
Fixpoint chain (m : gmap Z task_t) (a : Z) (l : list Z) : Prop :=
  match l with
  | [] => a = 0
  | x :: l => a = x ∧ x ≠ 0 ∧ ∃ t, m !! x = Some t ∧ chain m (t_sleep_next t) l
  end.

(** The wake-up tick of a task. *)
Definition tick_of (m : gmap Z task_t) (x : Z) : Z :=
  match m !! x with Some t => t_sleep_until t | None => 0 end.

(** A well-formed queue: a chain without repetition, sorted by tick, with no
    tick 0. *)
Record qok (m : gmap Z task_t) (head : Z) (l : list Z) : Prop := {
  qo_chain : chain m head l;
  qo_nodup : NoDup l;
  qo_sorted : StronglySorted (λ x y, tick_of m x ≤ tick_of m y) l;
  qo_until : ∀ x, x ∈ l → tick_of m x ≠ 0;
}.
Definition queue_ok {D} (s : kst D) : list Z → Prop := qok (k_tasks s) (k_sleep_queue s).

(** Two task tables with the same links, or the same ticks, on a list. *)
Definition same_next (m m' : gmap Z task_t) (x : Z) : Prop :=
  ∃ t t', m !! x = Some t ∧ m' !! x = Some t' ∧ t_sleep_next t' = t_sleep_next t.

Lemma chain_ext m m' l : ∀ a, (∀ x, x ∈ l → same_next m m' x) → chain m a l → chain m' a l.
Proof.
  induction l as [|x l IH]; intros a H; simpl; [done|]. intros (-> & Hx & t & Et & Hc).
  destruct (H x (list_elem_of_here _ _)) as (t0 & t' & E1 & E2 & E3).
  split_and!; try done. exists t'. split; [done|]. rewrite E3. assert (t0 = t) as -> by congruence.
  apply IH; [|done]. intros y Hy. by apply H, list_elem_of_further.
Qed.

Lemma chain_live m l : ∀ a x, chain m a l → x ∈ l → x ≠ 0 ∧ is_Some (m !! x).
Proof.
  induction l as [|y l IH]; intros a x; simpl; [intros _ H; by apply elem_of_nil in H|].
  intros (-> & Hy & t & Et & Hc) [->|Hx]%elem_of_cons; eauto.
Qed.

(** The rest of the chain behind [p]. *)
Lemma chain_split m l1 p l2 : ∀ a, chain m a (l1 ++ p :: l2) →
  ∃ t, m !! p = Some t ∧ chain m (t_sleep_next t) l2.
Proof.
  induction l1 as [|x l1 IH]; intros a; simpl.
  - intros (_ & _ & t & ? & ?). by exists t.
  - intros (-> & _ & t & _ & Hc). by apply (IH _ Hc).
Qed.

(** Another rest behind [p]. *)
Lemma chain_replace m m' l1 p l2 l2' t' : ∀ a,
  chain m a (l1 ++ p :: l2) → (∀ x, x ∈ l1 → same_next m m' x) →
  m' !! p = Some t' → chain m' (t_sleep_next t') l2' → chain m' a (l1 ++ p :: l2').
Proof.
  induction l1 as [|x l1 IH]; intros a; simpl.
  - intros (-> & ? & _) _ Hp Hc. eauto.
  - intros (-> & Hx & t & Et & Hc) Hs Hp Hc'.
    destruct (Hs x (list_elem_of_here _ _)) as (t0 & t1 & E1 & E2 & E3).
    split_and!; try done. exists t1. split; [done|]. rewrite E3. assert (t0 = t) as -> by congruence.
    apply IH; try done. intros y Hy. by apply Hs, list_elem_of_further.
Qed.

Lemma chain_head m a l : chain m a l → a = 0 ↔ l = [].
Proof. destruct l; simpl; [done|]. intros (-> & ? & _). done. Qed.

Lemma same_next_insert m x y t t' : m !! y = Some t → x ≠ y → is_Some (m !! x) →
  same_next m (<[y := t']> m) x.
Proof. intros Hy Hne [tx Hx]. exists tx, tx. by rewrite lookup_insert_ne. Qed.

Lemma tick_of_insert m x y t' : tick_of (<[y := t']> m) x = if decide (x = y) then t_sleep_until t' else tick_of m x.
Proof.
  unfold tick_of. case_decide as E; [by rewrite E, lookup_insert_eq|by rewrite lookup_insert_ne].
Qed.

(** A list without repetition of live tasks is not longer than the table. *)
Lemma chain_length m a l : chain m a l → NoDup l → (length l ≤ size m)%nat.
Proof.
  intros Hc Hn. rewrite <-size_dom, <-(size_list_to_set (C := gset Z) l) by done.
  apply subseteq_size. intros x Hx. apply elem_of_list_to_set in Hx. apply elem_of_dom.
  by eapply chain_live.
Qed.

Lemma sorted_app_inv {A} (R : A → A → Prop) l1 l2 : StronglySorted R (l1 ++ l2) →
  StronglySorted R l1 ∧ StronglySorted R l2 ∧ ∀ x y, x ∈ l1 → y ∈ l2 → R x y.
Proof.
  induction l1 as [|x l1 IH]; simpl; intros H.
  { split_and!; [constructor|done|]. intros ? ? Hx. by apply elem_of_nil in Hx. }
  apply StronglySorted_inv in H as [H Hf]. destruct (IH H) as (H1 & H2 & H3).
  apply Forall_app in Hf as [Hf1 Hf2]. split_and!; [by constructor|done|].
  intros a b [->|Ha]%elem_of_cons Hb; [|eauto]. rewrite Forall_forall in Hf2. auto.
Qed.

Lemma sorted_app {A} (R : A → A → Prop) l1 l2 :
  StronglySorted R l1 → StronglySorted R l2 → (∀ x y, x ∈ l1 → y ∈ l2 → R x y) →
  StronglySorted R (l1 ++ l2).
Proof.
  induction 1 as [|x l1 H1 IH Hf]; intros H2 H3; simpl; [done|]. constructor.
  - apply IH; [done|]. intros a b Ha. by apply H3, list_elem_of_further.
  - apply Forall_app. split; [done|]. apply Forall_forall. intros y Hy. apply H3; [apply list_elem_of_here|done].
Qed.

Lemma sorted_ext {A} (R R' : A → A → Prop) l :
  (∀ x y, x ∈ l → y ∈ l → R x y → R' x y) → StronglySorted R l → StronglySorted R' l.
Proof.
  induction 2 as [|x l Hl IH Hf]; constructor.
  - apply IH. intros a b Ha Hb. apply H; by apply list_elem_of_further.
  - rewrite Forall_forall in *. intros y Hy. apply H; [apply list_elem_of_here|by apply list_elem_of_further|auto].
Qed.

(** Changing a task that is not queued. *)
Lemma qok_other m h l t tk' : qok m h l → t ∉ l → is_Some (m !! t) → qok (<[t := tk']> m) h l.
Proof.
  intros [Hc Hn Hs Hu] Ht [tk Etk]. assert (∀ x, x ∈ l → x ≠ t) as Hne by (intros x Hx ->; done).
  assert (∀ x, x ∈ l → tick_of (<[t := tk']> m) x = tick_of m x) as Htick.
  { intros x Hx. rewrite tick_of_insert, decide_False; auto. }
  split; [|done| |].
  - eapply chain_ext; [|exact Hc]. intros x Hx. eapply same_next_insert; [done|auto|by eapply chain_live].
  - eapply sorted_ext; [|exact Hs]. intros x y Hx Hy. cbn. by rewrite !Htick.
  - intros x Hx. rewrite Htick by done. auto.
Qed.

(** Changing nothing that the queue uses. *)
Lemma qok_same m m' h l :
  (∀ x, (λ t, (t_sleep_next t, t_sleep_until t)) <$> m' !! x =
        (λ t, (t_sleep_next t, t_sleep_until t)) <$> m !! x) → qok m h l → qok m' h l.
Proof.
  intros Hsame [Hc Hn Hs Hu].
  assert (∀ x, tick_of m' x = tick_of m x) as Ht.
  { intros x. unfold tick_of. specialize (Hsame x). destruct (m' !! x), (m !! x); by simplify_eq/=. }
  split; [|done| |].
  - eapply chain_ext; [|exact Hc]. intros x Hx. destruct (chain_live _ _ _ _ Hc Hx) as [_ [t Et]].
    specialize (Hsame x). rewrite Et in Hsame. destruct (m' !! x) as [t'|] eqn:Et'; [|done].
    exists t, t'. split_and!; try done. by simplify_eq/=.
  - eapply sorted_ext; [|exact Hs]. intros x y _ _. cbn. by rewrite !Ht.
  - intros x Hx. rewrite Ht. auto.
Qed.

(** Changing only the link of a task keeps the ticks. *)
Lemma tick_of_link m t tk n x : m !! t = Some tk →
  tick_of (<[t := with_t_sleep_next n tk]> m) x = tick_of m x.
Proof.
  intros E. rewrite tick_of_insert. case_decide as Ex; [|done]. rewrite Ex. unfold tick_of. by rewrite E.
Qed.

Lemma qok_front m h l t tk : qok m h l → t ∉ l → t ≠ 0 → m !! t = Some tk → t_sleep_until tk ≠ 0 →
  (∀ x, x ∈ l → t_sleep_until tk ≤ tick_of m x) →
  qok (<[t := with_t_sleep_next h tk]> m) t (t :: l).
Proof.
  intros Hq Ht Ht0 Etk Hw Hle.
  destruct (qok_other m h l t (with_t_sleep_next h tk) Hq Ht) as [Hc Hn Hs Hu]; [eauto|].
  assert (tick_of (<[t := with_t_sleep_next h tk]> m) t = t_sleep_until tk) as Htt
    by (rewrite tick_of_insert, decide_True; done).
  split; [|by constructor| |].
  - simpl. split_and!; try done. eexists. split; [apply lookup_insert_eq|done].
  - constructor; [done|]. apply Forall_forall. intros y Hy. rewrite Htt, tick_of_link by done. auto.
  - intros x [->|Hx]%elem_of_cons; [by rewrite Htt|auto].
Qed.

Lemma qok_middle m h l1 q l2 t tk tq : qok m h (l1 ++ q :: l2) → t ∉ l1 ++ q :: l2 → t ≠ 0 →
  m !! t = Some tk → m !! q = Some tq → t_sleep_until tk ≠ 0 →
  (∀ y, y ∈ l1 ++ [q] → tick_of m y ≤ t_sleep_until tk) →
  (∀ y, y ∈ l2 → t_sleep_until tk ≤ tick_of m y) →
  qok (<[q := with_t_sleep_next t tq]> (<[t := with_t_sleep_next (t_sleep_next tq) tk]> m)) h
    (l1 ++ q :: t :: l2).
Proof.
  intros Hq Ht Ht0 Etk Etq Hw Hle Hge.
  destruct (qok_other m h _ t (with_t_sleep_next (t_sleep_next tq) tk) Hq Ht) as [Hc Hn Hs Hu]; [eauto|].
  set (m2 := <[t := _]> m) in *. assert (q ≠ t) as Hqt.
  { intros ->. apply Ht, elem_of_app. right. apply list_elem_of_here. }
  assert (m2 !! q = Some tq) as Eq2 by (unfold m2; by rewrite lookup_insert_ne).
  assert (m2 !! t = Some (with_t_sleep_next (t_sleep_next tq) tk)) as Et2 by apply lookup_insert_eq.
  assert (∀ x, tick_of (<[q := with_t_sleep_next t tq]> m2) x = tick_of m x) as Htick.
  { intros x. rewrite tick_of_link by done. by apply tick_of_link. }
  assert (tick_of m t = t_sleep_until tk) as Htt by (unfold tick_of; by rewrite Etk).
  destruct (chain_split _ _ _ _ _ Hc) as (tq0 & Etq0 & Hcq). assert (tq0 = tq) as -> by congruence.
  rewrite NoDup_app in Hn. destruct Hn as (N1 & N2 & N3). apply NoDup_cons in N3 as [N3 N4].
  assert (∀ x, x ∈ l1 ++ q :: l2 → x ≠ q → same_next m2 (<[q := with_t_sleep_next t tq]> m2) x) as Hsn.
  { intros x Hx Hne. eapply same_next_insert; [done..|]. by apply (chain_live _ _ _ _ Hc Hx). }
  split.
  - eapply chain_replace; [exact Hc| |apply lookup_insert_eq|].
    + intros x Hx. apply Hsn; [apply elem_of_app; auto|]. intros ->.
      by apply (N2 q Hx), list_elem_of_here.
    + simpl. split_and!; try done. eexists. rewrite lookup_insert_ne by done. split; [done|]. simpl.
      eapply chain_ext; [|exact Hcq]. intros x Hx. apply Hsn; [|by intros ->].
      apply elem_of_app. right. by apply list_elem_of_further.
  - apply NoDup_app. rewrite elem_of_app, elem_of_cons in Ht. split_and!; [done| |].
    + intros x Hx. rewrite !elem_of_cons. intros [->|[->|Hx2]]; [|tauto|];
        eapply (N2 _ Hx); [apply list_elem_of_here|by apply list_elem_of_further].
    + repeat constructor; [|tauto|done]. rewrite elem_of_cons. intros [->|]; [tauto|done].
  - eapply sorted_ext; [intros x y _ _; cbn; rewrite !Htick; exact id|].
    eapply (sorted_ext _ (λ x y, tick_of m x ≤ tick_of m y)) in Hs.
    2: { intros x y _ _. cbn. unfold m2. by rewrite !tick_of_link. }
    change (l1 ++ q :: l2) with (l1 ++ [q] ++ l2) in Hs. rewrite app_assoc in Hs.
    destruct (sorted_app_inv _ _ _ Hs) as (S1 & S2 & S3).
    change (l1 ++ q :: t :: l2) with (l1 ++ [q] ++ t :: l2). rewrite app_assoc.
    apply sorted_app; [done| |].
    + constructor; [done|]. apply Forall_forall. intros y Hy. rewrite Htt. auto.
    + intros x y Hx [->|Hy]%elem_of_cons; [rewrite Htt; auto|auto].
  - intros x. rewrite Htick, !elem_of_app, !elem_of_cons. intros [?|[->|[->|?]]];
      [| |by rewrite Htt|]; (rewrite <-(tick_of_link m t tk (t_sleep_next tq)) by done; apply Hu;
        rewrite elem_of_app, elem_of_cons; tauto).
Qed.

(** A queue from which an element is missing. *)
Lemma qok_sublist (m m' : gmap Z task_t) h' l1 t l2 :
  NoDup (l1 ++ t :: l2) → StronglySorted (λ x y, tick_of m x ≤ tick_of m y) (l1 ++ t :: l2) →
  (∀ x, x ∈ l1 ++ t :: l2 → tick_of m x ≠ 0) →
  (∀ x, x ≠ t → tick_of m' x = tick_of m x) → chain m' h' (l1 ++ l2) → qok m' h' (l1 ++ l2).
Proof.
  intros Hn Hs Hu Ht Hc. apply NoDup_app in Hn as (N1 & N2 & N3). apply NoDup_cons in N3 as [N3 N4].
  assert (∀ x, x ∈ l1 ++ l2 → x ≠ t ∧ x ∈ l1 ++ t :: l2) as Hin.
  { intros x. rewrite !elem_of_app, elem_of_cons. intros [Hx|Hx]; (split; [|tauto]); intros ->; [|done].
    apply (N2 t Hx), list_elem_of_here. }
  split; [done| | |].
  - apply NoDup_app. split_and!; try done. intros x Hx Hx2. apply (N2 x Hx). by apply list_elem_of_further.
  - eapply (sorted_ext (λ x y, tick_of m x ≤ tick_of m y)).
    { intros x y Hx Hy. cbn. rewrite !Ht by (by apply Hin). done. }
    apply sorted_app_inv in Hs as (S1 & S2 & S3). apply StronglySorted_inv in S2 as [S2 _].
    apply sorted_app; try done. intros x y Hx Hy. apply S3; [done|by apply list_elem_of_further].
  - intros x Hx. rewrite Ht by (by apply Hin). by apply Hu, Hin.
Qed.

Lemma qok_drop_front m h t l tk tk' : qok m h (t :: l) → m !! t = Some tk →
  qok (<[t := tk']> m) (t_sleep_next tk) l.
Proof.
  intros [(_ & _ & tk0 & Etk & Hc) Hn Hs Hu] E. assert (tk0 = tk) as -> by congruence.
  assert (t ∉ l) as Hnt by (by apply NoDup_cons in Hn as [? _]).
  apply qok_other; [|done|eauto]. apply (qok_sublist m m _ [] t l); auto.
Qed.

Lemma qok_drop_middle m h l1 p t l2 tp tk tk' :
  qok m h (l1 ++ p :: t :: l2) → m !! p = Some tp → m !! t = Some tk →
  qok (<[t := tk']> (<[p := with_t_sleep_next (t_sleep_next tk) tp]> m)) h (l1 ++ p :: l2).
Proof.
  intros [Hc Hn Hs Hu] Ep Et.
  destruct (chain_split m (l1 ++ [p]) t l2 h) as (tk0 & Etk & Hct); [by rewrite <-app_assoc|].
  assert (tk0 = tk) as -> by congruence.
  pose proof Hn as (N1 & N2 & N3)%NoDup_app. apply NoDup_cons in N3 as [N3 N4].
  apply NoDup_cons in N4 as [N4 _]. rewrite elem_of_cons in N3.
  apply qok_other; [| |rewrite lookup_insert_ne; [eauto|naive_solver]].
  2: { rewrite elem_of_app, elem_of_cons. intros [Ht|[->|?]]; [|tauto|done].
       apply (N2 _ Ht), list_elem_of_further, list_elem_of_here. }
  set (m' := <[p := _]> m).
  assert (∀ x, x ≠ p → is_Some (m !! x) → same_next m m' x) as Hsn
    by (intros x Hx Hm; by eapply same_next_insert).
  assert (chain m' h (l1 ++ p :: l2)) as Hc'.
  { eapply (chain_replace m); [exact Hc| |apply lookup_insert_eq|]; cbn.
    - intros x Hx. apply Hsn; [intros ->; by apply (N2 _ Hx), list_elem_of_here|].
      apply (chain_live _ _ _ _ Hc), elem_of_app. auto.
    - eapply chain_ext; [|exact Hct]. intros x Hx. apply Hsn; [intros ->; tauto|].
      by apply (chain_live _ _ _ _ Hct). }
  replace (l1 ++ p :: t :: l2) with ((l1 ++ [p]) ++ t :: l2) in * by (by rewrite <-app_assoc).
  replace (l1 ++ p :: l2) with ((l1 ++ [p]) ++ l2) in * by (by rewrite <-app_assoc).
  apply (qok_sublist m m' h _ t l2); try done. intros x _. by apply tick_of_link.
Qed.

(** ** The operations keep the queue well formed *)

Section spec.
Context {D : Type}.
#[local] Open Scope kernel_scope.
Implicit Types s : kst D.

Lemma sleepq_find_run s wake rest : ∀ fuel x, chain (k_tasks s) x (x :: rest) →
  tick_of (k_tasks s) x ≤ wake → (length rest < fuel)%nat →
  ∃ l1 q l2, x :: rest = l1 ++ q :: l2 ∧ sleepq_find fuel x wake s = Ret q s ∧
    (∀ y, y ∈ l1 ++ [q] → tick_of (k_tasks s) y ≤ wake) ∧
    (∀ y l, l2 = y :: l → wake < tick_of (k_tasks s) y).
Proof.
  induction rest as [|y rest IH]; intros fuel x (_ & Hx & t & Et & Hc) Htick Hf;
    (destruct fuel as [|fuel]; [simpl in Hf; lia|]); cbn [sleepq_find]; rewrite (get_task_bind _ _ _ _ Et).
  - simpl in Hc. rewrite Hc. exists [], x, []. split_and!; try done.
    intros z [->|Hz]%elem_of_cons; [done|by apply elem_of_nil in Hz].
  - pose proof Hc as (Ey & Hy & ty & Ety & _). rewrite Ey in *.
    replace (y =? 0) with false by (symmetry; by apply Z.eqb_neq). rewrite (get_task_bind _ _ _ _ Ety).
    destruct (Z.leb_spec (t_sleep_until ty) wake) as [Hle|Hgt].
    + destruct (IH fuel y Hc) as (l1 & q & l2 & El & E & H1 & H2);
        [unfold tick_of; by rewrite Ety|simpl in Hf; lia|].
      exists (x :: l1), q, l2. rewrite El. split_and!; try done.
      intros z [->|Hz]%elem_of_cons; [done|]. by apply H1.
    + exists [], x, (y :: rest). split_and!; try done.
      * intros z [->|Hz]%elem_of_cons; [done|by apply elem_of_nil in Hz].
      * intros z l [= <- <-]. unfold tick_of. by rewrite Ety.
Qed.

(** What an operation on the queue leaves alone: everything of a task but its
    queue fields. *)
Definition only_links (m m' : gmap Z task_t) : Prop :=
  ∀ x, (λ t, with_t_sleep_next 0 (with_t_sleep_until 0 t)) <$> m' !! x =
       (λ t, with_t_sleep_next 0 (with_t_sleep_until 0 t)) <$> m !! x.

Lemma only_links_insert m x t t' : m !! x = Some t →
  with_t_sleep_next 0 (with_t_sleep_until 0 t') = with_t_sleep_next 0 (with_t_sleep_until 0 t) →
  only_links m (<[x := t']> m).
Proof.
  intros E H y. destruct (decide (y = x)) as [->|]; [rewrite lookup_insert_eq, E; simpl; by rewrite H|].
  by rewrite lookup_insert_ne.
Qed.
Lemma only_links_trans m1 m2 m3 : only_links m1 m2 → only_links m2 m3 → only_links m1 m3.
Proof. intros H1 H2 x. by rewrite H2, H1. Qed.

Lemma sleepq_insert_run s l t tk wake :
  queue_ok s l → t ∉ l → t ≠ 0 → k_tasks s !! t = Some tk → wake ≠ 0 →
  ∃ m q l1 l2, l = l1 ++ l2 ∧
    sleepq_insert t wake s = Ret tt (with_k_sleep_queue q (with_k_tasks m s)) ∧
    qok m q (l1 ++ t :: l2) ∧ only_links (k_tasks s) m ∧
    ∀ x, tick_of m x = if decide (x = t) then wake else tick_of (k_tasks s) x.
Proof.
  intros Hq Ht Ht0 Etk Hw. unfold sleepq_insert.
  rewrite (kbind_ret _ _ _ _ _ (upd_task_run t s tk _ Etk)). cbv beta.
  set (tk1 := with_t_sleep_next 0 (with_t_sleep_until wake tk)).
  set (m1 := <[t := tk1]> (k_tasks s)). set (s1 := with_k_tasks m1 s).
  unfold kbind at 1, kget at 1. change (k_sleep_queue s1) with (k_sleep_queue s).
  assert (m1 !! t = Some tk1) as Et1 by apply lookup_insert_eq.
  assert (qok m1 (k_sleep_queue s) l) as Hq1 by (apply qok_other; [done..|eauto]).
  assert (∀ x, tick_of m1 x = if decide (x = t) then wake else tick_of (k_tasks s) x) as Htick1
    by (intros x; apply tick_of_insert).
  assert (only_links (k_tasks s) m1) as Hol1 by (by eapply only_links_insert).
  assert (∃ b, (if k_sleep_queue s =? 0 then kret true
     else let* ht := get_task (k_sleep_queue s) in kret (wake <=? t_sleep_until ht)) s1 = Ret b s1 ∧
    if b then (∀ x, x ∈ l → wake ≤ tick_of m1 x)
    else ∃ x rest, l = x :: rest ∧ k_sleep_queue s = x ∧ tick_of m1 x < wake) as (b & Eb & Hb).
  { destruct Hq1 as [Hc1 _ Hs1 _]. destruct l as [|x rest].
    - simpl in Hc1. rewrite Hc1. exists true. split; [done|]. intros x Hx. by apply elem_of_nil in Hx.
    - pose proof Hc1 as (Hh & Hx0 & tx & Etx & _). rewrite Hh.
      replace (x =? 0) with false by (symmetry; by apply Z.eqb_neq). rewrite (get_task_bind _ s1 _ _ Etx).
      eexists. split; [reflexivity|].
      assert (tick_of m1 x = t_sleep_until tx) as Hx by (unfold tick_of; by rewrite Etx).
      destruct (Z.leb_spec wake (t_sleep_until tx)); [|exists x, rest; split_and!; try done; lia].
      apply StronglySorted_inv in Hs1 as [_ Hf]. rewrite Forall_forall in Hf.
      intros y [->|Hy]%elem_of_cons; [lia|]. specialize (Hf y Hy). lia. }
  rewrite (kbind_ret _ _ _ _ _ Eb). destruct b.
  - rewrite (kbind_ret _ _ _ _ _ (upd_task_run t s1 tk1 _ Et1)).
    eexists _, t, [], l. split; [done|]. split; [reflexivity|].
    split; [by apply qok_front|]. split.
    + eapply only_links_trans; [exact Hol1|]. by eapply only_links_insert.
    + intros x. etrans; [|apply Htick1]. by apply tick_of_link.
  - destruct Hb as (x & rest & -> & Hh & Hlt). rewrite Hh in *. pose proof Hq1 as [Hc1 Hn1 Hs1 _].
    destruct (sleepq_find_run s1 wake rest (S (size m1)) x Hc1) as (l1 & q & l2 & El & Ef & H1 & H2);
      [simpl; lia|pose proof (chain_length _ _ _ Hc1 Hn1); simpl in *; lia|].
    rewrite (kbind_ret _ _ _ _ _ Ef), El in *.
    destruct (chain_split _ _ _ _ _ Hc1) as (tq & Etq & Hcq).
    rewrite (get_task_bind _ s1 _ _ Etq). rewrite (kbind_ret _ _ _ _ _ (upd_task_run t s1 tk1 _ Et1)).
    assert (q ≠ t) as Hqt. { intros ->. apply Ht, elem_of_app. right. apply list_elem_of_here. }
    rewrite (upd_task_run q _ tq) by (simpl; by rewrite lookup_insert_ne).
    exists (<[q := with_t_sleep_next t tq]> (<[t := with_t_sleep_next (t_sleep_next tq) tk1]> m1)),
      (k_sleep_queue s), (l1 ++ [q]), l2. rewrite <-!app_assoc, Hh.
    split; [done|]. split; [rewrite <-Hh; reflexivity|].
    split; [|split].
    + apply qok_middle; try done. intros y Hy. destruct l2 as [|y0 l2]; [by apply elem_of_nil in Hy|].
      specialize (H2 y0 l2 eq_refl). simpl in H2.
      apply sorted_app_inv in Hs1 as (_ & Hs2 & _). apply StronglySorted_inv in Hs2 as [Hs2 _].
      apply StronglySorted_inv in Hs2 as [_ Hf]. rewrite Forall_forall in Hf.
      apply elem_of_cons in Hy as [->|Hy]; [simpl; lia|]. specialize (Hf y Hy). simpl in *. lia.
    + eapply only_links_trans; [exact Hol1|].
      eapply (only_links_trans _ (<[t := with_t_sleep_next (t_sleep_next tq) tk1]> m1));
        [by eapply only_links_insert|].
      eapply (only_links_insert _ q tq); [by rewrite lookup_insert_ne|done].
    + intros y. rewrite (tick_of_link _ q tq t y) by (by rewrite lookup_insert_ne).
      rewrite (tick_of_link m1 t tk1 _ y Et1). apply Htick1.
Qed.

Lemma with_queue_same s : with_k_sleep_queue (k_sleep_queue s) (with_k_tasks (k_tasks s) s) = s.
Proof. by destruct s. Qed.

Lemma drain_run cur l : ∀ fuel s, queue_ok s l → (length l < fuel)%nat →
  ∃ m q l1 l2, l = l1 ++ l2 ∧
    drain fuel cur s = Ret tt (with_k_sleep_queue q (with_k_tasks m s)) ∧ qok m q l2 ∧
    (∀ x, x ∈ l1 → tick_of (k_tasks s) x ≤ cur ∧
       ∃ t, k_tasks s !! x = Some t ∧ m !! x = Some (wake_sleeper t)) ∧
    (∀ x, x ∈ l2 → cur < tick_of (k_tasks s) x) ∧
    (∀ x, x ∉ l1 → m !! x = k_tasks s !! x).
Proof.
  induction l as [|x l IH]; intros fuel s Hq Hf; (destruct fuel as [|fuel]; [simpl in Hf; lia|]);
    cbn [drain]; unfold kget at 1; unfold kbind at 1.
  { pose proof (qo_chain _ _ _ Hq) as Hc. simpl in Hc. rewrite Hc.
    exists (k_tasks s), (k_sleep_queue s), [], []. rewrite with_queue_same.
    split_and!; try done; intros ? Hx; by apply elem_of_nil in Hx. }
  pose proof Hq as [(Hh & Hx0 & tx & Etx & Hc) Hn Hs Hu]. rewrite Hh.
  replace (x =? 0) with false by (symmetry; by apply Z.eqb_neq). rewrite (get_task_bind _ s _ _ Etx).
  assert (tick_of (k_tasks s) x = t_sleep_until tx) as Htx by (unfold tick_of; by rewrite Etx).
  apply NoDup_cons in Hn as [Hxl Hn]. apply StronglySorted_inv in Hs as [Hs Hfa].
  rewrite Forall_forall in Hfa. destruct (Z.leb_spec (t_sleep_until tx) cur) as [Hle|Hgt].
  - set (s1 := with_k_tasks (<[x := wake_sleeper tx]> (k_tasks s)) (with_k_sleep_queue (t_sleep_next tx) s)).
    change (∃ m q l1 l2, x :: l = l1 ++ l2 ∧
      drain fuel cur s1 = Ret tt (with_k_sleep_queue q (with_k_tasks m s)) ∧ qok m q l2 ∧
      (∀ y, y ∈ l1 → tick_of (k_tasks s) y ≤ cur ∧
         ∃ t, k_tasks s !! y = Some t ∧ m !! y = Some (wake_sleeper t)) ∧
      (∀ y, y ∈ l2 → cur < tick_of (k_tasks s) y) ∧ (∀ y, y ∉ l1 → m !! y = k_tasks s !! y)).
    assert (qok (k_tasks s) (t_sleep_next tx) l) as Hq0.
    { split; try done. intros y Hy. by apply Hu, list_elem_of_further. }
    assert (queue_ok s1 l) as Hq1 by (apply qok_other; [done..|eauto]).
    destruct (IH fuel s1 Hq1) as (m & q & l1 & l2 & -> & E & Q & H1 & H2 & H3); [simpl in Hf; lia|].
    assert (∀ y, y ≠ x → k_tasks s1 !! y = k_tasks s !! y) as Hs1 by (intros; by apply lookup_insert_ne).
    assert (∀ y, y ≠ x → tick_of (k_tasks s1) y = tick_of (k_tasks s) y) as Ht1.
    { intros y Hy. unfold tick_of. by rewrite Hs1. }
    assert (∀ y, y ∈ l1 ++ l2 → y ≠ x) as Hne by (intros y Hy ->; done).
    exists m, q, (x :: l1), l2. split; [done|]. split; [exact E|]. split; [done|]. split_and!.
    + intros y [->|Hy]%elem_of_cons.
      * split; [lia|]. exists tx. split; [done|]. rewrite H3; [apply lookup_insert_eq|].
        intros Hin. apply (Hne x); [apply elem_of_app; auto|done].
      * destruct (H1 y Hy) as [Hty (t & Et & Em)].
        assert (y ≠ x) by (apply Hne, elem_of_app; auto). rewrite Ht1 in Hty by done. rewrite Hs1 in Et by done. eauto.
    + intros y Hy. rewrite <-Ht1 by (apply Hne, elem_of_app; auto). auto.
    + intros y Hy. apply not_elem_of_cons in Hy as [Hyx Hy]. rewrite H3 by done. auto.
  - exists (k_tasks s), (k_sleep_queue s), [], (x :: l). rewrite with_queue_same.
    split_and!; try done.
    + intros ? Hx. by apply elem_of_nil in Hx.
    + intros y [->|Hy]%elem_of_cons; [lia|]. specialize (Hfa y Hy). lia.
Qed.

(** Inserting a task that is not queued keeps the sleep queue a sorted
    list without repetition: the new list is the old one with the task in it, and
    only the queue fields of tasks change. *)
Theorem sleepq_insert_ok s l t tk wake :
  queue_ok s l → t ∉ l → t ≠ 0 → k_tasks s !! t = Some tk → wake ≠ 0 →
  ∃ s' l', sleepq_insert t wake s = Ret tt s' ∧ queue_ok s' l' ∧ l' ≡ₚ t :: l ∧
    only_links (k_tasks s) (k_tasks s') ∧
    (∀ x, tick_of (k_tasks s') x = if decide (x = t) then wake else tick_of (k_tasks s) x).
Proof.
  intros Hq Ht Ht0 Etk Hw.
  destruct (sleepq_insert_run s l t tk wake Hq Ht Ht0 Etk Hw) as (m & q & l1 & l2 & -> & E & Q & O & T).
  eexists _, (l1 ++ t :: l2). split; [exact E|]. split_and!; try done.
  by rewrite <-Permutation_middle.
Qed.

(** One tick, on the whole queue. *)
Lemma timer_run s l :
  queue_ok s l → is_Some (k_tasks s !! k_current s) →
  let cur := u32 (k_tick s + 1) in
  ∃ s' due rest, timer_callback s = Ret tt s' ∧ k_tick s' = cur ∧ l = due ++ rest ∧
    queue_ok s' rest ∧
    (∀ x, x ∈ rest → cur < tick_of (k_tasks s) x) ∧
    (∀ x, x ∈ due → tick_of (k_tasks s) x ≤ cur ∧
       ∃ t t', k_tasks s !! x = Some t ∧ k_tasks s' !! x = Some t' ∧ t_sleep_until t' = 0 ∧
         t_state t' = (if t_state t =? TASK_WAITING then TASK_READY else t_state t)) ∧
    (∀ x, x ∉ due → (λ t, (t_state t, t_sleep_until t)) <$> k_tasks s' !! x =
                    (λ t, (t_state t, t_sleep_until t)) <$> k_tasks s !! x) ∧
    k_current s' = k_current s.
Proof.
  intros Hq [c Ec] cur. unfold timer_callback. unfold kget at 1. unfold kbind at 1.
  set (s0 := with_k_tick cur s).
  assert (∃ m0, count_tick s0 = Ret tt (with_k_tasks m0 s0) ∧ size m0 = size (k_tasks s) ∧
    ∀ x, ∃ f : task_t → task_t, m0 !! x = f <$> k_tasks s !! x ∧
      ∀ t, t_sleep_next (f t) = t_sleep_next t ∧ t_sleep_until (f t) = t_sleep_until t ∧
           t_state (f t) = t_state t) as (m0 & E0 & Hsz & Hm0).
  { unfold count_tick, current_task. unfold kbind at 1. change (k_current s0) with (k_current s).
    destruct (k_current s =? 0).
    - exists (k_tasks s). split; [by destruct s|]. split; [done|]. intros x. exists id.
      split; [|done]. by destruct (k_tasks s !! x).
    - rewrite (upd_task_run _ s0 _ _ Ec). eexists. split; [reflexivity|]. simpl.
      split; [by apply map_size_insert_Some|]. intros x. destruct (decide (x = k_current s)) as [->|Hne].
      + exists (λ t, with_t_ticks (u32 (t_ticks t + 1)) t). rewrite lookup_insert_eq, Ec. done.
      + exists id. rewrite lookup_insert_ne by done. split; [|done]. by destruct (k_tasks s !! x). }
  rewrite (kbind_ret (kmodify (with_k_tick cur)) _ s tt s0 eq_refl), (kbind_ret _ _ _ _ _ E0).
  set (s1 := with_k_tasks m0 s0).
  assert (qok m0 (k_sleep_queue s) l) as Hq0.
  { eapply qok_same; [|exact Hq]. intros x. destruct (Hm0 x) as (f & -> & Hf).
    destruct (k_tasks s !! x) as [t|]; [|done]. simpl. by destruct (Hf t) as (-> & -> & _). }
  assert (∀ x, tick_of m0 x = tick_of (k_tasks s) x) as Ht0.
  { intros x. unfold tick_of. destruct (Hm0 x) as (f & -> & Hf).
    destruct (k_tasks s !! x) as [t|]; [|done]. simpl. by destruct (Hf t) as (_ & -> & _). }
  destruct (drain_run cur l (S (size (k_tasks s))) s1 Hq0) as (m & q & l1 & l2 & El & E & Q & H1 & H2 & H3).
  { pose proof (chain_length _ _ _ (qo_chain _ _ _ Hq) (qo_nodup _ _ _ Hq)). lia. }
  eexists _, l1, l2. split; [exact E|].
  split_and!; try done.
  - intros x Hx. rewrite <-Ht0. by apply H2.
  - intros x Hx. destruct (H1 x Hx) as [Hle (t1 & Et1 & Em)]. simpl in Hle. rewrite Ht0 in Hle.
    split; [done|]. simpl in Et1. destruct (Hm0 x) as (f & E1 & Hf). rewrite E1 in Et1.
    destruct (k_tasks s !! x) as [t|]; [|done]. injection Et1 as <-. exists t, (wake_sleeper (f t)).
    destruct (Hf t) as (_ & _ & Hst).
    split_and!; try done; unfold wake_sleeper; simpl; rewrite Hst; by destruct (_ =? _).
  - intros x Hx. simpl. rewrite H3 by done. simpl. destruct (Hm0 x) as (f & -> & Hf).
    destruct (k_tasks s !! x) as [t|]; [|done]. simpl. by destruct (Hf t) as (_ & -> & ->).
Qed.

(** [timer_callback] wakes exactly the tasks that are due: at the new tick
    [cur], the tasks whose wake-up tick has come are a prefix of the queue; each
    is taken off the queue and, when it is WAITING, made READY; the others stay
    queued, all with a later tick, and no other task changes its state. *)
Theorem timer_wakes_due s l :
  queue_ok s l → is_Some (k_tasks s !! k_current s) →
  let cur := u32 (k_tick s + 1) in
  ∃ s' due rest, timer_callback s = Ret tt s' ∧ k_tick s' = cur ∧ l = due ++ rest ∧
    queue_ok s' rest ∧
    (∀ x, x ∈ rest → cur < tick_of (k_tasks s) x) ∧
    (∀ x, x ∈ due → tick_of (k_tasks s) x ≤ cur ∧
       ∃ t t', k_tasks s !! x = Some t ∧ k_tasks s' !! x = Some t' ∧ t_sleep_until t' = 0 ∧
         t_state t' = (if t_state t =? TASK_WAITING then TASK_READY else t_state t)) ∧
    (∀ x, x ∉ due → t_state <$> k_tasks s' !! x = t_state <$> k_tasks s !! x).
Proof.
  intros Hq Hc cur. destruct (timer_run s l Hq Hc) as (s' & due & rest & E & T & El & Q & H1 & H2 & H3 & _).
  exists s', due, rest. split_and!; try done. intros x Hx. specialize (H3 x Hx).
  destruct (k_tasks s' !! x), (k_tasks s !! x); simplify_eq/=; congruence.
Qed.

(** [n] ticks. *)
Fixpoint ticks (n : nat) : kM (kst D) unit :=
  match n with O => kret tt | S n => ticks n ;;; timer_callback end.

(** A task queued for [wake] waits up to that tick and is ready from it on. *)
Lemma ticks_run s l x wake n :
  queue_ok s l → is_Some (k_tasks s !! k_current s) → x ∈ l → tick_of (k_tasks s) x = wake →
  t_state <$> k_tasks s !! x = Some TASK_WAITING →
  0 ≤ k_tick s < wake → k_tick s + Z.of_nat n < 2 ^ 32 →
  ∃ s' l', ticks n s = Ret tt s' ∧ queue_ok s' l' ∧ k_tick s' = k_tick s + Z.of_nat n ∧
    k_current s' = k_current s ∧ is_Some (k_tasks s' !! k_current s') ∧
    if k_tick s' <? wake
    then x ∈ l' ∧ tick_of (k_tasks s') x = wake ∧ t_state <$> k_tasks s' !! x = Some TASK_WAITING
    else (x ∉ l') ∧ t_state <$> k_tasks s' !! x = Some TASK_READY.
Proof.
  intros Hq Hc Hx Hw Hst Ht. induction n as [|n IH]; intros Hn.
  { exists s, l. replace (k_tick s + Z.of_nat 0) with (k_tick s) by lia.
    destruct (Z.ltb_spec (k_tick s) wake); [|lia]. split_and!; try done. }
  destruct IH as (s1 & l1 & E1 & Q1 & T1 & C1 & I1 & H1); [lia|].
  destruct (timer_run s1 l1 Q1 I1) as (s2 & due & rest & E2 & T2 & -> & Q2 & R2 & D2 & O2 & C2).
  cbn [ticks]. rewrite (kbind_ret _ _ _ _ _ E1). exists s2, rest.
  unfold u32 in *. rewrite T1, Z.mod_small in * by lia.
  split; [exact E2|]. split; [done|]. split; [lia|]. split; [congruence|]. split.
  { rewrite C2. destruct I1 as [tc Ec]. destruct (decide (k_current s1 ∈ due)) as [Hd|Hd].
    - destruct (D2 _ Hd) as (_ & t & t' & _ & -> & _). eauto.
    - specialize (O2 _ Hd). rewrite Ec in O2. destruct (k_tasks s2 !! k_current s1); [eauto|done]. }
  rewrite T2. destruct (decide (x ∈ due)) as [Hd|Hd].
  - destruct (D2 x Hd) as (Hle & t & t' & Et & Et' & _ & Hs').
    destruct (Z.ltb_spec (k_tick s + Z.of_nat n) wake).
    2: { destruct H1 as [Hnx _]. by destruct Hnx; apply elem_of_app; left. }
    destruct H1 as (_ & Hw1 & Hst1). rewrite Hw1 in Hle. rewrite Et in Hst1. injection Hst1 as Hst1.
    destruct (Z.ltb_spec (k_tick s + Z.of_nat n + 1) wake); [lia|]. split.
    + pose proof (qo_nodup _ _ _ Q1) as (_ & Hd2 & _)%NoDup_app. by apply Hd2.
    + rewrite Et'. simpl. rewrite Hs', Hst1. done.
  - specialize (O2 x Hd). destruct (Z.ltb_spec (k_tick s + Z.of_nat n) wake).
    + destruct H1 as (Hin & Hw1 & Hst1). apply elem_of_app in Hin as [|Hin]; [done|].
      specialize (R2 x Hin). rewrite Hw1 in R2. destruct (Z.ltb_spec (k_tick s + Z.of_nat n + 1) wake); [|lia].
      split; [done|]. unfold tick_of in *.
      destruct (k_tasks s2 !! x), (k_tasks s1 !! x); simplify_eq/=. split; congruence.
    + destruct H1 as (Hin & Hst1). destruct (Z.ltb_spec (k_tick s + Z.of_nat n + 1) wake); [lia|].
      split; [intros Hr; apply Hin, elem_of_app; auto|].
      destruct (k_tasks s2 !! x), (k_tasks s1 !! x); simplify_eq/=. congruence.
Qed.


Lemma sleepq_before_run s t l2 l1 : ∀ fuel x p, chain (k_tasks s) x (l1 ++ p :: t :: l2) →
  NoDup (l1 ++ p :: t :: l2) → (S (length l1) < fuel)%nat →
  sleepq_before fuel x t s = Ret p s.
Proof.
  induction l1 as [|y l1 IH]; intros fuel x p Hc Hn Hf; (destruct fuel as [|fuel]; [lia|]);
    cbn [sleepq_before]; simpl in Hc; destruct Hc as (-> & Hx0 & tx & Etx & Hc).
  - replace (p =? 0) with false by (symmetry; by apply Z.eqb_neq). rewrite (get_task_bind _ s _ _ Etx).
    destruct Hc as (-> & _). by rewrite Z.eqb_refl.
  - replace (y =? 0) with false by (symmetry; by apply Z.eqb_neq). rewrite (get_task_bind _ s _ _ Etx).
    simpl in Hn. apply NoDup_cons in Hn as [Hy Hn]. simpl in Hf.
    assert (t_sleep_next tx ≠ t) as Hne.
    { destruct l1 as [|z l1]; simpl in Hc; destruct Hc as (-> & _).
      - apply NoDup_cons in Hn as [Hp _]. intros ->. apply Hp, list_elem_of_here.
      - simpl in Hn. apply NoDup_cons in Hn as [Hz _]. intros ->. apply Hz, elem_of_app. right.
        apply list_elem_of_further, list_elem_of_here. }
    replace (t_sleep_next tx =? t) with false by (symmetry; by apply Z.eqb_neq).
    apply IH; [done..|lia].
Qed.

Lemma sleepq_remove_run s l1 t l2 :
  queue_ok s (l1 ++ t :: l2) →
  ∃ m h t', sleepq_remove t s = Ret tt (with_k_sleep_queue h (with_k_tasks m s)) ∧ qok m h (l1 ++ l2) ∧
    m !! t = Some t' ∧ t_sleep_until t' = 0 ∧ t_sleep_next t' = 0 ∧
    only_links (k_tasks s) m ∧ (∀ x, x ≠ t → tick_of m x = tick_of (k_tasks s) x).
Proof.
  intros Hq. pose proof Hq as [Hc Hn _ Hu]. destruct (chain_split _ _ _ _ _ Hc) as (tk & Etk & _).
  assert (t ∈ l1 ++ t :: l2) as Htl by (apply elem_of_app; right; apply list_elem_of_here).
  specialize (Hu t Htl). unfold tick_of in Hu. rewrite Etk in Hu. apply Z.eqb_neq in Hu.
  unfold sleepq_remove. rewrite (get_task_bind _ s _ _ Etk), Hu.
  set (tk1 := with_t_sleep_until 0 tk). set (m1 := <[t := tk1]> (k_tasks s)). set (s1 := with_k_tasks m1 s).
  rewrite (kbind_ret (put_task t tk1) _ s tt s1 eq_refl). unfold kget at 1. unfold kbind at 1.
  change (k_sleep_queue s1) with (k_sleep_queue s).
  assert (m1 !! t = Some tk1) as Et1 by apply lookup_insert_eq.
  assert (only_links (k_tasks s) m1) as O1 by (by eapply only_links_insert).
  destruct (decide (l1 = [])) as [->|Hl1].
  - pose proof Hc as (Hh & _). rewrite Hh, Z.eqb_refl.
    set (s2 := with_k_sleep_queue (t_sleep_next tk) s1).
    rewrite (kbind_ret (kmodify (with_k_sleep_queue (t_sleep_next tk))) _ s1 tt s2 eq_refl).
    rewrite (upd_task_run t s2 tk1 _ Et1). cbn -[m1]. unfold m1. rewrite insert_insert_eq.
    exists (<[t := with_t_sleep_next 0 tk1]> (k_tasks s)), (t_sleep_next tk), (with_t_sleep_next 0 tk1).
    split; [reflexivity|]. split; [by apply (qok_drop_front _ (k_sleep_queue s))|].
    split_and!; [apply lookup_insert_eq|done..|by eapply only_links_insert|].
    intros x Hx. by rewrite tick_of_insert, decide_False.
  - destruct (exists_last Hl1) as (l0 & p & ->). rewrite <-app_assoc in *. cbn [app] in *.
    pose proof (chain_length _ _ _ Hc Hn) as Hlen. rewrite length_app in Hlen. cbn in Hlen.
    destruct (chain_split _ _ _ _ _ Hc) as (tp & Etp & _).
    assert (p ≠ 0) as Hp0%Z.eqb_neq.
    { apply (chain_live _ _ _ p Hc), elem_of_app. right. apply list_elem_of_here. }
    assert (p ≠ t) as Hpt.
    { intros ->. apply NoDup_app in Hn as (_ & _ & Hn). apply NoDup_cons in Hn as [Hn _].
      apply Hn, list_elem_of_here. }
    assert (k_sleep_queue s ≠ t) as Hh%Z.eqb_neq.
    { destruct l0 as [|z l0]; cbn in Hc, Hn; destruct Hc as (-> & _); [done|].
      apply NoDup_cons in Hn as [Hz _]. intros ->. apply Hz, elem_of_app. right.
      apply list_elem_of_further, list_elem_of_here. }
    assert (chain m1 (k_sleep_queue s) (l0 ++ p :: t :: l2)) as Hc1.
    { eapply chain_ext; [|exact Hc]. intros x [_ [tx Hx]]%(chain_live _ _ _ _ Hc).
      destruct (decide (x = t)) as [->|]; [by exists tk, tk1|].
      exists tx, tx. unfold m1. by rewrite lookup_insert_ne. }
    assert (size m1 = size (k_tasks s)) as Hsz by (by apply map_size_insert_Some).
    rewrite Hh. rewrite (kbind_ret _ _ _ _ _
      (sleepq_before_run s1 t l2 l0 (S (S (size (k_tasks s1)))) _ p Hc1 Hn ltac:(cbn -[size m1]; lia))).
    rewrite Hp0. assert (m1 !! p = Some tp) as Ep1 by (unfold m1; by rewrite lookup_insert_ne).
    set (s2 := with_k_tasks (<[p := with_t_sleep_next (t_sleep_next tk) tp]> m1) s1).
    rewrite (kbind_ret _ _ s1 tt s2); [|by rewrite (get_task_bind _ s1 _ _ Et1), (upd_task_run p s1 tp _ Ep1)].
    rewrite (upd_task_run t s2 tk1) by (cbn -[m1]; by rewrite lookup_insert_ne).
    cbn -[m1]. unfold m1. rewrite (insert_insert_ne (k_tasks s)), insert_insert_eq by done.
    set (m2 := <[p := with_t_sleep_next (t_sleep_next tk) tp]> (k_tasks s)).
    exists (<[t := with_t_sleep_next 0 tk1]> m2), (k_sleep_queue s), (with_t_sleep_next 0 tk1).
    split; [by destruct s|]. split; [by apply qok_drop_middle|].
    split_and!; [apply lookup_insert_eq|done..| |].
    + eapply (only_links_trans _ m2); [by eapply only_links_insert|].
      eapply (only_links_insert _ t tk); [by unfold m2; rewrite lookup_insert_ne|done].
    + intros x Hx. rewrite tick_of_insert, decide_False by done. by apply tick_of_link.
Qed.

(** Removing a queued task leaves the rest of the sleep queue in order, and
    the task with no wake-up tick and no link; only queue fields change. *)
Theorem sleepq_remove_ok s l1 t l2 :
  queue_ok s (l1 ++ t :: l2) →
  ∃ s' t', sleepq_remove t s = Ret tt s' ∧ queue_ok s' (l1 ++ l2) ∧
    k_tasks s' !! t = Some t' ∧ t_sleep_until t' = 0 ∧ t_sleep_next t' = 0 ∧
    only_links (k_tasks s) (k_tasks s').
Proof.
  intros Hq. destruct (sleepq_remove_run s l1 t l2 Hq) as (m & h & t' & E & Q & Et & H1 & H2 & O & _).
  eexists _, t'. split; [exact E|]. by split_and!.
Qed.
End spec.

(** ** A queue of two *)

(** Tasks 16, 17 and 18; 17 sleeps until tick 5 and 18 until tick 9. *)
Definition demo_sleep : kst unit :=
  let sleeper n u := with_t_state TASK_WAITING (with_t_sleep_next n (with_t_sleep_until u zero_task)) in
  with_k_tick 4 (with_k_sleep_queue 17
    (with_k_tasks (<[17 := sleeper 18 5]> (<[18 := sleeper 0 9]> (k_tasks demo_state))) demo_state)).

Lemma demo_sleep_queue : queue_ok demo_sleep [17; 18].
Proof.
  split.
  - split_and!; [done..|]. eexists. split; [reflexivity|]. split_and!; [done..|]. eexists.
    split; [reflexivity|done].
  - apply (bool_decide_eq_true_1 _). vm_compute. reflexivity.
  - repeat constructor. vm_compute. discriminate.
  - intros x Hx. rewrite !elem_of_cons, elem_of_nil in Hx.
    destruct Hx as [->|[->|[]]]; vm_compute; discriminate.
Qed.

Lemma sleepq_insert_ok_witness :
  ∃ s' l', sleepq_insert 16 7 demo_sleep = Ret tt s' ∧ queue_ok s' l' ∧ l' ≡ₚ 16 :: [17; 18] ∧
    only_links (k_tasks demo_sleep) (k_tasks s') ∧
    (∀ x, tick_of (k_tasks s') x = if decide (x = 16) then 7 else tick_of (k_tasks demo_sleep) x).
Proof.
  eapply (sleepq_insert_ok demo_sleep [17; 18] 16); [apply demo_sleep_queue|..].
  - rewrite !elem_of_cons, elem_of_nil. intros [?|[?|[]]]; done.
  - done.
  - vm_compute. reflexivity.
  - done.
Defined.

Lemma timer_wakes_due_witness :
  queue_ok demo_sleep [17; 18] ∧ u32 (k_tick demo_sleep + 1) = 5 ∧
  ∃ s', timer_callback demo_sleep = Ret tt s' ∧ k_tick s' = 5.
Proof.
  split; [apply demo_sleep_queue|]. split; [reflexivity|].
  destruct (timer_wakes_due demo_sleep [17; 18] demo_sleep_queue) as (s' & d & r & H & H' & _);
    [vm_compute; eauto|]. exists s'. split; [exact H|exact H'].
Defined.

Lemma sleepq_remove_ok_witness :
  ∃ s' t', sleepq_remove 18 demo_sleep = Ret tt s' ∧ queue_ok s' [17] ∧
    k_tasks s' !! 18 = Some t' ∧ t_sleep_until t' = 0 ∧ t_sleep_next t' = 0 ∧
    only_links (k_tasks demo_sleep) (k_tasks s').
Proof. apply (sleepq_remove_ok demo_sleep [17] 18 []), demo_sleep_queue. Defined.


(** Why insertion asks that the task is not queued: a task that sleeps again while
    it is still queued (a parent that SIGCHLD made READY before its tick came)
    loses the rest of the queue.  Here task 17 is queued again for tick 12: it
    becomes its own successor, and once the timer has passed tick 12 the queue is
    empty while task 18, due at tick 9, still waits. *)
Lemma sleepq_double_insert :
  match (sleepq_insert 17 12 ;;; kmodify (with_k_tick 12) ;;; timer_callback)%K demo_sleep with
  | Ret _ s => k_sleep_queue s = 0 ∧ t_state <$> k_tasks s !! 17 = Some TASK_READY ∧
               t_state <$> k_tasks s !! 18 = Some TASK_WAITING ∧ tick_of (k_tasks s) 18 = 9
  | _ => False
  end.
Proof. vm_compute. done. Qed.
