(* ===== verification/Sched.v ===== *)
(** * The ready ring and the task switch

    Models the scheduling half of [kernel/core/task.c] ([validate_task],
    [check_pid2_guard], [assert_on_kstack], [task_switch], [schedule]) and the
    policy of [kernel/modules/sched_rr/sched_round_robin.c].  The tasks form a
    circular list through [next]; [ring] states that shape, and [sched_inv] what
    a switch relies on.  A policy is a value of [kabi_scheduler_ops_t]; what
    [task_switch] needs of one is the class [FairPolicy], which both the
    round-robin module and the built-in fallback satisfy. *)

From stdpp Require Import base numbers list gmap strings.
From Stdlib Require Import ZArith Lia.
From S2P Require Import Prelude Kernel.

#[local] Open Scope Z_scope.

Definition STACK_MAGIC : Z := 14757395258967641292.
Definition KABI_SUCCESS : Z := 0.

(** [kabi_scheduler_ops_t]; a callback may be NULL.  [pick_next] returns its
    status and the task it stored through its argument. *)
Record kabi_scheduler_ops_t (D : Type) := mk_scheduler {
  pick_next : option (kM (kst D) (Z * Z));
  on_task_added : option (Z → kM (kst D) unit);
  on_task_removed : option (Z → kM (kst D) unit) }.
Arguments mk_scheduler {D}.
Arguments pick_next {D}.
Arguments on_task_added {D}.
Arguments on_task_removed {D}.

Section ops.
Context {D : Type}.
#[local] Open Scope kernel_scope.

(** A 64-bit word of a kernel stack. *)
Definition get_word (a : Z) : kM (kst D) Z := kget_opt (λ s, k_mem s !! a).

(** [spin_lock(&rq_lock)] spins for ever on a lock that is held: nothing else
    runs on this processor to release it. *)
Definition lock_rq : kM (kst D) unit :=
  let* s := kget in if k_rq_lock s then khang else kmodify (with_k_rq_lock true).
Definition unlock_rq : kM (kst D) unit := kmodify (with_k_rq_lock false).

Definition validate_task (t : Z) : kM (kst D) unit :=
  if t =? 0 then kpanic
  else
    let* tk := get_task t in
    if negb (t_magic tk =? TASK_MAGIC) then kpanic
    else if t_kernel_stack tk =? 0 then kpanic
    else if t_user_esp tk =? 0 then kpanic
    else
      let* guard := get_word (t_kernel_stack_base tk) in
      if negb (guard =? STACK_MAGIC) then kpanic else kret tt.

(** The loop of [check_pid2_guard]: looks for PID 2 and panics when the guard
    word of its stack is gone. *)
Fixpoint guard_walk (fuel : nat) (start t : Z) : kM (kst D) unit :=
  match fuel with
  | O => λ _, NoFuel
  | S fuel =>
      let* tk := get_task t in
      if (t_id tk =? 2) && negb (t_kernel_stack_base tk =? 0) then
        let* guard := get_word (t_kernel_stack_base tk) in
        if negb (guard =? STACK_MAGIC) then kpanic else kret tt
      else if (t_next tk =? 0) || (t_next tk =? start) then kret tt
      else guard_walk fuel start (t_next tk)
  end.
Definition check_pid2_guard : kM (kst D) unit :=
  let* s := kget in
  let t := k_ready_queue s in
  if t =? 0 then kret tt else guard_walk (S (size (k_tasks s))) t t.

Definition in_stack (base top a : Z) : bool := (base <=? a) && (a <? top).

Definition assert_on_kstack (regs : Z) : kM (kst D) unit :=
  let* c := current_task in
  if c =? 0 then kret tt
  else
    let* tk := get_task c in
    if (t_id tk =? 0) || (1000 <=? t_id tk) then kret tt
    else if in_stack (t_kernel_stack_base tk) (t_kernel_stack tk) regs then kret tt
    else
      let* s := kget in
      if in_stack (k_kstack_base s) (k_kstack_top s) regs then kret tt else kpanic.

(** ** The round-robin module *)

Fixpoint rr_walk (fuel : nat) (cur t : Z) : kM (kst D) Z :=
  match fuel with
  | O => λ _, NoFuel
  | S fuel =>
      if t =? 0 then kret 0
      else
        let* tk := get_task t in
        if (t_state tk =? TASK_READY) || (t =? cur) then kret t
        else
          let* s := kget in
          rr_walk fuel cur (if t_next tk =? 0 then k_ready_queue s else t_next tk)
  end.

Definition round_robin_pick_next : kM (kst D) (Z * Z) :=
  let* s := kget in
  let* cur := current_task in
  if k_ready_queue s =? 0 then kret (KABI_SUCCESS, cur)
  else
    let* first := (if cur =? 0 then kret (k_ready_queue s)
                   else let* c := get_task cur in
                        kret (if t_next c =? 0 then k_ready_queue s else t_next c)) in
    let* next := rr_walk (S (size (k_tasks s))) cur first in
    kret (KABI_SUCCESS, if next =? 0 then cur else next).

Definition round_robin_on_task_added (t : Z) : kM (kst D) unit := kret tt.
Definition round_robin_on_task_removed (t : Z) : kM (kst D) unit := kret tt.
Definition sched_rr : kabi_scheduler_ops_t D :=
  mk_scheduler (Some round_robin_pick_next) (Some round_robin_on_task_added)
    (Some round_robin_on_task_removed).

(** ** The switch *)

Variable current_scheduler : option (kabi_scheduler_ops_t D).

(** The consistency check: validates every task of the ring and tells whether the
    current one is among them.  The loop gives up by itself after [MAX_TASKS + 2]
    tasks, so a fuel of [MAX_TASKS + 3] is always enough. *)
Fixpoint check_queue (fuel : nat) (t cur count : Z) (seen : bool) : kM (kst D) bool :=
  match fuel with
  | O => λ _, NoFuel
  | S fuel =>
      validate_task t ;;;
      if MAX_TASKS + 2 <? count + 1 then kpanic
      else
        let seen := seen || (t =? cur) in
        let* tk := get_task t in
        let* s := kget in
        if (t_next tk =? 0) || (t_next tk =? k_ready_queue s) then kret seen
        else check_queue fuel (t_next tk) cur (count + 1) seen
  end.
Definition check_fuel : nat := Z.to_nat (MAX_TASKS + 3).

(** The fallback walk, when no policy is registered. *)
Fixpoint fallback (fuel : nat) (prev t rotations : Z) : kM (kst D) Z :=
  match fuel with
  | O => λ _, NoFuel
  | S fuel =>
      if (t =? 0) || (t =? prev) then kret prev
      else
        let* tk := get_task t in
        if t_state tk =? TASK_READY then kret t
        else if MAX_TASKS + 2 <? rotations + 1 then kret prev
        else fallback fuel prev (t_next tk) (rotations + 1)
  end.

(** The selection of the next task. *)
Definition select (prev : Z) : kM (kst D) Z :=
  match current_scheduler ≫= pick_next with
  | Some pick =>
      let* r := pick in
      kret (if r.1 =? KABI_SUCCESS then r.2 else prev)
  | None =>
      let* p := get_task prev in
      fallback check_fuel prev (t_next p) 0
  end.

(** Context of the incoming task: page directory, TSS stack, saved frame. *)
Definition restore (next : Z) : kM (kst D) unit :=
  validate_task next ;;;
  let* tk := get_task next in
  kmodify (with_k_directory (t_page_directory tk)) ;;;
  kmodify (with_k_tss (t_kernel_stack tk)) ;;;
  let* s := kget in
  if negb (in_stack (t_kernel_stack_base tk) (t_kernel_stack tk) (t_user_esp tk)) &&
     negb (in_stack (k_kstack_base s) (k_kstack_top s) (t_user_esp tk)) then kpanic
  else if negb (Z.land (t_user_esp tk) 7 =? 0) then kpanic
  else kmodify (with_k_switch_rsp (t_user_esp tk)).

Definition task_switch (regs : Z) : kM (kst D) unit :=
  let* prev := current_task in
  let* s := kget in
  if (prev =? 0) || (k_ready_queue s =? 0) then kret tt
  else
    let* seen := check_queue check_fuel (k_ready_queue s) prev 0 false in
    let* pt := get_task prev in
    if negb seen then
      if (t_id pt =? 0) || (1000 <=? t_id pt) then kret tt else kpanic
    else if 1 <? k_irq_depth s then kret tt
    else
      put_task prev (with_t_user_esp regs pt) ;;;
      lock_rq ;;;
      upd_task prev (λ t, if t_state t =? TASK_RUNNING then with_t_state TASK_READY t else t) ;;;
      let* next := select prev in
      if next =? prev then upd_task prev (with_t_state TASK_RUNNING) ;;; unlock_rq
      else
        kmodify (with_k_current next) ;;;
        upd_task next (with_t_state TASK_RUNNING) ;;;
        unlock_rq ;;;
        restore next.

Definition schedule (regs : Z) : kM (kst D) unit :=
  let* s := kget in
  if k_ready_queue s =? 0 then kpanic
  else if 1 <? k_irq_depth s then kret tt
  else assert_on_kstack regs ;;; task_switch regs.
End ops.

Lemma check_fuel_eq : Z.of_nat check_fuel = MAX_TASKS + 3.
Proof. done. Qed.
#[global] Opaque check_fuel.

(** ** The ring as a list *)

(** Following [next] from [a] through the tasks of [l] leads to [b]. *)
Fixpoint path (m : gmap Z task_t) (a : Z) (l : list Z) (b : Z) : Prop :=
  match l with
  | [] => a = b
  | x :: l => a = x ∧ x ≠ 0 ∧ ∃ t, m !! x = Some t ∧ path m (t_next t) l b
  end.

Record ring (m : gmap Z task_t) (h : Z) (l : list Z) : Prop := {
  rg_path : path m h l h;
  rg_nodup : NoDup l;
  rg_ne : l ≠ [] }.

Lemma path_app m l1 l2 b : ∀ a, path m a (l1 ++ l2) b ↔ ∃ c, path m a l1 c ∧ path m c l2 b.
Proof.
  induction l1 as [|x l1 IH]; intros a; simpl.
  - split; [eauto|]. by intros (c & -> & ?).
  - split.
    + intros (-> & Hx & t & Et & Hp). apply IH in Hp as (c & H1 & H2). exists c. eauto 6.
    + intros (c & (-> & Hx & t & Et & Hp) & H2). split_and!; try done. exists t. split; [done|].
      apply IH. eauto.
Qed.

Lemma path_live m l b : ∀ a x, path m a l b → x ∈ l → x ≠ 0 ∧ is_Some (m !! x).
Proof.
  induction l as [|y l IH]; intros a x; simpl; [intros _ H; by apply elem_of_nil in H|].
  intros (-> & Hy & t & Et & Hp) [->|Hx]%elem_of_cons; eauto.
Qed.

(** Two tables with the same links on a list. *)
Lemma path_ext m m' l b : ∀ a,
  (∀ x t, x ∈ l → m !! x = Some t → ∃ t', m' !! x = Some t' ∧ t_next t' = t_next t) →
  path m a l b → path m' a l b.
Proof.
  induction l as [|x l IH]; intros a H; simpl; [done|]. intros (-> & Hx & t & Et & Hp).
  destruct (H x t (list_elem_of_here _ _) Et) as (t' & Et' & En). split_and!; try done.
  exists t'. split; [done|]. rewrite En. apply IH; [|done]. intros y u Hy. by apply H, list_elem_of_further.
Qed.

Lemma ring_ext m m' h l :
  (∀ x t, x ∈ l → m !! x = Some t → ∃ t', m' !! x = Some t' ∧ t_next t' = t_next t) →
  ring m h l → ring m' h l.
Proof. intros H [H1 H2 H3]. split; try done. by eapply path_ext. Qed.

Lemma ring_insert m h l x t t' : m !! x = Some t → t_next t' = t_next t →
  ring m h l → ring (<[x := t']> m) h l.
Proof.
  intros E En. apply ring_ext. intros y u _ Ey. destruct (decide (y = x)) as [->|].
  - exists t'. rewrite lookup_insert_eq. split; [done|congruence].
  - exists u. by rewrite lookup_insert_ne.
Qed.

Lemma ring_length m h l : ring m h l → (length l ≤ size m)%nat.
Proof.
  intros [Hp Hn _]. rewrite <-size_dom, <-(size_list_to_set (C := gset Z) l) by done.
  apply subseteq_size. intros x Hx. apply elem_of_list_to_set in Hx. apply elem_of_dom.
  by eapply path_live.
Qed.

(** From any task of the ring, the others in order lead back to it. *)
Lemma ring_rotate m h l1 c l2 : ring m h (l1 ++ c :: l2) →
  ∃ tc, m !! c = Some tc ∧ c ≠ 0 ∧ path m (t_next tc) (l2 ++ l1) c ∧ (c ∉ l2 ++ l1) ∧ h ≠ 0.
Proof.
  intros [Hp Hn _]. pose proof Hp as (c0 & H1 & H2)%path_app. simpl in H2.
  destruct H2 as (-> & Hc & tc & Etc & H2). exists tc. split_and!; try done.
  - apply path_app. eauto.
  - apply NoDup_app in Hn as (_ & Hd & Hn). apply NoDup_cons in Hn as [Hn _].
    rewrite elem_of_app. intros [?|Hl1]; [done|]. apply (Hd c Hl1), list_elem_of_here.
  - destruct l1 as [|x l1]; simpl in Hp; by destruct Hp as (-> & ? & _).
Qed.

Definition ready (m : gmap Z task_t) (x : Z) : bool :=
  match m !! x with Some t => t_state t =? TASK_READY | None => false end.
(** The first READY task of a list. *)
Fixpoint first_ready (m : gmap Z task_t) (l : list Z) : option Z :=
  match l with [] => None | x :: l => if ready m x then Some x else first_ready m l end.

Lemma first_ready_Some m l x : first_ready m l = Some x →
  ∃ l1 l2, l = l1 ++ x :: l2 ∧ ready m x = true ∧ ∀ y, y ∈ l1 → ready m y = false.
Proof.
  induction l as [|y l IH]; simpl; [done|]. destruct (ready m y) eqn:E.
  - intros [= ->]. exists [], l. split_and!; try done. intros z Hz. by apply elem_of_nil in Hz.
  - intros (l1 & l2 & -> & Hx & Hl)%IH. exists (y :: l1), l2. split_and!; try done.
    intros z [->|Hz]%elem_of_cons; auto.
Qed.
Lemma first_ready_None m l : first_ready m l = None → ∀ x, x ∈ l → ready m x = false.
Proof.
  induction l as [|y l IH]; simpl; [intros _ x Hx; by apply elem_of_nil in Hx|].
  destruct (ready m y) eqn:E; [done|]. intros H x [->|Hx]%elem_of_cons; auto.
Qed.

(** ** The policies *)

(** What the switch relies on: the policy picks, from the rest of the ring after
    the current task, the first READY one, and the current task when there is
    none; it changes nothing. *)
Class FairPolicy {D} (sch : option (kabi_scheduler_ops_t D)) : Prop :=
  fair_select : ∀ (s : kst D) l1 c l2,
    ring (k_tasks s) (k_ready_queue s) (l1 ++ c :: l2) →
    Z.of_nat (length (l1 ++ c :: l2)) ≤ MAX_TASKS + 2 → k_current s = c →
    select sch c s = Ret (default c (first_ready (k_tasks s) (l2 ++ l1))) s.

Section policies.
Context {D : Type}.
Implicit Types s : kst D.

Lemma rr_walk_run s cur l : ∀ fuel t, path (k_tasks s) t l cur → cur ∉ l → cur ≠ 0 →
  is_Some (k_tasks s !! cur) → (length l < fuel)%nat →
  rr_walk fuel cur t s = Ret (default cur (first_ready (k_tasks s) l)) s.
Proof.
  induction l as [|x l IH]; intros fuel t Hp Hcl Hc Hlive Hf; (destruct fuel as [|fuel]; [simpl in Hf; lia|]);
    cbn [rr_walk first_ready].
  - simpl in Hp. subst t. destruct Hlive as [tc Etc]. apply Z.eqb_neq in Hc. rewrite Hc.
    rewrite (get_task_bind _ _ _ _ Etc), Z.eqb_refl, orb_true_r. done.
  - destruct Hp as (-> & Hx & tx & Etx & Hp). apply not_elem_of_cons in Hcl as [Hcx Hcl].
    apply Z.eqb_neq in Hx. rewrite Hx, (get_task_bind _ _ _ _ Etx). unfold ready. rewrite Etx.
    destruct (t_state tx =? TASK_READY); [done|].
    replace (x =? cur) with false by (symmetry; apply Z.eqb_neq; congruence). cbn [orb].
    rewrite kget_bind. simpl in Hf. rewrite <-(IH fuel (t_next tx)); try done; [|lia].
    replace (t_next tx =? 0) with false; [done|]. symmetry. apply Z.eqb_neq.
    destruct l; simpl in Hp; [congruence|]. destruct Hp as (-> & ? & _). done.
Qed.

Lemma fallback_run s prev l : ∀ fuel t n, path (k_tasks s) t l prev → prev ∉ l →
  (length l < fuel)%nat → n + Z.of_nat (length l) ≤ MAX_TASKS + 2 →
  fallback fuel prev t n s = Ret (default prev (first_ready (k_tasks s) l)) s.
Proof.
  induction l as [|x l IH]; intros fuel t n Hp Hcl Hf Hn; (destruct fuel as [|fuel]; [simpl in Hf; lia|]);
    cbn [fallback first_ready].
  - simpl in Hp. by rewrite Hp, Z.eqb_refl, orb_true_r.
  - destruct Hp as (-> & Hx & tx & Etx & Hp). apply not_elem_of_cons in Hcl as [Hcx Hcl].
    replace ((x =? 0) || (x =? prev)) with false.
    2: { symmetry. apply orb_false_iff. split; apply Z.eqb_neq; congruence. }
    rewrite (get_task_bind _ _ _ _ Etx). unfold ready. rewrite Etx.
    destruct (t_state tx =? TASK_READY); [done|]. cbn [length] in *.
    replace (MAX_TASKS + 2 <? n + 1) with false by (symmetry; apply Z.ltb_ge; lia).
    apply IH; [done..|lia|lia].
Qed.

Lemma rotate_length {A} (l1 : list A) c l2 : length (l1 ++ c :: l2) = S (length (l2 ++ l1)).
Proof. rewrite !length_app. simpl. lia. Qed.

#[export] Instance fallback_fair : FairPolicy (D := D) None.
Proof.
  intros s l1 c l2 Hr Hlen _. destruct (ring_rotate _ _ _ _ _ Hr) as (tc & Etc & _ & Hp & Hc & _).
  unfold select. simpl. rewrite (get_task_bind _ _ _ _ Etc). rewrite rotate_length in Hlen.
  pose proof check_fuel_eq. apply fallback_run; [done..|lia|lia].
Qed.

#[export] Instance round_robin_fair : FairPolicy (D := D) (Some sched_rr).
Proof.
  intros s l1 c l2 Hr Hlen Hcur. pose proof (ring_length _ _ _ Hr) as Hsz. rewrite rotate_length in Hsz.
  destruct (ring_rotate _ _ _ _ _ Hr) as (tc & Etc & Hc0 & Hp & Hc & Hh).
  unfold select. simpl. unfold round_robin_pick_next. apply Z.eqb_neq in Hh. pose proof Hc0 as Hc1.
  apply Z.eqb_neq in Hc1.
  unfold kbind at 1. rewrite kget_bind, current_bind, Hcur, Hh, Hc1.
  unfold kbind at 1. unfold kbind at 2. rewrite (get_task_bind _ _ _ _ Etc).
  assert (t_next tc ≠ 0) as Hn%Z.eqb_neq.
  { destruct (l2 ++ l1) as [|x l]; simpl in Hp; [congruence|]. destruct Hp as (-> & ? & _). done. }
  rewrite Hn. unfold kret at 1. rewrite (rr_walk_run s c (l2 ++ l1)); [|done..|eauto|lia].
  unfold kret. cbn [fst snd]. rewrite Z.eqb_refl.
  replace (_ =? 0) with false; [done|]. symmetry. apply Z.eqb_neq.
  destruct (first_ready _ _) as [x|] eqn:E; [|done]. simpl.
  apply first_ready_Some in E as (a & b & E & _). eapply path_live; [exact Hp|].
  rewrite E. apply elem_of_app. right. apply list_elem_of_here.
Qed.
End policies.

(** ** The invariant *)

Section spec.
Context {D : Type}.
Implicit Types s : kst D.

(** What [validate_task] asks of a task. *)
Record task_valid s (t : task_t) : Prop := {
  tv_magic : t_magic t = TASK_MAGIC;
  tv_stack : t_kernel_stack t ≠ 0;
  tv_esp : t_user_esp t ≠ 0;
  tv_guard : k_mem s !! t_kernel_stack_base t = Some STACK_MAGIC }.

(** An aligned address on the stack of the task or of the processor. *)
Definition frame_ok s (t : task_t) (a : Z) : Prop :=
  a ≠ 0 ∧ in_stack (t_kernel_stack_base t) (t_kernel_stack t) a || in_stack (k_kstack_base s) (k_kstack_top s) a = true ∧
  Z.land a 7 = 0.

(** The ring [l] holds the current task; every task of it is sound, and each one
    that does not run has a saved frame; the queue lock is free. *)
Record sched_inv s (l : list Z) : Prop := {
  si_ring : ring (k_tasks s) (k_ready_queue s) l;
  si_len : Z.of_nat (length l) ≤ MAX_TASKS + 2;
  si_cur : k_current s ∈ l;
  si_valid : ∀ x t, x ∈ l → k_tasks s !! x = Some t → task_valid s t;
  si_frame : ∀ x t, x ∈ l → x ≠ k_current s → k_tasks s !! x = Some t → frame_ok s t (t_user_esp t);
  si_run : ∀ x t, x ∈ l → x ≠ k_current s → k_tasks s !! x = Some t → t_state t ≠ TASK_RUNNING;
  si_lock : k_rq_lock s = false }.

Lemma get_word_bind {A} a s w (k : Z → kM (kst D) A) :
  k_mem s !! a = Some w → kbind (get_word a) k s = k w s.
Proof. intros E. unfold kbind, get_word, kget_opt. by rewrite E. Qed.

Lemma validate_run s x t : x ≠ 0 → k_tasks s !! x = Some t → task_valid s t →
  validate_task x s = Ret tt s.
Proof.
  intros Hx E [Hm Hs He Hg]. unfold validate_task. apply Z.eqb_neq in Hx, Hs, He.
  rewrite Hx, (get_task_bind _ _ _ _ E), Hm, Z.eqb_refl. cbn [negb].
  by rewrite Hs, He, (get_word_bind _ _ _ _ Hg).
Qed.

Lemma check_queue_run s cur l : ∀ fuel t n b,
  path (k_tasks s) t l (k_ready_queue s) → l ≠ [] → k_ready_queue s ∉ tail l → k_ready_queue s ≠ 0 →
  (∀ x u, x ∈ l → k_tasks s !! x = Some u → task_valid s u) →
  (length l ≤ fuel)%nat → n + Z.of_nat (length l) ≤ MAX_TASKS + 2 →
  check_queue fuel t cur n b s = Ret (b || bool_decide (cur ∈ l)) s.
Proof.
  induction l as [|x l IH]; intros fuel t n b Hp Hne Hh Hh0 Hv Hf Hn; [done|].
  destruct fuel as [|fuel]; [simpl in Hf; lia|]. cbn [check_queue length tail] in *.
  destruct Hp as (-> & Hx & tx & Etx & Hp).
  rewrite (kbind_ret _ _ _ _ _ (validate_run s x tx Hx Etx (Hv _ _ (list_elem_of_here _ _) Etx))).
  replace (MAX_TASKS + 2 <? n + 1) with false by (symmetry; apply Z.ltb_ge; lia).
  rewrite (get_task_bind _ _ _ _ Etx), kget_bind.
  assert ((x =? cur) = bool_decide (cur = x)) as ->.
  { destruct (bool_decide_reflect (cur = x)) as [->|Hne']; [apply Z.eqb_refl|].
    apply Z.eqb_neq. congruence. }
  destruct l as [|y l].
  - simpl in Hp. rewrite Hp, Z.eqb_refl, orb_true_r. unfold kret. do 2 f_equal.
    apply bool_decide_ext. rewrite elem_of_cons, elem_of_nil. tauto.
  - pose proof Hp as (Hy & Hy0 & _). rewrite Hy in *.
    apply not_elem_of_cons in Hh as [Hhy Hh].
    replace ((y =? 0) || (y =? k_ready_queue s)) with false.
    2: { symmetry. apply orb_false_iff. split; apply Z.eqb_neq; congruence. }
    rewrite (IH fuel y (n + 1)); [|done|done|done|done| |lia|lia].
    2: { intros z u Hz. by apply Hv, list_elem_of_further. }
    rewrite <-orb_assoc. do 2 f_equal. rewrite <-bool_decide_or. apply bool_decide_ext.
    by rewrite (elem_of_cons _ cur x).
Qed.

Lemma first_ready_insert m l x t : x ∉ l → first_ready (<[x := t]> m) l = first_ready m l.
Proof.
  induction l as [|y l IH]; simpl; [done|]. intros [Hy Hl]%not_elem_of_cons. rewrite IH by done.
  unfold ready. by rewrite lookup_insert_ne.
Qed.

Lemma restore_run s x t : x ≠ 0 → k_tasks s !! x = Some t → task_valid s t →
  frame_ok s t (t_user_esp t) →
  restore x s = Ret tt (with_k_switch_rsp (t_user_esp t) (with_k_tss (t_kernel_stack t)
                  (with_k_directory (t_page_directory t) s))).
Proof.
  intros Hx E Hv (_ & Hf & Ha). unfold restore. rewrite (kbind_ret _ _ _ _ _ (validate_run _ _ _ Hx E Hv)).
  rewrite (get_task_bind _ _ _ _ E), !kmodify_bind, kget_bind. cbn [k_kstack_base k_kstack_top].
  rewrite <-negb_orb.
  change (k_kstack_base _) with (k_kstack_base s). change (k_kstack_top _) with (k_kstack_top s).
  rewrite Hf, Ha. done.
Qed.

(** The task as [task_switch] saves it. *)
Definition saved (regs : Z) (t : task_t) : task_t :=
  if t_state t =? TASK_RUNNING then with_t_state TASK_READY (with_t_user_esp regs t)
  else with_t_user_esp regs t.

Lemma sched_inv_bounds s l : sched_inv s l → k_ready_queue s ≠ 0 ∧
  check_queue check_fuel (k_ready_queue s) (k_current s) 0 false s = Ret true s.
Proof.
  intros [Hr Hl Hc Hv _ _ _]. destruct Hr as [Hp Hn Hne]. destruct l as [|x l]; [done|].
  pose proof Hp as (Hx & Hx0 & _). rewrite Hx in *. split; [done|]. rewrite <-Hx.
  pose proof check_fuel_eq.
  rewrite (check_queue_run s _ (x :: l)); try done; try lia; rewrite ?Hx; try done.
  - by rewrite bool_decide_eq_true_2.
  - simpl. by apply NoDup_cons in Hn as [? _].
Qed.

(** Tasks of the ring may change as long as they stay sound. *)
Lemma sched_inv_step s s' l :
  sched_inv s l → k_ready_queue s' = k_ready_queue s → k_current s' ∈ l →
  k_rq_lock s' = false → k_mem s' = k_mem s →
  k_kstack_base s' = k_kstack_base s → k_kstack_top s' = k_kstack_top s →
  (∀ x t, x ∈ l → k_tasks s !! x = Some t → ∃ t', k_tasks s' !! x = Some t' ∧
     t_next t' = t_next t ∧ t_magic t' = t_magic t ∧ t_kernel_stack t' = t_kernel_stack t ∧
     t_kernel_stack_base t' = t_kernel_stack_base t ∧ t_user_esp t' ≠ 0 ∧
     (x ≠ k_current s' → t_state t' ≠ TASK_RUNNING ∧ frame_ok s t' (t_user_esp t'))) →
  sched_inv s' l.
Proof.
  intros [Hr Hl Hc Hv Hf Hrun Hlk] Erq Hc' Hlk' Em Eb Et H.
  assert (∀ x t', x ∈ l → k_tasks s' !! x = Some t' → task_valid s' t' ∧
    (x ≠ k_current s' → t_state t' ≠ TASK_RUNNING ∧ frame_ok s' t' (t_user_esp t'))) as Hall.
  { intros x t' Hx Ex. destruct (path_live _ _ _ _ x (rg_path _ _ _ Hr) Hx) as [_ [t Etx]].
    destruct (H x t Hx Etx) as (t1 & E1 & _ & H1 & H2 & H3 & H4 & H5). assert (t1 = t') as -> by congruence.
    destruct (Hv x t Hx Etx) as [V1 V2 V3 V4].
    split; [split; try congruence; by rewrite Em, H3|]. unfold frame_ok in *. by rewrite Eb, Et. }
  split; [|done|done| | | |done].
  - rewrite Erq. eapply ring_ext; [|exact Hr]. intros x t Hx Ex.
    destruct (H x t Hx Ex) as (t' & E' & En & _). eauto.
  - intros x t Hx Ex. by apply (Hall x t Hx Ex).
  - intros x t Hx Hne Ex. by apply (Hall x t Hx Ex).
  - intros x t Hx Hne Ex. by apply (Hall x t Hx Ex).
Qed.

Context (sch : option (kabi_scheduler_ops_t D)) `{!FairPolicy sch}.

(** The tasks after a switch from [c] to [n]. *)
Definition switched (m : gmap Z task_t) (c : Z) (tc : task_t) (n : Z) (tn : task_t) (regs : Z) : gmap Z task_t :=
  if n =? c then <[c := with_t_state TASK_RUNNING (saved regs tc)]> m
  else <[n := with_t_state TASK_RUNNING tn]> (<[c := saved regs tc]> m).

Lemma task_switch_run s l1 c l2 tc regs :
  sched_inv s (l1 ++ c :: l2) → k_current s = c → k_irq_depth s ≤ 1 →
  k_tasks s !! c = Some tc → frame_ok s tc regs →
  let n := default c (first_ready (k_tasks s) (l2 ++ l1)) in
  ∃ s' tn, task_switch sch regs s = Ret tt s' ∧ k_tasks s !! n = Some tn ∧
    sched_inv s' (l1 ++ c :: l2) ∧ k_current s' = n ∧ k_irq_depth s' = k_irq_depth s ∧
    k_kstack_base s' = k_kstack_base s ∧ k_kstack_top s' = k_kstack_top s ∧
    k_tasks s' = switched (k_tasks s) c tc n tn regs ∧
    (n ≠ c → k_switch_rsp s' = t_user_esp tn ∧ k_directory s' = t_page_directory tn ∧
             k_tss s' = t_kernel_stack tn).
Proof.
  intros Hinv Hcur Hirq Etc Hregs n.
  destruct (sched_inv_bounds s _ Hinv) as [Hrq Hcheck]. pose proof Hinv as [Hr Hl Hc Hv Hf Hrun Hlk].
  destruct (ring_rotate _ _ _ _ _ Hr) as (tc0 & Etc0 & Hc0 & Hp & Hcl & _).
  assert (tc0 = tc) as -> by congruence.
  assert (c ∈ l1 ++ c :: l2) as Hcin by (apply elem_of_app; right; apply list_elem_of_here).
  assert (n ∈ l1 ++ c :: l2 ∧ (n ≠ c → n ∈ l2 ++ l1)) as [Hnin Hnin'].
  { unfold n. destruct (first_ready _ _) as [x|] eqn:E; simpl; [|done].
    apply first_ready_Some in E as (a & b & E & _). assert (x ∈ l2 ++ l1) as Hx.
    { rewrite E. apply elem_of_app. right. apply list_elem_of_here. }
    split; [|done]. apply elem_of_app in Hx. rewrite elem_of_app, elem_of_cons. tauto. }
  destruct (path_live _ _ _ _ n (rg_path _ _ _ Hr) Hnin) as [Hn0 [tn Etn]].
  unfold task_switch. rewrite current_bind, kget_bind, Hcur.
  apply Z.eqb_neq in Hc0 as Hc0b, Hrq as Hrqb. rewrite Hc0b, Hrqb. cbn [orb]. rewrite Hcur in Hcheck.
  rewrite (kbind_ret _ _ _ _ _ Hcheck), (get_task_bind _ _ _ _ Etc). cbn [negb].
  replace (1 <? k_irq_depth s) with false by (symmetry; apply Z.ltb_ge; lia).
  unfold put_task. rewrite kmodify_bind. set (m1 := <[c := with_t_user_esp regs tc]> (k_tasks s)).
  set (s1 := with_k_tasks m1 s). unfold lock_rq. unfold kbind at 1. rewrite kget_bind.
  change (k_rq_lock s1) with (k_rq_lock s). rewrite Hlk. unfold kmodify at 1.
  set (s2 := with_k_rq_lock true s1).
  rewrite (upd_task_bind c s2 (with_t_user_esp regs tc)) by apply lookup_insert_eq.
  set (m3 := <[c := _]> (k_tasks s2)).
  assert (m3 = <[c := saved regs tc]> (k_tasks s)) as Em3 by (unfold m3; apply insert_insert_eq).
  rewrite Em3. clear m3 Em3. set (m3 := <[c := saved regs tc]> (k_tasks s)). set (s3 := with_k_tasks m3 s2).
  assert (t_next (saved regs tc) = t_next tc) as Hsn by (unfold saved; by destruct (t_state tc =? TASK_RUNNING)).
  assert (select sch c s3 = Ret n s3) as Esel.
  { rewrite (FairPolicy0 s3 l1 c l2); [|by eapply ring_insert|done|done].
    unfold n, s3, m3. cbn. by rewrite first_ready_insert. }
  rewrite (kbind_ret _ _ _ _ _ Esel). clear Esel.
  assert (∀ x t, x ∈ l1 ++ c :: l2 → x ≠ c → k_tasks s !! x = Some t →
    t_user_esp t ≠ 0 ∧ t_state t ≠ TASK_RUNNING ∧ frame_ok s t (t_user_esp t)) as Hoth.
  { intros x t Hx Hne Ex. split; [by apply (Hv x t)|]. rewrite <-Hcur in Hne. split; [by apply (Hrun x t)|by apply (Hf x t)]. }
  assert (frame_ok s (saved regs tc) (t_user_esp (saved regs tc)) ∧ t_state (saved regs tc) ≠ TASK_RUNNING) as [Hsf Hsr].
  { unfold saved. cbn -[frame_ok]. destruct (Z.eqb_spec (t_state tc) TASK_RUNNING); done. }
  assert (t_user_esp (saved regs tc) ≠ 0) as Hse by apply Hsf.
  destruct (Z.eqb_spec n c) as [Enc|Hnc].
  - rewrite (upd_task_bind c s3 (saved regs tc)) by apply lookup_insert_eq.
    eexists _, tn. split; [reflexivity|]. split; [done|]. unfold switched. rewrite Enc, Z.eqb_refl.
    split; [|split_and!; try done; cbn; apply insert_insert_eq].
    apply (sched_inv_step s); try done. cbn. unfold m3. rewrite insert_insert_eq.
    intros x t Hx Ex. destruct (decide (x = c)) as [->|Hxc].
    + eexists. rewrite lookup_insert_eq. assert (t = tc) as -> by congruence.
      split; [done|]. unfold saved. cbn. rewrite Hcur. destruct (t_state tc =? TASK_RUNNING); split_and!; try done; apply Hregs.
    + exists t. rewrite lookup_insert_ne by done. destruct (Hoth x t Hx Hxc Ex). split_and!; done.
  - rewrite kmodify_bind. set (s4 := with_k_current n s3).
    assert (m3 !! n = Some tn) as En3 by (unfold m3; by rewrite lookup_insert_ne).
    rewrite (upd_task_bind n s4 tn) by done. unfold unlock_rq. rewrite kmodify_bind.
    set (s5 := with_k_rq_lock false _). destruct (Hoth n tn Hnin Hnc Etn) as (He & Hst & Hfr).
    rewrite (restore_run s5 n (with_t_state TASK_RUNNING tn)); [|done|apply lookup_insert_eq| |done].
    2: { destruct (Hv n tn Hnin Etn) as [V1 V2 V3 V4]. by split. }
    eexists _, tn. split; [reflexivity|]. split; [done|]. unfold switched. apply Z.eqb_neq in Hnc as Hncb. rewrite Hncb.
    split; [|split_and!; done].
    apply (sched_inv_step s); try done. cbn. unfold m3.
    intros x t Hx Ex. destruct (decide (x = n)) as [->|Hxn].
    + eexists. rewrite lookup_insert_eq. split; [done|]. assert (t = tn) as -> by congruence. split_and!; done.
    + rewrite lookup_insert_ne by done. destruct (decide (x = c)) as [->|Hxc].
      * eexists. rewrite lookup_insert_eq. split; [done|]. assert (t = tc) as -> by congruence.
        split_and!; try done; unfold saved; by destruct (t_state tc =? TASK_RUNNING).
      * exists t. rewrite lookup_insert_ne by done. destruct (Hoth x t Hx Hxc Ex) as (? & ? & ?). split_and!; done.
Qed.

(** C12. A task switch in a sound scheduler state always completes: it neither
    panics nor deadlocks, keeps the state sound, and passes the processor to the
    first READY task after the current one in ring order, or leaves it with the
    current task when no other is READY.  The outgoing task keeps the interrupted
    frame and becomes READY if it was running; the incoming one is RUNNING, and its
    frame, page directory and kernel stack are the ones loaded; no other task
    changes. *)
Theorem task_switch_ok s l1 c l2 tc regs :
  sched_inv s (l1 ++ c :: l2) → k_current s = c → k_irq_depth s ≤ 1 →
  k_tasks s !! c = Some tc → frame_ok s tc regs →
  let n := default c (first_ready (k_tasks s) (l2 ++ l1)) in
  ∃ s' tn, task_switch sch regs s = Ret tt s' ∧ sched_inv s' (l1 ++ c :: l2) ∧
    k_current s' = n ∧ k_tasks s' !! n = Some tn ∧ t_state tn = TASK_RUNNING ∧
    t_user_esp <$> k_tasks s' !! c = Some regs ∧
    (n ≠ c → t_state <$> k_tasks s' !! c =
               Some (if t_state tc =? TASK_RUNNING then TASK_READY else t_state tc) ∧
             k_switch_rsp s' = t_user_esp tn ∧ k_directory s' = t_page_directory tn ∧
             k_tss s' = t_kernel_stack tn) ∧
    (∀ x, x ≠ c → x ≠ n → k_tasks s' !! x = k_tasks s !! x).
Proof.
  intros H1 H2 H3 H4 H5 n.
  destruct (task_switch_run s l1 c l2 tc regs H1 H2 H3 H4 H5) as (s' & tn & E & En & Hi & Hc & _ & _ & _ & Hm & Hsw).
  fold n in En, Hc, Hm, Hsw. unfold switched in *. destruct (Z.eqb_spec n c) as [Enc|Hnc].
  - exists s', (with_t_state TASK_RUNNING (saved regs tc)). rewrite Hm, Enc, lookup_insert_eq.
    split_and!; try done.
    + congruence.
    + unfold saved. by destruct (t_state tc =? TASK_RUNNING).
    + intros x Hx _. by rewrite lookup_insert_ne.
  - exists s', (with_t_state TASK_RUNNING tn). destruct (Hsw Hnc) as (? & ? & ?).
    rewrite Hm, (lookup_insert_ne _ n c), !lookup_insert_eq by done. split_and!; try done.
    + unfold saved. by destruct (t_state tc =? TASK_RUNNING).
    + intros _. split_and!; try done. unfold saved. by destruct (t_state tc =? TASK_RUNNING).
    + intros x Hx Hxn. by rewrite !lookup_insert_ne.
Qed.

(** The rest of the ring after a task, in order. *)
Definition after (l : list Z) (c : Z) (r : list Z) : Prop :=
  ∃ l1 l2, l = l1 ++ c :: l2 ∧ r = l2 ++ l1.

Lemma after_step l c a y b : after l c (a ++ y :: b) → after l y (b ++ c :: a).
Proof.
  intros (l1 & l2 & -> & E). symmetry in E. apply app_eq_inv in E as [(k & -> & E)|(k & -> & E)].
  - destruct k as [|z k]; simpl in E.
    + subst l1. exists [], (b ++ c :: a). rewrite !app_nil_r. done.
    + injection E as <- ->. exists (l1 ++ c :: a), k. by rewrite <-!app_assoc.
  - subst l1. exists k, (b ++ c :: l2). by rewrite <-!app_assoc.
Qed.

Lemma first_ready_app m l1 l2 : first_ready m (l1 ++ l2) =
  match first_ready m l1 with Some x => Some x | None => first_ready m l2 end.
Proof. induction l1 as [|x l1 IH]; simpl; [done|]. by destruct (ready m x). Qed.

(** [n] switches, the task running at each being interrupted at its [frame]. *)
Fixpoint switches (frame : Z → Z) (n : nat) : kM (kst D) unit :=
  match n with
  | O => kret tt
  | S n => kbind (kbind current_task (λ c, task_switch sch (frame c))) (λ _, switches frame n)
  end.

Lemma frame_ok_switched s s' m c tc n tn regs frame (l : list Z) :
  m !! c = Some tc → m !! n = Some tn →
  (∀ y t, y ∈ l → m !! y = Some t → frame_ok s t (frame y)) →
  k_kstack_base s' = k_kstack_base s → k_kstack_top s' = k_kstack_top s →
  ∀ y t, y ∈ l → switched m c tc n tn regs !! y = Some t → frame_ok s' t (frame y).
Proof.
  intros Ec En Hf Eb Et y t Hy Hm.
  assert (∃ t0, m !! y = Some t0 ∧ t_kernel_stack_base t = t_kernel_stack_base t0 ∧
    t_kernel_stack t = t_kernel_stack t0) as (t0 & E0 & E1 & E2).
  { unfold switched in Hm. destruct (n =? c); [|apply lookup_insert_Some in Hm as [[<- <-]|[_ Hm]]; [by exists tn|]];
      (apply lookup_insert_Some in Hm as [[<- <-]|[_ Hm]]; [|by exists t]); exists tc;
      unfold saved; by destruct (t_state tc =? TASK_RUNNING). }
  specialize (Hf y t0 Hy E0). unfold frame_ok in *. by rewrite E1, E2, Eb, Et.
Qed.

Lemma fair_run frame l x k : ∀ s c r1 r2, (length r1 ≤ k)%nat → sched_inv s l → k_current s = c →
  k_irq_depth s ≤ 1 → (∀ y t, y ∈ l → k_tasks s !! y = Some t → frame_ok s t (frame y)) →
  after l c (r1 ++ x :: r2) → ready (k_tasks s) x = true → NoDup (c :: r1 ++ x :: r2) →
  ∃ n s', (1 ≤ n ≤ S (length r1))%nat ∧ switches frame n s = Ret tt s' ∧ k_current s' = x.
Proof.
  induction k as [k IH] using lt_wf_ind. intros s c r1 r2 Hk Hi Hc Hirq Hfr Haft Hx Hnd.
  pose proof Haft as (l1 & l2 & -> & Er).
  assert (c ∈ l1 ++ c :: l2) as Hcin by (apply elem_of_app; right; apply list_elem_of_here).
  destruct (path_live _ _ _ _ c (rg_path _ _ _ (si_ring _ _ Hi)) Hcin) as [_ [tc Etc]].
  destruct (task_switch_run s l1 c l2 tc (frame c) Hi Hc Hirq Etc (Hfr c tc Hcin Etc))
    as (s1 & tn & E & En & Hi1 & Hc1 & Hirq1 & Eb & Et & Hm & _).
  rewrite <-Er, first_ready_app in Hc1, En, Hm. simpl in *. rewrite Hx in *.
  assert (kbind current_task (λ c, task_switch sch (frame c)) s = Ret tt s1) as E1.
  { by rewrite current_bind, Hc. }
  destruct (first_ready (k_tasks s) r1) as [y|] eqn:Hy; simpl in *.
  2: { exists 1%nat, s1. split; [lia|]. split; [|done]. cbn [switches]. by rewrite (kbind_ret _ _ _ _ _ E1). }
  apply first_ready_Some in Hy as (a & b & -> & Hyr & Ha). rewrite <-app_assoc in Haft, Hnd. cbn in Haft, Hnd.
  rewrite length_app in Hk. cbn in Hk.
  assert (NoDup (y :: b ++ x :: r2 ++ c :: a)) as Hnd'.
  { pose proof (Permutation_app_comm (c :: a) (y :: b ++ x :: r2)) as Hperm. cbn in Hperm.
    rewrite <-app_assoc in Hperm. cbn in Hperm. by rewrite <-Hperm. }
  destruct (IH (length b) ltac:(lia) s1 y b (r2 ++ c :: a)) as (n & s2 & Hn & E2 & Hc2); try done.
  - by rewrite Hirq1.
  - rewrite Hm. by eapply frame_ok_switched.
  - apply after_step in Haft. by rewrite <-app_assoc in Haft.
  - unfold ready. rewrite Hm. unfold switched. assert (x ≠ y ∧ x ≠ c) as [Hxy Hxc].
    { split; intros ->; [apply NoDup_cons in Hnd' as [Hnd' _]|apply NoDup_cons in Hnd as [Hnd _]];
        [apply Hnd'|apply Hnd]; rewrite !elem_of_app, !elem_of_cons, ?elem_of_app, ?elem_of_cons; tauto. }
    destruct (y =? c); rewrite !lookup_insert_ne by done; exact Hx.
  - exists (S n), s2. rewrite length_app. cbn. split; [lia|]. split; [|done].
    cbn [switches]. by rewrite (kbind_ret _ _ _ _ _ E1).
Qed.

(** C26. Round robin starves no one: a READY task of the ring is running after
    fewer switches than the ring has tasks, whatever the frames at which the tasks
    in between are interrupted. *)
Theorem round_robin_fairness s l x frame :
  sched_inv s l → k_irq_depth s ≤ 1 →
  (∀ y t, y ∈ l → k_tasks s !! y = Some t → frame_ok s t (frame y)) →
  x ∈ l → x ≠ k_current s → ready (k_tasks s) x = true →
  ∃ n s', (1 ≤ n < length l)%nat ∧ switches frame n s = Ret tt s' ∧ k_current s' = x.
Proof.
  intros Hi Hirq Hfr Hx Hxc Hr. pose proof (si_cur _ _ Hi) as (l1 & l2 & El)%list_elem_of_split.
  assert (x ∈ l2 ++ l1) as (r1 & r2 & Er)%list_elem_of_split.
  { rewrite El, elem_of_app, elem_of_cons in Hx. rewrite elem_of_app. tauto. }
  assert (NoDup (k_current s :: l2 ++ l1)) as Hnd.
  { pose proof (rg_nodup _ _ _ (si_ring _ _ Hi)) as Hn. rewrite El in Hn. revert Hn.
    apply NoDup_Permutation_proper. rewrite <-Permutation_middle. by rewrite (Permutation_app_comm l1). }
  rewrite Er in Hnd.
  destruct (fair_run frame l x (length r1) s (k_current s) r1 r2) as (n & s' & Hn & E & Hc); try done.
  - exists l1, l2. done.
  - exists n, s'. split; [|done]. rewrite El, rotate_length, Er, length_app. cbn. lia.
Qed.

(** [schedule] on a sound frame outside a nested interrupt is the task switch. *)
Lemma schedule_switches s l tc regs :
  sched_inv s l → k_irq_depth s ≤ 1 → k_tasks s !! k_current s = Some tc → frame_ok s tc regs →
  schedule sch regs s = task_switch sch regs s.
Proof.
  intros Hi Hirq Etc (_ & Hf & _). unfold schedule. rewrite kget_bind.
  destruct (sched_inv_bounds s l Hi) as [Hrq%Z.eqb_neq _]. rewrite Hrq.
  replace (1 <? k_irq_depth s) with false by (symmetry; apply Z.ltb_ge; lia).
  assert (assert_on_kstack regs s = Ret tt s) as E; [|by rewrite (kbind_ret _ _ _ _ _ E)].
  unfold assert_on_kstack. rewrite current_bind. destruct (k_current s =? 0); [done|].
  rewrite (get_task_bind _ _ _ _ Etc). destruct ((t_id tc =? 0) || (1000 <=? t_id tc)); [done|].
  destruct (in_stack (t_kernel_stack_base tc) _ regs); [done|]. rewrite kget_bind. simpl in Hf. by rewrite Hf.
Qed.
End spec.

(** ** A ring of three *)

(** Tasks 16 (running), 17 (waiting) and 18 (ready), each with a stack of 16 KB
    whose lowest word is the guard. *)
Definition demo_sched : kst unit :=
  let base x := x * 65536 in
  let tk x n st := with_t_state st (with_t_id (x - 15) (with_t_next n (with_t_kernel_stack_base (base x)
    (with_t_kernel_stack (base x + 16384) (with_t_user_esp (base x + 16000) zero_task))))) in
  with_k_mem {[base 16 := STACK_MAGIC; base 17 := STACK_MAGIC; base 18 := STACK_MAGIC]}
    (with_k_tasks {[16 := tk 16 17 TASK_RUNNING; 17 := tk 17 18 TASK_WAITING; 18 := tk 18 16 TASK_READY]}
       demo_state).

Lemma demo_sched_inv : sched_inv demo_sched ([] ++ 16 :: [17; 18]).
Proof.
  assert (∀ x t, x ∈ [16; 17; 18] → k_tasks demo_sched !! x = Some t →
    task_valid demo_sched t ∧ frame_ok demo_sched t (t_user_esp t) ∧ (x ≠ 16 → t_state t ≠ TASK_RUNNING)) as H.
  { intros x t Hx. rewrite !elem_of_cons, elem_of_nil in Hx.
    destruct Hx as [->|[->|[->|[]]]]; intros [= <-]; (split; [by split|]); by split_and!. }
  split; try done.
  - split; [|by apply (bool_decide_eq_true_1 _)|done].
    split_and!; [done..|]. eexists. split; [reflexivity|].
    split_and!; [done..|]. eexists. split; [reflexivity|].
    split_and!; [done..|]. eexists. by split; [reflexivity|].
  - apply list_elem_of_here.
  - intros x t Hx E. by apply (H x t).
  - intros x t Hx Hne E. by apply (H x t).
  - intros x t Hx Hne E. by apply (H x t).
Qed.

Lemma task_switch_ok_witness :
  ∃ s', task_switch (Some sched_rr) 1064000 demo_sched = Ret tt s' ∧
    k_current s' = 18 ∧ sched_inv s' [16; 17; 18].
Proof.
  destruct (task_switch_ok (Some sched_rr) demo_sched [] 16 [17; 18]
    (default zero_task (k_tasks demo_sched !! 16)) 1064000 demo_sched_inv)
    as (s' & tn & E & Hi & Hc & _); try (vm_compute; reflexivity).
  - done.
  - by split_and!.
  - exists s'. split; [exact E|]. split; [exact Hc|exact Hi].
Defined.

Lemma round_robin_fairness_witness :
  ∃ n s', (1 ≤ n < 3)%nat ∧
    switches (Some sched_rr) (λ x, x * 65536 + 15000) n demo_sched = Ret tt s' ∧ k_current s' = 18.
Proof.
  apply (round_robin_fairness (Some sched_rr) demo_sched [16; 17; 18] 18 _ demo_sched_inv); try done.
  - intros y t Hy. rewrite !elem_of_cons, elem_of_nil in Hy.
    destruct Hy as [->|[->|[->|[]]]]; intros [= <-]; by split_and!.
  - rewrite !elem_of_cons. auto.
Defined.
