(* ===== verification/Task.v ===== *)
(** * Creating tasks

    Models [init_tasking], [create_ap_idle_task], [create_kernel_task],
    [sys_fork] and [spawn_process] of [kernel/core/task.c]: the task structure,
    the kernel stack with the interrupt frame the first switch restores, the
    inherited descriptors, and the place in the ready ring.  Kernel stacks are
    words of [k_mem] at addresses divisible by 8.  A page directory is known here
    by its address and by the user bytes it maps: [clone_page_directory] gives the
    new address space the bytes of the old one (what copy-on-write achieves), and
    [promote_to_user_table], which only changes the rights, has no effect. *)

From stdpp Require Import base numbers list gmap strings.
From Stdlib Require Import ZArith Lia.
From S2P Require Import Prelude Kernel Pipe Vfs FdInv Sched.

#[local] Open Scope Z_scope.

Definition KSTACK_SIZE : Z := 16384.
Definition KABI_ENOMEM : Z := -3.
Definition CAP_REBOOT : Z := 1.
Definition CAP_SHUTDOWN : Z := 2.
Definition CAP_SYS_ADMIN : Z := 4.

(** Offsets of [registers_t]: gs fs es ds r15..r8 rbp rdi rsi rdx rcx rbx rax
    int_no err_code rip cs rflags rsp ss, 8 bytes each. *)
Definition REG_RBP : Z := 96.
Definition REG_RAX : Z := 144.
Definition REG_RIP : Z := 168.
Definition REG_CS : Z := 176.
Definition REG_RSP : Z := 192.
Definition FRAME_SIZE : Z := 208.

(** The words of a kernel stack. *)
Definition stack_words : nat := Z.to_nat (KSTACK_SIZE / 8).
Lemma stack_words_eq : Z.of_nat stack_words = KSTACK_SIZE / 8.
Proof. done. Qed.
#[global] Opaque stack_words.

(** [n] words of value [w] from address [a] up. *)
Fixpoint fill (n : nat) (a w : Z) (m : gmap Z Z) : gmap Z Z :=
  match n with O => m | S n => <[a := w]> (fill n (a + 8) w m) end.
Fixpoint unfill (n : nat) (a : Z) (m : gmap Z Z) : gmap Z Z :=
  match n with O => m | S n => delete a (unfill n (a + 8) m) end.

(** Successive [*(--stack) = w]. *)
Fixpoint push_words (stack : Z) (ws : list Z) (m : gmap Z Z) : Z * gmap Z Z :=
  match ws with
  | [] => (stack, m)
  | w :: ws => push_words (stack - 8) ws (<[stack - 8 := w]> m)
  end.

Definition align_up (a n : Z) : Z := (a + n - 1) / n * n.

Section ops.
Context {D : Type} {Drv : FsDriver D}.
#[local] Open Scope kernel_scope.
Variable current_scheduler : option (kabi_scheduler_ops_t D).

Definition put_word (a w : Z) : kM (kst D) unit :=
  let* _ := get_word a in kmodify (λ s, with_k_mem (<[a := w]> (k_mem s)) s).

(** [kmalloc(0x4000, 1, &phys)], poisoned with 0xCC bytes: every word of it, the
    guard at its base included, is [STACK_MAGIC]. *)
Definition alloc_stack : kM (kst D) Z := λ s,
  let base := align_up (k_fresh s) 4096 in
  Ret base (with_k_fresh (base + KSTACK_SIZE) (with_k_stacks ({[base]} ∪ k_stacks s)
    (with_k_mem (fill stack_words base STACK_MAGIC (k_mem s)) s))).

(** [kfree] of a kernel stack. *)
Definition kfree_stack (base : Z) : kM (kst D) unit := λ s,
  if decide (base ∈ k_stacks s) then
    Ret tt (with_k_stacks (k_stacks s ∖ {[base]})
      (with_k_mem (unfill stack_words base (k_mem s)) s))
  else Fault.

(** A new address space, with the bytes of [src]. *)
Definition clone_page_directory (src : Z) : kM (kst D) Z :=
  let* a := kmalloc in
  kmodify (λ s, with_k_pdirs (<[a := default ∅ (k_pdirs s !! src)]> (k_pdirs s)) s) ;;;
  kret a.

(** A task structure: zeroed, with its magic number. *)
Definition new_task (t : task_t) : kM (kst D) Z :=
  let* a := kmalloc in put_task a t ;;; kret a.

(** [next_pid++] *)
Definition take_pid : kM (kst D) Z :=
  let* s := kget in kmodify (with_k_next_pid (u32 (k_next_pid s + 1))) ;;; kret (k_next_pid s).

(** A frame pushed on an empty stack. *)
Definition push_frame (top : Z) (ws : list Z) : kM (kst D) Z := λ s,
  let r := push_words top ws (k_mem s) in Ret r.1 (with_k_mem r.2 s).

(** The frame of a kernel task, in the order it is pushed: ss rsp rflags cs rip
    err_code int_no, fifteen registers, ds es fs gs.  The word for RSP is
    [*(--stack) = (uint64_t)stack + 8], whose value C leaves undefined: [rsp]. *)
Definition kernel_frame (entry rsp : Z) : list Z :=
  [16; rsp; 514; 8; entry; 0; 32] ++ replicate 15 0 ++ [16; 16; 16; 16].
(** The frame of a user task. *)
Definition user_frame (entry user_stack : Z) : list Z :=
  [35; user_stack; 514; 27; entry; 0; 0] ++ replicate 15 0 ++ [35; 35; 35; 35].

(** [while (tail->next && tail->next != ready_queue) tail = tail->next] *)
Fixpoint find_tail (fuel : nat) (tail : Z) : kM (kst D) Z :=
  match fuel with
  | O => λ _, NoFuel
  | S fuel =>
      let* t := get_task tail in
      let* s := kget in
      if (t_next t =? 0) || (t_next t =? k_ready_queue s) then kret tail
      else find_tail fuel (t_next t)
  end.

Definition create_kernel_task (entry rsp : Z) : kM (kst D) Z :=
  let* a := new_task zero_task in
  let* id := take_pid in
  let* s := kget in
  upd_task a (λ t, with_t_capabilities 0 (with_t_state TASK_READY
    (with_t_page_directory (k_kernel_directory s) (with_t_id id t)))) ;;;
  let* base := alloc_stack in
  let* esp := push_frame (base + KSTACK_SIZE) (kernel_frame entry rsp) in
  upd_task a (λ t, with_t_user_esp esp (with_t_kernel_stack (base + KSTACK_SIZE)
    (with_t_kernel_stack_base base t))) ;;;
  lock_rq ;;;
  let* s := kget in
  let* tail := find_tail (S (size (k_tasks s))) (k_ready_queue s) in
  upd_task a (with_t_next (k_ready_queue s)) ;;;
  upd_task tail (with_t_next a) ;;;
  unlock_rq ;;;
  kret a.

(** ** Fork *)

(** [memory_copy] of [n] words. *)
Fixpoint copy_words (n : nat) (src dst : Z) : kM (kst D) unit :=
  match n with
  | O => kret tt
  | S n => let* w := get_word src in put_word dst w ;;; copy_words n (src + 8) (dst + 8)
  end.

(** The relocation of the saved frame pointers, from [parent_rbp] in the source
    stack and [child_rbp] in the copy; the code panics at the 65th frame, so a
    fuel of 65 is enough. *)
Fixpoint fix_rbp (fuel : nat) (depth base top shift parent_rbp child_rbp : Z) : kM (kst D) unit :=
  match fuel with
  | O => λ _, NoFuel
  | S fuel =>
      if negb (in_stack base top parent_rbp) then kret tt
      else if 64 <? depth + 1 then kpanic
      else
        let* next := get_word parent_rbp in
        if negb (in_stack base top next) then kret tt
        else
          put_word child_rbp (u64 (next + shift)) ;;;
          fix_rbp fuel (depth + 1) base top shift next (u64 (next + shift))
  end.

(** Phases 3 and 4: the used part of the stack that holds [regs] is copied to the
    top of the child's stack, the copied frame returns 0, and the frame pointers
    that point into the source stack are moved by the distance of the stacks.
    Returns the address of the child's frame. *)
Definition clone_stack (regs pbase ptop ctop : Z) : kM (kst D) Z :=
  let* s := kget in
  let on_cpu := in_stack (k_kstack_base s) (k_kstack_top s) regs in
  let top := if on_cpu then k_kstack_top s else ptop in
  let used := u64 (top - regs) in
  if KSTACK_SIZE <? used then kpanic
  else if negb (Z.land used 7 =? 0) then kfault
  else
    let frame := ctop - used in
    copy_words (Z.to_nat (used / 8)) regs frame ;;;
    let shift := ctop - top in
    put_word (frame + REG_RAX) 0 ;;;
    let* cs := get_word (regs + REG_CS) in
    (if Z.land cs 3 =? 0 then
       let* rsp := get_word (frame + REG_RSP) in put_word (frame + REG_RSP) (u64 (rsp + shift))
     else kret tt) ;;;
    let base := if top =? k_kstack_top s then k_kstack_base s else pbase in
    let* rbp := get_word (regs + REG_RBP) in
    (if in_stack base top rbp then
       put_word (frame + REG_RBP) (u64 (rbp + shift)) ;;;
       fix_rbp 65 0 base top shift rbp (u64 (rbp + shift))
     else put_word (frame + REG_RBP) rbp) ;;;
    kret frame.

(** Phase 5: [n] descriptors from [i] on are shared with the child. *)
Fixpoint inherit_fds (n : nat) (i parent child : Z) : kM (kst D) unit :=
  match n with
  | O => kret tt
  | S n =>
      let* p := get_task parent in
      let* f := kget_opt (λ _, zlookup (t_fd_table p) i) in
      (if f =? 0 then kret tt else set_task_fd child i f ;;; retain f) ;;;
      inherit_fds n (i + 1) parent child
  end.

(** The child goes behind its parent in the ring. *)
Definition link_after (parent child : Z) : kM (kst D) unit :=
  lock_rq ;;;
  let* p := get_task parent in
  upd_task child (with_t_next (t_next p)) ;;;
  upd_task parent (with_t_next child) ;;;
  unlock_rq.

Definition notify_added (t : Z) : kM (kst D) unit :=
  match current_scheduler ≫= on_task_added with Some f => f t | None => kret tt end.
Definition notify_removed (t : Z) : kM (kst D) unit :=
  match current_scheduler ≫= on_task_removed with Some f => f t | None => kret tt end.

(** Phase 2: the child's structure and its empty kernel stack. *)
Definition fork_alloc (parent : Z) (p : task_t) (directory : Z) : kM (kst D) (Z * Z * Z) :=
  let* child := new_task zero_task in
  let* id := take_pid in
  upd_task child (λ t, with_t_cwd (t_cwd p) (with_t_state TASK_READY (with_t_parent parent
    (with_t_page_directory directory (with_t_id id t))))) ;;;
  let* base := alloc_stack in
  upd_task child (λ t, with_t_kernel_stack (base + KSTACK_SIZE) (with_t_kernel_stack_base base t)) ;;;
  kret (child, id, base).

Definition sys_fork (regs : Z) : kM (kst D) Z :=
  let* parent := current_task in
  let* p := get_task parent in
  let* directory := clone_page_directory (t_page_directory p) in
  kmodify (with_k_directory (t_page_directory p)) ;;;
  let* s := kget in
  if MAX_TASKS <? k_next_pid s then kret (- KABI_ENOMEM)
  else
    let* r := fork_alloc parent p directory in
    let child := r.1.1 in
    let top := r.2 + KSTACK_SIZE in
    let* frame := clone_stack regs (t_kernel_stack_base p) (t_kernel_stack p) top in
    upd_task child (with_t_user_esp frame) ;;;
    inherit_fds 32 0 parent child ;;;
    link_after parent child ;;;
    notify_added child ;;;
    kret r.1.2.

(** ** Spawn *)

(** [if (!fd_table\[j\]) { vfs_init_standard_fds(new_task); break; }] *)
Definition ensure_standard (t : Z) : kM (kst D) unit :=
  let* tk := get_task t in
  if existsb (λ f, f =? 0) (take 3 (t_fd_table tk)) then vfs_init_standard_fds t else kret tt.

Definition spawn_process (entry user_stack : Z) : kM (kst D) Z :=
  let* parent := current_task in
  let* s := kget in
  let* directory := clone_page_directory (k_kernel_directory s) in
  let* s := kget in
  if MAX_TASKS <? k_next_pid s then kret (-1)
  else
    let* child := new_task zero_task in
    let* id := take_pid in
    upd_task child (λ t, with_t_user_eip 0 (with_t_next 0 (with_t_state TASK_READY
      (with_t_parent parent (with_t_page_directory directory (with_t_id id t)))))) ;;;
    inherit_fds 32 0 parent child ;;;
    let* p := get_task parent in
    upd_task child (with_t_cwd (t_cwd p)) ;;;
    ensure_standard child ;;;
    let* base := alloc_stack in
    upd_task child (λ t, with_t_kernel_stack (base + KSTACK_SIZE) (with_t_kernel_stack_base base t)) ;;;
    link_after parent child ;;;
    notify_added child ;;;
    let* frame := push_frame (base + KSTACK_SIZE) (user_frame entry user_stack) in
    upd_task child (with_t_user_esp frame) ;;;
    kret id.

(** ** Start-up *)

Definition create_ap_idle_task (cpu_id stack_top : Z) : kM (kst D) Z :=
  let* s := kget in
  let* a := new_task (with_t_page_directory (k_kernel_directory s) (with_t_id (u32 (1000 + cpu_id))
    (with_t_state TASK_READY (with_t_kernel_stack_base (u64 (stack_top - 8192))
      (with_t_kernel_stack stack_top zero_task))))) in
  (if cpu_id =? 0 then kmodify (with_k_idle a) else kret tt) ;;;
  kret a.

(** [init_tasking], given the stack pointer it runs with and the bounds of the
    boot stack in the kernel image. *)
Definition init_tasking (esp mb2_base mb2_top idle_entry rsp : Z) : kM (kst D) unit :=
  let on_mb2 := (mb2_base <=? esp) && (esp <=? mb2_top) in
  let base := if on_mb2 then mb2_base else 524288 in
  let top := if on_mb2 then mb2_top else 589824 in
  let* s := kget in
  let* c := new_task (with_t_page_directory (k_kernel_directory s) (with_t_state TASK_RUNNING zero_task)) in
  kmodify (with_k_current c) ;;;
  upd_task c (λ t, with_t_user_esp top (with_t_kernel_stack top (with_t_kernel_stack_base base t))) ;;;
  kmodify (λ s, with_k_mem (<[base := STACK_MAGIC]> (k_mem s)) s) ;;;
  let* id := take_pid in
  upd_task c (λ t, with_t_id id (with_t_cwd (str "/")
    (with_t_capabilities (Z.lor (Z.lor CAP_REBOOT CAP_SHUTDOWN) CAP_SYS_ADMIN) t))) ;;;
  kmodify (with_k_ready_queue c) ;;;
  kmodify (with_k_tss top) ;;;
  let* idle := create_kernel_task idle_entry rsp in
  kmodify (with_k_idle idle) ;;;
  upd_task c (with_t_next idle) ;;;
  let* s := kget in
  upd_task idle (with_t_next (k_ready_queue s)) ;;;
  vfs_init_standard_fds c.
End ops.
