(* ===== verification/TaskInv.v ===== *)
(** * Created tasks are sound

    The words a new kernel stack holds, the copy that [sys_fork] makes of the
    parent's stack, the descriptors a child inherits, and the theorems that
    [create_kernel_task] and [sys_fork] extend a sound ready ring by a task that
    the next switches can run. *)

From stdpp Require Import base numbers list gmap strings.
From Stdlib Require Import ZArith Lia.
From S2P Require Import Prelude Kernel Pipe Vfs FdInv Sched Task.

#[local] Open Scope Z_scope.

(** ** Words of a stack *)

Lemma fill_in w n : ∀ a m i, 0 ≤ i < Z.of_nat n → fill n a w m !! (a + 8 * i) = Some w.
Proof.
  induction n as [|n IH]; intros a m i Hi; [lia|]. simpl. destruct (decide (i = 0)) as [->|Hne].
  - replace (a + 8 * 0) with a by lia. apply lookup_insert_eq.
  - rewrite lookup_insert_ne by lia. replace (a + 8 * i) with (a + 8 + 8 * (i - 1)) by lia. apply IH. lia.
Qed.
Lemma fill_out w n : ∀ a m x, x < a ∨ a + 8 * Z.of_nat n ≤ x → fill n a w m !! x = m !! x.
Proof.
  induction n as [|n IH]; intros a m x Hx; [done|]. simpl. rewrite lookup_insert_ne by lia. apply IH. lia.
Qed.

Lemma push_words_fst ws : ∀ top m, (push_words top ws m).1 = top - 8 * Z.of_nat (length ws).
Proof. induction ws as [|w ws IH]; intros top m; simpl; [lia|]. rewrite IH. lia. Qed.
Lemma push_words_out ws : ∀ top m x, x < top - 8 * Z.of_nat (length ws) ∨ top ≤ x →
  (push_words top ws m).2 !! x = m !! x.
Proof.
  induction ws as [|w ws IH]; intros top m x Hx; cbn [push_words length] in *; [done|].
  rewrite IH by lia. apply lookup_insert_ne. lia.
Qed.
Lemma push_words_in ws : ∀ top m i w, ws !! i = Some w →
  (push_words top ws m).2 !! (top - 8 * (Z.of_nat i + 1)) = Some w.
Proof.
  induction ws as [|w0 ws IH]; intros top m i w Hi; [done|]. cbn [push_words]. destruct i as [|i].
  - injection Hi as ->. rewrite push_words_out by lia. replace (top - _) with (top - 8) by lia. apply lookup_insert_eq.
  - replace (top - 8 * (Z.of_nat (S i) + 1)) with (top - 8 - 8 * (Z.of_nat i + 1)) by lia. by apply IH.
Qed.

Section mem.
Context {D : Type} {Drv : FsDriver D}.
#[local] Open Scope kernel_scope.
Implicit Types s : kst D.

Lemma put_word_run a w s : is_Some (k_mem s !! a) →
  put_word a w s = Ret tt (with_k_mem (<[a := w]> (k_mem s)) s).
Proof. intros [v E]. unfold put_word. by rewrite (get_word_bind _ _ _ _ E). Qed.
Lemma put_word_bind {A} a w s (k : unit → kM (kst D) A) : is_Some (k_mem s !! a) →
  kbind (put_word a w) k s = k tt (with_k_mem (<[a := w]> (k_mem s)) s).
Proof. intros H. by rewrite (kbind_ret _ _ _ _ _ (put_word_run _ _ _ H)). Qed.

(** Copying [n] words to higher addresses. *)
Lemma copy_words_run n : ∀ src dst s, src + 8 * Z.of_nat n ≤ dst →
  (∀ i, 0 ≤ i < Z.of_nat n → is_Some (k_mem s !! (src + 8 * i))) →
  (∀ i, 0 ≤ i < Z.of_nat n → is_Some (k_mem s !! (dst + 8 * i))) →
  ∃ M, copy_words n src dst s = Ret tt (with_k_mem M s) ∧
    (∀ i, 0 ≤ i < Z.of_nat n → M !! (dst + 8 * i) = k_mem s !! (src + 8 * i)) ∧
    (∀ x, x < dst ∨ dst + 8 * Z.of_nat n ≤ x → M !! x = k_mem s !! x).
Proof.
  induction n as [|n IH]; intros src dst s Hle Hs Hd.
  { exists (k_mem s). split; [by destruct s|]. split; [lia|done]. }
  cbn [copy_words]. destruct (Hs 0 ltac:(lia)) as [w Ew]. replace (src + 8 * 0) with src in Ew by lia.
  rewrite (get_word_bind _ _ _ _ Ew).
  pose proof (Hd 0 ltac:(lia)) as Hd0. replace (dst + 8 * 0) with dst in Hd0 by lia.
  rewrite (put_word_bind dst w s _ Hd0). set (s1 := with_k_mem _ s).
  assert (∀ x, x ≠ dst → k_mem s1 !! x = k_mem s !! x) as H1 by (intros; by apply lookup_insert_ne).
  destruct (IH (src + 8) (dst + 8) s1) as (M & E & Hin & Hout).
  - lia.
  - intros i Hi. rewrite H1 by lia. replace (src + 8 + 8 * i) with (src + 8 * (i + 1)) by lia. apply Hs. lia.
  - intros i Hi. rewrite H1 by lia. replace (dst + 8 + 8 * i) with (dst + 8 * (i + 1)) by lia. apply Hd. lia.
  - exists M. split; [by rewrite E|]. split.
    + intros i Hi. destruct (decide (i = 0)) as [->|Hne].
      * rewrite Hout by lia. replace (dst + 8 * 0) with dst by lia. cbn. rewrite lookup_insert_eq.
        by replace (src + 8 * 0) with src by lia.
      * replace (dst + 8 * i) with (dst + 8 + 8 * (i - 1)) by lia. rewrite Hin, H1 by lia. f_equal. lia.
    + intros x Hx. rewrite Hout, H1 by lia. done.
Qed.

(** ** The copied frame *)

(** The stack that holds the frame [regs], and its bounds. *)
Definition src_top s (p : task_t) (regs : Z) : Z :=
  if in_stack (k_kstack_base s) (k_kstack_top s) regs then k_kstack_top s else t_kernel_stack p.
Definition src_base s (p : task_t) (regs : Z) : Z :=
  if src_top s p regs =? k_kstack_top s then k_kstack_base s else t_kernel_stack_base p.

(** A frame pushed by an interrupt from user mode: it fits the stack, all its
    words are there (below what [kmalloc] has yet to hand out), and the frame pointer of the user does not point into it. *)
Record user_regs s (p : task_t) (regs : Z) : Prop := {
  ur_pos : 0 < regs;
  ur_top : src_top s p regs ≤ k_fresh s;
  ur_size : FRAME_SIZE ≤ src_top s p regs - regs < KSTACK_SIZE;
  ur_align : Z.land (src_top s p regs - regs) 7 = 0;
  ur_words : ∀ i, 0 ≤ i < (src_top s p regs - regs) / 8 → is_Some (k_mem s !! (regs + 8 * i));
  ur_cs : ∀ cs, k_mem s !! (regs + REG_CS) = Some cs → Z.land cs 3 ≠ 0;
  ur_rbp : ∀ rbp, k_mem s !! (regs + REG_RBP) = Some rbp →
             in_stack (src_base s p regs) (src_top s p regs) rbp = false }.

Lemma in_stack_true a b x : in_stack a b x = true ↔ a ≤ x < b.
Proof. unfold in_stack. rewrite andb_true_iff, Z.leb_le, Z.ltb_lt. done. Qed.

(** The clone of a user-mode frame: the copy differs from it in the word for RAX
    alone, and only the child's stack is written. *)
Lemma clone_stack_run s p regs ctop :
  user_regs s p regs → src_top s p regs + KSTACK_SIZE ≤ ctop →
  (∀ i, 0 ≤ i < KSTACK_SIZE / 8 → is_Some (k_mem s !! (ctop - KSTACK_SIZE + 8 * i))) →
  let used := src_top s p regs - regs in
  ∃ M, clone_stack regs (t_kernel_stack_base p) (t_kernel_stack p) ctop s = Ret (ctop - used) (with_k_mem M s) ∧
    (∀ i, 0 ≤ i < used / 8 → M !! (ctop - used + 8 * i) =
       if 8 * i =? REG_RAX then Some 0 else k_mem s !! (regs + 8 * i)) ∧
    (∀ x, x < ctop - used ∨ ctop ≤ x → M !! x = k_mem s !! x).
Proof.
  intros [Hpos Htop Hsz Hal Hw Hcs Hrbp] Hct Hdst used. fold used in Hsz, Hal, Hw.
  unfold FRAME_SIZE, KSTACK_SIZE in *.
  assert (used = 8 * (used / 8)) as Hu8.
  { apply Z.div_exact; [done|]. change 7 with (Z.ones 3) in Hal. by rewrite Z.land_ones in Hal by lia. }
  unfold clone_stack. rewrite kget_bind. fold (src_top s p regs).
  assert (u64 (src_top s p regs - regs) = used) as -> by (apply u64_small; unfold used in *; lia).
  unfold KSTACK_SIZE. replace (16384 <? used) with false by (symmetry; apply Z.ltb_ge; lia).
  rewrite Hal. change (negb (0 =? 0)) with false. cbv iota.
  destruct (copy_words_run (Z.to_nat (used / 8)) regs (ctop - used) s) as (M & E & Hin & Hout).
  - unfold used in *. lia.
  - intros i Hi. apply Hw. lia.
  - intros i Hi. specialize (Hdst (2048 - used / 8 + i)).
    replace (ctop - 16384 + 8 * (2048 - used / 8 + i)) with (ctop - used + 8 * i) in Hdst by lia.
    apply Hdst. change (16384 / 8) with 2048. lia.
  - rewrite Z2Nat.id in Hin, Hout by lia. rewrite (kbind_ret _ _ _ _ _ E). set (s1 := with_k_mem M s).
    assert (∀ i, 0 ≤ i < used / 8 → is_Some (M !! (ctop - used + 8 * i))) as HM by (intros i Hi; rewrite Hin by lia; auto).
    unfold REG_RAX, REG_CS, REG_RBP in *.
    rewrite put_word_bind by (apply (HM 18); lia). cbn [k_mem s1]. set (M2 := <[_ := 0]> _).
    set (s2 := with_k_mem M2 s1).
    assert (∀ x, x < ctop - used → M2 !! x = k_mem s !! x) as Hlow.
    { intros x Hx. unfold M2. rewrite lookup_insert_ne by lia. apply Hout. lia. }
    assert (regs + 208 ≤ ctop - used) as Hlt by (unfold used in *; lia).
    destruct (Hw 22 ltac:(lia)) as [cs Ecs]. specialize (Hcs cs Ecs).
    rewrite (get_word_bind (regs + 176) s2 cs) by (cbn [k_mem s2]; rewrite Hlow by lia; exact Ecs).
    apply Z.eqb_neq in Hcs. rewrite Hcs. unfold kret at 1. unfold kbind at 1.
    destruct (Hw 12 ltac:(lia)) as [rbp Ebp]. specialize (Hrbp rbp Ebp).
    rewrite (get_word_bind (regs + 96) s2 rbp) by (cbn [k_mem s2]; rewrite Hlow by lia; exact Ebp).
    fold (src_base s p regs). rewrite Hrbp.
    assert (M2 !! (ctop - used + 96) = Some rbp) as Ebp2.
    { unfold M2. rewrite lookup_insert_ne by lia. rewrite <-Ebp. apply (Hin 12). lia. }
    rewrite put_word_bind by (cbn [k_mem s2]; eauto).
    exists M2. split.
    + unfold kret. cbn [k_mem s2]. rewrite insert_id by done. by destruct s.
    + unfold M2. split.
      * intros i Hi. destruct (Z.eqb_spec (8 * i) 144) as [->|Hne]; [apply lookup_insert_eq|].
        rewrite lookup_insert_ne by lia. apply Hin. lia.
      * intros x Hx. rewrite lookup_insert_ne by lia. apply Hout. lia.
Qed.
End mem.

(** ** Inherited descriptors *)

Section inherit.
Context {D : Type} {Drv : FsDriver D}.
#[local] Open Scope kernel_scope.
Implicit Types s : kst D.

(** Counting a reference changes files and pipes only. *)
Lemma retain_shape f s s' : retain f s = Ret tt s' → ∃ F P, s' = with_k_pipes P (with_k_files F s).
Proof.
  unfold retain. intros H. kinv H. unfold get_file, kget_opt in E. destruct (k_files s !! f) as [fl|]; [|done].
  injection E as <- <-. injection E0 as _ <-. unfold get_node, kget_opt in E1.
  destruct (k_nodes _ !! _) as [nd|]; [|done]. injection E1 as <- <-.
  assert (∀ s1, s1 = with_k_files (k_files s1) s →
    pipe_take nd (f_flags fl) s1 = Ret tt s' → ∃ F P, s' = with_k_pipes P (with_k_files F s)) as Htake.
  { intros s1 Hs1. unfold pipe_take. destruct (n_impl nd); try done.
    - intros [= <-]. exists (k_files s1), (k_pipes s). rewrite Hs1. by destruct s.
    - assert (∀ g : pipe_t → pipe_t, kbind (get_pipe p) (λ v, put_pipe p (g v)) s1 = Ret tt s' →
        ∃ F P, s' = with_k_pipes P (with_k_files F s)) as Hput.
      { intros g Hg. kinv Hg. injection Hg as <-. unfold get_pipe, kget_opt in E.
        destruct (k_pipes s1 !! p); [|done]. injection E as <- <-. rewrite Hs1. by eexists _, _. }
      destruct (has _ O_WRONLY); apply Hput. }
  destruct (has (n_flags nd) FS_PIPE); [apply (Htake (with_k_files (<[f := with_f_refcount (u32 (f_refcount fl + 1)) fl]> (k_files s)) s) eq_refl H)|].
  injection H as <-. exists (<[f := with_f_refcount (u32 (f_refcount fl + 1)) fl]> (k_files s)), (k_pipes s).
  by destruct s.
Qed.

(** One descriptor: slot [i] of the child, empty so far, gets the file [f] that
    slot [i] of the parent holds. *)
Lemma inherit_one s i child f tc : fd_inv s → (i < 32)%nat →
  k_tasks s !! child = Some tc → t_fd_table tc !! i = Some 0 → f ≠ 0 → f ∈ all_refs (k_tasks s) →
  ∃ F P, let s' := with_k_pipes P (with_k_files F
             (with_k_tasks (<[child := with_t_fd_table (<[i := f]> (t_fd_table tc)) tc]> (k_tasks s)) s)) in
    (set_task_fd child (Z.of_nat i) f ;;; retain f) s = Ret tt s' ∧ fd_inv s'.
Proof.
  intros Hinv Hi Ec Hs Hf Hin. assert (is_Some (k_tasks s !! child)) as Hc by eauto.
  rewrite (kbind_ret _ _ _ _ _ (set_task_fd_run s child i f (fi_tables _ Hinv) Hc Hi)).
  destruct (set_slot_rest s child i f (fi_tables _ Hinv) Hc) as [R1 _ R4 R5 _ _].
  assert (task_table child s !! i = Some 0) as Ht by (unfold task_table; by rewrite Ec).
  pose proof (set_slot_refs s child i 0 f Ht) as Hperm.
  rewrite decide_True, decide_False in Hperm by done. simpl in Hperm.
  pose proof (fd_inv_room s Hinv).
  destruct (retain_spec f (all_refs (k_tasks s)) (set_slot child i f s)) as (s' & E & Hr & HT & HC);
    [apply R4, fi_refs, Hinv|done|lia|].
  destruct (retain_shape _ _ _ E) as (F & P & Es'). exists F, P. cbn zeta.
  assert (set_slot child i f s = with_k_tasks (<[child := with_t_fd_table (<[i := f]> (t_fd_table tc)) tc]> (k_tasks s)) s) as Eslot
    by (unfold set_slot; by rewrite Ec).
  rewrite <-Eslot, <-Es'. split; [done|]. split; [by rewrite HT, Hperm|].
  destruct R1. by split; rewrite ?HT, ?HC.
Qed.

Lemma table_ref s c i f : fd_inv s → task_table c s !! i = Some f → f ≠ 0 → f ∈ all_refs (k_tasks s).
Proof.
  intros Hinv. unfold task_table. destruct (k_tasks s !! c) as [t|] eqn:Et; [|done]. intros Hi Hf.
  rewrite (all_refs_split _ _ _ Et). apply elem_of_app. left. unfold task_refs.
  apply list_elem_of_filter. split; [done|]. by eapply list_elem_of_lookup_2.
Qed.

(** The whole loop: the child's table becomes the parent's. *)
Lemma inherit_run parent child tp n : ∀ i s tc, fd_inv s → (i + n = 32)%nat → parent ≠ child →
  k_tasks s !! parent = Some tp → k_tasks s !! child = Some tc →
  t_fd_table tc = take i (t_fd_table tp) ++ replicate n 0 →
  ∃ F P, let s' := with_k_pipes P (with_k_files F
             (with_k_tasks (<[child := with_t_fd_table (t_fd_table tp) tc]> (k_tasks s)) s)) in
    inherit_fds n (Z.of_nat i) parent child s = Ret tt s' ∧ fd_inv s'.
Proof.
  induction n as [|n IH]; intros i s tc Hinv Hn Hne Ep Ec Htc.
  { pose proof (fi_table _ Hinv _ _ Ep) as Hl. exists (k_files s), (k_pipes s). cbn zeta.
    rewrite app_nil_r, take_ge in Htc by lia. rewrite <-Htc.
    assert (with_t_fd_table (t_fd_table tc) tc = tc) as -> by (by destruct tc). rewrite insert_id by done.
    assert (with_k_pipes (k_pipes s) (with_k_files (k_files s) (with_k_tasks (k_tasks s) s)) = s) as -> by (by destruct s).
    done. }
  cbn [inherit_fds]. pose proof (fi_table _ Hinv _ _ Ep) as Hl.
  rewrite (get_task_bind _ _ _ _ Ep).
  destruct (lookup_lt_is_Some_2 (t_fd_table tp) i) as [f Ef]; [lia|].
  unfold kbind at 1, kget_opt at 1. rewrite zlookup_nat, Ef.
  assert (length (take i (t_fd_table tp)) = i) as Hti by (rewrite length_take; lia).
  replace (Z.of_nat i + 1) with (Z.of_nat (S i)) by lia.
  assert (take (S i) (t_fd_table tp) = take i (t_fd_table tp) ++ [f]) as Htk by (by apply take_S_r).
  destruct (Z.eqb_spec f 0) as [->|Hf].
  - unfold kret at 1. unfold kbind at 1. apply IH; try done; [lia|]. by rewrite Htk, <-app_assoc.
  - assert (t_fd_table tc !! i = Some 0) as Hci.
    { rewrite Htc, lookup_app_r by lia. by rewrite Hti, Nat.sub_diag. }
    destruct (inherit_one s i child f tc Hinv ltac:(lia) Ec Hci Hf) as (F & P & E & I).
    { eapply (table_ref s parent i); [done| |done]. unfold task_table. by rewrite Ep. }
    cbn zeta in E, I. set (s1 := with_k_pipes P _) in *. rewrite (kbind_ret _ _ _ _ _ E).
    set (tc1 := with_t_fd_table (<[i := f]> (t_fd_table tc)) tc) in *.
    destruct (IH (S i) s1 tc1 I) as (F' & P' & E' & I'); try done.
    + lia.
    + cbn. by rewrite lookup_insert_ne.
    + cbn. apply lookup_insert_eq.
    + cbn. rewrite Htc, Htk, <-app_assoc. rewrite <-Hti at 1. cbn [replicate].
      by rewrite insert_middle.
    + exists F', P'. cbn zeta in E', I' |- *. cbn [k_tasks s1] in E', I'.
      replace (with_k_tasks (<[child := with_t_fd_table (t_fd_table tp) tc]> (k_tasks s)) s)
        with (with_k_tasks (<[child := with_t_fd_table (t_fd_table tp) tc1]> (<[child := tc1]> (k_tasks s))) s);
        [|by rewrite insert_insert_eq].
      split; [exact E'|exact I'].
Qed.
End inherit.

(** ** The ring with one task more *)

Section processes.
Context {D : Type} {Drv : FsDriver D}.
#[local] Open Scope kernel_scope.
Implicit Types s : kst D.

Lemma ring_insert_after m m' h l1 c l2 a tc tc' ta :
  ring m h (l1 ++ c :: l2) → m !! c = Some tc → a ≠ 0 → a ∉ l1 ++ c :: l2 →
  m' !! c = Some tc' → t_next tc' = a → m' !! a = Some ta → t_next ta = t_next tc →
  (∀ x, x ≠ c → x ≠ a → m' !! x = m !! x) → ring m' h (l1 ++ c :: a :: l2).
Proof.
  intros [Hp Hn _] Etc Ha0 Ha Etc' Enc Eta Ena Hother.
  apply path_app in Hp as (c0 & Hp1 & Hp2). simpl in Hp2. destruct Hp2 as (-> & Hc0 & t0 & Et0 & Hp2).
  assert (t0 = tc) as -> by congruence.
  pose proof Hn as (N1 & N2 & N3)%NoDup_app. apply NoDup_cons in N3 as [N3 N4].
  rewrite elem_of_app, elem_of_cons in Ha.
  assert (∀ x, x ∈ l1 ∨ x ∈ l2 → x ≠ c ∧ x ≠ a) as Hx.
  { intros x [Hx|Hx]; (split; intros ->; [|tauto]); [|done]. apply (N2 c Hx), list_elem_of_here. }
  assert (∀ x t, x ∈ l1 ∨ x ∈ l2 → m !! x = Some t → ∃ t', m' !! x = Some t' ∧ t_next t' = t_next t) as Hsame.
  { intros x t Hin E. destruct (Hx x Hin). exists t. by rewrite Hother. }
  split; [| |by destruct l1].
  - apply path_app. exists c. split; [eapply path_ext; [|exact Hp1]; intros; apply Hsame; auto|].
    simpl. split_and!; try done. exists tc'. split; [done|]. rewrite Enc. split_and!; try done.
    exists ta. split; [done|]. rewrite Ena. eapply path_ext; [|exact Hp2]. intros; apply Hsame; auto.
  - apply NoDup_app. split; [done|]. split.
    + intros x Hx1. rewrite !elem_of_cons. intros [->|[->|Hx2]]; [|tauto|].
      * apply (N2 c Hx1), list_elem_of_here.
      * apply (N2 x Hx1). by apply list_elem_of_further.
    + repeat constructor; [|tauto|done]. rewrite elem_of_cons. intros [->|]; [tauto|done].
Qed.

Lemma sched_inv_add s s' l1 c l2 tc a ta :
  sched_inv s (l1 ++ c :: l2) → Z.of_nat (length (l1 ++ c :: l2)) < MAX_TASKS + 2 →
  k_tasks s !! c = Some tc → a ∉ l1 ++ c :: l2 → a ≠ 0 →
  k_ready_queue s' = k_ready_queue s → k_current s' = k_current s → k_rq_lock s' = false →
  k_kstack_base s' = k_kstack_base s → k_kstack_top s' = k_kstack_top s →
  (∀ x w, k_mem s !! x = Some w → k_mem s' !! x = Some w) →
  k_tasks s' = <[c := with_t_next a tc]> (<[a := ta]> (k_tasks s)) →
  t_next ta = t_next tc → task_valid s' ta → frame_ok s' ta (t_user_esp ta) → t_state ta ≠ TASK_RUNNING →
  sched_inv s' (l1 ++ c :: a :: l2).
Proof.
  intros [Hr Hl Hc Hv Hf Hrun Hlk] Hlen Etc Ha Ha0 E1 E2 E3 E4 E5 Hmem Em Hn Hva Hfa Hra.
  assert (c ≠ a) as Hca. { intros ->. apply Ha, elem_of_app. right. apply list_elem_of_here. }
  assert (∀ x, x ∈ l1 ++ c :: a :: l2 → x = a ∨ (x ≠ a ∧ x ∈ l1 ++ c :: l2)) as Hsplit.
  { intros x. rewrite !elem_of_app, !elem_of_cons. intros Hx. destruct (decide (x = a)) as [->|]; [auto|].
    right. split; [done|]. tauto. }
  assert (∀ x t, x ∈ l1 ++ c :: a :: l2 → k_tasks s' !! x = Some t → (x = a ∧ t = ta) ∨
    (x ∈ l1 ++ c :: l2 ∧ ∃ t0, k_tasks s !! x = Some t0 ∧ (t = t0 ∨ t = with_t_next a t0))) as Hlook.
  { intros x t Hx. rewrite Em. destruct (Hsplit x Hx) as [->|[Hxa Hxl]].
    - rewrite lookup_insert_ne, lookup_insert_eq by done. intros [= <-]. auto.
    - intros E. right. split; [done|]. destruct (decide (x = c)) as [->|Hxc].
      + rewrite lookup_insert_eq in E. injection E as <-. eauto.
      + rewrite !lookup_insert_ne in E by done. eauto. }
  assert (∀ t, task_valid s t → task_valid s' t ∧ task_valid s' (with_t_next a t)) as Hval.
  { intros t [V1 V2 V3 V4]. split; split; try done; by apply Hmem. }
  assert (∀ t x, frame_ok s t x → frame_ok s' t x ∧ frame_ok s' (with_t_next a t) x) as Hfr.
  { intros t x. unfold frame_ok. cbn. by rewrite E4, E5. }
  split.
  - rewrite E1, Em. eapply ring_insert_after; [exact Hr|exact Etc|done|done|apply lookup_insert_eq|done| |exact Hn|].
    + by rewrite lookup_insert_ne, lookup_insert_eq.
    + intros x Hxc Hxa. by rewrite !lookup_insert_ne.
  - rewrite !length_app in *. cbn [length] in *. lia.
  - rewrite E2. rewrite !elem_of_app, !elem_of_cons in *. tauto.
  - intros x t Hx Ex. destruct (Hlook x t Hx Ex) as [[-> ->]|(Hxl & t0 & E0 & [->| ->])]; [done|..];
      by apply (Hval t0), (Hv x).
  - intros x t Hx Hxc Ex. rewrite E2 in Hxc.
    destruct (Hlook x t Hx Ex) as [[-> ->]|(Hxl & t0 & E0 & [->| ->])]; [done|..];
      by apply (Hfr t0 (t_user_esp t0)), (Hf x).
  - intros x t Hx Hxc Ex. rewrite E2 in Hxc.
    destruct (Hlook x t Hx Ex) as [[-> ->]|(Hxl & t0 & E0 & [->| ->])]; [done|..]; by apply (Hrun x t0).
  - done.
Qed.

(** A sound ring, and no word or task at an address not yet handed out. *)
Record proc_inv s (l : list Z) : Prop := {
  pi_sched : sched_inv s l;
  pi_mem : ∀ a, k_fresh s ≤ a → k_mem s !! a = None;
  pi_tasks : ∀ a, k_fresh s ≤ a → k_tasks s !! a = None;
  pi_pos : 0 < k_fresh s }.

Lemma ring_lt s l x : proc_inv s l → x ∈ l → x < k_fresh s.
Proof.
  intros [[[Hp _ _] _ _ _ _ _ _] _ Ht _] Hx. destruct (path_live _ _ _ _ _ Hp Hx) as [_ [t E]].
  destruct (decide (x < k_fresh s)); [done|]. rewrite Ht in E; [done|lia].
Qed.

Lemma align_up_spec a : 0 ≤ a → a ≤ align_up a 4096 ∧ align_up a 4096 mod 4096 = 0.
Proof.
  intros H. unfold align_up. split; [|apply Z.mod_mul; lia].
  pose proof (Z.div_mod (a + 4096 - 1) 4096 ltac:(lia)). pose proof (Z.mod_pos_bound (a + 4096 - 1) 4096 ltac:(lia)). lia.
Qed.

(** The child as [fork_alloc] leaves it. *)
Definition forked (s : kst D) (parent : Z) (p : task_t) (directory : Z) : task_t :=
  let base := align_up (k_fresh s + 1) 4096 in
  with_t_kernel_stack (base + KSTACK_SIZE) (with_t_kernel_stack_base base
    (with_t_cwd (t_cwd p) (with_t_state TASK_READY (with_t_parent parent
      (with_t_page_directory directory (with_t_id (k_next_pid s) zero_task)))))).

Definition fork_state (s : kst D) (parent : Z) (p : task_t) (directory : Z) : kst D :=
  let base := align_up (k_fresh s + 1) 4096 in
  with_k_tasks (<[k_fresh s := forked s parent p directory]> (k_tasks s))
    (with_k_fresh (base + KSTACK_SIZE) (with_k_stacks ({[base]} ∪ k_stacks s)
      (with_k_mem (fill stack_words base STACK_MAGIC (k_mem s))
        (with_k_next_pid (u32 (k_next_pid s + 1)) s)))).

Lemma fork_alloc_run s parent p directory :
  fork_alloc parent p directory s =
    Ret (k_fresh s, k_next_pid s, align_up (k_fresh s + 1) 4096) (fork_state s parent p directory).
Proof.
  unfold fork_alloc, new_task, fork_state, forked.
  unfold kbind at 1. unfold kmalloc at 1. unfold kbind at 1. unfold put_task at 1. rewrite kmodify_bind.
  unfold kret at 1. unfold take_pid. unfold kbind at 1. rewrite kget_bind, kmodify_bind. unfold kret at 1.
  rewrite (upd_task_bind (k_fresh s) _ zero_task) by apply lookup_insert_eq.
  unfold kbind at 1. unfold alloc_stack at 1.
  erewrite upd_task_bind by apply lookup_insert_eq. unfold kret. cbn -[fill align_up insert].
  rewrite !insert_insert_eq. kst_eq.
Qed.

Lemma fd_inv_new s s' a t : fd_inv s → k_tasks s !! a = None → Z.of_nat (size (k_tasks s)) < 1000000 →
  t_fd_table t = replicate 32 0 → k_tasks s' = <[a := t]> (k_tasks s) → k_current s' = k_current s →
  k_files s' = k_files s → k_nodes s' = k_nodes s → k_pipes s' = k_pipes s → k_bufs s' = k_bufs s →
  k_fresh s ≤ k_fresh s' → fd_inv s'.
Proof.
  intros [Hr [Ht Hc Hn]] Ha Hsz Htab Em Ecur E1 E2 E3 E4 E5.
  assert (∀ c, is_Some (k_tasks s !! c) → is_Some (k_tasks s' !! c)) as Hlive.
  { intros c Hc'. rewrite Em. destruct (decide (c = a)) as [->|]; [rewrite lookup_insert_eq; eauto|].
    by rewrite lookup_insert_ne. }
  split; [|split].
  - rewrite Em, all_refs_insert by done. unfold task_refs. rewrite Htab.
    by apply (refs_inv_later _ s).
  - intros c t'. rewrite Em. destruct (decide (c = a)) as [->|].
    + rewrite lookup_insert_eq. intros [= <-]. by rewrite Htab.
    + rewrite lookup_insert_ne by done. apply Ht.
  - rewrite Ecur. by apply Hlive.
  - rewrite Em, map_size_insert_None by done. lia.
Qed.

(** States that agree on all that [fd_inv] reads but the fields of tasks other
    than their descriptor tables. *)
Lemma fd_inv_same s s' : fd_inv s → same_tables (k_tasks s) (k_tasks s') → k_current s' = k_current s →
  k_files s' = k_files s → k_nodes s' = k_nodes s → k_pipes s' = k_pipes s → k_bufs s' = k_bufs s →
  k_fresh s ≤ k_fresh s' → fd_inv s'.
Proof.
  intros [Hr Ht] Hst Ecur E1 E2 E3 E4 E5. split.
  - rewrite (same_tables_refs _ _ Hst). apply (refs_inv_later _ s); try done.
    intros c. by apply same_tables_dom.
  - eapply tables_ok_frame; [exact Ht|by split].
Qed.

Lemma same_tables_insert m c t t' : m !! c = Some t → t_fd_table t' = t_fd_table t →
  same_tables m (<[c := t']> m).
Proof.
  intros E Et. unfold same_tables. rewrite fmap_insert, Et. apply insert_id. by rewrite lookup_fmap, E.
Qed.

Lemma link_after_run s parent child tp tc : k_rq_lock s = false → parent ≠ child →
  k_tasks s !! parent = Some tp → k_tasks s !! child = Some tc →
  link_after parent child s = Ret tt (with_k_rq_lock false (with_k_tasks
    (<[parent := with_t_next child tp]> (<[child := with_t_next (t_next tp) tc]> (k_tasks s))) s)).
Proof.
  intros Hlk Hne Ep Ec. unfold link_after, lock_rq. unfold kbind at 1. rewrite kget_bind, Hlk.
  unfold kmodify at 1. rewrite (get_task_bind parent _ tp) by done.
  rewrite (upd_task_bind child _ tc) by done.
  rewrite (upd_task_bind parent _ tp) by (cbn; by rewrite lookup_insert_ne). by destruct s.
Qed.

Lemma clone_page_directory_run s src : clone_page_directory src s =
  Ret (k_fresh s) (with_k_pdirs (<[k_fresh s := default ∅ (k_pdirs s !! src)]> (k_pdirs s)) (with_k_fresh (k_fresh s + 1) s)).
Proof. reflexivity. Qed.

(** The frame of the parent is untouched by the allocations. *)
Lemma user_regs_later s s' p regs : user_regs s p regs →
  k_kstack_base s' = k_kstack_base s → k_kstack_top s' = k_kstack_top s → k_fresh s ≤ k_fresh s' →
  (∀ x, x < k_fresh s → k_mem s' !! x = k_mem s !! x) → user_regs s' p regs.
Proof.
  intros [H1 H2 H3 H4 H5 H6 H7] E1 E2 E3 Hm. unfold FRAME_SIZE in *.
  assert (src_top s' p regs = src_top s p regs) as Et by (unfold src_top; by rewrite E1, E2).
  assert (src_base s' p regs = src_base s p regs) as Eb by (unfold src_base; by rewrite Et, E1, E2).
  unfold REG_CS, REG_RBP in *.
  split; rewrite ?Et, ?Eb; unfold FRAME_SIZE, REG_CS, REG_RBP; try done; try lia.
  - intros i Hi. rewrite Hm; [auto|]. pose proof (Z.mul_div_le (src_top s p regs - regs) 8 ltac:(lia)). lia.
  - intros cs. rewrite Hm by lia. apply H6.
  - intros rbp. rewrite Hm by lia. apply H7.
Qed.

(** What the schedulers do on a new task or a removed one: nothing. *)
Definition quiet (sch : option (kabi_scheduler_ops_t D)) : Prop :=
  ∀ t s, notify_added sch t s = Ret tt s ∧ notify_removed sch t s = Ret tt s.
Lemma quiet_none : quiet None.
Proof. done. Qed.
Lemma quiet_rr : quiet (Some sched_rr).
Proof. done. Qed.

(** The child of a fork, at its place in the ring. *)
Definition child_task s (c : Z) (p : task_t) (used : Z) : task_t :=
  let s1 := with_k_fresh (k_fresh s + 1) s in
  with_t_next (t_next p) (with_t_fd_table (t_fd_table p)
    (with_t_user_esp (align_up (k_fresh s + 1 + 1) 4096 + KSTACK_SIZE - used) (forked s1 c p (k_fresh s)))).

Lemma fork_run sch s c p regs :
  quiet sch → fd_inv s → k_current s = c → k_tasks s !! c = Some p → k_rq_lock s = false →
  (∀ a, k_fresh s ≤ a → k_mem s !! a = None) → (∀ a, k_fresh s ≤ a → k_tasks s !! a = None) → 0 < k_fresh s →
  k_next_pid s ≤ MAX_TASKS → Z.of_nat (size (k_tasks s)) < 1000000 → user_regs s p regs →
  let child := k_fresh s + 1 in
  let base := align_up (child + 1) 4096 in
  let used := src_top s p regs - regs in
  ∃ s', sys_fork sch regs s = Ret (k_next_pid s) s' ∧ fd_inv s' ∧
    k_tasks s' = <[c := with_t_next child p]> (<[child := child_task s c p used]> (k_tasks s)) ∧
    k_current s' = c ∧ k_ready_queue s' = k_ready_queue s ∧ k_rq_lock s' = false ∧
    k_kstack_base s' = k_kstack_base s ∧ k_kstack_top s' = k_kstack_top s ∧
    k_fresh s' = base + KSTACK_SIZE ∧
    (∀ i, 0 ≤ i < used / 8 → k_mem s' !! (base + KSTACK_SIZE - used + 8 * i) =
       if 8 * i =? REG_RAX then Some 0 else k_mem s !! (regs + 8 * i)) ∧
    (∀ x, base ≤ x < base + KSTACK_SIZE - used → (x - base) mod 8 = 0 → k_mem s' !! x = Some STACK_MAGIC) ∧
    (∀ x, x < base ∨ base + KSTACK_SIZE ≤ x → k_mem s' !! x = k_mem s !! x) ∧
    k_pdirs s' = <[k_fresh s := default ∅ (k_pdirs s !! t_page_directory p)]> (k_pdirs s).
Proof.
  intros Hq Hinv Hc Ep Hlk Hmem Htasks Hpos Hpid Hsz Hregs child base used.
  assert (child + 1 ≤ base) as Hbase by (apply align_up_spec; unfold child; lia).
  assert (c < k_fresh s) as Hcf. { destruct (decide (c < k_fresh s)); [done|]. rewrite Htasks in Ep; [done|lia]. }
  assert (0 < child ∧ k_fresh s < child) as [Hch0 Hchf] by (unfold child; lia).
  pose proof stack_words_eq as Hsw. change (KSTACK_SIZE / 8) with 2048 in Hsw.
  unfold sys_fork. rewrite current_bind, Hc, (get_task_bind _ _ _ _ Ep).
  rewrite (kbind_ret _ _ _ _ _ (clone_page_directory_run s _)), kmodify_bind, kget_bind.
  set (sB := with_k_directory _ _). change (k_next_pid sB) with (k_next_pid s).
  replace (MAX_TASKS <? k_next_pid s) with false by (symmetry; by apply Z.ltb_ge).
  rewrite (kbind_ret _ _ _ _ _ (fork_alloc_run sB c p (k_fresh s))).
  change (k_fresh sB) with child. fold base. cbn [fst snd]. set (sC := fork_state sB c p (k_fresh s)).
  assert (k_mem sC = fill stack_words base STACK_MAGIC (k_mem s)) as HmC by reflexivity.
  assert (k_fresh sC = base + KSTACK_SIZE) as HfC by reflexivity.
  assert (used = src_top sC p regs - regs) as HuC by reflexivity.
  assert (user_regs sC p regs) as HrC.
  { apply (user_regs_later s); [exact Hregs|reflexivity|reflexivity|rewrite HfC; unfold KSTACK_SIZE; lia|].
    intros x Hx. rewrite HmC. apply fill_out. lia. }
  destruct (clone_stack_run sC p regs (base + KSTACK_SIZE) HrC) as (M & EM & Hin & Hout).
  { pose proof (ur_top _ _ _ Hregs). change (src_top sC p regs) with (src_top s p regs). lia. }
  { intros i Hi. rewrite HmC. replace (base + KSTACK_SIZE - KSTACK_SIZE + 8 * i) with (base + 8 * i) by lia.
    rewrite fill_in; [eauto|]. change (KSTACK_SIZE / 8) with 2048 in Hi. lia. }
  rewrite <-HuC in EM, Hin, Hout. rewrite (kbind_ret _ _ _ _ _ EM). set (sD := with_k_mem M sC).
  set (ch := forked sB c p (k_fresh s)).
  rewrite (upd_task_bind child sD ch) by apply lookup_insert_eq.
  set (frame := base + KSTACK_SIZE - used). set (ch1 := with_t_user_esp frame ch).
  set (sE := with_k_tasks (<[child := ch1]> (k_tasks s)) sD).
  replace (with_k_tasks _ sD) with sE.
  2: { unfold sE. f_equal. symmetry. apply insert_insert_eq. }
  assert (fd_inv sE) as HinvE.
  { apply (fd_inv_new s _ child ch1); [exact Hinv|apply Htasks; lia|exact Hsz|reflexivity..|].
    change (k_fresh sE) with (base + KSTACK_SIZE).
    unfold KSTACK_SIZE. lia. }
  destruct (inherit_run c child p 32 0 sE ch1 HinvE eq_refl) as (Fl & Pi & EI & HI).
  { lia. }
  { change (<[child := ch1]> (k_tasks s) !! c = Some p). by rewrite lookup_insert_ne by lia. }
  { change (<[child := ch1]> (k_tasks s) !! child = Some ch1). apply lookup_insert_eq. }
  { reflexivity. }
  cbn zeta in EI, HI. set (sF := with_k_pipes Pi _) in *. rewrite (kbind_ret _ _ _ _ _ EI).
  set (ch2 := with_t_fd_table (t_fd_table p) ch1).
  assert (k_tasks sF = <[child := ch2]> (k_tasks s)) as HtF by apply insert_insert_eq.
  assert (c ≠ child) as Hne by lia.
  assert (k_tasks sF !! c = Some p) as EpF by (rewrite HtF; by rewrite lookup_insert_ne).
  assert (k_tasks sF !! child = Some ch2) as EcF by (rewrite HtF; apply lookup_insert_eq).
  rewrite (kbind_ret _ _ _ _ _ (link_after_run sF c child p ch2 Hlk Hne EpF EcF)).
  set (s' := with_k_rq_lock false _). destruct (Hq child s') as [Eq _].
  rewrite (kbind_ret _ _ _ _ _ Eq).
  assert (k_tasks s' = <[c := with_t_next child p]> (<[child := child_task s c p used]> (k_tasks s))) as Et'.
  { cbn -[sF insert]. rewrite HtF, insert_insert_eq. reflexivity. }
  exists s'. split; [reflexivity|].
  split; [|split; [exact Et'|split; [exact Hc|do 5 (split; [reflexivity|]); split; [|split; [|split; [|reflexivity]]]]]].
  - apply (fd_inv_same sF); [exact HI| |unfold s'; kst_eq..|].
    2: { replace (k_fresh s') with (k_fresh sF) by (unfold s'; kst_eq). lia. }
    transitivity (<[child := with_t_next (t_next p) ch2]> (k_tasks sF)).
    + by apply (same_tables_insert _ _ ch2).
    + apply (same_tables_insert _ _ p); [|done]. by rewrite lookup_insert_ne.
  - intros i Hi. change (k_mem s') with M. unfold frame. rewrite (Hin i Hi). destruct (_ =? _); [done|].
    rewrite HmC. apply fill_out. left. pose proof (ur_top _ _ _ Hregs).
    pose proof (Z.mul_div_le (src_top s p regs - regs) 8 ltac:(lia)). unfold used in *. lia.
  - intros x Hx Hmod. change (k_mem s') with M. unfold frame in Hx. rewrite Hout by lia. rewrite HmC.
    replace x with (base + 8 * ((x - base) / 8)).
    2: { apply Z.div_exact in Hmod; lia. }
    apply fill_in. rewrite Hsw. pose proof (ur_size _ _ _ Hregs) as Hsize. unfold FRAME_SIZE, KSTACK_SIZE in *.
    fold used in Hsize. split; [apply Z.div_pos; lia|]. apply Z.div_lt_upper_bound; lia.
  - intros x Hx. change (k_mem s') with M. pose proof (ur_size _ _ _ Hregs) as Hsize. fold used in Hsize.
    unfold FRAME_SIZE, KSTACK_SIZE in *. rewrite Hout, HmC by lia. apply fill_out. lia.
Qed.

(** Adding a task with its own stack to a sound ring. *)
Lemma proc_inv_add s s' l1 c l2 tc a ta base :
  proc_inv s (l1 ++ c :: l2) → Z.of_nat (length (l1 ++ c :: l2)) < MAX_TASKS + 2 →
  k_tasks s !! c = Some tc → k_fresh s ≤ a < base →
  k_ready_queue s' = k_ready_queue s → k_current s' = k_current s → k_rq_lock s' = false →
  k_kstack_base s' = k_kstack_base s → k_kstack_top s' = k_kstack_top s →
  k_fresh s' = base + KSTACK_SIZE →
  (∀ x, x < base ∨ base + KSTACK_SIZE ≤ x → k_mem s' !! x = k_mem s !! x) →
  k_tasks s' = <[c := with_t_next a tc]> (<[a := ta]> (k_tasks s)) →
  t_next ta = t_next tc → t_magic ta = TASK_MAGIC → t_state ta ≠ TASK_RUNNING →
  t_kernel_stack_base ta = base → t_kernel_stack ta = base + KSTACK_SIZE →
  base ≤ t_user_esp ta < base + KSTACK_SIZE → Z.land (t_user_esp ta) 7 = 0 →
  k_mem s' !! base = Some STACK_MAGIC →
  proc_inv s' (l1 ++ c :: a :: l2).
Proof.
  intros Hp Hlen Etc Ha E1 E2 E3 E4 E5 Ef Hmem Et Hn Hmag Hst Hb Hk Hesp Hal Hg.
  pose proof Hp as [Hs Hm Ht Hpos]. unfold KSTACK_SIZE in *.
  assert (a ∉ l1 ++ c :: l2) as Hal'. { intros H%(ring_lt _ _ _ Hp). lia. }
  assert (c < k_fresh s) as Hcf. { apply (ring_lt _ _ _ Hp), elem_of_app. right. apply list_elem_of_here. }
  split; [| | |lia].
  - eapply sched_inv_add; try done; [lia| | |].
    + intros x w Hx. rewrite Hmem; [done|]. destruct (decide (x < k_fresh s)); [lia|].
      rewrite Hm in Hx; [done|lia].
    + split; try done; [lia|lia|by rewrite Hb].
    + split; [lia|]. split; [|done]. apply orb_true_iff. left. apply in_stack_true. lia.
  - intros x Hx. rewrite Hmem by lia. apply Hm. lia.
  - intros x Hx. rewrite Et, !lookup_insert_ne by lia. apply Ht. lia.
Qed.

Lemma aligned_frame base n : base mod 4096 = 0 → Z.land n 7 = 0 → Z.land (base + KSTACK_SIZE - n) 7 = 0.
Proof.
  change 7 with (Z.ones 3). rewrite !Z.land_ones by lia. change (2 ^ 3) with 8. unfold KSTACK_SIZE.
  intros Hb Hn. apply Z.div_exact in Hb; [|lia]. apply Z.div_exact in Hn; [|lia].
  replace (base + 16384 - n) with ((base / 4096 * 512 + 2048 - n / 8) * 8) by lia. apply Z.mod_mul. lia.
Qed.

(** C18. Fork makes a sound copy of the calling process: it returns the next
    process number; the child sits behind its parent in the ring, READY, with the
    parent's working directory and descriptors, every reference count right; its
    address space holds the parent's user bytes; its kernel stack carries a copy of the interrupted frame in which only RAX differs
    and is 0; and the state stays sound for every later switch. *)
Theorem fork_ok sch s l1 c l2 p regs :
  quiet sch → fd_inv s → proc_inv s (l1 ++ c :: l2) → k_current s = c → k_tasks s !! c = Some p →
  k_next_pid s ≤ MAX_TASKS → Z.of_nat (length (l1 ++ c :: l2)) < MAX_TASKS + 2 →
  Z.of_nat (size (k_tasks s)) < 1000000 → user_regs s p regs →
  ∃ s' child t, sys_fork sch regs s = Ret (k_next_pid s) s' ∧ fd_inv s' ∧
    proc_inv s' (l1 ++ c :: child :: l2) ∧ k_current s' = c ∧ k_tasks s' !! child = Some t ∧
    t_id t = k_next_pid s ∧ t_parent t = c ∧ t_state t = TASK_READY ∧ t_cwd t = t_cwd p ∧
    t_fd_table t = t_fd_table p ∧
    (∀ i, 0 ≤ i < (src_top s p regs - regs) / 8 → k_mem s' !! (t_user_esp t + 8 * i) =
       if 8 * i =? REG_RAX then Some 0 else k_mem s !! (regs + 8 * i)) ∧
    k_pdirs s' = <[t_page_directory t := default ∅ (k_pdirs s !! t_page_directory p)]> (k_pdirs s).
Proof.
  intros Hq Hinv Hp Hc Ep Hpid Hlen Hsz Hregs. pose proof Hp as [[_ _ _ _ _ _ Hlk] Hm Ht Hpos].
  destruct (fork_run sch s c p regs Hq Hinv Hc Ep Hlk Hm Ht Hpos Hpid Hsz Hregs)
    as (s' & E & I & Et & H1 & H2 & H3 & H4 & H5 & H6 & Hin & Hgu & Hout & Hpd).
  set (child := k_fresh s + 1) in *. set (base := align_up (child + 1) 4096) in *.
  set (used := src_top s p regs - regs) in *.
  assert (child + 1 ≤ base ∧ base mod 4096 = 0) as [Hb1 Hb2] by (apply align_up_spec; unfold child; lia).
  assert (c < k_fresh s) as Hcf. { apply (ring_lt _ _ _ Hp), elem_of_app. right. apply list_elem_of_here. }
  pose proof (ur_size _ _ _ Hregs) as Hsize. fold used in Hsize. unfold FRAME_SIZE in Hsize.
  exists s', child, (child_task s c p used). split; [done|]. split; [done|]. split.
  - eapply (proc_inv_add s s' l1 c l2 p child _ base); try done.
    + unfold child in *. lia.
    + congruence.
    + change (t_user_esp _) with (base + KSTACK_SIZE - used). lia.
    + change (t_user_esp _) with (base + KSTACK_SIZE - used). apply aligned_frame; [done|]. apply (ur_align _ _ _ Hregs).
    + apply Hgu; [lia|]. by rewrite Z.sub_diag.
  - split; [done|]. split.
    { rewrite Et, lookup_insert_ne, lookup_insert_eq; [done|unfold child; lia]. }
    do 5 (split; [reflexivity|]). split; [exact Hin|exact Hpd].
Qed.

(** ** Kernel tasks *)

Lemma ring_head m h l : ring m h l → h ∉ tail l.
Proof.
  intros [Hp Hn Hne]. destruct l as [|x l]; [done|]. destruct Hp as [-> _]. by apply NoDup_cons in Hn as [? _].
Qed.

Lemma find_tail_run s c l : ∀ fuel t, path (k_tasks s) t (l ++ [c]) (k_ready_queue s) →
  k_ready_queue s ∉ tail (l ++ [c]) → (length l < fuel)%nat → find_tail fuel t s = Ret c s.
Proof.
  induction l as [|x l IH]; intros fuel t Hp Hh Hf; (destruct fuel as [|fuel]; [simpl in Hf; lia|]);
    cbn [find_tail]; destruct Hp as (-> & Hx & tx & Etx & Hp); rewrite (get_task_bind _ _ _ _ Etx), kget_bind.
  - simpl in Hp. by rewrite Hp, Z.eqb_refl, orb_true_r.
  - simpl in Hf. cbn [app tail] in Hh.
    assert (t_next tx ≠ 0 ∧ t_next tx ≠ k_ready_queue s ∧ k_ready_queue s ∉ tail (l ++ [c])) as (H1 & H2 & H3).
    { destruct (l ++ [c]) as [|y l'] eqn:El; [by destruct l|]. simpl in Hp. destruct Hp as (-> & ? & _).
      apply not_elem_of_cons in Hh as [? ?]. done. }
    apply Z.eqb_neq in H1, H2. rewrite H1, H2. cbn [orb]. apply IH; [done|done|lia].
Qed.

(** The task [create_kernel_task] puts at the end of the ring. *)
Definition kernel_task s : task_t :=
  let base := align_up (k_fresh s + 1) 4096 in
  with_t_next (k_ready_queue s) (with_t_user_esp (base + KSTACK_SIZE - FRAME_SIZE)
    (with_t_kernel_stack (base + KSTACK_SIZE) (with_t_kernel_stack_base base
      (with_t_capabilities 0 (with_t_state TASK_READY (with_t_page_directory (k_kernel_directory s)
        (with_t_id (k_next_pid s) zero_task))))))).

Lemma create_run s l c tc entry rsp :
  ring (k_tasks s) (k_ready_queue s) (l ++ [c]) → k_tasks s !! c = Some tc → k_rq_lock s = false →
  k_tasks s !! k_fresh s = None → c < k_fresh s →
  let base := align_up (k_fresh s + 1) 4096 in
  create_kernel_task entry rsp s = Ret (k_fresh s)
    (with_k_tasks (<[c := with_t_next (k_fresh s) tc]> (<[k_fresh s := kernel_task s]> (k_tasks s)))
      (with_k_fresh (base + KSTACK_SIZE) (with_k_stacks ({[base]} ∪ k_stacks s)
        (with_k_mem (push_words (base + KSTACK_SIZE) (kernel_frame entry rsp)
                       (fill stack_words base STACK_MAGIC (k_mem s))).2
          (with_k_rq_lock false (with_k_next_pid (u32 (k_next_pid s + 1)) s)))))).
Proof.
  intros Hr Etc Hlk Hnew Hcf base. unfold create_kernel_task, new_task.
  unfold kbind at 1. unfold kmalloc at 1. unfold kbind at 1. unfold put_task at 1. rewrite kmodify_bind.
  unfold kret at 1. unfold take_pid. unfold kbind at 1. rewrite kget_bind, kmodify_bind. unfold kret at 1.
  rewrite kget_bind. rewrite (upd_task_bind (k_fresh s) _ zero_task) by apply lookup_insert_eq.
  unfold kbind at 1. unfold alloc_stack at 1. unfold kbind at 1. unfold push_frame at 1.
  erewrite upd_task_bind by apply lookup_insert_eq. unfold lock_rq. unfold kbind at 1. rewrite kget_bind.
  cbn [k_rq_lock with_k_tasks with_k_mem with_k_fresh with_k_stacks with_k_next_pid]. rewrite Hlk.
  unfold kmodify at 1. rewrite kget_bind.
  set (s1 := with_k_rq_lock true _).
  assert (k_tasks s1 = <[k_fresh s := with_t_next 0 (kernel_task s)]> (k_tasks s)) as Et1.
  { unfold s1. cbn -[insert push_words fill align_up]. rewrite !insert_insert_eq, push_words_fst. reflexivity. }
  assert (k_ready_queue s1 = k_ready_queue s) as Eq1 by reflexivity.
  assert (k_fresh s ≠ c) as Hne by lia.
  assert (ring (k_tasks s1) (k_ready_queue s1) (l ++ [c])) as Hr1.
  { rewrite Et1, Eq1. eapply ring_ext; [|exact Hr]. intros x t Hx Ex. exists t. split; [|done].
    rewrite lookup_insert_ne; [done|]. intros <-. congruence. }
  pose proof (ring_length _ _ _ Hr1) as Hlen. rewrite length_app in Hlen. cbn [length] in Hlen.
  rewrite (kbind_ret _ _ _ _ _ (find_tail_run s1 c l (S (size (k_tasks s1))) (k_ready_queue s1) (rg_path _ _ _ Hr1)
    (ring_head _ _ _ Hr1) ltac:(lia))).
  rewrite (upd_task_bind _ s1 (with_t_next 0 (kernel_task s))) by (rewrite Et1; apply lookup_insert_eq).
  rewrite Et1, insert_insert_eq. rewrite (upd_task_bind c _ tc) by (cbn -[insert]; by rewrite lookup_insert_ne).
  unfold unlock_rq. rewrite kmodify_bind. unfold kret. unfold s1. kst_eq.
Qed.

(** [create_kernel_task] puts a task at the end of a sound ring and keeps it
    sound: the new task is READY in the kernel's page directory, and the frame on
    its own stack resumes at [entry] in kernel mode with interrupts enabled. *)
Theorem create_kernel_task_ok s l entry rsp :
  fd_inv s → proc_inv s l → Z.of_nat (length l) < MAX_TASKS + 2 → Z.of_nat (size (k_tasks s)) < 1000000 →
  ∃ s' a t, create_kernel_task entry rsp s = Ret a s' ∧ fd_inv s' ∧ proc_inv s' (l ++ [a]) ∧
    k_tasks s' !! a = Some t ∧ t_id t = k_next_pid s ∧ t_state t = TASK_READY ∧
    t_page_directory t = k_kernel_directory s ∧
    k_mem s' !! (t_user_esp t + REG_RIP) = Some entry ∧ k_mem s' !! (t_user_esp t + REG_CS) = Some 8 ∧
    k_mem s' !! (t_user_esp t + 184) = Some 514 ∧ k_mem s' !! (t_user_esp t + REG_RAX) = Some 0.
Proof.
  intros Hinv Hp Hlen Hsz. pose proof Hp as [[Hr _ _ _ _ _ Hlk] Hm Ht Hpos].
  destruct (exists_last (rg_ne _ _ _ Hr)) as (l0 & c & ->).
  destruct (ring_rotate _ _ _ _ _ Hr) as (tc & Etc & Hc0 & Hpath & Hcl & _).
  assert (c < k_fresh s) as Hcf. { apply (ring_lt _ _ _ Hp), elem_of_app. right. apply list_elem_of_here. }
  assert (t_next tc = k_ready_queue s) as Hnx.
  { pose proof (rg_path _ _ _ Hr) as (c0 & _ & H2)%path_app. simpl in H2. destruct H2 as (-> & _ & t & Et & E).
    congruence. }
  assert (k_tasks s !! k_fresh s = None) as Hnew by (apply Ht; lia).
  pose proof (create_run s l0 c tc entry rsp Hr Etc Hlk Hnew Hcf) as E. cbn zeta in E.
  set (base := align_up (k_fresh s + 1) 4096) in *. set (s' := with_k_tasks _ _) in E.
  assert (k_fresh s + 1 ≤ base ∧ base mod 4096 = 0) as [Hb1 Hb2] by (apply align_up_spec; lia).
  pose proof stack_words_eq as Hsw. change (KSTACK_SIZE / 8) with 2048 in Hsw.
  assert (∀ i w, (kernel_frame entry rsp) !! i = Some w →
    k_mem s' !! (base + KSTACK_SIZE - 8 * (Z.of_nat i + 1)) = Some w) as Hfr by (intros; by apply push_words_in).
  exists s', (k_fresh s), (kernel_task s). split; [exact E|]. split; [|split].
  - apply (fd_inv_same (with_k_fresh (base + KSTACK_SIZE) (with_k_tasks (<[k_fresh s := kernel_task s]> (k_tasks s)) s)));
      [|apply (same_tables_insert _ _ tc); [by cbn; rewrite lookup_insert_ne by lia|done]|done..].
    apply (fd_inv_new s _ (k_fresh s) (kernel_task s)); try done. cbn. unfold KSTACK_SIZE. lia.
  - rewrite <-app_assoc. cbn [app].
    apply (proc_inv_add s s' l0 c [] tc (k_fresh s) (kernel_task s) base); try done.
    + lia.
    + intros x Hx. unfold s'. cbn -[push_words fill]. unfold KSTACK_SIZE in *. rewrite push_words_out by (cbn; lia).
      apply fill_out. lia.
    + change (t_user_esp _) with (base + KSTACK_SIZE - FRAME_SIZE). unfold FRAME_SIZE, KSTACK_SIZE. lia.
    + change (t_user_esp _) with (base + KSTACK_SIZE - FRAME_SIZE). by apply aligned_frame.
    + unfold s'. cbn -[push_words fill]. unfold KSTACK_SIZE in *. rewrite push_words_out by (cbn; lia).
      pose proof (fill_in STACK_MAGIC stack_words base (k_mem s) 0 ltac:(lia)) as H0.
      by rewrite Z.mul_0_r, Z.add_0_r in H0.
  - split. { unfold s'. cbn -[insert]. rewrite lookup_insert_ne, lookup_insert_eq by lia. done. }
    do 3 (split; [reflexivity|]). change (t_user_esp _) with (base + KSTACK_SIZE - FRAME_SIZE).
    unfold FRAME_SIZE, REG_RIP, REG_CS, REG_RAX. split_and!.
    + rewrite <-(Hfr 4%nat entry eq_refl). f_equal. lia.
    + rewrite <-(Hfr 3%nat 8 eq_refl). f_equal. lia.
    + rewrite <-(Hfr 2%nat 514 eq_refl). f_equal. lia.
    + rewrite <-(Hfr 7%nat 0 eq_refl). f_equal. lia.
Qed.
End processes.

(** ** A process with open files *)

(** The machine of [demo_fds], whose task 16 has a stack at 65536 and was
    interrupted in user mode with a frame of 26 words. *)
Definition demo_proc_task : task_t :=
  with_t_user_esp 81712 (with_t_kernel_stack 81920 (with_t_kernel_stack_base 65536
    (with_t_fd_table ([0; 0; 0; 60; 61] ++ replicate 27 0) (demo_task 1)))).
Definition demo_proc : kst unit :=
  with_k_fresh 100000 (with_k_mem (fill 26 81712 27 {[65536 := STACK_MAGIC]})
    (with_k_tasks {[16 := demo_proc_task]} demo_fds)).

Lemma demo_proc_fds : fd_inv demo_proc.
Proof.
  apply (fd_inv_same demo_fds); [apply demo_fds_inv|by vm_compute|reflexivity..|vm_compute; congruence].
Qed.

Lemma demo_proc_inv : proc_inv demo_proc [16].
Proof.
  assert (∀ x t, k_tasks demo_proc !! x = Some t → x = 16 ∧ t = demo_proc_task) as H.
  { intros x t Hx. cbn in Hx. by apply lookup_singleton_Some in Hx as [<- <-]. }
  split; [split| | |done]; try done.
  - split; [|by apply (bool_decide_eq_true_1 _)|done].
    split_and!; [done..|]. eexists. split; [reflexivity|done].
  - apply list_elem_of_here.
  - intros x t _ [_ ->]%H. by split.
  - intros x t _ Hx [-> _]%H. done.
  - intros x t _ Hx [-> _]%H. done.
  - intros a Ha. cbn -[fill]. cbn -[fill] in Ha. rewrite fill_out by lia. apply lookup_singleton_ne. lia.
  - intros a Ha. cbn in *. apply lookup_singleton_ne. lia.
Qed.

Lemma demo_proc_regs : user_regs demo_proc demo_proc_task 81712.
Proof.
  assert (∀ i, 0 ≤ i < 26 → k_mem demo_proc !! (81712 + 8 * i) = Some 27) as H
    by (intros i Hi; apply fill_in; lia).
  split; [done|by vm_compute|by vm_compute|by vm_compute|..].
  - intros i Hi. change ((_ - _) / 8) with 26 in Hi. rewrite H by done. eauto.
  - intros cs Hcs. assert (Some cs = Some 27) as [= ->] by (rewrite <-Hcs; apply (H 22); lia). done.
  - intros rbp Hrbp. assert (Some rbp = Some 27) as [= ->] by (rewrite <-Hrbp; apply (H 12); lia). done.
Qed.

Lemma fork_ok_witness :
  ∃ s' child, sys_fork (Some sched_rr) 81712 demo_proc = Ret 2 s' ∧ fd_inv s' ∧ proc_inv s' [16; child].
Proof.
  destruct (fork_ok (Some sched_rr) demo_proc [] 16 [] demo_proc_task 81712 quiet_rr demo_proc_fds
    demo_proc_inv eq_refl eq_refl) as (s' & child & t & E & I & P & _); [by vm_compute..|apply demo_proc_regs|].
  exists s', child. split; [exact E|]. split; [exact I|exact P].
Defined.

Lemma create_kernel_task_ok_witness :
  ∃ s' a, create_kernel_task 4096 0 demo_proc = Ret a s' ∧ proc_inv s' [16; a].
Proof.
  destruct (create_kernel_task_ok demo_proc [16] 4096 0 demo_proc_fds demo_proc_inv)
    as (s' & a & t & E & _ & P & _); [by vm_compute..|].
  exists s', a. split; [exact E|exact P].
Defined.

(** A user program can stop the kernel: it forks with RBP holding the address of
    the word in which its own RBP is saved (here 81808).  The relocation of frame
    pointers then never leaves that word and panics at its 65th step. *)
Lemma fork_rbp_panic :
  match sys_fork None 81712 (with_k_mem (<[81712 + REG_RBP := 81712 + REG_RBP]>
          (fill 26 81712 27 {[65536 := STACK_MAGIC]})) demo_proc) with
  | Panic _ => True
  | _ => False
  end.
Proof. vm_compute. exact I. Qed.
