(* ===== verification/Signal.v ===== *)
(** * Signals, exit, wait and reaping

    Models [task_deliver_signal], [kill], [task_send_signal],
    [task_send_sigint_foreground], [kill_all_children], [reap_zombies] and
    [wait_for_children] of [kernel/core/task.c] and the UABI_EXIT branch of
    [syscall_handler]; handlers of user programs are in [Uabi].  A task that kills itself spins in [sti; hlt] until
    the timer takes the processor away: the outcome [Hang].  So does a task that
    waits for its children; when it is made READY it starts its scan again. *)

From stdpp Require Import base numbers list gmap strings.
From Stdlib Require Import ZArith Lia.
From S2P Require Import Prelude Kernel Pipe Vfs FdInv Sleep Sched Task.

#[local] Open Scope Z_scope.

Section ops.
Context {D : Type} {Drv : FsDriver D}.
#[local] Open Scope kernel_scope.
Variable current_scheduler : option (kabi_scheduler_ops_t D).

(** [do { if (body(t)) return; t = t->next; } while (t != start && t != 0)]; the
    result tells whether the body returned. *)
Fixpoint ring_walk (fuel : nat) (start t : Z) (body : Z → kM (kst D) bool) : kM (kst D) bool :=
  match fuel with
  | O => λ _, NoFuel
  | S fuel =>
      let* stop := body t in
      if stop then kret true
      else
        let* tk := get_task t in
        if (t_next tk =? start) || (t_next tk =? 0) then kret false
        else ring_walk fuel start (t_next tk) body
  end.

Definition add_pending (sig : Z) (t : task_t) : task_t :=
  with_t_pending_signals (Z.lor (t_pending_signals t) (SIG_BIT sig)) t.

(** SIGCHLD becomes pending for the parent, which wakes up if it waits. *)
Definition child_died (p : task_t) : task_t :=
  let p := add_pending SIGCHLD p in
  if t_state p =? TASK_WAITING then with_t_state TASK_READY p else p.

(** The label [do_terminate]. *)
Definition terminate (t : Z) : kM (kst D) unit :=
  let* tk := get_task t in
  if t_state tk =? TASK_ZOMBIE then kret tt
  else
    sleepq_remove t ;;;
    upd_task t (with_t_state TASK_ZOMBIE) ;;;
    (if t_parent tk =? 0 then kret tt
     else upd_task (t_parent tk) child_died) ;;;
    let* c := current_task in
    if t =? c then kmodify (with_k_irq_depth 0) ;;; khang else kret tt.

Definition task_deliver_signal (t sig : Z) : kM (kst D) unit :=
  if t =? 0 then kret tt
  else if sig =? SIGKILL then terminate t
  else if (sig =? SIGTERM) || (sig =? SIGINT) then
    let* tk := get_task t in
    if negb (t_sigterm_handler tk =? 0) then upd_task t (add_pending sig) else terminate t
  else if sig =? SIGCHLD then
    let* tk := get_task t in
    if t_parent tk =? 0 then kret tt else upd_task (t_parent tk) (add_pending SIGCHLD)
  else kret tt.

(** [if (task->id == (uint32_t)pid) { task_deliver_signal(task, sig); return; }] *)
Definition deliver_to (pid sig t : Z) : kM (kst D) bool :=
  let* tk := get_task t in
  if t_id tk =? u32 pid then task_deliver_signal t sig ;;; kret true else kret false.

Definition kill (pid : Z) : kM (kst D) unit :=
  let* s := kget in
  let h := k_ready_queue s in
  if (h =? 0) || (pid =? 2) then kret tt
  else ring_walk (S (size (k_tasks s))) h h (deliver_to pid SIGKILL) ;;; kret tt.

Definition task_send_signal (pid sig : Z) : kM (kst D) Z :=
  if pid =? 2 then kret (-1)
  else
    lock_rq ;;;
    let* s := kget in
    let h := k_ready_queue s in
    if h =? 0 then unlock_rq ;;; kret (-1)
    else
      let* found := ring_walk (S (size (k_tasks s))) h h (deliver_to pid sig) in
      unlock_rq ;;;
      kret (if found then 0 else -1).

(** [if (task->id > 2) task_deliver_signal(task, sig)] *)
Definition deliver_user (sig t : Z) : kM (kst D) bool :=
  let* tk := get_task t in
  (if 2 <? t_id tk then task_deliver_signal t sig else kret tt) ;;; kret false.

Definition task_send_sigint_foreground : kM (kst D) unit :=
  lock_rq ;;;
  let* s := kget in
  let h := k_ready_queue s in
  if h =? 0 then unlock_rq
  else ring_walk (S (size (k_tasks s))) h h (deliver_user SIGINT) ;;; unlock_rq.
Definition kill_foreground_processes : kM (kst D) unit := task_send_sigint_foreground.

Definition kill_all_children : kM (kst D) unit :=
  let* s := kget in
  let h := k_ready_queue s in
  if h =? 0 then kret tt
  else ring_walk (S (size (k_tasks s))) h h (deliver_user SIGKILL) ;;; kret tt.

Definition getpid : kM (kst D) Z :=
  let* c := current_task in let* t := get_task c in kret (t_id t).

(** UABI_EXIT: [kill(getpid())] does not come back to [schedule]. *)
Definition sys_exit (code regs : Z) : kM (kst D) unit :=
  let* c := current_task in
  upd_task c (with_t_exit_code (s32 code)) ;;;
  let* pid := getpid in
  kill pid ;;;
  schedule current_scheduler regs ;;;
  khang.

(** ** Reaping *)

Definition free_page_directory (pd : Z) : kM (kst D) unit :=
  let* s := kget in
  match k_pdirs s !! pd with Some _ => kmodify (with_k_pdirs (delete pd (k_pdirs s))) | None => kfault end.

(** Takes a task out of the ring behind [prev] and frees its kernel stack. *)
Definition unlink_task (task prev : Z) : kM (kst D) task_t :=
  sleepq_remove task ;;;
  lock_rq ;;;
  let* tk := get_task task in
  upd_task prev (with_t_next (t_next tk)) ;;;
  let* s := kget in
  (if task =? k_ready_queue s then kmodify (with_k_ready_queue (t_next tk)) else kret tt) ;;;
  unlock_rq ;;;
  kfree_stack (t_kernel_stack_base tk) ;;;
  kret tk.

(** The body for a task that is to be reaped; returns the task behind it. *)
Definition reap_one (task prev : Z) : kM (kst D) Z :=
  let* tk := unlink_task task prev in
  vfs_close_all_fds task ;;;
  let* p := get_task prev in
  notify_removed current_scheduler task ;;;
  let* s := kget in
  (if negb (t_page_directory tk =? 0) && negb (t_page_directory tk =? k_kernel_directory s)
   then free_page_directory (t_page_directory tk) else kret tt) ;;;
  kfree_task task ;;;
  kret (t_next p).

Definition should_reap (tk : task_t) : kM (kst D) bool :=
  let* c := current_task in
  let* ct := get_task c in
  kret ((t_state tk =? TASK_ZOMBIE) && ((t_parent tk =? c) || (t_id ct =? 1) || (t_id ct =? 2))).

Fixpoint reap_loop (fuel : nat) (task prev start : Z) : kM (kst D) unit :=
  match fuel with
  | O => λ _, NoFuel
  | S fuel =>
      let* tk := get_task task in
      let* r := should_reap tk in
      if r then
        if t_next tk =? task then kret tt
        else
          let* next := reap_one task prev in
          if (task =? start) || (next =? start) || (next =? 0) then kret tt
          else reap_loop fuel next prev start
      else if (t_next tk =? start) || (t_next tk =? 0) then kret tt
      else reap_loop fuel (t_next tk) task start
  end.

Definition reap_zombies : kM (kst D) unit :=
  let* s := kget in
  let h := k_ready_queue s in
  if h =? 0 then kret tt
  else
    let* prev := find_tail (S (size (k_tasks s))) h in
    reap_loop (S (size (k_tasks s))) h prev h.

(** The scan of [wait_for_children]: children alive, zombies, last status. *)
Fixpoint wait_scan (fuel : nat) (self start t : Z) (r : Z * Z * Z) : kM (kst D) (Z * Z * Z) :=
  match fuel with
  | O => λ _, NoFuel
  | S fuel =>
      let* tk := get_task t in
      let r := if t_parent tk =? self then
                 if t_state tk =? TASK_ZOMBIE then (r.1.1, r.1.2 + 1, t_exit_code tk)
                 else (r.1.1 + 1, r.1.2, r.2)
               else r in
      if (t_next tk =? start) || (t_next tk =? 0) then kret r
      else wait_scan fuel self start (t_next tk) r
  end.

(** One round of [wait_for_children]: returns the status, or marks the caller
    WAITING and halts; woken, it starts over with the last status so far. *)
Definition wait_for_children (last_status : Z) : kM (kst D) Z :=
  let* self := current_task in
  let* s := kget in
  let h := k_ready_queue s in
  let* r := (if h =? 0 then kret (0, 0, last_status)
             else wait_scan (S (size (k_tasks s))) self h h (0, 0, last_status)) in
  if (r.1.1 =? 0) && (r.1.2 =? 0) then kret r.2
  else if 0 <? r.1.2 then reap_zombies ;;; kret r.2
  else upd_task self (with_t_state TASK_WAITING) ;;; khang.
End ops.
