(* ===== verification/SignalInv.v ===== *)
(** * Signals and reaping keep the system sound

    Termination takes a task off the sleep queue, makes it a zombie and tells its
    parent; reaping frees exactly the zombies the caller may reap. *)

From stdpp Require Import base numbers list gmap strings sorting.
From Stdlib Require Import ZArith Lia.
From S2P Require Import Prelude Kernel Pipe Vfs FdInv Near Sleep Sched Task TaskInv Signal.

#[local] Open Scope Z_scope.

(** A task up to what a signal changes: its state, its pending signals and its
    place in the sleep queue. *)
Definition body (t : task_t) : task_t :=
  with_t_state 0 (with_t_pending_signals 0 (with_t_sleep_next 0 (with_t_sleep_until 0 t))).
Definition sig_task (t t' : task_t) : Prop :=
  body t' = body t ∧ (t_state t' = t_state t ∨ t_state t' = TASK_READY ∨ t_state t' = TASK_ZOMBIE).
#[export] Instance sig_task_preorder : PreOrder sig_task.
Proof.
  split; [by split; [|left]|]. intros t1 t2 t3 [H1 S1] [H2 S2]. split; [congruence|].
  destruct S2 as [->|?]; [done|by right].
Qed.
Definition sig_tasks (m m' : gmap Z task_t) : Prop := ∀ x, option_Forall2 sig_task (m !! x) (m' !! x).
#[export] Instance sig_tasks_preorder : PreOrder sig_tasks.
Proof. split; [intros m x; reflexivity|]. intros m1 m2 m3 H1 H2 x. etrans; [apply H1|apply H2]. Qed.

Lemma sig_tasks_insert m x t t' : m !! x = Some t → sig_task t t' → sig_tasks m (<[x := t']> m).
Proof.
  intros E H y. destruct (decide (y = x)) as [->|].
  - rewrite lookup_insert_eq, E. by constructor.
  - rewrite lookup_insert_ne by done. reflexivity.
Qed.
Lemma sig_tasks_lookup m m' x t : sig_tasks m m' → m !! x = Some t → ∃ t', m' !! x = Some t' ∧ sig_task t t'.
Proof. intros H E. specialize (H x). rewrite E in H. inversion H; subst. eauto. Qed.
Lemma sig_tasks_lookup_inv m m' x t' : sig_tasks m m' → m' !! x = Some t' → ∃ t, m !! x = Some t ∧ sig_task t t'.
Proof. intros H E. specialize (H x). rewrite E in H. inversion H; subst. eauto. Qed.

Lemma body_fields t t' : body t' = body t →
  t_next t' = t_next t ∧ t_magic t' = t_magic t ∧ t_kernel_stack t' = t_kernel_stack t ∧
  t_kernel_stack_base t' = t_kernel_stack_base t ∧ t_user_esp t' = t_user_esp t ∧
  t_fd_table t' = t_fd_table t ∧ t_parent t' = t_parent t ∧ t_id t' = t_id t ∧ t_exit_code t' = t_exit_code t.
Proof. destruct t, t'. unfold body. cbn. intros [=]; subst. done. Qed.

Lemma sig_tasks_tables m m' : sig_tasks m m' → same_tables m m'.
Proof.
  intros H. apply map_eq. intros x. rewrite !lookup_fmap. specialize (H x).
  inversion H as [t t' [Hb _] E1 E2|E1 E2]; [|done]. cbn. f_equal. by apply body_fields.
Qed.

Lemma only_links_sig m m' : only_links m m' → sig_tasks m m'.
Proof.
  intros H x. specialize (H x). destruct (m !! x) as [t|], (m' !! x) as [t'|]; try done; constructor.
  apply (inj Some) in H. split; [|left].
  - unfold body. f_equal. f_equal. done.
  - apply (f_equal t_state) in H. done.
Qed.

Section inv.
Context {D : Type} {Drv : FsDriver D}.
#[local] Open Scope kernel_scope.
Implicit Types s : kst D.

(** The sleep queue [q]: a task outside it is not marked as sleeping, and no
    zombie sleeps. *)
Record sleepers (m : gmap Z task_t) (h : Z) (q : list Z) : Prop := {
  sl_queue : qok m h q;
  sl_awake : ∀ x t, m !! x = Some t → x ∉ q → t_sleep_until t = 0;
  sl_alive : ∀ x t, m !! x = Some t → x ∈ q → t_state t ≠ TASK_ZOMBIE }.

(** The processes, their descriptors, and the sleep queue. *)
Record sys_inv s (l q : list Z) : Prop := {
  sy_proc : proc_inv s l;
  sy_fd : fd_inv s;
  sy_sleep : sleepers (k_tasks s) (k_sleep_queue s) q }.

(** Signals keep the processes and descriptors sound. *)
Lemma sig_step s s' l :
  proc_inv s l → fd_inv s → sig_tasks (k_tasks s) (k_tasks s') →
  k_ready_queue s' = k_ready_queue s → k_current s' = k_current s → k_rq_lock s' = false →
  k_mem s' = k_mem s → k_kstack_base s' = k_kstack_base s → k_kstack_top s' = k_kstack_top s →
  k_fresh s' = k_fresh s → k_files s' = k_files s → k_nodes s' = k_nodes s → k_pipes s' = k_pipes s →
  k_bufs s' = k_bufs s → proc_inv s' l ∧ fd_inv s'.
Proof.
  intros [Hs Hm Ht Hp] Hfd Hsig E1 E2 E3 E4 E5 E6 E7 E8 E9 E10 E11. split; [split|].
  - apply (sched_inv_step s); try done; [rewrite E2; apply Hs|].
    intros x t Hx Ex. destruct (sig_tasks_lookup _ _ _ _ Hsig Ex) as (t' & Ex' & [Hb Hst]).
    destruct (body_fields _ _ Hb) as (B1 & B2 & B3 & B4 & B5 & _). exists t'.
    destruct (si_valid _ _ Hs x t Hx Ex) as [_ _ V3 _].
    split_and!; try done; [congruence|]. rewrite E2. intros Hxc. split.
    + destruct Hst as [->|[->| ->]]; [by apply (si_run _ _ Hs x)|done..].
    + unfold frame_ok. rewrite B3, B4, B5. by apply (si_frame _ _ Hs x).
  - by rewrite E4, E7.
  - rewrite E7. intros a Ha. specialize (Ht a Ha). specialize (Hsig a). rewrite Ht in Hsig. by inversion Hsig.
  - by rewrite E7.
  - apply (fd_inv_same s); try done; [by apply sig_tasks_tables|by rewrite E7].
Qed.

(** Taking any task off the sleep queue, queued or not. *)
Lemma sleepq_remove_any s q t tk :
  queue_ok s q → k_tasks s !! t = Some tk → (t ∉ q → t_sleep_until tk = 0) →
  ∃ m h q' tk', sleepq_remove t s = Ret tt (with_k_sleep_queue h (with_k_tasks m s)) ∧ qok m h q' ∧
    (t ∉ q') ∧ (∀ x, x ≠ t → x ∈ q' ↔ x ∈ q) ∧ only_links (k_tasks s) m ∧
    m !! t = Some tk' ∧ t_sleep_until tk' = 0 ∧
    (∀ x, x ≠ t → tick_of m x = tick_of (k_tasks s) x).
Proof.
  intros Hq Et Ha. destruct (decide (t ∈ q)) as [Hin|Hnin].
  - apply list_elem_of_split in Hin as (l1 & l2 & ->).
    destruct (sleepq_remove_run s l1 t l2 Hq) as (m & h & t' & E & Q & Em & Hu & _ & O & T).
    pose proof (qo_nodup _ _ _ Hq) as (N1 & N2 & N3)%NoDup_app. apply NoDup_cons in N3 as [N3 _].
    exists m, h, (l1 ++ l2), t'. split_and!; try done.
    + rewrite elem_of_app. intros [Hx|]; [|done]. apply (N2 t Hx), list_elem_of_here.
    + intros x Hx. rewrite !elem_of_app, elem_of_cons. tauto.
  - exists (k_tasks s), (k_sleep_queue s), q, tk. split.
    + unfold sleepq_remove. rewrite (get_task_bind _ _ _ _ Et), (Ha Hnin). cbn. by destruct s.
    + split_and!; try done. by apply Ha.
Qed.

(** Changing what the queue does not use, without burying a sleeper. *)
Lemma sleepers_update m h q x t t' : sleepers m h q → m !! x = Some t →
  t_sleep_next t' = t_sleep_next t → t_sleep_until t' = t_sleep_until t →
  (x ∈ q → t_state t' ≠ TASK_ZOMBIE) → sleepers (<[x := t']> m) h q.
Proof.
  intros [Hq Ha Hal] E En Eu Hst. split.
  - eapply qok_same; [|exact Hq]. intros y. destruct (decide (y = x)) as [->|].
    + rewrite lookup_insert_eq, E. cbn. by rewrite En, Eu.
    + by rewrite lookup_insert_ne.
  - intros y ty. destruct (decide (y = x)) as [->|].
    + rewrite lookup_insert_eq. intros [= <-]. rewrite Eu. by apply Ha.
    + rewrite lookup_insert_ne by done. apply Ha.
  - intros y ty. destruct (decide (y = x)) as [->|].
    + rewrite lookup_insert_eq. by intros [= <-].
    + rewrite lookup_insert_ne by done. apply Hal.
Qed.

(** Taking a task off the queue. *)
Lemma sleepers_remove s q t tk :
  sleepers (k_tasks s) (k_sleep_queue s) q → k_tasks s !! t = Some tk →
  ∃ m h q' tk', sleepq_remove t s = Ret tt (with_k_sleep_queue h (with_k_tasks m s)) ∧
    sleepers m h q' ∧ (t ∉ q') ∧ only_links (k_tasks s) m ∧ m !! t = Some tk' ∧ t_state tk' = t_state tk.
Proof.
  intros [Hq Ha Hal] Et. destruct (sleepq_remove_any s q t tk Hq Et (Ha t tk Et))
    as (m & h & q' & tk' & E & Q & Hn & Hin & O & Em & Hu & T).
  assert (∀ x t', m !! x = Some t' → ∃ t0, k_tasks s !! x = Some t0 ∧ t_state t' = t_state t0) as Hst.
  { intros x t' Ex. specialize (O x). rewrite Ex in O. destruct (k_tasks s !! x) as [t0|]; [|done].
    exists t0. split; [done|]. apply (inj Some) in O. by apply (f_equal t_state) in O. }
  exists m, h, q', tk'. split_and!; try done.
  - split; [done| |].
    + intros x t' Ex Hx. destruct (decide (x = t)) as [->|Hne]; [congruence|].
      specialize (T x Hne). unfold tick_of in T. rewrite Ex in T. destruct (Hst x t' Ex) as (t0 & E0 & _).
      rewrite E0 in T. rewrite T. apply (Ha x t0 E0). intros Hxq. apply Hx, Hin; done.
    + intros x t' Ex Hx. destruct (Hst x t' Ex) as (t0 & E0 & ->). apply (Hal x t0 E0).
      apply Hin; [by intros ->|done].
  - destruct (Hst t tk' Em) as (t0 & E0 & ->). congruence.
Qed.

(** What [do_terminate] does, in any state of the queue lock. *)
Lemma terminate_run s q t tk :
  sleepers (k_tasks s) (k_sleep_queue s) q → k_tasks s !! t = Some tk → t_state tk ≠ TASK_ZOMBIE →
  t_parent tk ≠ t → (t_parent tk = 0 ∨ is_Some (k_tasks s !! t_parent tk)) →
  ∃ m h q' t', terminate t s =
      (let s' := with_k_sleep_queue h (with_k_tasks m s) in
       if t =? k_current s then Hang (with_k_irq_depth 0 s') else Ret tt s') ∧
    sleepers m h q' ∧ sig_tasks (k_tasks s) m ∧ m !! t = Some t' ∧ t_state t' = TASK_ZOMBIE ∧ (t ∉ q') ∧
    (t_parent tk ≠ 0 → ∃ p', m !! t_parent tk = Some p' ∧
       Z.testbit (t_pending_signals p') SIGCHLD = true ∧ t_state p' ≠ TASK_WAITING) ∧
    (∀ x, x ≠ t → x ≠ t_parent tk → t_state <$> m !! x = t_state <$> k_tasks s !! x).
Proof.
  intros Hsl Et Hz Hpt Hpar. apply Z.eqb_neq in Hz.
  destruct (sleepers_remove s q t tk Hsl Et) as (m1 & h & q' & tk1 & E1 & S1 & Hn & O & Em1 & Hst1).
  unfold terminate. rewrite (get_task_bind _ _ _ _ Et), Hz, (kbind_ret _ _ _ _ _ E1).
  set (s1 := with_k_sleep_queue h (with_k_tasks m1 s)).
  rewrite (upd_task_bind t s1 tk1) by done. set (t' := with_t_state TASK_ZOMBIE tk1).
  set (m2 := <[t := t']> m1). pose proof (only_links_sig _ _ O) as G1.
  assert (sleepers m2 h q') as S2 by (by eapply sleepers_update).
  assert (sig_tasks (k_tasks s) m2) as G2.
  { etrans; [exact G1|]. eapply sig_tasks_insert; [done|]. split; [done|]. auto. }
  assert (∀ x, x ≠ t → t_state <$> m2 !! x = t_state <$> k_tasks s !! x) as F2.
  { intros x Hx. unfold m2. rewrite lookup_insert_ne by done. specialize (O x).
    destruct (k_tasks s !! x), (m1 !! x); try done. apply (inj Some) in O. apply (f_equal t_state) in O. by cbn; f_equal. }
  set (s2 := with_k_tasks m2 s1). change (with_k_tasks _ s1) with s2.
  assert (∃ m, (if t_parent tk =? 0 then kret tt else upd_task (t_parent tk) child_died) s2 =
      Ret tt (with_k_tasks m s2) ∧ sleepers m h q' ∧ sig_tasks (k_tasks s) m ∧ m !! t = Some t' ∧
    (t_parent tk ≠ 0 → ∃ p', m !! t_parent tk = Some p' ∧
       Z.testbit (t_pending_signals p') SIGCHLD = true ∧ t_state p' ≠ TASK_WAITING) ∧
    (∀ x, x ≠ t_parent tk → m !! x = m2 !! x)) as (m & E & S & G & Em & Hp & Ho).
  { destruct (Z.eqb_spec (t_parent tk) 0) as [->|Hp0].
    - exists m2. split; [by destruct s|]. split_and!; try done. apply lookup_insert_eq.
    - destruct Hpar as [|[p0 Ep0]]; [done|].
      destruct (sig_tasks_lookup _ _ _ _ G2 Ep0) as (p & Ep & _).
      rewrite (upd_task_run (t_parent tk) s2 p _ Ep). set (p' := child_died p).
      assert (t_state p' ≠ TASK_WAITING ∧ Z.testbit (t_pending_signals p') SIGCHLD = true ∧ body p' = body p ∧
        t_sleep_next p' = t_sleep_next p ∧ t_sleep_until p' = t_sleep_until p ∧
        (t_state p' = t_state p ∨ t_state p' = TASK_READY)) as (P1 & P2 & P3 & P4 & P5 & P6).
      { assert (Z.testbit (Z.lor (t_pending_signals p) (SIG_BIT SIGCHLD)) SIGCHLD = true) as Hb
          by (rewrite Z.lor_spec; apply orb_true_r).
        unfold p', child_died. cbn. destruct (Z.eqb_spec (t_state p) TASK_WAITING); cbn; split_and!; auto. }
      eexists. split; [reflexivity|]. split_and!.
      + eapply sleepers_update; [exact S2|exact Ep|done|done|]. intros Hq'. destruct P6 as [->| ->]; [|done].
        by eapply (sl_alive _ _ _ S2).
      + etrans; [exact G2|]. eapply sig_tasks_insert; [exact Ep|]. split; [done|]. tauto.
      + rewrite lookup_insert_ne by done. apply lookup_insert_eq.
      + intros _. exists p'. rewrite lookup_insert_eq. done.
      + intros x Hx. by rewrite lookup_insert_ne. }
  rewrite (kbind_ret _ _ _ _ _ E), current_bind. change (k_current _) with (k_current s).
  exists m, h, q', t'. split_and!; try done.
  - destruct (t =? k_current s); cbv zeta; [|unfold s2, s1; kst_eq].
    rewrite kmodify_bind. unfold khang, s2, s1. kst_eq.
  - intros x Hx Hxp. rewrite Ho by done. by apply F2.
Qed.

(** ** Finding a task by its number *)

Definition id_of (m : gmap Z task_t) (x : Z) : option Z := t_id <$> m !! x.

Lemma walk_run s h pid sig l1 : ∀ fuel t x l2, path (k_tasks s) t (l1 ++ x :: l2) h →
  h ∉ tail (l1 ++ x :: l2) → (length (l1 ++ x :: l2) ≤ fuel)%nat →
  (∀ y, y ∈ l1 → id_of (k_tasks s) y ≠ Some (u32 pid)) → id_of (k_tasks s) x = Some (u32 pid) →
  ring_walk fuel h t (deliver_to pid sig) s = kbind (task_deliver_signal x sig) (λ _, kret true) s.
Proof.
  induction l1 as [|y l1 IH]; intros fuel t x l2 Hp Hh Hf Hy Hx; cbn [app length] in *;
    (destruct fuel as [|fuel]; [lia|]); cbn [ring_walk]; destruct Hp as (-> & Hy0 & ty & Ety & Hp).
  - unfold id_of in Hx. rewrite Ety in Hx. injection Hx as Hx.
    unfold deliver_to. unfold kbind at 1. rewrite (get_task_bind _ _ _ _ Ety), Hx, Z.eqb_refl.
    unfold kbind. by destruct (task_deliver_signal x sig s).
  - unfold deliver_to at 1. unfold kbind at 1. rewrite (get_task_bind _ _ _ _ Ety).
    specialize (Hy y (list_elem_of_here _ _)) as Hyid. unfold id_of in Hyid. rewrite Ety in Hyid. cbn in Hyid.
    replace (t_id ty =? u32 pid) with false by (symmetry; apply Z.eqb_neq; congruence).
    unfold kret at 1. rewrite (get_task_bind _ _ _ _ Ety). cbn [tail] in Hh.
    assert (t_next ty ≠ h ∧ t_next ty ≠ 0 ∧ h ∉ tail (l1 ++ x :: l2)) as (N1 & N2 & N3).
    { destruct (l1 ++ x :: l2) as [|z l'] eqn:El; [by destruct l1|]. cbn in Hp. destruct Hp as (-> & ? & _).
      apply not_elem_of_cons in Hh as [? ?]. done. }
    apply Z.eqb_neq in N1, N2. rewrite N1, N2. cbn [orb]. apply (IH fuel _ x l2); try done; [lia|].
    intros z Hz. by apply Hy, list_elem_of_further.
Qed.

Lemma walk_none s h pid sig l : ∀ fuel t, path (k_tasks s) t l h → l ≠ [] → h ∉ tail l → (length l ≤ fuel)%nat →
  (∀ y, y ∈ l → id_of (k_tasks s) y ≠ Some (u32 pid)) →
  ring_walk fuel h t (deliver_to pid sig) s = Ret false s.
Proof.
  induction l as [|y l IH]; intros fuel t Hp Hne Hh Hf Hy; [done|]. cbn [length] in *.
  destruct fuel as [|fuel]; [lia|]. cbn [ring_walk]. destruct Hp as (-> & Hy0 & ty & Ety & Hp).
  unfold deliver_to at 1. unfold kbind at 1. rewrite (get_task_bind _ _ _ _ Ety).
  specialize (Hy y (list_elem_of_here _ _)) as Hyid. unfold id_of in Hyid. rewrite Ety in Hyid. cbn in Hyid.
  replace (t_id ty =? u32 pid) with false by (symmetry; apply Z.eqb_neq; congruence).
  unfold kret at 1. rewrite (get_task_bind _ _ _ _ Ety). cbn [tail] in Hh. destruct l as [|z l].
  - cbn in Hp. by rewrite Hp, Z.eqb_refl.
  - pose proof Hp as (Hz & Hz0 & _). rewrite Hz in *. apply not_elem_of_cons in Hh as [Hzh Hh].
    apply Z.eqb_neq in Hz0. replace (z =? h) with false by (symmetry; apply Z.eqb_neq; congruence).
    rewrite Hz0. cbn [orb]. apply IH; try done; [lia|]. intros w Hw. by apply Hy, list_elem_of_further.
Qed.

(** [task_send_signal] with SIGKILL ends the process it names and no other:
    the task, found by its number in the ring, becomes a zombie, leaves the sleep
    queue, and its parent has SIGCHLD pending and waits no more; the system stays
    sound.  A number no task has gives -1 and changes nothing. *)
Theorem send_kill_ok s l q pid :
  sys_inv s l q → pid ≠ 2 →
  (∀ x, x ∈ l → id_of (k_tasks s) x ≠ Some (u32 pid)) ∧ task_send_signal pid SIGKILL s = Ret (-1) s ∨
  ∃ l1 x l2 tx, l = l1 ++ x :: l2 ∧ k_tasks s !! x = Some tx ∧ t_id tx = u32 pid ∧
    (t_state tx ≠ TASK_ZOMBIE → x ≠ k_current s → t_parent tx ≠ x →
     (t_parent tx = 0 ∨ is_Some (k_tasks s !! t_parent tx)) →
     ∃ s' q' tx', task_send_signal pid SIGKILL s = Ret 0 s' ∧ sys_inv s' l q' ∧
       k_tasks s' !! x = Some tx' ∧ t_state tx' = TASK_ZOMBIE ∧ (x ∉ q') ∧
       (t_parent tx ≠ 0 → ∃ p', k_tasks s' !! t_parent tx = Some p' ∧
          Z.testbit (t_pending_signals p') SIGCHLD = true ∧ t_state p' ≠ TASK_WAITING) ∧
       (∀ y, y ≠ x → y ≠ t_parent tx → t_state <$> k_tasks s' !! y = t_state <$> k_tasks s !! y)).
Proof.
  intros [Hp Hfd Hsl] H2. apply Z.eqb_neq in H2. pose proof Hp as [Hs _ _ _].
  pose proof (si_ring _ _ Hs) as Hr. pose proof (ring_length _ _ _ Hr) as Hlen.
  set (s0 := with_k_rq_lock true s). pose proof (ring_head _ _ _ Hr) as Hh.
  assert (k_ready_queue s ≠ 0) as Hrq%Z.eqb_neq by (by apply (sched_inv_bounds s l)).
  assert (∀ r, (ring_walk (S (size (k_tasks s))) (k_ready_queue s) (k_ready_queue s) (deliver_to pid SIGKILL)) s0 = r →
    task_send_signal pid SIGKILL s =
      match r with Ret b s1 => Ret (if b : bool then 0 else -1) (with_k_rq_lock false s1)
                 | Hang s1 => Hang s1 | Panic s1 => Panic s1 | Fault => Fault | NoFuel => NoFuel end) as Hrun.
  { intros r Hr'. unfold task_send_signal. rewrite H2. unfold lock_rq. unfold kbind at 1.
    rewrite kget_bind, (si_lock _ _ Hs). unfold kmodify at 1. rewrite kget_bind. fold s0.
    change (k_ready_queue s0) with (k_ready_queue s). change (k_tasks s0) with (k_tasks s).
    rewrite Hrq. unfold kbind at 1. rewrite Hr'. by destruct r as [[]| | | |]. }
  destruct (decide (Exists (λ x, id_of (k_tasks s) x = Some (u32 pid)) l)) as [Hex|Hnex].
  - right. assert (∃ l1 x l2, l = l1 ++ x :: l2 ∧ id_of (k_tasks s) x = Some (u32 pid) ∧
      ∀ y, y ∈ l1 → id_of (k_tasks s) y ≠ Some (u32 pid)) as (l1 & x & l2 & -> & Hx & Hy).
    { clear -Hex. induction l as [|y l IH]; [by inversion Hex|].
      destruct (decide (id_of (k_tasks s) y = Some (u32 pid))) as [E|E].
      - exists [], y, l. split_and!; try done. intros z Hz. by apply elem_of_nil in Hz.
      - inversion Hex; subst; [done|]. destruct IH as (l1 & x & l2 & -> & Hx & Hy); [done|].
        exists (y :: l1), x, l2. split_and!; try done. intros z [->|Hz]%elem_of_cons; auto. }
    pose proof Hx as Hx'. unfold id_of in Hx'. destruct (k_tasks s !! x) as [tx|] eqn:Etx; [|done]. injection Hx' as Hid.
    exists l1, x, l2, tx. split_and!; try done. intros Hz Hxc Hpx Hpar.
    destruct (terminate_run s0 q x tx Hsl Etx Hz Hpx Hpar) as (m & h & q' & t' & E & Hsl' & G & Em & Hst & Hn & Hpp & Ho).
    change (k_current s0) with (k_current s) in E. apply Z.eqb_neq in Hxc. rewrite Hxc in E. cbv zeta in E.
    pose proof (walk_run s0 (k_ready_queue s) pid SIGKILL l1 (S (size (k_tasks s))) (k_ready_queue s) x l2
      (rg_path _ _ _ Hr) Hh ltac:(lia) Hy Hx) as Ew.
    assert (x ≠ 0) as Hx0%Z.eqb_neq.
    { apply (path_live _ _ _ _ x (rg_path _ _ _ Hr)), elem_of_app. right. apply list_elem_of_here. }
    unfold task_deliver_signal in Ew. rewrite Hx0 in Ew. change (SIGKILL =? SIGKILL) with true in Ew. cbv iota in Ew.
    rewrite (kbind_ret _ _ _ _ _ E) in Ew. specialize (Hrun _ Ew). cbn beta iota in Hrun.
    eexists _, q', t'. split; [exact Hrun|]. set (s' := with_k_rq_lock false _).
    destruct (sig_step s s' (l1 ++ x :: l2) Hp Hfd) as [Hp' Hfd']; [exact G|unfold s', s0; kst_eq..|].
    split; [by split|]. split_and!; done.
  - left. assert (∀ x, x ∈ l → id_of (k_tasks s) x ≠ Some (u32 pid)) as Hno.
    { intros x Hx E. apply Hnex, Exists_exists. eauto. }
    split; [done|]. rewrite (Hrun (Ret false s0)).
    + unfold s0. f_equal. pose proof (si_lock _ _ Hs) as Hl. destruct s; cbn in Hl. by rewrite Hl.
    + apply (walk_none s0 _ pid SIGKILL l); try done; [apply Hr|apply Hr|lia].
Qed.
End inv.

(** ** A concrete system

    Task 16 runs; its child 17 is in the state [st], and 18 is ready. *)
Definition demo_sys (st : Z) : kst unit :=
  let base x := x * 65536 in
  let tk x n st p := with_t_parent p (with_t_exit_code (x + 23) (with_t_state st (with_t_id (x - 15) (with_t_next n
    (with_t_kernel_stack_base (base x) (with_t_kernel_stack (base x + 16384) (with_t_user_esp (base x + 16000) zero_task))))))) in
  with_k_fresh 2000000 (with_k_stacks {[base 16; base 17; base 18]}
    (with_k_mem {[base 16 := STACK_MAGIC; base 17 := STACK_MAGIC; base 18 := STACK_MAGIC]}
      (with_k_tasks {[16 := tk 16 17 TASK_RUNNING 0; 17 := tk 17 18 st 16; 18 := tk 18 16 TASK_READY 16]} demo_state))).

Lemma demo_sys_tasks st x t : k_tasks (demo_sys st) !! x = Some t → x = 16 ∨ x = 17 ∨ x = 18.
Proof.
  cbn. rewrite !lookup_insert_Some, lookup_singleton_Some. intros [[<- _]|[_ [[<- _]|[_ [<- _]]]]]; auto.
Qed.
Lemma demo_sys_none st x : x ≠ 16 → x ≠ 17 → x ≠ 18 → k_tasks (demo_sys st) !! x = None.
Proof.
  intros. destruct (k_tasks (demo_sys st) !! x) as [t|] eqn:E; [|done].
  destruct (demo_sys_tasks _ _ _ E) as [|[]]; done.
Qed.

Lemma demo_sys_inv st : st ≠ TASK_RUNNING → sys_inv (demo_sys st) [16; 17; 18] [].
Proof.
  intros Hst. assert (∀ x t, k_tasks (demo_sys st) !! x = Some t →
    task_valid (demo_sys st) t ∧ frame_ok (demo_sys st) t (t_user_esp t) ∧ (x ≠ 16 → t_state t ≠ TASK_RUNNING) ∧
    length (t_fd_table t) = 32%nat ∧ t_sleep_until t = 0) as H.
  { intros x t E. destruct (demo_sys_tasks _ _ _ E) as [->|[->| ->]]; injection E as <-;
      (split; [by split|]); by split_and!. }
  split; [split; [split|..]|split; split|split; [split|..]]; try done.
  - split; [|by apply (bool_decide_eq_true_1 _)|done].
    split_and!; [done..|]. eexists. split; [reflexivity|].
    split_and!; [done..|]. eexists. split; [reflexivity|].
    split_and!; [done..|]. eexists. by split; [reflexivity|].
  - apply list_elem_of_here.
  - intros x t _ E. by apply (H x t).
  - intros x t _ _ E. by apply (H x t).
  - intros x t _ Hx E. by apply (H x t E).
  - intros a Ha. cbn in Ha |- *. rewrite !lookup_insert_ne by lia. apply lookup_empty.
  - intros a Ha. cbn in Ha. apply demo_sys_none; lia.
  - intros a Ha. change (all_refs _) with (@nil Z) in Ha. by apply elem_of_nil in Ha.
  - intros c t E. by apply (H c t).
  - constructor.
  - constructor.
  - intros x []%elem_of_nil.
  - intros x t E _. by apply (H x t).
  - intros x t _ []%elem_of_nil.
Qed.

Lemma send_kill_ok_witness : ∃ s' q', task_send_signal 2 SIGKILL (demo_sys TASK_WAITING) = Ret (-1) (demo_sys TASK_WAITING) ∧
  task_send_signal 3 SIGKILL (demo_sys TASK_WAITING) = Ret 0 s' ∧ sys_inv s' [16; 17; 18] q' ∧
  t_state <$> k_tasks s' !! 18 = Some TASK_ZOMBIE.
Proof.
  destruct (send_kill_ok (demo_sys TASK_WAITING) [16; 17; 18] [] 3 (demo_sys_inv TASK_WAITING ltac:(done)) ltac:(done))
    as [[H _]|(l1 & x & l2 & tx & El & Ex & Hid & H)].
  - exfalso. apply (H 18); [|reflexivity]. do 2 apply list_elem_of_further. apply list_elem_of_here.
  - assert (x = 18) as ->.
    { destruct (demo_sys_tasks _ _ _ Ex) as [->|[->| ->]]; [..|done]; injection Ex as <-; vm_compute in Hid; discriminate. }
    assert (tx = default zero_task (k_tasks (demo_sys TASK_WAITING) !! 18)) as -> by (by rewrite Ex).
    destruct H as (s' & q' & tx' & E & I & Et & Hz & _); [by vm_compute..|right; by eexists|].
    exists s', q'. split; [reflexivity|]. split; [exact E|]. split; [exact I|]. by rewrite Et; cbn; f_equal.
Defined.
