(* ===== verification/Reap.v ===== *)
(** * Reaping

    [reap_zombies] frees exactly the zombies its caller may reap: their task
    structures, kernel stacks, page directories and descriptors go, the ring
    closes over them, and everything else stays. *)

From stdpp Require Import base numbers list gmap strings sorting.
From Stdlib Require Import ZArith Lia.
From S2P Require Import Prelude Kernel Pipe Vfs FdInv Near Sleep Sched Task TaskInv Signal SignalInv.

#[local] Open Scope Z_scope.

(** Taking [x] out of the ring behind [p]. *)
Lemma ring_remove m m' h l1 p x l2 tp tx :
  ring m h (l1 ++ p :: x :: l2) → m !! x = Some tx →
  m' !! p = Some tp → t_next tp = t_next tx →
  (∀ y t, y ≠ x → y ≠ p → m !! y = Some t → ∃ t', m' !! y = Some t' ∧ t_next t' = t_next t) →
  ring m' h (l1 ++ p :: l2).
Proof.
  intros [Hp Hn _] Ex Ep En Ho. apply path_app in Hp as (c0 & Hp1 & Hp2). cbn in Hp2.
  destruct Hp2 as (-> & Hp0 & tp0 & Etp0 & Hx & Hx0 & tx0 & Etx & Hp2). assert (tx0 = tx) as -> by congruence.
  pose proof Hn as (N1 & N2 & N3)%NoDup_app. apply NoDup_cons in N3 as [N3 N4]. apply NoDup_cons in N4 as [N4 N5].
  rewrite elem_of_cons in N3.
  assert (∀ y t, y ∈ l1 ∨ y ∈ l2 → m !! y = Some t → ∃ t', m' !! y = Some t' ∧ t_next t' = t_next t) as Hsame.
  { intros y t Hy. apply Ho; intros ->; destruct Hy as [Hy|Hy]; try tauto; try done;
      apply (N2 _ Hy); [apply list_elem_of_further|]; apply list_elem_of_here. }
  split; [| |by destruct l1].
  - apply path_app. exists p. split; [eapply path_ext; [|exact Hp1]; intros; apply Hsame; auto|].
    cbn. split_and!; try done. exists tp. split; [done|]. rewrite En. eapply path_ext; [|exact Hp2]. intros; apply Hsame; auto.
  - apply NoDup_app. split_and!; [done| |by constructor; [tauto|]].
    intros y Hy. rewrite elem_of_cons. intros [->|Hy2]; apply (N2 _ Hy); [apply list_elem_of_here|].
    by do 2 apply list_elem_of_further.
Qed.

Section reap.
Context {D : Type} {Drv : FsDriver D}.
#[local] Open Scope kernel_scope.
Implicit Types s : kst D.

(** What of a task other than the reaped one and its predecessor may change. *)
Definition reap_task (t t' : task_t) : Prop :=
  with_t_next 0 (core t') = with_t_next 0 (core t) ∧
  (t_state t' = t_state t ∨ t_state t = TASK_WAITING ∧ t_state t' = TASK_READY).

Lemma reap_fields t t' : with_t_next 0 (core t') = with_t_next 0 (core t) →
  t_magic t' = t_magic t ∧ t_kernel_stack t' = t_kernel_stack t ∧ t_kernel_stack_base t' = t_kernel_stack_base t ∧
  t_user_esp t' = t_user_esp t ∧ t_sleep_next t' = t_sleep_next t ∧ t_sleep_until t' = t_sleep_until t ∧
  t_parent t' = t_parent t ∧ t_id t' = t_id t ∧ t_page_directory t' = t_page_directory t.
Proof. destruct t, t'. unfold core. cbn. intros [=]; subst. done. Qed.

Lemma sched_inv_remove s s' l1 p x l2 tp' tx :
  sched_inv s (l1 ++ p :: x :: l2) → k_tasks s !! x = Some tx → x ≠ k_current s →
  k_ready_queue s' = k_ready_queue s → k_current s' = k_current s → k_rq_lock s' = false →
  k_kstack_base s' = k_kstack_base s → k_kstack_top s' = k_kstack_top s →
  k_tasks s' !! p = Some tp' → t_next tp' = t_next tx →
  (∀ y t, y ∈ l1 ++ p :: l2 → k_tasks s !! y = Some t → k_mem s' !! t_kernel_stack_base t = k_mem s !! t_kernel_stack_base t) →
  (∀ y t, y ≠ x → k_tasks s !! y = Some t → ∃ t', k_tasks s' !! y = Some t' ∧ reap_task t t' ∧
     (y ≠ p → t_next t' = t_next t)) →
  sched_inv s' (l1 ++ p :: l2).
Proof.
  intros [Hr Hl Hc Hv Hf Hrun Hlk] Ex Hxc E1 E2 E3 E4 E5 Ep En Hmem Ho.
  assert (∀ y, y ∈ l1 ++ p :: l2 → y ∈ l1 ++ p :: x :: l2 ∧ y ≠ x) as Hin.
  { intros y. pose proof (rg_nodup _ _ _ Hr) as (N1 & N2 & N3)%NoDup_app. apply NoDup_cons in N3 as [N3 N4].
    apply NoDup_cons in N4 as [N4 _]. rewrite !elem_of_app, !elem_of_cons in *. intros Hy. split; [tauto|].
    intros ->. destruct Hy as [Hy|[->|Hy]]; [|tauto|done]. apply (N2 x Hy). apply list_elem_of_further, list_elem_of_here. }
  assert (∀ y t', y ∈ l1 ++ p :: l2 → k_tasks s' !! y = Some t' →
    ∃ t, k_tasks s !! y = Some t ∧ reap_task t t') as Hback.
  { intros y t' Hy Ey. destruct (Hin y Hy) as [Hy' Hyx].
    destruct (path_live _ _ _ _ y (rg_path _ _ _ Hr) Hy') as [_ [t Et]].
    destruct (Ho y t Hyx Et) as (t1 & Et1 & H1 & _). exists t. split; [done|]. congruence. }
  split.
  - rewrite E1. eapply ring_remove; [exact Hr|exact Ex|exact Ep|exact En|].
    intros y t Hyx Hyp Ey. destruct (Ho y t Hyx Ey) as (t' & Et' & _ & H). eauto.
  - rewrite !length_app in *. cbn [length] in *. lia.
  - rewrite E2. rewrite !elem_of_app, !elem_of_cons in *. destruct Hc as [|[|[|]]]; try tauto. congruence.
  - intros y t' Hy Ey. destruct (Hback y t' Hy Ey) as (t & Et & [Hb _]).
    destruct (reap_fields _ _ Hb) as (B1 & B2 & B3 & B4 & _). destruct (Hin y Hy) as [Hy' _].
    destruct (Hv y t Hy' Et) as [V1 V2 V3 V4]. split; try congruence. rewrite B3, (Hmem y t Hy Et). done.
  - intros y t' Hy Hyc Ey. destruct (Hback y t' Hy Ey) as (t & Et & [Hb _]).
    destruct (reap_fields _ _ Hb) as (B1 & B2 & B3 & B4 & _). destruct (Hin y Hy) as [Hy' _]. rewrite E2 in Hyc.
    unfold frame_ok. rewrite B2, B3, B4, E4, E5. by apply (Hf y t).
  - intros y t' Hy Hyc Ey. destruct (Hback y t' Hy Ey) as (t & Et & [_ Hst]). destruct (Hin y Hy) as [Hy' _].
    rewrite E2 in Hyc. specialize (Hrun y t Hy' Hyc Et). destruct Hst as [->|[_ ->]]; done.
  - done.
Qed.

Lemma unfill_out n : ∀ a (m : gmap Z Z) y, y < a ∨ a + 8 * Z.of_nat n ≤ y → unfill n a m !! y = m !! y.
Proof.
  induction n as [|n IH]; intros a m y Hy; [done|]. cbn [unfill]. rewrite lookup_delete_ne by lia. apply IH. lia.
Qed.
Lemma unfill_None n : ∀ a (m : gmap Z Z) y, m !! y = None → unfill n a m !! y = None.
Proof.
  induction n as [|n IH]; intros a m y Hy; [done|]. cbn [unfill]. apply lookup_delete_None. auto.
Qed.

(** A task of the ring [l] that can be freed: it does not run, its stack and page
    directory are live and its own, and no pipe remembers it as its reader. *)
Record freeable s (l : list Z) (x : Z) (tx : task_t) : Prop := {
  fz_current : x ≠ k_current s;
  fz_stack : t_kernel_stack_base tx ∈ k_stacks s;
  fz_apart : ∀ y ty, y ∈ l → y ≠ x → k_tasks s !! y = Some ty →
    t_kernel_stack_base ty < t_kernel_stack_base tx ∨ t_kernel_stack_base tx + KSTACK_SIZE ≤ t_kernel_stack_base ty;
  fz_pdir : t_page_directory tx = 0 ∨ t_page_directory tx = k_kernel_directory s ∨ is_Some (k_pdirs s !! t_page_directory tx);
  fz_own : ∀ y ty, y ∈ l → y ≠ x → k_tasks s !! y = Some ty → t_page_directory ty = t_page_directory tx →
    t_page_directory tx = 0 ∨ t_page_directory tx = k_kernel_directory s;
  fz_wait : ∀ pp p, k_pipes s !! pp = Some p → p_waiting p ≠ x }.

(** [s'] is [s] without the task [x]. *)
Record reaped (x : Z) (tx : task_t) s s' : Prop := {
  rp_gone : k_tasks s' !! x = None;
  rp_tasks : ∀ y t, y ≠ x → k_tasks s !! y = Some t → ∃ t', k_tasks s' !! y = Some t' ∧ reap_task t t';
  rp_none : ∀ y, k_tasks s !! y = None → k_tasks s' !! y = None;
  rp_current : k_current s' = k_current s;
  rp_ready : k_ready_queue s' = k_ready_queue s;
  rp_kdir : k_kernel_directory s' = k_kernel_directory s;
  rp_stacks : k_stacks s' = k_stacks s ∖ {[t_kernel_stack_base tx]};
  rp_pdirs : ∀ y, y ≠ t_page_directory tx → k_pdirs s' !! y = k_pdirs s !! y;
  rp_wait : ∀ pp p', k_pipes s' !! pp = Some p' → ∃ p, k_pipes s !! pp = Some p ∧ p_waiting p' = p_waiting p }.

(** Removing a task without descriptors on which no pipe waits. *)
Lemma fd_inv_delete s s' x tx : fd_inv s → k_tasks s !! x = Some tx → t_fd_table tx = replicate 32 0 →
  x ≠ k_current s → (∀ pp p, k_pipes s !! pp = Some p → p_waiting p ≠ x) →
  k_tasks s' = delete x (k_tasks s) → k_current s' = k_current s → k_files s' = k_files s →
  k_nodes s' = k_nodes s → k_pipes s' = k_pipes s → k_bufs s' = k_bufs s → k_fresh s' = k_fresh s → fd_inv s'.
Proof.
  intros [[Hf Hw Hb Hp Ha Hl] [Ht Hc Hn]] Ex Htab Hxc Hwait Em E1 E2 E3 E4 E5 E6.
  assert (all_refs (k_tasks s) ≡ₚ all_refs (k_tasks s')) as Hperm.
  { rewrite Em, (all_refs_split _ _ _ Ex). unfold task_refs. by rewrite Htab. }
  split; [rewrite <-Hperm; split|split].
  - intros a Ha'. destruct (Hf a Ha') as (fl & nd & H). exists fl, nd. unfold node_ok. by rewrite E2, E3, E4, E5.
  - intros pp p. rewrite E4, Em. intros H. destruct (Hw pp p H) as [|Hs]; [by left|]. right.
    rewrite lookup_delete_ne by (symmetry; by eapply Hwait). done.
  - rewrite E3, E6. exact Hb.
  - rewrite E3, E6. exact Hp.
  - unfold allocated. by rewrite E2, E3, E4, E5, E6.
  - done.
  - intros c t. rewrite Em, lookup_delete_Some. intros [_ H]. by eapply Ht.
  - rewrite E1, Em, lookup_delete_ne by done. done.
  - rewrite Em. pose proof (map_size_delete_Some _ _ (mk_is_Some _ _ Ex)). lia.
Qed.

(** The sleep queue when tasks change as in a reaping and [x] goes. *)
Lemma sleepers_reaped m m' h q x tx : sleepers m h q → m !! x = Some tx → t_state tx = TASK_ZOMBIE →
  m' !! x = None → (∀ y t, y ≠ x → m !! y = Some t → ∃ t', m' !! y = Some t' ∧ reap_task t t') →
  (∀ y, m !! y = None → m' !! y = None) → sleepers m' h q.
Proof.
  intros [[Hc Hn Hs Hu] Ha Hal] Ex Hz Hx Ho Hno.
  assert (∀ y, y ∈ q → y ≠ x) as Hq. { intros y Hy ->. by apply (Hal x tx Ex). }
  assert (∀ y, y ∈ q → tick_of m' y = tick_of m y ∧ same_next m m' y) as Hy.
  { intros y Hy. destruct (chain_live _ _ _ _ Hc Hy) as [_ [t Et]].
    destruct (Ho y t (Hq y Hy) Et) as (t' & Et' & [Hb _]).
    destruct (reap_fields _ _ Hb) as (_ & _ & _ & _ & B5 & B6 & _).
    split; [unfold tick_of; by rewrite Et, Et'|by exists t, t']. }
  assert (∀ y t', m' !! y = Some t' → ∃ t, m !! y = Some t ∧ reap_task t t') as Hback.
  { intros y t' Ey. destruct (m !! y) as [t|] eqn:Et; [|rewrite Hno in Ey by done; done].
    assert (y ≠ x) as Hyx by (intros ->; congruence). destruct (Ho y t Hyx Et) as (t1 & Et1 & H).
    exists t. split; [done|congruence]. }
  split; [split|..].
  - eapply chain_ext; [|exact Hc]. intros y Hin. by apply Hy.
  - done.
  - eapply sorted_ext; [|exact Hs]. intros y z Hin Hiz. cbn. destruct (Hy y Hin) as [-> _], (Hy z Hiz) as [-> _]. done.
  - intros y Hin. destruct (Hy y Hin) as [-> _]. auto.
  - intros y t' Ey Hin. destruct (Hback y t' Ey) as (t & Et & [Hb _]).
    destruct (reap_fields _ _ Hb) as (_ & _ & _ & _ & _ & -> & _). by apply (Ha y t Et).
  - intros y t' Ey Hin. destruct (Hback y t' Ey) as (t & Et & [_ Hst]).
    specialize (Hal y t Et Hin). by destruct Hst as [->|[_ ->]].
Qed.

(** The unlinking part of [reap_one], up to the closing of the descriptors. *)
Lemma unlink_run s l1 prev x l2 q tx tp :
  sys_inv s (l1 ++ prev :: x :: l2) q → k_tasks s !! x = Some tx → t_state tx = TASK_ZOMBIE →
  k_tasks s !! prev = Some tp → t_kernel_stack_base tx ∈ k_stacks s →
  unlink_task x prev s =
  Ret tx (with_k_tasks (<[prev := with_t_next (t_next tx) tp]> (k_tasks s))
    (with_k_stacks (k_stacks s ∖ {[t_kernel_stack_base tx]})
      (with_k_mem (unfill stack_words (t_kernel_stack_base tx) (k_mem s)) (with_k_rq_lock false s)))).
Proof.
  intros [[Hs _ _ _] _ [_ Ha Hal]] Ex Hz Ep Hst.
  assert (x ∉ q) as Hxq. { intros Hq. by apply (Hal x tx Ex Hq). }
  pose proof (si_ring _ _ Hs) as Hr. pose proof (ring_head _ _ _ Hr) as Hh.
  assert (x ≠ k_ready_queue s ∧ x ≠ prev) as [Hxh Hxp].
  { split; [intros ->; apply Hh|]; [|pose proof (rg_nodup _ _ _ Hr) as (_ & _ & N)%NoDup_app].
    - destruct l1 as [|y l1]; cbn; [apply list_elem_of_here|]. apply elem_of_app. right.
      apply list_elem_of_further, list_elem_of_here.
    - apply NoDup_cons in N as [N _]. intros ->. apply N, list_elem_of_here. }
  assert (sleepq_remove x s = Ret tt s) as E1.
  { unfold sleepq_remove. rewrite (get_task_bind _ _ _ _ Ex), (Ha x tx Ex Hxq). done. }
  unfold unlink_task. rewrite (kbind_ret _ _ _ _ _ E1). unfold lock_rq. unfold kbind at 1. rewrite kget_bind, (si_lock _ _ Hs).
  unfold kmodify at 1. rewrite (get_task_bind x _ tx) by done. rewrite (upd_task_bind prev _ tp) by done.
  rewrite kget_bind. apply Z.eqb_neq in Hxh. cbn [k_ready_queue with_k_tasks with_k_rq_lock]. rewrite Hxh.
  unfold kret at 1. unfold kbind at 1. unfold unlock_rq. rewrite kmodify_bind.
  unfold kbind at 1. unfold kfree_stack at 1. rewrite decide_True by done. unfold kret. kst_eq.
Qed.

Lemma free_pdir_run s pd : pd = 0 ∨ pd = k_kernel_directory s ∨ is_Some (k_pdirs s !! pd) →
  ∃ P, (if negb (pd =? 0) && negb (pd =? k_kernel_directory s) then free_page_directory pd else kret tt) s =
    Ret tt (with_k_pdirs P s) ∧ ∀ y, y ≠ pd → P !! y = k_pdirs s !! y.
Proof.
  intros H. assert (with_k_pdirs (k_pdirs s) s = s) as Hs by (by destruct s).
  destruct (negb (pd =? 0) && negb (pd =? k_kernel_directory s)) eqn:E.
  - unfold free_page_directory. rewrite kget_bind. apply andb_true_iff in E as [E1%negb_true_iff%Z.eqb_neq E2%negb_true_iff%Z.eqb_neq].
    destruct H as [|[|[m Hm]]]; [done..|]. rewrite Hm. eexists. split; [reflexivity|]. intros y Hy. by rewrite lookup_delete_ne.
  - exists (k_pdirs s). rewrite Hs. done.
Qed.

Lemma reap_one_run sch s l1 prev x l2 q tx :
  quiet sch → sys_inv s (l1 ++ prev :: x :: l2) q → k_tasks s !! x = Some tx → t_state tx = TASK_ZOMBIE →
  freeable s (l1 ++ prev :: x :: l2) x tx →
  ∃ s', reap_one sch x prev s = Ret (t_next tx) s' ∧ sys_inv s' (l1 ++ prev :: l2) q ∧ reaped x tx s s'.
Proof.
  intros Hquiet Hsys Ex Hz Hfree. pose proof Hsys as [[Hs Hm Ht Hpos] Hfd Hsl].
  pose proof Hfree as [Hxc Hst Hap Hpd _ Hw].
  assert (prev ∈ l1 ++ prev :: x :: l2) as Hpin by (apply elem_of_app; right; apply list_elem_of_here).
  destruct (path_live _ _ _ _ prev (rg_path _ _ _ (si_ring _ _ Hs)) Hpin) as [Hp0 [tp Ep]].
  assert (prev ≠ x) as Hpx.
  { pose proof (rg_nodup _ _ _ (si_ring _ _ Hs)) as (_ & _ & N)%NoDup_app. apply NoDup_cons in N as [N _].
    intros ->. apply N, list_elem_of_here. }
  unfold reap_one. rewrite (kbind_ret _ _ _ _ _ (unlink_run s l1 prev x l2 q tx tp Hsys Ex Hz Ep Hst)).
  set (m2 := <[prev := with_t_next (t_next tx) tp]> (k_tasks s)). set (s4 := with_k_tasks m2 _).
  assert (fd_inv s4) as Hfd4.
  { apply (fd_inv_same s); try done. by apply (same_tables_insert _ _ tp). }
  assert (k_tasks s4 !! x = Some tx) as Ex4 by (cbn; unfold m2; by rewrite lookup_insert_ne).
  destruct (close_fds_run 32 0 x s4 Hfd4 ltac:(eauto) eq_refl) as (s5 & E5 & Hfd5 & Hc5 & Ht5 & _).
  change (close_fds 32 (Z.of_nat 0) x) with (vfs_close_all_fds x) in E5. cbn [take app] in Ht5.
  pose proof (keeps_close_all x _ _ _ E5) as Hnr. rewrite (kbind_ret _ _ _ _ _ E5).
  destruct (near_lookup s4 s5 prev (with_t_next (t_next tx) tp) Hnr) as (tp5 & Ep5 & [Hbp Hsp]); [apply lookup_insert_eq|].
  destruct (near_lookup s4 s5 x tx Hnr Ex4) as (tx5 & Ex5 & _).
  rewrite (get_task_bind _ _ _ _ Ep5). destruct (Hquiet x s5) as [_ Eq]. rewrite (kbind_ret _ _ _ _ _ Eq), kget_bind.
  destruct (free_pdir_run s5 (t_page_directory tx)) as (P & EP & HP).
  { rewrite (nr_kdir _ _ Hnr), (nr_pdirs _ _ Hnr). exact Hpd. }
  rewrite (kbind_ret _ _ _ _ _ EP). unfold kfree_task. unfold kbind at 1.
  rewrite (get_task_bind x _ tx5) by done. unfold kmodify at 1. unfold kret.
  set (s' := with_k_tasks _ _). assert (t_next tp5 = t_next tx) as Hnx by (by apply (f_equal t_next) in Hbp).
  assert (∀ y t, y ≠ x → k_tasks s !! y = Some t → ∃ t', k_tasks s' !! y = Some t' ∧ reap_task t t' ∧
    (y ≠ prev → t_next t' = t_next t)) as Ho.
  { intros y t Hyx Ey. assert (∃ t2, k_tasks s4 !! y = Some t2 ∧ with_t_next 0 (core t2) = with_t_next 0 (core t) ∧
      t_state t2 = t_state t ∧ (y ≠ prev → t_next t2 = t_next t)) as (t2 & E2 & B2 & S2 & N2).
    { cbn. unfold m2. destruct (decide (y = prev)) as [->|Hyp].
      - rewrite lookup_insert_eq. eexists. split; [done|]. assert (t = tp) as -> by congruence. done.
      - exists t. by rewrite lookup_insert_ne. }
    destruct (near_lookup s4 s5 y t2 Hnr E2) as (t' & E' & [Hb Hs']). exists t'.
    split; [cbn; by rewrite lookup_delete_ne|]. split; [split|].
    - by rewrite Hb.
    - rewrite <-S2. exact Hs'.
    - intros Hyp. rewrite <-(N2 Hyp). by apply (f_equal t_next) in Hb. }
  assert (∀ y, k_tasks s !! y = None → k_tasks s' !! y = None) as Hno.
  { intros y Ey. cbn. apply lookup_delete_None. right. destruct (k_tasks s5 !! y) as [t5|] eqn:E; [|done].
    destruct (near_lookup_inv _ _ _ _ Hnr E) as (t4 & E4 & _). cbn in E4. unfold m2 in E4.
    rewrite lookup_insert_ne in E4 by (intros ->; congruence). congruence. }
  assert (k_tasks s' !! x = None) as Hgone by apply lookup_delete_eq.
  exists s'. split; [by rewrite Hnx|]. split; [split; [split|..]|].
  - apply (sched_inv_remove s s' l1 prev x l2 tp5 tx); try done.
    + apply (nr_ready _ _ Hnr).
    + apply (nr_lock _ _ Hnr).
    + apply (nr_kbase _ _ Hnr).
    + apply (nr_ktop _ _ Hnr).
    + cbn. by rewrite lookup_delete_ne.
    + intros y t Hy Ey. cbn. rewrite (nr_mem _ _ Hnr). apply unfill_out. rewrite stack_words_eq.
      change (8 * (KSTACK_SIZE / 8)) with KSTACK_SIZE. apply (Hap y t); [| |done].
      * rewrite !elem_of_app, !elem_of_cons in *. tauto.
      * pose proof (rg_nodup _ _ _ (si_ring _ _ Hs)) as (_ & N2 & N)%NoDup_app. apply NoDup_cons in N as [_ N].
        apply NoDup_cons in N as [N _]. intros ->. rewrite elem_of_app, elem_of_cons in Hy.
        destruct Hy as [Hy|[->|Hy]]; [|done|done]. apply (N2 x Hy), list_elem_of_further, list_elem_of_here.
  - intros a Ha. cbn in *. rewrite (nr_mem _ _ Hnr). apply unfill_None. apply Hm. by rewrite (nr_fresh _ _ Hnr) in Ha.
  - intros a Ha. apply Hno, Ht. by cbn in Ha; rewrite (nr_fresh _ _ Hnr) in Ha.
  - cbn. by rewrite (nr_fresh _ _ Hnr).
  - eapply (fd_inv_delete s5 s' x tx5); try done.
    + unfold task_table in Ht5. by rewrite Ex5 in Ht5.
    + by rewrite Hc5.
    + intros pp p Hpp. destruct (nr_waiting _ _ Hnr pp p Hpp) as (p4 & Ep4 & ->). by apply (Hw pp).
  - replace (k_sleep_queue s') with (k_sleep_queue s) by (symmetry; apply (nr_sleep _ _ Hnr)).
    apply (sleepers_reaped (k_tasks s) _ _ q x tx Hsl Ex Hz Hgone); [|exact Hno].
    intros y t Hy Ey. destruct (Ho y t Hy Ey) as (t' & ? & ? & _). eauto.
  - split; try done.
    + intros y t Hy Ey. destruct (Ho y t Hy Ey) as (t' & ? & ? & _). eauto.
    + apply (nr_ready _ _ Hnr).
    + apply (nr_kdir _ _ Hnr).
    + apply (nr_stacks _ _ Hnr).
    + cbn. by rewrite (nr_pdirs _ _ Hnr) in HP.
    + apply (nr_waiting _ _ Hnr).
Qed.

(** ** The loop *)

(** What the current task may reap: its zombie children, and every zombie when it
    is PID 1 or the idle task. *)
Definition victim s (x : Z) : bool :=
  match k_tasks s !! x, k_tasks s !! k_current s with
  | Some t, Some c => (t_state t =? TASK_ZOMBIE) &&
      ((t_parent t =? k_current s) || (t_id c =? 1) || (t_id c =? 2))
  | _, _ => false
  end.

Lemma should_reap_run s x t : k_tasks s !! x = Some t → is_Some (k_tasks s !! k_current s) →
  should_reap t s = Ret (victim s x) s.
Proof.
  intros Ex [c Ec]. unfold should_reap, victim. rewrite current_bind, (get_task_bind _ _ _ _ Ec), Ex, Ec. done.
Qed.

Lemma victim_zombie s x t : k_tasks s !! x = Some t → victim s x = true → t_state t = TASK_ZOMBIE.
Proof.
  unfold victim. intros ->. destruct (k_tasks s !! k_current s); [|done]. intros [H _]%andb_true_iff. by apply Z.eqb_eq.
Qed.

Lemma victim_reaped s s' x tx y : reaped x tx s s' → y ≠ x → x ≠ k_current s → victim s' y = victim s y.
Proof.
  intros H Hy Hc. unfold victim. rewrite (rp_current _ _ _ _ H).
  destruct (k_tasks s !! y) as [t|] eqn:Ey; [|by rewrite (rp_none _ _ _ _ H y Ey)].
  destruct (rp_tasks _ _ _ _ H y t Hy Ey) as (t' & -> & [Hb Hst]).
  destruct (k_tasks s !! k_current s) as [c|] eqn:Ec; [|by rewrite (rp_none _ _ _ _ H _ Ec)].
  destruct (rp_tasks _ _ _ _ H _ c (not_eq_sym Hc) Ec) as (c' & -> & [Hbc _]).
  destruct (reap_fields _ _ Hb) as (_ & _ & _ & _ & _ & _ & -> & _).
  destruct (reap_fields _ _ Hbc) as (_ & _ & _ & _ & _ & _ & _ & -> & _). f_equal.
  destruct Hst as [->|[-> ->]]; done.
Qed.

Lemma freeable_reaped s s' l1 p x r tx y ty :
  NoDup (l1 ++ p :: x :: r) → reaped x tx s s' → freeable s (l1 ++ p :: x :: r) x tx → k_tasks s !! x = Some tx →
  y ∈ r → k_tasks s !! y = Some ty → freeable s (l1 ++ p :: x :: r) y ty →
  ∀ ty', k_tasks s' !! y = Some ty' → freeable s' (l1 ++ p :: r) y ty'.
Proof.
  intros Hnd Hre Hfx Ex Hyr Ey Hfy ty' Ey'.
  apply NoDup_app in Hnd as (_ & N2 & N). apply NoDup_cons in N as [N3 N]. apply NoDup_cons in N as [N4 _].
  rewrite elem_of_cons in N3.
  assert (y ≠ x) as Hyx by (by intros ->).
  assert (∀ z t', z ∈ l1 ++ p :: r → k_tasks s' !! z = Some t' → z ∈ l1 ++ p :: x :: r ∧ ∃ t, k_tasks s !! z = Some t ∧
    t_kernel_stack_base t' = t_kernel_stack_base t ∧ t_page_directory t' = t_page_directory t) as Hback.
  { intros z t' Hz Ez. rewrite !elem_of_app, !elem_of_cons in *. split; [tauto|].
    destruct (k_tasks s !! z) as [t|] eqn:E; [|rewrite (rp_none _ _ _ _ Hre z E) in Ez; done].
    assert (z ≠ x) as Hzx by (intros ->; rewrite (rp_gone _ _ _ _ Hre) in Ez; done).
    destruct (rp_tasks _ _ _ _ Hre z t Hzx E) as (t1 & E1 & [Hb _]). assert (t1 = t') as -> by congruence.
    exists t. split; [done|]. by destruct (reap_fields _ _ Hb) as (_ & _ & -> & _ & _ & _ & _ & _ & ->). }
  destruct (rp_tasks _ _ _ _ Hre y ty Hyx Ey) as (t1 & E1 & [Hb _]). assert (t1 = ty') as -> by congruence.
  destruct (reap_fields _ _ Hb) as (_ & _ & B3 & _ & _ & _ & _ & _ & B9).
  assert (x ∈ l1 ++ p :: x :: r) as Hxin by (rewrite elem_of_app, !elem_of_cons; tauto).
  assert (y ∈ l1 ++ p :: x :: r) as Hyin by (rewrite elem_of_app, !elem_of_cons; tauto).
  destruct Hfy as [F1 F2 F3 F4 F5 F6]. split.
  - by rewrite (rp_current _ _ _ _ Hre).
  - rewrite (rp_stacks _ _ _ _ Hre), B3. apply elem_of_difference. split; [done|].
    rewrite elem_of_singleton. intros E. destruct (F3 x tx Hxin (not_eq_sym Hyx) Ex); unfold KSTACK_SIZE in *; lia.
  - intros z tz Hz Hzy Ez. destruct (Hback z tz Hz Ez) as [Hz' (t & Et & -> & _)]. rewrite B3. by apply (F3 z t).
  - rewrite B9, (rp_kdir _ _ _ _ Hre). destruct F4 as [|[|Hpd]]; [auto..|].
    destruct (decide (t_page_directory ty = t_page_directory tx)) as [E|E].
    + destruct (F5 x tx Hxin (not_eq_sym Hyx) Ex (eq_sym E)); auto.
    + right; right. by rewrite (rp_pdirs _ _ _ _ Hre).
  - intros z tz Hz Hzy Ez. destruct (Hback z tz Hz Ez) as [Hz' (t & Et & _ & ->)].
    rewrite B9, (rp_kdir _ _ _ _ Hre). by apply (F5 z t).
  - intros pp p' Hp. destruct (rp_wait _ _ _ _ Hre pp p' Hp) as (p0 & Ep & ->). by apply (F6 pp).
Qed.

(** What the rest of the scan leaves: the victims of [r] are gone, every other
    task is there, changed at most by a wake-up or a new successor. *)
Record swept (r : list Z) s s' : Prop := {
  sw_gone : ∀ y, y ∈ r → victim s y = true → k_tasks s' !! y = None;
  sw_kept : ∀ y t, k_tasks s !! y = Some t → y ∉ r ∨ victim s y = false →
    ∃ t', k_tasks s' !! y = Some t' ∧ reap_task t t';
  sw_none : ∀ y, k_tasks s !! y = None → k_tasks s' !! y = None;
  sw_current : k_current s' = k_current s }.

#[export] Instance reap_task_preorder : PreOrder reap_task.
Proof.
  split; [by split; [|left]|]. intros t1 t2 t3 [H1 S1] [H2 S2]. split; [congruence|].
  destruct S1 as [E1|[E1 E1']], S2 as [E2|[E2 E2']].
  - left. congruence.
  - right. split; congruence.
  - right. split; congruence.
  - exfalso. rewrite E1' in E2. done.
Qed.

Lemma swept_refl r s : (∀ y, y ∈ r → victim s y = false) → swept r s s.
Proof. intros H. split; try done; [intros y Hy; by rewrite H|]. intros y t E _. by exists t. Qed.

(** One reaping, then the rest of the scan. *)
Lemma swept_reaped r x tx s s1 s' : (x ∉ r) → x ≠ k_current s → victim s x = true →
  reaped x tx s s1 → swept r s1 s' → swept (x :: r) s s'.
Proof.
  intros Hxr Hxc Hv Hre [G K N C]. assert (∀ y, y ≠ x → victim s1 y = victim s y) as Hvic.
  { intros y Hy. by apply (victim_reaped s s1 x tx). }
  split.
  - intros y [->|Hy]%elem_of_cons Hvy; [apply N, Hre|]. apply G; [done|]. rewrite Hvic; [done|by intros ->].
  - intros y t E Hy. rewrite not_elem_of_cons in Hy. assert (y ≠ x) as Hyx by (intros ->; destruct Hy as [[]|]; congruence).
    destruct (rp_tasks _ _ _ _ Hre y t Hyx E) as (t1 & E1 & H1).
    destruct (K y t1 E1) as (t' & E' & H'); [rewrite Hvic by done; tauto|]. exists t'. split; [done|by etrans].
  - intros y E. apply N, (rp_none _ _ _ _ Hre), E.
  - rewrite C. apply Hre.
Qed.

Lemma swept_skip r x s s' : victim s x = false → swept r s s' → swept (x :: r) s s'.
Proof.
  intros Hv [G K N C]. split; try done.
  - intros y [->|Hy]%elem_of_cons Hvy; [congruence|auto].
  - intros y t E Hy. apply (K y t E). rewrite not_elem_of_cons in Hy. tauto.
Qed.

(** The tasks of a scan that stay. *)
Definition stay s (r : list Z) : list Z := filter (λ y, victim s y = false) r.

Lemma stay_reaped r x tx s s1 : (x ∉ r) → x ≠ k_current s → reaped x tx s s1 → stay s1 r = stay s r.
Proof.
  intros Hx Hc Hre. unfold stay. induction r as [|y r IH]; [done|]. apply not_elem_of_cons in Hx as [Hxy Hx].
  rewrite !filter_cons, (victim_reaped s s1 x tx y Hre (not_eq_sym Hxy) Hc), IH by done. done.
Qed.

Lemma ring_next m h l1 p x r tx : ring m h (l1 ++ p :: x :: r) → m !! x = Some tx →
  x ≠ h ∧ match r with [] => t_next tx = h | y :: _ => t_next tx = y ∧ y ≠ h ∧ y ≠ 0 ∧ y ≠ x end.
Proof.
  intros Hr Ex. pose proof (ring_head _ _ _ Hr) as Hh. destruct Hr as [Hp Hn _].
  assert (∀ y, y ∈ x :: r → y ≠ h) as Hne.
  { intros y Hy ->. apply Hh. destruct l1; cbn; [done|]. apply elem_of_app. right. by apply list_elem_of_further. }
  split; [apply Hne, list_elem_of_here|]. apply path_app in Hp as (c0 & _ & Hp). cbn in Hp.
  destruct Hp as (_ & _ & tp & _ & _ & _ & tx0 & Ex0 & Hp). assert (tx0 = tx) as -> by congruence.
  apply NoDup_app in Hn as (_ & _ & Hn). apply NoDup_cons in Hn as [_ Hn]. apply NoDup_cons in Hn as [Hn _].
  destruct r as [|y r]; [done|]. cbn in Hp. destruct Hp as (-> & Hy0 & _). split_and!; try done.
  - apply Hne, list_elem_of_further, list_elem_of_here.
  - intros ->. apply Hn, list_elem_of_here.
Qed.

Lemma reap_loop_run sch : quiet sch → ∀ r fuel s l1 p x q,
  sys_inv s (l1 ++ p :: x :: r) q → (length r < fuel)%nat →
  (∀ y ty, y ∈ x :: r → k_tasks s !! y = Some ty → victim s y = true → freeable s (l1 ++ p :: x :: r) y ty) →
  ∃ s', reap_loop sch fuel x p (k_ready_queue s) s = Ret tt s' ∧
    sys_inv s' (l1 ++ p :: stay s (x :: r)) q ∧ swept (x :: r) s s'.
Proof.
  intros Hquiet. induction r as [|y r IH]; intros fuel s l1 p x q Hsys Hf Hfree; (destruct fuel as [|fuel]; [lia|]);
    pose proof (sy_proc _ _ _ Hsys) as [Hs _ _ _]; pose proof (si_ring _ _ Hs) as Hr;
    (assert (∃ tx, k_tasks s !! x = Some tx) as [tx Ex];
      [apply (path_live _ _ _ _ x (rg_path _ _ _ Hr)), elem_of_app; right; apply list_elem_of_further, list_elem_of_here|]);
    (assert (is_Some (k_tasks s !! k_current s)) as Hcur; [apply (path_live _ _ _ _ _ (rg_path _ _ _ Hr)), Hs|]);
    destruct (ring_next _ _ _ _ _ _ _ Hr Ex) as [Hxh Hnext]; pose proof Hxh as Hxh'; apply Z.eqb_neq in Hxh';
    cbn [reap_loop]; rewrite (get_task_bind _ _ _ _ Ex), (kbind_ret _ _ _ _ _ (should_reap_run _ _ _ Ex Hcur));
    unfold stay; rewrite filter_cons; (destruct (victim s x) eqn:Hv; [rewrite decide_False by done|rewrite decide_True by done]).
  - specialize (Hfree x tx (list_elem_of_here _ _) Ex Hv).
    destruct (reap_one_run sch s l1 p x [] q tx Hquiet Hsys Ex (victim_zombie _ _ _ Ex Hv) Hfree) as (s1 & E1 & Hsys1 & Hre).
    rewrite Hnext in *. replace (k_ready_queue s =? x) with false by (symmetry; apply Z.eqb_neq; congruence).
    rewrite (kbind_ret _ _ _ _ _ E1), Z.eqb_refl, Hxh'. exists s1. split; [done|]. split; [done|].
    eapply swept_reaped; [apply not_elem_of_nil|apply Hfree|done|exact Hre|]. apply swept_refl. intros z []%elem_of_nil.
  - rewrite Hnext, Z.eqb_refl. exists s. split; [done|]. split; [done|]. apply swept_skip; [done|].
    apply swept_refl. intros z []%elem_of_nil.
  - pose proof (Hfree x tx (list_elem_of_here _ _) Ex Hv) as Hfx. destruct Hnext as (Hn & Hyh & Hy0 & Hyx).
    destruct (reap_one_run sch s l1 p x (y :: r) q tx Hquiet Hsys Ex (victim_zombie _ _ _ Ex Hv) Hfx) as (s1 & E1 & Hsys1 & Hre).
    pose proof (rg_nodup _ _ _ Hr) as Hnd.
    assert (x ∉ y :: r) as Hxr by (apply NoDup_app in Hnd as (_ & _ & N); apply NoDup_cons in N as [_ N]; by apply NoDup_cons in N as [N _]).
    rewrite Hn in *. apply Z.eqb_neq in Hyh, Hy0, Hyx. rewrite Hyx, (kbind_ret _ _ _ _ _ E1), Hxh', Hyh, Hy0. cbn [orb].
    destruct (IH fuel s1 l1 p y q Hsys1 ltac:(cbn in Hf; lia)) as (s' & E' & Hsys' & Hsw).
    { intros z tz Hz Ez Hvz. assert (z ≠ x) as Hzx by (intros ->; done). assert (∃ tz0, k_tasks s !! z = Some tz0) as [tz0 Ez0].
      { destruct (k_tasks s !! z) as [t0|] eqn:E0; [eauto|]. rewrite (rp_none _ _ _ _ Hre z E0) in Ez. done. }
      apply (freeable_reaped s s1 l1 p x (y :: r) tx z tz0); try done.
      apply Hfree; [by apply list_elem_of_further|done|]. rewrite <-Hvz. symmetry. apply (victim_reaped s s1 x tx); [done..|apply Hfx]. }
    rewrite (rp_ready _ _ _ _ Hre) in E'. exists s'. split; [done|]. split.
    + rewrite (stay_reaped _ x tx s) in Hsys'; [done..|apply Hfx|done].
    + eapply swept_reaped; [done|apply Hfx|done|exact Hre|exact Hsw].
  - destruct Hnext as (Hn & Hyh & Hy0 & _). rewrite Hn. apply Z.eqb_neq in Hyh, Hy0. rewrite Hyh, Hy0. cbn [orb].
    assert (l1 ++ p :: x :: y :: r = (l1 ++ [p]) ++ x :: y :: r) as El by (by rewrite <-app_assoc).
    rewrite El in Hsys. destruct (IH fuel s (l1 ++ [p]) x y q Hsys ltac:(cbn in Hf; lia)) as (s' & E' & Hsys' & Hsw).
    { intros z tz Hz. rewrite <-El. apply Hfree. by apply list_elem_of_further. }
    exists s'. split; [done|]. split; [|by apply swept_skip].
    rewrite <-app_assoc in Hsys'. exact Hsys'.
Qed.

Definition victims_freeable s h (l : list Z) : Prop :=
  victim s h = false ∧ ∀ y ty, y ∈ l → k_tasks s !! y = Some ty → victim s y = true → freeable s (h :: l) y ty.

Lemma ring_hd m h x l : ring m h (x :: l) → x = h.
Proof. by intros [(-> & _) _ _]. Qed.

Lemma reap_run sch s h l q : quiet sch → sys_inv s (h :: l) q → victims_freeable s h l →
  ∃ s', reap_zombies sch s = Ret tt s' ∧ sys_inv s' (h :: stay s l) q ∧ swept l s s'.
Proof.
  intros Hquiet Hsys [Hv Hfree]. pose proof (sy_proc _ _ _ Hsys) as [Hs _ _ _]. pose proof (si_ring _ _ Hs) as Hr.
  pose proof (ring_length _ _ _ Hr) as Hlen. pose proof (ring_head _ _ _ Hr) as Hh. pose proof (ring_hd _ _ _ _ Hr) as Eh.
  destruct (path_live _ _ _ _ h (rg_path _ _ _ Hr) (list_elem_of_here _ _)) as [Hh0 [th Eth]].
  assert (is_Some (k_tasks s !! k_current s)) as Hcur by (apply (path_live _ _ _ _ _ (rg_path _ _ _ Hr)), Hs).
  unfold reap_zombies. rewrite kget_bind, <-Eh. apply Z.eqb_neq in Hh0. rewrite Hh0.
  destruct (exists_last (l := h :: l)) as (l0 & c & El); [done|].
  rewrite El in Hr, Hh, Hlen. rewrite length_app in Hlen. cbn [length] in Hlen.
  rewrite (kbind_ret _ _ _ _ _ (find_tail_run s c l0 (S (size (k_tasks s))) h
    ltac:(rewrite Eh at 1; apply Hr) Hh ltac:(lia))). rewrite <-El in *.
  cbn [reap_loop]. rewrite (get_task_bind _ _ _ _ Eth), (kbind_ret _ _ _ _ _ (should_reap_run _ _ _ Eth Hcur)), Hv.
  pose proof (rg_path _ _ _ Hr) as Hp. cbn [path] in Hp. destruct Hp as (_ & _ & th0 & Eth0 & Hp).
  assert (th0 = th) as -> by congruence. destruct l as [|x l].
  - cbn in Hp. rewrite Hp, <-Eh, Z.eqb_refl. exists s. split; [done|]. split; [done|]. apply swept_refl. intros z []%elem_of_nil.
  - destruct Hp as (-> & Hx0 & _). cbn [tail] in Hh. apply not_elem_of_cons in Hh as [Hxh _].
    replace (x =? h) with false by (symmetry; apply Z.eqb_neq; congruence).
    apply Z.eqb_neq in Hx0. rewrite Hx0. cbn [orb]. 
    destruct (reap_loop_run sch Hquiet l (size (k_tasks s)) s [] h x q Hsys) as (s' & E' & H'); [|done|].
    + apply (f_equal length) in El. rewrite length_app in El. cbn [length] in El. lia.
    + rewrite <-Eh in E'. by exists s'.
Qed.


(** ** Waiting for children *)

Definition child (s : kst D) (x : Z) : bool :=
  match k_tasks s !! x with Some t => t_parent t =? k_current s | None => false end.
Definition zombie (s : kst D) (x : Z) : bool :=
  match k_tasks s !! x with Some t => t_state t =? TASK_ZOMBIE | None => false end.
Definition status (s : kst D) (x : Z) : Z :=
  match k_tasks s !! x with Some t => t_exit_code t | None => 0 end.
Definition dead s (l : list Z) : list Z := filter (λ x, child s x && zombie s x = true) l.
Definition alive s (l : list Z) : list Z := filter (λ x, child s x && negb (zombie s x) = true) l.

Lemma wait_scan_run s l : ∀ fuel t r, path (k_tasks s) t l (k_ready_queue s) → l ≠ [] → k_ready_queue s ∉ tail l →
  (length l ≤ fuel)%nat → wait_scan fuel (k_current s) (k_ready_queue s) t r s =
  Ret (r.1.1 + Z.of_nat (length (alive s l)), r.1.2 + Z.of_nat (length (dead s l)),
       match last (dead s l) with Some x => status s x | None => r.2 end) s.
Proof.
  induction l as [|x l IH]; intros fuel t r Hp Hne Hh Hf; [done|]. cbn [length] in Hf. destruct fuel as [|fuel]; [lia|].
  destruct Hp as (-> & Hx0 & tx & Ex & Hp). cbn [wait_scan]. rewrite (get_task_bind _ _ _ _ Ex).
  set (r' := if t_parent tx =? k_current s then _ else r).
  assert (∀ r0 rest, r0 = r' → rest = l →
    (r0.1.1 + Z.of_nat (length (alive s rest)), r0.1.2 + Z.of_nat (length (dead s rest)),
       match last (dead s rest) with Some x => status s x | None => r0.2 end) =
    (r.1.1 + Z.of_nat (length (alive s (x :: l))), r.1.2 + Z.of_nat (length (dead s (x :: l))),
       match last (dead s (x :: l)) with Some x => status s x | None => r.2 end)) as Hstep.
  { intros r0 rest -> ->. unfold alive, dead, r'. rewrite !filter_cons.
    assert (child s x = (t_parent tx =? k_current s) ∧ zombie s x = (t_state tx =? TASK_ZOMBIE) ∧ status s x = t_exit_code tx)
      as (-> & -> & Hst) by (unfold child, zombie, status; by rewrite Ex).
    destruct (t_parent tx =? k_current s), (t_state tx =? TASK_ZOMBIE); cbn [andb negb];
      repeat (case_decide; [try done|try done]); cbn [fst snd length].
    - rewrite last_cons. f_equal; [f_equal; lia|]. by destruct (last _).
    - f_equal. f_equal. lia. }
  cbn [tail] in Hh. destruct l as [|z l].
  - cbn in Hp. rewrite Hp, Z.eqb_refl. cbn [orb]. unfold kret. f_equal. rewrite <-(Hstep r' [] eq_refl eq_refl).
    cbn. rewrite !Z.add_0_r. by destruct r' as [[] ?].
  - pose proof Hp as (Hz & Hz0 & _). rewrite Hz in *. apply not_elem_of_cons in Hh as [Hzh Hh].
    apply Z.eqb_neq in Hz0. replace (z =? k_ready_queue s) with false by (symmetry; apply Z.eqb_neq; congruence).
    rewrite Hz0. cbn [orb]. rewrite IH by (try done; lia). f_equal. by apply Hstep.
Qed.

(** [wait_for_children] on the ring [h :: l]: with a dead child it returns the
    status of the last one in ring order and reaps all of them; with none and some
    alive it sleeps WAITING; with no child at all it returns at once. *)
Theorem wait_ok sch s h l q st : quiet sch → sys_inv s (h :: l) q → victims_freeable s h l →
  match last (dead s (h :: l)), alive s (h :: l) with
  | Some x, _ => ∃ s', wait_for_children sch st s = Ret (status s x) s' ∧
      sys_inv s' (h :: filter (λ y, victim s y = false) l) q ∧ k_tasks s' !! x = None ∧
      (∀ y, y ∈ dead s (h :: l) → k_tasks s' !! y = None)
  | None, [] => wait_for_children sch st s = Ret st s
  | None, _ => ∃ s' c, wait_for_children sch st s = Hang s' ∧ k_tasks s !! k_current s = Some c ∧
      k_tasks s' = <[k_current s := with_t_state TASK_WAITING c]> (k_tasks s)
  end.
Proof.
  intros Hq Hsys Hv. pose proof (sy_proc _ _ _ Hsys) as [Hs _ _ _]. pose proof (si_ring _ _ Hs) as Hr.
  pose proof (ring_length _ _ _ Hr) as Hlen. pose proof (ring_hd _ _ _ _ Hr) as Eh.
  destruct (path_live _ _ _ _ h (rg_path _ _ _ Hr) (list_elem_of_here _ _)) as [Hh0%Z.eqb_neq _].
  destruct (path_live _ _ _ _ _ (rg_path _ _ _ Hr) (si_cur _ _ Hs)) as [_ [c Ec]].
  unfold wait_for_children. rewrite current_bind, kget_bind, <-Eh, Hh0.
  assert (wait_scan (S (size (k_tasks s))) (k_current s) h h (0, 0, st) s = Ret
    (0 + Z.of_nat (length (alive s (h :: l))), 0 + Z.of_nat (length (dead s (h :: l))),
       match last (dead s (h :: l)) with Some x => status s x | None => st end) s) as Escan.
  { pose proof (wait_scan_run s (h :: l) (S (size (k_tasks s))) h (0, 0, st)) as H. rewrite <-Eh in H.
    pose proof (rg_path _ _ _ Hr) as Hp. pose proof (ring_head _ _ _ Hr) as Hh. rewrite <-Eh in Hp, Hh. apply H; try done; lia. }
  rewrite (kbind_ret _ _ _ _ _ Escan). cbn [fst snd]. rewrite !Z.add_0_l.
  destruct (last (dead s (h :: l))) as [x|] eqn:El.
  - destruct (reap_run sch s h l q Hq Hsys Hv) as (s' & E & I & Hsw).
    assert (∀ y, y ∈ dead s (h :: l) → k_tasks s' !! y = None) as Hdead.
    { intros y [Hy Hin]%list_elem_of_filter. assert (victim s y = true) as Hvy.
      { unfold child, zombie, victim in *. rewrite Ec. destruct (k_tasks s !! y); [|done].
        apply andb_true_iff in Hy as [-> ->]. done. }
      apply elem_of_cons in Hin as [->|Hin]; [destruct Hv; congruence|]. by apply (sw_gone _ _ _ Hsw). }
    apply last_Some in El as [l' El].
    assert ((0 <? Z.of_nat (length (dead s (h :: l)))) = true) as Hpos.
    { apply Z.ltb_lt. rewrite El, length_app. cbn. lia. }
    replace (Z.of_nat (length (dead s (h :: l))) =? 0) with false by (symmetry; apply Z.eqb_neq; lia).
    rewrite andb_false_r, Hpos, (kbind_ret _ _ _ _ _ E). exists s'. split_and!; try done.
    apply Hdead. rewrite El. apply elem_of_app. right. apply list_elem_of_here.
  - apply last_None in El. rewrite El. cbn [length]. destruct (alive s (h :: l)) as [|a r]; [done|].
    replace (Z.of_nat (length (a :: r)) =? 0) with false by (symmetry; apply Z.eqb_neq; cbn; lia). cbn [andb].
    change (0 <? Z.of_nat 0) with false. cbv iota. rewrite (upd_task_bind _ _ c) by done.
    unfold khang. eexists _, c. split; [reflexivity|]. done.
Qed.
End reap.

Lemma demo_victims : victims_freeable (demo_sys TASK_ZOMBIE) 16 [17; 18].
Proof.
  split; [reflexivity|]. intros y ty Hy E Hv. rewrite !elem_of_cons, elem_of_nil in Hy.
  destruct Hy as [->|[->|[]]]; [|by vm_compute in Hv]. injection E as <-.
  split; [done|by apply (bool_decide_eq_true_1 _)| |by left| |done].
  - intros y ty Hy Hne E. rewrite !elem_of_cons, elem_of_nil in Hy.
    destruct Hy as [->|[->|[->|[]]]]; injection E as <-; [left|done|right]; by vm_compute.
  - intros y ty Hy Hne E _. by left.
Qed.


Lemma wait_ok_witness : ∃ s', wait_for_children (Some sched_rr) 0 (demo_sys TASK_ZOMBIE) = Ret 40 s' ∧
  sys_inv s' [16; 18] [] ∧ k_tasks s' !! 17 = None.
Proof.
  pose proof (wait_ok (Some sched_rr) (demo_sys TASK_ZOMBIE) 16 [17; 18] [] 0 quiet_rr
    (demo_sys_inv TASK_ZOMBIE ltac:(done)) demo_victims) as H.
  change (last (dead (demo_sys TASK_ZOMBIE) [16; 17; 18])) with (Some 17) in H.
  destruct H as (s' & E & I & G & _). exists s'. split; [exact E|]. split; [exact I|exact G].
Defined.

(** Ctrl+C while a user program runs: the interrupt handler delivers SIGINT under
    the queue lock to every user task, the running one among them, which then spins
    with interrupts on; the next timer tick finds the lock taken, and the processor
    never leaves the spin. *)
Lemma ctrl_c_deadlock :
  match task_send_sigint_foreground (with_k_current 18 (with_k_ready_queue 18 (demo_sys TASK_READY))) with
  | Hang s => match task_switch (Some sched_rr) (18 * 65536 + 15000) s with
              | Hang s' => k_current s' = 18 ∧ k_rq_lock s' = true
              | _ => False
              end
  | _ => False
  end.
Proof. vm_compute. done. Qed.
