(* ===== verification/Block.v ===== *)
(** * Block devices and partitions

    Models [kernel/core/block_dev.c] (the device table), the block functions and
    the RAM disk of [kernel/core/kabi_bridge.c], and the MBR parser of
    [kernel/modules/partition/mbr.c].  A device's sector functions are addresses;
    those of the IDE and USB drivers act on a hardware state [H] through the class
    [SectorHw]. *)

From stdpp Require Import base numbers list gmap strings.
From Stdlib Require Import ZArith Lia.
From S2P Require Import Prelude CString Bytes Sched Task.

#[local] Open Scope Z_scope.

Definition KABI_EINVAL : Z := -2.
Definition KABI_ENOENT : Z := -4.
Definition KABI_EIO : Z := -5.
Definition MAX_BLOCK_DEVICES : Z := 16.
Definition MBR_SIGNATURE : Z := 43605.
Definition PARTITION_TYPE_FAT32_CHS : Z := 11.
Definition PARTITION_TYPE_FAT32_LBA : Z := 12.

(** Addresses of the sector functions of the core. *)
Definition ramdisk_read_fn : Z := 1.
Definition ramdisk_write_fn : Z := 2.
Definition ide_read_fn : Z := 3.
Definition ide_write_fn : Z := 4.

Record kabi_block_device_t := mk_bdev {
  bd_name : list Z;
  bd_read : Z;
  bd_write : Z;
  bd_size : Z;
  bd_is_partition : bool;
  bd_parent_dev : Z;
  bd_start_lba : Z }.

Record kabi_partition_t := mk_part {
  pt_start_lba : Z; pt_sector_count : Z; pt_type : Z; pt_index : Z; pt_found : bool }.

(** The registered devices (the first [device_count] of [devices]), the bytes of
    the RAM disk, and the other drives. *)
Record blk (H : Type) := mk_blk { b_devs : list kabi_block_device_t; b_ram : list Z; b_hw : H }.
Arguments mk_blk {H}. Arguments b_devs {H}. Arguments b_ram {H}. Arguments b_hw {H}.
Definition with_b_devs {H} (v : list kabi_block_device_t) (x : blk H) : blk H := mk_blk v (b_ram x) (b_hw x).
Definition with_b_ram {H} (v : list Z) (x : blk H) : blk H := mk_blk (b_devs x) v (b_hw x).
Definition with_b_hw {H} (v : H) (x : blk H) : blk H := mk_blk (b_devs x) (b_ram x) v.

(** The sector functions of the drivers: the result code and, for a read, the
    512 bytes. *)
Class SectorHw (H : Type) := {
  hw_read : Z → Z → kM H (Z * list Z);
  hw_write : Z → Z → list Z → kM H Z;
}.

Section ops.
Context {H : Type} {Hw : SectorHw H}.
#[local] Open Scope kernel_scope.

Definition hw {A} (m : kM H A) : kM (blk H) A := λ b,
  match m (b_hw b) with
  | Ret a h => Ret a (with_b_hw h b)
  | Hang h => Hang (with_b_hw h b)
  | Panic h => Panic (with_b_hw h b)
  | Fault => Fault
  | NoFuel => NoFuel
  end.

(** ** The RAM disk *)

Definition ramdisk_read (lba : Z) : kM (blk H) (Z * list Z) :=
  if 2 <=? lba then kret (-1, []) else let* b := kget in kret (0, slice 512 (b_ram b) (lba * 512)).
Definition ramdisk_write (lba : Z) (buf : list Z) : kM (blk H) Z :=
  if 2 <=? lba then kret (-1)
  else kmodify (λ b, with_b_ram (splice (b_ram b) (lba * 512) (take 512 buf)) b) ;;; kret 0.

(** A call through [read_sector] or [write_sector]. *)
Definition read_sector (fn lba : Z) : kM (blk H) (Z * list Z) :=
  if fn =? ramdisk_read_fn then ramdisk_read lba else hw (hw_read fn lba).
Definition write_sector (fn lba : Z) (buf : list Z) : kM (blk H) Z :=
  if fn =? ramdisk_write_fn then ramdisk_write lba buf else hw (hw_write fn lba buf).

(** ** The device table *)

Definition block_dev_init : kM (blk H) unit := kmodify (with_b_devs []).
Definition block_dev_get_count : kM (blk H) Z := let* b := kget in kret (Z.of_nat (length (b_devs b))).
Definition block_dev_get_by_index (index : Z) : kM (blk H) (option kabi_block_device_t) :=
  let* b := kget in
  kret (if (index <? 0) || (Z.of_nat (length (b_devs b)) <=? index) then None else zlookup (b_devs b) index).
Definition block_dev_get_by_name (name : list Z) : kM (blk H) (option kabi_block_device_t) :=
  let* b := kget in kret (list_find (λ d, bd_name d = name) (b_devs b) ≫= λ p, Some p.2).

(** [kabi_block_read] and [kabi_block_write]; the device number is a [uint32_t]
    that [block_dev_get_by_index] takes as an [int]. *)
Definition target_lba (d : kabi_block_device_t) (lba : Z) : Z :=
  if bd_is_partition d then u64 (lba + bd_start_lba d) else lba.
Definition kabi_block_read (dev_id lba : Z) : kM (blk H) (Z * list Z) :=
  let* o := block_dev_get_by_index (s32 dev_id) in
  match o with
  | None => kret (KABI_EINVAL, [])
  | Some d =>
      if bd_read d =? 0 then kpanic
      else
        let* (r, buf) := read_sector (bd_read d) (target_lba d lba) in
        kret (if r =? 0 then (KABI_SUCCESS, buf) else (KABI_EIO, buf))
  end.
Definition kabi_block_write (dev_id lba : Z) (buf : list Z) : kM (blk H) Z :=
  let* o := block_dev_get_by_index (s32 dev_id) in
  match o with
  | None => kret KABI_EINVAL
  | Some d =>
      if bd_write d =? 0 then kpanic
      else
        let* r := write_sector (bd_write d) (target_lba d lba) buf in
        kret (if r =? 0 then KABI_SUCCESS else KABI_EIO)
  end.

(** ** The MBR *)

(** [memory_compare(buffer + off, "FAT", 3) == 0] *)
Definition is_fat (buf : list Z) (off : Z) : bool := bool_decide (slice 3 buf off = str "FAT").

(** Entry [i] of the partition table, 16 bytes from offset 446 on. *)
Definition mbr_type (buf : list Z) (i : Z) : Z := rd 1 buf (446 + 16 * i + 4).
Definition mbr_start (buf : list Z) (i : Z) : Z := rd 4 buf (446 + 16 * i + 8).
Definition mbr_count (buf : list Z) (i : Z) : Z := rd 4 buf (446 + 16 * i + 12).

(** The loop over the table: [n] entries from [i] on, [room] places left. *)
Fixpoint mbr_table (n : nat) (i : Z) (room : nat) (buf : list Z) : list kabi_partition_t :=
  match n, room with
  | S n, S room' =>
      if negb (mbr_type buf i =? 0) && (0 <? mbr_count buf i)
      then mk_part (mbr_start buf i) (mbr_count buf i) (mbr_type buf i) (i + 1) true :: mbr_table n (i + 1) room' buf
      else mbr_table n (i + 1) room buf
  | _, _ => []
  end.

Definition boot_jump (buf : list Z) : bool := (rd 1 buf 0 =? 235) || (rd 1 buf 0 =? 233).

(** The label [fallback]: a disk that starts with a boot sector is one volume. *)
Definition mbr_fallback (buf : list Z) : Z + list kabi_partition_t :=
  if boot_jump buf then inr [mk_part 0 0 PARTITION_TYPE_FAT32_LBA 0 true] else inl KABI_ENOENT.

(** [mbr_scan]: an error code, or the partitions that were stored. *)
Definition mbr_parse (max_parts : Z) (buf : list Z) : Z + list kabi_partition_t :=
  if negb (rd 2 buf 510 =? MBR_SIGNATURE) then mbr_fallback buf
  else if boot_jump buf && (is_fat buf 54 || is_fat buf 82) then mbr_fallback buf
  else inr (mbr_table 4 0 (Z.to_nat max_parts) buf).
Definition mbr_scan (dev : Z) (max_parts : Z) : kM (blk H) (Z + list kabi_partition_t) :=
  if max_parts <=? 0 then kret (inl KABI_EINVAL)
  else
    let* (r, buf) := kabi_block_read dev 0 in
    kret (if negb (r =? KABI_SUCCESS) then inl KABI_EIO else mbr_parse max_parts buf).

Definition is_fat32_type (p : kabi_partition_t) : bool :=
  (pt_type p =? PARTITION_TYPE_FAT32_CHS) || (pt_type p =? PARTITION_TYPE_FAT32_LBA).
Definition mbr_find_fat32 (dev : Z) : kM (blk H) (Z + kabi_partition_t) :=
  let* r := mbr_scan dev 4 in
  kret (match r with
        | inl e => inl e
        | inr ps => match filter (λ p, is_fat32_type p = true) ps with
                    | p :: _ => inr p
                    | [] => inl KABI_ENOENT
                    end
        end).

(** ** Registration *)

(** The device of a partition; a name that leaves no room for the suffix in 32
    bytes is overrun. *)
Definition part_dev (dev_id : Z) (parent : kabi_block_device_t) (p : kabi_partition_t) : kabi_block_device_t :=
  mk_bdev (bd_name parent ++ [112; u8 (48 + pt_index p)]) (bd_read parent) (bd_write parent)
    (pt_sector_count p) true dev_id (pt_start_lba p).
Fixpoint add_parts (dev_id : Z) (parent : kabi_block_device_t) (ps : list kabi_partition_t) : kM (blk H) unit :=
  match ps with
  | [] => kret tt
  | p :: ps =>
      (if 29 <? Z.of_nat (length (bd_name parent)) then kfault else kret tt) ;;;
      let* b := kget in
      (if Z.of_nat (length (b_devs b)) <? MAX_BLOCK_DEVICES
       then kmodify (with_b_devs (b_devs b ++ [part_dev dev_id parent p])) else kret tt) ;;;
      add_parts dev_id parent ps
  end.
Definition block_dev_scan_partitions (dev_id : Z) : kM (blk H) unit :=
  let* r := mbr_scan dev_id 4 in
  match r with
  | inl _ | inr [] => kret tt
  | inr ps =>
      let* b := kget in
      let* parent := kget_opt (λ _, zlookup (b_devs b) dev_id) in
      add_parts dev_id parent ps
  end.

Definition block_dev_register (dev : kabi_block_device_t) : kM (blk H) Z :=
  let* b := kget in
  let n := Z.of_nat (length (b_devs b)) in
  if MAX_BLOCK_DEVICES <=? n then kret (-1)
  else
    kmodify (with_b_devs (b_devs b ++ [dev])) ;;;
    (if bd_is_partition dev then kret tt else block_dev_scan_partitions n) ;;;
    kret n.

Definition kabi_bridge_init : kM (blk H) unit :=
  block_dev_init ;;;
  block_dev_register (mk_bdev (str "dev0") ide_read_fn ide_write_fn 0 false 0 0) ;;;
  block_dev_register (mk_bdev (str "dev2") ramdisk_read_fn ramdisk_write_fn 2 false 0 0) ;;;
  kmodify (with_b_ram (replicate 512 65 ++ replicate 512 66)).

Definition kabi_get_device_count : kM (blk H) Z := block_dev_get_count.
Definition kabi_get_device_size (index : Z) : kM (blk H) Z :=
  let* o := block_dev_get_by_index index in
  kret (match o with Some d => bd_size d | None => 0 end).
Definition kabi_get_device_name (index : Z) : kM (blk H) (Z * list Z) :=
  let* o := block_dev_get_by_index index in
  kret (match o with Some d => (KABI_SUCCESS, bd_name d) | None => (KABI_EINVAL, []) end).
End ops.
