(* ===== verification/Display.v ===== *)
(** * The console: screen, framebuffer and serial port

    Models [kernel/modules/drivers/screen.c], [fb.c] and the sending half of
    [uart.c].  The state is the VGA text memory at [0xB8000], the two cursor
    registers of the CRT controller behind its index port, the bytes sent to
    the serial line, the framebuffer descriptor [fb_driver] and the bytes of
    the linear framebuffer by virtual address.  A store outside the 4000 bytes
    of text memory or outside the mapped framebuffer is a [Fault].

    Serial output waits for the transmitter with a bounded count and then sends
    in any case, so a send always appends its byte. *)

From stdpp Require Import base numbers list gmap strings.
From Stdlib Require Import ZArith Lia.
From S2P Require Import Prelude.
From S2P Require Import CString.
From S2P Require Import Pmm Mmu.

#[local] Open Scope Z_scope.
#[local] Open Scope kernel_scope.

Inductive screen_mode_t := SCREEN_MODE_VGA_TEXT | SCREEN_MODE_FB_TEXT.

Record framebuffer_driver_t := {
  virt_addr : Z;
  pitch : Z;
  width : Z;
  height : Z;
  bpp : Z }.

Record boot_framebuffer_info_t := {
  fi_present : Z;
  fi_type : Z;
  fi_bpp : Z;
  fi_width : Z;
  fi_height : Z;
  fi_pitch : Z;
  fi_addr : Z }.

Record display := Display {
  screen_mode : screen_mode_t;
  vidmem : list Z;
  crtc_index : Z;
  crtc_high : Z;
  crtc_low : Z;
  uart : list Z;
  fb_driver : framebuffer_driver_t;
  fb_mem : gmap Z Z }.

Definition with_mode m d := Display m (vidmem d) (crtc_index d) (crtc_high d) (crtc_low d) (uart d) (fb_driver d) (fb_mem d).
Definition with_vidmem v d := Display (screen_mode d) v (crtc_index d) (crtc_high d) (crtc_low d) (uart d) (fb_driver d) (fb_mem d).
Definition with_crtc i h l d := Display (screen_mode d) (vidmem d) i h l (uart d) (fb_driver d) (fb_mem d).
Definition with_uart u d := Display (screen_mode d) (vidmem d) (crtc_index d) (crtc_high d) (crtc_low d) u (fb_driver d) (fb_mem d).
Definition with_fb_driver f d := Display (screen_mode d) (vidmem d) (crtc_index d) (crtc_high d) (crtc_low d) (uart d) f (fb_mem d).
Definition with_fb_mem m d := Display (screen_mode d) (vidmem d) (crtc_index d) (crtc_high d) (crtc_low d) (uart d) (fb_driver d) m.

(** ** Constants *)

Definition FB_FONT_WIDTH : Z := 8.
Definition FB_FONT_HEIGHT : Z := 16.
Definition MAX_ROWS : Z := 25.
Definition MAX_COLS : Z := 80.
Definition WHITE_ON_BLACK : Z := 15.
Definition RED_ON_WHITE : Z := 244.
Definition GREEN_ON_BLACK : Z := 2.
Definition REG_SCREEN_CTRL : Z := 980. (* 0x3d4 *)
Definition REG_SCREEN_DATA : Z := 981. (* 0x3d5 *)

(** ** Devices *)

Definition uart_send (c : Z) : kM display unit := kmodify (λ d, with_uart (uart d ++ [c]) d).
Fixpoint uart_send_string (s : list Z) : kM display unit :=
  match s with
  | [] => kret tt
  | c :: s => if c =? 0 then kret tt else uart_send c ;;; uart_send_string s
  end.

(** The CRT controller: the index port selects the register the data port
    accesses; 14 and 15 are the cursor location. *)
Definition port_byte_out (port v : Z) : kM display unit := kmodify (λ d,
  if port =? REG_SCREEN_CTRL then with_crtc (u8 v) (crtc_high d) (crtc_low d) d
  else if negb (port =? REG_SCREEN_DATA) then d
  else if crtc_index d =? 14 then with_crtc 14 (u8 v) (crtc_low d) d
  else if crtc_index d =? 15 then with_crtc 15 (crtc_high d) (u8 v) d
  else d).
Definition port_byte_in_data : kM display Z := λ d,
  Ret (if crtc_index d =? 14 then crtc_high d else if crtc_index d =? 15 then crtc_low d else 0) d.

(** [vidmem\[i\] = v] and a byte store through a framebuffer pointer *)
Definition vid_store (i v : Z) : kM display unit := λ d,
  match zset (vidmem d) i (u8 v) with Some m => Ret tt (with_vidmem m d) | None => Fault end.
Definition fb_store (a v : Z) : kM display unit := λ d,
  match fb_mem d !! a with Some _ => Ret tt (with_fb_mem (<[a := u8 v]> (fb_mem d)) d) | None => Fault end.
Definition fb_load (a : Z) : kM display Z := kget_opt (λ d, fb_mem d !! a).

(** ** [fb.c] *)

(** Glyphs of the characters 32 to 126; the array has a 96th, zero, row. *)
Definition fb_font : list (list Z) := [
  [0; 0; 0; 0; 0; 0; 0; 0; 0; 0; 0; 0; 0; 0; 0; 0];
  [24; 60; 60; 60; 24; 24; 24; 24; 24; 0; 24; 24; 0; 0; 0; 0];
  [54; 54; 54; 18; 36; 0; 0; 0; 0; 0; 0; 0; 0; 0; 0; 0];
  [54; 54; 127; 54; 54; 54; 127; 54; 54; 0; 0; 0; 0; 0; 0; 0];
  [24; 62; 99; 96; 62; 3; 99; 62; 24; 24; 0; 0; 0; 0; 0; 0];
  [0; 99; 115; 24; 12; 6; 103; 99; 0; 0; 0; 0; 0; 0; 0; 0];
  [28; 54; 54; 28; 29; 55; 51; 51; 110; 0; 0; 0; 0; 0; 0; 0];
  [12; 12; 12; 24; 0; 0; 0; 0; 0; 0; 0; 0; 0; 0; 0; 0];
  [24; 12; 6; 6; 6; 6; 6; 6; 12; 24; 0; 0; 0; 0; 0; 0];
  [6; 12; 24; 24; 24; 24; 24; 24; 12; 6; 0; 0; 0; 0; 0; 0];
  [0; 54; 28; 127; 28; 54; 0; 0; 0; 0; 0; 0; 0; 0; 0; 0];
  [0; 12; 12; 63; 12; 12; 0; 0; 0; 0; 0; 0; 0; 0; 0; 0];
  [0; 0; 0; 0; 0; 0; 0; 0; 12; 12; 24; 0; 0; 0; 0; 0];
  [0; 0; 0; 0; 63; 0; 0; 0; 0; 0; 0; 0; 0; 0; 0; 0];
  [0; 0; 0; 0; 0; 0; 0; 0; 12; 12; 0; 0; 0; 0; 0; 0];
  [0; 96; 112; 56; 28; 14; 7; 3; 1; 0; 0; 0; 0; 0; 0; 0];
  [62; 99; 115; 123; 111; 103; 99; 62; 0; 0; 0; 0; 0; 0; 0; 0];
  [12; 14; 15; 12; 12; 12; 12; 63; 0; 0; 0; 0; 0; 0; 0; 0];
  [62; 99; 96; 48; 24; 12; 6; 127; 0; 0; 0; 0; 0; 0; 0; 0];
  [62; 99; 96; 60; 96; 96; 99; 62; 0; 0; 0; 0; 0; 0; 0; 0];
  [48; 56; 60; 54; 51; 127; 48; 48; 0; 0; 0; 0; 0; 0; 0; 0];
  [127; 3; 31; 62; 96; 96; 99; 62; 0; 0; 0; 0; 0; 0; 0; 0];
  [60; 6; 3; 63; 99; 99; 99; 62; 0; 0; 0; 0; 0; 0; 0; 0];
  [127; 99; 96; 48; 24; 12; 12; 12; 0; 0; 0; 0; 0; 0; 0; 0];
  [62; 99; 99; 62; 99; 99; 99; 62; 0; 0; 0; 0; 0; 0; 0; 0];
  [62; 99; 99; 99; 126; 96; 48; 30; 0; 0; 0; 0; 0; 0; 0; 0];
  [0; 0; 12; 12; 0; 0; 12; 12; 0; 0; 0; 0; 0; 0; 0; 0];
  [0; 0; 12; 12; 0; 0; 12; 12; 24; 0; 0; 0; 0; 0; 0; 0];
  [0; 48; 24; 12; 6; 12; 24; 48; 0; 0; 0; 0; 0; 0; 0; 0];
  [0; 0; 63; 0; 63; 0; 0; 0; 0; 0; 0; 0; 0; 0; 0; 0];
  [0; 6; 12; 24; 48; 24; 12; 6; 0; 0; 0; 0; 0; 0; 0; 0];
  [62; 99; 96; 48; 24; 24; 0; 24; 0; 0; 0; 0; 0; 0; 0; 0];
  [62; 99; 123; 123; 123; 59; 3; 30; 0; 0; 0; 0; 0; 0; 0; 0];
  [28; 54; 99; 99; 127; 99; 99; 99; 0; 0; 0; 0; 0; 0; 0; 0];
  [63; 99; 99; 63; 99; 99; 99; 63; 0; 0; 0; 0; 0; 0; 0; 0];
  [62; 99; 3; 3; 3; 3; 99; 62; 0; 0; 0; 0; 0; 0; 0; 0];
  [31; 51; 99; 99; 99; 99; 51; 31; 0; 0; 0; 0; 0; 0; 0; 0];
  [127; 3; 3; 63; 3; 3; 3; 127; 0; 0; 0; 0; 0; 0; 0; 0];
  [127; 3; 3; 63; 3; 3; 3; 3; 0; 0; 0; 0; 0; 0; 0; 0];
  [62; 99; 3; 3; 115; 99; 99; 62; 0; 0; 0; 0; 0; 0; 0; 0];
  [99; 99; 99; 127; 99; 99; 99; 99; 0; 0; 0; 0; 0; 0; 0; 0];
  [63; 12; 12; 12; 12; 12; 12; 63; 0; 0; 0; 0; 0; 0; 0; 0];
  [124; 48; 48; 48; 48; 51; 51; 30; 0; 0; 0; 0; 0; 0; 0; 0];
  [99; 51; 27; 15; 27; 51; 99; 99; 0; 0; 0; 0; 0; 0; 0; 0];
  [3; 3; 3; 3; 3; 3; 3; 127; 0; 0; 0; 0; 0; 0; 0; 0];
  [99; 119; 127; 127; 107; 99; 99; 99; 0; 0; 0; 0; 0; 0; 0; 0];
  [99; 103; 111; 123; 115; 99; 99; 99; 0; 0; 0; 0; 0; 0; 0; 0];
  [62; 99; 99; 99; 99; 99; 99; 62; 0; 0; 0; 0; 0; 0; 0; 0];
  [63; 99; 99; 63; 3; 3; 3; 3; 0; 0; 0; 0; 0; 0; 0; 0];
  [62; 99; 99; 99; 99; 107; 51; 94; 0; 0; 0; 0; 0; 0; 0; 0];
  [63; 99; 99; 63; 27; 51; 99; 99; 0; 0; 0; 0; 0; 0; 0; 0];
  [62; 99; 3; 30; 48; 96; 99; 62; 0; 0; 0; 0; 0; 0; 0; 0];
  [63; 12; 12; 12; 12; 12; 12; 12; 0; 0; 0; 0; 0; 0; 0; 0];
  [99; 99; 99; 99; 99; 99; 99; 62; 0; 0; 0; 0; 0; 0; 0; 0];
  [99; 99; 99; 99; 99; 99; 54; 28; 0; 0; 0; 0; 0; 0; 0; 0];
  [99; 99; 99; 107; 127; 127; 119; 99; 0; 0; 0; 0; 0; 0; 0; 0];
  [99; 99; 54; 28; 28; 54; 99; 99; 0; 0; 0; 0; 0; 0; 0; 0];
  [51; 51; 51; 30; 12; 12; 12; 12; 0; 0; 0; 0; 0; 0; 0; 0];
  [127; 96; 48; 24; 12; 6; 3; 127; 0; 0; 0; 0; 0; 0; 0; 0];
  [30; 6; 6; 6; 6; 6; 6; 30; 0; 0; 0; 0; 0; 0; 0; 0];
  [0; 3; 7; 14; 28; 56; 112; 96; 0; 0; 0; 0; 0; 0; 0; 0];
  [30; 24; 24; 24; 24; 24; 24; 30; 0; 0; 0; 0; 0; 0; 0; 0];
  [8; 28; 54; 99; 0; 0; 0; 0; 0; 0; 0; 0; 0; 0; 0; 0];
  [0; 0; 0; 0; 0; 0; 0; 0; 127; 0; 0; 0; 0; 0; 0; 0];
  [12; 12; 24; 0; 0; 0; 0; 0; 0; 0; 0; 0; 0; 0; 0; 0];
  [0; 0; 0; 60; 96; 124; 102; 124; 0; 0; 0; 0; 0; 0; 0; 0];
  [6; 6; 6; 62; 102; 102; 102; 62; 0; 0; 0; 0; 0; 0; 0; 0];
  [0; 0; 0; 60; 102; 6; 102; 60; 0; 0; 0; 0; 0; 0; 0; 0];
  [96; 96; 96; 124; 102; 102; 102; 124; 0; 0; 0; 0; 0; 0; 0; 0];
  [0; 0; 0; 60; 102; 126; 6; 60; 0; 0; 0; 0; 0; 0; 0; 0];
  [56; 12; 12; 62; 12; 12; 12; 12; 0; 0; 0; 0; 0; 0; 0; 0];
  [0; 0; 0; 124; 102; 102; 102; 124; 96; 60; 0; 0; 0; 0; 0; 0];
  [6; 6; 6; 62; 102; 102; 102; 102; 0; 0; 0; 0; 0; 0; 0; 0];
  [12; 12; 0; 28; 12; 12; 12; 30; 0; 0; 0; 0; 0; 0; 0; 0];
  [48; 48; 0; 56; 48; 48; 48; 51; 51; 30; 0; 0; 0; 0; 0; 0];
  [6; 6; 6; 102; 54; 30; 54; 102; 0; 0; 0; 0; 0; 0; 0; 0];
  [28; 12; 12; 12; 12; 12; 12; 30; 0; 0; 0; 0; 0; 0; 0; 0];
  [0; 0; 0; 51; 127; 127; 107; 99; 0; 0; 0; 0; 0; 0; 0; 0];
  [0; 0; 0; 62; 102; 102; 102; 102; 0; 0; 0; 0; 0; 0; 0; 0];
  [0; 0; 0; 60; 102; 102; 102; 60; 0; 0; 0; 0; 0; 0; 0; 0];
  [0; 0; 0; 62; 102; 102; 102; 62; 6; 6; 0; 0; 0; 0; 0; 0];
  [0; 0; 0; 124; 102; 102; 102; 124; 96; 96; 0; 0; 0; 0; 0; 0];
  [0; 0; 0; 62; 102; 6; 6; 6; 0; 0; 0; 0; 0; 0; 0; 0];
  [0; 0; 0; 124; 6; 60; 96; 62; 0; 0; 0; 0; 0; 0; 0; 0];
  [8; 12; 62; 12; 12; 12; 12; 56; 0; 0; 0; 0; 0; 0; 0; 0];
  [0; 0; 0; 102; 102; 102; 102; 124; 0; 0; 0; 0; 0; 0; 0; 0];
  [0; 0; 0; 102; 102; 102; 60; 24; 0; 0; 0; 0; 0; 0; 0; 0];
  [0; 0; 0; 99; 107; 127; 127; 54; 0; 0; 0; 0; 0; 0; 0; 0];
  [0; 0; 0; 102; 60; 24; 60; 102; 0; 0; 0; 0; 0; 0; 0; 0];
  [0; 0; 0; 102; 102; 102; 60; 24; 24; 48; 0; 0; 0; 0; 0; 0];
  [0; 0; 0; 126; 48; 24; 12; 126; 0; 0; 0; 0; 0; 0; 0; 0];
  [56; 12; 12; 6; 12; 12; 56; 0; 0; 0; 0; 0; 0; 0; 0; 0];
  [12; 12; 12; 12; 12; 12; 12; 12; 0; 0; 0; 0; 0; 0; 0; 0];
  [14; 24; 24; 48; 24; 24; 14; 0; 0; 0; 0; 0; 0; 0; 0; 0];
  [0; 0; 0; 50; 126; 76; 0; 0; 0; 0; 0; 0; 0; 0; 0; 0];
  replicate 16 0].

Definition fb_pack_rgb (rgb : Z) : Z := rgb.

Definition fb_init_from_bootinfo (info : boot_framebuffer_info_t) : kM display Z :=
  if fi_present info =? 0 then kret (-1)
  else if negb (fi_type info =? 1) then kret (-1)
  else if negb (fi_bpp info =? 24) && negb (fi_bpp info =? 32) then kret (-1)
  else
    let offset := u32 (Z.land (fi_addr info) 4095) in
    kmodify (with_fb_driver {| virt_addr := FB_VIRT_BASE + offset; pitch := fi_pitch info;
      width := fi_width info; height := fi_height info; bpp := fi_bpp info |}) ;;;
    kret 0.

(** The three or four byte stores of a pixel at pointer [p] *)
Definition store_pixel (p packed bytes_per_pixel : Z) : kM display unit :=
  fb_store p (Z.land packed 255) ;;;
  fb_store (p + 1) (Z.land (Z.shiftr packed 8) 255) ;;;
  fb_store (p + 2) (Z.land (Z.shiftr packed 16) 255) ;;;
  if bytes_per_pixel =? 4 then fb_store (p + 3) 0 else kret tt.

Definition fb_clear (rgb : Z) : kM display unit :=
  let* d := kget in
  let fb := fb_driver d in
  if virt_addr fb =? 0 then kret tt
  else
    let packed := fb_pack_rgb rgb in
    let bytes_per_pixel := bpp fb / 8 in
    kfor (Z.to_nat (height fb)) 0 (λ y,
      let row := virt_addr fb + u32 (y * pitch fb) in
      kfor (Z.to_nat (width fb)) 0 (λ x,
        store_pixel (row + u32 (x * bytes_per_pixel)) packed bytes_per_pixel)).

Definition fb_put_pixel (x y rgb : Z) : kM display unit :=
  let* d := kget in
  let fb := fb_driver d in
  if virt_addr fb =? 0 then kret tt
  else if (width fb <=? x) || (height fb <=? y) then kret tt
  else
    let bytes_per_pixel := bpp fb / 8 in
    let p := virt_addr fb + u32 (y * pitch fb) + u32 (x * bytes_per_pixel) in
    let packed := fb_pack_rgb rgb in
    store_pixel p packed bytes_per_pixel.

Definition fb_put_char_cell (col row c fg_rgb bg_rgb : Z) : kM display unit :=
  let* d := kget in
  let fb := fb_driver d in
  if virt_addr fb =? 0 then kret tt
  else if (col <? 0) || (row <? 0) then kret tt
  else
    let x0 := u32 (col * FB_FONT_WIDTH) in
    let y0 := u32 (row * FB_FONT_HEIGHT) in
    if width fb <? u32 (x0 + FB_FONT_WIDTH) then kret tt
    else if height fb <? u32 (y0 + FB_FONT_HEIGHT) then kret tt
    else
      let c := if (c <? 32) || (127 <? c) then 32 else c in
      let* glyph := kget_opt (λ _, zlookup fb_font (c - 32)) in
      kfor 16 0 (λ y,
        let* bits := kget_opt (λ _, zlookup glyph y) in
        kfor 8 0 (λ x,
          let rgb := if has bits (Z.shiftl 1 x) then fg_rgb else bg_rgb in
          fb_put_pixel (u32 (x0 + x)) (u32 (y0 + y)) rgb)).

(** [memory_copy] and [memory_set] on the framebuffer; the copy runs upwards,
    so overlapping regions behave as in the code. *)
Definition fb_copy (source dest nbytes : Z) : kM display unit :=
  kfor (Z.to_nat nbytes) 0 (λ i, let* v := fb_load (source + i) in fb_store (dest + i) v).
Definition fb_set (dest val len : Z) : kM display unit :=
  kfor (Z.to_nat len) 0 (λ i, fb_store (dest + i) val).

(** ** [screen.c]: the cursor *)

(** [int] arithmetic *)
Definition get_offset (col row : Z) : Z := s32 (2 * (row * MAX_COLS + col)).
Definition get_offset_row (offset : Z) : Z := Z.quot offset (2 * MAX_COLS).
Definition get_offset_col (offset : Z) : Z := Z.quot (offset - get_offset_row offset * 2 * MAX_COLS) 2.

Definition get_cursor_offset : kM display Z :=
  port_byte_out REG_SCREEN_CTRL 14 ;;;
  let* high := port_byte_in_data in
  port_byte_out REG_SCREEN_CTRL 15 ;;;
  let* low := port_byte_in_data in
  kret ((Z.shiftl high 8 + low) * 2).

Definition set_cursor_offset (offset : Z) : kM display unit :=
  let offset := Z.quot offset 2 in
  port_byte_out REG_SCREEN_CTRL 14 ;;;
  port_byte_out REG_SCREEN_DATA (u8 (Z.shiftr offset 8)) ;;;
  port_byte_out REG_SCREEN_CTRL 15 ;;;
  port_byte_out REG_SCREEN_DATA (u8 (Z.land offset 255)).

(** ** [screen.c]: characters *)

(** Scrolling the framebuffer by one text row *)
Definition fb_scroll : kM display unit :=
  let* d := kget in
  let fb := fb_driver d in
  let row_bytes := u32 (pitch fb * 16) in
  let base := virt_addr fb in
  let total_rows := height fb / 16 in
  if MAX_ROWS <=? total_rows then
    fb_copy (base + row_bytes) base (u32 (row_bytes * (MAX_ROWS - 1))) ;;;
    fb_set (base + u32 (row_bytes * (MAX_ROWS - 1))) 0 row_bytes
  else kret tt.

(** The framebuffer branch of [print_char] *)
Definition print_char_fb (c offset : Z) : kM display Z :=
  let* offset :=
    if c =? 10 then kret (get_offset 0 (get_offset_row offset + 1))
    else if c =? 8 then
      if 0 <? offset then
        let offset := offset - 2 in
        fb_put_char_cell (get_offset_col offset) (get_offset_row offset) 32 16777215 0 ;;;
        kret offset
      else kret offset
    else
      fb_put_char_cell (get_offset_col offset) (get_offset_row offset) c 65280 0 ;;;
      kret (offset + 2) in
  let* offset :=
    if MAX_ROWS * MAX_COLS * 2 <=? offset then fb_scroll ;;; kret (offset - 2 * MAX_COLS)
    else kret offset in
  set_cursor_offset offset ;;;
  kret offset.

(** Scrolling the text memory: rows 1 to 24 move up, the last one is zeroed. *)
Definition vga_scroll : kM display unit :=
  kfor 24 1 (λ i, kfor 160 0 (λ j,
    let* v := kget_opt (λ d, zlookup (vidmem d) (get_offset 0 i + j)) in
    vid_store (get_offset 0 (i - 1) + j) v)) ;;;
  kfor 160 0 (λ i, vid_store (get_offset 0 (MAX_ROWS - 1) + i) 0).

(** The text-memory branch of [print_char] *)
Definition print_char_vga (c offset attr : Z) : kM display Z :=
  let* offset :=
    if MAX_ROWS * MAX_COLS * 2 <=? offset then vga_scroll ;;; kret (offset - 2 * MAX_COLS)
    else kret offset in
  let* offset :=
    if c =? 10 then kret (get_offset 0 (get_offset_row offset + 1))
    else if c =? 8 then
      vid_store offset 32 ;;; vid_store (offset + 1) attr ;;; kret offset
    else
      vid_store offset c ;;; vid_store (offset + 1) attr ;;; kret (offset + 2) in
  set_cursor_offset offset ;;;
  kret offset.

Definition print_char (c col row attr : Z) : kM display Z :=
  let attr := if attr =? 0 then WHITE_ON_BLACK else attr in
  (if c =? 10 then uart_send 13 else kret tt) ;;;
  uart_send c ;;;
  if (MAX_COLS <=? col) || (MAX_ROWS <=? row) then
    vid_store (2 * MAX_COLS * MAX_ROWS - 2) 69 ;;;
    vid_store (2 * MAX_COLS * MAX_ROWS - 1) RED_ON_WHITE ;;;
    kret (get_offset col row)
  else
    let* offset :=
      if (0 <=? col) && (0 <=? row) then kret (get_offset col row) else get_cursor_offset in
    let* d := kget in
    match screen_mode d with
    | SCREEN_MODE_FB_TEXT => print_char_fb c offset
    | SCREEN_MODE_VGA_TEXT => print_char_vga c offset attr
    end.

(** The loop of [kprint_at]; the message ends at its NUL. *)
Fixpoint print_loop (message : list Z) (col row : Z) : kM display unit :=
  match message with
  | [] => kret tt
  | c :: message =>
      if c =? 0 then kret tt
      else
        let* offset := print_char c col row GREEN_ON_BLACK in
        print_loop message (get_offset_col offset) (get_offset_row offset)
  end.

Definition kprint_at (message : list Z) (col row : Z) : kM display unit :=
  if (0 <=? col) && (0 <=? row) then print_loop message col row
  else
    let* offset := get_cursor_offset in
    print_loop message (get_offset_col offset) (get_offset_row offset).

Definition kprint (message : list Z) : kM display unit := kprint_at message (-1) (-1).

Definition kprint_backspace : kM display unit :=
  let* offset := get_cursor_offset in
  let offset := offset - 2 in
  let* _ := print_char 8 (get_offset_col offset) (get_offset_row offset) WHITE_ON_BLACK in
  uart_send 32 ;;;
  uart_send 8.

(** The escape sequence that clears a terminal *)
Definition ansi_clear : list Z := [27; 91; 50; 74; 27; 91; 72].

(** The text-memory branch of [clear_screen] *)
Definition clear_vga : kM display unit :=
  kfor 2000 0 (λ i, vid_store (i * 2) 32 ;;; vid_store (i * 2 + 1) WHITE_ON_BLACK) ;;;
  set_cursor_offset (get_offset 0 0) ;;;
  uart_send_string ansi_clear.

Definition clear_screen : kM display unit :=
  let* d := kget in
  match screen_mode d with
  | SCREEN_MODE_FB_TEXT =>
      if negb (virt_addr (fb_driver d) =? 0) then
        fb_clear 0 ;;; set_cursor_offset (get_offset 0 0) ;;; uart_send_string ansi_clear
      else clear_vga
  | SCREEN_MODE_VGA_TEXT => clear_vga
  end.

(** The buffer [buf\[16\]] of [set_cursor_position]: [ESC \[ row ; col H],
    the numbers printed into [num\[8\]]; [buf0] and [num0] are the arrays'
    initial contents. *)
Definition cursor_sequence (buf0 num0 : list Z) (col row : Z) : option (list Z) :=
  buf ← strcpy buf0 [27; 91; 0];
  num ← int_to_ascii (s32 (row + 1)) num0;
  buf ← strcat buf num;
  buf ← strcat buf [59; 0];
  num ← int_to_ascii (s32 (col + 1)) num;
  buf ← strcat buf num;
  strcat buf [72; 0].

Definition set_cursor_position (buf0 num0 : list Z) (col row : Z) : kM display unit :=
  set_cursor_offset (get_offset col row) ;;;
  let* buf := kget_opt (λ _, cursor_sequence buf0 num0 col row) in
  uart_send_string buf.

Definition screen_driver_init (info : boot_framebuffer_info_t) : kM display unit :=
  let* fb :=
    if negb (fi_present info =? 0) then
      let* r := fb_init_from_bootinfo info in kret (r =? 0)
    else kret false in
  if (fb : bool) then
    kmodify (with_mode SCREEN_MODE_FB_TEXT) ;;;
    clear_screen ;;;
    kprint (str "[DRIVER] Screen (Framebuffer) initialized."%string ++ [10; 0])
  else
    kmodify (with_mode SCREEN_MODE_VGA_TEXT) ;;;
    clear_screen ;;;
    kprint (str "[DRIVER] Screen (VGA) initialized."%string ++ [10; 0]).
