(* ===== verification/DisplayInv.v ===== *)
(** * The console shows a terminal

    The framebuffer console of [screen.c] and [fb.c] refines an abstract
    terminal of 25 rows of 80 characters, pixel by pixel; the VGA text console
    refines it as long as the text fits on the screen.  Every operation keeps
    the state well formed and stays inside video memory. *)

From stdpp Require Import base numbers list gmap strings.
From Stdlib Require Import ZArith Lia.
From S2P Require Import Prelude Pmm Mmu.
From S2P Require Import CString.
From S2P Require Import Display.

#[local] Open Scope Z_scope.
#[local] Open Scope kernel_scope.

(** ** Framebuffer memory as pixels *)

(** A usable framebuffer: 24 or 32 bits per pixel, room for the text area, and
    offsets that fit in 32 bits. *)
Record geometry (fb : framebuffer_driver_t) : Prop := {
  geo_base : 0 < virt_addr fb;
  geo_bpp : bpp fb = 24 ∨ bpp fb = 32;
  geo_width : 640 ≤ width fb;
  geo_height : 400 ≤ height fb;
  geo_pitch : width fb * (bpp fb / 8) ≤ pitch fb;
  geo_size : pitch fb * height fb < 2 ^ 32 }.

Definition mapped (fb : framebuffer_driver_t) (m : gmap Z Z) : Prop :=
  ∀ a, virt_addr fb ≤ a < virt_addr fb + pitch fb * height fb → ∃ v, m !! a = Some v ∧ 0 ≤ v < 256.

Definition pixel_at (fb : framebuffer_driver_t) (x y : Z) : Z :=
  virt_addr fb + y * pitch fb + x * (bpp fb / 8).

(** Bits [8k] to [8k+7] of the colour are byte [k] of the pixel. *)
Definition colour_byte (rgb k : Z) : Z := Z.land (Z.shiftr rgb (8 * k)) 255.

(** The picture [f] is in memory. *)
Definition canvas (fb : framebuffer_driver_t) (m : gmap Z Z) (f : Z → Z → Z) : Prop :=
  ∀ x y k, 0 ≤ x < width fb → 0 ≤ y < height fb → 0 ≤ k < 3 →
    m !! (pixel_at fb x y + k) = Some (colour_byte (f x y) k).

Lemma canvas_ext fb m f g : (∀ x y, 0 ≤ x < width fb → 0 ≤ y < height fb → f x y = g x y) → canvas fb m f → canvas fb m g.
Proof. intros E C x y k Hx Hy Hk. rewrite <-E by done. by apply C. Qed.

Lemma colour_byte_range rgb k : 0 ≤ colour_byte rgb k < 256.
Proof. unfold colour_byte. change 255 with (Z.ones 8). rewrite Z.land_ones by lia. apply Z.mod_pos_bound; lia. Qed.
Lemma u8_colour rgb k : u8 (colour_byte rgb k) = colour_byte rgb k.
Proof. apply u8_small, colour_byte_range. Qed.

Lemma pixel_width fb : geometry fb → bpp fb / 8 = 3 ∨ bpp fb / 8 = 4.
Proof. intros G. destruct (geo_bpp _ G) as [-> | ->]; [by left|by right]. Qed.

(** The bytes of a pixel lie in its scan line, in the mapping, and those of two
    pixels are apart. *)
Lemma pixel_row fb x y : geometry fb → 0 ≤ x < width fb → 0 ≤ y < height fb →
  0 ≤ x * (bpp fb / 8) ∧ x * (bpp fb / 8) + bpp fb / 8 ≤ pitch fb ∧
  0 ≤ y * pitch fb ∧ y * pitch fb + pitch fb ≤ pitch fb * height fb < 2 ^ 32.
Proof.
  intros G Hx Hy. pose proof (pixel_width _ G). destruct G as [? _ ? ? Hp ?].
  assert (x * (bpp fb / 8) + bpp fb / 8 ≤ width fb * (bpp fb / 8)) by nia.
  assert (0 ≤ x * (bpp fb / 8)) by nia. assert (0 ≤ pitch fb) by lia. repeat split; nia.
Qed.

Lemma pixel_in fb x y : geometry fb → 0 ≤ x < width fb → 0 ≤ y < height fb →
  virt_addr fb ≤ pixel_at fb x y ∧ pixel_at fb x y + bpp fb / 8 ≤ virt_addr fb + pitch fb * height fb.
Proof. intros G Hx Hy. pose proof (pixel_row _ _ _ G Hx Hy). unfold pixel_at. lia. Qed.

Lemma pixel_apart fb x y x' y' : geometry fb → 0 ≤ x < width fb → 0 ≤ x' < width fb →
  0 ≤ y < height fb → 0 ≤ y' < height fb → (x', y') ≠ (x, y) →
  pixel_at fb x' y' + bpp fb / 8 ≤ pixel_at fb x y ∨ pixel_at fb x y + bpp fb / 8 ≤ pixel_at fb x' y'.
Proof.
  intros G Hx Hx' Hy Hy' Hne. unfold pixel_at.
  pose proof (pixel_row _ _ _ G Hx Hy). pose proof (pixel_row _ _ _ G Hx' Hy'). pose proof (pixel_width _ G).
  destruct (Z.lt_trichotomy y y') as [L|[->|L]].
  - right. assert (y * pitch fb + pitch fb ≤ y' * pitch fb) by nia. lia.
  - assert (x ≠ x') by congruence. assert (x < x' ∨ x' < x) as [?|?] by lia; [right|left]; nia.
  - left. assert (y' * pitch fb + pitch fb ≤ y * pitch fb) by nia. lia.
Qed.

(** The wrap-around of the 32-bit offsets does not show. *)
Lemma offset_small fb x y : geometry fb → 0 ≤ x < width fb → 0 ≤ y < height fb →
  virt_addr fb + u32 (y * pitch fb) + u32 (x * (bpp fb / 8)) = pixel_at fb x y.
Proof.
  intros G Hx Hy. pose proof (pixel_row _ _ _ G Hx Hy). pose proof (pixel_width _ G). unfold pixel_at. rewrite !u32_small by lia. done.
Qed.

Lemma fb_store_run d a v : is_Some (fb_mem d !! a) → fb_store a v d = Ret tt (with_fb_mem (<[a := u8 v]> (fb_mem d)) d).
Proof. intros [w E]. unfold fb_store. by rewrite E. Qed.

Lemma mapped_insert fb m a v : mapped fb m → 0 ≤ v < 256 → mapped fb (<[a := v]> m).
Proof. intros M Hv b Hb. destruct (decide (a = b)) as [->|?]; [rewrite lookup_insert_eq; eauto|rewrite lookup_insert_ne by done; by apply M]. Qed.

Lemma mapped_some fb m a : mapped fb m → virt_addr fb ≤ a < virt_addr fb + pitch fb * height fb → is_Some (m !! a).
Proof. intros M H. destruct (M a H) as (v & -> & _). eauto. Qed.

Lemma store_in fb d a v : mapped fb (fb_mem d) → virt_addr fb ≤ a < virt_addr fb + pitch fb * height fb → 0 ≤ v < 256 →
  fb_store a v d = Ret tt (with_fb_mem (<[a := v]> (fb_mem d)) d).
Proof. intros M H Hv. rewrite fb_store_run by (by apply (mapped_some fb)). by rewrite u8_small. Qed.

(** ** Pixels *)

Lemma store_pixel_run fb d x y rgb f : geometry fb → mapped fb (fb_mem d) → canvas fb (fb_mem d) f →
  0 ≤ x < width fb → 0 ≤ y < height fb →
  ∃ m, store_pixel (pixel_at fb x y) rgb (bpp fb / 8) d = Ret tt (with_fb_mem m d) ∧ mapped fb m ∧
    canvas fb m (λ x' y', if (x' =? x) && (y' =? y) then rgb else f x' y').
Proof.
  intros G M C Hx Hy. pose proof (pixel_in _ _ _ G Hx Hy) as [HI1 HI2]. pose proof (pixel_width _ G) as HW.
  set (p := pixel_at fb x y) in *.
  set (m3 := <[p + 2 := colour_byte rgb 2]> (<[p + 1 := colour_byte rgb 1]> (<[p := colour_byte rgb 0]> (fb_mem d)))).
  assert (mapped fb m3) as M3 by (repeat apply mapped_insert; try apply colour_byte_range; done).
  assert (canvas fb m3 (λ x' y', if (x' =? x) && (y' =? y) then rgb else f x' y')) as C3.
  { intros x' y' k Hx' Hy' Hk. unfold m3. destruct ((x' =? x) && (y' =? y)) eqn:E.
    - zify_bool. subst. fold p. assert (k = 0 ∨ k = 1 ∨ k = 2) as [->|[->| ->]] by lia; simplify_map_eq; try done.
      all: rewrite ?lookup_insert_ne by lia. all: rewrite ?Z.add_0_r, ?lookup_insert_eq; done.
    - assert ((x', y') ≠ (x, y)) as Hne by (intros [= -> ->]; rewrite !Z.eqb_refl in E; done).
      pose proof (pixel_apart _ _ _ _ _ G Hx Hx' Hy Hy' Hne). fold p in H. rewrite !lookup_insert_ne by lia. by apply C. }
  assert (store_pixel p rgb (bpp fb / 8) d = (if bpp fb / 8 =? 4 then fb_store (p + 3) 0 else kret tt) (with_fb_mem m3 d)) as E3.
  { unfold store_pixel. rewrite (kbind_ret _ _ _ _ _ (store_in fb d p (colour_byte rgb 0) M ltac:(lia) (colour_byte_range _ _))).
    rewrite (kbind_ret _ _ _ _ _ (store_in fb (with_fb_mem (<[p := colour_byte rgb 0]> (fb_mem d)) d) (p + 1) (colour_byte rgb 1) ltac:(repeat apply mapped_insert; try apply colour_byte_range; done) ltac:(cbn; lia) (colour_byte_range _ _))).
    rewrite (kbind_ret _ _ _ _ _ (store_in fb (with_fb_mem (<[p + 1 := colour_byte rgb 1]> (<[p := colour_byte rgb 0]> (fb_mem d))) d) (p + 2) (colour_byte rgb 2) ltac:(repeat apply mapped_insert; try apply colour_byte_range; done) ltac:(cbn; lia) (colour_byte_range _ _))).
    done. }
  rewrite E3. destruct HW as [HW|HW]; rewrite HW in *; [by exists m3|].
  exists (<[p + 3 := 0]> m3). split; [exact (store_in fb (with_fb_mem m3 d) (p + 3) 0 M3 ltac:(lia) ltac:(lia))|]. split; [apply mapped_insert; [done|lia]|].
  intros x' y' k Hx' Hy' Hk. rewrite lookup_insert_ne; [by apply C3|].
  destruct (decide ((x', y') = (x, y))) as [[= -> ->]|Hne]; [fold p; lia|]. pose proof (pixel_apart _ _ _ _ _ G Hx Hx' Hy Hy' Hne) as HA. fold p in HA. rewrite HW in HA. lia.
Qed.

(** Framebuffer operations change the framebuffer only; [draws c d g] says that
    [c] returns from [d] with the picture [g] in memory. *)
Definition draws (c : kM display unit) (d : display) (g : Z → Z → Z) : Prop :=
  ∃ m, c d = Ret tt (with_fb_mem m d) ∧ mapped (fb_driver d) m ∧ canvas (fb_driver d) m g.

Lemma put_pixel_draws d x y rgb f : geometry (fb_driver d) → mapped (fb_driver d) (fb_mem d) → canvas (fb_driver d) (fb_mem d) f →
  0 ≤ x < width (fb_driver d) → 0 ≤ y < height (fb_driver d) →
  draws (fb_put_pixel x y rgb) d (λ x' y', if (x' =? x) && (y' =? y) then rgb else f x' y').
Proof.
  intros G M C Hx Hy. unfold draws, fb_put_pixel. rewrite (kbind_ret kget _ d d d eq_refl).
  pose proof (geo_base _ G). zbool. rewrite offset_small by done. by apply store_pixel_run.
Qed.

(** A loop that draws, step by step *)
Lemma for_draws n i (body : Z → kM display unit) (g : Z → Z → Z → Z) d : mapped (fb_driver d) (fb_mem d) → canvas (fb_driver d) (fb_mem d) (g i) →
  (∀ j m, i ≤ j < i + Z.of_nat n → mapped (fb_driver d) m → canvas (fb_driver d) m (g j) → draws (body j) (with_fb_mem m d) (g (j + 1))) →
  draws (kfor n i body) d (g (i + Z.of_nat n)).
Proof.
  intros M C H.
  destruct (kfor_inv (λ j s, ∃ m, s = with_fb_mem m d ∧ mapped (fb_driver d) m ∧ canvas (fb_driver d) m (g j)) body n i d)
    as (s' & E & m & -> & M' & C'); [by exists (fb_mem d); destruct d| |by exists m].
  intros j s Hj (m & -> & Mm & Cm). destruct (H j m Hj Mm Cm) as (m' & E' & M' & C').
  exists (with_fb_mem m' d). split; [exact E'|]. by exists m'.
Qed.

Lemma draws_ext c d f g : (∀ x y, 0 ≤ x < width (fb_driver d) → 0 ≤ y < height (fb_driver d) → f x y = g x y) → draws c d f → draws c d g.
Proof. intros E (m & R & M & C). exists m. split; [done|]. split; [done|]. by eapply canvas_ext. Qed.

(** ** Character cells *)

Definition shown (c : Z) : Z := if (c <? 32) || (127 <? c) then 32 else c.
Definition glyph (c : Z) : list Z := default [] (zlookup fb_font (shown c - 32)).
Definition glyph_bit (c x y : Z) : bool := has (default 0 (zlookup (glyph c) y)) (Z.shiftl 1 x).

Definition in_cell (col row x y : Z) : bool :=
  (col * 8 <=? x) && (x <? col * 8 + 8) && (row * 16 <=? y) && (y <? row * 16 + 16).

Definition draw_cell (col row c fg bg : Z) (f : Z → Z → Z) : Z → Z → Z := λ x y,
  if in_cell col row x y then if glyph_bit c (x - col * 8) (y - row * 16) then fg else bg else f x y.

Lemma font_shape : length fb_font = 96%nat ∧ forallb (λ r, Nat.eqb (length r) 16) fb_font = true.
Proof. by vm_compute. Qed.

Lemma glyph_lookup c : zlookup fb_font (shown c - 32) = Some (glyph c) ∧ length (glyph c) = 16%nat.
Proof.
  destruct font_shape as [F1 F2].
  destruct (zlookup_lt fb_font (shown c - 32)) as (g & E & E2).
  { unfold shown. rewrite F1. destruct ((c <? 32) || (127 <? c)) eqn:E; zify_bool; lia. }
  unfold glyph. rewrite E. split; [done|]. cbn. apply Nat.eqb_eq.
  rewrite forallb_forall in F2. apply F2. apply list_elem_of_In, list_elem_of_lookup. eauto.
Qed.

(** The inner loop: pixels of one line of the glyph *)
Lemma glyph_line_draws d col row c fg bg f y bits : geometry (fb_driver d) → mapped (fb_driver d) (fb_mem d) → canvas (fb_driver d) (fb_mem d) f →
  0 ≤ col < 80 → 0 ≤ row < 25 → 0 ≤ y < 16 → zlookup (glyph c) y = Some bits →
  draws (kfor 8 0 (λ x, fb_put_pixel (u32 (u32 (col * 8) + x)) (u32 (u32 (row * 16) + y)) (if has bits (Z.shiftl 1 x) then fg else bg))) d
    (λ x' y', if (y' =? row * 16 + y) && in_cell col row x' y' then if glyph_bit c (x' - col * 8) (y' - row * 16) then fg else bg else f x' y').
Proof.
  intros G M C Hc Hr Hy Hb. pose proof (geo_width _ G). pose proof (geo_height _ G).
  eapply draws_ext; [|apply (for_draws 8 0 _ (λ x x' y', if (y' =? row * 16 + y) && in_cell col row x' y' && (x' <? col * 8 + x)
     then if glyph_bit c (x' - col * 8) (y' - row * 16) then fg else bg else f x' y') d M)].
  - intros x' y' _ _. cbn beta. destruct (in_cell col row x' y') eqn:E; [|by rewrite andb_false_r]. unfold in_cell in E. zify_bool.
    replace (x' <? col * 8 + (0 + Z.of_nat 8)) with true by (symmetry; apply Z.ltb_lt; lia). by rewrite !andb_true_r.
  - eapply canvas_ext; [|exact C]. intros x' y' _ _. cbn beta. unfold in_cell.
    destruct (col * 8 <=? x') eqn:E; [|by rewrite !andb_false_r]. zify_bool.
    replace (x' <? col * 8 + 0) with false by (symmetry; apply Z.ltb_ge; lia). by rewrite !andb_false_r.
  - intros x m Hx Mm Cm. rewrite (u32_small (col * 8)), (u32_small (row * 16)), !u32_small by lia.
    eapply draws_ext; [|apply put_pixel_draws; [done|done|exact Cm|cbn; lia|cbn; lia]].
    intros x' y' _ _. cbn beta. destruct ((x' =? col * 8 + x) && (y' =? row * 16 + y)) eqn:E.
    + zify_bool. subst. unfold in_cell. zbool. unfold glyph_bit. rewrite !(Z.add_comm _ x), !(Z.add_comm _ y), !Z.add_simpl_r, Hb. done.
    + assert ((y' =? row * 16 + y) && (x' <? col * 8 + x) = (y' =? row * 16 + y) && (x' <? col * 8 + (x + 1))) as E2.
      { destruct (y' =? row * 16 + y) eqn:Ey; [|done]. rewrite andb_true_r in E. zify_bool. cbn.
        apply eq_true_iff_eq. rewrite !Z.ltb_lt. lia. }
      rewrite <-!andb_assoc, !(andb_comm (in_cell _ _ _ _)), !andb_assoc, E2. done.
Qed.

Lemma draws_eq c c' d g : c d = c' d → draws c' d g → draws c d g.
Proof. unfold draws. by intros ->. Qed.

Lemma put_char_draws d col row c fg bg f : geometry (fb_driver d) → mapped (fb_driver d) (fb_mem d) → canvas (fb_driver d) (fb_mem d) f →
  0 ≤ col < 80 → 0 ≤ row < 25 →
  draws (fb_put_char_cell col row c fg bg) d (draw_cell col row c fg bg f).
Proof.
  intros G M C Hc Hr. destruct (glyph_lookup c) as [Eg Lg].
  pose proof (geo_base _ G). pose proof (geo_width _ G). pose proof (geo_height _ G).
  eapply (draws_eq _ (kfor 16 0 (λ y,
     let* bits := kget_opt (λ _, zlookup (glyph c) y) in
     kfor 8 0 (λ x, fb_put_pixel (u32 (u32 (col * 8) + x)) (u32 (u32 (row * 16) + y)) (if has bits (Z.shiftl 1 x) then fg else bg))))).
  { unfold fb_put_char_cell. rewrite (kbind_ret kget _ d d d eq_refl). unfold FB_FONT_WIDTH, FB_FONT_HEIGHT.
    rewrite (u32_small (u32 (col * 8) + 8)), (u32_small (u32 (row * 16) + 16)) by (rewrite u32_small; lia). rewrite (u32_small (col * 8)), (u32_small (row * 16)) by lia. zbool.
    rewrite (kbind_ret (kget_opt (λ _, zlookup fb_font ((if (c <? 32) || (127 <? c) then 32 else c) - 32))) _ d (glyph c) d); [done|].
    unfold kget_opt. fold (shown c). by rewrite Eg. }
  eapply draws_ext; [|apply (for_draws 16 0 _ (λ y x' y', if (y' <? row * 16 + y) && in_cell col row x' y' then
     if glyph_bit c (x' - col * 8) (y' - row * 16) then fg else bg else f x' y') d M)].
  - intros x' y' _ _. cbn beta. unfold draw_cell. destruct (in_cell col row x' y') eqn:E; [|by rewrite andb_false_r].
    unfold in_cell in E. zify_bool. replace (y' <? row * 16 + (0 + Z.of_nat 16)) with true by (symmetry; apply Z.ltb_lt; lia). done.
  - eapply canvas_ext; [|exact C]. intros x' y' _ _. cbn beta. destruct (y' <? row * 16 + 0) eqn:E; [|done].
    unfold in_cell. replace (row * 16 <=? y') with false by (symmetry; apply Z.leb_gt; zify_bool; lia). by rewrite !andb_false_r.
  - intros y m Hy Mm Cm. destruct (zlookup_lt (glyph c) y) as (bits & Eb & _); [rewrite Lg; lia|].
    eapply draws_eq; [by rewrite (kbind_ret _ _ (with_fb_mem m d) bits (with_fb_mem m d)); [|unfold kget_opt; rewrite Eb]|].
    eapply draws_ext; [|eapply (glyph_line_draws _ col row c fg bg _ y bits); [done|done|exact Cm|done|done|lia|done]].
    intros x' y' _ _. cbn beta. destruct (in_cell col row x' y') eqn:E; [|by rewrite !andb_false_r]. rewrite !andb_true_r.
    destruct (y' =? row * 16 + y) eqn:E1, (y' <? row * 16 + y) eqn:E2, (y' <? row * 16 + (y + 1)) eqn:E3; zify_bool; try done; lia.
Qed.

(** ** Clearing *)

Lemma clear_draws d rgb f : geometry (fb_driver d) → mapped (fb_driver d) (fb_mem d) → canvas (fb_driver d) (fb_mem d) f →
  draws (fb_clear rgb) d (λ _ _, rgb).
Proof.
  intros G M C. pose proof (geo_base _ G). pose proof (geo_width _ G). pose proof (geo_height _ G).
  set (fb := fb_driver d) in *.
  eapply (draws_eq _ (kfor (Z.to_nat (height fb)) 0 (λ y, kfor (Z.to_nat (width fb)) 0 (λ x,
        store_pixel (virt_addr fb + u32 (y * pitch fb) + u32 (x * (bpp fb / 8))) rgb (bpp fb / 8))))).
  { unfold fb_clear. rewrite (kbind_ret kget _ d d d eq_refl). fold fb. by zbool. }
  eapply draws_ext; [|apply (for_draws _ 0 _ (λ y x' y', if y' <? y then rgb else f x' y') d M)]; fold fb.
  - intros x' y' _ Hy'. cbn beta. rewrite Z2Nat.id by lia. by zbool.
  - eapply canvas_ext; [|exact C]. intros x' y' _ Hy'. cbn beta. by zbool.
  - intros y m Hy Mm Cm. rewrite Z2Nat.id in Hy by lia.
    eapply draws_ext; [|apply (for_draws _ 0 _ (λ x x' y', if (y' <? y) || (y' =? y) && (x' <? x) then rgb else f x' y')); [exact Mm| |]].
    + intros x' y' Hx' _. cbn beta. cbn [fb_driver with_fb_mem] in Hx'. fold fb in Hx'. rewrite Z2Nat.id by lia.
      replace (x' <? 0 + width fb) with true by (symmetry; apply Z.ltb_lt; lia). rewrite andb_true_r.
      destruct (y' <? y) eqn:E1, (y' =? y) eqn:E2, (y' <? y + 1) eqn:E3; zify_bool; try done; lia.
    + eapply canvas_ext; [|exact Cm]. intros x' y' Hx' _. cbn beta. replace (x' <? 0) with false by (symmetry; apply Z.ltb_ge; lia). by rewrite andb_false_r, orb_false_r.
    + intros x m2 Hx Mm2 Cm2. rewrite Z2Nat.id in Hx by lia. cbn [fb_driver with_fb_mem] in *. fold fb in Mm2, Cm2.
      destruct (store_pixel_run fb (with_fb_mem m2 d) x y rgb _ G Mm2 Cm2) as (m3 & E3 & M3 & C3); [lia|lia|].
      exists m3. cbn [fb_driver with_fb_mem]. fold fb. rewrite offset_small by (done || lia). split; [exact E3|]. split; [done|].
      eapply canvas_ext; [|exact C3]. intros x' y' _ _. cbn beta.
      destruct (y' <? y) eqn:E1, (y' =? y) eqn:E2, (x' <? x) eqn:E4, (x' =? x) eqn:E5, (x' <? x + 1) eqn:E6; zify_bool; try done; lia.
Qed.

(** ** Scrolling *)

Lemma fb_copy_run fb d src dst n : mapped fb (fb_mem d) → virt_addr fb ≤ dst ≤ src → 0 ≤ n → src + n ≤ virt_addr fb + pitch fb * height fb →
  ∃ m, fb_copy src dst n d = Ret tt (with_fb_mem m d) ∧ mapped fb m ∧
    (∀ a, dst ≤ a < dst + n → m !! a = fb_mem d !! (a + (src - dst))) ∧ (∀ a, a < dst ∨ dst + n ≤ a → m !! a = fb_mem d !! a).
Proof.
  intros M Hd Hn Hs.
  destruct (kfor_inv (λ j s, ∃ m, s = with_fb_mem m d ∧ mapped fb m ∧ (∀ a, dst ≤ a < dst + j → m !! a = fb_mem d !! (a + (src - dst))) ∧
      (∀ a, a < dst ∨ dst + j ≤ a → m !! a = fb_mem d !! a)) (λ i, let* v := fb_load (src + i) in fb_store (dst + i) v) (Z.to_nat n) 0 d)
    as (s & E & m & -> & R).
  - exists (fb_mem d). split; [by destruct d|]. split; [done|]. split; [lia|done].
  - intros j s Hj (m & -> & Mm & C1 & C2).
    destruct (M (src + j)) as (v & Ev & Hv); [lia|].
    exists (with_fb_mem (<[dst + j := v]> m) d). split.
    { rewrite (kbind_ret _ _ _ v (with_fb_mem m d)) by (unfold fb_load, kget_opt; cbn [fb_mem with_fb_mem]; rewrite C2, Ev by lia; done).
      exact (store_in fb (with_fb_mem m d) (dst + j) v Mm ltac:(lia) Hv). }
    eexists. split; [done|]. split; [by apply mapped_insert|]. split; intros a Ha.
    + destruct (decide (a = dst + j)) as [->|?]; [rewrite lookup_insert_eq, <-Ev; f_equal; lia|]. rewrite lookup_insert_ne by lia. apply C1. lia.
    + rewrite lookup_insert_ne by lia. apply C2. lia.
  - exists m. split; [exact E|]. rewrite Z.add_0_l, Z2Nat.id in R by lia. done.
Qed.

Lemma fb_set_run fb d dst n : mapped fb (fb_mem d) → virt_addr fb ≤ dst → 0 ≤ n → dst + n ≤ virt_addr fb + pitch fb * height fb →
  ∃ m, fb_set dst 0 n d = Ret tt (with_fb_mem m d) ∧ mapped fb m ∧
    (∀ a, dst ≤ a < dst + n → m !! a = Some 0) ∧ (∀ a, a < dst ∨ dst + n ≤ a → m !! a = fb_mem d !! a).
Proof.
  intros M Hd Hn Hs.
  destruct (kfor_inv (λ j s, ∃ m, s = with_fb_mem m d ∧ mapped fb m ∧ (∀ a, dst ≤ a < dst + j → m !! a = Some 0) ∧
      (∀ a, a < dst ∨ dst + j ≤ a → m !! a = fb_mem d !! a)) (λ i, fb_store (dst + i) 0) (Z.to_nat n) 0 d)
    as (s & E & m & -> & R).
  - exists (fb_mem d). split; [by destruct d|]. split; [done|]. split; [lia|done].
  - intros j s Hj (m & -> & Mm & C1 & C2).
    exists (with_fb_mem (<[dst + j := 0]> m) d). split; [exact (store_in fb (with_fb_mem m d) (dst + j) 0 Mm ltac:(lia) ltac:(lia))|].
    eexists. split; [done|]. split; [apply mapped_insert; [done|lia]|]. split; intros a Ha.
    + destruct (decide (a = dst + j)) as [->|?]; [by rewrite lookup_insert_eq|]. rewrite lookup_insert_ne by lia. apply C1. lia.
    + rewrite lookup_insert_ne by lia. apply C2. lia.
  - exists m. split; [exact E|]. rewrite Z.add_0_l, Z2Nat.id in R by lia. done.
Qed.

Definition scroll_up (f : Z → Z → Z) : Z → Z → Z := λ x y,
  if y <? 384 then f x (y + 16) else if y <? 400 then 0 else f x y.

Lemma scroll_draws d f : geometry (fb_driver d) → mapped (fb_driver d) (fb_mem d) → canvas (fb_driver d) (fb_mem d) f →
  draws fb_scroll d (scroll_up f).
Proof.
  intros G M C. pose proof (geo_width _ G). pose proof (geo_height _ G). pose proof (geo_size _ G). pose proof (pixel_row _ 0 0 G ltac:(lia) ltac:(lia)).
  pose proof (pixel_width _ G). set (fb := fb_driver d) in *.
  assert (pitch fb * 400 ≤ pitch fb * height fb) by nia. assert (400 ≤ height fb / 16 * 16 + 15) by (pose proof (Z.div_mod (height fb) 16); pose proof (Z.mod_pos_bound (height fb) 16); lia).
  set (b := virt_addr fb) in *. set (p := pitch fb) in *.
  destruct (fb_copy_run fb d (b + p * 16) b (p * 384) M) as (m1 & E1 & M1 & A1 & B1); [unfold b; lia|lia|fold b p; lia|].
  destruct (fb_set_run fb (with_fb_mem m1 d) (b + p * 384) (p * 16) M1) as (m2 & E2 & M2 & A2 & B2); [fold b; lia|lia|fold b p; lia|].
  exists m2. split; [|split; [done|]].
  - unfold fb_scroll. rewrite (kbind_ret kget _ d d d eq_refl). fold fb b p. unfold MAX_ROWS. change (25 - 1) with 24.
    rewrite (u32_small (p * 16)), (u32_small (p * 16 * 24)) by lia. replace (p * 16 * 24) with (p * 384) by lia. zbool.
    by rewrite (kbind_ret _ _ _ _ _ E1).
  - intros x y k Hx Hy Hk. unfold scroll_up. pose proof (pixel_row _ _ _ G Hx Hy) as HR. fold fb p in HR. cbn [fb_mem with_fb_mem] in B2.
    assert (pixel_at fb x y = b + y * p + x * (bpp fb / 8)) as EP by done. fold fb. rewrite EP.
    destruct (y <? 384) eqn:E384; [|destruct (y <? 400) eqn:E400]; zify_bool.
    + assert (y * p + p ≤ p * 384) by nia. rewrite B2, A1 by lia. assert (0 ≤ y + 16 < height fb) by lia. rewrite <-(C x (y + 16) k) by done. f_equal. unfold pixel_at. fold b p. lia.
    + assert (p * 384 ≤ y * p) by nia. assert (y * p + p ≤ p * 400) by nia. rewrite A2 by lia. unfold colour_byte. by rewrite Z.shiftr_0_l, Z.land_0_l.
    + assert (p * 400 ≤ y * p) by nia. rewrite B2, B1 by lia. rewrite <-(C x y k) by done. done.
Qed.

(** ** The abstract terminal *)

(** 25 rows of 80 characters, row by row, and the position of the next one *)
Record term := Term { t_cells : list Z; t_pos : Z }.

(** A position past the last row moves the rows up. *)
Definition t_scroll (t : term) : term :=
  if 2000 <=? t_pos t then Term (drop 80 (t_cells t) ++ replicate 80 32) (t_pos t - 80) else t.

Definition t_move (t : term) (c : Z) : term :=
  if c =? 10 then Term (t_cells t) ((t_pos t / 80 + 1) * 80)
  else if c =? 8 then
    if 0 <? t_pos t then Term (<[Z.to_nat (t_pos t - 1) := 32]> (t_cells t)) (t_pos t - 1) else t
  else Term (<[Z.to_nat (t_pos t) := c]> (t_cells t)) (t_pos t + 1).

Definition t_putc (t : term) (c : Z) : term := t_scroll (t_move t c).
Definition t_puts (t : term) (msg : list Z) : term := fold_left t_putc msg t.

Definition blank : term := Term (replicate 2000 32) 0.

(** What the serial line receives for a message *)
Definition serial (msg : list Z) : list Z := msg ≫= λ c, if c =? 10 then [13; 10] else [c].

(** The picture of a text, green on black *)
Definition text (f : Z → Z → Z) (cells : list Z) : Prop :=
  length cells = 2000%nat ∧
  ∀ col row x y, 0 ≤ col < 80 → 0 ≤ row < 25 → 0 ≤ x < 8 → 0 ≤ y < 16 →
    ∃ c, cells !! Z.to_nat (row * 80 + col) = Some c ∧
      f (col * 8 + x) (row * 16 + y) = if glyph_bit c x y then 65280 else 0.

Definition cursor (d : display) : Z := crtc_high d * 256 + crtc_low d.
Definition crtc_ok (d : display) : Prop := 0 ≤ crtc_high d < 256 ∧ 0 ≤ crtc_low d < 256.

(** The framebuffer shows the cells of a terminal; the console shows a terminal
    when the cursor registers hold its position as well. *)
Record fb_pic (d : display) (t : term) : Prop := {
  fp_mode : screen_mode d = SCREEN_MODE_FB_TEXT;
  fp_geo : geometry (fb_driver d);
  fp_map : mapped (fb_driver d) (fb_mem d);
  fp_pos : 0 ≤ t_pos t < 2000;
  fp_text : ∃ f, canvas (fb_driver d) (fb_mem d) f ∧ text f (t_cells t) }.
Record fb_shows (d : display) (t : term) : Prop := {
  fs_pic : fb_pic d t;
  fs_crtc : crtc_ok d;
  fs_cursor : cursor d = t_pos t }.

Lemma glyph_blank x y : glyph_bit 32 x y = false.
Proof.
  unfold glyph_bit. assert (glyph 32 = replicate 16 0) as -> by (by vm_compute).
  assert (default 0 (zlookup (replicate 16 0) y) = 0) as ->; [|unfold has; by rewrite Z.land_0_l].
  unfold zlookup. destruct (y <? 0); [done|]. destruct (replicate 16 0 !! Z.to_nat y) eqn:E; [|done].
  by apply lookup_replicate in E as [-> _].
Qed.

Lemma text_draw f cells col row c fg : text f cells → 0 ≤ col < 80 → 0 ≤ row < 25 → fg = 65280 ∨ c = 32 →
  text (draw_cell col row c fg 0 f) (<[Z.to_nat (row * 80 + col) := c]> cells).
Proof.
  intros [L T] Hc Hr Hfg. split; [by rewrite length_insert|]. intros col' row' x y Hc' Hr' Hx Hy. unfold draw_cell, in_cell.
  destruct (decide (col' = col ∧ row' = row)) as [[-> ->]|Hne].
  - exists c. rewrite list_lookup_insert_eq by lia. split; [done|]. zbool.
    replace (col * 8 + x - col * 8) with x by lia. replace (row * 16 + y - row * 16) with y by lia.
    destruct Hfg as [->| ->]; [done|]. by rewrite glyph_blank.
  - destruct (T col' row' x y) as (c' & E & F); [done..|]. exists c'. rewrite list_lookup_insert_ne by lia. split; [done|].
    destruct ((col * 8 <=? col' * 8 + x) && (col' * 8 + x <? col * 8 + 8) && (row * 16 <=? row' * 16 + y) && (row' * 16 + y <? row * 16 + 16)) eqn:E2; [|done].
    exfalso. zify_bool. apply Hne. lia.
Qed.

Lemma text_scroll f cells : text f cells → text (scroll_up f) (drop 80 cells ++ replicate 80 32).
Proof.
  intros [L T]. split; [rewrite length_app, length_drop, length_replicate; lia|]. intros col row x y Hc Hr Hx Hy. unfold scroll_up.
  destruct (decide (row < 24)).
  - replace (row * 16 + y <? 384) with true by (symmetry; apply Z.ltb_lt; lia).
    destruct (T col (row + 1) x y) as (c & E & F); [lia..|]. exists c. split; [|rewrite <-F; f_equal; lia].
    rewrite lookup_app_l by (rewrite length_drop; lia). rewrite lookup_drop, <-E. f_equal. lia.
  - exists 32. rewrite glyph_blank. split; [|by zbool].
    rewrite lookup_app_r by (rewrite length_drop; lia). apply lookup_replicate. rewrite length_drop. split; [done|lia].
Qed.

(** ** The cursor *)

Lemma get_cursor_run d : crtc_ok d →
  get_cursor_offset d = Ret (2 * cursor d) (with_crtc 15 (crtc_high d) (crtc_low d) d).
Proof.
  intros [H1 H2].
  change (get_cursor_offset d) with (Ret ((Z.shiftl (crtc_high d) 8 + crtc_low d) * 2) (with_crtc 15 (crtc_high d) (crtc_low d) d)).
  f_equal. unfold cursor. rewrite Z.shiftl_mul_pow2 by lia. lia.
Qed.

Lemma set_cursor_run d off : 0 ≤ off < 131072 →
  set_cursor_offset off d = Ret tt (with_crtc 15 (off / 2 / 256) (off / 2 mod 256) d).
Proof.
  intros H. assert (0 ≤ off / 2 < 65536) by (split; [apply Z.div_pos; lia|apply Z.div_lt_upper_bound; lia]).
  assert (0 ≤ off / 2 / 256 < 256) by (split; [apply Z.div_pos; lia|apply Z.div_lt_upper_bound; lia]).
  change (set_cursor_offset off d) with (Ret (S := display) tt (with_crtc 15 (u8 (u8 (Z.shiftr (Z.quot off 2) 8))) (u8 (u8 (Z.land (Z.quot off 2) 255))) d)).
  rewrite Z.quot_div_nonneg, Z.shiftr_div_pow2 by lia. change 255 with (Z.ones 8). rewrite Z.land_ones by lia. change (2 ^ 8) with 256.
  pose proof (Z.mod_pos_bound (off / 2) 256 ltac:(lia)). by rewrite !u8_small by (rewrite ?u8_small; lia).
Qed.

Lemma set_cursor_ok d pos : 0 ≤ pos < 65536 → ∃ h l, set_cursor_offset (2 * pos) d = Ret tt (with_crtc 15 h l d) ∧
  crtc_ok (with_crtc 15 h l d) ∧ cursor (with_crtc 15 h l d) = pos.
Proof.
  intros H. rewrite set_cursor_run by lia. replace (2 * pos / 2) with pos by (symmetry; rewrite Z.mul_comm; apply Z.div_mul; lia).
  do 2 eexists. split; [done|]. pose proof (Z.mod_pos_bound pos 256 ltac:(lia)). pose proof (Z.div_mod pos 256 ltac:(lia)).
  unfold crtc_ok, cursor; cbn. split; [split; [split; [apply Z.div_pos|apply Z.div_lt_upper_bound]; lia|lia]|lia].
Qed.

(** Row and column of a position, and back *)
Lemma offset_row pos : 0 ≤ pos → get_offset_row (2 * pos) = pos / 80.
Proof.
  intros. unfold get_offset_row, MAX_COLS. rewrite Z.quot_div_nonneg by lia. change (2 * 80) with (2 * 80). rewrite Z.div_mul_cancel_l by lia. done.
Qed.
Lemma offset_col pos : 0 ≤ pos → get_offset_col (2 * pos) = pos mod 80.
Proof.
  intros. unfold get_offset_col. rewrite offset_row by lia. unfold MAX_COLS.
  pose proof (Z.div_mod pos 80 ltac:(lia)). pose proof (Z.mod_pos_bound pos 80 ltac:(lia)).
  replace (2 * pos - pos / 80 * 2 * 80) with (pos mod 80 * 2) by lia. by rewrite Z.quot_mul.
Qed.
Lemma offset_of col row : 0 ≤ col < 1000 → 0 ≤ row < 1000 → get_offset col row = 2 * (row * 80 + col).
Proof. intros. unfold get_offset, MAX_COLS. apply s32_small. lia. Qed.
Lemma offset_back pos : 0 ≤ pos < 2000 → get_offset (pos mod 80) (pos / 80) = 2 * pos.
Proof.
  intros. pose proof (Z.div_mod pos 80 ltac:(lia)). pose proof (Z.mod_pos_bound pos 80 ltac:(lia)).
  assert (0 ≤ pos / 80 < 25) by (split; [apply Z.div_pos|apply Z.div_lt_upper_bound]; lia). rewrite offset_of by lia. lia.
Qed.
Lemma pos_split pos : 0 ≤ pos < 2000 → 0 ≤ pos mod 80 < 80 ∧ 0 ≤ pos / 80 < 25 ∧ pos = pos / 80 * 80 + pos mod 80.
Proof.
  intros. pose proof (Z.div_mod pos 80 ltac:(lia)). pose proof (Z.mod_pos_bound pos 80 ltac:(lia)).
  assert (0 ≤ pos / 80 < 25) by (split; [apply Z.div_pos|apply Z.div_lt_upper_bound]; lia). lia.
Qed.

(** ** The framebuffer console refines the terminal *)

(** The state with the framebuffer and the cursor of [d'] *)
Definition quiet (d d' : display) : Prop :=
  screen_mode d' = screen_mode d ∧ vidmem d' = vidmem d ∧ uart d' = uart d ∧ fb_driver d' = fb_driver d.

(** First half: the character is drawn and the position moves. *)
Lemma fb_move_run d t c : fb_pic d t → c ≠ 0 → ∃ m,
  (if c =? 10 then kret (get_offset 0 (get_offset_row (2 * t_pos t) + 1))
    else if c =? 8 then
      if 0 <? 2 * t_pos t then
        fb_put_char_cell (get_offset_col (2 * t_pos t - 2)) (get_offset_row (2 * t_pos t - 2)) 32 16777215 0 ;;;
        kret (2 * t_pos t - 2)
      else kret (2 * t_pos t)
    else
      fb_put_char_cell (get_offset_col (2 * t_pos t)) (get_offset_row (2 * t_pos t)) c 65280 0 ;;;
      kret (2 * t_pos t + 2)) d = Ret (2 * t_pos (t_move t c)) (with_fb_mem m d) ∧
  mapped (fb_driver d) m ∧ 0 ≤ t_pos (t_move t c) ≤ 2000 ∧ (∃ f, canvas (fb_driver d) m f ∧ text f (t_cells (t_move t c))).
Proof.
  intros [Hm G M Hpos (f & C & T)] Hc. pose proof (pos_split _ Hpos) as (P1 & P2 & P3). unfold t_move.
  destruct (c =? 10) eqn:E10; [|destruct (c =? 8) eqn:E8].
  - exists (fb_mem d). cbn [t_pos t_cells]. rewrite offset_row, offset_of by lia. split; [unfold kret; destruct d; cbn; f_equal; lia|]. split; [done|]. split; [lia|]. by exists f.
  - destruct (0 <? t_pos t) eqn:E0.
    + zify_bool. replace (0 <? 2 * t_pos t) with true by (symmetry; apply Z.ltb_lt; lia). cbn [t_pos t_cells].
      replace (2 * t_pos t - 2) with (2 * (t_pos t - 1)) by lia. rewrite offset_row, offset_col by lia. destruct (pos_split (t_pos t - 1)) as (Q1 & Q2 & Q3); [lia|].
      destruct (put_char_draws d ((t_pos t - 1) mod 80) ((t_pos t - 1) / 80) 32 16777215 0 f G M C) as (m & E & Mm & Cm); [lia|lia|].
      exists m. rewrite (kbind_ret _ _ _ _ _ E). split; [done|]. split; [done|]. split; [lia|]. eexists. split; [exact Cm|].
      replace (Z.to_nat (t_pos t - 1)) with (Z.to_nat ((t_pos t - 1) / 80 * 80 + (t_pos t - 1) mod 80)) by lia. apply text_draw; auto.
    + zify_bool. replace (0 <? 2 * t_pos t) with false by (symmetry; apply Z.ltb_ge; lia).
      exists (fb_mem d). split; [by destruct d|]. split; [done|]. split; [lia|]. by exists f.
  - cbn [t_pos t_cells]. rewrite offset_row, offset_col by lia.
    destruct (put_char_draws d (t_pos t mod 80) (t_pos t / 80) c 65280 0 f G M C) as (m & E & Mm & Cm); [lia|lia|].
    exists m. rewrite (kbind_ret _ _ _ _ _ E). split; [unfold kret; f_equal; lia|]. split; [done|]. split; [lia|]. eexists. split; [exact Cm|].
    replace (Z.to_nat (t_pos t)) with (Z.to_nat (t_pos t / 80 * 80 + t_pos t mod 80)) by lia. apply text_draw; auto.
Qed.

Lemma print_char_fb_run d t c : fb_pic d t → c ≠ 0 → ∃ d',
  print_char_fb c (2 * t_pos t) d = Ret (2 * t_pos (t_putc t c)) d' ∧ fb_shows d' (t_putc t c) ∧ quiet d d'.
Proof.
  intros S Hc. destruct (fb_move_run _ _ _ S Hc) as (m & E & M & Hp & f & C & T). destruct S as [Hm G _ _ _].
  unfold print_char_fb. rewrite (kbind_ret _ _ _ _ _ E). clear E. unfold t_putc, t_scroll. set (t' := t_move t c) in *.
  change (MAX_ROWS * MAX_COLS * 2) with 4000. change (2 * MAX_COLS) with 160.
  destruct (2000 <=? t_pos t') eqn:E; zify_bool.
  - replace (4000 <=? 2 * t_pos t') with true by (symmetry; apply Z.leb_le; lia). cbn [t_pos t_cells].
    destruct (scroll_draws (with_fb_mem m d) f G M C) as (m2 & E2 & M2 & C2).
    rewrite (kbind_ret _ _ _ (2 * (t_pos t' - 80)) (with_fb_mem m2 d)); [|rewrite (kbind_ret _ _ _ _ _ E2); unfold kret; do 2 f_equal; lia].
    destruct (set_cursor_ok (with_fb_mem m2 d) (t_pos t' - 80)) as (h & l & Es & K1 & K2); [lia|].
    rewrite (kbind_ret _ _ _ _ _ Es). eexists. split; [done|]. split; [|done].
    split; [|done|done]. split; try done; [cbn [t_pos]; lia|]. eexists. split; [exact C2|]. by apply text_scroll.
  - replace (4000 <=? 2 * t_pos t') with false by (symmetry; apply Z.leb_gt; lia).
    destruct (set_cursor_ok (with_fb_mem m d) (t_pos t')) as (h & l & Es & K1 & K2); [lia|].
    rewrite (kbind_ret (kret (2 * t_pos t')) _ (with_fb_mem m d) (2 * t_pos t') (with_fb_mem m d) eq_refl), (kbind_ret _ _ _ _ _ Es).
    eexists. split; [done|]. split; [|done]. split; [|done|done]. split; try done; [lia|]. by exists f.
Qed.

Lemma fb_pic_uart d t u : fb_pic d t → fb_pic (with_uart u d) t.
Proof. intros []. by split. Qed.
Lemma fb_shows_index d t i : fb_shows d t → fb_shows (with_crtc i (crtc_high d) (crtc_low d) d) t.
Proof. intros [[] ? ?]. split; [by split|done|done]. Qed.

(** The bytes of one character go to the serial line first. *)
Lemma char_serial d c (k : kM display Z) :
  ((if c =? 10 then uart_send 13 else kret tt) ;;; uart_send c ;;; k) d = k (with_uart (uart d ++ serial [c]) d).
Proof. unfold serial. cbn. destruct (c =? 10) eqn:E; zify_bool; subst; [cbn; by rewrite <-app_assoc|by destruct d]. Qed.

Lemma print_char_on d c col row attr off : 0 ≤ col < 80 → 0 ≤ row < 25 → get_offset col row = off → attr ≠ 0 →
  print_char c col row attr d = match screen_mode d with
    | SCREEN_MODE_FB_TEXT => print_char_fb c off (with_uart (uart d ++ serial [c]) d)
    | SCREEN_MODE_VGA_TEXT => print_char_vga c off attr (with_uart (uart d ++ serial [c]) d) end.
Proof.
  intros Hc Hr Eo Ha. unfold print_char. rewrite char_serial. unfold MAX_COLS, MAX_ROWS. zbool.
  rewrite (kbind_ret (kret (get_offset col row)) _ _ _ _ eq_refl), Eo. rewrite (kbind_ret kget _ _ _ _ eq_refl). cbn. by destruct (screen_mode d).
Qed.

Lemma serial_cons c msg : serial (c :: msg) = serial [c] ++ serial msg.
Proof. unfold serial. cbn. by rewrite app_nil_r. Qed.

Lemma fb_print_loop_run msg rest : ∀ d t, fb_shows d t → 0 ∉ msg → ∃ d',
  print_loop (msg ++ 0 :: rest) (t_pos t mod 80) (t_pos t / 80) d = Ret tt d' ∧ fb_shows d' (t_puts t msg) ∧
  uart d' = uart d ++ serial msg ∧ vidmem d' = vidmem d.
Proof.
  induction msg as [|c msg IH]; intros d t S H0.
  { exists d. cbn. by rewrite app_nil_r. }
  apply not_elem_of_cons in H0 as [Hc H0]. cbn [app print_loop]. replace (c =? 0) with false by (symmetry; apply Z.eqb_neq; lia).
  pose proof (pos_split _ (fp_pos _ _ (fs_pic _ _ S))) as (P1 & P2 & P3).
  destruct (print_char_fb_run _ t c (fb_pic_uart d t (uart d ++ serial [c]) (fs_pic _ _ S))) as (d1 & E1 & S1 & Q1 & Q2 & Q3 & Q4); [lia|].
  rewrite (kbind_ret _ _ d (2 * t_pos (t_putc t c)) d1).
  2: { rewrite (print_char_on d c _ _ _ (2 * t_pos t)), (fp_mode _ _ (fs_pic _ _ S)); [done|lia|lia|by apply offset_back, (fp_pos _ _ (fs_pic _ _ S))|done]. }
  pose proof (fp_pos _ _ (fs_pic _ _ S1)). rewrite offset_row, offset_col by lia.
  destruct (IH d1 (t_putc t c) S1 H0) as (d' & E & S' & U & V). exists d'. split; [exact E|]. split; [exact S'|].
  rewrite U, Q3, V, Q2, (serial_cons c msg). cbn [uart with_uart vidmem]. split; [by rewrite app_assoc|done].
Qed.

Lemma fb_kprint_run d t msg rest : fb_shows d t → 0 ∉ msg → ∃ d',
  kprint (msg ++ 0 :: rest) d = Ret tt d' ∧ fb_shows d' (t_puts t msg) ∧ uart d' = uart d ++ serial msg ∧ vidmem d' = vidmem d.
Proof.
  intros S H0. unfold kprint, kprint_at. cbn [andb Z.leb Z.compare]. change (0 <=? -1) with false. cbn [andb].
  rewrite (kbind_ret _ _ _ _ _ (get_cursor_run d (fs_crtc _ _ S))), (fs_cursor _ _ S).
  pose proof (fp_pos _ _ (fs_pic _ _ S)). rewrite offset_row, offset_col by lia.
  by apply (fb_print_loop_run _ rest (with_crtc 15 (crtc_high d) (crtc_low d) d) t (fb_shows_index d t 15 S)).
Qed.

(** ** The text-memory console *)

(** Without scrolling: a character sent after the last cell is filled only
    shows an [E] in that cell; a raw backspace blanks the current cell. *)
Definition v_putc (t : term) (c : Z) : term :=
  if 2000 <=? t_pos t then Term (<[1999%nat := 69]> (t_cells t)) (t_pos t)
  else if c =? 8 then Term (<[Z.to_nat (t_pos t) := 32]> (t_cells t)) (t_pos t)
  else t_move t c.
Definition v_puts (t : term) (msg : list Z) : term := fold_left v_putc msg t.

Definition cells_in (v cells : list Z) : Prop :=
  length v = 4000%nat ∧ length cells = 2000%nat ∧ ∀ i, (i < 2000)%nat → v !! (2 * i)%nat = cells !! i.

Record vga_shows (d : display) (t : term) : Prop := {
  vs_mode : screen_mode d = SCREEN_MODE_VGA_TEXT;
  vs_crtc : crtc_ok d;
  vs_cursor : cursor d = t_pos t;
  vs_pos : 0 ≤ t_pos t ≤ 2000;
  vs_cells : cells_in (vidmem d) (t_cells t) }.

Lemma vid_store_run d i v : length (vidmem d) = 4000%nat → 0 ≤ i < 4000 →
  vid_store i v d = Ret tt (with_vidmem (<[Z.to_nat i := u8 v]> (vidmem d)) d).
Proof. intros L H. unfold vid_store. by rewrite zset_lt by (rewrite L; lia). Qed.

Lemma cells_store v cells p c a : cells_in v cells → 0 ≤ p < 2000 →
  cells_in (<[Z.to_nat (2 * p + 1) := a]> (<[Z.to_nat (2 * p) := c]> v)) (<[Z.to_nat p := c]> cells).
Proof.
  intros (L1 & L2 & H) Hp. split; [by rewrite !length_insert|]. split; [by rewrite length_insert|]. intros i Hi.
  rewrite list_lookup_insert_ne by lia. destruct (decide (i = Z.to_nat p)) as [->|Hne].
  - replace (2 * Z.to_nat p)%nat with (Z.to_nat (2 * p)) by lia. rewrite !list_lookup_insert_eq by lia. done.
  - rewrite !list_lookup_insert_ne by lia. by apply H.
Qed.

(** A cell is written and the cursor set. *)
Lemma cell_cursor_run d cells p c a pos : length (vidmem d) = 4000%nat → screen_mode d = SCREEN_MODE_VGA_TEXT → cells_in (vidmem d) cells →
  0 ≤ p < 2000 → 0 ≤ c < 256 → 0 ≤ pos ≤ 2000 → ∃ d',
  (vid_store (2 * p) c ;;; vid_store (2 * p + 1) a ;;; set_cursor_offset (2 * pos) ;;; kret (2 * pos)) d = Ret (2 * pos) d' ∧
  vga_shows d' (Term (<[Z.to_nat p := c]> cells) pos) ∧ uart d' = uart d.
Proof.
  intros L Hm HC Hp Hc Hpos.
  rewrite (kbind_ret _ _ _ _ _ (vid_store_run d (2 * p) c L ltac:(lia))).
  rewrite (kbind_ret _ _ _ _ _ (vid_store_run (with_vidmem (<[Z.to_nat (2 * p) := u8 c]> (vidmem d)) d) (2 * p + 1) a ltac:(cbn; by rewrite length_insert) ltac:(lia))).
  destruct (set_cursor_ok (with_vidmem (<[Z.to_nat (2 * p + 1) := u8 a]> (<[Z.to_nat (2 * p) := u8 c]> (vidmem d))) d) pos) as (h & l & E & K1 & K2); [lia|].
  rewrite (kbind_ret _ _ _ tt (with_crtc 15 h l (with_vidmem (<[Z.to_nat (2 * p + 1) := u8 a]> (<[Z.to_nat (2 * p) := u8 c]> (vidmem d))) d))); [|exact E].
  eexists. split; [done|]. split; [|done]. split; try done. cbn [vidmem with_vidmem with_crtc t_cells]. rewrite (u8_small c) by done. by apply cells_store.
Qed.

Lemma bind_flat {S A B} (a b : kM S unit) (x : A) (k : A → kM S B) s : (let* o := (a ;;; b ;;; kret x) in k o) s = (a ;;; b ;;; k x) s.
Proof. unfold kbind, kret. destruct (a s) as [[] s'| | | |]; try done. by destruct (b s'). Qed.

Lemma print_char_vga_run d t c a : vga_shows d t → t_pos t < 2000 → 0 < c < 256 → ∃ d',
  print_char_vga c (2 * t_pos t) a d = Ret (2 * t_pos (v_putc t c)) d' ∧ vga_shows d' (v_putc t c) ∧ uart d' = uart d.
Proof.
  intros [Hm HK Hcur Hpos HC] Hlt Hc. unfold print_char_vga, v_putc, t_move. change (MAX_ROWS * MAX_COLS * 2) with 4000.
  replace (4000 <=? 2 * t_pos t) with false by (symmetry; apply Z.leb_gt; lia). replace (2000 <=? t_pos t) with false by (symmetry; apply Z.leb_gt; lia).
  rewrite (kbind_ret (kret (2 * t_pos t)) _ d (2 * t_pos t) d eq_refl). pose proof (pos_split (t_pos t) ltac:(lia)) as (P1 & P2 & P3).
  destruct (c =? 8) eqn:E8; [|destruct (c =? 10) eqn:E10]; zify_bool.
  - subst c. change (8 =? 10) with false. cbn iota.
    destruct (cell_cursor_run d (t_cells t) (t_pos t) 32 a (t_pos t)) as (d' & E & S & U); [apply HC|done|done|lia|lia|lia|].
    exists d'. split; [|done]. rewrite bind_flat. exact E.
  - rewrite offset_row, offset_of by lia. replace (2 * ((t_pos t / 80 + 1) * 80 + 0)) with (2 * ((t_pos t / 80 + 1) * 80)) by lia.
    rewrite (kbind_ret (kret _) _ d _ d eq_refl).
    destruct (set_cursor_ok d ((t_pos t / 80 + 1) * 80)) as (h & l & E & K1 & K2); [lia|].
    rewrite (kbind_ret _ _ _ _ _ E). eexists. split; [done|]. split; [|done]. split; try done. cbn [t_pos]. lia.
  - rewrite bind_flat. replace (2 * t_pos t + 2) with (2 * (t_pos t + 1)) by lia.
    destruct (cell_cursor_run d (t_cells t) (t_pos t) c a (t_pos t + 1)) as (d' & E & S & U); [apply HC|done|done|lia|lia|lia|].
    exists d'. by split.
Qed.

(** Past the last cell: the error control *)
Lemma print_char_off d c col row attr t : vga_shows d t → 0 ≤ col < 80 → row = 25 → ∃ d',
  print_char c col row attr d = Ret (2 * (2000 + col)) d' ∧
  d' = with_vidmem (<[3999%nat := 244]> (<[3998%nat := 69]> (vidmem d))) (with_uart (uart d ++ serial [c]) d) ∧
  vga_shows d' (Term (<[1999%nat := 69]> (t_cells t)) (t_pos t)).
Proof.
  intros [Hm HK Hcur Hpos HC] Hcol ->. unfold print_char. rewrite char_serial.
  replace ((MAX_COLS <=? col) || (MAX_ROWS <=? 25)) with true by (unfold MAX_ROWS; symmetry; apply orb_true_r).
  set (d1 := with_uart (uart d ++ serial [c]) d). assert (length (vidmem d1) = 4000%nat) as L by apply HC.
  rewrite (kbind_ret _ _ _ _ _ (vid_store_run d1 3998 69 L ltac:(lia))).
  rewrite (kbind_ret _ _ _ _ _ (vid_store_run (with_vidmem (<[Z.to_nat 3998 := u8 69]> (vidmem d1)) d1) 3999 RED_ON_WHITE ltac:(cbn; by rewrite length_insert) ltac:(lia))).
  eexists. split; [unfold kret; rewrite offset_of by lia; f_equal; lia|]. split; [done|].
  split; try done. cbn [vidmem with_vidmem t_cells]. exact (cells_store _ _ 1999 69 244 HC ltac:(lia)).
Qed.

Lemma print_char_vga_any d t c : vga_shows d t → 0 < c < 256 → ∃ d',
  print_char c (t_pos t mod 80) (t_pos t / 80) GREEN_ON_BLACK d = Ret (2 * t_pos (v_putc t c)) d' ∧ vga_shows d' (v_putc t c) ∧ uart d' = uart d ++ serial [c].
Proof.
  intros S Hc. pose proof (vs_pos _ _ S). destruct (decide (t_pos t < 2000)) as [Hlt|Hge].
  - pose proof (pos_split (t_pos t) ltac:(lia)) as (P1 & P2 & P3).
    rewrite (print_char_on d c _ _ _ (2 * t_pos t)), (vs_mode _ _ S); [|lia|lia|apply offset_back; lia|done].
    destruct (print_char_vga_run (with_uart (uart d ++ serial [c]) d) t c GREEN_ON_BLACK) as (d' & E & S' & U); [by destruct S; split|done|done|].
    exists d'. by rewrite U.
  - assert (t_pos t = 2000) as E by lia.
    destruct (print_char_off d c (t_pos t mod 80) (t_pos t / 80) GREEN_ON_BLACK t S) as (d' & E' & Ed & S'); [rewrite E; done|by rewrite E|].
    exists d'. unfold v_putc. replace (2000 <=? t_pos t) with true by (symmetry; apply Z.leb_le; lia). split; [|split; [done|by rewrite Ed]].
    rewrite E'. f_equal. cbn [t_pos]. by rewrite E.
Qed.

Lemma vga_print_loop_run msg rest : ∀ d t, vga_shows d t → Forall (λ c, 0 < c < 256) msg → ∃ d',
  print_loop (msg ++ 0 :: rest) (t_pos t mod 80) (t_pos t / 80) d = Ret tt d' ∧ vga_shows d' (v_puts t msg) ∧
  uart d' = uart d ++ serial msg.
Proof.
  induction msg as [|c msg IH]; intros d t S F.
  { exists d. cbn. by rewrite app_nil_r. }
  inversion_clear F as [|? ? Hc F']. cbn [app print_loop]. replace (c =? 0) with false by (symmetry; apply Z.eqb_neq; lia).
  destruct (print_char_vga_any d t c S Hc) as (d1 & E1 & S1 & U1). rewrite (kbind_ret _ _ _ _ _ E1).
  pose proof (vs_pos _ _ S1). rewrite offset_row, offset_col by lia.
  destruct (IH d1 (v_putc t c) S1 F') as (d' & E & S' & U). exists d'. split; [exact E|]. split; [exact S'|].
  rewrite U, U1, (serial_cons c msg). by rewrite app_assoc.
Qed.

Lemma vga_kprint_run d t msg rest : vga_shows d t → Forall (λ c, 0 < c < 256) msg → ∃ d',
  kprint (msg ++ 0 :: rest) d = Ret tt d' ∧ vga_shows d' (v_puts t msg) ∧ uart d' = uart d ++ serial msg.
Proof.
  intros S F. unfold kprint, kprint_at. change ((0 <=? -1) && (0 <=? -1)) with false. cbn iota.
  rewrite (kbind_ret _ _ _ _ _ (get_cursor_run d (vs_crtc _ _ S))), (vs_cursor _ _ S).
  pose proof (vs_pos _ _ S). rewrite offset_row, offset_col by lia.
  apply (vga_print_loop_run _ rest (with_crtc 15 (crtc_high d) (crtc_low d) d) t); [by destruct S; split|done].
Qed.

(** ** Rubbing out, clearing and moving the cursor *)

(** At the top left corner the column is -1, and the cursor decides. *)
Lemma print_char_corner d c attr : crtc_ok d → cursor d = 0 → attr ≠ 0 →
  print_char c (-1) 0 attr d = match screen_mode d with
    | SCREEN_MODE_FB_TEXT => print_char_fb c 0 (with_crtc 15 (crtc_high d) (crtc_low d) (with_uart (uart d ++ serial [c]) d))
    | SCREEN_MODE_VGA_TEXT => print_char_vga c 0 attr (with_crtc 15 (crtc_high d) (crtc_low d) (with_uart (uart d ++ serial [c]) d)) end.
Proof.
  intros HK Hc Ha. unfold print_char. rewrite char_serial. unfold MAX_COLS, MAX_ROWS. zbool.
  rewrite (kbind_ret _ _ _ _ _ (get_cursor_run (with_uart (uart d ++ serial [c]) d) HK)), (kbind_ret kget _ _ _ _ eq_refl).
  replace (2 * cursor (with_uart (uart d ++ serial [c]) d)) with 0 by (change (cursor (with_uart (uart d ++ serial [c]) d)) with (cursor d); lia).
  cbn. by destruct (screen_mode d).
Qed.

Lemma vga_backspace_run d t : vga_shows d t → ∃ d', kprint_backspace d = Ret tt d' ∧
  vga_shows d' (v_putc (Term (t_cells t) (Z.max 0 (t_pos t - 1))) 8) ∧ uart d' = uart d ++ [8; 32; 8].
Proof.
  intros S. pose proof (vs_pos _ _ S) as HP. unfold kprint_backspace.
  rewrite (kbind_ret _ _ _ _ _ (get_cursor_run d (vs_crtc _ _ S))), (vs_cursor _ _ S). cbn zeta.
  set (d1 := with_crtc 15 (crtc_high d) (crtc_low d) d). set (p := Z.max 0 (t_pos t - 1)).
  assert (∃ d2, print_char 8 (get_offset_col (2 * t_pos t - 2)) (get_offset_row (2 * t_pos t - 2)) WHITE_ON_BLACK d1 = Ret (2 * p) d2 ∧
    vga_shows d2 (v_putc (Term (t_cells t) p) 8) ∧ uart d2 = uart d ++ [8]) as (d2 & E2 & S2 & U2).
  { set (d3 := with_uart (uart d ++ [8]) d1).
    destruct (cell_cursor_run d3 (t_cells t) p 32 WHITE_ON_BLACK p) as (d2 & E & S2 & U); [apply S|apply S|apply S|lia|lia|lia|].
    exists d2. split; [|split; [|done]].
    2: { unfold v_putc. cbn [t_pos t_cells]. by replace (2000 <=? p) with false by (symmetry; apply Z.leb_gt; lia). }
    transitivity (print_char_vga 8 (2 * p) WHITE_ON_BLACK d3).
    2: { unfold print_char_vga. change (MAX_ROWS * MAX_COLS * 2) with 4000. replace (4000 <=? 2 * p) with false by (symmetry; apply Z.leb_gt; lia).
         rewrite (kbind_ret (kret (2 * p)) _ d3 (2 * p) d3 eq_refl). change (8 =? 10) with false. change (8 =? 8) with true. cbn iota. by rewrite bind_flat. }
    destruct (decide (t_pos t = 0)) as [E0|].
    - unfold p. rewrite E0. change (get_offset_col (2 * 0 - 2)) with (-1). change (get_offset_row (2 * 0 - 2)) with 0.
      rewrite print_char_corner; [|apply S|change (cursor d1) with (cursor d); rewrite (vs_cursor _ _ S); done|done].
      change (screen_mode d1) with (screen_mode d). by rewrite (vs_mode _ _ S).
    - replace (2 * t_pos t - 2) with (2 * p) by lia. rewrite offset_row, offset_col by lia. destruct (pos_split p) as (P1 & P2 & P3); [lia|].
      rewrite (print_char_on d1 8 _ _ _ (2 * p)); [|lia|lia|apply offset_back; lia|done]. change (screen_mode d1) with (screen_mode d). by rewrite (vs_mode _ _ S). }
  rewrite (kbind_ret _ _ _ _ _ E2). eexists. split; [done|]. cbn [uart with_uart]. rewrite U2. split; [by destruct S2; split|by rewrite <-!app_assoc].
Qed.

Lemma fb_backspace_any d t : fb_shows d t → ∃ d', kprint_backspace d = Ret tt d' ∧
  fb_shows d' (t_putc (Term (t_cells t) (Z.max 0 (t_pos t - 1))) 8) ∧ uart d' = uart d ++ [8; 32; 8] ∧ vidmem d' = vidmem d.
Proof.
  intros S. pose proof (fp_pos _ _ (fs_pic _ _ S)) as HP. unfold kprint_backspace.
  rewrite (kbind_ret _ _ _ _ _ (get_cursor_run d (fs_crtc _ _ S))), (fs_cursor _ _ S). cbn zeta.
  set (d1 := with_crtc 15 (crtc_high d) (crtc_low d) d). set (p := Z.max 0 (t_pos t - 1)). set (t1 := Term (t_cells t) p).
  set (d3 := with_uart (uart d ++ [8]) d1).
  assert (fb_pic d3 t1) as S1 by (destruct S as [[]]; split; try done; unfold t1; cbn [t_pos]; lia).
  destruct (print_char_fb_run d3 t1 8 S1) as (d2 & E2 & S2 & Q1 & Q2 & Q3 & Q4); [done|].
  rewrite (kbind_ret _ _ d1 (2 * t_pos (t_putc t1 8)) d2).
  - eexists. split; [done|]. cbn [uart with_uart vidmem]. rewrite Q3, Q2. split; [destruct S2 as [[] ? ?]; split; [by split|done|done]|]. split; [unfold d3; cbn [uart with_uart]; by rewrite <-!app_assoc|done].
  - rewrite <-E2. unfold t1 at 1. cbn [t_pos]. destruct (decide (t_pos t = 0)) as [E0|].
    + unfold p. rewrite E0. change (get_offset_col (2 * 0 - 2)) with (-1). change (get_offset_row (2 * 0 - 2)) with 0.
      rewrite print_char_corner; [|apply S|change (cursor d1) with (cursor d); rewrite (fs_cursor _ _ S); done|done].
      change (screen_mode d1) with (screen_mode d). by rewrite (fp_mode _ _ (fs_pic _ _ S)).
    + replace (2 * t_pos t - 2) with (2 * p) by lia. rewrite offset_row, offset_col by lia. destruct (pos_split p) as (P1 & P2 & P3); [lia|].
      rewrite (print_char_on d1 8 _ _ _ (2 * p)); [|lia|lia|apply offset_back; lia|done]. change (screen_mode d1) with (screen_mode d). by rewrite (fp_mode _ _ (fs_pic _ _ S)).
Qed.

Lemma uart_string_run s tail : (tail = [] ∨ head tail = Some 0) → ∀ d, 0 ∉ s → uart_send_string (s ++ tail) d = Ret tt (with_uart (uart d ++ s) d).
Proof.
  intros Ht. induction s as [|c s IH]; intros d H; cbn [app uart_send_string].
  { rewrite app_nil_r. destruct Ht as [->|Ht]; [by destruct d|]. destruct tail; simplify_eq/=. by destruct d. }
  apply not_elem_of_cons in H as [Hc H]. replace (c =? 0) with false by (symmetry; apply Z.eqb_neq; lia).
  rewrite (kbind_ret _ _ d tt (with_uart (uart d ++ [c]) d) eq_refl), IH by done. cbn [uart with_uart]. by rewrite <-app_assoc.
Qed.

Lemma ansi_clear_run d : uart_send_string ansi_clear d = Ret tt (with_uart (uart d ++ ansi_clear) d).
Proof. apply (uart_string_run ansi_clear [] (or_introl eq_refl)). apply (bool_decide_unpack _). by vm_compute. Qed.

Lemma text_blank_canvas : text (λ _ _, 0) (t_cells blank).
Proof.
  split; [by unfold blank; cbn [t_cells]; rewrite length_replicate|]. intros col row x y Hc Hr Hx Hy. exists 32. rewrite glyph_blank. split; [|done].
  unfold blank. cbn [t_cells]. apply lookup_replicate. split; [done|lia].
Qed.

(** Any framebuffer contents are a picture. *)
Lemma canvas_exists fb m : geometry fb → mapped fb m → ∃ f, canvas fb m f.
Proof.
  intros G M. exists (λ x y, default 0 (m !! (pixel_at fb x y)) + 256 * default 0 (m !! (pixel_at fb x y + 1)) + 65536 * default 0 (m !! (pixel_at fb x y + 2))).
  intros x y k Hx Hy Hk. pose proof (pixel_in _ _ _ G Hx Hy). pose proof (pixel_width _ G).
  destruct (M (pixel_at fb x y)) as (v0 & E0 & V0); [lia|]. destruct (M (pixel_at fb x y + 1)) as (v1 & E1 & V1); [lia|]. destruct (M (pixel_at fb x y + 2)) as (v2 & E2 & V2); [lia|].
  rewrite E0, E1, E2. cbn [default]. unfold colour_byte. change 255 with (Z.ones 8). rewrite Z.land_ones, Z.shiftr_div_pow2 by lia.
  assert (k = 0 ∨ k = 1 ∨ k = 2) as [->|[->| ->]] by lia; cbn [Z.mul Pos.mul Z.pow Z.pow_pos Pos.iter].
  - rewrite Z.add_0_r, E0. f_equal. cbn. Z.to_euclidean_division_equations. lia.
  - rewrite E1. f_equal. cbn. Z.to_euclidean_division_equations. lia.
  - rewrite E2. f_equal. cbn. Z.to_euclidean_division_equations. lia.
Qed.

Lemma fb_clear_run d : screen_mode d = SCREEN_MODE_FB_TEXT → geometry (fb_driver d) → mapped (fb_driver d) (fb_mem d) → ∃ d',
  clear_screen d = Ret tt d' ∧ fb_shows d' blank ∧ uart d' = uart d ++ ansi_clear ∧ vidmem d' = vidmem d.
Proof.
  intros Hm G M. destruct (canvas_exists _ _ G M) as [f C]. unfold clear_screen. rewrite (kbind_ret kget _ d d d eq_refl), Hm.
  pose proof (geo_base _ G). replace (virt_addr (fb_driver d) =? 0) with false by (symmetry; apply Z.eqb_neq; lia). cbn [negb].
  destruct (clear_draws d 0 f G M C) as (m & E & Mm & Cm). rewrite (kbind_ret _ _ _ _ _ E).
  rewrite (offset_of 0 0) by lia. destruct (set_cursor_ok (with_fb_mem m d) 0) as (h & l & Es & K1 & K2); [lia|].
  rewrite (kbind_ret _ _ _ _ _ Es), ansi_clear_run. eexists. split; [done|]. split; [|done]. split; [|done|done].
  split; try done. eexists. split; [exact Cm|]. apply text_blank_canvas.
Qed.

Lemma clear_cells_run d : length (vidmem d) = 4000%nat → ∃ v,
  kfor 2000 0 (λ i, vid_store (i * 2) 32 ;;; vid_store (i * 2 + 1) WHITE_ON_BLACK) d = Ret tt (with_vidmem v d) ∧ cells_in v (t_cells blank).
Proof.
  intros L.
  destruct (kfor_inv (λ j s, ∃ v, s = with_vidmem v d ∧ length v = 4000%nat ∧ ∀ i, (i < Z.to_nat j)%nat → v !! (2 * i)%nat = Some 32)
    (λ i, vid_store (i * 2) 32 ;;; vid_store (i * 2 + 1) WHITE_ON_BLACK) 2000 0 d) as (s & E & v & -> & Lv & Hv).
  - exists (vidmem d). split; [by destruct d|]. split; [done|lia].
  - intros j s Hj (v & -> & Lv & Hv). eexists. split.
    { rewrite (kbind_ret _ _ _ _ _ (vid_store_run (with_vidmem v d) (j * 2) 32 Lv ltac:(lia))).
      exact (vid_store_run (with_vidmem (<[Z.to_nat (j * 2) := u8 32]> v) d) (j * 2 + 1) WHITE_ON_BLACK ltac:(cbn; by rewrite length_insert) ltac:(lia)). }
    eexists. split; [done|]. cbn [vidmem with_vidmem]. split; [by rewrite !length_insert|]. intros i Hi.
    rewrite list_lookup_insert_ne by lia. destruct (decide (i = Z.to_nat j)) as [->|]; [|rewrite list_lookup_insert_ne by lia; apply Hv; lia].
    replace (2 * Z.to_nat j)%nat with (Z.to_nat (j * 2)) by lia. by rewrite list_lookup_insert_eq by (rewrite Lv; lia).
  - exists v. split; [exact E|]. split; [done|]. unfold blank. cbn [t_cells]. split; [by rewrite length_replicate|].
    intros i Hi. rewrite Hv by lia. symmetry. apply lookup_replicate. by split.
Qed.

Lemma vga_clear_run d : screen_mode d = SCREEN_MODE_VGA_TEXT → length (vidmem d) = 4000%nat → ∃ d',
  clear_screen d = Ret tt d' ∧ vga_shows d' blank ∧ uart d' = uart d ++ ansi_clear.
Proof.
  intros Hm L. unfold clear_screen. rewrite (kbind_ret kget _ d d d eq_refl), Hm. unfold clear_vga.
  destruct (clear_cells_run d L) as (v & E & C). rewrite (kbind_ret _ _ _ _ _ E).
  rewrite (offset_of 0 0) by lia. destruct (set_cursor_ok (with_vidmem v d) 0) as (h & l & Es & K1 & K2); [lia|].
  rewrite (kbind_ret _ _ _ _ _ Es), ansi_clear_run. eexists. split; [done|]. split; [by split|done].
Qed.

(** The escape sequence of [set_cursor_position] fits its buffers. *)
Lemma int_to_ascii_two n b : 0 ≤ n < 100 → (3 ≤ length b)%nat → ∃ s rest, int_to_ascii n b = Some (s ++ 0 :: rest) ∧
  (0 ∉ s) ∧ (length s ≤ 2)%nat ∧ length (s ++ 0 :: rest) = length b.
Proof.
  intros Hn Hl. unfold int_to_ascii. replace (n <? 0) with false by (symmetry; apply Z.ltb_ge; lia).
  destruct (digits_loop_spec 11 n [] b 2) as (ds & E & L & F & _); [change (10 ^ Z.of_nat 2) with 100; lia|lia|lia|].
  change (Z.of_nat (length (@nil Z))) with 0 in E. cbn [app length Nat.add] in E. rewrite E. simpl.
  destruct (drop (length ds) b) as [|y rest] eqn:D; pose proof (f_equal length D) as LD; rewrite length_drop in LD; cbn [length] in LD; [lia|].
  rewrite zset_mid by done. simpl. pose proof (digits_no_nul _ F) as H0. rewrite reverse_spec by done.
  exists (rev ds), rest. split; [done|]. split; [intros H; by apply list_elem_of_In, in_rev, list_elem_of_In in H|].
  rewrite length_app, length_rev. cbn [length]. lia.
Qed.

Lemma strcat_fits s rest src r2 : 0 ∉ s → 0 ∉ src → (length src ≤ length rest)%nat →
  strcat (s ++ 0 :: rest) (src ++ 0 :: r2) = Some ((s ++ src) ++ 0 :: drop (length src) rest).
Proof.
  intros Hs Hsrc Hl. unfold strcat. rewrite (strlen_holds _ s) by (by apply holds_app). cbn.
  rewrite strcpy_loop_fits by (done || (cbn; lia)). by rewrite <-app_assoc.
Qed.

Lemma cursor_sequence_run buf0 num0 col row : length buf0 = 16%nat → length num0 = 8%nat → 0 ≤ col < 80 → 0 ≤ row < 25 →
  ∃ s rest, cursor_sequence buf0 num0 col row = Some (s ++ 0 :: rest) ∧ 0 ∉ s.
Proof.
  intros Lb Ln Hc Hr. unfold cursor_sequence. rewrite !s32_small by lia.
  assert ((0 ∉ [27; 91]) ∧ (0 ∉ [59]) ∧ (0 ∉ [72])) as (N1 & N2 & N3) by (repeat split; apply (bool_decide_unpack _); by vm_compute).
  assert (strcpy buf0 [27; 91; 0] = Some ([27; 91] ++ 0 :: drop 3 buf0)) as ->.
  { apply (strcpy_loop_fits [27; 91] [] [] buf0); [done|cbn; lia]. }
  destruct (int_to_ascii_two (row + 1) num0) as (s1 & r1 & E1 & Z1 & L1 & L1'); [lia|lia|].
  destruct (int_to_ascii_two (col + 1) (s1 ++ 0 :: r1)) as (s2 & r2 & E2 & Z2 & L2 & _); [lia|rewrite L1'; lia|].
  cbn [mbind option_bind]. rewrite E1. cbn [mbind option_bind].
  rewrite strcat_fits by (done || (rewrite length_drop; lia)). cbn [mbind option_bind].
  rewrite (strcat_fits _ _ [59] []) by (rewrite ?not_elem_of_app, ?length_drop; cbn [length]; done || lia). cbn [mbind option_bind].
  rewrite E2. cbn [mbind option_bind].
  rewrite strcat_fits by (rewrite ?not_elem_of_app, ?length_drop; cbn [length]; done || lia). cbn [mbind option_bind].
  rewrite (strcat_fits _ _ [72] []) by (rewrite ?not_elem_of_app, ?length_drop; cbn [length]; done || lia).
  eexists _, _. split; [done|]. rewrite !not_elem_of_app. done.
Qed.

Lemma set_position_run d buf0 num0 col row : length buf0 = 16%nat → length num0 = 8%nat → 0 ≤ col < 80 → 0 ≤ row < 25 →
  ∃ h l u, set_cursor_position buf0 num0 col row d = Ret tt (with_uart u (with_crtc 15 h l d)) ∧
    crtc_ok (with_crtc 15 h l d) ∧ cursor (with_crtc 15 h l d) = row * 80 + col.
Proof.
  intros Lb Ln Hc Hr. unfold set_cursor_position. rewrite offset_of by lia.
  destruct (set_cursor_ok d (row * 80 + col)) as (h & l & E & K); [lia|]. rewrite (kbind_ret _ _ _ _ _ E).
  destruct (cursor_sequence_run buf0 num0 col row Lb Ln Hc Hr) as (s & rest & Es & Hs).
  rewrite (kbind_ret _ _ _ (s ++ 0 :: rest) (with_crtc 15 h l d)) by (unfold kget_opt; by rewrite Es).
  exists h, l. eexists. split; [|exact K]. by apply (uart_string_run s (0 :: rest) (or_intror eq_refl)).
Qed.

(** ** Well-formed states *)

(** Text memory of 4000 bytes, and a terminal on the active console *)
Definition console_ok (d : display) : Prop :=
  length (vidmem d) = 4000%nat ∧ ((∃ t, fb_shows d t) ∨ ∃ t, vga_shows d t).

Inductive console_op :=
| Kprint (msg rest : list Z)
| Backspace
| Clear
| Position (buf0 num0 : list Z) (col row : Z).

Definition console_run (o : console_op) : kM display unit :=
  match o with
  | Kprint msg rest => kprint (msg ++ 0 :: rest)
  | Backspace => kprint_backspace
  | Clear => clear_screen
  | Position buf0 num0 col row => set_cursor_position buf0 num0 col row
  end.

(** The message is a C string, the position is on the screen. *)
Definition op_ok (o : console_op) : Prop :=
  match o with
  | Kprint msg rest => Forall (λ c, 0 < c < 256) msg
  | Position buf0 num0 col row => length buf0 = 16%nat ∧ length num0 = 8%nat ∧ 0 ≤ col < 80 ∧ 0 ≤ row < 25
  | _ => True
  end.

Lemma console_run_ok o d : op_ok o → console_ok d → ∃ d', console_run o d = Ret tt d' ∧ console_ok d' ∧ screen_mode d' = screen_mode d.
Proof.
  intros Ho [L [[t S]|[t S]]]; destruct o as [msg rest| | |buf0 num0 col row]; cbn [console_run op_ok] in *.
  - destruct (fb_kprint_run d t msg rest S) as (d' & E & S' & _ & V); [intros H; rewrite Forall_forall in Ho; apply Ho in H; lia|].
    exists d'. split; [done|]. split; [split; [by rewrite V|eauto]|]. by rewrite (fp_mode _ _ (fs_pic _ _ S)), (fp_mode _ _ (fs_pic _ _ S')).
  - destruct (fb_backspace_any d t S) as (d' & E & S' & _ & V). exists d'. split; [done|]. split; [split; [by rewrite V|eauto]|].
    by rewrite (fp_mode _ _ (fs_pic _ _ S)), (fp_mode _ _ (fs_pic _ _ S')).
  - destruct (fb_clear_run d) as (d' & E & S' & _ & V); [apply S..|]. exists d'. split; [done|]. split; [split; [by rewrite V|eauto]|].
    by rewrite (fp_mode _ _ (fs_pic _ _ S)), (fp_mode _ _ (fs_pic _ _ S')).
  - destruct Ho as (Lb & Ln & Hc & Hr). destruct (set_position_run d buf0 num0 col row Lb Ln Hc Hr) as (h & l & u & E & K1 & K2).
    eexists. split; [exact E|]. split; [|done]. split; [done|]. left. exists (Term (t_cells t) (row * 80 + col)).
    destruct S as [[]]. split; [split; try done; cbn [t_pos]; lia|done|done].
  - destruct (vga_kprint_run d t msg rest S Ho) as (d' & E & S' & _). exists d'. split; [done|].
    split; [split; [apply S'|eauto]|by rewrite (vs_mode _ _ S), (vs_mode _ _ S')].
  - destruct (vga_backspace_run d t S) as (d' & E & S' & _). exists d'. split; [done|].
    split; [split; [apply S'|eauto]|by rewrite (vs_mode _ _ S), (vs_mode _ _ S')].
  - destruct (vga_clear_run d) as (d' & E & S' & _); [apply S|done|]. exists d'. split; [done|].
    split; [split; [apply S'|eauto]|by rewrite (vs_mode _ _ S), (vs_mode _ _ S')].
  - destruct Ho as (Lb & Ln & Hc & Hr). destruct (set_position_run d buf0 num0 col row Lb Ln Hc Hr) as (h & l & u & E & K1 & K2).
    eexists. split; [exact E|]. split; [|done]. split; [done|]. right. exists (Term (t_cells t) (row * 80 + col)).
    destruct S. split; try done. cbn [t_pos]. lia.
Qed.

Fixpoint console_runs (os : list console_op) : kM display unit :=
  match os with [] => kret tt | o :: os => console_run o ;;; console_runs os end.

(** C39. Every sequence of console operations on either console (messages that
    are C strings, rubbing out, clearing, moving the cursor to a position of
    the screen) returns without an access outside text memory or the mapped
    framebuffer, keeps text memory at 4000 bytes, and leaves a state that shows
    some terminal of 25 rows of 80 characters with its cursor in the registers;
    the mode does not change. *)
Theorem console_type os d : Forall op_ok os → console_ok d →
  ∃ d', console_runs os d = Ret tt d' ∧ console_ok d' ∧ screen_mode d' = screen_mode d.
Proof.
  intros F. revert d. induction F as [|o os Ho F IH]; intros d H; [by exists d|].
  destruct (console_run_ok o d Ho H) as (d1 & E1 & H1 & M1). destruct (IH d1 H1) as (d2 & E2 & H2 & M2).
  exists d2. cbn [console_runs]. rewrite (kbind_ret _ _ _ _ _ E1). by rewrite M2.
Qed.

Definition vga_blank : display := Display SCREEN_MODE_VGA_TEXT (replicate 4000 32) 0 0 0 [] {| virt_addr := 0; pitch := 0; width := 0; height := 0; bpp := 0 |} ∅.

Lemma vga_blank_shows : vga_shows vga_blank blank.
Proof.
  split; [done|by repeat split|done|done|]. unfold vga_blank, blank. cbn [vidmem t_cells].
  split; [apply length_replicate|]. split; [apply length_replicate|]. intros i Hi.
  rewrite (proj2 (lookup_replicate 2000 32 32 i)) by (by split). apply lookup_replicate. split; [done|lia].
Qed.

Lemma console_type_witness : ∃ d', console_runs [Kprint (str "hi"%string) []; Backspace; Position (replicate 16 0) (replicate 8 0) 79 24; Kprint [65; 10; 66] []; Clear] vga_blank
  = Ret tt d' ∧ console_ok d' ∧ screen_mode d' = SCREEN_MODE_VGA_TEXT.
Proof.
  apply (console_type _ vga_blank).
  - repeat constructor; cbn; lia.
  - split; [apply length_replicate|]. right. exists blank. exact vga_blank_shows.
Defined.

(** The VGA text console never scrolls: once the cursor has passed the
    last cell, any non-empty message only puts a red [E] into the last cell;
    the other cells and the cursor stay as they are, although the text-memory
    branch of [print_char] has code to scroll. *)
Theorem vga_never_scrolls d t msg rest : vga_shows d t → t_pos t = 2000 → Forall (λ c, 0 < c < 256) msg → msg ≠ [] →
  ∃ d', kprint (msg ++ 0 :: rest) d = Ret tt d' ∧ vga_shows d' (Term (<[1999%nat := 69]> (t_cells t)) 2000).
Proof.
  intros S Hp F Hne. destruct (vga_kprint_run d t msg rest S F) as (d' & E & S' & _). exists d'. split; [done|].
  assert (∀ m c, v_puts (Term c 2000) m = if decide (m = []) then Term c 2000 else Term (<[1999%nat := 69]> c) 2000) as H.
  { induction m as [|x m IH]; intros c; [done|]. unfold v_puts. cbn [fold_left]. unfold v_putc at 2. cbn [t_pos t_cells]. change (2000 <=? 2000) with true. cbn iota.
    fold (v_puts (Term (<[1999%nat := 69]> c) 2000) m). rewrite IH, (decide_False (P := x :: m = [])) by done. destruct (decide (m = [])); [done|]. by rewrite list_insert_insert_eq. }
  destruct t as [cells pos]. cbn [t_pos] in Hp. subst pos. rewrite H, decide_False in S' by done. exact S'.
Qed.

Definition vga_full : display := with_crtc 15 7 208 vga_blank.

Lemma vga_never_scrolls_witness : ∃ d', kprint (str "more"%string ++ [0]) vga_full = Ret tt d' ∧
  vga_shows d' (Term (<[1999%nat := 69]> (t_cells blank)) 2000).
Proof.
  apply (vga_never_scrolls vga_full (Term (t_cells blank) 2000) (str "more"%string) []); [|done|repeat constructor|done].
  split; [done|by repeat split|done|done|exact (vs_cells _ _ vga_blank_shows)].
Defined.

(** ** From the boot information to text on the framebuffer *)

Definition driver_of (info : boot_framebuffer_info_t) : framebuffer_driver_t :=
  {| virt_addr := FB_VIRT_BASE + Z.land (fi_addr info) 4095; pitch := fi_pitch info; width := fi_width info;
     height := fi_height info; bpp := fi_bpp info |}.

Definition banner : list Z := str "[DRIVER] Screen (Framebuffer) initialized."%string ++ [10].

Fixpoint print_all (msgs : list (list Z)) : kM display unit :=
  match msgs with [] => kret tt | m :: msgs => kprint (m ++ [0]) ;;; print_all msgs end.

Lemma serial_app a b : serial (a ++ b) = serial a ++ serial b.
Proof. unfold serial. apply bind_app. Qed.

Lemma t_puts_app t a b : t_puts t (a ++ b) = t_puts (t_puts t a) b.
Proof. apply fold_left_app. Qed.

Lemma print_all_run msgs : ∀ d t, fb_shows d t → Forall (λ m, 0 ∉ m) msgs →
  ∃ d', print_all msgs d = Ret tt d' ∧ fb_shows d' (t_puts t (concat msgs)) ∧ uart d' = uart d ++ serial (concat msgs).
Proof.
  induction msgs as [|m msgs IH]; intros d t S F; [exists d; cbn; by rewrite app_nil_r|].
  inversion_clear F as [|? ? Hm F']. destruct (fb_kprint_run d t m [] S Hm) as (d1 & E1 & S1 & U1 & _).
  destruct (IH d1 _ S1 F') as (d2 & E2 & S2 & U2). exists d2. cbn [print_all]. rewrite (kbind_ret _ _ _ _ _ E1).
  split; [done|]. cbn [concat]. rewrite t_puts_app. split; [exact S2|]. rewrite U2, U1, serial_app. by rewrite app_assoc.
Qed.

Lemma fb_init_run info d : fi_present info ≠ 0 → fi_type info = 1 → geometry (driver_of info) → mapped (driver_of info) (fb_mem d) →
  ∃ d', screen_driver_init info d = Ret tt d' ∧ fb_shows d' (t_puts blank banner) ∧ uart d' = uart d ++ ansi_clear ++ serial banner.
Proof.
  intros Hp Ht G M. unfold screen_driver_init. replace (fi_present info =? 0) with false by (symmetry; by apply Z.eqb_neq). cbn [negb].
  set (d1 := with_fb_driver (driver_of info) d).
  assert (fb_init_from_bootinfo info d = Ret 0 d1) as Ei.
  { unfold fb_init_from_bootinfo. replace (fi_present info =? 0) with false by (symmetry; by apply Z.eqb_neq). rewrite Ht. cbn [negb Z.eqb Pos.eqb].
    pose proof (geo_bpp _ G) as Hb. cbn [driver_of bpp] in Hb. replace (negb (fi_bpp info =? 24) && negb (fi_bpp info =? 32)) with false by (destruct Hb as [-> | ->]; done).
    unfold d1, driver_of. rewrite u32_small; [done|]. change 4095 with (Z.ones 12). rewrite Z.land_ones by lia. pose proof (Z.mod_pos_bound (fi_addr info) (2 ^ 12) ltac:(lia)). cbn in *. lia. }
  rewrite (kbind_ret _ _ d true d1) by (by rewrite (kbind_ret _ _ _ _ _ Ei)).
  rewrite (kbind_ret _ _ d1 tt (with_mode SCREEN_MODE_FB_TEXT d1) eq_refl).
  destruct (fb_clear_run (with_mode SCREEN_MODE_FB_TEXT d1)) as (d2 & E2 & S2 & U2 & _); [done|exact G|exact M|].
  rewrite (kbind_ret _ _ _ _ _ E2).
  destruct (fb_kprint_run d2 blank banner [] S2) as (d3 & E3 & S3 & U3 & _); [apply (bool_decide_unpack _); by vm_compute|].
  exists d3. split; [|split; [done|rewrite U3, U2; cbn [uart with_mode]; by rewrite <-app_assoc]].
  exact E3.
Qed.

(** C5. The framebuffer console refines a terminal: when the boot information
    describes a mapped 24 or 32 bit framebuffer of at least 640 by 400 pixels,
    initialising the screen and printing any messages returns in a state whose
    pixels are, cell by cell, the green glyphs of the terminal that received
    the start-up line and the messages one character at a time (new lines,
    rubbing out and scrolling included), with its position in the cursor
    registers; the serial line received the same text, each new line preceded
    by a carriage return. *)
Theorem fb_console_refines info d msgs : fi_present info ≠ 0 → fi_type info = 1 → geometry (driver_of info) → mapped (driver_of info) (fb_mem d) →
  Forall (λ m, 0 ∉ m) msgs →
  ∃ d', (screen_driver_init info ;;; print_all msgs) d = Ret tt d' ∧
    fb_shows d' (t_puts blank (banner ++ concat msgs)) ∧
    uart d' = uart d ++ ansi_clear ++ serial (banner ++ concat msgs).
Proof.
  intros Hp Ht G M F. destruct (fb_init_run info d Hp Ht G M) as (d1 & E1 & S1 & U1).
  destruct (print_all_run msgs d1 _ S1 F) as (d2 & E2 & S2 & U2). exists d2. rewrite (kbind_ret _ _ _ _ _ E1). split; [done|].
  rewrite t_puts_app. split; [exact S2|]. by rewrite U2, U1, serial_app, <-!app_assoc.
Qed.

Definition vga_mode_12h : boot_framebuffer_info_t :=
  {| fi_present := 1; fi_type := 1; fi_bpp := 32; fi_width := 640; fi_height := 480; fi_pitch := 2560; fi_addr := 4244635648 |}.
Definition fb_zeroed : gmap Z Z := gset_to_gmap 0 (list_to_set (seqZ FB_VIRT_BASE 1228800)).

Lemma fb_zeroed_mapped : mapped (driver_of vga_mode_12h) fb_zeroed.
Proof.
  intros a Ha. exists 0. split; [|lia]. unfold fb_zeroed. apply lookup_gset_to_gmap_Some. split; [|done].
  apply elem_of_list_to_set, elem_of_seqZ. exact Ha.
Qed.

Lemma fb_console_refines_witness : ∃ d', (screen_driver_init vga_mode_12h ;;; print_all [str "curls64"%string; [10; 62; 32]]) (with_fb_mem fb_zeroed vga_blank) = Ret tt d' ∧
  fb_shows d' (t_puts blank (banner ++ concat [str "curls64"%string; [10; 62; 32]])) ∧
  uart d' = ansi_clear ++ serial (banner ++ concat [str "curls64"%string; [10; 62; 32]]).
Proof.
  apply (fb_console_refines vga_mode_12h (with_fb_mem fb_zeroed vga_blank) [str "curls64"%string; [10; 62; 32]]); [done|done| |exact fb_zeroed_mapped|].
  - split; [done|by right|done..].
  - repeat (constructor; [apply (bool_decide_unpack _); vm_compute; done|]). constructor.
Defined.
