(* ===== verification/Console.v ===== *)
(** * Messages of the kernel

    Many parts of the kernel report on the console through [kprint],
    [int_to_ascii] and [hex_to_ascii].  Here a component has a state of its own
    beside the [display]; [says] states what a computation prints, as the text
    that reaches the serial line, on both consoles. *)

From stdpp Require Import base numbers list strings.
From Stdlib Require Import ZArith Lia.
From S2P Require Import Prelude CString Display DisplayInv.

#[local] Open Scope Z_scope.
#[local] Open Scope kernel_scope.

Definition on_console {X A} (m : kM display A) : kM (X * display) A := λ s,
  match m s.2 with
  | Ret a d => Ret a (s.1, d)
  | Hang d => Hang (s.1, d)
  | Panic d => Panic (s.1, d)
  | Fault => Fault
  | NoFuel => NoFuel
  end.
Definition own {X A} (m : kM X A) : kM (X * display) A := λ s,
  match m s.1 with
  | Ret a x => Ret a (x, s.2)
  | Hang x => Hang (x, s.2)
  | Panic x => Panic (x, s.2)
  | Fault => Fault
  | NoFuel => NoFuel
  end.

(** [kprint] of a literal, of a C array, and of a number in a local array *)
Definition say {X} (msg : list Z) : kM (X * display) unit := on_console (kprint (msg ++ [0])).
Definition say_buf {X} (b : list Z) : kM (X * display) unit := on_console (kprint b).
Definition say_dec {X} (n : Z) (buf : list Z) : kM (X * display) unit :=
  let* b := kget_opt (λ _, int_to_ascii n buf) in say_buf b.
Definition say_hex {X} (n : Z) (buf : list Z) : kM (X * display) unit :=
  let* b := kget_opt (λ _, hex_to_ascii n buf) in say_buf b.

Definition printable (t : list Z) : Prop := Forall (λ c, 0 < c < 256) t.

(** From [x] the computation returns [a] with [x'], and prints [t]. *)
Definition says {X A} (m : kM (X * display) A) (x : X) (a : A) (x' : X) (t : list Z) : Prop :=
  ∀ d, console_ok d → ∃ d', m (x, d) = Ret a (x', d') ∧ console_ok d' ∧ uart d' = uart d ++ serial t.

Section says.
Context {X : Type}.
Implicit Types x : X.

Lemma says_ret {A} (a : A) x : says (kret a) x a x [].
Proof. intros d H. exists d. split; [done|]. split; [done|]. by rewrite app_nil_r. Qed.
Lemma says_bind {A B} (m : kM (X * display) A) (k : A → kM (X * display) B) x a x1 t1 b x2 t2 :
  says m x a x1 t1 → says (k a) x1 b x2 t2 → says (kbind m k) x b x2 (t1 ++ t2).
Proof.
  intros Hm Hk d H. destruct (Hm d H) as (d1 & E1 & H1 & U1). destruct (Hk d1 H1) as (d2 & E2 & H2 & U2).
  exists d2. split; [by rewrite (kbind_ret _ _ _ _ _ E1)|]. split; [done|]. by rewrite U2, U1, serial_app, app_assoc.
Qed.
Lemma says_opt {A B} (f : X * display → option A) (k : A → kM (X * display) B) x a b x2 t :
  (∀ d, f (x, d) = Some a) → says (k a) x b x2 t → says (kbind (kget_opt f) k) x b x2 t.
Proof. intros E Hk d H. destruct (Hk d H) as (d' & Ek & ?). exists d'. split; [|done]. unfold kbind, kget_opt. by rewrite E. Qed.
Lemma says_own {A} (m : kM X A) x a x' : m x = Ret a x' → says (own m) x a x' [].
Proof. intros E d H. exists d. unfold own. cbn [fst snd]. rewrite E. split; [done|]. split; [done|]. by rewrite app_nil_r. Qed.
Lemma says_get {A} (k : X * display → kM (X * display) A) x a x' t : (∀ d, says (k (x, d)) x a x' t) → says (kbind kget k) x a x' t.
Proof. intros Hk d H. destruct (Hk d d H) as (d' & E & ?). exists d'. by split. Qed.

Lemma kprint_serial d msg rest : console_ok d → printable msg → ∃ d', kprint (msg ++ 0 :: rest) d = Ret tt d' ∧ console_ok d' ∧ uart d' = uart d ++ serial msg.
Proof.
  intros [L [[t S]|[t S]]] P.
  - destruct (fb_kprint_run d t msg rest S) as (d' & E & S' & U & V); [intros H; unfold printable in P; rewrite Forall_forall in P; apply P in H; lia|].
    exists d'. split; [done|]. split; [split; [by rewrite V|eauto]|done].
  - destruct (vga_kprint_run d t msg rest S P) as (d' & E & S' & U). exists d'. split; [done|]. split; [|done].
    split; [apply (vs_cells _ _ S')|eauto].
Qed.
Lemma say_buf_says x msg rest : printable msg → says (say_buf (msg ++ 0 :: rest)) x tt x msg.
Proof. intros P d H. destruct (kprint_serial d msg rest H P) as (d' & E & H' & U). exists d'. unfold say_buf, on_console. cbn [fst snd]. by rewrite E. Qed.
Lemma say_says x msg : printable msg → says (say msg) x tt x msg.
Proof. apply say_buf_says. Qed.

(** A number in decimal, and in hexadecimal after [0x] *)
Definition dec_text (n : Z) (t : list Z) : Prop := printable t ∧ atoi t = n.
Definition hex_text (n : Z) (t : list Z) : Prop := ∃ ds, t = str "0x" ++ ds ∧ printable ds ∧ hex_value ds = n.

Lemma say_dec_says x n buf : -2147483648 < n < 2147483648 → (12 ≤ length buf)%nat → ∃ t, says (say_dec n buf) x tt x t ∧ dec_text n t.
Proof.
  intros Hn Hl. destruct (int_to_ascii_run n buf Hn Hl) as (b & t & E & _ & [_ [rest ->]] & F & V).
  assert (printable t) as P by (eapply Forall_impl; [exact F|]; intros c H; cbn in H; lia).
  exists t. split; [|by split]. apply (says_opt _ _ _ (t ++ 0 :: rest)); [done|]. by apply say_buf_says.
Qed.
Lemma say_small_says x n buf (k : nat) : Z.abs n < 10 ^ Z.of_nat k → (1 ≤ k ≤ 9)%nat → (k + 2 ≤ length buf)%nat → ∃ t, says (say_dec n buf) x tt x t ∧ dec_text n t.
Proof.
  intros Hn Hk Hl. assert (10 ^ Z.of_nat k ≤ 10 ^ 9) by (apply Z.pow_le_mono_r; lia). change (10 ^ 9) with 1000000000 in *.
  destruct (int_to_ascii_fits n buf k ltac:(lia) Hn ltac:(lia) Hl) as (b & t & E & _ & [_ [rest ->]] & F & V).
  assert (printable t) as P by (eapply Forall_impl; [exact F|]; intros c H'; cbn in H'; lia).
  exists t. split; [|by split]. apply (says_opt _ _ _ (t ++ 0 :: rest)); [done|]. by apply say_buf_says.
Qed.
Lemma say_hex_says x n buf : 0 ≤ n < 4294967296 → (11 ≤ length buf)%nat → ∃ t, says (say_hex n buf) x tt x t ∧ hex_text n t.
Proof.
  intros Hn Hl. destruct buf as [|y1 [|y2 rest]]; cbn [length] in Hl; try lia. destruct (hex_digits_spec 16 n) as (L & V & F & M); [lia..|].
  rewrite Z.mod_small in V, M by (change (16 ^ Z.of_nat 16) with 18446744073709551616; lia).
  assert (length (hex_digits 16 n false) ≤ 8)%nat as L8.
  { destruct M as [M|M]; [|lia]. destruct (decide (length (hex_digits 16 n false) ≤ 8)%nat) as [H|H]; [done|]. exfalso.
    assert (16 ^ 8 ≤ 16 ^ (Z.of_nat (length (hex_digits 16 n false)) - 1)) by (apply Z.pow_le_mono_r; lia). lia. }
  pose proof (hex_to_ascii_eq n _ y1 y2 rest eq_refl) as E. cbn zeta in E. rewrite decide_True in E by lia. set (ds := hex_digits 16 n false) in *. clearbody ds.
  assert (printable ds) as P.
  { eapply Forall_impl; [exact F|]. intros c [H1 H2]. unfold hex_digit_value in H2. destruct (Z.leb_spec 97 c); lia. }
  exists (str "0x" ++ ds). split; [|by exists ds]. eapply says_opt; [intros d; exact E|]. apply say_buf_says.
  apply Forall_cons. split; [done|]. apply Forall_cons. by split.
Qed.

End says.

(** A literal is printable. *)
Ltac printable_lit := unfold printable; apply (bool_decide_unpack _); by vm_compute.
