(* ===== verification/Ktrace.v ===== *)
(** * The persistent kernel trace

    Models [ktrace/ktrace.c]: a ring of events in memory that a soft reboot keeps,
    a snapshot taken by [panic], and the replay of the last events.  The state is
    [ktrace_state] and the tick counter, beside the console.  The theorem follows
    a crash: panic, reboot, replay. *)

From stdpp Require Import base numbers list strings.
From Stdlib Require Import ZArith Lia.
From S2P Require Import Prelude CString Display DisplayInv Console.

#[local] Open Scope Z_scope.
#[local] Open Scope kernel_scope.

Definition KTRACE_MAGIC : Z := 1263817283.
Definition KTRACE_VERSION : Z := 1.
Definition KTRACE_RING_SIZE : Z := 4096.
Definition KTRACE_RING_MASK : Z := 4095.
Definition KTRACE_PANIC : Z := 99.

Record ktrace_entry := KEntry { ts : Z; cpu : Z; event_id : Z; flags : Z; args : list Z }.
Record ktrace_state := KState {
  magic : Z; version : Z;
  panic_flag : Z; panic_cpu : Z; panic_tsc : Z; head_snapshot : Z; panic_msg : list Z;
  ring_size : Z; ring_mask : Z; ring_head : Z; entries : list ktrace_entry;
}.
Record ktrace := Ktrace { kt : ktrace_state; tick : Z }.

Record event_info := EventInfo { ev_id : Z; ev_name : list Z; ev_args : list (list Z) }.
Definition event_table : list event_info :=
  [EventInfo 0 (str "NONE") [];
   EventInfo 1 (str "IRQ_ENTER") [str "irq"];
   EventInfo 2 (str "IRQ_EXIT") [str "irq"];
   EventInfo 10 (str "SCHED_SWITCH") [str "prev_pid"; str "next_pid"];
   EventInfo 11 (str "TASK_CREATE") [str "new_pid"];
   EventInfo 12 (str "TASK_EXIT") [str "pid"; str "exit_code"];
   EventInfo 20 (str "SYSCALL_ENTER") [str "syscall_num"];
   EventInfo 21 (str "SYSCALL_EXIT") [str "syscall_num"; str "ret"];
   EventInfo 30 (str "PAGE_FAULT") [str "addr"; str "error_code"];
   EventInfo 31 (str "GPF") [str "error_code"];
   EventInfo 99 (str "PANIC") []].
Fixpoint find_event_info (table : list event_info) (id : Z) : option event_info :=
  match table with [] => None | i :: table => if ev_id i =? id then Some i else find_event_info table id end.


Section ktrace.
Context (junk : nat → list Z).

Definition say_line (s : string) : kM (ktrace * display) unit := say (str s ++ [10]).
Definition say_str (s : string) : kM (ktrace * display) unit := say (str s).

(** [" name=0x..."] for every argument of the event; [i] is the argument's index *)
Fixpoint print_args (names : list (list Z)) (i : Z) (e : ktrace_entry) : kM (ktrace * display) unit :=
  match names with
  | [] => kret tt
  | n :: names =>
      if i <? 4 then
        say_str " " ;;; say n ;;; say_str "=0x" ;;;
        let* a := kget_opt (λ _, zlookup (args e) i) in
        say_hex a (junk 16) ;;; print_args names (i + 1) e
      else kret tt
  end.
Definition print_entry (e : ktrace_entry) (idx : Z) : kM (ktrace * display) unit :=
  say_str "  [" ;;; say_dec (s32 idx) (junk 16) ;;; say_str "] ts=" ;;; say_dec (s32 (ts e)) (junk 16) ;;; say_str " " ;;;
  (match find_event_info event_table (event_id e) with
   | Some info => say (ev_name info) ;;; print_args (ev_args info) 0 e
   | None => say_str "UNKNOWN(" ;;; say_dec (event_id e) (junk 16) ;;; say_str ")"
   end) ;;;
  say [10].

Definition set_kt (f : ktrace_state → ktrace_state) : kM (ktrace * display) unit := own (kmodify (λ s, Ktrace (f (kt s)) (tick s))).
Definition get_kt : kM (ktrace * display) ktrace_state := let* s := kget in kret (kt s.1).

Definition zero_entry (e : ktrace_entry) : ktrace_entry := KEntry 0 (cpu e) 0 (flags e) (args e).
Definition init_fresh : kM (ktrace * display) unit :=
  say_line "[KTRACE] Fresh boot or invalid magic. Initializing buffer." ;;;
  set_kt (λ s, KState KTRACE_MAGIC KTRACE_VERSION 0 0 0 0 (panic_msg s)
    KTRACE_RING_SIZE KTRACE_RING_MASK 0 (map zero_entry (entries s))).

Definition ktrace_init : kM (ktrace * display) unit :=
  say_line "[KTRACE] Initializing persistent tracer at 0x400000..." ;;;
  let* s := get_kt in
  say_str "  - Magic: 0x" ;;; say_hex (magic s) (junk 16) ;;;
  say_str " Flag: " ;;; say_dec (panic_flag s) (junk 16) ;;; say [10] ;;;
  (if (magic s =? KTRACE_MAGIC) && (version s =? KTRACE_VERSION) then
     if negb (panic_flag s =? 0) then
       say_line "[KTRACE] !!! CRASH DETECTED from previous boot !!!" ;;;
       let* c := kget_opt (λ _, head (panic_msg s)) in
       (if negb (c =? 0) then say_str "[KTRACE] Message: " ;;; say_buf (panic_msg s) ;;; say [10] else kret tt) ;;;
       say_line "[KTRACE] Type 'KLOG' to replay the failure trace."
     else
       say_line "[KTRACE] Valid trace buffer found (clean reboot)." ;;;
       (if negb (ring_size s =? KTRACE_RING_SIZE) then say_line "[KTRACE] Metadata mismatch, re-initializing." ;;; init_fresh else kret tt)
   else init_fresh) ;;;
  say_str "[KTRACE] Ready. Ring head: " ;;;
  let* s := get_kt in
  say_dec (s32 (ring_head s)) (junk 16) ;;; say [10].

Definition ktrace_event (id a0 a1 a2 a3 : Z) : kM ktrace unit :=
  let* s := kget in
  let k := kt s in
  let idx := Z.land (ring_head k) KTRACE_RING_MASK in
  let* es := kget_opt (λ _, zset (entries k) idx (KEntry (tick s) 0 id 0 [a0; a1; a2; a3])) in
  kput (Ktrace (KState (magic k) (version k) (panic_flag k) (panic_cpu k) (panic_tsc k) (head_snapshot k) (panic_msg k)
    (ring_size k) (ring_mask k) (u32 (ring_head k + 1)) es) (tick s)).

(** [for (i = 0; i < 127 && msg[i] != 0; i++) panic.msg[i] = msg[i]; panic.msg[i] = 0] *)
Fixpoint store_msg (n : nat) (i : Z) (msg buf : list Z) : option (list Z) :=
  match n with
  | O => zset buf i 0
  | S n =>
      match msg with
      | [] => None
      | c :: msg => if c =? 0 then zset buf i 0 else b ← zset buf i c; store_msg n (i + 1) msg b
      end
  end.
Definition ktrace_panic_snapshot (msg : option (list Z)) : kM ktrace unit :=
  ktrace_event KTRACE_PANIC 0 0 0 0 ;;;
  let* s := kget in
  let k := kt s in
  let* m := kget_opt (λ _, match msg with Some msg => store_msg 127 0 msg (panic_msg k) | None => zset (panic_msg k) 0 0 end) in
  kput (Ktrace (KState (magic k) (version k) 1 0 (tick s) (ring_head k) m (ring_size k) (ring_mask k) (ring_head k) (entries k)) (tick s)).

(** [for (i = n; i > 0; i--)] over the slots before [head] *)
Fixpoint replay_loop (n : nat) (head : Z) (es : list ktrace_entry) : kM (ktrace * display) unit :=
  match n with
  | O => kret tt
  | S m =>
      let seq := u32 (head - Z.of_nat n) in
      let* e := kget_opt (λ _, zlookup es (Z.land seq KTRACE_RING_MASK)) in
      (if negb (event_id e =? 0) then print_entry e seq else kret tt) ;;;
      replay_loop m head es
  end.
Definition clear_flag (s : ktrace_state) : ktrace_state :=
  KState (magic s) (version s) 0 (panic_cpu s) (panic_tsc s) (head_snapshot s) (panic_msg s) (ring_size s) (ring_mask s) (ring_head s) (entries s).

Definition ktrace_replay (count : Z) : kM (ktrace * display) unit :=
  let* s := get_kt in
  if (panic_flag s =? 0) && (ring_head s =? 0) then say_line "  (no crash data or events recorded)"
  else
    let head := if negb (panic_flag s =? 0) then head_snapshot s else ring_head s in
    let count := if head <? count then head else count in
    let count := if KTRACE_RING_SIZE <? count then KTRACE_RING_SIZE else count in
    say_str "--- KTRACE REPLAY (Last " ;;; say_dec (s32 count) (junk 10) ;;; say_line " events) ---" ;;;
    let* c := kget_opt (λ _, List.head (panic_msg s)) in
    (if negb (panic_flag s =? 0) && negb (c =? 0) then
       say_str "PANIC MESSAGE: " ;;; say_buf (panic_msg s) ;;; say [10] else kret tt) ;;;
    replay_loop (Z.to_nat count) head (entries s) ;;;
    (if negb (panic_flag s =? 0) then say_line "[KTRACE] Crash data consumed." ;;; set_kt clear_flag else kret tt) ;;;
    say_line "--- END OF TRACE ---".

Definition ktrace_is_active (s : ktrace_state) : bool := magic s =? KTRACE_MAGIC.

(** ** What a trace holds *)

(** [es] are the events recorded so far; the ring has the last 4096. *)
Record trace_ok (s : ktrace_state) (es : list ktrace_entry) : Prop := {
  to_magic : magic s = KTRACE_MAGIC;
  to_version : version s = KTRACE_VERSION;
  to_size : ring_size s = KTRACE_RING_SIZE;
  to_head : ring_head s = Z.of_nat (length es);
  to_entries : length (entries s) = 4096%nat;
  to_msg : length (panic_msg s) = 128%nat;
  to_ring : ∀ i, (i < length es)%nat → (length es ≤ i + 4096)%nat → entries s !! (i mod 4096)%nat = es !! i;
}.

Lemma ring_slot i : Z.land (Z.of_nat i) KTRACE_RING_MASK = Z.of_nat (i mod 4096).
Proof. unfold KTRACE_RING_MASK. change 4095 with (Z.ones 12). rewrite Z.land_ones by lia. by rewrite Nat2Z.inj_mod. Qed.

Lemma mod_same_slot i j : (i < j)%nat → (j < i + 4096)%nat → (i mod 4096)%nat ≠ (j mod 4096)%nat.
Proof. intros H1 H2 E. pose proof (Nat.div_mod_eq i 4096). pose proof (Nat.div_mod_eq j 4096). rewrite E in *. nia. Qed.

Definition event_of (t id a0 a1 a2 a3 : Z) : ktrace_entry := KEntry t 0 id 0 [a0; a1; a2; a3].

(** Recording an event *)
Lemma event_run s t es id a0 a1 a2 a3 : trace_ok s es → Z.of_nat (length es) + 1 < 4294967296 →
  ∃ s', ktrace_event id a0 a1 a2 a3 (Ktrace s t) = Ret tt (Ktrace s' t) ∧ trace_ok s' (es ++ [event_of t id a0 a1 a2 a3]) ∧
    panic_msg s' = panic_msg s ∧ panic_flag s' = panic_flag s.
Proof.
  intros [M V Sz H L Lm R] B. pose proof (Nat.mod_upper_bound (length es) 4096 ltac:(lia)) as Hs. unfold ktrace_event, kbind, kget, kget_opt, kput. cbn [kt tick].
  rewrite H, ring_slot, zset_nat by lia. eexists. split; [done|]. split; [|done].
  split; cbn [magic version ring_size ring_head entries panic_msg]; rewrite ?length_insert, ?length_app; try done.
  - rewrite u32_small by lia. cbn. lia.
  - intros i Hi Hi'. cbn [length] in *. destruct (decide (i = length es)) as [->|Hne].
    + rewrite list_lookup_insert_eq by lia. rewrite lookup_app_r, Nat.sub_diag by lia. done.
    + rewrite list_lookup_insert_ne by (intros E; symmetry in E; revert E; apply mod_same_slot; lia). rewrite lookup_app_l by lia. apply R; lia.
Qed.

(** The message, cut at 127 characters *)
Lemma store_msg_spec n : ∀ msg r pre buf, (0 ∉ msg) → (n < length buf)%nat → ∃ rest, store_msg n (Z.of_nat (length pre)) (msg ++ 0 :: r) (pre ++ buf) = Some (pre ++ take n msg ++ 0 :: rest) ∧
  length (pre ++ take n msg ++ 0 :: rest) = length (pre ++ buf).
Proof.
  induction n as [|n IH]; intros msg r pre buf N L; (destruct buf as [|y buf]; [cbn in L; lia|]); cbn [store_msg take].
  - rewrite zset_mid by done. exists buf. cbn. split; [done|]. by rewrite !length_app.
  - destruct msg as [|c msg]; cbn [app]; [change (0 =? 0) with true; cbn iota; rewrite zset_mid by done; exists buf; cbn; split; [done|by rewrite !length_app]|].
    apply not_elem_of_cons in N as [Nc N]. replace (c =? 0) with false by (symmetry; apply Z.eqb_neq; lia). rewrite zset_mid by done. cbn [mbind option_bind].
    destruct (IH msg r (pre ++ [c]) buf N ltac:(cbn in L; lia)) as (rest & E & Ll). exists rest. rewrite length_app in E. cbn [length] in E. rewrite <-!app_assoc in *. cbn [app] in *.
    replace (Z.of_nat (length pre) + 1) with (Z.of_nat (length pre + 1)) by lia. rewrite E. split; [done|]. cbn [take app]. rewrite !length_app in *. cbn [length] in *. rewrite ?length_app in *. lia.
Qed.

Definition crashed (s : ktrace_state) (es : list ktrace_entry) (msg : list Z) : Prop :=
  trace_ok s es ∧ panic_flag s = 1 ∧ head_snapshot s = ring_head s ∧ ∃ rest, panic_msg s = msg ++ 0 :: rest.
Lemma snapshot_run s t es msg r : trace_ok s es → Z.of_nat (length es) + 1 < 4294967296 → (0 ∉ msg) →
  ∃ s', ktrace_panic_snapshot (Some (msg ++ 0 :: r)) (Ktrace s t) = Ret tt (Ktrace s' t) ∧ crashed s' (es ++ [event_of t KTRACE_PANIC 0 0 0 0]) (take 127 msg).
Proof.
  intros T B N. destruct (event_run s t es KTRACE_PANIC 0 0 0 0 T B) as (s1 & E1 & T1 & Em & _).
  destruct (store_msg_spec 127 msg r [] (panic_msg s1) N) as (rest & E & L); [rewrite (to_msg _ _ T1); lia|]. cbn [app length] in E, L. change (Z.of_nat 0) with 0 in E.
  unfold ktrace_panic_snapshot. rewrite (kbind_ret _ _ _ _ _ E1). unfold kbind, kget, kget_opt, kput. cbn [kt tick]. rewrite E.
  eexists. split; [done|]. destruct T1. split; [split; cbn; try done; congruence|]. split; [done|]. split; [done|]. by exists rest.
Qed.

(** ** What is printed *)

Fixpoint args_text (names : list (list Z)) (i : Z) (e : ktrace_entry) (t : list Z) : Prop :=
  match names with
  | [] => t = []
  | n :: names => ∃ a h t', zlookup (args e) i = Some a ∧ hex_text a h ∧ args_text names (i + 1) e t' ∧ t = str " " ++ n ++ str "=0x" ++ h ++ t'
  end.
Definition event_text (e : ktrace_entry) (t : list Z) : Prop :=
  match find_event_info event_table (event_id e) with
  | Some info => ∃ a, args_text (ev_args info) 0 e a ∧ t = ev_name info ++ a
  | None => ∃ n, dec_text (event_id e) n ∧ t = str "UNKNOWN(" ++ n ++ str ")"
  end.
(** The line of the event [e], the [idx]th of the trace *)
Definition entry_text (e : ktrace_entry) (idx : Z) (t : list Z) : Prop :=
  ∃ i s ev, dec_text idx i ∧ dec_text (ts e) s ∧ event_text e ev ∧ t = str "  [" ++ i ++ str "] ts=" ++ s ++ str " " ++ ev ++ [10].
(** The lines of the events [es], numbered from [i]; slots without an event are
    passed over. *)
Fixpoint entries_text (i : nat) (es : list ktrace_entry) (t : list Z) : Prop :=
  match es with
  | [] => t = []
  | e :: es => if event_id e =? 0 then entries_text (S i) es t
               else ∃ l t', entry_text e (Z.of_nat i) l ∧ entries_text (S i) es t' ∧ t = l ++ t'
  end.

Definition entry_ok (e : ktrace_entry) : Prop :=
  0 ≤ ts e < 2147483648 ∧ 0 ≤ event_id e < 256 ∧ length (args e) = 4%nat ∧ Forall (λ a, 0 ≤ a < 4294967296) (args e).

Context (junk_size : ∀ n, length (junk n) = n).

Lemma find_event_in table id i : find_event_info table id = Some i → i ∈ table.
Proof. induction table as [|x table IH]; [done|]. cbn. destruct (_ =? _); [intros [= ->]; apply elem_of_cons; by left|]. intros H. apply elem_of_cons. right. by apply IH. Qed.
Definition info_ok (i : event_info) : Prop := Forall (λ c, 0 < c < 256) (ev_name i) ∧ Forall (Forall (λ c, 0 < c < 256)) (ev_args i) ∧ (length (ev_args i) ≤ 4)%nat.
#[local] Instance info_ok_dec i : Decision (info_ok i).
Proof. unfold info_ok. apply _. Defined.
Lemma find_event_ok id i : find_event_info event_table id = Some i → info_ok i.
Proof. intros H%find_event_in. assert (Forall info_ok event_table) as F by (apply (bool_decide_unpack _); by vm_compute). rewrite Forall_forall in F. by apply F. Qed.

Lemma print_args_says x e names : ∀ i, entry_ok e → Forall (Forall (λ c, 0 < c < 256)) names → 0 ≤ i → i + Z.of_nat (length names) ≤ 4 →
  ∃ t, says (print_args names i e) x tt x t ∧ args_text names i e t.
Proof.
  induction names as [|n names IH]; intros i He F Hi Hl; [exists []; split; [apply says_ret|done]|]. apply Forall_cons in F as [Fn F]. cbn [length print_args args_text] in *.
  replace (i <? 4) with true by (symmetry; apply Z.ltb_lt; lia). pose proof He as (_ & _ & La & Fa).
  destruct (zlookup_lt (args e) i ltac:(lia)) as (a & Ea & Ea'). pose proof (proj1 (Forall_lookup _ _) Fa _ _ Ea') as Ha. cbn in Ha.
  destruct (say_hex_says x a (junk 16) Ha ltac:(rewrite junk_size; lia)) as (h & Sh & Hh). destruct (IH (i + 1) He F ltac:(lia) ltac:(lia)) as (t' & St & Ht).
  exists (str " " ++ n ++ str "=0x" ++ h ++ t'). split; [|by exists a, h, t'].
  eapply says_bind; [apply say_says; printable_lit|]. eapply says_bind; [by apply say_says|]. eapply says_bind; [apply say_says; printable_lit|].
  apply (says_opt _ _ _ a); [done|]. eapply says_bind; [exact Sh|exact St].
Qed.

Lemma print_entry_says x e idx : entry_ok e → 0 ≤ idx < 2147483648 → ∃ t, says (print_entry e idx) x tt x t ∧ entry_text e idx t.
Proof.
  intros He Hi. pose proof He as (Ht & Hid & _). unfold print_entry. rewrite !s32_small by lia.
  destruct (say_dec_says x idx (junk 16) ltac:(lia) ltac:(rewrite junk_size; lia)) as (ti & Si & Di).
  destruct (say_dec_says x (ts e) (junk 16) ltac:(lia) ltac:(rewrite junk_size; lia)) as (tt' & Ss & Ds).
  assert (∃ ev, says (match find_event_info event_table (event_id e) with
     | Some info => say (ev_name info) ;;; print_args (ev_args info) 0 e
     | None => say_str "UNKNOWN(" ;;; say_dec (event_id e) (junk 16) ;;; say_str ")" end) x tt x ev ∧ event_text e ev) as (ev & Se & De).
  { unfold event_text. destruct (find_event_info event_table (event_id e)) as [info|] eqn:Ef.
    - destruct (find_event_ok _ _ Ef) as (Fn & Fa & Fl). destruct (print_args_says x e (ev_args info) 0 He Fa ltac:(lia) ltac:(lia)) as (a & Sa & Da).
      exists (ev_name info ++ a). split; [|by exists a]. eapply says_bind; [by apply say_says|exact Sa].
    - destruct (say_dec_says x (event_id e) (junk 16) ltac:(lia) ltac:(rewrite junk_size; lia)) as (n & Sn & Dn). eexists. split; [|by exists n].
      eapply says_bind; [apply say_says; printable_lit|]. eapply says_bind; [exact Sn|apply say_says; printable_lit]. }
  eexists. split; [|by exists ti, tt', ev].
  eapply says_bind; [apply say_says; printable_lit|]. eapply says_bind; [exact Si|]. eapply says_bind; [apply say_says; printable_lit|].
  eapply says_bind; [exact Ss|]. eapply says_bind; [apply say_says; printable_lit|]. eapply says_bind; [exact Se|apply say_says; printable_lit].
Qed.

(** The replay loop prints the last [n] events. *)
Lemma replay_loop_says x s es n : trace_ok s es → Forall entry_ok es → Z.of_nat (length es) < 2147483648 → (n ≤ length es)%nat → (n ≤ 4096)%nat →
  ∃ t, says (replay_loop n (Z.of_nat (length es)) (entries s)) x tt x t ∧ entries_text (length es - n) (drop (length es - n) es) t.
Proof.
  intros T F B. induction n as [|n IH]; intros Hn H4.
  { exists []. split; [apply says_ret|]. rewrite Nat.sub_0_r, drop_all. done. }
  destruct IH as (t' & St & Ht); [lia..|]. set (i := (length es - S n)%nat) in *. assert (i < length es)%nat as Hi by lia.
  destruct (lookup_lt_is_Some_2 es i Hi) as [e Ee]. pose proof (to_ring _ _ T i Hi ltac:(lia)) as Er. rewrite Ee in Er.
  pose proof (proj1 (Forall_lookup _ _) F i e Ee) as He.
  assert (drop i es = e :: drop (length es - n) es) as Ed by (rewrite (drop_S _ _ _ Ee); do 2 f_equal; lia). rewrite Ed. cbn [replay_loop entries_text].
  replace (u32 (Z.of_nat (length es) - Z.of_nat (S n))) with (Z.of_nat i) by (rewrite u32_small; lia).
  replace (S i) with (length es - n)%nat by lia. rewrite ring_slot.
  assert (∀ r, says r x tt x t' → ∃ t, says ((if negb (event_id e =? 0) then print_entry e (Z.of_nat i) else kret tt) ;;; r) x tt x t ∧
    (if event_id e =? 0 then entries_text (length es - n) (drop (length es - n) es) t
     else ∃ l t', entry_text e (Z.of_nat i) l ∧ entries_text (length es - n) (drop (length es - n) es) t' ∧ t = l ++ t')) as G.
  { intros r Hr. destruct (event_id e =? 0); cbn [negb].
    - exists t'. split; [|done]. exact (says_bind _ _ _ tt _ [] _ _ _ (says_ret tt x) Hr).
    - destruct (print_entry_says x e (Z.of_nat i) He ltac:(lia)) as (l & Sl & Hl). exists (l ++ t'). split; [|by exists l, t']. exact (says_bind _ _ _ _ _ _ _ _ _ Sl Hr). }
  destruct (G _ St) as (t & S & Q). exists t. split; [|done]. apply (says_opt _ _ _ e); [intros d; by rewrite zlookup_nat|exact S].
Qed.

(** ** After the reboot *)

Lemma says_kt {A} (k : ktrace_state → kM (ktrace * display) A) x a x' t : says (k (kt x)) x a x' t → says (kbind get_kt k) x a x' t.
Proof. intros H d Hd. destruct (H d Hd) as (d' & E & ?). exists d'. split; [exact E|done]. Qed.

(** The trace of a crash is kept. *)
Lemma init_says s t0 es msg : crashed s es msg → printable msg → Z.of_nat (length es) < 2147483648 →
  ∃ t, says ktrace_init (Ktrace s t0) tt (Ktrace s t0) t.
Proof.
  intros (T & Hf & Hh & rest & Hm) P B. set (x := Ktrace s t0).
  destruct (say_hex_says x (magic s) (junk 16) ltac:(rewrite (to_magic _ _ T); done) ltac:(rewrite junk_size; lia)) as (h & Sh & _).
  destruct (say_dec_says x (panic_flag s) (junk 16) ltac:(lia) ltac:(rewrite junk_size; lia)) as (f & Sf & _).
  destruct (say_dec_says x (ring_head s) (junk 16) ltac:(rewrite (to_head _ _ T); lia) ltac:(rewrite junk_size; lia)) as (r & Sr & _).
  assert (∃ c, head (panic_msg s) = Some c ∧ (c = 0 → msg = [])) as (c & Hc & Hz).
    { rewrite Hm. destruct msg as [|c msg]; [by exists 0|]. exists c. split; [done|]. intros ->. apply Forall_cons in P as [? _]. lia. }
  eexists. unfold ktrace_init. eapply says_bind; [apply say_says; printable_lit|]. apply says_kt. cbn [kt x].
  rewrite (to_magic _ _ T), (to_version _ _ T), Z.eqb_refl, Z.eqb_refl. cbn [andb]. rewrite Hf. change (negb (1 =? 0)) with true. cbn iota.
  rewrite (to_magic _ _ T) in Sh. rewrite Hf in Sf. eapply says_bind; [apply say_says; printable_lit|]. eapply says_bind; [exact Sh|]. eapply says_bind; [apply say_says; printable_lit|].
  eapply says_bind; [exact Sf|]. eapply says_bind; [apply say_says; printable_lit|]. eapply says_bind; [eapply says_bind; [apply say_says; printable_lit|]|].
  - apply (says_opt _ _ _ c); [done|]. eapply says_bind; [|apply say_says; printable_lit].
    instantiate (1 := if c =? 0 then [] else str "[KTRACE] Message: " ++ msg ++ [10]).
    destruct (c =? 0); cbn [negb]; [apply says_ret|]. eapply says_bind; [apply say_says; printable_lit|]. rewrite Hm. eapply says_bind; [by apply say_buf_says|apply say_says; printable_lit].
  - eapply says_bind; [apply say_says; printable_lit|]. apply says_kt. cbn [kt x]. rewrite s32_small by (rewrite (to_head _ _ T); lia). eapply says_bind; [exact Sr|apply say_says; printable_lit].
Qed.

(** The text of the replay of a crash: [n] is the number of events shown. *)
Definition replay_text (es : list ktrace_entry) (msg : list Z) (n : nat) (t : list Z) : Prop :=
  ∃ c body, dec_text (Z.of_nat n) c ∧ entries_text (length es - n) (drop (length es - n) es) body ∧
    t = str "--- KTRACE REPLAY (Last " ++ c ++ str " events) ---" ++ [10] ++
        (if bool_decide (msg = []) then [] else str "PANIC MESSAGE: " ++ msg ++ [10]) ++ body ++
        str "[KTRACE] Crash data consumed." ++ [10] ++ str "--- END OF TRACE ---" ++ [10].

Lemma replay_says s t0 es msg count : crashed s es msg → printable msg → Forall entry_ok es → Z.of_nat (length es) < 2147483648 → 0 ≤ count →
  let n := Nat.min (Nat.min (Z.to_nat count) (length es)) 4096 in
  ∃ t, says (ktrace_replay count) (Ktrace s t0) tt (Ktrace (clear_flag s) t0) t ∧ replay_text es msg n t.
Proof.
  intros (T & Hf & Hh & rest & Hm) P F B Hc n. set (x := Ktrace s t0). destruct (replay_loop_says x s es n T F B ltac:(lia) ltac:(lia)) as (body & Sb & Hb).
  destruct (say_small_says x (Z.of_nat n) (junk 10) 8 ltac:(change (10 ^ Z.of_nat 8) with 100000000; lia) ltac:(lia) ltac:(rewrite junk_size; lia)) as (c & Sc & Dc).
  eexists. split; [|exists c, body; split; [exact Dc|split; [exact Hb|reflexivity]]].
  unfold ktrace_replay. apply says_kt. cbn [kt x]. rewrite Hf, Hh, (to_head _ _ T). change (1 =? 0) with false. cbn [andb negb].
  set (c1 := if Z.of_nat (length es) <? count then Z.of_nat (length es) else count).
  assert ((if KTRACE_RING_SIZE <? c1 then KTRACE_RING_SIZE else c1) = Z.of_nat n) as ->.
  { unfold c1, KTRACE_RING_SIZE. destruct (Z.ltb_spec (Z.of_nat (length es)) count); [destruct (Z.ltb_spec 4096 (Z.of_nat (length es)))|destruct (Z.ltb_spec 4096 count)]; lia. }
  rewrite s32_small by lia. rewrite Nat2Z.id. eapply says_bind; [apply say_says; printable_lit|]. eapply says_bind; [exact Sc|]. rewrite !(app_assoc _ [10]).
  eapply says_bind; [apply say_says; printable_lit|].
  assert (∃ h, head (panic_msg s) = Some h ∧ (h =? 0) = bool_decide (msg = [])) as (h & Eh & Hz).
  { rewrite Hm. destruct msg as [|h msg]; [by exists 0|]. exists h. split; [done|]. apply Forall_cons in P as [? _]. rewrite bool_decide_false by done. apply Z.eqb_neq. lia. }
  apply (says_opt _ _ _ h); [done|]. rewrite Hz. eapply says_bind; [|eapply says_bind; [exact Sb|]].
  - case_bool_decide; cbn [negb]; [apply says_ret|]. eapply says_bind; [apply say_says; printable_lit|]. rewrite Hm. eapply says_bind; [by apply say_buf_says|apply say_says; printable_lit].
  - eapply says_bind; [|apply say_says; printable_lit]. rewrite <-(app_nil_r (_ ++ [10])). eapply says_bind; [apply say_says; printable_lit|]. by apply says_own.
Qed.

(** Memory that holds no trace becomes an empty one. *)
Lemma init_fresh_says s t0 : length (entries s) = 4096%nat → length (panic_msg s) = 128%nat →
  ∃ s' t, says init_fresh (Ktrace s t0) tt (Ktrace s' t0) t ∧ trace_ok s' [] ∧ panic_flag s' = 0.
Proof.
  intros L Lm. eexists _, _. split; [|split].
  - eapply says_bind; [apply say_says; printable_lit|]. by apply says_own.
  - split; try done; cbn; [by rewrite length_map|lia].
  - done.
Qed.

Lemma clear_ok s es : trace_ok s es → trace_ok (clear_flag s) es.
Proof. intros []. by split. Qed.


End ktrace.

(** A trace of one event *)
Definition demo_event : ktrace_entry := event_of 5 10 3 4 0 0.
Definition demo_trace : ktrace_state :=
  KState KTRACE_MAGIC KTRACE_VERSION 0 0 0 0 (replicate 128 0) KTRACE_RING_SIZE KTRACE_RING_MASK 1 (demo_event :: replicate 4095 (KEntry 0 0 0 0 [0; 0; 0; 0])).
Lemma demo_trace_ok : trace_ok demo_trace [demo_event].
Proof. split; try reflexivity; try (cbn [entries demo_trace length]; by rewrite length_replicate). intros [|i] H _; [reflexivity|cbn in H; lia]. Qed.

