(* ===== verification/Boot.v ===== *)
(** * Boot information

    Models [core/boot_multiboot2_64.c].  The boot loader's information structure is the
    list of its bytes; reading past it is a fault.  What the parser stores feeds
    the framebuffer driver ([Display]) and the frame allocator ([Pmm]).  The
    theorem is the round trip through the Multiboot2 layout. *)

From stdpp Require Import base numbers list strings.
From Stdlib Require Import ZArith Lia.
From S2P Require Import Prelude CString Bytes Pmm Display.

#[local] Open Scope Z_scope.
#[local] Open Scope kernel_scope.

Definition MULTIBOOT2_BOOTLOADER_MAGIC : Z := 920085129.
Definition MAX_BOOT_MMAP_ENTRIES : Z := 128.

(** [boot_fb_info], [boot_mmap_info] and what went to the serial port *)
Record boot := MkBoot {
  boot_fb_info : boot_framebuffer_info_t;
  mmap_count : Z;
  mmap_entries : list mmap_entry;
  boot_out : list Z;
}.
Definition no_fb (f : boot_framebuffer_info_t) : boot_framebuffer_info_t :=
  {| fi_present := 0; fi_type := fi_type f; fi_bpp := fi_bpp f; fi_width := fi_width f; fi_height := fi_height f; fi_pitch := fi_pitch f; fi_addr := fi_addr f |}.

(** The memory map the rest of the kernel reads *)
Definition boot_mmap (b : boot) : option (list mmap_entry) :=
  if mmap_count b <=? MAX_BOOT_MMAP_ENTRIES then Some (take (Z.to_nat (mmap_count b)) (mmap_entries b)) else None.

(** [n] bytes at [off], little endian *)
Definition field (info : list Z) (n : nat) (off : Z) : option Z :=
  if (0 <=? off) && (off + Z.of_nat n <=? Z.of_nat (length info)) then Some (rd n info off) else None.
Definition get {S} (info : list Z) (n : nat) (off : Z) : kM S Z := kget_opt (λ _, field info n off).

Definition boot_kprint (s : list Z) : kM boot unit :=
  kmodify (λ b, MkBoot (boot_fb_info b) (mmap_count b) (mmap_entries b) (boot_out b ++ (s ≫= λ c, if c =? 10 then [13; 10] else [c]))).
Definition set_fb (f : boot_framebuffer_info_t) : kM boot unit := kmodify (λ b, MkBoot f (mmap_count b) (mmap_entries b) (boot_out b)).

Definition fb_tag (info : list Z) (off : Z) : kM boot unit :=
  let* addr := get info 8 (off + 8) in
  let* pitch := get info 4 (off + 16) in
  let* width := get info 4 (off + 20) in
  let* height := get info 4 (off + 24) in
  let* bpp := get info 1 (off + 28) in
  let* type := get info 1 (off + 29) in
  set_fb {| fi_present := 1; fi_type := type; fi_bpp := bpp; fi_width := width; fi_height := height; fi_pitch := pitch; fi_addr := addr |}.

(** The entries are taken 24 bytes apart, whatever the tag's [entry_size]. *)
Fixpoint mmap_loop (n : nat) (info : list Z) (off i : Z) : kM boot unit :=
  match n with
  | O => kret tt
  | S n =>
      let at_ := off + 16 + 24 * i in
      let* addr := get info 8 at_ in
      let* len := get info 8 (at_ + 8) in
      let* type := get info 4 (at_ + 16) in
      let* b := kget in
      let* es := kget_opt (λ _, zset (mmap_entries b) i (mk_mmap addr len type)) in
      kput (MkBoot (boot_fb_info b) (u32 (mmap_count b + 1)) es (boot_out b)) ;;;
      mmap_loop n info off (i + 1)
  end.
Definition mmap_tag (info : list Z) (off : Z) : kM boot unit :=
  let* size := get info 4 (off + 4) in
  let* entry_size := get info 4 (off + 8) in
  if entry_size =? 0 then kfault
  else
    let entries := u32 (size - 16) / entry_size in
    mmap_loop (Z.to_nat (Z.min entries MAX_BOOT_MMAP_ENTRIES)) info off 0.

Fixpoint tag_loop (fuel : nat) (info : list Z) (total_size offset : Z) : kM boot unit :=
  match fuel with
  | O => λ _, NoFuel
  | S fuel =>
      if offset <? total_size then
        let* type := get info 4 offset in
        if type =? 0 then kret tt
        else
          (if type =? 8 then fb_tag info offset else kret tt) ;;;
          (if type =? 6 then mmap_tag info offset else kret tt) ;;;
          let* size := get info 4 (offset + 4) in
          let offset := u32 (offset + Z.ldiff (u32 (size + 7)) 7) in
          if (offset =? 0) || (size =? 0) then kret tt else tag_loop fuel info total_size offset
      else kret tt
  end.

(** Up to the call of [kernel_main]; [mbi] is the structure, if the pointer is
    not null. *)
Definition kernel_multiboot2_main64 (fuel : nat) (mbi : option (list Z)) (magic : Z) : kM boot unit :=
  boot_kprint (10 :: 10 :: str "*** CURLS X86_64 BOOTLOADER HANDOFF ***" ++ [10]) ;;;
  kmodify (λ b, MkBoot (no_fb (boot_fb_info b)) 0 (mmap_entries b) (boot_out b)) ;;;
  (match mbi with
   | Some info =>
       if magic =? MULTIBOOT2_BOOTLOADER_MAGIC then let* total := get info 4 0 in tag_loop fuel info total 8 else kret tt
   | None => kret tt
   end) ;;;
  boot_kprint (str "Calling kernel_main()..." ++ [10]).

(** ** The layout *)

Inductive tag : Type :=
| TagFb (f : boot_framebuffer_info_t)
| TagMmap (es : list mmap_entry)
| TagOther (type : Z) (payload : list Z).

Definition mmap_bytes (e : mmap_entry) : list Z := le_bytes 8 (mm_addr e) ++ le_bytes 8 (mm_len e) ++ le_bytes 4 (mm_type e) ++ le_bytes 4 0.
(** Type, payload *)
Definition tag_body (t : tag) : Z * list Z :=
  match t with
  | TagFb f => (8, le_bytes 8 (fi_addr f) ++ le_bytes 4 (fi_pitch f) ++ le_bytes 4 (fi_width f) ++ le_bytes 4 (fi_height f) ++ le_bytes 1 (fi_bpp f) ++ le_bytes 1 (fi_type f) ++ le_bytes 2 0)
  | TagMmap es => (6, le_bytes 4 24 ++ le_bytes 4 0 ++ concat (map mmap_bytes es))
  | TagOther ty p => (ty, p)
  end.
Definition padding (n : nat) : nat := Z.to_nat ((- Z.of_nat n) mod 8).
Definition tag_bytes (t : tag) : list Z :=
  let '(ty, p) := tag_body t in
  le_bytes 4 ty ++ le_bytes 4 (Z.of_nat (8 + length p)) ++ p ++ replicate (padding (8 + length p)) 0.
Definition tags_bytes (ts : list tag) : list Z := concat (map tag_bytes ts).
Definition end_tag : list Z := le_bytes 4 0 ++ le_bytes 4 8.
Definition boot_bytes (ts : list tag) (rest : list Z) : list Z :=
  let body := tags_bytes ts ++ end_tag in le_bytes 4 (Z.of_nat (8 + length body)) ++ le_bytes 4 0 ++ body ++ rest.

Definition u_fits (n : nat) (v : Z) : Prop := 0 ≤ v < 2 ^ (8 * Z.of_nat n).
Definition entry_fits (e : mmap_entry) : Prop := u_fits 8 (mm_addr e) ∧ u_fits 8 (mm_len e) ∧ u_fits 4 (mm_type e).
Definition tag_fits (t : tag) : Prop :=
  match t with
  | TagFb f => fi_present f = 1 ∧ u_fits 8 (fi_addr f) ∧ u_fits 4 (fi_pitch f) ∧ u_fits 4 (fi_width f) ∧ u_fits 4 (fi_height f) ∧ u_fits 1 (fi_bpp f) ∧ u_fits 1 (fi_type f)
  | TagMmap es => Forall entry_fits es ∧ (length es ≤ 128)%nat
  | TagOther ty p => u_fits 4 ty ∧ ty ≠ 0 ∧ ty ≠ 6 ∧ ty ≠ 8
  end.
(** What the tags say: the last framebuffer, the memory map *)
Definition tags_fb (f0 : boot_framebuffer_info_t) (ts : list tag) : boot_framebuffer_info_t :=
  foldl (λ f t, match t with TagFb g => g | _ => f end) f0 ts.
Definition tags_mmap (ts : list tag) : list mmap_entry := ts ≫= λ t, match t with TagMmap es => es | _ => [] end.
Fixpoint mmap_tags (ts : list tag) : nat :=
  match ts with [] => O | TagMmap _ :: ts => S (mmap_tags ts) | _ :: ts => mmap_tags ts end.

(** ** Reading the layout *)

Lemma field_at info n off v pre post : info = pre ++ le_bytes n v ++ post → off = Z.of_nat (length pre) → u_fits n v → field info n off = Some v.
Proof.
  intros -> -> F. unfold field. rewrite !length_app, le_bytes_length. replace (_ && _) with true by (symmetry; apply andb_true_iff; rewrite !Z.leb_le; lia).
  f_equal. unfold rd, slice. rewrite Nat2Z.id, drop_app_length. replace n with (length (le_bytes n v)) at 1 by apply le_bytes_length. rewrite take_app_length, le_val_bytes. by apply Z.mod_small.
Qed.
Lemma get_run {S A} info n off v pre post (k : Z → kM S A) s : info = pre ++ le_bytes n v ++ post → off = Z.of_nat (length pre) → u_fits n v → kbind (get info n off) k s = k v s.
Proof. intros E1 E2 F. unfold get, kget_opt, kbind. by rewrite (field_at info n off v pre post E1 E2 F). Qed.

Lemma fb_tag_run pre post f b : tag_fits (TagFb f) →
  fb_tag (pre ++ tag_bytes (TagFb f) ++ post) (Z.of_nat (length pre)) b = Ret tt (MkBoot f (mmap_count b) (mmap_entries b) (boot_out b)).
Proof.
  intros (Hp & F1 & F2 & F3 & F4 & F5 & F6). unfold tag_bytes, tag_body, fb_tag. destruct f as [p ty bp w h pi ad]. cbn [fi_present fi_type fi_bpp fi_width fi_height fi_pitch fi_addr] in *. subst p.
  set (hd := le_bytes 4 8). set (sz := le_bytes 4 _). assert (length hd = 4%nat ∧ length sz = 4%nat) as [Lh Ls] by (split; apply le_bytes_length). clearbody hd sz.
  set (pad := replicate _ 0). clearbody pad.
  rewrite (get_run _ 8 _ ad (pre ++ hd ++ sz) (le_bytes 4 pi ++ le_bytes 4 w ++ le_bytes 4 h ++ le_bytes 1 bp ++ le_bytes 1 ty ++ le_bytes 2 0 ++ pad ++ post)); [|by rewrite <-!app_assoc|rewrite !length_app, Lh, Ls; lia|done].
  rewrite (get_run _ 4 _ pi (pre ++ hd ++ sz ++ le_bytes 8 ad) (le_bytes 4 w ++ le_bytes 4 h ++ le_bytes 1 bp ++ le_bytes 1 ty ++ le_bytes 2 0 ++ pad ++ post)); [|by rewrite <-!app_assoc|rewrite !length_app, Lh, Ls, !le_bytes_length; lia|done].
  rewrite (get_run _ 4 _ w (pre ++ hd ++ sz ++ le_bytes 8 ad ++ le_bytes 4 pi) (le_bytes 4 h ++ le_bytes 1 bp ++ le_bytes 1 ty ++ le_bytes 2 0 ++ pad ++ post)); [|by rewrite <-!app_assoc|rewrite !length_app, Lh, Ls, !le_bytes_length; lia|done].
  rewrite (get_run _ 4 _ h (pre ++ hd ++ sz ++ le_bytes 8 ad ++ le_bytes 4 pi ++ le_bytes 4 w) (le_bytes 1 bp ++ le_bytes 1 ty ++ le_bytes 2 0 ++ pad ++ post)); [|by rewrite <-!app_assoc|rewrite !length_app, Lh, Ls, !le_bytes_length; lia|done].
  rewrite (get_run _ 1 _ bp (pre ++ hd ++ sz ++ le_bytes 8 ad ++ le_bytes 4 pi ++ le_bytes 4 w ++ le_bytes 4 h) (le_bytes 1 ty ++ le_bytes 2 0 ++ pad ++ post)); [|by rewrite <-!app_assoc|rewrite !length_app, Lh, Ls, !le_bytes_length; lia|done].
  rewrite (get_run _ 1 _ ty (pre ++ hd ++ sz ++ le_bytes 8 ad ++ le_bytes 4 pi ++ le_bytes 4 w ++ le_bytes 4 h ++ le_bytes 1 bp) (le_bytes 2 0 ++ pad ++ post)); [|by rewrite <-!app_assoc|rewrite !length_app, Lh, Ls, !le_bytes_length; lia|done].
  done.
Qed.

(** The entries [es], the first stored at index [i] *)
Lemma mmap_loop_run info off es : ∀ i pre post b, Forall entry_fits es → info = pre ++ concat (map mmap_bytes es) ++ post → off + 16 + 24 * Z.of_nat i = Z.of_nat (length pre) →
  (i + length es ≤ length (mmap_entries b))%nat → 0 ≤ mmap_count b → mmap_count b + Z.of_nat (length es) < 4294967296 →
  mmap_loop (length es) info off (Z.of_nat i) b =
    Ret tt (MkBoot (boot_fb_info b) (mmap_count b + Z.of_nat (length es)) (take i (mmap_entries b) ++ es ++ drop (i + length es) (mmap_entries b)) (boot_out b)).
Proof.
  induction es as [|e es IH]; intros i pre post b F E Eo L C0 C; cbn [length mmap_loop].
  { rewrite Z.add_0_r, Nat.add_0_r. cbn [app]. rewrite take_drop. by destruct b. }
  apply Forall_cons in F as [(F1 & F2 & F3) F]. cbn [map concat] in E. unfold mmap_bytes in E at 1. cbn [length] in *.
  rewrite (get_run info 8 _ (mm_addr e) pre (le_bytes 8 (mm_len e) ++ le_bytes 4 (mm_type e) ++ le_bytes 4 0 ++ concat (map mmap_bytes es) ++ post)); [|by rewrite E, <-!app_assoc|lia|done].
  rewrite (get_run info 8 _ (mm_len e) (pre ++ le_bytes 8 (mm_addr e)) (le_bytes 4 (mm_type e) ++ le_bytes 4 0 ++ concat (map mmap_bytes es) ++ post)); [|by rewrite E, <-!app_assoc|rewrite length_app, le_bytes_length; lia|done].
  rewrite (get_run info 4 _ (mm_type e) (pre ++ le_bytes 8 (mm_addr e) ++ le_bytes 8 (mm_len e)) (le_bytes 4 0 ++ concat (map mmap_bytes es) ++ post)); [|by rewrite E, <-!app_assoc|rewrite !length_app, !le_bytes_length; lia|done].
  unfold kbind at 1, kget. unfold kget_opt at 1, kbind at 1. rewrite zset_nat by lia. unfold kput, kbind at 1.
  replace (Z.of_nat i + 1) with (Z.of_nat (S i)) by lia. rewrite u32_small by lia. replace (mk_mmap (mm_addr e) (mm_len e) (mm_type e)) with e by (by destruct e).
  rewrite (IH (S i) (pre ++ mmap_bytes e) post); cbn [boot_fb_info mmap_count mmap_entries boot_out]; [|done|by rewrite E, <-!app_assoc|rewrite length_app; unfold mmap_bytes; rewrite !length_app, !le_bytes_length; lia|rewrite length_insert; lia|lia|lia].
  replace (mmap_count b + 1 + Z.of_nat (length es)) with (mmap_count b + Z.of_nat (S (length es))) by lia. rewrite (take_S_r _ _ e) by (apply list_lookup_insert_eq; lia). rewrite take_insert_ge, drop_insert_lt, <-app_assoc by lia. cbn [app].
  by replace (S i + length es)%nat with (i + S (length es))%nat by lia.
Qed.

Lemma mmap_bytes_length es : length (concat (map mmap_bytes es)) = (24 * length es)%nat.
Proof. induction es as [|e es IH]; [done|]. cbn [map concat length]. rewrite length_app, IH. unfold mmap_bytes. rewrite !length_app, !le_bytes_length. lia. Qed.

Lemma mmap_tag_run pre post es b : tag_fits (TagMmap es) → length (mmap_entries b) = 128%nat → 0 ≤ mmap_count b < 2147483648 →
  mmap_tag (pre ++ tag_bytes (TagMmap es) ++ post) (Z.of_nat (length pre)) b =
    Ret tt (MkBoot (boot_fb_info b) (mmap_count b + Z.of_nat (length es)) (es ++ drop (length es) (mmap_entries b)) (boot_out b)).
Proof.
  intros [F L] Le C. unfold tag_bytes, tag_body, mmap_tag. rewrite !length_app, !le_bytes_length, mmap_bytes_length.
  set (hd := le_bytes 4 6). assert (length hd = 4%nat) as Lh by apply le_bytes_length. clearbody hd. set (pad := replicate _ 0). clearbody pad. set (n := (8 + (4 + (4 + 24 * length es)))%nat).
  assert (Z.of_nat n = 16 + 24 * Z.of_nat (length es)) as En by lia.
  rewrite (get_run _ 4 _ (Z.of_nat n) (pre ++ hd) (le_bytes 4 24 ++ le_bytes 4 0 ++ concat (map mmap_bytes es) ++ pad ++ post)); [|by rewrite <-!app_assoc|rewrite length_app, Lh; lia|unfold u_fits; change (2 ^ (8 * Z.of_nat 4)) with 4294967296; lia].
  rewrite (get_run _ 4 _ 24 (pre ++ hd ++ le_bytes 4 (Z.of_nat n)) (le_bytes 4 0 ++ concat (map mmap_bytes es) ++ pad ++ post)); [|by rewrite <-!app_assoc|rewrite !length_app, Lh, le_bytes_length; lia|done].
  change (24 =? 0) with false. cbn iota. replace (u32 (Z.of_nat n - 16) / 24) with (Z.of_nat (length es)) by (rewrite u32_small by lia; rewrite En; replace (16 + 24 * Z.of_nat (length es) - 16) with (Z.of_nat (length es) * 24) by lia; by rewrite Z.div_mul).
  rewrite Z.min_l, Nat2Z.id by (unfold MAX_BOOT_MMAP_ENTRIES; lia).
  pose proof (mmap_loop_run (pre ++ (hd ++ le_bytes 4 (Z.of_nat n) ++ (le_bytes 4 24 ++ le_bytes 4 0 ++ concat (map mmap_bytes es)) ++ pad) ++ post) (Z.of_nat (length pre)) es 0
    (pre ++ hd ++ le_bytes 4 (Z.of_nat n) ++ le_bytes 4 24 ++ le_bytes 4 0) (pad ++ post) b F) as R.
  change (Z.of_nat 0) with 0 in R. cbn [take app Nat.add] in R. apply R; [by rewrite <-!app_assoc|rewrite !length_app, Lh, !le_bytes_length; lia|lia|lia|lia].
Qed.

Lemma align8 n : 0 ≤ n → Z.ldiff (n + 7) 7 = n + (- n) mod 8.
Proof. intros H. change 7 with (Z.ones 3) at 2. rewrite Z.ldiff_ones_r by lia. rewrite Z.shiftr_div_pow2, Z.shiftl_mul_pow2 by lia. change (2 ^ 3) with 8. Z.to_euclidean_division_equations. lia. Qed.

Lemma tag_bytes_length t : Z.of_nat (length (tag_bytes t)) = Z.ldiff (Z.of_nat (8 + length (tag_body t).2) + 7) 7.
Proof.
  rewrite align8 by lia. unfold tag_bytes. destruct (tag_body t) as [ty p]. cbn [snd]. rewrite !length_app, !le_bytes_length, length_replicate. unfold padding.
  pose proof (Z.mod_pos_bound (- Z.of_nat (8 + length p)) 8 ltac:(lia)). lia.
Qed.
Lemma tag_type t : tag_fits t → (tag_body t).1 ≠ 0 ∧ u_fits 4 (tag_body t).1.
Proof. destruct t as [f|es|ty p]; cbn; [done|done|]. intros (H1 & H2 & _). done. Qed.

(** The state after a tag *)
Definition after_tag (t : tag) (b : boot) : boot :=
  match t with
  | TagFb f => MkBoot f (mmap_count b) (mmap_entries b) (boot_out b)
  | TagMmap es => MkBoot (boot_fb_info b) (mmap_count b + Z.of_nat (length es)) (es ++ drop (length es) (mmap_entries b)) (boot_out b)
  | TagOther _ _ => b
  end.
Definition boot_ok (b : boot) : Prop := length (mmap_entries b) = 128%nat ∧ 0 ≤ mmap_count b.
Lemma after_tag_ok t b : tag_fits t → boot_ok b → boot_ok (after_tag t b).
Proof. intros F [L C]. destruct t as [f|es|ty p]; [done| |done]. destruct F as [_ F]. split; cbn; [rewrite length_app, length_drop; lia|lia]. Qed.
Definition mmap_room (b : boot) (ts : list tag) : Prop := mmap_count b + 128 * Z.of_nat (length ts) < 2147483648.

Lemma tag_step pre post t b : tag_fits t → boot_ok b → mmap_count b < 2147483648 →
  ((if (tag_body t).1 =? 8 then fb_tag (pre ++ tag_bytes t ++ post) (Z.of_nat (length pre)) else kret tt) ;;;
   (if (tag_body t).1 =? 6 then mmap_tag (pre ++ tag_bytes t ++ post) (Z.of_nat (length pre)) else kret tt)) b = Ret tt (after_tag t b).
Proof.
  intros F [L C] B. destruct t as [f|es|ty p]; cbn [tag_body fst].
  - change (8 =? 8) with true. change (8 =? 6) with false. cbn iota. by rewrite (kbind_ret _ _ _ _ _ (fb_tag_run pre post f b F)).
  - change (6 =? 8) with false. change (6 =? 6) with true. cbn iota. rewrite (kbind_ret (kret tt) _ b tt b eq_refl). by apply mmap_tag_run.
  - destruct F as (_ & _ & H6 & H8). replace (ty =? 8) with false by (symmetry; by apply Z.eqb_neq). replace (ty =? 6) with false by (symmetry; by apply Z.eqb_neq). done.
Qed.

Lemma tag_loop_run ts : ∀ fuel pre rest b, Forall tag_fits ts → boot_ok b → mmap_room b ts → (length ts < fuel)%nat →
  let info := pre ++ tags_bytes ts ++ end_tag ++ rest in let total := Z.of_nat (length pre + length (tags_bytes ts) + 8) in total < 4294967296 → (0 < length pre)%nat →
  tag_loop fuel info total (Z.of_nat (length pre)) b = Ret tt (foldl (λ b t, after_tag t b) b ts).
Proof.
  induction ts as [|t ts IH]; intros [|fuel] pre rest b F O R Hf info total B P; cbn [length] in Hf; try lia; cbn [tag_loop foldl].
  - replace (_ <? total) with true by (symmetry; apply Z.ltb_lt; lia). unfold info, end_tag, tags_bytes. cbn [map concat app].
    rewrite (get_run _ 4 _ 0 pre (le_bytes 4 8 ++ rest)); [|by rewrite <-!app_assoc|done|done]. done.
  - apply Forall_cons in F as [Ft F]. replace (_ <? total) with true by (symmetry; apply Z.ltb_lt; unfold total; lia).
    destruct (tag_type t Ft) as [T0 T4]. assert (info = pre ++ tag_bytes t ++ tags_bytes ts ++ end_tag ++ rest) as Ei by (unfold info, tags_bytes; cbn [map concat]; by rewrite <-!app_assoc).
    pose proof (tag_bytes_length t) as TL. set (p := (tag_body t).2) in *. set (post := tags_bytes ts ++ end_tag ++ rest) in *.
    assert (total = Z.of_nat (length pre + length (tag_bytes t) + length (tags_bytes ts) + 8)) as Et by (unfold total, tags_bytes; cbn [map concat]; rewrite length_app; lia).
    assert (Z.of_nat (8 + length p) ≤ Z.of_nat (length (tag_bytes t))) as Lp.
    { rewrite TL, align8 by lia. pose proof (Z.mod_pos_bound (- Z.of_nat (8 + length p)) 8 ltac:(lia)). lia. }
    assert (tag_bytes t = le_bytes 4 (tag_body t).1 ++ le_bytes 4 (Z.of_nat (8 + length p)) ++ p ++ replicate (padding (8 + length p)) 0) as Eb by (unfold tag_bytes, p; by destruct (tag_body t)).
    rewrite (get_run _ 4 _ (tag_body t).1 pre (le_bytes 4 (Z.of_nat (8 + length p)) ++ p ++ replicate (padding (8 + length p)) 0 ++ post)); [|rewrite Ei, Eb; by rewrite <-!app_assoc|done|done].
    replace ((tag_body t).1 =? 0) with false by (symmetry; by apply Z.eqb_neq). rewrite Ei, <-kbind_assoc.
    rewrite (kbind_ret _ _ _ _ _ (tag_step pre post t b Ft O ltac:(unfold mmap_room in R; lia))).
    rewrite (get_run _ 4 _ (Z.of_nat (8 + length p)) (pre ++ le_bytes 4 (tag_body t).1) (p ++ replicate (padding (8 + length p)) 0 ++ post)); [|rewrite Eb; by rewrite <-!app_assoc|rewrite length_app, le_bytes_length; lia|unfold u_fits; change (2 ^ (8 * Z.of_nat 4)) with 4294967296; lia].
    rewrite (u32_small (Z.of_nat (8 + length p) + 7)) by lia. rewrite <-TL, u32_small by lia.
    replace (_ || _) with false by (symmetry; apply orb_false_iff; rewrite !Z.eqb_neq; lia).
    replace (Z.of_nat (length pre) + Z.of_nat (length (tag_bytes t))) with (Z.of_nat (length (pre ++ tag_bytes t))) by (rewrite length_app; lia).
    unfold post. rewrite app_assoc, Et. replace (length pre + length (tag_bytes t) + length (tags_bytes ts) + 8)%nat with (length (pre ++ tag_bytes t) + length (tags_bytes ts) + 8)%nat by (rewrite length_app; lia).
    apply IH; [done|by apply after_tag_ok| |lia|rewrite length_app; lia|rewrite length_app; lia].
    unfold mmap_room in *. cbn [length] in R. destruct t as [f|es|ty q]; cbn [after_tag mmap_count]; [lia| |lia]. destruct Ft as [_ Ft]. lia.
Qed.

(** What the tags leave *)
Lemma after_tags ts : ∀ b, let b' := foldl (λ b t, after_tag t b) b ts in
  boot_fb_info b' = tags_fb (boot_fb_info b) ts ∧ boot_out b' = boot_out b ∧
  (mmap_tags ts = 0%nat → mmap_count b' = mmap_count b ∧ mmap_entries b' = mmap_entries b) ∧
  (mmap_tags ts = 1%nat → mmap_count b' = mmap_count b + Z.of_nat (length (tags_mmap ts)) ∧ ∃ r, mmap_entries b' = tags_mmap ts ++ r).
Proof.
  induction ts as [|t ts IH]; intros b; cbn [foldl]; [done|]. destruct (IH (after_tag t b)) as (E1 & E2 & E3 & E4). cbn zeta in *.
  unfold tags_fb, tags_mmap in *. cbn [foldl mmap_tags]. rewrite bind_cons.
  destruct t as [f|es|ty p]; cbn [after_tag boot_fb_info boot_out mmap_count mmap_entries app] in *; (split; [done|]; split; [done|]); [by split| |by split].
  split; [done|]. intros [= H0]. destruct (E3 H0) as [Ec Ee]. rewrite Ec, Ee.
  assert (ts ≫= (λ t, match t with TagMmap es => es | _ => [] end) = []) as Hn.
  { clear -H0. induction ts as [|t ts IH]; [done|]. rewrite bind_cons. destruct t; cbn in *; [by apply IH|done|by apply IH]. }
  rewrite Hn, app_nil_r. split; [done|by eexists].
Qed.

Lemma tags_mmap_none ts : mmap_tags ts = 0%nat → tags_mmap ts = [].
Proof. induction ts as [|t ts IH]; [done|]. unfold tags_mmap in *. rewrite bind_cons. destruct t; cbn; [apply IH|done|apply IH]. Qed.
Lemma tags_mmap_small ts : Forall tag_fits ts → (mmap_tags ts ≤ 1)%nat → (length (tags_mmap ts) ≤ 128)%nat.
Proof.
  induction ts as [|t ts IH]; intros F M; [cbn; lia|]. apply Forall_cons in F as [Ft F]. unfold tags_mmap in *. rewrite bind_cons, length_app.
  destruct t as [f|es|ty p]; cbn [mmap_tags length] in *; [by apply IH| |by apply IH]. rewrite tags_mmap_none by lia. destruct Ft as [_ Ft]. cbn. lia.
Qed.


Definition boot0 : boot := MkBoot {| fi_present := 0; fi_type := 0; fi_bpp := 0; fi_width := 0; fi_height := 0; fi_pitch := 0; fi_addr := 0 |} 0 (replicate 128 (mk_mmap 0 0 0)) [].
Definition demo_fb : boot_framebuffer_info_t := {| fi_present := 1; fi_type := 1; fi_bpp := 32; fi_width := 1024; fi_height := 768; fi_pitch := 4096; fi_addr := 4244635648 |}.
Definition demo_tags : list tag := [TagOther 1 (str "quiet"); TagMmap [mk_mmap 0 654336 1; mk_mmap 1048576 133169152 1]; TagFb demo_fb].

(** A tag whose size rounds up to 0 is visited for ever. *)
Lemma huge_tag_loops fuel : ∃ info, tag_loop fuel info 4096 8 boot0 = NoFuel.
Proof.
  exists (replicate 8 0 ++ le_bytes 4 1 ++ le_bytes 4 4294967295). induction fuel as [|fuel IH]; [done|]. cbn [tag_loop]. exact IH.
Qed.
