(* ===== verification/Acpi.v ===== *)
(** * ACPI tables

    Models [arch/x86_64/acpi/acpi.c]: the search for the root pointer in low
    memory and the walk to the interrupt controllers.  [ram] is what the machine's
    memory holds, byte by byte; a table is read through the physical map, whose
    pages the code maps first ([Mmu]), so that a pointer to a table is the
    physical address it was made from. *)

From stdpp Require Import base numbers list strings.
From Stdlib Require Import ZArith Lia.
From S2P Require Import Prelude CString Pmm Mmu MmuInv Bytes Display DisplayInv Console.

#[local] Open Scope Z_scope.
#[local] Open Scope kernel_scope.

Record smp_info_t := SmpInfo { bsp_apic_id : Z; ap_count : Z; ap_apic_ids : list Z; lapic_base : Z; ioapic_base : Z }.

Record acpi := Acpi { cpu_info : smp_info_t; acpi_mmu : mmu }.

Section acpi.
Context (ram : Z → Z) (junk : nat → list Z).

(** [n] bytes at [a], little endian *)
Definition mem (n : nat) (a : Z) : Z := le_val (map (λ k, ram (a + Z.of_nat k)) (seq 0 n)).

Fixpoint check_signature (a : Z) (sig : list Z) : bool :=
  match sig with [] => true | c :: sig => if negb (ram a =? c) then false else check_signature (a + 1) sig end.
(** [uint8_t sum] of [n] bytes *)
Fixpoint checksum (n : nat) (a sum : Z) : Z :=
  match n with O => sum | S n => checksum n (a + 1) (u8 (sum + ram a)) end.
Definition rsdp_at (a : Z) : bool := check_signature a (str "RSD PTR ") && (checksum 20 a 0 =? 0).
(** [for (i = a; ...; i += 16)], [n] times *)
Fixpoint scan_rsdp (n : nat) (a : Z) : option Z :=
  match n with O => None | S n => if rsdp_at a then Some a else scan_rsdp n (a + 16) end.
Definition find_rsdp : option Z :=
  let ebda_base := Z.shiftl (mem 2 1038) 4 in
  match scan_rsdp 64 ebda_base with Some a => Some a | None => scan_rsdp (Z.to_nat 8192) 917504 end.

(** The table at the physical address, its two pages mapped *)
Definition on_mmu {A} (m : kM mmu A) : kM acpi A := λ s,
  match m (acpi_mmu s) with
  | Ret a u => Ret a (Acpi (cpu_info s) u)
  | Hang u => Hang (Acpi (cpu_info s) u)
  | Panic u => Panic (Acpi (cpu_info s) u)
  | Fault => Fault
  | NoFuel => NoFuel
  end.
Definition phys_to_virt_mapped (phys : Z) : kM acpi Z :=
  let virt := u64 (PHYSMAP_BASE + phys) in
  let aligned_phys := Z.ldiff phys 4095 in
  let aligned_virt := Z.ldiff virt 4095 in
  on_mmu (let* u := kget in mmu_map_page (mm_kernel u) aligned_virt aligned_phys MMU_WRITABLE) ;;;
  on_mmu (let* u := kget in mmu_map_page (mm_kernel u) (u64 (aligned_virt + 4096)) (aligned_phys + 4096) MMU_WRITABLE) ;;;
  kret phys.

(** The first table with the signature among [n] pointers at [a] *)
Fixpoint find_table (n : nat) (a : Z) (sig : list Z) : kM acpi (option Z) :=
  match n with
  | O => kret None
  | S n =>
      let* t := phys_to_virt_mapped (mem 4 a) in
      if check_signature t sig then kret (Some t) else find_table n (a + 4) sig
  end.

Definition set_info (f : smp_info_t → smp_info_t) : kM acpi unit := kmodify (λ s, Acpi (f (cpu_info s)) (acpi_mmu s)).
Definition add_lapic (apic_id : Z) (found_bsp : bool) (s : smp_info_t) : option smp_info_t :=
  if negb found_bsp then Some (SmpInfo apic_id (ap_count s) (ap_apic_ids s) (lapic_base s) (ioapic_base s))
  else if ap_count s <? 16 then
    ids ← zset (ap_apic_ids s) (ap_count s) apic_id;
    Some (SmpInfo (bsp_apic_id s) (ap_count s + 1) ids (lapic_base s) (ioapic_base s))
  else Some s.

(** The entries of the MADT from [a] on *)
Fixpoint madt_loop (fuel : nat) (a stop : Z) (found_bsp : bool) : kM acpi unit :=
  match fuel with
  | O => λ _, NoFuel
  | S fuel =>
      if a <? stop then
        let type := ram a in
        let len := ram (a + 1) in
        let* found :=
          (if type =? 0 then
             if has (mem 4 (a + 4)) 1 then
               let* s := kget in
               let* i := kget_opt (λ _, add_lapic (ram (a + 3)) found_bsp (cpu_info s)) in
               set_info (λ _, i) ;;; kret true
             else kret found_bsp
           else if type =? 1 then
             set_info (λ s, SmpInfo (bsp_apic_id s) (ap_count s) (ap_apic_ids s) (lapic_base s) (mem 4 (a + 4))) ;;; kret found_bsp
           else kret found_bsp) in
        madt_loop fuel (a + len) stop found
      else kret tt
  end.

Fixpoint print_ids (ids : list Z) : kM (acpi * display) unit :=
  match ids with
  | [] => kret tt
  | i :: ids => say_dec i (junk 32) ;;; (match ids with [] => kret tt | _ => say (str ", ") end) ;;; print_ids ids
  end.

Definition acpi_parse (fuel : nat) : kM (acpi * display) unit :=
  match find_rsdp with
  | None => say (str "[ACPI] RSDP not found!" ++ [10])
  | Some rsdp =>
      let* rsdt := own (phys_to_virt_mapped (mem 4 (rsdp + 16))) in
      if negb (check_signature rsdt (str "RSDT")) then say (str "[ACPI] Invalid RSDT signature" ++ [10])
      else
        let entries := u64 (mem 4 (rsdt + 4) - 36) / 4 in
        let* o := own (find_table (Z.to_nat (s32 entries)) (rsdt + 36) (str "APIC")) in
        match o with
        | None => say (str "[ACPI] MADT not found in RSDT" ++ [10])
        | Some madt =>
            own (set_info (λ s, SmpInfo (bsp_apic_id s) (ap_count s) (ap_apic_ids s) (mem 4 (madt + 36)) (ioapic_base s))) ;;;
            own (madt_loop fuel (madt + 44) (madt + mem 4 (madt + 4)) false) ;;;
            let* st := kget in
            let s := cpu_info st.1 in
            say (str "[ACPI] LAPIC base: ") ;;; say_hex (lapic_base s) (junk 32) ;;; say [10] ;;;
            say (str "[ACPI] IOAPIC base: ") ;;; say_hex (ioapic_base s) (junk 32) ;;; say [10] ;;;
            say (str "[ACPI] Found ") ;;; say_dec (ap_count s) (junk 32) ;;; say (str " APs: APIC IDs [") ;;;
            print_ids (take (Z.to_nat (ap_count s)) (ap_apic_ids s)) ;;;
            say (str "]" ++ [10])
        end
  end.

(** ** The search *)

(** The first address of the [n] from [a] on, 16 bytes apart, that has the root
    pointer *)
Lemma scan_rsdp_spec n : ∀ a, match scan_rsdp n a with
  | Some x => ∃ k, (k < n)%nat ∧ x = a + 16 * Z.of_nat k ∧ rsdp_at x = true ∧ ∀ j, (j < k)%nat → rsdp_at (a + 16 * Z.of_nat j) = false
  | None => ∀ j, (j < n)%nat → rsdp_at (a + 16 * Z.of_nat j) = false end.
Proof.
  induction n as [|n IH]; intros a; cbn [scan_rsdp]; [intros j; lia|]. destruct (rsdp_at a) eqn:E.
  - exists 0%nat. split; [lia|]. split; [lia|]. split; [done|lia].
  - assert (∀ j, rsdp_at (a + 16 * Z.of_nat (S j)) = rsdp_at (a + 16 + 16 * Z.of_nat j)) as Hs by (intros j; f_equal; lia).
    specialize (IH (a + 16)). destruct (scan_rsdp n (a + 16)) as [x|].
    + destruct IH as (k & Hk & -> & Hx & Hm). exists (S k). split; [lia|]. split; [lia|]. split; [done|]. intros [|j] Hj; [by rewrite Z.mul_0_r, Z.add_0_r|]. rewrite Hs. apply Hm. lia.
    + intros [|j] Hj; [by rewrite Z.mul_0_r, Z.add_0_r|]. rewrite Hs. apply IH. lia.
Qed.

(** ** The layout of the MADT *)

Inductive madt_entry : Type :=
| Lapic (acpi_id apic_id flags : Z)
| Ioapic (id addr gsi : Z)
| OtherEntry (type : Z) (payload : list Z).
Definition entry_bytes (e : madt_entry) : list Z :=
  match e with
  | Lapic acpi id fl => [0; 8; acpi; id] ++ le_bytes 4 fl
  | Ioapic id addr gsi => [1; 12; id; 0] ++ le_bytes 4 addr ++ le_bytes 4 gsi
  | OtherEntry ty p => ty :: Z.of_nat (2 + length p) :: p
  end.
Definition entry_fits (e : madt_entry) : Prop :=
  match e with
  | Lapic _ _ fl => 0 ≤ fl < 4294967296
  | Ioapic _ addr _ => 0 ≤ addr < 4294967296
  | OtherEntry ty p => ty ≠ 0 ∧ ty ≠ 1 ∧ (length p ≤ 253)%nat
  end.
Definition madt_bytes (es : list madt_entry) : list Z := concat (map entry_bytes es).
(** The enabled processors, in order, and the last I/O controller *)
Definition enabled (es : list madt_entry) : list Z := es ≫= λ e, match e with Lapic _ id fl => if has fl 1 then [id] else [] | _ => [] end.
Definition last_ioapic (a0 : Z) (es : list madt_entry) : Z := foldl (λ a e, match e with Ioapic _ addr _ => addr | _ => a end) a0 es.

Definition ram_has (a : Z) (l : list Z) : Prop := ∀ i c, l !! i = Some c → ram (a + Z.of_nat i) = c.
Lemma ram_has_app a l1 l2 : ram_has a (l1 ++ l2) → ram_has a l1 ∧ ram_has (a + Z.of_nat (length l1)) l2.
Proof.
  intros H. split; intros i c Hi.
  - apply H. rewrite lookup_app_l by (by eapply lookup_lt_Some). done.
  - replace (a + Z.of_nat (length l1) + Z.of_nat i) with (a + Z.of_nat (length l1 + i)) by lia. apply H. rewrite lookup_app_r by lia. by replace (length l1 + i - length l1)%nat with i by lia.
Qed.
Lemma ram_has_slice a l : ram_has a l → map (λ k, ram (a + Z.of_nat k)) (seq 0 (length l)) = l.
Proof.
  intros H. apply list_eq. intros i. rewrite list_lookup_fmap. destruct (decide (i < length l)%nat) as [Hi|Hi].
  - rewrite lookup_seq_lt by done. destruct (lookup_lt_is_Some_2 l i Hi) as [c Hc]. rewrite Hc. cbn. f_equal. by apply H.
  - rewrite lookup_seq_ge, lookup_ge_None_2 by lia. done.
Qed.
Lemma mem_run n a v : ram_has a (le_bytes n v) → 0 ≤ v < 2 ^ (8 * Z.of_nat n) → mem n a = v.
Proof. intros H B. unfold mem. replace n with (length (le_bytes n v)) at 1 by apply le_bytes_length. rewrite ram_has_slice by done. rewrite le_val_bytes. by apply Z.mod_small. Qed.

(** [s] holds the processors [en] found so far. *)
Record found (s : smp_info_t) (en : list Z) : Prop := {
  fd_size : length (ap_apic_ids s) = 16%nat;
  fd_bsp : ∀ b, head en = Some b → bsp_apic_id s = b;
  fd_count : ap_count s = Z.of_nat (length (take 16 (tail en)));
  fd_aps : take (Z.to_nat (ap_count s)) (ap_apic_ids s) = take 16 (tail en);
}.

Lemma add_lapic_run s en id : found s en → ∃ s', add_lapic id (bool_decide (en ≠ [])) s = Some s' ∧ found s' (en ++ [id]) ∧ lapic_base s' = lapic_base s ∧ ioapic_base s' = ioapic_base s.
Proof.
  intros [Sz B C A]. unfold add_lapic. destruct en as [|b en]; [eexists; split; [done|]; split; [|done]; split; cbn in *; [done|by intros ? [= <-]|done|by rewrite C]|].
  rewrite bool_decide_true by done. cbn [negb tail app] in *. rewrite length_take in C. destruct (Z.ltb_spec (ap_count s) 16) as [L|L].
  - assert (length en < 16)%nat as Le by lia. rewrite (take_ge en) in A by lia. assert (ap_count s = Z.of_nat (length en)) as Ec by lia. rewrite Ec, zset_nat by lia.
    eexists. split; [done|]. split; [|done]. split; cbn [ap_apic_ids bsp_apic_id ap_count tail app]; [by rewrite length_insert|by apply B|rewrite length_take, length_app; change (length [id]) with 1%nat; lia|].
    rewrite (take_ge (en ++ [id])) by (rewrite length_app; cbn; lia). replace (Z.to_nat (Z.of_nat (length en) + 1)) with (S (length en)) by lia.
    rewrite (take_S_r _ _ id) by (apply list_lookup_insert_eq; lia). rewrite take_insert_ge by lia. rewrite Ec, Nat2Z.id in A. by rewrite A.
  - exists s. split; [done|]. split; [|done]. split; cbn [tail app]; [done|by apply B| |]; rewrite take_app_le by lia; [by rewrite length_take|done].
Qed.

Lemma madt_loop_run es : ∀ fuel a en st, Forall entry_fits es → ram_has a (madt_bytes es) → found (cpu_info st) en → (length es < fuel)%nat →
  ∃ s', madt_loop fuel a (a + Z.of_nat (length (madt_bytes es))) (bool_decide (en ≠ [])) st = Ret tt (Acpi s' (acpi_mmu st)) ∧
    found s' (en ++ enabled es) ∧ lapic_base s' = lapic_base (cpu_info st) ∧ ioapic_base s' = last_ioapic (ioapic_base (cpu_info st)) es.
Proof.
  induction es as [|e es IH]; intros [|fuel] a en st F H Hf Hn; cbn [length] in Hn; try lia; cbn [madt_loop].
  { exists (cpu_info st). unfold madt_bytes. cbn. rewrite Z.add_0_r, Z.ltb_irrefl, app_nil_r. split; [by destruct st|done]. }
  apply Forall_cons in F as [Fe F]. unfold madt_bytes in H |- *. cbn [map concat] in H |- *. fold (madt_bytes es) in H |- *. apply ram_has_app in H as [He H]. rewrite length_app.
  unfold enabled, last_ioapic. rewrite bind_cons. cbn [foldl]. fold (enabled es).
  assert (1 < length (entry_bytes e))%nat as Le by (destruct e; cbn; lia).
  replace (a <? a + Z.of_nat (length (entry_bytes e) + length (madt_bytes es))) with true by (symmetry; apply Z.ltb_lt; lia).
  assert (ram (a + 1) = Z.of_nat (length (entry_bytes e))) as Elen by (apply (He 1%nat); destruct e; cbn; try rewrite !le_bytes_length; done).
  replace (a + Z.of_nat (length (entry_bytes e) + length (madt_bytes es))) with (a + Z.of_nat (length (entry_bytes e)) + Z.of_nat (length (madt_bytes es))) by lia.
  assert (∀ st' en', acpi_mmu st' = acpi_mmu st → found (cpu_info st') en' → lapic_base (cpu_info st') = lapic_base (cpu_info st) →
    ∃ s', madt_loop fuel (a + Z.of_nat (length (entry_bytes e))) (a + Z.of_nat (length (entry_bytes e)) + Z.of_nat (length (madt_bytes es))) (bool_decide (en' ≠ [])) st' = Ret tt (Acpi s' (acpi_mmu st)) ∧
      found s' (en' ++ enabled es) ∧ lapic_base s' = lapic_base (cpu_info st) ∧ ioapic_base s' = last_ioapic (ioapic_base (cpu_info st')) es) as Go.
  { intros st' en' Em Hf' El. destruct (IH fuel _ en' st' F H Hf' ltac:(lia)) as (s' & E & A & B & C). exists s'. rewrite E, Em. split; [done|]. split; [done|]. split; [congruence|done]. }
  rewrite Elen. pose proof (He 0%nat) as H0. rewrite Z.add_0_r in H0. destruct e as [acpi id fl|id addr gsi|ty p]; cbn [entry_bytes] in *.
  - rewrite (H0 0) by done. change (0 =? 0) with true. cbn iota. assert (mem 4 (a + 4) = fl) as ->.
    { apply mem_run; [|done]. exact (proj2 (ram_has_app a [0; 8; acpi; id] _ He)). }
    destruct (has fl 1); cbn [app].
    + rewrite (He 3%nat id eq_refl : ram (a + 3) = id). destruct (add_lapic_run (cpu_info st) en id Hf) as (s' & Ea & Fa & Lb & Ib).
      destruct (Go (Acpi s' (acpi_mmu st)) (en ++ [id]) eq_refl Fa Lb) as (s2 & E2 & A2 & B2 & C2). exists s2. rewrite <-app_assoc in A2. split; [|split; [done|split; [done|]]].
      * rewrite <-E2. unfold kbind at 1 2, kget. unfold kget_opt at 1, kbind at 1. rewrite Ea. unfold set_info, kmodify, kbind, kret. cbn [cpu_info acpi_mmu]. f_equal. symmetry. apply bool_decide_true. by destruct en.
      * rewrite C2. cbn [cpu_info]. by rewrite Ib.
    + destruct (Go st en eq_refl Hf eq_refl) as (s2 & E2 & ?). exists s2. split; [exact E2|done].
  - rewrite (H0 1) by done. change (1 =? 0) with false. change (1 =? 1) with true. cbn iota. assert (mem 4 (a + 4) = addr) as ->.
    { apply mem_run; [|done]. pose proof (proj2 (ram_has_app a [1; 12; id; 0] _ He)) as H1. exact (proj1 (ram_has_app _ _ _ H1)). }
    destruct (Go (Acpi (SmpInfo (bsp_apic_id (cpu_info st)) (ap_count (cpu_info st)) (ap_apic_ids (cpu_info st)) (lapic_base (cpu_info st)) addr) (acpi_mmu st)) en eq_refl) as (s2 & E2 & ?); [by destruct Hf|done|].
    exists s2. split; [exact E2|done].
  - rewrite (H0 ty) by done. destruct Fe as (T0 & T1 & _). replace (ty =? 0) with false by (symmetry; by apply Z.eqb_neq). replace (ty =? 1) with false by (symmetry; by apply Z.eqb_neq).
    destruct (Go st en eq_refl Hf eq_refl) as (s2 & E2 & ?). exists s2. split; [exact E2|done].
Qed.

(** A MADT entry whose length byte is 0 is read for ever: no fuel is enough. *)
Lemma empty_entry_loops fuel a stop fb st : a < stop → ram a ≠ 0 → ram a ≠ 1 → ram (a + 1) = 0 → madt_loop fuel a stop fb st = NoFuel.
Proof.
  intros H H0 H1 Hl. induction fuel as [|fuel IH]; [done|]. cbn [madt_loop]. rewrite (proj2 (Z.ltb_lt _ _) H), (proj2 (Z.eqb_neq _ _) H0), (proj2 (Z.eqb_neq _ _) H1), Hl, Z.add_0_r. exact IH.
Qed.

End acpi.

(** The walk over the interrupt-controller table reads back every table that is
    laid out in memory: with one step per entry it ends; the first enabled processor
    is the boot processor, the next sixteen enabled ones at most are the application
    processors in table order, the last I/O controller wins, and entries of other
    types change nothing. *)
Theorem madt_roundtrip ram es fuel a s mm :
  Forall entry_fits es → ram_has ram a (madt_bytes es) → (length es < fuel)%nat →
  length (ap_apic_ids s) = 16%nat → ap_count s = 0 →
  ∃ s', madt_loop ram fuel a (a + Z.of_nat (length (madt_bytes es))) false (Acpi s mm) = Ret tt (Acpi s' mm) ∧
    (∀ b, head (enabled es) = Some b → bsp_apic_id s' = b) ∧
    take (Z.to_nat (ap_count s')) (ap_apic_ids s') = take 16 (tail (enabled es)) ∧
    ap_count s' = Z.of_nat (length (take 16 (tail (enabled es)))) ∧
    lapic_base s' = lapic_base s ∧ ioapic_base s' = last_ioapic (ioapic_base s) es.
Proof.
  intros F H Hn Sz C. destruct (madt_loop_run ram es fuel a [] (Acpi s mm) F H) as (s' & E & [S' B A1 A2] & L & I); [|done|].
  - split; cbn; [done|done|done|by rewrite C].
  - exists s'. split; [exact E|done].
Qed.

Definition demo_madt : list madt_entry := [Lapic 0 0 1; Lapic 1 1 1; OtherEntry 2 [0; 2; 0; 0]; Lapic 2 2 0; Ioapic 1 4273995776 0; Lapic 3 3 1].
Definition demo_ram (a : Z) : Z := nth (Z.to_nat (a - 4096)) (madt_bytes demo_madt) 0.
Lemma demo_ram_has : ram_has demo_ram 4096 (madt_bytes demo_madt).
Proof. intros i c H. unfold demo_ram. replace (4096 + Z.of_nat i - 4096) with (Z.of_nat i) by lia. rewrite Nat2Z.id. by apply nth_lookup_Some. Qed.
Definition empty_info : smp_info_t := SmpInfo 0 0 (repeat 0 16) 0 0.
Lemma madt_roundtrip_witness : ∃ s', madt_loop demo_ram 7 4096 (4096 + Z.of_nat (length (madt_bytes demo_madt))) false (Acpi empty_info demo_mmu) = Ret tt (Acpi s' demo_mmu) ∧
  (∀ b, head (enabled demo_madt) = Some b → bsp_apic_id s' = b) ∧
  take (Z.to_nat (ap_count s')) (ap_apic_ids s') = [1; 3] ∧ ap_count s' = 2 ∧ lapic_base s' = 0 ∧ ioapic_base s' = 4273995776.
Proof.
  apply (madt_roundtrip demo_ram demo_madt 7 4096 empty_info demo_mmu); [|apply demo_ram_has|cbn; lia|done|done].
  repeat constructor; cbn; lia.
Defined.
