(* ===== verification/Initrd.v ===== *)
(** * The initial RAM disk

    Models [kernel/modules/fs_initrd/initrd.c], the file system over an image that is
    linked into the kernel, and [initrd_gen.py], which packs the image.  The theorem
    is the round trip from the files packed to the files read.  [junk] is what the
    heap returns for the nodes, which the code does not clear. *)

From stdpp Require Import base numbers list gmap strings.
From Stdlib Require Import ZArith Lia.
From S2P Require Import Prelude CString Bytes Kernel Path Vfs Display DisplayInv Console.

#[local] Open Scope Z_scope.
#[local] Open Scope kernel_scope.

(** [sizeof(initrd_header_t)] and [sizeof(initrd_file_header_t)] *)
Definition header_size : Z := 4.
Definition file_header_size : Z := 73.

Record initrd := Initrd { image : list Z; nroot_nodes : Z; root_nodes : list fs_node_t }.

(** Addresses of the callbacks *)
Definition initrd_read_fn : Z := 40.
Definition initrd_readdir_fn : Z := 41.
Definition initrd_finddir_fn : Z := 42.

(** ** The packer *)

(** [struct.pack("<B64sII", 0xBF, fname, current_offset, len(data))] *)
Definition pack_header (name : list Z) (offset length : Z) : list Z :=
  [191] ++ take 64 (name ++ replicate 64 0) ++ le_bytes 4 offset ++ le_bytes 4 length.
Fixpoint pack_headers (files : list (list Z * list Z)) (current_offset : Z) : list Z :=
  match files with
  | [] => []
  | (name, data) :: files => pack_header name current_offset (Z.of_nat (length data)) ++ pack_headers files (current_offset + Z.of_nat (length data))
  end.
Definition make_initrd (files : list (list Z * list Z)) : list Z :=
  let nfiles := Z.of_nat (length files) in
  le_bytes 4 nfiles ++ pack_headers files (4 + nfiles * 73) ++ concat (map snd files).

(** ** The file system *)

(** [file_headers[i]]: its bytes; past the image the read faults *)
Definition file_header (img : list Z) (i : Z) : option (list Z) :=
  let o := header_size + file_header_size * i in
  if (0 <=? i) && (o + file_header_size <=? Z.of_nat (length img)) then Some (slice 73 img o) else None.
Definition fh_name (h : list Z) : list Z := slice 64 h 1.
Definition fh_offset (h : list Z) : Z := rd 4 h 65.
Definition fh_length (h : list Z) : Z := rd 4 h 69.

(** The bytes copied to the caller; their number is returned *)
Definition initrd_read (s : initrd) (node : fs_node_t) (offset size : Z) : option (list Z) :=
  if u32 (nroot_nodes s) <=? n_inode node then Some []
  else
    h ← file_header (image s) (n_inode node);
    if fh_length h <? offset then Some []
    else
      let size := if fh_length h <? u64 (offset + size) then u64 (fh_length h - offset) else size in
      let a := fh_offset h + offset in
      if a + size <=? Z.of_nat (length (image s)) then Some (slice (Z.to_nat size) (image s) a) else None.

Definition initrd_readdir (s : initrd) (node : fs_node_t) (index : Z) : option (option dirent) :=
  if has (n_flags node) FS_DIRECTORY && (index <? u32 (nroot_nodes s)) then
    n ← zlookup (root_nodes s) index;
    Some (Some (mk_dirent (n_name n) (n_inode n) (n_length n) (Z.land (n_flags n) 7) 0))
  else Some None.

(** The index of the node: [&root_nodes[i]] *)
Fixpoint find_root (nodes : list fs_node_t) (i : Z) (name : list Z) : option Z :=
  match nodes with
  | [] => None
  | n :: nodes => if bool_decide (name = n_name n) then Some i else find_root nodes (i + 1) name
  end.
Definition initrd_finddir (s : initrd) (node : fs_node_t) (name : list Z) : option Z :=
  if has (n_flags node) FS_DIRECTORY then find_root (take (Z.to_nat (nroot_nodes s)) (root_nodes s)) 0 name else None.

Definition initrd_root : fs_node_t :=
  mk_node (str "initrd") 0 (Z.lor FS_DIRECTORY FS_PERSISTENT) 0 0 ImplNull 0 0 0 0 initrd_readdir_fn initrd_finddir_fn 0 0 0.
Definition initrd_ops : fs_ops := mk_fs_ops initrd_read_fn 0 0 0 initrd_readdir_fn initrd_finddir_fn 0 0 0.

Section init.
Context (junk : nat → fs_node_t).

(** The assignments to [root_nodes[i]]; the other fields keep what the heap had. *)
Definition fill_node (old : fs_node_t) (name : list Z) (len i : Z) : fs_node_t :=
  mk_node name (n_mask old) (Z.lor FS_FILE FS_PERSISTENT) i len (n_impl old) initrd_read_fn (n_write old) (n_open old) (n_close old)
    (n_readdir old) (n_finddir old) (n_create old) (n_mkdir old) (n_unlink old).
(** A name is copied to its NUL; 64 characters without one run into the next fields. *)
Fixpoint fill_nodes (n : nat) (i : Z) : kM (initrd * display) unit :=
  match n with
  | O => kret tt
  | S n =>
      let* h := kget_opt (λ s, file_header (image s.1) i) in
      let* len := kget_opt (λ _, strlen (Some (fh_name h))) in
      let name := take (Z.to_nat len) (fh_name h) in
      own (kmodify (λ s, Initrd (image s) (nroot_nodes s) (root_nodes s ++ [fill_node (junk (length (root_nodes s))) name (fh_length h) i]))) ;;;
      say (str "    - Initrd File: ") ;;; say name ;;; say [10] ;;;
      fill_nodes n (i + 1)
  end.
(** [fs_initrd_init] up to the registration *)
Definition initrd_load (img : list Z) : kM (initrd * display) unit :=
  let nfiles := rd 4 img 0 in
  own (kput (Initrd img (s32 nfiles) [])) ;;;
  fill_nodes (Z.to_nat (s32 nfiles)) 0.
Definition initrd_register {D : Type} : kM (kst D) unit := kabi_vfs_register initrd_ops [slash].

End init.

(** ** The image *)

Definition data_before (files : list (list Z * list Z)) (i : nat) : Z := Z.of_nat (length (concat (map snd (take i files)))).
Definition file_name (name : list Z) : Prop := printable name ∧ (length name ≤ 63)%nat.

Lemma pack_header_length name o l : length (pack_header name o l) = 73%nat.
Proof. unfold pack_header. rewrite !length_app, length_take, length_app, length_replicate, !le_bytes_length. cbn [length]. lia. Qed.
Lemma pack_headers_length files : ∀ o, length (pack_headers files o) = (73 * length files)%nat.
Proof. induction files as [|[n d] files IH]; intros o; [done|]. cbn [pack_headers length]. rewrite length_app, pack_header_length, IH. lia. Qed.
Lemma slice_mid n (a b c : list Z) i : length b = n → i = Z.of_nat (length a) → slice n (a ++ b ++ c) i = b.
Proof. intros <- ->. unfold slice. by rewrite Nat2Z.id, drop_app_length, take_app_length. Qed.

Lemma pack_headers_slice files : ∀ o i name data a rest, files !! i = Some (name, data) →
  slice 73 (a ++ pack_headers files o ++ rest) (Z.of_nat (length a) + 73 * Z.of_nat i) = pack_header name (o + data_before files i) (Z.of_nat (length data)).
Proof.
  induction files as [|[n d] files IH]; intros o [|i] name data a rest Hi; try done.
  - injection Hi as -> ->. cbn [pack_headers]. rewrite <-app_assoc. rewrite slice_mid; [|apply pack_header_length|lia]. unfold data_before. cbn [take map concat length]. by rewrite Z.add_0_r.
  - cbn [pack_headers]. rewrite <-app_assoc, (app_assoc a). replace (Z.of_nat (length a) + 73 * Z.of_nat (S i)) with (Z.of_nat (length (a ++ pack_header n o (Z.of_nat (length d)))) + 73 * Z.of_nat i) by (rewrite length_app, pack_header_length; lia).
    rewrite (IH _ i name data) by done. f_equal. unfold data_before. cbn [take map concat]. rewrite length_app. cbn [snd]. lia.
Qed.

Section image.
Context (files : list (list Z * list Z)).
Let img := make_initrd files.
Context (Hsize : Z.of_nat (length img) < 2147483648).

Lemma img_length : Z.of_nat (length img) = 4 + Z.of_nat (length files) * 73 + Z.of_nat (length (concat (map snd files))).
Proof. unfold img, make_initrd. rewrite !length_app, le_bytes_length, pack_headers_length. lia. Qed.
Lemma img_count : rd 4 img 0 = Z.of_nat (length files).
Proof.
  pose proof img_length. unfold rd. assert (slice 4 img 0 = le_bytes 4 (Z.of_nat (length files))) as ->.
  { apply (slice_mid 4 [] (le_bytes 4 (Z.of_nat (length files)))); [apply le_bytes_length|done]. }
  rewrite le_val_bytes. apply Z.mod_small. lia.
Qed.
Lemma blob_fits i name data : files !! i = Some (name, data) → data_before files i + Z.of_nat (length data) ≤ Z.of_nat (length (concat (map snd files))).
Proof.
  intros Hi. rewrite <-(take_drop i files) at 2. rewrite (drop_S _ _ _ Hi), map_app, concat_app, length_app. cbn [map concat snd]. rewrite length_app. unfold data_before. lia.
Qed.
Lemma img_header i name data : files !! i = Some (name, data) → file_header img (Z.of_nat i) = Some (pack_header name (4 + Z.of_nat (length files) * 73 + data_before files i) (Z.of_nat (length data))).
Proof.
  intros Hi. pose proof (lookup_lt_Some _ _ _ Hi). pose proof img_length. unfold file_header, header_size, file_header_size.
  replace (0 <=? Z.of_nat i) with true by (symmetry; apply Z.leb_le; lia). replace (_ <=? Z.of_nat (length img)) with true by (symmetry; apply Z.leb_le; lia). cbn [andb]. f_equal.
  pose proof (pack_headers_slice files (4 + Z.of_nat (length files) * 73) i name data (le_bytes 4 (Z.of_nat (length files))) (concat (map snd files)) Hi) as E. rewrite le_bytes_length in E. exact E.
Qed.

(** The fields of a header *)
Lemma header_fields name o l : 0 ≤ o < 4294967296 → 0 ≤ l < 4294967296 → (length name ≤ 63)%nat →
  fh_name (pack_header name o l) = name ++ 0 :: replicate (63 - length name) 0 ∧ fh_offset (pack_header name o l) = o ∧ fh_length (pack_header name o l) = l.
Proof.
  intros Ho Hl Hn. assert (length (take 64 (name ++ replicate 64 0)) = 64%nat) as L64 by (rewrite length_take, length_app, length_replicate; lia). unfold fh_name, fh_offset, fh_length, rd, pack_header. split_and!.
  - rewrite slice_mid by done. rewrite take_app_ge, take_replicate by lia. replace (64 `min` 64)%nat with 64%nat by lia. replace ((64 - length name) `min` 64)%nat with (S (63 - length name)) by lia. done.
  - rewrite (app_assoc [191]). rewrite slice_mid; [|apply le_bytes_length|rewrite length_app, L64; done]. rewrite le_val_bytes. by apply Z.mod_small.
  - rewrite !(app_assoc [191]), (app_assoc _ (le_bytes 4 o)). rewrite <-(app_nil_r (le_bytes 4 l)). rewrite slice_mid; [|apply le_bytes_length|rewrite !length_app, L64, le_bytes_length; done]. rewrite le_val_bytes. by apply Z.mod_small.
Qed.

(** A part of a file in the image *)
Lemma img_data i name data off n : files !! i = Some (name, data) → 0 ≤ off → (Z.to_nat off + n ≤ length data)%nat →
  slice n img (4 + Z.of_nat (length files) * 73 + data_before files i + off) = slice n data off.
Proof.
  intros Hi Ho Hn. set (pre := le_bytes 4 (Z.of_nat (length files)) ++ pack_headers files (4 + Z.of_nat (length files) * 73) ++ concat (map snd (take i files))).
  assert (∃ rest, img = pre ++ data ++ rest) as [rest E].
  { exists (concat (map snd (drop (S i) files))). unfold img, make_initrd, pre. rewrite <-!app_assoc. do 2 f_equal. rewrite <-(take_drop i files) at 1. rewrite (drop_S _ _ _ Hi), map_app, concat_app. done. }
  assert (4 + Z.of_nat (length files) * 73 + data_before files i = Z.of_nat (length pre)) as -> by (unfold pre, data_before; rewrite !length_app, le_bytes_length, pack_headers_length; lia).
  rewrite E. unfold slice. replace (Z.to_nat (Z.of_nat (length pre) + off)) with (length pre + Z.to_nat off)%nat by lia. rewrite <-drop_drop, drop_app_length, drop_app_le, take_app_le by (rewrite ?length_drop; lia). done.
Qed.

(** ** Loading *)

Context (junk : nat → fs_node_t).
Definition nodes_from (i : nat) (fs : list (list Z * list Z)) : list fs_node_t :=
  imap (λ k f, fill_node (junk (i + k)) f.1 (Z.of_nat (length f.2)) (Z.of_nat (i + k))) fs.

Lemma header_of i name data : files !! i = Some (name, data) → file_name name → ∃ h, file_header img (Z.of_nat i) = Some h ∧
  fh_name h = name ++ 0 :: replicate (63 - length name) 0 ∧ fh_offset h = 4 + Z.of_nat (length files) * 73 + data_before files i ∧ fh_length h = Z.of_nat (length data).
Proof.
  intros Hi [_ Hn]. pose proof img_length. pose proof (blob_fits i name data Hi). eexists. split; [by apply img_header|]. apply header_fields; [unfold data_before in *; lia..|done].
Qed.

Lemma fill_nodes_says fs : Forall (λ f, file_name f.1) fs → ∀ i s, image s = img → drop i files = fs → length (root_nodes s) = i →
  ∃ t, says (fill_nodes junk (length fs) (Z.of_nat i)) s tt (Initrd img (nroot_nodes s) (root_nodes s ++ nodes_from i fs)) t.
Proof.
  induction 1 as [|[name data] fs Hf F IH]; intros i s Himg Hd Hl; cbn [length fill_nodes].
  { exists []. assert (Initrd img (nroot_nodes s) (root_nodes s ++ nodes_from i []) = s) as -> by (cbn; rewrite app_nil_r; destruct s; cbn in *; congruence). apply says_ret. }
  assert (files !! i = Some (name, data)) as Hi by (rewrite <-(Nat.add_0_r i), <-lookup_drop, Hd; done).
  destruct (header_of i name data Hi Hf) as (h & Eh & En & _ & El). cbn [fst] in Hf. destruct Hf as [P Ln]. assert (0 ∉ name) as N0 by (intros H0; unfold printable in P; rewrite Forall_forall in P; apply P in H0; lia).
  set (s1 := Initrd img (nroot_nodes s) (root_nodes s ++ [fill_node (junk i) name (Z.of_nat (length data)) (Z.of_nat i)])).
  destruct (IH (S i) s1) as [t Ht]; [done|by rewrite <-Nat.add_1_r, <-drop_drop, Hd|cbn; rewrite length_app, Hl; cbn; lia|].
  eexists. eapply says_opt; [intros d; cbn [fst]; rewrite Himg; exact Eh|]. eapply says_opt; [intros d; unfold strlen; rewrite En; by rewrite strlen_loop_app|]. cbn zeta.
  rewrite Z.add_0_l, Nat2Z.id, En, take_app_length, El. eapply says_bind; [apply says_own; reflexivity|]. rewrite Himg, Hl. fold s1.
  eapply says_bind; [apply say_says; printable_lit|]. eapply says_bind; [by apply say_says|]. eapply says_bind; [apply say_says; printable_lit|].
  replace (Z.of_nat i + 1) with (Z.of_nat (S i)) by lia. cbn [root_nodes nroot_nodes s1] in Ht. rewrite <-app_assoc in Ht. cbn [app] in Ht.
  assert (fill_node (junk i) name (Z.of_nat (length data)) (Z.of_nat i) :: nodes_from (S i) fs = nodes_from i ((name, data) :: fs)) as <-; [|exact Ht].
  unfold nodes_from. rewrite imap_cons, Nat.add_0_r. f_equal. apply imap_ext. intros k f _. cbn. by rewrite Nat.add_succ_r.
Qed.

Definition loaded : initrd := Initrd img (Z.of_nat (length files)) (nodes_from 0 files).
Lemma initrd_load_says s : Forall (λ f, file_name f.1) files → ∃ t, says (initrd_load junk img) s tt loaded t.
Proof.
  intros F. pose proof img_length. destruct (fill_nodes_says files F 0 (Initrd img (Z.of_nat (length files)) []) eq_refl eq_refl eq_refl) as [t Ht]. exists ([] ++ t).
  unfold initrd_load. rewrite img_count, s32_small, Nat2Z.id by lia. eapply says_bind; [|exact Ht]. by apply says_own.
Qed.

(** ** Reading *)

Lemma loaded_node i name data : files !! i = Some (name, data) → root_nodes loaded !! i = Some (fill_node (junk i) name (Z.of_nat (length data)) (Z.of_nat i)).
Proof. intros Hi. cbn [root_nodes loaded]. unfold nodes_from. by rewrite list_lookup_imap, Hi. Qed.

Lemma loaded_read i name data node off size : files !! i = Some (name, data) → file_name name → n_inode node = Z.of_nat i → 0 ≤ off → 0 ≤ size → off + size < 18446744073709551616 →
  initrd_read loaded node off size = Some (slice (Z.to_nat size) data off).
Proof.
  intros Hi Hf Hn Ho Hs Hb. pose proof (lookup_lt_Some _ _ _ Hi). pose proof img_length. pose proof (blob_fits i name data Hi) as Hd. destruct (header_of i name data Hi Hf) as (h & Eh & _ & Eo & El).
  unfold initrd_read. cbn [image nroot_nodes loaded]. rewrite Hn. replace (u32 _ <=? _) with false by (symmetry; apply Z.leb_gt; unfold u32; rewrite Z.mod_small; lia). rewrite Eh. cbn [mbind option_bind]. rewrite El, Eo.
  destruct (Z.ltb_spec (Z.of_nat (length data)) off) as [L|L]; [unfold slice; by rewrite drop_ge, take_nil by lia|]. unfold u64. rewrite (Z.mod_small (off + size)) by lia.
  assert (0 ≤ data_before files i) by (unfold data_before; lia). destruct (Z.ltb_spec (Z.of_nat (length data)) (off + size)) as [L2|L2].
  - rewrite Z.mod_small by lia. replace (_ <=? Z.of_nat (length img)) with true by (symmetry; apply Z.leb_le; lia). f_equal. rewrite (img_data i name data) by (done || lia).
    unfold slice. rewrite !take_ge; [done|rewrite length_drop; lia|rewrite length_drop; lia].
  - replace (_ <=? Z.of_nat (length img)) with true by (symmetry; apply Z.leb_le; lia). f_equal. apply (img_data i name data); (done || lia).
Qed.

Lemma find_root_run fs name : ∀ k, find_root (nodes_from k fs) (Z.of_nat k) name = (λ p : nat * (list Z * list Z), Z.of_nat (k + p.1)) <$> list_find (λ f : list Z * list Z, name = f.1) fs.
Proof.
  induction fs as [|[n d] fs IH]; intros k; [done|]. unfold nodes_from. rewrite imap_cons, Nat.add_0_r. cbn [find_root n_name fill_node fst]. cbn [list_find fst].
  case_bool_decide; [rewrite decide_True by done; cbn; by rewrite Nat.add_0_r|]. rewrite decide_False by done. specialize (IH (S k)). unfold nodes_from in IH.
  replace (Z.of_nat k + 1) with (Z.of_nat (S k)) by lia. rewrite (imap_ext _ (λ k0 f, fill_node (junk (S k + k0)) f.1 (Z.of_nat (length f.2)) (Z.of_nat (S k + k0)))) by (intros; cbn; by rewrite Nat.add_succ_r).
  rewrite IH. destruct (list_find _ fs) as [[j f]|]; [|done]. cbn. f_equal. lia.
Qed.

End image.

(** C23. The RAM disk gives back the files that were packed.  For every list of files
    with different names (of at most 63 printable characters) the image is loaded, and
    afterwards each name is found, listed at its index with its size, and read back: any
    offset and size give exactly that part of its data.  No other name is found and no
    other entry is listed. *)
Theorem initrd_roundtrip (junk : nat → fs_node_t) files s0 : let img := make_initrd files in
  Z.of_nat (length img) < 2147483648 → Forall (λ f, file_name f.1) files → NoDup (map fst files) →
  ∃ s t, says (initrd_load junk img) s0 tt s t ∧
    (∀ i name data, files !! i = Some (name, data) →
      initrd_finddir s initrd_root name = Some (Z.of_nat i) ∧
      initrd_readdir s initrd_root (Z.of_nat i) = Some (Some (mk_dirent name (Z.of_nat i) (Z.of_nat (length data)) FS_FILE 0)) ∧
      ∃ node, root_nodes s !! i = Some node ∧ ∀ off size, 0 ≤ off → 0 ≤ size → off + size < 18446744073709551616 →
        initrd_read s node off size = Some (slice (Z.to_nat size) data off)) ∧
    (∀ name, name ∉ map fst files → initrd_finddir s initrd_root name = None) ∧
    (∀ i, Z.of_nat (length files) ≤ i → initrd_readdir s initrd_root i = Some None).
Proof.
  intros img Hsize F ND. destruct (initrd_load_says files Hsize junk s0 F) as [t Ht]. exists (loaded files junk), t. split; [exact Ht|]. pose proof (img_length files).
  assert (Z.of_nat (length files) < 2147483648) as Hn by (fold img in H; lia). assert (∀ name, initrd_finddir (loaded files junk) initrd_root name = (λ p : nat * (list Z * list Z), Z.of_nat p.1) <$> list_find (λ f : list Z * list Z, name = f.1) files) as Hfind.
  { intros name. unfold initrd_finddir. change (has (n_flags initrd_root) FS_DIRECTORY) with true. cbn [loaded nroot_nodes root_nodes]. rewrite Nat2Z.id, take_ge by (unfold nodes_from; by rewrite length_imap). exact (find_root_run files junk files name 0%nat). }
  split_and!.
  - intros i name data Hi. pose proof (lookup_lt_Some _ _ _ Hi). pose proof (Forall_lookup_1 _ _ _ _ F Hi) as Hf. cbn in Hf. split_and!.
    + rewrite Hfind. assert (list_find (λ f : list Z * list Z, name = f.1) files = Some (i, (name, data))) as ->; [|done]. apply list_find_Some. split_and!; [done|done|].
      intros j [n d] Hj L ->. cbn in *. assert (i = j); [|lia]. eapply NoDup_lookup; [exact ND|change (map fst files) with (fst <$> files); rewrite list_lookup_fmap, Hi; done|change (map fst files) with (fst <$> files); by rewrite list_lookup_fmap, Hj].
    + unfold initrd_readdir. change (has (n_flags initrd_root) FS_DIRECTORY) with true. cbn [nroot_nodes loaded]. unfold u32. rewrite Z.mod_small by lia. replace (_ <? _) with true by (symmetry; apply Z.ltb_lt; lia).
      cbn [andb]. rewrite zlookup_nat, (loaded_node files junk i name data Hi). done.
    + eexists. split; [exact (loaded_node files junk i name data Hi)|]. intros off size ???. by apply (loaded_read files Hsize junk i name data).
  - intros name Hnin. rewrite Hfind. assert (list_find (λ f : list Z * list Z, name = f.1) files = None) as ->; [|done]. apply list_find_None, Forall_forall. intros f Hin ->. apply Hnin. by apply (list_elem_of_fmap_2 fst).
  - intros i Hi. unfold initrd_readdir. cbn [nroot_nodes loaded]. unfold u32. rewrite Z.mod_small by lia. replace (_ <? _) with false by (symmetry; apply Z.ltb_ge; lia). by rewrite andb_false_r.
Qed.

Definition demo_files : list (list Z * list Z) := [(str "A.TXT", str "hello"); (str "EMPTY", []); (str "B", [1; 2; 3])].
Lemma initrd_roundtrip_witness : ∃ s t, says (initrd_load (λ _, initrd_root) (make_initrd demo_files)) (Initrd [] 0 []) tt s t ∧
  (∀ i name data, demo_files !! i = Some (name, data) →
    initrd_finddir s initrd_root name = Some (Z.of_nat i) ∧
    initrd_readdir s initrd_root (Z.of_nat i) = Some (Some (mk_dirent name (Z.of_nat i) (Z.of_nat (length data)) FS_FILE 0)) ∧
    ∃ node, root_nodes s !! i = Some node ∧ ∀ off size, 0 ≤ off → 0 ≤ size → off + size < 18446744073709551616 →
      initrd_read s node off size = Some (slice (Z.to_nat size) data off)) ∧
  (∀ name, name ∉ map fst demo_files → initrd_finddir s initrd_root name = None) ∧
  (∀ i, 3 ≤ i → initrd_readdir s initrd_root i = Some None).
Proof.
  apply (initrd_roundtrip (λ _, initrd_root) demo_files (Initrd [] 0 [])); [by vm_compute| |apply (bool_decide_unpack _); by vm_compute].
  repeat (apply Forall_cons; split; [split; [printable_lit|cbn; lia]|]). constructor.
Defined.

(** A size near [2^64] wraps the bound: the copy leaves the image. *)
Lemma initrd_read_wraps : ∃ s node, initrd_read s node 1 18446744073709551615 = None ∧ n_length node = 5.
Proof.
  exists (Initrd (make_initrd demo_files) 3 []), (fill_node initrd_root (str "A.TXT") 5 0). split; [|done].
  unfold initrd_read. cbn [n_inode fill_node image nroot_nodes]. by vm_compute.
Qed.
