(* ===== verification/Ide.v ===== *)
(** * The IDE drive

    Models [kernel/modules/drivers/ide.c], the programmed-I/O driver, over the port
    instructions (class [Ports]).  [ata] is a drive as the ATA standard describes it:
    its task-file registers, the data phase of a command, and a number of status reads
    for which it is busy.  What is assumed of the machine is that its ports act on such
    a drive (class [AtaDrive]). *)

From stdpp Require Import base numbers list gmap strings.
From Stdlib Require Import ZArith Lia.
From S2P Require Import Prelude CString Bytes Display DisplayInv Console.

#[local] Open Scope Z_scope.
#[local] Open Scope kernel_scope.

Definition IDE_DATA : Z := 496.
Definition IDE_SECTOR_CNT : Z := 498.
Definition IDE_LBA_LOW : Z := 499.
Definition IDE_LBA_MID : Z := 500.
Definition IDE_LBA_HIGH : Z := 501.
Definition IDE_DRIVE_HEAD : Z := 502.
Definition IDE_STATUS : Z := 503.
Definition IDE_COMMAND : Z := 503.
Definition IDE_STATUS_BSY : Z := 128.
Definition IDE_STATUS_DRQ : Z := 8.
Definition IDE_STATUS_ERR : Z := 1.
Definition IDE_CMD_READ : Z := 32.
Definition IDE_CMD_WRITE : Z := 48.
Definition IDE_CMD_CACHE_FLUSH : Z := 231.
Definition IDE_TIMEOUT : Z := 10000000.

Class Ports (H : Type) := {
  port_byte_in : Z → kM H Z;
  port_byte_out : Z → Z → kM H unit;
  port_word_in : Z → kM H Z;
  port_word_out : Z → Z → kM H unit;
}.

(** ** The driver *)

Section driver.
Context {H : Type} {P : Ports H}.

(** [while (timeout--)] *)
Fixpoint wait_bsy (timeout : nat) : kM H Z :=
  match timeout with
  | O => kret (-1)
  | S timeout =>
      let* s := port_byte_in IDE_STATUS in
      if negb (has s IDE_STATUS_BSY) then kret 0 else wait_bsy timeout
  end.
Definition ide_wait_bsy : kM H Z := wait_bsy (Z.to_nat IDE_TIMEOUT).
Fixpoint wait_drq (timeout : nat) : kM H Z :=
  match timeout with
  | O => kret (-1)
  | S timeout =>
      let* s := port_byte_in IDE_STATUS in
      if has s IDE_STATUS_ERR then kret (-1) else if has s IDE_STATUS_DRQ then kret 0 else wait_drq timeout
  end.
Definition ide_wait_drq : kM H Z := wait_drq (Z.to_nat IDE_TIMEOUT).
Definition ide_delay_400ns : kM H unit :=
  let* _ := port_byte_in IDE_STATUS in let* _ := port_byte_in IDE_STATUS in
  let* _ := port_byte_in IDE_STATUS in let* _ := port_byte_in IDE_STATUS in kret tt.

(** The registers, and the command *)
Definition ide_select (lba cmd : Z) : kM H unit :=
  port_byte_out IDE_DRIVE_HEAD (Z.lor 224 (Z.land (Z.shiftr lba 24) 15)) ;;;
  ide_delay_400ns ;;;
  port_byte_out IDE_SECTOR_CNT 1 ;;;
  port_byte_out IDE_LBA_LOW (u8 lba) ;;;
  port_byte_out IDE_LBA_MID (u8 (Z.shiftr lba 8)) ;;;
  port_byte_out IDE_LBA_HIGH (u8 (Z.shiftr lba 16)) ;;;
  port_byte_out IDE_COMMAND cmd.

Fixpoint read_words (n : nat) : kM H (list Z) :=
  match n with O => kret [] | S n => let* w := port_word_in IDE_DATA in let* r := read_words n in kret (le_bytes 2 w ++ r) end.
(** [ptr[i]] for [i] from 0 on *)
Fixpoint write_words (n : nat) (buffer : list Z) : kM H unit :=
  match n with O => kret tt | S n => port_word_out IDE_DATA (rd 2 buffer 0) ;;; write_words n (drop 2 buffer) end.

(** The command up to the data phase: [None], or the message of an early return *)
Definition ide_command (lba cmd : Z) (err drq : string) : kM H (option (list Z)) :=
  let* r := ide_wait_bsy in
  if negb (r =? 0) then kret (Some [])
  else
    ide_select lba cmd ;;;
    let* _ := ide_wait_bsy in
    let* status := port_byte_in IDE_STATUS in
    if has status IDE_STATUS_ERR then kret (Some (str err ++ [10]))
    else
      let* r := ide_wait_drq in
      kret (if negb (r =? 0) then Some (str drq ++ [10]) else None).

Definition ide_read_sector (lba : Z) : kM (H * display) (Z * list Z) :=
  let* e := own (ide_command lba IDE_CMD_READ "[IDE] read error" "[IDE] DRQ error during read") in
  match e with
  | Some msg => (match msg with [] => kret tt | _ => say msg end) ;;; kret (-1, [])
  | None => let* buf := own (read_words 256) in kret (0, buf)
  end.
Definition ide_write_sector (lba : Z) (buffer : list Z) : kM (H * display) Z :=
  let* e := own (ide_command lba IDE_CMD_WRITE "[IDE] write error" "[IDE] DRQ error during write") in
  match e with
  | Some msg => (match msg with [] => kret tt | _ => say msg end) ;;; kret (-1)
  | None =>
      own (write_words 256 buffer ;;; port_byte_out IDE_COMMAND IDE_CMD_CACHE_FLUSH ;;; let* _ := ide_wait_bsy in kret tt) ;;;
      kret 0
  end.

End driver.

(** ** The drive *)

Inductive ata_phase : Type :=
| Idle
| DataIn (bytes : list Z)
| DataOut (lba : Z) (bytes : list Z)
| Failed.
Record ata := Ata { at_sec : gmap Z (list Z); at_delay : nat; at_busy : nat; at_head : Z; at_low : Z; at_mid : Z; at_high : Z; at_phase : ata_phase }.
Definition at_lba (a : ata) : Z := at_low a + 256 * at_mid a + 65536 * at_high a + 16777216 * (at_head a mod 16).
Definition set_phase (p : ata_phase) (busy : nat) (a : ata) : ata := Ata (at_sec a) (at_delay a) busy (at_head a) (at_low a) (at_mid a) (at_high a) p.

Definition ata_status (a : ata) : Z :=
  match at_busy a, at_phase a with
  | S _, _ => 128
  | O, Idle => 64
  | O, Failed => 65
  | O, _ => 72
  end.
(** A read of the status register *)
Definition ata_tick (a : ata) : ata := set_phase (at_phase a) (pred (at_busy a)) a.
Definition ata_command (cmd : Z) (a : ata) : ata :=
  if cmd =? IDE_CMD_READ then set_phase (match at_sec a !! at_lba a with Some d => DataIn d | None => Failed end) (at_delay a) a
  else if cmd =? IDE_CMD_WRITE then set_phase (match at_sec a !! at_lba a with Some _ => DataOut (at_lba a) [] | None => Failed end) (at_delay a) a
  else if cmd =? IDE_CMD_CACHE_FLUSH then set_phase Idle (at_delay a) a
  else set_phase Failed 0 a.
Definition ata_out (port v : Z) (a : ata) : ata :=
  if port =? IDE_DRIVE_HEAD then Ata (at_sec a) (at_delay a) (at_busy a) v (at_low a) (at_mid a) (at_high a) (at_phase a)
  else if port =? IDE_LBA_LOW then Ata (at_sec a) (at_delay a) (at_busy a) (at_head a) v (at_mid a) (at_high a) (at_phase a)
  else if port =? IDE_LBA_MID then Ata (at_sec a) (at_delay a) (at_busy a) (at_head a) (at_low a) v (at_high a) (at_phase a)
  else if port =? IDE_LBA_HIGH then Ata (at_sec a) (at_delay a) (at_busy a) (at_head a) (at_low a) (at_mid a) v (at_phase a)
  else if port =? IDE_COMMAND then ata_command v a
  else a.
(** A word of the data phase; the last one ends it *)
Definition ata_take (a : ata) : Z * ata :=
  match at_phase a with
  | DataIn [x; y] => (x + 256 * y, set_phase Idle (at_busy a) a)
  | DataIn (x :: y :: l) => (x + 256 * y, set_phase (DataIn l) (at_busy a) a)
  | _ => (65535, a)
  end.
Definition ata_give (w : Z) (a : ata) : ata :=
  match at_phase a with
  | DataOut lba l =>
      let l' := l ++ le_bytes 2 w in
      if (512 <=? length l')%nat then Ata (<[lba := l']> (at_sec a)) (at_delay a) (at_busy a) (at_head a) (at_low a) (at_mid a) (at_high a) Idle
      else set_phase (DataOut lba l') (at_busy a) a
  | _ => a
  end.

(** The ports of the machine act on a drive. *)
Class AtaDrive (H : Type) `{Ports H} := {
  the_ata : H → ata;
  in_status : ∀ h, ∃ h', port_byte_in IDE_STATUS h = Ret (ata_status (the_ata h)) h' ∧ the_ata h' = ata_tick (the_ata h);
  out_byte : ∀ p v h, ∃ h', port_byte_out p v h = Ret tt h' ∧ the_ata h' = ata_out p v (the_ata h);
  in_word : ∀ h, ∃ h', port_word_in IDE_DATA h = Ret (ata_take (the_ata h)).1 h' ∧ the_ata h' = (ata_take (the_ata h)).2;
  out_word : ∀ w h, ∃ h', port_word_out IDE_DATA w h = Ret tt h' ∧ the_ata h' = ata_give w (the_ata h);
}.

(** ** Runs *)

Section runs.
Context {H : Type} {P : Ports H} {A : AtaDrive H}.

(** After [m] the drive is [a], and [m] returned [v]. *)
Definition runs {V} (m : kM H V) (h : H) (v : V) (a : ata) : Prop := ∃ h', m h = Ret v h' ∧ the_ata h' = a.
Lemma runs_bind {V W} (m : kM H V) (k : V → kM H W) h v a w a' : runs m h v a → (∀ h', the_ata h' = a → runs (k v) h' w a') → runs (kbind m k) h w a'.
Proof. intros (h1 & E1 & <-) Hk. destruct (Hk h1 eq_refl) as (h2 & E2 & Ha). exists h2. split; [|done]. by rewrite (kbind_ret _ _ _ _ _ E1). Qed.
Lemma runs_ret {V} (v : V) h : runs (kret v) h v (the_ata h).
Proof. by exists h. Qed.

Lemma set_phase_same a : at_busy a = 0%nat → set_phase (at_phase a) 0 a = a.
Proof. destruct a; cbn. by intros ->. Qed.
Lemma tick_idle a : at_busy a = 0%nat → ata_tick a = a.
Proof. intros Hb. unfold ata_tick. rewrite Hb. by apply set_phase_same. Qed.

Lemma wait_bsy_run t : ∀ h, (at_busy (the_ata h) < t)%nat → runs (wait_bsy t) h 0 (set_phase (at_phase (the_ata h)) 0 (the_ata h)).
Proof.
  induction t as [|t IH]; intros h Hb; [lia|]. cbn [wait_bsy]. eapply runs_bind; [exact (in_status h)|]. intros h' Hh. unfold ata_status. destruct (at_busy (the_ata h)) as [|b] eqn:Eb.
  - assert (the_ata h' = set_phase (at_phase (the_ata h)) 0 (the_ata h)) as <- by (rewrite Hh; unfold ata_tick; by rewrite Eb).
    destruct (at_phase (the_ata h)); exact (runs_ret 0 h').
  - change (has 128 IDE_STATUS_BSY) with true. cbn [negb]. assert (set_phase (at_phase (the_ata h)) 0 (the_ata h) = set_phase (at_phase (the_ata h')) 0 (the_ata h')) as -> by (by rewrite Hh).
    apply IH. rewrite Hh. cbn. rewrite Eb. cbn. lia.
Qed.

(** The registers *)
Definition selected (lba cmd : Z) (a : ata) : ata :=
  ata_command cmd (Ata (at_sec a) (at_delay a) (at_busy a) (Z.lor 224 (Z.land (Z.shiftr lba 24) 15)) (u8 lba) (u8 (Z.shiftr lba 8)) (u8 (Z.shiftr lba 16)) (at_phase a)).
Lemma select_run lba cmd h : at_busy (the_ata h) = 0%nat → runs (ide_select lba cmd) h tt (selected lba cmd (the_ata h)).
Proof.
  intros Hb. unfold ide_select. eapply runs_bind; [exact (out_byte _ _ h)|]. intros h1 E1. cbn [ata_out] in E1.
  eapply (runs_bind _ _ h1 tt (the_ata h1)).
  { assert (at_busy (the_ata h1) = 0%nat) as Hb1 by (by rewrite E1). assert (∀ h, the_ata h = the_ata h1 → ata_tick (the_ata h) = the_ata h1) as Ht by (intros h0 ->; by apply tick_idle).
    unfold ide_delay_400ns. eapply runs_bind; [exact (in_status h1)|]. intros h2 E2. rewrite Ht in E2 by done. eapply runs_bind; [exact (in_status h2)|]. intros h3 E3. rewrite Ht in E3 by done.
    eapply runs_bind; [exact (in_status h3)|]. intros h4 E4. rewrite Ht in E4 by done. eapply runs_bind; [exact (in_status h4)|]. intros h5 E5. rewrite Ht in E5 by done. rewrite <-E5. apply runs_ret. }
  intros h2 E2. rewrite E1 in E2. clear h1 E1. eapply runs_bind; [exact (out_byte _ _ h2)|]. intros h3 E3. rewrite E2 in E3. eapply runs_bind; [exact (out_byte _ _ h3)|]. intros h4 E4. rewrite E3 in E4.
  eapply runs_bind; [exact (out_byte _ _ h4)|]. intros h5 E5. rewrite E4 in E5. eapply runs_bind; [exact (out_byte _ _ h5)|]. intros h6 E6. rewrite E5 in E6.
  destruct (out_byte IDE_COMMAND cmd h6) as (h7 & E7 & Ea). exists h7. split; [done|]. by rewrite Ea, E6.
Qed.
Lemma selected_lba lba a : 0 ≤ lba < 268435456 →
  at_lba (Ata (at_sec a) (at_delay a) (at_busy a) (Z.lor 224 (Z.land (Z.shiftr lba 24) 15)) (u8 lba) (u8 (Z.shiftr lba 8)) (u8 (Z.shiftr lba 16)) (at_phase a)) = lba.
Proof.
  intros Hl. unfold at_lba. cbn [at_low at_mid at_high at_head]. assert (Z.lor 224 (Z.land (Z.shiftr lba 24) 15) mod 16 = lba / 16777216) as ->.
  { change 16 with (2 ^ 4). rewrite <-Z.land_ones by lia. rewrite Z.land_lor_distr_l. change (Z.land 224 (Z.ones 4)) with 0. change 15 with (Z.ones 4). rewrite Z.lor_0_l, <-Z.land_assoc, Z.land_diag, Z.land_ones, Z.shiftr_div_pow2 by lia.
    change (2 ^ 24) with 16777216. change (2 ^ 4) with 16. apply Z.mod_small. split; [apply Z.div_pos; lia|apply Z.div_lt_upper_bound; lia]. }
  unfold u8. rewrite !Z.shiftr_div_pow2 by lia. change (2 ^ 8) with 256. change (2 ^ 16) with 65536. Z.div_mod_to_equations. lia.
Qed.

(** Up to the data phase, for a sector that exists *)
Lemma ide_command_run lba cmd err drq h p : at_phase (the_ata h) = Idle → (at_busy (the_ata h) < Z.to_nat IDE_TIMEOUT)%nat → (at_delay (the_ata h) < Z.to_nat IDE_TIMEOUT)%nat →
  at_phase (selected lba cmd (set_phase Idle 0 (the_ata h))) = p → at_busy (selected lba cmd (set_phase Idle 0 (the_ata h))) = at_delay (the_ata h) → p ≠ Idle → p ≠ Failed →
  runs (ide_command lba cmd err drq) h None (set_phase p 0 (selected lba cmd (set_phase Idle 0 (the_ata h)))).
Proof.
  intros Hp Hb Hd Hph Hbs N1 N2. unfold ide_command, ide_wait_bsy. eapply runs_bind; [by apply wait_bsy_run|]. rewrite Hp. intros h1 E1. change (negb (0 =? 0)) with false. cbn iota.
  eapply runs_bind; [apply select_run; by rewrite E1|]. intros h2 E2. rewrite E1 in E2. eapply runs_bind; [apply wait_bsy_run; rewrite E2, Hbs; done|]. rewrite E2, Hph. intros h3 E3.
  set (a := set_phase p 0 (selected lba cmd (set_phase Idle 0 (the_ata h)))) in *. assert (ata_status a = 72) as Es by (unfold ata_status; cbn; by destruct p).
  assert (ata_tick a = a) as Et by (by apply tick_idle). eapply runs_bind; [exact (in_status h3)|]. rewrite E3, Es, Et. intros h4 E4. change (has 72 IDE_STATUS_ERR) with false. cbn iota.
  unfold ide_wait_drq. destruct (Z.to_nat IDE_TIMEOUT) as [|t]; [lia|]. cbn [wait_drq]. eapply (runs_bind _ _ h4 0 a).
  - eapply runs_bind; [exact (in_status h4)|]. rewrite E4, Es, Et. intros h5 E5. change (has 72 IDE_STATUS_ERR) with false. change (has 72 IDE_STATUS_DRQ) with true. cbn iota. rewrite <-E5. apply runs_ret.
  - intros h5 E5. change (negb (0 =? 0)) with false. cbn iota. rewrite <-E5. apply runs_ret.
Qed.

Lemma le_word x y : 0 ≤ x < 256 → 0 ≤ y < 256 → le_bytes 2 (x + 256 * y) = [x; y].
Proof. intros Hx Hy. pose proof (le_bytes_val [x; y]) as E. cbn [le_val length] in E. rewrite Z.mul_0_r, Z.add_0_r in E. apply E. constructor; [done|]. constructor; [done|constructor]. Qed.

Lemma read_words_run n : ∀ l h, length l = (2 * S n)%nat → bytes l → at_phase (the_ata h) = DataIn l → runs (read_words (S n)) h l (set_phase Idle (at_busy (the_ata h)) (the_ata h)).
Proof.
  induction n as [|n IH]; intros l h Hl Hb Hp; cbn [read_words]; (destruct l as [|x [|y l]]; [cbn in Hl; lia..|]); apply Forall_cons in Hb as [Bx Hb]; apply Forall_cons in Hb as [By Hb].
  - destruct l; [|cbn in Hl; lia]. eapply runs_bind; [exact (in_word h)|]. unfold ata_take. rewrite Hp. cbn [fst snd]. intros h1 E1. rewrite le_word by done. exists h1. by split.
  - eapply runs_bind; [exact (in_word h)|]. unfold ata_take. rewrite Hp. destruct l as [|z l]; [cbn in Hl; lia|]. cbn [fst snd]. intros h1 E1. eapply runs_bind; [apply (IH (z :: l)); [cbn in *; lia|done|by rewrite E1]|].
    intros h2 E2. rewrite le_word by done. exists h2. split; [done|]. by rewrite E2, E1.
Qed.

Definition stored (lba : Z) (l : list Z) (a : ata) : ata := Ata (<[lba := l]> (at_sec a)) (at_delay a) (at_busy a) (at_head a) (at_low a) (at_mid a) (at_high a) Idle.
Lemma write_words_run lba n : ∀ done l h, length l = (2 * S n)%nat → bytes l → (length done + length l = 512)%nat → at_phase (the_ata h) = DataOut lba done →
  runs (write_words (S n) l) h tt (stored lba (done ++ l) (the_ata h)).
Proof.
  induction n as [|n IH]; intros acc l h Hl Hb Ha Hp; cbn [write_words]; (destruct l as [|x [|y l]]; [cbn in Hl; lia..|]); apply Forall_cons in Hb as [Bx Hb]; apply Forall_cons in Hb as [By Hb];
    change (rd 2 (x :: y :: l) 0) with (x + 256 * (y + 256 * 0)); rewrite Z.mul_0_r, Z.add_0_r; change (drop 2 (x :: y :: l)) with l.
  - destruct l; [|cbn in Hl; lia]. eapply runs_bind; [exact (out_word _ h)|]. intros h1 E1. exists h1. split; [done|]. rewrite E1. unfold ata_give. rewrite Hp, le_word by done.
    replace (512 <=? _)%nat with true by (symmetry; apply Nat.leb_le; rewrite length_app; cbn in *; lia). done.
  - eapply runs_bind; [exact (out_word _ h)|]. intros h1 E1. unfold ata_give in E1. rewrite Hp, le_word in E1 by done.
    replace (512 <=? _)%nat with false in E1 by (symmetry; apply Nat.leb_gt; rewrite length_app; cbn in *; lia).
    assert (stored lba (acc ++ x :: y :: l) (the_ata h) = stored lba ((acc ++ [x; y]) ++ l) (the_ata h1)) as -> by (rewrite E1, <-app_assoc; done).
    apply IH; [cbn in *; lia|done|rewrite length_app; cbn in *; lia|by rewrite E1].
Qed.

(** The drive between two commands *)
Record ready (h : H) : Prop := {
  rd_phase : at_phase (the_ata h) = Idle;
  rd_busy : (at_busy (the_ata h) < Z.to_nat IDE_TIMEOUT)%nat;
  rd_delay : (at_delay (the_ata h) < Z.to_nat IDE_TIMEOUT)%nat }.
Definition sectors (h : H) : gmap Z (list Z) := at_sec (the_ata h).

End runs.


(** A drive with one sector, busy for three status reads *)
#[export] Instance demo_ports : Ports ata := {|
  port_byte_in p := λ a, if p =? IDE_STATUS then Ret (ata_status a) (ata_tick a) else Ret 255 a;
  port_byte_out p v := λ a, Ret tt (ata_out p v a);
  port_word_in p := λ a, if p =? IDE_DATA then Ret (ata_take a).1 (ata_take a).2 else Ret 65535 a;
  port_word_out p w := λ a, if p =? IDE_DATA then Ret tt (ata_give w a) else Ret tt a |}.
#[export, refine] Instance demo_drive : AtaDrive ata := {| the_ata a := a |}.
Proof. all: intros; by eexists. Defined.
Definition demo_ata : ata := Ata {[ 5 := replicate 512 66 ]} 3 0 0 0 0 0 Idle.
Lemma demo_ready : ready demo_ata.
Proof. split; [done|change (0 < Z.to_nat IDE_TIMEOUT)%nat|change (3 < Z.to_nat IDE_TIMEOUT)%nat]; unfold IDE_TIMEOUT; lia. Qed.

(** Sectors from [2^28] on alias lower ones: only 28 bits of the address are sent. *)
Lemma lba_truncated lba a cmd : selected (lba + 268435456) cmd a = selected lba cmd a.
Proof.
  unfold selected, u8. assert (∀ k n, 0 ≤ k ≤ 24 → 0 ≤ n → k + n ≤ 28 → Z.shiftr (lba + 268435456) k mod 2 ^ n = Z.shiftr lba k mod 2 ^ n) as Hs.
  { intros k n Hk Hn Hkn. rewrite !Z.shiftr_div_pow2 by lia. replace 268435456 with (2 ^ (28 - k - n) * 2 ^ n * 2 ^ k) by (rewrite <-!Z.pow_add_r by lia; by replace (28 - k - n + n + k) with 28 by lia).
    rewrite Z.div_add by (apply Z.pow_nonzero; lia). apply Z.mod_add. apply Z.pow_nonzero; lia. }
  assert (Z.land (Z.shiftr (lba + 268435456) 24) 15 = Z.land (Z.shiftr lba 24) 15) as -> by (change 15 with (Z.ones 4); rewrite !Z.land_ones by lia; apply Hs; lia).
  pose proof (Hs 0 8 ltac:(lia) ltac:(lia) ltac:(lia)) as E0. rewrite !Z.shiftr_0_r in E0. change 256 with (2 ^ 8). by rewrite E0, (Hs 8 8), (Hs 16 8) by lia.
Qed.
