(* ===== verification/Pci.v ===== *)
(** * PCI configuration space

    Models [kernel/modules/drivers/pci.c] over the 32-bit port instructions (class
    [LongPorts]).  What is assumed of the machine is the access mechanism of the PCI
    standard: an address port that selects a register, and a data port to read and
    write it (class [PciBus]).  The theorem relates the scan to the list of the
    functions on all buses. *)

From stdpp Require Import base numbers list.
From Stdlib Require Import ZArith Lia.
From S2P Require Import Prelude.

#[local] Open Scope Z_scope.
#[local] Open Scope kernel_scope.

Definition PCI_CONFIG_ADDR : Z := 3320.
Definition PCI_CONFIG_DATA : Z := 3324.
Definition PCI_COMMAND : Z := 4.
Definition PCI_BAR0 : Z := 16.
Definition PCI_IRQ_LINE : Z := 60.
Definition PCI_CMD_MEM_SPACE : Z := 2.
Definition PCI_CMD_BUS_MASTER : Z := 4.

Class LongPorts (H : Type) := {
  port_long_in : Z → kM H Z;
  port_long_out : Z → Z → kM H unit;
}.

Record pci_device_t := PciDevice {
  pd_bus : Z; pd_slot : Z; pd_func : Z; pd_vendor_id : Z; pd_device_id : Z;
  pd_class_code : Z; pd_subclass : Z; pd_prog_if : Z; pd_irq_line : Z }.

(** The value written to the address port *)
Definition pci_address (bus slot func offset : Z) : Z :=
  Z.lor (Z.lor (Z.lor (Z.lor (Z.shiftl 1 31) (Z.shiftl bus 16)) (Z.shiftl slot 11)) (Z.shiftl func 8)) (Z.land offset 252).

Section driver.
Context {H : Type} {P : LongPorts H}.

Definition pci_config_read (bus slot func offset : Z) : kM H Z :=
  port_long_out PCI_CONFIG_ADDR (pci_address bus slot func offset) ;;; port_long_in PCI_CONFIG_DATA.
Definition pci_config_write (bus slot func offset val : Z) : kM H unit :=
  port_long_out PCI_CONFIG_ADDR (pci_address bus slot func offset) ;;; port_long_out PCI_CONFIG_DATA val.
Definition pci_get_bar (bus slot func bar_num : Z) : kM H Z :=
  let* bar := pci_config_read bus slot func (u8 (PCI_BAR0 + bar_num * 4)) in
  kret (if has bar 1 then Z.land bar 4294967292 else Z.land bar 4294967280).
Definition pci_enable_bus_master (bus slot func : Z) : kM H unit :=
  let* cmd := pci_config_read bus slot func PCI_COMMAND in
  pci_config_write bus slot func PCI_COMMAND (Z.lor cmd PCI_CMD_BUS_MASTER).
Definition pci_enable_mem_space (bus slot func : Z) : kM H unit :=
  let* cmd := pci_config_read bus slot func PCI_COMMAND in
  pci_config_write bus slot func PCI_COMMAND (Z.lor cmd PCI_CMD_MEM_SPACE).

(** The body of the loops: the device found, [Some None] to go on with the next
    function, [None] to leave the slot *)
Definition probe (class_code subclass prog_if bus slot func : Z) : kM H (option (option pci_device_t)) :=
  let* reg0 := pci_config_read bus slot func 0 in
  let vendor := Z.land reg0 65535 in
  if vendor =? 65535 then kret (if func =? 0 then None else Some None)
  else
    let* reg2 := pci_config_read bus slot func 8 in
    let cls := Z.land (Z.shiftr reg2 24) 255 in
    let sub := Z.land (Z.shiftr reg2 16) 255 in
    let pi := Z.land (Z.shiftr reg2 8) 255 in
    if (cls =? class_code) && (sub =? subclass) && (pi =? prog_if) then
      let* irq_reg := pci_config_read bus slot func PCI_IRQ_LINE in
      kret (Some (Some (PciDevice bus slot func vendor (Z.land (Z.shiftr reg0 16) 65535) cls sub pi (Z.land irq_reg 255))))
    else if func =? 0 then
      let* hdr := pci_config_read bus slot func 12 in
      kret (if has (Z.shiftr hdr 16) 128 then Some None else None)
    else kret (Some None).

Fixpoint func_loop (n : nat) (class_code subclass prog_if bus slot func : Z) : kM H (option pci_device_t) :=
  match n with
  | O => kret None
  | S n =>
      let* r := probe class_code subclass prog_if bus slot func in
      match r with
      | None => kret None
      | Some (Some d) => kret (Some d)
      | Some None => func_loop n class_code subclass prog_if bus slot (func + 1)
      end
  end.
Fixpoint slot_loop (n : nat) (class_code subclass prog_if bus slot : Z) : kM H (option pci_device_t) :=
  match n with
  | O => kret None
  | S n =>
      let* r := func_loop 8 class_code subclass prog_if bus slot 0 in
      match r with Some d => kret (Some d) | None => slot_loop n class_code subclass prog_if bus (slot + 1) end
  end.
Fixpoint bus_loop (n : nat) (class_code subclass prog_if bus : Z) : kM H (option pci_device_t) :=
  match n with
  | O => kret None
  | S n =>
      let* r := slot_loop 32 class_code subclass prog_if bus 0 in
      match r with Some d => kret (Some d) | None => bus_loop n class_code subclass prog_if (bus + 1) end
  end.
(** The device written to [out], [None] for [found = 0] and the result 0 *)
Definition pci_find_device (class_code subclass prog_if : Z) : kM H (option pci_device_t) :=
  bus_loop 256 class_code subclass prog_if 0.

End driver.

(** ** The access mechanism *)

Class PciBus (H : Type) `{LongPorts H} := {
  (** The register selected, and the registers by their address *)
  selected_reg : H → Z;
  registers : H → Z → Z;
  out_address : ∀ a h, ∃ h', port_long_out PCI_CONFIG_ADDR a h = Ret tt h' ∧ selected_reg h' = a ∧ registers h' = registers h;
  in_data : ∀ h, ∃ h', port_long_in PCI_CONFIG_DATA h = Ret (registers h (selected_reg h)) h' ∧ registers h' = registers h;
  (** A write goes to the register selected; the low half of the command register
      can be written. *)
  out_data : ∀ v h, ∃ h', port_long_out PCI_CONFIG_DATA v h = Ret tt h' ∧
    (∀ a, a ≠ selected_reg h → registers h' a = registers h a) ∧
    (Z.land (selected_reg h) 252 = PCI_COMMAND → Z.land (registers h' (selected_reg h)) 65535 = Z.land v 65535);
}.

(** ** The functions of the machine *)

Section spec.
Context (regs : Z → Z).

Definition reg (l : Z * Z * Z) (offset : Z) : Z := let '(bus, slot, func) := l in regs (pci_address bus slot func offset).
Definition present (l : Z * Z * Z) : bool := negb (Z.land (reg l 0) 65535 =? 65535).
Definition multi (bus slot : Z) : bool := has (Z.shiftr (reg (bus, slot, 0) 12) 16) 128.
(** A slot has its function 0, if it is there, and the others if function 0 says so. *)
Definition slot_functions (bus slot : Z) : list (Z * Z * Z) :=
  if present (bus, slot, 0) then
    (bus, slot, 0) :: (if multi bus slot then filter (λ l, present l = true) (map (λ f, (bus, slot, f)) (seqZ 1 7)) else [])
  else [].
Definition functions : list (Z * Z * Z) := seqZ 0 256 ≫= λ bus, seqZ 0 32 ≫= slot_functions bus.
Definition class_of (l : Z * Z * Z) : Z * Z * Z :=
  (Z.land (Z.shiftr (reg l 8) 24) 255, Z.land (Z.shiftr (reg l 8) 16) 255, Z.land (Z.shiftr (reg l 8) 8) 255).
Definition device (l : Z * Z * Z) : pci_device_t :=
  let '(bus, slot, func) := l in let '(c, s, p) := class_of l in
  PciDevice bus slot func (Z.land (reg l 0) 65535) (Z.land (Z.shiftr (reg l 0) 16) 65535) c s p (Z.land (reg l PCI_IRQ_LINE) 255).
(** The first function of the class *)
Fixpoint first_of (cls : Z * Z * Z) (ls : list (Z * Z * Z)) : option pci_device_t :=
  match ls with
  | [] => None
  | l :: ls => if bool_decide (class_of l = cls) then Some (device l) else first_of cls ls
  end.

Lemma first_of_app cls l1 l2 : first_of cls (l1 ++ l2) = match first_of cls l1 with Some d => Some d | None => first_of cls l2 end.
Proof. induction l1 as [|l l1 IH]; [done|]. cbn. by destruct (bool_decide _). Qed.
End spec.

(** ** The scan *)

Section scan.
Context {H : Type} {P : LongPorts H} {B : PciBus H}.
Implicit Types h : H.

(** [m] returns [v] and leaves the registers as they are. *)
Definition reads {A} (m : kM H A) h (v : A) : Prop := ∃ h', m h = Ret v h' ∧ registers h' = registers h.
Lemma reads_ret {A} (v : A) h : reads (kret v) h v.
Proof. by exists h. Qed.
Lemma reads_bind {A C} (m : kM H A) (k : A → kM H C) h v w : reads m h v → (∀ h', registers h' = registers h → reads (k v) h' w) → reads (kbind m k) h w.
Proof. intros (h1 & E1 & R1) Hk. destruct (Hk h1 R1) as (h2 & E2 & R2). exists h2. split; [by rewrite (kbind_ret _ _ _ _ _ E1)|congruence]. Qed.
Lemma config_read_run b s f o h : reads (pci_config_read b s f o) h (reg (registers h) (b, s, f) o).
Proof.
  destruct (out_address (pci_address b s f o) h) as (h1 & E1 & S1 & R1). destruct (in_data h1) as (h2 & E2 & R2). exists h2. split; [|congruence].
  unfold pci_config_read. rewrite (kbind_ret _ _ _ _ _ E1), E2. cbn. by rewrite S1, R1.
Qed.

Lemma class_eqb regs l c s p : (Z.land (Z.shiftr (reg regs l 8) 24) 255 =? c) && (Z.land (Z.shiftr (reg regs l 8) 16) 255 =? s) && (Z.land (Z.shiftr (reg regs l 8) 8) 255 =? p) = bool_decide (class_of regs l = (c, s, p)).
Proof. unfold class_of. apply Bool.eq_iff_eq_true. rewrite !andb_true_iff, !Z.eqb_eq, bool_decide_eq_true. split; [by intros [[-> ->] ->]|by intros [= -> -> ->]]. Qed.

Lemma probe_run c s p b sl f h : let R := registers h in let l := (b, sl, f) in
  reads (probe c s p b sl f) h
    (if present R l then if bool_decide (class_of R l = (c, s, p)) then Some (Some (device R l)) else if f =? 0 then if multi R b sl then Some None else None else Some None
     else if f =? 0 then None else Some None).
Proof.
  intros R l. unfold probe. eapply reads_bind; [apply config_read_run|]. intros h1 R1. fold R l. unfold present. destruct (Z.land (reg R l 0) 65535 =? 65535); cbn [negb]; [apply reads_ret|].
  eapply reads_bind; [apply config_read_run|]. intros h2 R2. rewrite R1. fold R l. rewrite class_eqb. case_bool_decide as Ec.
  - eapply reads_bind; [apply config_read_run|]. intros h3 R3. rewrite R2, R1. fold R l. apply reads_ret.
  - destruct (Z.eqb_spec f 0) as [Ef|]; [|apply reads_ret]. eapply reads_bind; [apply config_read_run|]. intros h3 R3. rewrite R2, R1. unfold multi. rewrite Ef. apply reads_ret.
Qed.

Lemma func_loop_run n : ∀ c s p b sl f h, 1 ≤ f →
  reads (func_loop n c s p b sl f) h (first_of (registers h) (c, s, p) (filter (λ l, present (registers h) l = true) (map (λ f, (b, sl, f)) (seqZ f (Z.of_nat n))))).
Proof.
  induction n as [|n IH]; intros c s p b sl f h Hf; [apply reads_ret|]. cbn [func_loop]. eapply reads_bind; [apply probe_run|]. intros h1 R1. rewrite (seqZ_cons f) by lia. cbn [map]. replace (Z.pred (Z.of_nat (S n))) with (Z.of_nat n) by lia.
  replace (f =? 0) with false by (symmetry; apply Z.eqb_neq; lia). specialize (IH c s p b sl (f + 1) h1 ltac:(lia)). rewrite R1 in IH. change (Z.succ f) with (f + 1).
  destruct (present (registers h) (b, sl, f)) eqn:Ep; [rewrite filter_cons_True by done; cbn [first_of]; case_bool_decide|rewrite filter_cons_False by (by rewrite Ep)]; [apply reads_ret|exact IH|exact IH].
Qed.
Lemma slot_run c s p b sl h : reads (func_loop 8 c s p b sl 0) h (first_of (registers h) (c, s, p) (slot_functions (registers h) b sl)).
Proof.
  cbn [func_loop]. eapply reads_bind; [apply probe_run|]. intros h1 R1. unfold slot_functions. cbn [Z.eqb]. destruct (present (registers h) (b, sl, 0)); [|apply reads_ret]. cbn [first_of]. case_bool_decide; [apply reads_ret|].
  destruct (multi (registers h) b sl); [|apply reads_ret]. rewrite <-R1. exact (func_loop_run 7 c s p b sl (0 + 1) h1 ltac:(lia)).
Qed.
Lemma slot_loop_run n : ∀ c s p b sl h, reads (slot_loop n c s p b sl) h (first_of (registers h) (c, s, p) (seqZ sl (Z.of_nat n) ≫= slot_functions (registers h) b)).
Proof.
  induction n as [|n IH]; intros c s p b sl h; [apply reads_ret|]. cbn [slot_loop]. rewrite (seqZ_cons sl) by lia. replace (Z.pred (Z.of_nat (S n))) with (Z.of_nat n) by lia. cbn [mbind list_bind]. rewrite first_of_app.
  eapply reads_bind; [apply slot_run|]. intros h1 R1. destruct (first_of _ _ (slot_functions _ _ _)); [apply reads_ret|]. rewrite <-R1. apply IH.
Qed.
Lemma bus_loop_run n : ∀ c s p b h, reads (bus_loop n c s p b) h (first_of (registers h) (c, s, p) (seqZ b (Z.of_nat n) ≫= λ b, seqZ 0 32 ≫= slot_functions (registers h) b)).
Proof.
  induction n as [|n IH]; intros c s p b h; [apply reads_ret|]. cbn [bus_loop]. rewrite (seqZ_cons b) by lia. replace (Z.pred (Z.of_nat (S n))) with (Z.of_nat n) by lia. cbn [mbind list_bind]. rewrite first_of_app.
  pose proof (slot_loop_run 32 c s p b 0 h) as Hs. change (Z.of_nat 32) with 32 in Hs. eapply reads_bind; [exact Hs|]. intros h1 R1. destruct (first_of _ _ (seqZ 0 32 ≫= _)); [apply reads_ret|]. rewrite <-R1. apply IH.
Qed.


End scan.

(** ** A machine *)

Record pci_machine := PciMachine { m_selected : Z; m_registers : Z → Z }.
#[export] Instance machine_ports : LongPorts pci_machine := {|
  port_long_in p := λ m, Ret (if p =? PCI_CONFIG_DATA then m_registers m (m_selected m) else 4294967295) m;
  port_long_out p v := λ m, Ret tt
    (if p =? PCI_CONFIG_ADDR then PciMachine v (m_registers m)
     else if p =? PCI_CONFIG_DATA then PciMachine (m_selected m) (λ a, if a =? m_selected m then v else m_registers m a) else m);
|}.
#[export] Instance machine_bus : PciBus pci_machine.
Proof.
  refine {| selected_reg := m_selected; registers := m_registers |}.
  - intros a m. by eexists.
  - intros m. by exists m.
  - intros v m. exists (PciMachine (m_selected m) (λ a, if a =? m_selected m then v else m_registers m a)). split; [done|]. cbn [m_selected m_registers]. split; [intros a Ha; by destruct (Z.eqb_spec a (m_selected m))|]. by rewrite Z.eqb_refl.
Defined.
(** A host bridge, and in slot 1 a device of two functions, the second a USB controller *)
Definition demo_registers (a : Z) : Z :=
  if a =? pci_address 0 0 0 0 then 305627270 else if a =? pci_address 0 0 0 8 then 100663298
  else if a =? pci_address 0 1 0 0 then 1879081094 else if a =? pci_address 0 1 0 8 then 100728832 else if a =? pci_address 0 1 0 12 then 8388608
  else if a =? pci_address 0 1 2 0 then 1881178246 else if a =? pci_address 0 1 2 8 then 201523201 else if a =? pci_address 0 1 2 60 then 1035
  else 4294967295.
