(* ===== verification/Cpu.v ===== *)
(** * Segments, gates and interrupts of a CPU

    Models [kernel/arch/x86_64/cpu/gdt.c], the 64-bit part of [kernel/cpu/idt.c] and
    [kernel/cpu/isr.c].  The tables are the bytes and records that the processor reads;
    how it reads them ([segment], [gate]) is the layout of its manual.  [stub] is the
    address of an entry point of [interrupt64.asm], [tss_addr i] that of
    [cpu_local[i].tss], [local_addr i] that of [cpu_local[i]]. *)

From stdpp Require Import base numbers list.
From Stdlib Require Import ZArith Lia.
From S2P Require Import Prelude CString Bytes.

#[local] Open Scope Z_scope.
#[local] Open Scope kernel_scope.

Definition MAX_CPU : Z := 1024.
Definition SMP_MAX_CPUS : Z := 8.
Definition GDT_TSS_BASE : Z := 7.
Definition KERNEL_CS : Z := 8.
Definition IDT_ENTRIES : Z := 256.
(** [sizeof(tss64_entry_t)] *)
Definition TSS_SIZE : Z := 104.

Record idt_gate_t := IdtGate { offset_low : Z; selector : Z; ist : Z; gflags : Z; offset_mid : Z; offset_high : Z }.
Record cpu_local_t := CpuLocal { cl_id : Z; cl_current : Z; cl_irq_depth : Z; cl_task_switch_rsp : Z; cl_ticks : Z; cl_kstack_base : Z; cl_kstack_top : Z; cl_rsp0 : Z; cl_iomap : Z }.
Definition zero_local : cpu_local_t := CpuLocal 0 0 0 0 0 0 0 0 0.

Record tables := Tables {
  gdt : list Z;                  (** [gdt_entries] *)
  idt : list idt_gate_t;
  locals : list cpu_local_t;     (** [cpu_local] *)
  interrupt_handlers : list Z;
  tr : Z; gs_base : Z;           (** registers of the CPU that runs *)
  out : list (Z * Z);            (** bytes sent to the interrupt controller *)
}.
Definition set_gdt (g : list Z) (s : tables) : tables := Tables g (idt s) (locals s) (interrupt_handlers s) (tr s) (gs_base s) (out s).
Definition set_gates (g : list idt_gate_t) (s : tables) : tables := Tables (gdt s) g (locals s) (interrupt_handlers s) (tr s) (gs_base s) (out s).
Definition set_locals (l : list cpu_local_t) (s : tables) : tables := Tables (gdt s) (idt s) l (interrupt_handlers s) (tr s) (gs_base s) (out s).
Definition set_handlers (l : list Z) (s : tables) : tables := Tables (gdt s) (idt s) (locals s) l (tr s) (gs_base s) (out s).
Definition set_regs (t g : Z) (s : tables) : tables := Tables (gdt s) (idt s) (locals s) (interrupt_handlers s) t g (out s).
Definition port_out (p v : Z) : kM tables unit := kmodify (λ s, Tables (gdt s) (idt s) (locals s) (interrupt_handlers s) (tr s) (gs_base s) (out s ++ [(p, v)])).

(** ** Segments *)

Definition gdt_set_gate (num limit access gran : Z) : kM tables unit :=
  let* s := kget in
  let o := 8 * num in
  if (0 <=? num) && (o + 8 <=? Z.of_nat (length (gdt s))) then
    let g := wr 2 (gdt s) o (Z.land limit 65535) in
    let g := wr 2 g (o + 2) 0 in
    let g := wr 1 g (o + 4) 0 in
    let g := wr 1 g (o + 7) 0 in
    let g := wr 1 g (o + 6) (Z.lor (Z.land (Z.shiftr limit 16) 15) (Z.land gran 240)) in
    let g := wr 1 g (o + 5) access in
    kput (set_gdt g s)
  else kfault.
Definition write_tss64 (num tss : Z) : kM tables unit :=
  let* s := kget in
  let o := 8 * num in let limit := TSS_SIZE - 1 in
  if (0 <=? num) && (o + 16 <=? Z.of_nat (length (gdt s))) then
    let g := wr 2 (gdt s) o (Z.land limit 65535) in
    let g := wr 2 g (o + 2) (Z.land tss 65535) in
    let g := wr 1 g (o + 4) (Z.land (Z.shiftr tss 16) 255) in
    let g := wr 1 g (o + 5) 137 in
    let g := wr 1 g (o + 6) (Z.land (Z.shiftr limit 16) 15) in
    let g := wr 1 g (o + 7) (Z.land (Z.shiftr tss 24) 255) in
    let g := wr 4 g (o + 8) (Z.land (Z.shiftr tss 32) 4294967295) in
    let g := wr 4 g (o + 12) 0 in
    kput (set_gdt g s)
  else kfault.
Definition init_gdt : kM tables unit :=
  kmodify (λ s, set_locals (map (λ _, zero_local) (locals s)) (set_gdt (map (λ _, 0) (gdt s)) s)) ;;;
  gdt_set_gate 0 0 0 0 ;;;
  gdt_set_gate 1 1048575 154 32 ;;;
  gdt_set_gate 2 1048575 146 0 ;;;
  gdt_set_gate 3 1048575 250 32 ;;;
  gdt_set_gate 4 1048575 242 0 ;;;
  gdt_set_gate 5 1048575 250 192 ;;;
  gdt_set_gate 6 1048575 242 192.

Section cpu.
Context (tss_addr local_addr : Z → Z).

(** [kstack] is the block of 8192 bytes that [kmalloc] returned.  [write_tss64] clears
    the TSS, so its stack pointer is stored a second time. *)
Definition cpu_init (cpu_id kstack : Z) : kM tables unit :=
  if MAX_CPU <=? cpu_id then kret tt
  else
    let* s := kget in
    let* c := kget_opt (λ s, zlookup (locals s) cpu_id) in
    let top := u64 (kstack + 8192) in
    let* l := kget_opt (λ s, zset (locals s) cpu_id (CpuLocal cpu_id 0 0 0 0 kstack top top (cl_iomap c))) in
    kput (set_locals l s) ;;;
    write_tss64 (GDT_TSS_BASE + cpu_id * 2) (tss_addr cpu_id) ;;;
    let* s := kget in
    let* l := kget_opt (λ s, zset (locals s) cpu_id (CpuLocal cpu_id 0 0 0 0 kstack top top TSS_SIZE)) in
    kput (set_regs (Z.shiftl (GDT_TSS_BASE + cpu_id * 2) 3) (local_addr cpu_id) (set_locals l s)).
End cpu.

(** ** Gates *)

Definition set_idt_gate (n handler flags : Z) : kM tables unit :=
  let* s := kget in
  let* g := kget_opt (λ s, zset (idt s) n (IdtGate (Z.land handler 65535) KERNEL_CS 0 flags (Z.land (Z.shiftr handler 16) 65535) (Z.land (Z.shiftr handler 32) 4294967295))) in
  kput (set_gates g s).

(** The entry points [isr<n>] and [irq<n>] *)
Inductive entry_point : Type := Isr (n : Z) | IrqStub (n : Z).
#[export] Instance entry_point_eq : EqDecision entry_point.
Proof. solve_decision. Defined.
Section gates.
Context (stub : entry_point → Z).

Fixpoint set_gates_from (n : nat) (v : Z) (f : Z → entry_point) (i : Z) : kM tables unit :=
  match n with O => kret tt | S n => set_idt_gate (v + i) (stub (f i)) 142 ;;; set_gates_from n v f (i + 1) end.
Definition remap_pic : kM tables unit :=
  port_out 32 17 ;;; port_out 160 17 ;;; port_out 33 32 ;;; port_out 161 40 ;;; port_out 33 4 ;;;
  port_out 161 2 ;;; port_out 33 1 ;;; port_out 161 1 ;;; port_out 33 0 ;;; port_out 161 0.
Definition isr_install : kM tables unit :=
  set_gates_from 32 0 Isr 0 ;;;
  remap_pic ;;;
  set_gates_from 16 32 IrqStub 0 ;;;
  set_idt_gate 64 (stub (Isr 64)) 142 ;;;
  set_idt_gate 65 (stub (Isr 65)) 142 ;;;
  set_idt_gate 255 (stub (Isr 255)) 142 ;;;
  set_idt_gate 48 (stub (Isr 80)) 142 ;;;
  set_idt_gate 128 (stub (Isr 128)) 238.
End gates.

Definition register_interrupt_handler (n handler : Z) : kM tables unit :=
  let* s := kget in
  let* l := kget_opt (λ s, zset (interrupt_handlers s) n handler) in kput (set_handlers l s).

(** ** Interrupts *)

(** The interrupt controllers are told: the local APIC, or the PICs at their command ports. *)
Inductive ack : Type := LapicEoi | PicEoi (port : Z).
Record irqs (S : Type) := Irqs { depth : Z; handlers : list Z; acks : list ack; inner : S }.
Arguments Irqs {S}.
Arguments depth {S}.
Arguments handlers {S}.
Arguments acks {S}.
Arguments inner {S}.

Section dispatch.
(** What a handler at an address does, the stack check and the task switch of the
    scheduler *)
Context {S : Type} (call : Z → kM S unit) (assert_on_kstack task_switch : kM S unit).
Context (lapic_enabled use_lapic_timer : bool).

Definition within (m : kM S unit) : kM (irqs S) unit := λ s,
  let put i := Irqs (depth s) (handlers s) (acks s) i in
  match m (inner s) with
  | Ret a i => Ret a (put i)
  | Hang i => Hang (put i)
  | Panic i => Panic (put i)
  | Fault => Fault
  | NoFuel => NoFuel
  end.
Definition set_depth (f : Z → Z) : kM (irqs S) unit := kmodify (λ s, Irqs (u32 (f (depth s))) (handlers s) (acks s) (inner s)).
Definition tell (a : ack) : kM (irqs S) unit := kmodify (λ s, Irqs (depth s) (handlers s) (acks s ++ [a]) (inner s)).

Definition send_eoi (int_no : Z) : kM (irqs S) unit :=
  let pic := (if 8 <=? u8 (int_no - 32) then tell (PicEoi 160) else kret tt) ;;; tell (PicEoi 32) in
  if lapic_enabled then tell LapicEoi ;;; (if negb (int_no =? 32) || use_lapic_timer then kret tt else pic) else pic.

Definition enter_interrupt : kM (irqs S) unit :=
  set_depth (Z.add 1) ;;; within assert_on_kstack ;;;
  let* s := kget in if 2 <? depth s then kpanic else kret tt.
Definition isr_handler (int_no : Z) : kM (irqs S) unit :=
  enter_interrupt ;;;
  let* h := kget_opt (λ s, zlookup (handlers s) int_no) in
  if negb (h =? 0) then within (call h) ;;; set_depth (λ d, d - 1) else kpanic.
Definition irq_handler (int_no : Z) : kM (irqs S) unit :=
  enter_interrupt ;;;
  let* h := kget_opt (λ s, zlookup (handlers s) int_no) in
  (if negb (h =? 0) then within (call h) else kret tt) ;;;
  send_eoi int_no ;;;
  (if (int_no =? 32) || (int_no =? 64) then within task_switch else kret tt) ;;;
  set_depth (λ d, d - 1).

(** What the controllers must be told for an interrupt *)
Definition eoi_of (int_no : Z) : list ack :=
  let pic := if (40 <=? int_no) && (int_no <? 288) then [PicEoi 160; PicEoi 32] else [PicEoi 32] in
  if lapic_enabled then LapicEoi :: (if (int_no =? 32) && negb use_lapic_timer then pic else []) else pic.

Lemma within_ret m i i' d hs a : m i = Ret tt i' → within m (Irqs d hs a i) = Ret tt (Irqs d hs a i').
Proof. intros E. unfold within. cbn. by rewrite E. Qed.
Lemma send_eoi_run n d hs a i : 32 ≤ n < 256 → send_eoi n (Irqs d hs a i) = Ret tt (Irqs d hs (a ++ eoi_of n) i).
Proof.
  intros Hn. unfold send_eoi, eoi_of, kbind, kret, tell, kmodify, u8. replace ((n - 32) mod 256) with (n - 32) by (symmetry; apply Z.mod_small; lia). replace (40 <=? n) with (8 <=? n - 32) by (apply Bool.eq_iff_eq_true; rewrite !Z.leb_le; lia). replace (n <? 288) with true by (symmetry; apply Z.ltb_lt; lia). rewrite andb_true_r.
  destruct lapic_enabled; cbn [depth handlers acks inner]; [destruct (n =? 32), use_lapic_timer; cbn [negb orb andb]; try done|]; destruct (8 <=? n - 32); cbn [depth handlers acks inner]; by rewrite <-?app_assoc.
Qed.

Lemma enter_run d hs a i i1 : 0 ≤ d ≤ 1 → assert_on_kstack i = Ret tt i1 → enter_interrupt (Irqs d hs a i) = Ret tt (Irqs (1 + d) hs a i1).
Proof.
  intros Hd Hk. unfold enter_interrupt. rewrite (kbind_ret (set_depth _) _ _ tt (Irqs (1 + d) hs a i)) by (unfold set_depth, kmodify; cbn; unfold u32; by rewrite Z.mod_small by lia).
  rewrite (kbind_ret _ _ _ _ _ (within_ret _ _ _ _ hs a Hk)), (kbind_ret kget _ _ _ _ eq_refl). cbn [depth]. by replace (2 <? 1 + d) with false by (symmetry; apply Z.ltb_ge; lia).
Qed.
(** A device interrupt runs its handler, acknowledges once where the interrupt came from,
    lets the scheduler run on a timer tick, and leaves the nesting depth as it was. *)
Lemma irq_handler_run n h d hs a i i1 i2 i3 : 32 ≤ n < 256 → 0 ≤ d ≤ 1 → zlookup hs n = Some h → assert_on_kstack i = Ret tt i1 →
  (if h =? 0 then i2 = i1 else call h i1 = Ret tt i2) → (if (n =? 32) || (n =? 64) then task_switch i2 = Ret tt i3 else i3 = i2) →
  irq_handler n (Irqs d hs a i) = Ret tt (Irqs d hs (a ++ eoi_of n) i3).
Proof.
  intros Hn Hd Hh Hk Hc Ht. unfold irq_handler. rewrite (kbind_ret _ _ _ _ _ (enter_run _ hs a _ _ Hd Hk)).
  rewrite (kbind_ret _ _ _ h (Irqs (1 + d) hs a i1)) by (unfold kget_opt; cbn; by rewrite Hh).
  rewrite (kbind_ret _ _ _ tt (Irqs (1 + d) hs a i2)) by (destruct (h =? 0); cbn [negb]; [by subst|by apply within_ret]). rewrite (kbind_ret _ _ _ _ _ (send_eoi_run n _ _ _ _ Hn)).
  rewrite (kbind_ret _ _ _ tt (Irqs (1 + d) hs (a ++ eoi_of n) i3)) by (destruct ((n =? 32) || (n =? 64)); [by apply within_ret|by subst]).
  unfold set_depth, kmodify. cbn [depth handlers acks inner]. do 2 f_equal. unfold u32. rewrite Z.mod_small by lia. lia.
Qed.
End dispatch.

(** ** What the processor reads *)

(** Base, limit, access byte and flags of a segment; the whole base of a TSS *)
Definition segment (g : list Z) (n : Z) : Z * Z * Z * Z :=
  let o := 8 * n in
  (rd 2 g (o + 2) + 65536 * rd 1 g (o + 4) + 16777216 * rd 1 g (o + 7), rd 2 g o + 65536 * (rd 1 g (o + 6) mod 16), rd 1 g (o + 5), rd 1 g (o + 6) / 16).
Definition tss_base (g : list Z) (n : Z) : Z := (segment g n).1.1.1 + 4294967296 * rd 4 g (8 * n + 8).
(** Offset and privilege of a gate *)
Definition gate_offset (g : idt_gate_t) : Z := offset_low g + 65536 * offset_mid g + 4294967296 * offset_high g.
Definition gate_present (g : idt_gate_t) : bool := has (gflags g) 128.
Definition gate_dpl (g : idt_gate_t) : Z := Z.land (Z.shiftr (gflags g) 5) 3.

Lemma split_address a : 0 ≤ a < 18446744073709551616 →
  Z.land a 65535 + 65536 * Z.land (Z.shiftr a 16) 65535 + 4294967296 * Z.land (Z.shiftr a 32) 4294967295 = a.
Proof.
  intros Ha. change 65535 with (Z.ones 16). change 4294967295 with (Z.ones 32). rewrite !Z.land_ones, !Z.shiftr_div_pow2 by lia. change (2 ^ 16) with 65536. change (2 ^ 32) with 4294967296.
  pose proof (Z.div_mod a 65536 ltac:(lia)). pose proof (Z.div_mod (a / 65536) 65536 ltac:(lia)) as H2. rewrite Z.div_div in H2 by lia. change (65536 * 65536) with 4294967296 in H2.
  rewrite (Z.mod_small (a / 4294967296)) by (split; [apply Z.div_pos; lia|apply Z.div_lt_upper_bound; lia]). lia.
Qed.

(** The gates that [isr_install] writes, in order *)
Definition gate_table : list (Z * entry_point * Z) :=
  map (λ i, (i, Isr i, 142)) (seqZ 0 32) ++ map (λ i, (32 + i, IrqStub i, 142)) (seqZ 0 16) ++
  [(64, Isr 64, 142); (65, Isr 65, 142); (255, Isr 255, 142); (48, Isr 80, 142); (128, Isr 128, 238)].
Definition gate_to (a flags : Z) : idt_gate_t := IdtGate (Z.land a 65535) KERNEL_CS 0 flags (Z.land (Z.shiftr a 16) 65535) (Z.land (Z.shiftr a 32) 4294967295).

Section install.
Context (stub : entry_point → Z).
Definition put_gate (l : list idt_gate_t) (t : Z * entry_point * Z) : list idt_gate_t := <[Z.to_nat t.1.1 := gate_to (stub t.1.2) t.2]> l.
(** [m] fills in the gates of [t] and changes nothing else of the gates. *)
Definition fills (m : kM tables unit) (t : list (Z * entry_point * Z)) : Prop :=
  ∀ s, length (idt s) = 256%nat → ∃ s', m s = Ret tt s' ∧ idt s' = foldl put_gate (idt s) t.
Lemma put_gates_length t : ∀ l, length (foldl put_gate l t) = length l.
Proof. induction t as [|x t IH]; intros l; [done|]. cbn [foldl]. rewrite IH. apply length_insert. Qed.
Lemma fills_bind m k t1 t2 : fills m t1 → fills k t2 → fills (m ;;; k) (t1 ++ t2).
Proof.
  intros H1 H2 s Hs. destruct (H1 s Hs) as (s1 & E1 & I1). destruct (H2 s1) as (s2 & E2 & I2); [by rewrite I1, put_gates_length|].
  exists s2. split; [by rewrite (kbind_ret _ _ _ _ _ E1)|]. by rewrite I2, I1, foldl_app.
Qed.
Lemma fills_gate n e f : 0 ≤ n < 256 → fills (set_idt_gate n (stub e) f) [(n, e, f)].
Proof.
  intros Hn s Hs. unfold set_idt_gate. rewrite (kbind_ret kget _ _ _ _ eq_refl). unfold kget_opt, kbind. fold (gate_to (stub e) f). rewrite zset_lt by lia. by eexists.
Qed.
Lemma fills_out p v : fills (port_out p v) [].
Proof. intros s Hs. by eexists. Qed.
Lemma fills_from n v f : ∀ i, 0 ≤ v + i → v + i + Z.of_nat n ≤ 256 → fills (set_gates_from stub n v f i) (map (λ j, (v + j, f j, 142)) (seqZ i (Z.of_nat n))).
Proof.
  induction n as [|n IH]; intros i Hi Hn; [intros s Hs; by exists s|]. rewrite seqZ_cons by lia. replace (Z.pred (Z.of_nat (S n))) with (Z.of_nat n) by lia. cbn [set_gates_from map].
  apply (fills_bind _ _ [(v + i, f i, 142)]); [apply fills_gate; lia|apply IH; lia].
Qed.
Lemma remap_pic_run : fills remap_pic [].
Proof. unfold remap_pic. do 9 (refine (fills_bind _ _ [] [] (fills_out _ _) _)). apply fills_out. Qed.
Lemma isr_install_run : fills (isr_install stub) gate_table.
Proof.
  exact (fills_bind _ _ _ _ (fills_from 32 0 Isr 0 ltac:(lia) ltac:(lia)) (fills_bind _ _ [] _ remap_pic_run (fills_bind _ _ _ _ (fills_from 16 32 IrqStub 0 ltac:(lia) ltac:(lia))
    (fills_bind _ _ _ _ (fills_gate 64 _ _ ltac:(lia)) (fills_bind _ _ _ _ (fills_gate 65 _ _ ltac:(lia)) (fills_bind _ _ _ _ (fills_gate 255 _ _ ltac:(lia))
    (fills_bind _ _ _ _ (fills_gate 48 _ _ ltac:(lia)) (fills_gate 128 _ _ ltac:(lia))))))))).
Qed.

Lemma lookup_gates t : ∀ l n g, foldl put_gate l t !! n = Some g → (∃ x, x ∈ t ∧ n = Z.to_nat x.1.1 ∧ g = gate_to (stub x.1.2) x.2) ∨ l !! n = Some g.
Proof.
  induction t as [|x t IH]; intros l n g H; [by right|]. apply IH in H as [(y & Hy & H)|H]; [left; exists y; split; [by right|done]|]. unfold put_gate in H.
  apply list_lookup_insert_Some in H as [(<- & <- & _)|[_ H]]; [left; exists x; split; [by left|done]|by right].
Qed.
End install.

Definition demo_stub (e : entry_point) : Z := match e with Isr n => 4096 + 16 * (n mod 256) | IrqStub n => 8192 + 16 * (n mod 256) end.

(** ** Segments *)

Section fields.
Context (L : Z).
Lemma wr_len n b i v : Z.of_nat (length b) = L → 0 ≤ i → i + Z.of_nat n ≤ L → Z.of_nat (length (wr n b i v)) = L.
Proof. intros H ? ?. by rewrite wr_length by lia. Qed.
Lemma rd_other n m b i j v : Z.of_nat (length b) = L → 0 ≤ i → i + Z.of_nat n ≤ L → 0 ≤ j → j + Z.of_nat m ≤ i ∨ i + Z.of_nat n ≤ j → rd m (wr n b i v) j = rd m b j.
Proof. intros <- ? ? ? ?. by apply rd_wr_ne. Qed.
Lemma rd_same n b i v : Z.of_nat (length b) = L → 0 ≤ i → i + Z.of_nat n ≤ L → rd n (wr n b i v) i = v mod 2 ^ (8 * Z.of_nat n).
Proof. intros <- ? ?. by apply rd_wr. Qed.
End fields.
Ltac len H := first [exact H | eapply wr_len; [len H | lia | lia]].
(** Reads of fields through a chain of writes to others *)
Ltac fields H := repeat (erewrite rd_other; [|len H|lia|lia|lia|lia]); try (erewrite rd_same; [|len H|lia|lia]).
Lemma flags_split x g : 0 ≤ x < 16 → 0 ≤ g < 256 → let b := Z.lor (Z.land x 15) (Z.land g 240) in 0 ≤ b < 256 ∧ b mod 16 = x ∧ b / 16 = g / 16.
Proof.
  intros Hx Hg. assert (Forall (λ x, Forall (λ g, 0 ≤ Z.lor (Z.land x 15) (Z.land g 240) < 256 ∧ Z.lor (Z.land x 15) (Z.land g 240) mod 16 = x ∧ Z.lor (Z.land x 15) (Z.land g 240) / 16 = g / 16) (seqZ 0 256)) (seqZ 0 16)) as H by (apply (bool_decide_unpack _); by vm_compute).
  rewrite Forall_forall in H. specialize (H x ltac:(apply elem_of_seqZ; lia)). cbv beta in H. rewrite Forall_forall in H. apply (H g). apply elem_of_seqZ. lia.
Qed.
Lemma limit_split limit : 0 ≤ limit < 1048576 → Z.land limit 65535 = limit mod 65536 ∧ Z.shiftr limit 16 = limit / 65536 ∧ 0 ≤ limit / 65536 < 16.
Proof.
  intros H. change 65535 with (Z.ones 16). rewrite Z.land_ones, Z.shiftr_div_pow2 by lia. split; [done|]. split; [done|]. split; [apply Z.div_pos; lia|apply Z.div_lt_upper_bound; lia].
Qed.
Lemma gdt_set_gate_run L n limit access gran s : Z.of_nat (length (gdt s)) = L → 0 ≤ n → 8 * n + 8 ≤ L → 0 ≤ limit < 1048576 → 0 ≤ access < 256 → 0 ≤ gran < 256 →
  ∃ g, gdt_set_gate n limit access gran s = Ret tt (set_gdt g s) ∧ Z.of_nat (length g) = L ∧ segment g n = (0, limit, access, gran / 16) ∧
    ∀ m, 0 ≤ m → m ≠ n → segment g m = segment (gdt s) m.
Proof.
  intros HL Hn Hl H1 H2 H3. unfold gdt_set_gate. rewrite (kbind_ret kget _ _ _ _ eq_refl), HL. replace (0 <=? n) with true by (symmetry; apply Z.leb_le; lia). replace (8 * n + 8 <=? L) with true by (symmetry; apply Z.leb_le; lia). cbn [andb].
  destruct (limit_split limit H1) as (El & Es & Hs). destruct (flags_split (limit / 65536) gran Hs H3) as (Hb & Eb1 & Eb2). rewrite El, Es. set (b := Z.lor _ (Z.land gran 240)) in *. set (o := 8 * n) in *.
  eexists. split; [done|]. split; [len HL|]. split.
  - unfold segment. fold o. assert (∀ a b c d e f a' b' c' d' e' f' : Z, a = a' → b = b' → c = c' → d = d' → e = e' → f = f' → (a + 65536 * b + 16777216 * c, d + 65536 * (e mod 16), f, e / 16) = (a' + 65536 * b' + 16777216 * c', d' + 65536 * (e' mod 16), f', e' / 16)) as Hq by congruence.
    etrans; [apply Hq; fields HL; reflexivity|]. change (2 ^ (8 * Z.of_nat 1)) with 256. change (2 ^ (8 * Z.of_nat 2)) with 65536. rewrite !(Z.mod_small b), (Z.mod_small access), Eb1, Eb2, Z.mod_mod by lia. repeat f_equal. pose proof (Z.div_mod limit 65536). lia.
  - intros m Hm N. unfold segment. fields HL. done.
Qed.
Lemma write_tss64_run L n tss s : Z.of_nat (length (gdt s)) = L → 0 ≤ n → 8 * n + 16 ≤ L → 0 ≤ tss < 18446744073709551616 →
  ∃ g, write_tss64 n tss s = Ret tt (set_gdt g s) ∧ Z.of_nat (length g) = L ∧ tss_base g n = tss ∧ (∃ b, segment g n = (b, TSS_SIZE - 1, 137, 0)) ∧
    ∀ m, 0 ≤ m → m ≠ n → m ≠ n + 1 → segment g m = segment (gdt s) m.
Proof.
  intros HL Hn Hl Ht. unfold write_tss64. rewrite (kbind_ret kget _ _ _ _ eq_refl), HL. replace (0 <=? n) with true by (symmetry; apply Z.leb_le; lia). replace (8 * n + 16 <=? L) with true by (symmetry; apply Z.leb_le; lia). cbn [andb]. set (o := 8 * n) in *.
  change (Z.land (TSS_SIZE - 1) 65535) with 103. change (Z.land (Z.shiftr (TSS_SIZE - 1) 16) 15) with 0.
  assert (∀ k, 0 ≤ k → Z.land (Z.shiftr tss k) 255 = (tss / 2 ^ k) mod 256) as E8 by (intros k Hk; change 255 with (Z.ones 8); by rewrite Z.land_ones, Z.shiftr_div_pow2).
  rewrite !E8 by lia. change 65535 with (Z.ones 16). change 4294967295 with (Z.ones 32). rewrite !Z.land_ones, Z.shiftr_div_pow2 by lia.
  eexists. split; [done|]. split; [len HL|]. split; [|split].
  - unfold tss_base, segment. cbn [fst]. fold o. assert (∀ a b c d a' b' c' d' : Z, a = a' → b = b' → c = c' → d = d' → a + 65536 * b + 16777216 * c + 4294967296 * d = a' + 65536 * b' + 16777216 * c' + 4294967296 * d') as Hq by congruence.
    etrans; [apply Hq; fields HL; reflexivity|]. change (2 ^ (8 * Z.of_nat 1)) with 256. change (2 ^ (8 * Z.of_nat 2)) with 65536. change (2 ^ (8 * Z.of_nat 4)) with 4294967296. change (2 ^ 16) with 65536. change (2 ^ 24) with 16777216. change (2 ^ 32) with 4294967296. rewrite !Z.mod_mod by lia.
    pose proof (Z.div_mod tss 65536 ltac:(lia)). pose proof (Z.div_mod (tss / 65536) 256 ltac:(lia)) as H2. pose proof (Z.div_mod (tss / 16777216) 256 ltac:(lia)) as H3. rewrite Z.div_div in H2, H3 by lia. change (65536 * 256) with 16777216 in H2. change (16777216 * 256) with 4294967296 in H3.
    rewrite (Z.mod_small (tss / 4294967296)) by (split; [apply Z.div_pos; lia|apply Z.div_lt_upper_bound; lia]). lia.
  - unfold segment. fold o. assert (∀ d e f d' e' f' x : Z, d = d' → e = e' → f = f' → (x, d + 65536 * (e mod 16), f, e / 16) = (x, d' + 65536 * (e' mod 16), f', e' / 16)) as Hq by congruence.
    eexists. etrans; [apply Hq; fields HL; reflexivity|]. reflexivity.
  - intros m Hm N1 N2. unfold segment. fields HL. done.
Qed.

(** Number, access byte and flags of the six flat segments: code and data of the kernel
    in ring 0, of 64-bit and 32-bit programs in ring 3 *)
Definition flat_segments : list (Z * Z * Z) := [(1, 154, 2); (2, 146, 0); (3, 250, 2); (4, 242, 0); (5, 250, 12); (6, 242, 12)].
Definition flat (g : list Z) : Prop := ∀ n a f, (n, a, f) ∈ flat_segments → segment g n = (0, 1048575, a, f).

Ltac gate_step s H n limit access gran g E L S O :=
  destruct (gdt_set_gate_run 16440 n limit access gran s H ltac:(lia) ltac:(lia) ltac:(lia) ltac:(lia) ltac:(lia)) as (g & E & L & S & O).
Lemma init_gdt_run s : Z.of_nat (length (gdt s)) = 16440 →
  ∃ g, init_gdt s = Ret tt (set_gdt g (set_locals (map (λ _, zero_local) (locals s)) s)) ∧ Z.of_nat (length g) = 16440 ∧ flat g.
Proof.
  intros HL. unfold init_gdt. set (s0 := set_locals (map (λ _, zero_local) (locals s)) (set_gdt (map (λ _, 0) (gdt s)) s)). match goal with |- context [kbind (kmodify ?f) ?k s] => rewrite (kbind_ret (kmodify f) k s tt s0 eq_refl) end. assert (Z.of_nat (length (gdt s0)) = 16440) as H0 by (cbn; by rewrite length_map).
  gate_step s0 H0 0 0 0 0 g1 E1 L1 S1 O1. rewrite (kbind_ret _ _ _ _ _ E1). gate_step (set_gdt g1 s0) L1 1 1048575 154 32 g2 E2 L2 S2 O2. rewrite (kbind_ret _ _ _ _ _ E2).
  gate_step (set_gdt g2 s0) L2 2 1048575 146 0 g3 E3 L3 S3 O3. rewrite (kbind_ret _ _ _ _ _ E3). gate_step (set_gdt g3 s0) L3 3 1048575 250 32 g4 E4 L4 S4 O4. rewrite (kbind_ret _ _ _ _ _ E4).
  gate_step (set_gdt g4 s0) L4 4 1048575 242 0 g5 E5 L5 S5 O5. rewrite (kbind_ret _ _ _ _ _ E5). gate_step (set_gdt g5 s0) L5 5 1048575 250 192 g6 E6 L6 S6 O6. rewrite (kbind_ret _ _ _ _ _ E6).
  gate_step (set_gdt g6 s0) L6 6 1048575 242 192 g7 E7 L7 S7 O7. cbn [gdt set_gdt] in O1, O2, O3, O4, O5, O6, O7.
  exists g7. split; [exact E7|]. split; [done|]. intros n a f Hn. unfold flat_segments in Hn. repeat (apply elem_of_cons in Hn as [[= -> -> ->]|Hn]); [rewrite O7, O6, O5, O4, O3 by lia; exact S2|rewrite O7, O6, O5, O4 by lia; exact S3|rewrite O7, O6, O5 by lia; exact S4|rewrite O7, O6 by lia; exact S5|rewrite O7 by lia; exact S6|exact S7|by apply not_elem_of_nil in Hn].
Qed.

(** A CPU comes up with the right segments.  After [init_gdt] and [cpu_init] of one of
    the eight CPUs, the processor finds in the descriptor table the flat segments of
    kernel (ring 0) and programs (ring 3), and under the selector it loads a present TSS
    descriptor with the address and size of that CPU's TSS, whose kernel stack pointer is
    the top of the new stack. *)
Theorem cpu_tables_ok tss_addr local_addr c kstack s : Z.of_nat (length (gdt s)) = 16440 → Z.of_nat (length (locals s)) = SMP_MAX_CPUS → 0 ≤ c < SMP_MAX_CPUS →
  0 ≤ tss_addr c < 18446744073709551616 → 0 ≤ kstack < 18446744073709543424 →
  ∃ s' l, (init_gdt ;;; cpu_init tss_addr local_addr c kstack) s = Ret tt s' ∧ flat (gdt s') ∧
    tss_base (gdt s') (tr s' / 8) = tss_addr c ∧ (∃ b, segment (gdt s') (tr s' / 8) = (b, TSS_SIZE - 1, 137, 0)) ∧
    gs_base s' = local_addr c ∧ zlookup (locals s') c = Some l ∧ cl_id l = c ∧ cl_rsp0 l = kstack + 8192.
Proof.
  unfold SMP_MAX_CPUS. intros HL Hn Hc Ht Hk. destruct (init_gdt_run s HL) as (g & E & Lg & F). rewrite (kbind_ret _ _ _ _ _ E). set (s1 := set_gdt g _). unfold cpu_init. replace (MAX_CPU <=? c) with false by (symmetry; apply Z.leb_gt; unfold MAX_CPU; lia).
  rewrite (kbind_ret kget _ _ _ _ eq_refl). assert (Z.of_nat (length (locals s1)) = 8) as Ln by (cbn; by rewrite length_map). destruct (zlookup_lt (locals s1) c ltac:(lia)) as (x & Ex & _). unfold kget_opt at 1, kbind at 1. rewrite Ex.
  unfold kget_opt at 1, kbind at 1. rewrite zset_lt by lia. rewrite (kbind_ret (kput _) _ _ _ _ eq_refl). set (s2 := set_locals _ s1). assert (Z.of_nat (length (gdt s2)) = 16440) as L2 by done.
  destruct (write_tss64_run 16440 (GDT_TSS_BASE + c * 2) (tss_addr c) s2 L2 ltac:(unfold GDT_TSS_BASE; lia) ltac:(unfold GDT_TSS_BASE; lia) Ht) as (g3 & E3 & L3 & T3 & S3 & O3). rewrite (kbind_ret _ _ _ _ _ E3). rewrite (kbind_ret kget _ _ _ _ eq_refl).
  unfold kget_opt at 1, kbind at 1. rewrite zset_lt by (cbn [locals set_gdt set_locals s2]; rewrite length_insert; lia). eexists _, _. split; [done|]. cbn [gdt tr gs_base locals set_regs set_locals set_gdt].
  assert (Z.shiftl (GDT_TSS_BASE + c * 2) 3 / 8 = GDT_TSS_BASE + c * 2) as -> by (rewrite Z.shiftl_mul_pow2 by lia; by apply Z.div_mul). split.
  { intros n a f Hnaf. rewrite O3; [by apply F| | |]; (assert (1 ≤ n ≤ 6) by (unfold flat_segments in Hnaf; repeat (apply elem_of_cons in Hnaf as [[= -> -> ->]|Hnaf]; [lia|]); by apply not_elem_of_nil in Hnaf); unfold GDT_TSS_BASE; lia). }
  split; [done|]. split; [done|]. split; [done|]. rewrite zlookup_insert, Z.eqb_refl by (cbn [locals set_gdt set_locals s2]; rewrite ?length_insert; lia). split; [done|]. split; [done|]. cbn. unfold u64. apply Z.mod_small. lia.
Qed.
Lemma cpu_tables_ok_witness : let s := Tables (replicate (Z.to_nat 16440) 255) [] (replicate 8 zero_local) [] 0 0 [] in
  ∃ s' l, (init_gdt ;;; cpu_init (λ i, 1048576 + 512 * i) (λ i, 1048448 + 512 * i) 3 65536) s = Ret tt s' ∧ flat (gdt s') ∧
    tss_base (gdt s') (tr s' / 8) = 1050112 ∧ (∃ b, segment (gdt s') (tr s' / 8) = (b, TSS_SIZE - 1, 137, 0)) ∧
    gs_base s' = 1049984 ∧ zlookup (locals s') 3 = Some l ∧ cl_id l = 3 ∧ cl_rsp0 l = 73728.
Proof. apply (cpu_tables_ok (λ i, 1048576 + 512 * i) (λ i, 1048448 + 512 * i) 3 65536 (Tables (replicate (Z.to_nat 16440) 255) [] (replicate 8 zero_local) [] 0 0 [])); [cbn [gdt]; rewrite length_replicate; lia|reflexivity|unfold SMP_MAX_CPUS; lia|lia|lia]. Defined.

(** The number of the CPU is tested against 1024, but the array has eight elements. *)
Lemma cpu_init_faults tss_addr local_addr c kstack s : Z.of_nat (length (locals s)) = SMP_MAX_CPUS → SMP_MAX_CPUS ≤ c < MAX_CPU → cpu_init tss_addr local_addr c kstack s = Fault.
Proof.
  intros Hn [Hc1 Hc2]. unfold cpu_init. replace (MAX_CPU <=? c) with false by (symmetry; apply Z.leb_gt; lia). rewrite (kbind_ret kget _ _ _ _ eq_refl). unfold kget_opt at 1, kbind at 1.
  replace (zlookup (locals s) c) with (@None cpu_local_t); [done|]. symmetry. unfold SMP_MAX_CPUS in *. rewrite <-(Z2Nat.id c) by lia. rewrite zlookup_nat. apply lookup_ge_None_2. lia.
Qed.
