(* ===== verification/Spinlock.v ===== *)
(** * Spin locks

    Models [kernel/include/spinlock.h] with [SMP]: the CPUs run [spin_lock_irqsave],
    a critical section and [spin_unlock_irqrestore] on one lock, one atomic
    instruction at a time, in any interleaving.  A schedule is a list of events, and
    [iflag] the interrupt flag of a CPU. *)

From stdpp Require Import base numbers list.
From Stdlib Require Import ZArith Lia.
From S2P Require Import Prelude.

#[local] Open Scope Z_scope.

(** Where a CPU is: [TestAndSet] before [__sync_lock_test_and_set], [Spinning] in the
    inner loop, [Critical] between lock and unlock, [Restoring] after the release *)
Inductive place : Type := Outside | TestAndSet | Spinning | Critical | Restoring.
Record cpu := Cpu { pc : place; iflag : bool; saved : bool }.
Record lock_sys := LockSys { locked : Z; cpus : nat → cpu }.

Inductive event : Type :=
| Begin (i : nat)     (** CPU [i] calls [spin_lock_irqsave]: [pushfq; pop; cli] *)
| Run (i : nat)       (** its next instruction *)
| SetFlag (i : nat) (b : bool).  (** [sti] or [cli] outside of the lock *)

Definition set_cpu (i : nat) (c : cpu) (s : lock_sys) : lock_sys := LockSys (locked s) (λ j, if decide (j = i) then c else cpus s j).
Definition set_locked (v : Z) (s : lock_sys) : lock_sys := LockSys v (cpus s).

(** [spin_lock]: the old value of the lock decides. *)
Definition spin_lock_step (i : nat) (s : lock_sys) : lock_sys :=
  let c := cpus s i in
  match pc c with
  | TestAndSet => set_cpu i (Cpu (if locked s =? 0 then Critical else Spinning) (iflag c) (saved c)) (set_locked 1 s)
  | Spinning => if locked s =? 0 then set_cpu i (Cpu TestAndSet (iflag c) (saved c)) s else s
  | _ => s
  end.
Definition spin_unlock_step (i : nat) (s : lock_sys) : lock_sys :=
  let c := cpus s i in set_cpu i (Cpu Restoring (iflag c) (saved c)) (set_locked 0 s).
Definition spin_lock_irqsave_step (i : nat) (s : lock_sys) : lock_sys :=
  let c := cpus s i in set_cpu i (Cpu TestAndSet false (iflag c)) s.
Definition spin_unlock_irqrestore_step (i : nat) (s : lock_sys) : lock_sys :=
  let c := cpus s i in set_cpu i (Cpu Outside (saved c) (saved c)) s.

Definition lock_step (s : lock_sys) (e : event) : lock_sys :=
  match e with
  | Begin i => match pc (cpus s i) with Outside => spin_lock_irqsave_step i s | _ => s end
  | SetFlag i b => match pc (cpus s i) with Outside => set_cpu i (Cpu Outside b (saved (cpus s i))) s | _ => s end
  | Run i =>
      match pc (cpus s i) with
      | Outside => s
      | TestAndSet | Spinning => spin_lock_step i s
      | Critical => spin_unlock_step i s
      | Restoring => spin_unlock_irqrestore_step i s
      end
  end.
Definition lock_run (es : list event) (s : lock_sys) : lock_sys := foldl lock_step s es.
(** [SPINLOCK_INIT], every CPU outside *)
Definition lock_init (flags : nat → bool) : lock_sys := LockSys 0 (λ i, Cpu Outside (flags i) false).

(** ** Invariant *)

Record lock_inv (s : lock_sys) : Prop := {
  li_value : locked s = 0 ∨ locked s = 1;
  li_one : ∀ i, pc (cpus s i) = Critical → locked s = 1;
  li_excl : ∀ i j, pc (cpus s i) = Critical → pc (cpus s j) = Critical → i = j;
  li_held : locked s = 1 → ∃ i, pc (cpus s i) = Critical;
  li_off : ∀ i, pc (cpus s i) ≠ Outside → iflag (cpus s i) = false }.

Lemma cpu_same i c s : cpus (set_cpu i c s) i = c.
Proof. cbn. by rewrite decide_True. Qed.
Lemma cpu_other i j c s : j ≠ i → cpus (set_cpu i c s) j = cpus s j.
Proof. intros. cbn. by rewrite decide_False. Qed.

(** A CPU that is not in its critical section moves to another place outside it. *)
Lemma inv_move s i c : lock_inv s → pc (cpus s i) ≠ Critical → pc c ≠ Critical → (pc c ≠ Outside → iflag c = false) → lock_inv (set_cpu i c s).
Proof.
  intros [V O X Hh F] H1 H2 H3. assert (∀ j, pc (cpus (set_cpu i c s) j) = Critical → j ≠ i ∧ pc (cpus s j) = Critical) as Hc.
  { intros j. destruct (decide (j = i)) as [->|N]; [rewrite cpu_same; done|]. by rewrite cpu_other. }
  split; [done|intros j [_ Hj]%Hc; by eapply O|intros j k [_ Hj]%Hc [_ Hk]%Hc; by apply X| |].
  - intros [j Hj]%Hh. exists j. rewrite cpu_other; [done|]. by intros ->.
  - intros j. destruct (decide (j = i)) as [->|N]; [rewrite cpu_same; done|]. rewrite cpu_other by done. apply F.
Qed.
Lemma inv_acquire s i c : lock_inv s → locked s = 0 → pc c = Critical → iflag c = false → lock_inv (set_cpu i c (set_locked 1 s)).
Proof.
  intros [V O X Hh F] Hl Hc Hf. assert (∀ j, pc (cpus (set_cpu i c (set_locked 1 s)) j) = Critical → j = i) as Hi.
  { intros j. destruct (decide (j = i)) as [->|N]; [done|]. rewrite cpu_other by done. intros E. apply O in E. lia. }
  split; [by right|done|intros j k Hj%Hi Hk%Hi; congruence|intros _; exists i; by rewrite cpu_same|].
  intros j. destruct (decide (j = i)) as [->|N]; [by rewrite cpu_same|]. rewrite cpu_other by done. apply F.
Qed.
Lemma inv_release s i c : lock_inv s → pc (cpus s i) = Critical → pc c = Restoring → iflag c = false → lock_inv (set_cpu i c (set_locked 0 s)).
Proof.
  intros [V O X Hh F] Hi Hc Hf. assert (∀ j, pc (cpus (set_cpu i c (set_locked 0 s)) j) ≠ Critical) as Hn.
  { intros j. destruct (decide (j = i)) as [->|N]; [rewrite cpu_same; congruence|]. rewrite cpu_other by done. intros E. by apply N, X. }
  split; [by left|intros j Hj; by apply Hn in Hj|intros j k Hj; by apply Hn in Hj|done|].
  intros j. destruct (decide (j = i)) as [->|N]; [by rewrite cpu_same|]. rewrite cpu_other by done. apply F.
Qed.

Lemma lock_step_inv s e : lock_inv s → lock_inv (lock_step s e).
Proof.
  intros I. pose proof I as [V O X Hh F]. destruct e as [i|i|i b]; cbn [lock_step].
  - destruct (pc (cpus s i)) eqn:E; try done. apply inv_move; cbn; congruence.
  - destruct (pc (cpus s i)) eqn:E; try done; unfold spin_lock_step, spin_unlock_step, spin_unlock_irqrestore_step; rewrite ?E.
    + assert (iflag (cpus s i) = false) as Ef by (apply F; congruence). destruct (Z.eqb_spec (locked s) 0) as [L|L]; [by apply inv_acquire|].
      assert (set_locked 1 s = s) as -> by (destruct s as [l c]; unfold set_locked; cbn in V, L |- *; f_equal; destruct V; congruence). apply inv_move; cbn; congruence.
    + assert (iflag (cpus s i) = false) as Ef by (apply F; congruence). destruct (locked s =? 0); [|done]. apply inv_move; cbn; congruence.
    + apply inv_release; cbn; [done|done|done|apply F; congruence].
    + apply inv_move; cbn; congruence.
  - destruct (pc (cpus s i)) eqn:E; try done. apply inv_move; cbn; congruence.
Qed.
Lemma lock_run_inv es : ∀ s, lock_inv s → lock_inv (lock_run es s).
Proof. induction es as [|e es IH]; intros s I; [done|]. cbn. by apply IH, lock_step_inv. Qed.
Lemma lock_init_inv flags : lock_inv (lock_init flags).
Proof. split; cbn; try done. by left. Qed.

(** C16. Mutual exclusion.  In every interleaving of any number of CPUs, at most one is
    between [spin_lock_irqsave] and [spin_unlock_irqrestore], that CPU has interrupts
    off, and the lock word is 1 exactly while one is. *)
Theorem spinlock_exclusion flags es i j : let s := lock_run es (lock_init flags) in
  pc (cpus s i) = Critical → (pc (cpus s j) = Critical → i = j) ∧ iflag (cpus s i) = false ∧ locked s = 1.
Proof. intros s Hi. destruct (lock_run_inv es _ (lock_init_inv flags)) as [V O X Hh F]. split; [by apply X|]. split; [|by apply (O i)]. apply F. fold s. by rewrite Hi. Qed.
Lemma spinlock_exclusion_witness : let s := lock_run [Begin 0; Begin 1; Run 1; Run 0; Run 0] (lock_init (λ _, true)) in
  (pc (cpus s 0) = Critical → 1%nat = 0%nat) ∧ iflag (cpus s 1) = false ∧ locked s = 1.
Proof. apply (spinlock_exclusion (λ _, true) [Begin 0; Begin 1; Run 1; Run 0; Run 0] 1 0). reflexivity. Defined.

(** No deadlock and no lost release.  Whenever some CPU waits for the lock, either a
    CPU is in the critical section, and its next instruction frees the lock, or the
    waiting CPU takes it with its next two instructions at most. *)
Theorem spinlock_progress flags es i : let s := lock_run es (lock_init flags) in
  pc (cpus s i) = TestAndSet ∨ pc (cpus s i) = Spinning →
  (∃ j, pc (cpus s j) = Critical ∧ locked (lock_step s (Run j)) = 0) ∨
  (∃ n, (n ≤ 2)%nat ∧ pc (cpus (lock_run (replicate n (Run i)) s) i) = Critical).
Proof.
  intros s Hw. destruct (lock_run_inv es _ (lock_init_inv flags)) as [V O X Hh F]. fold s in V, O, X, Hh, F. destruct V as [L|L].
  - right. assert (∀ s', pc (cpus s' i) = TestAndSet → locked s' = 0 → pc (cpus (lock_step s' (Run i)) i) = Critical) as Ht.
    { intros s' Hp Hl. cbn [lock_step]. rewrite Hp. unfold spin_lock_step. rewrite Hp, Hl. by rewrite cpu_same. }
    destruct Hw as [Hw|Hw]; [exists 1%nat; split; [lia|by apply Ht]|]. exists 2%nat. split; [lia|]. cbn [replicate lock_run foldl]. apply Ht; cbn [lock_step]; rewrite Hw; unfold spin_lock_step; rewrite Hw, L, Z.eqb_refl; [by rewrite cpu_same|done].
  - left. destruct (Hh L) as [j Hj]. exists j. split; [done|]. cbn [lock_step]. by rewrite Hj.
Qed.
Lemma spinlock_progress_witness : let s := lock_run [Begin 0; Begin 1; Run 1; Run 0] (lock_init (λ _, true)) in
  (∃ j, pc (cpus s j) = Critical ∧ locked (lock_step s (Run j)) = 0) ∨
  (∃ n, (n ≤ 2)%nat ∧ pc (cpus (lock_run (replicate n (Run 0)) s) 0) = Critical).
Proof. apply (spinlock_progress (λ _, true) [Begin 0; Begin 1; Run 1; Run 0] 0). right. reflexivity. Defined.
