(* ===== verification/Smp.v ===== *)
(** * TLB shootdown

    Models [smp_tlb_shootdown] and [smp_tlb_handler] of [arch/x86_64/smp/smp.c] and
    [mmu_invlpg] of [arch/x86_64/mmu/mmu.c], instruction by instruction, for any
    number of CPUs in any interleaving.  The lock is the one of [Spinlock].  A
    translation cached before a page table changed is a stale entry of a CPU's TLB;
    each change has a number, so that an entry tells which change it missed. *)

From stdpp Require Import base numbers list.
From Stdlib Require Import ZArith Lia FunctionalExtensionality.
From S2P Require Import Prelude Spinlock.

#[local] Open Scope Z_scope.

Definition SHOOTDOWN_TIMEOUT : Z := 50000000.
Definition KERNEL_BASE : Z := 18446603336221196288.

(** A cached translation of [e_addr] in the address space [e_cr3] that the change
    [e_id] made wrong *)
Record entry := Entry { e_id : nat; e_addr : Z; e_cr3 : Z }.

(** Where a CPU is in [mmu_invlpg] *)
Inductive spot : Type :=
| Idle
| Called                  (** the page table is changed, [mmu_invlpg] is called *)
| Locking                 (** in [spin_lock_irqsave] *)
| SetAddr | SetCr3 | SetMask | SendIpi
| Waiting (timeout : Z)
| Unlocking | Restore.
(** Where a CPU is in [smp_tlb_handler] *)
Inductive handler : Type := Enter | Loaded (shoot_addr : Z) | Ack.

Record smp := Smp {
  lk : lock_sys;                  (** [global_shootdown.lock] *)
  addr : Z;                       (** [global_shootdown.addr] *)
  target_cr3 : Z;
  pending_mask : Z;
  ap_ready_flags : Z;
  smp_tasking_ready : bool;
  at_ : nat → spot;
  call : nat → Z * nat;           (** the address a CPU was called with, and its change *)
  cr3 : nat → Z;
  tlb : nat → list entry;
  ipi : nat → bool;               (** vector 0x41 is pending *)
  hnd : nat → option handler;
  changes : nat;
  timed_out : bool;               (** has any wait timed out? *)
}.
Definition with_lk x (s : smp) : smp := Smp x (addr s) (target_cr3 s) (pending_mask s) (ap_ready_flags s) (smp_tasking_ready s) (at_ s) (call s) (cr3 s) (tlb s) (ipi s) (hnd s) (changes s) (timed_out s).
Definition with_addr x (s : smp) : smp := Smp (lk s) x (target_cr3 s) (pending_mask s) (ap_ready_flags s) (smp_tasking_ready s) (at_ s) (call s) (cr3 s) (tlb s) (ipi s) (hnd s) (changes s) (timed_out s).
Definition with_target_cr3 x (s : smp) : smp := Smp (lk s) (addr s) x (pending_mask s) (ap_ready_flags s) (smp_tasking_ready s) (at_ s) (call s) (cr3 s) (tlb s) (ipi s) (hnd s) (changes s) (timed_out s).
Definition with_pending_mask x (s : smp) : smp := Smp (lk s) (addr s) (target_cr3 s) x (ap_ready_flags s) (smp_tasking_ready s) (at_ s) (call s) (cr3 s) (tlb s) (ipi s) (hnd s) (changes s) (timed_out s).
Definition with_at x (s : smp) : smp := Smp (lk s) (addr s) (target_cr3 s) (pending_mask s) (ap_ready_flags s) (smp_tasking_ready s) x (call s) (cr3 s) (tlb s) (ipi s) (hnd s) (changes s) (timed_out s).
Definition with_call x (s : smp) : smp := Smp (lk s) (addr s) (target_cr3 s) (pending_mask s) (ap_ready_flags s) (smp_tasking_ready s) (at_ s) x (cr3 s) (tlb s) (ipi s) (hnd s) (changes s) (timed_out s).
Definition with_cr3 x (s : smp) : smp := Smp (lk s) (addr s) (target_cr3 s) (pending_mask s) (ap_ready_flags s) (smp_tasking_ready s) (at_ s) (call s) x (tlb s) (ipi s) (hnd s) (changes s) (timed_out s).
Definition with_tlb x (s : smp) : smp := Smp (lk s) (addr s) (target_cr3 s) (pending_mask s) (ap_ready_flags s) (smp_tasking_ready s) (at_ s) (call s) (cr3 s) x (ipi s) (hnd s) (changes s) (timed_out s).
Definition with_ipi x (s : smp) : smp := Smp (lk s) (addr s) (target_cr3 s) (pending_mask s) (ap_ready_flags s) (smp_tasking_ready s) (at_ s) (call s) (cr3 s) (tlb s) x (hnd s) (changes s) (timed_out s).
Definition with_hnd x (s : smp) : smp := Smp (lk s) (addr s) (target_cr3 s) (pending_mask s) (ap_ready_flags s) (smp_tasking_ready s) (at_ s) (call s) (cr3 s) (tlb s) (ipi s) x (changes s) (timed_out s).
Definition with_changes x (s : smp) : smp := Smp (lk s) (addr s) (target_cr3 s) (pending_mask s) (ap_ready_flags s) (smp_tasking_ready s) (at_ s) (call s) (cr3 s) (tlb s) (ipi s) (hnd s) x (timed_out s).
Definition with_timed_out x (s : smp) : smp := Smp (lk s) (addr s) (target_cr3 s) (pending_mask s) (ap_ready_flags s) (smp_tasking_ready s) (at_ s) (call s) (cr3 s) (tlb s) (ipi s) (hnd s) (changes s) x.
Definition upd {A} (i : nat) (v : A) (f : nat → A) : nat → A := λ j, if decide (j = i) then v else f j.

Definition bit (i : nat) : Z := Z.shiftl 1 (Z.of_nat i).
Definition in_mask (m : Z) (i : nat) : bool := Z.testbit m (Z.of_nat i).
(** The CPUs that run tasks: the boot processor, and the others once tasking is ready *)
Definition running (s : smp) (i : nat) : bool := (i =? 0)%nat || (smp_tasking_ready s && in_mask (ap_ready_flags s) i).
Definition targets (s : smp) (i : nat) : Z := Z.ldiff (Z.lor (ap_ready_flags s) (bit 0)) (bit i).

Definition invlpg (i : nat) (a : Z) (s : smp) : smp := with_tlb (upd i (filter (λ e, e_addr e ≠ a) (tlb s i)) (tlb s)) s.
Definition goto (i : nat) (p : spot) (s : smp) : smp := with_at (upd i p (at_ s)) s.
(** One instruction of the lock's code *)
Definition lock_instr (e : Spinlock.event) (s : smp) : smp := with_lk (lock_step (lk s) e) s.

Definition smp_tlb_shootdown_step (i : nat) (s : smp) : smp :=
  match at_ s i with
  | Locking =>
      let s := lock_instr (Run i) s in
      goto i (match pc (cpus (lk s) i) with Critical => SetAddr | _ => Locking end) s
  | SetAddr => goto i SetCr3 (with_addr (call s i).1 s)
  | SetCr3 => goto i SetMask (with_target_cr3 (cr3 s i) s)
  | SetMask => goto i SendIpi (with_pending_mask (targets s i) s)
  | SendIpi => goto i (Waiting SHOOTDOWN_TIMEOUT) (with_ipi (λ j, if decide (j = i) then ipi s j else true) s)
  | Waiting t =>
      if pending_mask s =? 0 then goto i Unlocking s
      else if t - 1 =? 0 then goto i Unlocking (with_timed_out true (with_pending_mask 0 s))
      else goto i (Waiting (t - 1)) s
  | Unlocking => goto i Restore (lock_instr (Run i) s)
  | Restore => goto i Idle (lock_instr (Run i) s)
  | _ => s
  end.
(** [mmu_invlpg] up to the lock *)
Definition mmu_invlpg_step (i : nat) (s : smp) : smp :=
  let s := invlpg i (call s i).1 s in
  if smp_tasking_ready s && negb (ap_ready_flags s =? 0) then goto i Locking (lock_instr (Begin i) s)
  else goto i Idle s.

Definition smp_tlb_handler_step (i : nat) (h : handler) (s : smp) : smp :=
  match h with
  | Enter => with_hnd (upd i (Some (Loaded (addr s))) (hnd s)) s
  | Loaded a =>
      with_hnd (upd i (Some Ack) (hnd s)) (if (a <? KERNEL_BASE) && negb (cr3 s i =? target_cr3 s) then s else invlpg i a s)
  | Ack => with_hnd (upd i None (hnd s)) (with_pending_mask (Z.ldiff (pending_mask s) (bit i)) s)
  end.

Inductive smp_event : Type :=
| Change (i : nat) (a : Z)     (** CPU [i] changes the entry of [a] in its page tables and calls [mmu_invlpg] *)
| Step (i : nat)               (** its next instruction *)
| Irq (i : nat)                (** it takes the pending interrupt *)
| Switch (i : nat) (c : Z)     (** it loads another address space *)
| Flag (i : nat) (b : bool).   (** [sti] or [cli] *)

Definition free (s : smp) (i : nat) : bool :=
  match at_ s i, hnd s i with Idle, None => true | _, _ => false end.
Definition sees (s : smp) (j : nat) (a c : Z) : bool := running s j && ((KERNEL_BASE <=? a) || (cr3 s j =? c)).

Definition smp_step (s : smp) (e : smp_event) : smp :=
  match e with
  | Change i a =>
      if free s i && running s i then
        goto i Called (with_call (upd i (a, changes s) (call s)) (with_changes (S (changes s))
          (with_tlb (λ j, if sees s j a (cr3 s i) then Entry (changes s) a (cr3 s i) :: tlb s j else tlb s j) s)))
      else s
  | Step i =>
      match hnd s i with
      | Some h => smp_tlb_handler_step i h s
      | None =>
          match at_ s i with
          | Idle => s
          | Called => mmu_invlpg_step i s
          | _ => smp_tlb_shootdown_step i s
          end
      end
  | Irq i =>
      match hnd s i with
      | None => if ipi s i && iflag (cpus (lk s) i) then with_hnd (upd i (Some Enter) (hnd s)) (with_ipi (upd i false (ipi s)) s) else s
      | Some _ => s
      end
  | Switch i c =>
      if free s i then with_cr3 (upd i c (cr3 s)) (with_tlb (upd i (filter (λ e, KERNEL_BASE ≤ e_addr e) (tlb s i)) (tlb s)) s) else s
  | Flag i b => if free s i then lock_instr (SetFlag i b) s else s
  end.
Definition smp_run (es : list smp_event) (s : smp) : smp := foldl smp_step s es.

Definition smp_init (ready : Z) (tasking : bool) (spaces : nat → Z) : smp :=
  Smp (lock_init (λ _, true)) 0 0 0 ready tasking (λ _, Idle) (λ _, (0, O)) spaces (λ _, []) (λ _, false) (λ _, None) O false.

(** ** Invariant *)

Definition pc_agrees (p : spot) (q : place) : Prop :=
  match p with
  | Idle | Called => q = Outside
  | Locking => q = TestAndSet ∨ q = Spinning
  | Restore => q = Restoring
  | _ => q = Critical
  end.
Definition addr_set (p : spot) : bool := match p with SetCr3 | SetMask | SendIpi | Waiting _ => true | _ => false end.
Definition cr3_set (p : spot) : bool := match p with SetMask | SendIpi | Waiting _ => true | _ => false end.
Definition is_waiting (p : spot) : bool := match p with Waiting _ => true | _ => false end.
Definition shooting (p : spot) : bool := match p with Idle | Called => false | _ => true end.
(** CPU [i] has still to make [j] drop the entry of its change. *)
Definition owes (s : smp) (i j : nat) : Prop :=
  match at_ s i with
  | Called => True
  | Locking | SetAddr | SetCr3 | SetMask | SendIpi => i ≠ j
  | Waiting _ => in_mask (pending_mask s) j = true ∧ hnd s j ≠ Some Ack
  | _ => False
  end.
(** The entry belongs to a change whose [mmu_invlpg] has not returned. *)
Definition covered (s : smp) (j : nat) (e : entry) : Prop :=
  ∃ i, call s i = (e_addr e, e_id e) ∧ e_cr3 e = cr3 s i ∧ owes s i j.

Record smp_inv (s : smp) : Prop := {
  si_lock : lock_inv (lk s);
  si_pc : ∀ i, pc_agrees (at_ s i) (pc (cpus (lk s) i));
  si_run : ∀ i, at_ s i ≠ Idle → running s i = true;
  si_go : ∀ i, shooting (at_ s i) = true → smp_tasking_ready s = true;
  si_addr : ∀ i, addr_set (at_ s i) = true → addr s = (call s i).1;
  si_cr3 : ∀ i, cr3_set (at_ s i) = true → target_cr3 s = cr3 s i;
  si_mask : ∀ i, at_ s i = SendIpi → pending_mask s = targets s i;
  si_flight : ∀ j, running s j = true → ipi s j = true ∨ hnd s j ≠ None →
    ∃ i, i ≠ j ∧ is_waiting (at_ s i) = true ∧ in_mask (pending_mask s) j = true;
  si_once : ∀ j, running s j = true → hnd s j ≠ None → ipi s j = false;
  si_loaded : ∀ j a, running s j = true → hnd s j = Some (Loaded a) → a = addr s;
  si_owed : ∀ i j, is_waiting (at_ s i) = true → running s j = true → in_mask (pending_mask s) j = true → ipi s j = true ∨ hnd s j ≠ None;
  si_tlb : ∀ j e, e ∈ tlb s j → running s j = true ∧ (KERNEL_BASE ≤ e_addr e ∨ e_cr3 e = cr3 s j) ∧ covered s j e }.

Lemma upd_same {A} i (v : A) f : upd i v f i = v.
Proof. unfold upd. by rewrite decide_True. Qed.
Lemma upd_other {A} i j (v : A) f : j ≠ i → upd i v f j = f j.
Proof. intros. unfold upd. by rewrite decide_False. Qed.

Lemma in_mask_clear m i j : in_mask (Z.ldiff m (bit i)) j = in_mask m j && negb (i =? j)%nat.
Proof.
  unfold in_mask, bit. rewrite Z.ldiff_spec, Z.shiftl_1_l, Z.pow2_bits_eqb by lia. do 2 f_equal. destruct (Nat.eqb_spec i j); [subst; apply Z.eqb_refl|apply Z.eqb_neq; lia].
Qed.
Lemma in_targets s i j : smp_tasking_ready s = true → running s j = true → i ≠ j → in_mask (targets s i) j = true.
Proof.
  intros T R N. unfold targets. rewrite in_mask_clear. replace (i =? j)%nat with false by (symmetry; by apply Nat.eqb_neq). unfold in_mask, running in *. rewrite andb_true_r, Z.lor_spec. rewrite T in R. cbn in R.
  destruct (Nat.eqb_spec j 0) as [->|]; cbn in R; [by rewrite orb_true_r|]. unfold in_mask in R. by rewrite R.
Qed.
Lemma not_in_targets s i : in_mask (targets s i) i = false.
Proof. unfold targets. by rewrite in_mask_clear, Nat.eqb_refl, andb_false_r. Qed.

Lemma pc_run_other l i j : j ≠ i → pc (cpus (lock_step l (Run i)) j) = pc (cpus l j).
Proof.
  intros N. cbn [lock_step]. destruct (pc (cpus l i)) eqn:E; unfold spin_lock_step, spin_unlock_step, spin_unlock_irqrestore_step; rewrite ?E; try done; repeat case_match; by rewrite ?cpu_other.
Qed.

Definition critical (p : spot) : bool := match p with Idle | Called | Locking | Restore => false | _ => true end.
Lemma one_critical s i j : smp_inv s → critical (at_ s i) = true → critical (at_ s j) = true → i = j.
Proof.
  intros I Hi Hj. apply (li_excl _ (si_lock _ I)).
  - pose proof (si_pc _ I i) as H. destruct (at_ s i); naive_solver.
  - pose proof (si_pc _ I j) as H. destruct (at_ s j); naive_solver.
Qed.
Lemma waiting_critical p : is_waiting p = true → critical p = true.
Proof. by destruct p. Qed.

Ltac upd_cases := unfold goto, invlpg, lock_instr, upd in *; cbn in *; repeat case_decide; subst; cbn in *.
Ltac smp_auto := upd_cases; first [done | by eauto | congruence].

(** An entry covered by [k] stays covered when [k]'s call and place do not change. *)
Lemma covered_keep s s' j e : covered s j e →
  (∀ k, owes s k j → call s' k = call s k ∧ cr3 s' k = cr3 s k ∧ owes s' k j) → covered s' j e.
Proof. intros (k & C & E & O) H. destruct (H k O) as (H1 & H2 & H3). exists k. split; [congruence|]. split; [congruence|done]. Qed.

Lemma inv_change s i a : smp_inv s → smp_inv (smp_step s (Change i a)).
Proof.
  intros I. cbn [smp_step]. destruct (free s i && running s i) eqn:Hf; [|done]. apply andb_prop in Hf as [Hf R]. unfold free in Hf.
  assert (at_ s i = Idle ∧ hnd s i = None) as [Ei En] by (destruct (at_ s i), (hnd s i); done).
  pose proof I as [L P Rn G A C M F O Ld Ow T]. split; try (intros; smp_auto; fail).
  - intros j. specialize (P j). upd_cases; [by rewrite Ei in P|done].
  - intros j Hj HF. destruct (F j Hj HF) as (k & N & W & B). exists k. upd_cases; [by rewrite Ei in W|done].
  - intros j e. cbn. destruct (sees s j a (cr3 s i)) eqn:Es; [rewrite elem_of_cons; intros [->|He]|intros He].
    + apply andb_prop in Es as [Rj Es]. split; [done|]. cbn. split; [apply orb_prop in Es as [?|?]; zify_bool; lia|]. exists i. cbn. unfold owes. cbn. by rewrite !upd_same.
    + destruct (T j e He) as (H1 & H2 & H3). split; [done|]. split; [done|]. apply (covered_keep _ _ _ _ H3). intros k Hk. unfold owes in *. destruct (decide (k = i)) as [->|N]; [by rewrite Ei in Hk|]. cbn. by rewrite !upd_other.
    + destruct (T j e He) as (H1 & H2 & H3). split; [done|]. split; [done|]. apply (covered_keep _ _ _ _ H3). intros k Hk. unfold owes in *. destruct (decide (k = i)) as [->|N]; [by rewrite Ei in Hk|]. cbn. by rewrite !upd_other.
Qed.

Lemma free_idle s i : free s i = true → at_ s i = Idle ∧ hnd s i = None.
Proof. unfold free. by destruct (at_ s i), (hnd s i). Qed.
Lemma elem_filter {P : entry → Prop} `{∀ e, Decision (P e)} e (l : list entry) : e ∈ filter P l → P e ∧ e ∈ l.
Proof. apply list_elem_of_filter. Qed.

Lemma inv_switch s i c : smp_inv s → smp_inv (smp_step s (Switch i c)).
Proof.
  intros I. cbn [smp_step]. destruct (free s i) eqn:Hf; [|done]. apply free_idle in Hf as [Ei En]. pose proof I as [L P Rn G A C M F O Ld Ow T].
  split; try (intros; smp_auto; fail).
  - intros k. cbn. intros Hk. assert (k ≠ i) by (intros ->; by rewrite Ei in Hk). rewrite upd_other by done. by apply C.
  - intros j e. cbn. intros He. assert (e ∈ tlb s j ∧ (j = i → KERNEL_BASE ≤ e_addr e)) as [He' Hk].
    { unfold upd in He. case_decide; [apply elem_filter in He as [? ?]; by subst|done]. }
    destruct (T j e He') as (H1 & H2 & H3). split; [done|]. split; [unfold upd; case_decide; [left; by apply Hk|done]|].
    apply (covered_keep _ _ _ _ H3). intros k Ho. assert (k ≠ i) by (intros ->; unfold owes in Ho; by rewrite Ei in Ho). cbn. by rewrite upd_other.
Qed.
Lemma inv_flag s i b : smp_inv s → smp_inv (smp_step s (Flag i b)).
Proof.
  intros I. cbn [smp_step]. destruct (free s i) eqn:Hf; [|done]. apply free_idle in Hf as [Ei En]. pose proof I as [L P Rn G A C M F O Ld Ow T].
  split; try done; cbn [lk lock_instr with_lk]; [by apply lock_step_inv|].
  intros j. specialize (P j) as Pj. specialize (P i) as Pi. cbn. rewrite Ei in Pi. cbn in Pi. rewrite Pi. destruct (decide (j = i)) as [->|N]; [by rewrite cpu_same, Ei|by rewrite cpu_other].
Qed.
Lemma owes_hnd s s' k j : at_ s' = at_ s → pending_mask s' = pending_mask s → hnd s' j ≠ Some Ack → owes s k j → owes s' k j.
Proof. intros E1 E2 H Ho. unfold owes in *. rewrite E1, E2. destruct (at_ s k); try done. by destruct Ho. Qed.

Lemma inv_irq s i : smp_inv s → smp_inv (smp_step s (Irq i)).
Proof.
  intros I. cbn [smp_step]. destruct (hnd s i) eqn:Eh; [done|]. destruct (ipi s i && _) eqn:Hi; [|done]. apply andb_prop in Hi as [Hi _]. pose proof I as [L P Rn G A C M F O Ld Ow T].
  split; try (intros; smp_auto; fail).
  intros j e He. destruct (T j e He) as (H1 & H2 & H3). split; [done|]. split; [done|]. apply (covered_keep _ _ _ _ H3). intros k Hk. split; [done|]. split; [done|].
    destruct (decide (j = i)) as [->|N]; [eapply owes_hnd; [..|exact Hk]; [done|done|cbn; by rewrite upd_same]|]. unfold owes in *. cbn. by rewrite upd_other.
Qed.

(** The handler moves on, dropping entries of its TLB. *)
Lemma inv_handler s i h h' t : smp_inv s → hnd s i = Some h → (∀ a, h' = Loaded a → a = addr s) → (∀ j e, e ∈ t j → e ∈ tlb s j) →
  (∀ e k, h' = Ack → running s i = true → e ∈ t i → call s k = (e_addr e, e_id e) → e_cr3 e = cr3 s k → is_waiting (at_ s k) = true → False) →
  smp_inv (with_hnd (upd i (Some h') (hnd s)) (with_tlb t s)).
Proof.
  intros I Eh Hl Ht Ha. pose proof I as [L P Rn G A C M F O Ld Ow T].
  assert (∀ j, upd i (Some h') (hnd s) j ≠ None ↔ hnd s j ≠ None) as Hn by (intros j; unfold upd; case_decide; [subst; rewrite Eh|]; done).
  split; try done; cbn.
  - intros j Rj Hj. rewrite Hn in Hj. by apply F.
  - intros j Rj Hj. apply Hn in Hj. by apply O.
  - intros j a Rj. unfold upd. case_decide; [intros [= ->]; by apply Hl|by apply Ld].
  - intros k j Wk Rj Hj. rewrite Hn. by apply (Ow k).
  - intros j e He. destruct (T j e (Ht j e He)) as (H1 & H2 & k & Hc & He3 & Ho). split; [done|]. split; [done|]. exists k. split; [done|]. split; [done|].
    unfold owes in *. cbn. destruct (at_ s k) eqn:Ek; try done. destruct Ho as [Ho1 Ho2]. split; [done|]. unfold upd. case_decide; [subst j|done]. intros [= ->]. eapply (Ha e k); by rewrite ?Ek.
Qed.
Lemma inv_enter s i : smp_inv s → hnd s i = Some Enter → smp_inv (smp_tlb_handler_step i Enter s).
Proof. intros I Eh. apply (inv_handler s i Enter (Loaded (addr s)) (tlb s)); [done|done|by intros a [= ->]|done|done]. Qed.

(** The handler's filter is right: an entry of the owner's change that it keeps is not
    in this TLB. *)
Lemma inv_loaded s i a : smp_inv s → hnd s i = Some (Loaded a) → smp_inv (smp_tlb_handler_step i (Loaded a) s).
Proof.
  intros I Eh. pose proof I as [L P Rn G A C M F O Ld Ow T]. cbn [smp_tlb_handler_step].
  set (skip := (a <? KERNEL_BASE) && negb (cr3 s i =? target_cr3 s)). set (s1 := if skip then s else invlpg i a s).
  assert (∀ j e, e ∈ tlb s1 j → e ∈ tlb s j ∧ (j = i → skip = false → e_addr e ≠ a)) as Ht.
  { unfold s1. intros j e. destruct skip; [done|]. cbn. unfold upd. case_decide; [intros [? ?]%elem_filter; subst; done|done]. }
  replace s1 with (with_tlb (tlb s1) s) by (unfold s1; destruct skip, s; done).
  apply (inv_handler s i (Loaded a)); [done|done|done|intros j e He; by apply Ht|]. intros e k _ R He Hc He3 Wk. apply Ht in He as [He Hr]. destruct (T i e He) as (_ & H2 & _).
  pose proof (Ld i a R Eh) as Ea. assert (addr s = e_addr e) as Eb by (rewrite (A k), Hc; [done|by destruct (at_ s k)]). assert (target_cr3 s = cr3 s k) as Ec by (apply C; by destruct (at_ s k)).
  destruct skip eqn:Es; [|apply Hr; [done|done|congruence]]. subst skip. apply andb_prop in Es as [Es1 Es2]. zify_bool. destruct H2; [lia|congruence].
Qed.

Lemma clear_absent m i : in_mask m i = false → Z.ldiff m (bit i) = m.
Proof.
  intros H. apply Z.bits_inj'. intros n Hn. rewrite Z.ldiff_spec. unfold bit. rewrite Z.shiftl_1_l, Z.pow2_bits_eqb by lia.
  destruct (Z.eqb_spec (Z.of_nat i) n) as [<-|]; cbn; [unfold in_mask in H; by rewrite H|apply andb_true_r].
Qed.
Lemma targets_running s i j : smp_tasking_ready s = true → in_mask (targets s i) j = true → running s j = true.
Proof.
  intros Ht H. unfold targets in H. rewrite in_mask_clear in H. apply andb_prop in H as [H _]. unfold in_mask in H. rewrite Z.lor_spec in H. unfold running, in_mask. rewrite Ht.
  destruct (Nat.eqb_spec j 0) as [|N]; [done|]. apply orb_prop in H as [H|H]; [done|]. unfold bit in H. rewrite Z.shiftl_1_l, Z.pow2_bits_eqb in H by lia. zify_bool. lia.
Qed.

Lemma inv_ack s i : smp_inv s → hnd s i = Some Ack → smp_inv (smp_tlb_handler_step i Ack s).
Proof.
  intros I Eh. pose proof I as [L P Rn G A C M F O Ld Ow T].
  assert (∀ j, j ≠ i → in_mask (Z.ldiff (pending_mask s) (bit i)) j = in_mask (pending_mask s) j) as Hm.
  { intros j N. rewrite in_mask_clear. replace (i =? j)%nat with false by (symmetry; apply Nat.eqb_neq; done). apply andb_true_r. }
  split; try (intros; smp_auto; fail); cbn [pending_mask hnd ipi at_ addr with_hnd with_pending_mask smp_tlb_handler_step].
  - intros k Hk. change (targets _ k) with (targets s k). rewrite <-(M k Hk). apply clear_absent. rewrite (M k Hk). destruct (in_mask (targets s k) i) eqn:E; [|done].
    apply targets_running in E; [|apply (G k); by rewrite Hk]. destruct (F i E) as (k' & _ & W & _); [right; by rewrite Eh|]. assert (k' = k) as -> by (apply (one_critical s); [done|by apply waiting_critical|by rewrite Hk]). by rewrite Hk in W.
  - intros j Rj Hj. destruct (decide (j = i)) as [->|N]; [rewrite upd_same in Hj; rewrite (O i Rj) in Hj; [by destruct Hj|by rewrite Eh]|]. rewrite upd_other in Hj by done. destruct (F j Rj Hj) as (k & ? & ? & ?). exists k. by rewrite Hm.
  - intros j Rj. unfold upd. case_decide; [done|by apply O].
  - intros j a Rj. unfold upd. case_decide; [done|by apply Ld].
  - intros k j Wk Rj Hj. rewrite in_mask_clear in Hj. apply andb_prop in Hj as [Hj N]. rewrite upd_other by (intros ->; by rewrite Nat.eqb_refl in N). by apply (Ow k).
  - intros j e He. destruct (T j e He) as (H1 & H2 & H3). split; [done|]. split; [done|]. apply (covered_keep _ _ _ _ H3). intros k Hk. split; [done|]. split; [done|]. unfold owes in *. cbn.
    destruct (at_ s k) eqn:Ek; try done. destruct Hk as [Hk1 Hk2]. destruct (decide (j = i)) as [->|N]; [done|]. by rewrite Hm, upd_other.
Qed.

Definition early (p : spot) : bool := match p with Locking | SetAddr | SetCr3 | SetMask | SendIpi => true | _ => false end.
Lemma owes_early s i j : early (at_ s i) = true → owes s i j → i ≠ j.
Proof. unfold owes. by destruct (at_ s i). Qed.
(** CPU [i], which does not wait, moves to [p], where it does not wait either. *)
Lemma inv_goto s i p l a c m t : smp_inv s → lock_inv l → (∀ j, j ≠ i → pc (cpus l j) = pc (cpus (lk s) j)) → pc_agrees p (pc (cpus l i)) →
  is_waiting (at_ s i) = false → is_waiting p = false → running s i = true → (shooting p = true → smp_tasking_ready s = true) →
  (addr_set p = true → a = (call s i).1) → (cr3_set p = true → c = cr3 s i) → (p = SendIpi → m = targets s i) →
  (∀ j, j ≠ i → critical (at_ s j) = true → a = addr s ∧ c = target_cr3 s ∧ m = pending_mask s) →
  (∀ j e, e ∈ t j → e ∈ tlb s j ∧ (owes s i j → call s i = (e_addr e, e_id e) → early p = true ∧ i ≠ j)) →
  smp_inv (goto i p (with_lk l (with_addr a (with_target_cr3 c (with_pending_mask m (with_tlb t s)))))).
Proof.
  intros I HL Hpc Hp W0 W1 R Hs Ha Hc Hm Hk Ht. pose proof I as [L P Rn G A C M F O Ld Ow T].
  assert (∀ j, running s j = true → ipi s j = true ∨ hnd s j ≠ None → ∃ k, k ≠ i ∧ k ≠ j ∧ is_waiting (at_ s k) = true ∧ in_mask m j = true ∧ a = addr s) as HF.
  { intros j Rj Hj. destruct (F j Rj Hj) as (k & N & W & B). assert (k ≠ i) by congruence. destruct (Hk k) as (-> & _ & ->); [done|by apply waiting_critical|]. by exists k. }
  assert (∀ k, k ≠ i → addr_set (at_ s k) = true ∨ at_ s k = SendIpi → critical (at_ s k) = true) as Hcr by (intros k _; destruct (at_ s k); intros [?|?]; done).
  split; cbn [lk addr target_cr3 pending_mask at_ call cr3 tlb ipi hnd goto with_at with_lk with_addr with_target_cr3 with_pending_mask with_tlb smp_tasking_ready]; try done.
  - intros j. unfold upd. case_decide; [by subst|]. rewrite Hpc by done. apply P.
  - intros j. unfold upd. case_decide; [by subst|]. apply Rn.
  - intros j. unfold upd. case_decide; [done|]. apply G.
  - intros j. unfold upd. case_decide; [by subst|]. intros Hj. destruct (Hk j) as (-> & _); [done|by apply Hcr; [|left]|]. by apply A.
  - intros j. unfold upd. case_decide; [by subst|]. intros Hj. destruct (Hk j) as (_ & -> & _); [done|by destruct (at_ s j)|]. by apply C.
  - intros j. unfold upd. case_decide; [by subst|]. intros Hj. destruct (Hk j) as (_ & _ & ->); [done|by apply Hcr; [|right]|]. by apply M.
  - intros j Rj Hj. destruct (HF j Rj Hj) as (k & N & ? & ? & ? & _). exists k. by rewrite upd_other.
  - intros j a' Rj Hj. destruct (HF j Rj) as (_ & _ & _ & _ & _ & ->); [right; by rewrite Hj|]. by apply (Ld j).
  - intros k j. unfold upd. case_decide; [congruence|]. intros Wk Rj Hj. destruct (Hk k) as (_ & _ & Em); [done|by apply waiting_critical|]. apply (Ow k j); [done|done|by rewrite <-Em].
  - intros j e He. apply Ht in He as [He Hi]. destruct (T j e He) as (H1 & H2 & k & H3 & H4 & H5). split; [done|]. split; [done|]. exists k. split; [done|]. split; [done|].
    destruct (decide (k = i)) as [->|N]; unfold owes; cbn; [rewrite upd_same; destruct (Hi H5 H3); by destruct p|]. rewrite upd_other by done. unfold owes in H5.
    destruct (at_ s k) eqn:Ek; try done. destruct (Hk k) as (_ & _ & ->); [done|by rewrite Ek|done].
Qed.

(** [mmu_invlpg] drops the CPU's own entries. *)
Lemma inv_called s i : smp_inv s → at_ s i = Called → smp_inv (mmu_invlpg_step i s).
Proof.
  intros I Ea. pose proof I as [L P Rn G A C M F O Ld Ow T]. unfold mmu_invlpg_step.
  assert (pc (cpus (lk s) i) = Outside) as Ep by (specialize (P i); by rewrite Ea in P). assert (running s i = true) as R by (apply Rn; by rewrite Ea).
  assert (∀ j e, e ∈ tlb (invlpg i (call s i).1 s) j → e ∈ tlb s j ∧ (j = i → e_addr e ≠ (call s i).1)) as Ht.
  { intros j e. cbn. unfold upd. case_decide; [intros [? ?]%elem_filter; subst; done|done]. }
  cbn [invlpg smp_tasking_ready ap_ready_flags with_tlb]. destruct (smp_tasking_ready s && _) eqn:Et.
  - apply (inv_goto s i Locking (lock_step (lk s) (Begin i)) (addr s) (target_cr3 s) (pending_mask s) (tlb (invlpg i (call s i).1 s))); try done.
    + by apply lock_step_inv.
    + intros j N. cbn [lock_step]. rewrite Ep. unfold spin_lock_irqsave_step. by rewrite cpu_other.
    + cbn [lock_step]. rewrite Ep. unfold spin_lock_irqsave_step. left. by rewrite cpu_same.
    + by rewrite Ea.
    + intros _. by apply andb_prop in Et as [? _].
    + intros j e He. destruct (Ht j e He) as [He' Hj]. split; [done|]. intros _ E. split; [done|]. intros <-. apply Hj; [done|by rewrite E].
  - replace (with_tlb _ s) with (invlpg i (call s i).1 s) by done. apply (inv_goto s i Idle (lk s) (addr s) (target_cr3 s) (pending_mask s) (tlb (invlpg i (call s i).1 s))); try done.
    + by rewrite Ea.
    + intros j e He. destruct (Ht j e He) as [He' Hj]. split; [done|]. intros _ E. exfalso. destruct (T j e He') as (Rj & _).
      assert (∀ k, running s k = true → k = 0%nat) as H0.
      { intros k Rk. unfold running, in_mask in Rk. destruct (Nat.eqb_spec k 0); [done|]. cbn in Rk. apply andb_prop in Rk as [Rk1 Rk2]. rewrite Rk1 in Et. cbn in Et. apply negb_false_iff, Z.eqb_eq in Et. rewrite Et in Rk2. by rewrite Z.testbit_0_l in Rk2. }
      apply Hj; [rewrite (H0 i R), (H0 j Rj); done|by rewrite E].
Qed.

Lemma lock_run_places l i p : lock_inv l → pc (cpus l i) = p → p ≠ Outside →
  pc (cpus (lock_step l (Run i)) i) = match p with
    | TestAndSet => if locked l =? 0 then Critical else Spinning
    | Spinning => if locked l =? 0 then TestAndSet else Spinning
    | Critical => Restoring
    | _ => Outside
    end.
Proof.
  intros I E N. cbn [lock_step]. rewrite E. destruct p; try done; unfold spin_lock_step, spin_unlock_step, spin_unlock_irqrestore_step; rewrite ?E.
  - by rewrite cpu_same.
  - destruct (locked l =? 0); [by rewrite cpu_same|done].
  - by rewrite cpu_same.
  - by rewrite cpu_same.
Qed.

(** No other CPU is in the critical section. *)
Lemma alone s i j : smp_inv s → critical (at_ s i) = true → j ≠ i → critical (at_ s j) = true → False.
Proof. intros I Hi N Hj. by apply N, (one_critical s). Qed.
(** An entry owed by an early CPU stays owed while it is early. *)
Lemma keeps_early s i p j e : early (at_ s i) = true → early p = true → e ∈ tlb s j →
  e ∈ tlb s j ∧ (owes s i j → call s i = (e_addr e, e_id e) → early p = true ∧ i ≠ j).
Proof. intros H1 H2 He. split; [done|]. intros Ho _. split; [done|]. by eapply owes_early. Qed.

Ltac early_step s i Ea Hs A C :=
  first [done | by rewrite Ea | by intros _; apply Hs | by intros _; apply A; rewrite Ea | by intros _; apply C; rewrite Ea
        | by intros j N' Hj; exfalso; apply (alone s i j); rewrite ?Ea | by intros j e; apply keeps_early; rewrite ?Ea].
Lemma inv_shoot_early s i : smp_inv s → early (at_ s i) = true → at_ s i ≠ SendIpi → smp_inv (smp_tlb_shootdown_step i s).
Proof.
  intros I He N. pose proof I as [L P Rn G A C M F O Ld Ow T]. specialize (P i). assert (running s i = true) as R by (apply Rn; by destruct (at_ s i)). assert (shooting (at_ s i) = true → smp_tasking_ready s = true) as Hs by apply G.
  unfold smp_tlb_shootdown_step. destruct (at_ s i) eqn:Ea; try done; cbn in P.
  - assert (∀ p, early p = true → is_waiting p = false → pc_agrees p (pc (cpus (lock_step (lk s) (Run i)) i)) → addr_set p = false → smp_inv (goto i p (lock_instr (Run i) s))) as Hg.
    { intros p Hp Hw Hpc Has. apply (inv_goto s i p (lock_step (lk s) (Run i)) (addr s) (target_cr3 s) (pending_mask s) (tlb s)); try done.
      - by apply lock_step_inv.
      - intros j. apply pc_run_other.
      - by rewrite Ea.
      - intros _. by apply Hs.
      - by rewrite Has.
      - by destruct p.
      - by destruct p.
      - intros j e. apply keeps_early; by rewrite ?Ea. }
    cbn [lk lock_instr with_lk]. assert (∃ q, pc (cpus (lock_step (lk s) (Run i)) i) = q ∧ (q = TestAndSet ∨ q = Spinning ∨ q = Critical)) as (q & E & Hq).
    { destruct P as [P|P]; rewrite (lock_run_places _ _ _ L P) by done; destruct (locked (lk s) =? 0); eauto. }
    destruct Hq as [-> |[-> | ->]]; rewrite E; apply Hg; rewrite ?E; cbn; auto.
  - apply (inv_goto s i SetCr3 (lk s) (call s i).1 (target_cr3 s) (pending_mask s) (tlb s)); early_step s i Ea Hs A C.
  - apply (inv_goto s i SetMask (lk s) (addr s) (cr3 s i) (pending_mask s) (tlb s)); early_step s i Ea Hs A C.
  - apply (inv_goto s i SendIpi (lk s) (addr s) (target_cr3 s) (targets s i) (tlb s)); early_step s i Ea Hs A C.
Qed.

Lemma inv_unlock s i : smp_inv s → at_ s i = Unlocking ∨ at_ s i = Restore → smp_inv (smp_tlb_shootdown_step i s).
Proof.
  intros I Ha. pose proof I as [L P Rn G A C M F O Ld Ow T]. specialize (P i). assert (running s i = true) as R by (apply Rn; destruct Ha as [-> | ->]; done).
  assert (∀ p, p = Restore ∨ p = Idle → pc_agrees p (pc (cpus (lock_step (lk s) (Run i)) i)) → smp_inv (goto i p (lock_instr (Run i) s))) as Hg.
  { intros p Hp Hpc. apply (inv_goto s i p (lock_step (lk s) (Run i)) (addr s) (target_cr3 s) (pending_mask s) (tlb s)); try done.
    - by apply lock_step_inv.
    - intros j. apply pc_run_other.
    - by destruct Ha as [-> | ->].
    - by destruct Hp as [-> | ->].
    - intros _. apply (G i). by destruct Ha as [-> | ->].
    - by destruct Hp as [-> | ->].
    - by destruct Hp as [-> | ->].
    - by destruct Hp as [-> | ->].
    - intros j e He. split; [done|]. unfold owes. by destruct Ha as [-> | ->]. }
  unfold smp_tlb_shootdown_step. destruct Ha as [Ea|Ea]; rewrite Ea in P |- *; cbn in P; apply Hg; auto; by rewrite (lock_run_places _ _ _ L P).
Qed.

(** While the owner has not sent the interrupt, none is in flight. *)
Lemma none_in_flight s i j : smp_inv s → critical (at_ s i) = true → is_waiting (at_ s i) = false → running s j = true → ipi s j = false ∧ hnd s j = None.
Proof.
  intros I Hc Hw R. destruct (ipi s j) eqn:Ei, (hnd s j) eqn:Eh; try done; exfalso;
    (destruct (si_flight _ I j R) as (k & _ & W & _); [rewrite Ei, Eh; auto|]); rewrite (one_critical s k i) in W; congruence || by auto using waiting_critical.
Qed.
Lemma inv_send s i : smp_inv s → at_ s i = SendIpi → smp_inv (smp_tlb_shootdown_step i s).
Proof.
  intros I Ea. unfold smp_tlb_shootdown_step. rewrite Ea. pose proof I as [L P Rn G A C M F O Ld Ow T].
  assert (critical (at_ s i) = true ∧ is_waiting (at_ s i) = false) as [Hc Hw] by by rewrite Ea. assert (smp_tasking_ready s = true) as Ht by (apply (G i); by rewrite Ea). assert (running s i = true) as R by (apply Rn; by rewrite Ea).
  assert (∀ j, running s j = true → ipi s j = false ∧ hnd s j = None) as Hn by (intros j; by apply (none_in_flight s i)). assert (∀ k, is_waiting (at_ s k) = true → False) as HW.
  { intros k Wk. rewrite (one_critical s k i) in Wk; [congruence|done|by apply waiting_critical|done]. }
  split; cbn [lk addr target_cr3 pending_mask at_ call cr3 tlb ipi hnd goto with_at with_ipi smp_tasking_ready]; try done.
  - intros j. specialize (P j). unfold upd. case_decide; [subst j; by rewrite Ea in P|done].
  - intros j. unfold upd. case_decide; [by subst|apply Rn].
  - intros j Hj. unfold upd in Hj. case_decide; [subst j; apply A; by rewrite Ea|by apply A].
  - intros j Hj. unfold upd in Hj. case_decide; [subst j; apply C; by rewrite Ea|by apply C].
  - intros j. unfold upd. case_decide; [done|apply M].
  - intros j Rj Hj. destruct (Hn j Rj) as [E1 E2]. exists i. destruct (decide (j = i)) as [->|N]; [rewrite E1, E2 in Hj; by destruct Hj|]. rewrite upd_same. split; [done|]. split; [done|]. rewrite (M i Ea). by apply in_targets.
  - intros j Rj Hj. by destruct (Hn j Rj) as [_ ?].
  - intros k j Wk Rj Hj. case_decide; [|by left]. subst j. rewrite (M i Ea) in Hj. by rewrite not_in_targets in Hj.
  - intros j e He. destruct (T j e He) as (H1 & H2 & k & H3 & H4 & H5). split; [done|]. split; [done|]. exists k. split; [done|]. split; [done|]. unfold owes in *. cbn.
    destruct (decide (k = i)) as [->|N]; [rewrite upd_same|rewrite upd_other by done; done]. rewrite Ea in H5. rewrite (M i Ea). split; [by apply in_targets|]. destruct (Hn j H1) as [_ ->]. done.
Qed.

Lemma inv_wait s i t t' : smp_inv s → at_ s i = Waiting t → smp_inv (goto i (Waiting t') s).
Proof.
  intros I Ea. pose proof I as [L P Rn G A C M F O Ld Ow T].
  assert (∀ f : spot → bool, f (Waiting t') = f (Waiting t) → ∀ j, f (at_ (goto i (Waiting t') s) j) = f (at_ s j)) as Hf by (intros f Hf j; cbn; unfold upd; case_decide; [by subst; rewrite Ea|done]).
  split; try done.
  - intros j. specialize (P j). cbn. unfold upd. case_decide; [subst j; by rewrite Ea in P|done].
  - intros j. cbn. unfold upd. case_decide; [subst j; intros _; apply Rn; by rewrite Ea|apply Rn].
  - intros j. rewrite Hf by done. apply G.
  - intros j. rewrite Hf by done. apply A.
  - intros j. rewrite Hf by done. apply C.
  - intros j. cbn. unfold upd. case_decide; [done|apply M].
  - intros j Rj Hj. destruct (F j Rj Hj) as (k & ? & ? & ?). exists k. by rewrite Hf.
  - intros k j. rewrite Hf by done. apply Ow.
  - intros j e He. destruct (T j e He) as (H1 & H2 & H3). split; [done|]. split; [done|]. apply (covered_keep _ _ _ _ H3). intros k Hk. split; [done|]. split; [done|]. unfold owes in *. cbn. unfold upd. case_decide; [subst; by rewrite Ea in Hk|done].
Qed.

(** The mask is empty: every CPU has dropped the entry. *)
Lemma inv_drained s i t : smp_inv s → at_ s i = Waiting t → pending_mask s = 0 → smp_inv (goto i Unlocking s).
Proof.
  intros I Ea Em. pose proof I as [L P Rn G A C M F O Ld Ow T]. assert (∀ j, in_mask (pending_mask s) j = true → False) as H0 by (intros j; rewrite Em; unfold in_mask; by rewrite Z.testbit_0_l).
  assert (∀ j, running s j = true → ipi s j = true ∨ hnd s j ≠ None → False) as Hn by (intros j Rj Hj; destruct (F j Rj Hj) as (_ & _ & _ & B); by apply (H0 j)).
  split; try done.
  - intros j. specialize (P j). cbn. unfold upd. case_decide; [subst j; by rewrite Ea in P|done].
  - intros j. cbn. unfold upd. case_decide; [subst j; intros _; apply Rn; by rewrite Ea|apply Rn].
  - intros j. cbn. unfold upd. case_decide; [subst j; intros _; apply (G i); by rewrite Ea|apply G].
  - intros j. cbn. unfold upd. case_decide; [done|apply A].
  - intros j. cbn. unfold upd. case_decide; [done|apply C].
  - intros j. cbn. unfold upd. case_decide; [done|apply M].
  - intros j Rj Hj. by destruct (Hn j Rj).
  - intros k j _ _ Hj. by destruct (H0 j).
  - intros j e He. destruct (T j e He) as (H1 & H2 & H3). split; [done|]. split; [done|]. apply (covered_keep _ _ _ _ H3). intros k Hk. split; [done|]. split; [done|]. unfold owes in *. cbn. unfold upd. case_decide; [|done].
    subst k. rewrite Ea in Hk. destruct Hk as [Hk _]. by destruct (H0 j).
Qed.

Lemma timed_out_mono s e : timed_out (smp_step s e) = false → timed_out s = false.
Proof.
  destruct (timed_out s) eqn:E; [|done]. destruct e; cbn; unfold smp_tlb_handler_step, mmu_invlpg_step, smp_tlb_shootdown_step; repeat case_match; cbn; by rewrite ?E.
Qed.
Lemma smp_step_inv s e : smp_inv s → timed_out (smp_step s e) = false → smp_inv (smp_step s e).
Proof.
  intros I Ht. destruct e as [i a|i|i|i c|i b]; [by apply inv_change| |by apply inv_irq|by apply inv_switch|by apply inv_flag]. cbn [smp_step] in *.
  destruct (hnd s i) as [h|] eqn:Eh; [destruct h as [|a|]; [by apply inv_enter|by apply inv_loaded|by apply inv_ack]|].
  destruct (at_ s i) eqn:Ea; try (apply inv_shoot_early; [done|by rewrite Ea|by rewrite Ea]); [done|by apply inv_called|by apply inv_send| |apply inv_unlock; auto|apply inv_unlock; auto].
  unfold smp_tlb_shootdown_step in *. rewrite Ea in *. destruct (Z.eqb_spec (pending_mask s) 0); [by eapply inv_drained|]. destruct (_ =? 0); [done|by eapply inv_wait].
Qed.
Lemma smp_run_inv es : ∀ s, smp_inv s → timed_out (smp_run es s) = false → smp_inv (smp_run es s).
Proof.
  induction es as [|e es IH] using rev_ind; intros s I Ht; [done|]. unfold smp_run in *. rewrite foldl_snoc in *. apply smp_step_inv; [|done]. apply IH; [done|]. by eapply timed_out_mono.
Qed.
Lemma smp_init_inv ready tasking spaces : smp_inv (smp_init ready tasking spaces).
Proof. split; try done; cbn; [apply lock_init_inv|intros j _ [?|?]; done|intros j e He; by apply not_elem_of_nil in He]. Qed.

(** ** Theorems *)

(** C8. TLB coherence.  In every interleaving of any number of CPUs that change pages,
    shoot them down, switch address spaces and take interrupts, as long as no wait
    timed out: a stale translation in any TLB belongs to a change whose [mmu_invlpg]
    has not returned and still waits or has yet to send its interrupt.  So when the
    call returns no CPU uses the old page, although the handler skips other address
    spaces and reads the request without the lock. *)
Theorem shootdown_coherent ready tasking spaces es j e : let s := smp_run es (smp_init ready tasking spaces) in
  timed_out s = false → e ∈ tlb s j →
  ∃ i, call s i = (e_addr e, e_id e) ∧ (at_ s i = Called ∨ early (at_ s i) = true ∨ is_waiting (at_ s i) = true).
Proof.
  intros s Ht He. destruct (si_tlb _ (smp_run_inv es _ (smp_init_inv ready tasking spaces) Ht) j e He) as (_ & _ & i & Hc & _ & Ho). exists i. split; [done|]. unfold owes in Ho. fold s in Ho. destruct (at_ s i); auto; done.
Qed.
Lemma shootdown_coherent_witness : let s := smp_run [Change 0 4096; Step 0] (smp_init 2 true (λ _, 7)) in
  ∃ i, call s i = (4096, 0%nat) ∧ (at_ s i = Called ∨ early (at_ s i) = true ∨ is_waiting (at_ s i) = true).
Proof. apply (shootdown_coherent 2 true (λ _, 7) [Change 0 4096; Step 0] 1 (Entry 0 4096 7)); [reflexivity|]. apply list_elem_of_singleton. reflexivity. Defined.

Lemma smp_run_app es1 es2 s : smp_run (es1 ++ es2) s = smp_run es2 (smp_run es1 s).
Proof. apply foldl_app. Qed.
(** The interrupt served by one CPU *)
Definition serve (j : nat) : list smp_event := [Irq j; Step j; Step j; Step j].
Lemma serve_run s j : hnd s j = None → ipi s j = true → iflag (cpus (lk s) j) = true →
  let s' := smp_run (serve j) s in
  lk s' = lk s ∧ at_ s' = at_ s ∧ timed_out s' = timed_out s ∧ pending_mask s' = Z.ldiff (pending_mask s) (bit j) ∧
  ∀ k, k ≠ j → hnd s' k = hnd s k ∧ ipi s' k = ipi s k.
Proof.
  intros H1 H2 H3. unfold smp_run, serve. cbn [foldl smp_step]. rewrite H1, H2, H3. cbn [andb]. cbn [hnd with_hnd]. rewrite upd_same. cbn [smp_tlb_handler_step hnd with_hnd]. rewrite upd_same. cbn [smp_tlb_handler_step hnd with_hnd]. rewrite upd_same. cbn [smp_tlb_handler_step].
  case_match; cbn; (do 4 (split; [done|])); intros k N; by rewrite !upd_other.
Qed.
Lemma serve_all l : ∀ s, NoDup l → (∀ j, j ∈ l → hnd s j = None ∧ ipi s j = true ∧ iflag (cpus (lk s) j) = true) →
  let s' := smp_run (l ≫= serve) s in
  lk s' = lk s ∧ at_ s' = at_ s ∧ timed_out s' = timed_out s ∧
  (∀ k, in_mask (pending_mask s') k = in_mask (pending_mask s) k && negb (bool_decide (k ∈ l))) ∧ ∀ k, k ∉ l → hnd s' k = hnd s k.
Proof.
  induction l as [|j l IH]; intros s ND H; cbn [mbind list_bind].
  { do 3 (split; [done|]). split; [|done]. intros k. rewrite bool_decide_false by apply not_elem_of_nil. by rewrite andb_true_r. }
  apply NoDup_cons in ND as [Nj ND]. destruct (H j) as (H1 & H2 & H3); [by left|]. rewrite smp_run_app. destruct (serve_run s j H1 H2 H3) as (L1 & A1 & T1 & M1 & O1).
  destruct (IH (smp_run (serve j) s) ND) as (L2 & A2 & T2 & M2 & O2).
  { intros k Hk. rewrite L1. assert (k ≠ j) as N by (by intros ->). destruct (O1 k N) as [-> ->]. apply H. by right. }
  rewrite L2, A2, T2, L1, A1, T1. do 3 (split; [done|]). split.
  - intros k. rewrite M2, M1, in_mask_clear, <-andb_assoc. f_equal. destruct (decide (k = j)) as [->|N].
    + rewrite Nat.eqb_refl. by rewrite (bool_decide_true (j ∈ j :: l)) by by left.
    + replace (j =? k)%nat with false by (symmetry; apply Nat.eqb_neq; done). cbn. f_equal. apply bool_decide_ext. rewrite elem_of_cons. split; [by right|by intros [?|?]].
  - intros k Hk. apply not_elem_of_cons in Hk as [N Hk]. rewrite O2 by done. by apply O1.
Qed.

Lemma release_run s i t : at_ s i = Waiting t → hnd s i = None → pending_mask s = 0 →
  let s' := smp_run [Step i; Step i; Step i] s in at_ s' i = Idle ∧ timed_out s' = timed_out s.
Proof.
  intros Ea Hi M0. unfold smp_run. cbn [foldl]. assert (smp_step s (Step i) = goto i Unlocking s) as ->.
  { cbn [smp_step]. rewrite Hi, Ea. unfold smp_tlb_shootdown_step. by rewrite Ea, M0. }
  set (s1 := goto i Unlocking s). assert (smp_step s1 (Step i) = goto i Restore (lock_instr (Run i) s1)) as ->.
  { cbn [smp_step]. assert (hnd s1 i = None ∧ at_ s1 i = Unlocking) as [-> E] by (split; [done|apply upd_same]). rewrite E. unfold smp_tlb_shootdown_step. by rewrite E. }
  set (s2 := goto i Restore (lock_instr (Run i) s1)). assert (smp_step s2 (Step i) = goto i Idle (lock_instr (Run i) s2)) as ->.
  { cbn [smp_step]. assert (hnd s2 i = None ∧ at_ s2 i = Restore) as [-> E] by (split; [done|apply upd_same]). rewrite E. unfold smp_tlb_shootdown_step. by rewrite E. }
  split; [apply upd_same|done].
Qed.
Lemma mask_below m (n : nat) : 0 ≤ m < 2 ^ 32 → in_mask m n = true → (n < 32)%nat.
Proof.
  intros Hm E. unfold in_mask in E. destruct (Nat.lt_ge_cases n 32) as [|Hge]; [done|]. rewrite Z.bits_above_log2 in E; [done|lia|]. destruct (Z.eq_dec m 0) as [->|]; [cbn; lia|].
  apply Z.log2_lt_pow2; [lia|]. pose proof (Z.pow_le_mono_r 2 32 (Z.of_nat n)). lia.
Qed.
Lemma owner_calm s i t : smp_inv s → at_ s i = Waiting t → ipi s i = false ∧ hnd s i = None.
Proof.
  intros I Ea. assert (running s i = true) as R by (apply (si_run _ I); by rewrite Ea). assert (ipi s i = true ∨ hnd s i ≠ None → False) as H.
  { intros H. destruct (si_flight _ I i R H) as (k & N & W & _). apply N, (one_critical s); [done|by apply waiting_critical|by rewrite Ea]. }
  destruct (ipi s i), (hnd s i); auto; destruct H; auto.
Qed.
Lemma completes_from s i t : smp_inv s → timed_out s = false → at_ s i = Waiting t → 0 ≤ pending_mask s < 2 ^ 32 →
  (∀ j, in_mask (pending_mask s) j = true → running s j = true ∧ hnd s j = None ∧ iflag (cpus (lk s) j) = true) →
  ∃ asked, let s' := smp_run ((asked ≫= serve) ++ [Step i; Step i; Step i]) s in at_ s' i = Idle ∧ timed_out s' = false.
Proof.
  intros I Ht Ea Hb Hj. exists (filter (λ j, in_mask (pending_mask s) j = true) (seq 0 32)). rewrite smp_run_app. remember (seq 0 32) as all eqn:Eall. set (asked := filter _ all).
  assert (∀ j, j ∈ asked ↔ in_mask (pending_mask s) j = true) as Hin.
  { intros j. unfold asked. rewrite list_elem_of_filter. split; [by intros [? _]|]. intros H. split; [done|]. rewrite Eall. apply elem_of_seq. apply mask_below in H; [lia|done]. }
  destruct (serve_all asked s) as (L & A & T & M & O); [apply NoDup_filter; rewrite Eall; apply NoDup_seq| |].
  { intros j Hm%Hin. destruct (Hj j Hm) as (R & Hn & Hf). split; [done|]. split; [|done]. destruct (si_owed _ I i j) as [?|?]; [by rewrite Ea|done|done|done|done]. }
  destruct (owner_calm s i t I Ea) as [Hp Hi]. destruct (release_run (smp_run (asked ≫= serve) s) i t) as [E1 E2]; [by rewrite A| | |cbv zeta; by rewrite E1, E2, T].
  - rewrite O; [done|]. intros Hm%Hin. destruct (si_owed _ I i i) as [?|?]; [by rewrite Ea|by apply Hj|done|congruence|done].
  - apply Z.bits_inj'. intros n Hn. rewrite Z.testbit_0_l. specialize (M (Z.to_nat n)). unfold in_mask at 1 in M. rewrite Z2Nat.id in M by done. rewrite M. destruct (in_mask (pending_mask s) (Z.to_nat n)) eqn:E; [|done]. by rewrite bool_decide_true by by apply Hin.
Qed.

(** A shootdown completes.  When every CPU that is asked can take interrupts, the
    handlers of those CPUs and then three instructions of the waiting CPU bring its
    call to the end, without a timeout. *)
Theorem shootdown_completes ready tasking spaces es i t : let s := smp_run es (smp_init ready tasking spaces) in
  timed_out s = false → at_ s i = Waiting t → 0 ≤ pending_mask s < 2 ^ 32 →
  (∀ j, in_mask (pending_mask s) j = true → running s j = true ∧ hnd s j = None ∧ iflag (cpus (lk s) j) = true) →
  ∃ asked, let s' := smp_run ((asked ≫= serve) ++ [Step i; Step i; Step i]) s in at_ s' i = Idle ∧ timed_out s' = false.
Proof. intros s Ht. apply completes_from; [|done]. apply smp_run_inv; [apply smp_init_inv|done]. Qed.
Lemma shootdown_completes_witness : let s := smp_run (Change 0 4096 :: replicate 6 (Step 0)) (smp_init 2 true (λ _, 7)) in
  ∃ asked, let s' := smp_run ((asked ≫= serve) ++ [Step 0; Step 0; Step 0]) s in at_ s' 0 = Idle ∧ timed_out s' = false.
Proof.
  apply (shootdown_completes 2 true (λ _, 7) (Change 0 4096 :: replicate 6 (Step 0)) 0 SHOOTDOWN_TIMEOUT); [vm_compute; reflexivity|vm_compute; reflexivity|vm_compute; split; [discriminate|reflexivity]|].
  match goal with |- context [pending_mask ?x] => replace (pending_mask x) with 2 by (vm_compute; reflexivity) end.
  intros j Hj. destruct j as [|[|j]]; [discriminate Hj|vm_compute; auto|]. exfalso. revert Hj. unfold in_mask. rewrite Z.bits_above_log2; [done|lia|cbn; lia].
Defined.

(** ** Two shootdowns at once

    A CPU that spins for the lock has its interrupts off, so it cannot serve the
    holder. *)
Definition crossed (s : smp) (i k : nat) : Prop :=
  is_waiting (at_ s i) = true ∧ at_ s k = Locking ∧ in_mask (pending_mask s) k = true ∧ hnd s k = None.
(** What an event does not change for CPU [k], of another CPU *)
Lemma step_other s i k : i ≠ k → at_ (smp_step s (Step i)) k = at_ s k ∧ hnd (smp_step s (Step i)) k = hnd s k.
Proof.
  intros N. cbn [smp_step]. destruct (hnd s i) as [[|a|]|]; cbn; rewrite ?upd_other by done; try (destruct (_ && _); done); try done.
  destruct (at_ s i) eqn:E; unfold mmu_invlpg_step, smp_tlb_shootdown_step; rewrite ?E; repeat case_match; cbn; by rewrite ?upd_other.
Qed.
(** CPU [k] keeps spinning: the owner holds the lock. *)
Lemma crossed_spin s i k : smp_inv s → crossed s i k → crossed (smp_step s (Step k)) i k.
Proof.
  intros I (W & Ek & B & Hk). assert (i ≠ k) by (intros ->; by rewrite Ek in W). cbn [smp_step]. rewrite Hk, Ek. unfold smp_tlb_shootdown_step. rewrite Ek. cbn [lk lock_instr with_lk].
  pose proof (si_pc _ I k) as Pk. rewrite Ek in Pk. pose proof (si_pc _ I i) as Pi. assert (pc (cpus (lk s) i) = Critical) as Pc by (destruct (at_ s i); done). pose proof (li_one _ (si_lock _ I) i Pc) as L1.
  assert (pc (cpus (lock_step (lk s) (Run k)) k) = Spinning) as ->.
  { destruct Pk as [Pk|Pk]; by rewrite (lock_run_places _ _ _ (si_lock _ I) Pk), L1. }
  unfold crossed. cbn [at_ pending_mask hnd goto with_at lock_instr with_lk]. by rewrite upd_same, upd_other.
Qed.
(** The owner keeps waiting: the bit of [k] is set. *)
Lemma crossed_wait s i k : smp_inv s → crossed s i k → timed_out (smp_step s (Step i)) = false → crossed (smp_step s (Step i)) i k.
Proof.
  intros I (W & Ek & B & Hk). assert (i ≠ k) as N by (intros ->; by rewrite Ek in W). destruct (at_ s i) as [| | | | | | |t| |] eqn:Ei; try done. destruct (owner_calm s i _ I Ei) as [_ Hi]. cbn [smp_step]. rewrite Hi, Ei. unfold smp_tlb_shootdown_step. rewrite Ei.
  assert (pending_mask s ≠ 0) as Nz by (intros E; rewrite E in B; unfold in_mask in B; by rewrite Z.testbit_0_l in B). apply Z.eqb_neq in Nz. rewrite Nz. destruct (t - 1 =? 0); [done|]. intros _. unfold crossed. cbn [at_ pending_mask hnd goto with_at]. rewrite upd_same, upd_other by done. done.
Qed.
(** A third CPU does not touch the bit of [k]. *)
Lemma crossed_other s i k j : smp_inv s → crossed s i k → j ≠ i → j ≠ k → crossed (smp_step s (Step j)) i k.
Proof.
  intros I (W & Ek & B & Hk) Ni Nk. destruct (step_other s j i Ni) as [E1 _]. destruct (step_other s j k Nk) as [E2 E3]. split; [by rewrite E1|]. split; [by rewrite E2|]. rewrite E3. split; [|done].
  assert (critical (at_ s j) = false) as Hc by (destruct (critical (at_ s j)) eqn:E; [|done]; exfalso; apply Ni, (one_critical s); [done|done|by apply waiting_critical]).
  cbn [smp_step]. destruct (hnd s j) as [[|a|]|].
  - done.
  - cbn. by destruct (_ && _).
  - cbn. rewrite in_mask_clear, B. cbn. apply negb_true_iff, Nat.eqb_neq. done.
  - destruct (at_ s j) eqn:Ej; try done; unfold mmu_invlpg_step, smp_tlb_shootdown_step; rewrite ?Ej; repeat case_match; done.
Qed.
Lemma crossed_step s i k e : smp_inv s → crossed s i k → timed_out (smp_step s e) = false → crossed (smp_step s e) i k.
Proof.
  intros I X. pose proof X as (W & Ek & B & Hk). destruct e as [j a|j|j|j c|j b].
  - intros _. cbn [smp_step]. destruct (free s j && running s j) eqn:Hf; [|done]. apply andb_prop in Hf as [[Ej _]%free_idle _]. unfold crossed. cbn [at_ pending_mask hnd goto with_at with_call with_changes with_tlb]. rewrite !upd_other; [done|congruence|intros ->; by rewrite Ej in W].
  - intros Ht. destruct (decide (j = i)) as [->|]; [by apply crossed_wait|]. destruct (decide (j = k)) as [->|]; [by apply crossed_spin|by apply crossed_other].
  - intros _. cbn [smp_step]. destruct (hnd s j) eqn:Eh; [done|]. destruct (ipi s j && _) eqn:Ei; [|done]. apply andb_prop in Ei as [_ Ei]. split; [done|]. split; [done|]. split; [done|]. cbn. rewrite upd_other; [done|]. intros <-.
    rewrite (li_off _ (si_lock _ I) k) in Ei; [done|]. pose proof (si_pc _ I k) as Pk. rewrite Ek in Pk. destruct Pk; congruence.
  - intros _. cbn [smp_step]. by destruct (free s j).
  - intros _. cbn [smp_step]. by destruct (free s j).
Qed.
Lemma crossed_run es : ∀ s i k, smp_inv s → crossed s i k → timed_out (smp_run es s) = false → crossed (smp_run es s) i k.
Proof.
  induction es as [|e es IH] using rev_ind; intros s i k I X Ht; [done|]. rewrite smp_run_app in *. pose proof (timed_out_mono _ _ Ht) as Ht'. apply crossed_step; [by apply smp_run_inv|by apply IH|done].
Qed.

(** C35. Crossing shootdowns block.  Once a CPU waits for the answer of another one that
    spins for the shootdown lock itself, neither gets any further, whatever all CPUs
    do, until the wait times out: the spinning CPU has its interrupts off. *)
Theorem crossing_shootdowns_block ready tasking spaces es es' i k : let s := smp_run es (smp_init ready tasking spaces) in
  is_waiting (at_ s i) = true → at_ s k = Locking → in_mask (pending_mask s) k = true → hnd s k = None →
  let s' := smp_run es' s in timed_out s' = false → is_waiting (at_ s' i) = true ∧ at_ s' k = Locking.
Proof.
  intros s W Ek B Hk s' Ht. assert (timed_out s = false) as Hs.
  { subst s'. clear - Ht. induction es' as [|e es' IH] using rev_ind; [done|]. rewrite smp_run_app in Ht. by eapply IH, timed_out_mono. }
  destruct (crossed_run es' s i k) as (? & ? & _); [apply smp_run_inv; [apply smp_init_inv|done]|by split|done|done].
Qed.
Definition crossing : list smp_event := [Change 0 4096; Change 1 8192] ++ replicate 6 (Step 0) ++ [Step 1].
Lemma crossing_shootdowns_block_witness : let s := smp_run crossing (smp_init 2 true (λ _, 7)) in let s' := smp_run [Step 1; Irq 1; Step 0] s in
  is_waiting (at_ s' 0) = true ∧ at_ s' 1 = Locking.
Proof. apply (crossing_shootdowns_block 2 true (λ _, 7) crossing [Step 1; Irq 1; Step 0] 0 1); vm_compute; reflexivity. Defined.

(** And the timeout leaves the old translation in use: when the spinning CPU has done its
    own shootdown and at last takes the interrupt of the first, the request it reads is
    its own. *)
Lemma goto_goto i p q s : goto i p (goto i q s) = goto i p s.
Proof. unfold goto, with_at. cbn. f_equal. apply functional_extensionality. intros j. unfold upd. by case_decide. Qed.
Lemma goto_here i p s : at_ s i = p → goto i p s = s.
Proof. intros E. unfold goto. destruct s as [? ? ? ? ? ? f]. cbn in *. unfold with_at. cbn. f_equal. apply functional_extensionality. intros j. unfold upd. case_decide; congruence. Qed.
Lemma wait_out_run n : ∀ s i t, at_ s i = Waiting t → hnd s i = None → pending_mask s ≠ 0 → Z.of_nat n < t →
  smp_run (replicate n (Step i)) s = goto i (Waiting (t - Z.of_nat n)) s.
Proof.
  induction n as [|n IH]; intros s i t Ea Hi Hm Hn; [rewrite Z.sub_0_r; symmetry; by apply goto_here|]. cbn [replicate]. change (smp_run (Step i :: replicate n (Step i)) s) with (smp_run (replicate n (Step i)) (smp_step s (Step i))).
  assert (smp_step s (Step i) = goto i (Waiting (t - 1)) s) as ->.
  { cbn [smp_step]. rewrite Hi, Ea. unfold smp_tlb_shootdown_step. rewrite Ea. apply Z.eqb_neq in Hm. rewrite Hm. by replace (t - 1 =? 0) with false by (symmetry; apply Z.eqb_neq; lia). }
  rewrite (IH _ _ (t - 1)); [|apply upd_same|done|done|lia]. rewrite goto_goto. do 2 f_equal. lia.
Qed.
Lemma timeout_leaves_stale : ∃ es, let s := smp_run es (smp_init 2 true (λ _, 7)) in
  at_ s 0 = Idle ∧ at_ s 1 = Idle ∧ hnd s 1 = None ∧ ipi s 1 = false ∧ tlb s 1 = [Entry 0 4096 7].
Proof.
  destruct (Z_of_nat_complete (SHOOTDOWN_TIMEOUT - 1)) as [n En]; [by vm_compute|].
  exists (crossing ++ replicate n (Step 0) ++ replicate 3 (Step 0) ++ replicate 5 (Step 1) ++ serve 0 ++ replicate 3 (Step 1) ++ serve 1).
  rewrite (smp_run_app crossing), smp_run_app, (wait_out_run _ _ 0 SHOOTDOWN_TIMEOUT); [|vm_compute; reflexivity|vm_compute; reflexivity|vm_compute; discriminate|lia].
  rewrite <-En. vm_compute. auto.
Qed.
