(* ===== verification/Keyboard.v ===== *)
(** * Keyboard and serial input

    Models [kernel/modules/drivers/keyboard.c] (but for the controller set-up)
    and the receiving half of [uart.c]: the circular queue of characters, the
    interrupt handlers that fill it, and the blocking readers.  Control-C asks
    the task layer to interrupt the foreground processes, through the interface
    [Foreground].

    A reader that finds the queue empty halts with interrupts enabled; the
    interrupts that are still to come are the list [c_irqs], and one is handled
    each time the reader halts.  Without any left the reader stays halted, the
    outcome [Hang]. *)

From stdpp Require Import base numbers list gmap strings.
From Stdlib Require Import ZArith Lia.
From S2P Require Import Prelude CString Display.

#[local] Open Scope Z_scope.
#[local] Open Scope kernel_scope.

(** What the drivers need of the task layer: [kabi_kill_all_children] *)
Class Foreground (T : Type) := { interrupt_foreground : kM T unit }.

(** An interrupt: a scan code from port 0x60, or the bytes waiting at the serial port *)
Inductive irq := Scancode (b : Z) | Serial (bs : list Z).

Record kbd := Kbd {
  shift_pressed : bool;
  ctrl_pressed : bool;
  caps_lock : bool;
  kb_queue : list Z;
  kb_head : Z;
  kb_tail : Z;
  kb_irq_count : Z;
  ansi_state : Z }.

Definition with_shift b k := Kbd b (ctrl_pressed k) (caps_lock k) (kb_queue k) (kb_head k) (kb_tail k) (kb_irq_count k) (ansi_state k).
Definition with_ctrl b k := Kbd (shift_pressed k) b (caps_lock k) (kb_queue k) (kb_head k) (kb_tail k) (kb_irq_count k) (ansi_state k).
Definition with_caps b k := Kbd (shift_pressed k) (ctrl_pressed k) b (kb_queue k) (kb_head k) (kb_tail k) (kb_irq_count k) (ansi_state k).
Definition with_queue q h t k := Kbd (shift_pressed k) (ctrl_pressed k) (caps_lock k) q h t (kb_irq_count k) (ansi_state k).
Definition with_irq_count n k := Kbd (shift_pressed k) (ctrl_pressed k) (caps_lock k) (kb_queue k) (kb_head k) (kb_tail k) n (ansi_state k).
Definition with_ansi a k := Kbd (shift_pressed k) (ctrl_pressed k) (caps_lock k) (kb_queue k) (kb_head k) (kb_tail k) (kb_irq_count k) a.

Record con (T : Type) := Con { c_kbd : kbd; c_disp : display; c_task : T; c_irqs : list irq }.
Arguments Con {T} c_kbd c_disp c_task c_irqs.
Arguments c_kbd {T} c.
Arguments c_disp {T} c.
Arguments c_task {T} c.
Arguments c_irqs {T} c.

(** ** Key tables *)

Definition SC_MAX : Z := 58.
Definition KB_QUEUE_SIZE : Z := 256.
Definition BACKSPACE : Z := 14.
Definition ENTER : Z := 28.

Definition sc_ascii : list Z :=
  str "??1234567890-=??qwertyuiop[]??asdfghjkl;'`?\zxcvbnm,./??? "%string.

(** [symbols]: the shifted digits *)
Definition symbols : list Z := str ")!@#$%^&*("%string.

Section ops.
Context {T : Type} {F : Foreground T}.

Definition kbd_ (f : kbd → kbd) : kM (con T) unit := kmodify (λ s, Con (f (c_kbd s)) (c_disp s) (c_task s) (c_irqs s)).
Definition disp {A} (m : kM display A) : kM (con T) A := λ s,
  match m (c_disp s) with
  | Ret a d => Ret a (Con (c_kbd s) d (c_task s) (c_irqs s))
  | Hang d => Hang (Con (c_kbd s) d (c_task s) (c_irqs s))
  | Panic d => Panic (Con (c_kbd s) d (c_task s) (c_irqs s))
  | Fault => Fault
  | NoFuel => NoFuel
  end.
Definition task {A} (m : kM T A) : kM (con T) A := λ s,
  match m (c_task s) with
  | Ret a t => Ret a (Con (c_kbd s) (c_disp s) t (c_irqs s))
  | Hang t => Hang (Con (c_kbd s) (c_disp s) t (c_irqs s))
  | Panic t => Panic (Con (c_kbd s) (c_disp s) t (c_irqs s))
  | Fault => Fault
  | NoFuel => NoFuel
  end.

(** ** The queue *)

Definition kb_enqueue (c : Z) : kM (con T) unit :=
  let* s := kget in
  let k := c_kbd s in
  let next := Z.rem (kb_head k + 1) KB_QUEUE_SIZE in
  if negb (next =? kb_tail k) then
    let* q := kget_opt (λ _, zset (kb_queue k) (kb_head k) (u8 c)) in
    kbd_ (with_queue q next (kb_tail k))
  else kret tt.

(** The result is the character, if there is one. *)
Definition kb_dequeue : kM (con T) (option Z) :=
  let* s := kget in
  let k := c_kbd s in
  if kb_head k =? kb_tail k then kret None
  else
    let* c := kget_opt (λ _, zlookup (kb_queue k) (kb_tail k)) in
    kbd_ (with_queue (kb_queue k) (kb_head k) (Z.rem (kb_tail k + 1) KB_QUEUE_SIZE)) ;;;
    kret (Some c).

(** ** The keyboard interrupt *)

(** The trace line printed for every scan code: [hex_to_ascii] writes its own
    prefix behind the [0x] of the message. *)
Definition trace_msg (scancode : Z) (temp0 : list Z) : option (list Z) :=
  let m := str "[KB] scan: 0x"%string ++ replicate 19 0 in
  temp ← hex_to_ascii scancode temp0;
  m ← strcat m temp;
  strcat m [10; 0].

(** The letter of a key under the modifiers *)
Definition modified (shift ctrl caps : bool) (letter : Z) : option Z :=
  if ctrl then
    Some (if (97 <=? letter) && (letter <=? 122) then letter - 97 + 1 else letter)
  else if (97 <=? letter) && (letter <=? 122) then
    Some (if xorb shift caps then letter - 32 else letter)
  else if shift then
    if (48 <=? letter) && (letter <=? 57) then zlookup symbols (letter - 48)
    else Some (
      if letter =? 45 then 95 else if letter =? 61 then 43 else if letter =? 59 then 58
      else if letter =? 91 then 123 else if letter =? 93 then 125 else if letter =? 44 then 60
      else if letter =? 46 then 62 else if letter =? 47 then 63 else if letter =? 39 then 34
      else if letter =? 96 then 126 else if letter =? 92 then 124 else letter)
  else Some letter.

Definition keyboard_callback (temp0 : list Z) (scancode : Z) : kM (con T) unit :=
  kbd_ (λ k, with_irq_count (u32 (kb_irq_count k + 1)) k) ;;;
  let* m := kget_opt (λ _, trace_msg scancode temp0) in
  disp (kprint m) ;;;
  let* s := kget in
  let k := c_kbd s in
  if scancode =? 58 then kbd_ (with_caps (negb (caps_lock k)))
  else if (scancode =? 42) || (scancode =? 54) then kbd_ (with_shift true)
  else if (scancode =? 170) || (scancode =? 182) then kbd_ (with_shift false)
  else if scancode =? 29 then kbd_ (with_ctrl true)
  else if scancode =? 157 then kbd_ (with_ctrl false)
  else if SC_MAX <=? scancode then
    if scancode =? 72 then kb_enqueue (if ctrl_pressed k then 133 else 129)
    else if scancode =? 80 then kb_enqueue (if ctrl_pressed k then 134 else 130)
    else if scancode =? 75 then kb_enqueue (if ctrl_pressed k then 135 else 131)
    else if scancode =? 77 then kb_enqueue (if ctrl_pressed k then 136 else 132)
    else kret tt
  else if ctrl_pressed k && (scancode =? 46) then task interrupt_foreground
  else if scancode =? BACKSPACE then kb_enqueue 8
  else if scancode =? ENTER then kb_enqueue 10
  else
    let* letter := kget_opt (λ _, zlookup sc_ascii scancode) in
    if letter =? 63 then kret tt
    else
      let* letter := kget_opt (λ _, modified (shift_pressed k) (ctrl_pressed k) (caps_lock k) letter) in
      kb_enqueue letter.

(** ** The serial interrupt *)

Definition keyboard_handle_char (c : Z) : kM (con T) unit :=
  kb_enqueue (if c =? 13 then 10 else c).

(** One byte: control-C, or a step of the escape-sequence recogniser *)
Definition uart_byte (c : Z) : kM (con T) unit :=
  if c =? 3 then task interrupt_foreground
  else
    let* s := kget in
    let a := ansi_state (c_kbd s) in
    if (a =? 0) && (c =? 27) then kbd_ (with_ansi 1)
    else if (a =? 1) && (c =? 91) then kbd_ (with_ansi 2)
    else if a =? 2 then
      (if c =? 49 then kbd_ (with_ansi 3)
       else if c =? 65 then keyboard_handle_char 129
       else if c =? 66 then keyboard_handle_char 130
       else if c =? 67 then keyboard_handle_char 132
       else if c =? 68 then keyboard_handle_char 131
       else kbd_ (with_ansi 0)) ;;;
      kbd_ (λ k, if ansi_state k =? 2 then with_ansi 0 k else k)
    else if (a =? 3) && (c =? 59) then kbd_ (with_ansi 4)
    else if (a =? 4) && (c =? 53) then kbd_ (with_ansi 5)
    else if a =? 5 then
      (if c =? 65 then keyboard_handle_char 133
       else if c =? 66 then keyboard_handle_char 134
       else if c =? 67 then keyboard_handle_char 136
       else if c =? 68 then keyboard_handle_char 135
       else kret tt) ;;;
      kbd_ (with_ansi 0)
    else
      kbd_ (with_ansi 0) ;;; keyboard_handle_char c.

(** [while (data ready) ...] over the bytes that are waiting *)
Fixpoint uart_callback (bs : list Z) : kM (con T) unit :=
  match bs with [] => kret tt | c :: bs => uart_byte c ;;; uart_callback bs end.

Definition handle (temp0 : list Z) (e : irq) : kM (con T) unit :=
  match e with Scancode b => keyboard_callback temp0 b | Serial bs => uart_callback bs end.

(** ** Readers *)

(** [while (!kb_dequeue(&c)) sti; hlt] *)
Fixpoint wait_char (temp0 : list Z) (fuel : nat) : kM (con T) Z :=
  let* o := kb_dequeue in
  match o with
  | Some c => kret c
  | None =>
      let* s := kget in
      match c_irqs s, fuel with
      | [], _ => khang
      | _, O => λ _, NoFuel
      | e :: es, S fuel =>
          kput (Con (c_kbd s) (c_disp s) (c_task s) es) ;;;
          handle temp0 e ;;;
          wait_char temp0 fuel
      end
  end.

Definition get_char_noecho (temp0 : list Z) : kM (con T) Z :=
  let* s := kget in wait_char temp0 (S (length (c_irqs s))).

(** The loop of [get_line]: [buf] is the caller's buffer, [i] the position.  Each
    turn takes one character; [fuel] bounds the characters. *)
Fixpoint line_loop (temp0 : list Z) (fuel : nat) (buf : list Z) (i : Z) : kM (con T) (list Z) :=
  match fuel with
  | O => λ _, NoFuel
  | S fuel =>
      let* c := get_char_noecho temp0 in
      if c =? 10 then
        disp (kprint [10; 0]) ;;;
        kget_opt (λ _, zset buf i 0)
      else if (c =? 8) || (c =? 127) then
        if 0 <? i then disp kprint_backspace ;;; line_loop temp0 fuel buf (i - 1)
        else line_loop temp0 fuel buf i
      else if i <? 255 then
        let* buf := kget_opt (λ _, zset buf i c) in
        disp (kprint [c; 0]) ;;;
        line_loop temp0 fuel buf (i + 1)
      else line_loop temp0 fuel buf i
  end.

(** The queue holds at most 255 characters, and an interrupt brings one, or the
    bytes waiting at the serial port. *)
Definition irq_chars (e : irq) : nat := match e with Scancode _ => 1 | Serial bs => length bs end.
Definition get_line (temp0 buf : list Z) : kM (con T) (list Z) :=
  let* s := kget in
  line_loop temp0 (256 + sum_list_with irq_chars (c_irqs s)) buf 0.

End ops.
