(* ===== verification/KeyboardInv.v ===== *)
(** * Typed characters reach the reader

    The circular queue of the keyboard driver is a first-in first-out queue of
    255 characters; the scan-code handler implements the US layout; [get_line]
    returns the edited line of what was typed and never writes more than 256
    bytes. *)

From stdpp Require Import base numbers list gmap strings.
From Stdlib Require Import ZArith Lia.
From S2P Require Import Prelude CString Display DisplayInv Keyboard.

#[local] Open Scope Z_scope.
#[local] Open Scope kernel_scope.

(** ** The queue as a sequence *)

Record kb_ok (k : kbd) : Prop := {
  ko_len : length (kb_queue k) = 256%nat;
  ko_head : 0 ≤ kb_head k < 256;
  ko_tail : 0 ≤ kb_tail k < 256 }.

Definition count (k : kbd) : Z := (kb_head k - kb_tail k) mod 256.
Definition queued (k : kbd) : list Z :=
  (λ i, kb_queue k !!! Z.to_nat ((kb_tail k + i) mod 256)) <$> seqZ 0 (count k).

(** The modifier keys *)
Definition mods (k : kbd) : bool * bool * bool := (shift_pressed k, ctrl_pressed k, caps_lock k).

Lemma count_range k : 0 ≤ count k < 256.
Proof. apply Z.mod_pos_bound. lia. Qed.
Lemma queued_length k : Z.of_nat (length (queued k)) = count k.
Proof. unfold queued. rewrite length_fmap, length_seqZ. pose proof (count_range k). lia. Qed.

Lemma head_of k : kb_ok k → kb_head k = (kb_tail k + count k) mod 256.
Proof.
  intros [_ H T]. unfold count. rewrite Z.add_mod_idemp_r by lia.
  replace (kb_tail k + (kb_head k - kb_tail k)) with (kb_head k) by lia. by rewrite Z.mod_small.
Qed.

Lemma next_rem x : 0 ≤ x < 256 → Z.rem (x + 1) 256 = (x + 1) mod 256.
Proof. intros. apply Z.rem_mod_nonneg; lia. Qed.

(** The test [next != kb_tail] is "fewer than 255 characters". *)
Lemma full_count k : kb_ok k → (Z.rem (kb_head k + 1) 256 =? kb_tail k) = (count k =? 255).
Proof.
  intros [_ H T]. rewrite next_rem by done. apply eq_true_iff_eq. rewrite !Z.eqb_eq. unfold count.
  Z.to_euclidean_division_equations. lia.
Qed.

Lemma empty_count k : kb_ok k → (kb_head k =? kb_tail k) = (count k =? 0).
Proof. intros [_ H T]. apply eq_true_iff_eq. rewrite !Z.eqb_eq. unfold count. Z.to_euclidean_division_equations. lia. Qed.

(** Storing at the head appends. *)
Lemma queued_push k c : kb_ok k → count k < 255 →
  let k' := with_queue (<[Z.to_nat (kb_head k) := c]> (kb_queue k)) ((kb_head k + 1) mod 256) (kb_tail k) k in
  kb_ok k' ∧ queued k' = queued k ++ [c].
Proof.
  intros K Hc k'. pose proof (head_of k K) as Hh. destruct K as [L H T]. pose proof (count_range k) as HC.
  pose proof (Z.mod_pos_bound (kb_head k + 1) 256 ltac:(lia)).
  assert (count k' = count k + 1) as Ec by (unfold count; cbn; unfold count in Hc, HC; Z.to_euclidean_division_equations; lia).
  split; [split; cbn; [by rewrite length_insert|done|done]|].
  unfold queued. rewrite Ec, seqZ_app, fmap_app by lia. unfold k'. cbn [kb_queue kb_tail with_queue]. f_equal.
  - apply list_fmap_ext. intros i j Hij. apply lookup_seqZ in Hij as [-> Hlt].
    rewrite list_lookup_total_insert_ne; [done|]. rewrite Hh. intros E.
    assert ((kb_tail k + count k) mod 256 = (kb_tail k + (0 + Z.of_nat i)) mod 256) as E2.
    { pose proof (Z.mod_pos_bound (kb_tail k + count k) 256 ltac:(lia)). pose proof (Z.mod_pos_bound (kb_tail k + (0 + Z.of_nat i)) 256 ltac:(lia)). lia. }
    clear -E2 Hlt HC T. Z.to_euclidean_division_equations. lia.
  - change (seqZ (0 + count k) 1) with [Z.of_nat 0 + (0 + count k)]. cbn [fmap list_fmap]. f_equal.
    replace (kb_tail k + (Z.of_nat 0 + (0 + count k))) with (kb_tail k + count k) by lia. rewrite <-Hh. apply list_lookup_total_insert_eq. lia.
Qed.

(** Advancing the tail drops the first character. *)
Lemma queued_pop k : kb_ok k → 0 < count k → ∃ c,
  zlookup (kb_queue k) (kb_tail k) = Some c ∧
  let k' := with_queue (kb_queue k) (kb_head k) ((kb_tail k + 1) mod 256) k in
  kb_ok k' ∧ queued k = c :: queued k'.
Proof.
  intros [L H T] Hc. destruct (zlookup_lt (kb_queue k) (kb_tail k)) as (c & E & E2); [lia|].
  exists c. split; [done|]. intros k'. pose proof (Z.mod_pos_bound (kb_tail k + 1) 256 ltac:(lia)). split; [by split|].
  assert (count k = 1 + count k') as Ec by (unfold count in *; cbn; Z.to_euclidean_division_equations; lia).
  unfold queued. rewrite Ec, seqZ_app, fmap_app by (pose proof (count_range k'); lia). change (seqZ 0 1) with [Z.of_nat 0 + 0]. cbn [fmap list_fmap app]. f_equal.
  - replace (kb_tail k + (Z.of_nat 0 + 0)) with (kb_tail k) by lia. rewrite Z.mod_small by lia. by apply list_lookup_total_correct.
  - rewrite <-(fmap_add_seqZ 1 0), <-list_fmap_compose. apply list_fmap_ext. intros i j Hij. apply lookup_seqZ in Hij as [-> Hlt].
    cbn. do 2 f_equal. rewrite Z.add_mod_idemp_l by lia. f_equal. lia.
Qed.

(** ** The US layout, as a table of scan codes with the plain and the shifted character *)

Definition us_keys : list (Z * (Z * Z)) :=
  zip (seqZ 2 12) (zip (str "1234567890-="%string) (str "!@#$%^&*()_+"%string)) ++
  zip (seqZ 16 12) (zip (str "qwertyuiop[]"%string) (str "QWERTYUIOP{}"%string)) ++
  zip (seqZ 30 12) (zip (str "asdfghjkl;'`"%string) (str "ASDFGHJKL:"%string ++ [34; 126])) ++
  zip (seqZ 43 11) (zip (str "\zxcvbnm,./"%string) (str "|ZXCVBNM<>?"%string)) ++
  [(57, (32, 32))].

Definition is_letter (c : Z) : bool := (97 <=? c) && (c <=? 122).

(** What a scan code does under the modifiers [(shift, ctrl, caps)] *)
Inductive act := Modify (m : bool * bool * bool) | Type_ (c : Z) | Interrupt | Ignore.

Definition key_act (m : bool * bool * bool) (sc : Z) : act :=
  let '(shift, ctrl, caps) := m in
  if sc =? 58 then Modify (shift, ctrl, negb caps)
  else if (sc =? 42) || (sc =? 54) then Modify (true, ctrl, caps)
  else if (sc =? 170) || (sc =? 182) then Modify (false, ctrl, caps)
  else if sc =? 29 then Modify (shift, true, caps)
  else if sc =? 157 then Modify (shift, false, caps)
  else if (sc =? 72) || (sc =? 80) || (sc =? 75) || (sc =? 77) then
    Type_ ((if ctrl then 132 else 128) + (if sc =? 72 then 1 else if sc =? 80 then 2 else if sc =? 75 then 3 else 4))
  else if sc =? 14 then Type_ 8
  else if sc =? 28 then Type_ 10
  else if ctrl && (sc =? 46) then Interrupt
  else match list_find (λ e, e.1 = sc) us_keys with
       | None => Ignore
       | Some (_, (_, (plain, shifted))) =>
           Type_ (if ctrl then if is_letter plain then plain - 96 else plain
                  else if xorb shift (caps && is_letter plain) then shifted else plain)
       end.

(** The modifiers and characters after a series of scan codes; [None] when one
    of them is control-C. *)
Fixpoint typed (m : bool * bool * bool) (scs : list Z) : option (list Z) :=
  match scs with
  | [] => Some []
  | sc :: scs =>
      match key_act m sc with
      | Modify m => typed m scs
      | Type_ c => cons c <$> typed m scs
      | Interrupt => None
      | Ignore => typed m scs
      end
  end.

(** The driver's tables against the layout, for every key and modifier *)
Definition table_act (m : bool * bool * bool) (sc : Z) : act :=
  match zlookup sc_ascii sc with
  | None => Ignore
  | Some l => if l =? 63 then Ignore else match modified m.1.1 m.1.2 m.2 l with Some c => Type_ c | None => Interrupt end
  end.

#[global] Instance act_eq_dec : EqDecision act.
Proof. solve_decision. Defined.

Definition special (sc : Z) : bool := (sc =? 42) || (sc =? 54) || (sc =? 29) || (sc =? 14) || (sc =? 28).

Lemma tables_agree : forallb (λ sc, forallb (λ m : bool * bool * bool,
    special sc || m.1.2 && (sc =? 46) || bool_decide (key_act m sc = table_act m sc))
    [(true, true, true); (true, true, false); (true, false, true); (true, false, false);
     (false, true, true); (false, true, false); (false, false, true); (false, false, false)]) (seqZ 0 58) = true.
Proof. by vm_compute. Qed.

Lemma table_key m sc : 0 ≤ sc < 58 → special sc = false → m.1.2 && (sc =? 46) = false → table_act m sc = key_act m sc.
Proof.
  intros Hsc Hsp Hc. pose proof tables_agree as H. rewrite forallb_forall in H.
  assert (sc ∈ seqZ 0 58) as Hin by (apply elem_of_seqZ; lia). apply list_elem_of_In in Hin. specialize (H sc Hin). rewrite forallb_forall in H.
  specialize (H m). rewrite Hsp, Hc in H. cbn [orb] in H. symmetry. eapply bool_decide_eq_true_1, H.
  destruct m as [[[] []] []]; cbn; tauto.
Qed.

Lemma key_act_interrupt m sc : key_act m sc = Interrupt → m.1.2 && (sc =? 46) = true.
Proof. destruct m as [[sh ct] ca]. unfold key_act. cbn [fst snd]. repeat case_match; done. Qed.

Lemma keys_below : forallb (λ e : Z * (Z * Z), e.1 <? 58) us_keys = true.
Proof. by vm_compute. Qed.

(** Codes past the tables that are neither modifiers nor arrows *)
Lemma key_act_far m sc : 58 < sc → sc ≠ 72 → sc ≠ 80 → sc ≠ 75 → sc ≠ 77 → sc ≠ 157 → (sc =? 170) || (sc =? 182) = false → key_act m sc = Ignore.
Proof.
  intros H H1 H2 H3 H4 H5 H6.
  assert (list_find (λ e : Z * (Z * Z), e.1 = sc) us_keys = None) as EL.
  { apply list_find_None, Forall_forall. intros e He. pose proof keys_below as HB. rewrite forallb_forall in HB.
    apply list_elem_of_In in He. specialize (HB e He). zify_bool. lia. }
  destruct m as [[sh ct] ca]. unfold key_act. rewrite H6, EL. zbool. by rewrite andb_false_r.
Qed.

Lemma keys_bytes : forallb (λ e : Z * (Z * Z), (0 <? e.2.1) && (e.2.1 <? 256) && (0 <? e.2.2) && (e.2.2 <? 256)) us_keys = true.
Proof. by vm_compute. Qed.

Lemma key_act_byte m sc c : key_act m sc = Type_ c → 0 < c < 256.
Proof.
  destruct m as [[sh ct] ca]. unfold key_act. intros H.
  destruct (list_find (λ e : Z * (Z * Z), e.1 = sc) us_keys) as [[i [sc' [plain shifted]]]|] eqn:E.
  - apply list_find_Some in E as (E & _ & _). apply list_elem_of_lookup_2, list_elem_of_In in E.
    pose proof keys_bytes as HB. rewrite forallb_forall in HB. specialize (HB _ E). cbn [fst snd] in HB. unfold is_letter in H. zify_bool.
    repeat case_match; simplify_eq; zify_bool; lia.
  - repeat case_match; simplify_eq; lia.
Qed.

(** ** The trace line fits its buffers *)

Lemma hex_byte : forallb (λ n, let ds := hex_digits 16 n false in (length ds <=? 2)%nat && forallb (λ c, (0 <? c) && (c <? 256)) ds) (seqZ 0 256) = true.
Proof. by vm_compute. Qed.

Lemma trace_run sc temp0 : 0 ≤ sc < 256 → length temp0 = 16%nat → ∃ msg rest, trace_msg sc temp0 = Some (msg ++ 0 :: rest) ∧ Forall (λ c, 0 < c < 256) msg.
Proof.
  intros Hsc L. destruct temp0 as [|y1 [|y2 rest]]; [done|done|]. cbn [length] in L.
  pose proof hex_byte as H. rewrite forallb_forall in H. assert (sc ∈ seqZ 0 256) as Hin by (apply elem_of_seqZ; lia). apply list_elem_of_In in Hin.
  specialize (H sc Hin). apply andb_true_iff in H as [Hl Hb]. apply Nat.leb_le in Hl.
  unfold trace_msg. rewrite (hex_to_ascii_eq sc _ y1 y2 rest eq_refl). cbn zeta. revert Hl Hb. generalize (hex_digits 16 sc false). intros ds Hl Hb.
  rewrite decide_True by lia. cbn [mbind option_bind].
  assert (Forall (λ c, 0 < c < 256) ds) as Fd. { apply Forall_forall. intros c Hc. apply list_elem_of_In in Hc. rewrite forallb_forall in Hb. specialize (Hb c Hc). zify_bool. lia. }
  assert (Forall (λ c, 0 < c < 256) (str "[KB] scan: 0x"%string)) as Fp by (apply (bool_decide_unpack _); by vm_compute).
  assert (∀ l, Forall (λ c, 0 < c < 256) l → 0 ∉ l) as N by (intros l F Hin0; rewrite Forall_forall in F; apply F in Hin0; lia).
  assert (0 ∉ [10]) as N10 by (apply (bool_decide_unpack _); by vm_compute).
  assert (Forall (λ c, 0 < c < 256) (48 :: 120 :: ds)) as Fx by (repeat constructor; done).
  change (str "[KB] scan: 0x"%string ++ replicate 19 0) with (str "[KB] scan: 0x"%string ++ 0 :: replicate 18 0).
  rewrite (strcat_fits _ _ (48 :: 120 :: ds)) by (first [by apply N|rewrite length_replicate; cbn [length]; lia]). cbn [mbind option_bind].
  rewrite (strcat_fits _ _ [10] []); [|apply N, Forall_app; by split|done|rewrite length_drop, length_replicate; cbn [length]; lia].
  eexists _, _. split; [done|]. apply Forall_app. split; [by apply Forall_app|repeat constructor].
Qed.

Section run.
Context {T : Type} {F : Foreground T}.
Implicit Types (s : con T) (k : kbd).

Definition set_kbd k s : con T := Con k (c_disp s) (c_task s) (c_irqs s).
Definition set_disp (d : display) s : con T := Con (c_kbd s) d (c_task s) (c_irqs s).

(** Enqueueing appends while there is room, and drops the character otherwise. *)
Lemma enqueue_run s c : kb_ok (c_kbd s) → ∃ k, kb_enqueue c s = Ret tt (set_kbd k s) ∧ kb_ok k ∧ mods k = mods (c_kbd s) ∧
  queued k = if decide (length (queued (c_kbd s)) < 255)%nat then queued (c_kbd s) ++ [u8 c] else queued (c_kbd s).
Proof.
  intros K. unfold kb_enqueue. rewrite (kbind_ret kget _ s s s eq_refl). unfold KB_QUEUE_SIZE. rewrite full_count by done.
  pose proof (queued_length (c_kbd s)) as HL. pose proof (count_range (c_kbd s)).
  destruct (count (c_kbd s) =? 255) eqn:E; zify_bool; cbn [negb].
  - exists (c_kbd s). rewrite decide_False by lia. by destruct s.
  - rewrite decide_True by lia. destruct (queued_push (c_kbd s) (u8 c) K) as [K' Q']; [lia|].
    rewrite next_rem by apply K.
    rewrite (kbind_ret _ _ s (<[Z.to_nat (kb_head (c_kbd s)) := u8 c]> (kb_queue (c_kbd s))) s).
    2: { unfold kget_opt. rewrite zset_lt; [done|]. rewrite (ko_len _ K). apply K. }
    eexists. split; [done|]. split; [exact K'|]. split; [done|exact Q'].
Qed.

Lemma dequeue_run s : kb_ok (c_kbd s) → ∃ k, kb_ok k ∧ mods k = mods (c_kbd s) ∧
  kb_dequeue s = Ret (head (queued (c_kbd s))) (set_kbd k s) ∧ queued k = tail (queued (c_kbd s)).
Proof.
  intros K. unfold kb_dequeue. rewrite (kbind_ret kget _ s s s eq_refl), empty_count by done.
  pose proof (queued_length (c_kbd s)) as HL. pose proof (count_range (c_kbd s)).
  destruct (count (c_kbd s) =? 0) eqn:E; zify_bool.
  - exists (c_kbd s). assert (queued (c_kbd s) = []) as -> by (apply nil_length_inv; lia). by destruct s.
  - destruct (queued_pop (c_kbd s) K) as (c & Ec & K' & Q'); [lia|]. rewrite Q'. unfold KB_QUEUE_SIZE. rewrite next_rem by apply K.
    rewrite (kbind_ret _ _ s c s) by (unfold kget_opt; by rewrite Ec). eexists. split; [exact K'|]. done.
Qed.

(** Printing on a well-formed console, from the combined state *)
Lemma disp_kprint_run s msg rest : console_ok (c_disp s) → Forall (λ c, 0 < c < 256) msg →
  ∃ d, disp (kprint (msg ++ 0 :: rest)) s = Ret tt (set_disp d s) ∧ console_ok d.
Proof.
  intros C Fm. destruct (console_run_ok (Kprint msg rest) (c_disp s) Fm C) as (d & E & C' & _). exists d. split; [|done].
  unfold disp. cbn [console_run] in E. by rewrite E.
Qed.

(** The scan-code handler does what the layout says. *)
Definition act_run (a : act) (s : con T) : outcome (con T) unit :=
  match a with
  | Modify (sh, ct, ca) => Ret tt (set_kbd (with_caps ca (with_ctrl ct (with_shift sh (c_kbd s)))) s)
  | Type_ c => kb_enqueue c s
  | Interrupt => task interrupt_foreground s
  | Ignore => Ret tt s
  end.

(** The branch of the handler for a key of the tables *)
Lemma table_run m sc (s : con T) : 0 ≤ sc < 58 → special sc = false → m.1.2 && (sc =? 46) = false →
  (let* letter := kget_opt (λ _, zlookup sc_ascii sc) in
   if letter =? 63 then kret tt
   else let* letter := kget_opt (λ _, modified m.1.1 m.1.2 m.2 letter) in kb_enqueue letter) s = act_run (key_act m sc) s.
Proof.
  intros Hsc Hsp Hc. pose proof (table_key m sc Hsc Hsp Hc) as HT. rewrite <-HT. unfold table_act in *.
  destruct (zlookup_lt sc_ascii sc) as (l & El & _); [change (length sc_ascii) with 58%nat; lia|].
  rewrite El in *. rewrite (kbind_ret (kget_opt (λ _, Some l)) _ s l s eq_refl).
  destruct (l =? 63); [done|]. destruct (modified m.1.1 m.1.2 m.2 l) as [c|] eqn:Ec.
  - by rewrite (kbind_ret (kget_opt (λ _, Some c)) _ s c s eq_refl).
  - symmetry in HT. apply key_act_interrupt in HT. congruence.
Qed.

Lemma callback_run temp0 sc s : 0 ≤ sc < 256 → length temp0 = 16%nat → console_ok (c_disp s) → ∃ d,
  console_ok d ∧
  keyboard_callback temp0 sc s =
  act_run (key_act (mods (c_kbd s)) sc) (set_disp d (set_kbd (with_irq_count (u32 (kb_irq_count (c_kbd s) + 1)) (c_kbd s)) s)).
Proof.
  intros Hsc L C. set (k1 := with_irq_count (u32 (kb_irq_count (c_kbd s) + 1)) (c_kbd s)).
  destruct (trace_run sc temp0 Hsc L) as (msg & rest & Em & Fm).
  destruct (disp_kprint_run (set_kbd k1 s) msg rest C Fm) as (d & Ed & Cd). exists d. split; [done|].
  unfold keyboard_callback. rewrite (kbind_ret (kbd_ (λ k, with_irq_count (u32 (kb_irq_count k + 1)) k)) _ s tt (set_kbd k1 s) eq_refl).
  rewrite (kbind_ret _ _ _ (msg ++ 0 :: rest) (set_kbd k1 s)) by (unfold kget_opt; by rewrite Em).
  rewrite (kbind_ret _ _ _ _ _ Ed). set (s1 := set_disp d (set_kbd k1 s)). rewrite (kbind_ret kget _ s1 s1 s1 eq_refl).
  change (mods (c_kbd s)) with (mods (c_kbd s1)). clearbody s1. clear - Hsc.
  pose proof (table_run (mods (c_kbd s1)) sc s1) as HT. unfold mods in *. cbn [fst snd] in HT. unfold SC_MAX, BACKSPACE, ENTER.
  destruct (sc =? 58) eqn:E58; [unfold key_act; rewrite E58; by destruct s1 as [[]]|].
  destruct ((sc =? 42) || (sc =? 54)) eqn:Esh; [unfold key_act; rewrite E58, Esh; by destruct s1 as [[]]|].
  destruct ((sc =? 170) || (sc =? 182)) eqn:Eun; [unfold key_act; rewrite E58, Esh, Eun; by destruct s1 as [[]]|].
  destruct (sc =? 29) eqn:Ect; [unfold key_act; rewrite E58, Esh, Eun, Ect; by destruct s1 as [[]]|].
  destruct (sc =? 157) eqn:Euc; [unfold key_act; rewrite E58, Esh, Eun, Ect, Euc; by destruct s1 as [[]]|].
  destruct (58 <=? sc) eqn:E; zify_bool.
  - destruct (sc =? 72) eqn:E1; [unfold key_act; rewrite E1; zify_bool; subst sc; cbn; by destruct (ctrl_pressed (c_kbd s1))|].
    destruct (sc =? 80) eqn:E2; [unfold key_act; rewrite E2; zify_bool; subst sc; cbn; by destruct (ctrl_pressed (c_kbd s1))|].
    destruct (sc =? 75) eqn:E3; [unfold key_act; rewrite E3; zify_bool; subst sc; cbn; by destruct (ctrl_pressed (c_kbd s1))|].
    destruct (sc =? 77) eqn:E4; [unfold key_act; rewrite E4; zify_bool; subst sc; cbn; by destruct (ctrl_pressed (c_kbd s1))|].
    rewrite key_act_far; [done|..]; zify_bool; try lia; apply orb_false_iff; split; by apply Z.eqb_neq.
  - destruct (ctrl_pressed (c_kbd s1) && (sc =? 46)) eqn:E46.
    { apply andb_true_iff in E46 as [Ec E46]. zify_bool. subst sc. unfold key_act. by rewrite Ec. }
    destruct (sc =? 14) eqn:E14; [zify_bool; by subst sc|]. destruct (sc =? 28) eqn:E28; [zify_bool; by subst sc|].
    apply HT; [lia| |done]. unfold special. zify_bool. zbool. done.
Qed.

(** ** Characters still to be read

    The queue, then what the scan codes to come type *)
Definition stream s (st : list Z) : Prop := ∃ scs cs,
  c_irqs s = Scancode <$> scs ∧ Forall (λ sc, 0 ≤ sc < 256) scs ∧
  typed (mods (c_kbd s)) scs = Some cs ∧ st = queued (c_kbd s) ++ cs.

Definition reader_ok s : Prop := kb_ok (c_kbd s) ∧ console_ok (c_disp s).

(** Handling a scan code that is not control-C, on an empty queue, moves what it
    types into the queue. *)
Lemma handle_run temp0 s sc es st : length temp0 = 16%nat → reader_ok s → queued (c_kbd s) = [] → c_irqs s = Scancode sc :: es → stream s st →
  ∃ s', handle temp0 (Scancode sc) (Con (c_kbd s) (c_disp s) (c_task s) es) = Ret tt s' ∧ reader_ok s' ∧ stream s' st ∧ c_irqs s' = es ∧ c_task s' = c_task s.
Proof.
  intros L [K C] Q I (scs & cs & Es & Fs & Ty & ->). rewrite I in Es. destruct scs as [|sc' scs]; [done|].
  cbn [fmap list_fmap] in Es. injection Es as <- ->. cbn [typed] in Ty.
  apply Forall_cons in Fs as [Hsc Fs]. set (s0 := Con (c_kbd s) (c_disp s) (c_task s) (Scancode <$> scs)).
  destruct (callback_run temp0 sc s0 Hsc L C) as (d & Cd & E). cbn [handle]. rewrite E. clear E. change (mods (c_kbd s0)) with (mods (c_kbd s)).
  set (s1 := set_disp d (set_kbd (with_irq_count (u32 (kb_irq_count (c_kbd s0) + 1)) (c_kbd s0)) s0)).
  assert (kb_ok (c_kbd s1)) as K1 by (destruct K; by split).
  destruct (key_act (mods (c_kbd s)) sc) as [[[sh ct] ca]|c| |] eqn:Ea; cbn [act_run].
  - eexists. split; [done|]. split; [split; [destruct K; by split|done]|]. split; [|done]. exists scs, cs. done.
  - destruct (typed (mods (c_kbd s)) scs) as [cs'|] eqn:Et; [|done]. cbn [fmap option_fmap option_map] in Ty. injection Ty as <-.
    destruct (enqueue_run s1 c K1) as (k & -> & Kk & Mk & Qk). change (queued (c_kbd s1)) with (queued (c_kbd s)) in Qk. rewrite Q in Qk.
    rewrite decide_True in Qk by (cbn; lia). cbn [app] in Qk. rewrite u8_small in Qk by (apply key_act_byte in Ea; lia).
    eexists. split; [done|]. split; [by split|]. split; [|done]. exists scs, cs'. split; [done|]. split; [done|]. cbn [c_kbd set_kbd]. rewrite Mk, Qk, Q. done.
  - done.
  - eexists. split; [done|]. split; [by split|]. split; [|done]. by exists scs, cs.
Qed.

Lemma wait_run temp0 fuel : ∀ s c st, length temp0 = 16%nat → reader_ok s → stream s (c :: st) → (length (c_irqs s) ≤ fuel)%nat →
  ∃ s', wait_char temp0 fuel s = Ret c s' ∧ reader_ok s' ∧ stream s' st ∧ c_task s' = c_task s.
Proof.
  induction fuel as [|fuel IH]; intros s c st L R S Hf; pose proof R as [K C]; cbn [wait_char].
  all: destruct (dequeue_run s K) as (k & Kk & Mk & E & Qk).
  all: rewrite (kbind_ret _ _ _ _ _ E); destruct (queued (c_kbd s)) as [|q qs] eqn:Q; cbn [head tail] in *.
  - destruct S as (scs & cs & Es & Fs & Ty & Hst). rewrite Q in Hst. cbn [app] in Hst. subst cs.
    destruct scs as [|sc scs]; [done|]. rewrite Es in Hf. cbn in Hf. lia.
  - destruct S as (scs & cs & Es & Fs & Ty & Hst). rewrite Q in Hst. injection Hst as -> ->.
    eexists. split; [done|]. split; [by split|]. split; [|done]. exists scs, cs. cbn [c_kbd set_kbd c_irqs]. by rewrite Mk, Qk.
  - rewrite (kbind_ret kget _ (set_kbd k s) (set_kbd k s) (set_kbd k s) eq_refl). cbn [c_irqs set_kbd c_kbd c_disp c_task].
    assert (reader_ok (set_kbd k s)) as R1 by (by split).
    assert (stream (set_kbd k s) (c :: st)) as S1.
    { destruct S as (scs & cs & Es & Fs & Ty & Hst). exists scs, cs. cbn [c_kbd set_kbd c_irqs]. rewrite Mk, Qk. by rewrite Q in Hst. }
    destruct (c_irqs s) as [|e es] eqn:I.
    { destruct S as (scs & cs & Es & Fs & Ty & Hst). rewrite Q in Hst. cbn [app] in Hst. subst cs. rewrite I in Es. by destruct scs. }
    assert (∃ sc, e = Scancode sc) as [sc ->] by (destruct S as (scs & cs & Es & _); rewrite I in Es; destruct scs; simplify_eq/=; eauto).
    rewrite (kbind_ret (kput (Con k (c_disp s) (c_task s) es)) _ _ tt (Con k (c_disp s) (c_task s) es) eq_refl).
    destruct (handle_run temp0 (set_kbd k s) sc es _ L R1 Qk I S1) as (s2 & E2 & R2 & S2 & I2 & T2).
    rewrite (kbind_ret _ _ _ _ _ E2). destruct (IH s2 c st L R2 S2) as (s3 & E3 & R3 & S3 & T3); [rewrite I2; cbn in Hf; lia|].
    exists s3. by rewrite T3.
  - destruct S as (scs & cs & Es & Fs & Ty & Hst). rewrite Q in Hst. injection Hst as -> ->.
    eexists. split; [done|]. split; [by split|]. split; [|done]. exists scs, cs. cbn [c_kbd set_kbd c_irqs]. by rewrite Mk, Qk.
Qed.

(** ** Line editing *)

Definition edit (line : list Z) (c : Z) : list Z :=
  if (c =? 8) || (c =? 127) then take (length line - 1) line
  else if decide (length line < 255)%nat then line ++ [c] else line.

Lemma edit_length line c : (length line ≤ 255)%nat → (length (edit line c) ≤ 255)%nat.
Proof. intros. unfold edit. repeat case_match; rewrite ?length_take, ?length_app; cbn [length]; lia. Qed.

Lemma disp_backspace_run s : console_ok (c_disp s) → ∃ d, disp kprint_backspace s = Ret tt (set_disp d s) ∧ console_ok d.
Proof.
  intros C. destruct (console_run_ok Backspace (c_disp s) I C) as (d & E & C' & _). exists d. split; [|done].
  unfold disp. cbn [console_run] in E. by rewrite E.
Qed.

Lemma reader_disp s d : reader_ok s → console_ok d → reader_ok (set_disp d s).
Proof. intros [K _] C. by split. Qed.
Lemma stream_disp s d st : stream s st → stream (set_disp d s) st.
Proof. intros (scs & cs & ?). by exists scs, cs. Qed.

Lemma take_store {A} (b : list A) n c : (n < length b)%nat → take (Datatypes.S n) (<[n := c]> b) = take n b ++ [c].
Proof.
  intros H. rewrite (take_S_r _ _ c) by (by apply list_lookup_insert_eq). f_equal. by apply take_insert_ge.
Qed.

(** The loop of [get_line]: the line so far is at the start of the buffer. *)
Lemma line_loop_run temp0 l rest : ∀ fuel s buf line, length temp0 = 16%nat → reader_ok s → stream s (l ++ 10 :: rest) →
  10 ∉ l → Forall (λ c, 0 < c < 256) l → (256 ≤ length buf)%nat → (length line ≤ 255)%nat → take (length line) buf = line → (length l < fuel)%nat →
  ∃ s' buf', line_loop temp0 fuel buf (Z.of_nat (length line)) s = Ret buf' s' ∧ reader_ok s' ∧ stream s' rest ∧ c_task s' = c_task s ∧
    let out := fold_left edit l line in
    take (S (length out)) buf' = out ++ [0] ∧ (length out ≤ 255)%nat ∧ length buf' = length buf ∧ drop 256 buf' = drop 256 buf.
Proof.
  induction l as [|c l IH]; intros [|fuel] s buf line L R S N Fl Lb Ll Tb Hf; try (cbn in Hf; lia); cbn [line_loop app] in *; unfold get_char_noecho.
  - destruct (wait_run temp0 (1 + length (c_irqs s)) s 10 rest L R S) as (s1 & E1 & R1 & S1 & T1); [lia|].
    rewrite (kbind_ret _ _ s 10 s1) by (rewrite (kbind_ret kget _ s s s eq_refl); exact E1). change (10 =? 10) with true. cbn iota.
    destruct (disp_kprint_run s1 [10] [] (proj2 R1)) as (d & Ed & Cd); [repeat constructor|]. rewrite (kbind_ret _ _ _ tt (set_disp d s1) Ed).
    exists (set_disp d s1), (<[length line := 0]> buf). split; [unfold kget_opt; rewrite zset_nat by lia; done|].
    split; [by apply reader_disp|]. split; [by apply stream_disp|]. split; [done|]. cbn zeta. cbn [fold_left].
    split; [by rewrite take_store, Tb by lia|]. split; [done|]. split; [apply length_insert|]. apply drop_insert_lt. lia.
  - apply not_elem_of_cons in N as [Nc N]. apply Forall_cons in Fl as [Hc Fl]. cbn [length] in Hf.
    destruct (wait_run temp0 (1 + length (c_irqs s)) s c (l ++ 10 :: rest) L R S) as (s1 & E1 & R1 & S1 & T1); [lia|].
    rewrite (kbind_ret _ _ s c s1) by (rewrite (kbind_ret kget _ s s s eq_refl); exact E1). cbn [fold_left].
    replace (c =? 10) with false by (symmetry; apply Z.eqb_neq; lia). unfold edit at 2 4 6. destruct ((c =? 8) || (c =? 127)) eqn:Eb.
    + destruct (0 <? Z.of_nat (length line)) eqn:E0; zify_bool.
      * destruct (disp_backspace_run s1 (proj2 R1)) as (d & Ed & Cd). rewrite (kbind_ret _ _ _ _ _ Ed).
        assert (length (take (length line - 1) line) = (length line - 1)%nat) as Lt by (rewrite length_take; lia).
        destruct (IH fuel (set_disp d s1) buf (take (length line - 1) line) L (reader_disp _ _ R1 Cd) (stream_disp _ _ _ S1) N Fl Lb) as (s' & buf' & E & R' & S' & T' & O); [lia| |lia|].
        { rewrite Lt. transitivity (take (length line - 1) (take (length line) buf)); [rewrite take_take; f_equal; lia|by rewrite Tb]. }
        exists s', buf'. rewrite Lt in E. replace (Z.of_nat (length line) - 1) with (Z.of_nat (length line - 1)) by lia. split; [done|]. split; [done|]. split; [done|]. split; [by rewrite T'|exact O].
      * assert (line = []) as -> by (apply nil_length_inv; lia). cbn [take length Nat.sub].
        destruct (IH fuel s1 buf [] L R1 S1 N Fl Lb) as (s' & buf' & E & R' & S' & T' & O); [cbn; lia|done|lia|]. exists s', buf'. split; [exact E|]. split; [done|]. split; [done|]. split; [by rewrite T'|exact O].
    + destruct (decide (length line < 255)%nat) as [Hl|Hl].
      * replace (Z.of_nat (length line) <? 255) with true by (symmetry; apply Z.ltb_lt; lia).
        rewrite (kbind_ret _ _ s1 (<[length line := c]> buf) s1) by (unfold kget_opt; rewrite zset_nat by lia; done).
        destruct (disp_kprint_run s1 [c] [] (proj2 R1)) as (d & Ed & Cd); [constructor; [exact Hc|constructor]|]. rewrite (kbind_ret _ _ _ tt (set_disp d s1) Ed).
        assert (length (line ++ [c]) = Datatypes.S (length line)) as La by (rewrite length_app; cbn; lia).
        destruct (IH fuel (set_disp d s1) (<[length line := c]> buf) (line ++ [c]) L (reader_disp _ _ R1 Cd) (stream_disp _ _ _ S1) N Fl) as (s' & buf' & E & R' & S' & T' & O1 & O2 & O3 & O4); [by rewrite length_insert|lia| |lia|].
        { by rewrite La, take_store, Tb by lia. }
        exists s', buf'. rewrite La in E. replace (Z.of_nat (length line) + 1) with (Z.of_nat (Datatypes.S (length line))) by lia. split; [done|]. split; [done|]. split; [done|]. split; [by rewrite T'|].
        split; [done|]. split; [done|]. split; [by rewrite O3, length_insert|]. rewrite O4. apply drop_insert_lt. lia.
      * replace (Z.of_nat (length line) <? 255) with false by (symmetry; apply Z.ltb_ge; lia).
        destruct (IH fuel s1 buf line L R1 S1 N Fl Lb) as (s' & buf' & E & R' & S' & T' & O); [lia|done|lia|]. exists s', buf'. split; [exact E|]. split; [done|]. split; [done|]. split; [by rewrite T'|exact O].
Qed.

Lemma typed_length scs : ∀ m cs, typed m scs = Some cs → (length cs ≤ length scs)%nat.
Proof.
  induction scs as [|sc scs IH]; intros m cs; cbn [typed]; [by intros [= <-]|].
  destruct (key_act m sc) as [m'|c| |]; cbn [length]; [|destruct (typed m scs) as [cs'|] eqn:E|..]; try done.
  - intros E%IH. lia.
  - intros [= <-]. apply IH in E. cbn [length]. lia.
  - intros E%IH. lia.
Qed.

Lemma get_line_run temp0 buf l rest s : length temp0 = 16%nat → reader_ok s → stream s (l ++ 10 :: rest) → 10 ∉ l → Forall (λ c, 0 < c < 256) l →
  (256 ≤ length buf)%nat →
  ∃ s' buf', get_line temp0 buf s = Ret buf' s' ∧ reader_ok s' ∧ stream s' rest ∧ c_task s' = c_task s ∧
    let out := fold_left edit l [] in
    take (Datatypes.S (length out)) buf' = out ++ [0] ∧ (length out ≤ 255)%nat ∧ length buf' = length buf ∧ drop 256 buf' = drop 256 buf.
Proof.
  intros L R S N Fl Lb. unfold get_line. rewrite (kbind_ret kget _ s s s eq_refl). apply (line_loop_run temp0 l rest _ s buf []); try done; [cbn; lia|].
  destruct S as (scs & cs & Es & _ & Ty & Hst). apply typed_length in Ty. pose proof (queued_length (c_kbd s)). pose proof (count_range (c_kbd s)).
  apply (f_equal length) in Hst. rewrite !length_app in Hst. cbn [length] in Hst. rewrite Es.
  assert (sum_list_with irq_chars (Scancode <$> scs) = length scs) as -> by (clear; induction scs; cbn; [done|by f_equal]). lia.
Qed.

(** ** The queue against a bounded sequence *)

Inductive queue_op := Enqueue (c : Z) | Dequeue.

(** The abstract queue: at most 255 characters, first in, first out *)
Definition fifo_step (q : list Z) (o : queue_op) : list Z * option Z :=
  match o with
  | Enqueue c => (if decide (length q < 255)%nat then q ++ [u8 c] else q, None)
  | Dequeue => (tail q, head q)
  end.
Fixpoint fifo (q : list Z) (os : list queue_op) : list Z * list (option Z) :=
  match os with
  | [] => (q, [])
  | o :: os => let '(q, r) := fifo_step q o in let '(q, rs) := fifo q os in (q, r :: rs)
  end.

Fixpoint queue_run (os : list queue_op) : kM (con T) (list (option Z)) :=
  match os with
  | [] => kret []
  | o :: os =>
      let* r := match o with Enqueue c => kb_enqueue c ;;; kret None | Dequeue => kb_dequeue end in
      let* rs := queue_run os in
      kret (r :: rs)
  end.

Lemma queue_run_ok os : ∀ s, kb_ok (c_kbd s) → ∃ k, queue_run os s = Ret (fifo (queued (c_kbd s)) os).2 (set_kbd k s) ∧
  kb_ok k ∧ mods k = mods (c_kbd s) ∧ queued k = (fifo (queued (c_kbd s)) os).1.
Proof.
  induction os as [|o os IH]; intros s K; [exists (c_kbd s); by destruct s|]. cbn [queue_run fifo].
  assert (∃ k, (match o with Enqueue c => kb_enqueue c ;;; kret None | Dequeue => kb_dequeue end) s = Ret (fifo_step (queued (c_kbd s)) o).2 (set_kbd k s) ∧
     kb_ok k ∧ mods k = mods (c_kbd s) ∧ queued k = (fifo_step (queued (c_kbd s)) o).1) as (k & E & Kk & Mk & Qk).
  { destruct o as [c|]; [destruct (enqueue_run s c K) as (k & E & Kk & Mk & Qk)|destruct (dequeue_run s K) as (k & Kk & Mk & E & Qk)].
    - exists k. split; [by rewrite (kbind_ret _ _ _ _ _ E)|done].
    - exists k. by rewrite E. }
  rewrite (kbind_ret _ _ _ _ _ E). destruct (fifo_step (queued (c_kbd s)) o) as [q r]. cbn [fst snd] in *. subst q.
  destruct (IH (set_kbd k s) Kk) as (k2 & E2 & K2 & M2 & Q2). cbn [c_kbd set_kbd] in *. rewrite (kbind_ret _ _ _ _ _ E2).
  exists k2. destruct (fifo (queued k) os) as [q rs]. cbn [fst snd] in *. rewrite M2. done.
Qed.

(** The keyboard's circular buffer refines a first-in first-out queue of
    255 characters: any series of enqueue and dequeue operations gives the
    results of the abstract queue (a character that does not fit is dropped, an
    empty queue gives none), leaves its contents, and touches neither the
    modifiers nor anything else of the state. *)
Theorem kb_queue_refines os s : kb_ok (c_kbd s) →
  ∃ k, queue_run os s = Ret (fifo (queued (c_kbd s)) os).2 (set_kbd k s) ∧
    kb_ok k ∧ mods k = mods (c_kbd s) ∧ queued k = (fifo (queued (c_kbd s)) os).1.
Proof. apply queue_run_ok. Qed.

(** C24. Typing a line: when the characters already queued and those that the
    coming scan codes type on a US keyboard (without control-C) are [l], a new
    line and [rest], [get_line] returns; the buffer then starts with [l] as
    edited by backspaces, cut at 255 characters and NUL-terminated; bytes past
    the first 256 of the buffer are untouched; [rest] is what remains to be
    read, the console is well formed and no task is affected. *)
Theorem get_line_ok temp0 buf l rest s : length temp0 = 16%nat → reader_ok s → stream s (l ++ 10 :: rest) → 10 ∉ l → Forall (λ c, 0 < c < 256) l →
  (256 ≤ length buf)%nat →
  ∃ s' buf', get_line temp0 buf s = Ret buf' s' ∧ reader_ok s' ∧ stream s' rest ∧ c_task s' = c_task s ∧
    let out := fold_left edit l [] in
    take (Datatypes.S (length out)) buf' = out ++ [0] ∧ (length out ≤ 255)%nat ∧ length buf' = length buf ∧ drop 256 buf' = drop 256 buf.
Proof. apply get_line_run. Qed.
End run.

(** ** A witness: [L], [s], [x], rubbed out, and Enter *)

#[local] Instance no_tasks : Foreground unit := {| interrupt_foreground := kret tt |}.

Definition kbd_init : kbd := Kbd false false false (replicate 256 0) 0 0 0 0.
Definition typing : con unit := Con kbd_init vga_blank tt (Scancode <$> [42; 38; 170; 166; 31; 159; 45; 14; 28; 2]).

Lemma typing_ok : reader_ok typing.
Proof. split; [split; cbn; lia|]. split; [apply length_replicate|]. right. exists blank. exact vga_blank_shows. Qed.

Lemma kb_queue_refines_witness : ∃ k, queue_run [Enqueue 97; Dequeue; Dequeue] typing = Ret [None; Some 97; None] (set_kbd k typing) ∧
  kb_ok k ∧ mods k = (false, false, false) ∧ queued k = [].
Proof. apply (kb_queue_refines [Enqueue 97; Dequeue; Dequeue] typing). apply typing_ok. Defined.

Lemma get_line_ok_witness : ∃ s' buf', get_line (replicate 16 0) (replicate 300 7) typing = Ret buf' s' ∧ reader_ok s' ∧ stream s' [49] ∧ c_task s' = tt ∧
  take 3 buf' = [76; 115; 0] ∧ (2 ≤ 255)%nat ∧ length buf' = 300%nat ∧ drop 256 buf' = replicate 44 7.
Proof.
  apply (get_line_ok (replicate 16 0) (replicate 300 7) [76; 115; 120; 8] [49] typing); [done|exact typing_ok| | | |].
  - exists [42; 38; 170; 166; 31; 159; 45; 14; 28; 2], [76; 115; 120; 8; 10; 49]. split; [done|]. split; [repeat constructor; lia|]. split; [by vm_compute|done].
  - apply (bool_decide_unpack _). by vm_compute.
  - repeat constructor; lia.
  - rewrite length_replicate. lia.
Defined.
