(* ===== verification/Exec.v ===== *)
(** * Starting a program

    Models [kernel/proc/exec.c]: [build_user_stack] and [sys_execve].  The state
    joins the kernel's objects and the page tables; the page directory of a task is
    the address of a context of the memory manager.  The caller's strings are read
    through the tables that the processor uses.  [fuel] bounds the number of
    arguments and the length of each of them.  The output of the debug mode is not
    modelled. *)

From stdpp Require Import base numbers list gmap.
From Stdlib Require Import ZArith Lia.
From S2P Require Import Prelude CString Pmm Mmu MmuInv Bytes Elf Kernel Pipe Path Vfs Sched Task Block.

#[local] Open Scope Z_scope.

Record ex (D : Type) := mk_ex { ex_k : kst D; ex_mm : mmu }.
Arguments mk_ex {D}.
Arguments ex_k {D}.
Arguments ex_mm {D}.

(** The kernel's objects, or the page tables, alone. *)
Definition core {D A} (c : kM (kst D) A) : kM (ex D) A := λ s,
  match c (ex_k s) with
  | Ret a k => Ret a (mk_ex k (ex_mm s))
  | Hang k => Hang (mk_ex k (ex_mm s))
  | Panic k => Panic (mk_ex k (ex_mm s))
  | Fault => Fault
  | NoFuel => NoFuel
  end.
Definition vm {D A} (c : kM mmu A) : kM (ex D) A := λ s,
  match c (ex_mm s) with
  | Ret a u => Ret a (mk_ex (ex_k s) u)
  | Hang u => Hang (mk_ex (ex_k s) u)
  | Panic u => Panic (mk_ex (ex_k s) u)
  | Fault => Fault
  | NoFuel => NoFuel
  end.

#[local] Open Scope kernel_scope.

(** ** Reading the caller's memory *)

(** A byte as the processor finds it under the first table [root]; nothing if the
    page is not present or the address is not canonical. *)
Definition vread (m : Z → Z) (root v : Z) : option Z :=
  if (v <? 140737488355328) || (18446603336221196288 <=? v) then
    let e := translate m root v in
    if present e then Some (get_byte m (PAGE_FRAME e + v mod 4096)) else None
  else None.
Fixpoint vreads (n : nat) (m : Z → Z) (root v : Z) : option (list Z) :=
  match n with
  | O => Some []
  | S n => match vread m root v, vreads n m root (v + 1) with Some x, Some l => Some (x :: l) | _, _ => None end
  end.
Definition user_load (n : nat) (v : Z) : kM mmu Z :=
  let* l := kget_opt (λ s, vreads n (mm_word s) (mm_cr3 s) v) in kret (le_val l).
(** The bytes of a string before its NUL. *)
Fixpoint user_string (fuel : nat) (v : Z) : kM mmu (list Z) :=
  match fuel with
  | O => λ _, NoFuel
  | S fuel =>
      let* c := user_load 1 v in
      if c =? 0 then kret [] else let* l := user_string fuel (v + 1) in kret (c :: l)
  end.

(** [argv\[i\]] of a caller with pointers of [w] bytes. *)
Definition argv_at (w : nat) (argv i : Z) : kM mmu Z := user_load w (argv + Z.of_nat w * i).
Definition ptr_width (caller_is_32bit : bool) : nat := if caller_is_32bit then 4%nat else 8%nat.
(** [while (argv\[argc\]) argc++] *)
Fixpoint count_args (fuel w : nat) (argv argc : Z) : kM mmu Z :=
  match fuel with
  | O => λ _, NoFuel
  | S fuel =>
      let* p := argv_at w argv argc in
      if p =? 0 then kret argc else count_args fuel w argv (u32 (argc + 1))
  end.
Definition get_argc (fuel : nat) (argv : Z) (caller_is_32bit : bool) : kM mmu Z :=
  if argv =? 0 then kret 0 else count_args fuel (ptr_width caller_is_32bit) argv 0.

(** ** The stack of the new program *)

(** The frame is never [(uintptr_t)-1], see [map32_page]. *)
Definition stack_page (pd v : Z) : kM mmu unit :=
  let* o := get_page v true pd in
  match o with
  | None => kfault
  | Some page =>
      let* e := load page in
      if negb (has_flag e MMU_PRESENT) then
        let* frame := pm pmm_first_free in
        store page (PAGE_SET_FRAME e (frame * 4096)) ;;;
        let* e := load page in
        store page (PAGE_SET_FLAGS e 7) ;;;
        pm (frame_add_ref frame)
      else kret tt
  end.
Fixpoint stack_pages (n : nat) (pd v : Z) : kM mmu unit :=
  match n with
  | O => kret tt
  | S n => stack_page pd v ;;; stack_pages n pd (v + 4096)
  end.

(** Bytes at [sp] of the new address space, page by page; the entry is dereferenced
    without a check. *)
Fixpoint copy_out_bytes (fuel : nat) (pd v : Z) (l : list Z) : kM mmu unit :=
  match fuel with
  | O => λ _, NoFuel
  | S fuel =>
      if 0 <? Z.of_nat (length l) then
        let off := v mod 4096 in
        let chunk := Z.min (4096 - off) (Z.of_nat (length l)) in
        let* o := page_base pd v in
        match o with
        | None => kfault
        | Some f =>
            phys_write (f + off) (take (Z.to_nat chunk) l) ;;;
            copy_out_bytes fuel pd (u64 (v + chunk)) (drop (Z.to_nat chunk) l)
        end
      else kret tt
  end.
(** [*(uintN_t* )(PHYSMAP_BASE + phys) = v] *)
Definition push (w : nat) (pd sp v : Z) : kM mmu Z :=
  let sp := u64 (sp - Z.of_nat w) in
  let* o := page_base pd sp in
  match o with
  | None => kfault
  | Some f => phys_write (f + sp mod 4096) (le_bytes w v) ;;; kret sp
  end.

(** The strings, the last one first; [ptrs] are the addresses of those done.  None of
    the pointers that [argc] counts is NULL. *)
Fixpoint push_strings (n fuel : nat) (pd argv : Z) (caller_is_32bit : bool) (sp : Z) (ptrs : list Z) : kM mmu (Z * list Z) :=
  match n with
  | O => kret (sp, ptrs)
  | S n =>
      let i := Z.of_nat n in
      let* p64 := argv_at 8 argv i in
      let* p := (if caller_is_32bit then argv_at 4 argv i else kret p64) in
      if p =? 0 then push_strings n fuel pd argv caller_is_32bit sp (0 :: ptrs)
      else
        let* str := user_string fuel p in
        let sp := u64 (sp - (Z.of_nat (length str) + 1)) in
        copy_out_bytes (chunks (Z.of_nat (length str) + 1)) pd sp (str ++ [0]) ;;;
        push_strings n fuel pd argv caller_is_32bit sp (sp :: ptrs)
  end.
(** [for (i = argc - 1; i >= 0; i--)] push; the list is the pointers in that order. *)
Fixpoint push_ptrs (w : nat) (pd sp : Z) (l : list Z) : kM mmu Z :=
  match l with
  | [] => kret sp
  | p :: l => let* sp := push w pd sp p in push_ptrs w pd sp l
  end.
Definition align16 (sp : Z) : Z := Z.ldiff sp 15.

Definition build_user_stack (fuel : nat) (pd argv stack_top stack_size : Z) (caller_is_32bit : bool) : kM mmu Z :=
  stack_pages (Z.to_nat (stack_size / 4096)) pd (stack_top - stack_size) ;;;
  let* argc := get_argc fuel argv caller_is_32bit in
  let argc := if 64 <? argc then 64 else argc in
  let* (sp, ptrs) := push_strings (Z.to_nat argc) fuel pd argv caller_is_32bit stack_top [] in
  let sp := align16 sp in
  if 4294967296 <=? stack_top then
    let* sp := push 8 pd sp 0 in
    let* sp := push_ptrs 8 pd sp (rev ptrs) in
    push 8 pd sp argc
  else
    let* sp := push 4 pd sp 0 in
    let* argv_array := push_ptrs 4 pd sp (rev ptrs) in
    let* sp := push 4 pd argv_array argv_array in
    let* sp := push 4 pd sp argc in
    push 4 pd sp 0.

(** ** The call *)

Definition REG_GS : Z := 0.
Definition REG_FS : Z := 8.
Definition REG_ES : Z := 16.
Definition REG_DS : Z := 24.
Definition REG_R15 : Z := 32.
Definition REG_RDI : Z := 104.
Definition REG_RSI : Z := 112.
Definition REG_RDX : Z := 120.
Definition REG_RCX : Z := 128.
Definition REG_RBX : Z := 136.
Definition REG_RFLAGS : Z := 184.
Definition REG_SS : Z := 200.

Section ops.
Context {D : Type} {Drv : FsDriver D}.

(** Assignments to members of [regs]. *)
Fixpoint set_regs (regs : Z) (l : list (Z * Z)) : kM (kst D) unit :=
  match l with
  | [] => kret tt
  | (r, v) :: l => put_word (regs + r) v ;;; set_regs regs l
  end.
(** rip and rsp, rax rbx rcx rdx rsi rdi rbp r8 to r15, then the arguments, the flags
    and the selectors. *)
Definition exec_regs (entry sp argc : Z) : list (Z * Z) :=
  [(REG_RIP, entry); (REG_RSP, sp); (REG_RAX, 0); (REG_RBX, 0); (REG_RCX, 0); (REG_RDX, 0); (REG_RSI, 0); (REG_RDI, 0); (REG_RBP, 0)] ++
  ((λ r, (r, 0)) <$> [88; 80; 72; 64; 56; 48; 40; REG_R15]) ++
  [(REG_RDI, argc); (REG_RSI, u64 (sp + 8)); (REG_RFLAGS, 514); (REG_CS, 27); (REG_SS, 35); (REG_DS, 35); (REG_ES, 35); (REG_FS, 35); (REG_GS, 35)].
Definition compat_regs : list (Z * Z) :=
  [(REG_CS, 43); (REG_SS, 51); (REG_DS, 51); (REG_ES, 51); (REG_FS, 51); (REG_GS, 51)].

(** The first part: the contents of the file, or the value to return.  A node that is
    transient is not released on these ways out. *)
Definition read_image (path : list Z) : kM (kst D) (Z + Z * Z * list Z) :=
  let* node := vfs_resolve_path path in
  if node =? 0 then kret (inl (- KABI_ENOENT))
  else
    let* nd := get_node node in
    let* image := kmalloc in
    let* (n, l) := read_fs node 0 (n_length nd) in
    kmodify (λ s, with_k_bufs (<[image := l]> (k_bufs s)) s) ;;;
    if negb (n =? n_length nd) then kfree_buf image ;;; kret (inl (- KABI_EIO))
    else
      let* class := elf_validate (Some l) in
      if class <? 0 then kfree_buf image ;;; kret (inl (- KABI_EINVAL))
      else kret (inr (node, image, l)).

(** The second part: the address space of the program with its segments and its stack;
    the entry point, the stack pointer, the class. *)
Definition elf_stack (is_elf32 : bool) : Z * Z := if is_elf32 then (3221221376, 16384) else (140737488351232, 32768).
Definition build_image (fuel : nat) (node image : Z) (l : list Z) (argv : Z) (caller_is_32bit : bool) : kM (ex D) (Z + Z * Z * Z * Z * bool) :=
  let* s := kget in
  let* new_pd := vm (Mmu.clone_page_directory (mm_kernel (ex_mm s))) in
  let* (r, res) := vm (elf_load_image_from_buffer l new_pd) in
  if negb (r =? 0) then
    vm (Mmu.free_page_directory new_pd) ;;;
    core (kfree_buf image) ;;;
    core (free_transient node) ;;;
    kret (inl (- KABI_EIO))
  else
    let* class := vm (field 1 l EI_CLASS) in
    let is_elf32 := class =? ELFCLASS32 in
    core (kfree_buf image) ;;;
    core (free_transient node) ;;;
    let* argc := vm (get_argc fuel argv caller_is_32bit) in
    let (top, size) := elf_stack is_elf32 in
    let* new_sp := vm (build_user_stack fuel new_pd argv top size caller_is_32bit) in
    if new_sp =? 0 then vm (Mmu.free_page_directory new_pd) ;;; kret (inl (- KABI_ENOMEM))
    else
      let* res := kget_opt (λ _, res) in
      kret (inr (new_pd, r_entry res, new_sp, argc, is_elf32)).

Definition sys_execve (fuel : nat) (path : list Z) (argv regs : Z) : kM (ex D) Z :=
  let* r := core (read_image path) in
  match r with
  | inl e => kret e
  | inr (node, image, l) =>
      let* cs := core (get_word (regs + REG_CS)) in
      let* r := build_image fuel node image l argv (u16 cs =? 43) in
      match r with
      | inl e => kret e
      | inr (new_pd, entry, new_sp, argc, is_elf32) =>
          let* c := core current_task in
          let* t := core (get_task c) in
          let old_pd := t_page_directory t in
          core (upd_task c (with_t_page_directory new_pd)) ;;;
          core (kmodify (with_k_directory new_pd)) ;;;
          vm (switch_page_directory new_pd) ;;;
          let* s := kget in
          (if negb (old_pd =? mm_kernel (ex_mm s)) then vm (Mmu.free_page_directory old_pd) else kret tt) ;;;
          core (set_regs regs (exec_regs entry new_sp argc)) ;;;
          (if is_elf32 then core (set_regs regs compat_regs) else kret tt) ;;;
          kret 0
      end
  end.
End ops.
