(* ===== verification/ExecInv.v ===== *)
(** * The stack of a new program

    [build_user_stack] for a 64-bit program and a 64-bit caller: what the program
    finds at its stack pointer. *)

From stdpp Require Import base numbers list gmap.
From Stdlib Require Import ZArith Lia.
From S2P Require Import Prelude CString Bytes Pmm Mmu MmuInv Cow KheapAlloc KheapGrow Elf ElfInv ElfSpec Exec.

#[local] Open Scope Z_scope.
#[local] Open Scope kernel_scope.

(** ** The pages *)

Lemma get_page_make u b rs pd r v : aspace u b rs pd r → ¬ few (mm_pmm u) b 2 →
  ∃ x m' b', get_page v true pd u = Ret (Some (entry_at x (PT_IDX v))) (wr m' b' u) ∧ aspace (wr m' b' u) b' rs pd r ∧ node m' r (vpath v) = Some x ∧
    (∀ q j, path_ok 3 q → length q = 3%nat → idx j → leaf m' r q j = leaf (mm_word u) r q j) ∧ grows (mm_word u) m' b b' r ∧ uses (limit_frame (mm_pmm u)) b b' 3.
Proof.
  intros [H Hc T] Hfew. unfold get_page. rewrite (kbind_ret _ _ _ _ _ (get_entry_run u _ r v Hc)). destruct (node (mm_word u) r (vpath v)) as [x|] eqn:Ex.
  - exists x, (mm_word u), b. assert (wr (mm_word u) b u = u) as -> by (unfold wr; rewrite (set_bits_same u b rs H); by destruct u).
    split; [done|]. split; [by split|]. split; [done|]. split; [done|]. split; [apply grows_refl|apply uses_refl].
  - rewrite (kbind_ret _ _ _ _ _ (get_ctx_run u _ r Hc)). destruct (get_tables_run u b rs r v 7 H T) as [(s' & _ & _ & W)|(y & m' & b' & xs & E & H' & T' & N & L & M & K & X & F & U)]; [done|].
    exists y, m', b'. rewrite (kbind_ret _ _ _ _ _ E). split; [done|]. split; [by split|]. split; [done|]. split; [done|]. split; [|done].
    apply (grows_kept _ _ _ _ _ xs); try done. intros x Hx. destruct (X x Hx) as (p & Hp & _ & Hn). by exists p.
Qed.

(** A store to the entry of [v], whose table is [x]. *)
Lemma store_grows u b rs pd r v x e : aspace u b rs pd r → node (mm_word u) r (vpath v) = Some x →
  let m' := set_word (entry_at x (PT_IDX v)) e (mm_word u) in
  aspace (with_mm_word m' u) b rs pd r ∧ node m' r (vpath v) = Some x ∧ translate m' r v = e ∧
  (∀ v', page_number v' ≠ page_number v → translate m' r v' = translate (mm_word u) r v') ∧ grows (mm_word u) m' b b r ∧
  (∀ p, path_ok 3 p → node m' r p = node (mm_word u) r p).
Proof.
  intros [H Hc T] Hx m'. destruct (vpath_ok v) as [Hv Hi]. destruct (leaf_store _ b _ r 3 (vpath v) x (PT_IDX v) e T Hv eq_refl Hx Hi) as (T' & N & L & K). fold m' in T', N, L, K.
  split; [by split|]. split; [by rewrite N|]. split; [unfold translate; rewrite L by done; by rewrite decide_True|]. split; [|split].
  - intros v' Hne. destruct (vpath_ok v') as [Hv' Hi']. unfold translate. rewrite L, decide_False; try done. intros [? ?]. apply Hne. by apply same_page.
  - apply (grows_kept _ _ _ _ _ [x]); try done; [|intros p z Hp; rewrite N by done; by left]. intros z ->%list_elem_of_singleton. exists (vpath v). by rewrite N.
  - done.
Qed.

Lemma set_frame_flags e f : 0 ≤ f → PAGE_SET_FLAGS (PAGE_SET_FRAME e (f * 4096)) 7 = Z.lor (f * 4096) 7.
Proof. intros Hf. unfold PAGE_SET_FLAGS. by rewrite set_frame_frame by (try apply Z.mod_mul; lia). Qed.

Lemma stack_page_run u b rs pd r v : aspace u b rs pd r → ¬ few (mm_pmm u) b 3 → present (translate (mm_word u) r v) = false →
  ∃ u' b' f, stack_page pd v u = Ret tt u' ∧ aspace u' b' (<[Z.to_nat f := 1]> rs) pd r ∧ same_ctx u u' ∧ grows (mm_word u) (mm_word u') b b' r ∧
    upage (mm_word u') b' (total u) r v f ∧ bit b f = false ∧ uses (limit_frame (mm_pmm u)) b b' 4 ∧
    (∀ v', page_number v' ≠ page_number v → translate (mm_word u') r v' = translate (mm_word u) r v').
Proof.
  intros A Hfew Hp. pose proof (po_total _ _ _ (as_pmm _ _ _ _ _ A)) as Ht. unfold stack_page. destruct (vpath_ok v) as [Hv Hi].
  destruct (get_page_make u b rs pd r v A) as (x & m1 & b1 & E1 & A1 & N1 & L1 & G1 & U1); [intros W; apply Hfew; by eapply few_le; [|exact W]; lia|].
  rewrite (kbind_ret _ _ _ _ _ E1). set (u1 := wr m1 b1 u) in *. set (a := entry_at x (PT_IDX v)). rewrite (kbind_ret _ _ _ _ _ (load_run u1 a)). change (mm_word u1 a) with (m1 a).
  assert (translate m1 r v = m1 a) as Ea by (unfold translate, leaf; by rewrite N1). assert (∀ v', translate m1 r v' = translate (mm_word u) r v') as Hsame.
  { intros v'. destruct (vpath_ok v') as [Hv' Hi']. by apply L1. }
  rewrite <-Ea, Hsame. fold (present (translate (mm_word u) r v)). rewrite Hp. cbn [negb].
  destruct (first_free_run _ b1 rs (as_pmm _ _ _ _ _ A1)) as (f & b2 & Ef & H2 & M2 & D2 & R). rewrite (kbind_ret _ _ _ _ _ (pm_run _ u1 _ _ Ef)).
  destruct R as [[-> Hall]|(Hf0 & Hf & Hb1 & _)].
  { destruct Hfew. apply (few_uses (mm_pmm u) b b1 3 0); [done|]. exists []. split; [done|]. intros g Hg Hl. left. by apply Hall. }
  change (total_frames (mm_pmm u1)) with (total_frames (mm_pmm u)) in Hf.
  set (u2 := with_mm_pmm (with_bitmap b2 (mm_pmm u1)) u1). set (e := translate (mm_word u) r v).
  assert (aspace u2 b2 rs pd r) as A2 by (split; [done|apply A1|by apply (tree_ext m1 m1 b1 b2); [apply A1| |]]).
  destruct (store_grows u2 b2 rs pd r v x (PAGE_SET_FRAME e (f * 4096)) A2 N1) as (A3 & N3 & T3 & O3 & G3 & S3). fold a in A3, N3, T3, O3, G3, S3.
  set (m3 := set_word a (PAGE_SET_FRAME e (f * 4096)) (mm_word u2)) in *. rewrite (kbind_ret (store a _) _ u2 tt (with_mm_word m3 u2) eq_refl).
  rewrite (kbind_ret _ _ _ _ _ (load_run (with_mm_word m3 u2) a)). cbn [mm_word with_mm_word]. rewrite (set_word_same a _ _ : m3 a = _), set_frame_flags by done.
  destruct (store_grows (with_mm_word m3 u2) b2 rs pd r v x (Z.lor (f * 4096) 7) A3 N3) as (A4 & N4 & T4 & O4 & G4 & S4). fold a in A4, N4, T4, O4, G4, S4. cbn [mm_word with_mm_word] in A4, N4, T4, O4, G4, S4.
  set (m4 := set_word a (Z.lor (f * 4096) 7) m3) in *. set (u4 := with_mm_word m4 (with_mm_word m3 u2)) in *. rewrite (kbind_ret (store a _) _ (with_mm_word m3 u2) tt u4 eq_refl).
  assert (bit b2 f = false) as Hb2.
  { destruct (bit b2 f) eqn:Eb; [|done]. apply D2 in Eb as [?|?]; [congruence| |done]. change (limit_frame (mm_pmm u1)) with (limit_frame (mm_pmm u)) in *. lia. }
  assert (bit b f = false) as Hb. { destruct (bit b f) eqn:Eb; [|done]. rewrite <-Hb1. symmetry. by apply G1. }
  destruct (frame_ref_run (mm_pmm u4) b2 rs f 0 H2 ltac:(cbn in *; lia)) as (b5 & E5 & H5 & B5); [apply (free_count (mm_pmm u) b); [apply A|lia|done]|lia|]. change (0 + 1) with 1 in *.
  rewrite (pm_run _ u4 _ _ E5). exists (with_mm_pmm (with_refs (<[Z.to_nat f := 1]> rs) (with_bitmap b5 (mm_pmm u4))) u4), b5, f.
  assert (∀ g, 0 ≤ g → bit b2 g = true → bit b5 g = true) as M5 by (intros g Hg Hgb; by rewrite B5, Hgb).
  split; [done|]. split; [split; [exact H5|apply A|by apply (tree_ext m4 m4 b2 b5); [apply A4| |]]|]. split; [by split|].
  assert (grows m1 m4 b1 b5 r) as G14.
  { eapply grows_trans; [|split; [exact M5|intros; reflexivity|intros ? ? ? ?; by left]]. eapply grows_trans; [split; [exact M2|intros; reflexivity|intros ? ? ? ?; by left]|].
    eapply grows_trans; [exact G3|exact G4]. }
  split; [by eapply grows_trans|]. cbn [mm_word with_mm_pmm u4 with_mm_word]. split; [|split; [done|split]].
  - split; [done| |].
    + split; [apply Z.mod_mul; lia|]. rewrite Z.div_mul by lia. split; [unfold total; lia|]. rewrite B5, Z.eqb_refl by done. apply orb_true_r.
    + intros (p & Hp' & Hx). rewrite S4, S3 in Hx by done. by apply (free_no_table m1 b1 (total u1) r f (as_tree _ _ _ _ _ A1) Hb1); exists p.
  - apply (uses_trans _ b b1 b5 3 1); [done|]. exists [f]. split; [done|]. intros g Hg. rewrite B5 by done. intros [[?|?]%D2|?%Z.eqb_eq]%orb_true_iff; [tauto|tauto|done|].
    right. right. subst. apply list_elem_of_here.
  - intros v' Hne. by rewrite O4, O3, Hsame.
Qed.

Lemma stack_pages_run : ∀ n u b rs pd r lo, aspace u b rs pd r → 0 ≤ lo → lo + Z.of_nat n ≤ 34359738368 → ¬ few (mm_pmm u) b (4 * n) →
  (∀ q, lo ≤ q < lo + Z.of_nat n → present (translate (mm_word u) r (q * 4096)) = false) →
  ∃ u' b' rs' fr, stack_pages n pd (lo * 4096) u = Ret tt u' ∧ aspace u' b' rs' pd r ∧ same_ctx u u' ∧ region u u' b b' r lo (lo + Z.of_nat n) fr.
Proof.
  induction n as [|n IH]; intros u b rs pd r lo A Hlo Hhi Hfew Habs; cbn [stack_pages].
  { exists u, b, rs, (λ q, q). split; [done|]. split; [done|]. split; [apply same_ctx_refl|]. apply region_nil. lia. }
  destruct (stack_page_run u b rs pd r (lo * 4096) A) as (u1 & b1 & f & E1 & A1 & S1 & G1 & P1 & Hf & U1 & O1); [intros W; apply Hfew; by eapply few_le; [|exact W]; lia|apply Habs; lia|].
  rewrite (kbind_ret _ _ _ _ _ E1). replace (lo * 4096 + 4096) with ((lo + 1) * 4096) by lia.
  assert (∀ q, 0 ≤ q < 34359738368 → page_number (q * 4096) = q) as Hpn by (intros q Hq; rewrite page_number_mod, Z.div_mul by lia; apply Z.mod_small; lia).
  destruct (IH u1 b1 _ pd r (lo + 1) A1) as (u2 & b2 & rs2 & fr & E2 & A2 & S2 & R2); [lia|lia| | |].
  - intros W. apply Hfew. replace (4 * S n)%nat with (4 + 4 * n)%nat by lia. eapply few_uses; [exact U1|].
    unfold few in *. rewrite (sc_limit _ _ S1) in W. pose proof (sc_total _ _ S1) as Ht. unfold total in Ht. by rewrite Ht in W.
  - intros q Hq. rewrite O1; [apply Habs; lia|]. rewrite !Hpn by lia. lia.
  - replace (lo + 1 + Z.of_nat n) with (lo + Z.of_nat (S n)) in R2 by lia. rewrite Hpn in O1 by lia.
    destruct (region_cons u u1 u2 b b1 b2 r lo (lo + Z.of_nat (S n)) f fr) as [R _]; try done; [lia|].
    exists u2, b2, rs2, (λ q, if q =? lo then f else fr q). split; [done|]. split; [done|]. split; [by eapply same_ctx_trans|done].
Qed.

(** ** The caller's memory *)

(** A page in use that is no table of [r]. *)
Definition other_page (m : Z → Z) (b : list Z) (r z : Z) : Prop := z mod 4096 = 0 ∧ bit b (z / 4096) = true ∧ ¬ is_table m r z.
(** The byte [x] is at [v] under [root], and neither it nor the tables that lead to it
    are tables of [r]. *)
Record readable (m : Z → Z) (b : list Z) (r root v x : Z) : Prop := {
  rb_byte : vread m root v = Some x;
  rb_tables : ∀ k z, (k ≤ 3)%nat → node m root (take k (vpath v)) = Some z → other_page m b r z;
  rb_page : other_page m b r (PAGE_FRAME (translate m root v)) }.
Definition string_at (m : Z → Z) (b : list Z) (r root v : Z) (l : list Z) : Prop := ∀ i x, l !! i = Some x → readable m b r root (v + Z.of_nat i) x.

Lemma new_node_kept m m' : ∀ p t, Forall idx p → (∀ k z i, (k < length p)%nat → node m t (take k p) = Some z → idx i → m' (entry_at z i) = m (entry_at z i)) → node m' t p = node m t p.
Proof.
  induction p as [|i p IH]; intros t Hp Hk; cbn [node]; [done|]. inversion Hp; subst. rewrite (Hk 0%nat t i); [|cbn; lia|done|done].
  destruct (present (m (entry_at t i))) eqn:E; [|done]. apply IH; [done|]. intros k z j Hlt Hz. apply (Hk (S k)); [cbn; lia|]. cbn [take node]. by rewrite E.
Qed.
Lemma readable_grows m m' b b' r root v x : grows m m' b b' r → readable m b r root v x → readable m' b' r root v x.
Proof.
  intros G [Hr Ht Hp]. destruct (vpath_ok v) as [[Hv Hl] Hi].
  assert (∀ z a, other_page m b r z → in_page z a → m' a = m a) as Hw by (intros z a (? & ? & ?) Ha; by eapply (gw_data _ _ _ _ _ G)).
  assert (∀ z, other_page m b r z → other_page m' b' r z) as Ho.
  { intros z (Hz & Hb & Hn). split; [done|]. split; [apply G; [by eapply bit_nonneg|done]|]. by eapply no_new_table; [apply G| |]. }
  assert (∀ k, (k ≤ 3)%nat → node m' root (take k (vpath v)) = node m root (take k (vpath v))) as Hn.
  { intros k Hk. apply new_node_kept; [by apply Forall_take|]. intros j z i Hj Hz Hx. rewrite length_take in Hj. rewrite take_take, Nat.min_l in Hz by lia.
    apply (Hw z); [apply (Ht j); [lia|done]|]. by apply entry_in_page. }
  assert (translate m' root v = translate m root v) as Et.
  { unfold translate, leaf. pose proof (Hn 3%nat ltac:(lia)) as H3. change (take 3 (vpath v)) with (vpath v) in H3. rewrite H3.
    destruct (node m root (vpath v)) as [z|] eqn:Ez; [|done]. apply (Hw z); [apply (Ht 3%nat); [lia|done]|]. by apply entry_in_page. }
  split.
  - revert Hr. unfold vread. destruct (_ || _); [|done]. rewrite Et. destruct (present _); [|done]. intros [= <-]. f_equal.
    apply (get_byte_page _ _ (PAGE_FRAME (translate m root v))); [apply Hp|intros a Ha; by apply (Hw _ a Hp)|]. unfold in_page. pose proof (Z.mod_pos_bound v 4096 ltac:(lia)). lia.
  - intros k z Hk. rewrite Hn by done. intros Hz. by apply Ho, (Ht k).
  - rewrite Et. by apply Ho.
Qed.
Lemma string_grows m m' b b' r root v l : grows m m' b b' r → string_at m b r root v l → string_at m' b' r root v l.
Proof. intros G H i x Hi. by eapply readable_grows, H. Qed.

Lemma vreads_run m b r root : ∀ l v, string_at m b r root v l → vreads (length l) m root v = Some l.
Proof.
  induction l as [|x l IH]; intros v H; cbn [vreads length]; [done|]. pose proof (H 0%nat x eq_refl) as [Hr _ _]. rewrite Z.add_0_r in Hr. rewrite Hr.
  rewrite IH; [done|]. intros i y Hi. replace (v + 1 + Z.of_nat i) with (v + Z.of_nat (S i)) by lia. by apply (H (S i)).
Qed.
Lemma user_load_run u b r v l : string_at (mm_word u) b r (mm_cr3 u) v l → user_load (length l) v u = Ret (le_val l) u.
Proof. intros H. unfold user_load, kbind, kget_opt. by rewrite (vreads_run _ _ _ _ _ _ H). Qed.
Lemma user_ptr_run u b r v p : 0 ≤ p < 18446744073709551616 → string_at (mm_word u) b r (mm_cr3 u) v (le_bytes 8 p) → user_load 8 v u = Ret p u.
Proof. intros Hp H. pose proof (user_load_run u b r v _ H) as E. rewrite le_bytes_length in E. rewrite E, le_val_bytes. by rewrite Z.mod_small. Qed.

Lemma user_string_run u b r : ∀ l fuel v, string_at (mm_word u) b r (mm_cr3 u) v (l ++ [0]) → Forall (λ c, c ≠ 0) l → (length l < fuel)%nat → user_string fuel v u = Ret l u.
Proof.
  induction l as [|c l IH]; intros [|fuel] v H Hnz Hf; cbn [length] in Hf; try lia; cbn [user_string].
  - rewrite (kbind_ret _ _ _ _ _ (user_load_run u b r v [0] H)). done.
  - inversion Hnz; subst. assert (string_at (mm_word u) b r (mm_cr3 u) v [c]) as Hc.
    { intros [|i] x; [|done]. intros [= <-]. by apply (H 0%nat). }
    rewrite (kbind_ret _ _ _ _ _ (user_load_run u b r v [c] Hc)). cbn [le_val]. rewrite Z.mul_0_r, Z.add_0_r.
    replace (c =? 0) with false by (symmetry; by apply Z.eqb_neq). rewrite (kbind_ret _ _ u l u); [done|]. apply IH; [|done|lia].
    intros i x Hi. replace (v + 1 + Z.of_nat i) with (v + Z.of_nat (S i)) by lia. by apply (H (S i)).
Qed.

(** The array of pointers, the strings, and that [argv] is the caller's. *)
Record user_args (m : Z → Z) (b : list Z) (r root argv : Z) (ptrs : list Z) (args : list (list Z)) : Prop := {
  ua_ptrs : Forall2 (λ p a, 0 < p < 18446744073709551616 ∧ string_at m b r root p (a ++ [0]) ∧ Forall (λ c, 0 < c < 256) a) ptrs args;
  ua_array : ∀ i p, (ptrs ++ [0]) !! i = Some p → string_at m b r root (argv + 8 * Z.of_nat i) (le_bytes 8 p) }.
Lemma user_args_grows m m' b b' r root argv ptrs args : grows m m' b b' r → user_args m b r root argv ptrs args → user_args m' b' r root argv ptrs args.
Proof.
  intros G [H1 H2]. split.
  - eapply Forall2_impl; [exact H1|]. intros p a (? & ? & ?). split; [done|]. split; [|done]. by eapply string_grows.
  - intros i p Hi. by eapply string_grows, H2.
Qed.
Lemma argv_at_run u b r argv ptrs args i p : user_args (mm_word u) b r (mm_cr3 u) argv ptrs args → (ptrs ++ [0]) !! i = Some p → 0 ≤ p < 18446744073709551616 ∧ argv_at 8 argv (Z.of_nat i) u = Ret p u.
Proof.
  intros [H1 H2] Hi. assert (0 ≤ p < 18446744073709551616) as Hp.
  { apply lookup_app_Some in Hi as [Hi|[_ Hi]].
    - destruct (Forall2_lookup_l _ _ _ _ _ H1 Hi) as (a & _ & ? & _). lia.
    - destruct (i - length ptrs)%nat; [|done]. injection Hi as <-. lia. }
  split; [done|]. unfold argv_at. change (Z.of_nat 8) with 8. apply (user_ptr_run u b r); [done|]. by apply H2.
Qed.
Lemma count_args_run u b r argv ptrs args : user_args (mm_word u) b r (mm_cr3 u) argv ptrs args → Z.of_nat (length ptrs) < 4294967296 →
  ∀ n fuel i, (i + n = length ptrs)%nat → (n < fuel)%nat → count_args fuel 8 argv (Z.of_nat i) u = Ret (Z.of_nat (length ptrs)) u.
Proof.
  intros U Hlen. induction n as [|n IH]; intros [|fuel] i Hi Hf; try lia; cbn [count_args].
  - replace i with (length ptrs) by lia. destruct (argv_at_run u b r argv ptrs args (length ptrs) 0 U) as [_ E]; [by rewrite lookup_app_r, Nat.sub_diag by lia|].
    by rewrite (kbind_ret _ _ _ _ _ E).
  - destruct (lookup_lt_is_Some_2 ptrs i ltac:(lia)) as [p Hp]. destruct (argv_at_run u b r argv ptrs args i p U) as [_ E]; [by apply lookup_app_l_Some|].
    rewrite (kbind_ret _ _ _ _ _ E). destruct (Forall2_lookup_l _ _ _ _ _ (ua_ptrs _ _ _ _ _ _ _ U) Hp) as (a & _ & Hp0 & _).
    replace (p =? 0) with false by (symmetry; apply Z.eqb_neq; lia). rewrite (u32_small (Z.of_nat i + 1)) by lia.
    replace (Z.of_nat i + 1) with (Z.of_nat (S i)) by lia. apply IH; lia.
Qed.

(** ** Writing the stack *)

Lemma wrote_below m m1 m2 r lo hi fr d l k : wrote m m1 r lo hi fr d k → wrote m1 m2 r lo hi fr (d - Z.of_nat (length l)) l →
  wrote m m2 r lo hi fr (d - Z.of_nat (length l)) (l ++ k).
Proof.
  intros [N1 T1 B1 K1] [N2 T2 B2 K2]. split.
  - intros p Hp. by rewrite N2, N1.
  - intros v. by rewrite T2, T1.
  - intros x Hx. rewrite B2, B1 by done. destruct (decide (d - Z.of_nat (length l) ≤ x)) as [Hd|Hd].
    + rewrite zlookup_app by lia. destruct (zlookup l _); [done|]. by replace (x - (d - Z.of_nat (length l)) - Z.of_nat (length l)) with (x - d) by lia.
    + by rewrite !zlookup_out by lia.
  - intros z a Hz Hq Ha. by rewrite (K2 z a Hz Hq Ha), (K1 z a Hz Hq Ha).
Qed.

(** The address space and its stack pages, since [u0]. *)
Record stack_inv (u0 : mmu) (b0 : list Z) (u : mmu) (b rs : list Z) (pd r lo hi : Z) (fr : Z → Z) : Prop := {
  si_space : aspace u b rs pd r;
  si_owned : owned (mm_word u) b (total u) r lo hi fr;
  si_grows : grows (mm_word u0) (mm_word u) b0 b r;
  si_free : ∀ q, lo ≤ q < hi → bit b0 (fr q) = false;
  si_same : same_ctx u0 u }.
Lemma stack_wrote u0 b0 u b rs pd r lo hi fr m' d l : stack_inv u0 b0 u b rs pd r lo hi fr → wrote (mm_word u) m' r lo hi fr d l →
  stack_inv u0 b0 (with_mm_word m' u) b rs pd r lo hi fr.
Proof.
  intros [A O G F S] W. split; [by eapply aspace_wrote|by eapply owned_wrote|by eapply grows_wrote|done|]. by destruct S; split.
Qed.

Lemma copy_out_vcopy pd : ∀ fuel d l u x s, vcopy fuel pd d l u = Ret (Some x) s → copy_out_bytes fuel pd d l u = Ret tt s.
Proof.
  induction fuel as [|fuel IH]; intros d l u x s; cbn [vcopy copy_out_bytes]; [done|]. destruct (0 <? Z.of_nat (length l)); [|by intros [= <- <-]].
  unfold kbind. destruct (page_base pd d u) as [[f|] s1| | | |]; try done. destruct (phys_write _ _ s1) as [[] s2| | | |]; try done. apply IH.
Qed.

Section writes.
Context (u0 : mmu) (b0 b rs : list Z) (pd r lo hi : Z) (fr : Z → Z).
Context (Hlo : 0 ≤ lo) (Hhi : hi * 4096 ≤ 140737488355328).
Abbreviation inv u := (stack_inv u0 b0 u b rs pd r lo hi fr).
Abbreviation wrote' m m' := (wrote m m' r lo hi fr).

Lemma copy_out_run u d l : inv u → lo * 4096 ≤ d → d + Z.of_nat (length l) ≤ hi * 4096 →
  ∃ m', copy_out_bytes (chunks (Z.of_nat (length l))) pd d l u = Ret tt (with_mm_word m' u) ∧ wrote' (mm_word u) m' d l.
Proof.
  intros [A O _ _ _] Hd Hl. destruct (vcopy_run (chunks (Z.of_nat (length l))) u b rs pd r lo hi fr d l A O Hd Hl Hlo Hhi) as (m' & E & W); [apply chunks_enough; lia|].
  exists m'. split; [by eapply copy_out_vcopy|done].
Qed.

Lemma push_run u sp v : inv u → sp mod 8 = 0 → lo * 4096 ≤ sp - 8 → sp ≤ hi * 4096 →
  ∃ m', push 8 pd sp v u = Ret (sp - 8) (with_mm_word m' u) ∧ wrote' (mm_word u) m' (sp - 8) (le_bytes 8 v).
Proof.
  intros [A O _ _ _] H8 Hl Hh. unfold push. change (Z.of_nat 8) with 8. rewrite (u64_small (sp - 8)) by lia. set (d := sp - 8).
  pose proof (Z.div_mod d 4096 ltac:(lia)). pose proof (Z.mod_pos_bound d 4096 ltac:(lia)). pose proof (Z.div_mod sp 8 ltac:(lia)).
  assert (d mod 4096 + 8 ≤ 4096) as Hm by lia. assert (lo ≤ d / 4096 < hi) as Hq by lia.
  pose proof (upage_page _ _ _ _ _ d _ ltac:(by rewrite Z.div_mul by lia) (ow_page _ _ _ _ _ _ _ O _ Hq)) as U. destruct (upage_frame _ _ _ _ _ _ U) as (_ & _ & Hfr).
  rewrite (kbind_ret _ _ _ _ _ (page_base_run u b rs pd r d _ A U)).
  rewrite (kbind_ret _ _ _ _ _ (phys_write_run u (fr (d / 4096) * 4096 + d mod 4096) (le_bytes 8 v) ltac:(lia) ltac:(rewrite le_bytes_length; lia))).
  eexists. split; [done|]. apply (write_chunk _ b (total u)); [apply A|done|done|]. rewrite le_bytes_length. lia.
Qed.

Definition words (l : list Z) : list Z := concat (map (le_bytes 8) l).
Lemma words_length l : Z.of_nat (length (words l)) = 8 * Z.of_nat (length l).
Proof. unfold words. induction l as [|x l IH]; cbn [map concat length]; [done|]. rewrite length_app, le_bytes_length. lia. Qed.
Lemma words_app l k : words (l ++ k) = words l ++ words k.
Proof. unfold words. by rewrite map_app, concat_app. Qed.

Lemma push_ptrs_run : ∀ l u sp, inv u → sp mod 8 = 0 → lo * 4096 ≤ sp - 8 * Z.of_nat (length l) → sp ≤ hi * 4096 →
  ∃ m', push_ptrs 8 pd sp l u = Ret (sp - 8 * Z.of_nat (length l)) (with_mm_word m' u) ∧ wrote' (mm_word u) m' (sp - 8 * Z.of_nat (length l)) (words (rev l)).
Proof.
  induction l as [|p l IH]; intros u sp I H8 Hl Hh; cbn [push_ptrs length rev].
  - exists (mm_word u). rewrite Z.mul_0_r, Z.sub_0_r. split; [by destruct u|apply wrote_nil].
  - cbn [length] in Hl. destruct (push_run u sp p I H8 ltac:(lia) Hh) as (m1 & E1 & W1). rewrite (kbind_ret _ _ _ _ _ E1).
    destruct (IH (with_mm_word m1 u) (sp - 8)) as (m2 & E2 & W2); [by eapply stack_wrote|by rewrite Zminus_mod, H8|lia|lia|].
    exists m2. replace (sp - 8 * Z.of_nat (S (length l))) with (sp - 8 - 8 * Z.of_nat (length l)) by lia. split; [done|].
    rewrite words_app. replace (words [p]) with (le_bytes 8 p) by (unfold words; cbn [map concat]; by rewrite app_nil_r).
    replace (8 * Z.of_nat (length l)) with (Z.of_nat (length (words (rev l)))) in * by (rewrite words_length, length_rev; lia). by eapply wrote_below.
Qed.

(** The three kinds of words below the strings. *)
Lemma push_words_run u sp ps argc : inv u → sp mod 16 = 0 → lo * 4096 ≤ sp - 8 * (Z.of_nat (length ps) + 2) → sp ≤ hi * 4096 →
  ∃ m', (let* sp := push 8 pd sp 0 in let* sp := push_ptrs 8 pd sp (rev ps) in push 8 pd sp argc) u = Ret (sp - 8 * (Z.of_nat (length ps) + 2)) (with_mm_word m' u) ∧
    wrote' (mm_word u) m' (sp - 8 * (Z.of_nat (length ps) + 2)) (words ([argc] ++ ps ++ [0])).
Proof.
  intros I Hm Hl Hh. pose proof (Z.div_mod sp 16 ltac:(lia)) as Hdm.
  assert (∀ k, (sp - 8 * k) mod 8 = 0) as H8 by (intros k; replace (sp - 8 * k) with ((2 * (sp / 16) - k) * 8) by lia; apply Z.mod_mul; lia).
  destruct (push_run u sp 0 I) as (m1 & E1 & W1); [rewrite <-(H8 0); f_equal; lia|lia|lia|]. rewrite (kbind_ret _ _ _ _ _ E1). pose proof (stack_wrote _ _ _ _ _ _ _ _ _ _ _ _ _ I W1) as I1.
  destruct (push_ptrs_run (rev ps) _ (sp - 8) I1) as (m2 & E2 & W2); rewrite ?length_rev; [exact (H8 1)|lia|lia|]. rewrite length_rev, rev_involutive in *.
  rewrite (kbind_ret _ _ _ _ _ E2). pose proof (stack_wrote _ _ _ _ _ _ _ _ _ _ _ _ _ I1 W2) as I2. set (sp2 := sp - 8 - 8 * Z.of_nat (length ps)) in *.
  destruct (push_run _ sp2 argc I2) as (m3 & E3 & W3); [rewrite <-(H8 (1 + Z.of_nat (length ps))); f_equal; lia|lia|lia|].
  exists m3. replace (sp - 8 * (Z.of_nat (length ps) + 2)) with (sp2 - 8) by lia. split; [exact E3|]. cbn [mm_word with_mm_word] in *.
  assert (∀ x, words [x] = le_bytes 8 x) as Hw by (intros x; unfold words; cbn [map concat]; by rewrite app_nil_r). rewrite !words_app, !Hw.
  assert (sp2 = sp - 8 - Z.of_nat (length (words ps))) as Es by (rewrite words_length; lia). assert (8 = Z.of_nat (length (le_bytes 8 argc))) as E8 by done.
  rewrite E8 in W3 |- *. eapply wrote_below; [|exact W3]. rewrite Es in W2 |- *. by eapply wrote_below.
Qed.

(** The strings one behind the other, and their addresses. *)
Definition block (args : list (list Z)) : list Z := concat (map (λ a, a ++ [0]) args).
Fixpoint addrs (base : Z) (args : list (list Z)) : list Z :=
  match args with [] => [] | a :: args => base :: addrs (base + Z.of_nat (length a) + 1) args end.
Lemma block_snoc args a : block (args ++ [a]) = block args ++ a ++ [0].
Proof. unfold block. rewrite map_app, concat_app. cbn [map concat]. by rewrite app_nil_r. Qed.
Lemma addrs_snoc : ∀ args base a, addrs base (args ++ [a]) = addrs base args ++ [base + Z.of_nat (length (block args))].
Proof.
  induction args as [|x args IH]; intros base a; cbn [app addrs].
  - cbn. by rewrite Z.add_0_r.
  - rewrite IH. cbn [app]. f_equal. f_equal. unfold block. cbn [map concat]. rewrite !length_app. cbn [length]. f_equal. lia.
Qed.

Lemma push_strings_run fuel argv ptrs args : user_args (mm_word u0) b0 r (mm_cr3 u0) argv ptrs args → Forall (λ a : list Z, (length a < fuel)%nat) args →
  ∀ n u sp acc, inv u → (n ≤ length args)%nat → lo * 4096 ≤ sp - Z.of_nat (length (block (take n args))) → sp ≤ hi * 4096 →
  let sp' := sp - Z.of_nat (length (block (take n args))) in
  ∃ m', push_strings n fuel pd argv false sp acc u = Ret (sp', addrs sp' (take n args) ++ acc) (with_mm_word m' u) ∧ wrote' (mm_word u) m' sp' (block (take n args)).
Proof.
  intros U Hfu. induction n as [|n IH]; intros u sp acc I Hn Hl Hh; cbn [push_strings].
  { exists (mm_word u). cbn. rewrite Z.sub_0_r. split; [by destruct u|apply wrote_nil]. }
  destruct (lookup_lt_is_Some_2 args n ltac:(lia)) as [a Ha]. destruct (Forall2_lookup_r _ _ _ _ _ (ua_ptrs _ _ _ _ _ _ _ U) Ha) as (p & Hp & _).
  rewrite (take_S_r _ _ _ Ha), block_snoc, !length_app in *. cbn [length] in *.
  assert (mm_cr3 u = mm_cr3 u0) as Ec by apply (sc_dirs _ _ (si_same _ _ _ _ _ _ _ _ _ _ I)).
  assert (user_args (mm_word u) b r (mm_cr3 u) argv ptrs args) as Uu by (rewrite Ec; eapply user_args_grows; [apply I|exact U]).
  destruct (argv_at_run u b r argv ptrs args n p Uu ltac:(by apply lookup_app_l_Some)) as [_ Ep]. rewrite (kbind_ret _ _ _ _ _ Ep), (kbind_ret (kret p) _ u p u eq_refl).
  destruct (Forall2_lookup_lr _ _ _ _ _ _ (ua_ptrs _ _ _ _ _ _ _ Uu) Hp Ha) as (Hp0 & Hs & Hnz). replace (p =? 0) with false by (symmetry; apply Z.eqb_neq; lia).
  assert (Forall (λ c, c ≠ 0) a) as Hnz' by (eapply Forall_impl; [exact Hnz|]; intros c Hc; cbn in Hc; lia).
  rewrite Forall_lookup in Hfu. rewrite (kbind_ret _ _ _ _ _ (user_string_run u b r a fuel p Hs Hnz' (Hfu _ _ Ha))).
  rewrite (u64_small (sp - _)) by lia. set (sp1 := sp - (Z.of_nat (length a) + 1)).
  destruct (copy_out_run u sp1 (a ++ [0]) I) as (m1 & E1 & W1); [lia|rewrite length_app; cbn; lia|]. rewrite length_app, Nat2Z.inj_add in E1. change (Z.of_nat (length [0])) with 1 in E1.
  rewrite (kbind_ret _ _ _ _ _ E1). destruct (IH (with_mm_word m1 u) sp1 (sp1 :: acc)) as (m2 & E2 & W2); [by eapply stack_wrote|lia|lia|lia|].
  exists m2. replace (sp - Z.of_nat (length (block (take n args)) + (length a + 1))) with (sp1 - Z.of_nat (length (block (take n args)))) by lia.
  split; [|by eapply wrote_below]. rewrite E2, addrs_snoc, <-app_assoc. cbn [app].
  by replace (sp1 - Z.of_nat (length (block (take n args))) + Z.of_nat (length (block (take n args)))) with sp1 by lia.
Qed.
End writes.

(** ** The stack *)

(** The bytes [l] at [x], in pages that are the user's. *)
Definition holds (m : Z → Z) (b : list Z) (tot r x : Z) (l : list Z) : Prop :=
  ∀ i v, l !! i = Some v → ∃ f, upage m b tot r (x + Z.of_nat i) f ∧ get_byte m (f * 4096 + (x + Z.of_nat i) mod 4096) = v.
Definition STACK_TOP : Z := 140737488351232.
Definition STACK_LO : Z := 34359738359.
Definition STACK_HI : Z := 34359738367.

Lemma holds_wrote m m' b tot r lo hi fr d l : owned m' b tot r lo hi fr → wrote m m' r lo hi fr d l → lo * 4096 ≤ d → d + Z.of_nat (length l) ≤ hi * 4096 → bytes l → holds m' b tot r d l.
Proof.
  intros O W Hd Hl Hb i v Hi. set (x := d + Z.of_nat i). pose proof (lookup_lt_Some _ _ _ Hi). pose proof (Z.div_mod x 4096 ltac:(lia)). pose proof (Z.mod_pos_bound x 4096 ltac:(lia)).
  exists (fr (x / 4096)). split.
  - apply (upage_page _ _ _ _ (x / 4096 * 4096)); [by rewrite Z.div_mul by lia|]. apply O. lia.
  - change (see m' fr x = v). rewrite (wt_bytes _ _ _ _ _ _ _ _ W) by lia. replace (x - d) with (Z.of_nat i) by lia. rewrite zlookup_nat, Hi.
    apply u8_small. unfold bytes in Hb. rewrite Forall_lookup in Hb. exact (Hb _ _ Hi).
Qed.
Lemma holds_kept m m' b tot r lo hi fr d l x k : owned m b tot r lo hi fr → wrote m m' r lo hi fr d l → (x + Z.of_nat (length k) ≤ d ∨ d + Z.of_nat (length l) ≤ x) →
  lo * 4096 ≤ x → x + Z.of_nat (length k) ≤ hi * 4096 → holds m b tot r x k → holds m' b tot r x k.
Proof.
  intros O W Hap Hx1 Hx2 H i v Hi. destruct (H i v Hi) as (f & U & Hb). set (y := x + Z.of_nat i) in *. pose proof (lookup_lt_Some _ _ _ Hi).
  pose proof (Z.div_mod y 4096 ltac:(lia)). pose proof (Z.mod_pos_bound y 4096 ltac:(lia)). assert (lo ≤ y / 4096 < hi) as Hq by lia.
  assert (f = fr (y / 4096)) as ->.
  { destruct (upage_frame _ _ _ _ _ _ U) as (E1 & _). destruct (upage_frame _ _ _ _ _ _ (ow_page _ _ _ _ _ _ _ O _ Hq)) as (E2 & _).
    rewrite (translate_page m r (y / 4096 * 4096) y) in E2 by (by rewrite Z.div_mul by lia). lia. }
  exists (fr (y / 4096)). split.
  - apply (upage_page _ _ _ _ (y / 4096 * 4096)); [by rewrite Z.div_mul by lia|]. by apply (owned_wrote _ _ _ _ _ _ _ _ _ _ _ _ _ W O).
  - change (see m fr y = v) in Hb. change (see m' fr y = v). rewrite (wt_bytes _ _ _ _ _ _ _ _ W) by lia. by rewrite zlookup_out by lia.
Qed.
Lemma holds_joined m b tot r x l k : holds m b tot r x (l ++ k) → holds m b tot r x l ∧ holds m b tot r (x + Z.of_nat (length l)) k.
Proof.
  intros H. split; intros i v Hi.
  - apply H. by apply lookup_app_l_Some.
  - replace (x + Z.of_nat (length l) + Z.of_nat i) with (x + Z.of_nat (length l + i)) by lia. apply H. rewrite lookup_app_r by lia. by replace (length l + i - length l)%nat with i by lia.
Qed.
Lemma holds_block m b tot r : ∀ args x, holds m b tot r x (block args) → Forall2 (λ p a, holds m b tot r p (a ++ [0])) (addrs x args) args.
Proof.
  induction args as [|a args IH]; intros x H; cbn [addrs]; constructor.
  - by apply (holds_joined m b tot r x (a ++ [0]) (block args)) in H as [? _].
  - apply IH. apply (holds_joined m b tot r x (a ++ [0]) (block args)) in H as [_ H]. rewrite length_app in H. cbn [length] in H.
    by replace (x + Z.of_nat (length a) + 1) with (x + Z.of_nat (length a + 1)) by lia.
Qed.
Lemma align16_spec x : 0 ≤ x → align16 x = x - x mod 16 ∧ align16 x mod 16 = 0.
Proof.
  intros Hx. unfold align16. change 15 with (Z.ones 4). rewrite Z.ldiff_ones_r, Z.shiftl_mul_pow2, Z.shiftr_div_pow2 by lia. change (2 ^ 4) with 16.
  split; [pose proof (Z.div_mod x 16 ltac:(lia)); lia|apply Z.mod_mul; lia].
Qed.
Lemma words_bytes l : bytes (words l).
Proof. unfold words. induction l as [|x l IH]; cbn [map concat]; [by constructor|]. unfold bytes in *. rewrite Forall_app. split; [apply le_bytes_bytes|done]. Qed.
Lemma block_bytes args : Forall (Forall (λ c, 0 < c < 256)) args → bytes (block args).
Proof.
  intros H. unfold block, bytes. induction H as [|a args Ha _ IH]; cbn [map concat]; [by constructor|]. rewrite !Forall_app. split; [split|done].
  - eapply Forall_impl; [exact Ha|]. intros c Hc. cbn in *. lia.
  - repeat constructor; lia.
Qed.
Lemma addrs_length : ∀ args x, length (addrs x args) = length args.
Proof. induction args as [|a args IH]; intros x; cbn; [done|]. by rewrite IH. Qed.

(** What the program finds at [sp]: the number of arguments, the array of pointers to
    them with a NULL behind it, and the strings. *)
Record initial_stack (m : Z → Z) (b : list Z) (tot r sp : Z) (args : list (list Z)) (ptrs : list Z) : Prop := {
  is_words : holds m b tot r sp (words ([Z.of_nat (length args)] ++ ptrs ++ [0]));
  is_strings : Forall2 (λ p a, holds m b tot r p (a ++ [0])) ptrs args;
  is_aligned : sp mod 16 = 8 * (Z.of_nat (length args) mod 2) }.

Lemma stack_region u u' b b' rs' pd r lo hi fr : region u u' b b' r lo hi fr → aspace u' b' rs' pd r → same_ctx u u' → stack_inv u b u' b' rs' pd r lo hi fr.
Proof. intros [P F I O G] A S. split; try done. split; [|done]. by rewrite (sc_total _ _ S). Qed.

Lemma exec_stack_run u b rs pd r fuel argv ptrs args : aspace u b rs pd r → ¬ few (mm_pmm u) b 32 →
  (∀ q, STACK_LO ≤ q < STACK_HI → present (translate (mm_word u) r (q * 4096)) = false) →
  argv ≠ 0 → user_args (mm_word u) b r (mm_cr3 u) argv ptrs args → (length args ≤ 64)%nat → (length args < fuel)%nat → Forall (λ a : list Z, (length a < fuel)%nat) args →
  Z.of_nat (length (block args)) + 8 * Z.of_nat (length args) + 32 ≤ 32768 →
  ∃ sp ptrs' u' b' rs', build_user_stack fuel pd argv STACK_TOP 32768 false u = Ret sp u' ∧ aspace u' b' rs' pd r ∧ same_ctx u u' ∧ grows (mm_word u) (mm_word u') b b' r ∧
    initial_stack (mm_word u') b' (total u) r sp args ptrs' ∧
    (∀ v, ¬ STACK_LO ≤ page_number v < STACK_HI → translate (mm_word u') r v = translate (mm_word u) r v).
Proof.
  intros A Hfew Habs Hargv U Hn Hfuel Hfu Hsize. unfold build_user_stack. set (n := length args) in *. pose proof (Forall2_length _ _ _ (ua_ptrs _ _ _ _ _ _ _ U)) as Hlen.
  destruct (stack_pages_run 8 u b rs pd r STACK_LO A) as (u1 & b1 & rs1 & fr & E1 & A1 & S1 & R1); [done|done|done|done|].
  change (STACK_LO + Z.of_nat 8) with STACK_HI in R1. rewrite (kbind_ret _ _ _ _ _ (E1 : stack_pages _ pd (STACK_TOP - 32768) u = _)).
  pose proof (stack_region _ _ _ _ _ _ _ _ _ _ R1 A1 S1) as I1.
  assert (mm_cr3 u1 = mm_cr3 u) as Ec by apply (sc_dirs _ _ S1).
  rewrite (kbind_ret _ _ u1 (Z.of_nat n) u1).
  2: { unfold get_argc. replace (argv =? 0) with false by (symmetry; by apply Z.eqb_neq). cbn [ptr_width]. subst n. rewrite <-Hlen.
       apply (count_args_run u1 b1 r argv ptrs args) with (n := length ptrs) (i := 0%nat); [rewrite Ec; eapply user_args_grows; [apply R1|done]|lia|done|lia]. }
  replace (64 <? Z.of_nat n) with false by (symmetry; apply Z.ltb_ge; lia). rewrite Nat2Z.id.
  destruct (push_strings_run u b b1 rs1 pd r STACK_LO STACK_HI fr ltac:(done) ltac:(done) fuel argv ptrs args U Hfu n u1 STACK_TOP [] I1) as (m2 & E2 & W2).
  { lia. }
  { unfold n. rewrite take_ge by lia. unfold STACK_TOP, STACK_LO. lia. }
  { done. }
  unfold n in E2, W2. rewrite take_ge in E2, W2 by lia. set (sp1 := STACK_TOP - Z.of_nat (length (block args))) in *. rewrite app_nil_r in E2.
  unfold n. rewrite (kbind_ret _ _ _ _ _ E2). pose proof (stack_wrote _ _ _ _ _ _ _ _ _ _ _ _ _ I1 W2) as I2.
  destruct (align16_spec sp1 ltac:(unfold sp1, STACK_TOP; lia)) as [Ea Em]. set (sp2 := align16 sp1) in *. pose proof (Z.mod_pos_bound sp1 16 ltac:(lia)).
  change (4294967296 <=? STACK_TOP) with true. cbn iota. set (ps := addrs sp1 args) in *. assert (length ps = length args) as Hps by apply addrs_length.
  destruct (push_words_run u b b1 rs1 pd r STACK_LO STACK_HI fr ltac:(done) ltac:(done) _ sp2 ps (Z.of_nat (length args)) I2 Em) as (m3 & E3 & W3);
    rewrite ?Hps; [unfold sp1, STACK_TOP, STACK_LO in *; lia|unfold sp1, STACK_TOP, STACK_HI in *; lia|]. rewrite Hps in *.
  rewrite E3. pose proof (stack_wrote _ _ _ _ _ _ _ _ _ _ _ _ _ I2 W3) as [A3 O3 G3 F3 S3]. cbn [mm_word with_mm_word] in *. set (sp3 := sp2 - 8 * (Z.of_nat (length args) + 2)) in *.
  exists sp3, ps, (with_mm_word m3 (with_mm_word m2 u1)), b1, rs1. split; [done|]. split; [done|]. split; [done|]. split; [done|].
  change (total (with_mm_word m3 (with_mm_word m2 u1))) with (total u1) in O3. rewrite (sc_total _ _ S1) in O3.
  assert (owned m2 b1 (total u) r STACK_LO STACK_HI fr) as O2 by (destruct I2 as [_ O2 _ _ _]; change (total (with_mm_word m2 u1)) with (total u1) in O2; by rewrite (sc_total _ _ S1) in O2).
  split; [split|].
  - eapply holds_wrote; [exact O3|exact W3| | |apply words_bytes]; rewrite ?words_length, ?length_app; cbn [length]; unfold sp3, sp1, STACK_TOP, STACK_LO, STACK_HI in *; lia.
  - apply holds_block. eapply holds_kept; [exact O2|exact W3| | | |]; rewrite ?words_length, ?length_app; cbn [length]; try (unfold sp3, sp1, STACK_TOP, STACK_LO, STACK_HI in *; lia).
    eapply holds_wrote; [exact O2|exact W2| | |]; try (unfold sp1, STACK_TOP, STACK_LO, STACK_HI in *; lia). apply block_bytes.
    apply Forall_lookup. intros i a Hi. destruct (Forall2_lookup_r _ _ _ _ _ (ua_ptrs _ _ _ _ _ _ _ U) Hi) as (p & _ & _ & _ & Hc). exact Hc.
  - unfold sp3. pose proof (Z.div_mod sp2 16 ltac:(lia)). pose proof (Z.div_mod (Z.of_nat (length args)) 2 ltac:(lia)). pose proof (Z.mod_pos_bound (Z.of_nat (length args)) 2 ltac:(lia)).
    symmetry. apply Z.mod_unique_pos with (sp2 / 16 - (Z.of_nat (length args) / 2 + 1) - Z.of_nat (length args) mod 2); lia.
  - intros v Hv. rewrite (wt_translate _ _ _ _ _ _ _ _ W3), (wt_translate _ _ _ _ _ _ _ _ W2). exact (rg_other _ _ _ _ _ _ _ _ R1 v Hv).
Qed.

(** C17. [build_user_stack] for a 64-bit program: the new address space has the stack pages,
    and at the stack pointer that is returned the program finds the number of arguments,
    the array of pointers to them with a NULL behind it, and each pointer leads to the
    caller's string with its NUL, whatever pages they cross; no other page is mapped
    differently and no page in use other than tables has changed.  The pointer is a
    multiple of 16 only for an even number of arguments.  There must be 33 free frames,
    and the strings and pointers must fit on the stack: the code does not check. *)
Theorem exec_stack_ok u b rs pd r fuel argv ptrs args : aspace u b rs pd r → ¬ few (mm_pmm u) b 32 →
  (∀ q, STACK_LO ≤ q < STACK_HI → present (translate (mm_word u) r (q * 4096)) = false) →
  argv ≠ 0 → user_args (mm_word u) b r (mm_cr3 u) argv ptrs args → (length args ≤ 64)%nat → (length args < fuel)%nat → Forall (λ a : list Z, (length a < fuel)%nat) args →
  Z.of_nat (length (block args)) + 8 * Z.of_nat (length args) + 32 ≤ 32768 →
  ∃ sp ptrs' u' b' rs', build_user_stack fuel pd argv STACK_TOP 32768 false u = Ret sp u' ∧ aspace u' b' rs' pd r ∧ same_ctx u u' ∧ grows (mm_word u) (mm_word u') b b' r ∧
    initial_stack (mm_word u') b' (total u) r sp args ptrs' ∧
    (∀ v, ¬ STACK_LO ≤ page_number v < STACK_HI → translate (mm_word u') r v = translate (mm_word u) r v).
Proof. apply exec_stack_run. Qed.

(** ** A caller with two arguments *)

Lemma not_few p b n k : NoDup k → Forall (λ f, 0 ≤ f ∧ limit_frame p ≤ f < 32 * (total_frames p / 32) ∧ bit b f = false) k → (n < length k)%nat → ¬ few p b n.
Proof.
  intros Hk Hf Hn (l & Hl & F). rewrite Forall_forall in Hf. assert (incl k l) as Hi.
  { intros f Hin%list_elem_of_In. destruct (Hf f Hin) as (? & ? & Hb). destruct (F f) as [?|?]; [done|done|congruence|by apply list_elem_of_In]. }
  apply NoDup_ListNoDup in Hk. pose proof (NoDup_incl_length Hk Hi). lia.
Qed.
Definition otherb (b tbls : list Z) (z : Z) : bool := (z mod 4096 =? 0) && bit b (z / 4096) && negb (existsb (Z.eqb z) tbls).
Definition readableb (m : Z → Z) (b tbls : list Z) (root v x : Z) : bool :=
  bool_decide (vread m root v = Some x) &&
  forallb (λ k, match node m root (take k (vpath v)) with Some z => otherb b tbls z | None => true end) [0; 1; 2; 3]%nat && otherb b tbls (PAGE_FRAME (translate m root v)).
Fixpoint string_atb (m : Z → Z) (b tbls : list Z) (root v : Z) (l : list Z) : bool :=
  match l with [] => true | x :: l => readableb m b tbls root v x && string_atb m b tbls root (v + 1) l end.
Lemma otherb_ok m b tbls r z : (∀ y, is_table m r y → y ∈ tbls) → otherb b tbls z = true → other_page m b r z.
Proof.
  intros Ht H. unfold otherb in H. rewrite !andb_true_iff in H. destruct H as [[Hz%Z.eqb_eq Hb] Hn%negb_true_iff]. split; [done|]. split; [done|]. intros Hx%Ht.
  assert (existsb (Z.eqb z) tbls = true) as E; [|congruence]. apply existsb_exists. exists z. split; [by apply list_elem_of_In|apply Z.eqb_refl].
Qed.
Lemma string_atb_ok m b tbls r root : (∀ y, is_table m r y → y ∈ tbls) → ∀ l v, string_atb m b tbls root v l = true → string_at m b r root v l.
Proof.
  intros Ht. induction l as [|x l IH]; intros v H [|i] y Hi; try done; cbn [string_atb] in H; apply andb_true_iff in H as [H1 H2].
  - injection Hi as <-. rewrite Z.add_0_r. unfold readableb in H1. rewrite !andb_true_iff in H1. destruct H1 as [[Hr%bool_decide_eq_true Hk] Hp].
    split; [done| |by eapply otherb_ok]. intros k z Hk3 Hz. rewrite forallb_forall in Hk. specialize (Hk k). rewrite Hz in Hk. eapply otherb_ok; [done|]. apply Hk.
    destruct k as [|[|[|[|k]]]]; cbn; tauto || lia.
  - replace (v + Z.of_nat (S i)) with (v + 1 + Z.of_nat i) by lia. by apply IH.
Qed.
Lemma empty_root m b t r d : page_ok b t r → (∀ i, idx i → present (m (entry_at r i)) = false) → tree m b t r d ∧ ∀ p x, path_ok d p → node m r p = Some x → x = r.
Proof.
  intros Hr He. assert (∀ p x, path_ok d p → node m r p = Some x → p = [] ∧ x = r) as Hn.
  { intros [|i p] x [Hp _]; cbn; [by intros [= <-]|]. inversion Hp; subst. by rewrite He. }
  split; [split|].
  - intros p q x Hp Hq E1 E2. by destruct (Hn p x Hp E1) as [-> _], (Hn q x Hq E2) as [-> _].
  - intros p x Hp E. by destruct (Hn p x Hp E) as [_ ->].
  - intros p x Hp E. by destruct (Hn p x Hp E).
Qed.

(** The caller's first table is frame 3, its page at 4 MiB is frame 11; the new address
    space is empty, in frame 2. *)
Definition caller_words : Z → Z :=
  set_bytes 45056 (le_bytes 8 4194328 ++ le_bytes 8 4194331 ++ le_bytes 8 0 ++ [108; 115; 0; 45; 108; 0])
    (set_word 24576 45063 (set_word 20496 24583 (set_word 16384 20487 (set_word 12288 16391 (λ _, 0))))).
Definition caller_pmm : pmm := mk_pmm (Some [2175; 0; 0]) (Some (replicate 64 0)) 64 8192 true.
Definition caller_mmu : mmu := mk_mmu caller_pmm caller_words {[ 4096 := 8192; 4100 := 12288 ]} 5000 4096 4100 12288.
Definition caller_args : list (list Z) := [[108; 115]; [45; 108]].
Lemma caller_pmm_ok : pmm_ok caller_pmm [2175; 0; 0] (replicate 64 0).
Proof.
  split; try done; cbn -[zlookup replicate].
  - repeat constructor; done.
  - by apply Forall_replicate.
  - intros f c Hf Hc Hp. unfold zlookup in Hc. destruct (f <? 0); [done|]. apply lookup_replicate in Hc as [-> _]. lia.
Qed.
Lemma caller_root i : idx i → present (caller_words (entry_at 8192 i)) = false.
Proof.
  intros Hi. assert (forallb (λ i, negb (present (caller_words (entry_at 8192 i)))) (seqZ 0 512) = true) as H by (vm_compute; reflexivity).
  rewrite forallb_forall in H. apply negb_true_iff, H, list_elem_of_In, elem_of_seqZ. unfold idx in Hi. lia.
Qed.
Lemma caller_empty : tree caller_words [2175; 0; 0] 64 8192 3 ∧ ∀ p x, path_ok 3 p → node caller_words 8192 p = Some x → x = 8192.
Proof. apply empty_root; [by vm_compute|exact caller_root]. Qed.
Lemma caller_absent v : translate caller_words 8192 v = 0.
Proof. unfold translate, leaf, vpath. cbn [node]. by rewrite caller_root by apply idx_land. Qed.
Lemma exec_stack_ok_witness : ∃ sp ptrs u' b', build_user_stack 10 4096 4194304 STACK_TOP 32768 false caller_mmu = Ret sp u' ∧ initial_stack (mm_word u') b' 64 8192 sp caller_args ptrs.
Proof.
  destruct caller_empty as [T Hn]. assert (∀ y, is_table caller_words 8192 y → y ∈ [8192]) as Ht by (intros y (p & Hp & Hx); rewrite (Hn p y Hp Hx); apply list_elem_of_here).
  destruct (exec_stack_ok caller_mmu [2175; 0; 0] (replicate 64 0) 4096 8192 10 4194304 [4194328; 4194331] caller_args) as (sp & ps & u' & b' & rs' & E & _ & _ & _ & S & _).
  - split; [exact caller_pmm_ok|reflexivity|exact T].
  - apply (not_few _ _ _ (seqZ 12 40)); [apply NoDup_seqZ| |vm_compute; lia]. apply (bool_decide_unpack _). vm_compute. exact I.
  - intros q Hq. change (mm_word caller_mmu) with caller_words. rewrite caller_absent. reflexivity.
  - discriminate.
  - split.
    + assert (∀ p a, string_atb caller_words [2175; 0; 0] [8192] 12288 p (a ++ [0]) = true → bool_decide (0 < p < 18446744073709551616 ∧ Forall (λ c, 0 < c < 256) a) = true →
        0 < p < 18446744073709551616 ∧ string_at caller_words [2175; 0; 0] 8192 12288 p (a ++ [0]) ∧ Forall (λ c, 0 < c < 256) a) as Hs.
      { intros p a H1 H2%bool_decide_eq_true. split; [apply H2|]. split; [|apply H2]. exact (string_atb_ok _ _ _ _ _ Ht _ _ H1). }
      constructor; [apply Hs; vm_compute; reflexivity|]. constructor; [apply Hs; vm_compute; reflexivity|constructor].
    + intros [|[|[|i]]] p Hi; try discriminate Hi; injection Hi as <-; apply (string_atb_ok _ _ [8192]); try exact Ht; vm_compute; reflexivity.
  - vm_compute. lia.
  - vm_compute. lia.
  - repeat constructor; vm_compute; lia.
  - vm_compute. discriminate.
  - exists sp, ps, u', b'. split; [exact E|exact S].
Defined.
