(* ===== verification/Uabi.v ===== *)
(** * Services for user programs

    Models [kernel/core/uabi_helpers.c], the task iterator and the debug flag of
    [kabi_bridge.c], and the signal frames of [kernel/core/task.c]
    ([task_check_pending_signals]) with the UABI_SIGACTION and UABI_SIGRETURN
    branches of the system-call handler.

    User memory is the bytes of the current address space ([k_pdirs] at
    [k_directory]); an access to a byte that is not mapped is a [Fault].  Block
    devices, mounting and program start are behind the class [Services]; they
    are modelled in [Block], [FatVfs] and [Exec]. *)

From stdpp Require Import base numbers list gmap strings.
From Stdlib Require Import ZArith Lia.
From S2P Require Import Prelude CString Pmm Kernel Pipe Path Vfs FdInv Sleep Sched Task Signal Block.

#[local] Open Scope Z_scope.

Class Services (D : Type) := {
  svc_execve : list Z → Z → Z → kM (kst D) Z;
  svc_dev_count : kM (kst D) Z;
  svc_dev : Z → kM (kst D) (option kabi_block_device_t);
  svc_mount : Z → list Z → kM (kst D) Z }.

(** The kernel core with the frame allocator and [kabi_debug_mode] *)
Record ksys (D : Type) := Ksys { s_k : kst D; s_pmm : pmm; s_debug : Z }.
Arguments Ksys {D} s_k s_pmm s_debug.
Arguments s_k {D} k.
Arguments s_pmm {D} k.
Arguments s_debug {D} k.

Section ops.
Context {D : Type} {Drv : FsDriver D} {Svc : Services D}.
#[local] Open Scope kernel_scope.

(** ** User memory *)

Definition user_space : kM (kst D) (gmap Z Z) := kget_opt (λ s, k_pdirs s !! k_directory s).

Definition uload (a : Z) : kM (kst D) Z :=
  let* m := user_space in kget_opt (λ _, m !! a).

Definition ustore (a v : Z) : kM (kst D) unit :=
  let* m := user_space in
  match m !! a with
  | Some _ => kmodify (λ s, with_k_pdirs (<[k_directory s := <[a := u8 v]> m]> (k_pdirs s)) s)
  | None => kfault
  end.

Fixpoint ustore_bytes (a : Z) (l : list Z) : kM (kst D) unit :=
  match l with [] => kret tt | v :: l => ustore a v ;;; ustore_bytes (a + 1) l end.

(** The bytes of a little-endian field of [n] bytes *)
Fixpoint field_bytes (n : nat) (v : Z) : list Z :=
  match n with O => [] | S n => u8 v :: field_bytes n (v / 256) end.
Definition ustore_int (n : nat) (a v : Z) : kM (kst D) unit := ustore_bytes a (field_bytes n v).

(** The string at [a], up to its NUL *)
Fixpoint ustring_loop (fuel : nat) (a : Z) : kM (kst D) (list Z) :=
  match fuel with
  | O => λ _, NoFuel
  | S fuel =>
      let* c := uload a in
      if c =? 0 then kret [] else let* l := ustring_loop fuel (a + 1) in kret (c :: l)
  end.
Definition ustring (a : Z) : kM (kst D) (list Z) :=
  let* m := user_space in ustring_loop (S (size m)) a.

(** [n] bytes from [a] *)
Fixpoint uload_bytes (n : nat) (a : Z) : kM (kst D) (list Z) :=
  match n with
  | O => kret []
  | S n => let* c := uload a in let* l := uload_bytes n (a + 1) in kret (c :: l)
  end.

(** ** [sys_readdir] *)

(** A name in an array of 128 bytes that was cleared before *)
Definition name_field (name : list Z) : option (list Z) :=
  strcpy (replicate 128 0) (name ++ [0]).

(** [uabi_dirent_v2_t] (152 bytes) and [uabi_dirent_t] (140 bytes), padding zero *)
Definition dirent_bytes (is64 : bool) (name : list Z) (ino size type attr : Z) : option (list Z) :=
  nm ← name_field name;
  Some (if is64 then nm ++ field_bytes 8 ino ++ field_bytes 8 size ++ [u8 type; u8 attr] ++ replicate 6 0
        else nm ++ field_bytes 4 ino ++ field_bytes 4 size ++ [u8 type; u8 attr] ++ replicate 2 0).
Definition dirent_stride (is64 : bool) : Z := if is64 then 152 else 140.

Definition upper (c : Z) : Z := if (97 <=? c) && (c <=? 122) then c - 32 else c.

(** The comparison of names without regard to case, [a] in user memory *)
Fixpoint same_name (a : Z) (b : list Z) : kM (kst D) bool :=
  let* ca := uload a in
  match b with
  | [] => kret (ca =? 0)
  | cb :: b => if ca =? 0 then kret false
               else if upper ca =? upper cb then same_name (a + 1) b else kret false
  end.

(** [for (d = 0; d < count; d++)]: is the name among the entries already there? *)
Fixpoint listed (n : nat) (base stride : Z) (name : list Z) : kM (kst D) bool :=
  match n with
  | O => kret false
  | S n => let* e := same_name base name in
           if e then kret true else listed n (base + stride) stride name
  end.

(** The entries of the directory itself *)
Fixpoint readdir_loop (fuel : nat) (node base : Z) (is64 : bool) (count i max : Z) : kM (kst D) Z :=
  match fuel with
  | O => λ _, NoFuel
  | S fuel =>
      if count <? max then
        let* ent := readdir_fs node i in
        match ent with
        | None => kret count
        | Some e =>
            let* b := kget_opt (λ _, dirent_bytes is64 (de_name e) (de_ino e) (de_size e) (de_type e) (de_attr e)) in
            ustore_bytes (base + u32 (count * dirent_stride is64)) b ;;;
            readdir_loop fuel node base is64 (count + 1) (i + 1) max
        end
      else kret count
  end.

(** The entries for mount points, when the root is listed *)
Fixpoint mounts_loop (n : nat) (m : Z) (base : Z) (is64 : bool) (count max : Z) : kM (kst D) Z :=
  match n with
  | O => kret count
  | S n =>
      if count <? max then
        let* mp := vfs_get_mount_path m in
        match mp with
        | None | Some [] | Some [_] => mounts_loop n (m + 1) base is64 count max
        | Some (_ :: name) =>
            let* dup := listed (Z.to_nat count) base (dirent_stride is64) name in
            if dup then mounts_loop n (m + 1) base is64 count max
            else
              let* b := kget_opt (λ _, dirent_bytes is64 (map upper (take 127 name)) (900 + m) 0 2 0) in
              ustore_bytes (base + u32 (count * dirent_stride is64)) b ;;;
              mounts_loop n (m + 1) base is64 (count + 1) max
        end
      else kret count
  end.

Definition sys_readdir (path : list Z) (entries max_entries : Z) (is64 : bool) : kM (kst D) Z :=
  if (entries =? 0) || (max_entries <=? 0) then kret (-1)
  else
    let* node := vfs_resolve_path path in
    if node =? 0 then kret (-1)
    else
      let* count := readdir_loop (S (Z.to_nat max_entries)) node entries is64 0 0 max_entries in
      let* clean := canonicalize_into 512 path in
      let* count := (if bool_decide (clean = [slash]) then
                       let* nm := vfs_get_mount_count in
                       mounts_loop (Z.to_nat nm) 0 entries is64 count max_entries
                     else kret count) in
      free_transient node ;;;
      kret count.

(** ** Working directory and status *)

Definition sys_getcwd (buf size : Z) : kM (kst D) Z :=
  let* c := current_task in
  if (buf =? 0) || (size =? 0) || (c =? 0) then kret (-1)
  else
    let* t := get_task c in
    if size <=? Z.of_nat (length (t_cwd t)) then kret (-1)
    else ustore_bytes buf (t_cwd t ++ [0]) ;;; kret 0.

(** The path is put together in [full_path[512]]. *)
Definition sys_chdir (path : list Z) : kM (kst D) Z :=
  let* c := current_task in
  if c =? 0 then kret (-1)
  else
    let* t := get_task c in
    let full_path :=
      match path with
      | ch :: _ => if ch =? slash then path
                   else t_cwd t ++ (if bool_decide (t_cwd t = [slash]) then [] else [slash]) ++ path
      | [] => t_cwd t ++ (if bool_decide (t_cwd t = [slash]) then [] else [slash])
      end in
    if (512 <=? length full_path)%nat then kfault
    else
      let* node := vfs_resolve_path full_path in
      if node =? 0 then kret (-1)
      else
        let* clean := canonicalize_into 512 full_path in
        upd_task c (with_t_cwd clean) ;;;
        free_transient node ;;;
        kret 0.

Definition sys_stat (path : list Z) (buf : Z) (is64 : bool) : kM (kst D) Z :=
  if buf =? 0 then kret (-1)
  else
    let* node := vfs_resolve_path path in
    if node =? 0 then kret (-1)
    else
      let* nd := get_node node in
      let n := if is64 then 8%nat else 4%nat in
      ustore_int n buf (n_length nd) ;;;
      ustore_int n (buf + Z.of_nat n) (n_inode nd) ;;;
      ustore (buf + 2 * Z.of_nat n) (if has (n_flags nd) FS_DIRECTORY then 2 else 1) ;;;
      free_transient node ;;;
      kret 0.

(** ** The task list *)

(** [kabi_task_info_t], the fields that are used *)
Record task_info := mk_info { i_id : Z; i_parent : Z; i_state : Z; i_eip : Z; i_esp : Z; i_ticks : Z }.

(** [kabi_task_next]: the iterator is [(current, start, first)]; the information
    of the last task before a broken link is not delivered. *)
Definition kabi_task_next (it : Z * Z * bool) : kM (kst D) (option (task_info * (Z * Z * bool))) :=
  let '(current, start, first) := it in
  if current =? 0 then kret None
  else if negb first && (current =? start) then kret None
  else
    let* t := get_task current in
    let* parent_id := (if t_parent t =? 0 then kret 0 else let* p := get_task (t_parent t) in kret (t_id p)) in
    if t_next t =? 0 then kret None
    else kret (Some (mk_info (t_id t) parent_id (u8 (t_state t)) (t_user_eip t) (t_user_esp t) (t_ticks t),
                     (t_next t, start, false))).

(** [uabi_proc_info_v2_t] (40 bytes) and [uabi_proc_info_t] (24 bytes) *)
Definition proc_bytes (is64 : bool) (i : task_info) : list Z :=
  field_bytes 4 (i_id i) ++ field_bytes 4 (i_parent i) ++ field_bytes 4 (i_state i) ++
  if is64 then replicate 4 0 ++ field_bytes 8 (i_eip i) ++ field_bytes 8 (i_esp i) ++ field_bytes 8 (i_ticks i)
  else field_bytes 4 (i_eip i) ++ field_bytes 4 (i_esp i) ++ field_bytes 4 (i_ticks i).
Definition proc_stride (is64 : bool) : Z := if is64 then 40 else 24.

Fixpoint ps_loop (fuel : nat) (it : Z * Z * bool) (base : Z) (is64 : bool) (count max : Z) : kM (kst D) Z :=
  match fuel with
  | O => λ _, NoFuel
  | S fuel =>
      if count <? max then
        let* o := kabi_task_next it in
        match o with
        | None => kret count
        | Some (i, it) =>
            ustore_bytes (base + u32 (count * proc_stride is64)) (proc_bytes is64 i) ;;;
            ps_loop fuel it base is64 (count + 1) max
        end
      else kret count
  end.

Definition sys_ps (procs max_procs : Z) (is64 : bool) : kM (kst D) Z :=
  if (procs =? 0) || (max_procs <=? 0) then kret (-1)
  else
    let* s := kget in
    let h := k_ready_queue s in
    if h =? 0 then kret 0
    else ps_loop (S (Z.to_nat max_procs)) (h, h, true) procs is64 0 max_procs.

(** ** Block devices *)

(** [for (i = 0; i < 31 && name[i]; i++) { uname[i] = name[i]; uname[i+1] = 0; }] *)
Fixpoint dev_name (n : nat) (a : Z) (name : list Z) : kM (kst D) unit :=
  match n, name with
  | S n, c :: name => ustore a c ;;; ustore (a + 1) 0 ;;; dev_name n (a + 1) name
  | _, _ => kret tt
  end.

Definition sys_devinfo (index buf : Z) (is64 : bool) : kM (kst D) Z :=
  if buf =? 0 then kret (-1)
  else
    let* dev := svc_dev index in
    match dev with
    | None => kret (-2)
    | Some d =>
        dev_name 31 buf (bd_name d) ;;;
        let n := if is64 then 8%nat else 4%nat in
        ustore_int n (buf + 32) (bd_size d) ;;;
        ustore_int 4 (buf + 32 + Z.of_nat n) 512 ;;;
        ustore_int 4 (buf + 36 + Z.of_nat n) (if bd_is_partition d then 1 else 0) ;;;
        ustore_int 4 (buf + 40 + Z.of_nat n) (bd_parent_dev d) ;;;
        kret 0
    end.

(** ** Signal frames *)

(** [mov eax, 50; int 0x80] *)
Definition trampoline_code : list Z := [184; 50; 0; 0; 0; 205; 128].

(** The frame on the user stack: the code, then, aligned, the signal number and
    the address of the code below it; the result is the new stack pointer. *)
Definition signal_frame (is_32bit : bool) (esp sig : Z) : kM (kst D) Z :=
  let u := u64 (esp - 7) in
  ustore_bytes u trampoline_code ;;;
  let trampoline_ptr := u in
  let w := if is_32bit then 4 else 8 in
  let n := Z.to_nat w in
  let u := Z.ldiff u (w - 1) in
  let u := u64 (u - w) in
  ustore_int n u sig ;;;
  let u := u64 (u - w) in
  ustore_int n u trampoline_ptr ;;;
  kret u.

Definition task_check_pending_signals (regs : Z) : kM (kst D) unit :=
  let* c := current_task in
  if c =? 0 then kret tt
  else
    let* t := get_task c in
    let* cs := get_word (regs + REG_CS) in
    if Z.land cs 3 =? 0 then kret tt
    else if negb (t_in_signal t =? 0) then kret tt
    else if t_sigterm_handler t =? 0 then kret tt
    else
      let sig := if has (t_pending_signals t) (SIG_BIT SIGTERM) then SIGTERM
                 else if has (t_pending_signals t) (SIG_BIT SIGINT) then SIGINT else 0 in
      if sig =? 0 then kret tt
      else
        let* rip := get_word (regs + REG_RIP) in
        let* rsp := get_word (regs + REG_RSP) in
        upd_task c (λ t, with_t_saved_esp rsp (with_t_saved_eip rip
          (with_t_pending_signals (Z.ldiff (t_pending_signals t) (SIG_BIT sig)) t))) ;;;
        let is_32bit := Z.land cs 65535 =? 43 in
        let* u := signal_frame is_32bit rsp sig in
        put_word (regs + REG_RIP) (if is_32bit then u32 (t_sigterm_handler t) else t_sigterm_handler t) ;;;
        put_word (regs + REG_RSP) (if is_32bit then u32 u else u) ;;;
        upd_task c (with_t_in_signal 1).

(** UABI_SIGACTION: the handler is cut to 32 bits. *)
Definition sys_sigaction (sig handler : Z) : kM (kst D) Z :=
  let sig := s32 sig in
  if (sig =? SIGKILL) || (sig =? SIGCHLD) then kret (-1)
  else
    let* c := current_task in
    upd_task c (with_t_sigterm_handler (u32 handler)) ;;;
    kret 0.

(** UABI_SIGRETURN *)
Definition sys_sigreturn (regs : Z) : kM (kst D) Z :=
  let* c := current_task in
  let* t := get_task c in
  (if negb (t_in_signal t =? 0) then
     put_word (regs + REG_RIP) (t_saved_eip t) ;;;
     put_word (regs + REG_RSP) (t_saved_esp t) ;;;
     upd_task c (with_t_in_signal 0)
   else kret tt) ;;;
  kret 0.

(** ** Memory statistics and the debug flag *)

Definition core {A} (m : kM (kst D) A) : kM (ksys D) A := λ s,
  match m (s_k s) with
  | Ret a k => Ret a (Ksys k (s_pmm s) (s_debug s))
  | Hang k => Hang (Ksys k (s_pmm s) (s_debug s))
  | Panic k => Panic (Ksys k (s_pmm s) (s_debug s))
  | Fault => Fault
  | NoFuel => NoFuel
  end.
Definition frames {A} (m : kM pmm A) : kM (ksys D) A := λ s,
  match m (s_pmm s) with
  | Ret a p => Ret a (Ksys (s_k s) p (s_debug s))
  | Hang p => Hang (Ksys (s_k s) p (s_debug s))
  | Panic p => Panic (Ksys (s_k s) p (s_debug s))
  | Fault => Fault
  | NoFuel => NoFuel
  end.

(** Before the bitmap exists the structure would stay uninitialised: a [Fault]. *)
Definition sys_memstat (buf : Z) (is64 : bool) : kM (ksys D) Z :=
  if buf =? 0 then kret (-1)
  else
    let* o := frames get_pmm_stats in
    match o with
    | None => kfault
    | Some (used, total, free) =>
        let n := if is64 then 8%nat else 4%nat in
        core (ustore_int n buf total ;;;
              ustore_int n (buf + Z.of_nat n) used ;;;
              ustore_int n (buf + 2 * Z.of_nat n) free) ;;;
        kret 0
    end.

Definition kabi_debug_enabled : kM (ksys D) Z := λ s, Ret (s_debug s) s.
Definition kabi_set_debug (enabled : Z) : kM (ksys D) unit := kmodify (λ s, Ksys (s_k s) (s_pmm s) enabled).

End ops.
