(* ===== verification/SigFrame.v ===== *)
(** * Signal delivery to user handlers

    [task_check_pending_signals] interrupts a program by a frame on its stack,
    and UABI_SIGRETURN resumes it: the interrupted instruction and stack pointers
    come back, whatever the handler did in between. *)

From stdpp Require Import base numbers list gmap strings.
From Stdlib Require Import ZArith Lia.
From S2P Require Import Prelude CString Pmm Kernel Pipe Path Vfs FdInv Sleep Sched Task Signal Block Uabi.

#[local] Open Scope Z_scope.

(** The bytes [l] are at [a]. *)
Definition stored (m : gmap Z Z) (a : Z) (l : list Z) : Prop :=
  ∀ i, (i < length l)%nat → m !! (a + Z.of_nat i) = l !! i.
Definition mapped_at (m : gmap Z Z) (a n : Z) : Prop := ∀ x, a ≤ x < a + n → is_Some (m !! x).

Lemma field_bytes_length n v : length (field_bytes n v) = n.
Proof. revert v. induction n as [|n IH]; intros v; cbn; [done|by rewrite IH]. Qed.
Lemma field_bytes_u8 n v : Forall (λ b, u8 b = b) (field_bytes n v).
Proof. revert v. induction n as [|n IH]; intros v; cbn; constructor; [|done]. apply u8_small, u8_range. Qed.

(** A little-endian field holds its value. *)
Fixpoint field_value (l : list Z) : Z := match l with [] => 0 | b :: l => b + 256 * field_value l end.
Lemma field_value_bytes n v : field_value (field_bytes n v) = v mod 256 ^ Z.of_nat n.
Proof.
  revert v. induction n as [|n IH]; intros v; cbn [field_bytes field_value]; [by rewrite Z.mod_1_r|].
  rewrite IH, Nat2Z.inj_succ, Z.pow_succ_r by lia. unfold u8. rewrite Z.rem_mul_r by lia. done.
Qed.

Section sig.
Context {D : Type}.
#[local] Open Scope kernel_scope.
Implicit Types (k : kst D).

Definition with_user k (m : gmap Z Z) : kst D := with_k_pdirs (<[k_directory k := m]> (k_pdirs k)) k.

Lemma ustore_run k m a v : k_pdirs k !! k_directory k = Some m → is_Some (m !! a) → ustore a v k = Ret tt (with_user k (<[a := u8 v]> m)).
Proof.
  intros E [w Ew]. unfold ustore. rewrite (kbind_ret user_space _ k m k) by (unfold user_space, kget_opt; by rewrite E). by rewrite Ew.
Qed.

Lemma with_user_twice k m m' : with_user (with_user k m) m' = with_user k m'.
Proof. unfold with_user. destruct k; cbn. by rewrite insert_insert_eq. Qed.

Lemma ustore_bytes_run l : ∀ a k m, k_pdirs k !! k_directory k = Some m → mapped_at m a (Z.of_nat (length l)) → Forall (λ b, u8 b = b) l →
  ∃ m', ustore_bytes a l k = Ret tt (with_user k m') ∧ stored m' a l ∧
    (∀ x, x < a ∨ a + Z.of_nat (length l) ≤ x → m' !! x = m !! x) ∧ (∀ x, is_Some (m' !! x) ↔ is_Some (m !! x)).
Proof.
  induction l as [|v l IH]; intros a k m E M F.
  { exists m. split; [unfold with_user; rewrite insert_id by done; by destruct k|]. split; [intros i Hi; cbn in Hi; lia|done]. }
  cbn [length ustore_bytes] in *. apply Forall_cons in F as [Hv F].
  rewrite (kbind_ret _ _ _ _ _ (ustore_run k m a v E (M a ltac:(lia)))). rewrite Hv.
  destruct (IH (a + 1) (with_user k (<[a := v]> m)) (<[a := v]> m)) as (m' & E' & S' & O' & D').
  { unfold with_user. destruct k; cbn. by rewrite lookup_insert_eq. }
  { intros x Hx. destruct (decide (x = a)) as [->|]; [rewrite lookup_insert_eq; eauto|rewrite lookup_insert_ne by done; apply M; lia]. } { done. }
  exists m'. split; [by rewrite E', with_user_twice|]. split; [|split].
  - intros [|i] Hi; cbn [length lookup list_lookup] in *.
    + rewrite O' by lia. rewrite Z.add_0_r. apply lookup_insert_eq.
    + transitivity (m' !! (a + 1 + Z.of_nat i)); [f_equal; lia|]. apply S'. lia.
  - intros x Hx. rewrite O' by lia. apply lookup_insert_ne. lia.
  - intros x. rewrite D'. destruct (decide (x = a)) as [->|]; [|by rewrite lookup_insert_ne]. rewrite lookup_insert_eq.
    split; [intros _; apply M; lia|eauto].
Qed.

(** The frame: where its parts are *)
Definition word_size (is_32bit : bool) : Z := if is_32bit then 4 else 8.
Definition code_at (rsp : Z) : Z := rsp - 7.
Definition frame_at (w rsp : Z) : Z := Z.ldiff (code_at rsp) (w - 1) - 2 * w.

Lemma align_down w x : w = 4 ∨ w = 8 → 0 ≤ x → x - w < Z.ldiff x (w - 1) ≤ x.
Proof.
  intros Hw Hx. assert (∃ n, 0 ≤ n ∧ w = 2 ^ n) as (n & Hn & E) by (destruct Hw as [-> | ->]; [by exists 2|by exists 3]).
  rewrite E. replace (2 ^ n - 1) with (Z.ones n) by (rewrite Z.ones_equiv; lia). rewrite Z.ldiff_ones_r by done.
  rewrite Z.shiftl_mul_pow2, Z.shiftr_div_pow2 by done. pose proof (Z.div_mod x (2 ^ n) ltac:(lia)). pose proof (Z.mod_pos_bound x (2 ^ n) ltac:(lia)). lia.
Qed.

Lemma signal_frame_run b k m rsp sig : let w := word_size b in
  k_pdirs k !! k_directory k = Some m → 64 ≤ rsp < 2 ^ 64 → mapped_at m (frame_at w rsp) (rsp - frame_at w rsp) →
  ∃ m', signal_frame b rsp sig k = Ret (frame_at w rsp) (with_user k m') ∧
    stored m' (code_at rsp) trampoline_code ∧ stored m' (frame_at w rsp) (field_bytes (Z.to_nat w) (code_at rsp)) ∧
    stored m' (frame_at w rsp + w) (field_bytes (Z.to_nat w) sig) ∧
    (∀ x, x < frame_at w rsp ∨ rsp ≤ x → m' !! x = m !! x).
Proof.
  intros w E Hr M. assert (w = 4 ∨ w = 8) as Hw by (unfold w, word_size; destruct b; auto).
  assert (∀ x, 0 ≤ x < 2 ^ 64 → u64 x = x) as Hu by (intros; by apply u64_small).
  pose proof (align_down w (code_at rsp) Hw ltac:(unfold code_at; lia)) as HA. unfold frame_at in *. set (al := Z.ldiff (code_at rsp) (w - 1)) in *.
  assert (code_at rsp = rsp - 7) as Ec by done.
  unfold signal_frame. rewrite Hu by lia. rewrite <-Ec. fold (word_size b). fold w.
  destruct (ustore_bytes_run trampoline_code (code_at rsp) k m E) as (m1 & E1 & S1 & O1 & D1).
  { intros x Hx. apply M. cbn in Hx. lia. } { repeat constructor. }
  rewrite (kbind_ret _ _ _ _ _ E1). cbn zeta. fold al. rewrite (Hu (al - w)), (Hu (al - w - w)) by lia.
  assert (Z.of_nat (Z.to_nat w) = w) as Ew by lia.
  unfold ustore_int at 1. destruct (ustore_bytes_run (field_bytes (Z.to_nat w) sig) (al - w) (with_user k m1) m1) as (m2 & E2 & S2 & O2 & D2).
  { unfold with_user. destruct k; cbn. by rewrite lookup_insert_eq. } { intros x Hx. rewrite D1. apply M. rewrite field_bytes_length in Hx. lia. } { apply field_bytes_u8. }
  rewrite with_user_twice in E2. rewrite (kbind_ret _ _ _ _ _ E2).
  unfold ustore_int at 1. destruct (ustore_bytes_run (field_bytes (Z.to_nat w) (code_at rsp)) (al - w - w) (with_user k m2) m2) as (m3 & E3 & S3 & O3 & D3).
  { unfold with_user. destruct k; cbn. by rewrite lookup_insert_eq. } { intros x Hx. rewrite D2, D1. apply M. rewrite field_bytes_length in Hx. lia. } { apply field_bytes_u8. }
  rewrite with_user_twice in E3. rewrite (kbind_ret _ _ _ _ _ E3). rewrite !field_bytes_length in *. cbn [length trampoline_code] in O1.
  exists m3. replace (al - w - w) with (al - 2 * w) in * by lia. replace (al - 2 * w + w) with (al - w) by lia.
  split; [done|]. split; [|split; [done|split]].
  - intros i Hi. cbn in Hi. rewrite O3, O2 by lia. by apply S1.
  - intros i Hi. rewrite field_bytes_length in Hi. rewrite O3 by lia. apply S2. by rewrite field_bytes_length.
  - intros x Hx. rewrite O3, O2, O1 by (cbn [length] in *; lia). done.
Qed.

(** The signal that is dispatched: SIGTERM before SIGINT *)
Definition next_signal (t : task_t) : Z :=
  if has (t_pending_signals t) (SIG_BIT SIGTERM) then SIGTERM
  else if has (t_pending_signals t) (SIG_BIT SIGINT) then SIGINT else 0.

(** A program about to be resumed at [rip] with stack pointer [rsp] while a
    signal with a handler is pending *)
Record interruptible k (regs cs rip rsp : Z) (t : task_t) (m : gmap Z Z) : Prop := {
  in_cur : k_current k ≠ 0;
  in_task : k_tasks k !! k_current k = Some t;
  in_space : k_pdirs k !! k_directory k = Some m;
  in_cs : k_mem k !! (regs + REG_CS) = Some cs;
  in_rip : k_mem k !! (regs + REG_RIP) = Some rip;
  in_rsp : k_mem k !! (regs + REG_RSP) = Some rsp;
  in_user : Z.land cs 3 ≠ 0;
  in_free : t_in_signal t = 0;
  in_handler : 0 < t_sigterm_handler t < 2 ^ 32;
  in_pending : next_signal t ≠ 0;
  in_range : 64 ≤ rsp < if Z.land cs 65535 =? 43 then 2 ^ 32 else 2 ^ 64;
  in_stack : let w := word_size (Z.land cs 65535 =? 43) in mapped_at m (frame_at w rsp) (rsp - frame_at w rsp) }.

Definition interrupted (t : task_t) (rip rsp : Z) : task_t :=
  with_t_in_signal 1 (with_t_saved_esp rsp (with_t_saved_eip rip
    (with_t_pending_signals (Z.ldiff (t_pending_signals t) (SIG_BIT (next_signal t))) t))).

Lemma frame_word_run k a v w : k_mem k !! a = Some w → put_word a v k = Ret tt (with_k_mem (<[a := v]> (k_mem k)) k).
Proof. intros E. unfold put_word. by rewrite (kbind_ret (get_word a) _ k w k) by (unfold get_word, kget_opt; by rewrite E). Qed.

Lemma frame_task_run k c f t : k_tasks k !! c = Some t → upd_task c f k = Ret tt (with_k_tasks (<[c := f t]> (k_tasks k)) k).
Proof. intros E. unfold upd_task. by rewrite (kbind_ret (get_task c) _ k t k) by (unfold get_task, kget_opt; by rewrite E). Qed.

(** The state in which the handler starts *)
Definition in_handler_state k (regs rip rsp u : Z) (t : task_t) (m' : gmap Z Z) : kst D :=
  with_k_tasks (<[k_current k := interrupted t rip rsp]> (k_tasks k))
    (with_k_mem (<[regs + REG_RSP := u]> (<[regs + REG_RIP := t_sigterm_handler t]> (k_mem k)))
      (with_k_pdirs (<[k_directory k := m']> (k_pdirs k)) k)).

Lemma frame_below w rsp : w = 4 ∨ w = 8 → 64 ≤ rsp → 0 ≤ frame_at w rsp < rsp.
Proof. intros Hw Hr. pose proof (align_down w (code_at rsp) Hw ltac:(unfold code_at; lia)). unfold frame_at, code_at in *. lia. Qed.

Lemma dispatch_signal_run k regs cs rip rsp t m : interruptible k regs cs rip rsp t m →
  let w := word_size (Z.land cs 65535 =? 43) in
  ∃ m', task_check_pending_signals regs k = Ret tt (in_handler_state k regs rip rsp (frame_at w rsp) t m') ∧
    stored m' (code_at rsp) trampoline_code ∧ stored m' (frame_at w rsp) (field_bytes (Z.to_nat w) (code_at rsp)) ∧
    stored m' (frame_at w rsp + w) (field_bytes (Z.to_nat w) (next_signal t)) ∧
    (∀ x, x < frame_at w rsp ∨ rsp ≤ x → m' !! x = m !! x).
Proof.
  intros [Hc Ht Hm Hcs Hip Hsp Hu Hf Hh Hp Hr Hs] w. unfold task_check_pending_signals.
  rewrite (kbind_ret current_task _ k (k_current k) k eq_refl). replace (k_current k =? 0) with false by (symmetry; by apply Z.eqb_neq).
  rewrite (kbind_ret (get_task (k_current k)) _ k t k) by (unfold get_task, kget_opt; by rewrite Ht).
  rewrite (kbind_ret (get_word (regs + REG_CS)) _ k cs k) by (unfold get_word, kget_opt; by rewrite Hcs).
  replace (Z.land cs 3 =? 0) with false by (symmetry; by apply Z.eqb_neq). rewrite Hf. change (negb (0 =? 0)) with false. cbn iota.
  replace (t_sigterm_handler t =? 0) with false by (symmetry; apply Z.eqb_neq; lia). fold (next_signal t). replace (next_signal t =? 0) with false by (symmetry; by apply Z.eqb_neq).
  rewrite (kbind_ret (get_word (regs + REG_RIP)) _ k rip k) by (unfold get_word, kget_opt; by rewrite Hip).
  rewrite (kbind_ret (get_word (regs + REG_RSP)) _ k rsp k) by (unfold get_word, kget_opt; by rewrite Hsp).
  rewrite (kbind_ret _ _ _ _ _ (frame_task_run k (k_current k) _ t Ht)).
  set (b := Z.land cs 65535 =? 43) in *. set (k1 := with_k_tasks _ k).
  destruct (signal_frame_run b k1 m rsp (next_signal t)) as (m' & E & S1 & S2 & S3 & S4); [exact Hm|destruct b; lia|exact Hs|].
  exists m'. split; [|done]. cbn zeta. rewrite (kbind_ret _ _ _ _ _ E). fold w.
  assert ((if b then u32 (t_sigterm_handler t) else t_sigterm_handler t) = t_sigterm_handler t) as -> by (destruct b; [rewrite u32_small by lia|]; done).
  pose proof (frame_below w rsp ltac:(unfold w, word_size; destruct b; auto) ltac:(destruct b; lia)) as HB.
  assert ((if b then u32 (frame_at w rsp) else frame_at w rsp) = frame_at w rsp) as -> by (destruct b; [rewrite u32_small by lia|]; done).
  rewrite (kbind_ret _ _ _ _ _ (frame_word_run (with_user k1 m') (regs + REG_RIP) (t_sigterm_handler t) rip Hip)).
  rewrite (kbind_ret _ _ _ _ _ (frame_word_run (with_k_mem (<[regs + REG_RIP := t_sigterm_handler t]> (k_mem k)) (with_user k1 m')) (regs + REG_RSP) (frame_at w rsp) rsp
    ltac:(cbn; rewrite lookup_insert_ne by (unfold REG_RIP, REG_RSP; lia); exact Hsp))).
  rewrite (frame_task_run _ (k_current k) _ (with_t_saved_esp rsp (with_t_saved_eip rip (with_t_pending_signals (Z.ldiff (t_pending_signals t) (SIG_BIT (next_signal t))) t)))) by (cbn; apply lookup_insert_eq).
  unfold in_handler_state, interrupted, with_user, k1. destruct k; cbn. by rewrite insert_insert_eq.
Qed.

Lemma sigreturn_run k regs t rip rsp : k_tasks k !! k_current k = Some t → t_in_signal t ≠ 0 →
  k_mem k !! (regs + REG_RIP) = Some rip → k_mem k !! (regs + REG_RSP) = Some rsp →
  sys_sigreturn regs k = Ret 0 (with_k_tasks (<[k_current k := with_t_in_signal 0 t]> (k_tasks k))
    (with_k_mem (<[regs + REG_RSP := t_saved_esp t]> (<[regs + REG_RIP := t_saved_eip t]> (k_mem k))) k)).
Proof.
  intros Ht Hs Hip Hsp. unfold sys_sigreturn. rewrite (kbind_ret current_task _ k (k_current k) k eq_refl).
  rewrite (kbind_ret (get_task (k_current k)) _ k t k) by (unfold get_task, kget_opt; by rewrite Ht).
  replace (t_in_signal t =? 0) with false by (symmetry; by apply Z.eqb_neq). cbn [negb].
  rewrite kbind_assoc, (kbind_ret _ _ _ _ _ (frame_word_run k (regs + REG_RIP) (t_saved_eip t) rip Hip)).
  rewrite kbind_assoc, (kbind_ret _ _ _ _ _ (frame_word_run (with_k_mem (<[regs + REG_RIP := t_saved_eip t]> (k_mem k)) k) (regs + REG_RSP) (t_saved_esp t) rsp
    ltac:(cbn; rewrite lookup_insert_ne by (unfold REG_RIP, REG_RSP; lia); exact Hsp))).
  erewrite kbind_ret; [|apply frame_task_run; exact Ht]. by destruct k.
Qed.

(** C19. A signal interrupts a program and UABI_SIGRETURN resumes it: when a
    program that is about to be resumed at [rip], [rsp] has a handler and
    SIGTERM or SIGINT pending, the handler is entered with the return address of
    the trampoline on top of the stack and the signal number above it, the
    trampoline code being below the old stack pointer; no other byte of user
    memory changes, the signal is no longer pending and no further one is
    dispatched.  In any later state of the task that still has its record, a
    UABI_SIGRETURN from any frame puts the interrupted [rip] and [rsp] back,
    and changes nothing else but the flag. *)
Theorem signal_roundtrip k regs cs rip rsp t m : interruptible k regs cs rip rsp t m →
  let w := word_size (Z.land cs 65535 =? 43) in
  ∃ m', task_check_pending_signals regs k = Ret tt (in_handler_state k regs rip rsp (frame_at w rsp) t m') ∧
    stored m' (code_at rsp) trampoline_code ∧ stored m' (frame_at w rsp) (field_bytes (Z.to_nat w) (code_at rsp)) ∧
    stored m' (frame_at w rsp + w) (field_bytes (Z.to_nat w) (next_signal t)) ∧
    (∀ x, x < frame_at w rsp ∨ rsp ≤ x → m' !! x = m !! x) ∧
    ∀ k2 regs2 rip2 rsp2, k_tasks k2 !! k_current k2 = Some (interrupted t rip rsp) →
      k_mem k2 !! (regs2 + REG_RIP) = Some rip2 → k_mem k2 !! (regs2 + REG_RSP) = Some rsp2 →
      sys_sigreturn regs2 k2 = Ret 0 (with_k_tasks (<[k_current k2 := with_t_in_signal 0 (interrupted t rip rsp)]> (k_tasks k2))
        (with_k_mem (<[regs2 + REG_RSP := rsp]> (<[regs2 + REG_RIP := rip]> (k_mem k2))) k2)).
Proof.
  intros H w. destruct (dispatch_signal_run k regs cs rip rsp t m H) as (m' & E & S1 & S2 & S3 & S4).
  exists m'. split; [exact E|]. split; [done|]. split; [done|]. split; [done|]. split; [done|].
  intros k2 regs2 rip2 rsp2 Ht2 Hip2 Hsp2. by apply (sigreturn_run k2 regs2 (interrupted t rip rsp) rip2 rsp2).
Qed.
End sig.

(** ** A witness: a 64-bit program with SIGTERM pending *)

Definition sig_task : task_t :=
  with_t_sigterm_handler 4198400 (with_t_pending_signals (SIG_BIT SIGTERM) (demo_task 5)).
Definition sig_stack : gmap Z Z := gset_to_gmap 0 (list_to_set (seqZ 8192 256)).
Definition sig_state : kst unit :=
  with_k_current 16 (with_k_tasks {[16 := sig_task]} (with_k_directory 7 (with_k_pdirs {[7 := sig_stack]}
    (with_k_mem {[100000 + REG_CS := 27; 100000 + REG_RIP := 4198500; 100000 + REG_RSP := 8400]} demo_state)))).

Lemma sig_state_ok : interruptible sig_state 100000 27 4198500 8400 sig_task sig_stack.
Proof.
  split; try done.
  intros w x Hx. change (frame_at w 8400) with 8376 in Hx. exists 0. apply lookup_gset_to_gmap_Some. split; [|done].
  apply elem_of_list_to_set, elem_of_seqZ. lia.
Qed.

Lemma signal_roundtrip_witness : ∃ m', task_check_pending_signals 100000 sig_state = Ret tt (in_handler_state sig_state 100000 4198500 8400 8376 sig_task m') ∧
  stored m' 8393 trampoline_code ∧ stored m' 8376 (field_bytes 8 8393) ∧ stored m' 8384 (field_bytes 8 15) ∧
  (∀ x, x < 8376 ∨ 8400 ≤ x → m' !! x = sig_stack !! x) ∧
  ∀ (k2 : kst unit) regs2 rip2 rsp2, k_tasks k2 !! k_current k2 = Some (interrupted sig_task 4198500 8400) →
    k_mem k2 !! (regs2 + REG_RIP) = Some rip2 → k_mem k2 !! (regs2 + REG_RSP) = Some rsp2 →
    sys_sigreturn regs2 k2 = Ret 0 (with_k_tasks (<[k_current k2 := with_t_in_signal 0 (interrupted sig_task 4198500 8400)]> (k_tasks k2))
      (with_k_mem (<[regs2 + REG_RSP := 8400]> (<[regs2 + REG_RIP := 4198500]> (k_mem k2))) k2)).
Proof. exact (signal_roundtrip sig_state 100000 27 4198500 8400 sig_task sig_stack sig_state_ok). Defined.
