(* ===== verification/Syscall.v ===== *)
(** * The system-call handler

    Models [kernel/core/syscall_dispatch.c] with the argument checks of
    [kernel/core/abi_validate.h].  The state joins the console ([Display],
    [Keyboard]) with the kernel core, the frame allocator and the debug flag
    ([ksys]).  [regs] is the address of the saved registers on the kernel stack;
    number, arguments and result are its words.  [junk n] is what an
    uninitialised array of [n] bytes holds.

    What the handler prints itself goes to the console; the output that only
    appears in debug mode, and the tracing, are left out.  The nodes of the
    standard descriptors keep their own view of the console in the core state
    ([Vfs.std_read], [Vfs.std_write]). *)

From stdpp Require Import base numbers list gmap strings.
From Stdlib Require Import ZArith Lia.
From S2P Require Import Prelude CString Pmm Kernel Pipe Path Vfs FdInv Sleep Sched Task Signal Block Exec Uabi Display Keyboard.

#[local] Open Scope Z_scope.

Definition USER_ADDR_MAX : Z := 18446603336221196288. (* 0xFFFF800000000000 *)

#[export] Instance core_foreground {D} : Foreground (ksys D) :=
  {| interrupt_foreground := Uabi.core task_send_sigint_foreground |}.

Section ops.
Context {D : Type} {Drv : FsDriver D} {Svc : Services D}.
#[local] Open Scope kernel_scope.
Variable current_scheduler : option (kabi_scheduler_ops_t D).
Variable junk : nat → list Z.

Definition st : Type := con (ksys D).

Definition kern {A} (m : kM (kst D) A) : kM st A := Keyboard.task (Uabi.core m).
Definition print (msg : list Z) : kM st unit := disp (kprint (msg ++ [0])).
Definition set_ret (regs v : Z) : kM st unit := kern (put_word (regs + REG_RAX) (u64 v)).

(** ** Argument checks *)

Definition validate_print_num (n : Z) : kM st unit :=
  let* b := kget_opt (λ _, int_to_ascii (s32 n) (junk 16)) in disp (kprint b).

(** Each check prints its diagnostics and sets the result, or goes on with [k]. *)
Definition UABI_VALIDATE_PTR (regs ptr : Z) (name : list Z) (num : Z) (k : kM st unit) : kM st unit :=
  if (ptr =? 0) || (USER_ADDR_MAX <=? ptr) then
    print (str "[VALIDATE FAIL] syscall "%string) ;;;
    validate_print_num num ;;;
    print (str ": bad user ptr '"%string ++ name ++ str "' = 0x"%string) ;;;
    let* b := kget_opt (λ _, hex_to_ascii ptr (junk 20)) in
    disp (kprint b) ;;;
    print [10] ;;;
    set_ret regs (-22)
  else k.

Definition UABI_VALIDATE_FD (regs fd num : Z) (k : kM st unit) : kM st unit :=
  if (s32 fd <? 0) || (MAX_FD <=? s32 fd) then
    print (str "[VALIDATE FAIL] syscall "%string) ;;;
    validate_print_num num ;;;
    print (str ": fd "%string) ;;;
    validate_print_num fd ;;;
    print (str " out of range [0,"%string) ;;;
    validate_print_num MAX_FD ;;;
    print (str ")"%string ++ [10]) ;;;
    set_ret regs (-1)
  else k.

Definition UABI_VALIDATE_POSITIVE (regs val : Z) (name : list Z) (num : Z) (k : kM st unit) : kM st unit :=
  if s32 val <=? 0 then
    print (str "[VALIDATE FAIL] syscall "%string) ;;;
    validate_print_num num ;;;
    print (str ": '"%string ++ name ++ str "' must be > 0 (got "%string) ;;;
    validate_print_num val ;;;
    print (str ")"%string ++ [10]) ;;;
    set_ret regs (-1)
  else k.

Definition UABI_VALIDATE_RANGE (regs val lo hi : Z) (name : list Z) (num : Z) (k : kM st unit) : kM st unit :=
  if (s32 val <? lo) || (hi <? s32 val) then
    print (str "[VALIDATE FAIL] syscall "%string) ;;;
    validate_print_num num ;;;
    print (str ": '"%string ++ name ++ str "' out of range"%string ++ [10]) ;;;
    set_ret regs (-1)
  else k.

(** The result is only reported when it is below -5. *)
Definition UABI_VALIDATE_OUTPUT (ret num : Z) : kM st unit :=
  if s32 ret <? -5 then
    print (str "[VALIDATE WARN] syscall "%string) ;;;
    validate_print_num num ;;;
    print (str ": unexpected return value "%string) ;;;
    validate_print_num ret ;;;
    print [10]
  else kret tt.

(** The texts [#ptr] and [#val] of the arguments *)
Definition ARG1 : list Z := str "REGS_ARG1(regs)"%string.
Definition ARG2 : list Z := str "REGS_ARG2(regs)"%string.
Definition ARG3 : list Z := str "REGS_ARG3(regs)"%string.

(** ** Branches *)

(** The result of an [int] function, and its check *)
Definition ret_int (regs : Z) (m : kM (kst D) Z) : kM st unit :=
  let* r := kern m in set_ret regs (s32 r).
Definition ret_checked (regs num : Z) (m : kM (kst D) Z) : kM st unit :=
  let* r := kern m in set_ret regs (s32 r) ;;; UABI_VALIDATE_OUTPUT (s32 r) num.

(** [read] into user memory; [write] from it *)
Definition user_read (fd buf size : Z) : kM (kst D) Z :=
  let* (r, l) := read fd size in ustore_bytes buf l ;;; kret r.
Definition user_write (fd buf size : Z) : kM (kst D) Z :=
  let* o := fd_file fd in
  match o with
  | None => kret (-1)
  | Some f =>
      let* fl := get_file f in
      if f_flags fl =? O_RDONLY then kret (-1)
      else let* data := uload_bytes (Z.to_nat size) buf in write fd data
  end.
Definition user_pipe (fds : Z) : kM (kst D) Z :=
  let* o := Pipe.pipe in
  match o with
  | None => kret (-1)
  | Some (r, w) => ustore_int 4 fds r ;;; ustore_int 4 (fds + 4) w ;;; kret 0
  end.

(** [get_line] into user memory: the mapped bytes of the first 256 serve as the
    buffer and are written back. *)
Fixpoint umapped (n : nat) (a : Z) (m : gmap Z Z) : list Z :=
  match n with O => [] | S n => match m !! a with Some c => c :: umapped n (a + 1) m | None => [] end end.
Definition user_line (buf : Z) : kM st unit :=
  let* m := kern user_space in
  let* l := get_line (junk 16) (umapped 256 buf m) in
  kern (ustore_bytes buf l).

(** The comparison of the device name, [a] in user memory *)
Fixpoint name_matches (a : Z) (b : list Z) : kM (kst D) bool :=
  let* ca := uload a in
  match b with
  | [] => kret (ca =? 0)
  | cb :: b => if ca =? 0 then kret false
               else if ca =? cb then name_matches (a + 1) b else kret false
  end.
Fixpoint find_device (n : nat) (i name : Z) : kM (kst D) Z :=
  match n with
  | O => kret (-1)
  | S n =>
      let* d := svc_dev i in
      match d with
      | None => find_device n (i + 1) name
      | Some d =>
          let* e := name_matches name (bd_name d) in
          if e then kret i else find_device n (i + 1) name
      end
  end.
Definition user_mount (dev_name mountpoint : Z) : kM (kst D) Z :=
  let* count := svc_dev_count in
  let* dev_id := find_device (Z.to_nat count) 0 dev_name in
  if dev_id <? 0 then kret (-2)
  else
    let* mp := ustring mountpoint in
    let* r := svc_mount dev_id mp in
    kret (if r =? 0 then 0 else -4).

Definition print_sysno (n : nat) (num : Z) : kM st unit :=
  let* b := kget_opt (λ _, int_to_ascii (s32 num) (junk n)) in
  disp (kprint b) ;;;
  print [10].

(** ** The handler *)

(** UABI_OPEN to UABI_LSEEK; [other] is the rest of the chain. *)
Definition file_calls (regs num a1 a2 a3 : Z) (is64 : bool) (other : kM st unit) : kM st unit :=
  if num =? 20 then
    UABI_VALIDATE_PTR regs a1 ARG1 num
      (ret_checked regs num (let* path := ustring a1 in open path (s32 a2)))
  else if num =? 21 then
    UABI_VALIDATE_FD regs a1 num (UABI_VALIDATE_PTR regs a2 ARG2 num (UABI_VALIDATE_POSITIVE regs a3 ARG3 num
      (ret_checked regs num (user_read (s32 a1) a2 (s32 a3)))))
  else if num =? 22 then
    UABI_VALIDATE_FD regs a1 num (UABI_VALIDATE_PTR regs a2 ARG2 num (UABI_VALIDATE_POSITIVE regs a3 ARG3 num
      (ret_checked regs num (user_write (s32 a1) a2 (s32 a3)))))
  else if num =? 23 then
    UABI_VALIDATE_FD regs a1 num (ret_int regs (close (s32 a1)))
  else if num =? 24 then
    UABI_VALIDATE_PTR regs a1 ARG1 num (UABI_VALIDATE_PTR regs a2 ARG2 num (UABI_VALIDATE_POSITIVE regs a3 ARG3 num
      (ret_checked regs num (let* path := ustring a1 in sys_readdir path a2 (s32 a3) is64))))
  else if num =? 25 then
    UABI_VALIDATE_PTR regs a1 ARG1 num (UABI_VALIDATE_POSITIVE regs a2 ARG2 num
      (ret_int regs (sys_getcwd a1 (u32 a2))))
  else if num =? 26 then
    UABI_VALIDATE_PTR regs a1 ARG1 num (ret_int regs (let* path := ustring a1 in sys_chdir path))
  else if num =? 27 then
    UABI_VALIDATE_PTR regs a1 ARG1 num (UABI_VALIDATE_PTR regs a2 ARG2 num
      (ret_int regs (let* path := ustring a1 in sys_stat path a2 is64)))
  else if num =? 28 then
    UABI_VALIDATE_FD regs a1 num (UABI_VALIDATE_RANGE regs a3 0 2 ARG3 num
      (ret_int regs (seek (s32 a1) (s32 a2) (s32 a3))))
  else other.

(** UABI_FORK to UABI_DUP; [other] is the rest of the chain. *)
Definition process_calls (regs num a1 a2 a3 : Z) (is64 : bool) (other : kM st unit) : kM st unit :=
  if num =? 30 then ret_int regs (sys_fork current_scheduler regs)
  else if num =? 31 then
    let run := ret_int regs (let* path := ustring a1 in svc_execve path a2 regs) in
    UABI_VALIDATE_PTR regs a1 ARG1 num
      (if negb (a2 =? 0) then UABI_VALIDATE_PTR regs a2 ARG2 num run else run)
  else if num =? 32 then kern (sys_exit current_scheduler a1 regs)
  else if num =? 33 then ret_int regs (wait_for_children current_scheduler 0)
  else if num =? 34 then ret_int regs getpid
  else if num =? 35 then UABI_VALIDATE_PTR regs a1 ARG1 num (ret_checked regs num (user_pipe a1))
  else if num =? 36 then
    UABI_VALIDATE_FD regs a1 num (UABI_VALIDATE_FD regs a2 num (ret_checked regs num (dup2 (s32 a1) (s32 a2))))
  else if num =? 37 then UABI_VALIDATE_FD regs a1 num (ret_checked regs num (dup (s32 a1)))
  else other.

(** UABI_PRINT to UABI_GOTOXY; [other] is the rest of the chain. *)
Definition console_calls (regs num a1 a2 a3 : Z) (is64 : bool) (other : kM st unit) : kM st unit :=
  if num =? 40 then
    UABI_VALIDATE_PTR regs a1 ARG1 num (let* s := kern (ustring a1) in print s)
  else if num =? 41 then UABI_VALIDATE_PTR regs a1 ARG1 num (user_line a1)
  else if num =? 42 then disp clear_screen
  else if num =? 43 then let* c := get_char_noecho (junk 16) in set_ret regs c
  else if num =? 44 then
    UABI_VALIDATE_RANGE regs a1 0 79 ARG1 num (UABI_VALIDATE_RANGE regs a2 0 24 ARG2 num
      (disp (set_cursor_position (junk 16) (junk 8) (s32 a1) (s32 a2)) ;;; set_ret regs 0))
  else other.

(** UABI_PS to UABI_SLEEP; [other] is the rest of the chain. *)
Definition info_calls (regs num a1 a2 a3 : Z) (is64 : bool) (other : kM st unit) : kM st unit :=
  if num =? 45 then
    UABI_VALIDATE_PTR regs a1 ARG1 num (UABI_VALIDATE_POSITIVE regs a2 ARG2 num
      (ret_checked regs num (sys_ps a1 (s32 a2) is64)))
  else if num =? 46 then
    UABI_VALIDATE_PTR regs a1 ARG1 num (let* r := Keyboard.task (sys_memstat a1 is64) in set_ret regs r)
  else if num =? 47 then
    if negb (a2 =? 0) then let* d := Keyboard.task kabi_debug_enabled in set_ret regs d
    else Keyboard.task (kabi_set_debug (s32 a1)) ;;; set_ret regs 0
  else if num =? 48 then
    UABI_VALIDATE_POSITIVE regs a1 ARG1 num (UABI_VALIDATE_RANGE regs a2 1 31 ARG2 num
      (ret_int regs (task_send_signal (s32 a1) (s32 a2))))
  else if num =? 49 then
    let* r := kern (sys_sigaction a1 a2) in
    (if r =? 0 then kret tt
     else print (str "[VALIDATE FAIL] syscall 49: cannot set handler for SIGKILL/SIGCHLD"%string ++ [10])) ;;;
    set_ret regs r
  else if num =? 50 then ret_int regs (sys_sigreturn regs)
  else if num =? 51 then
    let ms := u32 a1 in
    if ms =? 0 then set_ret regs 0
    else
      kern (sys_sleep ms) ;;;
      set_ret regs 0 ;;;
      kern (task_check_pending_signals regs) ;;;
      kern (schedule current_scheduler regs)
  else other.

(** UABI_MKDIR to UABI_UMOUNT; [other] is the rest of the chain. *)
Definition device_calls (regs num a1 a2 a3 : Z) (is64 : bool) (other : kM st unit) : kM st unit :=
  if num =? 52 then UABI_VALIDATE_PTR regs a1 ARG1 num (ret_int regs (let* p := ustring a1 in sys_mkdir (Some p)))
  else if num =? 53 then UABI_VALIDATE_PTR regs a1 ARG1 num (ret_int regs (let* p := ustring a1 in sys_unlink (Some p)))
  else if num =? 54 then
    if s32 a1 =? -1 then ret_int regs svc_dev_count
    else UABI_VALIDATE_PTR regs a2 ARG2 num (ret_int regs (sys_devinfo (s32 a1) a2 is64))
  else if num =? 55 then
    UABI_VALIDATE_PTR regs a1 ARG1 num (UABI_VALIDATE_PTR regs a2 ARG2 num (ret_int regs (user_mount a1 a2)))
  else if num =? 56 then UABI_VALIDATE_PTR regs a1 ARG1 num (ret_int regs (let* p := ustring a1 in sys_umount (Some p)))
  else other.

(** The body of [syscall_handler] up to the label [syscall_done] *)
Definition dispatch (regs num a1 a2 a3 : Z) (is64 : bool) : kM st unit :=
  if num <=? 11 then
    print (str "PANIC: Stray call to legacy syscall range (0-11): "%string) ;;;
    print_sysno 10 num ;;;
    set_ret regs (-1) ;;;
    khang
  else
    file_calls regs num a1 a2 a3 is64
      (process_calls regs num a1 a2 a3 is64
        (console_calls regs num a1 a2 a3 is64
          (info_calls regs num a1 a2 a3 is64
            (device_calls regs num a1 a2 a3 is64
              (print (str "[VALIDATE FAIL] Unknown syscall: "%string) ;;;
               print_sysno 10 num ;;;
               set_ret regs (-1)))))).

Definition syscall_handler (regs : Z) : kM st unit :=
  kern (assert_on_kstack regs) ;;;
  let* cs := kern (get_word (regs + REG_CS)) in
  let* rax := kern (get_word (regs + REG_RAX)) in
  let* a1 := kern (get_word (regs + REG_RBX)) in
  let* a2 := kern (get_word (regs + REG_RCX)) in
  let* a3 := kern (get_word (regs + REG_RDX)) in
  dispatch regs (u32 rax) a1 a2 a3 (cs =? 27) ;;;
  kern (task_check_pending_signals regs).
End ops.
