(* ===== verification/SyscallInv.v ===== *)
(** * What a system call with bad arguments does

    [checks] lists, for every system call, the conditions on its arguments in
    the order in which they are tested; the theorem says that a call that fails
    one of them gets the error value of the first, and that nothing changes but
    the console.  A signal that is dispatched on the way out and the return from
    its handler restore the interrupted context. *)

From stdpp Require Import base numbers list gmap strings.
From Stdlib Require Import ZArith Lia.
From S2P Require Import Prelude CString Pmm Kernel Pipe Path Vfs FdInv Sleep Sched Task Signal Block Exec Uabi Display DisplayInv Keyboard KeyboardInv Syscall.

#[local] Open Scope Z_scope.

Abbreviation cbytes l := (Forall (λ c : Z, 0 < c < 256) l).

(** ** Numbers fit their buffers *)

Lemma digits_cbytes ds : Forall (λ c, is_digit c) ds → cbytes ds.
Proof. intros H. eapply Forall_impl; [exact H|]. intros c Hc%Is_true_eq_true. unfold is_digit in Hc. zify_bool. lia. Qed.

Lemma cbytes_no_nul l : cbytes l → 0 ∉ l.
Proof. intros H Hin. rewrite Forall_forall in H. apply H in Hin. lia. Qed.

(** Any number of less than [k] digits, with its sign *)
Lemma sysno_fits (k : nat) n b : -2147483648 < n < 2147483648 → Z.abs n < 10 ^ Z.of_nat k → (1 ≤ k ≤ 10)%nat → (k + (if decide (n < 0)%Z then 2 else 1) ≤ length b)%nat →
  ∃ s rest, int_to_ascii n b = Some (s ++ 0 :: rest) ∧ cbytes s.
Proof.
  intros Hn Hd Hk Hl. unfold int_to_ascii. set (m := if n <? 0 then s32 (- n) else n).
  assert (m = Z.abs n) as -> by (unfold m; destruct (Z.ltb_spec n 0); [rewrite s32_small by lia|]; lia).
  destruct (digits_loop_spec 11 (Z.abs n) [] b k) as (ds & E & L & F & _); [lia|lia|case_decide; lia|].
  change (Z.of_nat (length (@nil Z))) with 0 in E. cbn [app length Nat.add] in E. rewrite E. simpl. apply digits_cbytes in F.
  destruct (Z.ltb_spec n 0) as [Hneg|Hpos].
  - rewrite decide_True in Hl by lia. destruct (drop (length ds) b) as [|y1 [|y2 rest]] eqn:Eb;
      try (apply (f_equal length) in Eb; rewrite length_drop in Eb; simpl in Eb; lia).
    rewrite zset_push by done. simpl. rewrite zset_mid by (rewrite length_app; simpl; lia). simpl.
    rewrite reverse_spec by (apply cbytes_no_nul, Forall_app; split; [done|by repeat constructor]).
    eexists _, _. split; [done|]. apply Forall_rev, Forall_app. split; [done|by repeat constructor].
  - rewrite decide_False in Hl by lia. destruct (drop (length ds) b) as [|y1 rest] eqn:Eb;
      try (apply (f_equal length) in Eb; rewrite length_drop in Eb; simpl in Eb; lia).
    simpl. rewrite zset_mid by done. simpl. rewrite reverse_spec by (by apply cbytes_no_nul).
    eexists _, _. split; [done|]. by apply Forall_rev.
Qed.

(** The smallest [int] prints as two characters. *)
Lemma int_to_ascii_any n b : (12 ≤ length b)%nat → ∃ s rest, int_to_ascii (s32 n) b = Some (s ++ 0 :: rest) ∧ cbytes s.
Proof.
  intros Hl. assert (-2147483648 ≤ s32 n < 2147483648) as Hr by (unfold s32; pose proof (Z.mod_pos_bound (n + 2147483648) 4294967296); lia).
  destruct (decide (s32 n = -2147483648)) as [->|].
  - destruct b as [|y1 [|y2 [|y3 rest]]]; try (cbn in Hl; lia). exists [45; 40], rest. split; [|by repeat constructor].
    assert (digits_loop 11 (-2147483648) 0 (y1 :: y2 :: y3 :: rest) = Some (40 :: y2 :: y3 :: rest, 1)) as E.
    { change (digits_loop 11 (-2147483648) 0 (y1 :: y2 :: y3 :: rest)) with
        (zset (y1 :: y2 :: y3 :: rest) 0 40 ≫= λ b, if 0 <? -214748364 then digits_loop 10 (-214748364) 1 b else Some (b, 1)).
      by rewrite (zset_mid [] (y2 :: y3 :: rest) y1 40 0 eq_refl : zset (y1 :: y2 :: y3 :: rest) 0 40 = _). }
    unfold int_to_ascii. change (-2147483648 <? 0) with true. change (s32 (- -2147483648)) with (-2147483648). cbn iota. rewrite E. simpl.
    rewrite (zset_mid [40] (y3 :: rest) y2 45 1 eq_refl : zset (40 :: y2 :: y3 :: rest) 1 45 = _). cbn [app mbind option_bind]. change (1 + 1) with 2.
    rewrite (zset_mid [40; 45] rest y3 0 2 eq_refl : zset (40 :: 45 :: y3 :: rest) 2 0 = _). cbn [app mbind option_bind].
    apply (reverse_spec [40; 45] rest). apply (bool_decide_unpack _). by vm_compute.
  - apply (sysno_fits 10); [lia| |lia|case_decide; lia]. change (10 ^ Z.of_nat 10) with 10000000000. lia.
Qed.

(** Ten digits do not fit in ten bytes. *)
Lemma digits_value ds : Forall (λ c, is_digit c) ds → 0 ≤ le_value 10 (map (λ c, c - 48) ds) < 10 ^ Z.of_nat (length ds).
Proof.
  induction 1 as [|c ds Hc F IH]; [done|]. cbn [map le_value length]. rewrite Nat2Z.inj_succ, Z.pow_succ_r by lia.
  apply Is_true_eq_true in Hc. unfold is_digit in Hc. zify_bool. lia.
Qed.

Lemma int_to_ascii_overflow n b : 1000000000 ≤ n < 2147483648 → length b = 10%nat → int_to_ascii n b = None.
Proof.
  intros Hn Hl. unfold int_to_ascii. replace (n <? 0) with false by (symmetry; apply Z.ltb_ge; lia).
  destruct (digits_loop_spec 11 n [] b 10) as (ds & E & L & F & V); [change (10 ^ Z.of_nat 10) with 10000000000; lia|lia|lia|].
  change (Z.of_nat (length (@nil Z))) with 0 in E. cbn [app length Nat.add] in E. rewrite E. simpl.
  assert (length ds = 10%nat) as Ld.
  { destruct (decide (length ds = 10%nat)); [done|]. pose proof (digits_value ds F) as HV. rewrite V in HV.
    assert (10 ^ Z.of_nat (length ds) ≤ 10 ^ 9) by (apply Z.pow_le_mono_r; lia). change (10 ^ 9) with 1000000000 in *. lia. }
  rewrite drop_ge by lia. rewrite zset_full by done. done.
Qed.

Lemma hex_to_ascii_any n b : 0 ≤ n < 2 ^ 64 → (19 ≤ length b)%nat → ∃ s rest, hex_to_ascii n b = Some (s ++ 0 :: rest) ∧ cbytes s.
Proof.
  intros Hn Hl. destruct b as [|y1 [|y2 rest]]; cbn [length] in Hl; try lia.
  destruct (hex_digits_spec 16 n) as (L & V & F & _); [lia..|]. rewrite (hex_to_ascii_eq n _ y1 y2 rest eq_refl). cbn zeta.
  revert L V F. generalize (hex_digits 16 n false) as ds. intros ds L V F. rewrite decide_True by lia.
  exists (48 :: 120 :: ds), (drop (S (length ds)) rest). split; [done|]. repeat (constructor; [lia|]).
  eapply Forall_impl; [exact F|]. intros c [Hc Hc']. unfold hex_digit_value in Hc'. destruct (97 <=? c) eqn:E; zify_bool; lia.
Qed.

Section inv.
Context {D : Type} {Drv : FsDriver D} {Svc : Services D}.
#[local] Open Scope kernel_scope.
Variable current_scheduler : option (kabi_scheduler_ops_t D).
Variable junk : nat → list Z.
Hypothesis junk_length : ∀ n, length (junk n) = n.

Abbreviation st := (con (ksys D)).
Implicit Types (s : st) (c : kM st unit).

(** ** Diagnostics only change the console *)

Definition prints c : Prop := ∀ s, console_ok (c_disp s) → ∃ d, c s = Ret tt (set_disp d s) ∧ console_ok d.

Lemma prints_bind c1 c2 : prints c1 → prints c2 → prints (c1 ;;; c2).
Proof.
  intros P1 P2 s H. destruct (P1 s H) as (d1 & E1 & H1). destruct (P2 (set_disp d1 s) H1) as (d2 & E2 & H2).
  exists d2. rewrite (kbind_ret _ _ _ _ _ E1). by rewrite E2.
Qed.

Lemma kprint_prints msg rest : cbytes msg → prints (disp (kprint (msg ++ 0 :: rest))).
Proof. intros F s H. by apply disp_kprint_run. Qed.
Lemma print_prints msg : cbytes msg → prints (print msg).
Proof. apply kprint_prints. Qed.
Lemma print_num_prints n : prints (validate_print_num junk n).
Proof.
  intros s H. destruct (int_to_ascii_any n (junk 16)) as (l & rest & E & F); [rewrite junk_length; lia|].
  unfold validate_print_num. rewrite (kbind_ret _ _ s (l ++ 0 :: rest) s) by (unfold kget_opt; by rewrite E). by apply kprint_prints.
Qed.

(** Printing, then a result: the words of the frame and the console change. *)
Definition with_core (k : kst D) s : st := Con (c_kbd s) (c_disp s) (Ksys k (s_pmm (c_task s)) (s_debug (c_task s))) (c_irqs s).
Abbreviation core s := (s_k (c_task s)).
Definition answered (regs v : Z) (d : display) s : st :=
  with_core (with_k_mem (<[regs + REG_RAX := u64 v]> (k_mem (core s))) (core s)) (set_disp d s).

Lemma set_ret_run regs v s w : k_mem (core s) !! (regs + REG_RAX) = Some w →
  set_ret regs v s = Ret tt (with_core (with_k_mem (<[regs + REG_RAX := u64 v]> (k_mem (core s))) (core s)) s).
Proof.
  intros E. unfold set_ret, kern, Keyboard.task, Uabi.core, put_word.
  rewrite (kbind_ret _ _ (core s) w (core s)) by (unfold get_word, kget_opt; by rewrite E). done.
Qed.

(** A computation that only prints and then answers [v] *)
Definition refuses (regs v : Z) c : Prop := ∀ s w, console_ok (c_disp s) → k_mem (core s) !! (regs + REG_RAX) = Some w →
  ∃ d, c s = Ret tt (answered regs v d s) ∧ console_ok d.

Lemma set_ret_refuses regs v : refuses regs v (set_ret regs v).
Proof. intros s w H E. exists (c_disp s). split; [|done]. rewrite (set_ret_run _ _ _ _ E). by destruct s. Qed.
Lemma print_refuses regs v c1 c2 : prints c1 → refuses regs v c2 → refuses regs v (c1 ;;; c2).
Proof.
  intros P R s w H E. destruct (P s H) as (d & Ed & Hd). destruct (R (set_disp d s) w Hd E) as (d2 & E2 & H2).
  exists d2. by rewrite (kbind_ret _ _ _ _ _ Ed).
Qed.
Lemma hex_refuses regs v ptr c : 0 ≤ ptr < 2 ^ 64 → refuses regs v c →
  refuses regs v (let* b := kget_opt (λ _, hex_to_ascii ptr (junk 20)) in disp (kprint b) ;;; c).
Proof.
  intros Hp R s w H E. destruct (hex_to_ascii_any ptr (junk 20)) as (l & rest & El & F); [done|rewrite junk_length; lia|].
  rewrite (kbind_ret _ _ s (l ++ 0 :: rest) s) by (unfold kget_opt; by rewrite El). apply (print_refuses regs v _ c) with (w := w); [by apply kprint_prints|done..].
Qed.

(** ** The conditions on the arguments *)

Inductive check := CPtr (n : nat) | CFd (n : nat) | CPos (n : nat) | CRange (n : nat) (lo hi : Z).

Definition arg (a1 a2 a3 : Z) (n : nat) : Z := match n with 1%nat => a1 | 2%nat => a2 | _ => a3 end.
Definition arg_text (n : nat) : list Z := match n with 1%nat => ARG1 | 2%nat => ARG2 | _ => ARG3 end.

(** Pointers are below the kernel half and not NULL, descriptors between 0 and
    31, counts positive as 32-bit integers; the values are the errors. *)
Definition check_error (a : nat → Z) (c : check) : option Z :=
  match c with
  | CPtr n => if (a n =? 0) || (USER_ADDR_MAX <=? a n) then Some (-22) else None
  | CFd n => if (s32 (a n) <? 0) || (32 <=? s32 (a n)) then Some (-1) else None
  | CPos n => if s32 (a n) <=? 0 then Some (-1) else None
  | CRange n lo hi => if (s32 (a n) <? lo) || (hi <? s32 (a n)) then Some (-1) else None
  end.

Fixpoint first_error (a : nat → Z) (cs : list check) : option Z :=
  match cs with [] => None | c :: cs => match check_error a c with Some e => Some e | None => first_error a cs end end.

(** The conditions of each call, in order; those of UABI_EXEC and UABI_DEVINFO
    depend on the arguments.  Calls that are not in the table do not exist. *)
Definition call_table : list (Z * list check) :=
  [(20, [CPtr 1]); (21, [CFd 1; CPtr 2; CPos 3]); (22, [CFd 1; CPtr 2; CPos 3]); (23, [CFd 1]);
   (24, [CPtr 1; CPtr 2; CPos 3]); (25, [CPtr 1; CPos 2]); (26, [CPtr 1]); (27, [CPtr 1; CPtr 2]); (28, [CFd 1; CRange 3 0 2]);
   (30, []); (32, []); (33, []); (34, []); (35, [CPtr 1]); (36, [CFd 1; CFd 2]); (37, [CFd 1]);
   (40, [CPtr 1]); (41, [CPtr 1]); (42, []); (43, []); (44, [CRange 1 0 79; CRange 2 0 24]);
   (45, [CPtr 1; CPos 2]); (46, [CPtr 1]); (47, []); (48, [CPos 1; CRange 2 1 31]); (49, []); (50, []); (51, []);
   (52, [CPtr 1]); (53, [CPtr 1]); (55, [CPtr 1; CPtr 2]); (56, [CPtr 1])].

Definition checks (num : Z) (a : nat → Z) : option (list check) :=
  if num =? 31 then Some (CPtr 1 :: if a 2%nat =? 0 then [] else [CPtr 2])
  else if num =? 54 then Some (if s32 (a 1%nat) =? -1 then [] else [CPtr 2])
  else snd ∘ snd <$> list_find (λ e, e.1 = num) call_table.

(** What a bad call gets; a number without a call gets -1. *)
Definition call_error (num : Z) (a : nat → Z) : option Z :=
  match checks num a with Some cs => first_error a cs | None => Some (-1) end.

(** The macros, in a row *)
Fixpoint guarded (regs num : Z) (a : nat → Z) (cs : list check) (k : kM st unit) : kM st unit :=
  match cs with
  | [] => k
  | c :: cs =>
      let k := guarded regs num a cs k in
      match c with
      | CPtr n => UABI_VALIDATE_PTR junk regs (a n) (arg_text n) num k
      | CFd n => UABI_VALIDATE_FD junk regs (a n) num k
      | CPos n => UABI_VALIDATE_POSITIVE junk regs (a n) (arg_text n) num k
      | CRange n lo hi => UABI_VALIDATE_RANGE junk regs (a n) lo hi (arg_text n) num k
      end
  end.

Lemma text_cbytes n : cbytes (arg_text n).
Proof. destruct n as [|[|[|n]]]; apply (bool_decide_unpack _); by vm_compute. Qed.

Ltac refuse := first [apply set_ret_refuses
  | apply print_refuses; [first [apply print_num_prints | apply print_prints; rewrite ?Forall_app; split_and?; first [apply text_cbytes | apply (bool_decide_unpack _); by vm_compute]]|refuse]
  | apply hex_refuses; [assumption|refuse]].

Lemma guarded_refuses regs num a cs e k : (∀ n, 0 ≤ a n < 2 ^ 64) → first_error a cs = Some e → refuses regs e (guarded regs num a cs k).
Proof.
  intros Ha. induction cs as [|c cs IH]; [done|]. cbn [first_error guarded].
  destruct c as [n|n|n|n lo hi]; cbn [check_error]; pose proof (Ha n).
  - unfold UABI_VALIDATE_PTR. destruct ((a n =? 0) || (USER_ADDR_MAX <=? a n)); [intros [= <-]; refuse|exact IH].
  - unfold UABI_VALIDATE_FD, MAX_FD. destruct ((s32 (a n) <? 0) || (32 <=? s32 (a n))); [intros [= <-]; refuse|exact IH].
  - unfold UABI_VALIDATE_POSITIVE. destruct (s32 (a n) <=? 0); [intros [= <-]; refuse|exact IH].
  - unfold UABI_VALIDATE_RANGE. destruct ((s32 (a n) <? lo) || (hi <? s32 (a n))); [intros [= <-]; refuse|exact IH].
Qed.

(** Every branch of the handler is its conditions and then its work. *)
Lemma dispatch_guarded regs num a1 a2 a3 is64 cs : checks num (arg a1 a2 a3) = Some cs →
  ∃ k, dispatch current_scheduler junk regs num a1 a2 a3 is64 = guarded regs num (arg a1 a2 a3) cs k.
Proof.
  unfold checks. destruct (num =? 31) eqn:E31; [|destruct (num =? 54) eqn:E54].
  - zify_bool. subst num. intros [= <-]. cbn [arg]. destruct (a2 =? 0) eqn:E2; eexists; cbn [guarded arg arg_text]; unfold dispatch, file_calls, process_calls;
      cbn [Z.leb Z.eqb Z.compare Pos.compare Pos.compare_cont Pos.eqb]; rewrite E2; reflexivity.
  - zify_bool. subst num. intros [= <-]. cbn [arg]. destruct (s32 a1 =? -1) eqn:E2; eexists; cbn [guarded arg arg_text]; unfold dispatch, file_calls, process_calls, console_calls, info_calls, device_calls;
      cbn [Z.leb Z.eqb Z.compare Pos.compare Pos.compare_cont Pos.eqb]; rewrite E2; reflexivity.
  - intros H. destruct (list_find (λ e : Z * list check, e.1 = num) call_table) as [[i [n l]]|] eqn:E; [|done].
    cbn in H. injection H as <-. apply list_find_Some in E as (E & <- & _). cbn [fst] in *.
    apply list_elem_of_lookup_2, list_elem_of_In in E. unfold call_table in E. cbn [In] in E.
    repeat (destruct E as [[= <- <-]|E]; [eexists; reflexivity|]). done.
Qed.

Lemma sysno_prints n num : 0 ≤ num < 1000000000 → (10 ≤ n)%nat → prints (print_sysno junk n num).
Proof.
  intros Hn Hl. unfold print_sysno. intros s H. destruct (sysno_fits 9 (s32 num) (junk n)) as (l & rest & E & F).
  { rewrite s32_small by lia. lia. } { rewrite s32_small by lia. rewrite Z.abs_eq by lia. exact (proj2 Hn). } { lia. }
  { rewrite s32_small, junk_length by lia. rewrite decide_False by lia. lia. }
  rewrite (kbind_ret _ _ s (l ++ 0 :: rest) s) by (unfold kget_opt; by rewrite E).
  apply (prints_bind (disp (kprint (l ++ 0 :: rest))) (print [10])); [by apply kprint_prints|apply print_prints; repeat constructor|done].
Qed.

Lemma dispatch_unknown regs num a1 a2 a3 is64 : 12 ≤ num < 1000000000 → checks num (arg a1 a2 a3) = None →
  refuses regs (-1) (dispatch current_scheduler junk regs num a1 a2 a3 is64).
Proof.
  intros Hn. unfold checks. destruct (num =? 31) eqn:E31; [done|]. destruct (num =? 54) eqn:E54; [done|]. intros H.
  destruct (list_find (λ e : Z * list check, e.1 = num) call_table) as [[i [n l]]|] eqn:E; [done|].
  apply list_find_None in E. unfold call_table in E. repeat apply Forall_cons in E as [? E]. cbn [fst] in *. zify_bool.
  unfold dispatch, file_calls, process_calls, console_calls, info_calls, device_calls.
  replace (num <=? 11) with false by (symmetry; apply Z.leb_gt; lia).
  repeat match goal with |- context [num =? ?k] => replace (num =? k) with false by (symmetry; apply Z.eqb_neq; lia) end.
  apply print_refuses; [apply print_prints; apply (bool_decide_unpack _); by vm_compute|]. apply print_refuses; [apply sysno_prints; lia|apply set_ret_refuses].
Qed.

Lemma dispatch_refuses regs num a1 a2 a3 is64 e : (∀ n, 0 ≤ arg a1 a2 a3 n < 2 ^ 64) → 12 ≤ num < 1000000000 → call_error num (arg a1 a2 a3) = Some e →
  refuses regs e (dispatch current_scheduler junk regs num a1 a2 a3 is64).
Proof.
  intros Ha Hn. unfold call_error. destruct (checks num (arg a1 a2 a3)) as [cs|] eqn:E; intros He.
  - destruct (dispatch_guarded regs num a1 a2 a3 is64 cs E) as [k ->]. by apply guarded_refuses.
  - injection He as <-. by apply dispatch_unknown.
Qed.

(** ** The whole handler *)

(** The saved registers at [regs], on a kernel stack *)
Record frame s (regs cs rax a1 a2 a3 : Z) : Prop := {
  fr_stack : assert_on_kstack regs (core s) = Ret tt (core s);
  fr_cs : k_mem (core s) !! (regs + REG_CS) = Some cs;
  fr_rax : k_mem (core s) !! (regs + REG_RAX) = Some rax;
  fr_rbx : k_mem (core s) !! (regs + REG_RBX) = Some a1;
  fr_rcx : k_mem (core s) !! (regs + REG_RCX) = Some a2;
  fr_rdx : k_mem (core s) !! (regs + REG_RDX) = Some a3 }.

(** No signal is dispatched on the way out. *)
Definition unsignalled (t : task_t) (cs : Z) : bool :=
  (Z.land cs 3 =? 0) || negb (t_in_signal t =? 0) || (t_sigterm_handler t =? 0) ||
  negb (has (t_pending_signals t) (SIG_BIT SIGTERM)) && negb (has (t_pending_signals t) (SIG_BIT SIGINT)).

Lemma no_signal_run (k : kst D) regs t cs : k_current k ≠ 0 → k_tasks k !! k_current k = Some t → k_mem k !! (regs + REG_CS) = Some cs →
  unsignalled t cs = true → task_check_pending_signals regs k = Ret tt k.
Proof.
  intros Hc Ht Hcs Hu. unfold task_check_pending_signals. rewrite (kbind_ret current_task _ k (k_current k) k eq_refl).
  replace (k_current k =? 0) with false by (symmetry; by apply Z.eqb_neq).
  rewrite (kbind_ret (get_task (k_current k)) _ k t k) by (unfold get_task, kget_opt; by rewrite Ht).
  rewrite (kbind_ret (get_word (regs + REG_CS)) _ k cs k) by (unfold get_word, kget_opt; by rewrite Hcs).
  unfold unsignalled in Hu. destruct (Z.land cs 3 =? 0); [done|]. destruct (negb (t_in_signal t =? 0)); [done|]. destruct (t_sigterm_handler t =? 0); [done|].
  cbn [orb] in Hu. apply andb_true_iff in Hu as [H1 H2]. apply negb_true_iff in H1, H2. rewrite H1, H2. done.
Qed.

Lemma kern_word s a w : k_mem (core s) !! a = Some w → kern (get_word a) s = Ret w s.
Proof. intros E. unfold kern, Keyboard.task, Uabi.core, get_word, kget_opt. rewrite E. by destruct s as [? ? [] ?]. Qed.

Lemma handler_dispatch regs s cs rax a1 a2 a3 : frame s regs cs rax a1 a2 a3 →
  syscall_handler current_scheduler junk regs s =
  (dispatch current_scheduler junk regs (u32 rax) a1 a2 a3 (cs =? 27) ;;; kern (task_check_pending_signals regs)) s.
Proof.
  intros [F0 F1 F2 F3 F4 F5]. unfold syscall_handler.
  rewrite (kbind_ret _ _ s tt s) by (unfold kern, Keyboard.task, Uabi.core; rewrite F0; by destruct s as [? ? [] ?]).
  by rewrite (kbind_ret _ _ _ _ _ (kern_word _ _ _ F1)), (kbind_ret _ _ _ _ _ (kern_word _ _ _ F2)), (kbind_ret _ _ _ _ _ (kern_word _ _ _ F3)),
    (kbind_ret _ _ _ _ _ (kern_word _ _ _ F4)), (kbind_ret _ _ _ _ _ (kern_word _ _ _ F5)).
Qed.

Lemma bad_call_run regs s cs rax a1 a2 a3 t e : frame s regs cs rax a1 a2 a3 → console_ok (c_disp s) →
  (∀ n, 0 ≤ arg a1 a2 a3 n < 2 ^ 64) → 12 ≤ u32 rax < 1000000000 → call_error (u32 rax) (arg a1 a2 a3) = Some e →
  k_current (core s) ≠ 0 → k_tasks (core s) !! k_current (core s) = Some t → unsignalled t cs = true →
  ∃ d, syscall_handler current_scheduler junk regs s = Ret tt (answered regs e d s) ∧ console_ok d.
Proof.
  intros Fr Hd Ha Hn He Hc Ht Hu. rewrite (handler_dispatch _ _ _ _ _ _ _ Fr).
  destruct (dispatch_refuses regs (u32 rax) a1 a2 a3 (cs =? 27) e Ha Hn He s rax Hd (fr_rax _ _ _ _ _ _ _ Fr)) as (d & E & Hd').
  exists d. split; [|done]. rewrite (kbind_ret _ _ _ _ _ E). unfold kern, Keyboard.task, Uabi.core.
  rewrite (no_signal_run (core (answered regs e d s)) regs t cs); [done|done|done| |done].
  cbn. rewrite lookup_insert_ne by (unfold REG_RAX, REG_CS; lia). apply Fr.
Qed.


(** A number of ten digits overruns the ten bytes reserved to print it. *)
Lemma unknown_call_overflow regs s cs rax a1 a2 a3 : frame s regs cs rax a1 a2 a3 → console_ok (c_disp s) →
  1000000000 ≤ u32 rax < 2147483648 → syscall_handler current_scheduler junk regs s = Fault.
Proof.
  intros Fr Hd Hn. rewrite (handler_dispatch _ _ _ _ _ _ _ Fr). unfold dispatch, file_calls, process_calls, console_calls, info_calls, device_calls.
  replace (u32 rax <=? 11) with false by (symmetry; apply Z.leb_gt; lia).
  repeat match goal with |- context [u32 rax =? ?k] => replace (u32 rax =? k) with false by (symmetry; apply Z.eqb_neq; lia) end.
  destruct (print_prints (str "[VALIDATE FAIL] Unknown syscall: "%string)) with (s := s) as (d & E & _); [apply (bool_decide_unpack _); by vm_compute|done|].
  unfold kbind at 1. rewrite (kbind_ret _ _ _ _ _ E). unfold print_sysno, kbind, kget_opt. rewrite s32_small, int_to_ascii_overflow by (rewrite ?junk_length; lia). done.
Qed.

End inv.

(** ** A witness: [read] with a descriptor that is out of range *)

#[local] Instance no_services : Services unit :=
  {| svc_execve := λ _ _ _, kret (-1); svc_dev_count := kret 0; svc_dev := λ _, kret None; svc_mount := λ _ _, kret (-1) |}.

Definition call_core : kst unit :=
  with_k_current 16 (with_k_tasks {[16 := demo_task 1000]}
    (with_k_mem {[100000 + REG_CS := 27; 100000 + REG_RAX := 21; 100000 + REG_RBX := 99; 100000 + REG_RCX := 4096; 100000 + REG_RDX := 8]} demo_state)).
Definition calling : con (ksys unit) := Con kbd_init vga_blank (Ksys call_core demo_pmm 0) [].

