(* ===== verification/Usb.v ===== *)
(** * USB core

    Models [kernel/modules/usb/usb_core.c]: routing of transfers to a host
    controller, the standard requests, the parser of configuration descriptors, the
    class drivers and enumeration.  The controllers ([ehci.c], [uhci.c]) are records
    of operations [hc_ops] on a bus state, given by the class [UsbBus]. *)

From stdpp Require Import base numbers list strings.
From Stdlib Require Import ZArith Lia.
From S2P Require Import Prelude CString Bytes Sched Task Block Display Console.

#[local] Open Scope Z_scope.
#[local] Open Scope kernel_scope.

Definition USB_DIR_OUT : Z := 0.
Definition USB_DIR_IN : Z := 1.
Definition USB_MAX_DEVICES : Z := 16.
Definition USB_MAX_ENDPOINTS : Z := 16.
Definition USB_MAX_CLASS_DRIVERS : Z := 8.
Definition HC_EHCI : Z := 1.
Definition HC_UHCI : Z := 2.
Definition USB_DESC_DEVICE : Z := 1.
Definition USB_DESC_CONFIGURATION : Z := 2.
Definition USB_DESC_INTERFACE : Z := 4.
Definition USB_DESC_ENDPOINT : Z := 5.
Definition USB_REQ_SET_ADDRESS : Z := 5.
Definition USB_REQ_GET_DESCRIPTOR : Z := 6.
Definition USB_REQ_SET_CONFIGURATION : Z := 9.
Definition PORT_CONNECTED : Z := 1.
Definition PORTSC_ENABLED : Z := 4.
Definition UHCI_PORT_LOW_SPEED : Z := 256.

Record usb_setup_packet_t := Setup { bmRequestType : Z; bRequest : Z; wValue : Z; wIndex : Z; wLength : Z }.
Record usb_endpoint_t := UEp { ep_address : Z; ep_type : Z; ep_max_packet : Z; ep_interval : Z; ep_toggle : Z }.
Definition zero_ep : usb_endpoint_t := UEp 0 0 0 0 0.
(** A class driver; its [probe] is known by its address. *)
Record usb_class_driver_t := UDriver { drv_name : list Z; match_class : Z; match_subclass : Z; match_protocol : Z; drv_probe : Z }.

(** A device: [ud_ids] is [vendor_id], [product_id], [bcd_device]; [ud_class] and
    [ud_if] are class, subclass and protocol of the device and of its first interface;
    [ud_driver_data] is a slot of the class driver. *)
Record usb_device_t : Type := UDev {
  ud_address : Z;
  ud_speed : Z;
  ud_port : Z;
  ud_configured : Z;
  ud_ids : Z * Z * Z;
  ud_class : Z * Z * Z;
  ud_max_packet_0 : Z;
  ud_if : Z * Z * Z;
  ud_if_number : Z;
  ud_endpoints : list usb_endpoint_t;
  ud_num_endpoints : Z;
  ud_driver_data : option Z }.

Definition with_ud_address (v : Z) (x : usb_device_t) : usb_device_t :=
  {| ud_address := v; ud_speed := ud_speed x; ud_port := ud_port x; ud_configured :=
     ud_configured x; ud_ids := ud_ids x; ud_class := ud_class x; ud_max_packet_0 :=
     ud_max_packet_0 x; ud_if := ud_if x; ud_if_number := ud_if_number x; ud_endpoints
     := ud_endpoints x; ud_num_endpoints := ud_num_endpoints x; ud_driver_data :=
     ud_driver_data x |}.
Definition with_ud_speed (v : Z) (x : usb_device_t) : usb_device_t :=
  {| ud_address := ud_address x; ud_speed := v; ud_port := ud_port x; ud_configured :=
     ud_configured x; ud_ids := ud_ids x; ud_class := ud_class x; ud_max_packet_0 :=
     ud_max_packet_0 x; ud_if := ud_if x; ud_if_number := ud_if_number x; ud_endpoints
     := ud_endpoints x; ud_num_endpoints := ud_num_endpoints x; ud_driver_data :=
     ud_driver_data x |}.
Definition with_ud_configured (v : Z) (x : usb_device_t) : usb_device_t :=
  {| ud_address := ud_address x; ud_speed := ud_speed x; ud_port := ud_port x;
     ud_configured := v; ud_ids := ud_ids x; ud_class := ud_class x; ud_max_packet_0
     := ud_max_packet_0 x; ud_if := ud_if x; ud_if_number := ud_if_number x;
     ud_endpoints := ud_endpoints x; ud_num_endpoints := ud_num_endpoints x;
     ud_driver_data := ud_driver_data x |}.
Definition with_ud_ids (v : Z * Z * Z) (x : usb_device_t) : usb_device_t :=
  {| ud_address := ud_address x; ud_speed := ud_speed x; ud_port := ud_port x;
     ud_configured := ud_configured x; ud_ids := v; ud_class := ud_class x;
     ud_max_packet_0 := ud_max_packet_0 x; ud_if := ud_if x; ud_if_number :=
     ud_if_number x; ud_endpoints := ud_endpoints x; ud_num_endpoints :=
     ud_num_endpoints x; ud_driver_data := ud_driver_data x |}.
Definition with_ud_class (v : Z * Z * Z) (x : usb_device_t) : usb_device_t :=
  {| ud_address := ud_address x; ud_speed := ud_speed x; ud_port := ud_port x;
     ud_configured := ud_configured x; ud_ids := ud_ids x; ud_class := v;
     ud_max_packet_0 := ud_max_packet_0 x; ud_if := ud_if x; ud_if_number :=
     ud_if_number x; ud_endpoints := ud_endpoints x; ud_num_endpoints :=
     ud_num_endpoints x; ud_driver_data := ud_driver_data x |}.
Definition with_ud_max_packet_0 (v : Z) (x : usb_device_t) : usb_device_t :=
  {| ud_address := ud_address x; ud_speed := ud_speed x; ud_port := ud_port x;
     ud_configured := ud_configured x; ud_ids := ud_ids x; ud_class := ud_class x;
     ud_max_packet_0 := v; ud_if := ud_if x; ud_if_number := ud_if_number x;
     ud_endpoints := ud_endpoints x; ud_num_endpoints := ud_num_endpoints x;
     ud_driver_data := ud_driver_data x |}.
Definition with_ud_if (v : Z * Z * Z) (x : usb_device_t) : usb_device_t :=
  {| ud_address := ud_address x; ud_speed := ud_speed x; ud_port := ud_port x;
     ud_configured := ud_configured x; ud_ids := ud_ids x; ud_class := ud_class x;
     ud_max_packet_0 := ud_max_packet_0 x; ud_if := v; ud_if_number := ud_if_number x;
     ud_endpoints := ud_endpoints x; ud_num_endpoints := ud_num_endpoints x;
     ud_driver_data := ud_driver_data x |}.
Definition with_ud_if_number (v : Z) (x : usb_device_t) : usb_device_t :=
  {| ud_address := ud_address x; ud_speed := ud_speed x; ud_port := ud_port x;
     ud_configured := ud_configured x; ud_ids := ud_ids x; ud_class := ud_class x;
     ud_max_packet_0 := ud_max_packet_0 x; ud_if := ud_if x; ud_if_number := v;
     ud_endpoints := ud_endpoints x; ud_num_endpoints := ud_num_endpoints x;
     ud_driver_data := ud_driver_data x |}.
Definition with_ud_endpoints (v : list usb_endpoint_t) (x : usb_device_t) : usb_device_t :=
  {| ud_address := ud_address x; ud_speed := ud_speed x; ud_port := ud_port x;
     ud_configured := ud_configured x; ud_ids := ud_ids x; ud_class := ud_class x;
     ud_max_packet_0 := ud_max_packet_0 x; ud_if := ud_if x; ud_if_number :=
     ud_if_number x; ud_endpoints := v; ud_num_endpoints := ud_num_endpoints x;
     ud_driver_data := ud_driver_data x |}.
Definition with_ud_num_endpoints (v : Z) (x : usb_device_t) : usb_device_t :=
  {| ud_address := ud_address x; ud_speed := ud_speed x; ud_port := ud_port x;
     ud_configured := ud_configured x; ud_ids := ud_ids x; ud_class := ud_class x;
     ud_max_packet_0 := ud_max_packet_0 x; ud_if := ud_if x; ud_if_number :=
     ud_if_number x; ud_endpoints := ud_endpoints x; ud_num_endpoints := v;
     ud_driver_data := ud_driver_data x |}.
Definition with_ud_driver_data (v : option Z) (x : usb_device_t) : usb_device_t :=
  {| ud_address := ud_address x; ud_speed := ud_speed x; ud_port := ud_port x;
     ud_configured := ud_configured x; ud_ids := ud_ids x; ud_class := ud_class x;
     ud_max_packet_0 := ud_max_packet_0 x; ud_if := ud_if x; ud_if_number :=
     ud_if_number x; ud_endpoints := ud_endpoints x; ud_num_endpoints :=
     ud_num_endpoints x; ud_driver_data := v |}.

Definition zero_dev (port : Z) : usb_device_t := UDev 0 0 port 0 (0, 0, 0) (0, 0, 0) 0 (0, 0, 0) 0 (replicate 16 zero_ep) 0 None.

(** The operations of a host controller.  A transfer takes the bytes to send and
    returns a code with the bytes received; a bulk transfer takes and returns the
    data toggle. *)
Record hc_ops (B : Type) := HcOps {
  hc_init : kM B Z;
  hc_port_count : kM B Z;
  hc_port_status : Z → kM B Z;
  hc_port_reset : Z → kM B unit;
  hc_control_transfer : Z → Z → usb_setup_packet_t → list Z → Z → Z → kM B (Z * list Z);
  hc_bulk_transfer : Z → Z → list Z → Z → Z → Z → kM B (Z * list Z * Z) }.
Arguments hc_init {B}. Arguments hc_port_count {B}. Arguments hc_port_status {B}. Arguments hc_port_reset {B}.
Arguments hc_control_transfer {B}. Arguments hc_bulk_transfer {B}.
Class UsbBus (B : Type) := { ehci : hc_ops B; uhci : hc_ops B }.

(** The static variables of [usb_core.c], with the state [B] of the host controllers
  and the state [M] of the class drivers *)
Record usb (B : Type) (M : Type): Type := Usb {
  u_bus : B;
  u_drv : M;
  u_devs : list usb_device_t;
  u_num : Z;
  u_next : Z;
  u_hc : list Z;
  u_drivers : list usb_class_driver_t;
  u_ehci : bool;
  u_uhci : bool }.
Arguments Usb {B M}.
Arguments u_bus {B M}.
Arguments u_drv {B M}.
Arguments u_devs {B M}.
Arguments u_num {B M}.
Arguments u_next {B M}.
Arguments u_hc {B M}.
Arguments u_drivers {B M}.
Arguments u_ehci {B M}.
Arguments u_uhci {B M}.

Definition with_u_bus {B : Type} {M : Type} (v : B) (x : usb B M) : usb B M :=
  {| u_bus := v; u_drv := u_drv x; u_devs := u_devs x; u_num := u_num x; u_next :=
     u_next x; u_hc := u_hc x; u_drivers := u_drivers x; u_ehci := u_ehci x; u_uhci :=
     u_uhci x |}.
Definition with_u_drv {B : Type} {M : Type} (v : M) (x : usb B M) : usb B M :=
  {| u_bus := u_bus x; u_drv := v; u_devs := u_devs x; u_num := u_num x; u_next :=
     u_next x; u_hc := u_hc x; u_drivers := u_drivers x; u_ehci := u_ehci x; u_uhci :=
     u_uhci x |}.
Definition with_u_devs {B : Type} {M : Type} (v : list usb_device_t) (x : usb B M) : usb B M :=
  {| u_bus := u_bus x; u_drv := u_drv x; u_devs := v; u_num := u_num x; u_next :=
     u_next x; u_hc := u_hc x; u_drivers := u_drivers x; u_ehci := u_ehci x; u_uhci :=
     u_uhci x |}.
Definition with_u_num {B : Type} {M : Type} (v : Z) (x : usb B M) : usb B M :=
  {| u_bus := u_bus x; u_drv := u_drv x; u_devs := u_devs x; u_num := v; u_next :=
     u_next x; u_hc := u_hc x; u_drivers := u_drivers x; u_ehci := u_ehci x; u_uhci :=
     u_uhci x |}.
Definition with_u_next {B : Type} {M : Type} (v : Z) (x : usb B M) : usb B M :=
  {| u_bus := u_bus x; u_drv := u_drv x; u_devs := u_devs x; u_num := u_num x; u_next
     := v; u_hc := u_hc x; u_drivers := u_drivers x; u_ehci := u_ehci x; u_uhci :=
     u_uhci x |}.
Definition with_u_hc {B : Type} {M : Type} (v : list Z) (x : usb B M) : usb B M :=
  {| u_bus := u_bus x; u_drv := u_drv x; u_devs := u_devs x; u_num := u_num x; u_next
     := u_next x; u_hc := v; u_drivers := u_drivers x; u_ehci := u_ehci x; u_uhci :=
     u_uhci x |}.
Definition with_u_drivers {B : Type} {M : Type} (v : list usb_class_driver_t) (x : usb B M) : usb B M :=
  {| u_bus := u_bus x; u_drv := u_drv x; u_devs := u_devs x; u_num := u_num x; u_next
     := u_next x; u_hc := u_hc x; u_drivers := v; u_ehci := u_ehci x; u_uhci := u_uhci
     x |}.
Definition with_u_ehci {B : Type} {M : Type} (v : bool) (x : usb B M) : usb B M :=
  {| u_bus := u_bus x; u_drv := u_drv x; u_devs := u_devs x; u_num := u_num x; u_next
     := u_next x; u_hc := u_hc x; u_drivers := u_drivers x; u_ehci := v; u_uhci :=
     u_uhci x |}.
Definition with_u_uhci {B : Type} {M : Type} (v : bool) (x : usb B M) : usb B M :=
  {| u_bus := u_bus x; u_drv := u_drv x; u_devs := u_devs x; u_num := u_num x; u_next
     := u_next x; u_hc := u_hc x; u_drivers := u_drivers x; u_ehci := u_ehci x; u_uhci
     := v |}.


(** ** Configuration descriptors *)

(** [n] bytes at [i] of a buffer; past its end the read faults *)
Definition field (n : nat) (buf : list Z) (i : Z) : option Z :=
  if (0 <=? i) && (i + Z.of_nat n <=? Z.of_nat (length buf)) then Some (rd n buf i) else None.

Definition parse_interface (buf : list Z) (o : Z) (dev : usb_device_t) : option usb_device_t :=
  num ← field 1 buf (o + 2);
  if num =? 0 then
    c ← field 1 buf (o + 5);
    s ← field 1 buf (o + 6);
    p ← field 1 buf (o + 7);
    Some (with_ud_if_number num (with_ud_if (c, s, p) dev))
  else Some dev.
Definition parse_endpoint (buf : list Z) (o : Z) (dev : usb_device_t) : option usb_device_t :=
  if ud_num_endpoints dev <? USB_MAX_ENDPOINTS then
    a ← field 1 buf (o + 2);
    t ← field 1 buf (o + 3);
    m ← field 2 buf (o + 4);
    i ← field 1 buf (o + 6);
    old ← zlookup (ud_endpoints dev) (ud_num_endpoints dev);
    eps ← zset (ud_endpoints dev) (ud_num_endpoints dev) (UEp a (Z.land t 3) m i (ep_toggle old));
    Some (with_ud_num_endpoints (ud_num_endpoints dev + 1) (with_ud_endpoints eps dev))
  else Some dev.
(** Each turn but the last moves on by a length that is not 0, so [total_len + 1]
    turns are enough. *)
Fixpoint parse_loop (fuel : nat) (buf : list Z) (total_len offset : Z) (dev : usb_device_t) : option usb_device_t :=
  match fuel with
  | O => None
  | S fuel =>
      if offset <? total_len then
        desc_len ← field 1 buf offset;
        desc_type ← field 1 buf (offset + 1);
        if desc_len =? 0 then Some dev
        else
          dev ← (if (desc_type =? USB_DESC_INTERFACE) && (9 <=? desc_len) then parse_interface buf offset dev else Some dev);
          dev ← (if (desc_type =? USB_DESC_ENDPOINT) && (7 <=? desc_len) then parse_endpoint buf offset dev else Some dev);
          parse_loop fuel buf total_len (u16 (offset + desc_len)) dev
      else Some dev
  end.
Definition usb_parse_config (dev : usb_device_t) (buf : list Z) (total_len : Z) : option usb_device_t :=
  parse_loop (S (Z.to_nat total_len)) buf total_len 0 dev.

(** ** Transfers

    [junk] is the content of a local array, [kmalloc] what the heap gives for a size. *)

Section core.
Context {B M : Type} {Bus : UsbBus B}.
Context (junk : nat → list Z) (kmalloc : Z → option (list Z)).

Definition bus {A} (m : kM B A) : kM (usb B M * display) A := own (λ u,
  match m (u_bus u) with
  | Ret a b => Ret a (with_u_bus b u)
  | Hang b => Hang (with_u_bus b u)
  | Panic b => Panic (with_u_bus b u)
  | Fault => Fault
  | NoFuel => NoFuel
  end).
Definition say_str (s : string) : kM (usb B M * display) unit := say (str s).
Definition say_line (s : string) : kM (usb B M * display) unit := say (str s ++ [10]).
Definition upd (f : usb B M → usb B M) : kM (usb B M * display) unit := own (kmodify f).
Definition get_dev (i : Z) : kM (usb B M * display) usb_device_t := kget_opt (λ s, zlookup (u_devs s.1) i).
Definition put_dev (i : Z) (d : usb_device_t) : kM (usb B M * display) unit :=
  let* l := kget_opt (λ s, zset (u_devs s.1) i d) in upd (with_u_devs l).
(** [memory_copy] of what a transfer received into the caller's buffer *)
Definition received (buf got : list Z) (len : Z) : list Z := splice buf 0 (take (Z.to_nat len) got).

(** The controller of device [i] *)
Definition hc_of (i : Z) : kM (usb B M * display) (hc_ops B) :=
  let* t := kget_opt (λ s, zlookup (u_hc s.1) i) in kret (if t =? HC_UHCI then uhci else ehci).

(** [data] is the caller's buffer, [[]] for a null pointer; the buffer after the
    transfer is returned. *)
Definition usb_control_msg (i request_type request value index : Z) (data : list Z) (len : Z) : kM (usb B M * display) (Z * list Z) :=
  let setup := Setup request_type request value index len in
  let direction := if has request_type 128 then USB_DIR_IN else USB_DIR_OUT in
  let* d := get_dev i in
  let* hc := hc_of i in
  let* (rc, got) := bus (hc_control_transfer hc (ud_address d) 0 setup data len direction) in
  kret (rc, if direction =? USB_DIR_IN then received data got len else data).

Fixpoint find_ep (eps : list usb_endpoint_t) (n : nat) (i : Z) (ep_addr : Z) : option Z :=
  match n, eps with
  | S n, e :: eps => if ep_address e =? ep_addr then Some i else find_ep eps n (i + 1) ep_addr
  | _, _ => None
  end.
Definition usb_get_endpoint (d : usb_device_t) (ep_addr : Z) : option Z :=
  find_ep (ud_endpoints d) (Z.to_nat (ud_num_endpoints d)) 0 ep_addr.

Definition usb_bulk_msg (i ep : Z) (data : list Z) (len direction : Z) : kM (usb B M * display) (Z * list Z) :=
  let* d := get_dev i in
  let e := usb_get_endpoint d ep in
  let* toggle := kget_opt (λ _, match e with None => Some 0 | Some k => ep_toggle <$> zlookup (ud_endpoints d) k end) in
  let* hc := hc_of i in
  let* (result, got, toggle) := bus (hc_bulk_transfer hc (ud_address d) ep data len direction toggle) in
  (match e with
   | Some k =>
       if result =? KABI_SUCCESS then
         let* d := get_dev i in
         let* old := kget_opt (λ _, zlookup (ud_endpoints d) k) in
         let* eps := kget_opt (λ _, zset (ud_endpoints d) k (UEp (ep_address old) (ep_type old) (ep_max_packet old) (ep_interval old) toggle)) in
         put_dev i (with_ud_endpoints eps d)
       else kret tt
   | None => kret tt
   end) ;;;
  kret (result, if direction =? USB_DIR_IN then received data got len else data).

(** ** Standard requests *)

Definition usb_get_descriptor (i type index : Z) (buf : list Z) (len : Z) : kM (usb B M * display) (Z * list Z) :=
  usb_control_msg i 128 USB_REQ_GET_DESCRIPTOR (u16 (Z.lor (Z.shiftl type 8) index)) 0 buf len.
Definition usb_set_address (i addr : Z) : kM (usb B M * display) Z :=
  let* (rc, _) := usb_control_msg i 0 USB_REQ_SET_ADDRESS addr 0 [] 0 in
  (if rc =? KABI_SUCCESS then let* d := get_dev i in put_dev i (with_ud_address addr d) else kret tt) ;;;
  kret rc.
Definition usb_set_configuration (i config : Z) : kM (usb B M * display) Z :=
  let* (rc, _) := usb_control_msg i 0 USB_REQ_SET_CONFIGURATION config 0 [] 0 in
  (if rc =? KABI_SUCCESS then let* d := get_dev i in put_dev i (with_ud_configured 1 d) else kret tt) ;;;
  kret rc.

(** ** Class drivers *)

Definition usb_register_class_driver (d : usb_class_driver_t) : kM (usb B M * display) Z :=
  let* s := kget in
  if USB_MAX_CLASS_DRIVERS <=? Z.of_nat (length (u_drivers s.1)) then kret KABI_ENOMEM
  else
    upd (λ u, with_u_drivers (u_drivers u ++ [d]) u) ;;;
    say_str "[USB] Registered class driver: " ;;; say (drv_name d) ;;; say [10] ;;;
    kret KABI_SUCCESS.

(** ** Enumeration *)

Definition say_num (n : Z) : kM (usb B M * display) unit := say_dec (s32 n) (junk 16).
Definition say_0x (n : Z) : kM (usb B M * display) unit := say_hex n (junk 16).

Definition read_device_desc (i : Z) (desc : list Z) : kM (usb B M * display) (option Z) :=
  let* d := get_dev i in
  put_dev i (with_ud_class (rd 1 desc 4, rd 1 desc 5, rd 1 desc 6) (with_ud_ids (rd 2 desc 8, rd 2 desc 10, rd 2 desc 12) d)) ;;;
  say_str "[USB] Device: vendor=0x" ;;; say_0x (rd 2 desc 8) ;;;
  say_str " product=0x" ;;; say_0x (rd 2 desc 10) ;;;
  say_str " class=0x" ;;; say_0x (rd 1 desc 4) ;;; say [10] ;;;
  kret None.

(** Step 4: the configuration, its interface and endpoints *)
Definition read_config (i : Z) : kM (usb B M * display) unit :=
  let* (rc, cfg) := usb_get_descriptor i USB_DESC_CONFIGURATION 0 (junk 9) 9 in
  if negb (rc =? KABI_SUCCESS) then say_line "[USB] Failed to get config descriptor"
  else
    let total := Z.min (rd 2 cfg 2) 256 in
    (match kmalloc total with
     | None => kret tt
     | Some cfg_buf =>
         let* (rc, cfg_buf) := usb_get_descriptor i USB_DESC_CONFIGURATION 0 cfg_buf total in
         if rc =? KABI_SUCCESS then
           let* d := get_dev i in
           let* d := kget_opt (λ _, usb_parse_config d cfg_buf total) in
           put_dev i d ;;;
           say_str "[USB] Interface: class=0x" ;;; say_0x (ud_if d).1.1 ;;;
           say_str " sub=0x" ;;; say_0x (ud_if d).1.2 ;;;
           say_str " proto=0x" ;;; say_0x (ud_if d).2 ;;;
           say_str " endpoints=" ;;; say_num (ud_num_endpoints d) ;;; say [10]
         else kret tt
     end) ;;;
    let* _ := usb_set_configuration i (rd 1 cfg 5) in kret tt.

(** Steps 1 to 3, for the device in slot [i]; [Some] is an early return *)
Definition read_device (i : Z) : kM (usb B M * display) (option Z) :=
  let* (rc, desc) := usb_get_descriptor i USB_DESC_DEVICE 0 (replicate 18 0) 8 in
  if negb (rc =? KABI_SUCCESS) then say_line "[USB] Failed to get device descriptor" ;;; kret (Some rc)
  else
    let* d := get_dev i in
    put_dev i (with_ud_max_packet_0 (if rd 1 desc 7 =? 0 then 8 else rd 1 desc 7) d) ;;;
    let* s := kget in
    let new_addr := u_next s.1 in
    upd (with_u_next (u8 (new_addr + 1))) ;;;
    let* rc := usb_set_address i new_addr in
    if negb (rc =? KABI_SUCCESS) then say_line "[USB] Failed to set address" ;;; kret (Some rc)
    else
      say_str "[USB] Assigned address " ;;; say_num new_addr ;;; say [10] ;;;
      let* (rc, desc) := usb_get_descriptor i USB_DESC_DEVICE 0 desc 18 in
      if negb (rc =? KABI_SUCCESS) then say_line "[USB] Failed to get full device descriptor" ;;; kret (Some rc)
      else read_device_desc i desc.

Definition hc_by_type (hc_type : Z) : hc_ops B := if hc_type =? HC_EHCI then ehci else uhci.

(** [usb_enumerate_device_on_hc] up to the probe: the new device's slot, or the
    error *)
Definition enumerate (port hc_type : Z) : kM (usb B M * display) (Z + Z) :=
  let* s := kget in
  if USB_MAX_DEVICES <=? u_num s.1 then say_line "[USB] Max devices reached" ;;; kret (inl KABI_ENOMEM)
  else
    say_str "[USB] Enumerating device on " ;;; say_str (if hc_type =? HC_EHCI then "EHCI" else "UHCI") ;;;
    say_str " port " ;;; say_num port ;;; say [10] ;;;
    bus (hc_port_reset (hc_by_type hc_type) port) ;;;
    let* portsc := bus (hc_port_status (hc_by_type hc_type) port) in
    if negb (has portsc PORT_CONNECTED) then say_line "[USB] No device after port reset" ;;; kret (inl KABI_ENOENT)
    else
      let i := u_num s.1 in
      let speed := if hc_type =? HC_EHCI then (if has portsc PORTSC_ENABLED then 2 else 1) else (if has portsc UHCI_PORT_LOW_SPEED then 0 else 1) in
      put_dev i (with_ud_speed speed (zero_dev (u8 port))) ;;;
      let* l := kget_opt (λ s, zset (u_hc s.1) i hc_type) in
      upd (with_u_hc l) ;;;
      let* e := read_device i in
      match e with
      | Some rc => kret (inl rc)
      | None => read_config i ;;; upd (λ u, with_u_num (u_num u + 1) u) ;;; kret (inr i)
      end.

End core.

(** ** Probing and start

    A probe also uses the block and file-system layers, whose state [K] contains
    the bus: [up] runs a computation of the core there. *)

Section init.
Context {B M K : Type} {Bus : UsbBus B}.
Context (junk : nat → list Z) (kmalloc : Z → option (list Z)).
Context (up : ∀ A, kM (usb B M * display) A → kM K A) (probe : Z → Z → kM K Z).
Arguments up {A}.

Definition matches (d : usb_class_driver_t) (dev : usb_device_t) : bool :=
  (match_class d =? (ud_if dev).1.1) && (match_subclass d =? (ud_if dev).1.2) && (match_protocol d =? (ud_if dev).2).
Fixpoint probe_drivers (ds : list usb_class_driver_t) (i : Z) : kM K bool :=
  match ds with
  | [] => kret false
  | d :: ds =>
      let* dev := up (get_dev i) in
      if matches d dev then
        up (say_str "[USB] Matched driver '" ;;; say (drv_name d) ;;; say_line "' for device") ;;;
        if drv_probe d =? 0 then probe_drivers ds i
        else
          let* rc := probe (drv_probe d) i in
          if rc =? KABI_SUCCESS then kret true else probe_drivers ds i
      else probe_drivers ds i
  end.
Definition usb_probe_device (i : Z) : kM K unit :=
  let* s := up kget in
  let* claimed := probe_drivers (u_drivers s.1) i in
  if claimed then kret tt
  else
    let* dev := up (get_dev i) in
    up (say_str "[USB] No driver matched for device class=0x" ;;; say_0x junk (ud_if dev).1.1 ;;;
        say_str " sub=0x" ;;; say_0x junk (ud_if dev).1.2 ;;; say_str " proto=0x" ;;; say_0x junk (ud_if dev).2 ;;; say [10]).

Definition usb_enumerate_device_on_hc (port hc_type : Z) : kM K Z :=
  let* r := up (enumerate junk kmalloc port hc_type) in
  match r with inl rc => kret rc | inr i => usb_probe_device i ;;; kret KABI_SUCCESS end.
Definition usb_enumerate_device (port : Z) : kM K Z := usb_enumerate_device_on_hc port HC_EHCI.

Definition usb_get_device (index : Z) (u : usb B M) : option usb_device_t :=
  if (index <? 0) || (u_num u <=? index) then None else zlookup (u_devs u) index.

Fixpoint enumerate_ports (n : nat) (i hc_type : Z) : kM K unit :=
  match n with
  | O => kret tt
  | S n =>
      let* portsc := up (bus (hc_port_status (hc_by_type hc_type) i)) in
      (if has portsc PORT_CONNECTED then usb_enumerate_device_on_hc i hc_type ;;; kret tt else kret tt) ;;;
      enumerate_ports n (i + 1) hc_type
  end.
Definition start_hc (hc_type : Z) : kM K bool :=
  let* rc := up (bus (hc_init (hc_by_type hc_type))) in
  if rc =? KABI_SUCCESS then
    up (upd (if hc_type =? HC_EHCI then with_u_ehci true else with_u_uhci true)) ;;;
    let* nports := up (bus (hc_port_count (hc_by_type hc_type))) in
    enumerate_ports (Z.to_nat nports) 0 hc_type ;;; kret true
  else kret false.
Definition usb_core_init : kM K Z :=
  up (say_line "[USB] USB Core initializing..." ;;;
      upd (λ u, with_u_hc (replicate 16 0) (with_u_devs (replicate 16 (zero_dev 0)) (with_u_next 1 (with_u_num 0 u))))) ;;;
  start_hc HC_EHCI ;;;
  start_hc HC_UHCI ;;;
  let* s := up kget in
  if negb (u_ehci s.1) && negb (u_uhci s.1) then up (say_line "[USB] No USB host controllers found") ;;; kret KABI_ENOENT
  else
    up (say_str "[USB] Enumeration complete: " ;;; say_num junk (u_num s.1) ;;; say_line " device(s) found") ;;;
    kret KABI_SUCCESS.

End init.
