(* ===== verification/UsbInv.v ===== *)
(** * USB descriptors

    The parser of [Usb] reads back every configuration that is laid out as the USB
    standard says, and ends on every buffer of the length it is given. *)

From stdpp Require Import base numbers list strings.
From Stdlib Require Import ZArith Lia.
From S2P Require Import Prelude CString Bytes Usb.

#[local] Open Scope Z_scope.

Inductive usb_desc : Type :=
| InterfaceDesc (number alternate endpoints cls subclass protocol name : Z)
| EndpointDesc (address attributes max_packet interval : Z)
| OtherDesc (type : Z) (payload : list Z).
Definition desc_bytes (d : usb_desc) : list Z :=
  match d with
  | InterfaceDesc n a e c s p i => [9; 4; n; a; e; c; s; p; i]
  | EndpointDesc a t m i => [7; 5; a; t] ++ le_bytes 2 m ++ [i]
  | OtherDesc ty p => Z.of_nat (2 + length p) :: ty :: p
  end.
Definition desc_fits (d : usb_desc) : Prop :=
  match d with
  | InterfaceDesc _ _ _ _ _ _ _ => True
  | EndpointDesc _ _ m _ => 0 ≤ m < 65536
  | OtherDesc ty p => ty ≠ USB_DESC_INTERFACE ∧ ty ≠ USB_DESC_ENDPOINT ∧ (length p ≤ 253)%nat
  end.
Definition config_bytes (ds : list usb_desc) : list Z := concat (map desc_bytes ds).

(** The endpoints in order, and the class of the last alternate of interface 0 *)
Definition config_endpoints (ds : list usb_desc) : list usb_endpoint_t :=
  ds ≫= λ d, match d with EndpointDesc a t m i => [UEp a (Z.land t 3) m i 0] | _ => [] end.
Definition config_class (c0 : Z * Z * Z) (ds : list usb_desc) : Z * Z * Z :=
  foldl (λ c d, match d with InterfaceDesc 0 _ _ c s p _ => (c, s, p) | _ => c end) c0 ds.

Lemma desc_len d : desc_fits d → (2 ≤ length (desc_bytes d) ≤ 255)%nat ∧ desc_bytes d !! 0%nat = Some (Z.of_nat (length (desc_bytes d))).
Proof. destruct d; cbn; intros H; split; try done; lia. Qed.

Lemma field_app n pre l k : 0 ≤ k → k + Z.of_nat n ≤ Z.of_nat (length l) → field n (pre ++ l) (Z.of_nat (length pre) + k) = Some (rd n l k).
Proof.
  intros Hk Hn. unfold field. rewrite length_app. replace (0 <=? Z.of_nat (length pre) + k) with true by (symmetry; apply Z.leb_le; lia).
  replace (Z.of_nat (length pre) + k + Z.of_nat n <=? _) with true by (symmetry; apply Z.leb_le; lia). cbn [andb]. f_equal. unfold rd, slice. do 2 f_equal.
  rewrite drop_app_ge by lia. f_equal. lia.
Qed.
Lemma rd_prefix n a b k : 0 ≤ k → k + Z.of_nat n ≤ Z.of_nat (length a) → rd n (a ++ b) k = rd n a k.
Proof. intros Hk Hn. unfold rd, slice. rewrite drop_app_le, take_app_le by (rewrite ?length_drop; lia). done. Qed.
Lemma rd_byte l k x : l !! Z.to_nat k = Some x → rd 1 l k = x.
Proof. intros H. unfold rd, slice. rewrite (drop_S _ _ _ H). change (x + 256 * 0 = x). lia. Qed.
Lemma field_desc n pre d rest k : 0 ≤ k → k + Z.of_nat n ≤ Z.of_nat (length (desc_bytes d)) →
  field n (pre ++ desc_bytes d ++ rest) (Z.of_nat (length pre) + k) = Some (rd n (desc_bytes d) k).
Proof. intros Hk Hn. rewrite field_app by (rewrite ?length_app; lia). f_equal. by apply rd_prefix. Qed.

(** [d] after the endpoints [eps] were read: a device that is otherwise [d0], with
    interface class [c]. *)
Record parsed (d0 : usb_device_t) (c : Z * Z * Z) (eps : list usb_endpoint_t) (d : usb_device_t) : Prop := {
  pa_num : ud_num_endpoints d = Z.of_nat (length (take 16 eps));
  pa_eps : ud_endpoints d = take 16 eps ++ replicate (16 - length eps) zero_ep;
  pa_if : ud_if d = c;
  pa_same : ud_address d = ud_address d0 ∧ ud_ids d = ud_ids d0 ∧ ud_class d = ud_class d0 ∧ ud_port d = ud_port d0 ∧ ud_driver_data d = ud_driver_data d0 }.

Lemma parse_interface_run pre rest n a e c s p i d0 cl eps d : parsed d0 cl eps d →
  ∃ d', parse_interface (pre ++ desc_bytes (InterfaceDesc n a e c s p i) ++ rest) (Z.of_nat (length pre)) d = Some d' ∧ parsed d0 (config_class cl [InterfaceDesc n a e c s p i]) eps d'.
Proof.
  intros H. unfold parse_interface. rewrite !field_desc by (cbn; lia). cbn [mbind option_bind desc_bytes].
  rewrite !(rd_byte _ _ n), !(rd_byte _ _ c), !(rd_byte _ _ s), !(rd_byte _ _ p) by done. destruct n; cbn; [|by exists d..].
  eexists. split; [done|]. destruct H. by split.
Qed.
Lemma parse_endpoint_run pre rest a t m i d0 cl eps d : 0 ≤ m < 65536 → parsed d0 cl eps d →
  ∃ d', parse_endpoint (pre ++ desc_bytes (EndpointDesc a t m i) ++ rest) (Z.of_nat (length pre)) d = Some d' ∧ parsed d0 cl (eps ++ config_endpoints [EndpointDesc a t m i]) d'.
Proof.
  intros Hm [N E I S]. change (config_endpoints [EndpointDesc a t m i]) with [UEp a (Z.land t 3) m i 0]. unfold parse_endpoint, USB_MAX_ENDPOINTS. rewrite length_take in N. destruct (Z.ltb_spec (ud_num_endpoints d) 16) as [L|L].
  - rewrite !field_desc by (cbn; lia). assert (rd 2 (desc_bytes (EndpointDesc a t m i)) 4 = m) as ->.
    { change (le_val (le_bytes 2 m) = m). rewrite le_val_bytes. by apply Z.mod_small. }
    cbn [mbind option_bind desc_bytes]. rewrite !(rd_byte _ _ a), !(rd_byte _ _ t), !(rd_byte _ _ i) by done. rewrite N. assert (length eps < 16)%nat as Le by lia. replace (16 `min` length eps)%nat with (length eps) by lia.
    rewrite take_ge in E by lia. destruct (16 - length eps)%nat as [|k] eqn:Ek; [lia|]. cbn [replicate] in E. rewrite E, zlookup_mid by done. cbn [mbind option_bind]. rewrite zset_mid by done. cbn [mbind option_bind]. eexists. split; [done|].
    split; cbn [with_ud_num_endpoints with_ud_endpoints ud_num_endpoints ud_endpoints ud_if ud_address ud_ids ud_class ud_port ud_driver_data]; [|rewrite length_app; cbn [length]|done..].
    + rewrite take_ge by (rewrite length_app; cbn [length]; lia). rewrite length_app. cbn [length]. lia.
    + rewrite take_ge by (rewrite length_app; cbn [length]; lia). replace (16 - (length eps + 1))%nat with k by lia. by rewrite <-app_assoc.
  - exists d. split; [done|]. split; [|rewrite E|done|done].
    + rewrite N, length_take, length_app. lia.
    + rewrite take_app_le by lia. rewrite length_app. by rewrite !(proj2 (Nat.sub_0_le _ _)) by lia.
Qed.

Lemma config_class_cons c d ds : config_class (config_class c [d]) ds = config_class c (d :: ds).
Proof. done. Qed.
Lemma config_endpoints_cons d ds : config_endpoints (d :: ds) = config_endpoints [d] ++ config_endpoints ds.
Proof. change (d :: ds) with ([d] ++ ds). apply bind_app. Qed.

(** One turn of the loop at a descriptor *)
Lemma parse_step fuel pre d rest total d0 c eps dev : desc_fits d → Z.of_nat (length pre) < total → total ≤ 256 → parsed d0 c eps dev →
  ∃ dev', parse_loop (S fuel) (pre ++ desc_bytes d ++ rest) total (Z.of_nat (length pre)) dev =
      parse_loop fuel (pre ++ desc_bytes d ++ rest) total (Z.of_nat (length (pre ++ desc_bytes d))) dev' ∧
    parsed d0 (config_class c [d]) (eps ++ config_endpoints [d]) dev'.
Proof.
  intros Hd Hl Ht H. destruct (desc_len d Hd) as [Hn H0]. cbn [parse_loop]. replace (_ <? total) with true by (symmetry; by apply Z.ltb_lt).
  pose proof (field_desc 1 pre d rest 0) as F0. rewrite Z.add_0_r in F0. rewrite F0, !field_desc by lia. cbn [mbind option_bind]. rewrite (rd_byte _ 0 _ H0).
  replace (_ =? 0) with false by (symmetry; apply Z.eqb_neq; lia).
  replace (u16 (Z.of_nat (length pre) + Z.of_nat (length (desc_bytes d)))) with (Z.of_nat (length (pre ++ desc_bytes d))) by (rewrite length_app; unfold u16; rewrite Z.mod_small; lia).
  destruct d as [n a e cl s p i|a t m i|ty p].
  - destruct (parse_interface_run pre rest n a e cl s p i d0 c eps dev H) as (dev' & E & H'). exists dev'. split; [|by rewrite app_nil_r].
    rewrite (rd_byte _ 1 4) by done. cbn -[parse_loop parse_interface desc_bytes]. by rewrite E.
  - destruct (parse_endpoint_run pre rest a t m i d0 c eps dev Hd H) as (dev' & E & H'). exists dev'. split; [|done].
    rewrite (rd_byte _ 1 5) by done. change (7 <=? _) with true. change ((5 =? USB_DESC_INTERFACE) && _) with false. change ((5 =? USB_DESC_ENDPOINT) && true) with true. cbn [mbind option_bind]. by rewrite E.
  - exists dev. split; [|by rewrite app_nil_r]. rewrite (rd_byte _ 1 ty) by done. destruct Hd as (T1 & T2 & _).
    by rewrite (proj2 (Z.eqb_neq _ _) T1), (proj2 (Z.eqb_neq _ _) T2).
Qed.

Lemma parse_run ds : ∀ fuel pre d0 c eps dev, Forall desc_fits ds → Z.of_nat (length (pre ++ config_bytes ds)) ≤ 256 → (length ds < fuel)%nat → parsed d0 c eps dev →
  ∃ dev', parse_loop fuel (pre ++ config_bytes ds) (Z.of_nat (length (pre ++ config_bytes ds))) (Z.of_nat (length pre)) dev = Some dev' ∧
    parsed d0 (config_class c ds) (eps ++ config_endpoints ds) dev'.
Proof.
  induction ds as [|d ds IH]; intros [|fuel] pre d0 c eps dev F L Hf H; cbn [length] in Hf; try lia.
  { exists dev. cbn [parse_loop config_bytes map concat]. unfold config_bytes. cbn [map concat]. rewrite !app_nil_r, Z.ltb_irrefl. done. }
  apply Forall_cons in F as [Fd F]. pose proof (desc_len d Fd) as [Hn _]. change (config_bytes (d :: ds)) with (desc_bytes d ++ config_bytes ds) in *.
  destruct (parse_step fuel pre d (config_bytes ds) (Z.of_nat (length (pre ++ desc_bytes d ++ config_bytes ds))) d0 c eps dev) as (dev' & E & H'); [done|rewrite !length_app; lia|done|done|].
  rewrite E. rewrite <-config_class_cons, config_endpoints_cons, (app_assoc eps). rewrite app_assoc in L |- *. apply IH; [done|done|lia|done].
Qed.

(** The number of turns is bounded by the number of bytes. *)
Lemma config_length ds : Forall desc_fits ds → (length ds ≤ length (config_bytes ds))%nat.
Proof.
  induction 1 as [|d ds Hd _ IH]; [done|]. pose proof (desc_len d Hd). change (config_bytes (d :: ds)) with (desc_bytes d ++ config_bytes ds). rewrite length_app. cbn [length]. lia.
Qed.

(** C30. The parser of USB configurations reads back what the device describes: for
    every sequence of descriptors of at most 256 bytes it returns, the device's
    endpoints are the first 16 endpoint descriptors in order with their direction,
    type, packet size and interval and a cleared toggle, its class is that of the last
    alternate of interface 0, and its address, identity and driver are unchanged. *)
Theorem usb_config_roundtrip ds dev : Forall desc_fits ds → Z.of_nat (length (config_bytes ds)) ≤ 256 →
  ud_num_endpoints dev = 0 → ud_endpoints dev = replicate 16 zero_ep →
  ∃ dev', usb_parse_config dev (config_bytes ds) (Z.of_nat (length (config_bytes ds))) = Some dev' ∧
    parsed dev (config_class (ud_if dev) ds) (config_endpoints ds) dev'.
Proof.
  intros F L N E. unfold usb_parse_config. rewrite Nat2Z.id.
  apply (parse_run ds (S (length (config_bytes ds))) [] dev (ud_if dev) [] dev F L); [pose proof (config_length ds F); lia|]. split; [done|by rewrite E|done|done].
Qed.

(** A mass-storage device: a configuration header, an interface, two endpoints *)
Definition demo_config : list usb_desc :=
  [OtherDesc 2 [32; 0; 1; 1; 0; 128; 50]; InterfaceDesc 0 0 2 8 6 80 0; EndpointDesc 129 2 512 0; EndpointDesc 2 2 512 0].
Lemma usb_config_roundtrip_witness : ∃ dev', usb_parse_config (zero_dev 1) (config_bytes demo_config) 32 = Some dev' ∧
  parsed (zero_dev 1) (8, 6, 80) [UEp 129 2 512 0 0; UEp 2 2 512 0 0] dev'.
Proof. apply (usb_config_roundtrip demo_config (zero_dev 1)); [|done..]. repeat constructor; cbn; try lia; done. Defined.

(** A configuration that is cut off inside a descriptor makes the parser read past
    the buffer: the length is clamped to 256 and is not the descriptor's end. *)
Lemma truncated_config_faults dev : usb_parse_config dev [9; 4; 0; 0] 4 = None.
Proof. reflexivity. Qed.
