(* ===== verification/Fat.v ===== *)
(** * FAT32: the volume, the table and the directories

    Models [kernel/fs/fat32/fat32_bpb.c], [fat32_fat.c] and [fat32_file.c] over any
    block device.  A loop that follows a cluster chain has no bound in the code, and
    does not end on a cyclic chain: [fuel] bounds the clusters one loop visits, and
    [NoFuel] stands for a longer run. *)

From stdpp Require Import base numbers list gmap strings.
From Stdlib Require Import ZArith Lia.
From S2P Require Import Prelude CString Bytes Sched Task Block.

#[local] Open Scope Z_scope.

(** What the file system needs of the block layer: [kabi_block_read] and
    [kabi_block_write]. *)
Class BlockIO (B : Type) := {
  block_read : Z → Z → kM B (Z * list Z);
  block_write : Z → Z → list Z → kM B Z;
}.
#[export] Instance blk_io {H} `{SectorHw H} : BlockIO (blk H) :=
  {| block_read := kabi_block_read; block_write := kabi_block_write |}.

Record fat32_mount_t := mk_fmount {
  fm_part_lba_start : Z;
  fm_fat_lba_start : Z;
  fm_data_lba_start : Z;
  fm_sectors_per_cluster : Z;
  fm_bytes_per_sector : Z;
  fm_sectors_per_fat : Z;
  fm_root_cluster : Z }.

Definition FAT_ATTR_DIR : Z := 16.
Definition FAT_ATTR_ARCHIVE : Z := 32.
Definition FAT_ATTR_LFN : Z := 15.
Definition FAT_END : Z := 268435448.     (* 0x0FFFFFF8 *)
Definition FAT_EOC : Z := 268435455.     (* 0x0FFFFFFF *)

(** A directory entry: 32 bytes. *)
Definition de_name83 (e : list Z) : list Z := slice 11 e 0.
Definition de_attrib (e : list Z) : Z := rd 1 e 11.
Definition de_cluster_hi (e : list Z) : Z := rd 2 e 20.
Definition de_cluster_lo (e : list Z) : Z := rd 2 e 26.
Definition de_bytes (e : list Z) : Z := rd 4 e 28.
Definition de_first (e : list Z) : Z := Z.lor (Z.shiftl (de_cluster_hi e) 16) (de_cluster_lo e).
Definition set_cluster_fields (c : Z) (e : list Z) : list Z :=
  wr 2 (wr 2 e 20 (Z.shiftr c 16)) 26 (Z.land c 65535).
Definition dirent_of (name : list Z) (attr first size : Z) : list Z :=
  wr 4 (set_cluster_fields first (wr 1 (splice (replicate 32 0) 0 name) 11 attr)) 28 size.

(** ** Names *)

Definition to_upper (c : Z) : Z := if (97 <=? c) && (c <=? 122) then c - 32 else c.
Definition period : Z := 46.

(** The base name: characters up to a period or the end, at most [room]. *)
Fixpoint take_base (room : nat) (s : list Z) : list Z * list Z :=
  match room, s with
  | S room, c :: s' => if c =? period then ([], s) else let r := take_base room s' in (to_upper c :: r.1, r.2)
  | _, _ => ([], s)
  end.
(** [while (input\[i\] != '.' && input\[i\] != 0) i++] *)
Fixpoint skip_base (s : list Z) : list Z :=
  match s with c :: s' => if c =? period then s else skip_base s' | [] => [] end.
Definition pad (n : nat) (l : list Z) : list Z := l ++ replicate (n - length l) 32.

(** [canonicalize_83], and the same code inlined in [fat32_unlink] and
    [fat32_vfs_finddir]. *)
Definition canonicalize_83 (input : list Z) : list Z :=
  let r := take_base 8 input in
  let ext := match skip_base r.2 with _ :: e => map to_upper (take 3 e) | [] => [] end in
  pad 8 r.1 ++ pad 3 ext.

(** [fat32_filename_cmp(s1, s2, n)], on bytes. *)
Fixpoint fat32_filename_cmp (s1 s2 : list Z) (n : nat) : Z :=
  match n, s1, s2 with
  | S n, c1 :: s1, c2 :: s2 =>
      if to_upper c1 <? to_upper c2 then -1
      else if to_upper c2 <? to_upper c1 then 1
      else fat32_filename_cmp s1 s2 n
  | _, _, _ => 0
  end.

(** [format_fat_name], and the same code inlined in [fat32_vfs_readdir]. *)
Fixpoint until_space (l : list Z) : list Z :=
  match l with c :: l => if c =? 32 then [] else c :: until_space l | [] => [] end.
Definition format_fat_name (name : list Z) : list Z :=
  until_space (take 8 name) ++
  (if negb (rd 1 name 8 =? 32) then period :: until_space (take 3 (drop 8 name)) else []).

Section ops.
Context {B : Type} {Io : BlockIO B}.
#[local] Open Scope kernel_scope.
Variable fuel : nat.

(** ** The boot sector *)

Definition fat32_read_bpb (dev part_lba : Z) : kM B (Z + fat32_mount_t) :=
  let* (r, sector) := block_read dev part_lba in
  kret (if negb (r =? KABI_SUCCESS) then inl KABI_EIO
        else if negb (rd 2 sector 11 =? 512) then inl KABI_EINVAL
        else if rd 4 sector 36 =? 0 then inl KABI_EINVAL
        else
          let fat_start := u32 (part_lba + rd 2 sector 14) in
          let data_start := u32 (fat_start + u32 (rd 1 sector 16 * rd 4 sector 36)) in
          inr (mk_fmount part_lba fat_start data_start (rd 1 sector 13) (rd 2 sector 11) (rd 4 sector 36) (rd 4 sector 44))).

(** ** The table *)

Variable dev : Z.
Variable m : fat32_mount_t.

Definition fat32_cluster_to_lba (cluster : Z) : Z :=
  u32 (fm_data_lba_start m + u32 (u32 (cluster - 2) * fm_sectors_per_cluster m)).

Definition fat_offset (cluster : Z) : Z := u32 (cluster * 4).
Definition fat_sector (cluster : Z) : Z := u32 (fm_fat_lba_start m + fat_offset cluster / 512).

Definition fat32_get_next_cluster (cluster : Z) : kM B Z :=
  let* (r, buf) := block_read dev (fat_sector cluster) in
  kret (if negb (r =? KABI_SUCCESS) then FAT_EOC
        else Z.land (rd 4 buf (fat_offset cluster mod 512)) 268435455).

Definition fat32_set_cluster (cluster value : Z) : kM B unit :=
  let* (r, buf) := block_read dev (fat_sector cluster) in
  if negb (r =? KABI_SUCCESS) then kret tt
  else
    let off := fat_offset cluster mod 512 in
    let old_val := rd 4 buf off in
    let new_val := Z.lor (Z.land old_val 4026531840) (Z.land value 268435455) in
    block_write dev (fat_sector cluster) (wr 4 buf off new_val) ;;; kret tt.

(** The entries of one sector of the table, [n] from [i] on. *)
Fixpoint free_in_sector (n : nat) (i s : Z) (buf : list Z) : option Z :=
  match n with
  | O => None
  | S n =>
      let cluster := u32 (s * 128 + i) in
      if cluster <? 2 then free_in_sector n (i + 1) s buf
      else if Z.land (rd 4 buf (4 * i)) 268435455 =? 0 then Some cluster
      else free_in_sector n (i + 1) s buf
  end.
Fixpoint find_free (n : nat) (s : Z) : kM B Z :=
  match n with
  | O => kret 0
  | S n =>
      let* (r, buf) := block_read dev (u32 (fm_fat_lba_start m + s)) in
      if negb (r =? KABI_SUCCESS) then kret 0
      else match free_in_sector 128 0 s buf with
           | Some c => kret c
           | None => find_free n (s + 1)
           end
  end.
Definition fat32_find_free_cluster : kM B Z := find_free (Z.to_nat (fm_sectors_per_fat m)) 0.

(** [for (s = 0; s < sectors_per_cluster; s++) kabi_block_write(dev, lba + s, zero)] *)
Fixpoint zero_sectors (n : nat) (lba s : Z) : kM B unit :=
  match n with
  | O => kret tt
  | S n => block_write dev (u32 (lba + s)) (replicate 512 0) ;;; zero_sectors n lba (s + 1)
  end.
Definition zero_cluster (cluster : Z) : kM B unit :=
  zero_sectors (Z.to_nat (fm_sectors_per_cluster m)) (fat32_cluster_to_lba cluster) 0.

(** ** Directories *)

(** What a loop over entries does at one of them. *)
Inductive verdict := Skip | Hit | End.

(** The first entry of a sector, from [i] on, that is not skipped; the state [a]
    is passed along. *)
Fixpoint scan_sector {A} (cls : A → list Z → A * verdict) (n : nat) (i : Z) (a : A) (buf : list Z) : A * option (Z * verdict) :=
  match n with
  | O => (a, None)
  | S n =>
      match cls a (slice 32 buf (32 * i)) with
      | (a, Skip) => scan_sector cls n (i + 1) a buf
      | (a, v) => (a, Some (i, v))
      end
  end.

(** The outcome of a walk through a directory: a failed read, the end mark, a hit
    at entry [i] of the sector at [lba], or the end of the sectors. *)
Inductive scan_result :=
| ScanEIO
| ScanEnd
| ScanHit (lba i : Z) (buf : list Z)
| ScanOut.

Fixpoint scan_sectors {A} (cls : A → list Z → A * verdict) (n : nat) (lba s : Z) (a : A) : kM B (A * scan_result) :=
  match n with
  | O => kret (a, ScanOut)
  | S n =>
      let* (r, buf) := block_read dev (u32 (lba + s)) in
      if negb (r =? KABI_SUCCESS) then kret (a, ScanEIO)
      else match scan_sector cls 16 0 a buf with
           | (a, Some (i, Hit)) => kret (a, ScanHit (u32 (lba + s)) i buf)
           | (a, Some (_, _)) => kret (a, ScanEnd)
           | (a, None) => scan_sectors cls n lba (s + 1) a
           end
  end.

Definition scan_cluster {A} (cls : A → list Z → A * verdict) (a : A) (cluster : Z) : kM B (A * scan_result) :=
  scan_sectors cls (Z.to_nat (fm_sectors_per_cluster m)) (fat32_cluster_to_lba cluster) 0 a.

(** [while (cluster < 0x0FFFFFF8) { ... cluster = fat32_get_next_cluster(cluster); }] *)
Fixpoint scan_chain {A} (cls : A → list Z → A * verdict) (f : nat) (a : A) (cluster : Z) : kM B scan_result :=
  match f with
  | O => λ _, NoFuel
  | S f =>
      if FAT_END <=? cluster then kret ScanOut
      else
        let* r := scan_cluster cls a cluster in
        match r.2 with
        | ScanOut => let* next := fat32_get_next_cluster cluster in scan_chain cls f r.1 next
        | v => kret v
        end
  end.

(** The first live entry whose name is [target]; [eq] compares two names. *)
Definition match_entry (eq : list Z → list Z → bool) (target : list Z) (_ : unit) (e : list Z) : unit * verdict :=
  (tt, if rd 1 e 0 =? 0 then End
       else if rd 1 e 0 =? 229 then Skip
       else if de_attrib e =? FAT_ATTR_LFN then Skip
       else if eq (de_name83 e) target then Hit else Skip).
Definition same_folded (a b : list Z) : bool := fat32_filename_cmp a b 11 =? 0.
Definition same_exact (a b : list Z) : bool := bool_decide (a = b).

Definition or_root (cluster : Z) : Z := if cluster =? 0 then fm_root_cluster m else cluster.

Definition fat32_find_file (name : list Z) (start_cluster : Z) : kM B (Z + list Z) :=
  let* r := scan_chain (match_entry same_folded (canonicalize_83 name)) fuel tt (or_root start_cluster) in
  kret (match r with
        | ScanHit _ i buf => inr (slice 32 buf (32 * i))
        | ScanEIO => inl KABI_EIO
        | _ => inl KABI_ENOENT
        end).

Definition fat32_update_dirent (dir_cluster : Z) (name : list Z) (new_size new_cluster : Z) : kM B Z :=
  let* r := scan_chain (match_entry same_folded (canonicalize_83 name)) fuel tt (or_root dir_cluster) in
  match r with
  | ScanHit lba i buf =>
      let e := slice 32 buf (32 * i) in
      let e := if new_size =? 4294967295 then e else wr 4 e 28 new_size in
      let e := if new_cluster =? 4294967295 then e else set_cluster_fields new_cluster e in
      let* w := block_write dev lba (splice buf (32 * i) e) in
      kret (if w =? KABI_SUCCESS then KABI_SUCCESS else KABI_EIO)
  | ScanEIO => kret KABI_EIO
  | _ => kret KABI_ENOENT
  end.

(** A free or deleted entry. *)
Definition free_entry (_ : unit) (e : list Z) : unit * verdict :=
  (tt, if (rd 1 e 0 =? 0) || (rd 1 e 0 =? 229) then Hit else Skip).

(** The loop of [fat32_add_dirent]: at the end of the chain the directory grows by
    a cluster. *)
Fixpoint add_loop (f : nat) (entry : list Z) (cluster : Z) : kM B Z :=
  match f with
  | O => λ _, NoFuel
  | S f =>
      if FAT_END <=? cluster then kret KABI_EIO
      else
        let* r := scan_cluster free_entry tt cluster in
        match r.2 with
        | ScanHit lba i buf =>
            let* w := block_write dev lba (splice buf (32 * i) entry) in
            kret (if w =? KABI_SUCCESS then KABI_SUCCESS else KABI_EIO)
        | ScanEIO => kret KABI_EIO
        | _ =>
            let* next := fat32_get_next_cluster cluster in
            if FAT_END <=? next then
              let* new_c := fat32_find_free_cluster in
              if new_c =? 0 then kret KABI_ENOMEM
              else
                fat32_set_cluster cluster new_c ;;;
                fat32_set_cluster new_c FAT_EOC ;;;
                zero_cluster new_c ;;;
                add_loop f entry new_c
            else add_loop f entry next
        end
  end.
Definition fat32_add_dirent (dir_cluster : Z) (name : list Z) (first_cluster size attr : Z) : kM B Z :=
  add_loop fuel (dirent_of (canonicalize_83 name) attr first_cluster size) (or_root dir_cluster).

(** The sector of a new directory: "." and "..". *)
Definition dot_sector (new_cluster parent_cluster : Z) : list Z :=
  splice (splice (replicate 512 0) 0 (dirent_of (pad 11 [period]) FAT_ATTR_DIR new_cluster 0))
    32 (dirent_of (pad 11 [period; period]) FAT_ATTR_DIR parent_cluster 0).

Definition fat32_mkdir (parent_cluster : Z) (name : list Z) : kM B Z :=
  let parent := or_root parent_cluster in
  let* e := fat32_find_file name parent in
  match e with
  | inr _ => kret KABI_EINVAL
  | inl _ =>
      let* new_cluster := fat32_find_free_cluster in
      if new_cluster =? 0 then kret KABI_ENOMEM
      else
        fat32_set_cluster new_cluster FAT_EOC ;;;
        zero_cluster new_cluster ;;;
        let* w := block_write dev (fat32_cluster_to_lba new_cluster) (dot_sector new_cluster parent) in
        if negb (w =? KABI_SUCCESS) then kret KABI_EIO
        else fat32_add_dirent parent name new_cluster 0 FAT_ATTR_DIR
  end.

(** Frees the chain that starts at [fc]. *)
Fixpoint free_chain (f : nat) (fc : Z) : kM B unit :=
  match f with
  | O => λ _, NoFuel
  | S f =>
      if (fc =? 0) || (FAT_END <=? fc) then kret tt
      else
        let* next := fat32_get_next_cluster fc in
        fat32_set_cluster fc 0 ;;;
        free_chain f next
  end.

Definition fat32_unlink (dir_cluster : Z) (name : list Z) : kM B Z :=
  let* r := scan_chain (match_entry same_exact (canonicalize_83 name)) fuel tt (or_root dir_cluster) in
  match r with
  | ScanHit lba i buf =>
      free_chain fuel (de_first (slice 32 buf (32 * i))) ;;;
      let* w := block_write dev lba (wr 1 buf (32 * i) 229) in
      kret (if w =? KABI_SUCCESS then KABI_SUCCESS else KABI_EIO)
  | ScanEIO => kret KABI_EIO
  | _ => kret KABI_ENOENT
  end.

(** ** Whole files *)

(** The sectors of one cluster, until [rest] bytes are read. *)
Fixpoint read_file_sectors (n : nat) (lba s rest : Z) (acc : list Z) : kM B (bool * Z * list Z) :=
  match n with
  | O => kret (true, rest, acc)
  | S n =>
      if rest =? 0 then kret (true, rest, acc)
      else
        let* (r, buf) := block_read dev (u32 (lba + s)) in
        if negb (r =? KABI_SUCCESS) then kret (false, rest, acc)
        else
          let to_copy := if 512 <? rest then 512 else rest in
          read_file_sectors n lba (s + 1) (rest - to_copy) (acc ++ take (Z.to_nat to_copy) buf)
  end.
Fixpoint read_file_chain (f : nat) (cluster rest : Z) (acc : list Z) : kM B (Z * list Z) :=
  match f with
  | O => λ _, NoFuel
  | S f =>
      if (rest =? 0) || (FAT_END <=? cluster)
      then kret (if rest =? 0 then KABI_SUCCESS else KABI_EIO, acc)
      else
        let* r := read_file_sectors (Z.to_nat (fm_sectors_per_cluster m)) (fat32_cluster_to_lba cluster) 0 rest acc in
        if r.1.1 then
          let* next := fat32_get_next_cluster cluster in
          read_file_chain f next r.1.2 r.2
        else kret (KABI_EIO, r.2)
  end.
(** [fat32_read_file]: the code and the bytes stored. *)
Definition fat32_read_file (file : list Z) : kM B (Z * list Z) :=
  read_file_chain fuel (de_first file) (de_bytes file) [].
End ops.
