(* ===== verification/FatVfs.v ===== *)
(** * FAT32 as a file system of the VFS

    Models [kernel/fs/fat32/fat32_vfs.c]: the table of mounts, the callbacks of the
    nodes, and [fat32_vfs_mount].  The callbacks take 32-bit offsets and sizes,
    while the VFS passes 64-bit ones. *)

From stdpp Require Import base numbers list gmap strings.
From Stdlib Require Import ZArith Lia.
From S2P Require Import Prelude CString Bytes Kernel Path Vfs Sched Task Block Fat.

#[local] Open Scope Z_scope.

Definition FAT32_MAX_MOUNTS : Z := 4.

(** Addresses of the callbacks. *)
Definition fat_read_fn : Z := 20.
Definition fat_write_fn : Z := 21.
Definition fat_readdir_fn : Z := 22.
Definition fat_finddir_fn : Z := 23.
Definition fat_create_fn : Z := 24.
Definition fat_mkdir_fn : Z := 25.
Definition fat_unlink_fn : Z := 26.

(** [fat32_ctx_t]: the device and the volume of a mount. *)
Record fat32_ctx_t := mk_ctx { fc_dev : Z; fc_info : fat32_mount_t }.
Definition zero_ctx : fat32_ctx_t := mk_ctx 0 (mk_fmount 0 0 0 0 0 0 0).

(** The driver's state: the first [fat32_num_mounts] contexts, and the disks. *)
Record fatst (B : Type) := mk_fatst { fs_ctxs : list fat32_ctx_t; fs_blk : B }.
Arguments mk_fatst {B}. Arguments fs_ctxs {B}. Arguments fs_blk {B}.

Definition ctx_of (ctxs : list fat32_ctx_t) (node : fs_node_t) : fat32_ctx_t :=
  let idx := s32 (n_mask node) in
  let idx := if (idx <? 0) || (Z.of_nat (length ctxs) <=? idx) then 0 else idx in
  default zero_ctx (zlookup ctxs idx).

(** The entry number [index] of a directory that is neither deleted nor a part of
    a long name; the state counts the ones before it. *)
Definition nth_entry (index a : Z) (e : list Z) : Z * verdict :=
  if rd 1 e 0 =? 0 then (a, End)
  else if rd 1 e 0 =? 229 then (a, Skip)
  else if de_attrib e =? FAT_ATTR_LFN then (a, Skip)
  else if a =? index then (a, Hit)
  else (u32 (a + 1), Skip).

(** [kabi_dirent_t] has a 32-bit [ino] where [struct dirent] has a 64-bit one; the
    upper half, which nothing sets, is left out. *)
Definition dirent_of_entry (e : list Z) : dirent :=
  mk_dirent (format_fat_name (de_name83 e)) (de_first e) (de_bytes e)
    (if has (de_attrib e) FAT_ATTR_DIR then FS_DIRECTORY else FS_FILE) (de_attrib e).

(** The node [fat32_vfs_finddir] makes for an entry of the directory [node]. *)
Definition child_node (node : fs_node_t) (name e : list Z) : fs_node_t :=
  mk_node name (n_mask node)
    (Z.lor (if has (de_attrib e) FAT_ATTR_DIR then FS_DIRECTORY else FS_FILE) FS_TRANSIENT)
    (de_first e) (de_bytes e)
    (if n_inode node =? 0 then ImplNull else ImplNum (n_inode node))
    (n_read node) (n_write node) 0 0 (n_readdir node) (n_finddir node)
    (n_create node) (n_mkdir node) (n_unlink node).

(** [(uint32_t)(uintptr_t)node->impl] *)
Definition parent_cluster (node : fs_node_t) : Z :=
  match n_impl node with ImplNull => 0 | ImplBuf a | ImplPipe a | ImplNum a => u32 a end.

Section ops.
Context {B : Type} {Io : BlockIO B}.
#[local] Open Scope kernel_scope.
Variable fuel : nat.
Variable dev : Z.
Variable m : fat32_mount_t.

Definition bytes_per_cluster : Z := u32 (fm_sectors_per_cluster m * 512).

Definition fat32_vfs_readdir (node : fs_node_t) (index : Z) : kM B (option dirent) :=
  let* r := scan_chain dev m (nth_entry (u32 index)) fuel 0 (or_root m (n_inode node)) in
  kret (match r with
        | ScanHit _ i buf => Some (dirent_of_entry (slice 32 buf (32 * i)))
        | _ => None
        end).

(** A name of 128 bytes or more overruns the node. *)
Definition fat32_vfs_finddir (node : fs_node_t) (name : list Z) : kM B found :=
  let* r := scan_chain dev m (match_entry same_exact (canonicalize_83 name)) fuel tt (or_root m (n_inode node)) in
  match r with
  | ScanHit _ i buf =>
      if (128 <=? length name)%nat then kfault
      else kret (FoundFresh (child_node node name (slice 32 buf (32 * i))))
  | _ => kret FoundNothing
  end.

(** ** Reading and writing *)

(** [for (i = 0; i < clusters_to_skip; i++)]: [None] when the chain ends. *)
Fixpoint skip_clusters (n : nat) (cluster : Z) : kM B (option Z) :=
  match n with
  | O => kret (Some cluster)
  | S n =>
      let* next := fat32_get_next_cluster dev m cluster in
      if (FAT_END <=? next) || (next <? 2) then kret None else skip_clusters n next
  end.

(** The sectors of a cluster from [s] on, [n] of them: [byte] is the offset in the
    first, [rest] what is left to read.  The flag tells that no read failed. *)
Fixpoint read_sectors (n : nat) (lba s byte rest : Z) (acc : list Z) : kM B (bool * Z * list Z) :=
  match n with
  | O => kret (true, rest, acc)
  | S n =>
      if rest =? 0 then kret (true, rest, acc)
      else
        let* (r, buf) := block_read dev (u32 (lba + s)) in
        if negb (r =? KABI_SUCCESS) then kret (false, rest, acc)
        else
          let to_copy := if rest <? 512 - byte then rest else 512 - byte in
          read_sectors n lba (s + 1) 0 (rest - to_copy) (acc ++ slice (Z.to_nat to_copy) buf byte)
  end.
Fixpoint read_clusters (f : nat) (cluster offset rest : Z) (acc : list Z) : kM B (list Z) :=
  match f with
  | O => λ _, NoFuel
  | S f =>
      if (rest =? 0) || (FAT_END <=? cluster) then kret acc
      else
        let s := offset / 512 in
        let* r := read_sectors (Z.to_nat (fm_sectors_per_cluster m - s)) (fat32_cluster_to_lba m cluster) s
                    (offset mod 512) rest acc in
        if r.1.1 then
          let* next := fat32_get_next_cluster dev m cluster in
          read_clusters f next 0 r.1.2 r.2
        else kret r.2
  end.

Definition fat32_vfs_read (node : fs_node_t) (offset size : Z) : kM B (list Z) :=
  let offset := u32 offset in
  let size := u32 size in
  if n_length node <=? offset then kret []
  else
    let size := if n_length node <? u32 (offset + size) then u32 (n_length node - offset) else size in
    if bytes_per_cluster =? 0 then kfault
    else
      let* c := skip_clusters (Z.to_nat (offset / bytes_per_cluster)) (n_inode node) in
      match c with
      | None => kret []
      | Some cluster => read_clusters fuel cluster (offset mod bytes_per_cluster) size []
      end.

(** [for (i = 1; i < current_clusters; i++)], the last cluster of a file. *)
Fixpoint last_cluster (n : nat) (cluster : Z) : kM B Z :=
  match n with
  | O => kret cluster
  | S n =>
      let* next := fat32_get_next_cluster dev m cluster in
      if FAT_END <=? next then kret cluster else last_cluster n next
  end.

(** A zeroed cluster behind [last], [n] times. *)
Fixpoint append_clusters (n : nat) (last : Z) : kM B Z :=
  match n with
  | O => kret KABI_SUCCESS
  | S n =>
      let* next := fat32_find_free_cluster dev m in
      if next =? 0 then kret KABI_ENOMEM
      else
        fat32_set_cluster dev m next FAT_EOC ;;;
        fat32_set_cluster dev m last next ;;;
        zero_cluster dev m next ;;;
        append_clusters n next
  end.

Definition clusters_for (size : Z) : Z :=
  if size =? 0 then 0 else u32 (size + bytes_per_cluster - 1) / bytes_per_cluster.
(** [(node->length + bytes_per_cluster - 1) / bytes_per_cluster], on 64 bits. *)
Definition clusters_of (length : Z) : Z :=
  if length =? 0 then 0 else u32 (u64 (length + bytes_per_cluster - 1) / bytes_per_cluster).

(** The part of [fat32_vfs_expand] that allocates: the code, and the node. *)
Definition expand_chain (node : fs_node_t) (new_size : Z) : kM B (Z * fs_node_t) :=
  let current := clusters_of (n_length node) in
  let needed := clusters_for new_size in
  if needed <=? current then kret (KABI_SUCCESS, node)
  else if n_inode node =? 0 then
    let* start := fat32_find_free_cluster dev m in
    if start =? 0 then kret (KABI_ENOMEM, node)
    else
      fat32_set_cluster dev m start FAT_EOC ;;;
      fat32_update_dirent fuel dev m (parent_cluster node) (n_name node) 4294967295 start ;;;
      zero_cluster dev m start ;;;
      let* r := append_clusters (Z.to_nat (needed - 1)) start in
      kret (r, with_n_inode start node)
  else
    let* last := last_cluster (Z.to_nat (current - 1)) (n_inode node) in
    let* r := append_clusters (Z.to_nat (needed - current)) last in
    kret (r, node).

Definition fat32_vfs_expand (node : fs_node_t) (new_size : Z) : kM B (Z * fs_node_t) :=
  if bytes_per_cluster =? 0 then kfault
  else
    let* (r, node) := expand_chain node new_size in
    if negb (r =? KABI_SUCCESS) then kret (r, node)
    else
      let node := with_n_length new_size node in
      let* r := fat32_update_dirent fuel dev m (parent_cluster node) (n_name node) new_size 4294967295 in
      kret (r, node).

(** The sectors of a cluster, as in [read_sectors]; [data] is what is left to
    write.  A sector that is not wholly overwritten is read first. *)
Fixpoint write_sectors (n : nat) (lba s byte : Z) (data : list Z) : kM B (bool * list Z) :=
  match n with
  | O => kret (true, data)
  | S n =>
      let rest := Z.of_nat (length data) in
      if rest =? 0 then kret (true, data)
      else
        let* (r, buf) := (if negb (byte =? 0) || (rest <? 512) then block_read dev (u32 (lba + s))
                          else kret (KABI_SUCCESS, replicate 512 0)) in
        if negb (r =? KABI_SUCCESS) then kret (false, data)
        else
          let to_copy := if rest <? 512 - byte then rest else 512 - byte in
          let* w := block_write dev (u32 (lba + s)) (splice buf byte (take (Z.to_nat to_copy) data)) in
          if negb (w =? KABI_SUCCESS) then kret (false, data)
          else write_sectors n lba (s + 1) 0 (drop (Z.to_nat to_copy) data)
  end.
Fixpoint write_clusters (f : nat) (cluster offset : Z) (data : list Z) : kM B (list Z) :=
  match f with
  | O => λ _, NoFuel
  | S f =>
      if (Z.of_nat (length data) =? 0) || (FAT_END <=? cluster) then kret data
      else
        let s := offset / 512 in
        let* r := write_sectors (Z.to_nat (fm_sectors_per_cluster m - s)) (fat32_cluster_to_lba m cluster) s
                    (offset mod 512) data in
        if r.1 then
          let* next := fat32_get_next_cluster dev m cluster in
          write_clusters f next 0 r.2
        else kret r.2
  end.

(** The number of bytes written, and the node. *)
Definition fat32_vfs_write (node : fs_node_t) (offset : Z) (data : list Z) : kM B (fs_node_t * Z) :=
  let offset := u32 offset in
  let size := u32 (Z.of_nat (length data)) in
  let* (r, node) := (if n_length node <? u32 (offset + size) then fat32_vfs_expand node (u32 (offset + size))
                     else kret (KABI_SUCCESS, node)) in
  if negb (r =? KABI_SUCCESS) then kret (node, 0)
  else if bytes_per_cluster =? 0 then kfault
  else
    let* c := skip_clusters (Z.to_nat (offset / bytes_per_cluster)) (n_inode node) in
    match c with
    | None => kret (node, 0)
    | Some cluster =>
        let* unwritten := write_clusters fuel cluster (offset mod bytes_per_cluster) (take (Z.to_nat size) data) in
        kret (node, size - Z.of_nat (length unwritten))
    end.

(** ** Creating and removing *)

Definition fat32_vfs_create (node : fs_node_t) (name : list Z) : kM B unit :=
  let* e := fat32_find_file fuel dev m name (n_inode node) in
  match e with
  | inr _ => kret tt
  | inl _ => fat32_add_dirent fuel dev m (n_inode node) name 0 0 FAT_ATTR_ARCHIVE ;;; kret tt
  end.
Definition fat32_vfs_mkdir (node : fs_node_t) (name : list Z) : kM B unit :=
  fat32_mkdir fuel dev m (n_inode node) name ;;; kret tt.
Definition fat32_vfs_unlink (node : fs_node_t) (name : list Z) : kM B Z :=
  fat32_unlink fuel dev m (n_inode node) name.
End ops.

(** ** The driver *)

Section driver.
Context {B : Type} {Io : BlockIO B}.
#[local] Open Scope kernel_scope.
Variable fuel : nat.

(** A callback: the context of the node, then the operation on its device. *)
Definition with_ctx {A} (node : fs_node_t) (f : Z → fat32_mount_t → kM B A) : kM (fatst B) A := λ d,
  let ctx := ctx_of (fs_ctxs d) node in
  match f (fc_dev ctx) (fc_info ctx) (fs_blk d) with
  | Ret a b => Ret a (mk_fatst (fs_ctxs d) b)
  | Hang b => Hang (mk_fatst (fs_ctxs d) b)
  | Panic b => Panic (mk_fatst (fs_ctxs d) b)
  | Fault => Fault
  | NoFuel => NoFuel
  end.

(** A callback address that is not the driver's own function of that kind would be
    a jump into other code. *)
Definition fat_fn {A} (fn own : Z) (m : kM (fatst B) A) : kM (fatst B) A := if fn =? own then m else kfault.

#[export] Instance fat_driver : FsDriver (fatst B) := {|
  drv_read := λ fn node offset size, fat_fn fn fat_read_fn
    (with_ctx node (λ dev m, fat32_vfs_read fuel dev m node offset size));
  drv_write := λ fn node offset data, fat_fn fn fat_write_fn
    (with_ctx node (λ dev m, fat32_vfs_write fuel dev m node offset data));
  drv_open := λ _ _ d, d;
  drv_close := λ _ _ d, d;
  drv_readdir := λ fn node index, fat_fn fn fat_readdir_fn
    (with_ctx node (λ dev m, fat32_vfs_readdir fuel dev m node index));
  drv_finddir := λ fn node name, fat_fn fn fat_finddir_fn
    (with_ctx node (λ dev m, fat32_vfs_finddir fuel dev m node name));
  drv_create := λ fn node name, fat_fn fn fat_create_fn
    (with_ctx node (λ dev m, fat32_vfs_create fuel dev m node name));
  drv_mkdir := λ fn node name, fat_fn fn fat_mkdir_fn
    (with_ctx node (λ dev m, fat32_vfs_mkdir fuel dev m node name));
  drv_unlink := λ fn node name, fat_fn fn fat_unlink_fn
    (with_ctx node (λ dev m, fat32_vfs_unlink fuel dev m node name));
|}.
End driver.

(** ** Mounting *)

Section mount.
Context {H : Type} {Hw : SectorHw H}.
#[local] Open Scope kernel_scope.
Variable fuel : nat.
#[local] Instance drv_inst : FsDriver (fatst (blk H)) := fat_driver fuel.

Definition fat_ops : fs_ops :=
  mk_fs_ops fat_read_fn fat_write_fn 0 0 fat_readdir_fn fat_finddir_fn fat_create_fn fat_mkdir_fn fat_unlink_fn.

Definition on_blk {A} (m : kM (blk H) A) : kM (fatst (blk H)) A := λ d,
  match m (fs_blk d) with
  | Ret a b => Ret a (mk_fatst (fs_ctxs d) b)
  | Hang b => Hang (mk_fatst (fs_ctxs d) b)
  | Panic b => Panic (mk_fatst (fs_ctxs d) b)
  | Fault => Fault
  | NoFuel => NoFuel
  end.

(** Where the volume starts: a partition is a volume, a disk has a FAT32
    partition. *)
Definition volume_start (dev : Z) : kM (blk H) (option Z) :=
  let* d := block_dev_get_by_index (s32 dev) in
  match d with
  | Some d' =>
      if bd_is_partition d' then kret (Some 0)
      else let* r := mbr_find_fat32 dev in kret (match r with inr p => Some (pt_start_lba p) | inl _ => None end)
  | None => let* r := mbr_find_fat32 dev in kret (match r with inr p => Some (pt_start_lba p) | inl _ => None end)
  end.

(** The part of [fat32_vfs_mount] up to the new context: its slot or an error. *)
Definition new_context (dev : Z) : kM (fatst (blk H)) (Z + Z) :=
  let* d := kget in
  let slot := Z.of_nat (length (fs_ctxs d)) in
  if FAT32_MAX_MOUNTS <=? slot then kret (inl KABI_ENOMEM)
  else
    let* start := on_blk (volume_start dev) in
    match start with
    | None => kret (inl KABI_ENOENT)
    | Some lba =>
        let* r := on_blk (fat32_read_bpb dev lba) in
        match r with
        | inl _ => kret (inl KABI_EIO)
        | inr info =>
            kmodify (λ d, mk_fatst (fs_ctxs d ++ [mk_ctx dev info]) (fs_blk d)) ;;; kret (inr slot)
        end
    end.

Definition fat32_vfs_mount (dev : Z) (mountpoint : list Z) : kM (kst (fatst (blk H))) Z :=
  let* r := drv (new_context dev) in
  match r with
  | inl e => kret e
  | inr slot =>
      kabi_vfs_register fat_ops mountpoint ;;;
      let* s := kget in
      let* root := (if bool_decide (mountpoint = [slash]) then kret (k_fs_root s) else vfs_resolve_path mountpoint) in
      (if root =? 0 then (if bool_decide (mountpoint = [slash]) then kfault else kret tt)
       else let* nd := get_node root in put_node root (with_n_mask slot nd)) ;;;
      kret KABI_SUCCESS
  end.
End mount.
