(* ===== verification/UsbMsc.v ===== *)
(** * USB mass storage

    Models [kernel/modules/usb/usb_mass_storage.c]: SCSI commands in the
    Bulk-Only Transport, the sector functions of a storage device, and the probe that
    registers it with the block layer and mounts it. *)

From stdpp Require Import base numbers list gmap strings.
From Stdlib Require Import ZArith Lia.
From S2P Require Import Prelude CString Bytes Kernel Vfs Sched Task Block Display Console Usb Fat FatVfs.

#[local] Open Scope Z_scope.
#[local] Open Scope kernel_scope.

Definition MSC_MAX_DEVICES : Z := 4.
Definition CBW_SIGNATURE : Z := 1128420181.
Definition CSW_SIGNATURE : Z := 1396855637.
Definition CSW_STATUS_PASSED : Z := 0.
Definition SCSI_TEST_UNIT_READY : Z := 0.
Definition SCSI_INQUIRY : Z := 18.
Definition SCSI_READ_CAPACITY_10 : Z := 37.
Definition SCSI_READ_10 : Z := 40.
Definition SCSI_WRITE_10 : Z := 42.
Definition USB_EP_TYPE_BULK : Z := 2.

(** Addresses of [msc_block_read_0], [msc_block_write_0], [msc_block_read_1],
    [msc_block_write_1] and [msc_probe] *)
Definition msc_read_fn (k : Z) : Z := 10 + 2 * k.
Definition msc_write_fn (k : Z) : Z := 11 + 2 * k.
Definition msc_probe_fn : Z := 14.

(** A storage device; [m_usb_dev] is its slot in the USB core. *)
Record msc_device_t : Type := Msc {
  m_usb_dev : Z;
  m_ep_in : Z;
  m_ep_out : Z;
  m_ep_in_max : Z;
  m_ep_out_max : Z;
  m_tag : Z;
  m_num_sectors : Z;
  m_sector_size : Z;
  m_block_dev_id : Z;
  m_ready : Z }.

Definition with_m_tag (v : Z) (x : msc_device_t) : msc_device_t :=
  {| m_usb_dev := m_usb_dev x; m_ep_in := m_ep_in x; m_ep_out := m_ep_out x;
     m_ep_in_max := m_ep_in_max x; m_ep_out_max := m_ep_out_max x; m_tag := v;
     m_num_sectors := m_num_sectors x; m_sector_size := m_sector_size x;
     m_block_dev_id := m_block_dev_id x; m_ready := m_ready x |}.
Definition with_m_num_sectors (v : Z) (x : msc_device_t) : msc_device_t :=
  {| m_usb_dev := m_usb_dev x; m_ep_in := m_ep_in x; m_ep_out := m_ep_out x;
     m_ep_in_max := m_ep_in_max x; m_ep_out_max := m_ep_out_max x; m_tag := m_tag x;
     m_num_sectors := v; m_sector_size := m_sector_size x; m_block_dev_id :=
     m_block_dev_id x; m_ready := m_ready x |}.
Definition with_m_sector_size (v : Z) (x : msc_device_t) : msc_device_t :=
  {| m_usb_dev := m_usb_dev x; m_ep_in := m_ep_in x; m_ep_out := m_ep_out x;
     m_ep_in_max := m_ep_in_max x; m_ep_out_max := m_ep_out_max x; m_tag := m_tag x;
     m_num_sectors := m_num_sectors x; m_sector_size := v; m_block_dev_id :=
     m_block_dev_id x; m_ready := m_ready x |}.
Definition with_m_block_dev_id (v : Z) (x : msc_device_t) : msc_device_t :=
  {| m_usb_dev := m_usb_dev x; m_ep_in := m_ep_in x; m_ep_out := m_ep_out x;
     m_ep_in_max := m_ep_in_max x; m_ep_out_max := m_ep_out_max x; m_tag := m_tag x;
     m_num_sectors := m_num_sectors x; m_sector_size := m_sector_size x;
     m_block_dev_id := v; m_ready := m_ready x |}.
Definition with_m_ready (v : Z) (x : msc_device_t) : msc_device_t :=
  {| m_usb_dev := m_usb_dev x; m_ep_in := m_ep_in x; m_ep_out := m_ep_out x;
     m_ep_in_max := m_ep_in_max x; m_ep_out_max := m_ep_out_max x; m_tag := m_tag x;
     m_num_sectors := m_num_sectors x; m_sector_size := m_sector_size x;
     m_block_dev_id := m_block_dev_id x; m_ready := v |}.

Definition with_m_in (ep : usb_endpoint_t) (x : msc_device_t) : msc_device_t :=
  Msc (m_usb_dev x) (ep_address ep) (m_ep_out x) (ep_max_packet ep) (m_ep_out_max x) (m_tag x) (m_num_sectors x) (m_sector_size x) (m_block_dev_id x) (m_ready x).
Definition with_m_out (ep : usb_endpoint_t) (x : msc_device_t) : msc_device_t :=
  Msc (m_usb_dev x) (m_ep_in x) (ep_address ep) (m_ep_in_max x) (ep_max_packet ep) (m_tag x) (m_num_sectors x) (m_sector_size x) (m_block_dev_id x) (m_ready x).
Definition zero_msc (usb_dev : Z) : msc_device_t := Msc usb_dev 0 0 0 0 0 0 0 0 0.

Record msc := MscState { msc_devices : list msc_device_t; msc_num_devices : Z }.

Definition bswap32 (x : Z) : Z :=
  Z.lor (Z.lor (Z.lor (Z.land (Z.shiftr x 24) 255) (Z.land (Z.shiftr x 8) 65280)) (Z.land (u32 (Z.shiftl x 8)) 16711680)) (Z.land (u32 (Z.shiftl x 24)) 4278190080).

(** The command wrapper: [usb_cbw_t], packed *)
Definition usb_cbw (tag data_len direction : Z) (cdb : list Z) : list Z :=
  le_bytes 4 CBW_SIGNATURE ++ le_bytes 4 tag ++ le_bytes 4 data_len ++
  [if direction =? USB_DIR_IN then 128 else 0; 0; Z.of_nat (length cdb)] ++ cdb ++ replicate (16 - length cdb) 0.

Section msc.
Context {B : Type} {Bus : UsbBus B} (junk : nat → list Z).

Definition upd_msc (f : msc → msc) : kM (usb B msc * display) unit := upd (λ u, with_u_drv (f (u_drv u)) u).
Definition get_msc (k : Z) : kM (usb B msc * display) msc_device_t := kget_opt (λ s, zlookup (msc_devices (u_drv s.1)) k).
Definition put_msc (k : Z) (d : msc_device_t) : kM (usb B msc * display) unit :=
  let* l := kget_opt (λ s, zset (msc_devices (u_drv s.1)) k d) in
  upd_msc (λ m, MscState l (msc_num_devices m)).

(** ** Transport *)

Definition msc_send_cbw (d : msc_device_t) (cbw : list Z) : kM (usb B msc * display) Z :=
  let* (rc, _) := usb_bulk_msg (m_usb_dev d) (m_ep_out d) cbw 31 USB_DIR_OUT in kret rc.
Definition msc_recv_csw (d : msc_device_t) (csw : list Z) : kM (usb B msc * display) (Z * list Z) :=
  usb_bulk_msg (m_usb_dev d) (m_ep_in d) csw 13 USB_DIR_IN.
Definition msc_bulk_in (d : msc_device_t) (data : list Z) (len : Z) : kM (usb B msc * display) (Z * list Z) :=
  usb_bulk_msg (m_usb_dev d) (m_ep_in d) data len USB_DIR_IN.
Definition msc_bulk_out (d : msc_device_t) (data : list Z) (len : Z) : kM (usb B msc * display) (Z * list Z) :=
  usb_bulk_msg (m_usb_dev d) (m_ep_out d) data len USB_DIR_OUT.

Definition msc_status (d : msc_device_t) (data : list Z) : kM (usb B msc * display) (Z * list Z) :=
  let* (rc, csw) := msc_recv_csw d (replicate 13 0) in
  if negb (rc =? KABI_SUCCESS) then say_line "[MSC] CSW receive failed" ;;; kret (rc, data)
  else if negb (rd 4 csw 0 =? CSW_SIGNATURE) then say_line "[MSC] Invalid CSW signature" ;;; kret (KABI_EIO, data)
  else if negb (rd 1 csw 12 =? CSW_STATUS_PASSED) then kret (KABI_EIO, data)
  else kret (KABI_SUCCESS, data).
(** [data] is [None] for a null pointer; the buffer after the command is returned. *)
Definition msc_scsi_command (k : Z) (cdb : list Z) (data : option (list Z)) (data_len direction : Z) : kM (usb B msc * display) (Z * list Z) :=
  let* d := get_msc k in
  let tag := u32 (m_tag d + 1) in
  put_msc k (with_m_tag tag d) ;;;
  let buf := default [] data in
  let* rc := msc_send_cbw d (usb_cbw tag data_len direction cdb) in
  if negb (rc =? KABI_SUCCESS) then say_line "[MSC] CBW send failed" ;;; kret (rc, buf)
  else
    let* (rc, buf) :=
      (if (0 <? data_len) && bool_decide (is_Some data) then
         (if direction =? USB_DIR_IN then msc_bulk_in d buf (u16 data_len) else msc_bulk_out d buf (u16 data_len))
       else kret (KABI_SUCCESS, buf)) in
    if negb (rc =? KABI_SUCCESS) then say_line "[MSC] Data phase failed" ;;; kret (rc, buf)
    else msc_status d buf.

(** ** Commands *)

Definition msc_test_unit_ready (k : Z) : kM (usb B msc * display) Z :=
  let* (rc, _) := msc_scsi_command k [SCSI_TEST_UNIT_READY; 0; 0; 0; 0; 0] None 0 USB_DIR_IN in kret rc.
Definition msc_inquiry (k : Z) (inq : list Z) : kM (usb B msc * display) (Z * list Z) :=
  msc_scsi_command k [SCSI_INQUIRY; 0; 0; 0; 36; 0] (Some inq) 36 USB_DIR_IN.
Definition msc_read_capacity (k : Z) : kM (usb B msc * display) Z :=
  let* (rc, cap) := msc_scsi_command k [SCSI_READ_CAPACITY_10; 0; 0; 0; 0; 0; 0; 0; 0; 0] (Some (junk 8)) 8 USB_DIR_IN in
  if negb (rc =? KABI_SUCCESS) then kret rc
  else
    let* d := get_msc k in
    put_msc k (with_m_sector_size (bswap32 (rd 4 cap 4)) (with_m_num_sectors (u32 (bswap32 (rd 4 cap 0) + 1)) d)) ;;;
    kret KABI_SUCCESS.
Definition rw_cdb (op lba : Z) : list Z :=
  [op; 0; Z.land (Z.shiftr lba 24) 255; Z.land (Z.shiftr lba 16) 255; Z.land (Z.shiftr lba 8) 255; Z.land lba 255; 0; 0; 1; 0].
Definition msc_read_sector (k lba : Z) (buf : list Z) : kM (usb B msc * display) (Z * list Z) :=
  msc_scsi_command k (rw_cdb SCSI_READ_10 lba) (Some buf) 512 USB_DIR_IN.
Definition msc_write_sector (k lba : Z) (buf : list Z) : kM (usb B msc * display) Z :=
  let* (rc, _) := msc_scsi_command k (rw_cdb SCSI_WRITE_10 lba) (Some buf) 512 USB_DIR_OUT in kret rc.

(** ** The block device *)

(** The sector functions of both storage devices and, on the same bus state, those
    of the IDE drive *)
Context {Ide : SectorHw B}.
#[export] Instance msc_sectors : SectorHw (usb B msc * display) := {|
  hw_read fn lba :=
    if fn =? msc_read_fn 0 then msc_read_sector 0 (u32 lba) (junk 512)
    else if fn =? msc_read_fn 1 then msc_read_sector 1 (u32 lba) (junk 512)
    else bus (hw_read fn lba);
  hw_write fn lba buf :=
    if fn =? msc_write_fn 0 then msc_write_sector 0 (u32 lba) buf
    else if fn =? msc_write_fn 1 then msc_write_sector 1 (u32 lba) buf
    else bus (hw_write fn lba buf);
|}.

(** ** Probe *)

Definition pick_endpoint (m : msc_device_t) (ep : usb_endpoint_t) : msc_device_t :=
  if ep_type ep =? USB_EP_TYPE_BULK then (if has (ep_address ep) 128 then with_m_in ep m else with_m_out ep m) else m.
Definition find_endpoints (m : msc_device_t) (dev : usb_device_t) : msc_device_t :=
  foldl pick_endpoint m (take (Z.to_nat (ud_num_endpoints dev)) (ud_endpoints dev)).
(** [while (retries-- > 0)] *)
Fixpoint wait_ready (retries : nat) (k : Z) : kM (usb B msc * display) unit :=
  match retries with
  | O => kret tt
  | S retries => let* rc := msc_test_unit_ready k in if rc =? KABI_SUCCESS then kret tt else wait_ready retries k
  end.
Definition say_inquiry (k : Z) : kM (usb B msc * display) unit :=
  let* (rc, inq) := msc_inquiry k (replicate 36 0) in
  if rc =? KABI_SUCCESS then
    say_str "[MSC] Vendor: " ;;; say_buf (slice 8 inq 8 ++ [0]) ;;;
    say_str " Product: " ;;; say_buf (slice 16 inq 16 ++ [0]) ;;; say [10]
  else kret tt.
Definition say_capacity (k : Z) : kM (usb B msc * display) unit :=
  let* rc := msc_read_capacity k in
  if rc =? KABI_SUCCESS then
    let* d := get_msc k in
    say_str "[MSC] Capacity: " ;;; say_num junk (m_num_sectors d) ;;;
    say_str " sectors x " ;;; say_num junk (m_sector_size d) ;;; say_line " bytes" ;;;
    say_str "[MSC] Size: " ;;; say_num junk (m_num_sectors d / 2048) ;;; say_line " MB"
  else kret tt.

(** The part of [msc_probe] that talks to the device: its slot, or the error *)
Definition msc_start (i : Z) : kM (usb B msc * display) (Z + Z) :=
  let* s := kget in
  let k := msc_num_devices (u_drv s.1) in
  if (MSC_MAX_DEVICES <=? k) || (2 <=? k) then say_line "[MSC] Max devices reached" ;;; kret (inl KABI_ENOMEM)
  else
    let* dev := get_dev i in
    let m := find_endpoints (zero_msc i) dev in
    put_msc k m ;;;
    if (m_ep_in m =? 0) || (m_ep_out m =? 0) then say_line "[MSC] Missing bulk endpoints" ;;; kret (inl KABI_EIO)
    else
      say_str "[MSC] Bulk IN=0x" ;;; say_0x junk (m_ep_in m) ;;; say_str " OUT=0x" ;;; say_0x junk (m_ep_out m) ;;; say [10] ;;;
      wait_ready 5 k ;;;
      say_inquiry k ;;;
      say_capacity k ;;;
      kret (inr k).

Context (fuel : nat).
Definition up {A} (m : kM (usb B msc * display) A) : kM (kst (fatst (blk (usb B msc * display)))) A := drv (on_blk (hw m)).
Definition on_table {A} (m : kM (blk (usb B msc * display)) A) : kM (kst (fatst (blk (usb B msc * display)))) A := drv (on_blk m).

Definition blk_name (k : Z) : list Z := str "usb" ++ [48 + k].
(** The index of the first device with the name: the place that [p1_dev] points to *)
Definition index_by_name (name : list Z) : kM (blk (usb B msc * display)) (option Z) :=
  let* b := kget in kret ((λ p, Z.of_nat p.1) <$> list_find (λ d, bd_name d = name) (b_devs b)).

Definition msc_mount (k id : Z) : kM (kst (fatst (blk (usb B msc * display)))) unit :=
  let p1_name := blk_name k ++ str "p1" in
  let* p1_dev := on_table (index_by_name p1_name) in
  let* rc := fat32_vfs_mount fuel (u32 (default id p1_dev)) (str "/mnt") in
  if rc =? 0 then
    up (say_str "[MSC] FAT32 auto-mounted at /mnt from " ;;; say (match p1_dev with Some _ => p1_name | None => blk_name k end) ;;; say [10])
  else up (say_line "[MSC] FAT32 auto-mount failed. Use 'devs' to see partitions.").
Definition msc_probe (i : Z) : kM (kst (fatst (blk (usb B msc * display)))) Z :=
  let* r := up (msc_start i) in
  match r with
  | inl rc => kret rc
  | inr k =>
      let* d := up (get_msc k) in
      let* id := on_table (block_dev_register (mk_bdev (blk_name k) (msc_read_fn k) (msc_write_fn k) (m_num_sectors d) false 0 0)) in
      up (let* d := get_msc k in
          put_msc k (with_m_ready 1 (with_m_block_dev_id id d)) ;;;
          say_str "[MSC] Registered as block device '" ;;; say (blk_name k) ;;; say_str "' (dev" ;;; say_num junk id ;;; say_line ")") ;;;
      msc_mount k id ;;;
      up (let* dev := get_dev i in
          put_dev i (with_ud_driver_data (Some k) dev) ;;;
          upd_msc (λ m, MscState (msc_devices m) (msc_num_devices m + 1))) ;;;
      kret KABI_SUCCESS
  end.

Definition msc_disconnect (i : Z) : kM (usb B msc * display) unit :=
  let* dev := get_dev i in
  match ud_driver_data dev with
  | None => kret tt
  | Some k => let* d := get_msc k in put_msc k (with_m_ready 0 d) ;;; say_line "[MSC] Device disconnected"
  end.

Definition msc_class_driver : usb_class_driver_t := UDriver (str "mass_storage") 8 6 80 msc_probe_fn.
Definition usb_msc_init : kM (usb B msc * display) Z :=
  say_line "[MSC] USB Mass Storage driver initializing..." ;;;
  upd_msc (λ _, MscState (replicate 4 (zero_msc 0)) 0) ;;;
  usb_register_class_driver msc_class_driver.

(** The core with this driver *)
Definition probe_fn (fn i : Z) : kM (kst (fatst (blk (usb B msc * display)))) Z :=
  if fn =? msc_probe_fn then msc_probe i else kfault.
Definition usb_init (kmalloc : Z → option (list Z)) : kM (kst (fatst (blk (usb B msc * display)))) Z :=
  usb_core_init junk kmalloc (@up) probe_fn.

End msc.
