(* ===== verification/UsbMscInv.v ===== *)
(** * A USB stick behind the block layer

    The Bulk-Only Transport as a device implements it: a state machine [stick] that
    takes a command, moves the data and reports a status.  What the host controller
    promises of the transfers to such a device is the class [Storage]; against it the
    sector functions of [UsbMsc] are those of a disk. *)

From stdpp Require Import base numbers list gmap strings.
From Stdlib Require Import ZArith Lia.
From S2P Require Import Prelude CString Bytes Kernel Vfs Sched Task Block Display DisplayInv Console Usb Fat FatVfs UsbMsc.

#[local] Open Scope Z_scope.

(** ** The device *)

Inductive phase : Type :=
| Command
| DataIn (tag : Z) (data : list Z)
| DataOut (tag lba : Z)
| Status (tag status : Z).
(** The sectors, the phase, and the toggle expected on each endpoint *)
Record stick := Stick { st_sec : gmap Z (list Z); st_phase : phase; st_tog_in : Z; st_tog_out : Z }.

Definition be_val (l : list Z) : Z := foldl (λ v b, 256 * v + b) 0 l.
(** The next toggle after [len] bytes in packets of 512 *)
Definition next_toggle (len tog : Z) : Z := if Z.odd (Z.max 1 ((len + 511) / 512)) then 1 - tog else tog.

(** A command wrapper *)
Definition accept (s : gmap Z (list Z)) (cbw : list Z) : phase :=
  let tag := rd 4 cbw 4 in
  let op := rd 1 cbw 15 in
  let lba := be_val (slice 4 cbw 17) in
  if negb (rd 4 cbw 0 =? CBW_SIGNATURE) then Command
  else if op =? SCSI_READ_10 then match s !! lba with Some d => DataIn tag d | None => Status tag 1 end
  else if op =? SCSI_WRITE_10 then match s !! lba with Some _ => DataOut tag lba | None => Status tag 1 end
  else if op =? SCSI_TEST_UNIT_READY then Status tag 0
  else Status tag 1.
(** Bytes sent to the device, and bytes it sends *)
Definition stick_out (data : list Z) (s : stick) : stick :=
  let tog := next_toggle (Z.of_nat (length data)) (st_tog_out s) in
  match st_phase s with
  | Command => Stick (st_sec s) (accept (st_sec s) data) (st_tog_in s) tog
  | DataOut tag lba => Stick (<[lba := data]> (st_sec s)) (Status tag 0) (st_tog_in s) tog
  | _ => s
  end.
Definition csw (tag status : Z) : list Z := le_bytes 4 CSW_SIGNATURE ++ le_bytes 4 tag ++ le_bytes 4 0 ++ [status].
Definition stick_in (len : Z) (s : stick) : list Z * stick :=
  let tog := next_toggle len (st_tog_in s) in
  match st_phase s with
  | DataIn tag data => (data, Stick (st_sec s) (Status tag 0) tog (st_tog_out s))
  | Status tag st => (csw tag st, Stick (st_sec s) Command tog (st_tog_out s))
  | _ => ([], s)
  end.

(** ** The host controller's promise *)

(** On the bus state [b] there is a stick at [addr]; a transfer with the expected
    toggle reaches it and succeeds, in the phases that allow it. *)
Class Storage (B : Type) (hc : hc_ops B) (addr ep_in ep_out : Z) := {
  the_stick : B → stick;
  bulk_out : ∀ b data, (st_phase (the_stick b) = Command ∨ ∃ tag lba, st_phase (the_stick b) = DataOut tag lba) →
    ∃ b', hc_bulk_transfer hc addr ep_out data (Z.of_nat (length data)) USB_DIR_OUT (st_tog_out (the_stick b)) b =
        Ret (KABI_SUCCESS, [], st_tog_out (the_stick b')) b' ∧ the_stick b' = stick_out data (the_stick b);
  bulk_in : ∀ b buf len, (∃ tag data, st_phase (the_stick b) = DataIn tag data ∧ Z.of_nat (length data) = len) ∨ (len = 13 ∧ ∃ tag st, st_phase (the_stick b) = Status tag st) →
    ∃ b', hc_bulk_transfer hc addr ep_in buf len USB_DIR_IN (st_tog_in (the_stick b)) b =
        Ret (KABI_SUCCESS, (stick_in len (the_stick b)).1, st_tog_in (the_stick b')) b' ∧ the_stick b' = (stick_in len (the_stick b)).2;
}.

(** ** Lists *)

Lemma zset_some {A} (l : list A) i x v : zlookup l i = Some x →
  ∃ l', zset l i v = Some l' ∧ zlookup l' i = Some v ∧ (∀ j, j ≠ i → zlookup l' j = zlookup l j) ∧ l' = <[Z.to_nat i := v]> l.
Proof.
  intros H. assert (0 ≤ i < Z.of_nat (length l)) as Hi.
  { unfold zlookup in H. destruct (Z.ltb_spec i 0); [done|]. apply lookup_lt_Some in H. lia. }
  exists (<[Z.to_nat i := v]> l). split; [by apply zset_lt|]. split; [by rewrite zlookup_insert, Z.eqb_refl by lia|]. split; [|done].
  intros j Hj. destruct (decide (0 ≤ j)); [rewrite zlookup_insert by lia; by rewrite (proj2 (Z.eqb_neq _ _) Hj)|].
  unfold zlookup. by rewrite (proj2 (Z.ltb_lt _ _)) by lia.
Qed.

Lemma find_ep_ext eps eps' ep : map ep_address eps' = map ep_address eps → ∀ n i, find_ep eps' n i ep = find_ep eps n i ep.
Proof.
  revert eps'. induction eps as [|e eps IH]; intros [|e' eps'] [=] [|n] i; cbn [find_ep]; try done. rewrite H0. destruct (_ =? _); [done|]. by apply IH.
Qed.

(** ** Commands on the wire *)

Lemma be_val_lba lba : 0 ≤ lba < 4294967296 →
  be_val [Z.land (Z.shiftr lba 24) 255; Z.land (Z.shiftr lba 16) 255; Z.land (Z.shiftr lba 8) 255; Z.land lba 255] = lba.
Proof.
  intros H. cbn [be_val foldl]. change 255 with (Z.ones 8). rewrite !Z.land_ones, !Z.shiftr_div_pow2 by lia.
  change (2 ^ 8) with 256. change (2 ^ 16) with 65536. change (2 ^ 24) with 16777216. Z.div_mod_to_equations. lia.
Qed.
Lemma accept_rw s tag len dir op lba : 0 ≤ lba < 4294967296 → ∃ t, accept s (usb_cbw tag len dir (rw_cdb op lba)) =
  (if op =? SCSI_READ_10 then match s !! lba with Some d => DataIn t d | None => Status t 1 end
   else if op =? SCSI_WRITE_10 then match s !! lba with Some _ => DataOut t lba | None => Status t 1 end
   else if op =? SCSI_TEST_UNIT_READY then Status t 0 else Status t 1).
Proof.
  intros H. exists (rd 4 (usb_cbw tag len dir (rw_cdb op lba)) 4). unfold accept.
  replace (rd 4 (usb_cbw tag len dir (rw_cdb op lba)) 0) with CBW_SIGNATURE by reflexivity. rewrite Z.eqb_refl. cbn [negb].
  replace (rd 1 (usb_cbw tag len dir (rw_cdb op lba)) 15) with op by (change (op = op + 256 * 0); lia).
  change (slice 4 (usb_cbw tag len dir (rw_cdb op lba)) 17) with [Z.land (Z.shiftr lba 24) 255; Z.land (Z.shiftr lba 16) 255; Z.land (Z.shiftr lba 8) 255; Z.land lba 255].
  by rewrite be_val_lba.
Qed.
Lemma cbw_length tag len dir op lba : Z.of_nat (length (usb_cbw tag len dir (rw_cdb op lba))) = 31.
Proof. reflexivity. Qed.
Lemma received_all buf got n : length buf = n → length got = n → received buf got (Z.of_nat n) = got.
Proof.
  intros Hb Hg. unfold received, splice. rewrite Nat2Z.id, (take_ge got) by lia. rewrite drop_ge by (cbn; lia). cbn [take app]. by rewrite app_nil_r.
Qed.

Section drive.
Context {B : Type} {Bus : UsbBus B} (junk : nat → list Z).
Context (hc : hc_ops B) (addr ep_in ep_out : Z) {St : Storage B hc addr ep_in ep_out}.

(** Slot [k] of the driver is the device in slot [i] of the core, whose endpoints
    [ki] and [ko] are in step with the stick. *)
Record linked (k i ki ko : Z) (u : usb B msc) : Prop := {
  lk_msc : ∃ m, zlookup (msc_devices (u_drv u)) k = Some m ∧ m_usb_dev m = i ∧ m_ep_in m = ep_in ∧ m_ep_out m = ep_out;
  lk_hc : ∃ t, zlookup (u_hc u) i = Some t ∧ (if t =? HC_UHCI then uhci else ehci) = hc;
  lk_dev : ∃ d ei eo, zlookup (u_devs u) i = Some d ∧ ud_address d = addr ∧
    usb_get_endpoint d ep_in = Some ki ∧ usb_get_endpoint d ep_out = Some ko ∧
    zlookup (ud_endpoints d) ki = Some ei ∧ zlookup (ud_endpoints d) ko = Some eo ∧ ki ≠ ko ∧
    ep_toggle ei = st_tog_in (the_stick (u_bus u)) ∧ ep_toggle eo = st_tog_out (the_stick (u_bus u)) }.

Definition set_toggle (tog : Z) (e : usb_endpoint_t) : usb_endpoint_t := UEp (ep_address e) (ep_type e) (ep_max_packet e) (ep_interval e) tog.

(** A bulk transfer that succeeds stores the endpoint's toggle. *)
Lemma bulk_msg_run (u : usb B msc) s i ep k d e t h a x data len dir got tog b' :
  zlookup (u_devs u) i = Some d → usb_get_endpoint d ep = Some k → zlookup (ud_endpoints d) k = Some e → zlookup (u_hc u) i = Some t →
  (if t =? HC_UHCI then uhci else ehci) = h → ud_address d = a → ep_toggle e = x →
  hc_bulk_transfer h a ep data len dir x (u_bus u) = Ret (KABI_SUCCESS, got, tog) b' →
  ∃ l, zset (u_devs u) i (with_ud_endpoints (<[Z.to_nat k := set_toggle tog e]> (ud_endpoints d)) d) = Some l ∧
    usb_bulk_msg i ep data len dir (u, s) = Ret (KABI_SUCCESS, if dir =? USB_DIR_IN then received data got len else data) (with_u_devs l (with_u_bus b' u), s).
Proof.
  intros Hd Hk He Ht <- <- <- Hb. destruct (zset_some _ k e (set_toggle tog e) He) as (eps & Es & _ & _ & ->).
  destruct (zset_some _ i d (with_ud_endpoints (<[Z.to_nat k := set_toggle tog e]> (ud_endpoints d)) d) Hd) as (l & El & _). exists l. split; [done|].
  unfold usb_bulk_msg. rewrite (kbind_ret _ _ _ d (u, s)) by (unfold get_dev, kget_opt; cbn [fst]; by rewrite Hd). cbn zeta. rewrite Hk.
  rewrite (kbind_ret _ _ _ (ep_toggle e) (u, s)) by (unfold kget_opt; by rewrite He).
  rewrite (kbind_ret _ _ _ (if t =? HC_UHCI then uhci else ehci) (u, s)) by (unfold hc_of, kbind, kget_opt; cbn [fst]; by rewrite Ht).
  rewrite (kbind_ret _ _ _ (KABI_SUCCESS, got, tog) (with_u_bus b' u, s)) by (unfold bus, own; cbn [fst snd]; by rewrite Hb).
  change (KABI_SUCCESS =? KABI_SUCCESS) with true. cbn iota.
  rewrite (kbind_ret _ _ _ tt (with_u_devs l (with_u_bus b' u), s)); [done|].
  rewrite (kbind_ret _ _ _ d (with_u_bus b' u, s)) by (unfold get_dev, kget_opt; cbn [fst u_devs with_u_bus]; by rewrite Hd).
  rewrite (kbind_ret _ _ _ e (with_u_bus b' u, s)) by (unfold kget_opt; by rewrite He).
  rewrite (kbind_ret _ _ _ _ (with_u_bus b' u, s)) by (unfold kget_opt; fold (set_toggle tog e); by rewrite Es).
  unfold put_dev, kbind, kget_opt, upd, own, kmodify. cbn [fst snd u_devs with_u_bus]. by rewrite El.
Qed.

(** The device after the toggle of one endpoint is stored: its endpoints are found
    as before. *)
Lemma toggled_endpoint d k e tog ep : zlookup (ud_endpoints d) k = Some e →
  usb_get_endpoint (with_ud_endpoints (<[Z.to_nat k := set_toggle tog e]> (ud_endpoints d)) d) ep = usb_get_endpoint d ep.
Proof.
  intros He. unfold usb_get_endpoint. cbn [ud_endpoints ud_num_endpoints with_ud_endpoints]. apply find_ep_ext.
  change (ep_address <$> <[Z.to_nat k := set_toggle tog e]> (ud_endpoints d) = ep_address <$> ud_endpoints d). rewrite list_fmap_insert. apply list_insert_id.
  rewrite list_lookup_fmap. unfold zlookup in He. destruct (k <? 0); [done|]. by rewrite He.
Qed.

Lemma out_run k i ki ko u s data : linked k i ki ko u →
  (st_phase (the_stick (u_bus u)) = Command ∨ ∃ tag lba, st_phase (the_stick (u_bus u)) = DataOut tag lba) →
  ∃ u', usb_bulk_msg i ep_out data (Z.of_nat (length data)) USB_DIR_OUT (u, s) = Ret (KABI_SUCCESS, data) (u', s) ∧
    linked k i ki ko u' ∧ u_drv u' = u_drv u ∧ the_stick (u_bus u') = stick_out data (the_stick (u_bus u)).
Proof.
  intros [Lm (t & Ht & Hh) (d & ei & eo & Hd & Ha & Ki & Ko & Ei & Eo & Kn & Ti & To)] Hp.
  destruct (bulk_out (u_bus u) data Hp) as (b' & Eb & Hs).
  destruct (bulk_msg_run u s i ep_out ko d eo t _ _ _ _ _ _ _ _ _ Hd Ko Eo Ht Hh Ha To Eb) as (l & El & Er). eexists. split; [exact Er|]. split; [|done].
  destruct (zset_some _ i d (with_ud_endpoints (<[Z.to_nat ko := set_toggle (st_tog_out (the_stick b')) eo]> (ud_endpoints d)) d) Hd) as (l' & El' & L1 & _). rewrite El in El'. injection El' as <-.
  destruct (zset_some _ ko eo (set_toggle (st_tog_out (the_stick b')) eo) Eo) as (eps & _ & Z1 & Z2 & ->).
  split; [done|by exists t|]. exists (with_ud_endpoints (<[Z.to_nat ko := set_toggle (st_tog_out (the_stick b')) eo]> (ud_endpoints d)) d), ei, (set_toggle (st_tog_out (the_stick b')) eo).
  rewrite !toggled_endpoint by done. cbn [u_devs with_u_devs with_u_bus u_bus ud_address with_ud_endpoints ud_endpoints]. rewrite Z2 by done. split_and!; try done.
  rewrite Hs, Ti. unfold stick_out. by destruct (st_phase _).
Qed.

Lemma in_run k i ki ko u s buf len : linked k i ki ko u →
  (∃ tag data, st_phase (the_stick (u_bus u)) = DataIn tag data ∧ Z.of_nat (length data) = len) ∨ (len = 13 ∧ ∃ tag st, st_phase (the_stick (u_bus u)) = Status tag st) →
  ∃ u', usb_bulk_msg i ep_in buf len USB_DIR_IN (u, s) = Ret (KABI_SUCCESS, received buf (stick_in len (the_stick (u_bus u))).1 len) (u', s) ∧
    linked k i ki ko u' ∧ u_drv u' = u_drv u ∧ the_stick (u_bus u') = (stick_in len (the_stick (u_bus u))).2.
Proof.
  intros [Lm (t & Ht & Hh) (d & ei & eo & Hd & Ha & Ki & Ko & Ei & Eo & Kn & Ti & To)] Hp.
  destruct (bulk_in (u_bus u) buf len Hp) as (b' & Eb & Hs).
  destruct (bulk_msg_run u s i ep_in ki d ei t _ _ _ _ _ _ _ _ _ Hd Ki Ei Ht Hh Ha Ti Eb) as (l & El & Er). eexists. split; [exact Er|]. split; [|done].
  destruct (zset_some _ i d (with_ud_endpoints (<[Z.to_nat ki := set_toggle (st_tog_in (the_stick b')) ei]> (ud_endpoints d)) d) Hd) as (l' & El' & L1 & _). rewrite El in El'. injection El' as <-.
  destruct (zset_some _ ki ei (set_toggle (st_tog_in (the_stick b')) ei) Ei) as (eps & _ & Z1 & Z2 & ->).
  split; [done|by exists t|]. exists (with_ud_endpoints (<[Z.to_nat ki := set_toggle (st_tog_in (the_stick b')) ei]> (ud_endpoints d)) d), (set_toggle (st_tog_in (the_stick b')) ei), eo.
  rewrite !toggled_endpoint by done. cbn [u_devs with_u_devs with_u_bus u_bus ud_address with_ud_endpoints ud_endpoints]. rewrite (Z2 ko) by done. split_and!; try done.
  rewrite Hs, To. unfold stick_in. by destruct (st_phase _).
Qed.

(** ** The phases of a command *)

Lemma csw_run k i ki ko u s data m tag : linked k i ki ko u → zlookup (msc_devices (u_drv u)) k = Some m → st_phase (the_stick (u_bus u)) = Status tag 0 →
  ∃ u', msc_status m data (u, s) = Ret (KABI_SUCCESS, data) (u', s) ∧ linked k i ki ko u' ∧ st_phase (the_stick (u_bus u')) = Command ∧
    st_sec (the_stick (u_bus u')) = st_sec (the_stick (u_bus u)).
Proof.
  intros L Hm Hp. destruct (lk_msc _ _ _ _ _ L) as (m' & Hm' & Hi & Hin & Hout). rewrite Hm in Hm'. injection Hm' as <-.
  destruct (in_run k i ki ko u s (replicate 13 0) 13 L) as (u' & E & L' & _ & Hs); [eauto|]. unfold stick_in in E, Hs. rewrite Hp in E, Hs. exists u'.
  unfold msc_status, msc_recv_csw. rewrite Hi, Hin, (kbind_ret _ _ _ _ _ E). split; [done|]. by rewrite Hs.
Qed.

(** The next tag, and the command wrapper *)
Lemma scsi_command_run k i ki ko u s cdb data len dir : linked k i ki ko u → st_phase (the_stick (u_bus u)) = Command → Z.of_nat (length cdb) ≤ 16 →
  ∃ m tag u', linked k i ki ko u' ∧ zlookup (msc_devices (u_drv u')) k = Some m ∧ the_stick (u_bus u') = stick_out (usb_cbw tag len dir cdb) (the_stick (u_bus u)) ∧
    msc_scsi_command k cdb (Some data) len dir (u, s) =
    kbind (if (0 <? len) && true then (if dir =? USB_DIR_IN then usb_bulk_msg i ep_in data (u16 len) USB_DIR_IN else usb_bulk_msg i ep_out data (u16 len) USB_DIR_OUT) else kret (KABI_SUCCESS, data))
      (λ '(rc, buf), if negb (rc =? KABI_SUCCESS) then kbind (say_line "[MSC] Data phase failed") (λ _, kret (rc, buf)) else msc_status m buf) (u', s).
Proof.
  intros L Hp Hc. destruct L as [(m & Hm & Hi & Hin & Hout) Lh Ld]. set (tag := u32 (m_tag m + 1)).
  destruct (zset_some _ k m (with_m_tag tag m) Hm) as (l & El & L1 & _).
  assert (linked k i ki ko (with_u_drv (MscState l (msc_num_devices (u_drv u))) u)) as L'.
  { split; [|done..]. exists (with_m_tag tag m). by split_and!. }
  destruct (out_run k i ki ko _ s (usb_cbw tag len dir cdb) L' (or_introl Hp)) as (u' & E & L2 & Dv & Hs).
  exists (with_m_tag tag m), tag, u'. split; [done|]. split; [by rewrite Dv|]. split; [done|].
  unfold msc_scsi_command. rewrite (kbind_ret _ _ _ m (u, s)) by (unfold get_msc, kget_opt; cbn [fst]; by rewrite Hm). cbn zeta. fold tag.
  rewrite (kbind_ret _ _ _ tt (with_u_drv (MscState l (msc_num_devices (u_drv u))) u, s)) by (unfold put_msc, kbind, kget_opt; cbn [fst]; by rewrite El).
  replace (Z.of_nat (length (usb_cbw tag len dir cdb))) with 31 in E.
  2: { unfold usb_cbw. rewrite !length_app, !le_bytes_length, length_replicate. cbn [length]. lia. }
  rewrite (kbind_ret (msc_send_cbw _ _) _ _ KABI_SUCCESS (u', s)) by (unfold msc_send_cbw; rewrite Hi, Hout; by rewrite (kbind_ret _ _ _ _ _ E)).
  cbn [negb default]. change (KABI_SUCCESS =? KABI_SUCCESS) with true. cbn [negb]. unfold msc_bulk_in, msc_bulk_out. rewrite Hi, Hin, Hout.
  replace (bool_decide (is_Some (Some data))) with true by done. done.
Qed.

Definition secs (u : usb B msc) : gmap Z (list Z) := st_sec (the_stick (u_bus u)).
Definition idle (k i ki ko : Z) (u : usb B msc) : Prop := linked k i ki ko u ∧ st_phase (the_stick (u_bus u)) = Command.

Lemma msc_read_run k i ki ko u s lba buf data : idle k i ki ko u → 0 ≤ lba < 4294967296 → secs u !! lba = Some data → length data = 512%nat → length buf = 512%nat →
  ∃ u', msc_read_sector k lba buf (u, s) = Ret (KABI_SUCCESS, data) (u', s) ∧ idle k i ki ko u' ∧ secs u' = secs u.
Proof.
  intros [L Hp] Hl Hd Ld Lb. destruct (scsi_command_run k i ki ko u s (rw_cdb SCSI_READ_10 lba) buf 512 USB_DIR_IN L Hp ltac:(cbn; lia)) as (m & tag & u1 & L1 & M1 & S1 & E1).
  unfold stick_out in S1. rewrite Hp in S1. destruct (accept_rw (secs u) tag 512 USB_DIR_IN SCSI_READ_10 lba Hl) as (t & Ea). fold (secs u) in S1. rewrite Ea, Z.eqb_refl, Hd in S1.
  destruct (in_run k i ki ko u1 s buf 512 L1) as (u2 & E2 & L2 & D2 & S2); [left; exists t, data; rewrite S1; cbn; split; [done|lia]|]. unfold stick_in in E2, S2. rewrite S1 in E2, S2. cbn [st_phase fst snd st_sec] in E2, S2.
  change 512 with (Z.of_nat 512) in E2 at 2. rewrite received_all in E2 by done.
  destruct (csw_run k i ki ko u2 s data m t L2) as (u3 & E3 & L3 & P3 & C3); [by rewrite D2|by rewrite S2|].
  exists u3. split; [|split; [by split|unfold secs; by rewrite C3, S2]].
  unfold msc_read_sector. rewrite E1. change ((0 <? 512) && true) with true. change (USB_DIR_IN =? USB_DIR_IN) with true. change (u16 512) with 512. cbn iota.
  rewrite (kbind_ret _ _ _ _ _ E2). exact E3.
Qed.

Lemma msc_write_run k i ki ko u s lba old data : idle k i ki ko u → 0 ≤ lba < 4294967296 → secs u !! lba = Some old → length data = 512%nat →
  ∃ u', msc_write_sector k lba data (u, s) = Ret KABI_SUCCESS (u', s) ∧ idle k i ki ko u' ∧ secs u' = <[lba := data]> (secs u).
Proof.
  intros [L Hp] Hl Hd Ld. destruct (scsi_command_run k i ki ko u s (rw_cdb SCSI_WRITE_10 lba) data 512 USB_DIR_OUT L Hp ltac:(cbn; lia)) as (m & tag & u1 & L1 & M1 & S1 & E1).
  unfold stick_out in S1. rewrite Hp in S1. destruct (accept_rw (secs u) tag 512 USB_DIR_OUT SCSI_WRITE_10 lba Hl) as (t & Ea). fold (secs u) in S1. change (SCSI_WRITE_10 =? SCSI_READ_10) with false in Ea. rewrite Ea, Z.eqb_refl, Hd in S1.
  destruct (out_run k i ki ko u1 s data L1) as (u2 & E2 & L2 & D2 & S2); [right; exists t, lba; by rewrite S1|]. unfold stick_out in S2. rewrite S1 in S2. cbn [st_phase st_sec] in S2.
  replace (Z.of_nat (length data)) with 512 in E2 by lia.
  destruct (csw_run k i ki ko u2 s data m t L2) as (u3 & E3 & L3 & P3 & C3); [by rewrite D2|by rewrite S2|].
  exists u3. split; [|split; [by split|unfold secs; by rewrite C3, S2]].
  unfold msc_write_sector. unfold kbind at 1. rewrite E1. change ((0 <? 512) && true) with true. change (USB_DIR_OUT =? USB_DIR_IN) with false. change (u16 512) with 512. cbn iota.
  rewrite (kbind_ret _ _ _ _ _ E2). change (KABI_SUCCESS =? KABI_SUCCESS) with true. cbn [negb]. by rewrite E3.
Qed.

End drive.


(** A controller with the stick at address 1, endpoints 0x81 and 0x02; a wrong toggle
    or phase is an error *)
Definition demo_bulk (addr ep : Z) (data : list Z) (len dir tog : Z) : kM stick (Z * list Z * Z) := λ b,
  if negb (addr =? 1) then Ret (KABI_EIO, [], tog) b
  else if (ep =? 129) && (tog =? st_tog_in b) then let (got, b') := stick_in len b in Ret (KABI_SUCCESS, got, st_tog_in b') b'
  else if (ep =? 2) && (tog =? st_tog_out b) then let b' := stick_out data b in Ret (KABI_SUCCESS, [], st_tog_out b') b'
  else Ret (KABI_EIO, [], tog) b.
Definition demo_hc : hc_ops stick := HcOps stick (kret KABI_SUCCESS) (kret 1) (λ _, kret 1) (λ _, kret tt) (λ _ _ _ _ _ _, kret (KABI_EIO, [])) demo_bulk.
#[export] Instance demo_bus : UsbBus stick := {| ehci := demo_hc; uhci := demo_hc |}.
#[export] Instance demo_ide : SectorHw stick := {| hw_read _ _ := kret (KABI_EIO, []); hw_write _ _ _ := kret KABI_EIO |}.
#[export, refine] Instance demo_storage : Storage stick demo_hc 1 129 2 := {| the_stick b := b |}.
Proof.
  - intros b data _. eexists. split; [|done]. unfold demo_hc, demo_bulk. cbn [hc_bulk_transfer]. by rewrite !Z.eqb_refl.
  - intros b buf len _. exists (stick_in len b).2. split; [|done]. unfold demo_hc, demo_bulk. cbn [hc_bulk_transfer]. rewrite !Z.eqb_refl. by destruct (stick_in len b).
Defined.
Definition demo_usb_dev : usb_device_t :=
  with_ud_address 1 (with_ud_num_endpoints 2 (with_ud_endpoints ([UEp 129 2 512 0 0; UEp 2 2 512 0 0] ++ replicate 14 zero_ep) (zero_dev 0))).
Definition demo_usb : usb stick msc :=
  Usb (Stick {[ 7 := replicate 512 65 ]} Command 0 0) (MscState [Msc 0 129 2 512 512 3 1024 512 0 1] 1) [demo_usb_dev] 1 2 [1] [msc_class_driver] true false.
Lemma demo_usb_idle : idle demo_hc 1 129 2 0 0 0 1 demo_usb.
Proof.
  split; [|done]. split; [by eexists|by exists 1|]. exists demo_usb_dev, (UEp 129 2 512 0 0), (UEp 2 2 512 0 0). by split_and!.
Qed.
