(* ===== verification/FatInv.v ===== *)
(** * FAT32: the table and the data

    Against any device that keeps the contract [Disk], and for a volume that fits
    on it, the operations on the table act on the abstract table [fat] and on the
    abstract clusters [data]. *)

From stdpp Require Import base numbers list gmap strings.
From Stdlib Require Import ZArith Lia.
From S2P Require Import Prelude CString Bytes Sched Task Block Fat.

#[local] Open Scope Z_scope.

(** ** The contract of a device

    In a sound state the sectors below [disk_size] can be read and written, and
    hold what was last written to them. *)
Class Disk (B : Type) `{BlockIO B} (dev : Z) := {
  disk_ok : B → Prop;
  disk_sec : B → Z → list Z;
  disk_size : Z;
  disk_len : ∀ b x, disk_ok b → 0 ≤ x < disk_size → length (disk_sec b x) = 512%nat;
  disk_bytes : ∀ b x, disk_ok b → 0 ≤ x < disk_size → bytes (disk_sec b x);
  disk_read : ∀ b x, disk_ok b → 0 ≤ x < disk_size → block_read dev x b = Ret (KABI_SUCCESS, disk_sec b x) b;
  disk_write : ∀ b x l, disk_ok b → 0 ≤ x < disk_size → length l = 512%nat → bytes l →
    ∃ b', block_write dev x l b = Ret KABI_SUCCESS b' ∧ disk_ok b' ∧ disk_sec b' x = l ∧
      ∀ y, y ≠ x → disk_sec b' y = disk_sec b y;
}.

(** A volume with [n] data clusters that fits on a device: the first copy of the
    table lies before the data and covers the clusters. *)
Record vol_ok (size : Z) (m : fat32_mount_t) (n : Z) : Prop := {
  vo_fat : 0 ≤ fm_fat_lba_start m;
  vo_data : fm_fat_lba_start m + fm_sectors_per_fat m ≤ fm_data_lba_start m;
  vo_spc : 0 < fm_sectors_per_cluster m < 256;
  vo_count : 0 ≤ n < 268435440;
  vo_end : fm_data_lba_start m + n * fm_sectors_per_cluster m ≤ size;
  vo_size : size ≤ 4294967296;
  vo_table : n + 2 ≤ fm_sectors_per_fat m * 128 ≤ 4294967296 }.

Lemma u32_id x : 0 ≤ x < 4294967296 → u32 x = x.
Proof. intros. unfold u32. by apply Z.mod_small. Qed.

Section table.
Context {B : Type} {Io : BlockIO B} {dev : Z} {Dk : Disk B dev}.
#[local] Open Scope kernel_scope.
Context {m : fat32_mount_t} {n : Z} (Hvol : vol_ok disk_size m n).
Implicit Types b : B.

Definition in_vol (c : Z) : Prop := 2 ≤ c < 2 + n.
#[local] Abbreviation spc := (fm_sectors_per_cluster m).
#[local] Abbreviation fat0 := (fm_fat_lba_start m).
#[local] Abbreviation data0 := (fm_data_lba_start m).

Lemma read_bind {A} b x (k : Z * list Z → kM B A) : disk_ok b → 0 ≤ x < disk_size →
  kbind (block_read dev x) k b = k (KABI_SUCCESS, disk_sec b x) b.
Proof. intros. unfold kbind. by rewrite disk_read. Qed.

(** The entry of a cluster, whole and without its four reserved bits. *)
Definition fat_raw b (c : Z) : Z := rd 4 (disk_sec b (fat0 + c / 128)) (4 * (c mod 128)).
Definition fat b (c : Z) : Z := Z.land (fat_raw b c) 268435455.

Lemma fat_bound b c : disk_ok b → in_vol c → 0 ≤ fat b c < 268435456.
Proof.
  intros _ _. unfold fat. change 268435455 with (Z.ones 28). rewrite Z.land_ones by lia. apply Z.mod_pos_bound. done.
Qed.

Lemma entry_place c : 0 ≤ c < fm_sectors_per_fat m * 128 →
  0 ≤ fat0 + c / 128 < data0 ∧ 0 ≤ 4 * (c mod 128) ∧ 4 * (c mod 128) + 4 ≤ 512.
Proof.
  intros Hc. destruct Hvol as [V1 V2 V3 V4 V5 V6 V7].
  pose proof (Z.div_pos c 128 ltac:(lia) ltac:(lia)). pose proof (Z.div_lt_upper_bound c 128 (fm_sectors_per_fat m) ltac:(lia) ltac:(lia)).
  pose proof (Z.mod_pos_bound c 128 ltac:(lia)). lia.
Qed.
Lemma vol_entry c : in_vol c → 0 ≤ c < fm_sectors_per_fat m * 128.
Proof. unfold in_vol. destruct Hvol. lia. Qed.
Lemma data_fits : data0 ≤ disk_size.
Proof. destruct Hvol as [V1 V2 V3 V4 V5 V6 V7]. pose proof (Z.mul_nonneg_nonneg n spc ltac:(lia) ltac:(lia)). lia. Qed.

Lemma fat_sector_run c : 0 ≤ c < 268435456 → 0 ≤ c < fm_sectors_per_fat m * 128 →
  fat_sector m c = fat0 + c / 128 ∧ fat_offset c mod 512 = 4 * (c mod 128).
Proof.
  intros Hc Hc'. destruct (entry_place c Hc') as [H1 _]. pose proof data_fits. destruct Hvol as [V1 V2 V3 V4 V5 V6 V7].
  assert (c * 4 / 512 = c / 128 ∧ (c * 4) mod 512 = 4 * (c mod 128)) as [E1 E2].
  { split; [change 512 with (128 * 4); apply Z.div_mul_cancel_r; lia|].
    change 512 with (128 * 4). rewrite Z.mul_mod_distr_r by lia. lia. }
  unfold fat_sector, fat_offset. rewrite (u32_id (c * 4)) by lia. rewrite E1, E2. split; [|done]. apply u32_id. lia.
Qed.

Lemma get_next_run b c : disk_ok b → in_vol c → fat32_get_next_cluster dev m c b = Ret (fat b c) b.
Proof.
  intros Hok Hc. pose proof (vol_entry c Hc) as He. destruct (entry_place c He) as [Hs _]. pose proof data_fits as Hf.
  assert (0 ≤ c < 268435456) as Hc28 by (unfold in_vol in Hc; destruct Hvol; lia).
  destruct (fat_sector_run c Hc28 He) as [E1 E2].
  unfold fat32_get_next_cluster. rewrite E1, E2, read_bind by (try done; lia). done.
Qed.

(** Two entries in the same sector do not overlap. *)
Lemma entry_apart c c' : 0 ≤ c → 0 ≤ c' → c ≠ c' → c / 128 = c' / 128 →
  4 * (c' mod 128) + 4 ≤ 4 * (c mod 128) ∨ 4 * (c mod 128) + 4 ≤ 4 * (c' mod 128).
Proof. intros. pose proof (Z.div_mod c 128 ltac:(lia)). pose proof (Z.div_mod c' 128 ltac:(lia)). lia. Qed.

(** What a write of one entry changes: that entry, and no sector outside the
    table. *)
Lemma set_run b c v : disk_ok b → in_vol c → 0 ≤ v < 268435456 →
  ∃ b', fat32_set_cluster dev m c v b = Ret tt b' ∧ disk_ok b' ∧ fat b' c = v ∧
    Z.shiftr (fat_raw b' c) 28 = Z.shiftr (fat_raw b c) 28 ∧
    (∀ c', 0 ≤ c' < fm_sectors_per_fat m * 128 → c' ≠ c → fat_raw b' c' = fat_raw b c') ∧
    (∀ x, x < fat0 ∨ fat0 + fm_sectors_per_fat m ≤ x → disk_sec b' x = disk_sec b x).
Proof.
  intros Hok Hc Hv. pose proof (vol_entry c Hc) as He. destruct (entry_place c He) as (Hs & Ho & Ho').
  pose proof data_fits as Hf. assert (0 ≤ c < 268435456) as Hc28 by (unfold in_vol in Hc; destruct Hvol; lia).
  destruct (fat_sector_run c Hc28 He) as [E1 E2].
  assert (0 ≤ fat0 + c / 128 < disk_size) as Hsz by lia.
  pose proof (disk_len b _ Hok Hsz) as Hlen. pose proof (disk_bytes b _ Hok Hsz) as Hby.
  unfold fat32_set_cluster. rewrite E1, E2, read_bind by done. rewrite Z.eqb_refl. cbn [negb].
  set (buf := disk_sec b (fat0 + c / 128)) in *. set (off := 4 * (c mod 128)) in *.
  set (nv := Z.lor _ _). assert (fat_raw b c = rd 4 buf off) as Eraw by done.
  pose proof (rd_bound 4 buf off Hby) as Hrd. change (2 ^ (8 * Z.of_nat 4)) with 4294967296 in Hrd.
  destruct (disk_write b (fat0 + c / 128) (wr 4 buf off nv) Hok Hsz) as (b' & Ew & Hok' & Hx & Hy).
  { rewrite wr_length; [done|lia|rewrite Hlen; lia]. }
  { by apply wr_bytes. }
  rewrite (kbind_ret _ _ _ _ _ Ew). exists b'. split; [done|]. split; [done|].
  assert (fat_raw b' c = nv mod 4294967296) as Enew.
  { unfold fat_raw. rewrite Hx. apply rd_wr; rewrite ?Hlen; unfold off; lia. }
  assert (0 ≤ nv < 4294967296) as Hnv.
  { unfold nv. split; [apply Z.lor_nonneg; split; apply Z.land_nonneg; lia|].
    change 4294967296 with (2 ^ 32). apply Z.log2_lt_cancel. rewrite Z.log2_pow2 by lia.
    pose proof (Z.log2_lor (Z.land (rd 4 buf off) 4026531840) (Z.land v 268435455)
      ltac:(apply Z.land_nonneg; lia) ltac:(apply Z.land_nonneg; lia)) as ->.
    pose proof (Z.log2_land (rd 4 buf off) 4026531840 ltac:(lia) ltac:(lia)).
    pose proof (Z.log2_land v 268435455 ltac:(lia) ltac:(lia)).
    change (Z.log2 4026531840) with 31 in *. change (Z.log2 268435455) with 27 in *. lia. }
  rewrite Z.mod_small in Enew by done. split_and!.
  - unfold fat. rewrite Enew. unfold nv. apply Z.bits_inj'. intros i Hi.
    rewrite !Z.land_spec, Z.lor_spec, !Z.land_spec. change 268435455 with (Z.ones 28). change 4026531840 with (Z.shiftl 15 28).
    rewrite Z.shiftl_spec by done. destruct (decide (i < 28)) as [Hi28|Hi28].
    + rewrite Z.ones_spec_low by lia. rewrite (Z.testbit_neg_r 15) by lia. by rewrite !andb_true_r, andb_false_r.
    + rewrite Z.ones_spec_high by lia. rewrite !andb_false_r. symmetry. apply Z.bits_above_log2; [lia|].
      destruct (decide (v = 0)) as [->|]; [cbn; lia|]. apply Z.log2_lt_pow2; [lia|]. eapply Z.lt_le_trans; [apply Hv|].
      change 268435456 with (2 ^ 28). apply Z.pow_le_mono_r; lia.
  - rewrite Enew, Eraw. unfold nv. apply Z.bits_inj'. intros i Hi. rewrite !Z.shiftr_spec, Z.lor_spec, !Z.land_spec by done.
    change 268435455 with (Z.ones 28). rewrite Z.ones_spec_high by lia. rewrite andb_false_r, orb_false_r.
    change 4026531840 with (Z.shiftl 15 28). rewrite Z.shiftl_spec by lia. replace (i + 28 - 28) with i by lia.
    change 15 with (Z.ones 4). destruct (decide (i < 4)); [by rewrite Z.ones_spec_low, andb_true_r by lia|].
    rewrite Z.ones_spec_high, andb_false_r by lia. symmetry. apply Z.bits_above_log2; [lia|].
    destruct (decide (rd 4 buf off = 0)) as [->|]; [cbn; lia|]. apply Z.log2_lt_pow2; [lia|]. eapply Z.lt_le_trans; [apply Hrd|].
    change 4294967296 with (2 ^ 32). apply Z.pow_le_mono_r; lia.
  - intros c' Hc' Hne. unfold fat_raw. destruct (decide (c' / 128 = c / 128)) as [E|E].
    + rewrite E, Hx. fold buf. apply rd_wr_ne; rewrite ?Hlen; unfold off; try lia.
      * apply (entry_place c' Hc').
      * destruct (entry_apart c c') as [|]; lia.
    + rewrite Hy by lia. done.
  - intros x Hxr. apply Hy. pose proof (Z.div_lt_upper_bound c 128 (fm_sectors_per_fat m) ltac:(lia) ltac:(lia)).
    pose proof (Z.div_pos c 128 ltac:(lia) ltac:(lia)). lia.
Qed.

(** ** Free clusters *)

Lemma entry_of_word s i : 0 ≤ i < 128 → (s * 128 + i) / 128 = s ∧ (s * 128 + i) mod 128 = i.
Proof.
  intros. split; [rewrite Z.div_add_l, Z.div_small by lia; lia|]. rewrite Z.add_comm, Z.mod_add by lia. by apply Z.mod_small.
Qed.

(** The first entry of a sector of the table that is free. *)
Lemma free_in_sector_run b s k : ∀ i, disk_ok b → 0 ≤ s → s * 128 + 128 ≤ 4294967296 → 0 ≤ i → i + Z.of_nat k = 128 →
  match free_in_sector k i s (disk_sec b (fat0 + s)) with
  | Some c => 2 ≤ c ∧ s * 128 + i ≤ c < s * 128 + 128 ∧ fat b c = 0 ∧
      ∀ c', s * 128 + i ≤ c' < c → 2 ≤ c' → fat b c' ≠ 0
  | None => ∀ c', s * 128 + i ≤ c' < s * 128 + 128 → 2 ≤ c' → fat b c' ≠ 0
  end.
Proof.
  induction k as [|k IH]; intros i Hok Hs Hs2 Hi Hk; cbn [free_in_sector]; [intros; lia|].
  rewrite (u32_id (s * 128 + i)) by lia. destruct (entry_of_word s i ltac:(lia)) as [E1 E2].
  assert (fat b (s * 128 + i) = Z.land (rd 4 (disk_sec b (fat0 + s)) (4 * i)) 268435455) as Ef
    by (unfold fat, fat_raw; by rewrite E1, E2).
  specialize (IH (i + 1) Hok Hs Hs2 ltac:(lia) ltac:(lia)).
  assert (∀ (P : Prop), (s * 128 + i < 2 ∨ fat b (s * 128 + i) ≠ 0) →
    match free_in_sector k (i + 1) s (disk_sec b (fat0 + s)) with
    | Some c => 2 ≤ c ∧ s * 128 + i ≤ c < s * 128 + 128 ∧ fat b c = 0 ∧
        ∀ c', s * 128 + i ≤ c' < c → 2 ≤ c' → fat b c' ≠ 0
    | None => ∀ c', s * 128 + i ≤ c' < s * 128 + 128 → 2 ≤ c' → fat b c' ≠ 0
    end) as Hnext.
  { intros _ Hno. destruct (free_in_sector k _ _ _) as [c|].
    - destruct IH as (H1 & H2 & H3 & H4). split_and!; try done; try lia. intros c' Hc' H'.
      destruct (decide (c' = s * 128 + i)) as [->|]; [destruct Hno; [lia|done]|]. apply H4; lia.
    - intros c' Hc' H'. destruct (decide (c' = s * 128 + i)) as [->|]; [destruct Hno; [lia|done]|]. apply IH; lia. }
  destruct (Z.ltb_spec (s * 128 + i) 2); [apply (Hnext True); by left|].
  rewrite <-Ef. destruct (Z.eqb_spec (fat b (s * 128 + i)) 0) as [E0|E0]; [|apply (Hnext True); by right].
  split_and!; try done; lia.
Qed.

Lemma find_free_loop b k : ∀ s, disk_ok b → 0 ≤ s → s + Z.of_nat k = fm_sectors_per_fat m →
  ∃ c, find_free dev m k s b = Ret c b ∧
    ((c = 0 ∧ ∀ c', s * 128 ≤ c' < fm_sectors_per_fat m * 128 → 2 ≤ c' → fat b c' ≠ 0) ∨
     (2 ≤ c ∧ s * 128 ≤ c < fm_sectors_per_fat m * 128 ∧ fat b c = 0 ∧
      ∀ c', s * 128 ≤ c' < c → 2 ≤ c' → fat b c' ≠ 0)).
Proof.
  pose proof data_fits as Hf. pose proof Hvol as [V1 V2 V3 V4 V5 V6 V7].
  induction k as [|k IH]; intros s Hok Hs Hk; cbn [find_free].
  - exists 0. split; [done|]. left. split; [done|]. intros; lia.
  - rewrite u32_id, read_bind by (try done; lia). rewrite Z.eqb_refl. cbn [negb].
    pose proof (free_in_sector_run b s 128 0 Hok Hs ltac:(lia) ltac:(lia) eq_refl) as Hsec. rewrite Z.add_0_r in Hsec.
    destruct (free_in_sector 128 0 s _) as [c|].
    + destruct Hsec as (H1 & H2 & H3 & H4). exists c. split; [done|]. right. split_and!; try done; lia.
    + destruct (IH (s + 1) Hok ltac:(lia) ltac:(lia)) as (c & E & H). exists c. split; [done|].
      destruct H as [[-> H]|(H1 & H2 & H3 & H4)]; [left|right]; split_and!; try done; try lia.
      * intros c' Hc' H'. destruct (decide (c' < s * 128 + 128)); [apply Hsec; lia|]. apply H; lia.
      * intros c' Hc' H'. destruct (decide (c' < s * 128 + 128)); [apply Hsec; lia|]. apply H4; lia.
Qed.

(** [fat32_find_free_cluster] finds the first free entry of the table. *)
Lemma find_free_run b : disk_ok b → ∃ c, fat32_find_free_cluster dev m b = Ret c b ∧
  ((c = 0 ∧ ∀ c', 2 ≤ c' < fm_sectors_per_fat m * 128 → fat b c' ≠ 0) ∨
   (2 ≤ c < fm_sectors_per_fat m * 128 ∧ fat b c = 0 ∧ ∀ c', 2 ≤ c' < c → fat b c' ≠ 0)).
Proof.
  intros Hok. pose proof Hvol as [V1 V2 V3 V4 V5 V6 V7].
  destruct (find_free_loop b (Z.to_nat (fm_sectors_per_fat m)) 0 Hok ltac:(lia) ltac:(lia)) as (c & E & H).
  exists c. split; [exact E|]. destruct H as [[-> H]|(H1 & H2 & H3 & H4)]; [left|right].
  - split; [done|]. intros c' Hc'. apply H; lia.
  - split_and!; try done; try lia. intros c' Hc'. apply H4; lia.
Qed.

(** ** Clusters of data *)

Definition lba (c : Z) : Z := data0 + (c - 2) * spc.
(** The bytes of [k] sectors from [x] on, and of a cluster. *)
Definition sectors b (x k : Z) : list Z := concat (map (disk_sec b) (seqZ x k)).
Definition data b (c : Z) : list Z := sectors b (lba c) spc.

Lemma lba_range c k : in_vol c → 0 ≤ k < spc → data0 ≤ lba c + k < disk_size.
Proof.
  intros Hc Hk. unfold in_vol, lba in *. destruct Hvol as [V1 V2 V3 V4 V5 V6 V7].
  pose proof (Z.mul_le_mono_nonneg_r 0 (c - 2) spc ltac:(lia) ltac:(lia)).
  pose proof (Z.mul_le_mono_nonneg_r (c - 2 + 1) n spc ltac:(lia) ltac:(lia)). lia.
Qed.
Lemma lba_ge c : in_vol c → data0 ≤ lba c ∧ 0 ≤ lba c ∧ lba c + spc ≤ disk_size.
Proof.
  intros Hc. pose proof Hvol as [V1 V2 V3 V4 V5 V6 V7]. pose proof (lba_range c 0 Hc ltac:(lia)).
  pose proof (lba_range c (spc - 1) Hc ltac:(lia)). lia.
Qed.
Lemma lba_run c : in_vol c → fat32_cluster_to_lba m c = lba c.
Proof.
  intros Hc. pose proof (lba_range c 0 Hc) as Hr. destruct Hvol as [V1 V2 V3 V4 V5 V6 V7]. unfold in_vol, lba in *.
  unfold fat32_cluster_to_lba. assert (0 ≤ (c - 2) * spc < 4294967296) by lia.
  rewrite (u32_id (c - 2)), (u32_id ((c - 2) * spc)) by lia. apply u32_id. lia.
Qed.
Lemma lba_apart c c' k k' : c ≠ c' → 0 ≤ k < spc → 0 ≤ k' < spc → lba c + k ≠ lba c' + k'.
Proof.
  intros Hc Hk Hk' E. unfold lba in E. assert ((c - c') * spc = k' - k) as E' by lia.
  destruct (decide (c < c')); [pose proof (Z.mul_le_mono_nonneg_r (c - c') (-1) spc); lia|].
  pose proof (Z.mul_le_mono_nonneg_r 1 (c - c') spc). lia.
Qed.

Lemma sectors_nil b x : sectors b x 0 = [].
Proof. done. Qed.
Lemma sectors_cons b x k : 0 < k → sectors b x k = disk_sec b x ++ sectors b (x + 1) (k - 1).
Proof. intros. unfold sectors. rewrite seqZ_cons by done. done. Qed.
Lemma sectors_length b x k : disk_ok b → 0 ≤ x → 0 ≤ k → x + k ≤ disk_size → length (sectors b x k) = Z.to_nat (512 * k).
Proof.
  intros Hok Hx Hk. revert x Hx. pattern k. apply natlike_ind; [| |done]; clear k Hk.
  - intros x Hx _. done.
  - intros k Hk IH x Hx Hr. rewrite sectors_cons by lia. rewrite length_app, disk_len by (try done; lia).
    rewrite Z.sub_1_r, Z.pred_succ, IH by lia. lia.
Qed.
Lemma sectors_ext b b' x k : (∀ y, x ≤ y < x + k → disk_sec b' y = disk_sec b y) → sectors b' x k = sectors b x k.
Proof.
  intros H. unfold sectors. f_equal. apply map_ext_in. intros y Hy. apply list_elem_of_In, elem_of_seqZ in Hy. auto.
Qed.
Lemma data_length b c : disk_ok b → in_vol c → length (data b c) = Z.to_nat (512 * spc).
Proof.
  intros Hok Hc. pose proof (lba_range c 0 Hc) as H0. pose proof (lba_range c (spc - 1) Hc) as H1.
  destruct Hvol as [V1 V2 V3 V4 V5 V6 V7]. apply sectors_length; try done; lia.
Qed.

(** A step that leaves the data area alone. *)
Lemma data_same b b' : (∀ x, x < fat0 ∨ fat0 + fm_sectors_per_fat m ≤ x → disk_sec b' x = disk_sec b x) →
  ∀ c, in_vol c → data b' c = data b c.
Proof.
  intros H c Hc. apply sectors_ext. intros y Hy. apply H. right.
  pose proof (lba_range c 0 Hc). destruct Hvol as [V1 V2 V3 V4 V5 V6 V7]. lia.
Qed.

Lemma zero_sectors_run k : ∀ b x s, disk_ok b → 0 ≤ x + s → x + s + Z.of_nat k ≤ disk_size →
  ∃ b', zero_sectors dev k x s b = Ret tt b' ∧ disk_ok b' ∧
    (∀ y, x + s ≤ y < x + s + Z.of_nat k → disk_sec b' y = replicate 512 0) ∧
    (∀ y, y < x + s ∨ x + s + Z.of_nat k ≤ y → disk_sec b' y = disk_sec b y).
Proof.
  destruct Hvol as [V1 V2 V3 V4 V5 V6 V7].
  induction k as [|k IH]; intros b x s Hok Hx Hr; cbn [zero_sectors].
  - exists b. split_and!; try done. intros; lia.
  - rewrite u32_id by lia. destruct (disk_write b (x + s) (replicate 512 0) Hok ltac:(lia)) as (b1 & E1 & Hok1 & S1 & O1).
    { apply length_replicate. }
    { apply Forall_replicate. lia. }
    rewrite (kbind_ret _ _ _ _ _ E1). destruct (IH b1 x (s + 1) Hok1 ltac:(lia) ltac:(lia)) as (b' & E' & Hok' & S' & O').
    exists b'. split_and!; try done.
    + intros y Hy. destruct (decide (y = x + s)) as [->|]; [rewrite O' by lia; done|]. apply S'. lia.
    + intros y Hy. rewrite O', O1 by lia. done.
Qed.

Lemma zero_cluster_run b c : disk_ok b → in_vol c → ∃ b', zero_cluster dev m c b = Ret tt b' ∧ disk_ok b' ∧
  data b' c = replicate (Z.to_nat (512 * spc)) 0 ∧
  (∀ y, y < lba c ∨ lba c + spc ≤ y → disk_sec b' y = disk_sec b y).
Proof.
  intros Hok Hc. pose proof (lba_range c 0 Hc) as H0. pose proof (lba_range c (spc - 1) Hc) as H1.
  pose proof Hvol as [V1 V2 V3 V4 V5 V6 V7]. unfold zero_cluster. rewrite (lba_run c Hc).
  destruct (zero_sectors_run (Z.to_nat spc) b (lba c) 0 Hok ltac:(lia) ltac:(lia)) as (b' & E & Hok' & S' & O').
  exists b'. split_and!; try done.
  - unfold data. assert (∀ k x, 0 ≤ k → (∀ y, x ≤ y < x + k → disk_sec b' y = replicate 512 0) →
      sectors b' x k = replicate (Z.to_nat (512 * k)) 0) as Hz.
    { intros k x Hk. revert x. pattern k. apply natlike_ind; [done| |done]. clear k Hk. intros k Hk IH x Hy.
      rewrite sectors_cons, Hy by lia. rewrite Z.sub_1_r, Z.pred_succ, IH by (intros; apply Hy; lia).
      rewrite <-replicate_add. f_equal. lia. }
    apply Hz; [lia|]. intros y Hy. apply S'. lia.
  - intros y Hy. apply O'. lia.
Qed.
End table.
