(* ===== verification/BlockInv.v ===== *)
(** * Block devices: the contract of a partition

    A drive that keeps its sectors, seen through an entry of the device table, is a
    [Disk]: the sectors of a partition are the drive's, from its first sector on.
    Registering a device adds it and the partitions of its first sector. *)

From stdpp Require Import base numbers list gmap strings.
From Stdlib Require Import ZArith Lia.
From S2P Require Import Prelude CString Bytes Sched Task Block Fat FatInv.

#[local] Open Scope Z_scope.

(** ** Drives *)

(** What a driver promises of its sector functions [fr] and [fw]. *)
Class Drive (H : Type) `{SectorHw H} (fr fw : Z) := {
  dr_ok : H → Prop;
  dr_sec : H → Z → list Z;
  dr_size : Z;
  dr_len : ∀ h x, dr_ok h → 0 ≤ x < dr_size → length (dr_sec h x) = 512%nat;
  dr_bytes : ∀ h x, dr_ok h → 0 ≤ x < dr_size → bytes (dr_sec h x);
  dr_read : ∀ h x, dr_ok h → 0 ≤ x < dr_size → hw_read fr x h = Ret (0, dr_sec h x) h;
  dr_write : ∀ h x l, dr_ok h → 0 ≤ x < dr_size → length l = 512%nat → bytes l →
    ∃ h', hw_write fw x l h = Ret 0 h' ∧ dr_ok h' ∧ dr_sec h' x = l ∧ ∀ y, y ≠ x → dr_sec h' y = dr_sec h y;
}.

Section partitions.
Context {H : Type} {Hw : SectorHw H} {fr fw : Z} {Dr : Drive H fr fw}.
#[local] Open Scope kernel_scope.

(** The functions are a driver's. *)
Definition drive_fns : Prop := fr ≠ 0 ∧ fr ≠ ramdisk_read_fn ∧ fw ≠ 0 ∧ fw ≠ ramdisk_write_fn.

Definition dev_start (d : kabi_block_device_t) : Z := if bd_is_partition d then bd_start_lba d else 0.
Definition dev_size (d : kabi_block_device_t) : Z := if bd_is_partition d then bd_size d else dr_size.

(** Entry [dev] of the table is [d], a partition that lies on the drive or the drive
    itself. *)
Record dev_ok (dev : Z) (d : kabi_block_device_t) (b : blk H) : Prop := {
  dk_drive : dr_ok (b_hw b);
  dk_entry : b_devs b !! Z.to_nat dev = Some d }.
Record dev_fits (dev : Z) (d : kabi_block_device_t) : Prop := {
  df_id : 0 ≤ dev < 2147483648;
  df_read : bd_read d = fr;
  df_write : bd_write d = fw;
  df_start : 0 ≤ dev_start d;
  df_end : dev_start d + dev_size d ≤ dr_size;
  df_size : dr_size < 18446744073709551616 }.

Lemma get_by_index_run dev d (b : blk H) : 0 ≤ dev < 2147483648 → b_devs b !! Z.to_nat dev = Some d →
  block_dev_get_by_index (s32 dev) b = Ret (Some d) b.
Proof.
  intros Hd He. unfold block_dev_get_by_index. rewrite s32_small by lia. unfold kbind, kget, kret. f_equal.
  pose proof (lookup_lt_Some _ _ _ He). replace (dev <? 0) with false by (symmetry; apply Z.ltb_ge; lia).
  replace (Z.of_nat (length (b_devs b)) <=? dev) with false by (symmetry; apply Z.leb_gt; lia). cbn [orb].
  by rewrite <-(Z2Nat.id dev), zlookup_nat by lia.
Qed.

Lemma target_run dev d x : dev_fits dev d → 0 ≤ x < dev_size d → target_lba d x = dev_start d + x ∧ 0 ≤ dev_start d + x < dr_size.
Proof.
  intros [F1 F2 F3 F4 F5 F6] Hx. unfold target_lba, dev_start in *. destruct (bd_is_partition d); [|lia].
  unfold u64. rewrite Z.mod_small by lia. lia.
Qed.

Lemma part_read dev d b x : drive_fns → dev_fits dev d → dev_ok dev d b → 0 ≤ x < dev_size d →
  kabi_block_read dev x b = Ret (KABI_SUCCESS, dr_sec (b_hw b) (dev_start d + x)) b.
Proof.
  intros (N1 & N2 & N3 & N4) F [O1 O2] Hx. destruct (target_run dev d x F Hx) as [Et Hr]. destruct F as [F1 F2 F3 F4 F5 F6].
  unfold kabi_block_read. rewrite (kbind_ret _ _ _ _ _ (get_by_index_run dev d b F1 O2)), F2, Et.
  replace (fr =? 0) with false by (symmetry; by apply Z.eqb_neq). unfold read_sector.
  replace (fr =? ramdisk_read_fn) with false by (symmetry; by apply Z.eqb_neq).
  unfold kbind, hw. rewrite dr_read by done. destruct b; done.
Qed.

Lemma part_write dev d b x l : drive_fns → dev_fits dev d → dev_ok dev d b → 0 ≤ x < dev_size d → length l = 512%nat → bytes l →
  ∃ b', kabi_block_write dev x l b = Ret KABI_SUCCESS b' ∧ dev_ok dev d b' ∧ dr_sec (b_hw b') (dev_start d + x) = l ∧
    ∀ y, y ≠ dev_start d + x → dr_sec (b_hw b') y = dr_sec (b_hw b) y.
Proof.
  intros (N1 & N2 & N3 & N4) F [O1 O2] Hx Hl Hb. destruct (target_run dev d x F Hx) as [Et Hr]. destruct F as [F1 F2 F3 F4 F5 F6].
  destruct (dr_write (b_hw b) (dev_start d + x) l O1 Hr Hl Hb) as (h' & E & K1 & K2 & K3).
  exists (with_b_hw h' b). split; [|split; [by split|done]].
  unfold kabi_block_write. rewrite (kbind_ret _ _ _ _ _ (get_by_index_run dev d b F1 O2)), F3, Et.
  replace (fw =? 0) with false by (symmetry; by apply Z.eqb_neq). unfold write_sector.
  replace (fw =? ramdisk_write_fn) with false by (symmetry; by apply Z.eqb_neq).
  unfold kbind, hw. by rewrite E.
Qed.

(** The contract that the file system is proved against. *)
#[refine] Definition part_disk (dev : Z) (d : kabi_block_device_t) (Hn : drive_fns) (Hf : dev_fits dev d) : Disk (blk H) dev := {|
  disk_ok := dev_ok dev d;
  disk_sec b x := dr_sec (b_hw b) (dev_start d + x);
  disk_size := dev_size d |}.
Proof.
  - intros b x [O1 _] Hx. destruct (target_run dev d x Hf Hx). by apply dr_len.
  - intros b x [O1 _] Hx. destruct (target_run dev d x Hf Hx). by apply dr_bytes.
  - intros b x Hok Hx. exact (part_read dev d b x Hn Hf Hok Hx).
  - intros b x l Hok Hx Hl Hb. destruct (part_write dev d b x l Hn Hf Hok Hx Hl Hb) as (b' & E & K1 & K2 & K3).
    exists b'. split_and!; try done. intros y Hy. apply K3. lia.
Defined.

(** ** Registration *)

Lemma add_parts_run dev_id parent ps : Z.of_nat (length (bd_name parent)) ≤ 29 → ∀ b : blk H, (length (b_devs b) ≤ 16)%nat →
  add_parts dev_id parent ps b = Ret tt (with_b_devs (take 16 (b_devs b ++ map (part_dev dev_id parent) ps)) b).
Proof.
  intros Hn. induction ps as [|p ps IH]; intros b Hb; cbn [add_parts map].
  - rewrite app_nil_r, take_ge by done. by destruct b.
  - replace (29 <? _) with false by (symmetry; by apply Z.ltb_ge). rewrite !(kbind_ret _ _ _ tt b) by done.
    unfold kbind at 1, kget. unfold MAX_BLOCK_DEVICES. destruct (Z.ltb_spec (Z.of_nat (length (b_devs b))) 16) as [Hlt|Hge].
    + unfold kbind, kmodify. rewrite IH; cbn [b_devs with_b_devs]; [|rewrite length_app; cbn; lia]. by rewrite <-app_assoc.
    + rewrite (kbind_ret (kret tt) _ b tt b eq_refl), IH by done. f_equal. f_equal. rewrite !take_app_le by lia. done.
Qed.

Definition parts_of (r : Z + list kabi_partition_t) : list kabi_partition_t := match r with inl _ => [] | inr ps => ps end.

(** A whole drive is added behind the table with the partitions that its first
    sector describes, as far as the table has room. *)
Lemma register_run (dev : kabi_block_device_t) (b : blk H) : let n := Z.of_nat (length (b_devs b)) in
  drive_fns → dev_fits n dev → bd_is_partition dev = false → 0 < dr_size → dr_ok (b_hw b) →
  n < MAX_BLOCK_DEVICES → Z.of_nat (length (bd_name dev)) ≤ 29 →
  block_dev_register dev b =
  Ret n (with_b_devs (take 16 (b_devs b ++ dev :: map (part_dev n dev) (parts_of (mbr_parse 4 (dr_sec (b_hw b) 0))))) b).
Proof.
  intros n Hf Hd Hp Hz Hok Hn Hl. unfold MAX_BLOCK_DEVICES in *. unfold block_dev_register, kbind at 1, kget. fold n.
  unfold MAX_BLOCK_DEVICES. replace (16 <=? n) with false by (symmetry; by apply Z.leb_gt). rewrite Hp. set (b1 := with_b_devs (b_devs b ++ [dev]) b).
  assert (dev_ok n dev b1) as Hok1.
  { split; [done|]. subst n b1. cbn. rewrite Nat2Z.id. by apply list_lookup_middle. }
  assert (dev_start dev = 0 ∧ dev_size dev = dr_size) as [Es Ez] by (unfold dev_start, dev_size; by rewrite Hp).
  pose proof (part_read n dev b1 0 Hf Hd Hok1 ltac:(lia)) as Hr. rewrite Es in Hr. change (b_hw b1) with (b_hw b) in Hr.
  set (r := mbr_parse 4 (dr_sec (b_hw b) 0)).
  assert (mbr_scan n 4 b1 = Ret r b1) as Em by (unfold mbr_scan; change (4 <=? 0) with false; cbn iota; by rewrite (kbind_ret _ _ _ _ _ Hr)).
  assert (block_dev_scan_partitions n b1 = Ret tt (with_b_devs (take 16 (b_devs b1 ++ map (part_dev n dev) (parts_of r))) b1)) as E.
  { unfold block_dev_scan_partitions. rewrite (kbind_ret _ _ _ _ _ Em).
    assert (∀ c : blk H, (length (b_devs c) ≤ 16)%nat → Ret tt c = Ret tt (with_b_devs (take 16 (b_devs c ++ [])) c)) as Hnil.
    { intros c Hc. rewrite app_nil_r, take_ge by done. by destruct c. }
    assert (length (b_devs b1) ≤ 16)%nat as Hb1 by (subst b1 n; cbn; rewrite length_app; cbn; lia).
    destruct r as [e|[|p ps]]; cbn [parts_of map]; [by apply Hnil|by apply Hnil|].
    rewrite (kbind_ret kget _ b1 b1 b1 eq_refl). change (b_devs b1) with (b_devs b ++ [dev]) at 1.
    assert (zlookup (b_devs b ++ [dev]) n = Some dev) as Ez' by (subst n; rewrite zlookup_nat; by apply list_lookup_middle).
    unfold kget_opt. unfold kbind at 1. rewrite Ez'. by apply add_parts_run. }
  rewrite (kbind_ret (kmodify (with_b_devs (b_devs b ++ [dev]))) _ b tt b1 eq_refl), (kbind_ret _ _ _ _ _ E). unfold kret, b1. cbn. by rewrite <-app_assoc.
Qed.

(** Registering a whole drive gives it the next number, keeps the devices that
    were there, and adds the partitions of the drive's first sector, each with the
    drive's sector functions and its own first sector, as far as the table of
    sixteen has room. *)
Theorem register_ok (dev : kabi_block_device_t) (b : blk H) : let n := Z.of_nat (length (b_devs b)) in
  drive_fns → dev_fits n dev → bd_is_partition dev = false → 0 < dr_size → dr_ok (b_hw b) →
  n < MAX_BLOCK_DEVICES → Z.of_nat (length (bd_name dev)) ≤ 29 →
  block_dev_register dev b =
  Ret n (with_b_devs (take 16 (b_devs b ++ dev :: map (part_dev n dev) (parts_of (mbr_parse 4 (dr_sec (b_hw b) 0))))) b).
Proof. exact (register_run dev b). Qed.

(** A read of a partition gives the drive's sector behind the partition's first
    one, and a write replaces exactly that sector of the drive. *)
Theorem partition_io_ok dev d (b : blk H) x l : drive_fns → dev_fits dev d → dev_ok dev d b → 0 ≤ x < dev_size d → length l = 512%nat → bytes l →
  kabi_block_read dev x b = Ret (KABI_SUCCESS, dr_sec (b_hw b) (dev_start d + x)) b ∧
  ∃ b', kabi_block_write dev x l b = Ret KABI_SUCCESS b' ∧ dev_ok dev d b' ∧ dr_sec (b_hw b') (dev_start d + x) = l ∧
    ∀ y, y ≠ dev_start d + x → dr_sec (b_hw b') y = dr_sec (b_hw b) y.
Proof. intros. split; [by apply part_read|by apply part_write]. Qed.
End partitions.
