(* ===== verification/FatChain.v ===== *)
(** * FAT32: cluster chains and file contents

    A file is a chain of clusters that the table links; its contents are the data
    of the clusters in order.  Appending and freeing change exactly the entries
    they mean to, and reading and writing act on the contents as on one array. *)

From stdpp Require Import base numbers list gmap strings.
From Stdlib Require Import ZArith Lia.
From S2P Require Import Prelude CString Bytes Kernel Sched Task Block Fat FatInv FatVfs.

#[local] Open Scope Z_scope.

Section chains.
Context {B : Type} {Io : BlockIO B} {dev : Z} {Dk : Disk B dev}.
#[local] Open Scope kernel_scope.
Context {m : fat32_mount_t} {n : Z} (Hvol : vol_ok disk_size m n).
Implicit Types b : B.
#[local] Abbreviation spc := (fm_sectors_per_cluster m).
#[local] Abbreviation fat0 := (fm_fat_lba_start m).
#[local] Abbreviation spf := (fm_sectors_per_fat m).
#[local] Abbreviation fat := (fat (dev := dev) (m := m)).
#[local] Abbreviation data := (data (dev := dev) (m := m)).
#[local] Abbreviation in_vol := (in_vol (n := n)).
#[local] Abbreviation lba := (lba (m := m)).

(** The clusters from [c] on are [l]; behind the last one the table has an end
    mark. *)
Fixpoint cchain b (c : Z) (l : list Z) : Prop :=
  match l with
  | [] => FAT_END ≤ c
  | x :: l => c = x ∧ in_vol x ∧ cchain b (fat b x) l
  end.

Lemma cchain_in_vol b l : ∀ c x, cchain b c l → x ∈ l → in_vol x.
Proof.
  induction l as [|y l IH]; intros c x Hc Hx; [by apply elem_of_nil in Hx|]. destruct Hc as (_ & Hy & Hc).
  apply elem_of_cons in Hx as [->|Hx]; [done|]. by eapply IH.
Qed.

Lemma cchain_ext b b' l : ∀ c, cchain b c l → (∀ x, x ∈ l → fat b' x = fat b x) → cchain b' c l.
Proof.
  induction l as [|y l IH]; intros c Hc Hx; [done|]. destruct Hc as (-> & Hy & Hc). cbn.
  rewrite Hx by apply list_elem_of_here. split_and!; try done. apply IH; [done|]. intros x H. apply Hx. by apply list_elem_of_further.
Qed.

Lemma in_vol_small c : in_vol c → c < FAT_END.
Proof. unfold FatInv.in_vol, FAT_END. destruct Hvol. lia. Qed.

(** The chain from a cluster is determined by the table, so it has no cycle. *)
Lemma cchain_det b l : ∀ l' c, cchain b c l → cchain b c l' → l = l'.
Proof.
  induction l as [|x l IH]; intros [|y l'] c H H'; cbn in *.
  - done.
  - destruct H' as (-> & Hy%in_vol_small & _). lia.
  - destruct H as (-> & Hx%in_vol_small & _). lia.
  - destruct H as (-> & _ & H), H' as (-> & _ & H'). f_equal. by eapply IH.
Qed.
Lemma cchain_suffix b l1 : ∀ c x l2, cchain b c (l1 ++ x :: l2) → cchain b x (x :: l2).
Proof.
  induction l1 as [|y l1 IH]; intros c x l2 H; cbn in H; [by destruct H as (-> & H)|]. destruct H as (_ & _ & H). by eapply IH.
Qed.
Lemma cchain_nodup b l : ∀ c, cchain b c l → NoDup l.
Proof.
  induction l as [|x l IH]; intros c H; [constructor|]. pose proof H as (-> & Hx & H').
  constructor; [|by eapply IH]. intros Hin. apply list_elem_of_split in Hin as (l1 & l2 & ->).
  pose proof (cchain_suffix b (x :: l1) x x l2 H) as Hs.
  pose proof (cchain_det b _ _ _ H Hs) as E. apply (f_equal length) in E. cbn in E. rewrite length_app in E. cbn in E. lia.
Qed.

Lemma cchain_snoc b l : ∀ c x, cchain b c (l ++ [x]) → FAT_END ≤ fat b x.
Proof. intros c x H. by pose proof (cchain_suffix b l c x [] H) as (_ & _ & ?). Qed.

(** Linking [y] behind the last cluster. *)
Lemma cchain_link b b' l : ∀ c x y, cchain b c (l ++ [x]) → in_vol y → fat b' x = y → FAT_END ≤ fat b' y →
  (∀ z, z ∈ l → fat b' z = fat b z) → cchain b' c (l ++ [x; y]).
Proof.
  induction l as [|z l IH]; intros c x y H Hy Ex Ey Hz; cbn in *.
  - destruct H as (-> & Hx & _). rewrite Ex. split_and!; done.
  - destruct H as (-> & Hzv & H). split_and!; try done. rewrite Hz by apply list_elem_of_here. apply IH; try done.
    intros w Hw. apply Hz. by apply list_elem_of_further.
Qed.

(** ** Appending *)

(** No entry behind those of the clusters is free. *)
Definition table_end b : Prop := ∀ c, 2 + n ≤ c < spf * 128 → fat b c ≠ 0.

(** [b'] differs from [b] in the clusters [new], which were free, and in the entry
    of [last]. *)
Record grown b b' (last : Z) (new : list Z) : Prop := {
  gw_ok : disk_ok b';
  gw_end : table_end b';
  gw_new : ∀ x, x ∈ new → in_vol x ∧ fat b x = 0 ∧ data b' x = replicate (Z.to_nat (512 * spc)) 0;
  gw_nodup : NoDup new;
  gw_fat : ∀ x, 0 ≤ x < spf * 128 → x ≠ last → x ∉ new → fat b' x = fat b x;
  gw_sec : ∀ y, y < fat0 ∨ fat0 + spf ≤ y → (∀ x, x ∈ new → y < lba x ∨ lba x + spc ≤ y) → disk_sec b' y = disk_sec b y }.

Lemma grown_data b b' last new x : grown b b' last new → in_vol x → x ∉ new → data b' x = data b x.
Proof.
  intros Hg Hx Hn. apply sectors_ext. intros y Hy. destruct (lba_ge Hvol x Hx) as [Hr _].
  destruct Hvol as [V1 V2 V3 V4 V5 V6 V7]. apply (gw_sec _ _ _ _ Hg); [lia|]. intros z Hz.
  assert (x ≠ z) as Hne by (by intros ->). destruct (decide (y < lba z)); [by left|]. destruct (decide (lba z + spc ≤ y)); [by right|].
  exfalso. apply (lba_apart (m := m) x z (y - lba x) (y - lba z) Hne); lia.
Qed.

(** One more zeroed cluster behind [last]. *)
Lemma append_one b last next : disk_ok b → table_end b → in_vol last → in_vol next → FAT_END ≤ fat b last → fat b next = 0 →
  ∃ b', (fat32_set_cluster dev m next FAT_EOC ;;; fat32_set_cluster dev m last next ;;; zero_cluster dev m next) b = Ret tt b' ∧
    grown b b' last [next] ∧ fat b' last = next ∧ fat b' next = FAT_EOC.
Proof.
  intros Hok Hend Hl Hn El En. assert (last ≠ next) as Hne by (unfold FAT_END in El; intros ->; lia).
  pose proof (vol_entry Hvol last Hl) as Vl. pose proof (vol_entry Hvol next Hn) as Vn.
  assert (0 ≤ next < 268435456) as Hn28 by (pose proof (in_vol_small next Hn); unfold FAT_END in *; lia).
  destruct (set_run Hvol b next FAT_EOC Hok Hn ltac:(unfold FAT_EOC; lia)) as (b1 & E1 & Hok1 & F1 & _ & R1 & S1).
  destruct (set_run Hvol b1 last next Hok1 Hl Hn28) as (b2 & E2 & Hok2 & F2 & _ & R2 & S2).
  destruct (zero_cluster_run Hvol b2 next Hok2 Hn) as (b3 & E3 & Hok3 & Z3 & S3).
  rewrite (kbind_ret _ _ _ _ _ E1), (kbind_ret _ _ _ _ _ E2). exists b3. split; [done|].
  assert (∀ c, 0 ≤ c < spf * 128 → FatInv.fat_raw (dev := dev) (m := m) b3 c = fat_raw (dev := dev) (m := m) b2 c) as R3.
  { intros c Hc. unfold fat_raw. rewrite S3; [done|]. left. destruct (entry_place Hvol c Hc) as ([_ Hlt] & _).
    destruct (lba_ge Hvol next Hn) as [Hge _]. clear -Hlt Hge. lia. }
  assert (∀ c, 0 ≤ c < spf * 128 → c ≠ last → c ≠ next → fat b3 c = fat b c) as F3.
  { intros c Hc H1 H2. unfold FatInv.fat. by rewrite R3, R2, R1. }
  split; [split|split].
  - done.
  - intros c Hc. pose proof (vo_count _ _ _ Hvol). rewrite F3; [by apply Hend|lia|unfold FatInv.in_vol in Hl; lia|unfold FatInv.in_vol in Hn; lia].
  - intros x ->%list_elem_of_singleton. done.
  - apply NoDup_singleton.
  - intros x Hx Hxl Hxn. rewrite list_elem_of_singleton in Hxn. by apply F3.
  - intros y Hy Hx. rewrite S3 by (apply Hx, list_elem_of_here). by rewrite S2, S1.
  - unfold FatInv.fat. rewrite R3 by done. exact F2.
  - unfold FatInv.fat. rewrite R3, R2 by (try done; lia). exact F1.
Qed.

Lemma append_run k : ∀ b c l last, disk_ok b → table_end b → cchain b c (l ++ [last]) →
  ∃ r b' new, append_clusters dev m k last b = Ret r b' ∧ grown b b' last new ∧ cchain b' c (l ++ last :: new) ∧
    (r = KABI_SUCCESS ∧ length new = k ∨
     r = KABI_ENOMEM ∧ (length new < k)%nat ∧ ∀ x, in_vol x → fat b' x ≠ 0).
Proof.
  induction k as [|k IH]; intros b c l last Hok Hend Hch.
  - exists KABI_SUCCESS, b, []. split; [done|]. split; [|split; [done|by left]].
    split; try done; [|constructor]. intros x []%elem_of_nil.
  - cbn [append_clusters]. destruct (find_free_run Hvol b Hok) as (next & E0 & Hfree). rewrite (kbind_ret _ _ _ _ _ E0).
    destruct Hfree as [[-> Hnone]|(Hr & Hz & _)].
    + cbn. exists KABI_ENOMEM, b, []. split; [done|]. split; [|split; [done|right]].
      * split; try done; [|constructor]. intros x []%elem_of_nil.
      * split_and!; [done|cbn; lia|]. intros x Hx. apply Hnone. unfold FatInv.in_vol in Hx. destruct Hvol. lia.
    + assert (in_vol next) as Hn.
      { unfold FatInv.in_vol. destruct (decide (next < 2 + n)); [lia|]. destruct (Hend next); [lia|done]. }
      assert (last ∈ l ++ [last]) as Hlin by (apply elem_of_app; right; apply list_elem_of_here).
      pose proof (cchain_in_vol _ _ _ _ Hch Hlin) as Hl. pose proof (cchain_snoc _ _ _ _ Hch) as El.
      replace (next =? 0) with false by (symmetry; apply Z.eqb_neq; lia).
      destruct (append_one b last next Hok Hend Hl Hn El Hz) as (b1 & E1 & G1 & Fl & Fn).
      pose proof (cchain_nodup _ _ _ Hch) as Hnd. apply NoDup_app in Hnd as (_ & Hnd & _).
      assert (∀ z, z ∈ l → fat b1 z = fat b z) as Hkeep.
      { intros z Hzl. pose proof (cchain_in_vol _ _ _ z Hch ltac:(apply elem_of_app; by left)) as Hzv.
        apply (gw_fat _ _ _ _ G1); [by apply (vol_entry Hvol)|intros ->; apply (Hnd last Hzl), list_elem_of_here|].
        intros ->%list_elem_of_singleton. apply list_elem_of_split in Hzl as (l1 & l2 & ->). rewrite <-app_assoc in Hch.
        destruct (cchain_suffix _ _ _ _ _ Hch) as (_ & _ & H). rewrite Hz in H.
        destruct l2 as [|w l2]; cbn in H; destruct H as (Hw & Hw' & _); unfold FatInv.in_vol in Hw'; lia. }
      assert (cchain b1 c (l ++ [last; next])) as Hch1.
      { apply (cchain_link b); try done. rewrite Fn. unfold FAT_EOC, FAT_END. lia. }
      change (l ++ [last; next]) with (l ++ [last] ++ [next]) in Hch1. rewrite app_assoc in Hch1.
      destruct (IH b1 c (l ++ [last]) next (gw_ok _ _ _ _ G1) (gw_end _ _ _ _ G1) Hch1) as (r & b' & new & E' & G' & C' & R').
      exists r, b', (next :: new). split; [|split; [|split]].
      * revert E1 E'. unfold kbind. destruct (fat32_set_cluster dev m next FAT_EOC b) as [[] s1| | | |]; try done.
        destruct (fat32_set_cluster dev m last next s1) as [[] s2| | | |]; try done. by intros ->.
      * assert (next ∉ new) as Hnn.
        { intros Hin. destruct (gw_new _ _ _ _ G' next Hin) as (_ & H0 & _). rewrite Fn in H0. done. }
        assert (∀ x, x ∈ new → x ≠ last ∧ x ≠ next ∧ fat b x = 0) as Hnew.
        { intros x Hin. destruct (gw_new _ _ _ _ G' x Hin) as (Hv & H0 & _).
          assert (x ≠ next) by (by intros ->). assert (x ≠ last) by (intros ->; rewrite Fl in H0; lia).
          split_and!; try done. rewrite <-H0. symmetry. apply (gw_fat _ _ _ _ G1); [by apply (vol_entry Hvol)|done|].
          by rewrite list_elem_of_singleton. }
        split; try apply G'.
        -- intros x [->|Hin]%elem_of_cons.
           ++ split_and!; try done. rewrite (grown_data _ _ _ _ next G' Hn Hnn).
              apply (gw_new _ _ _ _ G1 next), list_elem_of_here.
           ++ destruct (gw_new _ _ _ _ G' x Hin) as (Hv & _ & Hd). split_and!; try done. by apply Hnew.
        -- constructor; [done|apply G'].
        -- intros x Hx Hxl Hxn. rewrite not_elem_of_cons in Hxn. destruct Hxn as [Hx1 Hx2].
           rewrite (gw_fat _ _ _ _ G' x Hx Hx1 Hx2). apply (gw_fat _ _ _ _ G1); [done|done|]. by rewrite list_elem_of_singleton.
        -- intros y Hy Hx. rewrite (gw_sec _ _ _ _ G'); [|done|intros x Hin; apply Hx; by apply list_elem_of_further].
           apply (gw_sec _ _ _ _ G1); [done|]. intros x ->%list_elem_of_singleton. apply Hx, list_elem_of_here.
      * rewrite <-app_assoc in C'. exact C'.
      * destruct R' as [[-> <-]|(-> & HL & HR)]; [left|right]; split_and!; try done. cbn. lia.
Qed.

(** ** Freeing *)

Lemma free_chain_run l : ∀ f b c, disk_ok b → cchain b c l → (length l < f)%nat →
  ∃ b', free_chain dev m f c b = Ret tt b' ∧ disk_ok b' ∧ (∀ x, x ∈ l → fat b' x = 0) ∧
    (∀ x, 0 ≤ x < spf * 128 → x ∉ l → fat b' x = fat b x) ∧
    (∀ y, y < fat0 ∨ fat0 + spf ≤ y → disk_sec b' y = disk_sec b y).
Proof.
  induction l as [|x l IH]; intros f b c Hok Hch Hf; (destruct f as [|f]; [lia|]); cbn [free_chain].
  - cbn in Hch. replace (FAT_END <=? c) with true by (symmetry; by apply Z.leb_le). rewrite orb_true_r.
    exists b. split_and!; try done. intros x []%elem_of_nil.
  - pose proof (cchain_nodup _ _ _ Hch) as Hnd. apply NoDup_cons in Hnd as [Hxl _]. destruct Hch as (-> & Hx & Hch).
    pose proof (in_vol_small x Hx) as Hsm. replace (FAT_END <=? x) with false by (symmetry; apply Z.leb_gt; lia).
    replace (x =? 0) with false by (symmetry; apply Z.eqb_neq; unfold FatInv.in_vol in Hx; lia). cbn [orb].
    rewrite (kbind_ret _ _ _ _ _ (get_next_run Hvol b x Hok Hx)).
    destruct (set_run Hvol b x 0 Hok Hx ltac:(lia)) as (b1 & E1 & Hok1 & F1 & _ & R1 & S1).
    rewrite (kbind_ret _ _ _ _ _ E1). pose proof (vol_entry Hvol x Hx) as Vx.
    assert (cchain b1 (fat b x) l) as Hch1.
    { eapply cchain_ext; [exact Hch|]. intros y Hy. unfold FatInv.fat. rewrite R1; [done| |by intros ->].
      apply (vol_entry Hvol). by eapply cchain_in_vol. }
    destruct (IH f b1 _ Hok1 Hch1 ltac:(cbn in Hf; lia)) as (b' & E' & Hok' & F' & R' & S').
    exists b'. split_and!; try done.
    + intros y [->|Hy]%elem_of_cons; [|auto]. by rewrite R'.
    + intros y Hy [Hyx Hyl]%not_elem_of_cons. rewrite R' by done. unfold FatInv.fat. by rewrite R1.
    + intros y Hy. by rewrite S', S1.
Qed.

(** ** Reading *)

Definition file_data b (l : list Z) : list Z := concat (map (data b) l).

Lemma sectors_split b x k j : 0 ≤ j ≤ k → sectors (dev := dev) b x k = sectors (dev := dev) b x j ++ sectors (dev := dev) b (x + j) (k - j).
Proof.
  intros Hj. unfold sectors. rewrite <-concat_app, <-map_app. do 2 f_equal.
  replace k with (j + (k - j)) at 1 by lia. apply seqZ_app; lia.
Qed.
Lemma sectors_drop b x k j : disk_ok b → 0 ≤ x → x + k ≤ disk_size → 0 ≤ j ≤ k →
  drop (Z.to_nat (512 * j)) (sectors (dev := dev) b x k) = sectors (dev := dev) b (x + j) (k - j).
Proof. intros. rewrite (sectors_split b x k j) by done. apply drop_app_length'. rewrite (sectors_length (dev := dev)) by (try done; lia). done. Qed.

Lemma read_sectors_run k : ∀ b x s byte rest acc, disk_ok b → 0 ≤ x + s → x + s + Z.of_nat k ≤ disk_size →
  0 ≤ byte < 512 → 0 ≤ rest →
  let got := take (Z.to_nat rest) (drop (Z.to_nat byte) (sectors (dev := dev) b (x + s) (Z.of_nat k))) in
  read_sectors dev k x s byte rest acc b = Ret (true, rest - Z.of_nat (length got), acc ++ got) b.
Proof.
  pose proof (vo_size _ _ _ Hvol) as Hsz.
  induction k as [|k IH]; intros b x s byte rest acc Hok Hx Hr Hb Hrest got; cbn [read_sectors].
  - unfold got. cbn [Z.of_nat]. rewrite sectors_nil, drop_nil, take_nil. cbn. by rewrite app_nil_r, Z.sub_0_r.
  - destruct (Z.eqb_spec rest 0) as [->|Hr0].
    { unfold got. cbn. by rewrite app_nil_r. }
    rewrite u32_id, read_bind by (try done; lia). rewrite Z.eqb_refl. cbn [negb].
    set (c := if rest <? 512 - byte then rest else 512 - byte).
    assert (c = Z.min rest (512 - byte)) as Hc by (unfold c; destruct (Z.ltb_spec rest (512 - byte)); lia).
    replace (x + (s + 1)) with (x + s + 1) in * by lia.
    pose proof (disk_len b (x + s) Hok ltac:(lia)) as Hlen.
    assert (got = slice (Z.to_nat c) (disk_sec b (x + s)) byte ++
      take (Z.to_nat (rest - c)) (drop 0 (sectors (dev := dev) b (x + s + 1) (Z.of_nat k)))) as Egot.
    { unfold got, slice. rewrite sectors_cons by lia. replace (Z.of_nat (S k) - 1) with (Z.of_nat k) by lia.
      rewrite drop_app_le by lia. rewrite drop_0. destruct (decide (rest ≤ 512 - byte)).
      - rewrite take_app_le by (rewrite length_drop; lia). replace c with rest by lia. rewrite Z.sub_diag. by rewrite app_nil_r.
      - rewrite take_app_ge by (rewrite length_drop; lia). rewrite length_drop, Hlen.
        f_equal; [rewrite take_ge by (rewrite length_drop; lia); done|]. f_equal. lia. }
    specialize (IH b x (s + 1) 0 (rest - c) (acc ++ slice (Z.to_nat c) (disk_sec b (x + s)) byte) Hok ltac:(lia) ltac:(lia) ltac:(lia) ltac:(lia)).
    cbv zeta in IH. rewrite IH. clear IH. replace (x + (s + 1)) with (x + s + 1) by lia. change (Z.to_nat 0) with 0%nat.
    set (g2 := take _ (drop 0 _)) in *. rewrite Egot, length_app, app_assoc. f_equal. f_equal. f_equal.
    rewrite slice_length by (rewrite ?Hlen; lia). lia.
Qed.

Definition csize : Z := 512 * spc.

Lemma file_data_length b l : ∀ c, disk_ok b → cchain b c l → Z.of_nat (length (file_data b l)) = csize * Z.of_nat (length l).
Proof.
  induction l as [|x l IH]; intros c Hok Hch; [cbn; lia|]. destruct Hch as (-> & Hx & Hch).
  unfold file_data. cbn [map concat]. rewrite length_app, (data_length Hvol) by done. fold (file_data b l).
  rewrite Nat2Z.inj_add, (IH _ Hok Hch). unfold csize. pose proof (vo_spc _ _ _ Hvol). cbn [length]. lia.
Qed.

(** [take] over two parts, with a count in [Z]. *)
Lemma take_app_Z {A} (k : Z) (a c : list A) : 0 ≤ k →
  take (Z.to_nat k) (a ++ c) = take (Z.to_nat k) a ++ take (Z.to_nat (k - Z.of_nat (length (take (Z.to_nat k) a)))) c.
Proof.
  intros Hk. rewrite take_app, length_take. destruct (decide (Z.to_nat k ≤ length a)%nat).
  - rewrite Nat.min_l by done. do 2 f_equal. lia.
  - rewrite Nat.min_r by lia. do 2 f_equal. lia.
Qed.

Lemma read_clusters_run l : ∀ f b c offset rest acc, disk_ok b → cchain b c l → (length l < f)%nat →
  0 ≤ offset < csize → 0 ≤ rest →
  read_clusters dev m f c offset rest acc b = Ret (acc ++ take (Z.to_nat rest) (drop (Z.to_nat offset) (file_data b l))) b.
Proof.
  pose proof (vo_spc _ _ _ Hvol) as Hspc.
  induction l as [|x l IH]; intros f b c offset rest acc Hok Hch Hf Ho Hrest; (destruct f as [|f]; [lia|]); cbn [read_clusters].
  - cbn in Hch. replace (FAT_END <=? c) with true by (symmetry; by apply Z.leb_le). rewrite orb_true_r.
    cbn. by rewrite drop_nil, take_nil, app_nil_r.
  - destruct Hch as (-> & Hx & Hch). pose proof (in_vol_small x Hx) as Hsm.
    replace (FAT_END <=? x) with false by (symmetry; apply Z.leb_gt; lia). rewrite orb_false_r.
    destruct (Z.eqb_spec rest 0) as [->|Hr0]; [cbn; by rewrite app_nil_r|].
    rewrite (lba_run Hvol x Hx). destruct (lba_ge Hvol x Hx) as (H0 & H1 & H2).
    set (s := offset / 512). unfold csize in *. assert (0 ≤ s < spc) as Hs.
    { split; [apply Z.div_pos; lia|apply Z.div_lt_upper_bound; lia]. }
    pose proof (Z.mod_pos_bound offset 512 ltac:(lia)) as Hmod. pose proof (Z.div_mod offset 512 ltac:(lia)) as Hdm. fold s in Hdm.
    pose proof (read_sectors_run (Z.to_nat (spc - s)) b (lba x) s (offset mod 512) rest acc Hok ltac:(lia) ltac:(lia) Hmod Hrest) as E.
    cbv zeta in E. rewrite Z2Nat.id in E by lia.
    replace (drop (Z.to_nat (offset mod 512)) (sectors b (lba x + s) (spc - s))) with (drop (Z.to_nat offset) (data b x)) in E.
    2: { unfold FatInv.data. rewrite <-(sectors_drop b (lba x) spc s) by (try done; lia). rewrite drop_drop. f_equal. lia. }
    set (got := take (Z.to_nat rest) (drop (Z.to_nat offset) (data b x))) in *.
    rewrite (kbind_ret _ _ _ _ _ E). cbn [fst snd]. rewrite (kbind_ret _ _ _ _ _ (get_next_run Hvol b x Hok Hx)).
    assert (Z.of_nat (length got) ≤ rest) as Hgot by (unfold got; rewrite length_take; lia).
    rewrite (IH f b (fat b x) 0 _ _ Hok Hch) by (cbn in Hf; lia). f_equal. rewrite <-app_assoc. f_equal.
    unfold file_data at 2. cbn [map concat]. fold (file_data b l). change (Z.to_nat 0) with 0%nat. rewrite drop_0.
    rewrite drop_app_le by (rewrite (data_length Hvol) by done; lia). symmetry. by apply take_app_Z.
Qed.

Lemma cchain_drop b l : ∀ c k x, cchain b c l → l !! k = Some x → cchain b x (drop k l).
Proof.
  induction l as [|y l IH]; intros c [|k] x Hch Hx; cbn in *; try done.
  - destruct Hch as (-> & Hch). by injection Hx as ->.
  - destruct Hch as (_ & _ & Hch). by eapply IH.
Qed.

Lemma skip_run b l : ∀ k c x, disk_ok b → cchain b c l → l !! k = Some x → skip_clusters dev m k c b = Ret (Some x) b.
Proof.
  induction l as [|y l IH]; intros [|k] c x Hok Hch Hx; cbn [skip_clusters]; try done.
  - destruct Hch as (-> & _). by injection Hx as ->.
  - destruct Hch as (-> & Hy & Hch). rewrite (kbind_ret _ _ _ _ _ (get_next_run Hvol b y Hok Hy)).
    cbn in Hx. destruct l as [|z l]; [done|]. pose proof Hch as (Ez & Hz & _). rewrite Ez in Hch |- *.
    pose proof (in_vol_small z Hz). replace (FAT_END <=? z) with false by (symmetry; apply Z.leb_gt; lia).
    replace (z <? 2) with false by (symmetry; apply Z.ltb_ge; unfold FatInv.in_vol in Hz; lia). cbn [orb].
    by apply IH.
Qed.

Lemma file_data_drop b l : ∀ c k, disk_ok b → cchain b c l → (k ≤ length l)%nat →
  file_data b (drop k l) = drop (Z.to_nat (csize * Z.of_nat k)) (file_data b l).
Proof.
  pose proof (vo_spc _ _ _ Hvol) as Hspc.
  induction l as [|x l IH]; intros c [|k] Hok Hch Hk; cbn [length] in *; try lia.
  - cbn. by rewrite Z.mul_0_r.
  - by rewrite Z.mul_0_r.
  - destruct Hch as (-> & Hx & Hch). cbn [drop]. rewrite (IH _ k Hok Hch) by lia. unfold file_data. cbn [map concat].
    assert (Z.to_nat (csize * Z.of_nat (S k)) = length (data b x) + Z.to_nat (csize * Z.of_nat k))%nat as ->.
    { rewrite (data_length Hvol) by done. unfold csize. lia. }
    rewrite <-drop_drop, drop_app_length. done.
Qed.

(** A file: its node, its chain, and a length the chain covers. *)
Record file_ok b (node : fs_node_t) (l : list Z) : Prop := {
  fo_chain : cchain b (n_inode node) l;
  fo_length : 0 ≤ n_length node ≤ csize * Z.of_nat (length l);
  fo_small : n_length node < 4294967296 }.
Definition contents b (node : fs_node_t) (l : list Z) : list Z := take (Z.to_nat (n_length node)) (file_data b l).

Lemma bpc_eq : bytes_per_cluster m = csize.
Proof. unfold bytes_per_cluster, csize. pose proof (vo_spc _ _ _ Hvol). rewrite u32_id by lia. lia. Qed.

(** The place of an offset inside the chain. *)
Lemma locate b node l offset : file_ok b node l → 0 ≤ offset < csize * Z.of_nat (length l) →
  ∃ x, l !! Z.to_nat (offset / csize) = Some x ∧ 0 ≤ offset mod csize < csize ∧
    Z.to_nat offset = (Z.to_nat (csize * Z.of_nat (Z.to_nat (offset / csize))) + Z.to_nat (offset mod csize))%nat.
Proof.
  intros [Hc Hl _] Ho. pose proof (vo_spc _ _ _ Hvol) as Hspc. unfold csize in *.
  pose proof (Z.div_pos offset (512 * spc) ltac:(lia) ltac:(lia)). pose proof (Z.mod_pos_bound offset (512 * spc) ltac:(lia)).
  pose proof (Z.div_lt_upper_bound offset (512 * spc) (Z.of_nat (length l)) ltac:(lia) ltac:(lia)).
  pose proof (Z.div_mod offset (512 * spc) ltac:(lia)).
  destruct (lookup_lt_is_Some_2 l (Z.to_nat (offset / (512 * spc)))) as [x Hx]; [lia|].
  exists x. split_and!; try done; lia.
Qed.

Lemma read_run fuel b node l offset size : disk_ok b → file_ok b node l → (length l < fuel)%nat →
  0 ≤ offset → 0 ≤ size → offset + size < 4294967296 →
  fat32_vfs_read fuel dev m node offset size b =
  Ret (take (Z.to_nat size) (drop (Z.to_nat offset) (contents b node l))) b.
Proof.
  intros Hok Hfile Hf Ho Hs Hsum. pose proof Hfile as [Hch Hlen Hsmall]. pose proof (vo_spc _ _ _ Hvol) as Hspc.
  unfold fat32_vfs_read. rewrite (u32_id offset), (u32_id size), (u32_id (offset + size)) by lia.
  pose proof (file_data_length b l _ Hok Hch) as HL.
  unfold contents. destruct (Z.leb_spec (n_length node) offset) as [Hge|Hlt].
  { rewrite drop_ge by (rewrite length_take; lia). by rewrite take_nil. }
  rewrite (u32_id (n_length node - offset)) by lia. set (size' := if _ <? _ then _ else size).
  assert (size' = Z.min size (n_length node - offset)) as Hs' by (unfold size'; destruct (Z.ltb_spec (n_length node) (offset + size)); lia).
  rewrite bpc_eq. replace (csize =? 0) with false by (symmetry; apply Z.eqb_neq; unfold csize; lia).
  destruct (locate b node l offset Hfile ltac:(lia)) as (x & Hx & Hmod & Eo).
  rewrite (kbind_ret _ _ _ _ _ (skip_run b l _ _ x Hok Hch Hx)). pose proof (cchain_drop b l _ _ x Hch Hx) as Hd.
  rewrite (read_clusters_run _ _ _ _ _ _ _ Hok Hd) by (rewrite ?length_drop; try done; lia).
  rewrite app_nil_l, (file_data_drop b l _ _ Hok Hch) by (apply lookup_lt_Some in Hx; lia).
  rewrite drop_drop, <-Eo. f_equal. rewrite skipn_firstn_comm, firstn_firstn. f_equal. lia.
Qed.
End chains.
