(* ===== verification/FatWrite.v ===== *)
(** * FAT32: writing files

    A write inside a file changes its contents as an array and nothing else; a
    write past the end first grows the chain by zeroed clusters. *)

From stdpp Require Import base numbers list gmap strings.
From Stdlib Require Import ZArith Lia.
From S2P Require Import Prelude CString Bytes Kernel Sched Task Block Fat FatInv FatVfs FatChain.

#[local] Open Scope Z_scope.

Section writes.
Context {B : Type} {Io : BlockIO B} {dev : Z} {Dk : Disk B dev}.
#[local] Open Scope kernel_scope.
Context {m : fat32_mount_t} {n : Z} (Hvol : vol_ok disk_size m n).
Implicit Types b : B.
#[local] Abbreviation spc := (fm_sectors_per_cluster m).
#[local] Abbreviation fat0 := (fm_fat_lba_start m).
#[local] Abbreviation spf := (fm_sectors_per_fat m).
#[local] Abbreviation fat := (fat (dev := dev) (m := m)).
#[local] Abbreviation data := (data (dev := dev) (m := m)).
#[local] Abbreviation in_vol := (in_vol (n := n)).
#[local] Abbreviation lba := (lba (m := m)).
#[local] Abbreviation sectors := (sectors (dev := dev)).
#[local] Abbreviation cchain := (cchain (dev := dev) (m := m) (n := n)).
#[local] Abbreviation csize := (csize (m := m)).
#[local] Abbreviation file_data := (file_data (dev := dev) (m := m)).

(** The first [length bs - i] bytes of [d] written over [bs] from [i] on. *)
Definition over (bs : list Z) (i : nat) (d : list Z) : list Z := splice bs (Z.of_nat i) (take (length bs - i) d).

Lemma over_length bs i d : (i ≤ length bs)%nat → length (over bs i d) = length bs.
Proof. intros. unfold over. apply splice_length; rewrite ?length_take; lia. Qed.
Lemma over_nil bs i : over bs i [] = bs.
Proof. unfold over. rewrite take_nil. apply splice_nil. Qed.
Lemma over_app a c i d : (i ≤ length a)%nat → over (a ++ c) i d = over a i d ++ over c 0 (drop (length a - i) d).
Proof.
  intros Hi. unfold over. rewrite length_app, splice_app by (rewrite ?length_take; lia). f_equal.
  - rewrite take_take. f_equal. f_equal. lia.
  - rewrite Nat.sub_0_r. change (Z.of_nat 0) with 0. f_equal. rewrite skipn_firstn_comm. f_equal. lia.
Qed.
Lemma over_full bs d : (length bs ≤ length d)%nat → over bs 0 d = take (length bs) d.
Proof. intros. unfold over. rewrite Nat.sub_0_r. apply splice_full. rewrite length_take. lia. Qed.

Lemma write_sectors_run k : ∀ b x s byte d, disk_ok b → 0 ≤ x + s → x + s + Z.of_nat k ≤ disk_size →
  0 ≤ byte < 512 → bytes d →
  let bs := sectors b (x + s) (Z.of_nat k) in
  ∃ b', write_sectors dev k x s byte d b = Ret (true, drop (length bs - Z.to_nat byte) d) b' ∧ disk_ok b' ∧
    sectors b' (x + s) (Z.of_nat k) = over bs (Z.to_nat byte) d ∧
    (∀ y, y < x + s ∨ x + s + Z.of_nat k ≤ y → disk_sec b' y = disk_sec b y).
Proof.
  pose proof (vo_size _ _ _ Hvol) as Hsz.
  induction k as [|k IH]; intros b x s byte d Hok Hx Hr Hb Hd bs; cbn [write_sectors].
  - exists b. unfold bs. cbn [Z.of_nat]. rewrite sectors_nil. cbn [length]. rewrite Nat.sub_0_l, drop_0. split_and!; try done.
    unfold over. cbn [length]. rewrite Nat.sub_0_l. cbn. by rewrite splice_nil.
  - destruct (Z.eqb_spec (Z.of_nat (length d)) 0) as [Hd0|Hd0].
    { destruct d; [|cbn in Hd0; lia]. exists b. rewrite drop_nil, over_nil. by split_and!. }
    assert (bs = disk_sec b (x + s) ++ sectors b (x + s + 1) (Z.of_nat k)) as Ebs.
    { unfold bs. rewrite sectors_cons by lia. by replace (Z.of_nat (S k) - 1) with (Z.of_nat k) by lia. }
    pose proof (disk_len b (x + s) Hok ltac:(lia)) as Hlen. pose proof (disk_bytes b (x + s) Hok ltac:(lia)) as Hby.
    rewrite !u32_id by lia. set (rest := Z.of_nat (length d)) in *.
    assert (∃ buf, (if negb (byte =? 0) || (rest <? 512) then block_read dev (x + s) else kret (KABI_SUCCESS, replicate 512 0)) b =
        Ret (KABI_SUCCESS, buf) b ∧ length buf = 512%nat ∧ bytes buf ∧ over buf (Z.to_nat byte) d = over (disk_sec b (x + s)) (Z.to_nat byte) d)
      as (buf & Eb & Lb & Bb & Ob).
    { destruct (negb (byte =? 0) || (rest <? 512)) eqn:E.
      - exists (disk_sec b (x + s)). rewrite disk_read by (try done; lia). done.
      - apply orb_false_iff in E as [->%negb_false_iff%Z.eqb_eq E2%Z.ltb_ge]. exists (replicate 512 0).
        split; [done|]. split; [apply length_replicate|]. split; [apply Forall_replicate; lia|].
        rewrite !over_full by (rewrite ?length_replicate, ?Hlen; lia). by rewrite length_replicate, Hlen. }
    rewrite (kbind_ret _ _ _ _ _ Eb). rewrite Z.eqb_refl. cbn [negb].
    set (c := if rest <? 512 - byte then rest else 512 - byte).
    assert (c = Z.min rest (512 - byte)) as Hc by (unfold c; destruct (Z.ltb_spec rest (512 - byte)); lia).
    assert (splice buf byte (take (Z.to_nat c) d) = over (disk_sec b (x + s)) (Z.to_nat byte) d) as Eover.
    { rewrite <-Ob. unfold over. rewrite Lb, Z2Nat.id by lia. f_equal. destruct (decide (rest ≤ 512 - byte)).
      - rewrite !take_ge by lia. done.
      - f_equal. lia. }
    rewrite Eover. destruct (disk_write b (x + s) (over (disk_sec b (x + s)) (Z.to_nat byte) d) Hok ltac:(lia)) as (b1 & E1 & Hok1 & S1 & O1).
    { rewrite over_length by lia. done. }
    { apply splice_bytes; [done|by apply Forall_take]. }
    rewrite (kbind_ret _ _ _ _ _ E1), Z.eqb_refl. cbn [negb].
    destruct (IH b1 x (s + 1) 0 (drop (Z.to_nat c) d) Hok1 ltac:(lia) ltac:(lia) ltac:(lia) ltac:(by apply Forall_drop))
      as (b' & E' & Hok' & S' & O').
    replace (x + (s + 1)) with (x + s + 1) in * by lia.
    assert (sectors b1 (x + s + 1) (Z.of_nat k) = sectors b (x + s + 1) (Z.of_nat k)) as Erest.
    { apply sectors_ext. intros y Hy. apply O1. lia. }
    rewrite Erest in E', S'. exists b'.
    assert (drop (Z.to_nat c) d = drop (512 - Z.to_nat byte) d) as Edrop.
    { destruct (decide (rest ≤ 512 - byte)); [rewrite !drop_ge by lia; done|f_equal; lia]. }
    split_and!; try done.
    + rewrite E', drop_drop, Ebs, length_app, Hlen. do 2 f_equal. destruct (decide (rest ≤ 512 - byte)); [rewrite !drop_ge by lia; done|].
      f_equal. lia.
    + rewrite sectors_cons by lia. replace (Z.of_nat (S k) - 1) with (Z.of_nat k) by lia. rewrite S', O', S1 by lia.
      rewrite Ebs, over_app by lia. change (Z.to_nat 0) with 0%nat. by rewrite Edrop, Hlen.
    + intros y Hy. rewrite O', O1 by lia. done.
Qed.

(** One cluster, from an offset in it. *)
Lemma write_cluster_run b x offset d : disk_ok b → in_vol x → 0 ≤ offset < csize → bytes d →
  let s := offset / 512 in
  ∃ b', write_sectors dev (Z.to_nat (spc - s)) (lba x) s (offset mod 512) d b =
      Ret (true, drop (length (data b x) - Z.to_nat offset) d) b' ∧ disk_ok b' ∧
    data b' x = over (data b x) (Z.to_nat offset) d ∧
    (∀ y, y < lba x ∨ lba x + spc ≤ y → disk_sec b' y = disk_sec b y).
Proof.
  intros Hok Hx Ho Hd s. pose proof (vo_spc _ _ _ Hvol) as Hspc. unfold FatChain.csize in Ho.
  assert (0 ≤ s < spc) as Hs by (split; [apply Z.div_pos; lia|apply Z.div_lt_upper_bound; lia]).
  pose proof (Z.mod_pos_bound offset 512 ltac:(lia)) as Hmod. pose proof (Z.div_mod offset 512 ltac:(lia)) as Hdm. fold s in Hdm.
  destruct (lba_ge Hvol x Hx) as (H0 & H1 & H2).
  destruct (write_sectors_run (Z.to_nat (spc - s)) b (lba x) s (offset mod 512) d Hok ltac:(lia) ltac:(lia) Hmod Hd)
    as (b' & E & Hok' & S' & O'). rewrite Z2Nat.id in E, S', O' by lia.
  assert (length (sectors b (lba x + s) (spc - s)) = Z.to_nat (512 * (spc - s))) as Hl by (apply sectors_length; try done; lia).
  pose proof (data_length Hvol b x Hok Hx) as Hdl.
  assert (∀ y, y < lba x ∨ lba x + spc ≤ y → disk_sec b' y = disk_sec b y) as Hout by (intros y Hy; apply O'; lia).
  exists b'. split_and!; try done.
  - rewrite E. do 2 f_equal. rewrite Hl, Hdl. f_equal. lia.
  - unfold FatInv.data. rewrite !(sectors_split _ (lba x) spc s) by lia.
    assert (length (sectors b (lba x) s) = Z.to_nat (512 * s)) as Hp by (apply sectors_length; try done; lia).
    rewrite S'. rewrite (sectors_ext b b') by (intros y Hy; apply O'; lia).
    unfold over. rewrite length_app, Hl, Hp. set (p := sectors b (lba x) s) in *. set (q := sectors b (lba x + s) (spc - s)) in *.
    unfold splice. rewrite !Nat2Z.id. rewrite take_app_ge by lia. rewrite drop_app_ge by lia. rewrite <-app_assoc. rewrite Hp.
    f_equal. replace (Z.to_nat offset - Z.to_nat (512 * s))%nat with (Z.to_nat (offset mod 512)) by lia.
    replace (Z.to_nat (512 * s) + Z.to_nat (512 * (spc - s)) - Z.to_nat offset)%nat with (Z.to_nat (512 * (spc - s)) - Z.to_nat (offset mod 512))%nat by lia.
    f_equal. f_equal. f_equal. lia.
Qed.

(** What a write to the clusters [l] leaves alone. *)
Definition outside (l : list Z) (y : Z) : Prop := ∀ x, x ∈ l → y < lba x ∨ lba x + spc ≤ y.

Lemma data_apart b b' x z : in_vol x → in_vol z → x ≠ z → (∀ y, y < lba x ∨ lba x + spc ≤ y → disk_sec b' y = disk_sec b y) →
  data b' z = data b z.
Proof.
  intros Hx Hz Hne H. apply sectors_ext. intros y Hy. apply H.
  destruct (decide (y < lba x)); [by left|]. destruct (decide (lba x + spc ≤ y)); [by right|].
  exfalso. apply (lba_apart (m := m) x z (y - lba x) (y - lba z) Hne); lia.
Qed.
Lemma fat_apart b b' x : in_vol x → (∀ y, y < lba x ∨ lba x + spc ≤ y → disk_sec b' y = disk_sec b y) →
  ∀ c, 0 ≤ c < spf * 128 → fat b' c = fat b c.
Proof.
  intros Hx H c Hc. unfold FatInv.fat, fat_raw. rewrite H; [done|]. left.
  destruct (entry_place Hvol c Hc) as ([_ Hlt] & _). destruct (lba_ge Hvol x Hx). lia.
Qed.

Lemma write_clusters_run l : ∀ f b c offset d, disk_ok b → cchain b c l → (length l < f)%nat →
  0 ≤ offset < csize → bytes d →
  ∃ b', write_clusters dev m f c offset d b = Ret (drop (length (file_data b l) - Z.to_nat offset) d) b' ∧ disk_ok b' ∧
    file_data b' l = over (file_data b l) (Z.to_nat offset) d ∧
    (∀ c', 0 ≤ c' < spf * 128 → fat b' c' = fat b c') ∧ (∀ y, outside l y → disk_sec b' y = disk_sec b y).
Proof.
  pose proof (vo_spc _ _ _ Hvol) as Hspc.
  induction l as [|x l IH]; intros f b c offset d Hok Hch Hf Ho Hd; (destruct f as [|f]; [lia|]); cbn [write_clusters].
  - cbn in Hch. replace (FAT_END <=? c) with true by (symmetry; by apply Z.leb_le). rewrite orb_true_r.
    exists b. cbn [FatChain.file_data map concat length]. rewrite Nat.sub_0_l, drop_0. split_and!; try done.
    unfold over. cbn [length]. rewrite Nat.sub_0_l. cbn. by rewrite splice_nil.
  - pose proof (cchain_nodup Hvol _ _ _ Hch) as Hnd. apply NoDup_cons in Hnd as [Hxl _]. destruct Hch as (-> & Hx & Hch).
    pose proof (in_vol_small Hvol x Hx) as Hsm. replace (FAT_END <=? x) with false by (symmetry; apply Z.leb_gt; lia). rewrite orb_false_r.
    destruct (Z.eqb_spec (Z.of_nat (length d)) 0) as [Hd0|Hd0].
    { destruct d; [|cbn in Hd0; lia]. exists b. rewrite drop_nil, over_nil. by split_and!. }
    rewrite (lba_run Hvol x Hx). destruct (write_cluster_run b x offset d Hok Hx Ho Hd) as (b1 & E1 & Hok1 & D1 & O1).
    cbv zeta in E1. rewrite (kbind_ret _ _ _ _ _ E1). cbn [fst snd].
    rewrite (kbind_ret _ _ _ _ _ (get_next_run Hvol b1 x Hok1 Hx)). pose proof (fat_apart b b1 x Hx O1) as F1.
    rewrite (F1 x (vol_entry Hvol x Hx)).
    assert (∀ z, z ∈ l → in_vol z ∧ x ≠ z) as Hlz.
    { intros z Hz. split; [by eapply cchain_in_vol|by intros ->]. }
    assert (cchain b1 (fat b x) l) as Hch1.
    { eapply cchain_ext; [exact Hch|]. intros z Hz. apply F1, (vol_entry Hvol). by apply Hlz. }
    destruct (IH f b1 _ 0 (drop (length (data b x) - Z.to_nat offset) d) Hok1 Hch1 ltac:(cbn in Hf; lia)
      ltac:(unfold FatChain.csize; lia) ltac:(by apply Forall_drop)) as (b' & E' & Hok' & D' & F' & O').
    assert (file_data b1 l = file_data b l) as Ed.
    { unfold FatChain.file_data. f_equal. apply map_ext_in. intros z Hz%list_elem_of_In. destruct (Hlz z Hz).
      by apply (data_apart b b1 x z). }
    rewrite Ed in E', D'. change (Z.to_nat 0) with 0%nat in E', D'. pose proof (data_length Hvol b x Hok Hx) as Hdl.
    assert (Z.to_nat offset ≤ length (data b x))%nat as Hol by (rewrite Hdl; unfold FatChain.csize in Ho; lia).
    exists b'. split_and!; try done.
    + rewrite E', drop_drop. do 2 f_equal. unfold FatChain.file_data. cbn [map concat]. rewrite length_app. lia.
    + unfold FatChain.file_data in *. cbn [map concat]. rewrite D', over_app by done. f_equal.
      rewrite <-D1. apply sectors_ext. intros y Hy. apply O'. intros z Hz. destruct (Hlz z Hz) as [Hzv Hne].
      destruct (decide (y < lba z)); [by left|]. destruct (decide (lba z + spc ≤ y)); [by right|].
      exfalso. apply (lba_apart (m := m) x z (y - lba x) (y - lba z) Hne); lia.
    + intros c' Hc'. by rewrite F', F1.
    + intros y Hy. rewrite O', O1; [done|apply Hy, list_elem_of_here|]. intros z Hz. apply Hy. by apply list_elem_of_further.
Qed.
End writes.
