(* ===== verification/FatDir.v ===== *)
(** * FAT32: directories

    A directory is a file of 32-byte entries; the nested loops over clusters,
    sectors and entries visit the entries of its sectors in order. *)

From stdpp Require Import base numbers list gmap strings.
From Stdlib Require Import ZArith Lia.
From S2P Require Import Prelude CString Bytes Kernel Sched Task Block Fat FatInv FatVfs FatChain FatWrite.

#[local] Open Scope Z_scope.

(** ** Entries *)

Definition entries_of (buf : list Z) : list (list Z) := map (λ i, slice 32 buf (32 * i)) (seqZ 0 16).

(** The search every lookup makes: up to the end mark, over the entries that are
    neither deleted nor parts of long names. *)
Definition usable (e : list Z) : bool := negb (rd 1 e 0 =? 229) && negb (de_attrib e =? FAT_ATTR_LFN).
Fixpoint dir_find (p : list Z → bool) (es : list (list Z)) : option (list Z) :=
  match es with
  | [] => None
  | e :: es => if rd 1 e 0 =? 0 then None else if usable e && p e then Some e else dir_find p es
  end.

(** The same search inside one sector. *)
Definition named (eq : list Z → list Z → bool) (target e : list Z) : bool := eq (de_name83 e) target.

Lemma match_entry_cases eq target e : (match_entry eq target tt e).2 =
  if rd 1 e 0 =? 0 then End else if usable e && named eq target e then Hit else Skip.
Proof.
  unfold match_entry, usable, named. cbn [snd]. destruct (rd 1 e 0 =? 0); [done|].
  destruct (rd 1 e 0 =? 229), (de_attrib e =? FAT_ATTR_LFN), (eq (de_name83 e) target); done.
Qed.

Lemma scan_entries_run eq target buf k : ∀ i, 0 ≤ i → i + Z.of_nat k = 16 →
  let es := map (λ i, slice 32 buf (32 * i)) (seqZ i (Z.of_nat k)) in
  match scan_sector (match_entry eq target) k i tt buf with
  | (_, Some (j, Hit)) => i ≤ j < 16 ∧ ∀ es', dir_find (named eq target) (es ++ es') = Some (slice 32 buf (32 * j))
  | (_, Some (j, _)) => ∀ es', dir_find (named eq target) (es ++ es') = None
  | (_, None) => ∀ es', dir_find (named eq target) (es ++ es') = dir_find (named eq target) es'
  end.
Proof.
  induction k as [|k IH]; intros i Hi Hk es; [done|]. cbn [scan_sector]. subst es.
  rewrite seqZ_cons by lia. replace (Z.pred (Z.of_nat (S k))) with (Z.of_nat k) by lia. cbn [map app dir_find].
  pose proof (match_entry_cases eq target (slice 32 buf (32 * i))) as Ec.
  destruct (match_entry eq target tt _) as [[] v]. cbn [snd] in Ec. subst v.
  specialize (IH (i + 1) ltac:(lia) ltac:(lia)). cbv zeta in IH. change (Z.succ i) with (i + 1).
  destruct (rd 1 (slice 32 buf (32 * i)) 0 =? 0); [done|]. destruct (usable _ && named _ _ _); [split; [lia|done]|].
  destruct (scan_sector _ k (i + 1) tt buf) as [? [[j []]|]]; try done. destruct IH as [H ?]. split; [lia|done].
Qed.

(** ** What a lookup looks at: the first 12 bytes of an entry *)

Lemma slice_take k j e i : 0 ≤ i → (Z.to_nat i + k ≤ j)%nat → slice k (take j e) i = slice k e i.
Proof. intros Hi Hk. unfold slice. rewrite skipn_firstn_comm, take_take. f_equal. lia. Qed.

Lemma match_entry_head eq target e e' : take 12 e = take 12 e' → match_entry eq target tt e = match_entry eq target tt e'.
Proof.
  intros H. unfold match_entry, de_attrib, de_name83, rd.
  assert (∀ k i, 0 ≤ i → (Z.to_nat i + k ≤ 12)%nat → slice k e i = slice k e' i) as Hs.
  { intros k i Hi Hk. rewrite <-(slice_take k 12 e), <-(slice_take k 12 e'), H by done. done. }
  rewrite !(Hs 1%nat 0), !(Hs 1%nat 11), !(Hs 11%nat 0) by (cbn; lia). done.
Qed.

Lemma scan_heads eq target buf buf' k : ∀ i, 0 ≤ i → i + Z.of_nat k = 16 →
  (∀ j, 0 ≤ j < 16 → take 12 (slice 32 buf' (32 * j)) = take 12 (slice 32 buf (32 * j))) →
  scan_sector (match_entry eq target) k i tt buf' = scan_sector (match_entry eq target) k i tt buf.
Proof.
  induction k as [|k IH]; intros i Hi Hk H; [done|]. cbn [scan_sector]. rewrite (match_entry_head _ _ _ _ (H i ltac:(lia))).
  destruct (match_entry eq target tt _) as [[] []]; try done. apply IH; [lia|lia|done].
Qed.

(** The entry [fat32_update_dirent] writes. *)
Definition upd_entry (new_size new_cluster : Z) (e : list Z) : list Z :=
  let e := if new_size =? 4294967295 then e else wr 4 e 28 new_size in
  if new_cluster =? 4294967295 then e else set_cluster_fields new_cluster e.

Lemma wr_head k j e i v : 0 ≤ i → i + Z.of_nat k ≤ Z.of_nat (length e) → (j ≤ Z.to_nat i)%nat → take j (wr k e i v) = take j e.
Proof.
  intros Hi Hk Hj. unfold wr, splice. rewrite take_app_le by (rewrite length_take; lia). rewrite take_take. f_equal. lia.
Qed.

Lemma upd_entry_ok sz c e : length e = 32%nat → bytes e →
  length (upd_entry sz c e) = 32%nat ∧ bytes (upd_entry sz c e) ∧ take 12 (upd_entry sz c e) = take 12 e.
Proof.
  intros Hl Hb. unfold upd_entry. set (e1 := if sz =? 4294967295 then e else wr 4 e 28 sz).
  assert (length e1 = 32%nat ∧ bytes e1 ∧ take 12 e1 = take 12 e) as (L1 & B1 & T1).
  { unfold e1. destruct (sz =? 4294967295); [done|]. split_and!.
    - rewrite wr_length; rewrite ?Hl; done.
    - by apply wr_bytes.
    - apply wr_head; rewrite ?Hl; cbn; lia. }
  destruct (c =? 4294967295); [done|]. unfold set_cluster_fields.
  assert (length (wr 2 e1 20 (Z.shiftr c 16)) = 32%nat) as L2 by (rewrite wr_length; rewrite ?L1; done). split_and!.
  - rewrite wr_length; rewrite ?L2; done.
  - by apply wr_bytes, wr_bytes.
  - rewrite !wr_head; rewrite ?L2, ?L1; cbn; try lia. done.
Qed.

Section dirs.
Context {B : Type} {Io : BlockIO B} {dev : Z} {Dk : Disk B dev}.
#[local] Open Scope kernel_scope.
Context {m : fat32_mount_t} {n : Z} (Hvol : vol_ok disk_size m n).
Implicit Types b : B.
#[local] Abbreviation spc := (fm_sectors_per_cluster m).
#[local] Abbreviation fat0 := (fm_fat_lba_start m).
#[local] Abbreviation spf := (fm_sectors_per_fat m).
#[local] Abbreviation fat := (fat (dev := dev) (m := m)).
#[local] Abbreviation data := (data (dev := dev) (m := m)).
#[local] Abbreviation in_vol := (in_vol (n := n)).
#[local] Abbreviation lba := (lba (m := m)).
#[local] Abbreviation cchain := (cchain (dev := dev) (m := m) (n := n)).

(** The sectors of a chain, and its entries. *)
Definition lbas (l : list Z) : list Z := concat (map (λ c, seqZ (lba c) spc) l).
Definition dir_entries b (l : list Z) : list (list Z) := concat (map (λ y, entries_of (disk_sec b y)) (lbas l)).

Lemma lbas_range b c l y : cchain b c l → y ∈ lbas l → fm_data_lba_start m ≤ y < disk_size ∧ ∃ x, x ∈ l ∧ lba x ≤ y < lba x + spc.
Proof.
  intros Hch Hy. unfold lbas in Hy. apply list_elem_of_In, in_concat in Hy as (ys & Hys & Hy).
  apply in_map_iff in Hys as (x & <- & Hx). apply list_elem_of_In in Hx, Hy. apply elem_of_seqZ in Hy.
  pose proof (cchain_in_vol _ _ _ _ Hch Hx) as Hv. destruct (lba_ge Hvol x Hv). split; [lia|]. exists x. split; [done|lia].
Qed.

(** The flat loop over sectors. *)
Fixpoint flat_scan {A} (cls : A → list Z → A * verdict) b (a : A) (xs : list Z) : A * scan_result :=
  match xs with
  | [] => (a, ScanOut)
  | y :: xs =>
      match scan_sector cls 16 0 a (disk_sec b y) with
      | (a, Some (i, Hit)) => (a, ScanHit y i (disk_sec b y))
      | (a, Some (_, _)) => (a, ScanEnd)
      | (a, None) => flat_scan cls b a xs
      end
  end.

Lemma scan_sectors_run {A} (cls : A → list Z → A * verdict) b k : ∀ x s a, disk_ok b → 0 ≤ x + s → x + s + Z.of_nat k ≤ disk_size →
  scan_sectors dev cls k x s a b = Ret (flat_scan cls b a (seqZ (x + s) (Z.of_nat k))) b.
Proof.
  pose proof (vo_size _ _ _ Hvol) as Hsz. induction k as [|k IH]; intros x s a Hok Hx Hr; cbn [scan_sectors]; [done|].
  rewrite u32_id, read_bind by (try done; lia). rewrite Z.eqb_refl. cbn [negb]. rewrite seqZ_cons by lia. cbn [flat_scan].
  destruct (scan_sector cls 16 0 a _) as [a' [[i []]|]]; try done.
  rewrite IH by (try done; lia). do 3 f_equal; lia.
Qed.

Lemma flat_scan_app {A} (cls : A → list Z → A * verdict) b xs : ∀ a ys, flat_scan cls b a (xs ++ ys) =
  match (flat_scan cls b a xs).2 with ScanOut => flat_scan cls b (flat_scan cls b a xs).1 ys | _ => flat_scan cls b a xs end.
Proof.
  induction xs as [|x xs IH]; intros a ys; cbn [app flat_scan]; [done|].
  destruct (scan_sector cls 16 0 a _) as [a' [[i []]|]]; try done.
Qed.

Lemma scan_chain_run {A} (cls : A → list Z → A * verdict) b l : ∀ f a c, disk_ok b → cchain b c l → (length l < f)%nat →
  scan_chain dev m cls f a c b = Ret (flat_scan cls b a (lbas l)).2 b.
Proof.
  pose proof (vo_spc _ _ _ Hvol) as Hspc.
  induction l as [|x l IH]; intros f a c Hok Hch Hf; (destruct f as [|f]; [lia|]); cbn [scan_chain].
  - cbn in Hch. replace (FAT_END <=? c) with true by (symmetry; by apply Z.leb_le). done.
  - destruct Hch as (-> & Hx & Hch). pose proof (in_vol_small Hvol x Hx).
    replace (FAT_END <=? x) with false by (symmetry; apply Z.leb_gt; lia).
    unfold scan_cluster. rewrite (lba_run Hvol x Hx). destruct (lba_ge Hvol x Hx) as (H0 & H1 & H2).
    rewrite (kbind_ret _ _ _ _ _ (scan_sectors_run cls b (Z.to_nat spc) (lba x) 0 a Hok ltac:(lia) ltac:(lia))).
    rewrite Z.add_0_r, Z2Nat.id by lia. unfold lbas. cbn [map concat]. fold (lbas l). rewrite flat_scan_app.
    destruct (flat_scan cls b a (seqZ (lba x) spc)) as [a' []]; cbn [fst snd]; try done.
    rewrite (kbind_ret _ _ _ _ _ (get_next_run Hvol b x Hok Hx)). apply IH; [done|done|cbn in Hf; lia].
Qed.

(** A search is a search in the list of entries; a hit names the sector and the
    entry. *)
Lemma find_run eq target b xs :
  match (flat_scan (match_entry eq target) b tt xs).2 with
  | ScanHit y i buf => y ∈ xs ∧ buf = disk_sec b y ∧ 0 ≤ i < 16 ∧
      dir_find (named eq target) (concat (map (λ y, entries_of (disk_sec b y)) xs)) = Some (slice 32 buf (32 * i))
  | ScanEIO => False
  | _ => dir_find (named eq target) (concat (map (λ y, entries_of (disk_sec b y)) xs)) = None
  end.
Proof.
  induction xs as [|y xs IH]; cbn [flat_scan map concat]; [done|].
  pose proof (scan_entries_run eq target (disk_sec b y) 16 0 ltac:(lia) eq_refl) as H. cbv zeta in H.
  change (map _ (seqZ 0 (Z.of_nat 16))) with (entries_of (disk_sec b y)) in H.
  destruct (scan_sector _ 16 0 tt (disk_sec b y)) as [[] [[j []]|]]; cbn [snd].
  - apply H.
  - destruct H as [Hj H]. split; [apply list_elem_of_here|]. split; [done|]. split; [lia|apply H].
  - apply H.
  - destruct (flat_scan _ b tt xs) as [[] []]; cbn [snd] in *; rewrite ?H; try done.
    destruct IH as (Hy & -> & Hi & E). split; [by apply list_elem_of_further|]. done.
Qed.

Definition lookup b l (name : list Z) : option (list Z) := dir_find (named same_folded (canonicalize_83 name)) (dir_entries b l).

Lemma find_file_run fuel b c l name : disk_ok b → cchain b (or_root m c) l → (length l < fuel)%nat →
  fat32_find_file fuel dev m name c b = Ret (match lookup b l name with Some e => inr e | None => inl KABI_ENOENT end) b.
Proof.
  intros Hok Hch Hf. unfold fat32_find_file. rewrite (kbind_ret _ _ _ _ _ (scan_chain_run _ b l fuel tt _ Hok Hch Hf)).
  pose proof (find_run same_folded (canonicalize_83 name) b (lbas l)) as H.
  unfold lookup, dir_entries. destruct (flat_scan _ b tt (lbas l)) as [[] []]; cbn [snd] in H |- *; try done; try (by rewrite H).
  destruct H as (_ & _ & _ & ->). done.
Qed.

(** ** Updating an entry *)

Lemma flat_heads eq target b b' xs :
  (∀ y j, y ∈ xs → 0 ≤ j < 16 → take 12 (slice 32 (disk_sec b' y) (32 * j)) = take 12 (slice 32 (disk_sec b y) (32 * j))) →
  (flat_scan (match_entry eq target) b' tt xs).2 =
  match (flat_scan (match_entry eq target) b tt xs).2 with ScanHit y i _ => ScanHit y i (disk_sec b' y) | r => r end.
Proof.
  induction xs as [|y xs IH]; intros H; cbn [flat_scan]; [done|].
  rewrite (scan_heads _ _ (disk_sec b y) (disk_sec b' y) 16 0); [|lia|done|intros j; apply H, list_elem_of_here].
  destruct (scan_sector _ 16 0 tt _) as [[] [[i []]|]]; cbn [snd]; try done. apply IH. intros z j Hz. apply H. by apply list_elem_of_further.
Qed.

(** Overwriting entry [i] of a sector leaves the others. *)
Lemma entry_splice buf i j e : length buf = 512%nat → length e = 32%nat → 0 ≤ i < 16 → 0 ≤ j < 16 →
  slice 32 (splice buf (32 * i) e) (32 * j) = if decide (j = i) then e else slice 32 buf (32 * j).
Proof.
  intros Hb He Hi Hj. destruct (decide (j = i)) as [->|Hne].
  - rewrite <-He at 1. apply slice_splice; rewrite ?He, ?Hb; lia.
  - apply slice_splice_ne; rewrite ?He, ?Hb; lia.
Qed.

(** A lookup finds its entry at a place; overwriting that place with an entry of
    the same name changes the result of the lookup and nothing else. *)
Lemma lookup_place eq name b l e : (∀ y, y ∈ lbas l → 0 ≤ y < disk_size) → disk_ok b →
  dir_find (named eq (canonicalize_83 name)) (dir_entries b l) = Some e →
  ∃ y i, (flat_scan (match_entry eq (canonicalize_83 name)) b tt (lbas l)).2 = ScanHit y i (disk_sec b y) ∧ y ∈ lbas l ∧ 0 ≤ i < 16 ∧
    e = slice 32 (disk_sec b y) (32 * i) ∧ length e = 32%nat ∧ bytes e ∧
    ∀ b' e', length e' = 32%nat → take 12 e' = take 12 e → disk_sec b' y = splice (disk_sec b y) (32 * i) e' →
      (∀ z, z ∈ lbas l → z ≠ y → disk_sec b' z = disk_sec b z) →
      dir_find (named eq (canonicalize_83 name)) (dir_entries b' l) = Some e'.
Proof.
  intros Hr Hok He. set (t := canonicalize_83 name) in *.
  pose proof (find_run eq t b (lbas l)) as H. unfold dir_entries in He. rewrite He in H.
  destruct (flat_scan (match_entry eq t) b tt (lbas l)) as [[] r] eqn:Ef. cbn [snd] in H.
  destruct r as [| |y i buf|]; try done. destruct H as (Hy & -> & Hi & [= ->]). exists y, i.
  pose proof (disk_len b y Hok (Hr y Hy)) as Hlen. pose proof (disk_bytes b y Hok (Hr y Hy)) as Hby.
  assert (length (slice 32 (disk_sec b y) (32 * i)) = 32%nat) as Hl by (apply slice_length; rewrite ?Hlen; lia).
  split_and!; try done; try lia; [by apply slice_bytes|].
  intros b' e' Hl' Ht Hy' Ho. pose proof (find_run eq t b' (lbas l)) as H.
  rewrite (flat_heads eq t b b') in H.
  - rewrite Ef in H. cbn [snd] in H. destruct H as (_ & _ & _ & H). unfold dir_entries. rewrite H, Hy', entry_splice by done.
    by rewrite decide_True.
  - intros z j Hz Hj. destruct (decide (z = y)) as [->|Hne]; [|by rewrite Ho].
    rewrite Hy', entry_splice by done. destruct (decide (j = i)) as [->|]; [by rewrite Ht|done].
Qed.

Lemma lookup_length b c l name e : disk_ok b → cchain b c l → lookup b l name = Some e → length e = 32%nat.
Proof.
  intros Hok Hch He. pose proof (data_fits Hvol) as Hdf.
  destruct (lookup_place same_folded name b l e) as (y & i & _ & _ & _ & _ & Hl & _); try done.
  intros y Hy. destruct (lbas_range _ _ _ y Hch Hy) as [? _]. destruct Hvol. lia.
Qed.

(** What an update leaves in the two fields. *)
Lemma upd_entry_fields sz cl e : length e = 32%nat → 0 ≤ cl < 4294967296 →
  de_bytes (upd_entry 4294967295 cl e) = de_bytes e ∧ (cl ≠ 4294967295 → de_first (upd_entry 4294967295 cl e) = cl) ∧
  (0 ≤ sz < 4294967295 → de_bytes (upd_entry sz 4294967295 e) = sz ∧ de_first (upd_entry sz 4294967295 e) = de_first e).
Proof.
  intros Hl Hc. unfold upd_entry. rewrite Z.eqb_refl. split; [|split].
  - destruct (cl =? 4294967295); [done|]. unfold de_bytes, set_cluster_fields.
    rewrite !rd_wr_ne; rewrite ?wr_length; rewrite ?Hl; try lia; done.
  - intros Hne. replace (cl =? 4294967295) with false by (symmetry; by apply Z.eqb_neq).
    unfold de_first, de_cluster_hi, de_cluster_lo, set_cluster_fields.
    rewrite (rd_wr_ne 2 2 _ 26 20), !rd_wr; rewrite ?wr_length; rewrite ?Hl; try lia.
    change (2 ^ (8 * Z.of_nat 2)) with (2 ^ 16). rewrite (Z.mod_small (Z.shiftr cl 16)) by (rewrite Z.shiftr_div_pow2 by lia; split; [apply Z.div_pos; lia|apply Z.div_lt_upper_bound; lia]).
    change 65535 with (Z.ones 16). rewrite Z.land_ones, Z.mod_mod by lia. rewrite <-Z.land_ones by lia.
    apply Z.bits_inj'. intros i Hi. rewrite Z.lor_spec, Z.land_spec. destruct (decide (i < 16)).
    + rewrite Z.shiftl_spec_low, Z.testbit_ones_nonneg by lia. cbn. replace (i <? 16) with true by (symmetry; apply Z.ltb_lt; lia). by rewrite andb_true_r.
    + rewrite Z.shiftl_spec, Z.shiftr_spec, Z.testbit_ones_nonneg by lia. replace (i <? 16) with false by (symmetry; apply Z.ltb_ge; lia).
      rewrite andb_false_r, orb_false_r. f_equal. lia.
  - intros Hs. replace (sz =? 4294967295) with false by (symmetry; apply Z.eqb_neq; lia).
    unfold de_bytes, de_first, de_cluster_hi, de_cluster_lo. rewrite rd_wr by (rewrite ?Hl; lia).
    rewrite !(rd_wr_ne 4 2) by (rewrite ?Hl; lia). split; [|done]. change (2 ^ _) with 4294967296. by rewrite Z.mod_small by lia.
Qed.

Lemma update_run fuel b c l name sz cl e : disk_ok b → cchain b (or_root m c) l → (length l < fuel)%nat → lookup b l name = Some e →
  ∃ y b', y ∈ lbas l ∧ fat32_update_dirent fuel dev m c name sz cl b = Ret KABI_SUCCESS b' ∧ disk_ok b' ∧
    (∀ z, z ≠ y → disk_sec b' z = disk_sec b z) ∧ lookup b' l name = Some (upd_entry sz cl e).
Proof.
  intros Hok Hch Hf He. pose proof (data_fits Hvol) as Hdf.
  assert (∀ y, y ∈ lbas l → 0 ≤ y < disk_size) as Hr.
  { intros y Hy. destruct (lbas_range _ _ _ y Hch Hy) as [? _]. destruct Hvol. lia. }
  destruct (lookup_place same_folded name b l e Hr Hok He) as (y & i & Ef & Hy & Hi & Ee & Hl & Hb & Hre).
  unfold fat32_update_dirent. rewrite (kbind_ret _ _ _ _ _ (scan_chain_run _ b l fuel tt _ Hok Hch Hf)), Ef, <-Ee.
  change (let e0 := _ in let e1 := _ in _) with
    (let* w := block_write dev y (splice (disk_sec b y) (32 * i) (upd_entry sz cl e)) in
      kret (if w =? KABI_SUCCESS then KABI_SUCCESS else KABI_EIO)).
  destruct (upd_entry_ok sz cl e Hl Hb) as (U1 & U2 & U3). pose proof (disk_len b y Hok (Hr y Hy)) as Hlen.
  destruct (disk_write b y (splice (disk_sec b y) (32 * i) (upd_entry sz cl e)) Hok (Hr y Hy)) as (b' & E & Hok' & S' & O').
  { rewrite splice_length; rewrite ?U1, ?Hlen; lia. }
  { apply splice_bytes; [by apply disk_bytes, Hr|done]. }
  rewrite (kbind_ret _ _ _ _ _ E). exists y, b'. split_and!; try done. apply Hre; try done. intros z _ Hz. by apply O'.
Qed.
End dirs.
