(* ===== verification/FatFiles.v ===== *)
(** * FAT32: whole-file behaviour

    Growing a file, and the theorems about reading, writing, looking up and
    removing files of a volume. *)

From stdpp Require Import base numbers list gmap strings.
From Stdlib Require Import ZArith Lia.
From S2P Require Import Prelude CString Bytes Kernel Sched Task Block Fat FatInv FatVfs FatChain FatWrite FatDir.

#[local] Open Scope Z_scope.

Section files.
Context {B : Type} {Io : BlockIO B} {dev : Z} {Dk : Disk B dev}.
#[local] Open Scope kernel_scope.
Context {m : fat32_mount_t} {n : Z} (Hvol : vol_ok disk_size m n).
Implicit Types b : B.
#[local] Abbreviation spc := (fm_sectors_per_cluster m).
#[local] Abbreviation fat0 := (fm_fat_lba_start m).
#[local] Abbreviation spf := (fm_sectors_per_fat m).
#[local] Abbreviation fat := (fat (dev := dev) (m := m)).
#[local] Abbreviation data := (data (dev := dev) (m := m)).
#[local] Abbreviation in_vol := (in_vol (n := n)).
#[local] Abbreviation lba := (lba (m := m)).
#[local] Abbreviation cchain := (cchain (dev := dev) (m := m) (n := n)).
#[local] Abbreviation csize := (csize (m := m)).
#[local] Abbreviation file_data := (file_data (dev := dev) (m := m)).
#[local] Abbreviation lbas := (lbas (m := m)).
#[local] Abbreviation lookup := (lookup (dev := dev) (m := m)).
#[local] Abbreviation table_end := (table_end (dev := dev) (m := m) (n := n)).

Lemma chain_not_free b l : ∀ c x, cchain b c l → x ∈ l → fat b x ≠ 0.
Proof.
  induction l as [|y l IH]; intros c x Hch Hx; [by apply elem_of_nil in Hx|]. destruct Hch as (_ & _ & Hch).
  apply elem_of_cons in Hx as [->|Hx]; [|by eapply IH]. destruct l as [|z l].
  - cbn in Hch. unfold FAT_END in Hch. lia.
  - destruct Hch as (-> & Hz & _). unfold FatInv.in_vol in Hz. lia.
Qed.

Lemma chain_head_nz b c l : l ≠ [] → cchain b c l → c ≠ 0.
Proof. destruct l as [|x l]; [done|]. intros _ (-> & Hx & _). unfold FatInv.in_vol in Hx. lia. Qed.

(** A change that is confined to sectors of the directory [dl]. *)
Lemma dir_frame b b' c dl y : cchain b c dl → y ∈ lbas dl → (∀ z, z ≠ y → disk_sec b' z = disk_sec b z) →
  (∀ x, 0 ≤ x < spf * 128 → fat b' x = fat b x) ∧ (∀ x, in_vol x → x ∉ dl → data b' x = data b x).
Proof.
  intros Hch Hy H. destruct (lbas_range Hvol _ _ _ y Hch Hy) as [Hr (d & Hd & Hyd)]. split.
  - intros x Hx. unfold FatInv.fat, fat_raw. rewrite H; [done|]. destruct (entry_place Hvol x Hx) as ([_ ?] & _). lia.
  - intros x Hx Hxd. apply sectors_ext. intros z Hz. apply H. intros ->.
    apply (lba_apart (m := m) x d (y - lba x) (y - lba d)); [by intros ->|lia|lia|lia].
Qed.

(** A change outside the sectors of a directory leaves its entries. *)
Lemma lookup_same b b' dl name : (∀ y, y ∈ lbas dl → disk_sec b' y = disk_sec b y) → lookup b' dl name = lookup b dl name.
Proof.
  intros H. unfold FatDir.lookup, dir_entries. f_equal. f_equal. apply map_ext_in. intros y Hy%list_elem_of_In. by rewrite H.
Qed.

Lemma last_cluster_run b l : ∀ c x, disk_ok b → cchain b c (l ++ [x]) → last_cluster dev m (length l) c b = Ret x b.
Proof.
  induction l as [|y l IH]; intros c x Hok Hch; cbn [last_cluster length app] in *.
  - by destruct Hch as (-> & _).
  - destruct Hch as (-> & Hy & Hch). rewrite (kbind_ret _ _ _ _ _ (get_next_run Hvol b y Hok Hy)).
    assert (in_vol (fat b y)) as Hn by (destruct (l ++ [x]) as [|z l'] eqn:E; [by destruct l|]; by destruct Hch as (-> & ? & _)).
    pose proof (in_vol_small Hvol _ Hn). replace (FAT_END <=? fat b y) with false by (symmetry; apply Z.leb_gt; lia). by apply IH.
Qed.

(** ** Growing *)

Definition blocks (size : Z) : Z := (size + csize - 1) / csize.

Lemma csize_pos : 0 < csize < 131072.
Proof. unfold FatChain.csize. pose proof (vo_spc _ _ _ Hvol). lia. Qed.
Lemma blocks_zero : blocks 0 = 0.
Proof. unfold blocks. pose proof csize_pos. apply Z.div_small. lia. Qed.
Lemma blocks_pos sz : 0 < sz → 0 < blocks sz.
Proof. intros. unfold blocks. pose proof csize_pos. apply Z.div_str_pos. lia. Qed.
Lemma blocks_cover sz : 0 ≤ sz → sz ≤ csize * blocks sz < sz + csize.
Proof.
  intros. unfold blocks. pose proof csize_pos. pose proof (Z.div_mod (sz + csize - 1) csize ltac:(lia)).
  pose proof (Z.mod_pos_bound (sz + csize - 1) csize ltac:(lia)). lia.
Qed.
Lemma clusters_for_eq sz : 0 ≤ sz → sz + csize < 4294967296 → clusters_for m sz = blocks sz ∧ clusters_of m sz = blocks sz.
Proof.
  intros H0 H1. unfold clusters_for, clusters_of. rewrite (bpc_eq Hvol). pose proof csize_pos.
  destruct (Z.eqb_spec sz 0) as [->|]; [by rewrite blocks_zero|]. rewrite (u32_id (sz + csize - 1)) by lia. split; [done|].
  unfold u64. rewrite Z.mod_small by lia. fold (blocks sz). apply u32_id. pose proof (blocks_cover sz H0). pose proof (blocks_pos sz ltac:(lia)). nia.
Qed.

(** The directory with the clusters [dl] gives [name] the size [sz] and the first
    cluster [c]. *)
Definition entry_of b (dl name : list Z) (sz c : Z) : Prop :=
  ∃ e, lookup b dl name = Some e ∧ de_bytes e = sz ∧ de_first e = c.

(** The file of [node] has the clusters [l], no more than its length needs, and the
    directory with the clusters [dl] has its entry. *)
Record file_in b (node : fs_node_t) (l dl : list Z) : Prop := {
  fi_chain : l = [] ∧ n_inode node = 0 ∨ l ≠ [] ∧ cchain b (n_inode node) l;
  fi_length : 0 ≤ n_length node;
  fi_tight : Z.of_nat (length l) = blocks (n_length node);
  fi_dir : cchain b (or_root m (parent_cluster node)) dl;
  fi_apart : ∀ x, x ∈ l → x ∉ dl;
  fi_entry : entry_of b dl (n_name node) (n_length node) (n_inode node) }.

(** What allocation gives: new zeroed clusters behind the old ones; the directory
    and every other cluster in use are as before. *)
Record extended b b' (c0 c1 : Z) (name : list Z) (l dl new : list Z) : Prop := {
  ed_ok : disk_ok b';
  ed_end : table_end b';
  ed_chain : cchain b' c0 (l ++ new);
  ed_data : file_data b' (l ++ new) = file_data b l ++ replicate (Z.to_nat (csize * Z.of_nat (length new))) 0;
  ed_dir : cchain b' c1 dl;
  ed_entry : ∀ sz c, entry_of b dl name sz c → l = [] ∨ c = c0 → entry_of b' dl name sz c0;
  ed_new : ∀ x, x ∈ new → in_vol x ∧ fat b x = 0;
  ed_other : ∀ x, in_vol x → x ∉ l → x ∉ dl → fat b x ≠ 0 → fat b' x = fat b x ∧ data b' x = data b x }.

Lemma file_data_app b l1 l2 : file_data b (l1 ++ l2) = file_data b l1 ++ file_data b l2.
Proof. unfold FatChain.file_data. by rewrite map_app, concat_app. Qed.
Lemma file_data_ext b b' l : (∀ x, x ∈ l → data b' x = data b x) → file_data b' l = file_data b l.
Proof. intros H. unfold FatChain.file_data. f_equal. apply map_ext_in. intros x Hx%list_elem_of_In. auto. Qed.
Lemma file_data_zero b l : (∀ x, x ∈ l → data b x = replicate (Z.to_nat (512 * spc)) 0) →
  file_data b l = replicate (Z.to_nat (csize * Z.of_nat (length l))) 0.
Proof.
  induction l as [|x l IH]; intros H; [cbn; by rewrite Z.mul_0_r|]. unfold FatChain.file_data in *. cbn [map concat length].
  rewrite H, IH by (try apply list_elem_of_here; intros; apply H; by apply list_elem_of_further).
  rewrite <-replicate_add. f_equal. unfold FatChain.csize. pose proof (vo_spc _ _ _ Hvol). lia.
Qed.

(** Clusters of a directory are apart from clusters that were free. *)
Lemma lbas_outside b c dl y x : cchain b c dl → y ∈ lbas dl → in_vol x → x ∉ dl → y < lba x ∨ lba x + spc ≤ y.
Proof.
  intros Hch Hy Hx Hxd. destruct (lbas_range Hvol _ _ _ y Hch Hy) as [_ (d & Hd & Hyd)].
  destruct (decide (y < lba x)); [by left|]. destruct (decide (lba x + spc ≤ y)); [by right|].
  exfalso. apply (lba_apart (m := m) x d (y - lba x) (y - lba d)); [by intros ->|lia|lia|lia].
Qed.

(** Appending to a chain that has a cluster. *)
Lemma append_extends k b c l last dl c1 name : disk_ok b → table_end b → cchain b c (l ++ [last]) →
  cchain b c1 dl → (∀ x, x ∈ l ++ [last] → x ∉ dl) →
  ∃ r b', append_clusters dev m k last b = Ret r b' ∧
    (r = KABI_ENOMEM ∧ disk_ok b' ∧ (∀ x, in_vol x → fat b' x ≠ 0) ∨
     r = KABI_SUCCESS ∧ ∃ new, length new = k ∧ extended b b' c c1 name (l ++ [last]) dl new).
Proof.
  intros Hok Hend Hch Hd Hap. destruct (append_run Hvol k b c l last Hok Hend Hch) as (r & b' & new & E & G & C & R).
  exists r, b'. split; [done|]. destruct R as [[-> HL]|(-> & _ & HR)]; [right|left; split_and!; [done|apply G|done]].
  split; [done|]. exists new. split; [done|].
  assert (∀ x, x ∈ new → in_vol x ∧ fat b x = 0) as Hnew by (intros x Hx; by destruct (gw_new _ _ _ _ G x Hx) as (? & ? & _)).
  assert (∀ x, fat b x ≠ 0 → x ∉ new) as Hused by (intros x Hx Hin; by destruct (Hnew x Hin)).
  assert (∀ x, x ∈ dl → (x ∉ new) ∧ x ≠ last ∧ in_vol x) as Hdl.
  { intros x Hx. split_and!.
    - apply Hused. exact (chain_not_free _ _ _ _ Hd Hx).
    - intros ->. apply (Hap last); [apply elem_of_app; right; apply list_elem_of_here|done].
    - exact (cchain_in_vol _ _ _ _ Hd Hx). }
  assert (∀ y, y ∈ lbas dl → disk_sec b' y = disk_sec b y) as Hsec.
  { intros y Hy. destruct (lbas_range Hvol _ _ _ y Hd Hy) as [Hr _]. apply (gw_sec _ _ _ _ G).
    - right. destruct Hvol. lia.
    - intros x Hx. eapply lbas_outside; [exact Hd|done|by apply Hnew|]. intros Hxd. by destruct (Hdl x Hxd). }
  split; try apply G.
  - rewrite <-app_assoc. exact C.
  - rewrite file_data_app. f_equal.
    + apply file_data_ext. intros x Hx. apply (grown_data Hvol _ _ _ _ x G); [exact (cchain_in_vol _ _ _ _ Hch Hx)|].
      apply Hused. exact (chain_not_free _ _ _ _ Hch Hx).
    + apply file_data_zero. intros x Hx. by destruct (gw_new _ _ _ _ G x Hx) as (_ & _ & ?).
  - eapply cchain_ext; [exact Hd|]. intros x Hx. destruct (Hdl x Hx) as (? & ? & ?).
    apply (gw_fat _ _ _ _ G); [by apply (vol_entry Hvol)|done|done].
  - intros sz c' He [Hn| ->]; [by destruct l|]. unfold entry_of. by rewrite (lookup_same b b').
  - done.
  - intros x Hx Hxl Hxd Hf. split.
    + apply (gw_fat _ _ _ _ G); [by apply (vol_entry Hvol)| |by apply Hused].
      intros ->. apply Hxl, elem_of_app. right. apply list_elem_of_here.
    + apply (grown_data Hvol _ _ _ _ x G Hx). by apply Hused.
Qed.

(** The first cluster of an empty file: taken, noted in the directory, zeroed. *)
Lemma first_extends fuel b node dl start : disk_ok b → table_end b → cchain b (or_root m (parent_cluster node)) dl → (length dl < fuel)%nat →
  is_Some (lookup b dl (n_name node)) → in_vol start → fat b start = 0 →
  ∃ b', (fat32_set_cluster dev m start FAT_EOC ;;;
         fat32_update_dirent fuel dev m (parent_cluster node) (n_name node) 4294967295 start ;;;
         zero_cluster dev m start) b = Ret tt b' ∧
    extended b b' start (or_root m (parent_cluster node)) (n_name node) [] dl [start].
Proof.
  intros Hok Hend Hd Hf [e He] Hs Hz. pose proof (vol_entry Hvol start Hs) as Vs.
  assert (start ∉ dl) as Hsd by (intros Hin; by apply (chain_not_free _ _ _ _ Hd Hin)).
  destruct (set_run Hvol b start FAT_EOC Hok Hs ltac:(unfold FAT_EOC; lia)) as (b1 & E1 & Hok1 & F1 & _ & R1 & S1).
  assert (∀ x, 0 ≤ x < spf * 128 → x ≠ start → fat b1 x = fat b x) as F1' by (intros x Hx Hne; unfold FatInv.fat; by rewrite R1).
  assert (cchain b1 (or_root m (parent_cluster node)) dl) as Hd1.
  { eapply cchain_ext; [exact Hd|]. intros x Hx. apply F1'; [|by intros ->]. apply (vol_entry Hvol). exact (cchain_in_vol _ _ _ _ Hd Hx). }
  assert (lookup b1 dl (n_name node) = Some e) as He1.
  { rewrite <-He. apply lookup_same. intros y Hy. apply S1. right. destruct (lbas_range Hvol _ _ _ y Hd Hy). destruct Hvol. lia. }
  destruct (update_run Hvol fuel b1 _ dl (n_name node) 4294967295 start e Hok1 Hd1 Hf He1) as (y & b2 & Hy & E2 & Hok2 & O2 & He2).
  destruct (dir_frame b1 b2 _ dl y Hd1 Hy O2) as [F2 D2].
  destruct (zero_cluster_run Hvol b2 start Hok2 Hs) as (b3 & E3 & Hok3 & Z3 & O3).
  rewrite (kbind_ret _ _ _ _ _ E1), (kbind_ret _ _ _ _ _ E2). exists b3. split; [done|].
  pose proof (fat_apart Hvol b2 b3 start Hs O3) as F3.
  assert (∀ x, 0 ≤ x < spf * 128 → x ≠ start → fat b3 x = fat b x) as F by (intros x Hx Hne; by rewrite F3, F2, F1').
  split.
  - done.
  - intros c Hc. pose proof (vo_count _ _ _ Hvol). rewrite F; [by apply Hend|lia|unfold FatInv.in_vol in Hs; lia].
  - cbn. split_and!; try done. rewrite F3, F2, F1 by done. unfold FAT_END, FAT_EOC. lia.
  - cbn [app length]. unfold FatChain.file_data. cbn [map concat]. rewrite app_nil_r, Z3. unfold FatChain.csize. cbn [app]. f_equal. lia.
  - eapply cchain_ext; [exact Hd|]. intros x Hx. apply F; [|by intros ->]. apply (vol_entry Hvol). exact (cchain_in_vol _ _ _ _ Hd Hx).
  - intros sz c (e0 & He0 & Hsz & _) _. rewrite He in He0. injection He0 as <-. unfold entry_of.
    exists (upd_entry 4294967295 start e). rewrite (lookup_same b2 b3), He2.
    + pose proof (in_vol_small Hvol start Hs). assert (0 ≤ start) by (unfold FatInv.in_vol in Hs; lia). destruct (upd_entry_fields 0 start e) as (-> & Hc & _); [exact (lookup_length Hvol _ _ _ _ _ Hok Hd He)|unfold FAT_END in *; lia|].
      split; [done|]. split; [done|]. apply Hc. unfold FAT_END in *. lia.
    + intros z Hz'. apply O3. exact (lbas_outside _ _ _ _ _ Hd Hz' Hs Hsd).
  - intros x ->%list_elem_of_singleton. done.
  - intros x Hx _ Hxd Hfx. assert (x ≠ start) as Hne by (by intros ->). split; [by apply F; [apply (vol_entry Hvol)|]|].
    rewrite (data_apart b2 b3 start x Hs Hx (not_eq_sym Hne) O3), D2 by done. by apply (data_same Hvol b b1).
Qed.

(** Two steps of allocation. *)
Lemma extended_trans b b1 b2 c0 c1 name l dl n1 n2 : extended b b1 c0 c1 name l dl n1 → extended b1 b2 c0 c1 name (l ++ n1) dl n2 →
  cchain b c1 dl → extended b b2 c0 c1 name l dl (n1 ++ n2).
Proof.
  intros H1 H2 Hd. pose proof csize_pos as Hcs.
  assert (∀ x, x ∈ n1 → fat b1 x ≠ 0) as Hn1.
  { intros x Hx. apply (chain_not_free _ _ _ _ (ed_chain _ _ _ _ _ _ _ _ H1)). apply elem_of_app. by right. }
  split; try apply H2.
  - rewrite app_assoc. apply H2.
  - rewrite app_assoc, (ed_data _ _ _ _ _ _ _ _ H2), (ed_data _ _ _ _ _ _ _ _ H1), <-app_assoc, <-replicate_add.
    do 2 f_equal. rewrite length_app. lia.
  - intros sz c He Hc. apply (ed_entry _ _ _ _ _ _ _ _ H2 sz c0); [|by right]. exact (ed_entry _ _ _ _ _ _ _ _ H1 sz c He Hc).
  - intros x [Hx|Hx]%elem_of_app; [by apply H1|]. destruct (ed_new _ _ _ _ _ _ _ _ H2 x Hx) as [Hv Hf]. split; [done|].
    destruct (decide (fat b x = 0)) as [|Hnz]; [done|]. exfalso.
    assert (x ∉ l ++ n1) as Hxl by (intros Hin; by apply (chain_not_free _ _ _ _ (ed_chain _ _ _ _ _ _ _ _ H1) Hin)).
    rewrite elem_of_app in Hxl. assert (x ∉ dl) as Hxd by (intros Hin; by apply (chain_not_free _ _ _ _ (ed_dir _ _ _ _ _ _ _ _ H1) Hin)).
    destruct (ed_other _ _ _ _ _ _ _ _ H1 x Hv) as [E _]; [tauto|done|done|congruence].
  - intros x Hv Hxl Hxd Hf. destruct (ed_other _ _ _ _ _ _ _ _ H1 x Hv Hxl Hxd Hf) as [E1 D1].
    destruct (ed_other _ _ _ _ _ _ _ _ H2 x Hv) as [E2 D2]; [|done|congruence|split; congruence].
    rewrite elem_of_app. intros [|Hin]; [done|]. by destruct (ed_new _ _ _ _ _ _ _ _ H1 x Hin).
Qed.

Lemma expand_chain_ok fuel b node l dl ns : disk_ok b → table_end b → file_in b node l dl → (length dl < fuel)%nat →
  n_length node < ns → ns + csize < 4294967296 →
  ∃ r node' b', expand_chain fuel dev m node ns b = Ret (r, node') b' ∧ with_n_inode 0 node' = with_n_inode 0 node ∧
    (r = KABI_ENOMEM ∧ disk_ok b' ∧ (∀ x, in_vol x → fat b' x ≠ 0) ∨
     r = KABI_SUCCESS ∧ n_inode node' ≠ 0 ∧ ∃ new, Z.of_nat (length (l ++ new)) = blocks ns ∧
       extended b b' (n_inode node') (or_root m (parent_cluster node)) (n_name node) l dl new).
Proof.
  intros Hok Hend [Hch Hlen Ht Hd Hap He] Hf Hns Hsmall. pose proof csize_pos as Hcs.
  unfold expand_chain. destruct (clusters_for_eq ns) as [-> _]; [lia|done|]. destruct (clusters_for_eq (n_length node)) as [_ ->]; [lia|lia|].
  rewrite <-Ht. pose proof (blocks_cover ns ltac:(lia)) as Hcov. pose proof (blocks_cover (n_length node) Hlen) as Hcov0.
  pose proof (blocks_pos ns ltac:(lia)) as Hpos.
  destruct (Z.leb_spec (blocks ns) (Z.of_nat (length l))) as [Hle|Hgt].
  { exists KABI_SUCCESS, node, b. split; [done|]. split; [done|]. right. split; [done|].
    destruct Hch as [[-> _]|[Hi Hch]]; [cbn in Hle; lia|]. split; [by apply (chain_head_nz _ _ _ Hi Hch)|]. exists []. rewrite app_nil_r. split.
    - assert (blocks (n_length node) ≤ blocks ns) by (unfold blocks; apply Z.div_le_mono; lia). lia.
    - split; try done.
      + by rewrite app_nil_r.
      + rewrite app_nil_r. cbn [length]. rewrite Z.mul_0_r. cbn. by rewrite app_nil_r.
      + intros sz c He' [->|<-]; done.
      + intros x []%elem_of_nil. }
  destruct Hch as [[-> Hi]|[Hi Hch]].
  - rewrite Hi, Z.eqb_refl. cbn [length Z.of_nat] in *. destruct (find_free_run Hvol b Hok) as (start & E0 & Hfree). rewrite (kbind_ret _ _ _ _ _ E0).
    destruct Hfree as [[-> Hnone]|(Hr & Hz & _)].
    { exists KABI_ENOMEM, node, b. split; [done|]. split; [done|]. left. split_and!; try done. intros x Hx. apply Hnone.
      unfold FatInv.in_vol in Hx. destruct Hvol. lia. }
    assert (in_vol start) as Hs by (unfold FatInv.in_vol; destruct (decide (start < 2 + n)); [lia|]; by destruct (Hend start); [lia|]).
    replace (start =? 0) with false by (symmetry; apply Z.eqb_neq; lia).
    destruct (first_extends fuel b node dl start Hok Hend Hd Hf ltac:(by destruct He as (e & -> & _)) Hs Hz) as (b1 & E1 & X1).
    destruct (append_extends (Z.to_nat (blocks ns - 1)) b1 start [] start dl (or_root m (parent_cluster node)) (n_name node)) as (r & b' & E & R);
      [apply X1|apply X1|apply X1|apply X1| |].
    { intros x ->%list_elem_of_singleton. intros Hin. apply (chain_not_free _ _ _ _ Hd Hin). done. }
    exists r, (with_n_inode start node), b'. split; [|split; [done|]].
    { revert E1 E. clear. unfold kbind. destruct (fat32_set_cluster dev m start FAT_EOC b) as [[] s1| | | |]; try done.
      destruct (fat32_update_dirent fuel dev m _ _ _ _ s1) as [? s2| | | |]; try done. intros -> ->. done. }
    destruct R as [(-> & ? & ?)|(-> & new & HL & X2)]; [by left|]. right. split; [done|]. split; [cbn; lia|].
    exists (start :: new). split; [cbn [app length]; lia|]. exact (extended_trans _ _ _ _ _ _ [] dl [start] new X1 X2 Hd).
  - pose proof (chain_head_nz _ _ _ Hi Hch) as Hnz. replace (n_inode node =? 0) with false by (symmetry; by apply Z.eqb_neq).
    destruct (exists_last Hi) as (l0 & last & ->).
    rewrite length_app in *. cbn [length] in *.
    replace (Z.to_nat (Z.of_nat (length l0 + 1) - 1)) with (length l0) by lia.
    rewrite (kbind_ret _ _ _ _ _ (last_cluster_run b l0 _ last Hok Hch)).
    destruct (append_extends (Z.to_nat (blocks ns - Z.of_nat (length l0 + 1))) b (n_inode node) l0 last dl
      (or_root m (parent_cluster node)) (n_name node) Hok Hend Hch Hd Hap) as (r & b' & E & R).
    rewrite (kbind_ret _ _ _ _ _ E). exists r, node, b'. split; [done|]. split; [done|].
    destruct R as [(-> & ? & ?)|(-> & new & HL & X)]; [by left|]. right. split; [done|]. split; [done|]. exists new.
    split; [rewrite !length_app; cbn [length]; lia|done].
Qed.

Lemma node_eq node node' : with_n_inode 0 node' = with_n_inode 0 node → node' = with_n_inode (n_inode node') node.
Proof. destruct node, node'. cbn. intros H. by simplify_eq. Qed.
Lemma blocks_mono a c : a ≤ c → blocks a ≤ blocks c.
Proof. intros. unfold blocks. pose proof csize_pos. apply Z.div_le_mono; lia. Qed.

(** [fat32_vfs_expand]: a longer file with the old bytes and zeroes behind them, or
    a full table. *)
Lemma expand_ok fuel b node l dl ns : disk_ok b → table_end b → file_in b node l dl → (length dl < fuel)%nat →
  n_length node < ns → ns + csize < 4294967296 →
  ∃ r node' b', fat32_vfs_expand fuel dev m node ns b = Ret (r, node') b' ∧
    (r = KABI_ENOMEM ∧ disk_ok b' ∧ (∀ x, in_vol x → fat b' x ≠ 0) ∨
     r = KABI_SUCCESS ∧ node' = with_n_length ns (with_n_inode (n_inode node') node) ∧ disk_ok b' ∧ table_end b' ∧ ∃ new,
       file_in b' node' (l ++ new) dl ∧
       file_data b' (l ++ new) = file_data b l ++ replicate (Z.to_nat (csize * Z.of_nat (length new))) 0 ∧
       (∀ x, x ∈ new → in_vol x ∧ fat b x = 0) ∧
       ∀ x, in_vol x → x ∉ l → x ∉ dl → fat b x ≠ 0 → fat b' x = fat b x ∧ data b' x = data b x).
Proof.
  intros Hok Hend Hin Hf Hns Hsmall. pose proof csize_pos as Hcs. pose proof Hin as [Hch Hlen Ht Hd Hap He].
  destruct (expand_chain_ok fuel b node l dl ns Hok Hend Hin Hf Hns Hsmall) as (r & node1 & b1 & E1 & Hn & R).
  apply node_eq in Hn. unfold fat32_vfs_expand. rewrite (bpc_eq Hvol). replace (csize =? 0) with false by (symmetry; apply Z.eqb_neq; lia).
  rewrite (kbind_ret _ _ _ _ _ E1). destruct R as [(-> & R)|(-> & Hi & new & HL & X)].
  { exists KABI_ENOMEM, node1, b1. split; [done|]. left. tauto. }
  rewrite Z.eqb_refl. cbn [negb]. set (c := n_inode node1) in *. rewrite Hn.
  destruct (ed_entry _ _ _ _ _ _ _ _ X (n_length node) (n_inode node) He) as (e & Ee & Es & Ec).
  { destruct Hch as [[-> _]|[Hl Hch]]; [by left|right]. destruct l as [|x l]; [done|]. destruct Hch as (-> & _).
    destruct (ed_chain _ _ _ _ _ _ _ _ X) as (Hx & _). done. }
  destruct (update_run Hvol fuel b1 (parent_cluster node) dl (n_name node) ns 4294967295 e) as (y & b2 & Hy & E2 & Hok2 & O2 & He2);
    [apply X|apply X|done|done|].
  pose proof (lookup_length Hvol _ _ _ _ _ (ed_ok _ _ _ _ _ _ _ _ X) (ed_dir _ _ _ _ _ _ _ _ X) Ee) as Hle.
  destruct (upd_entry_fields ns 4294967295 e Hle ltac:(lia)) as (_ & _ & Hfld). destruct (Hfld ltac:(lia)) as [Hs' Hc']. clear Hfld.
  destruct (dir_frame b1 b2 _ dl y (ed_dir _ _ _ _ _ _ _ _ X) Hy O2) as [F2 D2].
  change (parent_cluster (with_n_length ns (with_n_inode c node))) with (parent_cluster node).
  change (n_name (with_n_length ns (with_n_inode c node))) with (n_name node).
  rewrite (kbind_ret _ _ _ _ _ E2). eexists _, _, b2. split; [done|]. right. split; [done|]. split; [done|]. split; [done|].
  assert (∀ x, x ∈ l ++ new → x ∉ dl) as Hap'.
  { intros x [Hx|Hx]%elem_of_app; [by apply Hap|]. intros Hxd. apply (chain_not_free _ _ _ _ Hd Hxd). by apply (ed_new _ _ _ _ _ _ _ _ X). }
  pose proof (ed_chain _ _ _ _ _ _ _ _ X) as C.
  split; [|exists new; split; [split|split; [|split]]].
  - intros x Hx. pose proof (vo_count _ _ _ Hvol). rewrite F2 by lia. apply (ed_end _ _ _ _ _ _ _ _ X); lia.
  - right. split.
    + intros Hn0. rewrite Hn0 in HL. pose proof (blocks_pos ns ltac:(lia)). cbn in HL. lia.
    + eapply cchain_ext; [exact C|]. intros x Hx. apply F2, (vol_entry Hvol). exact (cchain_in_vol _ _ _ _ C Hx).
  - cbn. lia.
  - done.
  - eapply cchain_ext; [apply X|]. intros x Hx. apply F2, (vol_entry Hvol). exact (cchain_in_vol _ _ _ _ Hd Hx).
  - done.
  - eexists. split; [exact He2|]. cbn. by rewrite Hs', Hc'.
  - rewrite <-(ed_data _ _ _ _ _ _ _ _ X). apply file_data_ext. intros x Hx. apply D2; [exact (cchain_in_vol _ _ _ _ C Hx)|by apply Hap'].
  - apply X.
  - intros x Hx Hxl Hxd Hfx. destruct (ed_other _ _ _ _ _ _ _ _ X x Hx Hxl Hxd Hfx) as [<- <-]. split; [by apply F2, (vol_entry Hvol)|by apply D2].
Qed.

(** ** Writing *)

Lemma splice_behind (a c d : list Z) (i j : Z) : Z.of_nat (length a) + i = j → 0 ≤ i → splice (a ++ c) j d = a ++ splice c i d.
Proof.
  intros <- Hi. unfold splice. rewrite take_app_ge, drop_app_ge by lia. rewrite <-app_assoc.
  do 3 f_equal; [|do 2 f_equal]; lia.
Qed.

(** Bytes written inside the clusters of a file. *)
Lemma write_body fuel b c l offset d : disk_ok b → cchain b c l → (length l < fuel)%nat → bytes d → d ≠ [] →
  0 ≤ offset → offset + Z.of_nat (length d) ≤ csize * Z.of_nat (length l) →
  ∃ x b', skip_clusters dev m (Z.to_nat (offset / csize)) c b = Ret (Some x) b ∧
    write_clusters dev m fuel x (offset mod csize) d b = Ret [] b' ∧ disk_ok b' ∧
    file_data b' l = splice (file_data b l) offset d ∧
    (∀ c', 0 ≤ c' < spf * 128 → fat b' c' = fat b c') ∧ (∀ y, outside (m := m) l y → disk_sec b' y = disk_sec b y).
Proof.
  intros Hok Hch Hf Hd Hne Ho Hfit. pose proof csize_pos as Hcs.
  assert (0 < Z.of_nat (length d)) as Hd0 by (destruct d; [done|cbn; lia]).
  pose proof (Z.div_pos offset csize Ho ltac:(lia)) as Hq. pose proof (Z.mod_pos_bound offset csize ltac:(lia)) as Hm.
  pose proof (Z.div_mod offset csize ltac:(lia)) as Hdm. set (q := Z.to_nat (offset / csize)) in *.
  assert ((q < length l)%nat) as Hql.
  { subst q. assert (offset / csize < Z.of_nat (length l)); [|lia]. apply Z.div_lt_upper_bound; lia. }
  destruct (lookup_lt_is_Some_2 l q Hql) as [x Hx]. exists x.
  pose proof (cchain_drop _ _ _ _ _ Hch Hx) as Hdr.
  destruct (write_clusters_run Hvol (drop q l) fuel b x (offset mod csize) d Hok Hdr) as (b' & E & Hok' & D & F & O);
    [rewrite length_drop; lia|lia|done|].
  assert (Z.of_nat (length (file_data b (drop q l))) = csize * Z.of_nat (length l) - csize * (offset / csize)) as HL.
  { rewrite (file_data_length Hvol b (drop q l) x Hok Hdr), length_drop, <-Z.mul_sub_distr_l. f_equal. subst q. lia. }
  assert ((length d ≤ length (file_data b (drop q l)) - Z.to_nat (offset mod csize))%nat) as Hfd.
  { clearbody q. generalize dependent (offset / csize). generalize dependent (offset mod csize). clear -Hfit Hcs.
    set (k := length (file_data b (drop q l))). clearbody k. intros. nia. }
  exists b'. split; [by apply (skip_run Hvol b l)|]. split; [rewrite E; f_equal; by apply drop_ge|]. split; [done|].
  split; [|split; [done|]].
  - rewrite <-(take_drop q l), !file_data_app. rewrite D. unfold over. rewrite (take_ge d) by done.
    rewrite (splice_behind _ _ _ (offset mod csize)); [| |lia].
    + rewrite Z2Nat.id by lia. f_equal. apply file_data_ext. intros z Hz. apply sectors_ext. intros y Hy. apply O. intros w Hw.
      destruct (decide (w = z)) as [->|Hwz].
      { pose proof (cchain_nodup Hvol _ _ _ Hch) as Hnd. rewrite <-(take_drop q l) in Hnd. apply NoDup_app in Hnd as (_ & Hnd & _). by destruct (Hnd z Hz). }
      destruct (decide (y < lba w)); [by left|right]. destruct (decide (lba w + spc ≤ y)); [done|].
      destruct (lba_apart (m := m) z w (y - lba z) (y - lba w)); [done|lia|lia|lia].
    + pose proof (file_data_length Hvol b l c Hok Hch) as H. rewrite <-(take_drop q l), file_data_app, length_app, take_drop in H. lia.
  - intros y Hy. apply O. intros z Hz. apply Hy. rewrite <-(take_drop q l). apply elem_of_app. by right.
Qed.

Lemma take_splice_in (bs d : list Z) off (len : nat) : 0 ≤ off → (Z.to_nat off + length d ≤ len ≤ length bs)%nat →
  take len (splice bs off d) = splice (take len bs) off d.
Proof.
  intros Ho H. unfold splice. rewrite take_take, skipn_firstn_comm, take_app_ge by (rewrite length_take; lia).
  rewrite length_take, take_app_ge by lia. f_equal; [f_equal; lia|]. do 2 f_equal. lia.
Qed.
Lemma take_splice_grow (bs z d : list Z) off (len : nat) : 0 ≤ off → (Z.to_nat off ≤ len ≤ length bs)%nat → (len ≤ Z.to_nat off + length d)%nat →
  take (Z.to_nat off + length d) (splice (bs ++ z) off d) = splice (take len bs) off d.
Proof.
  intros Ho H Hd. unfold splice. rewrite take_take, skipn_firstn_comm, (take_app_le bs z) by lia.
  rewrite (take_app_ge _ (d ++ _)) by (rewrite length_take; lia). rewrite length_take, take_app_le by lia.
  replace (len - _)%nat with 0%nat by lia. rewrite take_0, app_nil_r. f_equal; [f_equal; lia|]. apply take_ge. lia.
Qed.

Lemma file_in_ok b node l dl : file_in b node l dl → l ≠ [] → n_length node < 4294967296 → file_ok (dev := dev) (m := m) (n := n) b node l.
Proof.
  intros [Hch Hlen Ht _ _ _] Hne Hs. pose proof (blocks_cover (n_length node) Hlen). split; [|lia|done]. by destruct Hch as [[? _]|[_ ?]].
Qed.

(** Writing inside the clusters keeps the file, its directory and all other clusters. *)
Lemma write_body_keeps b b' node l dl offset d : disk_ok b → disk_ok b' → file_in b node l dl → l ≠ [] → table_end b →
  file_data b' l = splice (file_data b l) offset d →
  (∀ c', 0 ≤ c' < spf * 128 → fat b' c' = fat b c') → (∀ y, outside (m := m) l y → disk_sec b' y = disk_sec b y) →
  file_in b' node l dl ∧ table_end b' ∧ ∀ x, in_vol x → x ∉ l → fat b' x = fat b x ∧ data b' x = data b x.
Proof.
  intros Hok Hok' [Hch Hlen Ht Hd Hap He] Hne Hend D F O. destruct Hch as [[? _]|[_ Hch]]; [done|]. split; [|split].
  - split; try done.
    + right. split; [done|]. eapply cchain_ext; [exact Hch|]. intros x Hx. apply F, (vol_entry Hvol). exact (cchain_in_vol _ _ _ _ Hch Hx).
    + eapply cchain_ext; [exact Hd|]. intros x Hx. apply F, (vol_entry Hvol). exact (cchain_in_vol _ _ _ _ Hd Hx).
    + unfold entry_of. rewrite (lookup_same b b'); [done|]. intros y Hy. apply O. intros x Hx.
      apply (lbas_outside _ _ _ _ _ Hd Hy); [exact (cchain_in_vol _ _ _ _ Hch Hx)|by apply Hap].
  - intros x Hx. pose proof (vo_count _ _ _ Hvol). rewrite F by lia. apply Hend; lia.
  - intros x Hx Hxl. split; [by apply F, (vol_entry Hvol)|]. apply sectors_ext. intros y Hy. apply O. intros w Hw.
    destruct (decide (y < lba w)); [by left|right]. destruct (decide (lba w + spc ≤ y)); [done|].
    destruct (lba_apart (m := m) x w (y - lba x) (y - lba w)); [by intros ->|lia|lia|lia].
Qed.

(** What [fat32_vfs_write] gives. *)
Definition written b b' (node node' : fs_node_t) (l l' dl : list Z) (offset : Z) (d : list Z) : Prop :=
  file_in b' node' l' dl ∧ l' ≠ [] ∧ table_end b' ∧ n_name node' = n_name node ∧
  n_length node' = Z.max (n_length node) (offset + Z.of_nat (length d)) ∧
  contents (dev := dev) (m := m) b' node' l' = splice (contents (dev := dev) (m := m) b node l) offset d ∧
  ∀ x, in_vol x → x ∉ l → x ∉ dl → fat b x ≠ 0 → fat b' x = fat b x ∧ data b' x = data b x.

Lemma file_bytes_length b node l dl : disk_ok b → file_in b node l dl → Z.of_nat (length (file_data b l)) = csize * Z.of_nat (length l).
Proof. intros Hok [[[-> _]|[_ Hch]] _ _ _ _ _]; [cbn; lia|]. exact (file_data_length Hvol b l _ Hok Hch). Qed.

(** The bytes after the space for them is there. *)
Lemma write_tail fuel b node l dl offset d : disk_ok b → file_in b node l dl → l ≠ [] → table_end b → (length l < fuel)%nat → bytes d → d ≠ [] →
  0 ≤ offset → offset + Z.of_nat (length d) ≤ n_length node → n_length node < 4294967296 →
  ∃ b', (if bytes_per_cluster m =? 0 then kfault
         else
           let* c := skip_clusters dev m (Z.to_nat (offset / bytes_per_cluster m)) (n_inode node) in
           match c with
           | None => kret (node, 0)
           | Some cluster =>
               let* unwritten := write_clusters dev m fuel cluster (offset mod bytes_per_cluster m) (take (Z.to_nat (Z.of_nat (length d))) d) in
               kret (node, Z.of_nat (length d) - Z.of_nat (length unwritten))
           end)%K b = Ret (node, Z.of_nat (length d)) b' ∧ disk_ok b' ∧ file_in b' node l dl ∧ table_end b' ∧
    file_data b' l = splice (file_data b l) offset d ∧
    ∀ x, in_vol x → x ∉ l → fat b' x = fat b x ∧ data b' x = data b x.
Proof.
  intros Hok Hin Hne Hend Hf Hd Hd0 Ho Hfit Hs. pose proof csize_pos as Hcs. pose proof (blocks_cover _ (fi_length _ _ _ _ Hin)) as Hcov.
  pose proof (fi_tight _ _ _ _ Hin) as Ht. destruct (fi_chain _ _ _ _ Hin) as [[? _]|[_ Hch]]; [done|].
  rewrite (bpc_eq Hvol), Nat2Z.id, firstn_all. replace (csize =? 0) with false by (symmetry; apply Z.eqb_neq; lia).
  destruct (write_body fuel b (n_inode node) l offset d Hok Hch Hf Hd Hd0 Ho) as (x & b' & E1 & E2 & Hok' & D & F & O); [lia|].
  rewrite (kbind_ret _ _ _ _ _ E1), (kbind_ret _ _ _ _ _ E2).
  destruct (write_body_keeps b b' node l dl offset d Hok Hok' Hin Hne Hend D F O) as (? & ? & ?).
  exists b'. split; [|done]. cbn [length]. unfold kret. do 2 f_equal. lia.
Qed.

Lemma write_run fuel b node l dl offset d : disk_ok b → table_end b → file_in b node l dl → (length dl < fuel)%nat → bytes d → d ≠ [] →
  0 ≤ offset ≤ n_length node → Z.max (n_length node) (offset + Z.of_nat (length d)) + csize < 4294967296 →
  blocks (Z.max (n_length node) (offset + Z.of_nat (length d))) < Z.of_nat fuel →
  ∃ node' r b', fat32_vfs_write fuel dev m node offset d b = Ret (node', r) b' ∧ disk_ok b' ∧
    (r = 0 ∧ (∀ x, in_vol x → fat b' x ≠ 0) ∨
     r = Z.of_nat (length d) ∧ ∃ l', written b b' node node' l l' dl offset d).
Proof.
  intros Hok Hend Hin Hf Hd Hd0 Ho Hsz Hfuel. pose proof csize_pos as Hcs. pose proof (file_bytes_length _ _ _ _ Hok Hin) as HL.
  pose proof (blocks_cover _ (fi_length _ _ _ _ Hin)) as Hcov. pose proof (fi_tight _ _ _ _ Hin) as Ht.
  assert (0 < Z.of_nat (length d)) as Hd1 by (destruct d; [done|cbn; lia]).
  unfold fat32_vfs_write. rewrite (u32_id offset), (u32_id (Z.of_nat (length d))), (u32_id (offset + _)) by lia.
  destruct (Z.ltb_spec (n_length node) (offset + Z.of_nat (length d))) as [Hgt|Hle].
  - rewrite Z.max_r in Hsz, Hfuel by lia.
    destruct (expand_ok fuel b node l dl _ Hok Hend Hin Hf Hgt Hsz) as (r & node1 & b1 & E1 & [(-> & R)|(-> & Hn & Hok1 & Hend1 & new & Hin1 & D1 & Hnew & Hoth)]);
      rewrite (kbind_ret _ _ _ _ _ E1).
    { exists node1, 0, b1. split; [done|]. split; [tauto|]. left. tauto. }
    rewrite Z.eqb_refl. cbn [negb].
    assert (n_length node1 = offset + Z.of_nat (length d)) as Hlen1 by (by rewrite Hn).
    pose proof (blocks_pos (offset + Z.of_nat (length d)) ltac:(lia)) as Hbp. pose proof (fi_tight _ _ _ _ Hin1) as Ht1. rewrite Hlen1 in Ht1.
    assert (l ++ new ≠ []) as Hne by (intros Hn0; rewrite Hn0 in Ht1; cbn in Ht1; lia).
    destruct (write_tail fuel b1 node1 (l ++ new) dl offset d) as (b' & E2 & Hok' & Hin' & Hend' & D2 & Hoth2); try done; try lia.
    exists node1, (Z.of_nat (length d)), b'. rewrite E2. split; [done|]. split; [done|]. right. split; [done|]. exists (l ++ new).
    split; [done|]. split; [done|]. split; [done|]. split; [by rewrite Hn|]. split; [rewrite Hlen1; lia|]. split.
    + unfold contents. rewrite D2, D1, Hlen1. rewrite Z2Nat.inj_add, Nat2Z.id by lia. apply take_splice_grow; lia.
    + intros x Hx Hxl Hxd Hfx. destruct (Hoth x Hx Hxl Hxd Hfx) as [<- <-]. apply Hoth2; [done|].
      rewrite elem_of_app. intros [|Hin0]; [done|]. by destruct (Hnew x Hin0).
  - rewrite Z.max_l in Hsz, Hfuel by lia. rewrite (kbind_ret (kret (KABI_SUCCESS, node)) _ b _ b eq_refl), Z.eqb_refl. cbn [negb].
    assert (l ≠ []) as Hne by (intros ->; pose proof (blocks_pos (n_length node) ltac:(lia)); cbn in Ht; lia).
    destruct (write_tail fuel b node l dl offset d) as (b' & E2 & Hok' & Hin' & Hend' & D2 & Hoth2); try done; try lia.
    exists node, (Z.of_nat (length d)), b'. rewrite E2. split; [done|]. split; [done|]. right. split; [done|]. exists l.
    split; [done|]. split; [done|]. split; [done|]. split; [done|]. split; [lia|]. split.
    + unfold contents. rewrite D2. apply take_splice_in; lia.
    + intros x Hx Hxl _ _. by apply Hoth2.
Qed.
End files.
