(* ===== verification/FatSpec.v ===== *)
(** * FAT32: what the driver promises

    The properties of the file operations, on any device that keeps the [Disk]
    contract, and their instance on a partition of a drive. *)

From stdpp Require Import base numbers list gmap strings.
From Stdlib Require Import ZArith Lia.
From S2P Require Import Prelude CString Bytes Kernel Sched Task Block Fat FatVfs FatInv BlockInv FatChain FatWrite FatDir FatFiles.

#[local] Open Scope Z_scope.

(** ** Removing a file *)

Section unlink.
Context {B : Type} {Io : BlockIO B} {dev : Z} {Dk : Disk B dev}.
#[local] Open Scope kernel_scope.
Context {m : fat32_mount_t} {n : Z} (Hvol : vol_ok disk_size m n).
Implicit Types b : B.
#[local] Abbreviation fat := (fat (dev := dev) (m := m)).
#[local] Abbreviation data := (data (dev := dev) (m := m)).
#[local] Abbreviation cchain := (cchain (dev := dev) (m := m) (n := n)).
#[local] Abbreviation lbas := (lbas (m := m)).

(** The entry that [name] has, letter case included. *)
Definition lookup_exact b (dl name : list Z) : option (list Z) :=
  dir_find (named same_exact (canonicalize_83 name)) (dir_entries (dev := dev) (m := m) b dl).

Lemma fat_unlink_run fuel b c dl l name e : disk_ok b → cchain b (or_root m c) dl → (length dl < fuel)%nat → lookup_exact b dl name = Some e →
  (l = [] ∧ de_first e = 0 ∨ cchain b (de_first e) l) → (length l < fuel)%nat → (∀ x, x ∈ l → x ∉ dl) →
  ∃ y i b', fat32_unlink fuel dev m c name b = Ret KABI_SUCCESS b' ∧ disk_ok b' ∧
    y ∈ lbas dl ∧ 0 ≤ i < 16 ∧ e = slice 32 (disk_sec b y) (32 * i) ∧
    disk_sec b' y = wr 1 (disk_sec b y) (32 * i) 229 ∧
    (∀ x, x ∈ l → fat b' x = 0) ∧ (∀ x, in_vol (n := n) x → x ∉ l → fat b' x = fat b x) ∧
    (∀ x, in_vol (n := n) x → x ∉ dl → data b' x = data b x) ∧
    (∀ z, z ∈ lbas dl → z ≠ y → disk_sec b' z = disk_sec b z).
Proof.
  intros Hok Hd Hf He Hl Hfl Hap. pose proof (data_fits Hvol) as Hdf.
  assert (∀ y, y ∈ lbas dl → fm_data_lba_start m ≤ y < disk_size ∧ 0 ≤ y) as Hr.
  { intros y Hy. destruct (lbas_range Hvol _ _ _ y Hd Hy) as [? _]. destruct Hvol. lia. }
  destruct (lookup_place (m := m) same_exact name b dl e) as (y & i & Ef & Hy & Hi & Ee & Hle & Hb & _); [|done|done|].
  { intros y Hy. destruct (Hr y Hy). lia. }
  assert (∃ b1, free_chain dev m fuel (de_first e) b = Ret tt b1 ∧ disk_ok b1 ∧ (∀ x, x ∈ l → fat b1 x = 0) ∧
    (∀ x, 0 ≤ x < fm_sectors_per_fat m * 128 → x ∉ l → fat b1 x = fat b x) ∧
    (∀ z, z < fm_fat_lba_start m ∨ fm_fat_lba_start m + fm_sectors_per_fat m ≤ z → disk_sec b1 z = disk_sec b z)) as (b1 & E1 & Hok1 & F0 & F1 & S1).
  { destruct Hl as [[-> ->]|Hl]; [|exact (free_chain_run Hvol l fuel b _ Hok Hl Hfl)].
    exists b. destruct fuel as [|f]; [cbn in Hfl; lia|]. split; [done|]. split; [done|]. split; [by intros x ?%elem_of_nil|done]. }
  assert (∀ z, fm_data_lba_start m ≤ z → disk_sec b1 z = disk_sec b z) as S1' by (intros z Hz; apply S1; destruct Hvol; lia).
  destruct (Hr y Hy) as [Hry Hy0]. pose proof (disk_len b y Hok ltac:(lia)) as Hlen.
  destruct (disk_write b1 y (wr 1 (disk_sec b y) (32 * i) 229) Hok1 ltac:(lia)) as (b' & E2 & Hok' & S2 & O2).
  { rewrite wr_length; rewrite ?Hlen; lia. }
  { apply wr_bytes, disk_bytes; [done|lia]. }
  exists y, i, b'. split.
  { unfold fat32_unlink. rewrite (kbind_ret _ _ _ _ _ (scan_chain_run Hvol _ b dl fuel tt _ Hok Hd Hf)), Ef, <-Ee.
    rewrite (kbind_ret _ _ _ _ _ E1), (kbind_ret _ _ _ _ _ E2). done. }
  destruct (dir_frame Hvol b1 b' (or_root m c) dl y) as [F2 D2]; [|done|done|].
  { eapply cchain_ext; [exact Hd|]. intros x Hx. apply F1; [apply (vol_entry Hvol); exact (cchain_in_vol _ _ _ _ Hd Hx)|].
    intros Hxl. by apply (Hap x Hxl). }
  split; [done|]. split; [done|]. split; [done|]. split; [done|]. split; [done|]. split; [|split; [|split]].
  - intros x Hx. rewrite F2; [by apply F0|]. apply (vol_entry Hvol). destruct Hl as [[-> _]|Hl]; [by apply elem_of_nil in Hx|exact (cchain_in_vol _ _ _ _ Hl Hx)].
  - intros x Hx Hxl. pose proof (vol_entry Hvol x Hx). rewrite F2, F1 by done. done.
  - intros x Hx Hxd. rewrite D2 by done. by apply (data_same Hvol b b1).
  - intros z Hz Hne. rewrite O2 by done. apply S1', Hr, Hz.
Qed.
End unlink.

(** ** Names *)

(** A name of the form [BASE] or [BASE.EXT] that fits in eight and three
    characters. *)
Definition plain (c : Z) : Prop := c ≠ period ∧ c ≠ 32.
Definition dotted (base ext : list Z) : list Z := base ++ (if ext is [] then [] else period :: ext).
Record name83 (base ext : list Z) : Prop := {
  n8_base : Forall plain base; n8_ext : Forall plain ext;
  n8_eight : (length base ≤ 8)%nat; n8_three : (length ext ≤ 3)%nat }.

Lemma to_upper_plain c : plain c → plain (to_upper c).
Proof. unfold plain, period, to_upper. destruct (Z.leb_spec 97 c), (Z.leb_spec c 122); cbn; lia. Qed.
Lemma to_upper_idem c : to_upper (to_upper c) = to_upper c.
Proof.
  unfold to_upper at 2 3. destruct (Z.leb_spec 97 c), (Z.leb_spec c 122); cbn; unfold to_upper;
    try (replace (97 <=? c - 32) with false by (symmetry; apply Z.leb_gt; lia); done);
    repeat case_match; try done; lia.
Qed.

Lemma take_base_run base rest : Forall plain base → ∀ room, (length base ≤ room)%nat →
  (rest = [] ∨ ∃ r, rest = period :: r) → take_base room (base ++ rest) = (map to_upper base, rest).
Proof.
  induction 1 as [|c base [Hc _] _ IH]; intros room Hr Hrest; cbn [app map].
  - destruct Hrest as [->|[r ->]]; by destruct room.
  - destruct room as [|room]; cbn in Hr; [lia|]. cbn [take_base]. replace (c =? period) with false by (symmetry; by apply Z.eqb_neq).
    by rewrite IH by (try done; lia).
Qed.

Lemma until_space_run u k : Forall plain u → until_space (u ++ replicate k 32) = u.
Proof.
  induction 1 as [|c u [_ Hc] _ IH]; [by destruct k|]. cbn. replace (c =? 32) with false by (symmetry; by apply Z.eqb_neq). by rewrite IH.
Qed.

Lemma name83_run base ext : name83 base ext →
  canonicalize_83 (dotted base ext) = pad 8 (map to_upper base) ++ pad 3 (map to_upper ext).
Proof.
  intros [Hb He H8 H3]. unfold canonicalize_83, dotted. rewrite take_base_run; [|done|done|destruct ext; [by left|right; by eexists]].
  cbn [fst snd]. destruct ext as [|c ext]; [done|]. cbn [skip_base]. rewrite Z.eqb_refl. by rewrite take_ge by done.
Qed.

Lemma upper_dotted base ext : map to_upper (dotted base ext) = dotted (map to_upper base) (map to_upper ext).
Proof. unfold dotted. rewrite map_app. by destruct ext. Qed.
Lemma name83_upper base ext : name83 base ext → name83 (map to_upper base) (map to_upper ext).
Proof.
  intros [Hb He H8 H3]. split; rewrite ?length_map; try done.
  - apply Forall_map. eapply Forall_impl; [exact Hb|]. apply to_upper_plain.
  - apply Forall_map. eapply Forall_impl; [exact He|]. apply to_upper_plain.
Qed.

Lemma pad_length k l : (length l ≤ k)%nat → length (pad k l) = k.
Proof. intros. unfold pad. rewrite length_app, length_replicate. lia. Qed.

Lemma format_run base ext : name83 base ext → format_fat_name (pad 8 base ++ pad 3 ext) = dotted base ext.
Proof.
  intros [Hb He H8 H3]. unfold format_fat_name, dotted. rewrite take_app_length' by (by rewrite pad_length).
  rewrite drop_app_length' by (by rewrite pad_length). rewrite (take_ge (pad 3 ext)) by (by rewrite pad_length).
  unfold pad at 1 4. rewrite !until_space_run by done. f_equal. unfold rd, slice.
  rewrite drop_app_length' by (by rewrite pad_length). destruct He as [|c ext [_ Hc] He]; [done|].
  cbn. rewrite Z.add_0_r. by replace (c =? 32) with false by (symmetry; by apply Z.eqb_neq).
Qed.

(** A name of at most eight and three characters is listed by [readdir] as it
    was given to [create], in capitals; and two such names have the same entry in
    a directory exactly when they differ in the case of letters only. *)
Theorem name_roundtrip base ext : name83 base ext →
  format_fat_name (canonicalize_83 (dotted base ext)) = map to_upper (dotted base ext) ∧
  ∀ base' ext', name83 base' ext' →
    (canonicalize_83 (dotted base ext) = canonicalize_83 (dotted base' ext') ↔
     map to_upper (dotted base ext) = map to_upper (dotted base' ext')).
Proof.
  assert (∀ base ext, name83 base ext → format_fat_name (canonicalize_83 (dotted base ext)) = map to_upper (dotted base ext)) as Hrt.
  { intros b e Hn. rewrite name83_run by done. rewrite format_run by (by apply name83_upper). by rewrite upper_dotted. }
  assert (∀ base ext, name83 base ext → canonicalize_83 (map to_upper (dotted base ext)) = canonicalize_83 (dotted base ext)) as Hup.
  { intros b e Hn. rewrite upper_dotted, !name83_run by (try apply name83_upper; done).
    rewrite !map_map. f_equal; f_equal; apply map_ext; apply to_upper_idem. }
  intros Hn. split; [by apply Hrt|]. intros base' ext' Hn'. split; intros H.
  - rewrite <-!Hrt by done. by rewrite H.
  - rewrite <-Hup, H by done. by apply Hup.
Qed.

Lemma name_roundtrip_witness : format_fat_name (canonicalize_83 (str "notes.txt")) = str "NOTES.TXT".
Proof.
  apply (name_roundtrip (str "notes") (str "txt")). split; [|..]; try (by vm_compute; lia); repeat constructor; done.
Defined.

(** ** The properties *)

Section spec.
Context {B : Type} {Io : BlockIO B} {dev : Z} {Dk : Disk B dev}.
#[local] Open Scope kernel_scope.
Context {m : fat32_mount_t} {n : Z} (Hvol : vol_ok disk_size m n).
Implicit Types b : B.
#[local] Abbreviation fat := (fat (dev := dev) (m := m)).
#[local] Abbreviation data := (data (dev := dev) (m := m)).
#[local] Abbreviation cchain := (cchain (dev := dev) (m := m) (n := n)).
#[local] Abbreviation csize := (csize (m := m)).
#[local] Abbreviation lbas := (lbas (m := m)).
#[local] Abbreviation contents := (contents (dev := dev) (m := m)).
#[local] Abbreviation file_in := (file_in (dev := dev) (m := m) (n := n)).
#[local] Abbreviation table_end := (table_end (dev := dev) (m := m) (n := n)).

(** C21. [fat32_vfs_read], which walks the cluster chain and copies sector by
    sector, gives the bytes of the file's contents from the offset on: as many as
    were asked for and the file has, and none past its end. *)
Theorem fat_read_ok fuel b node l offset size : disk_ok b → file_ok (dev := dev) (m := m) (n := n) b node l → (length l < fuel)%nat →
  0 ≤ offset → 0 ≤ size → offset + size < 4294967296 →
  fat32_vfs_read fuel dev m node offset size b = Ret (take (Z.to_nat size) (drop (Z.to_nat offset) (contents b node l))) b.
Proof. exact (read_run Hvol fuel b node l offset size). Qed.


(** What a write reported as done is what a read at the same place gives. *)
Theorem fat_write_read fuel b node l dl offset d node' b' : disk_ok b → table_end b → file_in b node l dl → (length dl < fuel)%nat →
  bytes d → d ≠ [] → 0 ≤ offset ≤ n_length node → Z.max (n_length node) (offset + Z.of_nat (length d)) + csize < 4294967296 →
  blocks (m := m) (Z.max (n_length node) (offset + Z.of_nat (length d))) < Z.of_nat fuel →
  fat32_vfs_write fuel dev m node offset d b = Ret (node', Z.of_nat (length d)) b' →
  fat32_vfs_read fuel dev m node' offset (Z.of_nat (length d)) b' = Ret d b'.
Proof.
  intros Hok Hend Hin Hf Hd Hd0 Ho Hsz Hfu E. pose proof (csize_pos Hvol).
  assert (0 < Z.of_nat (length d)) as Hd1 by (destruct d; [done|cbn; lia]).
  destruct (write_run Hvol fuel b node l dl offset d Hok Hend Hin Hf Hd Hd0 Ho Hsz Hfu) as (node1 & r & b1 & E1 & Hok1 & R).
  rewrite E in E1. injection E1 as <- <- <-. destruct R as [[Hr _]|(_ & l' & Hin' & Hl' & _ & _ & Hlen & Hc & _)]; [lia|].
  pose proof (fi_tight _ _ _ _ Hin') as Ht. rewrite Hlen in Ht.
  rewrite (read_run Hvol fuel b' node' l' offset (Z.of_nat (length d))); [|done|apply (file_in_ok Hvol _ _ _ dl); [done|done|lia]|lia|lia|lia|lia].
  f_equal. rewrite Hc, Nat2Z.id.
  assert (length (contents b node l) = Z.to_nat (n_length node)) as HL.
  { unfold FatChain.contents. rewrite length_take. pose proof (file_bytes_length Hvol _ _ _ _ Hok Hin). pose proof (blocks_cover Hvol _ (fi_length _ _ _ _ Hin)).
    pose proof (fi_tight _ _ _ _ Hin). lia. }
  unfold splice. rewrite drop_app_length' by (rewrite length_take; lia). by rewrite take_app_length.
Qed.

(** The search of [fat32_find_file] through clusters, sectors and entries is
    the search in the list of the directory's entries: the first one before the
    end mark that is neither deleted nor part of a long name and whose name is
    the asked one up to letter case, or [KABI_ENOENT]. *)
Theorem fat_find_ok fuel b c l name : disk_ok b → cchain b (or_root m c) l → (length l < fuel)%nat →
  fat32_find_file fuel dev m name c b =
  Ret (match dir_find (named same_folded (canonicalize_83 name)) (dir_entries (dev := dev) (m := m) b l) with
       | Some e => inr e | None => inl KABI_ENOENT end) b.
Proof. exact (find_file_run Hvol fuel b c l name). Qed.

(** [fat32_unlink] frees exactly the clusters of the file, marks exactly its
    entry as deleted, and leaves all other clusters and entries. *)
Theorem fat_unlink_ok fuel b c dl l name e : disk_ok b → cchain b (or_root m c) dl → (length dl < fuel)%nat →
  lookup_exact (dev := dev) (m := m) b dl name = Some e →
  (l = [] ∧ de_first e = 0 ∨ cchain b (de_first e) l) → (length l < fuel)%nat → (∀ x, x ∈ l → x ∉ dl) →
  ∃ y i b', fat32_unlink fuel dev m c name b = Ret KABI_SUCCESS b' ∧ disk_ok b' ∧
    y ∈ lbas dl ∧ 0 ≤ i < 16 ∧ e = slice 32 (disk_sec b y) (32 * i) ∧
    disk_sec b' y = wr 1 (disk_sec b y) (32 * i) 229 ∧
    (∀ x, x ∈ l → fat b' x = 0) ∧ (∀ x, in_vol (n := n) x → x ∉ l → fat b' x = fat b x) ∧
    (∀ x, in_vol (n := n) x → x ∉ dl → data b' x = data b x) ∧
    (∀ z, z ∈ lbas dl → z ≠ y → disk_sec b' z = disk_sec b z).
Proof. exact (fat_unlink_run Hvol fuel b c dl l name e). Qed.
End spec.
