(* ===== verification/FatDemo.v ===== *)
(** * FAT32: a volume

    A drive of sixteen sectors with a partition that holds a FAT32 volume: it keeps
    the contracts, and the properties of the block layer and the file system apply
    to it. *)

From stdpp Require Import base numbers list gmap strings.
From Stdlib Require Import ZArith Lia.
From S2P Require Import Prelude CString Bytes Kernel Sched Task Block Fat FatVfs FatInv BlockInv FatChain FatWrite FatDir FatFiles FatSpec.

#[local] Open Scope Z_scope.

(** ** A drive in memory *)

Abbreviation mem := (list (list Z)).
#[export] Instance mem_hw : SectorHw mem := {|
  hw_read _ x := λ h, match zlookup h x with Some s => Ret (0, s) h | None => Ret (-1, []) h end;
  hw_write _ x l := λ h, match zset h x l with Some h' => Ret 0 h' | None => Ret (-1) h end |}.

Definition sector_ok (s : list Z) : Prop := length s = 512%nat ∧ bytes s.
Definition mem_ok (h : mem) : Prop := length h = 16%nat ∧ Forall sector_ok h.
Definition mem_sec (h : mem) (x : Z) : list Z := default [] (zlookup h x).

Lemma mem_place h x : mem_ok h → 0 ≤ x < 16 → zlookup h x = Some (mem_sec h x) ∧ sector_ok (mem_sec h x).
Proof.
  intros [Hl Ho] Hx. destruct (zlookup_lt h x) as (y & E & Ey); [lia|]. unfold mem_sec. rewrite E. split; [done|].
  exact (Forall_lookup_1 _ _ _ _ Ho Ey).
Qed.
Lemma mem_update h x l : mem_ok h → 0 ≤ x < 16 → sector_ok l →
  ∃ h', zset h x l = Some h' ∧ mem_ok h' ∧ mem_sec h' x = l ∧ ∀ y, y ≠ x → mem_sec h' y = mem_sec h y.
Proof.
  intros [Hl Ho] Hx Hs. exists (<[Z.to_nat x := l]> h). unfold mem_sec.
  split; [rewrite <-(Z2Nat.id x) at 1 by lia; apply zset_nat; lia|]. split; [split; [by rewrite length_insert|by apply Forall_insert]|]. split.
  - rewrite <-(Z2Nat.id x) at 2 by lia. rewrite zlookup_nat, list_lookup_insert_eq by lia. done.
  - intros y Hy. unfold zlookup. destruct (Z.ltb_spec y 0); [done|]. by rewrite list_lookup_insert_ne by lia.
Qed.

#[refine] #[export] Instance mem_drive : Drive mem ide_read_fn ide_write_fn := {| dr_ok := mem_ok; dr_sec := mem_sec; dr_size := 16 |}.
Proof.
  - intros h x Hh Hx. by destruct (mem_place h x Hh Hx) as (_ & ? & _).
  - intros h x Hh Hx. by destruct (mem_place h x Hh Hx) as (_ & _ & ?).
  - intros h x Hh Hx. cbn. destruct (mem_place h x Hh Hx) as [-> _]. done.
  - intros h x l Hh Hx Hl Hb. cbn. destruct (mem_update h x l Hh Hx) as (h' & -> & ? & ? & ?); [done|]. by exists h'.
Defined.

(** ** Its sectors *)

Definition zeros : list Z := replicate 512 0.
(** The partition table: one FAT32 partition of 15 sectors from sector 1 on. *)
Definition mbr_sector : list Z := wr 2 (wr 4 (wr 4 (wr 1 zeros 450 12) 454 1) 458 15) 510 MBR_SIGNATURE.
(** The boot sector: one reserved sector, one table of one sector, clusters of one
    sector, the root directory in cluster 2. *)
Definition boot_sector : list Z :=
  wr 4 (wr 4 (wr 1 (wr 2 (wr 1 (wr 2 zeros 11 512) 13 1) 14 1) 16 1) 36 1) 44 2.
(** The table: the root directory in cluster 2, a file in 3 and 4, clusters 5 to 14
    free, and no clusters behind them. *)
Definition table_sector : list Z :=
  concat (map (le_bytes 4) ([268435448; 268435455; FAT_EOC; 4; FAT_EOC] ++ replicate 10 0 ++ replicate 113 268435447)).
Definition root_sector : list Z :=
  splice (splice zeros 0 (dirent_of (canonicalize_83 (str "a.txt")) FAT_ATTR_ARCHIVE 3 600))
    32 (dirent_of (canonicalize_83 (str "b.txt")) FAT_ATTR_ARCHIVE 0 0).
Definition demo_mem : mem :=
  [mbr_sector; boot_sector; table_sector; root_sector; replicate 512 97; replicate 88 98 ++ replicate 424 0] ++ replicate 10 zeros.

Definition dev0 : kabi_block_device_t := mk_bdev (str "dev0") ide_read_fn ide_write_fn 0 false 0 0.
Definition dev0p1 : kabi_block_device_t := mk_bdev (str "dev0p1") ide_read_fn ide_write_fn 15 true 0 1.
Definition demo : blk mem := mk_blk [dev0; dev0p1] [] demo_mem.
Definition demo_mount : fat32_mount_t := mk_fmount 0 1 2 1 512 1 2.

Lemma demo_fns : drive_fns (fr := ide_read_fn) (fw := ide_write_fn).
Proof. done. Qed.
Lemma dev0p1_fits : dev_fits (fr := ide_read_fn) (fw := ide_write_fn) 1 dev0p1.
Proof. split; cbn; done. Qed.
Lemma dev0_fits : dev_fits (fr := ide_read_fn) (fw := ide_write_fn) 0 dev0.
Proof. split; cbn; done. Qed.
#[export] Instance demo_disk : Disk (blk mem) 1 := part_disk 1 dev0p1 demo_fns dev0p1_fits.

Definition sector_okb (s : list Z) : bool := (length s =? 512)%nat && forallb (λ c, (0 <=? c) && (c <? 256)) s.
Lemma sector_okb_ok s : sector_okb s = true → sector_ok s.
Proof.
  intros [H1 H2]%andb_true_iff. split; [by apply Nat.eqb_eq|]. apply Forall_forall. intros c Hc%list_elem_of_In.
  rewrite forallb_forall in H2. specialize (H2 c Hc). apply andb_true_iff in H2 as [?%Z.leb_le ?%Z.ltb_lt]. done.
Qed.
Lemma demo_mem_ok : mem_ok demo_mem.
Proof.
  split; [done|]. assert (forallb sector_okb demo_mem = true) as H by (by vm_compute). rewrite forallb_forall in H.
  apply Forall_forall. intros s Hs%list_elem_of_In. by apply sector_okb_ok, H.
Qed.
Lemma demo_ok : disk_ok demo.
Proof. split; [exact demo_mem_ok|done]. Qed.
Lemma demo_vol : vol_ok disk_size demo_mount 13.
Proof. split; cbn; lia. Qed.
Lemma demo_boot : fat32_read_bpb 1 0 demo = Ret (inr demo_mount) demo.
Proof. by vm_compute. Qed.
Lemma demo_end : table_end (dev := 1) (m := demo_mount) (n := 13) demo.
Proof.
  assert (forallb (λ c, negb (fat (dev := 1) (m := demo_mount) demo c =? 0)) (seqZ 15 113) = true) as H by (by vm_compute).
  intros c Hc. cbn in Hc. rewrite forallb_forall in H. specialize (H c ltac:(apply list_elem_of_In, elem_of_seqZ; lia)).
  by apply negb_true_iff, Z.eqb_neq in H.
Qed.

(** ** The properties on it *)

Lemma register_ok_witness : block_dev_register dev0 (mk_blk [] [] demo_mem) = Ret 0 demo.
Proof.
  rewrite (register_ok dev0 (mk_blk [] [] demo_mem) demo_fns dev0_fits eq_refl ltac:(done) demo_mem_ok ltac:(done)) by (by vm_compute).
  by vm_compute.
Defined.

Lemma partition_io_ok_witness : kabi_block_read 1 0 demo = Ret (KABI_SUCCESS, boot_sector) demo.
Proof.
  destruct (partition_io_ok 1 dev0p1 demo 0 zeros demo_fns dev0p1_fits demo_ok ltac:(done) ltac:(done)) as [H _].
  - by apply sector_okb_ok.
  - rewrite H. by vm_compute.
Defined.

Definition a_txt : fs_node_t := mk_node (str "a.txt") 0 FS_FILE 3 600 ImplNull 0 0 0 0 0 0 0 0 0.

Lemma demo_root : cchain (dev := 1) (m := demo_mount) (n := 13) demo 2 [2].
Proof. cbn [cchain]. unfold in_vol. split; [done|]. split; [lia|]. by vm_compute. Qed.
Lemma demo_chain : cchain (dev := 1) (m := demo_mount) (n := 13) demo 3 [3; 4].
Proof. cbn [cchain]. unfold in_vol. split; [done|]. split; [lia|]. split; [by vm_compute|]. split; [lia|]. by vm_compute. Qed.
Lemma a_txt_in : file_in (dev := 1) (m := demo_mount) (n := 13) demo a_txt [3; 4] [2].
Proof.
  split.
  - right. split; [done|exact demo_chain].
  - done.
  - by vm_compute.
  - exact demo_root.
  - intros x Hx Hy. apply list_elem_of_singleton in Hy as ->. rewrite !elem_of_cons in Hx. destruct Hx as [?|[?|?%elem_of_nil]]; done.
  - eexists. split; [by vm_compute|]. by vm_compute.
Qed.

Lemma fat_read_ok_witness : fat32_vfs_read 3 1 demo_mount a_txt 511 2 demo = Ret [97; 98] demo.
Proof.
  rewrite (fat_read_ok demo_vol 3 demo a_txt [3; 4] 511 2 demo_ok); [by vm_compute|apply (file_in_ok demo_vol _ _ _ _ a_txt_in); done|cbn; lia|lia|lia|lia].
Defined.

(** Two more clusters are taken, and the bytes are there. *)
Definition more : list Z := replicate 1000 99.
Definition more_done : bool := match fat32_vfs_write 5 1 demo_mount a_txt 600 more demo with Ret (_, r) _ => r =? Z.of_nat (length more) | _ => false end.
Lemma more_done_eq : more_done = true.
Proof. by vm_compute. Qed.
Lemma more_bytes : bytes more.
Proof. by apply Forall_replicate. Qed.
#[local] Opaque fat32_vfs_write fat32_vfs_read.


Lemma fat_write_read_witness : ∃ node' b', fat32_vfs_write 5 1 demo_mount a_txt 600 more demo = Ret (node', Z.of_nat (length more)) b' ∧
  fat32_vfs_read 5 1 demo_mount node' 600 (Z.of_nat (length more)) b' = Ret more b'.
Proof.
  pose proof more_done_eq as H. unfold more_done in H.
  destruct (fat32_vfs_write 5 1 demo_mount a_txt 600 more demo) as [[node' r] b'| | | |] eqn:E; [|discriminate H..].
  apply Z.eqb_eq in H as ->. exists node', b'. split; [exact eq_refl|].
  apply (fat_write_read demo_vol 5 demo a_txt [3; 4] [2] 600 more node' b' demo_ok demo_end a_txt_in);
    [cbn; lia|exact more_bytes|discriminate|cbn; lia|by vm_compute|by vm_compute|exact E].
Defined.

Lemma fat_find_ok_witness : fat32_find_file 2 1 demo_mount (str "B.txt") 0 demo =
  Ret (inr (dirent_of (canonicalize_83 (str "b.txt")) FAT_ATTR_ARCHIVE 0 0)) demo.
Proof. rewrite (fat_find_ok demo_vol 2 demo 0 [2] (str "B.txt") demo_ok demo_root) by (cbn; lia). by vm_compute. Defined.

Lemma fat_unlink_ok_witness : ∃ b', fat32_unlink 3 1 demo_mount 0 (str "a.txt") demo = Ret KABI_SUCCESS b' ∧
  fat (dev := 1) (m := demo_mount) b' 3 = 0 ∧ fat (dev := 1) (m := demo_mount) b' 4 = 0.
Proof.
  destruct (fat_unlink_ok demo_vol 3 demo 0 [2] [3; 4] (str "a.txt") (dirent_of (canonicalize_83 (str "a.txt")) FAT_ATTR_ARCHIVE 3 600)
    demo_ok demo_root ltac:(cbn; lia) ltac:(by vm_compute)) as (y & i & b' & E & _ & _ & _ & _ & _ & F & _).
  - right. exact demo_chain.
  - cbn. lia.
  - exact (fi_apart _ _ _ _ a_txt_in).
  - exists b'. split; [done|]. split; apply F; rewrite !elem_of_cons; tauto.
Defined.
