(* ===== verification/Ulib.v ===== *)
(** * The C library of user programs

    Models [user/lib/ulib.c].  As in [CString] a [char] array is a list of bytes
    and an access outside it gives [None]; a pointer into a string is the list
    from there on. *)

From stdpp Require Import base numbers list strings.
From Stdlib Require Import ZArith Lia.
From S2P Require Import Prelude CString.

#[local] Open Scope Z_scope.

Definition ulib_strlen (s : list Z) : option Z := strlen_loop s 0.

Fixpoint ulib_strcmp (s1 s2 : list Z) : option Z :=
  match s1, s2 with
  | a :: s1, b :: s2 => if a =? b then (if a =? 0 then Some 0 else ulib_strcmp s1 s2) else Some (s8 a - s8 b)
  | _, _ => None
  end.

(** [n] characters at most; [n - 1] is the bound of the loop. *)
Fixpoint strncmp_loop (m : nat) (s1 s2 : list Z) : option Z :=
  match s1, s2 with
  | a :: s1, b :: s2 =>
      match m with
      | S m => if a =? b then (if a =? 0 then Some 0 else strncmp_loop m s1 s2) else Some (s8 a - s8 b)
      | O => Some (s8 a - s8 b)
      end
  | _, _ => None
  end.
Definition ulib_strncmp (s1 s2 : list Z) (n : Z) : option Z :=
  if n =? 0 then Some 0 else strncmp_loop (Z.to_nat (n - 1)) s1 s2.

Definition ulib_strcpy (dest src : list Z) : option (list Z) := strcpy_loop dest 0 src.
Definition ulib_strcat (dest src : list Z) : option (list Z) :=
  n ← ulib_strlen dest; strcpy_loop dest n src.

Fixpoint ulib_startswith (s prefix : list Z) : option bool :=
  match prefix with
  | [] => None
  | p :: prefix =>
      if p =? 0 then Some true
      else match s with [] => None | c :: s => if c =? p then ulib_startswith s prefix else Some false end
  end.

(** The inner loop of [ulib_strstr]: does the needle end first? *)
Fixpoint prefix_here (h n : list Z) : option bool :=
  match n with
  | [] => None
  | c :: n' =>
      match h with
      | [] => None
      | d :: h' =>
          if negb (d =? 0) && negb (c =? 0) && (d =? c) then prefix_here h' n' else Some (c =? 0)
      end
  end.

(** The distance of the first occurrence, or -1 for NULL *)
Fixpoint strstr_loop (h n : list Z) (i : Z) : option Z :=
  match h, n with
  | d :: h', c :: _ =>
      if d =? 0 then Some (-1)
      else if d =? c then
        b ← prefix_here h n;
        if (b : bool) then Some i else strstr_loop h' n (i + 1)
      else strstr_loop h' n (i + 1)
  | _, _ => None
  end.
Definition ulib_strstr (h n : list Z) : option Z :=
  match n with [] => None | c :: _ => if c =? 0 then Some 0 else strstr_loop h n 0 end.

Definition ulib_memcpy (dest src : list Z) (n : nat) : option (list Z) := memory_copy src dest n.
Definition ulib_memset (s : list Z) (c : Z) (n : nat) : option (list Z) := memory_set s c n.

(** [while (n > 0) { temp[j++] = '0' + n % 10; n /= 10; }]: the digits, last first *)
Fixpoint temp_digits (fuel : nat) (n : Z) : list Z :=
  match fuel with
  | O => []
  | S fuel => if 0 <? n then (48 + n mod 10) :: temp_digits fuel (n / 10) else []
  end.

(** [-n] of the smallest integer wraps, so that it has no digits. *)
Definition ulib_int_to_str (n : Z) (s : list Z) : option (list Z) :=
  let m := if n <? 0 then s32 (- n) else n in
  let out := if m =? 0 then [48] else (if n <? 0 then [45] else []) ++ rev (temp_digits 10 m) in
  strcpy_loop s 0 (out ++ [0]).

Definition hex_chars : list Z := str "0123456789abcdef"%string.
Fixpoint u64_hex_loop (k : nat) (val : Z) (buf : list Z) : option (list Z) :=
  match k with
  | O => Some buf
  | S k =>
      c ← zlookup hex_chars (Z.land val 15);
      buf ← zset buf (Z.of_nat k) c;
      u64_hex_loop k (Z.shiftr val 4) buf
  end.
Definition ulib_u64_to_hex (val : Z) (buf : list Z) : option (list Z) :=
  buf ← u64_hex_loop 16 val buf; zset buf 16 0.

(** 32-bit arithmetic *)
Fixpoint str_to_int_loop (s : list Z) (result : Z) : option Z :=
  match s with
  | [] => None
  | c :: s => if (48 <=? c) && (c <=? 57) then str_to_int_loop s (s32 (s32 (result * 10) + (c - 48))) else Some result
  end.
Definition ulib_str_to_int (s : list Z) : option Z :=
  match s with
  | [] => None
  | c :: s' => if c =? 45 then r ← str_to_int_loop s' 0; Some (s32 (- r)) else str_to_int_loop s 0
  end.

Definition ulib_u64_to_dec (val : Z) (buf : list Z) : option (list Z) :=
  let out := if val =? 0 then [48] else rev (temp_digits 20 val) in
  strcpy_loop buf 0 (out ++ [0]).

(** ** Properties *)

(** The needle [n] occurs in [h] at distance [i]. *)
Definition occurs (n h : list Z) (i : nat) : Prop := ∃ rest, drop i h = n ++ rest.

Lemma prefix_here_spec n : ∀ h rh rn, 0 ∉ n → 0 ∉ h → ∃ b, prefix_here (h ++ 0 :: rh) (n ++ 0 :: rn) = Some b ∧ (b = true ↔ ∃ rest, h = n ++ rest).
Proof.
  induction n as [|c n IH]; intros h rh rn Hn Hh; cbn [app prefix_here].
  { assert (∃ d t, h ++ 0 :: rh = d :: t) as (d & t & ->) by (destruct h; cbn; eauto). exists true. split; [cbn [prefix_here]; change (0 =? 0) with true; cbn [negb]; by rewrite andb_false_r|]. split; [by exists h|done]. }
  apply not_elem_of_cons in Hn as [Hc Hn]. assert ((c =? 0) = false) as Ec by (apply Z.eqb_neq; lia).
  destruct h as [|d h]; cbn [app prefix_here]; rewrite Ec; [exists false; split; [done|split; [done|intros (rest & [=])]]|].
  apply not_elem_of_cons in Hh as [Hd Hh]. replace (d =? 0) with false by (symmetry; apply Z.eqb_neq; lia). cbn [negb andb].
  destruct (d =? c) eqn:E; zify_bool; [subst d|exists false; split; [done|split; [done|intros (rest & [=])]]; congruence].
  destruct (IH h rh rn Hn Hh) as (b & Eb & Hb). exists b. split; [done|]. rewrite Hb. split; intros (rest & Hr); exists rest; [by rewrite Hr|by injection Hr].
Qed.

Lemma strstr_loop_spec n rn rh : n ≠ [] → 0 ∉ n → ∀ h i, 0 ∉ h → 0 ≤ i →
  ∃ r, strstr_loop (h ++ 0 :: rh) (n ++ 0 :: rn) i = Some r ∧
    ((r = -1 ∧ ∀ j, ¬ occurs n h j) ∨ ∃ j, r = i + Z.of_nat j ∧ occurs n h j ∧ ∀ j', (j' < j)%nat → ¬ occurs n h j').
Proof.
  intros Hne Hn. destruct n as [|c n]; [done|]. clear Hne. induction h as [|d h IH]; intros i Hh Hi; cbn [app strstr_loop].
  { exists (-1). change (0 =? 0) with true. split; [done|]. left. split; [done|]. intros j (rest & E). by destruct j. }
  apply not_elem_of_cons in Hh as [Hd Hh]. replace (d =? 0) with false by (symmetry; apply Z.eqb_neq; lia).
  destruct (IH (i + 1) Hh ltac:(lia)) as (r & Er & Hr). cbn [app] in Er.
  destruct (prefix_here_spec (c :: n) (d :: h) rh rn Hn) as (b & Eb & Hb); [apply not_elem_of_cons; by split|].
  assert (∀ j, occurs (c :: n) (d :: h) (S j) ↔ occurs (c :: n) h j) as HS by (intros j; done).
  assert (occurs (c :: n) (d :: h) 0 ↔ b = true) as H0 by (rewrite Hb; done).
  assert (b = false → ∃ r', Some r = Some r' ∧ ((r' = -1 ∧ ∀ j, ¬ occurs (c :: n) (d :: h) j) ∨
      ∃ j, r' = i + Z.of_nat j ∧ occurs (c :: n) (d :: h) j ∧ ∀ j', (j' < j)%nat → ¬ occurs (c :: n) (d :: h) j')) as Hnext.
  { intros Eb'. exists r. split; [done|]. destruct Hr as [[-> Hno]|(j & -> & Ho & Hmin)].
    - left. split; [done|]. intros [|j]; [rewrite H0; congruence|apply HS in Hno || (rewrite HS; apply Hno)].
    - right. exists (S j). split; [lia|]. split; [by apply HS|]. intros [|j'] Hj; [rewrite H0; congruence|rewrite HS; apply Hmin; lia]. }
  destruct (d =? c) eqn:E.
  - cbn [app] in Eb. rewrite Eb. cbn. destruct b; [|rewrite Er; by apply Hnext].
    exists i. split; [done|]. right. exists 0%nat. split; [lia|]. split; [by apply H0|lia].
  - rewrite Er. apply Hnext. destruct b; [|done]. destruct Hb as [Hb _]. destruct (Hb eq_refl) as (rest & [= -> _]). by rewrite Z.eqb_refl in E.
Qed.

(** [ulib_strstr] returns the first occurrence of the needle in the
    haystack, at distance 0 for an empty needle, and NULL exactly when there is
    none; it reads neither string past its NUL. *)
Theorem ulib_strstr_ok h n rh rn : 0 ∉ h → 0 ∉ n → ∃ r, ulib_strstr (h ++ 0 :: rh) (n ++ 0 :: rn) = Some r ∧
  ((r = -1 ∧ ∀ j, ¬ occurs n h j) ∨ ∃ j, r = Z.of_nat j ∧ occurs n h j ∧ ∀ j', (j' < j)%nat → ¬ occurs n h j').
Proof.
  intros Hh Hn. destruct n as [|c n]; cbn [app ulib_strstr].
  { exists 0. split; [done|]. right. exists 0%nat. split; [done|]. split; [by exists h|lia]. }
  pose proof Hn as Hn'. apply not_elem_of_cons in Hn as [Hc Hn]. replace (c =? 0) with false by (symmetry; apply Z.eqb_neq; lia).
  destruct (strstr_loop_spec (c :: n) rn rh ltac:(done) Hn' h 0 Hh ltac:(lia)) as (r & E & H). exists r. by split.
Qed.

Lemma ulib_strstr_ok_witness : ∃ r, ulib_strstr (str "cat /ETC/HISTORY"%string ++ [0]) (str "/ETC"%string ++ [0]) = Some r ∧
  ((r = -1 ∧ ∀ j, ¬ occurs (str "/ETC"%string) (str "cat /ETC/HISTORY"%string) j) ∨
   ∃ j, r = Z.of_nat j ∧ occurs (str "/ETC"%string) (str "cat /ETC/HISTORY"%string) j ∧ ∀ j', (j' < j)%nat → ¬ occurs (str "/ETC"%string) (str "cat /ETC/HISTORY"%string) j').
Proof. apply ulib_strstr_ok; apply (bool_decide_unpack _); by vm_compute. Defined.

(** ** Numbers *)

Lemma temp_digits_value fuel : ∀ n, 0 ≤ n < 10 ^ Z.of_nat fuel → Forall (λ c, 48 ≤ c < 58) (temp_digits fuel n) ∧
  le_value 10 (map (λ c, c - 48) (temp_digits fuel n)) = n ∧ (0 < n → temp_digits fuel n ≠ []) ∧ (length (temp_digits fuel n) ≤ fuel)%nat.
Proof.
  induction fuel as [|fuel IH]; intros n Hn; cbn [temp_digits]; [cbn in Hn; replace n with 0 by lia; repeat split; [constructor|lia|cbn; lia]|].
  destruct (0 <? n) eqn:E; zify_bool; [|replace n with 0 by lia; repeat split; [constructor|lia|cbn; lia]].
  rewrite Nat2Z.inj_succ, Z.pow_succ_r in Hn by lia. pose proof (Z.mod_pos_bound n 10). pose proof (Z.div_mod n 10 ltac:(lia)).
  destruct (IH (n / 10)) as (F & V & N & L); [split; [apply Z.div_pos; lia|apply Z.div_lt_upper_bound; lia]|].
  split; [constructor; [lia|done]|]. cbn [map le_value length]. rewrite V. split; [lia|]. split; [done|lia].
Qed.

(** Reading digits, most significant first *)
Definition be_value (ds : list Z) (acc : Z) : Z := fold_left (λ v c, v * 10 + (c - 48)) ds acc.
Lemma be_value_mono ds : ∀ acc, Forall (λ c, 48 ≤ c < 58) ds → 0 ≤ acc → acc ≤ be_value ds acc.
Proof.
  induction ds as [|c ds IH]; intros acc F Ha; [done|]. apply Forall_cons in F as [Hc F]. unfold be_value. cbn [fold_left].
  specialize (IH (acc * 10 + (c - 48)) F ltac:(lia)). unfold be_value in IH. lia.
Qed.
Lemma be_value_rev ds : be_value (rev ds) 0 = le_value 10 (map (λ c, c - 48) ds).
Proof. unfold be_value. induction ds as [|d ds IH]; [done|]. cbn [rev map le_value]. rewrite fold_left_app. cbn [fold_left]. rewrite IH. lia. Qed.

Lemma str_to_int_loop_spec ds rest : ∀ acc, Forall (λ c, 48 ≤ c < 58) ds → 0 ≤ acc → be_value ds acc < 2147483648 →
  str_to_int_loop (ds ++ 0 :: rest) acc = Some (be_value ds acc).
Proof.
  induction ds as [|c ds IH]; intros acc F Ha Hb; [done|]. apply Forall_cons in F as [Hc F]. cbn [app str_to_int_loop].
  replace ((48 <=? c) && (c <=? 57)) with true by (symmetry; apply andb_true_iff; rewrite !Z.leb_le; lia).
  unfold be_value in Hb. cbn [fold_left] in Hb. pose proof (be_value_mono ds (acc * 10 + (c - 48)) F ltac:(lia)) as HM. unfold be_value in HM.
  rewrite (s32_small (acc * 10)), s32_small by lia. by apply IH; [|lia|].
Qed.

Lemma strcpy_zero out buf : 0 ∉ out → (length out < length buf)%nat → ∃ rest, strcpy_loop buf 0 (out ++ [0]) = Some (out ++ 0 :: rest).
Proof.
  intros H0 Hl. pose proof (strcpy_loop_fits out [] [] buf H0 Hl) as E. cbn [app length] in E. exists (drop (S (length out)) buf). exact E.
Qed.

Lemma int_to_str_run n buf : -2147483648 < n < 2147483648 → (12 ≤ length buf)%nat →
  ∃ s rest, ulib_int_to_str n buf = Some (s ++ 0 :: rest) ∧ (length s ≤ 11)%nat ∧ (0 ∉ s) ∧ ulib_str_to_int (s ++ 0 :: rest) = Some n.
Proof.
  intros Hn Hl. unfold ulib_int_to_str. set (m := if n <? 0 then s32 (- n) else n).
  assert (m = Z.abs n) as -> by (unfold m; destruct (Z.ltb_spec n 0); [rewrite s32_small by lia|]; lia).
  destruct (temp_digits_value 10 (Z.abs n)) as (F & V & N & L); [change (10 ^ Z.of_nat 10) with 10000000000; lia|].
  set (ds := temp_digits 10 (Z.abs n)) in *. clearbody ds. pose proof (Forall_rev F) as Fr.
  assert (0 ∉ rev ds) as N0 by (intros H; rewrite Forall_forall in Fr; apply Fr in H; lia).
  destruct (Z.abs n =? 0) eqn:E0; zify_bool.
  { assert (n = 0) as -> by lia. destruct (strcpy_zero [48] buf) as [rest E]; [apply (bool_decide_unpack _); by vm_compute|cbn; lia|].
    exists [48], rest. split; [exact E|]. split; [cbn; lia|]. split; [apply (bool_decide_unpack _); by vm_compute|done]. }
  assert (be_value (rev ds) 0 = Z.abs n) as VB by (by rewrite be_value_rev).
  destruct (Z.ltb_spec n 0) as [Hneg|Hpos].
  - destruct (strcpy_zero (45 :: rev ds) buf) as [rest E]; [rewrite not_elem_of_cons; split; [lia|done]|cbn; rewrite length_rev; lia|].
    exists (45 :: rev ds), rest. split; [exact E|]. split; [cbn; rewrite length_rev; lia|]. split; [apply not_elem_of_cons; by split|]. cbn [app ulib_str_to_int]. change (45 =? 45) with true. cbn iota.
    rewrite str_to_int_loop_spec by (done || lia). cbn [mbind option_bind]. rewrite VB, s32_small by lia. f_equal. lia.
  - destruct (strcpy_zero (rev ds) buf) as [rest E]; [done|rewrite length_rev; lia|]. exists (rev ds), rest. split; [exact E|]. split; [rewrite length_rev; lia|]. split; [done|].
    assert (ulib_str_to_int (rev ds ++ 0 :: rest) = str_to_int_loop (rev ds ++ 0 :: rest) 0) as ->.
    { destruct (rev ds) as [|c l] eqn:Er; [by apply (f_equal length) in Er; rewrite length_rev in Er; destruct ds; [specialize (N ltac:(lia))|]|].
      cbn [app ulib_str_to_int]. apply Forall_cons in Fr as [Hc _]. by replace (c =? 45) with false by (symmetry; apply Z.eqb_neq; lia). }
    rewrite str_to_int_loop_spec by (done || lia). rewrite VB. f_equal. lia.
Qed.

(** What follows the NUL does not matter. *)
Lemma str_to_int_rest ds rest : ulib_str_to_int (ds ++ 0 :: rest) = ulib_str_to_int (ds ++ [0]).
Proof.
  assert (∀ l acc, str_to_int_loop (l ++ 0 :: rest) acc = str_to_int_loop (l ++ [0]) acc) as H.
  { induction l as [|c l IH]; intros acc; cbn [app str_to_int_loop]; [done|]. by rewrite IH. }
  destruct ds as [|c ds]; [done|]. cbn [app ulib_str_to_int]. destruct (c =? 45); [by rewrite H|exact (H (c :: ds) 0)].
Qed.

(** Numbers print and read back: for every 32-bit integer but the smallest,
    [ulib_int_to_str] writes at most twelve bytes, and [ulib_str_to_int] of the
    result is the number. *)
Theorem ulib_int_roundtrip n buf : -2147483648 < n < 2147483648 → (12 ≤ length buf)%nat →
  ∃ s rest, ulib_int_to_str n buf = Some (s ++ 0 :: rest) ∧ (length s ≤ 11)%nat ∧ ulib_str_to_int (s ++ 0 :: rest) = Some n.
Proof. intros Hn Hl. destruct (int_to_str_run n buf Hn Hl) as (s & rest & E & L & _ & R). by exists s, rest. Qed.

Lemma ulib_int_roundtrip_witness : ∃ s rest, ulib_int_to_str (-32768) (replicate 16 7) = Some (s ++ 0 :: rest) ∧ (length s ≤ 11)%nat ∧ ulib_str_to_int (s ++ 0 :: rest) = Some (-32768).
Proof. apply (ulib_int_roundtrip (-32768) (replicate 16 7)); cbn; lia. Defined.

(** The smallest integer prints as a lone minus sign. *)
Lemma ulib_int_min : ulib_int_to_str (-2147483648) (replicate 4 7) = Some [45; 0; 7; 7].
Proof. reflexivity. Qed.
