(* ===== verification/Shell.v ===== *)
(** * The user shell

    Models [user/sh/sh.c], one shell process.  What the kernel answers to a call
    is the parameter [os], a function of the calls made before and of the call:
    [fork] answers 0 in the run of the child.  The calls are logged, so that a
    run shows what the process asked for; [exit] and an [exec] that succeeds end
    the run ([Hang]).  [junk] is what an uninitialised array holds.

    A [char] array is a list of bytes and a write past its end is a fault, as in
    [Ulib].  A command line is passed as the list of bytes from the pointer to
    the end of its array; the callers do not read it afterwards. *)

From stdpp Require Import base numbers list strings.
From Stdlib Require Import ZArith Lia.
From S2P Require Import Prelude CString Ulib.

#[local] Open Scope Z_scope.
#[local] Open Scope kernel_scope.

(** ** The calls *)

Inductive ucall : Type :=
| Uopen (path : list Z) (flags : Z) | Uread (fd n : Z) | Uwrite (fd : Z) (data : list Z) | Uclose (fd : Z)
| Ulseek (fd off whence : Z) | Ustat (path : list Z) | Uchdir (path : list Z) | Ugetcwd (n : Z) | Uunlink (path : list Z)
| Ufork | Uexec (path : list Z) (argv : list (list Z)) | Uexit (code : Z) | Uwait | Ugetpid | Upipe | Udup2 (oldfd newfd : Z)
| Uprint (s : list Z) | Ugetc | Ugetline (max : Z) | Usigaction (sig : Z)
| Umkdir (path : list Z) | Ureaddir (path : list Z) (max : Z) | Uclear | Ugotoxy (col row : Z) | Usleep (ms : Z)
| Ups (max : Z) | Umemstat | Udebug_enabled | Uset_debug (on : Z) | Udevinfo (index : Z) | Umount (device path : list Z) | Uumount (path : list Z).

(** An answer: the value returned and the bytes (or descriptors) stored through
    the pointer passed *)
Definition answers : Type := list ucall → ucall → Z * list Z.

Definition UABI_KEY_UP : Z := 129.
Definition UABI_KEY_DOWN : Z := 130.
Definition UABI_KEY_LEFT : Z := 131.
Definition UABI_KEY_RIGHT : Z := 132.
Definition UABI_KEY_CTRL_LEFT : Z := 135.
Definition UABI_KEY_CTRL_RIGHT : Z := 136.
Definition UABI_O_RDONLY : Z := 0.
Definition UABI_O_WRONLY : Z := 1.
Definition UABI_O_CREAT : Z := 64.
Definition UABI_O_TRUNC : Z := 512.
Definition UABI_SEEK_SET : Z := 0.
Definition UABI_SEEK_CUR : Z := 1.
Definition UABI_SEEK_END : Z := 2.
Definition MAX_HISTORY : Z := 32.
Definition MAX_VARS : Z := 32.

(** ** State *)

Record sh_var := ShVar { v_name : list Z; v_value : list Z }.

Record shell := Shell {
  cwd : list Z;
  vars : list sh_var;
  num_vars : Z;
  history : list (list Z);           (** the first [history_count] strings *)
  history_current : Z;
  session_log_path : list Z;
  script_fd : Z;
  for_active : bool;
  for_var : list Z;
  for_vals : list Z;
  for_val_ptrs : list Z;             (** offsets in [for_vals], -1 for NULL *)
  for_num_vals : Z;
  for_curr_idx : Z;
  for_body_pos : Z;
  if_depth : Z;
  if_active : list bool;
  sh_log : list ucall;               (** newest first *)
}.

Definition set_cwd (f : list Z) (s : shell) : shell :=
  Shell f (vars s) (num_vars s) (history s) (history_current s) (session_log_path s) (script_fd s) (for_active s) (for_var s) (for_vals s) (for_val_ptrs s) (for_num_vals s) (for_curr_idx s) (for_body_pos s) (if_depth s) (if_active s) (sh_log s).
Definition set_vars (v : list sh_var) (n : Z) (s : shell) : shell :=
  Shell (cwd s) v n (history s) (history_current s) (session_log_path s) (script_fd s) (for_active s) (for_var s) (for_vals s) (for_val_ptrs s) (for_num_vals s) (for_curr_idx s) (for_body_pos s) (if_depth s) (if_active s) (sh_log s).
Definition set_history (h : list (list Z)) (s : shell) : shell :=
  Shell (cwd s) (vars s) (num_vars s) h (history_current s) (session_log_path s) (script_fd s) (for_active s) (for_var s) (for_vals s) (for_val_ptrs s) (for_num_vals s) (for_curr_idx s) (for_body_pos s) (if_depth s) (if_active s) (sh_log s).
Definition set_history_current (h : Z) (s : shell) : shell :=
  Shell (cwd s) (vars s) (num_vars s) (history s) h (session_log_path s) (script_fd s) (for_active s) (for_var s) (for_vals s) (for_val_ptrs s) (for_num_vals s) (for_curr_idx s) (for_body_pos s) (if_depth s) (if_active s) (sh_log s).
Definition set_session (p : list Z) (s : shell) : shell :=
  Shell (cwd s) (vars s) (num_vars s) (history s) (history_current s) p (script_fd s) (for_active s) (for_var s) (for_vals s) (for_val_ptrs s) (for_num_vals s) (for_curr_idx s) (for_body_pos s) (if_depth s) (if_active s) (sh_log s).
Definition set_script_fd (fd : Z) (s : shell) : shell :=
  Shell (cwd s) (vars s) (num_vars s) (history s) (history_current s) (session_log_path s) fd (for_active s) (for_var s) (for_vals s) (for_val_ptrs s) (for_num_vals s) (for_curr_idx s) (for_body_pos s) (if_depth s) (if_active s) (sh_log s).
Definition set_for_active (b : bool) (s : shell) : shell :=
  Shell (cwd s) (vars s) (num_vars s) (history s) (history_current s) (session_log_path s) (script_fd s) b (for_var s) (for_vals s) (for_val_ptrs s) (for_num_vals s) (for_curr_idx s) (for_body_pos s) (if_depth s) (if_active s) (sh_log s).
Definition set_for_var (v : list Z) (s : shell) : shell :=
  Shell (cwd s) (vars s) (num_vars s) (history s) (history_current s) (session_log_path s) (script_fd s) (for_active s) v (for_vals s) (for_val_ptrs s) (for_num_vals s) (for_curr_idx s) (for_body_pos s) (if_depth s) (if_active s) (sh_log s).
Definition set_for_vals (v : list Z) (ps : list Z) (n : Z) (s : shell) : shell :=
  Shell (cwd s) (vars s) (num_vars s) (history s) (history_current s) (session_log_path s) (script_fd s) (for_active s) (for_var s) v ps n (for_curr_idx s) (for_body_pos s) (if_depth s) (if_active s) (sh_log s).
Definition set_for_curr_idx (i : Z) (s : shell) : shell :=
  Shell (cwd s) (vars s) (num_vars s) (history s) (history_current s) (session_log_path s) (script_fd s) (for_active s) (for_var s) (for_vals s) (for_val_ptrs s) (for_num_vals s) i (for_body_pos s) (if_depth s) (if_active s) (sh_log s).
Definition set_for_body_pos (i : Z) (s : shell) : shell :=
  Shell (cwd s) (vars s) (num_vars s) (history s) (history_current s) (session_log_path s) (script_fd s) (for_active s) (for_var s) (for_vals s) (for_val_ptrs s) (for_num_vals s) (for_curr_idx s) i (if_depth s) (if_active s) (sh_log s).
Definition set_ifs (d : Z) (a : list bool) (s : shell) : shell :=
  Shell (cwd s) (vars s) (num_vars s) (history s) (history_current s) (session_log_path s) (script_fd s) (for_active s) (for_var s) (for_vals s) (for_val_ptrs s) (for_num_vals s) (for_curr_idx s) (for_body_pos s) d a (sh_log s).
Definition set_log (l : list ucall) (s : shell) : shell :=
  Shell (cwd s) (vars s) (num_vars s) (history s) (history_current s) (session_log_path s) (script_fd s) (for_active s) (for_var s) (for_vals s) (for_val_ptrs s) (for_num_vals s) (for_curr_idx s) (for_body_pos s) (if_depth s) (if_active s) l.

(** The initial contents of the static variables *)
Definition sh_init : shell :=
  Shell (47 :: replicate 255 0) (replicate 32 (ShVar (replicate 32 0) (replicate 128 0))) 0 [] (-1) [] (-1)
    false [] (replicate 128 0) (replicate 16 (-1)) 0 0 0 0 (replicate 8 false) [].

(** ** C strings *)

Definition lit (s : string) : list Z := str s ++ [0].
Definition lit_nl (s : string) : list Z := str s ++ [10; 0].
(** The bytes before the NUL *)
Fixpoint cstr (s : list Z) : option (list Z) :=
  match s with
  | [] => None
  | c :: s => if c =? 0 then Some [] else r ← cstr s; Some (c :: r)
  end.
Definition lift {S A} (o : option A) : kM S A := kget_opt (λ _, o).
Definition from {A} (s : list A) (off : Z) : list A := drop (Z.to_nat off) s.

Section shell.
Context (os : answers) (junk : nat → list Z).

Definition call (c : ucall) : kM shell (Z * list Z) := λ s, Ret (os (sh_log s) c) (set_log (c :: sh_log s) s).
Definition call_ (c : ucall) : kM shell Z := let* r := call c in kret r.1.
Definition on_path {A} (f : list Z → ucall) (path : list Z) (k : Z → kM shell A) : kM shell A :=
  let* p := lift (cstr path) in let* r := call_ (f p) in k r.
(** At most [n] bytes are stored. *)
Definition uabi_read (fd n : Z) : kM shell (Z * list Z) :=
  let* r := call (Uread fd n) in
  if r.1 <? 0 then kret (r.1, []) else let d := take (Z.to_nat n) r.2 in kret (Z.of_nat (length d), d).
Definition uabi_exit {A} (code : Z) : kM shell A := call (Uexit code) ;;; khang.
Definition uabi_pipe : kM shell (Z * Z * Z) :=
  let* r := call Upipe in
  match r.2 with p0 :: p1 :: _ => kret (r.1, p0, p1) | _ => kret (r.1, 0, 0) end.

Definition ulib_print (s : list Z) : kM shell unit :=
  let* len := lift (ulib_strlen s) in
  if 0 <? len then call (Uwrite 1 (take (Z.to_nat len) s)) ;;; kret tt else kret tt.
Definition print_one (c : Z) : kM shell unit := ulib_print [c; 0].

(** ** Variables *)

Fixpoint find_var (vs : list sh_var) (n : nat) (name : list Z) (i : Z) {struct n} : option (option Z) :=
  match n with
  | O => Some None
  | S n =>
      match vs with
      | [] => None
      | v :: vs => r ← ulib_strcmp (v_name v) name; if r =? 0 then Some (Some i) else find_var vs n name (i + 1)
      end
  end.

Definition set_sh_var (name value : list Z) : kM shell unit :=
  let* s := kget in
  let* o := lift (find_var (vars s) (Z.to_nat (num_vars s)) name 0) in
  match o with
  | Some i =>
      let* v := lift (zlookup (vars s) i) in
      let* b := lift (ulib_strcpy (v_value v) value) in
      let* vs := lift (zset (vars s) i (ShVar (v_name v) b)) in
      kmodify (set_vars vs (num_vars s))
  | None =>
      if num_vars s <? MAX_VARS then
        let* v := lift (zlookup (vars s) (num_vars s)) in
        let* a := lift (ulib_strcpy (v_name v) name) in
        let* b := lift (ulib_strcpy (v_value v) value) in
        let* vs := lift (zset (vars s) (num_vars s) (ShVar a b)) in
        kmodify (set_vars vs (num_vars s + 1))
      else kret tt
  end.

Definition get_sh_var (s : shell) (name : list Z) : option (list Z) :=
  o ← find_var (vars s) (Z.to_nat (num_vars s)) name 0;
  match o with
  | Some i => v ← zlookup (vars s) i; Some (v_value v)
  | None => Some [0]
  end.

Definition name_char (c : Z) : bool :=
  ((97 <=? c) && (c <=? 122)) || ((65 <=? c) && (c <=? 90)) || ((48 <=? c) && (c <=? 57)) || (c =? 95).
(** The characters of the name and the rest of the line *)
Fixpoint scan_name (line : list Z) : option (list Z * list Z) :=
  match line with
  | [] => None
  | c :: line' => if negb (c =? 0) && name_char c then r ← scan_name line'; Some (c :: r.1, r.2) else Some ([], line)
  end.

(** [while ( *val && e_idx < 511) expanded[e_idx++] = *val++], with what was put
    in [expanded] so far *)
Fixpoint put_value (expanded val : list Z) : option (list Z) :=
  match val with
  | [] => None
  | c :: val => if negb (c =? 0) && (Z.of_nat (length expanded) <? 511) then put_value (expanded ++ [c]) val else Some expanded
  end.

(** After a [$]: the rest of the line and [expanded]; [var_name[32]] is filled
    without a bound. *)
Definition expand_name (s : shell) (line expanded : list Z) : option (list Z * list Z) :=
  c1 ← head line;
  nr ← (if c1 =? 63 then Some ([63], tail line) else scan_name line);
  if Z.of_nat (length nr.1) <? 32 then
    val ← get_sh_var s (nr.1 ++ [0]);
    expanded ← put_value expanded val;
    Some (nr.2, expanded)
  else None.

(** A character copied may pass the end of [expanded[512]]. *)
Fixpoint expand_loop (fuel : nat) (s : shell) (line expanded : list Z) : option (list Z) :=
  match fuel with
  | O => None
  | S fuel =>
      match line with
      | [] => None
      | c :: line =>
          if c =? 0 then Some expanded
          else
            c1 ← head line;
            if (c =? 36) && negb (c1 =? 40) then
              re ← expand_name s line expanded;
              expand_loop fuel s re.1 re.2
            else if Z.of_nat (length expanded) <? 512 then expand_loop fuel s line (expanded ++ [c]) else None
      end
  end.
Definition expand_variables (s : shell) (line : list Z) : option (list Z) :=
  expanded ← expand_loop (S (length line)) s line [];
  if Z.of_nat (length expanded) <? 512 then ulib_strcpy line (expanded ++ [0]) else None.

Definition print_prompt : kM shell unit :=
  ulib_print (lit "(sh64:") ;;; (let* s := kget in ulib_print (cwd s)) ;;; ulib_print (lit ")> ").

Definition cmd_cd (path : list Z) : kM shell unit :=
  let* s := kget in
  let* c0 := lift (head path) in
  if c0 =? 0 then let* d := lift (ulib_strcpy (cwd s) (lit "/")) in kmodify (set_cwd d)
  else
    let* new_cwd := lift
      (if c0 =? 47 then ulib_strcpy (junk 256) path
       else
         b ← ulib_strcpy (junk 256) (cwd s);
         r ← ulib_strcmp (cwd s) (lit "/");
         b ← (if negb (r =? 0) then ulib_strcat b (lit "/") else Some b);
         ulib_strcat b path) in
    on_path Uchdir new_cwd (λ r,
      if r <? 0 then
        ulib_print (lit "cd: ") ;;; ulib_print path ;;; ulib_print (lit_nl ": No such file or directory")
      else
        let* g := call (Ugetcwd 256) in
        let d := take 256 g.2 in
        kmodify (set_cwd (d ++ drop (length d) (cwd s)))).

(** ** Running programs *)

(** One pass of the loop that splits a line at spaces: [in_word] tells which of
    the inner loops is at [s]; [off] is the offset of [s] and [max] the number of
    pointers left.  Gives the line with the spaces overwritten and the words. *)
Fixpoint split_words (max : nat) (in_word : bool) (off : Z) (s : list Z) : option (list Z * list Z) :=
  match s with
  | [] => None
  | c :: s' =>
      if in_word && negb (c =? 0) && negb (c =? 32) then r ← split_words max true (off + 1) s'; Some (c :: r.1, r.2)
      else if c =? 0 then Some (s, [])
      else
        match max with
        | O => Some (s, [])
        | S max' =>
            if c =? 32 then r ← split_words max false (off + 1) s'; Some (0 :: r.1, r.2)
            else r ← split_words max' true (off + 1) s'; Some (c :: r.1, off :: r.2)
        end
  end.

(** An element of [argv]: a word of the line, or the array [bin_path] *)
Inductive aptr : Type := Null | InLine (off : Z) | BinPath.
Definition deref (line bin_path : list Z) (p : aptr) : option (list Z) :=
  match p with Null => None | InLine o => cstr (from line o) | BinPath => cstr bin_path end.
(** The strings [exec] is passed, up to the first NULL *)
Fixpoint exec_argv (line bin_path : list Z) (argv : list aptr) : option (list (list Z)) :=
  match argv with
  | [] | Null :: _ => Some []
  | p :: argv => a ← deref line bin_path p; r ← exec_argv line bin_path argv; Some (a :: r)
  end.

(** [ulib_strcpy(line + off, src)] *)
Definition strcpy_at (line : list Z) (off : Z) (src : list Z) : option (list Z) :=
  b ← ulib_strcpy (from line off) src; Some (take (Z.to_nat off) line ++ b).

Definition try_resolve_bin (cmd : list Z) : kM shell (bool * list Z) :=
  let* out_path := lift (b ← ulib_strcpy (junk 256) (lit "/BIN/"); b ← ulib_strcat b cmd; ulib_strcat b (lit ".ELF")) in
  on_path Ustat out_path (λ r, kret (r =? 0, out_path)).

(** [uabi_exec(argv[0], argv); uabi_exit(1);] *)
Definition do_exec (line bin_path : list Z) (argv : list aptr) : kM shell unit :=
  let* path := lift (p ← head argv; deref line bin_path p) in
  let* args := lift (exec_argv line bin_path argv) in
  let* r := call_ (Uexec path args) in
  if r <? 0 then uabi_exit 1 else khang.

(** [int status = uabi_wait(); ...; set_sh_var("?", s);] *)
Definition wait_status : kM shell unit :=
  let* status := call_ Uwait in
  let* s := lift (ulib_int_to_str status (junk 16)) in
  set_sh_var (lit "?") s.

Definition not_found (msg : string) : kM shell unit :=
  ulib_print (lit_nl msg) ;;; set_sh_var (lit "?") (lit "127").

Definition cmd_exec (line : list Z) (argv : list Z) (resolvable : bool) : kM shell unit :=
  match argv with
  | [] => kret tt
  | a0 :: _ =>
      let* found :=
        (if resolvable then kret (Some line)
         else
           let* c := lift (zlookup line a0) in
           if c =? 47 then
             on_path Ustat (from line a0) (λ r,
               if negb (r =? 0) then
                 let* b := lift (b ← ulib_strcpy (junk 256) (from line a0); ulib_strcat b (lit ".ELF")) in
                 on_path Ustat b (λ r,
                   if r =? 0 then let* l := lift (strcpy_at line a0 b) in kret (Some l) else kret None)
               else kret (Some line))
           else
             let* rb := try_resolve_bin (from line a0) in
             if rb.1 then let* l := lift (strcpy_at line a0 rb.2) in kret (Some l) else kret None) in
      match found with
      | None => not_found "exec: command not found"
      | Some line =>
          let* pid := call_ Ufork in
          if pid =? 0 then do_exec line [] (map InLine argv)
          else if 0 <? pid then wait_status else kret tt
      end
  end.

(** ** Conditions *)

Fixpoint ltrim (s : list Z) : list Z := match s with c :: s' => if c =? 32 then ltrim s' else s | [] => [] end.
Definition rtrim (s : list Z) : list Z := rev (ltrim (rev s)).
(** The first [" == "] (true) or [" != "] (false), what is before and after it *)
Fixpoint find_op (pre c : list Z) : option (bool * list Z * list Z) :=
  match c with
  | [] => None
  | x :: c' =>
      if bool_decide (take 4 c = str " == ") then Some (true, pre, drop 4 c)
      else if bool_decide (take 4 c = str " != ") then Some (false, pre, drop 4 c)
      else find_op (pre ++ [x]) c'
  end.
(** At most [n] characters up to a space *)
Fixpoint take_word (n : nat) (s : list Z) : list Z * list Z :=
  match n, s with
  | S n, c :: s' => if c =? 32 then ([], s) else let r := take_word n s' in (c :: r.1, r.2)
  | _, _ => ([], s)
  end.
(** The C string [cond]; [part2[128]] is filled without a bound. *)
Definition if_condition (cond : list Z) : option bool :=
  match find_op [] cond with
  | Some (eqeq, pre, post) =>
      if Z.of_nat (length post) <? 128 then
        r ← ulib_strcmp (rtrim (ltrim (take 127 pre)) ++ [0]) (rtrim (ltrim post) ++ [0]);
        Some (if eqeq then r =? 0 else negb (r =? 0))
      else None
  | None =>
      let '(part1, p) := take_word 127 cond in
      let '(op, p) := take_word 3 (ltrim p) in
      let part2 := take 127 (ltrim p) in
      o ← ulib_strcmp (op ++ [0]) (lit "==");
      if o =? 0 then r ← ulib_strcmp (part1 ++ [0]) (part2 ++ [0]); Some (r =? 0)
      else
        o ← ulib_strcmp (op ++ [0]) (lit "!=");
        if o =? 0 then r ← ulib_strcmp (part1 ++ [0]) (part2 ++ [0]); Some (negb (r =? 0)) else Some false
  end.

(** ** One command *)

Definition starts (line : list Z) (kw : string) (n : Z) : kM shell bool :=
  let* r := lift (ulib_strncmp line (lit kw) n) in kret (r =? 0).
Definition equals (line : list Z) (kw : string) : kM shell bool :=
  let* r := lift (ulib_strcmp line (lit kw)) in kret (r =? 0).
Definition set_status (v : string) : kM shell unit := set_sh_var (lit "?") (lit v).

(** In a branch not taken *)
Definition skip_line (line : list Z) : kM shell unit :=
  let* s := kget in
  let d := if_depth s in
  let* e := starts line "else" 4 in
  if e then let* a := lift (zset (if_active s) (d - 1) true) in kmodify (set_ifs d a)
  else
    let* e := starts line "endif" 5 in
    if e then kmodify (set_ifs (d - 1) (if_active s))
    else
      let* e := starts line "if " 3 in
      if e then let* a := lift (zset (if_active s) d false) in kmodify (set_ifs (d + 1) a)
      else kret tt.

Definition do_if (line : list Z) : kM shell unit :=
  let* s := kget in
  let* res := lift (c ← cstr (from line 3); if_condition c) in
  if if_depth s <? 8 then
    let* a := lift (zset (if_active s) (if_depth s) res) in kmodify (set_ifs (if_depth s + 1) a)
  else kret tt.

Definition do_else : kM shell unit :=
  let* s := kget in
  if 0 <? if_depth s then
    let* b := lift (zlookup (if_active s) (if_depth s - 1)) in
    let* a := lift (zset (if_active s) (if_depth s - 1) (negb b)) in
    kmodify (set_ifs (if_depth s) a)
  else kret tt.

Definition do_endif : kM shell unit :=
  let* s := kget in
  if 0 <? if_depth s then kmodify (set_ifs (if_depth s - 1) (if_active s)) else kret tt.

(** [set_sh_var(for_var, for_val_ptrs[i])] *)
Definition set_for_value (i : Z) : kM shell unit :=
  let* s := kget in
  let* off := lift (zlookup (for_val_ptrs s) i) in
  if off <? 0 then kfault else set_sh_var (for_var s ++ [0]) (from (for_vals s) off).

Definition do_for (line : list Z) : kM shell unit :=
  let* l := lift (cstr (from line 4)) in
  let '(var, p) := take_word 31 l in
  kmodify (set_for_var var) ;;;
  let p := ltrim p in
  let* b := starts (p ++ [0]) "in " 3 in
  if b then
    let* s := kget in
    let* vals := lift (ulib_strcpy (for_vals s) (from p 3 ++ [0])) in
    let* r := lift (split_words 16 false 0 vals) in
    kmodify (set_for_vals r.1 (r.2 ++ drop (length r.2) (for_val_ptrs s)) (Z.of_nat (length r.2))) ;;;
    kmodify (set_for_curr_idx 0) ;;;
    kmodify (set_for_active true) ;;;
    set_for_value 0
  else kret tt.

Definition do_do : kM shell unit :=
  let* s := kget in
  if for_active s && (0 <=? script_fd s) then
    let* pos := call_ (Ulseek (script_fd s) 0 UABI_SEEK_CUR) in kmodify (set_for_body_pos pos)
  else kret tt.

Definition do_done : kM shell unit :=
  let* s := kget in
  if for_active s then
    let i := for_curr_idx s + 1 in
    kmodify (set_for_curr_idx i) ;;;
    if (i <? for_num_vals s) && (0 <=? script_fd s) then
      set_for_value i ;;;
      call_ (Ulseek (script_fd s) (for_body_pos s) UABI_SEEK_SET) ;;; kret tt
    else kmodify (set_for_active false)
  else kret tt.

(** ** Command substitution *)

Fixpoint capture_loop (fuel : nat) (fd max : Z) (out : list Z) : kM shell (list Z) :=
  match fuel with
  | O => λ _, NoFuel
  | S fuel =>
      let total := Z.of_nat (length out) in
      if total <? max - 1 then
        let* r := uabi_read fd (max - 1 - total) in
        if r.1 <=? 0 then kret out else capture_loop fuel fd max (out ++ r.2)
      else kret out
  end.
Fixpoint trim_newlines (rev_out : list Z) : list Z :=
  match rev_out with
  | c :: r => if (c =? 10) || (c =? 13) then trim_newlines r else rev_out
  | [] => []
  end.
(** Gives the array [output[max]], as far as its NUL. *)
Definition capture_output (run : list Z → kM shell unit) (command : list Z) (max : Z) : kM shell (list Z) :=
  let* p := uabi_pipe in
  let '(r, p0, p1) := p in
  if r <? 0 then kret (junk (Z.to_nat max))
  else
    let* pid := call_ Ufork in
    (if pid =? 0 then
       call_ (Udup2 p1 1) ;;; call_ (Uclose p0) ;;; call_ (Uclose p1) ;;; run command ;;; uabi_exit 0
     else kret tt) ;;;
    call_ (Uclose p1) ;;;
    let* out := capture_loop (Z.to_nat max) p0 max [] in
    call_ (Uclose p0) ;;; call_ Uwait ;;;
    kret (rev (trim_newlines (rev out)) ++ [0]).

(** ** History *)

Fixpoint save_lines (fd : Z) (h : list (list Z)) : kM shell unit :=
  match h with
  | [] => kret tt
  | l :: h => call_ (Uwrite fd l) ;;; call_ (Uwrite fd [10]) ;;; save_lines fd h
  end.
Definition history_save : kM shell unit :=
  let* fd := call_ (Uopen (str "/ETC/HISTORY") (Z.lor UABI_O_CREAT (Z.lor UABI_O_WRONLY UABI_O_TRUNC))) in
  if fd <? 0 then kret tt
  else (let* s := kget in save_lines fd (history s)) ;;; call_ (Uclose fd) ;;; kret tt.

(** A line of the file: the bytes before the newline, the end or the 256th
    character, and the last value of [bytes] *)
Fixpoint load_line (fuel : nat) (fd : Z) (line : list Z) : kM shell (Z * list Z) :=
  match fuel with
  | O => λ _, NoFuel
  | S fuel =>
      let* r := uabi_read fd 1 in
      match r.2 with
      | c :: _ => if negb (c =? 10) && (Z.of_nat (length line) <? 255) then load_line fuel fd (line ++ [c]) else kret (r.1, line)
      | [] => kret (r.1, line)
      end
  end.
Fixpoint load_lines (fuel : nat) (fd : Z) : kM shell unit :=
  match fuel with
  | O => λ _, NoFuel
  | S fuel =>
      let* s := kget in
      if Z.of_nat (length (history s)) <? MAX_HISTORY then
        let* r := load_line 257 fd [] in
        if (r.1 <=? 0) && (Z.of_nat (length r.2) =? 0) then kret tt
        else
          let* l := lift (cstr (r.2 ++ [0])) in
          (if 0 <? Z.of_nat (length r.2) then kmodify (set_history (history s ++ [l])) else kret tt) ;;;
          load_lines fuel fd
      else kret tt
  end.
Definition history_load (fuel : nat) : kM shell unit :=
  let* fd := call_ (Uopen (str "/ETC/HISTORY") UABI_O_RDONLY) in
  if fd <? 0 then kret tt else load_lines fuel fd ;;; call_ (Uclose fd) ;;; kret tt.

Definition append_session (path cmd : list Z) : kM shell unit :=
  let* fd := call_ (Uopen path (Z.lor UABI_O_CREAT UABI_O_WRONLY)) in
  if 0 <=? fd then
    call_ (Ulseek fd 0 UABI_SEEK_END) ;;; call_ (Uwrite fd cmd) ;;; call_ (Uwrite fd [10]) ;;; call_ (Uclose fd) ;;; kret tt
  else kret tt.

(** The C string [cmd] enters the history: [history[i][256]], the oldest line
    leaves when all are taken. *)
Definition history_add (cmd : list Z) : kM shell unit :=
  match cmd with
  | [] => kret tt
  | _ =>
      let* r := lift (ulib_strstr (cmd ++ [0]) (lit "/ETC/HISTORY")) in
      if 0 <=? r then kret tt
      else
        let* r := lift (ulib_strstr (cmd ++ [0]) (lit "/etc/history")) in
        if 0 <=? r then kret tt
        else
          let* s := kget in
          (match session_log_path s with [] => kret tt | p => append_session p cmd end) ;;;
          let h := history s in
          let* same := lift (match last h with None => Some false | Some l => r ← ulib_strcmp (l ++ [0]) (cmd ++ [0]); Some (r =? 0) end) in
          if same then kret tt
          else if Z.of_nat (length cmd) <? 256 then
            kmodify (set_history (if Z.of_nat (length h) <? MAX_HISTORY then h ++ [cmd] else tail h ++ [cmd]))
          else kfault
  end.

(** ** The commands *)

Fixpoint print_args (line : list Z) (args : list Z) : kM shell unit :=
  match args with
  | [] => kret tt
  | a :: rest => ulib_print (from line a) ;;; (match rest with [] => kret tt | _ => ulib_print (lit " ") end) ;;; print_args line rest
  end.

(** The kernel stores the whole line it read. *)
Definition cmd_read (line : list Z) (args : list Z) : kM shell unit :=
  match args with
  | a :: _ =>
      let* g := call (Ugetline 128) in
      if Z.of_nat (length g.2) <? 129 then
        set_sh_var (from line a) (g.2 ++ drop (length g.2) (junk 128))
      else kfault
  | [] => call_ Ugetc ;;; kret tt
  end.

Definition redirect_to (fd newfd : Z) : kM shell unit :=
  if 0 <=? fd then call_ (Udup2 fd newfd) ;;; call_ (Uclose fd) ;;; kret tt else kret tt.
(** The redirections of [argv]; their file names stay behind the NULL. *)
Fixpoint redirect (line bin_path : list Z) (argv : list aptr) : kM shell (list aptr) :=
  match argv with
  | [] => kret []
  | Null :: rest => let* r := redirect line bin_path rest in kret (Null :: r)
  | p :: rest =>
      let* a := lift (deref line bin_path p) in
      match rest with
      | [] => kret [p]
      | q :: _ =>
          let* gt := equals (a ++ [0]) ">" in
          let* p' :=
            (if gt then
               let* name := lift (deref line bin_path q) in
               let* fd := call_ (Uopen name (Z.lor UABI_O_CREAT (Z.lor UABI_O_WRONLY UABI_O_TRUNC))) in
               redirect_to fd 1 ;;; kret Null
             else
               let* lt := equals (a ++ [0]) "<" in
               if lt then
                 let* name := lift (deref line bin_path q) in
                 let* fd := call_ (Uopen name UABI_O_RDONLY) in
                 redirect_to fd 0 ;;; kret Null
               else kret p) in
          let* r := redirect line bin_path rest in
          kret (p' :: r)
      end
  end.

(** A program: the line (a word may be overwritten), [bin_path] and [argv] *)
Definition run_program (line : list Z) (argv : list Z) : kM shell unit :=
  match argv with
  | [] => kret tt
  | a0 :: rest =>
      let* c := lift (zlookup line a0) in
      let* found :=
        (if c =? 47 then
           on_path Ustat (from line a0) (λ r,
             if r =? 0 then kret (Some (line, [], InLine a0))
             else
               let* b := lift (b ← ulib_strcpy (junk 256) (from line a0); ulib_strcat b (lit ".ELF")) in
               on_path Ustat b (λ r,
                 if r =? 0 then let* l := lift (strcpy_at line a0 b) in kret (Some (l, b, InLine a0)) else kret None))
         else
           let* rb := try_resolve_bin (from line a0) in
           kret (if rb.1 then Some (line, rb.2, BinPath) else None)) in
      match found with
      | None => not_found "sh: command not found"
      | Some (line, bin_path, p0) =>
          let* pid := call_ Ufork in
          if pid =? 0 then
            let* argv := redirect line bin_path (p0 :: map InLine rest) in do_exec line bin_path argv
          else if 0 <? pid then wait_status else kret tt
      end
  end.

Fixpoint find_char (x : Z) (s : list Z) (i : Z) : option Z :=
  match s with [] => None | c :: s => if c =? x then Some i else find_char x s (i + 1) end.

Definition builtins (line : list Z) (argv : list Z) : kM shell unit :=
  match argv with
  | [] => kret tt
  | a0 :: args =>
      let cmd := from line a0 in
      let* b := equals cmd "cd" in
      if b then
        (match args with
         | a :: _ => cmd_cd (from line a)
         | [] => let* s := kget in let* d := lift (ulib_strcpy (cwd s) (lit "/")) in kmodify (set_cwd d)
         end) ;;; set_status "0"
      else
      let* b := equals cmd "exit" in
      if b then
        history_save ;;;
        (let* s := kget in match session_log_path s with [] => kret 0 | p => call_ (Uunlink p) end) ;;;
        uabi_exit 0
      else
      let* b := equals cmd "exec" in
      if b then match args with [] => kret tt | _ => cmd_exec line args false end
      else
      let* b := equals cmd "echo" in
      if b then print_args line args ;;; print_one 10 ;;; set_status "0"
      else
      let* b := equals cmd "read" in
      if b then cmd_read line args ;;; set_status "0"
      else run_program line argv
  end.

(** [VAR=VAL] or [VAR=$(cmd)], with [eq] the offset of the first [=] *)
Definition assignment (run : list Z → kM shell unit) (line : list Z) (l : list Z) (eq : Z) : kM shell unit :=
  let name := take (Z.to_nat eq) l ++ [0] in
  let val := from line (eq + 1) in
  let* v := lift (cstr val) in
  if bool_decide (take 2 v = str "$(") then
    let c := drop 2 v in
    if Z.of_nat (length c) <? 256 then
      let cmd := match find_char 41 c 0 with Some e => take (Z.to_nat e) c | None => c end in
      let* output := capture_output run (cmd ++ 0 :: drop (S (length cmd)) (junk 256)) 128 in
      set_sh_var name output ;;; set_status "0"
    else kfault
  else set_sh_var name val ;;; set_status "0".

Fixpoint run_simple_command (fuel : nat) (line : list Z) : kM shell unit :=
  match fuel with
  | O => λ _, NoFuel
  | S fuel =>
      let* s := kget in
      let* skip := lift (if 0 <? if_depth s then b ← zlookup (if_active s) (if_depth s - 1); Some (negb b) else Some false) in
      if skip then skip_line line
      else
      let* b := starts line "if " 3 in
      if b then do_if line
      else
      let* b := starts line "else" 4 in
      if b then do_else
      else
      let* b := starts line "endif" 5 in
      if b then do_endif
      else
      let* b := starts line "then" 4 in
      if b then kret tt
      else
      let* b := starts line "for " 4 in
      if b then do_for line
      else
      let* b := equals line "do" in
      if b then do_do
      else
      let* b := equals line "done" in
      if b then do_done
      else
      let* l := lift (cstr line) in
      let words := let* r := lift (split_words 15 false 0 line) in builtins r.1 r.2 in
      match find_char 61 l 0 with
      | Some eq =>
          let* before := lift (if eq =? 0 then Some 0 else zlookup l (eq - 1)) in
          if negb (before =? 32) then assignment (run_simple_command fuel) line l eq else words
      | None => words
      end
  end.

(** The line without its leading and trailing spaces; the rest of the array
    stays behind. *)
Definition trim_line (line : list Z) : option (list Z) :=
  l ← cstr line;
  let l1 := ltrim l in
  let buf := drop (length l - length l1) line in
  let l2 := rtrim l1 in
  Some (l2 ++ replicate (length l1 - length l2) 0 ++ drop (length l1) buf).

Fixpoint parse_and_execute (fuel : nat) (line : list Z) : kM shell unit :=
  match fuel with
  | O => λ _, NoFuel
  | S fuel =>
      let* buf := lift (trim_line line) in
      let* l := lift (cstr buf) in
      match l with
      | [] => kret tt
      | _ =>
          match find_char 124 l 0 with
          | Some i =>
              let left := take (Z.to_nat i) buf ++ 0 :: from buf (i + 1) in
              let right := from buf (i + 1) in
              let* p := uabi_pipe in
              let '(r, p0, p1) := p in
              if r <? 0 then ulib_print (lit_nl "pipe failed")
              else
                let* pid1 := call_ Ufork in
                (if pid1 =? 0 then
                   call_ (Udup2 p1 1) ;;; call_ (Uclose p0) ;;; call_ (Uclose p1) ;;; parse_and_execute fuel left ;;; uabi_exit 0
                 else kret tt) ;;;
                let* pid2 := call_ Ufork in
                (if pid2 =? 0 then
                   call_ (Udup2 p0 0) ;;; call_ (Uclose p0) ;;; call_ (Uclose p1) ;;; parse_and_execute fuel right ;;; uabi_exit 0
                 else kret tt) ;;;
                call_ (Uclose p0) ;;; call_ (Uclose p1) ;;; call_ Uwait ;;; call_ Uwait ;;; kret tt
          | None =>
              let* s := kget in
              let* line := lift (expand_variables s buf) in
              run_simple_command (S (length line)) line
          end
      end
  end.

(** ** The line editor *)

Fixpoint print_range (buf : list Z) (i : Z) (n : nat) : kM shell unit :=
  match n with
  | O => kret tt
  | S n => let* c := lift (zlookup buf i) in print_one c ;;; print_range buf (i + 1) n
  end.
Fixpoint print_times (c : Z) (n : nat) : kM shell unit :=
  match n with O => kret tt | S n => print_one c ;;; print_times c n end.

Definition redraw_from_cur (buf : list Z) (cur len : Z) : kM shell unit :=
  print_range buf cur (Z.to_nat (len - cur)) ;;; print_one 32 ;;; print_times 8 (Z.to_nat (len - cur + 1)).
Definition clear_line (cur len : Z) : kM shell unit :=
  print_times 8 (Z.to_nat cur) ;;; print_times 32 (Z.to_nat len) ;;; print_times 8 (Z.to_nat len).

(** [for (i = a; i < b; i++) buf[i] = buf[i + 1]], [n] times *)
Fixpoint shift_left (buf : list Z) (i : Z) (n : nat) : option (list Z) :=
  match n with
  | O => Some buf
  | S n => c ← zlookup buf (i + 1); b ← zset buf i c; shift_left b (i + 1) n
  end.
(** [for (i = a; i > b; i--) buf[i] = buf[i - 1]], [n] times *)
Fixpoint shift_right (buf : list Z) (i : Z) (n : nat) : option (list Z) :=
  match n with
  | O => Some buf
  | S n => c ← zlookup buf (i - 1); b ← zset buf i c; shift_right b (i - 1) n
  end.

(** The local variables of [sh_readline] *)
Record editor := Editor { e_buf : list Z; e_cur : Z; e_len : Z; e_current_input : list Z }.

(** [while (cur > 0 && buf[cur - 1] is (not) a space) { cur--; ulib_print("\b"); }] *)
Fixpoint word_left (spaces : bool) (buf : list Z) (n : nat) : kM shell Z :=
  match n with
  | O => kret 0
  | S n' =>
      let* c := lift (zlookup buf (Z.of_nat n')) in
      if Bool.eqb (c =? 32) spaces then print_one 8 ;;; word_left spaces buf n' else kret (Z.of_nat n)
  end.
(** [while (cur < len && buf[cur] is (not) a space) { print it; cur++; }] *)
Fixpoint word_right (spaces : bool) (buf : list Z) (cur : Z) (n : nat) : kM shell Z :=
  match n with
  | O => kret cur
  | S n =>
      let* c := lift (zlookup buf cur) in
      if Bool.eqb (c =? 32) spaces then print_one c ;;; word_right spaces buf (cur + 1) n else kret cur
  end.

(** [ulib_strcpy(buf, src); len = ulib_strlen(buf); cur = len; if (len > 0) ulib_print(buf);] *)
Definition recall (e : editor) (src : list Z) : kM shell editor :=
  let* buf := lift (ulib_strcpy (e_buf e) src) in
  let* len := lift (ulib_strlen buf) in
  (if 0 <? len then ulib_print buf else kret tt) ;;;
  kret (Editor buf len len (e_current_input e)).

Definition key_up (e : editor) : kM shell editor :=
  let* s := kget in
  let count := Z.of_nat (length (history s)) in
  if 0 <? history_current s then
    let* e := lift
      (if history_current s =? count then
         b ← zset (e_buf e) (e_len e) 0;
         ci ← ulib_strcpy (e_current_input e) b;
         Some (Editor b (e_cur e) (e_len e) ci)
       else Some e) in
    kmodify (set_history_current (history_current s - 1)) ;;;
    clear_line (e_cur e) (e_len e) ;;;
    let* h := lift (zlookup (history s) (history_current s - 1)) in
    recall e (h ++ [0])
  else kret e.

Definition key_down (e : editor) : kM shell editor :=
  let* s := kget in
  let count := Z.of_nat (length (history s)) in
  if history_current s <? count then
    let i := history_current s + 1 in
    kmodify (set_history_current i) ;;;
    clear_line (e_cur e) (e_len e) ;;;
    if i =? count then recall e (e_current_input e)
    else let* h := lift (zlookup (history s) i) in recall e (h ++ [0])
  else kret e.

Definition key_backspace (e : editor) : kM shell editor :=
  if 0 <? e_cur e then
    let cur := e_cur e - 1 in
    let len := e_len e - 1 in
    let* buf := lift (b ← shift_left (e_buf e) cur (Z.to_nat (len - cur)); zset b len 0) in
    print_one 8 ;;; redraw_from_cur buf cur len ;;;
    kret (Editor buf cur len (e_current_input e))
  else kret e.

Definition key_insert (max c : Z) (e : editor) : kM shell editor :=
  if e_len e <? max - 1 then
    let len := e_len e + 1 in
    let cur := e_cur e + 1 in
    let* buf := lift (b ← shift_right (e_buf e) (e_len e) (Z.to_nat (e_len e - e_cur e)); b ← zset b (e_cur e) c; zset b len 0) in
    print_one c ;;;
    (if cur <? len then redraw_from_cur buf cur len else kret tt) ;;;
    kret (Editor buf cur len (e_current_input e))
  else kret e.

Definition at_cur (e : editor) (cur : Z) : editor := Editor (e_buf e) cur (e_len e) (e_current_input e).

(** The key [c] other than the one that ends the line *)
Definition edit_key (max c : Z) (e : editor) : kM shell editor :=
  if (c =? 8) || (c =? 127) then key_backspace e
  else if c =? UABI_KEY_LEFT then
    if 0 <? e_cur e then print_one 8 ;;; kret (at_cur e (e_cur e - 1)) else kret e
  else if c =? UABI_KEY_RIGHT then
    if e_cur e <? e_len e then
      let* x := lift (zlookup (e_buf e) (e_cur e)) in print_one x ;;; kret (at_cur e (e_cur e + 1))
    else kret e
  else if c =? UABI_KEY_CTRL_LEFT then
    let* cur := word_left true (e_buf e) (Z.to_nat (e_cur e)) in
    let* cur := word_left false (e_buf e) (Z.to_nat cur) in
    kret (at_cur e cur)
  else if c =? UABI_KEY_CTRL_RIGHT then
    let* cur := word_right false (e_buf e) (e_cur e) (Z.to_nat (e_len e - e_cur e)) in
    let* cur := word_right true (e_buf e) cur (Z.to_nat (e_len e - cur)) in
    kret (at_cur e cur)
  else if c =? UABI_KEY_UP then key_up e
  else if c =? UABI_KEY_DOWN then key_down e
  else if (32 <=? c) && (c <=? 126) then key_insert max c e
  else kret e.

Fixpoint readline_loop (fuel : nat) (max : Z) (e : editor) : kM shell (list Z) :=
  match fuel with
  | O => λ _, NoFuel
  | S fuel =>
      let* c := call_ Ugetc in
      if (c =? 10) || (c =? 13) then
        print_one 10 ;;; lift (zset (e_buf e) (e_len e) 0)
      else let* e := edit_key max c e in readline_loop fuel max e
  end.
Definition sh_readline (fuel : nat) (buf : list Z) (max : Z) : kM shell (list Z) :=
  kmodify (λ s, set_history_current (Z.of_nat (length (history s))) s) ;;;
  readline_loop fuel max (Editor buf 0 0 (replicate 256 0)).

(** ** The main program *)

Fixpoint fd_line_loop (fuel : nat) (fd max : Z) (line : list Z) : kM shell (bool * list Z) :=
  match fuel with
  | O => λ _, NoFuel
  | S fuel =>
      if Z.of_nat (length line) <? max - 1 then
        let* r := uabi_read fd 1 in
        match r.2 with
        | [] => kret (0 <? Z.of_nat (length line), line)
        | c :: _ =>
            if c =? 10 then kret (true, line)
            else fd_line_loop fuel fd max (if negb (c =? 13) then line ++ [c] else line)
        end
      else kret (true, line)
  end.
Definition get_line_from_fd (fuel : nat) (fd : Z) (buf : list Z) (max : Z) : kM shell (bool * list Z) :=
  let* r := fd_line_loop fuel fd max [] in
  let* b := lift (ulib_memcpy buf (r.2 ++ [0]) (S (length r.2))) in
  kret (r.1, b).

Fixpoint script_loop (fuel : nat) (fd : Z) (input : list Z) : kM shell unit :=
  match fuel with
  | O => λ _, NoFuel
  | S fuel =>
      let* r := get_line_from_fd fuel fd input 256 in
      if r.1 then
        let* c := lift (head r.2) in
        (if negb (c =? 35) && negb (c =? 0) then parse_and_execute (S (length r.2)) r.2 else kret tt) ;;;
        script_loop fuel fd r.2
      else kret tt
  end.

Fixpoint interactive_loop (fuel : nat) (input : list Z) : kM shell unit :=
  match fuel with
  | O => λ _, NoFuel
  | S fuel =>
      print_prompt ;;;
      let* b := sh_readline fuel input 256 in
      let* l := lift (cstr b) in
      (match l with [] => kret tt | _ => history_add l ;;; parse_and_execute (S (length b)) b end) ;;;
      interactive_loop fuel b
  end.

Definition _start (fuel : nat) (argv : list (list Z)) : kM shell unit :=
  (let* g := call (Ugetcwd 256) in
   kmodify (λ s, let d := take 256 g.2 in set_cwd (d ++ drop (length d) (cwd s)) s)) ;;;
  set_status "0" ;;;
  call_ (Usigaction 2) ;;;
  let input := replicate 512 0 in
  match argv with
  | _ :: script :: _ =>
      let* fd := call_ (Uopen script UABI_O_RDONLY) in
      (if fd <? 0 then
         ulib_print (lit "sh: cannot open script '") ;;; ulib_print (script ++ [0]) ;;; ulib_print (lit_nl "'") ;;; uabi_exit 1
       else kret tt) ;;;
      kmodify (set_script_fd fd) ;;;
      script_loop fuel fd input ;;;
      call_ (Uclose fd) ;;;
      kmodify (set_script_fd (-1)) ;;;
      uabi_exit 0
  | _ =>
      let* pid := call_ Ugetpid in
      let* s_pid := lift (ulib_int_to_str pid (junk 16)) in
      let* path := lift (b ← ulib_strcpy (replicate 64 0) (lit "/TMP/SESS."); b ← ulib_strcat b s_pid; cstr b) in
      kmodify (set_session path) ;;;
      call_ (Uprint (10 :: str "=== Curls OS User Shell (Ring 3) ===" ++ [10])) ;;;
      call_ (Uprint (str "Type 'help' for available commands" ++ [10; 10])) ;;;
      history_load fuel ;;;
      interactive_loop fuel input
  end.

End shell.
