(* ===== verification/ShellInv.v ===== *)
(** * The shell's line editor

    [sh_readline] of [Shell] keeps a C array, a cursor and a length.  The editor
    it implements is a line with a cursor in it, [aline]; the terminal it draws
    on is a row of cells whose backspace only moves the cursor, [tty].  The
    theorem relates both, for every sequence of keys. *)

From stdpp Require Import base numbers list strings.
From Stdlib Require Import ZArith Lia.
From S2P Require Import Prelude CString Ulib Shell.

#[local] Open Scope Z_scope.
#[local] Open Scope kernel_scope.

(** ** The editor *)

(** The characters before the cursor, last first, and those after it; the place
    in the history and the line put aside *)
Record aline := ALine { zl : list Z; zr : list Z; a_pos : nat; a_saved : list Z }.
Definition text (z : aline) : list Z := rev (zl z) ++ zr z.
Definition with_zip (l r : list Z) (z : aline) : aline := ALine l r (a_pos z) (a_saved z).

Fixpoint back_over (spaces : bool) (l r : list Z) : list Z * list Z :=
  match l with c :: l' => if Bool.eqb (c =? 32) spaces then back_over spaces l' (c :: r) else (l, r) | [] => (l, r) end.
Fixpoint over (spaces : bool) (l r : list Z) : list Z * list Z :=
  match r with c :: r' => if Bool.eqb (c =? 32) spaces then over spaces (c :: l) r' else (l, r) | [] => (l, r) end.

Definition a_backspace (z : aline) : aline := match zl z with [] => z | _ :: l => with_zip l (zr z) z end.
Definition a_left (z : aline) : aline := match zl z with [] => z | c :: l => with_zip l (c :: zr z) z end.
Definition a_right (z : aline) : aline := match zr z with [] => z | c :: r => with_zip (c :: zl z) r z end.
Definition a_word_left (z : aline) : aline :=
  let '(l, r) := back_over true (zl z) (zr z) in let '(l, r) := back_over false l r in with_zip l r z.
Definition a_word_right (z : aline) : aline :=
  let '(l, r) := over false (zl z) (zr z) in let '(l, r) := over true l r in with_zip l r z.
Definition a_insert (c : Z) (z : aline) : aline :=
  if (length (text z) <? 255)%nat then with_zip (c :: zl z) (zr z) z else z.
Definition a_up (h : list (list Z)) (z : aline) : aline :=
  match a_pos z with
  | O => z
  | S p => ALine (rev (nth p h [])) [] p (if (a_pos z =? length h)%nat then text z else a_saved z)
  end.
Definition a_down (h : list (list Z)) (z : aline) : aline :=
  if (a_pos z <? length h)%nat then
    let p := S (a_pos z) in
    ALine (rev (if (p =? length h)%nat then a_saved z else nth p h [])) [] p (a_saved z)
  else z.

Definition a_key (h : list (list Z)) (z : aline) (c : Z) : aline :=
  if (c =? 8) || (c =? 127) then a_backspace z
  else if c =? UABI_KEY_LEFT then a_left z
  else if c =? UABI_KEY_RIGHT then a_right z
  else if c =? UABI_KEY_CTRL_LEFT then a_word_left z
  else if c =? UABI_KEY_CTRL_RIGHT then a_word_right z
  else if c =? UABI_KEY_UP then a_up h z
  else if c =? UABI_KEY_DOWN then a_down h z
  else if (32 <=? c) && (c <=? 126) then a_insert c z
  else z.

(** ** The terminal *)

Definition tty : Type := list Z * nat.
Definition tty_put (t : tty) (c : Z) : tty :=
  if c =? 8 then (t.1, pred t.2)
  else (take t.2 t.1 ++ c :: drop (S t.2) t.1, S t.2).
Definition tty_puts (t : tty) (w : list Z) : tty := fold_left tty_put w t.
(** The cells show the line, then blanks, the cursor where the line has it. *)
Definition shows (z : aline) (t : tty) : Prop := ∃ k, t = (text z ++ replicate k 32, length (zl z)).

Lemma tty_puts_app t a b : tty_puts t (a ++ b) = tty_puts (tty_puts t a) b.
Proof. apply fold_left_app. Qed.

Lemma tty_text w : ∀ pre cells, 8 ∉ w → tty_puts (pre ++ cells, length pre) w = (pre ++ w ++ drop (length w) cells, length pre + length w)%nat.
Proof.
  induction w as [|c w IH]; intros pre cells H8; [by rewrite drop_0, Nat.add_0_r|].
  apply not_elem_of_cons in H8 as [Hc H8]. unfold tty_puts. cbn [fold_left]. unfold tty_put at 2. cbn [fst snd].
  replace (c =? 8) with false by (symmetry; apply Z.eqb_neq; lia). rewrite take_app_length.
  replace (drop (S (length pre)) (pre ++ cells)) with (drop 1 cells) by (rewrite drop_app_ge by lia; f_equal; lia).
  specialize (IH (pre ++ [c]) (drop 1 cells) H8). unfold tty_puts in IH. rewrite <-!app_assoc in IH. cbn [app] in IH. rewrite length_app in IH. cbn [length] in IH.
  replace (length pre + 1)%nat with (S (length pre)) in IH by lia. rewrite IH, drop_drop. cbn [length app Nat.add]. f_equal. lia.
Qed.
Lemma tty_text_at w pre cells p : p = length pre → 8 ∉ w → tty_puts (pre ++ cells, p) w = (pre ++ w ++ drop (length w) cells, p + length w)%nat.
Proof. intros ->. apply tty_text. Qed.
Lemma tty_back n : ∀ cells p, tty_puts (cells, p) (replicate n 8) = (cells, p - n)%nat.
Proof.
  induction n as [|n IH]; intros cells p; [by rewrite Nat.sub_0_r|]. unfold tty_puts in *. cbn [replicate fold_left].
  change (tty_put (cells, p) 8) with (cells, pred p). rewrite IH. f_equal. lia.
Qed.

(** ** Runs that only print *)

Fixpoint output (log : list ucall) : list Z :=
  match log with
  | Uwrite fd d :: log => output log ++ (if fd =? 1 then d else [])
  | _ :: log => output log
  | [] => []
  end.
Fixpoint getcs (log : list ucall) : nat :=
  match log with Ugetc :: log => S (getcs log) | _ :: log => getcs log | [] => O end.

(** From [s] to [s'] the shell wrote [w] and read [n] keys; its variables did not
    change but for the place in the history, now [p]. *)
Definition wrote (w : list Z) (n : nat) (s s' : shell) : Prop :=
  ∃ new, s' = set_history_current (history_current s') (set_log (new ++ sh_log s) s) ∧ output new = w ∧ getcs new = n.

Lemma output_app a b : output (a ++ b) = output b ++ output a.
Proof. induction a as [|c a IH]; [by rewrite app_nil_r|]. destruct c; cbn [app output]; try done. rewrite IH. by rewrite app_assoc. Qed.
Lemma getcs_app a b : getcs (a ++ b) = (getcs a + getcs b)%nat.
Proof. induction a as [|c a IH]; [done|]. destruct c; cbn [app getcs]; by rewrite ?IH. Qed.

Lemma wrote_nothing s : wrote [] 0 s s.
Proof. exists []. by destruct s. Qed.
Lemma wrote_trans w1 w2 n1 n2 s1 s2 s3 : wrote w1 n1 s1 s2 → wrote w2 n2 s2 s3 → wrote (w1 ++ w2) (n1 + n2) s1 s3.
Proof.
  intros (a & Ea & Wa & Ga) (b & Eb & Wb & Gb). exists (b ++ a). rewrite output_app, getcs_app, Wa, Wb, Ga, Gb.
  split; [|split; [done|lia]]. rewrite Eb, Ea. cbn. by rewrite app_assoc.
Qed.
Lemma wrote_history w n s s' : wrote w n s s' → history s' = history s.
Proof. by intros (a & -> & _). Qed.
Lemma wrote_getcs w n s s' : wrote w n s s' → getcs (sh_log s') = (n + getcs (sh_log s))%nat.
Proof. intros (a & -> & _ & <-). apply getcs_app. Qed.
Lemma wrote_pos s p : wrote [] 0 s (set_history_current p s).
Proof. exists []. by destruct s. Qed.

Definition printed (w : list Z) (s s' : shell) : Prop := wrote w 0 s s' ∧ history_current s' = history_current s.
Lemma printed_nil s : printed [] s s.
Proof. split; [apply wrote_nothing|done]. Qed.
Lemma printed_trans w1 w2 s1 s2 s3 : printed w1 s1 s2 → printed w2 s2 s3 → printed (w1 ++ w2) s1 s3.
Proof. intros [A Ea] [B Eb]. split; [exact (wrote_trans _ _ _ _ _ _ _ A B)|congruence]. Qed.

(** [m] returns [a] having printed [w]. *)
Definition does {A} (m : kM shell A) (a : A) (w : list Z) : Prop := ∀ s, ∃ s', m s = Ret a s' ∧ printed w s s'.

Lemma does_ret {A} (a : A) : does (kret a) a [].
Proof. intros s. exists s. split; [done|apply printed_nil]. Qed.
Lemma does_bind {A B} (m : kM shell A) (k : A → kM shell B) a b w1 w2 : does m a w1 → does (k a) b w2 → does (kbind m k) b (w1 ++ w2).
Proof.
  intros Hm Hk s. destruct (Hm s) as (s1 & E1 & P1). destruct (Hk s1) as (s2 & E2 & P2). exists s2.
  split; [by rewrite (kbind_ret _ _ _ _ _ E1)|exact (printed_trans _ _ _ _ _ P1 P2)].
Qed.
Lemma does_bind_ret {A} (m : kM shell unit) (a : A) w : does m tt w → does (m ;;; kret a) a w.
Proof. intros H. rewrite <-(app_nil_r w). exact (does_bind _ _ tt a _ _ H (does_ret a)). Qed.
Lemma does_lift {A B} (o : option A) (k : A → kM shell B) a b w : o = Some a → does (k a) b w → does (kbind (lift o) k) b w.
Proof. intros -> H. exact H. Qed.

Section readline.
Context (os : answers).

Lemma ulib_print_does s rest : 0 ∉ s → does (ulib_print os (s ++ 0 :: rest)) tt s.
Proof.
  intros H0. unfold ulib_print. apply (does_lift _ _ (Z.of_nat (length s))); [unfold ulib_strlen; rewrite strlen_loop_app by done; f_equal; lia|].
  destruct s as [|c s]; [apply does_ret|]. replace (0 <? Z.of_nat (length (c :: s))) with true by (symmetry; apply Z.ltb_lt; cbn; lia).
  rewrite Nat2Z.id, take_app_length. intros st. eexists. split; [done|]. split; [|done]. exists [Uwrite 1 (c :: s)]. by destruct st.
Qed.
Lemma print_one_does c : c ≠ 0 → does (print_one os c) tt [c].
Proof. intros Hc. apply (ulib_print_does [c] []). rewrite not_elem_of_cons. split; [lia|apply not_elem_of_nil]. Qed.

Lemma print_times_does c n : c ≠ 0 → does (print_times os c n) tt (replicate n c).
Proof. intros Hc. induction n as [|n IH]; [apply does_ret|]. exact (does_bind _ _ tt tt [c] _ (print_one_does c Hc) IH). Qed.

Lemma print_range_does w : ∀ pre post, 0 ∉ w → does (print_range os (pre ++ w ++ post) (Z.of_nat (length pre)) (length w)) tt w.
Proof.
  induction w as [|c w IH]; intros pre post H0; [apply does_ret|]. apply not_elem_of_cons in H0 as [Hc H0]. cbn [length print_range app].
  apply (does_lift _ _ c); [by apply zlookup_mid|]. eapply (does_bind _ _ tt tt [c] w); [apply print_one_does; lia|].
  specialize (IH (pre ++ [c]) post H0). rewrite <-app_assoc in IH. cbn [app] in IH. rewrite length_app in IH. cbn [length] in IH.
  replace (Z.of_nat (length pre) + 1) with (Z.of_nat (length pre + 1)) by lia. exact IH.
Qed.

(** Reprinting the rest of the line leaves the cursor in place. *)
Lemma redraw_does pre w post : 0 ∉ w →
  does (redraw_from_cur os (pre ++ w ++ post) (Z.of_nat (length pre)) (Z.of_nat (length pre + length w))) tt (w ++ [32] ++ replicate (S (length w)) 8).
Proof.
  intros H0. unfold redraw_from_cur.
  replace (Z.to_nat (Z.of_nat (length pre + length w) - Z.of_nat (length pre))) with (length w) by lia.
  replace (Z.to_nat (Z.of_nat (length pre + length w) - Z.of_nat (length pre) + 1)) with (S (length w)) by lia.
  eapply does_bind; [by apply print_range_does|]. eapply does_bind; [by apply print_one_does|by apply print_times_does].
Qed.
Lemma redraw_tty pre w cells : 8 ∉ w →
  tty_puts (pre ++ cells, length pre) (w ++ [32] ++ replicate (S (length w)) 8) = (pre ++ w ++ 32 :: drop (S (length w)) cells, length pre).
Proof.
  intros H8. rewrite app_assoc, tty_puts_app, tty_text.
  - rewrite tty_back, length_app. cbn [length]. rewrite <-app_assoc. cbn [app]. f_equal; [|lia]. by replace (length w + 1)%nat with (S (length w)) by lia.
  - rewrite not_elem_of_app. split; [done|]. rewrite not_elem_of_cons. split; [lia|apply not_elem_of_nil].
Qed.

Lemma clear_does cur len : does (clear_line os (Z.of_nat cur) (Z.of_nat len)) tt (replicate cur 8 ++ replicate len 32 ++ replicate len 8).
Proof.
  unfold clear_line. rewrite !Nat2Z.id. eapply does_bind; [by apply print_times_does|]. eapply does_bind; by apply print_times_does.
Qed.
Lemma clear_tty cells cur len :
  tty_puts (cells, cur) (replicate cur 8 ++ replicate len 32 ++ replicate len 8) = (replicate len 32 ++ drop len cells, 0%nat).
Proof.
  rewrite tty_puts_app, tty_back, tty_puts_app. pose proof (tty_text (replicate len 32) [] cells) as E. cbn [app length Nat.add] in E.
  replace (cur - cur)%nat with 0%nat by lia. rewrite E by (intros H; apply elem_of_replicate in H; lia).
  rewrite tty_back, !length_replicate. f_equal. lia.
Qed.

(** ** The array *)

Lemma shift_left_spec w : ∀ pre x rest, ∃ y, shift_left (pre ++ x :: w ++ rest) (Z.of_nat (length pre)) (length w) = Some (pre ++ w ++ y :: rest).
Proof.
  induction w as [|c w IH]; intros pre x rest; [by exists x|]. destruct (IH (pre ++ [c]) c rest) as [y E]. exists y. cbn [length shift_left app].
  replace (pre ++ x :: c :: w ++ rest) with ((pre ++ [x]) ++ c :: w ++ rest) at 1 by (by rewrite <-app_assoc).
  rewrite zlookup_mid by (rewrite length_app; cbn; lia). cbn [mbind option_bind].
  rewrite zset_mid by done. cbn [mbind option_bind]. rewrite length_app in E. cbn [length] in E. rewrite <-!app_assoc in E. cbn [app] in E.
  replace (Z.of_nat (length pre) + 1) with (Z.of_nat (length pre + 1)) by lia. exact E.
Qed.

Lemma shift_right_spec w : ∀ pre y rest, ∃ x, shift_right (pre ++ w ++ y :: rest) (Z.of_nat (length pre + length w)) (length w) = Some (pre ++ x :: w ++ rest).
Proof.
  induction w as [|c w IH] using rev_ind; intros pre y rest; [by exists y|]. destruct (IH pre c (c :: rest)) as [x E]. exists x.
  rewrite length_app, Nat.add_1_r. cbn [shift_right].
  replace (pre ++ (w ++ [c]) ++ y :: rest) with ((pre ++ w) ++ c :: y :: rest) by (by rewrite <-!app_assoc).
  rewrite zlookup_mid by (rewrite length_app; lia). cbn [mbind option_bind].
  replace ((pre ++ w) ++ c :: y :: rest) with ((pre ++ w ++ [c]) ++ y :: rest) by (by rewrite <-!app_assoc).
  rewrite zset_mid by (rewrite !length_app; cbn; lia). cbn [mbind option_bind].
  replace (Z.of_nat (length pre + S (length w)) - 1) with (Z.of_nat (length pre + length w)) by lia.
  rewrite <-!app_assoc. cbn [app]. exact E.
Qed.

(** ** The cursor keys *)

Lemma back_over_same sp l : ∀ r, rev (back_over sp l r).1 ++ (back_over sp l r).2 = rev l ++ r ∧ (length (back_over sp l r).1 ≤ length l)%nat.
Proof.
  induction l as [|c l IH]; intros r; cbn [back_over]; [done|]. destruct (Bool.eqb (c =? 32) sp); [|done].
  destruct (IH (c :: r)) as [E L]. split; [rewrite E; cbn [rev]; by rewrite <-app_assoc|cbn [length]; lia].
Qed.
Lemma word_left_does sp l : ∀ r post, does (word_left os sp (rev l ++ post) (length l)) (Z.of_nat (length (back_over sp l r).1))
    (replicate (length l - length (back_over sp l r).1) 8).
Proof.
  induction l as [|c l IH]; intros r post; cbn [length word_left back_over rev]; [apply does_ret|].
  apply (does_lift _ _ c); [rewrite <-app_assoc; cbn [app]; apply zlookup_mid; by rewrite length_rev|].
  destruct (Bool.eqb (c =? 32) sp); [|cbn [fst length]; rewrite Nat.sub_diag; apply does_ret].
  pose proof (back_over_same sp l (c :: r)) as [_ L]. rewrite Nat.sub_succ_l by done. cbn [replicate].
  eapply (does_bind _ _ tt _ [8]); [by apply print_one_does|]. rewrite <-app_assoc. apply IH.
Qed.

(** Moving right passes the characters [w]. *)
Lemma over_moves sp r : ∀ l, ∃ w, r = w ++ (over sp l r).2 ∧ (over sp l r).1 = rev w ++ l ∧ ∀ pre, length pre = length l →
  0 ∉ r → ∀ post, does (word_right os sp (pre ++ r ++ post) (Z.of_nat (length l)) (length r)) (Z.of_nat (length (over sp l r).1)) w.
Proof.
  induction r as [|c r IH]; intros l; cbn [over]; [exists []; repeat split; intros; apply does_ret|].
  destruct (Bool.eqb (c =? 32) sp) eqn:E; cbn [fst snd].
  - destruct (IH (c :: l)) as (w & E1 & E2 & H). exists (c :: w). split; [by rewrite E1 at 1|]. split; [rewrite E2; cbn [rev]; by rewrite <-app_assoc|].
    intros pre Hp H0 post. apply not_elem_of_cons in H0 as [Hc H0]. cbn [length word_right app]. apply (does_lift _ _ c); [apply zlookup_mid; lia|].
    rewrite E. eapply (does_bind _ _ tt _ [c]); [apply print_one_does; lia|].
    specialize (H (pre ++ [c]) ltac:(rewrite length_app; cbn; lia) H0 post). rewrite <-app_assoc in H. cbn [app length] in H.
    replace (Z.of_nat (length l) + 1) with (Z.of_nat (S (length l))) by lia. exact H.
  - exists []. split; [done|]. split; [done|]. intros pre Hp H0 post. cbn [length word_right app]. apply (does_lift _ _ c); [apply zlookup_mid; lia|].
    rewrite E. apply does_ret.
Qed.

(** ** The keys *)

Definition fine (l : list Z) : Prop := (length l ≤ 255)%nat ∧ (0 ∉ l) ∧ (8 ∉ l).
Record wf (h : list (list Z)) (z : aline) : Prop := {
  wf_text : fine (text z);
  wf_pos : (a_pos z ≤ length h)%nat;
  wf_saved : fine (a_saved z);
  wf_history : Forall fine h;
}.
Record rep (e : editor) (z : aline) : Prop := {
  rep_buf : ∃ rest, e_buf e = rev (zl z) ++ zr z ++ rest;
  rep_size : (256 ≤ length (e_buf e))%nat;
  rep_cur : e_cur e = Z.of_nat (length (zl z));
  rep_len : e_len e = Z.of_nat (length (zl z) + length (zr z));
  rep_saved : ∃ rest, e_current_input e = a_saved z ++ 0 :: rest;
  rep_input : length (e_current_input e) = 256%nat;
}.

Lemma text_length z : length (text z) = (length (zl z) + length (zr z))%nat.
Proof. unfold text. by rewrite length_app, length_rev. Qed.
Lemma fine_parts l r : fine (rev l ++ r) → (0 ∉ r) ∧ (8 ∉ r).
Proof. intros (_ & H0 & H8). rewrite not_elem_of_app in H0, H8. split; [apply H0|apply H8]. Qed.

(** What a key that leaves the history alone has to do *)
Definition steps (m : kM shell editor) (e : editor) (z z' : aline) : Prop :=
  ∃ e' w, does m e' w ∧ rep e' z' ∧ ∀ t, shows z t → shows z' (tty_puts t w).

Lemma steps_same e z : rep e z → steps (kret e) e z z.
Proof. intros R. exists e, []. split; [apply does_ret|]. by split. Qed.

Lemma rep_move e z l r : rep e z → rev l ++ r = text z → rep (at_cur e (Z.of_nat (length l))) (with_zip l r z).
Proof.
  intros [[rest B] Sz Cu Le Sa In] T. assert (length l + length r = length (zl z) + length (zr z))%nat as L.
  { rewrite <-text_length, <-T, length_app, length_rev. lia. }
  split; cbn; try done; [|by rewrite Le; f_equal]. exists rest. rewrite B. unfold text in T. by rewrite !app_assoc, T.
Qed.

Lemma key_backspace_steps e z h : wf h z → rep e z → steps (key_backspace os e) e z (a_backspace z).
Proof.
  intros [T _ _ _] R. pose proof R as [[rest B] Sz Cu Le Sa In]. unfold key_backspace, a_backspace. rewrite Cu, Le. unfold text in T.
  destruct (zl z) as [|x l] eqn:Ez; cbn [length]; [by apply steps_same|].
  replace (0 <? Z.of_nat (S (length l))) with true by (symmetry; apply Z.ltb_lt; lia).
  replace (Z.of_nat (S (length l)) - 1) with (Z.of_nat (length (rev l))) by (rewrite length_rev; lia).
  replace (Z.of_nat (S (length l) + length (zr z)) - 1) with (Z.of_nat (length (rev l) + length (zr z))) by (rewrite length_rev; lia).
  replace (Z.to_nat (Z.of_nat (length (rev l) + length (zr z)) - Z.of_nat (length (rev l)))) with (length (zr z)) by lia.
  destruct (fine_parts (x :: l) (zr z) T) as [H0 H8]. cbn [rev] in B. rewrite <-app_assoc in B. cbn [app] in B.
  destruct (shift_left_spec (zr z) (rev l) x rest) as [y E].
  eexists _, _. split; [|split].
  - apply (does_lift _ _ (rev l ++ zr z ++ 0 :: rest)).
    { rewrite B, E. cbn [mbind option_bind]. rewrite !(app_assoc (rev l) (zr z)). rewrite zset_mid by (rewrite length_app; lia). done. }
    eapply does_bind; [by apply print_one_does|]. eapply does_bind; [by apply redraw_does|apply does_ret].
  - split; cbn [e_buf e_cur e_len e_current_input with_zip zl zr a_saved]; try done.
    + by exists (0 :: rest).
    + rewrite B in Sz. rewrite !length_app in *. cbn [length] in *. rewrite length_app in Sz. lia.
    + by rewrite length_rev.
    + by rewrite length_rev.
  - intros t (k & ->). rewrite app_nil_r, tty_puts_app. change [8] with (replicate 1 8). rewrite tty_back. unfold shows, text. rewrite Ez. cbn [zl zr with_zip rev length].
    replace (S (length l) - 1)%nat with (length (rev l)) by (rewrite length_rev; lia). rewrite <-!app_assoc. cbn [app].
    rewrite redraw_tty by done. exists (S k). rewrite length_rev, <-app_assoc. cbn [drop replicate]. by rewrite drop_app_length.
Qed.

Lemma key_insert_steps c e z h : 32 ≤ c ≤ 126 → wf h z → rep e z → steps (key_insert os 256 c e) e z (a_insert c z).
Proof.
  intros Hc [T _ _ _] R. pose proof R as [[rest B] Sz Cu Le Sa In]. unfold key_insert, a_insert. rewrite Cu, Le. pose proof (text_length z) as TL.
  destruct (Nat.ltb_spec (length (text z)) 255) as [HT|HT].
  2:{ replace (Z.of_nat _ <? 256 - 1) with false by (symmetry; apply Z.ltb_ge; lia). by apply steps_same. }
  replace (Z.of_nat (length (zl z) + length (zr z)) <? 256 - 1) with true by (symmetry; apply Z.ltb_lt; lia).
  replace (Z.to_nat _) with (length (zr z)) by lia. destruct (fine_parts _ _ T) as [H0 H8].
  assert (∃ y y2 rest', rest = y :: y2 :: rest') as (y & y2 & rest' & ->).
  { rewrite B, !length_app, length_rev in Sz. destruct rest as [|? [|? ?]]; cbn [length] in Sz; eauto; lia. }
  destruct (shift_right_spec (zr z) (rev (zl z)) y (y2 :: rest')) as [x E]. rewrite length_rev in E.
  set (buf := (rev (zl z) ++ [c]) ++ zr z ++ 0 :: rest'). assert (length (rev (zl z) ++ [c]) = S (length (zl z))) as LP by (rewrite length_app, length_rev; cbn; lia).
  eexists _, ([c] ++ if (length (zr z) =? 0)%nat then [] else zr z ++ [32] ++ replicate (S (length (zr z))) 8). split; [|split].
  - apply (does_lift _ _ buf).
    { rewrite B, E. cbn [mbind option_bind]. rewrite zset_mid by (by rewrite length_rev). cbn [mbind option_bind].
      replace (rev (zl z) ++ c :: zr z ++ y2 :: rest') with ((rev (zl z) ++ c :: zr z) ++ y2 :: rest') by (by rewrite <-app_assoc).
      rewrite zset_mid by (rewrite length_app, length_rev; cbn; lia). unfold buf. f_equal. by rewrite <-!app_assoc. }
    eapply (does_bind _ _ tt _ [c]); [apply print_one_does; lia|]. apply does_bind_ret.
    destruct (Nat.eqb_spec (length (zr z)) 0) as [E0|E0].
    + replace (_ <? _) with false by (symmetry; apply Z.ltb_ge; lia). apply does_ret.
    + replace (_ <? _) with true by (symmetry; apply Z.ltb_lt; lia).
      replace (Z.of_nat (length (zl z)) + 1) with (Z.of_nat (length (rev (zl z) ++ [c]))) by lia.
      replace (Z.of_nat (length (zl z) + length (zr z)) + 1) with (Z.of_nat (length (rev (zl z) ++ [c]) + length (zr z))) by lia. by apply redraw_does.
  - unfold buf. split; cbn [e_buf e_cur e_len e_current_input with_zip zl zr a_saved rev]; try done; [by eexists| |cbn [length]; lia..].
    rewrite B in Sz. rewrite !length_app in *. cbn [length] in *. lia.
  - intros t (k & ->). rewrite (tty_puts_app _ [c]). unfold shows, text. cbn [zl zr with_zip rev length].
    rewrite <-app_assoc. rewrite (tty_text_at [c] (rev (zl z))) by first [by rewrite length_rev|rewrite not_elem_of_cons; split; [lia|apply not_elem_of_nil]].
    rewrite app_assoc. cbn [length]. rewrite Nat.add_1_r, <-LP.
    destruct (Nat.eqb_spec (length (zr z)) 0) as [E0|E0].
    + destruct (zr z); [|done]. exists (k - 1)%nat. cbn [app]. by rewrite drop_replicate, app_nil_r.
    + rewrite redraw_tty by done. exists (S (k - 2)). f_equal. rewrite <-!app_assoc. do 3 f_equal. cbn [replicate]. f_equal.
      rewrite drop_drop. rewrite drop_app_ge by lia. rewrite drop_replicate. f_equal. lia.
Qed.

Lemma move_steps (m : kM shell editor) e z l r w : rep e z → rev l ++ r = text z → does m (at_cur e (Z.of_nat (length l))) w →
  (∀ k, tty_puts (text z ++ replicate k 32, length (zl z)) w = (text z ++ replicate k 32, length l)) → steps m e z (with_zip l r z).
Proof.
  intros R T D P. eexists _, w. split; [exact D|]. split; [by apply rep_move|]. intros t (k & ->). exists k. rewrite P. unfold text at 2. cbn. by rewrite T.
Qed.
Lemma tty_right z w r k : zr z = w ++ r → 8 ∉ w → tty_puts (text z ++ replicate k 32, length (zl z)) w = (text z ++ replicate k 32, length (rev w ++ zl z)).
Proof.
  intros E H8. unfold text. rewrite E, <-!app_assoc, tty_text_at by (by rewrite ?length_rev). rewrite drop_app_length, length_app, length_rev. f_equal. lia.
Qed.

Lemma left_steps e z : rep e z → steps (if 0 <? e_cur e then print_one os 8 ;;; kret (at_cur e (e_cur e - 1)) else kret e) e z (a_left z).
Proof.
  intros R. unfold a_left. rewrite (rep_cur _ _ R). destruct (zl z) as [|x l] eqn:Ez; [by apply steps_same|].
  replace (0 <? _) with true by (symmetry; apply Z.ltb_lt; cbn; lia). eapply (move_steps _ _ _ _ _ [8]); [done| | |].
  - unfold text. rewrite Ez. cbn [rev]. by rewrite <-app_assoc.
  - cbn [length]. replace (Z.of_nat (S (length l)) - 1) with (Z.of_nat (length l)) by lia. apply does_bind_ret. by apply print_one_does.
  - intros k. rewrite Ez. change [8] with (replicate 1 8). rewrite tty_back. cbn [length]. f_equal. lia.
Qed.

Lemma right_steps e z h : wf h z → rep e z →
  steps (if e_cur e <? e_len e then let* x := lift (zlookup (e_buf e) (e_cur e)) in print_one os x ;;; kret (at_cur e (e_cur e + 1)) else kret e) e z (a_right z).
Proof.
  intros [T _ _ _] R. unfold a_right. rewrite (rep_cur _ _ R), (rep_len _ _ R). destruct (fine_parts _ _ T) as [H0 H8]. destruct (rep_buf _ _ R) as [rest B].
  destruct (zr z) as [|x r] eqn:Ez; cbn [length]; [replace (_ <? _) with false by (symmetry; apply Z.ltb_ge; lia); by apply steps_same|].
  replace (_ <? _) with true by (symmetry; apply Z.ltb_lt; lia). apply not_elem_of_cons in H0 as [Hx _]. apply not_elem_of_cons in H8 as [Hx8 _].
  eapply (move_steps _ _ _ _ _ [x]); [done| | |].
  - unfold text. rewrite Ez. cbn [rev]. by rewrite <-app_assoc.
  - apply (does_lift _ _ x); [rewrite B; apply zlookup_mid; by rewrite length_rev|]. cbn [length].
    replace (Z.of_nat (length (zl z)) + 1) with (Z.of_nat (S (length (zl z)))) by lia. apply does_bind_ret. apply print_one_does. lia.
  - intros k. apply (tty_right z [x] r); [done|]. rewrite not_elem_of_cons. split; [lia|apply not_elem_of_nil].
Qed.

Lemma word_left_steps e z : rep e z →
  steps (let* cur := word_left os true (e_buf e) (Z.to_nat (e_cur e)) in let* cur := word_left os false (e_buf e) (Z.to_nat cur) in kret (at_cur e cur)) e z (a_word_left z).
Proof.
  intros R. unfold a_word_left. rewrite (rep_cur _ _ R), Nat2Z.id. destruct (rep_buf _ _ R) as [rest B].
  destruct (back_over_same true (zl z) (zr z)) as [E1 L1]. pose proof (word_left_does true (zl z) (zr z) (zr z ++ rest)) as D1.
  destruct (back_over true (zl z) (zr z)) as [l1 r1]. cbn [fst snd] in *.
  destruct (back_over_same false l1 r1) as [E2 L2]. pose proof (word_left_does false l1 r1 (r1 ++ rest)) as D2.
  destruct (back_over false l1 r1) as [l2 r2]. cbn [fst snd] in *. rewrite <-B in D1.
  replace (rev l1 ++ r1 ++ rest) with (e_buf e) in D2 by (rewrite B, !app_assoc; by rewrite E1).
  eapply move_steps; [done|unfold text; congruence| |].
  - eapply does_bind; [exact D1|]. cbn beta. rewrite Nat2Z.id. eapply does_bind; [exact D2|apply does_ret].
  - intros k. rewrite app_nil_r, tty_puts_app, !tty_back. f_equal. lia.
Qed.

Lemma word_right_steps e z h : wf h z → rep e z →
  steps (let* cur := word_right os false (e_buf e) (e_cur e) (Z.to_nat (e_len e - e_cur e)) in
         let* cur := word_right os true (e_buf e) cur (Z.to_nat (e_len e - cur)) in kret (at_cur e cur)) e z (a_word_right z).
Proof.
  intros [T _ _ _] R. unfold a_word_right. rewrite (rep_cur _ _ R), (rep_len _ _ R). destruct (rep_buf _ _ R) as [rest B]. destruct (fine_parts _ _ T) as [H0 H8].
  destruct (over_moves false (zr z) (zl z)) as (w1 & E1 & F1 & D1). specialize (D1 (rev (zl z)) (length_rev _) H0 rest). rewrite <-B in D1.
  destruct (over false (zl z) (zr z)) as [l1 r1]. cbn [fst snd] in *.
  destruct (over_moves true r1 l1) as (w2 & E2 & F2 & D2). destruct (over true l1 r1) as [l2 r2]. cbn [fst snd] in *.
  assert (rev l1 ++ r1 = text z) as T1 by (unfold text; by rewrite E1, F1, rev_app_distr, rev_involutive, <-app_assoc).
  specialize (D2 (rev l1) (length_rev _)). rewrite E1 in H0. apply not_elem_of_app in H0 as [_ H0]. specialize (D2 H0 rest).
  replace (rev l1 ++ r1 ++ rest) with (e_buf e) in D2 by (rewrite B, !app_assoc; by rewrite T1).
  assert (zr z = (w1 ++ w2) ++ r2) as Ew by (rewrite <-app_assoc; congruence).
  eapply (move_steps _ _ _ _ _ (w1 ++ w2)); [done| | |].
  - unfold text. rewrite Ew, F2, F1, !rev_app_distr, !rev_involutive, <-!app_assoc. done.
  - replace (Z.to_nat _) with (length (zr z)) by lia. eapply does_bind; [exact D1|]. cbn beta.
    replace (Z.to_nat _) with (length r1) by (apply (f_equal length) in T1; rewrite text_length, length_app, length_rev in T1; lia).
    rewrite <-(app_nil_r w2). eapply does_bind; [exact D2|apply does_ret].
  - intros k. rewrite (tty_right z (w1 ++ w2) r2); [by rewrite F2, F1, rev_app_distr, <-app_assoc|done|].
    rewrite Ew in H8. by apply not_elem_of_app in H8 as [H8 _].
Qed.

(** ** The history keys *)

Lemma recall_does e src r : fine src → (256 ≤ length (e_buf e))%nat →
  does (recall os e (src ++ 0 :: r)) (Editor (src ++ 0 :: drop (S (length src)) (e_buf e)) (Z.of_nat (length src)) (Z.of_nat (length src)) (e_current_input e)) src.
Proof.
  intros (Hl & H0 & _) Sz. unfold recall. apply (does_lift _ _ (src ++ 0 :: drop (S (length src)) (e_buf e))).
  { exact (strcpy_loop_fits src r [] (e_buf e) H0 ltac:(lia)). }
  apply (does_lift _ _ (Z.of_nat (length src))); [unfold ulib_strlen; rewrite strlen_loop_app by done; f_equal; lia|].
  apply does_bind_ret. destruct src as [|c src]; [apply does_ret|]. replace (0 <? _) with true by (symmetry; apply Z.ltb_lt; cbn; lia). by apply ulib_print_does.
Qed.

(** Blanking the line and printing another in its place *)
Lemma replace_tty z z' src t : fine src → rev (zl z') = src → zr z' = [] → shows z t →
  shows z' (tty_puts t ((replicate (length (zl z)) 8 ++ replicate (length (text z)) 32 ++ replicate (length (text z)) 8) ++ src)).
Proof.
  intros (_ & _ & H8) El Er (k & ->). rewrite tty_puts_app, clear_tty. rewrite drop_app_length.
  pose proof (tty_text src [] (replicate (length (text z)) 32 ++ replicate k 32) H8) as E. cbn [app length Nat.add] in E. rewrite E.
  exists (length (text z) + k - length src)%nat. assert (text z' = src) as -> by (unfold text; by rewrite El, Er, app_nil_r).
  rewrite <-(length_rev (zl z')), El. by rewrite <-replicate_add, drop_replicate.
Qed.

Lemma replace_rep e z p saved : (256 ≤ length (e_buf e))%nat → fine z → (∃ rest, e_current_input e = saved ++ 0 :: rest) → length (e_current_input e) = 256%nat →
  rep (Editor (z ++ 0 :: drop (S (length z)) (e_buf e)) (Z.of_nat (length z)) (Z.of_nat (length z)) (e_current_input e)) (ALine (rev z) [] p saved).
Proof.
  intros Sz (Hl & _) S1 S2. split; cbn [e_buf e_cur e_len e_current_input zl zr a_saved length]; try done.
  - exists (0 :: drop (S (length z)) (e_buf e)). by rewrite rev_involutive.
  - rewrite length_app. cbn [length]. rewrite length_drop. lia.
  - by rewrite length_rev.
  - rewrite length_rev. f_equal. lia.
Qed.

(** What any key has to do, from the shell [s] whose history is [h] *)
Definition run_step (m : kM shell editor) (h : list (list Z)) (s : shell) (z z' : aline) : Prop :=
  ∃ e' s' w, m s = Ret e' s' ∧ wrote w 0 s s' ∧ history_current s' = Z.of_nat (a_pos z') ∧ rep e' z' ∧ ∀ t, shows z t → shows z' (tty_puts t w).

Lemma steps_run m e h s z z' : steps m e z z' → history_current s = Z.of_nat (a_pos z) → a_pos z' = a_pos z → run_step m h s z z'.
Proof. intros (e' & w & D & R & T) Hc Hp. destruct (D s) as (s' & E & W & C). exists e', s', w. rewrite Hp, C. done. Qed.

(** The common end of both keys: the cursor of the history moves to [p], the line
    becomes [src]. *)
Lemma replace_run (m : kM shell editor) h s e z p src saved r : rep e z → fine src → (∃ rest, e_current_input e = saved ++ 0 :: rest) →
  m s = kbind (kmodify (set_history_current (Z.of_nat p))) (λ _, kbind (clear_line os (e_cur e) (e_len e)) (λ _, recall os e (src ++ 0 :: r))) s →
  run_step m h s z (ALine (rev src) [] p saved).
Proof.
  intros R F Sv Em. pose proof (rep_size _ _ R) as Sz. pose proof (rep_input _ _ R) as In.
  destruct (does_bind _ (λ _, recall os e (src ++ 0 :: r)) _ _ _ _ (clear_does (length (zl z)) (length (text z))) (recall_does e src r F Sz)
    (set_history_current (Z.of_nat p) s)) as (s' & E & W & C).
  eexists _, s', _. split; [|split; [|split; [|split]]].
  - rewrite Em, (rep_cur _ _ R), (rep_len _ _ R), <-text_length. exact E.
  - exact (wrote_trans [] _ 0 0 _ _ _ (wrote_pos s (Z.of_nat p)) W).
  - by rewrite C.
  - by apply replace_rep.
  - intros t Ht. apply (replace_tty z (ALine (rev src) [] p saved) src); [done|apply rev_involutive|done|done].
Qed.

Lemma nth_fine h p : Forall fine h → fine (nth p h []).
Proof.
  intros F. destruct (nth_in_or_default p h []) as [H| ->]; [rewrite Forall_forall in F; apply F; by apply list_elem_of_In|].
  split; [cbn; lia|split; apply not_elem_of_nil].
Qed.

Lemma lookup_nth {A} (h : list A) p d : (p < length h)%nat → h !! p = Some (nth p h d).
Proof. intros H. destruct (lookup_lt_is_Some_2 h p H) as [x E]. by rewrite (nth_lookup_Some _ _ _ _ E). Qed.

Lemma run_same m h e z s : m s = Ret e s → rep e z → history_current s = Z.of_nat (a_pos z) → run_step m h s z z.
Proof. intros E R Ec. exists e, s, []. split; [done|]. split; [apply wrote_nothing|]. by split. Qed.

(** The text typed so far is put aside. *)
Lemma put_aside e z : rep e z → fine (text z) → ∃ e', (b ← zset (e_buf e) (e_len e) 0; ci ← ulib_strcpy (e_current_input e) b;
    Some (Editor b (e_cur e) (e_len e) ci)) = Some e' ∧ rep e' (ALine (zl z) (zr z) (a_pos z) (text z)).
Proof.
  intros [[rest B] Sz Cu Le Sa In] (Hl & H0 & _). pose proof (text_length z) as TL.
  assert (∃ y rest', rest = y :: rest') as (y & rest' & ->).
  { rewrite B, !length_app, length_rev in Sz. destruct rest; [cbn in Sz; lia|eauto]. }
  rewrite B, app_assoc, zset_mid by (rewrite length_app, length_rev; lia). cbn [mbind option_bind]. unfold ulib_strcpy.
  pose proof (strcpy_loop_fits (text z) rest' [] (e_current_input e) H0 ltac:(lia)) as E. cbn [app length] in E. change (Z.of_nat 0) with 0 in E. unfold text in E at 1. rewrite E. cbn [mbind option_bind].
  eexists. split; [done|]. split; cbn [e_buf e_cur e_len e_current_input zl zr a_saved]; try done.
  - exists (0 :: rest'). by rewrite app_assoc.
  - rewrite B, !length_app in Sz. rewrite !length_app. cbn [length] in *. lia.
  - by eexists.
  - rewrite length_app. cbn [length]. rewrite length_drop. lia.
Qed.

Lemma key_up_run h e z s : wf h z → rep e z → history s = h → history_current s = Z.of_nat (a_pos z) → run_step (key_up os e) h s z (a_up h z).
Proof.
  intros [T P Sa Hh] R Eh Ec. unfold a_up. destruct (a_pos z) as [|p] eqn:Ep.
  { apply (run_same _ _ e); [|done|by rewrite Ep]. unfold key_up, kbind, kget. by rewrite Ec. }
  assert (h !! p = Some (nth p h [])) as Hp by (apply lookup_nth; lia).
  assert (∀ e1 saved, (if history_current s =? Z.of_nat (length (history s)) then b ← zset (e_buf e) (e_len e) 0; ci ← ulib_strcpy (e_current_input e) b;
      Some (Editor b (e_cur e) (e_len e) ci) else Some e) = Some e1 → rep e1 (ALine (zl z) (zr z) (a_pos z) saved) →
      run_step (key_up os e) h s z (ALine (rev (nth p h [])) [] p saved)) as Hgo.
  { intros e1 saved E1 R1. apply (replace_run (key_up os e) h s e1 (ALine (zl z) (zr z) (a_pos z) saved) p (nth p h []) saved []);
      [done|by apply nth_fine|exact (rep_saved _ _ R1)|].
    unfold key_up. unfold kbind at 1, kget. replace (0 <? history_current s) with true by (symmetry; apply Z.ltb_lt; lia). rewrite E1.
    replace (history_current s - 1) with (Z.of_nat p) by lia. rewrite zlookup_nat, Eh, Hp. done. }
  rewrite Ec, Eh in Hgo. destruct (Nat.eqb_spec (S p) (length h)) as [E|E].
  - destruct (put_aside e z R T) as (e1 & E1 & R1). apply (Hgo e1); [|done]. by replace (Z.of_nat (S p) =? Z.of_nat (length h)) with true by (symmetry; apply Z.eqb_eq; lia).
  - apply (Hgo e); [by replace (Z.of_nat (S p) =? Z.of_nat (length h)) with false by (symmetry; apply Z.eqb_neq; lia)|]. by destruct z.
Qed.

Lemma key_down_run h e z s : wf h z → rep e z → history s = h → history_current s = Z.of_nat (a_pos z) → run_step (key_down os e) h s z (a_down h z).
Proof.
  intros [T P Sa Hh] R Eh Ec. unfold a_down. destruct (Nat.ltb_spec (a_pos z) (length h)) as [L|L].
  2:{ apply (run_same _ _ e); [|done..]. unfold key_down, kbind, kget. rewrite Ec, Eh. by replace (_ <? _) with false by (symmetry; apply Z.ltb_ge; lia). }
  destruct (rep_saved _ _ R) as [r Er].
  destruct (Nat.eqb_spec (S (a_pos z)) (length h)) as [E|E].
  - apply (replace_run (key_down os e) h s e z (S (a_pos z)) (a_saved z) (a_saved z) r); [done|done|by exists r|].
    unfold key_down. unfold kbind at 1, kget. rewrite Ec, Eh. replace (_ <? _) with true by (symmetry; apply Z.ltb_lt; lia).
    replace (Z.of_nat (a_pos z) + 1) with (Z.of_nat (S (a_pos z))) by lia. replace (_ =? _) with true by (symmetry; apply Z.eqb_eq; lia). by rewrite <-Er.
  - apply (replace_run (key_down os e) h s e z (S (a_pos z)) (nth (S (a_pos z)) h []) (a_saved z) []); [done|by apply nth_fine|by exists r|].
    unfold key_down. unfold kbind at 1, kget. rewrite Ec, Eh. replace (_ <? _) with true by (symmetry; apply Z.ltb_lt; lia).
    replace (Z.of_nat (a_pos z) + 1) with (Z.of_nat (S (a_pos z))) by lia. replace (_ =? _) with false by (symmetry; apply Z.eqb_neq; lia).
    assert (h !! S (a_pos z) = Some (nth (S (a_pos z)) h [])) as Hp by (apply lookup_nth; lia). rewrite zlookup_nat, Hp. done.
Qed.

(** ** The loop *)

Lemma fine_sub l l' : fine l → l' `sublist_of` l → fine l'.
Proof.
  intros (Hl & H0 & H8) S. split; [apply sublist_length in S; lia|].
  split; intros H; [apply H0|apply H8]; by apply (sublist_subseteq _ _ S).
Qed.

Lemma a_key_wf h z c : wf h z → wf h (a_key h z c).
Proof.
  intros W. pose proof W as [T P Sa Hh].
  assert (∀ l r, rev l ++ r = text z → wf h (with_zip l r z)) as Hm by (intros l r E; split; cbn; try done; unfold text; cbn; by rewrite E).
  unfold a_key. repeat (match goal with |- wf _ (if ?b then _ else _) => destruct b eqn:? end); try done; zify_bool.
  - unfold a_backspace. destruct (zl z) as [|x l] eqn:E; [done|]. split; cbn; try done. apply (fine_sub _ _ T). unfold text. rewrite E. cbn.
    rewrite <-app_assoc. apply sublist_app; [done|]. by apply sublist_cons.
  - unfold a_left. destruct (zl z) as [|x l] eqn:E; [done|]. apply Hm. unfold text. rewrite E. cbn [rev]. by rewrite <-app_assoc.
  - unfold a_right. destruct (zr z) as [|x r] eqn:E; [done|]. apply Hm. unfold text. rewrite E. cbn [rev]. by rewrite <-app_assoc.
  - unfold a_word_left. destruct (back_over_same true (zl z) (zr z)) as [E1 _]. destruct (back_over true _ _) as [l1 r1].
    destruct (back_over_same false l1 r1) as [E2 _]. destruct (back_over false l1 r1) as [l2 r2]. apply Hm. unfold text. cbn in *. congruence.
  - unfold a_word_right. destruct (over_moves false (zr z) (zl z)) as (w1 & E1 & F1 & _). destruct (over false _ _) as [l1 r1].
    destruct (over_moves true r1 l1) as (w2 & E2 & F2 & _). destruct (over true l1 r1) as [l2 r2]. apply Hm. unfold text. cbn [fst snd] in *.
    rewrite F2, F1, !rev_app_distr, !rev_involutive, <-!app_assoc. congruence.
  - unfold a_up. destruct (a_pos z) as [|p] eqn:E; [done|]. split; [|cbn; lia| |done].
    + unfold text. cbn [zl zr]. rewrite rev_involutive, app_nil_r. by apply nth_fine.
    + cbn [a_saved]. by destruct (S p =? length h)%nat.
  - unfold a_down. destruct (Nat.ltb_spec (a_pos z) (length h)); [|done]. split; [|cbn; lia|done..].
    unfold text. cbn [zl zr]. rewrite rev_involutive, app_nil_r. destruct (_ =? _)%nat; [done|by apply nth_fine].
  - unfold a_insert. destruct (Nat.ltb_spec (length (text z)) 255) as [HT|HT]; [|done]. split; cbn; try done. destruct T as (Hl & Hn0 & Hn8). unfold text in *. cbn.
    rewrite <-app_assoc. cbn [app]. split; [rewrite !length_app in *; cbn; lia|]. rewrite !not_elem_of_app, !not_elem_of_cons in *. split; (split; [tauto|split; [lia|tauto]]).
Qed.

Lemma edit_key_run h c e z s : wf h z → rep e z → history s = h → history_current s = Z.of_nat (a_pos z) → run_step (edit_key os 256 c e) h s z (a_key h z c).
Proof.
  intros W R Eh Ec. assert (∀ m z', steps m e z z' → a_pos z' = a_pos z → run_step m h s z z') as Hs by (intros; by apply (steps_run _ e)).
  unfold edit_key, a_key.
  destruct ((c =? 8) || (c =? 127)); [apply Hs; [by apply (key_backspace_steps _ _ h)|unfold a_backspace; by destruct (zl z)]|].
  destruct (c =? UABI_KEY_LEFT); [apply Hs; [by apply left_steps|unfold a_left; by destruct (zl z)]|].
  destruct (c =? UABI_KEY_RIGHT); [apply Hs; [by apply (right_steps _ _ h)|unfold a_right; by destruct (zr z)]|].
  destruct (c =? UABI_KEY_CTRL_LEFT).
  { apply Hs; [by apply word_left_steps|]. unfold a_word_left. destruct (back_over _ _ _) as [l r]. by destruct (back_over _ l r). }
  destruct (c =? UABI_KEY_CTRL_RIGHT).
  { apply Hs; [by apply (word_right_steps _ _ h)|]. unfold a_word_right. destruct (over _ _ _) as [l r]. by destruct (over _ l r). }
  destruct (c =? UABI_KEY_UP); [by apply key_up_run|]. destruct (c =? UABI_KEY_DOWN); [by apply key_down_run|].
  destruct ((32 <=? c) && (c <=? 126)) eqn:E; [|apply Hs; [by apply steps_same|done]]. zify_bool.
  apply Hs; [apply (key_insert_steps _ _ _ h); [lia|done..]|]. unfold a_insert. by destruct (_ <? _)%nat.
Qed.

(** The keyboard delivers [keys], the first to the next [getc]. *)
Definition types (s : shell) (keys : list Z) : Prop := ∀ log i k, getcs log = (i + getcs (sh_log s))%nat → keys !! i = Some k → (os log Ugetc).1 = k.
Definition ends (c : Z) : bool := (c =? 10) || (c =? 13).

Lemma types_next s s' k keys : types s (k :: keys) → getcs (sh_log s') = S (getcs (sh_log s)) → types s' keys.
Proof. intros T E log i k' Hl Hk. apply (T log (S i)); [lia|done]. Qed.
Lemma getc_run s k keys : types s (k :: keys) → ∃ s', call_ os Ugetc s = Ret k s' ∧ wrote [] 1 s s' ∧ history_current s' = history_current s ∧ types s' keys.
Proof.
  intros T. eexists. split; [unfold call_, call, kbind, kret; by rewrite (T (sh_log s) 0%nat k)|].
  split; [exists [Ugetc]; by destruct s|]. split; [done|]. by apply (types_next s _ k).
Qed.

Lemma readline_run h fin (keys : list Z) : ∀ fuel e z s, Forall (λ c, ends c = false) keys → ends fin = true → (length keys < fuel)%nat → types s (keys ++ [fin]) →
  wf h z → rep e z → history s = h → history_current s = Z.of_nat (a_pos z) →
  let z' := fold_left (a_key h) keys z in
  ∃ b s' w rest, readline_loop os fuel 256 e s = Ret b s' ∧ b = text z' ++ 0 :: rest ∧ fine (text z') ∧ wrote (w ++ [10]) (S (length keys)) s s' ∧
    ∀ t, shows z t → shows z' (tty_puts t w).
Proof.
  induction keys as [|c keys IH]; intros fuel e z s Hk Hf HF HT W R Eh Ec; (destruct fuel as [|fuel]; [cbn in HF; lia|]); cbn [readline_loop fold_left app] in *.
  - destruct (getc_run _ _ _ HT) as (s1 & E1 & W1 & C1 & T1). destruct (print_one_does 10 ltac:(done) s1) as (s2 & E2 & P2 & _).
    destruct R as [[rest B] Sz Cu Le Sa In]. pose proof (text_length z) as TL. destruct (wf_text _ _ W) as (HL & _).
    assert (∃ y rest', rest = y :: rest') as (y & rest' & ->) by (rewrite B, !length_app, length_rev in Sz; destruct rest; [cbn in Sz; lia|eauto]).
    exists (text z ++ 0 :: rest'), s2, [], rest'. split.
    + rewrite (kbind_ret _ _ _ _ _ E1). fold (ends fin). rewrite Hf, (kbind_ret _ _ _ _ _ E2). unfold lift, kget_opt.
      by rewrite B, app_assoc, zset_mid by (rewrite length_app, length_rev; lia).
    + split; [done|]. split; [apply W|]. split; [exact (wrote_trans _ _ _ _ _ _ _ W1 P2)|done].
  - apply Forall_cons in Hk as [Hc Hk]. destruct (getc_run _ _ _ HT) as (s1 & E1 & W1 & C1 & T1).
    destruct (edit_key_run h c e z s1) as (e' & s2 & w & E2 & W2 & C2 & R2 & S2); [done|done|by rewrite (wrote_history _ _ _ _ W1)|congruence|].
    destruct (IH fuel e' (a_key h z c) s2) as (b & s3 & w' & rest & E3 & Hb & F3 & W3 & S3); [done|done|cbn in HF; lia| |by apply a_key_wf|done| |done|].
    { intros log i k Hl. apply T1. rewrite Hl. by rewrite (wrote_getcs _ _ _ _ W2). }
    { by rewrite (wrote_history _ _ _ _ W2), (wrote_history _ _ _ _ W1). }
    exists b, s3, (w ++ w'), rest. split; [|split; [done|split; [done|split]]].
    + rewrite (kbind_ret _ _ _ _ _ E1). fold (ends c). by rewrite Hc, (kbind_ret _ _ _ _ _ E2).
    + rewrite <-app_assoc. exact (wrote_trans [] _ 1 _ _ _ _ W1 (wrote_trans _ _ _ _ _ _ _ W2 W3)).
    + intros t Ht. rewrite tty_puts_app. apply S3, S2, Ht.
Qed.

Definition a_start (h : list (list Z)) : aline := ALine [] [] (length h) [].

(** C10. The line editor: whatever keys are typed before the newline, [sh_readline]
    returns the text the abstract editor holds after them, at most 255
    characters and NUL-terminated inside the array, having read exactly those
    keys and changed no variable of the shell but its place in the history.  What
    it wrote keeps the terminal showing that text, with the cursor at the
    editor's, on a terminal whose backspace moves without erasing. *)
Theorem sh_readline_ok h keys fin fuel buf s : history s = h → Forall fine h → Forall (λ c, ends c = false) keys → ends fin = true →
  types s (keys ++ [fin]) → (length keys < fuel)%nat → (256 ≤ length buf)%nat →
  let z := fold_left (a_key h) keys (a_start h) in
  ∃ b s' w rest, sh_readline os fuel buf 256 s = Ret b s' ∧ b = text z ++ 0 :: rest ∧ fine (text z) ∧
    wrote (w ++ [10]) (S (length keys)) s s' ∧ shows z (tty_puts ([], 0%nat) w).
Proof.
  intros Eh Fh Hk Hf HT HF Hb z. assert (fine []) as Fn by (split; [cbn; lia|split; apply not_elem_of_nil]).
  destruct (readline_run h fin keys fuel (Editor buf 0 0 (replicate 256 0)) (a_start h) (set_history_current (Z.of_nat (length h)) s))
    as (b & s' & w & rest & E & Hr & F & W & Sh); try done.
  { split; cbn; try done. by exists buf. by exists (replicate 255 0). }
  exists b, s', w, rest. split; [unfold sh_readline; rewrite <-E, <-Eh; done|]. split; [done|]. split; [done|].
  split; [exact (wrote_trans [] _ 0 _ _ _ _ (wrote_pos s _) W)|]. apply Sh. exists 0%nat. done.
Qed.

End readline.

(** A keyboard that types [keys] *)
Definition typist (keys : list Z) : answers := λ log c, match c with Ugetc => (nth (getcs log) keys 10, []) | _ => (0, []) end.
Definition demo_keys : list Z := str "lx -a" ++ [131; 131; 131; 8; 115; UABI_KEY_UP; UABI_KEY_DOWN].
Definition demo_shell : shell := set_history [str "ps"] sh_init.

Lemma sh_readline_ok_witness :
  let z := fold_left (a_key [str "ps"]) demo_keys (a_start [str "ps"]) in
  ∃ b s' w rest, sh_readline (typist (demo_keys ++ [10])) 13 (replicate 512 0) 256 demo_shell = Ret b s' ∧ b = text z ++ 0 :: rest ∧ fine (text z) ∧
    wrote (w ++ [10]) (S (length demo_keys)) demo_shell s' ∧ shows z (tty_puts ([], 0%nat) w).
Proof.
  apply (sh_readline_ok (typist (demo_keys ++ [10])) [str "ps"] demo_keys 10 13 (replicate 512 0) demo_shell).
  - reflexivity.
  - constructor; [|constructor]. split; [cbn; lia|]. split; apply (bool_decide_unpack _); by vm_compute.
  - apply (bool_decide_unpack _). by vm_compute.
  - reflexivity.
  - intros log i k Hl Hk. rewrite Nat.add_0_r in Hl. cbn [typist fst]. rewrite Hl. by apply nth_lookup_Some.
  - cbn. lia.
  - vm_compute. lia.
Defined.

(** The text edited: [lx -a] with the [x] replaced, through the history and back *)
Lemma demo_text : text (fold_left (a_key [str "ps"]) demo_keys (a_start [str "ps"])) = str "ls -a".
Proof. reflexivity. Qed.
