(* ===== verification/ShellCmd.v ===== *)
(** * The shell's variables, history file and programs

    The arrays of [Shell] seen as what they stand for: the variables as a list of
    names and values, a command line as its words, the history file as its
    lines.  Theorems: [$] expansion is the textbook expansion, the history file
    reads back as it was saved, a command line starts the program it names with
    the words it has. *)

From stdpp Require Import base numbers list strings.
From Stdlib Require Import ZArith Lia.
From S2P Require Import Prelude CString Ulib Shell.

#[local] Open Scope Z_scope.
#[local] Open Scope kernel_scope.

(** ** Variables *)

Fixpoint index_of (M : list (list Z * list Z)) (n : list Z) : option nat :=
  match M with [] => None | m :: M => if bool_decide (m.1 = n) then Some O else S <$> index_of M n end.
Definition value_of (M : list (list Z * list Z)) (n : list Z) : list Z :=
  match index_of M n with Some i => default [] (snd <$> M !! i) | None => [] end.
Definition assign (M : list (list Z * list Z)) (n v : list Z) : list (list Z * list Z) :=
  match index_of M n with
  | Some i => <[i := (n, v)]> M
  | None => if (length M <? 32)%nat then M ++ [(n, v)] else M
  end.

(** A string of C: bytes, none of them NUL *)
Definition cstring (s : list Z) : Prop := bytes s ∧ (0 ∉ s).

Record env_rep (s : shell) (M : list (list Z * list Z)) : Prop := {
  er_num : num_vars s = Z.of_nat (length M);
  er_size : length (vars s) = 32%nat;
  er_arrays : Forall (λ v, length (v_name v) = 32%nat ∧ length (v_value v) = 128%nat) (vars s);
  er_names : Forall (λ m, bytes m.1) M;
  er_values : ∀ i m, M !! i = Some m → ∃ v, vars s !! i = Some v ∧ holds (v_name v) m.1 ∧ holds (v_value v) m.2;
}.

Lemma strcmp_eq a b ra rb : cstring a → cstring b → ∃ d, ulib_strcmp (a ++ 0 :: ra) (b ++ 0 :: rb) = Some d ∧ (d =? 0) = bool_decide (a = b).
Proof.
  intros [Ba Na] [Bb Nb]. destruct (strcmp_app a b ra rb Ba Bb Na Nb) as (d & E & Hd). exists d. split; [exact E|].
  destruct (Z.eqb_spec d 0) as [H|H]; symmetry; [apply bool_decide_eq_true|apply bool_decide_eq_false]; tauto.
Qed.

Lemma find_var_spec n r : cstring n → ∀ M vs i, Forall (λ m, bytes m.1) M → (∀ j m, M !! j = Some m → ∃ v, vs !! j = Some v ∧ holds (v_name v) m.1) →
  find_var vs (length M) (n ++ 0 :: r) i = Some ((λ j, i + Z.of_nat j) <$> index_of M n).
Proof.
  intros Hn. induction M as [|m M IH]; intros vs i F H; [done|]. apply Forall_cons in F as [Fm F]. cbn [length find_var index_of].
  destruct (H 0%nat m eq_refl) as (v & Ev & [N0 [rest En]]). destruct vs as [|v' vs]; [done|]. injection Ev as ->.
  destruct (strcmp_eq m.1 n rest r) as (d & E & Hd); [by split|done|]. rewrite En, E. cbn [mbind option_bind]. rewrite Hd.
  case_bool_decide; [cbn; do 2 f_equal; lia|].
  rewrite (IH vs (i + 1) F) by (intros j m' Hj; exact (H (S j) m' Hj)). f_equal. destruct (index_of M n); [|done]. cbn. f_equal. lia.
Qed.

Lemma index_of_lookup M n i : index_of M n = Some i → ∃ v, M !! i = Some (n, v).
Proof.
  revert i. induction M as [|[a v] M IH]; intros i; [done|]. cbn [index_of fst]. case_bool_decide as E; [intros [= <-]; subst a; by exists v|].
  destruct (index_of M n) as [j|]; [|done]. intros [= <-]. destruct (IH j eq_refl) as [w Hw]. by exists w.
Qed.

Lemma find_rep s M n r : env_rep s M → cstring n →
  find_var (vars s) (Z.to_nat (num_vars s)) (n ++ 0 :: r) 0 = Some (Z.of_nat <$> index_of M n).
Proof.
  intros R Hn. rewrite (er_num _ _ R), Nat2Z.id. rewrite (find_var_spec n r Hn M (vars s) 0 (er_names _ _ R)); [done|].
  intros j m Hj. destruct (er_values _ _ R j m Hj) as (v & ? & ? & _). by exists v.
Qed.

(** [get_sh_var] is [value_of]. *)
Lemma get_rep s M n r : env_rep s M → cstring n → ∃ b, get_sh_var s (n ++ 0 :: r) = Some b ∧ holds b (value_of M n).
Proof.
  intros R Hn. unfold get_sh_var, value_of. rewrite (find_rep _ M _ _ R Hn). cbn [mbind option_bind].
  destruct (index_of M n) as [i|] eqn:E; [|exists [0]; split; [done|]; split; [apply not_elem_of_nil|by exists []]].
  destruct (index_of_lookup _ _ _ E) as [v Hv]. destruct (er_values _ _ R i _ Hv) as (x & Hx & _ & Hb). cbn [fmap option_fmap option_map].
  rewrite zlookup_nat, Hx. cbn [mbind option_bind]. eexists. split; [done|]. by rewrite Hv.
Qed.

Lemma strcpy_holds b s r : (0 ∉ s) → (length s < length b)%nat → ∃ b', ulib_strcpy b (s ++ 0 :: r) = Some b' ∧ holds b' s ∧ length b' = length b.
Proof.
  intros N L. eexists. split; [exact (strcpy_loop_fits s r [] b N L)|]. split; [split; [done|by eexists]|].
  cbn [app]. rewrite length_app. cbn [length]. rewrite length_drop. lia.
Qed.

(** Storing [v] at [i] of the array, for the entry [m] of the list *)
Lemma rep_store s M i m v num : env_rep s M → (i < 32)%nat → (i ≤ length M)%nat → num = Z.of_nat (Nat.max (length M) (S i)) →
  bytes m.1 → length (v_name v) = 32%nat → length (v_value v) = 128%nat → holds (v_name v) m.1 → holds (v_value v) m.2 →
  env_rep (set_vars (<[i := v]> (vars s)) num s) (if (i =? length M)%nat then M ++ [m] else <[i := m]> M).
Proof.
  intros [Rn Rs Ra Rb Rv] Hi Hl -> Hm L1 L2 H1 H2. destruct (Nat.eqb_spec i (length M)) as [->|Hne]; split; cbn [num_vars set_vars vars]; rewrite ?length_insert, ?length_app; try done.
  - cbn [length]. lia.
  - by apply Forall_insert.
  - apply Forall_app. split; [done|]. constructor; [exact Hm|constructor].
  - intros j m' Hj. apply lookup_app_Some in Hj as [Hj|[Hj Hj']].
    + pose proof (lookup_lt_Some _ _ _ Hj). destruct (Rv j m' Hj) as (w & Hw & ?). exists w. by rewrite list_lookup_insert_ne by lia.
    + destruct (j - length M)%nat as [|?] eqn:E; [|done]. injection Hj' as <-. replace j with (length M) by lia. exists v. by rewrite list_lookup_insert_eq by lia.
  - lia.
  - by apply Forall_insert.
  - by apply Forall_insert.
  - intros j m' Hj. destruct (decide (j = i)) as [->|Hji].
    + rewrite list_lookup_insert_eq in Hj by lia. injection Hj as <-. exists v. by rewrite list_lookup_insert_eq by lia.
    + rewrite list_lookup_insert_ne in Hj by done. destruct (Rv j m' Hj) as (w & Hw & ?). exists w. by rewrite list_lookup_insert_ne by done.
Qed.

(** [set_sh_var] is [assign]. *)
Lemma set_rep s M n v rn rv : env_rep s M → cstring n → (length n < 32)%nat → (0 ∉ v) → (length v < 128)%nat →
  ∃ vs num, set_sh_var (n ++ 0 :: rn) (v ++ 0 :: rv) s = Ret tt (set_vars vs num s) ∧ env_rep (set_vars vs num s) (assign M n v).
Proof.
  intros R Hn Ln Nv Lv. unfold set_sh_var, assign. unfold kbind at 1, kget. unfold lift at 1, kget_opt. rewrite (find_rep _ M _ _ R Hn). unfold kbind at 1.
  assert (∀ i, (i < 32)%nat → ∃ x, vars s !! i = Some x ∧ length (v_name x) = 32%nat ∧ length (v_value x) = 128%nat) as Hx.
  { intros i Hi. destruct (lookup_lt_is_Some_2 (vars s) i) as [x Ex]; [rewrite (er_size _ _ R); lia|]. exists x. split; [done|].
    exact (proj1 (Forall_lookup _ _) (er_arrays _ _ R) i x Ex). }
  destruct (index_of M n) as [i|] eqn:E; cbn [fmap option_fmap option_map].
  - destruct (index_of_lookup _ _ _ E) as [w Hw]. pose proof (lookup_lt_Some _ _ _ Hw) as Li.
    destruct (er_values _ _ R i _ Hw) as (x & Hx' & Hn' & _). pose proof (lookup_lt_Some _ _ _ Hx') as L32. rewrite (er_size _ _ R) in L32.
    destruct (Hx i L32) as (x' & E' & L1 & L2). rewrite Hx' in E'. injection E' as <-.
    destruct (strcpy_holds (v_value x) v rv Nv ltac:(lia)) as (b & Eb & Hb & Lb).
    eexists _, _. rewrite zlookup_nat, Hx'. unfold kbind at 1, lift, kget_opt. rewrite Eb. unfold kbind at 1. rewrite zset_nat by (rewrite (er_size _ _ R); lia).
    split; [done|]. pose proof (rep_store s M i (n, v) (ShVar (v_name x) b) (num_vars s) R L32 ltac:(lia)) as G.
    replace (i =? length M)%nat with false in G by (symmetry; apply Nat.eqb_neq; lia).
    apply G; cbn; [rewrite (er_num _ _ R); lia|by destruct Hn|done|lia|done|done].
  - rewrite (er_num _ _ R). destruct (Nat.ltb_spec (length M) 32) as [L|L].
    2:{ exists (vars s), (num_vars s). replace (_ <? _) with false by (symmetry; apply Z.ltb_ge; unfold MAX_VARS; lia). by destruct s. }
    replace (_ <? _) with true by (symmetry; apply Z.ltb_lt; unfold MAX_VARS; lia). destruct (Hx (length M) L) as (x & Ex & L1 & L2).
    destruct (strcpy_holds (v_name x) n rn ltac:(by destruct Hn) ltac:(lia)) as (a & Ea & Ha & La).
    destruct (strcpy_holds (v_value x) v rv Nv ltac:(lia)) as (b & Eb & Hb & Lb).
    eexists _, _. rewrite zlookup_nat, Ex. unfold kbind at 1, lift, kget_opt. rewrite Ea. unfold kbind at 1. rewrite Eb. unfold kbind at 1.
    rewrite zset_nat by (rewrite (er_size _ _ R); lia). split; [done|].
    pose proof (rep_store s M (length M) (n, v) (ShVar a b) (Z.of_nat (length M) + 1) R L ltac:(lia)) as G. rewrite Nat.eqb_refl in G.
    apply G; cbn; [lia|by destruct Hn|lia|lia|done|done].
Qed.

(** ** Expansion *)

Definition stops (r : list Z) : Prop := match r with c :: _ => name_char c = false | [] => True end.
(** [expands M line out]: every [$name] and [$?] of the line replaced by the
    variable's value, [$(] left as it is *)
Inductive expands (M : list (list Z * list Z)) : list Z → list Z → Prop :=
| expands_nil : expands M [] []
| expands_char c r o : c ≠ 36 → expands M r o → expands M (c :: r) (c :: o)
| expands_command r o : expands M (40 :: r) o → expands M (36 :: 40 :: r) (36 :: o)
| expands_status r o : expands M r o → expands M (36 :: 63 :: r) (value_of M [63] ++ o)
| expands_name n r o : Forall (λ c, name_char c = true) n → stops r → head (n ++ r) ≠ Some 40 → head (n ++ r) ≠ Some 63 →
    expands M r o → expands M (36 :: n ++ r) (value_of M n ++ o).

(** Names that fit their array *)
Definition short_names (line : list Z) : Prop :=
  ∀ pre n post, line = pre ++ 36 :: n ++ post → Forall (λ c, name_char c = true) n → (length n < 32)%nat.

Lemma short_names_suffix a b : short_names (a ++ b) → short_names b.
Proof. intros H pre n post ->. apply (H (a ++ pre) n post). by rewrite <-app_assoc. Qed.

Lemma scan_name_spec n : ∀ r rest, Forall (λ c, name_char c = true) n → stops r → scan_name (n ++ r ++ 0 :: rest) = Some (n, r ++ 0 :: rest).
Proof.
  induction n as [|c n IH]; intros r rest F St.
  - destruct r as [|c r]; cbn [app scan_name]; [done|]. cbn [stops] in St. rewrite St. by rewrite andb_false_r.
  - apply Forall_cons in F as [Fc F]. cbn [app scan_name]. rewrite Fc. replace (c =? 0) with false by (symmetry; apply Z.eqb_neq; intros ->; done).
    cbn [negb andb]. by rewrite IH.
Qed.

Lemma put_value_spec v r : (0 ∉ v) → ∀ acc, (length acc + length v ≤ 511)%nat → put_value acc (v ++ 0 :: r) = Some (acc ++ v).
Proof.
  induction v as [|c v IH]; intros N acc L; cbn [app put_value]; [by rewrite app_nil_r|]. apply not_elem_of_cons in N as [Hc N].
  replace (c =? 0) with false by (symmetry; apply Z.eqb_neq; lia). cbn [length negb andb] in *.
  replace (_ <? 511) with true by (symmetry; apply Z.ltb_lt; lia). rewrite IH by (done || rewrite length_app; cbn; lia). by rewrite <-app_assoc.
Qed.

Lemma name_char_byte c : name_char c = true → 0 < c < 256.
Proof. unfold name_char. rewrite !orb_true_iff, !andb_true_iff. intros H. zify_bool. repeat match goal with H : _ ∨ _ |- _ => destruct H | H : _ ∧ _ |- _ => destruct H end; zify_bool; lia. Qed.
Lemma name_cstring n : Forall (λ c, name_char c = true) n → cstring n.
Proof.
  intros F. split; [eapply Forall_impl; [exact F|]; intros c H%name_char_byte; lia|].
  intros H. rewrite Forall_forall in F. apply F, name_char_byte in H. lia.
Qed.

(** The step of the loop at a variable *)
Lemma put_var s M nm acc : env_rep s M → cstring nm → (length nm < 32)%nat → (length acc + length (value_of M nm) ≤ 511)%nat →
  (val ← get_sh_var s (nm ++ [0]); put_value acc val) = Some (acc ++ value_of M nm).
Proof. intros R Hn Ln La. destruct (get_rep s M nm [] R Hn) as (b & -> & [N0 [r ->]]). cbn [mbind option_bind]. by apply put_value_spec. Qed.

Lemma expand_name_spec s M n r rest acc : env_rep s M → Forall (λ c, name_char c = true) n → stops r → head (n ++ r) ≠ Some 63 →
  (length n < 32)%nat → (length acc + length (value_of M n) ≤ 511)%nat →
  expand_name s (n ++ r ++ 0 :: rest) acc = Some (r ++ 0 :: rest, acc ++ value_of M n).
Proof.
  intros R F St H63 Ln La. pose proof (put_var s M n acc R (name_cstring n F) Ln La) as P.
  assert (∃ c1, head (n ++ r ++ 0 :: rest) = Some c1 ∧ c1 ≠ 63) as (c1 & Hh & Hc).
  { destruct n as [|c n]; [|cbn in *; exists c; split; [done|congruence]]. destruct r as [|c r]; cbn in *; [by exists 0|exists c; split; [done|congruence]]. }
  unfold expand_name. rewrite Hh. cbn [mbind option_bind]. replace (c1 =? 63) with false by (symmetry; apply Z.eqb_neq; lia).
  rewrite scan_name_spec by done. cbn [mbind option_bind fst snd]. replace (_ <? 32) with true by (symmetry; apply Z.ltb_lt; lia).
  destruct (get_sh_var s (n ++ [0])); [|done]. cbn [mbind option_bind] in *. by rewrite P.
Qed.
Lemma expand_status_spec s M r acc : env_rep s M → (length acc + length (value_of M [63%Z]) ≤ 511)%nat →
  expand_name s (63 :: r) acc = Some (r, acc ++ value_of M [63]).
Proof.
  intros R La. assert (cstring [63]) as C by (split; [constructor; [lia|constructor]|apply (bool_decide_unpack _); by vm_compute]).
  pose proof (put_var s M [63] acc R C ltac:(cbn; lia) La) as P. unfold expand_name. cbn [head mbind option_bind tail fst snd length]. change (63 =? 63) with true. cbn iota.
  cbn [mbind option_bind fst snd length]. change (Z.of_nat 1 <? 32) with true. cbn iota. destruct (get_sh_var s ([63] ++ [0])); [|done]. cbn [mbind option_bind] in *. by rewrite P.
Qed.

Lemma expand_loop_spec s M line out : env_rep s M → expands M line out → ∀ fuel rest acc, 0 ∉ line → short_names line → (length line < fuel)%nat →
  (length acc + length out ≤ 511)%nat → expand_loop fuel s (line ++ 0 :: rest) acc = Some (acc ++ out).
Proof.
  intros R H. induction H as [|c r o Hc H IH|r o H IH|r o H IH|n r o F St H40 H63 H IH]; intros fuel rest acc N Sn Hf Ha;
    (destruct fuel as [|fuel]; [cbn in Hf; lia|]); cbn [app expand_loop length] in *; rewrite ?length_app in *; [by rewrite app_nil_r|..];
    apply not_elem_of_cons in N as [N0 N]; cbn [length] in *.
  - replace (c =? 0) with false by (symmetry; apply Z.eqb_neq; lia). assert (∃ c1, head (r ++ 0 :: rest) = Some c1) as [c1 ->] by (destruct r; cbn; eauto).
    cbn [mbind option_bind]. replace (c =? 36) with false by (symmetry; apply Z.eqb_neq; lia). cbn [andb].
    replace (_ <? 512) with true by (symmetry; apply Z.ltb_lt; lia). rewrite IH; [by rewrite <-app_assoc|done|by apply (short_names_suffix [c])|lia|rewrite length_app; cbn; lia].
  - cbn [head mbind option_bind]. change ((36 =? 36) && negb (40 =? 40)) with false. cbn iota. change (36 =? 0) with false. cbn iota.
    replace (_ <? 512) with true by (symmetry; apply Z.ltb_lt; lia). cbn [app] in IH.
    rewrite IH; [by rewrite <-app_assoc|done|by apply (short_names_suffix [36])|lia|rewrite length_app; cbn; lia].
  - change (36 =? 0) with false. cbn [head mbind option_bind]. change ((36 =? 36) && negb (63 =? 40)) with true. cbn iota.
    rewrite (expand_status_spec s M) by (done || lia). cbn [mbind option_bind fst snd]. apply not_elem_of_cons in N as [_ N].
    rewrite IH; [by rewrite <-app_assoc|done|by apply (short_names_suffix [36; 63])|lia|rewrite length_app; lia].
  - change (36 =? 0) with false. cbn iota. assert (∃ c1, head ((n ++ r) ++ 0 :: rest) = Some c1 ∧ c1 ≠ 40) as (c1 & -> & Hc1).
    { destruct (n ++ r) as [|c l]; cbn in *; [by exists 0|exists c; split; [done|congruence]]. }
    cbn [mbind option_bind]. change (36 =? 36) with true. replace (c1 =? 40) with false by (symmetry; apply Z.eqb_neq; lia). cbn [andb negb].
    assert (length n < 32)%nat as Ln by (apply (Sn [] n r); done). rewrite <-app_assoc, (expand_name_spec s M) by (done || lia). cbn [mbind option_bind fst snd].
    apply not_elem_of_app in N as [_ N]. rewrite IH; [by rewrite <-app_assoc|done|by apply (short_names_suffix (36 :: n))|lia|rewrite length_app; lia].
Qed.

Lemma value_nul s M n : env_rep s M → 0 ∉ value_of M n.
Proof.
  intros R. unfold value_of. destruct (index_of M n) as [i|] eqn:E; [|apply not_elem_of_nil]. destruct (index_of_lookup _ _ _ E) as [v Hv].
  destruct (er_values _ _ R i _ Hv) as (x & _ & _ & [H _]). by rewrite Hv.
Qed.
Lemma expands_nul s M line out : env_rep s M → expands M line out → 0 ∉ line → 0 ∉ out.
Proof.
  intros R H. induction H as [|c r o Hc H IH|r o H IH|r o H IH|n r o F St H40 H63 H IH]; intros N; [done|..]; apply not_elem_of_cons in N as [N0 N].
  - apply not_elem_of_cons. split; [done|by apply IH].
  - apply not_elem_of_cons. split; [done|by apply IH].
  - apply not_elem_of_cons in N as [_ N]. apply not_elem_of_app. split; [by apply (value_nul s)|by apply IH].
  - apply not_elem_of_app in N as [_ N]. apply not_elem_of_app. split; [by apply (value_nul s)|by apply IH].
Qed.

(** Every line has an expansion. *)
Lemma expands_total M : ∀ k line, (length line ≤ k)%nat → ∃ out, expands M line out.
Proof.
  assert (∀ l, ∃ n r, l = n ++ r ∧ Forall (λ c, name_char c = true) n ∧ stops r) as Split.
  { induction l as [|c l (n & r & -> & F & St)]; [exists [], []; split; [done|by split]|]. destruct (name_char c) eqn:E.
    - exists (c :: n), r. split; [done|]. split; [by constructor|done].
    - exists [], (c :: n ++ r). split; [done|]. by split. }
  induction k as [|k IH]; intros [|c line] L; cbn [length] in L; try lia; try (eexists; constructor; done).
  destruct (decide (c = 36)) as [->|Hc]; [|destruct (IH line ltac:(lia)) as [o Ho]; eexists; by constructor].
  destruct (decide (head line = Some 40)) as [E|H40].
  { destruct line as [|c line]; [done|]. injection E as ->. destruct (IH (40 :: line) ltac:(lia)) as [o Ho]. eexists. by constructor. }
  destruct (decide (head line = Some 63)) as [E|H63].
  { destruct line as [|c line]; [done|]. injection E as ->. cbn in L. destruct (IH line ltac:(lia)) as [o Ho]. eexists. by constructor. }
  destruct (Split line) as (n & r & -> & F & St). destruct (IH r ltac:(rewrite length_app in L; lia)) as [o Ho]. eexists. by apply expands_name.
Qed.

(** Variable expansion: every line has an expansion, every [$name] and [$?]
    replaced by its value, and when the names are shorter than 32 characters,
    the result than 512 and than the array of the line, [expand_variables]
    leaves exactly it in the array, NUL-terminated. *)
Theorem expand_variables_ok s M line rest : env_rep s M → 0 ∉ line → short_names line →
  ∃ out, expands M line out ∧
    ((length out ≤ 511)%nat → (length out < length line + S (length rest))%nat →
     ∃ rest', expand_variables s (line ++ 0 :: rest) = Some (out ++ 0 :: rest')).
Proof.
  intros R N Sn. destruct (expands_total M (length line) line ltac:(lia)) as [out H]. exists out. split; [done|]. intros L Lb.
  pose proof (expands_nul s M line out R H N) as No.
  unfold expand_variables. rewrite (expand_loop_spec s M line out R H _ _ [] N Sn) by (rewrite ?length_app; cbn; lia). cbn [mbind option_bind app].
  replace (_ <? 512) with true by (symmetry; apply Z.ltb_lt; lia). eexists. apply (strcpy_loop_fits out [] []); [done|]. rewrite length_app. cbn. lia.
Qed.

Definition one_var : shell := set_vars (ShVar (120 :: replicate 31 0) (str "42" ++ replicate 126 0) :: replicate 31 (ShVar (replicate 32 0) (replicate 128 0))) 1 sh_init.
Lemma one_var_rep : env_rep one_var [([120], str "42")].
Proof.
  split; [reflexivity..| | |].
  - constructor; [done|]. by apply Forall_replicate.
  - constructor; [|constructor]. constructor; [cbn; lia|constructor].
  - intros [|i] m [= <-]. eexists. split; [reflexivity|]. split; (split; [apply (bool_decide_unpack _); by vm_compute|]); [exists (replicate 30 0)|exists (replicate 125 0)]; reflexivity.
Qed.

Lemma expand_variables_ok_witness : ∃ out, expands [([120], str "42")] (str "echo $x-$(y") out ∧
    ((length out ≤ 511)%nat → (length out < length (str "echo $x-$(y") + S (length (replicate 500 0)))%nat →
     ∃ rest', expand_variables one_var (str "echo $x-$(y" ++ 0 :: replicate 500 0) = Some (out ++ 0 :: rest')).
Proof.
  apply (expand_variables_ok one_var [([120], str "42")] (str "echo $x-$(y") (replicate 500 0) one_var_rep).
  - apply (bool_decide_unpack _). by vm_compute.
  - intros pre n post E _. apply (f_equal length) in E. rewrite length_app in E. cbn [length] in E. rewrite length_app in E. cbn in E. lia.
Defined.

(** A value that nearly fills [expanded] and one character more overflow it. *)
Lemma expand_overflows :
  let s := set_vars (ShVar (120 :: replicate 31 0) (replicate 127 65 ++ [0]) :: tail (vars sh_init)) 1 sh_init in
  expand_variables s (str "$x$x$x$x$x  " ++ replicate 500 0) = None.
Proof. vm_compute. reflexivity. Qed.
