(* ===== verification/ShellRun.v ===== *)
(** * A command line of the shell

    From the characters typed to the program started: the words of a line, the
    tests for the shell's own commands, and the process that runs the program.
    Also the history file, written and read back. *)

From stdpp Require Import base numbers list strings.
From Stdlib Require Import ZArith Lia.
From S2P Require Import Prelude CString Ulib Shell ShellCmd.

#[local] Open Scope Z_scope.
#[local] Open Scope kernel_scope.

(** ** Words *)

(** The pieces between spaces, empty ones included *)
Fixpoint pieces (l : list Z) : list Z * list (list Z) :=
  match l with
  | [] => ([], [])
  | c :: l => let '(p, ps) := pieces l in if c =? 32 then ([], p :: ps) else (c :: p, ps)
  end.
Definition nonempty (ps : list (list Z)) : list (list Z) := filter (λ p, p ≠ []) ps.
Definition words (l : list Z) : list (list Z) := nonempty ((pieces l).1 :: (pieces l).2).
Definition blank (l : list Z) : list Z := map (λ c, if c =? 32 then 0 else c) l.

(** The string [w] is at the offset [o] of the array. *)
Definition at_off (buf : list Z) (o : Z) (w : list Z) : Prop := 0 ≤ o ∧ (0 ∉ w) ∧ ∃ t, from buf o = w ++ 0 :: t.
Lemma at_off_cons c buf o w : at_off buf o w → at_off (c :: buf) (o + 1) w.
Proof. intros (Ho & N & t & E). split; [lia|]. split; [done|]. exists t. unfold from in *. by replace (Z.to_nat (o + 1)) with (S (Z.to_nat o)) by lia. Qed.
Lemma at_off_shift c buf off offs ws : Forall2 (λ o w, at_off buf (o - (off + 1)) w) offs ws → Forall2 (λ o w, at_off (c :: buf) (o - off) w) offs ws.
Proof. intros F. eapply Forall2_impl; [exact F|]. intros o w H. replace (o - off) with (o - (off + 1) + 1) by lia. by apply at_off_cons. Qed.

Lemma first_piece l rest : (0 ∉ l) → (0 ∉ (pieces l).1) ∧ ∃ t, blank l ++ 0 :: rest = (pieces l).1 ++ 0 :: t.
Proof.
  induction l as [|c l IH]; intros N; cbn [pieces blank map app]; [split; [done|by exists rest]|]. apply not_elem_of_cons in N as [Nc N].
  destruct (IH N) as (Np & t & E). destruct (pieces l) as [p ps]. cbn [fst] in *. destruct (c =? 32); cbn [fst app]; [split; [apply not_elem_of_nil|by eexists]|].
  split; [apply not_elem_of_cons; by split|]. exists t. unfold blank in E. by rewrite E.
Qed.

(** The loop finds the words, when there are fewer of them than pointers. *)
Lemma split_words_spec l rest : (0 ∉ l) → ∀ max off,
  (∀ ws, ws = nonempty (pieces l).2 → (length ws < max)%nat →
    ∃ offs, split_words max true off (l ++ 0 :: rest) = Some (blank l ++ 0 :: rest, offs) ∧ Forall2 (λ o w, at_off (blank l ++ 0 :: rest) (o - off) w) offs ws) ∧
  (∀ ws, ws = words l → (length ws < max)%nat →
    ∃ offs, split_words max false off (l ++ 0 :: rest) = Some (blank l ++ 0 :: rest, offs) ∧ Forall2 (λ o w, at_off (blank l ++ 0 :: rest) (o - off) w) offs ws).
Proof.
  induction l as [|c l IH]; intros N max off; [split; intros ws -> L; exists []; done|]. apply not_elem_of_cons in N as [Nc N].
  pose proof (first_piece l rest N) as FP. cbn [pieces blank map app split_words]. unfold words. cbn [pieces]. destruct (pieces l) as [p ps] eqn:Ep. unfold words in IH. rewrite Ep in IH.
  replace (c =? 0) with false by (symmetry; apply Z.eqb_neq; lia). destruct (c =? 32) eqn:E32; cbn [negb andb fst snd].
  - assert (∀ ws, ws = nonempty (p :: ps) → (length ws < max)%nat → ∃ offs, match max with O => Some (c :: l ++ 0 :: rest, []) | S _ =>
        r ← split_words max false (off + 1) (l ++ 0 :: rest); Some (0 :: r.1, r.2) end = Some (0 :: blank l ++ 0 :: rest, offs) ∧
        Forall2 (λ o w, at_off (0 :: blank l ++ 0 :: rest) (o - off) w) offs ws) as G.
    { intros ws Ew L. destruct (proj2 (IH N max (off + 1)) ws Ew L) as (offs & E & F). exists offs. destruct max as [|max]; [lia|]. rewrite E. split; [done|]. by apply at_off_shift. }
    split; intros ws -> L; apply G; done.
  - split; intros ws -> L.
    + destruct (proj1 (IH N max (off + 1)) _ eq_refl L) as (offs & E & F). exists offs. rewrite E. split; [done|]. by apply at_off_shift.
    + unfold nonempty in *. rewrite filter_cons_True in * by done. cbn [length] in L. destruct max as [|max]; [lia|].
      destruct (proj1 (IH N max (off + 1)) _ eq_refl ltac:(cbn [snd]; lia)) as (offs & E & F). exists (off :: offs). rewrite E. split; [done|].
      constructor; [|by apply at_off_shift]. cbn [fst] in FP. destruct FP as (Np & t & Et). split; [lia|]. split; [apply not_elem_of_cons; by split|].
      exists t. unfold from. rewrite Z.sub_diag. cbn [drop]. unfold blank in Et. by rewrite Et.
Qed.

Lemma words_run l rest max : (0 ∉ l) → (length (words l) < max)%nat →
  ∃ offs, split_words max false 0 (l ++ 0 :: rest) = Some (blank l ++ 0 :: rest, offs) ∧ Forall2 (at_off (blank l ++ 0 :: rest)) offs (words l).
Proof.
  intros N L. destruct (proj2 (split_words_spec l rest N max 0) _ eq_refl L) as (offs & E & F). exists offs. split; [done|].
  eapply Forall2_impl; [exact F|]. intros o w H. cbn beta in H. by rewrite Z.sub_0_r in H.
Qed.

Lemma cstr_app w t : (0 ∉ w) → cstr (w ++ 0 :: t) = Some w.
Proof.
  induction w as [|c w IH]; intros N; [done|]. apply not_elem_of_cons in N as [Nc N]. cbn [app cstr].
  replace (c =? 0) with false by (symmetry; apply Z.eqb_neq; lia). by rewrite IH.
Qed.
Lemma at_off_cstr buf o w : at_off buf o w → cstr (from buf o) = Some w.
Proof. intros (_ & N & t & ->). by apply cstr_app. Qed.

(** A literal is a C string. *)
Ltac cstring_lit := split; [unfold bytes|]; apply (bool_decide_unpack _); by vm_compute.

(** ** The program of a line *)

Definition program_path (w : list Z) : list Z := str "/BIN/" ++ w ++ str ".ELF".
(** [s] after the calls [cs], newest first *)
Definition logged (cs : list ucall) (s : shell) : shell := set_log (cs ++ sh_log s) s.

Lemma strcat_holds b s1 s2 r : holds b s1 → (0 ∉ s2) → (length s1 + length s2 < length b)%nat →
  ∃ b', ulib_strcat b (s2 ++ 0 :: r) = Some b' ∧ holds b' (s1 ++ s2) ∧ length b' = length b.
Proof.
  intros [N1 [rest ->]] N2 L. unfold ulib_strcat, ulib_strlen. rewrite strlen_loop_app by done. cbn [mbind option_bind]. rewrite Z.add_0_l.
  rewrite length_app in L. rewrite (strcpy_loop_fits s2 r s1 (0 :: rest)) by (done || lia). eexists. split; [done|]. split.
  - split; [apply not_elem_of_app; by split|]. eexists. by rewrite <-app_assoc.
  - rewrite !length_app. cbn [length drop] in *. rewrite length_drop. lia.
Qed.

Section run.
Context (os : answers) (junk : nat → list Z) (junk_size : ∀ n, length (junk n) = n).

Lemma call_run c s : call_ os c s = Ret (os (sh_log s) c).1 (logged [c] s).
Proof. done. Qed.
Lemma on_path_run {A} f b p (k : Z → kM shell A) s : holds b p → on_path os f b k s = k (os (sh_log s) (f p)).1 (logged [f p] s).
Proof. intros [N [r ->]]. unfold on_path, lift, kget_opt, kbind. by rewrite cstr_app. Qed.

Lemma resolve_run w t s : (0 ∉ w) → (length w ≤ 246)%nat →
  ∃ b, try_resolve_bin os junk (w ++ 0 :: t) s = Ret ((os (sh_log s) (Ustat (program_path w))).1 =? 0, b) (logged [Ustat (program_path w)] s) ∧ holds b (program_path w).
Proof.
  intros N L. destruct (strcpy_holds (junk 256) (str "/BIN/") []) as (b1 & E1 & H1 & L1); [apply (bool_decide_unpack _); by vm_compute|rewrite junk_size; cbn; lia|].
  rewrite junk_size in L1. destruct (strcat_holds b1 _ w t H1 N ltac:(cbn; lia)) as (b2 & E2 & H2 & L2).
  destruct (strcat_holds b2 _ (str ".ELF") [] H2) as (b3 & E3 & H3 & L3); [apply (bool_decide_unpack _); by vm_compute|rewrite length_app; cbn; lia|].
  exists b3. rewrite <-app_assoc in H3. split; [|exact H3]. unfold try_resolve_bin. unfold lit. rewrite E1. cbn [mbind option_bind]. rewrite E2. cbn [mbind option_bind]. rewrite E3.
  unfold lift, kget_opt, kbind at 1. by rewrite (on_path_run _ _ _ _ _ H3).
Qed.

Lemma equals_run w t kw s : cstring w → cstring (str kw) → equals (w ++ 0 :: t) kw s = Ret (bool_decide (w = str kw)) s.
Proof.
  intros Hw Hk. destruct (strcmp_eq w (str kw) t [] Hw Hk) as (d & E & Hd). unfold equals, lift, kget_opt, kbind, kret. unfold lit. by rewrite E, Hd.
Qed.

(** No word of [argv] is a redirection. *)
Definition no_redirection (args : list (list Z)) : Prop := Forall (λ a, cstring a ∧ a ≠ str ">" ∧ a ≠ str "<") args.
Definition points (line bin : list Z) (p : aptr) (a : list Z) : Prop := p ≠ Null ∧ deref line bin p = Some a.

Lemma redirect_run line bin argv args s : Forall2 (points line bin) argv args → no_redirection args → redirect os line bin argv s = Ret argv s.
Proof.
  intros F. induction F as [|p a argv args [Hp Hd] F IH]; intros R; [done|]. apply Forall_cons in R as [(Ca & H1 & H2) R]. specialize (IH R).
  destruct p as [|o|]; [done|..]; cbn [redirect]; unfold lift, kget_opt, kbind at 1; rewrite Hd; (destruct argv as [|q argv]; [done|]);
    unfold kbind at 1; rewrite equals_run by (done || cstring_lit);
    rewrite bool_decide_false by done; unfold kbind at 1; unfold kbind at 1; rewrite equals_run by (done || cstring_lit);
    rewrite bool_decide_false by done; unfold kret at 1; unfold kbind at 1; by rewrite IH.
Qed.

Lemma exec_argv_run line bin argv args : Forall2 (points line bin) argv args → exec_argv line bin argv = Some args.
Proof. intros F. induction F as [|p a argv args [Hp Hd] F IH]; [done|]. destruct p; [done|..]; cbn [exec_argv]; rewrite Hd; cbn [mbind option_bind]; by rewrite IH. Qed.

Lemma do_exec_run line bin p a argv args s : points line bin p a → Forall2 (points line bin) argv args → 0 ≤ (os (sh_log s) (Uexec a (a :: args))).1 →
  do_exec os line bin (p :: argv) s = Hang (logged [Uexec a (a :: args)] s).
Proof.
  intros P F H. pose proof (exec_argv_run line bin (p :: argv) (a :: args) ltac:(by constructor)) as E. unfold do_exec, lift, kget_opt. cbn [head mbind option_bind].
  unfold kbind at 1. rewrite (proj2 P). unfold kbind at 1. rewrite E. rewrite (kbind_ret _ _ _ _ _ (call_run _ s)). by replace (_ <? 0) with false by (symmetry; apply Z.ltb_ge; lia).
Qed.

Lemma zlookup_from (buf : list Z) o c t : 0 ≤ o → from buf o = c :: t → zlookup buf o = Some c.
Proof.
  intros Ho E. rewrite <-(Z2Nat.id o Ho), zlookup_nat. unfold from in E. apply (f_equal head) in E. cbn [head] in E. rewrite <-E.
  rewrite <-(Nat.add_0_r (Z.to_nat o)) at 1. rewrite <-lookup_drop. by destruct (drop _ buf).
Qed.

(** What the run of a resolved program ends in, in the child and in the shell *)
Definition child_runs (s : shell) (w : list Z) (args : list (list Z)) (o : outcome shell unit) : Prop :=
  let p := program_path w in o = Hang (logged [Uexec p (p :: args); Ufork; Ustat p] s).
Definition shell_waits (s : shell) (M : list (list Z * list Z)) (w : list Z) (status : Z) (o : outcome shell unit) : Prop :=
  ∃ s' dec, o = Ret tt s' ∧ sh_log s' = [Uwait; Ufork; Ustat (program_path w)] ++ sh_log s ∧ env_rep s' (assign M (str "?") dec) ∧
    ulib_str_to_int (dec ++ [0]) = Some status.

Lemma status_run s M : env_rep s M → -2147483648 < (os (sh_log s) Uwait).1 < 2147483648 →
  ∃ vs num dec, wait_status os junk s = Ret tt (set_vars vs num (logged [Uwait] s)) ∧ env_rep (set_vars vs num (logged [Uwait] s)) (assign M (str "?") dec) ∧
    ulib_str_to_int (dec ++ [0]) = Some (os (sh_log s) Uwait).1.
Proof.
  intros R Hs. destruct (int_to_str_run _ (junk 16) Hs ltac:(rewrite junk_size; lia)) as (dec & rest & E & L & N & B).
  destruct (set_rep (logged [Uwait] s) M (str "?") dec [] rest) as (vs & num & E2 & R2); [by destruct R|cstring_lit|cbn; lia|done|lia|].
  exists vs, num, dec. unfold wait_status. rewrite (kbind_ret _ _ _ _ _ (call_run _ s)). unfold lift, kget_opt, kbind. rewrite E. split; [exact E2|].
  split; [done|]. by rewrite <-(str_to_int_rest dec rest).
Qed.

Lemma run_program_run line o0 offs w args s : at_off line o0 w → Forall2 (at_off line) offs args → cstring w → w ≠ [] → head w ≠ Some 47 → (length w ≤ 246)%nat →
  no_redirection args → let p := program_path w in (os (sh_log s) (Ustat p)).1 = 0 →
  let pid := (os (Ustat p :: sh_log s) Ufork).1 in
  (pid = 0 → 0 ≤ (os (Ufork :: Ustat p :: sh_log s) (Uexec p (p :: args))).1 → child_runs s w args (run_program os junk line (o0 :: offs) s)) ∧
  (∀ M, 0 < pid → env_rep s M → let st := (os (Ufork :: Ustat p :: sh_log s) Uwait).1 in -2147483648 < st < 2147483648 →
    shell_waits s M w st (run_program os junk line (o0 :: offs) s)).
Proof.
  intros (Ho & Nw & t & Ew) Fa Cw Hne H47 Lw NR p Hst pid. destruct (resolve_run w t s Nw Lw) as (b & Eb & Hb). fold p in Eb, Hb. rewrite Hst in Eb.
  assert (∃ c w', w = c :: w') as (c & w' & Ec) by (destruct w; [done|eauto]).
  assert (run_program os junk line (o0 :: offs) s =
    (if pid =? 0 then let* argv := redirect os line b (BinPath :: map InLine offs) in do_exec os line b argv
     else if 0 <? pid then wait_status os junk else kret tt) (logged [Ufork; Ustat p] s)) as ->.
  { unfold run_program. unfold lift at 1, kget_opt, kbind at 1. rewrite (zlookup_from line o0 c (w' ++ 0 :: t) Ho) by (rewrite Ew, Ec; done).
    replace (c =? 47) with false by (symmetry; apply Z.eqb_neq; intros ->; rewrite Ec in H47; done).
    unfold kbind at 1. unfold kbind at 1. rewrite Ew, Eb. unfold kret at 1. cbn [fst snd]. change (0 =? 0) with true. cbn iota.
    by rewrite (kbind_ret _ _ _ _ _ (call_run _ _)). }
  assert (points line b BinPath p) as PB by (split; [done|]; destruct Hb as [N [r ->]]; by apply cstr_app).
  assert (Forall2 (points line b) (map InLine offs) args) as PF.
  { apply Forall2_fmap_l. eapply Forall2_impl; [exact Fa|]. intros o a H. split; [done|]. by apply at_off_cstr. }
  split.
  - intros Hpid Hx. rewrite Hpid. change (0 =? 0) with true. cbn iota. assert (cstring p) as Cp.
    { split; [|by destruct Hb]. apply Forall_app. split; [apply (bool_decide_unpack _); by vm_compute|]. apply Forall_app. split; [apply Cw|apply (bool_decide_unpack _); by vm_compute]. }
    rewrite (kbind_ret _ _ _ _ _ (redirect_run line b (BinPath :: map InLine offs) (p :: args) _ ltac:(by constructor) ltac:(constructor; [|done]; split; [done|split; done]))).
    by rewrite (do_exec_run line b BinPath p (map InLine offs) args).
  - intros M Hpid R st Hr. replace (pid =? 0) with false by (symmetry; apply Z.eqb_neq; lia). replace (0 <? pid) with true by (symmetry; apply Z.ltb_lt; lia).
    destruct (status_run (logged [Ufork; Ustat p] s) M) as (vs & num & dec & E & R2 & B); [by destruct R|done|]. eexists _, dec. split; [exact E|]. split; [done|]. by split.
Qed.

(** ** The tests for the shell's own commands *)

Lemma strncmp_lit kw : ∀ l r m, cstring l → cstring kw → length kw = S m →
  ∃ d, strncmp_loop m (l ++ 0 :: r) (kw ++ [0]) = Some d ∧ (d =? 0) = bool_decide (take (S m) l = kw).
Proof.
  induction kw as [|k kw IH]; intros l r m Cl Ck Lk; [done|]. destruct Ck as [Bk Nk]. apply Forall_cons in Bk as [Bk Bk']. apply not_elem_of_cons in Nk as [Nk Nk'].
  assert (∃ a l1 r1, l ++ 0 :: r = a :: r1 ∧ 0 ≤ a < 256 ∧ (l = [] ∧ a = 0 ∨ l = a :: l1 ∧ a ≠ 0 ∧ cstring l1 ∧ r1 = l1 ++ 0 :: r)) as (a & l1 & r1 & El & Ha & Hl).
  { destruct l as [|a l]; [exists 0, [], r; split; [done|split; [lia|by left]]|]. destruct Cl as [Bl Nl]. apply Forall_cons in Bl as [Ba Bl]. apply not_elem_of_cons in Nl as [Na Nl].
    exists a, l, (l ++ 0 :: r). split; [done|]. split; [lia|]. right. repeat split; try done; lia. }
  rewrite El. cbn [app strncmp_loop]. assert (a ≠ k → s8 a - s8 k ≠ 0) as Hd by (intros H E; apply H, s8_inj; lia).
  assert (a ≠ k → (s8 a - s8 k =? 0) = bool_decide (take (S m) l = k :: kw)) as Hne.
  { intros H. rewrite bool_decide_false; [apply Z.eqb_neq; by apply Hd|]. destruct Hl as [[-> ->]|(-> & _)]; cbn; congruence. }
  destruct m as [|m].
  - destruct kw; [|done]. eexists. split; [done|]. destruct (decide (a = k)) as [->|H]; [|by apply Hne].
    destruct Hl as [[_ ->]|(-> & _)]; [lia|]. rewrite bool_decide_true by done. apply Z.eqb_eq. lia.
  - cbn [strncmp_loop]. destruct (Z.eqb_spec a k) as [->|H]; [|eexists; split; [done|by apply Hne]]. destruct Hl as [[_ ->]|(-> & _ & Cl1 & ->)]; [lia|].
    replace (k =? 0) with false by (symmetry; apply Z.eqb_neq; lia). cbn [length] in Lk. destruct (IH l1 r m Cl1 ltac:(by split) ltac:(lia)) as (d & E & Hd').
    exists d. split; [done|]. rewrite Hd'. cbn [take]. apply bool_decide_ext. split; congruence.
Qed.
Lemma starts_run l r kw n s : cstring l → cstring (str kw) → n = Z.of_nat (length (str kw)) → 0 < n →
  starts (l ++ 0 :: r) kw n s = Ret (bool_decide (take (length (str kw)) l = str kw)) s.
Proof.
  intros Cl Ck -> Hn. destruct (strncmp_lit (str kw) l r (pred (length (str kw))) Cl Ck ltac:(lia)) as (d & E & Hd). replace (S (pred _)) with (length (str kw)) in Hd by lia.
  unfold starts, ulib_strncmp. replace (_ =? 0) with false by (symmetry; apply Z.eqb_neq; lia).
  replace (Z.to_nat _) with (pred (length (str kw))) by lia. unfold lift, kget_opt, kbind, kret, lit. by rewrite E, Hd.
Qed.

Lemma words_sub l : Forall (λ w, w ⊆ l) (words l).
Proof.
  unfold words, nonempty. apply Forall_forall. intros w [_ Hw]%list_elem_of_filter. revert w Hw. induction l as [|c l IH]; intros w Hw; cbn [pieces] in Hw.
  { apply elem_of_cons in Hw as [->|Hw]; [done|]. by apply elem_of_nil in Hw. }
  destruct (pieces l) as [p ps]. cbn [fst snd] in IH. destruct (c =? 32); cbn [fst snd] in Hw; apply elem_of_cons in Hw as [->|Hw].
  - by intros x Hx%elem_of_nil.
  - specialize (IH w Hw). intros x Hx. apply elem_of_cons. right. by apply IH.
  - specialize (IH p ltac:(apply elem_of_cons; by left)). intros x Hx. apply elem_of_cons in Hx as [->|Hx]; apply elem_of_cons; [by left|right; by apply IH].
  - specialize (IH w ltac:(apply elem_of_cons; by right)). intros x Hx. apply elem_of_cons. right. by apply IH.
Qed.
Lemma words_cstring l : cstring l → Forall cstring (words l).
Proof.
  intros [B N]. eapply Forall_impl; [apply words_sub|]. intros w Hw. split; [|intros H; by apply N, Hw].
  unfold bytes in *. rewrite Forall_forall in *. intros x Hx. by apply B, Hw.
Qed.
Lemma words_ne l : Forall (λ w, w ≠ []) (words l).
Proof. apply Forall_forall. by intros w [H _]%list_elem_of_filter. Qed.

Lemma find_char_none x l : (x ∉ l) → ∀ i, find_char x l i = None.
Proof. induction l as [|c l IH]; intros N i; [done|]. apply not_elem_of_cons in N as [Nc N]. cbn [find_char]. replace (c =? x) with false by (symmetry; apply Z.eqb_neq; lia). by apply IH. Qed.

Definition keywords : list string := ["if "; "else"; "endif"; "then"; "for "]%string.
Definition builtin_names : list string := ["cd"; "exit"; "exec"; "echo"; "read"]%string.
(** A line that is no command of the shell itself *)
Record plain (l : list Z) : Prop := {
  plain_string : cstring l;
  plain_keyword : Forall (λ kw, take (length (str kw)) l ≠ str kw) keywords;
  plain_loop : l ≠ str "do" ∧ l ≠ str "done";
  plain_chars : (36 ∉ l) ∧ (61 ∉ l) ∧ (124 ∉ l);
  plain_builtin : Forall (λ b, head (words l) ≠ Some (str b)) builtin_names;
}.

Lemma run_simple_plain l r s fuel : plain l → if_depth s = 0 →
  run_simple_command os junk (S fuel) (l ++ 0 :: r) s = (let* x := lift (split_words 15 false 0 (l ++ 0 :: r)) in builtins os junk x.1 x.2) s.
Proof.
  intros [C K [D1 D2] (_ & Heq & _) _] Hd. cbn [run_simple_command]. unfold kbind at 1, kget. rewrite Hd. change (0 <? 0) with false. cbn iota.
  unfold lift at 1, kget_opt. unfold kbind at 1. unfold keywords in K. rewrite !Forall_cons in K. destruct K as (K1 & K2 & K3 & K4 & K5 & _).
  do 5 (unfold kbind at 1; rewrite starts_run by (done || cstring_lit || reflexivity); rewrite bool_decide_false by done).
  do 2 (unfold kbind at 1; rewrite equals_run by (done || cstring_lit); rewrite bool_decide_false by done).
  unfold lift at 1, kget_opt. unfold kbind at 1. rewrite cstr_app by apply C. by rewrite find_char_none.
Qed.

Lemma builtins_plain line o0 offs w s : at_off line o0 w → cstring w → Forall (λ b, Some w ≠ Some (str b)) builtin_names →
  builtins os junk line (o0 :: offs) s = run_program os junk line (o0 :: offs) s.
Proof.
  intros (_ & _ & t & E) C K. unfold builtins. rewrite E. unfold builtin_names in K. rewrite !Forall_cons in K. destruct K as (K1 & K2 & K3 & K4 & K5 & _).
  do 5 (unfold kbind at 1; rewrite equals_run by (done || cstring_lit); rewrite bool_decide_false by congruence). done.
Qed.

Lemma trim_line_spec line rest : (0 ∉ line) → ∃ rest', trim_line (line ++ 0 :: rest) = Some (rtrim (ltrim line) ++ 0 :: rest').
Proof.
  intros N. unfold trim_line. rewrite cstr_app by done. cbn [mbind option_bind].
  assert (∃ k, line = replicate k 32 ++ ltrim line) as [k Ek].
  { clear. induction line as [|c l [k IH]]; [by exists 0%nat|]. cbn [ltrim]. destruct (Z.eqb_spec c 32) as [->|]; [exists (S k); cbn; by rewrite <-IH|by exists 0%nat]. }
  replace (drop (length line - length (ltrim line)) (line ++ 0 :: rest)) with (ltrim line ++ 0 :: rest).
  2:{ assert (∀ l1, l1 ++ 0 :: rest = drop (length (replicate k 32 ++ l1) - length l1) ((replicate k 32 ++ l1) ++ 0 :: rest)) as G.
      { intros l1. rewrite length_app, Nat.add_sub, <-app_assoc. by rewrite drop_app_length. }
      pose proof (G (ltrim line)) as G'. by rewrite <-Ek in G'. }
  rewrite drop_app_length. destruct (length (ltrim line) - length (rtrim (ltrim line)))%nat as [|j]; cbn [replicate app]; by eexists.
Qed.

Lemma expand_plain s l rest : (0 ∉ l) → (36 ∉ l) → (length l ≤ 511)%nat → ∃ rest', expand_variables s (l ++ 0 :: rest) = Some (l ++ 0 :: rest').
Proof.
  intros N H36 L. assert (∀ l fuel acc, (0 ∉ l) → (36 ∉ l) → (length l < fuel)%nat → (length acc + length l ≤ 511)%nat → expand_loop fuel s (l ++ 0 :: rest) acc = Some (acc ++ l)) as H.
  { clear. induction l as [|c l IH]; intros [|fuel] acc N H36 Hf Ha; try (cbn in Hf; lia); cbn [app expand_loop length] in *; [by rewrite app_nil_r|].
    apply not_elem_of_cons in N as [Nc N]. apply not_elem_of_cons in H36 as [Hc H36]. replace (c =? 0) with false by (symmetry; apply Z.eqb_neq; lia).
    assert (∃ c1, head (l ++ 0 :: rest) = Some c1) as [c1 ->] by (destruct l; cbn; eauto). cbn [mbind option_bind].
    replace (c =? 36) with false by (symmetry; apply Z.eqb_neq; lia). cbn [andb]. replace (_ <? 512) with true by (symmetry; apply Z.ltb_lt; lia).
    rewrite IH by (done || rewrite ?length_app; cbn; lia). by rewrite <-app_assoc. }
  unfold expand_variables. rewrite H by (done || rewrite ?length_app; cbn; lia). cbn [mbind option_bind app]. replace (_ <? 512) with true by (symmetry; apply Z.ltb_lt; lia).
  eexists. apply (strcpy_loop_fits l [] []); [done|]. rewrite length_app. cbn. lia.
Qed.


End run.

(** A kernel with one program, [/BIN/ls.ELF]: [fork] answers [pid], the program exits with [st]. *)
Definition one_program (pid st : Z) : answers := λ _ c,
  match c with
  | Ustat p => (if bool_decide (p = program_path (str "ls")) then 0 else -1, [])
  | Ufork => (pid, []) | Uwait => (st, []) | _ => (0, [])
  end.


(** ** Lines that do something else *)

(** A program named with a leading slash whose file needs [.ELF] has its name
    lengthened inside the line, over its first argument. *)
Lemma absolute_name_overwrites_argument :
  let os : answers := λ _ c, match c with Ustat p => (if bool_decide (p = str "/BIN/LS.ELF") then 0 else -1, []) | _ => (0, []) end in
  match parse_and_execute os (λ n, replicate n 7) 1 (str "/BIN/LS /TMP" ++ replicate 400 0) sh_init with
  | Hang s => head (sh_log s) = Some (Uexec (str "/BIN/LS.ELF") [str "/BIN/LS.ELF"; str "ELF"])
  | _ => False
  end.
Proof. vm_compute. reflexivity. Qed.

(** The lines of a script, one after the other *)
Fixpoint run_lines (os : answers) (ls : list string) : kM shell unit :=
  match ls with [] => kret tt | l :: ls => parse_and_execute os (λ n, replicate n 7) 1 (str l ++ replicate 400 0) ;;; run_lines os ls end.

(** An [else] inside a branch not taken makes the shell run the lines after it. *)
Lemma nested_else_runs :
  match run_lines (λ _ _, (0, [])) ["if a == b"; "if c == d"; "else"; "echo no"; "endif"; "endif"]%string sh_init with
  | Ret _ s => In (Uwrite 1 (str "no")) (sh_log s)
  | _ => False
  end.
Proof. vm_compute. tauto. Qed.

(** Nine nested [if] in a branch not taken write past [if_active]. *)
Lemma deep_if_faults : run_lines (λ _ _, (0, [])) ("if a == b" :: replicate 8 "if x")%string sh_init = Fault.
Proof. vm_compute. reflexivity. Qed.
