(* ===== verification/ShellHist.v ===== *)
(** * The shell's history file

    [history_save] writes the lines of the history, [history_load] of a later
    shell reads them.  The file is the bytes written to its descriptor; a kernel
    [serves] a file when it answers the reads of one byte in order. *)

From stdpp Require Import base numbers list strings.
From Stdlib Require Import ZArith Lia.
From S2P Require Import Prelude CString Ulib Shell ShellRun.

#[local] Open Scope Z_scope.
#[local] Open Scope kernel_scope.

Definition file_of (h : list (list Z)) : list Z := concat (map (λ l, l ++ [10]) h).
Definition history_line (l : list Z) : Prop := l ≠ [] ∧ (length l ≤ 255)%nat ∧ (0 ∉ l) ∧ (10 ∉ l).

(** The bytes written to [fd] and the number of reads of it *)
Fixpoint file_written (fd : Z) (log : list ucall) : list Z :=
  match log with
  | Uwrite d b :: log => file_written fd log ++ (if d =? fd then b else [])
  | _ :: log => file_written fd log
  | [] => []
  end.
Fixpoint file_reads (fd : Z) (log : list ucall) : nat :=
  match log with
  | Uread d _ :: log => if d =? fd then S (file_reads fd log) else file_reads fd log
  | _ :: log => file_reads fd log
  | [] => 0%nat
  end.
Lemma file_written_app fd a b : file_written fd (a ++ b) = file_written fd b ++ file_written fd a.
Proof. induction a as [|c a IH]; [by rewrite app_nil_r|]. destruct c; cbn [app file_written]; try done. by rewrite IH, app_assoc. Qed.

Definition serves (os : answers) (fd : Z) (content : list Z) (start : nat) : Prop :=
  ∀ log i, file_reads fd log = (start + i)%nat → os log (Uread fd 1) = match content !! i with Some c => (1, [c]) | None => (0, []) end.

Section history.
Context (os : answers).

Lemma save_lines_run fd h : ∀ s, ∃ new, save_lines os fd h s = Ret tt (logged new s) ∧ file_written fd new = file_of h.
Proof.
  induction h as [|l h IH]; intros s; [exists []; split; [by destruct s|done]|]. cbn [save_lines].
  rewrite (kbind_ret _ _ _ _ _ (call_run os _ s)), (kbind_ret _ _ _ _ _ (call_run os _ _)).
  destruct (IH (logged [Uwrite fd [10]] (logged [Uwrite fd l] s))) as (new & E & W). exists (new ++ [Uwrite fd [10]; Uwrite fd l]). rewrite E. split.
  - unfold logged. cbn. by rewrite <-app_assoc.
  - rewrite file_written_app, W. cbn [file_written]. rewrite Z.eqb_refl. done.
Qed.

(** One byte *)
Lemma read_one fd content start i s : serves os fd content start → file_reads fd (sh_log s) = (start + i)%nat →
  uabi_read os fd 1 s = Ret (match content !! i with Some c => (1, [c]) | None => (0, []) end) (logged [Uread fd 1] s) ∧
  file_reads fd (sh_log (logged [Uread fd 1] s)) = (start + S i)%nat.
Proof.
  intros Sv Hi. split.
  - unfold uabi_read, call, kbind. rewrite (Sv _ i Hi). by destruct (content !! i).
  - cbn [logged sh_log set_log app file_reads]. rewrite Z.eqb_refl, Hi. lia.
Qed.

(** A line of the file, from its character [i] on *)
Lemma load_line_run fd content start l : (10 ∉ l) → ∀ i acc s fuel, serves os fd content start → file_reads fd (sh_log s) = (start + i)%nat →
  (∃ rest, drop i content = l ++ 10 :: rest) → (length acc + length l ≤ 255)%nat → (length l < fuel)%nat →
  ∃ new, load_line os fuel fd acc s = Ret (1, acc ++ l) (logged new s) ∧ file_reads fd (sh_log (logged new s)) = (start + (i + S (length l)))%nat.
Proof.
  induction l as [|c l IH]; intros H10 i acc s fuel Sv Hi [rest Hd] La Hf; (destruct fuel as [|fuel]; [lia|]); cbn [load_line];
    destruct (read_one fd content start i s Sv Hi) as [E Hr]; rewrite (kbind_ret _ _ _ _ _ E);
    (assert (content !! i = head (drop i content)) as Hc by (rewrite <-(Nat.add_0_r i) at 1; rewrite <-lookup_drop; by destruct (drop i content)));
    rewrite Hd in Hc; cbn [app head] in Hc; rewrite Hc; cbn [fst snd].
  - exists [Uread fd 1]. change (10 =? 10) with true. cbn [negb andb]. rewrite app_nil_r. split; [done|]. rewrite Hr. cbn. lia.
  - apply not_elem_of_cons in H10 as [Hc10 H10]. replace (c =? 10) with false by (symmetry; apply Z.eqb_neq; lia). cbn [negb andb length] in *.
    replace (_ <? 255) with true by (symmetry; apply Z.ltb_lt; lia).
    destruct (IH H10 (S i) (acc ++ [c]) (logged [Uread fd 1] s) fuel Sv Hr) as (new & E2 & Hr2); [exists rest; by rewrite <-Nat.add_1_r, <-drop_drop, Hd|rewrite length_app; cbn; lia|lia|].
    exists (new ++ [Uread fd 1]). rewrite E2, <-app_assoc. unfold logged. cbn [set_log sh_log app]. rewrite <-app_assoc. split; [done|]. unfold logged in Hr2. cbn [set_log sh_log app] in *. rewrite Hr2. lia.
Qed.

Lemma load_lines_run fd h : ∀ content start i s fuel, serves os fd content start → file_reads fd (sh_log s) = (start + i)%nat → drop i content = file_of h →
  Forall history_line h → (length (history s) + length h ≤ 32)%nat → (length h < fuel)%nat →
  ∃ new, load_lines os fuel fd s = Ret tt (set_history (history s ++ h) (logged new s)).
Proof.
  induction h as [|l h IH]; intros content start i s fuel Sv Hi Hd F Lh Hf; (destruct fuel as [|fuel]; [lia|]); cbn [load_lines]; unfold kbind at 1, kget; cbn [length] in *.
  - destruct (Z.ltb_spec (Z.of_nat (length (history s))) MAX_HISTORY) as [L|L]; [|exists []; rewrite app_nil_r; by destruct s].
    destruct (read_one fd content start i s Sv Hi) as [E _].
    assert (content !! i = None) as Hc by (rewrite <-(Nat.add_0_r i), <-lookup_drop, Hd; done). rewrite Hc in E.
    exists [Uread fd 1]. rewrite (kbind_ret (load_line os 257 fd []) _ _ (0, []) (logged [Uread fd 1] s)) by (cbn [load_line]; by rewrite (kbind_ret _ _ _ _ _ E)).
    cbn. rewrite app_nil_r. by destruct s.
  - apply Forall_cons in F as [(Hne & Ll & N0 & N10) F]. replace (_ <? MAX_HISTORY) with true by (symmetry; apply Z.ltb_lt; unfold MAX_HISTORY; lia).
    destruct (load_line_run fd content start l N10 i [] s 257 Sv Hi) as (new & E & Hr); [exists (file_of h); rewrite Hd; unfold file_of; cbn; by rewrite <-app_assoc|cbn; lia|lia|].
    rewrite (kbind_ret _ _ _ _ _ E). cbn [fst snd app]. change ((1 <=? 0) && (Z.of_nat (length l) =? 0)) with false. cbn iota.
    unfold lift, kget_opt. unfold kbind at 1. rewrite cstr_app by done. replace (0 <? Z.of_nat (length l)) with true by (symmetry; apply Z.ltb_lt; destruct l; [done|cbn; lia]).
    unfold kbind at 1, kmodify. destruct (IH content start (i + S (length l))%nat (set_history (history s ++ [l]) (logged new s)) fuel) as (new2 & E2); try done.
    + rewrite <-drop_drop, Hd. unfold file_of. cbn [map concat]. rewrite <-app_assoc. replace (S (length l)) with (length (l ++ [10])) by (rewrite length_app; cbn; lia).
      rewrite app_assoc. apply drop_app_length.
    + cbn. rewrite length_app. cbn. lia.
    + lia.
    + exists (new2 ++ new). rewrite E2. unfold logged. cbn. by rewrite <-!app_assoc.
Qed.
End history.

(** The history survives the shell: [history_save] writes a file that, read
    from its start by the [history_load] of a shell whose history is empty,
    gives back the same lines, for every history of at most 32 non-empty lines
    of at most 255 characters. *)
Theorem history_roundtrip os1 os2 s1 s2 fd1 fd2 fuel start : Forall history_line (history s1) → (length (history s1) ≤ 32)%nat → (length (history s1) < fuel)%nat →
  history s2 = [] → 0 ≤ fd1 → 0 ≤ fd2 → (∀ f, (os1 (sh_log s1) (Uopen (str "/ETC/HISTORY") f)).1 = fd1) →
  (∀ f, (os2 (sh_log s2) (Uopen (str "/ETC/HISTORY") f)).1 = fd2) → start = file_reads fd2 (sh_log s2) →
  ∃ new content, history_save os1 s1 = Ret tt (logged new s1) ∧ content = file_written fd1 new ∧
    (serves os2 fd2 content start → ∃ s2', history_load os2 fuel s2 = Ret tt s2' ∧ history s2' = history s1).
Proof.
  intros F L Hf H2 P1 P2 O1 O2 ->. unfold history_save.
  set (op := Uopen _ _). destruct (save_lines_run os1 fd1 (history s1) (logged [op] s1)) as (new & E & W).
  exists ([Uclose fd1] ++ new ++ [op]), (file_of (history s1)). split; [|split].
  - rewrite (kbind_ret _ _ _ _ _ (call_run os1 op s1)). unfold op. rewrite O1. replace (fd1 <? 0) with false by (symmetry; apply Z.ltb_ge; lia). fold op.
    unfold kbind at 1, kbind at 1, kget. replace (history (logged [op] s1)) with (history s1) by done. rewrite E, (kbind_ret _ _ _ _ _ (call_run os1 _ _)).
    unfold kret, logged. cbn. by rewrite <-app_assoc.
  - rewrite file_written_app. cbn [file_written]. rewrite file_written_app, W. unfold op. cbn [file_written app]. by rewrite app_nil_r.
  - intros Sv. set (op2 := Uopen (str "/ETC/HISTORY") UABI_O_RDONLY).
    destruct (load_lines_run os2 fd2 (history s1) (file_of (history s1)) (file_reads fd2 (sh_log s2)) 0 (logged [op2] s2) fuel) as (new2 & E2); [done|cbn; lia|done|done|cbn; rewrite H2; cbn; lia|done|].
    eexists. split; [unfold history_load; rewrite (kbind_ret _ _ _ _ _ (call_run os2 _ s2)), O2; replace (fd2 <? 0) with false by (symmetry; apply Z.ltb_ge; lia);
      fold op2; rewrite (kbind_ret _ _ _ _ _ E2), (kbind_ret _ _ _ _ _ (call_run os2 _ _)); reflexivity|]. cbn. by rewrite H2.
Qed.

(** A kernel whose descriptor 3 is a file *)
Definition file_os (content : list Z) : answers := λ log c,
  match c with
  | Uopen _ _ => (3, [])
  | Uread 3 1 => match content !! file_reads 3 log with Some b => (1, [b]) | None => (0, []) end
  | _ => (0, [])
  end.
Lemma history_roundtrip_witness :
  let s1 := set_history [str "ls"; str "cat x"] sh_init in let os2 := file_os (file_of [str "ls"; str "cat x"]) in
  ∃ new content, history_save (file_os []) s1 = Ret tt (logged new s1) ∧ content = file_written 3 new ∧
    (serves os2 3 content 0 → ∃ s2', history_load os2 3 sh_init = Ret tt s2' ∧ history s2' = [str "ls"; str "cat x"]).
Proof.
  apply (history_roundtrip (file_os []) (file_os (file_of [str "ls"; str "cat x"])) (set_history [str "ls"; str "cat x"] sh_init) sh_init 3 3 3 0); try reflexivity; try (cbn; lia); try lia.
  constructor; [|constructor; [|constructor]]; (split; [done|]; split; [cbn; lia|]; split; apply (bool_decide_unpack _); by vm_compute).
Defined.

Lemma file_os_serves content : serves (file_os content) 3 content 0.
Proof. intros log i Hi. cbn [file_os]. by rewrite Hi. Qed.
