(* ===== verification/Programs.v ===== *)
(** * The user programs

    Models the programs of [user/] other than the shell and the editor: each is the
    function [_start] of its file, run by one process whose calls are answered by
    [os] and logged, as for the shell ([Shell]).  [argv] is the list of the argument
    strings; [uabi_exit] ends the run ([Hang]).  Structures filled in by the kernel
    are their bytes, in the layout of [uabi_v2.h]. *)

From stdpp Require Import base numbers list strings.
From Stdlib Require Import ZArith Lia.
From S2P Require Import Prelude CString Bytes Ulib Shell.

#[local] Open Scope Z_scope.
#[local] Open Scope kernel_scope.

Definition UABI_O_RDWR : Z := 2.
Definition prog (A : Type) : Type := kM (list ucall) A.

Section programs.
Context (os : answers) (junk : nat → list Z).

Definition ask (c : ucall) : prog (Z * list Z) := λ log, Ret (os log c) (c :: log).
Definition ask_ (c : ucall) : prog Z := let* r := ask c in kret r.1.
Definition do_exit {A} (code : Z) : prog A := ask (Uexit code) ;;; khang.
Definition print (s : list Z) : prog unit :=
  let* len := lift (ulib_strlen s) in
  if 0 <? len then ask (Uwrite 1 (take (Z.to_nat len) s)) ;;; kret tt else kret tt.
Definition prints (s : string) : prog unit := print (lit s).
Definition println (s : string) : prog unit := print (lit_nl s).
(** The buffer [buf] after a call stored [got] in its first [n] bytes at most *)
Definition stored (buf got : list Z) (n : nat) : list Z := splice buf 0 (take n got).
Definition ask_path (f : list Z → ucall) (path : list Z) : prog Z := let* p := lift (cstr path) in ask_ (f p).
Definition arg (argv : list (list Z)) (i : Z) : prog (list Z) := lift (zlookup argv i).
Definition argc (argv : list (list Z)) : Z := Z.of_nat (length argv).

(** ** Paths *)

Definition getcwd : prog (Z * list Z) := let* r := ask (Ugetcwd 256) in kret (r.1, stored (junk 256) r.2 256).
(** [path] in the directory [cwd], in the array [out_target] *)
Definition join_path (cwd path out_target : list Z) : option (list Z) :=
  c ← zlookup path 0;
  if c =? 47 then ulib_strcpy out_target path
  else
    t ← ulib_strcpy out_target cwd;
    r ← ulib_strcmp cwd (lit "/");
    t ← (if negb (r =? 0) then ulib_strcat t (lit "/") else Some t);
    ulib_strcat t path.
Definition resolve_path (path : list Z) : prog (list Z) :=
  let* cwd := getcwd in lift (join_path cwd.2 path (junk 256)).

(** ** [cp] *)

(** [while ((bytes_read = uabi_read(...)) > 0)]: the last [bytes_read] and
    [success] *)
Fixpoint cp_loop (fuel : nat) (fd_src fd_dest : Z) (name : list Z) : prog (Z * bool) :=
  match fuel with
  | O => λ _, NoFuel
  | S fuel =>
      let* r := ask (Uread fd_src 512) in
      if 0 <? r.1 then
        let* bytes_written := ask_ (Uwrite fd_dest (take (Z.to_nat r.1) (stored (junk 512) r.2 512))) in
        if bytes_written <? r.1 then
          prints "cp: error writing to '" ;;; print name ;;; println "'" ;;; kret (r.1, false)
        else cp_loop fuel fd_src fd_dest name
      else kret (r.1, true)
  end.
Definition cp_start (fuel : nat) (argv : list (list Z)) : prog unit :=
  if argc argv <? 3 then println "Usage: cp <source> <dest>" ;;; do_exit 1
  else
    let* a1 := arg argv 1 in
    let* a2 := arg argv 2 in
    let* source_path := resolve_path a1 in
    let* dest_path := resolve_path a2 in
    let* same := lift (ulib_strcmp source_path dest_path) in
    if same =? 0 then
      prints "cp: '" ;;; print a1 ;;; prints "' and '" ;;; print a2 ;;; println "' are the same file" ;;; do_exit 1
    else
      let* fd_src := ask_path (λ p, Uopen p UABI_O_RDONLY) source_path in
      if fd_src <? 0 then
        prints "cp: cannot open '" ;;; print a1 ;;; println "': No such file or directory" ;;; do_exit 1
      else
        let* fd_dest := ask_path (λ p, Uopen p (Z.lor (Z.lor UABI_O_WRONLY UABI_O_CREAT) UABI_O_TRUNC)) dest_path in
        if fd_dest <? 0 then
          prints "cp: cannot create '" ;;; print a2 ;;; println "'" ;;; ask (Uclose fd_src) ;;; do_exit 1
        else
          let* (bytes_read, success) := cp_loop fuel fd_src fd_dest a2 in
          (if bytes_read <? 0 then prints "cp: error reading from '" ;;; print a1 ;;; println "'" else kret tt) ;;;
          ask (Uclose fd_src) ;;;
          ask (Uclose fd_dest) ;;;
          if negb (success && (0 <=? bytes_read)) then do_exit 1 else do_exit 0.

(** ** [cat] *)

Fixpoint cat_loop (fuel : nat) (fd : Z) : prog unit :=
  match fuel with
  | O => λ _, NoFuel
  | S fuel =>
      let* r := ask (Uread fd 512) in
      if 0 <? r.1 then
        let* buf := lift (zset (stored (junk 513) r.2 512) r.1 0) in
        print buf ;;; cat_loop fuel fd
      else kret tt
  end.
Definition cat_start (fuel : nat) (argv : list (list Z)) : prog unit :=
  let* fd :=
    (if argc argv <? 2 then kret 0
     else
       let* path := arg argv 1 in
       let* target := resolve_path path in
       let* fd := ask_path (λ p, Uopen p UABI_O_RDONLY) target in
       if fd <? 0 then prints "cat: " ;;; print path ;;; println ": No such file or directory" ;;; do_exit 1 else kret fd) in
  cat_loop fuel fd ;;;
  (if negb (fd =? 0) then ask (Uclose fd) ;;; kret tt else kret tt) ;;;
  do_exit 0.

(** ** [ls] *)

Definition format_permissions (type attr : Z) : list Z :=
  let w := if has attr 1 then 45 else 119 in
  [if type =? 2 then 100 else if type =? 1 then 45 else 63; 114; w; 120; 114; w; 120; 114; w; 120; 0].
Fixpoint spaces (n : nat) : prog unit := match n with O => kret tt | S n => prints " " ;;; spaces n end.
Definition print_padded_str (s : list Z) (width : Z) (right_align : bool) : prog unit :=
  let* len := lift (ulib_strlen s) in
  (if right_align then kret tt else print s) ;;;
  spaces (Z.to_nat (width - len)) ;;;
  (if right_align then print s else kret tt).
(** One [uabi_dirent_t] of 152 bytes *)
Definition print_dirent (e : list Z) : prog unit :=
  let* s := lift (ulib_u64_to_dec (rd 8 e 128) (junk 32)) in
  print_padded_str s 6 true ;;; prints " " ;;;
  print (format_permissions (rd 1 e 144) (rd 1 e 145)) ;;; prints " " ;;;
  let* s := lift (ulib_u64_to_dec (rd 8 e 136) (junk 32)) in
  print_padded_str s 10 true ;;; prints " " ;;;
  print (take 128 e) ;;; println "".
(** [sizeof] one entry of an array, and entry [i] *)
Definition entry (size : nat) (entries : list Z) (i : Z) : option (list Z) :=
  if (0 <=? i) && ((i + 1) * Z.of_nat size <=? Z.of_nat (length entries)) then Some (slice size entries (i * Z.of_nat size)) else None.
Fixpoint for_entries (n : nat) (size : nat) (entries : list Z) (i : Z) (body : list Z → prog unit) : prog unit :=
  match n with
  | O => kret tt
  | S n => let* e := lift (entry size entries i) in body e ;;; for_entries n size entries (i + 1) body
  end.
Definition ls_start (argv : list (list Z)) : prog unit :=
  let* cwd := getcwd in
  let* target :=
    (if argc argv <? 2 then lift (ulib_strcpy (junk 256) cwd.2)
     else let* path := arg argv 1 in lift (join_path cwd.2 path (junk 256))) in
  let* p := lift (cstr target) in
  let* r := ask (Ureaddir p 64) in
  if r.1 <? 0 then prints "ls: cannot access '" ;;; print target ;;; println "': No such file or directory" ;;; do_exit 1
  else
    for_entries (Z.to_nat r.1) 152 (stored (replicate (64 * 152) 0) r.2 (64 * 152)) 0 print_dirent ;;;
    do_exit 0.

(** ** [ps] and [top] *)

(** One [uabi_proc_info_t] of 40 bytes *)
Definition print_num (n : Z) (buf : list Z) : prog (list Z) := let* s := lift (ulib_int_to_str (s32 n) buf) in print s ;;; kret s.
Definition print_proc (e : list Z) : prog unit :=
  let* b := print_num (rd 4 e 0) (junk 16) in prints "    " ;;;
  let* b := print_num (rd 4 e 4) b in prints "    " ;;;
  let* b := print_num (rd 4 e 8) b in prints "     " ;;;
  let* b := lift (ulib_u64_to_hex (rd 8 e 16) b) in print b ;;; prints " " ;;;
  let* b := lift (ulib_u64_to_hex (rd 8 e 24) b) in print b ;;; println "".
Definition ps_start (argv : list (list Z)) : prog unit :=
  let* r := ask (Ups 32) in
  if r.1 <? 0 then println "ps: failed to get process list" ;;; do_exit 1
  else
    println "PID  PPID STATE RIP              RSP" ;;;
    for_entries (Z.to_nat r.1) 40 (stored (replicate (32 * 40) 0) r.2 (32 * 40)) 0 print_proc ;;;
    do_exit 0.

Definition print_task (buf e : list Z) : prog unit :=
  let* b := print_num (rd 4 e 0) buf in
  let* len := lift (ulib_strlen b) in
  spaces (Z.to_nat (5 - len)) ;;;
  let* b := lift (ulib_u64_to_hex (rd 8 e 32) b) in
  print b ;;;
  let* len := lift (ulib_strlen b) in
  spaces (Z.to_nat (7 - len)) ;;;
  let state := s32 (rd 4 e 8) in
  if state =? 0 then println "READY"
  else if state =? 1 then println "RUNNING"
  else if state =? 2 then println "WAITING"
  else if state =? 3 then println "ZOMBIE"
  else kret tt.
Fixpoint top_start (fuel : nat) (argv : list (list Z)) : prog unit :=
  match fuel with
  | O => λ _, NoFuel
  | S fuel =>
      ask Uclear ;;;
      let* m := ask Umemstat in
      if m.1 <? 0 then println "top: failed to get memory stats" ;;; do_exit 0
      else
        let memstat := stored (junk 24) m.2 24 in
        println "=== Curls OS Top ===" ;;; prints "Memory: " ;;;
        let* b := print_num (rd 8 memstat 8 * 4) (junk 16) in prints "KB / " ;;;
        let* b := print_num (rd 8 memstat 0 * 4) b in print (str "KB total" ++ [10; 10; 0]) ;;;
        println "PID  Ticks  State    " ;;; println "---  -----  -----    " ;;;
        let* r := ask (Ups 32) in
        for_entries (Z.to_nat r.1) 40 (stored (junk (32 * 40)) r.2 (32 * 40)) 0 (print_task b) ;;;
        ask (Usleep 500) ;;;
        top_start fuel argv
  end.

(** ** Files *)

Definition touch_start (argv : list (list Z)) : prog unit :=
  if argc argv <? 2 then println "touch: missing file operand" ;;; do_exit 1
  else
    let* path := arg argv 1 in
    let* target := resolve_path path in
    let* fd := ask_path (λ p, Uopen p (Z.lor UABI_O_CREAT UABI_O_WRONLY)) target in
    (if fd <? 0 then prints "touch: cannot create '" ;;; print path ;;; println "'" ;;; do_exit 1
     else ask (Uclose fd) ;;; kret tt) ;;;
    do_exit 0.

(** The loop that turns [\n] into a newline: the bytes of [processed] before the
    NUL; [room] is [255 - j]. *)
Fixpoint unescape (room : nat) (msg : list Z) : option (list Z) :=
  match msg with
  | [] => None
  | c :: msg' =>
      match room with
      | O => Some []
      | S room =>
          if c =? 0 then Some []
          else if c =? 92 then
            match msg' with
            | [] => None
            | d :: msg'' => if d =? 110 then r ← unescape room msg''; Some (10 :: r) else r ← unescape room msg'; Some (c :: r)
            end
          else r ← unescape room msg'; Some (c :: r)
      end
  end.
(** [write], and with [append] [write_a] *)
Definition write_file (append : bool) (name : string) (argv : list (list Z)) : prog unit :=
  if argc argv <? 3 then println ("Usage: " ++ name ++ " <file> <text>") ;;; do_exit 1
  else
    let* path := arg argv 1 in
    let* msg := arg argv 2 in
    let* fd := ask_path (λ p, Uopen p (Z.lor UABI_O_RDWR UABI_O_CREAT)) path in
    if fd <? 0 then prints (name ++ ": ") ;;; print path ;;; println ": No such file or directory" ;;; do_exit 1
    else
      let* processed := lift (unescape 255 msg) in
      (if append then ask (Ulseek fd 0 UABI_SEEK_END) ;;; kret tt else kret tt) ;;;
      ask (Uwrite fd processed) ;;;
      ask (Uclose fd) ;;;
      do_exit 0.

Definition mkdir_start (argv : list (list Z)) : prog unit :=
  if argc argv <? 2 then println "Usage: mkdir <directory>" ;;; do_exit 1
  else
    let* a := arg argv 1 in
    let* r := ask_path Umkdir a in
    if r <? 0 then prints "mkdir: failed to create directory '" ;;; print a ;;; println "'" ;;; do_exit 1 else do_exit 0.
Definition rm_start (argv : list (list Z)) : prog unit :=
  if argc argv <? 2 then println "Usage: rm <file>" ;;; do_exit 1
  else
    let* a := arg argv 1 in
    let* r := ask_path Uunlink a in
    if r <? 0 then prints "rm: failed to remove '" ;;; print a ;;; println "'" ;;; do_exit 1 else do_exit 0.
Definition pwd_start (argv : list (list Z)) : prog unit :=
  let* cwd := getcwd in
  if cwd.1 =? 0 then print cwd.2 ;;; println "" ;;; do_exit 0
  else println "pwd: failed to get current directory" ;;; do_exit 1.

Definition mount_start (argv : list (list Z)) : prog unit :=
  if argc argv <? 3 then println "Usage: mount <device> <mountpoint>" ;;; println "  Example: mount usb0 /usb" ;;; do_exit 1
  else
    let* device := arg argv 1 in
    let* mountpoint := arg argv 2 in
    let* d := lift (cstr device) in
    let* rc := ask_path (Umount d) mountpoint in
    prints (if rc =? 0 then "Mounted " else "mount: failed to mount ") ;;;
    print device ;;; prints " at " ;;; print mountpoint ;;; println "" ;;;
    do_exit (if rc =? 0 then 0 else 1).
Definition umount_start (argv : list (list Z)) : prog unit :=
  if argc argv <? 2 then println "Usage: umount <mountpoint>" ;;; println "  Example: umount /mnt" ;;; do_exit 1
  else
    let* mountpoint := arg argv 1 in
    let* rc := ask_path Uumount mountpoint in
    prints (if rc =? 0 then "Unmounted " else "umount: failed to unmount ") ;;; print mountpoint ;;; println "" ;;;
    do_exit (if rc =? 0 then 0 else 1).

(** One [uabi_devinfo_t] of 56 bytes *)
Definition print_device (i : Z) (info : list Z) : prog unit :=
  (if negb (rd 4 info 44 =? 0) then prints "  |- " else prints "  ") ;;;
  prints "dev" ;;;
  let* s := print_num i (junk 32) in
  prints ": " ;;; print (take 32 info) ;;;
  let sectors := rd 8 info 32 in
  (if 0 <? sectors then
     let mb := u32 (sectors / 2048) in
     prints "  (" ;;;
     let* s := print_num sectors s in
     prints " sectors, " ;;;
     (if 0 <? mb then let* _ := print_num mb s in prints " MB" else let* _ := print_num (sectors / 2) s in prints " KB") ;;;
     prints ")"
   else kret tt) ;;;
  println "".
Fixpoint devs_loop (n : nat) (i : Z) : prog unit :=
  match n with
  | O => kret tt
  | S n =>
      let* r := ask (Udevinfo i) in
      (if r.1 =? 0 then print_device i (stored (junk 56) r.2 56) else kret tt) ;;;
      devs_loop n (i + 1)
  end.
Definition devs_start (argv : list (list Z)) : prog unit :=
  let* count := ask_ (Udevinfo (-1)) in
  if count <=? 0 then println "No block devices found." ;;; do_exit 1
  else
    println "Block devices:" ;;;
    devs_loop (Z.to_nat count) 0 ;;;
    print ([10] ++ lit_nl "Usage: mount <device> <mountpoint>") ;;;
    do_exit 0.

(** ** Others *)

Fixpoint echo_args (args : list (list Z)) : prog unit :=
  match args with
  | [] => kret tt
  | a :: args => print a ;;; (match args with [] => kret tt | _ => prints " " end) ;;; echo_args args
  end.
Definition echo_start (argv : list (list Z)) : prog unit := echo_args (drop 1 argv) ;;; println "" ;;; do_exit 0.

(** [ms = ms * 10 + (arg[i] - '0')] as a [uint32_t] *)
Fixpoint parse_ms (s : list Z) (ms : Z) : option Z :=
  match s with
  | [] => None
  | c :: s => if (48 <=? c) && (c <=? 57) then parse_ms s (u32 (ms * 10 + (c - 48))) else Some ms
  end.
Definition sleep_start (argv : list (list Z)) : prog unit :=
  if argc argv <? 2 then println "Usage: sleep <ms>" ;;; do_exit 1
  else
    let* a := arg argv 1 in
    let* ms := lift (parse_ms a 0) in
    let* c := lift (zlookup a 0) in
    if (ms =? 0) && negb (c =? 48) then println "sleep: invalid duration" ;;; do_exit 1
    else ask (Usleep ms) ;;; do_exit 0.

Definition clear_start (argv : list (list Z)) : prog unit := ask Uclear ;;; do_exit 0.
Definition debug_start (argv : list (list Z)) : prog unit :=
  if argc argv <? 2 then
    prints "System debug is " ;;;
    let* on := ask_ Udebug_enabled in
    println (if negb (on =? 0) then "ON" else "OFF") ;;; do_exit 0
  else
    let* a := arg argv 1 in
    let* on := lift (ulib_strcmp a (lit "on")) in
    if on =? 0 then ask (Uset_debug 1) ;;; do_exit 0
    else
      let* off := lift (ulib_strcmp a (lit "off")) in
      if off =? 0 then ask (Uset_debug 0) ;;; do_exit 0
      else println "Usage: debug [on/off]" ;;; do_exit 1.

Definition help_texts : list (string * string) :=
  [("ls", "ls [path] - List directory contents"); ("ps", "ps - List active processes"); ("cat", "cat <file> - Display file content");
   ("top", "top - Show system statistics"); ("echo", "echo [text] - Print text to screen"); ("pwd", "pwd - Print current working directory");
   ("clear", "clear - Clear the terminal screen"); ("sleep", "sleep <ms> - Wait for N milliseconds"); ("touch", "touch <file> - Create an empty file");
   ("write", "write <file> <text> - Overwrite file content"); ("write_a", "write_a <file> <text> - Append to file content")]%string.
Fixpoint help_for (texts : list (string * string)) (cmd : list Z) : prog unit :=
  match texts with
  | [] => println "No help available for that command."
  | (name, text) :: texts => let* r := lift (ulib_strcmp cmd (lit name)) in if r =? 0 then println text else help_for texts cmd
  end.
Definition help_start (argv : list (list Z)) : prog unit :=
  (if 1 <? argc argv then let* cmd := arg argv 1 in help_for help_texts cmd
   else
     println "Curls OS Available Commands:" ;;; println "  Built-ins: cd, exit, exec" ;;;
     print (str "  Utilities: ls, ps, cat, top, echo, pwd, clear, sleep, touch, write, write_a" ++ [10; 10; 0]) ;;;
     println "All utilities are located in /BIN/") ;;;
  do_exit 0.

(** The 64-bit [init]: a failed [exec] ends in an endless loop *)
Definition init_start (argv : list (list Z)) : prog unit :=
  println "Init process started!" ;;;
  ask (Uexec (str "/BIN/SH.ELF") [str "/BIN/SH.ELF"]) ;;; khang.

(** Does the string equal ["--help"]? *)
Fixpoint is_help (h s : list Z) : option bool :=
  match h, s with
  | a :: h, b :: s => if (a =? 0) && (b =? 0) then Some true else if a =? b then is_help h s else Some false
  | _, _ => None
  end.
Fixpoint print_argv (args : list (list Z)) (i : Z) (s : list Z) : prog unit :=
  match args with
  | [] => kret tt
  | a :: args =>
      prints "argv[" ;;;
      let* s := lift (int_to_ascii i s) in
      print s ;;; prints "]: " ;;; print a ;;; println "" ;;; print_argv args (i + 1) s
  end.
Definition argtest_start (argv : list (list Z)) : prog unit :=
  (if 1 <? argc argv then
     let* a := arg argv 1 in
     let* m := lift (is_help (lit "--help") a) in
     if (m : bool) then print (str "Usage: argtest [args...]" ++ [10] ++ lit_nl "Prints all received command-line arguments.") ;;; do_exit 0 else kret tt
   else kret tt) ;;;
  println "Argtest started!" ;;;
  prints "argc: " ;;;
  let* s := lift (int_to_ascii (argc argv) (junk 16)) in
  print s ;;; println "" ;;;
  print_argv argv 0 s ;;;
  println "Argtest exiting..." ;;;
  do_exit 0.

End programs.
