(* ===== verification/ProgramsInv.v ===== *)
(** * What the user programs do

    [cp] copies a file, [cat] prints it, [echo] prints its arguments; [ps] writes
    past its buffer.  A kernel gives a file in [chunks] when its answers to the reads
    of a descriptor are the chunks in order. *)

From stdpp Require Import base numbers list strings.
From Stdlib Require Import ZArith Lia.
From S2P Require Import Prelude CString Bytes Ulib Shell ShellCmd ShellRun ShellHist Programs.

#[local] Open Scope Z_scope.
#[local] Open Scope kernel_scope.

(** ** Paths *)

Definition full_path (cwd p : list Z) : list Z :=
  if bool_decide (head p = Some 47) then p else if bool_decide (cwd = [47]) then cwd ++ p else cwd ++ [47] ++ p.

Lemma join_path_run cwd rc p rp out : cstring cwd → cstring p → (length (full_path cwd p) < length out)%nat →
  ∃ b, join_path (cwd ++ 0 :: rc) (p ++ 0 :: rp) out = Some b ∧ holds b (full_path cwd p) ∧ length b = length out.
Proof.
  intros Hc Hp. unfold join_path, full_path.
  assert (zlookup (p ++ 0 :: rp) 0 = Some (default 0 (head p))) as -> by (by destruct p). cbn [mbind option_bind].
  replace (default 0 (head p) =? 47) with (bool_decide (head p = Some 47)) by (destruct p as [|c p]; [done|]; cbn; destruct (Z.eqb_spec c 47); [by rewrite bool_decide_true; subst|rewrite bool_decide_false; congruence]).
  destruct (bool_decide (head p = Some 47)); intros L; [by apply strcpy_holds; [apply Hp|]|].
  destruct (strcpy_holds out cwd rc (proj2 Hc)) as (b1 & -> & H1 & L1); [destruct (bool_decide (cwd = [47])); rewrite !length_app in L; lia|]. cbn [mbind option_bind].
  destruct (strcmp_eq cwd (str "/") rc [] Hc) as (d & Es & Ed); [cstring_lit|]. fold (lit "/") in Es. rewrite Es. cbn [mbind option_bind]. rewrite Ed. change (str "/") with [47] in *.
  destruct (bool_decide (cwd = [47])); cbn [negb mbind option_bind].
  - destruct (strcat_holds b1 cwd p rp H1 (proj2 Hp)) as (b2 & E2 & H2 & L2); [rewrite length_app in L; lia|]. exists b2. rewrite L2. by split_and!.
  - change (lit "/") with ([47] ++ 0 :: []). destruct (strcat_holds b1 cwd [47] [] H1) as (b2 & -> & H2 & L2); [apply (bool_decide_unpack _); by vm_compute|rewrite !length_app in L; cbn in *; lia|]. cbn [mbind option_bind].
    destruct (strcat_holds b2 (cwd ++ [47]) p rp H2 (proj2 Hp)) as (b3 & E3 & H3 & L3); [rewrite !length_app in *; cbn in *; lia|]. exists b3. rewrite <-app_assoc in H3. rewrite L3, L2. by split_and!.
Qed.

(** ** Runs *)

Section runs.
Context (os : answers) (junk : nat → list Z) (Hjunk : ∀ n, length (junk n) = n).

Lemma print_run s rest log : (0 ∉ s) → s ≠ [] → print os (s ++ 0 :: rest) log = Ret tt (Uwrite 1 s :: log).
Proof.
  intros N Hs. unfold print, lift, kget_opt, kbind, ulib_strlen. rewrite strlen_loop_app by done. destruct s as [|c s]; [done|].
  replace (0 <? _) with true by (symmetry; apply Z.ltb_lt; cbn; lia). rewrite Z.add_0_l, Nat2Z.id, take_app_length. done.
Qed.
Lemma stored_fits n buf s : length buf = n → (length s < n)%nat → ∃ r, stored buf (s ++ [0]) n = s ++ 0 :: r.
Proof.
  intros Hb Hs. unfold stored, splice. rewrite (take_ge (s ++ [0])) by (rewrite length_app; cbn; lia). cbn [take app]. exists (drop (0 + length (s ++ [0])) buf). by rewrite <-app_assoc.
Qed.

(** The working directory of the process *)
Definition cwd_is (cwd : list Z) : Prop := cstring cwd ∧ (length cwd < 256)%nat ∧ ∀ log, os log (Ugetcwd 256) = (0, cwd ++ [0]).
Lemma resolve_path_run cwd p rp log : cwd_is cwd → cstring p → (length (full_path cwd p) < 256)%nat →
  ∃ b, resolve_path os junk (p ++ 0 :: rp) log = Ret b (Ugetcwd 256 :: log) ∧ holds b (full_path cwd p).
Proof.
  intros (Hc & Lc & Hg) Hp Lp. unfold resolve_path, getcwd, ask, lift, kget_opt, kbind, kret. rewrite Hg. cbn [fst snd].
  destruct (stored_fits 256 (junk 256) cwd (Hjunk 256) Lc) as [r ->].
  destruct (join_path_run cwd r p rp (junk 256) Hc Hp) as (b & -> & Hb & _); [by rewrite Hjunk|]. eauto.
Qed.
Lemma ask_path_run f b p log : holds b p → ask_path os f b log = Ret (os log (f p)).1 (f p :: log).
Proof. intros [N [r ->]]. unfold ask_path, lift, kget_opt, kbind. by rewrite cstr_app. Qed.

(** ** A file in chunks *)

Definition gives (fd : Z) (chunks : list (list Z)) : Prop :=
  ∀ log, os log (Uread fd 512) = match chunks !! file_reads fd log with Some c => (Z.of_nat (length c), c) | None => (0, []) end.
Definition chunk (c : list Z) : Prop := (0 < length c ≤ 512)%nat.

Lemma stored_chunk c : chunk c → take (length c) (stored (junk 512) c 512) = c.
Proof. intros [_ L]. unfold stored, splice. rewrite (take_ge c) by done. change (take (length c) (c ++ drop (0 + length c) (junk 512)) = c). by rewrite take_app_length. Qed.

Lemma cp_loop_run fd1 fd2 name chunks : gives fd1 chunks → Forall chunk chunks → fd1 ≠ fd2 → (∀ log d, (os log (Uwrite fd2 d)).1 = Z.of_nat (length d)) →
  ∀ fuel n log, file_reads fd1 log = n → (length chunks - n < fuel)%nat → (n ≤ length chunks)%nat →
  ∃ moves, cp_loop os junk fuel fd1 fd2 name log = Ret (0, true) (moves ++ log) ∧ file_written fd2 moves = concat (drop n chunks) ∧
    Forall (λ c, c = Uread fd1 512 ∨ ∃ d, c = Uwrite fd2 d) moves.
Proof.
  intros Hg Hc Hne Hw. induction fuel as [|fuel IH]; intros n log Hr Hf Hn; [lia|]. cbn [cp_loop]. unfold kbind at 1, ask. rewrite Hg, Hr.
  destruct (chunks !! n) as [c|] eqn:E; cbn [fst snd].
  - pose proof (Forall_lookup_1 _ _ _ _ Hc E) as Cc. pose proof (lookup_lt_Some _ _ _ E) as Ln. replace (0 <? _) with true by (symmetry; apply Z.ltb_lt; destruct Cc; lia).
    rewrite Nat2Z.id, stored_chunk by done. rewrite (kbind_ret _ _ _ (Z.of_nat (length c)) (Uwrite fd2 c :: Uread fd1 512 :: log)) by (unfold ask_, ask, kbind, kret; by rewrite Hw).
    rewrite Z.ltb_irrefl. destruct (IH (S n) (Uwrite fd2 c :: Uread fd1 512 :: log)) as (moves & Em & W & F); [cbn; rewrite Z.eqb_refl; lia|lia|lia|].
    exists (moves ++ [Uwrite fd2 c; Uread fd1 512]). rewrite Em, <-app_assoc. split; [done|]. split; [|apply Forall_app; split; [done|]; apply Forall_cons; split; [right; eauto|]; apply Forall_singleton; by left].
    rewrite file_written_app, W, (drop_S _ _ _ E). cbn [file_written concat]. by rewrite Z.eqb_refl.
  - exists [Uread fd1 512]. split; [done|]. split; [|apply Forall_singleton; by left]. apply lookup_ge_None in E. by rewrite drop_ge.
Qed.

(** [cat] prints every chunk that has no NUL in it. *)
Lemma cat_loop_run fd chunks : gives fd chunks → Forall chunk chunks → Forall (λ c, 0 ∉ c) chunks → fd ≠ 1 →
  ∀ fuel n log, file_reads fd log = n → (length chunks - n < fuel)%nat → (n ≤ length chunks)%nat →
  ∃ moves, cat_loop os junk fuel fd log = Ret tt (moves ++ log) ∧ file_written 1 moves = concat (drop n chunks).
Proof.
  intros Hg Hc Hz Hne. induction fuel as [|fuel IH]; intros n log Hr Hf Hn; [lia|]. cbn [cat_loop]. unfold kbind at 1, ask at 1. rewrite Hg, Hr.
  destruct (chunks !! n) as [c|] eqn:E; cbn [fst snd].
  - pose proof (Forall_lookup_1 _ _ _ _ Hc E) as Cc. pose proof (Forall_lookup_1 _ _ _ _ Hz E) as Zc. cbn beta in Zc. pose proof (lookup_lt_Some _ _ _ E) as Ln. replace (0 <? _) with true by (symmetry; apply Z.ltb_lt; destruct Cc; lia).
    assert (∃ r, stored (junk 513) c 512 = c ++ r ∧ (0 < length r)%nat) as (r & -> & Lr).
    { exists (drop (length c) (junk 513)). split; [|rewrite length_drop, Hjunk; destruct Cc; lia]. unfold stored, splice. rewrite (take_ge c) by apply Cc. done. }
    destruct r as [|x r]; [cbn in Lr; lia|]. unfold kbind at 1, lift, kget_opt. rewrite zset_mid by done.
    rewrite (kbind_ret _ _ _ tt (Uwrite 1 c :: Uread fd 512 :: log)) by (apply print_run; [done|destruct c; [destruct Cc; cbn in *; lia|done]]).
    destruct (IH (S n) (Uwrite 1 c :: Uread fd 512 :: log)) as (moves & Em & W); [cbn; rewrite Z.eqb_refl; lia|lia|lia|].
    exists (moves ++ [Uwrite 1 c; Uread fd 512]). rewrite Em, <-app_assoc. split; [done|]. by rewrite file_written_app, W, (drop_S _ _ _ E).
  - exists [Uread fd 512]. split; [done|]. apply lookup_ge_None in E. by rewrite drop_ge.
Qed.

(** The text of the arguments, with one space between two *)
Fixpoint joined (args : list (list Z)) : list Z :=
  match args with [] => [] | [a] => a | a :: args => a ++ [32] ++ joined args end.
Lemma echo_args_run args : Forall (λ a, (0 ∉ a) ∧ a ≠ []) args → ∀ log, ∃ new, echo_args os (map (λ a, a ++ [0]) args) log = Ret tt (new ++ log) ∧ file_written 1 new = joined args.
Proof.
  induction 1 as [|a args [Na Ha] F IH]; intros log; [by exists []|]. cbn [map echo_args].
  rewrite (kbind_ret _ _ _ tt (Uwrite 1 a :: log)) by (by apply print_run). destruct args as [|b args].
  - exists [Uwrite 1 a]. done.
  - rewrite (kbind_ret _ _ _ tt (Uwrite 1 [32] :: Uwrite 1 a :: log)) by done. destruct (IH (Uwrite 1 [32] :: Uwrite 1 a :: log)) as (new & E & W).
    exists (new ++ [Uwrite 1 [32]; Uwrite 1 a]). rewrite E, <-app_assoc. split; [done|]. rewrite file_written_app, W. cbn [file_written]. change (1 =? 1) with true. by rewrite <-app_assoc.
Qed.

End runs.

Definition cp_flags : Z := Z.lor (Z.lor UABI_O_WRONLY UABI_O_CREAT) UABI_O_TRUNC.

(** C37. [cp] copies a file.  For two different files in a kernel that gives the
    source in any chunks of at most 512 bytes and takes what is written, the program
    ends with status 0: it opened the two resolved paths (the second one created and
    truncated), wrote exactly the bytes of the source, in order, to the destination,
    closed both, and did nothing else. *)
Theorem cp_copies os junk fuel cwd name src dst fd1 fd2 chunks : let p1 := full_path cwd src in let p2 := full_path cwd dst in
  (∀ n, length (junk n) = n) → cwd_is os cwd → cstring src → cstring dst → cstring p1 → cstring p2 → (length p1 < 256)%nat → (length p2 < 256)%nat → p1 ≠ p2 →
  (∀ log, (os log (Uopen p1 UABI_O_RDONLY)).1 = fd1) → (∀ log, (os log (Uopen p2 cp_flags)).1 = fd2) → 0 ≤ fd1 → 0 ≤ fd2 → fd1 ≠ fd2 →
  gives os fd1 chunks → Forall chunk chunks → (∀ log d, (os log (Uwrite fd2 d)).1 = Z.of_nat (length d)) → (length chunks < fuel)%nat →
  ∃ moves, cp_start os junk fuel [name; src ++ [0]; dst ++ [0]] [] =
      Hang ([Uexit 0; Uclose fd2; Uclose fd1] ++ moves ++ [Uopen p2 cp_flags; Uopen p1 UABI_O_RDONLY; Ugetcwd 256; Ugetcwd 256]) ∧
    file_written fd2 moves = concat chunks ∧ Forall (λ c, c = Uread fd1 512 ∨ ∃ d, c = Uwrite fd2 d) moves.
Proof.
  intros p1 p2 Hj Hcwd Hs Hd C1 C2 L1 L2 Hne O1 O2 G1 G2 Hfd Hg Hc Hw Hf. unfold cp_start. change (argc _ <? 3) with false. cbn iota.
  rewrite (kbind_ret _ _ _ (src ++ [0]) []) by done. rewrite (kbind_ret _ _ _ (dst ++ [0]) []) by done.
  destruct (resolve_path_run os junk Hj cwd src [] [] Hcwd Hs L1) as (b1 & R1 & H1). rewrite (kbind_ret _ _ _ _ _ R1).
  destruct (resolve_path_run os junk Hj cwd dst [] [Ugetcwd 256] Hcwd Hd L2) as (b2 & R2 & H2). rewrite (kbind_ret _ _ _ _ _ R2).
  fold p1 in H1. fold p2 in H2. pose proof H1 as [N1 [r1 E1]]. pose proof H2 as [N2 [r2 E2]].
  destruct (strcmp_eq p1 p2 r1 r2 C1 C2) as (d & Ed & Hz). rewrite bool_decide_false in Hz by done.
  rewrite (kbind_ret _ _ _ d [Ugetcwd 256; Ugetcwd 256]) by (unfold lift, kget_opt; by rewrite E1, E2, Ed). rewrite Hz.
  rewrite (kbind_ret _ _ _ _ _ (ask_path_run os _ b1 p1 _ H1)), O1. replace (fd1 <? 0) with false by (symmetry; by apply Z.ltb_ge).
  rewrite (kbind_ret _ _ _ _ _ (ask_path_run os _ b2 p2 _ H2)). fold cp_flags. rewrite O2. replace (fd2 <? 0) with false by (symmetry; by apply Z.ltb_ge).
  destruct (cp_loop_run os junk fd1 fd2 (dst ++ [0]) chunks Hg Hc Hfd Hw fuel 0 [Uopen p2 cp_flags; Uopen p1 UABI_O_RDONLY; Ugetcwd 256; Ugetcwd 256]) as (moves & Em & W & F); [done|lia|lia|].
  rewrite (kbind_ret _ _ _ _ _ Em). exists moves. split; [|done]. done.
Qed.

(** A kernel with the file [/A] of 600 bytes in two chunks *)
Definition demo_chunks : list (list Z) := [replicate 512 65; replicate 88 66].
Definition demo_os : answers := λ log c,
  match c with
  | Ugetcwd _ => (0, [47; 0])
  | Uopen p f => if f =? 0 then (3, []) else (4, [])
  | Uread 3 _ => match demo_chunks !! file_reads 3 log with Some c => (Z.of_nat (length c), c) | None => (0, []) end
  | Uwrite _ d => (Z.of_nat (length d), [])
  | _ => (0, [])
  end.
Lemma cp_copies_witness : ∃ moves, cp_start demo_os (λ n, replicate n 204) 3 [lit "cp"; str "A" ++ [0]; str "/B" ++ [0]] [] =
    Hang ([Uexit 0; Uclose 4; Uclose 3] ++ moves ++ [Uopen (str "/B") cp_flags; Uopen (str "/A") UABI_O_RDONLY; Ugetcwd 256; Ugetcwd 256]) ∧
  file_written 4 moves = concat demo_chunks ∧ Forall (λ c, c = Uread 3 512 ∨ ∃ d, c = Uwrite 4 d) moves.
Proof.
  apply (cp_copies demo_os (λ n, replicate n 204) 3 (str "/") (lit "cp") (str "A") (str "/B") 3 4 demo_chunks); try done; try lia; try cstring_lit.
  - intros n. apply length_replicate.
  - split; [cstring_lit|]. split; [cbn; lia|done].
  - apply (bool_decide_unpack _). by vm_compute.
  - apply (bool_decide_unpack _). by vm_compute.
  - repeat constructor; cbn; lia.
  - cbn; lia.
Defined.

(** [cat] prints the file, when it has no NUL byte. *)
Lemma cat_prints os junk fuel cwd name p fd chunks : let q := full_path cwd p in
  (∀ n, length (junk n) = n) → cwd_is os cwd → cstring p → (length q < 256)%nat → (∀ log, (os log (Uopen q UABI_O_RDONLY)).1 = fd) → 1 < fd →
  gives os fd chunks → Forall chunk chunks → Forall (λ c, 0 ∉ c) chunks → (length chunks < fuel)%nat →
  ∃ moves, cat_start os junk fuel [name; p ++ [0]] [] = Hang ([Uexit 0; Uclose fd] ++ moves ++ [Uopen q UABI_O_RDONLY; Ugetcwd 256]) ∧ file_written 1 moves = concat chunks.
Proof.
  intros q Hj Hcwd Hp Lq Ho Hfd Hg Hc Hz Hf. unfold cat_start. change (argc _ <? 2) with false. cbn iota.
  destruct (cat_loop_run os junk Hj fd chunks Hg Hc Hz ltac:(lia) fuel 0 [Uopen q UABI_O_RDONLY; Ugetcwd 256]) as (moves & Em & W); [done|lia|lia|].
  exists moves. split; [|done]. rewrite (kbind_ret _ _ _ fd [Uopen q UABI_O_RDONLY; Ugetcwd 256]).
  - rewrite (kbind_ret _ _ _ _ _ Em). replace (fd =? 0) with false by (symmetry; apply Z.eqb_neq; lia). done.
  - rewrite (kbind_ret _ _ _ (p ++ [0]) []) by done. destruct (resolve_path_run os junk Hj cwd p [] [] Hcwd Hp Lq) as (b & Rb & Hb).
    rewrite (kbind_ret _ _ _ _ _ Rb). rewrite (kbind_ret _ _ _ _ _ (ask_path_run os _ b q _ Hb)), Ho. by replace (fd <? 0) with false by (symmetry; apply Z.ltb_ge; lia).
Qed.
(** [echo] prints its arguments with one space between two, and a newline. *)
Lemma echo_prints os name args : Forall (λ a, (0 ∉ a) ∧ a ≠ []) args →
  ∃ new, echo_start os (name :: map (λ a, a ++ [0]) args) [] = Hang (Uexit 0 :: new) ∧ file_written 1 new = joined args ++ [10].
Proof.
  intros F. destruct (echo_args_run os args F []) as (new & E & W). exists (Uwrite 1 [10] :: new). unfold echo_start. change (drop 1 (name :: map (λ a, a ++ [0]) args)) with (map (λ a, a ++ [0]) args).
  rewrite (kbind_ret _ _ _ _ _ E), app_nil_r. split; [done|]. cbn [file_written]. by rewrite W.
Qed.

(** [ps] writes 17 characters into an array of 16: it faults on every process. *)
Lemma u64_to_hex_overflow val buf : length buf = 16%nat → ulib_u64_to_hex val buf = None.
Proof.
  intros H. unfold ulib_u64_to_hex. assert (∀ k v b b', u64_hex_loop k v b = Some b' → length b' = length b) as Hl.
  { induction k as [|k IH]; intros v b b'; cbn [u64_hex_loop]; [by intros [= ->]|]. destruct (zlookup hex_chars _) as [c|]; [cbn [mbind option_bind]|done].
    unfold zset. destruct (_ && _); [|done]. cbn [mbind option_bind]. intros E%IH. by rewrite E, length_insert. }
  destruct (u64_hex_loop 16 val buf) as [b|] eqn:E; [|done]. cbn [mbind option_bind]. apply Hl in E. apply zset_oob. lia.
Qed.

Lemma strcpy_loop_length src : ∀ dest i b, strcpy_loop dest i src = Some b → length b = length dest.
Proof.
  induction src as [|c src IH]; intros dest i b; cbn [strcpy_loop]; [done|]. unfold zset. destruct (c =? 0); (destruct (_ && _); [|done]); cbn [mbind option_bind].
  - intros [= <-]. by rewrite length_insert.
  - intros E%IH. by rewrite E, length_insert.
Qed.
Lemma print_ends os s log : print os s log = Fault ∨ ∃ log', print os s log = Ret tt log'.
Proof. unfold print, lift, kget_opt, kbind. destruct (ulib_strlen s) as [n|]; [right|by left]. destruct (0 <? n); eauto. Qed.
Lemma print_num_ends os n buf log : print_num os n buf log = Fault ∨ ∃ b log', print_num os n buf log = Ret b log' ∧ length b = length buf.
Proof.
  unfold print_num, lift, kget_opt. unfold kbind at 1 3. destruct (ulib_int_to_str (s32 n) buf) as [b|] eqn:E; [|by left]. apply strcpy_loop_length in E.
  destruct (print_ends os b log) as [Hp|[log' Hp]]; unfold kbind; rewrite Hp; [by left|right; eauto].
Qed.
Lemma ps_faults os junk e log : length (junk 16%nat) = 16%nat → print_proc os junk e log = Fault.
Proof.
  intros Hj. unfold print_proc. unfold kbind at 1. destruct (print_num_ends os (rd 4 e 0) (junk 16%nat) log) as [->|(b1 & l1 & -> & L1)]; [done|].
  rewrite (kbind_ret _ _ _ tt (Uwrite 1 (str "    ") :: l1)) by done. unfold kbind at 1.
  destruct (print_num_ends os (rd 4 e 4) b1 (Uwrite 1 (str "    ") :: l1)) as [->|(b2 & l2 & -> & L2)]; [done|].
  rewrite (kbind_ret _ _ _ tt (Uwrite 1 (str "    ") :: l2)) by done. unfold kbind at 1.
  destruct (print_num_ends os (rd 4 e 8) b2 (Uwrite 1 (str "    ") :: l2)) as [->|(b3 & l3 & -> & L3)]; [done|].
  rewrite (kbind_ret _ _ _ tt (Uwrite 1 (str "     ") :: l3)) by done. unfold kbind at 1, lift, kget_opt. by rewrite u64_to_hex_overflow by congruence.
Qed.
