(* ===== verification/Lappy.v ===== *)
(** * The text editor

    Models [user/lappy/lappy.c], with the calls of [Programs].  The text is the C
    array [buffer] of 1000 rows of 256 characters; an access outside a row is a
    fault.  Beside its static variables the state has the log of calls. *)

From stdpp Require Import base numbers list strings.
From Stdlib Require Import ZArith Lia.
From S2P Require Import Prelude CString Ulib Shell Programs.

#[local] Open Scope Z_scope.
#[local] Open Scope kernel_scope.

Definition MAX_LINES : Z := 1000.
Definition MAX_LINE_LEN : Z := 256.
Definition LINE_NUM_WIDTH : Z := 7.
Definition CTRL (c : Z) : Z := Z.land c 31.

Record lappy := Lappy {
  buffer : list (list Z);
  line_count : Z;
  filename : list Z;
  cursor_x : Z;
  cursor_y : Z;
  scroll_y : Z;
  scroll_x : Z }.
Definition with_text (b : list (list Z)) (n : Z) (s : lappy) : lappy := Lappy b n (filename s) (cursor_x s) (cursor_y s) (scroll_y s) (scroll_x s).
Definition with_cursor (x y : Z) (s : lappy) : lappy := Lappy (buffer s) (line_count s) (filename s) x y (scroll_y s) (scroll_x s).
Definition with_scroll (x y : Z) (s : lappy) : lappy := Lappy (buffer s) (line_count s) (filename s) (cursor_x s) (cursor_y s) y x.
Definition with_filename (f : list Z) (s : lappy) : lappy := Lappy (buffer s) (line_count s) f (cursor_x s) (cursor_y s) (scroll_y s) (scroll_x s).

(** ** Rows *)

Definition row (b : list (list Z)) (y : Z) : option (list Z) := zlookup b y.
Definition char_at (b : list (list Z)) (y x : Z) : option Z := r ← row b y; zlookup r x.
Definition set_char (b : list (list Z)) (y x c : Z) : option (list (list Z)) := r ← row b y; r ← zset r x c; zset b y r.
Definition line_len (b : list (list Z)) (y : Z) : option Z := r ← row b y; ulib_strlen r.

(** [for (i = ..; n more; i++) row[i] = row[i+1]] *)
Fixpoint close_gap (n : nat) (i : Z) (r : list Z) : option (list Z) :=
  match n with O => Some r | S n => c ← zlookup r (i + 1); r ← zset r i c; close_gap n (i + 1) r end.
(** [for (i = ..; n more; i--) row[i + k] = row[i]] *)
Fixpoint open_gap (n : nat) (i k : Z) (r : list Z) : option (list Z) :=
  match n with O => Some r | S n => c ← zlookup r i; r ← zset r (i + k) c; open_gap n (i - 1) k r end.
(** [for (i = 0; i < n; i++) row[x + i] = ' '] *)
Fixpoint fill_spaces (n : nat) (x : Z) (r : list Z) : option (list Z) :=
  match n with O => Some r | S n => r ← zset r x 32; fill_spaces n (x + 1) r end.
(** [ulib_strcpy(buffer[i] + off, src)] *)
Definition copy_row (b : list (list Z)) (i off : Z) (src : list Z) : option (list (list Z)) :=
  r ← row b i; r ← strcpy_loop r off src; zset b i r.
Fixpoint rows_up (n : nat) (i : Z) (b : list (list Z)) : option (list (list Z)) :=
  match n with O => Some b | S n => src ← row b (i + 1); b ← copy_row b i 0 src; rows_up n (i + 1) b end.
Fixpoint rows_down (n : nat) (i : Z) (b : list (list Z)) : option (list (list Z)) :=
  match n with O => Some b | S n => src ← row b (i - 1); b ← copy_row b i 0 src; rows_down n (i - 1) b end.

(** ** Keys *)

Definition with_row (r : list Z) (s : lappy) : option lappy := b ← zset (buffer s) (cursor_y s) r; Some (with_text b (line_count s) s).

Definition lap_backspace (s : lappy) : option lappy :=
  if 0 <? cursor_x s then
    r ← row (buffer s) (cursor_y s);
    len ← ulib_strlen r;
    r ← close_gap (Z.to_nat (len - (cursor_x s - 1))) (cursor_x s - 1) r;
    s' ← with_row r s;
    Some (with_cursor (cursor_x s - 1) (cursor_y s) s')
  else if 0 <? cursor_y s then
    prev_len ← line_len (buffer s) (cursor_y s - 1);
    cur_len ← line_len (buffer s) (cursor_y s);
    if prev_len + cur_len <? MAX_LINE_LEN - 1 then
      cur ← row (buffer s) (cursor_y s);
      b ← copy_row (buffer s) (cursor_y s - 1) prev_len cur;
      b ← rows_up (Z.to_nat (line_count s - 1 - cursor_y s)) (cursor_y s) b;
      Some (with_cursor prev_len (cursor_y s - 1) (with_text b (line_count s - 1) s))
    else Some s
  else Some s.

Definition lap_tab (s : lappy) : option lappy :=
  r ← row (buffer s) (cursor_y s);
  len ← ulib_strlen r;
  if len + 4 <? MAX_LINE_LEN then
    r ← open_gap (Z.to_nat (len - cursor_x s + 1)) len 4 r;
    r ← fill_spaces 4 (cursor_x s) r;
    s' ← with_row r s;
    Some (with_cursor (cursor_x s + 4) (cursor_y s) s')
  else Some s.

Definition lap_newline (s : lappy) : option lappy :=
  if line_count s <? MAX_LINES then
    b ← rows_down (Z.to_nat (line_count s - (cursor_y s + 1))) (line_count s) (buffer s);
    cur ← row b (cursor_y s);
    b ← copy_row b (cursor_y s + 1) 0 (from cur (cursor_x s));
    b ← set_char b (cursor_y s) (cursor_x s) 0;
    Some (with_cursor 0 (cursor_y s + 1) (with_text b (line_count s + 1) s))
  else Some s.

Definition lap_char (c : Z) (s : lappy) : option lappy :=
  r ← row (buffer s) (cursor_y s);
  len ← ulib_strlen r;
  if len <? MAX_LINE_LEN - 1 then
    r ← open_gap (Z.to_nat (len - cursor_x s + 1)) len 1 r;
    r ← zset r (cursor_x s) c;
    s' ← with_row r s;
    Some (with_cursor (cursor_x s + 1) (cursor_y s) s')
  else Some s.

Definition to_row (y : Z) (s : lappy) : option lappy :=
  len ← line_len (buffer s) y; Some (with_cursor (Z.min (cursor_x s) len) y s).
Definition lap_up (s : lappy) : option lappy := if 0 <? cursor_y s then to_row (cursor_y s - 1) s else Some s.
Definition lap_down (s : lappy) : option lappy := if cursor_y s <? line_count s - 1 then to_row (cursor_y s + 1) s else Some s.
Definition line_end_above (s : lappy) : option lappy :=
  if 0 <? cursor_y s then len ← line_len (buffer s) (cursor_y s - 1); Some (with_cursor len (cursor_y s - 1) s) else Some s.
Definition line_start_below (s : lappy) : lappy :=
  if cursor_y s <? line_count s - 1 then with_cursor 0 (cursor_y s + 1) s else s.
Definition lap_left (s : lappy) : option lappy :=
  if 0 <? cursor_x s then Some (with_cursor (cursor_x s - 1) (cursor_y s) s) else line_end_above s.
Definition lap_right (s : lappy) : option lappy :=
  len ← line_len (buffer s) (cursor_y s);
  Some (if cursor_x s <? len then with_cursor (cursor_x s + 1) (cursor_y s) s else line_start_below s).

(** [while (x > 0 && (row[x-1] == ' ') == space) x--], [x] times at most *)
Fixpoint back_while (space : bool) (x : nat) (r : list Z) : option nat :=
  match x with
  | O => Some O
  | S x' => c ← r !! x'; if bool_decide (c = 32) then (if space then back_while space x' r else Some x) else (if space then Some x else back_while space x' r)
  end.
(** [while (x < len && (row[x] == ' ') == space) x++], [n] is [len - x] *)
Fixpoint forth_while (space : bool) (n : nat) (x : Z) (r : list Z) : option Z :=
  match n with
  | O => Some x
  | S n => c ← zlookup r x; if bool_decide (c = 32) then (if space then forth_while space n (x + 1) r else Some x) else (if space then Some x else forth_while space n (x + 1) r)
  end.
Definition lap_ctrl_left (s : lappy) : option lappy :=
  if 0 <? cursor_x s then
    r ← row (buffer s) (cursor_y s);
    x ← back_while true (Z.to_nat (cursor_x s)) r;
    x ← back_while false x r;
    Some (with_cursor (Z.of_nat x) (cursor_y s) s)
  else line_end_above s.
Definition lap_ctrl_right (s : lappy) : option lappy :=
  r ← row (buffer s) (cursor_y s);
  len ← ulib_strlen r;
  if cursor_x s <? len then
    x ← forth_while false (Z.to_nat (len - cursor_x s)) (cursor_x s) r;
    x ← forth_while true (Z.to_nat (len - x)) x r;
    Some (with_cursor x (cursor_y s) s)
  else Some (line_start_below s).

Definition lap_key (c : Z) (s : lappy) : option lappy :=
  if (c =? 8) || (c =? 127) then lap_backspace s
  else if c =? 9 then lap_tab s
  else if c =? 10 then lap_newline s
  else if c =? UABI_KEY_UP then lap_up s
  else if c =? UABI_KEY_DOWN then lap_down s
  else if c =? UABI_KEY_LEFT then lap_left s
  else if c =? UABI_KEY_RIGHT then lap_right s
  else if c =? UABI_KEY_CTRL_LEFT then lap_ctrl_left s
  else if c =? UABI_KEY_CTRL_RIGHT then lap_ctrl_right s
  else if (32 <=? c) && (c <=? 126) then lap_char c s
  else Some s.

Definition ensure_scroll (s : lappy) : lappy :=
  let sy := if cursor_y s <? scroll_y s then cursor_y s else scroll_y s in
  let sy := if sy + 20 <=? cursor_y s then cursor_y s - 19 else sy in
  let cols := 80 - LINE_NUM_WIDTH in
  let sx := if cursor_x s <? scroll_x s then cursor_x s else scroll_x s in
  let sx := if sx + cols <=? cursor_x s then cursor_x s - (cols - 1) else sx in
  with_scroll sx sy s.

(** ** Files and screen *)

Section lappy.
Context (os : answers) (junk : nat → list Z).

Definition sys {A} (m : prog A) : kM (lappy * list ucall) A := λ s,
  match m s.2 with
  | Ret a l => Ret a (s.1, l)
  | Hang l => Hang (s.1, l)
  | Panic l => Panic (s.1, l)
  | Fault => Fault
  | NoFuel => NoFuel
  end.
Definition edit (f : lappy → option lappy) : kM (lappy * list ucall) unit := λ s,
  match f s.1 with Some l => Ret tt (l, s.2) | None => Fault end.

(** The characters of one chunk: the rows and the place of the next character *)
Fixpoint load_chars (cs : list Z) (b : list (list Z)) (cur_line cur_char : Z) : option (list (list Z) * Z * Z) :=
  match cs with
  | [] => Some (b, cur_line, cur_char)
  | c :: cs =>
      if c =? 10 then
        b ← set_char b cur_line cur_char 0;
        if MAX_LINES <=? cur_line + 1 then Some (b, cur_line + 1, 0) else load_chars cs b (cur_line + 1) 0
      else if negb (c =? 13) && (cur_char <? MAX_LINE_LEN - 1) then
        b ← set_char b cur_line cur_char c;
        load_chars cs b cur_line (cur_char + 1)
      else load_chars cs b cur_line cur_char
  end.
Fixpoint load_loop (fuel : nat) (fd : Z) (b : list (list Z)) (cur_line cur_char : Z) : prog (list (list Z) * Z * Z) :=
  match fuel with
  | O => λ _, NoFuel
  | S fuel =>
      let* r := ask os (Uread fd 511) in
      if 0 <? r.1 then
        let* t := lift (load_chars (take (Z.to_nat r.1) (stored (junk 512) r.2 511)) b cur_line cur_char) in
        let '(b, cur_line, cur_char) := t in
        if MAX_LINES <=? cur_line then kret (b, cur_line, cur_char) else load_loop fuel fd b cur_line cur_char
      else kret (b, cur_line, cur_char)
  end.
Definition load_end (b : list (list Z)) (cur_line cur_char : Z) : option (list (list Z) * Z) :=
  if (0 <? cur_char) && (cur_line <? MAX_LINES) then b ← set_char b cur_line cur_char 0; Some (b, cur_line + 1)
  else if cur_line =? 0 then b ← set_char b 0 0 0; Some (b, 1)
  else Some (b, cur_line).
Definition load_file (fuel : nat) (path : list Z) : kM (lappy * list ucall) unit :=
  let* fd := sys (ask_path os (λ p, Uopen p UABI_O_RDONLY) path) in
  if fd <? 0 then edit (λ s, b ← set_char (buffer s) 0 0 0; Some (with_text b 1 s))
  else
    let* s := kget in
    let* (b, cur_line, cur_char) := sys (load_loop fuel fd (buffer s.1) 0 0) in
    let* (b, n) := sys (lift (load_end b cur_line cur_char)) in
    edit (λ s, Some (with_text b n s)) ;;;
    sys (ask os (Uclose fd)) ;;; kret tt.

Fixpoint save_rows (n : nat) (i fd : Z) (b : list (list Z)) : prog unit :=
  match n with
  | O => kret tt
  | S n =>
      let* r := lift (row b i) in
      let* len := lift (ulib_strlen r) in
      ask os (Uwrite fd (take (Z.to_nat len) r)) ;;;
      ask os (Uwrite fd [10]) ;;;
      save_rows n (i + 1) fd b
  end.
Definition save_file (path : list Z) (s : lappy) : prog unit :=
  let* fd := ask_path os (λ p, Uopen p (Z.lor UABI_O_WRONLY UABI_O_CREAT)) path in
  if fd <? 0 then kret tt
  else save_rows (Z.to_nat (line_count s)) 0 fd (buffer s) ;;; ask os (Uclose fd) ;;; kret tt.

Definition rule : list Z := replicate 80 45 ++ [10; 0].
Definition print_row (idx : Z) (s : lappy) : prog unit :=
  let* num := lift (ulib_int_to_str (idx + 1) (junk 16)) in
  let* len := lift (ulib_strlen num) in
  spaces os (Z.to_nat (LINE_NUM_WIDTH - len - 1)) ;;;
  print os num ;;; prints os "|" ;;;
  let* r := lift (row (buffer s) idx) in
  let* line_len := lift (ulib_strlen r) in
  if scroll_x s <? line_len then
    print os (take (Z.to_nat (Z.min (line_len - scroll_x s) (80 - LINE_NUM_WIDTH))) (from r (scroll_x s)) ++ [0])
  else kret tt.
Fixpoint print_rows (n : nat) (i : Z) (s : lappy) : prog unit :=
  match n with
  | O => kret tt
  | S n =>
      let idx := i + scroll_y s in
      (if idx <? line_count s then print_row idx s else kret tt) ;;;
      println os "" ;;;
      print_rows n (i + 1) s
  end.
Definition redraw (s : lappy) : prog unit :=
  ask os Uclear ;;; ask os (Ugotoxy 0 0) ;;;
  prints os "Lappy Editor - v1.1 - " ;;; print os (filename s) ;;; println os "" ;;; print os rule ;;;
  print_rows 20 0 s ;;;
  ask os (Ugotoxy 0 23) ;;; print os rule ;;;
  prints os "^S: Save    ^Q: Quit    Line: " ;;;
  let* b := print_num os (cursor_y s + 1) (junk 16) in
  prints os " Col: " ;;;
  let* _ := print_num os (cursor_x s + 1) b in
  let print_x := cursor_x s - scroll_x s + LINE_NUM_WIDTH in
  let print_y := cursor_y s - scroll_y s + 2 in
  ask os (Ugotoxy print_x print_y) ;;;
  let* c := lift (char_at (buffer s) (cursor_y s) (cursor_x s)) in
  if c =? 0 then prints os "_" ;;; ask os (Ugotoxy print_x print_y) ;;; kret tt else kret tt.

Fixpoint main_loop (fuel : nat) : kM (lappy * list ucall) unit :=
  match fuel with
  | O => λ _, NoFuel
  | S fuel =>
      let* s := kget in
      sys (redraw s.1) ;;;
      let* c := sys (ask_ os Ugetc) in
      (if c =? CTRL 113 then sys (ask os Uclear ;;; do_exit os 0)
       else if c =? CTRL 115 then let* s := kget in sys (save_file (filename s.1) s.1)
       else edit (lap_key c)) ;;;
      edit (λ s, Some (ensure_scroll s)) ;;;
      main_loop fuel
  end.
Definition lappy_start (fuel : nat) (argv : list (list Z)) : kM (lappy * list ucall) unit :=
  let* name := (if 1 <? argc argv then sys (arg argv 1) else kret (lit "untitled.txt")) in
  edit (λ s, f ← ulib_strcpy (filename s) name; Some (with_filename f s)) ;;;
  let* s := kget in
  load_file fuel (filename s.1) ;;;
  main_loop fuel.
Definition lappy_init : lappy := Lappy (replicate 1000 (replicate 256 0)) 0 (replicate 128 0) 0 0 0 0.

End lappy.
