(* ===== verification/LappyInv.v ===== *)
(** * The editor refines a document

    A [doc] is a list of lines with a cursor.  [rep] relates the editor's array to
    it; every key does on the array what [doc_key] does on the document, and saving
    writes its lines. *)

From stdpp Require Import base numbers list strings.
From Stdlib Require Import ZArith Lia.
From S2P Require Import Prelude CString Bytes Ulib Shell ShellCmd ShellRun ShellHist Programs ProgramsInv Lappy.

#[local] Open Scope Z_scope.

(** Lengths of appended lists *)
Ltac len_lia := repeat progress (rewrite ?length_app, ?length_drop, ?length_replicate in *; cbn [length app] in *); lia.

(** ** Loops over one row *)

Lemma close_gap_run m : ∀ a x rest, ∃ z, close_gap (length m) (Z.of_nat (length a)) (a ++ x :: m ++ rest) = Some (a ++ m ++ z :: rest).
Proof.
  induction m as [|y m IH]; intros a x rest; [by exists x|]. cbn [length close_gap app].
  replace (zlookup (a ++ x :: y :: m ++ rest) (Z.of_nat (length a) + 1)) with (Some y).
  2: { replace (a ++ x :: y :: m ++ rest) with ((a ++ [x]) ++ y :: m ++ rest) by (by rewrite <-app_assoc). rewrite zlookup_mid; [done|rewrite length_app; cbn; lia]. }
  cbn [mbind option_bind]. rewrite zset_mid by done. cbn [mbind option_bind]. destruct (IH (a ++ [y]) y rest) as [z E]. exists z.
  rewrite <-!app_assoc, length_app in E. cbn [app length] in E. rewrite <-E. f_equal. lia.
Qed.

Lemma open_gap_run k m : ∀ a rest, (k ≤ length rest)%nat →
  ∃ g, length g = k ∧ open_gap (length m) (Z.of_nat (length a + length m) - 1) (Z.of_nat k) (a ++ m ++ rest) = Some (a ++ g ++ m ++ drop k rest).
Proof.
  induction m as [|y m IH] using rev_ind; intros a rest Hk.
  { exists (take k rest). cbn [length open_gap app]. rewrite length_take, take_drop. split; [lia|done]. }
  rewrite length_app. cbn [length]. rewrite Nat.add_1_r. cbn [open_gap]. rewrite <-!app_assoc. cbn [app].
  replace (Z.of_nat (length a + S (length m)) - 1) with (Z.of_nat (length (a ++ m))) by (rewrite length_app; lia).
  replace (a ++ m ++ y :: rest) with ((a ++ m) ++ y :: rest) by (by rewrite <-app_assoc). rewrite zlookup_mid by done. cbn [mbind option_bind].
  rewrite <-Nat2Z.inj_add, zset_nat by (rewrite !length_app; cbn; lia). cbn [mbind option_bind]. rewrite insert_app_r.
  destruct (IH a (<[k := y]> (y :: rest))) as (g & Lg & E); [rewrite length_insert; cbn; lia|]. exists g. split; [done|].
  rewrite <-app_assoc. rewrite length_app, Nat2Z.inj_add. rewrite Nat2Z.inj_add in E. rewrite E. f_equal. do 3 f_equal.
  rewrite insert_take_drop by (cbn; lia). rewrite drop_app_length' by (rewrite length_take; cbn; lia). done.
Qed.
Lemma fill_spaces_run n : ∀ a g t, length g = n → fill_spaces n (Z.of_nat (length a)) (a ++ g ++ t) = Some (a ++ replicate n 32 ++ t).
Proof.
  induction n as [|n IH]; intros a [|x g] t [=]; cbn [fill_spaces]; [done|]. cbn [app]. rewrite zset_mid by done. cbn [mbind option_bind].
  specialize (IH (a ++ [32]) g t H0). rewrite length_app, <-!app_assoc in IH. cbn [app length] in IH. rewrite Nat2Z.inj_add in IH. exact IH.
Qed.

(** ** Rows and lines *)

Definition rowrep (r l : list Z) : Prop := length r = 256%nat ∧ holds r l.
Definition line (l : list Z) : Prop := (0 ∉ l) ∧ (length l ≤ 255)%nat.

Lemma rowrep_line r l : rowrep r l → line l.
Proof. intros [L [N [rest ->]]]. split; [done|]. rewrite length_app in L. cbn in L. lia. Qed.
Lemma strlen_row r l : rowrep r l → ulib_strlen r = Some (Z.of_nat (length l)).
Proof. intros [_ [N [rest ->]]]. unfold ulib_strlen. by rewrite strlen_loop_app. Qed.
Lemma copy_row_run (A B : list (list Z)) z r l : length z = 256%nat → rowrep r l → ∃ r', copy_row (A ++ z :: B) (Z.of_nat (length A)) 0 r = Some (A ++ r' :: B) ∧ rowrep r' l.
Proof.
  intros Hz Hr. pose proof (rowrep_line _ _ Hr) as [N L]. destruct Hr as [Lr [_ [rest ->]]]. unfold copy_row, row. rewrite zlookup_mid by done. cbn [mbind option_bind].
  destruct (strcpy_holds z l rest N ltac:(lia)) as (r' & E & H & L'). unfold ulib_strcpy in E. rewrite E. cbn [mbind option_bind]. exists r'. rewrite zset_mid by done. split; [done|]. split; [congruence|done].
Qed.

Lemma rows_up_run rs ls : Forall2 rowrep rs ls → ∀ A z rest, length z = 256%nat →
  ∃ rs' z', rows_up (length rs) (Z.of_nat (length A)) (A ++ z :: rs ++ rest) = Some (A ++ rs' ++ z' :: rest) ∧ Forall2 rowrep rs' ls ∧ length z' = 256%nat.
Proof.
  induction 1 as [|r l rs ls Hr F IH]; intros A z rest Hz; [exists [], z; by cbn|]. cbn [length rows_up app].
  replace (row (A ++ z :: r :: rs ++ rest) (Z.of_nat (length A) + 1)) with (Some r).
  2: { unfold row. replace (A ++ z :: r :: rs ++ rest) with ((A ++ [z]) ++ r :: rs ++ rest) by (by rewrite <-app_assoc). rewrite zlookup_mid; [done|rewrite length_app; cbn; lia]. }
  cbn [mbind option_bind]. destruct (copy_row_run A (r :: rs ++ rest) z r l Hz Hr) as (r' & -> & Hr'). cbn [mbind option_bind].
  destruct (IH (A ++ [r']) r rest (proj1 Hr)) as (rs' & z' & E & F' & Hz'). exists (r' :: rs'), z'. split; [|split; [by constructor|done]].
  rewrite <-!app_assoc, length_app in E. cbn [app length] in E |- *. rewrite <-E. f_equal. lia.
Qed.
Lemma rows_down_run ls : ∀ rs, Forall2 rowrep rs ls → ∀ A z rest, length z = 256%nat →
  ∃ rs' z', rows_down (length rs) (Z.of_nat (length A + length rs)) (A ++ rs ++ z :: rest) = Some (A ++ z' :: rs' ++ rest) ∧ Forall2 rowrep rs' ls ∧ length z' = 256%nat.
Proof.
  induction ls as [|l ls IH] using rev_ind; intros rs F A z rest Hz; [apply Forall2_nil_inv_r in F as ->; exists [], z; by cbn|].
  apply Forall2_app_inv_r in F as (rs1 & rs2 & F1 & F2 & ->). apply Forall2_cons_inv_r in F2 as (r & rs3 & Hr & F3 & ->). apply Forall2_nil_inv_r in F3 as ->.
  rewrite length_app. cbn [length]. rewrite Nat.add_1_r. cbn [rows_down]. rewrite <-!app_assoc. cbn [app].
  replace (row _ (Z.of_nat (length A + S (length rs1)) - 1)) with (Some r).
  2: { unfold row. replace (A ++ rs1 ++ r :: z :: rest) with ((A ++ rs1) ++ r :: z :: rest) by (by rewrite <-app_assoc). rewrite zlookup_mid; [done|rewrite length_app; lia]. }
  cbn [mbind option_bind]. replace (A ++ rs1 ++ r :: z :: rest) with ((A ++ rs1 ++ [r]) ++ z :: rest) by (by rewrite <-!app_assoc).
  replace (Z.of_nat (length A + S (length rs1))) with (Z.of_nat (length (A ++ rs1 ++ [r]))) by (rewrite !length_app; cbn; lia).
  destruct (copy_row_run (A ++ rs1 ++ [r]) rest z r l Hz Hr) as (r' & -> & Hr'). cbn [mbind option_bind].
  destruct (IH rs1 F1 A r (r' :: rest) (proj1 Hr)) as (rs' & z' & E & F' & Hz'). exists (rs' ++ [r']), z'. split; [|split; [apply Forall2_app; [done|by constructor]|done]].
  rewrite <-!app_assoc. cbn [app]. rewrite <-E. f_equal. rewrite !length_app. cbn [length]. lia.
Qed.

(** ** Documents *)

(** The lines above the cursor's, its line left and right of the cursor, and the
    lines below *)
Record doc := Doc { above : list (list Z); left_of : list Z; right_of : list Z; below : list (list Z) }.
Definition doc_lines (d : doc) : list (list Z) := above d ++ (left_of d ++ right_of d) :: below d.
Definition doc_len (d : doc) : nat := length (left_of d ++ right_of d).

Fixpoint drop_while (p : Z → bool) (l : list Z) : list Z :=
  match l with [] => [] | c :: l' => if p c then drop_while p l' else l end.
Definition is_space (c : Z) : bool := bool_decide (c = 32).

(** The cursor after the first [x] characters of [l], or at its end *)
Definition at_column (x : nat) (a : list (list Z)) (l : list Z) (b : list (list Z)) : doc := Doc a (take x l) (drop x l) b.
Definition go_up (x : option nat) (d : doc) : doc :=
  match rev (above d) with
  | p :: ra => at_column (default (length p) x) (rev ra) p ((left_of d ++ right_of d) :: below d)
  | [] => d
  end.
Definition go_down (x : nat) (d : doc) : doc :=
  match below d with
  | l :: b => at_column x (above d ++ [left_of d ++ right_of d]) l b
  | [] => d
  end.

Definition doc_backspace (d : doc) : doc :=
  match rev (left_of d), rev (above d) with
  | _ :: rl, _ => Doc (above d) (rev rl) (right_of d) (below d)
  | [], p :: ra => if (length p + doc_len d <? 255)%nat then Doc (rev ra) p (right_of d) (below d) else d
  | [], [] => d
  end.
Definition doc_insert (cs : list Z) (room : nat) (d : doc) : doc :=
  if (doc_len d <? room)%nat then Doc (above d) (left_of d ++ cs) (right_of d) (below d) else d.
Definition doc_newline (d : doc) : doc :=
  if (length (doc_lines d) <? 1000)%nat then Doc (above d ++ [left_of d]) [] (right_of d) (below d) else d.
Definition doc_left (d : doc) : doc :=
  match rev (left_of d) with c :: rl => Doc (above d) (rev rl) (c :: right_of d) (below d) | [] => go_up None d end.
Definition doc_right (d : doc) : doc :=
  match right_of d with c :: r => Doc (above d) (left_of d ++ [c]) r (below d) | [] => go_down 0 d end.
Definition doc_ctrl_left (d : doc) : doc :=
  match left_of d with
  | [] => go_up None d
  | _ => let n := length (drop_while (λ c, negb (is_space c)) (drop_while is_space (rev (left_of d)))) in
         at_column n (above d) (left_of d ++ right_of d) (below d)
  end.
Definition doc_ctrl_right (d : doc) : doc :=
  match right_of d with
  | [] => go_down 0 d
  | _ => let n := length (drop_while is_space (drop_while (λ c, negb (is_space c)) (right_of d))) in
         at_column (doc_len d - n) (above d) (left_of d ++ right_of d) (below d)
  end.
Definition doc_key (c : Z) (d : doc) : doc :=
  if (c =? 8) || (c =? 127) then doc_backspace d
  else if c =? 9 then doc_insert (replicate 4 32) 252 d
  else if c =? 10 then doc_newline d
  else if c =? UABI_KEY_UP then go_up (Some (length (left_of d))) d
  else if c =? UABI_KEY_DOWN then go_down (length (left_of d)) d
  else if c =? UABI_KEY_LEFT then doc_left d
  else if c =? UABI_KEY_RIGHT then doc_right d
  else if c =? UABI_KEY_CTRL_LEFT then doc_ctrl_left d
  else if c =? UABI_KEY_CTRL_RIGHT then doc_ctrl_right d
  else if (32 <=? c) && (c <=? 126) then doc_insert [c] 255 d
  else d.

(** ** The array represents the document *)

Record rep_at (A : list (list Z)) (r : list Z) (B R : list (list Z)) (s : lappy) (d : doc) : Prop := {
  ra_buf : buffer s = A ++ r :: B ++ R;
  ra_above : Forall2 rowrep A (above d);
  ra_row : rowrep r (left_of d ++ right_of d);
  ra_below : Forall2 rowrep B (below d);
  ra_rest : Forall (λ r, length r = 256%nat) R;
  ra_size : length (buffer s) = 1000%nat;
  ra_count : line_count s = Z.of_nat (length A + 1 + length B);
  ra_y : cursor_y s = Z.of_nat (length A);
  ra_x : cursor_x s = Z.of_nat (length (left_of d)) }.
Definition rep (s : lappy) (d : doc) : Prop := ∃ A r B R, rep_at A r B R s d.

Lemma rep_row A r B R s d : rep_at A r B R s d → row (buffer s) (cursor_y s) = Some r ∧ ulib_strlen r = Some (Z.of_nat (doc_len d)) ∧ line (left_of d ++ right_of d).
Proof.
  intros H. split_and!; [|apply strlen_row, H|exact (rowrep_line _ _ (ra_row _ _ _ _ _ _ H))]. unfold row. rewrite (ra_buf _ _ _ _ _ _ H), (ra_y _ _ _ _ _ _ H). by apply zlookup_mid.
Qed.
Lemma zlookup_at {A} (pre : list A) x post y : y = Z.of_nat (length pre) → zlookup (pre ++ x :: post) y = Some x.
Proof. intros ->. by apply zlookup_mid. Qed.

(** The row of the cursor is replaced. *)
Lemma rep_set_row A r B R s d r' l' rt' x : rep_at A r B R s d → rowrep r' (l' ++ rt') → x = Z.of_nat (length l') →
  ∃ s', with_row r' s = Some s' ∧ rep_at A r' B R (with_cursor x (cursor_y s') s') (Doc (above d) l' rt' (below d)) ∧ cursor_y s' = cursor_y s.
Proof.
  intros [Eb Fa Hr Fb Fr Sz Cn Cy Cx] Hr' ->. unfold with_row. rewrite Eb, Cy, zset_mid by done. cbn [mbind option_bind]. eexists. split; [done|]. split; [|done].
  split; cbn; try done. rewrite Eb in Sz. rewrite !length_app in *. cbn in *. done.
Qed.

Lemma not_elem_app (l1 l2 : list Z) : (0 ∉ l1 ++ l2) ↔ (0 ∉ l1) ∧ (0 ∉ l2).
Proof. rewrite elem_of_app. tauto. Qed.
Lemma nil_or_last {A} (l : list A) : l = [] ∨ ∃ a c, l = a ++ [c].
Proof. destruct l as [|c a] using rev_ind; eauto. Qed.

(** ** Moves between lines *)

Lemma rep_up A r B R s d x : rep_at A r B R s d → (∀ p ra, rev (above d) = p :: ra → x p ≤ length p)%nat →
  (above d = [] ∧ cursor_y s = 0) ∨
  ∃ p ra, rev (above d) = p :: ra ∧ line_len (buffer s) (cursor_y s - 1) = Some (Z.of_nat (length p)) ∧ 0 < cursor_y s ∧
    rep (with_cursor (Z.of_nat (x p)) (cursor_y s - 1) s) (at_column (x p) (rev ra) p ((left_of d ++ right_of d) :: below d)).
Proof.
  intros [Eb Fa Hr Fb Fr Sz Cn Cy Cx] Hx. destruct (nil_or_last (above d)) as [E|(ra & p & E)]; rewrite E in *.
  { apply Forall2_nil_inv_r in Fa as ->. left. by rewrite Cy. }
  right. rewrite rev_app_distr in *. cbn [rev app] in *. specialize (Hx p _ eq_refl). exists p, (rev ra).
  apply Forall2_app_inv_r in Fa as (A1 & A2 & F1 & F2 & ->). apply Forall2_cons_inv_r in F2 as (q & A3 & Hq & F3 & ->). apply Forall2_nil_inv_r in F3 as ->.
  rewrite length_app in *. cbn [length] in *. rewrite <-app_assoc in Eb. cbn [app] in Eb. split; [done|]. split; [|split; [lia|]].
  - unfold line_len, row. rewrite Eb, (zlookup_at A1) by lia. cbn [mbind option_bind]. by apply strlen_row.
  - exists A1, q, (r :: B), R. rewrite rev_involutive. split; cbn [buffer line_count cursor_x cursor_y with_cursor above left_of right_of below at_column]; try done.
    + by rewrite take_drop.
    + by constructor.
    + rewrite Cn. cbn [length]. lia.
    + lia.
    + rewrite length_take. lia.
Qed.
Lemma rep_down A r B R s d x : rep_at A r B R s d → (∀ l b, below d = l :: b → x l ≤ length l)%nat →
  (below d = [] ∧ cursor_y s = line_count s - 1) ∨
  ∃ l b, below d = l :: b ∧ line_len (buffer s) (cursor_y s + 1) = Some (Z.of_nat (length l)) ∧ cursor_y s < line_count s - 1 ∧
    rep (with_cursor (Z.of_nat (x l)) (cursor_y s + 1) s) (at_column (x l) (above d ++ [left_of d ++ right_of d]) l b).
Proof.
  intros [Eb Fa Hr Fb Fr Sz Cn Cy Cx] Hx. destruct (below d) as [|l b].
  { apply Forall2_nil_inv_r in Fb as ->. left. cbn [length] in Cn. split; [done|lia]. }
  right. specialize (Hx l b eq_refl). exists l, b. apply Forall2_cons_inv_r in Fb as (q & B1 & Hq & F1 & ->). cbn [length app] in *.
  split; [done|]. assert (buffer s = (A ++ [r]) ++ q :: B1 ++ R) as Eb' by (by rewrite Eb, <-app_assoc). split; [|split; [lia|]].
  - unfold line_len, row. rewrite Eb', (zlookup_at (A ++ [r])) by (rewrite length_app; cbn; lia). cbn [mbind option_bind]. by apply strlen_row.
  - exists (A ++ [r]), q, B1, R. split; cbn [buffer line_count cursor_x cursor_y with_cursor above left_of right_of below at_column]; try done.
    + apply Forall2_app; [done|by constructor].
    + by rewrite take_drop.
    + rewrite length_app. cbn [length]. lia.
    + rewrite length_app. cbn [length]. lia.
    + rewrite length_take. lia.
Qed.

(** ** The keys *)

Definition refines (f : lappy → option lappy) (g : doc → doc) : Prop := ∀ s d, rep s d → ∃ s', f s = Some s' ∧ rep s' (g d).

Lemma at_column_min x a l b : at_column (x `min` length l) a l b = at_column x a l b.
Proof. unfold at_column. destruct (decide (x ≤ length l)%nat); [by rewrite Nat.min_l|]. rewrite Nat.min_r by lia. by rewrite !take_ge, !drop_ge by lia. Qed.

Lemma up_ok : refines lap_up (λ d, go_up (Some (length (left_of d))) d).
Proof.
  intros s d (A & r & B & R & H). unfold lap_up, go_up.
  destruct (rep_up A r B R s d (λ p, length (left_of d) `min` length p)%nat H) as [[Ea Ec]|(p & ra & Ea & El & Ey & Hr)]; [intros; lia|rewrite Ea, Ec; cbn; unfold rep; eauto 10|].
  rewrite Ea. replace (0 <? _) with true by (symmetry; by apply Z.ltb_lt). unfold to_row. rewrite El. cbn [mbind option_bind default]. eexists. split; [done|].
  rewrite at_column_min in Hr. rewrite (ra_x _ _ _ _ _ _ H), <-Nat2Z.inj_min. exact Hr.
Qed.
Lemma end_above_ok : refines line_end_above (go_up None).
Proof.
  intros s d (A & r & B & R & H). unfold line_end_above, go_up.
  destruct (rep_up A r B R s d (λ p, length p)%nat H) as [[Ea Ec]|(p & ra & Ea & El & Ey & Hr)]; [intros; lia|rewrite Ea, Ec; cbn; unfold rep; eauto 10|].
  rewrite Ea. replace (0 <? _) with true by (symmetry; by apply Z.ltb_lt). rewrite El. cbn [mbind option_bind default]. eauto.
Qed.
Lemma down_ok : refines lap_down (λ d, go_down (length (left_of d)) d).
Proof.
  intros s d (A & r & B & R & H). unfold lap_down, go_down.
  destruct (rep_down A r B R s d (λ p, length (left_of d) `min` length p)%nat H) as [[Ea Ec]|(p & ra & Ea & El & Ey & Hr)]; [intros; lia|rewrite Ea, Ec, Z.ltb_irrefl; unfold rep; eauto 10|].
  rewrite Ea. replace (_ <? _) with true by (symmetry; by apply Z.ltb_lt). unfold to_row. rewrite El. cbn [mbind option_bind]. eexists. split; [done|].
  rewrite at_column_min in Hr. rewrite (ra_x _ _ _ _ _ _ H), <-Nat2Z.inj_min. exact Hr.
Qed.
Lemma start_below_ok : refines (λ s, Some (line_start_below s)) (go_down 0).
Proof.
  intros s d (A & r & B & R & H). unfold line_start_below, go_down.
  destruct (rep_down A r B R s d (λ p, 0)%nat H) as [[Ea Ec]|(p & ra & Ea & El & Ey & Hr)]; [intros; lia|rewrite Ea, Ec, Z.ltb_irrefl; unfold rep; eauto 10|].
  rewrite Ea. replace (_ <? _) with true by (symmetry; by apply Z.ltb_lt). eauto.
Qed.

(** The cursor inside its line *)
Lemma doc_move A r B R s d (x : nat) : rep_at A r B R s d → (x ≤ doc_len d)%nat →
  rep (with_cursor (Z.of_nat x) (cursor_y s) s) (at_column x (above d) (left_of d ++ right_of d) (below d)).
Proof.
  intros [Eb Fa Hr Fb Fr Sz Cn Cy Cx] Hx. exists A, r, B, R. split; cbn [buffer line_count cursor_x cursor_y with_cursor above left_of right_of below at_column]; try done.
  - by rewrite take_drop.
  - rewrite length_take. unfold doc_len in Hx. lia.
Qed.
Lemma left_ok : refines lap_left doc_left.
Proof.
  intros s d H. pose proof H as (A & r & B & R & Ha). unfold lap_left, doc_left. rewrite (ra_x _ _ _ _ _ _ Ha). destruct (nil_or_last (left_of d)) as [E|(a & c & E)].
  - rewrite E. cbn. by apply end_above_ok.
  - rewrite E, rev_app_distr. cbn [rev app]. rewrite rev_involutive, length_app. cbn [length]. replace (0 <? _) with true by (symmetry; apply Z.ltb_lt; lia).
    eexists. split; [done|]. pose proof (doc_move A r B R s d (length a) Ha) as Hm. unfold doc_len, at_column in Hm. rewrite E, <-app_assoc, take_app_length, drop_app_length in Hm.
    replace (Z.of_nat (length a + 1) - 1) with (Z.of_nat (length a)) by lia. apply Hm. rewrite !length_app. lia.
Qed.
Lemma right_ok : refines lap_right doc_right.
Proof.
  intros s d H. pose proof H as (A & r & B & R & Ha). unfold lap_right, doc_right. destruct (rep_row _ _ _ _ _ _ Ha) as (Er & El & _). unfold line_len. rewrite Er. cbn [mbind option_bind]. rewrite El. cbn [mbind option_bind].
  rewrite (ra_x _ _ _ _ _ _ Ha). unfold doc_len. rewrite length_app. destruct (right_of d) as [|c t] eqn:E; cbn [length].
  - rewrite Nat.add_0_r, Z.ltb_irrefl. by apply start_below_ok.
  - replace (_ <? _) with true by (symmetry; apply Z.ltb_lt; lia). eexists. split; [done|]. pose proof (doc_move A r B R s d (length (left_of d ++ [c])) Ha) as Hm. unfold doc_len, at_column in Hm.
    rewrite E in Hm. replace (left_of d ++ c :: t) with ((left_of d ++ [c]) ++ t) in Hm by (by rewrite <-app_assoc). rewrite take_app_length, drop_app_length in Hm.
    replace (Z.of_nat (length (left_of d)) + 1) with (Z.of_nat (length (left_of d ++ [c]))) by (rewrite length_app; cbn; lia). apply Hm. rewrite (length_app (_ ++ _)). lia.
Qed.

(** Words *)
Definition skips (space : bool) (c : Z) : bool := if space then is_space c else negb (is_space c).
Lemma drop_while_app p l : ∃ l', l = l' ++ drop_while p l.
Proof. induction l as [|c l [l' IH]]; [by exists []|]. cbn [drop_while]. destruct (p c); [exists (c :: l'); cbn; by rewrite <-IH|by exists []]. Qed.
Lemma back_while_run space l : ∀ t, back_while space (length l) (l ++ t) = Some (length (drop_while (skips space) (rev l))).
Proof.
  induction l as [|c l IH] using rev_ind; intros t; [done|]. rewrite length_app, rev_app_distr. cbn [length rev app drop_while]. rewrite Nat.add_1_r. cbn [back_while]. rewrite <-app_assoc. cbn [app].
  rewrite list_lookup_middle by done. cbn [mbind option_bind]. specialize (IH (c :: t)). unfold skips at 1, is_space. destruct (bool_decide (c = 32)), space; cbn [negb]; try (exact IH); cbn [length]; by rewrite length_rev.
Qed.
Lemma forth_while_run space m : ∀ a t, forth_while space (length m) (Z.of_nat (length a)) (a ++ m ++ t) = Some (Z.of_nat (length a + length m - length (drop_while (skips space) m))).
Proof.
  induction m as [|c m IH]; intros a t; cbn [length forth_while drop_while app]; [do 2 f_equal; lia|]. rewrite zlookup_mid by done. cbn [mbind option_bind].
  assert (forth_while space (length m) (Z.of_nat (length a) + 1) (a ++ c :: m ++ t) = Some (Z.of_nat (length a + S (length m) - length (drop_while (skips space) m)))) as IH'.
  { specialize (IH (a ++ [c]) t). rewrite length_app, <-app_assoc in IH. cbn [length app] in IH. rewrite Nat2Z.inj_add in IH. change (Z.of_nat 1) with 1 in IH. rewrite IH. do 2 f_equal. lia. }
  unfold skips at 1, is_space at 1 2. destruct (bool_decide (c = 32)), space; cbn [negb]; try (by rewrite IH'); cbn [length]; do 2 f_equal; lia.
Qed.

Lemma ctrl_left_ok : refines lap_ctrl_left doc_ctrl_left.
Proof.
  intros s d H. pose proof H as (A & r & B & R & Ha). unfold lap_ctrl_left, doc_ctrl_left. rewrite (ra_x _ _ _ _ _ _ Ha). destruct (left_of d) as [|c0 l0] eqn:E; [by apply end_above_ok|].
  replace (0 <? _) with true by (symmetry; apply Z.ltb_lt; cbn; lia). rewrite <-E. destruct (rep_row _ _ _ _ _ _ Ha) as (Er & _). rewrite Er, Nat2Z.id. cbn [mbind option_bind].
  destruct (ra_row _ _ _ _ _ _ Ha) as [_ [_ [rest ->]]]. rewrite <-!app_assoc, back_while_run. cbn [mbind option_bind]. destruct (drop_while_app (skips true) (rev (left_of d))) as [l1 E1].
  set (w := drop_while (skips true) (rev (left_of d))) in *. assert (left_of d = rev w ++ rev l1) as El by (by rewrite <-rev_app_distr, <-E1, rev_involutive).
  replace (left_of d ++ right_of d ++ 0 :: rest) with (rev w ++ rev l1 ++ right_of d ++ 0 :: rest) by (by rewrite (app_assoc (rev w)), <-El).
  rewrite <-(length_rev w), back_while_run, rev_involutive. cbn [mbind option_bind]. eexists. split; [done|].
  destruct (drop_while_app (skips false) w) as [l2 E2]. eapply doc_move; [exact Ha|]. change (drop_while (λ c, negb (is_space c)) (drop_while is_space (rev (left_of d)))) with (drop_while (skips false) w).
  unfold doc_len. rewrite El, !length_app, !length_rev. apply (f_equal length) in E2. rewrite length_app in E2. lia.
Qed.
Lemma ctrl_right_ok : refines lap_ctrl_right doc_ctrl_right.
Proof.
  intros s d H. pose proof H as (A & r & B & R & Ha). unfold lap_ctrl_right, doc_ctrl_right. destruct (rep_row _ _ _ _ _ _ Ha) as (Er & El & _). rewrite Er. cbn [mbind option_bind]. rewrite El. cbn [mbind option_bind].
  rewrite (ra_x _ _ _ _ _ _ Ha). unfold doc_len. rewrite length_app. destruct (right_of d) as [|c0 l0] eqn:E; [cbn [length]; rewrite Nat.add_0_r, Z.ltb_irrefl; by apply start_below_ok|]. rewrite <-E.
  replace (_ <? _) with true by (symmetry; apply Z.ltb_lt; rewrite E; cbn; lia). destruct (ra_row _ _ _ _ _ _ Ha) as [_ [_ [rest ->]]].
  replace (Z.to_nat (Z.of_nat (length (left_of d) + length (right_of d)) - Z.of_nat (length (left_of d)))) with (length (right_of d)) by lia.
  rewrite <-!app_assoc, forth_while_run. cbn [mbind option_bind]. destruct (drop_while_app (skips false) (right_of d)) as [l1 E1]. set (w := drop_while (skips false) (right_of d)) in *.
  assert (length (right_of d) = length l1 + length w)%nat as L1 by (by rewrite E1 at 1; rewrite length_app).
  replace (length (left_of d) + length (right_of d) - length w)%nat with (length (left_of d ++ l1)) by (rewrite length_app; lia).
  replace (Z.to_nat (_ - Z.of_nat (length (left_of d ++ l1)))) with (length w) by (rewrite length_app; lia).
  replace (left_of d ++ right_of d ++ 0 :: rest) with ((left_of d ++ l1) ++ w ++ 0 :: rest) by (rewrite <-app_assoc, (app_assoc l1), <-E1; done). rewrite forth_while_run. cbn [mbind option_bind].
  eexists. split; [done|]. change (drop_while is_space (drop_while (λ c, negb (is_space c)) (right_of d))) with (drop_while (skips true) w). destruct (drop_while_app (skips true) w) as [l2 E2].
  replace (length (left_of d ++ l1) + length w)%nat with (length (left_of d) + length (right_of d))%nat by (rewrite length_app; lia).
  eapply doc_move; [exact Ha|]. unfold doc_len. rewrite length_app. lia.
Qed.

(** ** Editing *)

Lemma backspace_in_line A r B R s d a c : rep_at A r B R s d → left_of d = a ++ [c] → ∃ s', lap_backspace s = Some s' ∧ rep s' (Doc (above d) a (right_of d) (below d)).
Proof.
  intros H E. destruct (rep_row _ _ _ _ _ _ H) as (Er & El & [N _]). unfold lap_backspace. rewrite (ra_x _ _ _ _ _ _ H), E, length_app. cbn [length].
  replace (0 <? _) with true by (symmetry; apply Z.ltb_lt; lia). rewrite Er. cbn [mbind option_bind]. rewrite El. cbn [mbind option_bind].
  destruct (ra_row _ _ _ _ _ _ H) as [Lr [_ [rest Hr]]]. rewrite E in Hr, N. unfold doc_len. rewrite E, !length_app. cbn [length].
  replace (Z.to_nat _) with (length (right_of d ++ [0])) by (rewrite length_app; cbn; lia). replace (Z.of_nat (length a + 1) - 1) with (Z.of_nat (length a)) by lia.
  destruct (close_gap_run (right_of d ++ [0]) a c rest) as [z Ez]. replace r with (a ++ c :: (right_of d ++ [0]) ++ rest) by (rewrite Hr, <-!app_assoc; done). rewrite Ez. cbn [mbind option_bind].
  destruct (rep_set_row A r B R s d (a ++ (right_of d ++ [0]) ++ z :: rest) a (right_of d) (Z.of_nat (length a)) H) as (s' & -> & Hs & Ey); [|done|].
  - split; [rewrite Hr in Lr; clear - Lr; len_lia|]. rewrite !not_elem_app in *. split; [rewrite not_elem_app; tauto|]. exists (z :: rest). by rewrite <-!app_assoc.
  - cbn [mbind option_bind]. eexists. split; [done|]. rewrite <-Ey. unfold rep. eauto.
Qed.

Lemma backspace_ok : refines lap_backspace doc_backspace.
Proof.
  intros s d H. pose proof H as (A & r & B & R & Ha). unfold doc_backspace. destruct (nil_or_last (left_of d)) as [E|(a & c & E)].
  2: { rewrite E, rev_app_distr. cbn [rev app]. rewrite rev_involutive. by eapply backspace_in_line. }
  rewrite E. cbn [rev]. destruct (nil_or_last (above d)) as [Ea|(ra & p & Ea)]; rewrite Ea.
  { exists s. split; [|done]. unfold lap_backspace. rewrite (ra_x _ _ _ _ _ _ Ha), (ra_y _ _ _ _ _ _ Ha), E. pose proof (ra_above _ _ _ _ _ _ Ha) as F. rewrite Ea in F. apply Forall2_nil_inv_r in F as ->. done. }
  rewrite rev_app_distr. cbn [rev app]. rewrite rev_involutive. destruct Ha as [Eb Fa Hr Fb Fr Sz Cn Cy Cx]. rewrite Ea in Fa. rewrite E in *. cbn [app length] in *.
  apply Forall2_app_inv_r in Fa as (A1 & A2 & F1 & F2 & ->). apply Forall2_cons_inv_r in F2 as (q & A3 & Hq & F3 & ->). apply Forall2_nil_inv_r in F3 as ->.
  rewrite length_app in *. cbn [length] in *. rewrite <-app_assoc in Eb. cbn [app] in Eb. assert (buffer s = (A1 ++ [q]) ++ r :: B ++ R) as Eb' by (by rewrite Eb, <-app_assoc).
  unfold lap_backspace, doc_len. rewrite Cx, Cy, E. change (0 <? Z.of_nat 0) with false. cbn iota. replace (0 <? _) with true by (symmetry; apply Z.ltb_lt; lia). cbn [app].
  unfold line_len, row. replace (zlookup (buffer s) (Z.of_nat (length A1 + 1) - 1)) with (Some q) by (by rewrite Eb, (zlookup_at A1) by lia).
  replace (zlookup (buffer s) (Z.of_nat (length A1 + 1))) with (Some r) by (by rewrite Eb', (zlookup_at (A1 ++ [q])) by (rewrite length_app; cbn; lia)). cbn [mbind option_bind].
  rewrite (strlen_row q p), (strlen_row r (right_of d)) by done. cbn [mbind option_bind]. unfold MAX_LINE_LEN. destruct (Nat.ltb_spec (length p + length (right_of d)) 255) as [L|L].
  2: { replace (_ <? 256 - 1) with false by (symmetry; apply Z.ltb_ge; lia). exists s. split; [done|]. exists (A1 ++ [q]), r, B, R. split; rewrite ?E, ?Ea; cbn [app length]; try done. - apply Forall2_app; [done|by constructor]. - rewrite length_app. cbn. lia. - rewrite length_app. cbn. lia. }
  replace (_ <? 256 - 1) with true by (symmetry; apply Z.ltb_lt; lia).
  destruct Hq as [Lq [Nq [restq Eq]]]. pose proof (rowrep_line _ _ Hr) as [Nr _]. destruct Hr as [Lr [_ [restr Err]]].
  replace (Z.of_nat (length A1 + 1) - 1) with (Z.of_nat (length A1)) by lia. unfold copy_row, row. rewrite Eb, zlookup_mid by done. cbn [mbind option_bind].
  assert (length restq = 255 - length p)%nat as Lrq by (rewrite Eq, length_app in Lq; cbn in Lq; lia).
  assert (strcpy_loop q (Z.of_nat (length p)) r = Some (p ++ right_of d ++ 0 :: drop (S (length (right_of d))) (0 :: restq))) as -> by (rewrite Eq, Err; apply strcpy_loop_fits; [done|cbn; lia]).
  cbn [mbind option_bind]. rewrite zset_mid by done. cbn [mbind option_bind].
  match goal with |- context [rows_up _ _ (A1 ++ ?q' :: _)] => set (qn := q') end.
  assert (rowrep qn (p ++ right_of d)) as Hqn.
  { subst qn. split; [|split; [by apply not_elem_app|]]; [clear - L Lrq; len_lia|]. eexists. by rewrite <-app_assoc. }
  clearbody qn. destruct (rows_up_run B (below d) Fb (A1 ++ [qn]) r R Lr) as (B' & z' & Eu & FB & Lz). rewrite <-app_assoc, length_app in Eu. cbn [app length] in Eu.
  replace (Z.to_nat (line_count s - 1 - Z.of_nat (length A1 + 1))) with (length B) by lia. rewrite Eu. cbn [mbind option_bind]. eexists. split; [done|].
  exists A1, qn, B', (z' :: R). split; cbn [buffer line_count cursor_x cursor_y with_cursor with_text above left_of right_of below]; try done.
  - by rewrite <-app_assoc.
  - by constructor.
  - rewrite Eb in Sz. apply Forall2_length in FB, Fb. clear - Sz FB Fb. len_lia.
  - apply Forall2_length in FB, Fb. lia.
Qed.

(** Room for [k] characters at the cursor *)
Lemma gap_run A r B R s d k : rep_at A r B R s d → (doc_len d + k ≤ 255)%nat →
  ∃ g t, length g = k ∧ open_gap (Z.to_nat (Z.of_nat (doc_len d) - cursor_x s + 1)) (Z.of_nat (doc_len d)) (Z.of_nat k) r = Some (left_of d ++ g ++ t) ∧
    ∀ cs, length cs = k → (0 ∉ cs) → rowrep (left_of d ++ cs ++ t) ((left_of d ++ cs) ++ right_of d).
Proof.
  intros H Hk. destruct (ra_row _ _ _ _ _ _ H) as [Lr [N [rest Er]]]. rewrite (ra_x _ _ _ _ _ _ H). unfold doc_len in *.
  assert (length rest = 255 - length (left_of d ++ right_of d))%nat as Lrest by (rewrite Er in Lr; clear - Lr; len_lia).
  destruct (open_gap_run k (right_of d ++ [0]) (left_of d) rest) as (g & Lg & E); [lia|]. exists g, ((right_of d ++ [0]) ++ drop k rest). split; [done|]. split.
  - replace (Z.to_nat _) with (length (right_of d ++ [0])) by (clear; len_lia). replace (Z.of_nat (length (left_of d ++ right_of d))) with (Z.of_nat (length (left_of d) + length (right_of d ++ [0])) - 1) by (clear; len_lia).
    replace r with (left_of d ++ (right_of d ++ [0]) ++ rest) by (rewrite Er, <-!app_assoc; done). exact E.
  - intros cs Lcs Ncs. apply not_elem_app in N as [N1 N2]. split; [clear - Lrest Hk Lcs; len_lia|]. split; [by rewrite !not_elem_app|]. exists (drop k rest). by rewrite <-!app_assoc.
Qed.

Lemma tab_ok : refines lap_tab (doc_insert (replicate 4 32) 252).
Proof.
  intros s d H. pose proof H as (A & r & B & R & Ha). destruct (rep_row _ _ _ _ _ _ Ha) as (Er & El & _). unfold lap_tab, doc_insert, MAX_LINE_LEN. rewrite Er. cbn [mbind option_bind]. rewrite El. cbn [mbind option_bind].
  destruct (Nat.ltb_spec (doc_len d) 252) as [L|L]; [|replace (_ <? 256) with false by (symmetry; apply Z.ltb_ge; lia); by exists s]. replace (_ <? 256) with true by (symmetry; apply Z.ltb_lt; lia).
  destruct (gap_run A r B R s d 4 Ha ltac:(lia)) as (g & t & Lg & E & Hr). change (Z.of_nat 4) with 4 in E. rewrite E. cbn [mbind option_bind]. rewrite (ra_x _ _ _ _ _ _ Ha), fill_spaces_run by done. cbn [mbind option_bind].
  destruct (rep_set_row A r B R s d _ _ _ (Z.of_nat (length (left_of d)) + 4) Ha (Hr (replicate 4 32) eq_refl ltac:(apply (bool_decide_unpack _); by vm_compute))) as (s' & -> & Hs & Ey); [len_lia|].
  cbn [mbind option_bind]. eexists. split; [done|]. rewrite <-Ey. unfold rep. eauto.
Qed.
Lemma char_ok c : 32 ≤ c → refines (lap_char c) (doc_insert [c] 255).
Proof.
  intros Hc s d H. pose proof H as (A & r & B & R & Ha). destruct (rep_row _ _ _ _ _ _ Ha) as (Er & El & _). unfold lap_char, doc_insert, MAX_LINE_LEN. rewrite Er. cbn [mbind option_bind]. rewrite El. cbn [mbind option_bind].
  destruct (Nat.ltb_spec (doc_len d) 255) as [L|L]; [|replace (_ <? 256 - 1) with false by (symmetry; apply Z.ltb_ge; lia); by exists s]. replace (_ <? 256 - 1) with true by (symmetry; apply Z.ltb_lt; lia).
  destruct (gap_run A r B R s d 1 Ha ltac:(lia)) as (g & t & Lg & E & Hr). change (Z.of_nat 1) with 1 in E. rewrite E. cbn [mbind option_bind]. destruct g as [|y [|]]; try done. cbn [app]. rewrite (ra_x _ _ _ _ _ _ Ha), zset_mid by done. cbn [mbind option_bind].
  destruct (rep_set_row A r B R s d _ _ _ (Z.of_nat (length (left_of d)) + 1) Ha (Hr [c] eq_refl ltac:(rewrite list_elem_of_singleton; lia))) as (s' & Es & Hs & Ey); [len_lia|].
  cbn [app] in Es. rewrite Es. cbn [mbind option_bind]. eexists. split; [done|]. rewrite <-Ey. unfold rep. eauto.
Qed.

Lemma newline_ok : refines lap_newline doc_newline.
Proof.
  intros s d (A & r & B & R & [Eb Fa Hr Fb Fr Sz Cn Cy Cx]). unfold lap_newline, doc_newline, doc_lines, MAX_LINES.
  assert (length (above d ++ (left_of d ++ right_of d) :: below d) = length A + 1 + length B)%nat as -> by (apply Forall2_length in Fa, Fb; clear - Fa Fb; len_lia). rewrite Cn.
  destruct (Nat.ltb_spec (length A + 1 + length B) 1000) as [L|L].
  2: { replace (_ <? 1000) with false by (symmetry; apply Z.ltb_ge; lia). exists s. split; [done|]. by exists A, r, B, R. }
  replace (_ <? 1000) with true by (symmetry; apply Z.ltb_lt; lia). destruct R as [|z R]; [exfalso; rewrite Eb in Sz; clear - Sz L; len_lia|]. apply Forall_cons in Fr as [Lz Fr].
  destruct (rows_down_run (below d) B Fb (A ++ [r]) z R Lz) as (B' & z' & Ed & FB & Lz'). rewrite Cy, Cx.
  replace (Z.to_nat _) with (length B) by lia. replace (Z.of_nat (length A + 1 + length B)) with (Z.of_nat (length (A ++ [r]) + length B)) by (clear; len_lia).
  replace (buffer s) with ((A ++ [r]) ++ B ++ z :: R) by (by rewrite Eb, <-app_assoc). rewrite Ed. cbn [mbind option_bind]. rewrite <-app_assoc. cbn [app]. unfold row at 1. rewrite zlookup_mid by done. cbn [mbind option_bind].
  pose proof (rowrep_line _ _ Hr) as [N Ll]. apply not_elem_app in N as [N1 N2]. destruct Hr as [Lr [_ [rest Er]]].
  assert (from r (Z.of_nat (length (left_of d))) = right_of d ++ 0 :: rest) as -> by (unfold from; rewrite Nat2Z.id, Er, <-app_assoc; apply drop_app_length).
  assert (A ++ r :: z' :: B' ++ R = (A ++ [r]) ++ z' :: B' ++ R) as -> by (by rewrite <-app_assoc). replace (Z.of_nat (length A) + 1) with (Z.of_nat (length (A ++ [r]))) by (clear; len_lia).
  unfold copy_row, row at 1. rewrite zlookup_mid by done. cbn [mbind option_bind]. destruct (strcpy_holds z' (right_of d) rest N2) as (n & En & Hn & Ln); [clear - Ll Lz'; len_lia|]. unfold ulib_strcpy in En. rewrite En. cbn [mbind option_bind]. rewrite zset_mid by done. cbn [mbind option_bind].
  rewrite <-app_assoc. cbn [app]. unfold set_char, row. rewrite zlookup_mid by done. cbn [mbind option_bind]. assert (∃ y t, right_of d ++ 0 :: rest = y :: t) as (y & t & Ey) by (destruct (right_of d); cbn; eauto).
  rewrite Er, <-app_assoc, Ey, zset_mid by done. cbn [mbind option_bind]. rewrite zset_mid by done. cbn [mbind option_bind]. eexists. split; [done|].
  exists (A ++ [left_of d ++ 0 :: t]), n, B', R. apply Forall2_length in FB as LB. apply Forall2_length in Fb as LB'. split; cbn [buffer line_count cursor_x cursor_y with_cursor with_text above left_of right_of below]; try done.
  - by rewrite <-app_assoc.
  - apply Forall2_app; [done|]. constructor; [|done]. split; [|split; [done|by exists t]]. rewrite Er, <-app_assoc, Ey in Lr. clear - Lr. len_lia.
  - split; [congruence|done].
  - rewrite Eb in Sz. clear - Sz LB LB'. len_lia.
  - clear - LB LB'. len_lia.
  - clear. len_lia.
Qed.

Lemma key_ok c : refines (lap_key c) (doc_key c).
Proof.
  unfold lap_key, doc_key. repeat (case_match; [first [apply backspace_ok | apply tab_ok | apply newline_ok | apply up_ok | apply down_ok | apply left_ok | apply right_ok | apply ctrl_left_ok | apply ctrl_right_ok | apply char_ok; lia]|]).
  intros s d H'. by exists s.
Qed.

(** ** A session *)

Lemma with_row_frame r s s' : with_row r s = Some s' → filename s' = filename s ∧ scroll_x s' = scroll_x s ∧ scroll_y s' = scroll_y s.
Proof. unfold with_row. intros. by simplify_option_eq. Qed.
Lemma key_frame c s s' : lap_key c s = Some s' → filename s' = filename s ∧ scroll_x s' = scroll_x s ∧ scroll_y s' = scroll_y s.
Proof.
  unfold lap_key, lap_backspace, lap_tab, lap_newline, lap_up, lap_down, lap_left, lap_right, lap_ctrl_left, lap_ctrl_right, lap_char, to_row, line_end_above, line_start_below.
  intros E. repeat (case_match; simplify_option_eq; try done); match goal with H : with_row _ _ = Some _ |- _ => apply with_row_frame in H; exact H end.
Qed.

(** ** Loading *)

(** A chunk boundary anywhere makes no difference. *)
Lemma load_split c1 : ∀ rest b i j b' i' j', load_chars (c1 ++ rest) b i j = Some (b', i', j') → i' < MAX_LINES →
  ∃ b1 i1 j1, load_chars c1 b i j = Some (b1, i1, j1) ∧ load_chars rest b1 i1 j1 = Some (b', i', j') ∧ (c1 ≠ [] → i < MAX_LINES → i1 < MAX_LINES).
Proof.
  induction c1 as [|c c1 IH]; intros rest b i j b' i' j' E Hi; [by exists b, i, j|]. cbn [app load_chars] in *. destruct (c =? 10).
  - destruct (set_char b i j 0) as [b0|]; [|done]. cbn [mbind option_bind] in *. destruct (Z.leb_spec MAX_LINES (i + 1)); [simplify_eq; lia|].
    destruct (IH _ _ _ _ _ _ _ E Hi) as (b1 & i1 & j1 & E1 & E2 & H1). exists b1, i1, j1. split; [done|]. split; [done|]. intros _ _. destruct c1; [cbn in E1; simplify_eq; lia|]. apply H1; [done|lia].
  - destruct (negb (c =? 13) && _).
    + destruct (set_char b i j c) as [b0|]; [|done]. cbn [mbind option_bind] in *. destruct (IH _ _ _ _ _ _ _ E Hi) as (b1 & i1 & j1 & E1 & E2 & H1). exists b1, i1, j1. split; [done|]. split; [done|]. intros _ L. destruct c1; [cbn in E1; simplify_eq; lia|]. by apply H1.
    + destruct (IH _ _ _ _ _ _ _ E Hi) as (b1 & i1 & j1 & E1 & E2 & H1). exists b1, i1, j1. split; [done|]. split; [done|]. intros _ L. destruct c1; [cbn in E1; simplify_eq; lia|]. by apply H1.
Qed.

Definition text_line (l : list Z) : Prop := line l ∧ (10 ∉ l) ∧ (13 ∉ l).

Lemma set_char_run (A B : list (list Z)) p y t c : set_char (A ++ (p ++ y :: t) :: B) (Z.of_nat (length A)) (Z.of_nat (length p)) c = Some (A ++ (p ++ c :: t) :: B).
Proof. unfold set_char, row. rewrite zlookup_mid by done. cbn [mbind option_bind]. rewrite zset_mid by done. cbn [mbind option_bind]. by rewrite zset_mid. Qed.

Lemma load_line_chars l rest : text_line l → ∀ A p t B, (0 ∉ p) → (length p + length l ≤ 255)%nat → (length p + length t = 256)%nat → Z.of_nat (length A) + 1 < MAX_LINES →
  ∃ r, load_chars (l ++ 10 :: rest) (A ++ (p ++ t) :: B) (Z.of_nat (length A)) (Z.of_nat (length p)) = load_chars rest ((A ++ [r]) ++ B) (Z.of_nat (length (A ++ [r]))) 0 ∧ rowrep r (p ++ l).
Proof.
  intros [[N0 _] [N10 N13]]. revert N0 N10 N13. induction l as [|c l IH]; intros N0 N10 N13 A p t B Np Lp Lt La; cbn [app load_chars].
  - destruct t as [|y t]; [exfalso; cbn in *; lia|]. change (10 =? 10) with true. cbn iota. rewrite set_char_run. cbn [mbind option_bind]. replace (MAX_LINES <=? _) with false by (symmetry; by apply Z.leb_gt).
    exists (p ++ 0 :: t). rewrite <-app_assoc, app_nil_r, length_app. cbn [app length]. split; [f_equal; lia|]. split; [clear - Lt; len_lia|]. split; [done|by exists t].
  - apply not_elem_of_cons in N0 as [C0 N0], N10 as [C10 N10], N13 as [C13 N13]. cbn [length] in *. replace (c =? 10) with false by (symmetry; apply Z.eqb_neq; lia). replace (c =? 13) with false by (symmetry; apply Z.eqb_neq; lia).
    unfold MAX_LINE_LEN. replace (_ <? 256 - 1) with true by (symmetry; apply Z.ltb_lt; lia). cbn [negb andb]. destruct t as [|y t]; [exfalso; cbn in *; lia|]. rewrite set_char_run. cbn [mbind option_bind].
    destruct (IH N0 N10 N13 A (p ++ [c]) t B) as (r & E & Hr); [rewrite not_elem_app, list_elem_of_singleton; split; [done|congruence]|clear - Lp; len_lia|clear - Lt; len_lia|done|].
    exists r. rewrite <-app_assoc, length_app in E. cbn [app length] in E. rewrite Nat2Z.inj_add in E. rewrite <-app_assoc in Hr. split; [exact E|exact Hr].
Qed.
Lemma load_lines_chars ls : Forall text_line ls → ∀ A B, Forall (λ r, length r = 256%nat) B → (length A + length B = 1000)%nat → (length A + length ls < 1000)%nat →
  ∃ rs R, load_chars (file_of ls) (A ++ B) (Z.of_nat (length A)) 0 = Some (A ++ rs ++ R, Z.of_nat (length A + length ls), 0) ∧ Forall2 rowrep rs ls ∧ Forall (λ r, length r = 256%nat) R ∧ (length rs + length R = length B)%nat.
Proof.
  induction 1 as [|l ls Hl F IH]; intros A B FB L1 L2.
  { exists [], B. cbn [length app]. rewrite Nat.add_0_r. by split_and!. }
  cbn [length] in L2. destruct B as [|b B]; [cbn in L1; lia|]. apply Forall_cons in FB as [Lb FB]. cbn [length] in L1. change (file_of (l :: ls)) with ((l ++ [10]) ++ file_of ls). rewrite <-app_assoc. cbn [app].
  destruct (load_line_chars l (file_of ls) Hl A [] b B) as (r & E & Hr); [by intros ?%elem_of_nil|destruct Hl as [[_ ?] _]; cbn; lia|cbn; lia|unfold MAX_LINES; lia|]. cbn [app length] in E. change (Z.of_nat 0) with 0 in E. rewrite E.
  destruct (IH (A ++ [r]) B FB) as (rs & R & E2 & F2 & FR & LR); [clear - L1; len_lia|clear - L2; len_lia|]. rewrite E2. exists (r :: rs), R. split; [|split; [by constructor|split; [done|cbn; lia]]].
  rewrite <-app_assoc. cbn [app]. do 2 f_equal. f_equal. clear. len_lia.
Qed.

Section session.
Context (os : answers) (junk : nat → list Z) (Hjunk : ∀ n, length (junk n) = n) (fd : Z) (Hfd : 1 < fd).
#[local] Open Scope kernel_scope.

(** A call that neither reads a key nor writes the file *)
Definition calm (c : ucall) : Prop := c ≠ Ugetc ∧ ∀ d, c ≠ Uwrite fd d.
Definition calmly {A} (m : prog A) (a : A) : Prop := ∀ log, ∃ new, m log = Ret a (new ++ log) ∧ Forall calm new.

Lemma calmly_ret {A} (a : A) : calmly (kret a) a.
Proof. intros log. by exists []. Qed.
Lemma calmly_bind {A B} (m : prog A) (k : A → prog B) a b : calmly m a → calmly (k a) b → calmly (kbind m k) b.
Proof.
  intros Hm Hk log. destruct (Hm log) as (n1 & E1 & F1). destruct (Hk (n1 ++ log)) as (n2 & E2 & F2). exists (n2 ++ n1).
  rewrite (kbind_ret _ _ _ _ _ E1), E2, <-app_assoc. split; [done|]. by apply Forall_app.
Qed.
Lemma calmly_lift {A B} (o : option A) (k : A → prog B) a b : o = Some a → calmly (k a) b → calmly (kbind (lift o) k) b.
Proof. intros -> H log. apply H. Qed.
Lemma calmly_ask {B} c (k : Z * list Z → prog B) b : calm c → (∀ r, calmly (k r) b) → calmly (kbind (ask os c) k) b.
Proof.
  intros Hc Hk log. destruct (Hk (os log c) (c :: log)) as (new & E & F). exists (new ++ [c]). unfold kbind, ask. rewrite E, <-app_assoc. split; [done|]. apply Forall_app. split; [done|]. by apply Forall_singleton.
Qed.
Lemma calm_write d : calm (Uwrite 1 d).
Proof. split; [done|]. intros d' [=]. lia. Qed.
Lemma print_calm b s : holds b s → calmly (print os b) tt.
Proof.
  intros [N [rest ->]]. unfold print. apply (calmly_lift _ _ (Z.of_nat (length s))); [unfold ulib_strlen; by rewrite strlen_loop_app|]. destruct (0 <? _); [|apply calmly_ret].
  apply calmly_ask; [apply calm_write|]. intros r. apply calmly_ret.
Qed.
Lemma spaces_calm n : calmly (spaces os n) tt.
Proof. induction n as [|n IH]; [apply calmly_ret|]. cbn [spaces]. eapply calmly_bind; [|exact IH]. apply (print_calm _ [32]). split; [apply (bool_decide_unpack _); by vm_compute|by exists []]. Qed.
Lemma num_calm n b : 0 ≤ n < 2147483647 → length b = 16%nat → ∃ b', calmly (print_num os n b) b' ∧ length b' = 16%nat.
Proof.
  intros Hn Hb. unfold print_num. rewrite s32_small by lia. destruct (int_to_str_run n b) as (t & rest & E & _ & N & _); [lia|lia|]. exists (t ++ 0 :: rest). split.
  - eapply calmly_lift; [exact E|]. eapply calmly_bind; [apply (print_calm _ t); split; [done|by exists rest]|apply calmly_ret].
  - apply strcpy_loop_length in E. lia.
Qed.

Lemma rule_holds : holds rule (replicate 80 45 ++ [10]).
Proof. split; [apply (bool_decide_unpack _); by vm_compute|by exists []]. Qed.
Lemma lit_calm t : (0 ∉ str t) → calmly (prints os t) tt.
Proof. intros N. apply (print_calm _ (str t)). split; [done|by exists []]. Qed.
Lemma nl_calm : calmly (println os "") tt.
Proof. apply (print_calm _ [10]). split; [apply (bool_decide_unpack _); by vm_compute|by exists []]. Qed.

(** Line [y] of the text *)
Lemma rep_line s d y : rep s d → 0 ≤ y < line_count s → ∃ r l, row (buffer s) y = Some r ∧ rowrep r l.
Proof.
  intros (A & r & B & R & [Eb Fa Hr Fb Fr Sz Cn Cy Cx]) Hy. assert (Forall2 rowrep (A ++ r :: B) (doc_lines d)) as F by (apply Forall2_app; [done|by constructor]).
  destruct (lookup_lt_is_Some_2 (A ++ r :: B) (Z.to_nat y)) as [q Hq]; [rewrite length_app; cbn; lia|]. destruct (Forall2_lookup_l _ _ _ _ _ F Hq) as (l & _ & Hl). exists q, l. split; [|done].
  unfold row. rewrite <-(Z2Nat.id y), zlookup_nat, Eb by lia. replace (A ++ r :: B ++ R) with ((A ++ r :: B) ++ R) by (by rewrite <-app_assoc). rewrite lookup_app_l; [done|]. by eapply lookup_lt_Some.
Qed.

Lemma row_calm s d idx : rep s d → 0 ≤ idx < line_count s → 0 ≤ scroll_x s → calmly (print_row os junk idx s) tt.
Proof.
  intros H Hi Hx. assert (line_count s ≤ 1000) as Hc by (destruct H as (A & r & B & R & [Eb _ _ _ _ Sz Cn _ _]); rewrite Eb in Sz; clear - Sz Cn; len_lia).
  unfold print_row. destruct (int_to_str_run (idx + 1) (junk 16)) as (t & rest & E & Lt & N & _); [lia|rewrite Hjunk; lia|]. eapply calmly_lift; [exact E|].
  apply (calmly_lift _ _ (Z.of_nat (length t))); [unfold ulib_strlen; by rewrite strlen_loop_app|]. eapply calmly_bind; [apply spaces_calm|]. eapply calmly_bind; [apply (print_calm _ t); split; [done|by exists rest]|].
  eapply calmly_bind; [apply lit_calm; apply (bool_decide_unpack _); by vm_compute|]. destruct (rep_line s d idx H Hi) as (r & l & Er & Hr). eapply calmly_lift; [exact Er|]. eapply calmly_lift; [by apply strlen_row|].
  destruct (Z.ltb_spec (scroll_x s) (Z.of_nat (length l))) as [L|L]; [|apply calmly_ret]. eapply print_calm. split; [|by eexists [] ].
  destruct Hr as [_ [Nl [q ->]]]. unfold from. rewrite drop_app_le, take_app_le by (rewrite ?length_drop; lia). intros (i & Hi' & _)%elem_of_take. rewrite lookup_drop in Hi'. by eapply Nl, list_elem_of_lookup_2.
Qed.

Lemma rows_calm s d : rep s d → 0 ≤ scroll_x s → 0 ≤ scroll_y s → ∀ n i, 0 ≤ i → calmly (print_rows os junk n i s) tt.
Proof.
  intros H Hx Hy. induction n as [|n IH]; intros i Hi; cbn [print_rows]; [apply calmly_ret|]. eapply calmly_bind; [|eapply calmly_bind; [apply nl_calm|apply IH; lia]].
  destruct (Z.ltb_spec (i + scroll_y s) (line_count s)); [|apply calmly_ret]. eapply row_calm; [done|lia|done].
Qed.
Lemma redraw_calm s d f : rep s d → holds (filename s) f → 0 ≤ scroll_x s → 0 ≤ scroll_y s → calmly (redraw os junk s) tt.
Proof.
  intros H Hf Hx Hy. pose proof H as (A & r & B & R & Ha). destruct (rep_row _ _ _ _ _ _ Ha) as (Er & El & [_ Ll]). destruct Ha as [Eb _ Hr _ _ Sz Cn Cy Cx].
  assert (Z.of_nat (length A) < 1000) as La by (rewrite Eb in Sz; clear - Sz; len_lia). rewrite length_app in Ll. unfold redraw.
  apply calmly_ask; [done|]. intros _. apply calmly_ask; [done|]. intros _. eapply calmly_bind; [apply lit_calm; apply (bool_decide_unpack _); by vm_compute|]. eapply calmly_bind; [by eapply print_calm|].
  eapply calmly_bind; [apply nl_calm|]. eapply calmly_bind; [eapply print_calm, rule_holds|]. eapply calmly_bind; [eapply rows_calm; (done || lia)|]. apply calmly_ask; [done|]. intros _.
  eapply calmly_bind; [eapply print_calm, rule_holds|]. eapply calmly_bind; [apply lit_calm; apply (bool_decide_unpack _); by vm_compute|].
  destruct (num_calm (cursor_y s + 1) (junk 16)) as (b & Hb & Lb); [lia|by rewrite Hjunk|]. eapply calmly_bind; [exact Hb|]. eapply calmly_bind; [apply lit_calm; apply (bool_decide_unpack _); by vm_compute|].
  destruct (num_calm (cursor_x s + 1) b) as (b2 & Hb2 & _); [lia|done|]. eapply calmly_bind; [exact Hb2|]. apply calmly_ask; [done|]. intros _.
  destruct (zlookup_lt r (cursor_x s)) as (c & Hc & _); [destruct Hr as [-> _]; lia|]. eapply calmly_lift; [unfold char_at; rewrite Er; exact Hc|].
  destruct (c =? 0); [|apply calmly_ret]. eapply calmly_bind; [apply lit_calm; apply (bool_decide_unpack _); by vm_compute|]. apply calmly_ask; [done|]. intros _. apply calmly_ret.
Qed.

(** What [save_file] writes *)
Lemma save_rows_run A rs ls R : Forall2 rowrep rs ls → ∀ log, ∃ new, save_rows os (length rs) (Z.of_nat (length A)) fd (A ++ rs ++ R) log = Ret tt (new ++ log) ∧ file_written fd new = file_of ls ∧ Forall (λ c, c ≠ Ugetc) new.
Proof.
  intros F. revert A. induction F as [|r l rs ls Hr F IH]; intros A log; [by exists []|]. cbn [length save_rows app]. unfold row.
  rewrite (kbind_ret _ _ _ r log) by (unfold lift, kget_opt; by rewrite zlookup_mid). rewrite (kbind_ret _ _ _ (Z.of_nat (length l)) log) by (unfold lift, kget_opt; by rewrite (strlen_row r l)).
  destruct (IH (A ++ [r]) (Uwrite fd [10] :: Uwrite fd l :: log)) as (new & E & W & Fn). exists (new ++ [Uwrite fd [10]; Uwrite fd l]).
  rewrite <-app_assoc, length_app in E. cbn [app length] in E. rewrite Nat2Z.inj_add in E. change (Z.of_nat 1) with 1 in E. destruct Hr as [_ [_ [q ->]]].
  rewrite Nat2Z.id, take_app_length. unfold kbind, ask. rewrite E, <-app_assoc. split; [done|]. split; [|apply Forall_app; split; [done|by repeat constructor]].
  rewrite file_written_app, W. cbn [file_written]. by rewrite Z.eqb_refl.
Qed.
Lemma save_run s d f log : rep s d → holds (filename s) f → (∀ log, (os log (Uopen f (Z.lor UABI_O_WRONLY UABI_O_CREAT))).1 = fd) →
  ∃ new, save_file os (filename s) s log = Ret tt (new ++ log) ∧ file_written fd new = file_of (doc_lines d) ∧ Forall (λ c, c ≠ Ugetc) new.
Proof.
  intros (A & r & B & R & [Eb Fa Hr Fb Fr Sz Cn Cy Cx]) Hf Ho. unfold save_file. rewrite (kbind_ret _ _ _ _ _ (ask_path_run os _ _ f log Hf)), Ho. replace (fd <? 0) with false by (symmetry; apply Z.ltb_ge; lia).
  destruct (save_rows_run [] (A ++ r :: B) (doc_lines d) R) with (log := Uopen f (Z.lor UABI_O_WRONLY UABI_O_CREAT) :: log) as (new & E & W & Fn); [apply Forall2_app; [done|by constructor]|].
  exists (Uclose fd :: new ++ [Uopen f (Z.lor UABI_O_WRONLY UABI_O_CREAT)]). rewrite Eb. replace (Z.to_nat (line_count s)) with (length (A ++ r :: B)) by (rewrite Cn; clear; len_lia).
  replace (A ++ r :: B ++ R) with ((A ++ r :: B) ++ R) by (by rewrite <-app_assoc). rewrite (kbind_ret _ _ _ _ _ E). unfold kbind, ask. cbn [app]. rewrite <-app_assoc. split; [done|]. split.
  - cbn [file_written]. by rewrite file_written_app, W.
  - constructor; [done|]. apply Forall_app. split; [done|by repeat constructor].
Qed.

(** ** Keys *)

Fixpoint getcs (log : list ucall) : nat := match log with [] => 0%nat | Ugetc :: log => S (getcs log) | _ :: log => getcs log end.
(** The keys typed, in order *)
Definition types (keys : list Z) : Prop := ∀ log k, keys !! getcs log = Some k → (os log Ugetc).1 = k.
Lemma lap_getcs_app a b : getcs (a ++ b) = (getcs a + getcs b)%nat.
Proof. induction a as [|c a IH]; [done|]. destruct c; cbn [getcs app]; by rewrite IH. Qed.
Lemma getcs_none a : Forall (λ c, c ≠ Ugetc) a → getcs a = 0%nat.
Proof. induction 1 as [|c a Hc _ IH]; [done|]. by destruct c. Qed.
Lemma calm_none a : Forall calm a → getcs a = 0%nat ∧ file_written fd a = [].
Proof.
  induction 1 as [|c a [Hc Hw] _ [I1 I2]]; [done|]. split; [by destruct c|]. destruct c; cbn [file_written]; try done.
  rewrite I2. destruct (Z.eqb_spec fd0 fd) as [->|]; [by exfalso; eapply Hw|done].
Qed.
Lemma sys_run {A} (m : prog A) s log a log' : m log = Ret a log' → sys m (s, log) = Ret a (s, log').
Proof. intros E. unfold sys. cbn [fst snd]. by rewrite E. Qed.

Record editing (f : list Z) (s : lappy) (d : doc) : Prop := { ed_rep : rep s d; ed_name : holds (filename s) f; ed_x : 0 ≤ scroll_x s; ed_y : 0 ≤ scroll_y s }.
Lemma scrolled f s d : editing f s d → editing f (ensure_scroll s) d.
Proof.
  intros [(A & r & B & R & H) N X Y]. destruct H as [Eb Fa Hr Fb Fr Sz Cn Cy Cx]. unfold ensure_scroll, LINE_NUM_WIDTH.
  split; cbn [filename scroll_x scroll_y with_scroll]; [exists A, r, B, R; by split|done|..]; repeat (case_match; zify_bool); lia.
Qed.

(** One turn of the loop up to the key *)
Lemma turn f s d keys fuel log k : editing f s d → types keys → keys !! getcs log = Some k →
  ∃ new, getcs new = 1%nat ∧ file_written fd new = [] ∧ main_loop os junk (S fuel) (s, log) =
    kbind (if k =? CTRL 113 then sys (ask os Uclear ;;; do_exit os 0) else if k =? CTRL 115 then let* s := kget in sys (save_file os (filename s.1) s.1) else edit (lap_key k))
      (λ _, edit (λ s, Some (ensure_scroll s)) ;;; main_loop os junk fuel) (s, new ++ log).
Proof.
  intros [H N X Y] Ht Hk. destruct (redraw_calm s d f H N X Y log) as (n1 & E1 & F1). apply calm_none in F1 as [G1 W1]. exists (Ugetc :: n1). split; [cbn; by rewrite G1|]. split; [done|].
  cbn [main_loop]. rewrite (kbind_ret _ _ _ (s, log) (s, log)) by done. cbn [fst]. rewrite (kbind_ret _ _ _ _ _ (sys_run _ s log _ _ E1)).
  rewrite (kbind_ret _ _ _ k (s, Ugetc :: n1 ++ log)); [done|]. unfold sys, ask_, ask, kbind, kret. cbn [fst snd]. rewrite (Ht (n1 ++ log) k); [done|]. by rewrite lap_getcs_app, G1.
Qed.

Lemma session_run f keys edits : types keys → (∀ log, (os log (Uopen f (Z.lor UABI_O_WRONLY UABI_O_CREAT))).1 = fd) → Forall (λ c, c ≠ CTRL 113 ∧ c ≠ CTRL 115) edits →
  ∀ n fuel s d log, getcs log = n → drop n keys = edits ++ [CTRL 115; CTRL 113] → editing f s d → (length edits + 2 ≤ fuel)%nat →
  ∃ s' new, main_loop os junk fuel (s, log) = Hang (s', Uexit 0 :: new ++ log) ∧ file_written fd new = file_of (doc_lines (foldl (λ d c, doc_key c d) d edits)).
Proof.
  intros Ht Ho F. induction F as [|k edits [Hq Hs] F IH]; intros n fuel s d log Hn Hd He Hf.
  - destruct fuel as [|[|fuel]]; [cbn in Hf; lia..|]. assert (keys !! n = Some (CTRL 115) ∧ keys !! S n = Some (CTRL 113)) as [K1 K2].
    { split; [rewrite <-(Nat.add_0_r n)|rewrite <-Nat.add_1_r]; by rewrite <-lookup_drop, Hd. }
    destruct (turn f s d keys (S fuel) log (CTRL 115) He Ht) as (n1 & G1 & W1 & ->); [by rewrite Hn|]. change (CTRL 115 =? CTRL 113) with false. change (CTRL 115 =? CTRL 115) with true. cbn iota.
    destruct (save_run s d f (n1 ++ log) (ed_rep _ _ _ He) (ed_name _ _ _ He) Ho) as (n2 & E2 & W2 & F2).
    rewrite (kbind_ret _ _ _ tt (s, n2 ++ n1 ++ log)) by (unfold kbind, kget; cbn [fst]; by apply sys_run). rewrite (kbind_ret _ _ _ tt (ensure_scroll s, n2 ++ n1 ++ log)) by done.
    destruct (turn f (ensure_scroll s) d keys fuel (n2 ++ n1 ++ log) (CTRL 113) (scrolled _ _ _ He) Ht) as (n3 & G3 & W3 & ->); [by rewrite !lap_getcs_app, G1, (getcs_none n2 F2), Hn|].
    exists (ensure_scroll s), (Uclear :: n3 ++ n2 ++ n1). change (CTRL 113 =? CTRL 113) with true. cbn iota. unfold kbind, sys, ask, do_exit. cbn [fst snd app]. rewrite <-!app_assoc. split; [done|].
    cbn [file_written foldl]. by rewrite !file_written_app, W1, W2, W3, app_nil_r.
  - destruct fuel as [|fuel]; [lia|]. cbn [length app] in *. assert (keys !! n = Some k) as K1 by (rewrite <-(Nat.add_0_r n); by rewrite <-lookup_drop, Hd).
    destruct (turn f s d keys fuel log k He Ht) as (n1 & G1 & W1 & ->); [by rewrite Hn|]. rewrite (proj2 (Z.eqb_neq _ _) Hq), (proj2 (Z.eqb_neq _ _) Hs).
    destruct He as [Hr Hname Hx Hy]. destruct (key_ok k s d Hr) as (s1 & E1 & R1). destruct (key_frame _ _ _ E1) as (N1 & X1 & Y1).
    rewrite (kbind_ret _ _ _ tt (s1, n1 ++ log)) by (unfold edit; cbn [fst snd]; by rewrite E1). rewrite (kbind_ret _ _ _ tt (ensure_scroll s1, n1 ++ log)) by done.
    destruct (IH (S n) fuel (ensure_scroll s1) (doc_key k d) (n1 ++ log)) as (s' & new & E & W); [by rewrite lap_getcs_app, G1, Hn|by rewrite <-Nat.add_1_r, <-drop_drop, Hd|apply scrolled; split; congruence|lia|].
    exists s', (new ++ n1). rewrite E, <-app_assoc. split; [done|]. rewrite file_written_app, W1, W. done.
Qed.

(** ** Opening a file *)

(** The answers to the reads of the file are the chunks, in order. *)
Definition gives_text (fdr : Z) (chunks : list (list Z)) : Prop :=
  Forall (λ c, (0 < length c ≤ 511)%nat) chunks ∧
  ∀ log, os log (Uread fdr 511) = match chunks !! file_reads fdr log with Some c => (Z.of_nat (length c), c) | None => (0, []) end.

Lemma load_loop_run fdr chunks : gives_text fdr chunks → ∀ fuel n log b i j b' i' j', file_reads fdr log = n → (length chunks - n < fuel)%nat → i < MAX_LINES → i' < MAX_LINES →
  load_chars (concat (drop n chunks)) b i j = Some (b', i', j') →
  ∃ new, load_loop os junk fuel fdr b i j log = Ret (b', i', j') (new ++ log) ∧ Forall (λ c, c = Uread fdr 511) new.
Proof.
  intros [Hc Hg]. induction fuel as [|fuel IH]; intros n log b i j b' i' j' Hn Hf Hi Hi' E; [lia|]. cbn [load_loop]. unfold kbind at 1, ask. rewrite Hg, Hn.
  destruct (chunks !! n) as [c|] eqn:Ec; cbn [fst snd].
  - pose proof (Forall_lookup_1 _ _ _ _ Hc Ec) as Lc. cbn beta in Lc. rewrite (drop_S _ _ _ Ec) in E. cbn [concat] in E. destruct (load_split c _ _ _ _ _ _ _ E Hi') as (b1 & i1 & j1 & E1 & E2 & H1).
    replace (0 <? _) with true by (symmetry; apply Z.ltb_lt; lia). assert (take (Z.to_nat (Z.of_nat (length c))) (stored (junk 512) c 511) = c) as ->.
    { unfold stored, splice. rewrite Nat2Z.id, (take_ge c) by lia. change (take (length c) (c ++ drop (0 + length c) (junk 512)) = c). apply take_app_length. }
    unfold kbind at 1, lift, kget_opt. rewrite E1. assert (i1 < MAX_LINES) as L1 by (apply H1; [intros ->; cbn in Lc; lia|done]). replace (MAX_LINES <=? i1) with false by (symmetry; by apply Z.leb_gt).
    pose proof (lookup_lt_Some _ _ _ Ec). destruct (IH (S n) (Uread fdr 511 :: log) b1 i1 j1 b' i' j') as (new & E3 & F3); [cbn; rewrite Z.eqb_refl; lia|lia|done|done|done|].
    exists (new ++ [Uread fdr 511]). rewrite E3, <-app_assoc. split; [done|]. apply Forall_app. split; [done|by apply Forall_singleton].
  - apply lookup_ge_None in Ec. rewrite drop_ge in E by done. cbn in E. simplify_eq. exists [Uread fdr 511]. split; [done|by apply Forall_singleton].
Qed.

Definition open_doc (ls : list (list Z)) : doc := match ls with [] => Doc [] [] [] [] | l :: ls => Doc [] [] l ls end.

(** The text in the editor after loading the lines [ls] *)
Lemma loaded_rep s ls rs R : Forall2 rowrep rs ls → ls ≠ [] → Forall (λ r, length r = 256%nat) R → (length rs + length R = 1000)%nat → cursor_x s = 0 → cursor_y s = 0 →
  rep (with_text (rs ++ R) (Z.of_nat (length ls)) s) (open_doc ls).
Proof.
  intros F Hne FR L Hx Hy. destruct F as [|r l rs ls Hr F]; [done|]. apply Forall2_length in F as LF. exists [], r, rs, R.
  split; cbn [buffer line_count cursor_x cursor_y with_text open_doc above left_of right_of below app length] in *; try done; [rewrite length_app|]; lia.
Qed.

End session.

(** C11. An editing session.  Opening a text file, typing any keys, saving and
    quitting ends the editor with status 0, without leaving its buffers, and what it
    wrote to the file are the lines of the edited document: the lines loaded, changed
    by each key as on an abstract list of lines with a cursor. *)
Theorem lappy_session os junk fuel name f ls chunks fdr fd edits :
  (∀ n, length (junk n) = n) → (0 ∉ f) → (length f < 128)%nat → ls ≠ [] → (length ls < 1000)%nat → Forall text_line ls →
  (∀ log, (os log (Uopen f UABI_O_RDONLY)).1 = fdr) → 0 ≤ fdr → gives_text os fdr chunks → concat chunks = file_of ls →
  (∀ log, (os log (Uopen f (Z.lor UABI_O_WRONLY UABI_O_CREAT))).1 = fd) → 1 < fd →
  types os (edits ++ [CTRL 115; CTRL 113]) → Forall (λ c, c ≠ CTRL 113 ∧ c ≠ CTRL 115) edits → (length chunks + length edits + 2 ≤ fuel)%nat →
  ∃ s' new, lappy_start os junk fuel [name; f ++ [0]] (lappy_init, []) = Hang (s', Uexit 0 :: new) ∧
    file_written fd new = file_of (doc_lines (foldl (λ d c, doc_key c d) (open_doc ls) edits)).
Proof.
  intros Hj Nf Lf Hne Lls Fls Ho Hfdr Hg Hcat Hs Hfd Ht Fe Hfuel. unfold lappy_start. change (1 <? argc _) with true. cbn iota.
  rewrite (kbind_ret _ _ _ (f ++ [0]) (lappy_init, [])) by done. destruct (strcpy_holds (replicate 128 0) f [] Nf) as (fn & Ef & Hfn & _); [rewrite length_replicate; done|].
  rewrite (kbind_ret _ _ _ tt (with_filename fn lappy_init, [])) by (unfold edit; cbn [fst snd filename lappy_init]; by rewrite Ef). rewrite (kbind_ret kget _ _ _ _ eq_refl). cbn [fst filename with_filename].
  destruct (load_lines_chars ls Fls [] (replicate 1000 (replicate 256 0))) as (rs & R & El & F2 & FR & LR); [by apply Forall_replicate|by rewrite length_replicate|done|]. cbn [app length] in El. rewrite length_replicate in LR.
  destruct (load_loop_run os junk fdr chunks Hg fuel 0 [Uopen f UABI_O_RDONLY] (replicate 1000 (replicate 256 0)) 0 0 (rs ++ R) (Z.of_nat (length ls)) 0) as (n1 & E1 & F1); [done|lia|done|unfold MAX_LINES; lia|by rewrite drop_0, Hcat|].
  set (s1 := with_text (rs ++ R) (Z.of_nat (length ls)) (with_filename fn lappy_init)). assert (load_end (rs ++ R) (Z.of_nat (length ls)) 0 = Some (rs ++ R, Z.of_nat (length ls))) as Ee.
  { unfold load_end. change (0 <? 0) with false. cbn [andb]. destruct ls; [done|]. by replace (_ =? 0) with false by (symmetry; apply Z.eqb_neq; cbn; lia). }
  rewrite (kbind_ret _ _ _ tt (s1, Uclose fdr :: n1 ++ [Uopen f UABI_O_RDONLY])).
  2: { unfold load_file. rewrite (kbind_ret _ _ _ _ _ (sys_run _ _ _ _ _ (ask_path_run os _ fn f [] Hfn))), Ho. replace (fdr <? 0) with false by (symmetry; by apply Z.ltb_ge).
    rewrite (kbind_ret kget _ _ _ _ eq_refl). cbn [fst]. rewrite (kbind_ret _ _ _ _ _ (sys_run _ _ _ _ _ E1)).
    rewrite (kbind_ret _ _ _ (rs ++ R, Z.of_nat (length ls)) (with_filename fn lappy_init, n1 ++ [Uopen f UABI_O_RDONLY])) by (apply sys_run; unfold lift, kget_opt; by rewrite Ee). done. }
  assert (getcs (Uclose fdr :: n1 ++ [Uopen f UABI_O_RDONLY]) = 0%nat ∧ file_written fd (Uclose fdr :: n1 ++ [Uopen f UABI_O_RDONLY]) = []) as [G0 W0].
  { cbn [getcs file_written]. rewrite lap_getcs_app, file_written_app. clear - F1. induction F1 as [|c n1 -> F1 [I1 I2]]; done. }
  destruct (session_run os junk Hj fd Hfd f _ edits Ht Hs Fe 0 fuel s1 (open_doc ls) (Uclose fdr :: n1 ++ [Uopen f UABI_O_RDONLY])) as (s' & new & E & W); [done|by rewrite drop_0| |lia|].
  { split; [by apply loaded_rep|done|done|done]. }
  exists s', (new ++ Uclose fdr :: n1 ++ [Uopen f UABI_O_RDONLY]). split; [exact E|]. by rewrite file_written_app, W0, W.
Qed.

(** A file of the line [ab]; typed are [x], a newline, then save and quit *)
Definition demo_keys : list Z := [120; 10; 19; 17].
Definition demo_kernel : answers := λ log c,
  match c with
  | Ugetc => (default 0 (demo_keys !! getcs log), [])
  | Uopen _ flags => (if flags =? 0 then 3 else 4, [])
  | Uread 3 _ => match [[97; 98; 10]] !! file_reads 3 log with Some c => (Z.of_nat (length c), c) | None => (0, []) end
  | _ => (0, [])
  end.
Lemma lappy_session_witness : ∃ s' new, lappy_start demo_kernel (λ n, replicate n 204) 6 [lit "lappy"; str "A" ++ [0]] (lappy_init, []) = Hang (s', Uexit 0 :: new) ∧
  file_written 4 new = [120; 10; 97; 98; 10].
Proof.
  apply (lappy_session demo_kernel (λ n, replicate n 204) 6 (lit "lappy") (str "A") [[97; 98]] [[97; 98; 10]] 3 4 [120; 10]); try done; try (cbn; lia).
  - intros n. apply length_replicate.
  - apply (bool_decide_unpack _). by vm_compute.
  - apply Forall_singleton. split; [split; [apply (bool_decide_unpack _); by vm_compute|cbn; lia]|split; apply (bool_decide_unpack _); by vm_compute].
  - split; [|done]. apply Forall_singleton. cbn. lia.
  - intros log k Hk. unfold demo_kernel. change ([120; 10] ++ [CTRL 115; CTRL 113]) with demo_keys in Hk. cbn [fst]. by rewrite Hk.
  - apply (bool_decide_unpack _). by vm_compute.
Defined.
